(* ===== verification/_CoqProject ===== *)
-Q . S2P
Prelude.v
Strconv.v
Float64.v
Misc.v
K8s.v
Api.v
State.v
Filter.v
Sched.v
SchedGroup.v
Spdk.v
SpdkBdev.v
Plugin.v
Server.v
VolumeReconciler.v
PoolReconciler.v
MigrationReconciler.v
Lvm.v
LvmEngine.v
Engine.v
Access.v
VolumeSync.v
Nvme.v
MigrationNode.v
Snapshot.v
VolumeGroup.v
DataControl.v
SchedPlugin.v
Handlers.v
CsiClient.v
CsiController.v
Mount.v
CsiNode.v
PoolSync.v
PoolBuild.v
AntPlugins.v
SyncMeta.v
AgentManager.v
Runnable.v
Metrics.v
RpcTypes.v
RpcClient.v
RpcBdev.v
Webhook.v
CsiDriver.v
Extender.v
StateApi.v
HostNqn.v
