(* ===== verification/Prelude.v ===== *)
(** * LiteIO: a verification library of the control plane

    LiteIO is a block storage service for Kubernetes. Its manager (the
    disk-controller) keeps the state of every storage pool in memory, schedules
    volumes to pools and drives the custom resources through reconcilers; an
    agent on every node creates the volumes with LVM or SPDK and exposes them as
    NVMe over TCP targets; a CSI driver turns Kubernetes' persistent volumes into
    LiteIO's and mounts them for pods. This library models the Go code of the
    manager, the agent and the driver as executable definitions and proves what
    they do.

    ** Reading the model

    A Go function over shared state is a function from the state to an
    [outcome]: it returns a value and the new state, or panics ([go] monad
    below). A receiver that is only updated is passed and returned. Nil
    pointers are options and reading through one panics; nil maps are options
    too, and writing to one panics. [int64], [int] and [uint64] are integers
    whose operations wrap ([wrap64], [uwrap64]); [float64] is the binary format
    of the standard library's primitive floats. Errors are values of [error].
    Logging is left out, the time is an argument, and mutexes are left out of
    sequential operations: the locks that decide what a program does are
    modelled in [Plugin.v].

    A comment [[file.go:first-last] name] before a definition names the lines it
    translates, relative to [src/pkg].

    What is not in the repository is a class: the API server ([KubeClient],
    [KubeLister], [KubeRemover]), quantities and selectors ([K8sLib]), SPDK's
    process behind its socket ([Socket]; [SpdkRpc] and [BdevRpc] are the calls
    made through it), LVM's and nvme's commands ([LvmIface], [LvmGroups],
    [NvmeExec]), files, commands and mounts of a host ([HostFiles],
    [HostCommands], [MountUtils]), the statistics of its kernel
    ([DiskStatsReader], [UnixStat]), Prometheus' gauges ([Prometheus]), gRPC's
    server ([GrpcHost]), the database ([XormSession], [SqlBuilder]), [sort.Sort]
    ([GoSort]). A second class with
    the laws states the documented behaviour a theorem needs, and an instance in
    memory shows that the laws can hold; the witnesses run on it.

    ** The files

    Shared parts:
    - [Prelude.v] (this file): the [go] monad, integers, errors, Go maps,
      strings, sums, and the tactics of the library.
    - [Strconv.v], [Float64.v]: what the code uses of [strconv] and of
      [float64] arithmetic, with the round trip of printing and parsing.
    - [Misc.v]: [pkg/util/const.go], [pkg/util/misc]: units, string slices, the
      string set, proved to be the algebra of sets.
    - [K8s.v]: the Kubernetes libraries as classes; [NanoLib] is an instance.
    - [Api.v]: the custom resources of [pkg/api], their keys and methods.
    - [Server.v]: servers to state properties with: [Recording] writes down what
      a handler asks any server for; [StoreLaws] describes a server that stores
      objects, [MemClient] is one.

    The manager, [pkg/controller]:
    - [State.v]: [manager/state]: reservations, [Node], [State]; [StateApi.v]: the
      page that shows a node.
    - [Filter.v]: [scheduler/filter] and [manager/config]: configuration,
      filters and the chain [MatchAll].
    - [Sched.v], [SchedGroup.v]: [scheduler/priority], [scheduler/sched.go] and
      [scheduler/sched_vol_group.go]: single volumes and volume groups.
    - [SchedPlugin.v]: [scheduler/plugin], the plugin of the kube-scheduler;
      [Extender.v]: [scheduler/extender], an older scheduler that no command
      starts, compared with the reconcilers.
    - [Plugin.v]: [plugable_reconciler.go], [plugin/plugable.go],
      [plugin/metasync.go], [misc/lock.go], [kubeutil/controller.go]: the frame
      of every reconciler; [Reconcile] is run from the sequence of calls it makes,
      and the workers of a reconciler are that sequence, interleaved.
    - [VolumeReconciler.v], [PoolReconciler.v] (with [plugin/lockpool.go]),
      [MigrationReconciler.v]: these three reconcilers.
    - [Webhook.v]: the admission webhooks of [pkg/api], and what the volume
      reconciler makes of what they let pass.
    - [Handlers.v]: [reconciler/handler], watch events of volumes, claims and
      nodes.
    - [AntPlugins.v]: [cmd/controller]: the plugins and the filter that command
      adds, and the patches of [kubeutil] they send.
    - [SyncMeta.v]: [controller/syncmeta]: the copy of the objects in a database.

    Manager and agent together:
    - [Snapshot.v]: [snapshot_reconciler.go] and [agent/sync/sync_snapshot.go].
    - [VolumeGroup.v]: [volume_group_reconciler.go].
    - [DataControl.v]: [data_control_reconciler.go] and
      [agent/sync/sync_datacontrol.go].

    The agent, [pkg/agent], [pkg/spdk], [pkg/util/lvm], and the host:
    - [Spdk.v]: [spdk/svcid.go], [service.go], [service_transport.go],
      [service_tgt.go]: service ids and targets.
    - [SpdkBdev.v]: [spdk/service_aio.go], [service_lvol.go],
      [service_migrate.go]: block devices, logical volumes, migration tasks.
    - [Lvm.v]: [util/lvm]: command lines and the parsing of their output.
    - [LvmEngine.v], [Engine.v]: [agent/pool/engine]: the interface of a pool
      engine, the LVM engine and the lvstore engine, both proved to implement it.
    - [Access.v]: [agent/pool/access.go], exposing a volume.
    - [VolumeSync.v]: [agent/sync/sync_volume.go]; [PoolSync.v]:
      [sync_storagepool.go], [sync_loop.go] and [pool/watcher.go];
      [PoolBuild.v]: [pool/builder.go] with [util/osutil].
    - [AgentManager.v]: [agent/config], [agent/manager] with [pool/detector.go]
      and [pool/service.go]: how the agent is set up, and its heartbeat.
    - [Runnable.v]: [util/runnable], the group its loops run in, as a step
      relation over goroutines, channels and the contexts of its callers.
    - [Metrics.v]: [agent/metric]: the volumes to report, the writers of the
      gauges, which run side by side, and a turn of the collector; with the sums
      of [spdk/service_tgt.go].
    - [RpcTypes.v], [RpcClient.v]: [spdk/jsonrpc/client]: the messages with their
      JSON fields, the client and every call, proved to implement [SpdkRpc];
      [RpcBdev.v]: the calls for block devices over a connection that may break at
      any of them, proved to keep the laws [SpdkBdev.v] relies on.
    - [Nvme.v]: [spdk/jsonrpc/nvme]; [MigrationNode.v]:
      [agent/sync/sync_migration.go] and [host-nvme/sync_migration.go];
      [HostNqn.v]: [spdk/hostnqn] and the kernel module's version.

    The CSI driver, [pkg/csi]:
    - [CsiClient.v]: [csi/client]; [CsiController.v]: [rpcserver/controller.go]
      over an interface of the client, which [CsiClient.v] is proved to
      implement; [Mount.v]: [util/mount] and [util/kata]; [CsiNode.v]:
      [rpcserver/node.go]; [CsiDriver.v]: [csi/driver], the identity server, the
      endpoint of the servers and [csi/metric].

    ** How the parts interact

    A reconciler is a [ReconcileHandler] run by [Reconcile] of [Plugin.v] under
    the object's lock, after its plugins. The volume handler calls the scheduler
    through [Scheduler], whose contract [sched_contract] is discharged by
    [ScheduleVolume_contract] for the configured scheduler of [Sched.v], binds
    the volume in [State.v], and writes it to the API server. The scheduler is
    filters ([filter_contract]) followed by priorities ([priority_contract]),
    both contracts discharged for every registered function. The pool handler
    refreshes the state's copy of a pool, which the agent's [PoolSync.v] reports,
    and decides from the agent's heartbeats whether it is ready
    ([AgentManager.v] composes the two); the lock plugin runs before it. When the manager starts, the event handlers
    rebuild the state from claims and volumes.

    A volume is made by three programs that only see each other through the API
    server: the CSI controller creates the object, the manager gives it a node,
    the agent of that node creates the logical volume and the target and records
    each step as a finalizer. A migration is a protocol of manager, source agent
    and host; [MigrationNode.v] composes their definitions with users' edits into
    one step relation and proves its invariant over every interleaving. A
    snapshot is run the same way by manager and agent. A volume group is
    scheduled as a whole, becomes single volumes, and a data control joins their
    devices on the host. The kube-scheduler's plugin books claims in the state
    and writes a reservation that the volume made for the claim takes up.

    ** What is proved

    - The state: every run of operations keeps nodes, volumes and the index well
      formed and the stored free space exact; reservations never overcommit;
      binding and unbinding; the state rebuilt from events does not depend on
      their order.
    - Filters and scheduling: what the basic filter accepts, declaratively; the
      node chosen is accepted and has the best score, and scheduling fails
      exactly when no node is accepted, unless an annotation names the node; group scheduling ends, uses a node once,
      and respects counts and units; what the plugin's filter lets pass can be
      booked, and unreserving undoes it.
    - Volumes: what the webhook admits is what the requests are about; one
      request refines the abstract step [vol_next]; at most four
      requests place a volume for good; finalizers are only removed after
      unbinding or under the node failure rule.
    - Pools: the status machine of heartbeat and lock plugin; what the agent
      reports is what the engine told; a node that beats keeps its pool.
    - Loops: when every check answers yes, starting a group returns and has
      started what was added; stopping it leaves nothing running, unless the
      caller's context ends first; when errors are not read it hangs.
    - The agent: the finalizers of a volume, a snapshot, a migration and a data
      control tell what there is on the node, up to answers that were lost and
      listings that failed, where the theorem says so.
    - Migration and snapshots: invariants of the interleaved protocols, guarded
      writes, termination of a migration.
    - Groups: every write is justified; deletion is complete.
    - The frame: no object is worked on twice at a time, no lock leaks, panics
      included, in every interleaving of the calls the workers make.
    - Metrics: the gauges of block devices show the listed volumes, in every
      order of the writers, when the kernel's statistics could be read; otherwise
      they stay or go.
    - JSON-RPC: the client does what the process behind the socket does; an
      answer that is lost counts as a success; what the operations on block
      devices promise holds over a connection that loses answers, except that a
      detachment may be reported that did not happen.
    - SPDK and LVM: service ids are unique, targets and devices are created and
      deleted exactly, reports are read back exactly.
    - Reports: the local storage told to Kubernetes covers what is promised on
      the node; the rows of the database say what the objects say, and the rows
      of what is gone are marked.
    - CSI: creating is idempotent and deleting undoes it; staging never formats
      a device with data and mounts once; unstaging undoes staging.

    Theorems that show a flaw of the code say so in their comment.

    ** Bounds and fuel

    The loops of the code are structural recursions on lists, except: the search
    of [NextID], with the size of the range as its fuel (each turn probes one id,
    and the code gives up after as many turns), and the second loop of
    [schedVolGroup] (new_loop), with one more than the number of volumes still
    wanted (every turn that does not stop places one). Printing a
    number has 20 digits, enough for 64 bits; splitting a string makes no more
    parts than it has characters and one.

    ** What is not modelled

    Generated clients and deep copies, the text of JSON and the HTTP servers, the
    set-up of the manager and of the CSI driver, the connection to the database
    and commands are input and output and are parameters where the code depends
    on them. [pkg/webhook] is an example server, [util/mysql/errno.go] a list of
    numbers, and [misc/rpc.go] and [misc/logclean.go] are used by nothing.
    Informers, tickers and sleeping are
    left out: a loop is its body; channels are modelled in [Runnable.v] only. *)

From Stdlib Require Import ZArith Lia.
From stdpp Require Import base gmap strings option list.

(** ** Panics and state: the [go] monad

    A Go function that reads or writes shared state is a function from the
    state to an [outcome]: it returns a value and the new state, or it
    panics (nil dereference, nil map write, index out of range). *)

Inductive outcome (S A : Type) : Type :=
| Ret (a : A) (s : S)
| Panic (why : string) (s : S).
Arguments Ret {S A} a s.
Arguments Panic {S A} why s.

Definition go (S A : Type) : Type := S → outcome S A.

Definition go_ret {S A} (a : A) : go S A := λ s, Ret a s.

Definition go_bind {S A B} (f : A → go S B) (m : go S A) : go S B := λ s,
  match m s with
  | Ret a s' => f a s'
  | Panic why s' => Panic why s'
  end.

#[export] Instance go_mret S : MRet (go S) := λ A, go_ret.
#[export] Instance go_mbind S : MBind (go S) := λ A B, go_bind.

Definition panic {S A} (why : string) : go S A := λ s, Panic why s.
Definition gget {S} : go S S := λ s, Ret s s.
Definition gput {S} (s : S) : go S unit := λ _, Ret tt s.
Definition gmodify {S} (f : S → S) : go S unit := λ s, Ret tt (f s).

(** Running a computation on one half of a paired state. *)
Definition on_fst {S T A} (m : go S A) : go (S * T) A := λ st,
  match m (fst st) with
  | Ret a s' => Ret a (s', snd st)
  | Panic why s' => Panic why (s', snd st)
  end.
Definition on_snd {S T A} (m : go T A) : go (S * T) A := λ st,
  match m (snd st) with
  | Ret a t' => Ret a (fst st, t')
  | Panic why t' => Panic why (fst st, t')
  end.

(** A pure computation that can panic is a [go] computation over any state:
    a nil pointer is [None], and reading through it panics. *)
Definition deref {S A} (what : string) (p : option A) : go S A :=
  match p with
  | Some a => mret a
  | None => panic ("nil pointer dereference: " +:+ what)
  end.

(** [for _, x := range l { ... }] whose body may [return r]: the loop stops at
    the first [Some r]. *)
Fixpoint go_range {S A R} (l : list A) (body : A → go S (option R)) : go S (option R) :=
  match l with
  | [] => mret None
  | x :: l' => r ← body x;
               match r with
               | Some v => mret (Some v)
               | None => go_range l' body
               end
  end.

(** A computation that touches no state, run in any state. *)
Definition no_state {S A} (m : go unit A) : go S A := λ s,
  match m tt with
  | Ret a _ => Ret a s
  | Panic why _ => Panic why s
  end.

(** The value and the state a computation that does not panic ends with. *)
Definition run_val {S A} (o : outcome S A) : option A :=
  match o with Ret a _ => Some a | Panic _ _ => None end.
Definition run_state {S A} (o : outcome S A) : S :=
  match o with Ret _ s => s | Panic _ s => s end.

Lemma run_val_Some {S A} (o : outcome S A) a : run_val o = Some a → ∃ s, o = Ret a s.
Proof. destruct o; [intros [= ->]; eauto|discriminate]. Qed.

Lemma go_bind_ret_l {S A B} (a : A) (f : A → go S B) s : (mret a ≫= f) s = f a s.
Proof. reflexivity. Qed.

Lemma go_bind_Ret {S A B} (m : go S A) (f : A → go S B) a s s' :
  m s = Ret a s' → (m ≫= f) s = f a s'.
Proof. intros H. unfold mbind, go_mbind, go_bind. by rewrite H. Qed.

Lemma go_bind_Panic {S A B} (m : go S A) (f : A → go S B) why s s' :
  m s = Panic why s' → (m ≫= f) s = Panic why s'.
Proof. intros H. unfold mbind, go_mbind, go_bind. by rewrite H. Qed.

Lemma go_bind_inv {S A B} (m : go S A) (f : A → go S B) s b s'' :
  (m ≫= f) s = Ret b s'' → ∃ a s', m s = Ret a s' ∧ f a s' = Ret b s''.
Proof.
  unfold mbind, go_mbind, go_bind. destruct (m s) as [a s'|] eqn:E; [|discriminate].
  eauto.
Qed.

(** Total correctness: [m], run in [s], returns, and [Q] holds then. *)
Definition wp {S A} (m : go S A) (Q : A → S → Prop) (s : S) : Prop :=
  match m s with Ret a s' => Q a s' | Panic _ _ => False end.

Section wp.
Context {S : Type}.
Implicit Types (s : S).

Lemma wp_run {A} (m : go S A) Q s : wp m Q s ↔ ∃ a s', m s = Ret a s' ∧ Q a s'.
Proof.
  unfold wp. destruct (m s) as [a s'|why s']; split; [eauto| |done|]; intros (? & ? & E & ?).
  - by injection E as -> ->.
  - discriminate.
Qed.
Lemma wp_ret {A} (a : A) Q s : Q a s → wp (mret a) Q s.
Proof. done. Qed.
Lemma wp_bind {A B} (m : go S A) (f : A → go S B) Q s :
  wp m (λ a, wp (f a) Q) s → wp (m ≫= f) Q s.
Proof. unfold wp, mbind, go_mbind, go_bind. by destruct (m s). Qed.
Lemma wp_mono {A} (m : go S A) (P Q : A → S → Prop) s :
  wp m P s → (∀ a s', P a s' → Q a s') → wp m Q s.
Proof. unfold wp. destruct (m s); auto. Qed.
Lemma wp_deref {A} what (x : A) Q s : Q x s → wp (deref what (Some x)) Q s.
Proof. done. Qed.
Lemma wp_on_fst {T A} (m : go S A) Q s (t : T) : wp m (λ a s', Q a (s', t)) s → wp (on_fst m) Q (s, t).
Proof. unfold wp, on_fst. cbn. by destruct (m s). Qed.
Lemma wp_on_snd {T A} (m : go T A) Q s (t : T) : wp m (λ a t', Q a (s, t')) t → wp (on_snd m) Q (s, t).
Proof. unfold wp, on_snd. cbn. by destruct (m t). Qed.
End wp.

(** Safety: when [m], run in [s], returns, [Q] holds, and when it panics, [P]. *)
Definition wpp {S A} (P : S → Prop) (m : go S A) (Q : A → S → Prop) (s : S) : Prop :=
  match m s with Ret a s' => Q a s' | Panic _ s' => P s' end.

Section wpp.
Context {S : Type}.
Implicit Types (s : S) (P : S → Prop).

Lemma wpp_ret {A} P (a : A) Q s : Q a s → wpp P (mret a) Q s.
Proof. done. Qed.
Lemma wpp_bind {A B} P (m : go S A) (f : A → go S B) Q s :
  wpp P m (λ a, wpp P (f a) Q) s → wpp P (m ≫= f) Q s.
Proof. unfold wpp, mbind, go_mbind, go_bind. by destruct (m s). Qed.
Lemma wpp_mono {A} P (m : go S A) (Q Q' : A → S → Prop) s :
  wpp P m Q s → (∀ a s', Q a s' → Q' a s') → wpp P m Q' s.
Proof. unfold wpp. destruct (m s); auto. Qed.
Lemma wpp_deref {A} P what (x : option A) Q s :
  P s → (∀ a, x = Some a → Q a s) → wpp P (deref what x) Q s.
Proof. intros Hp Hq. destruct x; [by apply Hq|done]. Qed.
Lemma wpp_on_fst {T A} (P' : S * T → Prop) P (m : go S A) Q s (t : T) :
  wpp P m (λ a s', Q a (s', t)) s → (∀ s', P s' → P' (s', t)) → wpp P' (on_fst m) Q (s, t).
Proof. unfold wpp, on_fst. cbn. destruct (m s); auto. Qed.
Lemma wpp_on_snd {T A} (P' : S * T → Prop) (P : T → Prop) (m : go T A) Q s (t : T) :
  wpp P m (λ a t', Q a (s, t')) t → (∀ t', P t' → P' (s, t')) → wpp P' (on_snd m) Q (s, t).
Proof. unfold wpp, on_snd. cbn. destruct (m t); auto. Qed.
(** What is known of any computation. *)
Lemma wpp_any {A} P (m : go S A) Q s :
  (∀ a s', m s = Ret a s' → Q a s') → (∀ s', P s') → wpp P m Q s.
Proof. unfold wpp. destruct (m s); auto. Qed.
Lemma wpp_returns {A} P (m : go S A) Q s :
  (∃ a s', m s = Ret a s' ∧ Q a s') → wpp P m Q s.
Proof. unfold wpp. by intros (a & s' & -> & ?). Qed.
Lemma wpp_state {A} P (m : go S A) s : wpp P m (λ _, P) s → P (run_state (m s)).
Proof. unfold wpp. by destruct (m s). Qed.
End wpp.

(** ** Machine integers

    Go's [int64] and [int] (64 bit here) are the integers of
    [-2^63, 2^63), [uint64] those of [0, 2^64); every operation wraps. *)

Create HintDb liteio.

Definition uwrap64 (z : Z) : Z := (z mod 18446744073709551616)%Z.
Definition wrap64 (z : Z) : Z :=
  ((z + 9223372036854775808) mod 18446744073709551616 - 9223372036854775808)%Z.

Definition is_int64 (z : Z) : Prop :=
  (-9223372036854775808 ≤ z < 9223372036854775808)%Z.
Definition is_uint64 (z : Z) : Prop := (0 ≤ z < 18446744073709551616)%Z.

#[export] Instance is_int64_dec z : Decision (is_int64 z).
Proof. unfold is_int64. apply _. Defined.
#[export] Instance is_uint64_dec z : Decision (is_uint64 z).
Proof. unfold is_uint64. apply _. Defined.

Lemma wrap64_id z : is_int64 z → wrap64 z = z.
Proof. unfold is_int64, wrap64. intros H. rewrite Z.mod_small; lia. Qed.

Lemma uwrap64_id z : is_uint64 z → uwrap64 z = z.
Proof. unfold is_uint64, uwrap64. intros H. by rewrite Z.mod_small. Qed.

Lemma wrap64_range z : is_int64 (wrap64 z).
Proof.
  unfold is_int64, wrap64.
  pose proof (Z.mod_pos_bound (z + 9223372036854775808) 18446744073709551616). lia.
Qed.

Lemma uwrap64_range z : is_uint64 (uwrap64 z).
Proof. unfold is_uint64, uwrap64. apply Z.mod_pos_bound. lia. Qed.

#[export] Hint Resolve wrap64_range uwrap64_range : liteio.

Lemma wrap64_spec z : ∃ k, wrap64 z = (z + k * 18446744073709551616)%Z.
Proof.
  exists (- ((z + 9223372036854775808) / 18446744073709551616))%Z. unfold wrap64.
  pose proof (Z.div_mod (z + 9223372036854775808) 18446744073709551616). lia.
Qed.

Lemma wrap64_unique z w k :
  is_int64 w → w = (z + k * 18446744073709551616)%Z → wrap64 z = w.
Proof.
  intros Hw ->. destruct (wrap64_spec z) as [k' Hk']. pose proof (wrap64_range z) as Hr.
  unfold is_int64 in *. assert (k' = k) by lia. subst. lia.
Qed.

Lemma wrap64_add_l a b : wrap64 (wrap64 a + b) = wrap64 (a + b).
Proof.
  destruct (wrap64_spec a) as [k Hk]. destruct (wrap64_spec (a + b)) as [k' Hk'].
  apply (wrap64_unique _ _ (k' - k)); [auto with liteio|lia].
Qed.

Lemma wrap64_add_r a b : wrap64 (a + wrap64 b) = wrap64 (a + b).
Proof. rewrite Z.add_comm, wrap64_add_l. f_equal. lia. Qed.

(** A [uint64] converted to [int64] and back. *)
Lemma uwrap64_wrap64 z : is_uint64 z → uwrap64 (wrap64 z) = z.
Proof.
  unfold is_uint64, uwrap64, wrap64. intros H.
  rewrite Zminus_mod_idemp_l.
  replace (z + 9223372036854775808 - 9223372036854775808)%Z with z by lia.
  by apply Z.mod_small.
Qed.

(** ** Errors

    Go errors carry a message; [fmt.Errorf] with [%w] keeps the wrapped one.
    Errors of the API server carry a reason, errors of the SPDK JSON-RPC a
    code, errors of the gRPC servers a status code. *)

Inductive StatusReason := ReasonNotFound | ReasonAlreadyExists | ReasonConflict | ReasonOther.
#[export] Instance StatusReason_eq : EqDecision StatusReason.
Proof. solve_decision. Defined.

Inductive error : Type :=
| ErrNew (msg : string)
| ErrWrap (msg : string) (wrapped : error)
| ErrAPI (reason : StatusReason) (msg : string)
| ErrRPC (code : Z) (msg : string)
| ErrGrpc (code : Z) (msg : string).
#[export] Instance error_eq : EqDecision error.
Proof. solve_decision. Defined.

(** [err.Error()]. *)
Definition error_msg (e : error) : string :=
  match e with
  | ErrNew m | ErrWrap m _ | ErrAPI _ m | ErrRPC _ m | ErrGrpc _ m => m
  end.

(** [errors.Is(err, target)]. *)
Fixpoint errors_Is (e target : error) : bool :=
  bool_decide (e = target) ||
  match e with
  | ErrWrap _ e' => errors_Is e' target
  | _ => false
  end.

(** [errors.IsNotFound] and [errors.IsAlreadyExists] of the API machinery,
    [client.IgnoreNotFound]. *)
Definition IsNotFound (e : error) : bool :=
  match e with ErrAPI ReasonNotFound _ => true | _ => false end.
Definition IsAlreadyExists (e : error) : bool :=
  match e with ErrAPI ReasonAlreadyExists _ => true | _ => false end.
Definition IgnoreNotFound (e : option error) : option error :=
  match e with
  | Some e' => if IsNotFound e' then None else Some e'
  | None => None
  end.

(** The result of a call whose value is used only when the error is nil. *)
Abbreviation result A := (A + error)%type.

(** ** Go maps

    A map variable is nil or refers to a map; reading a nil map finds
    nothing, writing to it panics. *)

Abbreviation gomap V := (option (gmap string V)).

Definition map_get {V} (m : gomap V) (k : string) : option V :=
  match m with Some m' => m' !! k | None => None end.
(** [m[k]] for a map of strings: the zero value when the key is missing. *)
Definition map_str (m : gomap string) (k : string) : string := default "" (map_get m k).
Definition map_has {V} (m : gomap V) (k : string) : bool := bool_decide (is_Some (map_get m k)).
Definition map_len {V} (m : gomap V) : nat := match m with Some m' => size m' | None => 0 end.
Definition map_is_nil {V} (m : gomap V) : bool := match m with None => true | _ => false end.
Definition map_put {S V} (m : gomap V) (k : string) (v : V) : go S (gomap V) :=
  match m with
  | Some m' => mret (Some (<[k := v]> m'))
  | None => panic "assignment to entry in nil map"
  end.
Definition map_del {V} (m : gomap V) (k : string) : gomap V := delete k <$> m.
Definition map_make {V} : gomap V := Some ∅.

(** ** Strings *)

Definition HasPrefix (s prefix : string) : bool := String.prefix prefix s.
(** [strings.Contains]. *)
Fixpoint str_contains (s sub : string) : bool :=
  String.prefix sub s ||
  match s with
  | EmptyString => false
  | String _ s' => str_contains s' sub
  end.
Definition TrimPrefix (s prefix : string) : string :=
  if HasPrefix s prefix
  then String.substring (String.length prefix) (String.length s - String.length prefix) s
  else s.

Lemma str_contains_app_l pre sub s : str_contains s sub = true → str_contains (pre +:+ s) sub = true.
Proof.
  induction pre as [|a pre IH]; simpl; [done|]. intros H.
  apply orb_true_intro. right. auto.
Qed.

Lemma str_contains_prefix s sub : HasPrefix s sub = true → str_contains s sub = true.
Proof. unfold HasPrefix. destruct s; simpl; intros ->; done. Qed.

Lemma prefix_app (p s : string) : String.prefix p (p +:+ s) = true.
Proof. induction p as [|a p IH]; simpl; [by destruct s|]. by destruct (Ascii.ascii_dec a a). Qed.

Lemma HasPrefix_app s t p : HasPrefix s p = true → HasPrefix (s +:+ t) p = true.
Proof.
  unfold HasPrefix. revert s. induction p as [|a p IH]; intros s; [by destruct (s +:+ t)|].
  destruct s as [|b s]; [done|].
  change (String b s +:+ t) with (String b (s +:+ t)). cbn.
  destruct (Ascii.ascii_dec a b); [apply IH|done].
Qed.

(** ** Lists *)

Definition sumZ (l : list Z) : Z := foldr Z.add 0%Z l.

Lemma sumZ_app l1 l2 : sumZ (l1 ++ l2) = (sumZ l1 + sumZ l2)%Z.
Proof. induction l1 as [|x l IH]; simpl; lia. Qed.

Lemma sumZ_perm l1 l2 : l1 ≡ₚ l2 → sumZ l1 = sumZ l2.
Proof. induction 1; simpl; lia. Qed.

Lemma sumZ_fmap_cons {A} (f : A → Z) x l : sumZ (f <$> x :: l) = (f x + sumZ (f <$> l))%Z.
Proof. reflexivity. Qed.

Lemma sumZ_fmap_nonneg {A} (f : A → Z) l : Forall (λ x, 0 ≤ f x)%Z l → (0 ≤ sumZ (f <$> l))%Z.
Proof.
  induction 1 as [|x l Hx Hl IH]; [reflexivity|]. rewrite sumZ_fmap_cons. lia.
Qed.

(** A running sum that wraps is the wrapped sum. *)
Lemma foldl_wrap64 {A} (f : A → Z) l m :
  is_int64 m → foldl (λ a x, wrap64 (a + f x)) m l = wrap64 (m + sumZ (f <$> l)).
Proof.
  revert m. induction l as [|x l IH]; intros m Hm; cbn [foldl].
  - simpl. rewrite Z.add_0_r. symmetry. by apply wrap64_id.
  - rewrite IH by auto with liteio. rewrite wrap64_add_l, sumZ_fmap_cons. f_equal. lia.
Qed.

Lemma foldl_uwrap64 {A} (f : A → Z) l m :
  is_uint64 m → foldl (λ a x, uwrap64 (a + f x)) m l = uwrap64 (m + sumZ (f <$> l)).
Proof.
  revert m. induction l as [|x l IH]; intros m Hm; cbn [foldl].
  - simpl. rewrite Z.add_0_r. symmetry. by apply uwrap64_id.
  - rewrite IH by auto with liteio. unfold uwrap64. rewrite Zplus_mod_idemp_l, sumZ_fmap_cons.
    f_equal. lia.
Qed.

(** A wrapping sum of wrapped terms is the wrapping sum of the terms. *)
Lemma wrap64_sum_wrap64 {A} (f : A → Z) l m :
  wrap64 (m + sumZ ((λ x, wrap64 (f x)) <$> l)) = wrap64 (m + sumZ (f <$> l)).
Proof.
  revert m. induction l as [|x l IH]; intros m; [done|]. rewrite !sumZ_fmap_cons.
  replace (m + (wrap64 (f x) + sumZ ((λ y, wrap64 (f y)) <$> l)))%Z
    with ((m + wrap64 (f x)) + sumZ ((λ y, wrap64 (f y)) <$> l))%Z by lia.
  rewrite IH, <- wrap64_add_l, wrap64_add_r, wrap64_add_l. f_equal. lia.
Qed.

Lemma sublist_map {A B} (f : A → B) l k : l `sublist_of` k → (f <$> l) `sublist_of` (f <$> k).
Proof. induction 1; csimpl; by constructor. Qed.

(** Evaluating whether an option holds a value, without evaluating the value. *)
Definition opt_is_some {A} (o : option A) : bool := match o with Some _ => true | None => false end.
Lemma opt_is_none_eq {A} (o : option A) : opt_is_some o = false → o = None.
Proof. by destruct o. Qed.
Lemma opt_is_some_eq {A} (o : option A) (d : A) : opt_is_some o = true → o = Some (default d o).
Proof. by destruct o. Qed.

(** ** Automation *)



(** Splits every [match] of a hypothesis or of the goal, keeping equations. *)
Ltac split_matches :=
  repeat (case_match; simplify_eq/=; try done).

(** Computes through the binds of a [go] computation. *)
Ltac go_simpl :=
  unfold mbind, mret, go_mbind, go_mret, go_bind, go_ret, gget, gput, gmodify in *;
  cbn [fst snd] in *.

(** Destructs a [go] computation that returned in a hypothesis. *)
Ltac go_inv H :=
  let a := fresh "a" in let s := fresh "s" in
  let H1 := fresh "Hrun" in
  apply go_bind_inv in H as (a & s & H1 & H).
