(* ===== verification/Strconv.v ===== *)
(** * Decimal conversions of Go's standard library

    [strconv.Itoa], [strconv.FormatUint], [strconv.ParseUint],
    [strconv.ParseInt] and [strconv.Atoi] in base 10 on 64-bit integers, as
    the sources call them: annotation sizes, LVM reports and SPDK service ids.
    As in Go, a syntax error gives the value 0 and a range error gives the
    nearest representable integer, both beside a non-nil error. *)

From Stdlib Require Import ZArith Lia Ascii String.
From stdpp Require Import base strings list option.
From S2P Require Import Prelude.

Local Open Scope Z_scope.

Definition ErrSyntax : error := ErrNew "invalid syntax".
Definition ErrRange : error := ErrNew "value out of range".

(** The value of a decimal digit. *)
Definition digit_val (c : Ascii.ascii) : option Z :=
  let n := Z.of_nat (Ascii.nat_of_ascii c) in
  if decide (48 ≤ n ≤ 57) then Some (n - 48) else None.

Definition digit_char (d : Z) : Ascii.ascii := Ascii.ascii_of_nat (Z.to_nat (48 + d)).

(** The digit loop of [ParseUint]: it stops at the first bad digit or at the
    first digit that overflows a [uint64]. *)
Fixpoint parse_uint_loop (s : string) (n : Z) : result Z :=
  match s with
  | EmptyString => inl n
  | String c s' =>
      match digit_val c with
      | None => inr ErrSyntax
      | Some d =>
          let n1 := n * 10 + d in
          if decide (18446744073709551616 ≤ n1) then inr ErrRange
          else parse_uint_loop s' n1
      end
  end.

Definition ParseUint (s : string) : Z * option error :=
  match s with
  | EmptyString => (0, Some ErrSyntax)
  | _ =>
      match parse_uint_loop s 0 with
      | inl n => (n, None)
      | inr e =>
          (if decide (e = ErrRange) then 18446744073709551615 else 0, Some e)
      end
  end.

Definition split_sign (s : string) : bool * string :=
  match s with
  | String "-"%char s' => (true, s')
  | String "+"%char s' => (false, s')
  | _ => (false, s)
  end.

Definition ParseInt (s : string) : Z * option error :=
  match s with
  | EmptyString => (0, Some ErrSyntax)
  | _ =>
      let '(neg, body) := split_sign s in
      match ParseUint body with
      | (un, Some e) =>
          if decide (e = ErrRange)
          then (if neg then -9223372036854775808 else 9223372036854775807, Some ErrRange)
          else (0, Some e)
      | (un, None) =>
          if negb neg && bool_decide (9223372036854775808 ≤ un)
          then (9223372036854775807, Some ErrRange)
          else if neg && bool_decide (9223372036854775808 < un)
          then (-9223372036854775808, Some ErrRange)
          else (if neg then - un else un, None)
      end
  end.

(** On a 64-bit platform [Atoi] is [ParseInt] in base 10. *)
Definition Atoi (s : string) : Z * option error := ParseInt s.

Fixpoint format_loop (fuel : nat) (n : Z) (acc : string) : string :=
  match fuel with
  | O => acc
  | S f =>
      let acc' := String (digit_char (n mod 10)) acc in
      if decide (n < 10) then acc' else format_loop f (n / 10) acc'
  end.

(** 20 digits are enough for a [uint64]. *)
Definition FormatUint (n : Z) : string := format_loop 20 n "".
Definition Itoa (n : Z) : string :=
  if decide (n < 0) then "-" +:+ FormatUint (- n) else FormatUint n.

Arguments ParseUint : simpl never.
Arguments FormatUint : simpl never.

Lemma digit_val_char d : 0 ≤ d < 10 → digit_val (digit_char d) = Some d.
Proof.
  intros H. unfold digit_val, digit_char.
  rewrite Ascii.nat_ascii_embedding by lia.
  rewrite Z2Nat.id by lia. case_decide; [f_equal; lia|lia].
Qed.

Lemma format_loop_parse f n acc :
  0 ≤ n < 10 ^ Z.of_nat f → n < 18446744073709551616 →
  parse_uint_loop (format_loop f n acc) 0 = parse_uint_loop acc n.
Proof.
  revert n acc. induction f as [|f IH]; intros n acc Hn Hmax.
  { simpl in *. assert (n = 0) by lia. by subst. }
  rewrite Nat2Z.inj_succ, Z.pow_succ_r in Hn by lia. simpl.
  pose proof (Z.mod_pos_bound n 10 ltac:(lia)) as Hm.
  pose proof (Z.div_mod n 10 ltac:(lia)) as Hd.
  case_decide as Hlt.
  - simpl. rewrite digit_val_char by lia. rewrite Z.mod_small by lia.
    case_decide; [lia|]. f_equal; lia.
  - rewrite IH; [|split; [apply Z.div_pos; lia|apply Z.div_lt_upper_bound; lia]|
                 apply Z.div_lt_upper_bound; lia].
    simpl. rewrite digit_val_char by lia.
    replace (n / 10 * 10 + n mod 10) with n by lia.
    case_decide; [lia|done].
Qed.

Lemma FormatUint_parse n : is_uint64 n → parse_uint_loop (FormatUint n) 0 = inl n.
Proof.
  unfold is_uint64. intros H. unfold FormatUint. rewrite format_loop_parse; [done| |lia].
  change (10 ^ Z.of_nat 20) with 100000000000000000000. lia.
Qed.

Lemma format_loop_nonempty f n acc : acc ≠ "" → format_loop f n acc ≠ "".
Proof.
  revert n acc. induction f as [|f IH]; intros n acc H; simpl; [done|].
  case_decide; [done|]. by apply IH.
Qed.

Lemma FormatUint_nonempty n : FormatUint n ≠ "".
Proof.
  unfold FormatUint. simpl. case_decide; [done|]. by apply (format_loop_nonempty 19).
Qed.

Lemma ParseUint_FormatUint n : is_uint64 n → ParseUint (FormatUint n) = (n, None).
Proof.
  intros H. unfold ParseUint. pose proof (FormatUint_nonempty n).
  destruct (FormatUint n) eqn:E; [done|]. by rewrite <- E, FormatUint_parse.
Qed.

(** A printed unsigned number has no sign character. *)
Lemma split_sign_FormatUint n : is_uint64 n → split_sign (FormatUint n) = (false, FormatUint n).
Proof.
  intros H. pose proof (FormatUint_parse n H) as Hp.
  destruct (FormatUint n) as [|c s]; [done|].
  unfold split_sign. repeat (case_match; try done); subst; discriminate Hp.
Qed.

Lemma ParseInt_Itoa n : is_int64 n → ParseInt (Itoa n) = (n, None).
Proof.
  unfold is_int64. intros H. unfold Itoa. case_decide as Hneg.
  - assert (is_uint64 (- n)) by (unfold is_uint64; lia).
    unfold ParseInt. simpl. change ("" +:+ ?s) with s.
    rewrite ParseUint_FormatUint by done. simpl.
    rewrite bool_decide_eq_false_2 by lia. f_equal. lia.
  - assert (is_uint64 n) by (unfold is_uint64; lia).
    pose proof (FormatUint_nonempty n). unfold ParseInt.
    destruct (FormatUint n) eqn:E; [done|]. rewrite <- E.
    rewrite split_sign_FormatUint, ParseUint_FormatUint by done. simpl.
    by rewrite bool_decide_eq_false_2 by lia.
Qed.

Lemma Itoa_inj a b : is_int64 a → is_int64 b → Itoa a = Itoa b → a = b.
Proof.
  intros Ha Hb E. apply ParseInt_Itoa in Ha. apply ParseInt_Itoa in Hb.
  rewrite E, Hb in Ha. by injection Ha.
Qed.

(** Whatever the input, [ParseUint] and [ParseInt] stay in their range. *)
Lemma parse_uint_loop_range s n m :
  is_uint64 n → parse_uint_loop s n = inl m → is_uint64 m.
Proof.
  revert n. induction s as [|c s IH]; simpl; intros n Hn; [by intros [= <-]|].
  destruct (digit_val c) as [d|] eqn:Ed; [|done]. case_decide; [done|].
  apply IH. unfold digit_val in Ed. case_decide; [|done]. injection Ed as <-.
  unfold is_uint64 in *. lia.
Qed.

Lemma ParseUint_range s : is_uint64 (fst (ParseUint s)).
Proof.
  assert (is_uint64 0) by (unfold is_uint64; lia).
  unfold ParseUint. destruct s; [done|].
  destruct (parse_uint_loop _ 0) eqn:E; simpl; [by eapply parse_uint_loop_range|].
  case_decide; [unfold is_uint64; lia|done].
Qed.

Lemma ParseInt_range s : is_int64 (fst (ParseInt s)).
Proof.
  unfold ParseInt. destruct s as [|c s]; [simpl; unfold is_int64; lia|].
  destruct (split_sign _) as [neg body]. pose proof (ParseUint_range body) as Hr.
  destruct (ParseUint body) as [un [e|]]; simpl in *; unfold is_int64, is_uint64 in *.
  - case_decide; destruct neg; simpl; lia.
  - repeat case_bool_decide; destruct neg; simpl in *; lia.
Qed.

#[export] Hint Resolve ParseUint_range ParseInt_range : liteio.
