(* ===== verification/Float64.v ===== *)
(** * IEEE 754 binary64 arithmetic, as Go's [float64]

    Every operation is the correctly rounded one (nearest, ties to even) of the
    Standard Library's specification floats with 53 bits of precision, so the
    percentages of the scheduler evaluate bit for bit. Conversions to integers
    truncate toward zero; a value outside [int64] (or a NaN) converts to
    [-2^63], the amd64 result of the conversion Go leaves to the platform. *)

From Stdlib Require Import ZArith Lia SpecFloat.
From stdpp Require Import base numbers.
From S2P Require Import Prelude.

Local Open Scope Z_scope.

Abbreviation float64 := spec_float.

Definition f64_of_Z (z : Z) : float64 := binary_normalize 53 1024 z 0 false.
Definition f64_sub (x y : float64) : float64 := SFsub 53 1024 x y.
Definition f64_mul (x y : float64) : float64 := SFmul 53 1024 x y.
Definition f64_div (x y : float64) : float64 := SFdiv 53 1024 x y.
Definition f64_ltb (x y : float64) : bool := SFltb x y.
Definition f64_leb (x y : float64) : bool := SFleb x y.

(** Truncation toward zero of a finite value. *)
Definition f64_trunc (x : float64) : option Z :=
  match x with
  | S754_zero _ => Some 0
  | S754_finite s m e =>
      let a := if decide (0 ≤ e) then Zpos m * Z.pow 2 e else Zpos m / Z.pow 2 (- e) in
      Some (if s then - a else a)
  | _ => None
  end.

(** [math.Round]: the nearest integer, halves away from zero. *)
Definition f64_round (x : float64) : option Z :=
  match x with
  | S754_zero _ => Some 0
  | S754_finite s m e =>
      let a := if decide (0 ≤ e) then Zpos m * Z.pow 2 e
               else (Zpos m + Z.pow 2 (- e - 1)) / Z.pow 2 (- e) in
      Some (if s then - a else a)
  | _ => None
  end.

Definition clamp_int64 (z : option Z) : Z :=
  match z with
  | Some v => if decide (is_int64 v) then v else -9223372036854775808
  | None => -9223372036854775808
  end.

(** [int64(f)], [int64(math.Round(f))] and [uint64(math.Round(f))] for a
    non-negative [f] below [2^63]. *)
Definition f64_to_int64 (x : float64) : Z := clamp_int64 (f64_trunc x).
Definition f64_round_int64 (x : float64) : Z := clamp_int64 (f64_round x).
Definition f64_round_uint64 (x : float64) : Z := uwrap64 (clamp_int64 (f64_round x)).

Lemma clamp_int64_range z : is_int64 (clamp_int64 z).
Proof.
  unfold clamp_int64. destruct z as [v|]; [case_decide; [done|]|]; unfold is_int64; lia.
Qed.

Lemma f64_to_int64_range x : is_int64 (f64_to_int64 x).
Proof. apply clamp_int64_range. Qed.

Lemma f64_round_int64_range x : is_int64 (f64_round_int64 x).
Proof. apply clamp_int64_range. Qed.

#[export] Hint Resolve clamp_int64_range f64_to_int64_range f64_round_int64_range : liteio.

Example f64_third : f64_to_int64 (f64_mul (f64_div (f64_of_Z 1) (f64_of_Z 3)) (f64_of_Z 100)) = 33.
Proof. vm_compute. reflexivity. Qed.
