(* ===== verification/Misc.v ===== *)
(** * Helpers shared by every component

    [pkg/util/const.go], [pkg/util/misc/slice.go], [pkg/util/misc/strutil.go],
    [pkg/util/misc/set.go] and [pkg/util/misc/map.go]: size units, membership in
    string slices, and the string set with its algebra. *)

From Stdlib Require Import ZArith Lia.
From stdpp Require Import base gmap strings option list.
From S2P Require Import Prelude.

(** ** Sizes *)

(* [util/const.go:8-8] KiB *)
Definition KiB : Z := 1024.
(* [util/const.go:9-9] MiB *)
Definition MiB : Z := (KiB * 1024)%Z.
(* [util/const.go:10-10] GiB *)
Definition GiB : Z := (MiB * 1024)%Z.
(* [util/const.go:11-11] TiB *)
Definition TiB : Z := (GiB * 1024)%Z.
(* [util/const.go:26-26] FourMiB *)
Definition FourMiB : Z := Z.shiftl 1 22.
(* [util/const.go:15-15] FileSystemExt4 *)
Definition FileSystemExt4 : string := "ext4".
(* [util/const.go:16-16] FileSystemXfs *)
Definition FileSystemXfs : string := "xfs".
(* [util/const.go:17-17] DefaultFileSystem *)
Definition DefaultFileSystem : string := FileSystemExt4.

(** ** String slices *)

(* [misc/slice.go:5-16] InSliceString *)
Fixpoint InSliceString (needle : string) (stack : list string) : bool :=
  match stack with
  | [] => false
  | item :: rest => if decide (needle = item) then true else InSliceString needle rest
  end.

(* [misc/slice.go:18-29] InSliceInt *)
Fixpoint InSliceInt (needle : Z) (stack : list Z) : bool :=
  match stack with
  | [] => false
  | item :: rest => if decide (needle = item) then true else InSliceInt needle rest
  end.

(* [misc/slice.go:31-43] HasPrefixInSlice *)
Fixpoint HasPrefixInSlice (needle : string) (prefixes : list string) : bool :=
  match prefixes with
  | [] => false
  | prefix :: rest => if HasPrefix needle prefix then true else HasPrefixInSlice needle rest
  end.

(* [misc/strutil.go:26-33] Contains *)
Fixpoint Contains (s : list string) (k : string) : bool :=
  match s with
  | [] => false
  | e :: rest => if decide (e = k) then true else Contains rest k
  end.

(* [misc/strutil.go:58-66] RemoveString *)
Fixpoint RemoveString (slice : list string) (s : string) : list string :=
  match slice with
  | [] => []
  | item :: rest => if decide (item ≠ s) then item :: RemoveString rest s else RemoveString rest s
  end.

(** The loop decides on the last name compared before it stops. *)
Fixpoint AddUnique_loop (names : list string) (name : string) (shouldAppend : bool) : bool :=
  match names with
  | [] => shouldAppend
  | n :: rest => if decide (n = name) then false else AddUnique_loop rest name true
  end.

(* [misc/strutil.go:76-94] AddUniqueStringtoSlice *)
Definition AddUniqueStringtoSlice (names : list string) (name : string) : list string :=
  match names with
  | [] => [name]
  | _ => if AddUnique_loop names name false then names ++ [name] else names
  end.

(** [misc.CopyLabel]: a fresh non-nil map with the same entries. *)
(* [misc/map.go:3-9] CopyLabel *)
Definition CopyLabel (m : gomap string) : gomap string := Some (default ∅ m).

(** ** The string set

    [MapSet] is a set of strings; [Values] lists it in the map's iteration
    order, here the order of [elements]. *)
Module MapSet.
Abbreviation t := (gset string).

(* [misc/set.go:26-31] MapSet.NewEmptySet *)
Definition NewEmptySet : t := ∅.
(* [misc/set.go:43-49] MapSet.Contains *)
Definition Contains (s : t) (elem : string) : bool := bool_decide (elem ∈ s).
(* [misc/set.go:51-56] MapSet.Add *)
Definition Add (s : t) (elem : string) : t := {[elem]} ∪ s.
(* [misc/set.go:126-137] MapSet.Values *)
Definition Values (s : t) : list string := elements s.
(* [misc/set.go:139-142] MapSet.Size *)
Definition Size (s : t) : Z := Z.of_nat (size s).
(* [misc/set.go:33-41] MapSet.FromSlice *)
Definition FromSlice (slice : list string) : t := foldl Add NewEmptySet slice.
(* [misc/set.go:58-67] MapSet.Union *)
Definition Union (s another : t) : t := foldl Add (FromSlice (Values s)) (Values another).
(* [misc/set.go:69-80] MapSet.Intersect *)
Definition Intersect (s another : t) : t :=
  foldl (λ acc elem, if Contains s elem then Add acc elem else acc) NewEmptySet (Values another).
(* [misc/set.go:82-94] MapSet.Difference *)
Definition Difference (s another : t) : t :=
  foldl (λ acc elem, if negb (Contains another elem) then Add acc elem else acc)
    NewEmptySet (Values s).
(* [misc/set.go:96-103] MapSet.IsSupersetOf *)
Definition IsSupersetOf (s another : t) : bool :=
  foldl (λ found elem, found && Contains s elem) true (Values another).
(* [misc/set.go:105-114] MapSet.Equal *)
Definition Equal (s another : t) : bool :=
  let found := bool_decide (Size s = Size another) in
  if found then foldl (λ found elem, found && Contains s elem) found (Values another) else found.
(* [misc/set.go:116-124] MapSet.Remove *)
Definition Remove (s : t) (elem : string) : bool * t := (Contains s elem, s ∖ {[elem]}).

Lemma elem_of_foldl_add l (s : t) x : x ∈ foldl Add s l ↔ x ∈ l ∨ x ∈ s.
Proof.
  revert s. induction l as [|y l IH]; intros s; simpl; [set_solver|].
  rewrite IH. unfold Add. set_solver.
Qed.

Lemma elem_of_FromSlice l x : x ∈ FromSlice l ↔ x ∈ l.
Proof. unfold FromSlice. rewrite elem_of_foldl_add. set_solver. Qed.

Lemma elem_of_foldl_filter (P : string → bool) l (s : t) x :
  x ∈ foldl (λ acc elem, if P elem then Add acc elem else acc) s l ↔
  (x ∈ l ∧ P x = true) ∨ x ∈ s.
Proof.
  revert s. induction l as [|y l IH]; intros s; simpl.
  { rewrite elem_of_nil. tauto. }
  rewrite IH, elem_of_cons. unfold Add.
  destruct (P y) eqn:E; rewrite ?elem_of_union, ?elem_of_singleton.
  - split; [intros [[]|[]]|intros [[[]]|]]; subst; auto.
  - split; [intros [[]|]|intros [[[]]|]]; subst; auto; congruence.
Qed.

Lemma MapSet_Contains_spec s x : Contains s x = true ↔ x ∈ s.
Proof. unfold Contains. by rewrite bool_decide_eq_true. Qed.

Lemma Union_spec (s1 s2 : t) : Union s1 s2 = s1 ∪ s2.
Proof.
  apply set_eq. intros x. unfold Union, Values.
  rewrite elem_of_foldl_add, elem_of_FromSlice, !elem_of_elements. set_solver.
Qed.

Lemma Intersect_spec (s1 s2 : t) : Intersect s1 s2 = s1 ∩ s2.
Proof.
  apply set_eq. intros x. unfold Intersect, Values.
  rewrite elem_of_foldl_filter, MapSet_Contains_spec, elem_of_elements. set_solver.
Qed.

Lemma Difference_spec (s1 s2 : t) : Difference s1 s2 = s1 ∖ s2.
Proof.
  apply set_eq. intros x. unfold Difference, Values.
  rewrite elem_of_foldl_filter, negb_true_iff, elem_of_elements.
  rewrite <- not_true_iff_false, MapSet_Contains_spec. set_solver.
Qed.

Lemma foldl_and_spec (P : string → bool) l b :
  foldl (λ found elem, found && P elem) b l = true ↔ b = true ∧ ∀ x, x ∈ l → P x = true.
Proof.
  revert b. induction l as [|y l IH]; intros b; simpl.
  { split; [|tauto]. intros ->. split; [done|]. intros x []%elem_of_nil. }
  rewrite IH, andb_true_iff. setoid_rewrite elem_of_cons. naive_solver.
Qed.

Lemma IsSupersetOf_spec (s1 s2 : t) : IsSupersetOf s1 s2 = true ↔ s2 ⊆ s1.
Proof.
  unfold IsSupersetOf, Values. rewrite foldl_and_spec. setoid_rewrite MapSet_Contains_spec.
  setoid_rewrite elem_of_elements. set_solver.
Qed.

Lemma Equal_spec (s1 s2 : t) : Equal s1 s2 = true ↔ s1 = s2.
Proof.
  unfold Equal, Size. case_bool_decide as Hs; simpl.
  - unfold Values. rewrite foldl_and_spec. setoid_rewrite MapSet_Contains_spec.
    setoid_rewrite elem_of_elements. split; [|intros ->; done].
    intros [_ H]. apply set_eq. intros x. split; [|auto]. intros Hx.
    assert (s2 ⊆ s1) as Hsub by (intros y; apply H).
    apply Nat2Z.inj in Hs.
    destruct (decide (x ∈ s2)) as [|Hn]; [done|].
    assert (size s2 < size s1) by (apply subset_size; split; [done|]; intros Hc; by apply Hn, Hc).
    lia.
  - split; [done|]. by intros ->.
Qed.
End MapSet.

Lemma InSliceString_spec x l : InSliceString x l = true ↔ x ∈ l.
Proof.
  induction l as [|y l IH]; simpl; [set_solver|].
  case_decide; [set_solver|]. rewrite IH. set_solver.
Qed.

Lemma InSliceString_false x l : InSliceString x l = false ↔ x ∉ l.
Proof. by rewrite <- not_true_iff_false, InSliceString_spec. Qed.

Lemma Contains_spec l x : Contains l x = true ↔ x ∈ l.
Proof.
  induction l as [|y l IH]; simpl; [set_solver|].
  case_decide; [set_solver|]. rewrite IH. set_solver.
Qed.

Lemma RemoveString_spec l s : RemoveString l s = filter (λ x, x ≠ s) l.
Proof.
  induction l as [|y l IH]; simpl; [done|]. rewrite filter_cons.
  repeat case_decide; try done; by rewrite IH.
Qed.

Lemma AddUnique_loop_spec names name b :
  AddUnique_loop names name b = true ↔ name ∉ names ∧ (names = [] → b = true).
Proof.
  revert b. induction names as [|n names IH]; intros b; simpl; [set_solver|].
  case_decide; [set_solver|]. rewrite IH. set_solver.
Qed.

Lemma AddUniqueStringtoSlice_spec names name :
  NoDup names → NoDup (AddUniqueStringtoSlice names name) ∧
  ∀ x, x ∈ AddUniqueStringtoSlice names name ↔ x = name ∨ x ∈ names.
Proof.
  intros Hnd. unfold AddUniqueStringtoSlice. destruct names as [|n names].
  { split; [repeat constructor; set_solver|set_solver]. }
  destruct (AddUnique_loop _ _ _) eqn:E.
  - apply AddUnique_loop_spec in E as [Hni _]. split; [|set_solver].
    apply NoDup_app. split; [done|]. split; [set_solver|apply NoDup_singleton].
  - split; [done|]. intros x. split; [by right|]. intros [->|]; [|done].
    destruct (decide (name ∈ n :: names)) as [|Hni]; [done|].
    assert (AddUnique_loop (n :: names) name false = true) as Ht
      by (apply AddUnique_loop_spec; done).
    by rewrite Ht in E.
Qed.

Lemma FourMiB_value : FourMiB = 4194304%Z.
Proof. reflexivity. Qed.

(** Rounding down to a multiple of a positive unit. *)
Lemma round_down_bounds (x u : Z) : (0 < u)%Z → (0 ≤ x)%Z →
  (0 ≤ Z.quot x u * u ≤ x)%Z ∧ (x < Z.quot x u * u + u)%Z.
Proof.
  intros Hu Hx. rewrite Z.quot_div_nonneg by lia.
  pose proof (Z.div_mod x u ltac:(lia)). pose proof (Z.mod_pos_bound x u Hu).
  pose proof (Z.div_pos x u Hx Hu). nia.
Qed.

Lemma multiple_quot (k u : Z) : u ≠ 0%Z → Z.quot (k * u) u = k.
Proof. intros. by apply Z.quot_mul. Qed.
