(* ===== verification/K8s.v ===== *)
(** * The Kubernetes libraries the program calls

    Nothing here is LiteIO code. [K8sLib] collects the library types and calls
    whose code is not in the repository (resource quantities, node selector
    matching, label selectors); [K8sLaws] states their documented behaviour;
    [NanoLib] is a concrete instance with which the development is evaluated.
    The object metadata every custom resource embeds and the client of the API
    server, a store of objects as the code sees it, are described here too. *)

From Stdlib Require Import ZArith Lia.
From stdpp Require Import base gmap strings option list.
From S2P Require Import Prelude Float64.

(** ** Node selectors

    The data of [corev1.NodeSelector]; matching it is the library's. *)

Record NodeSelectorRequirement := {
  nsr_Key : string; nsr_Operator : string; nsr_Values : list string }.
Record NodeSelectorTerm := {
  nst_MatchExpressions : list NodeSelectorRequirement;
  nst_MatchFields : list NodeSelectorRequirement }.
Definition NodeSelector := list NodeSelectorTerm.
(** [corev1.NodeAffinity]: the code reads and writes only the required part. *)
Record NodeAffinity := { na_Required : option NodeSelector }.

(** The part of [corev1.Node] that is handed to the matching functions. *)
Record K8sNodeRef := { kn_Name : string; kn_Labels : gomap string }.

(** ** Library calls *)

Class K8sLib := {
  (** [resource.Quantity] *)
  Quantity : Type;
  Quantity_zero : Quantity;
  NewQuantity : Z → Quantity;
  Quantity_AsInt64 : Quantity → Z * bool;
  Quantity_AsApproximateFloat64 : Quantity → float64;
  Quantity_Cmp : Quantity → Quantity → Z;
  Quantity_CmpInt64 : Quantity → Z → Z;
  Quantity_Sub : Quantity → Quantity → Quantity;
  (** [schedcore.MatchNodeSelectorTerms] *)
  MatchNodeSelectorTerms : K8sNodeRef → NodeSelector → result bool;
  (** [labels.Parse] and [Selector.Matches] *)
  Selector : Type;
  labels_Parse : string → result Selector;
  Selector_Matches : Selector → gomap string → bool;
}.

(** The documented behaviour of quantities: fixed-point numbers of at most nine
    decimal places, on which subtraction and comparison are exact.
    [quantity_nano] is a quantity's value in billionths. *)
Class K8sLaws (L : K8sLib) := {
  quantity_nano : Quantity → Z;
  nano_zero : quantity_nano Quantity_zero = 0%Z;
  nano_new z : quantity_nano (NewQuantity z) = (z * 1000000000)%Z;
  nano_sub a b : quantity_nano (Quantity_Sub a b) = (quantity_nano a - quantity_nano b)%Z;
  nano_cmp a b : Quantity_Cmp a b =
    (match Z.compare (quantity_nano a) (quantity_nano b) with Lt => -1 | Eq => 0 | Gt => 1 end)%Z;
  nano_cmp_int64 a z : Quantity_CmpInt64 a z = Quantity_Cmp a (NewQuantity z);
  nano_as_int64 a z : is_int64 z → quantity_nano a = (z * 1000000000)%Z →
    Quantity_AsInt64 a = (z, true);
  nano_as_int64_new z : is_int64 z → Quantity_AsInt64 (NewQuantity z) = (z, true);
  nano_as_int64_range a : is_int64 (Quantity_AsInt64 a).1;
}.

Section laws.
Context {L : K8sLib} {HL : K8sLaws L}.

Lemma CmpInt64_lt a z :
  (Quantity_CmpInt64 a z < 0)%Z ↔ (quantity_nano a < z * 1000000000)%Z.
Proof.
  rewrite nano_cmp_int64, nano_cmp, nano_new.
  destruct (Z.compare_spec (quantity_nano a) (z * 1000000000)); lia.
Qed.

Lemma CmpInt64_gt a z :
  (Quantity_CmpInt64 a z > 0)%Z ↔ (quantity_nano a > z * 1000000000)%Z.
Proof.
  rewrite nano_cmp_int64, nano_cmp, nano_new.
  destruct (Z.compare_spec (quantity_nano a) (z * 1000000000)); lia.
Qed.

Lemma Cmp_lt a b : (Quantity_Cmp a b < 0)%Z ↔ (quantity_nano a < quantity_nano b)%Z.
Proof. rewrite nano_cmp. destruct (Z.compare_spec (quantity_nano a) (quantity_nano b)); lia. Qed.

Lemma Cmp_gt a b : (Quantity_Cmp a b > 0)%Z ↔ (quantity_nano a > quantity_nano b)%Z.
Proof. rewrite nano_cmp. destruct (Z.compare_spec (quantity_nano a) (quantity_nano b)); lia. Qed.
End laws.

(** ** A concrete instance *)

(** Matching of one [In] / [NotIn] / [Exists] requirement, enough to run the
    scheduler on examples. *)
Definition nano_requirement (n : K8sNodeRef) (r : NodeSelectorRequirement) : bool :=
  match map_get (kn_Labels n) (nsr_Key r) with
  | Some v =>
      if decide (nsr_Operator r = "In") then bool_decide (v ∈ nsr_Values r)
      else if decide (nsr_Operator r = "NotIn") then bool_decide (v ∉ nsr_Values r)
      else bool_decide (nsr_Operator r = "Exists")
  | None => bool_decide (nsr_Operator r = "NotIn")
  end.

Definition nano_match (n : K8sNodeRef) (s : NodeSelector) : result bool :=
  inl (existsb (λ t, forallb (nano_requirement n) (nst_MatchExpressions t)) s).

Definition nano_AsInt64 (a : Z) : Z * bool :=
  if decide (Z.rem a 1000000000 = 0%Z ∧ is_int64 (Z.quot a 1000000000))
  then (Z.quot a 1000000000, true) else (0%Z, false).

(** Selectors of the instance: [key], the label is there, or [key!=value], the
    label does not have the value. *)
Fixpoint nano_split (acc s : string) : option (string * string) :=
  match s with
  | EmptyString => None
  | String c s' => if HasPrefix s "!=" then Some (acc, TrimPrefix s "!=")
                   else nano_split (acc +:+ String c EmptyString) s'
  end.
Definition nano_Parse (s : string) : result (string * option string) :=
  if decide (s = "") then inr (ErrNew "invalid selector")
  else inl match nano_split "" s with
           | Some (k, v) => (k, Some v)
           | None => (s, None)
           end.
Definition nano_Matches (sel : string * option string) (labels : gomap string) : bool :=
  match sel.2 with
  | Some v => bool_decide (map_get labels sel.1 ≠ Some v)
  | None => map_has labels sel.1
  end.

#[export] Instance NanoLib : K8sLib := {|
  Quantity := Z;
  Quantity_zero := 0%Z;
  NewQuantity := λ z, (z * 1000000000)%Z;
  Quantity_AsInt64 := nano_AsInt64;
  Quantity_AsApproximateFloat64 := λ a, f64_div (f64_of_Z a) (f64_of_Z 1000000000);
  Quantity_Cmp := λ a b, match Z.compare a b with Lt => -1 | Eq => 0 | Gt => 1 end%Z;
  Quantity_CmpInt64 := λ a z,
    match Z.compare a (z * 1000000000) with Lt => -1 | Eq => 0 | Gt => 1 end%Z;
  Quantity_Sub := Z.sub;
  MatchNodeSelectorTerms := nano_match;
  Selector := string * option string;
  labels_Parse := nano_Parse;
  Selector_Matches := nano_Matches;
|}.

#[export] Instance NanoLaws : K8sLaws NanoLib.
Proof.
  refine {| quantity_nano := λ q : @Quantity NanoLib, (q : Z) |}; try reflexivity.
  - intros a z Hz Ha. simpl in *. unfold nano_AsInt64. subst.
    rewrite Z.rem_mul, Z.quot_mul by done. by rewrite decide_True.
  - intros z Hz. simpl. unfold nano_AsInt64.
    rewrite Z.rem_mul, Z.quot_mul by done. by rewrite decide_True.
  - intros a. simpl. unfold nano_AsInt64. case_decide; simpl; [naive_solver|]. unfold is_int64. lia.
Defined.

(** ** Objects *)

Record OwnerReference := {
  or_APIVersion : string; or_Kind : string; or_Name : string; or_UID : string }.

(** [metav1.ObjectMeta]; timestamps are seconds, absent when nil or zero. *)
Record ObjectMeta := {
  om_Name : string;
  om_Namespace : string;
  om_UID : string;
  om_CreationTimestamp : Z;
  om_DeletionTimestamp : option Z;
  om_Labels : gomap string;
  om_Annotations : gomap string;
  om_OwnerReferences : list OwnerReference;
  om_Finalizers : list string;
}.
Definition ObjectMeta_zero : ObjectMeta :=
  {| om_Name := ""; om_Namespace := ""; om_UID := ""; om_CreationTimestamp := 0;
     om_DeletionTimestamp := None; om_Labels := None; om_Annotations := None;
     om_OwnerReferences := []; om_Finalizers := [] |}.

Definition om_set_Labels (l : gomap string) (m : ObjectMeta) : ObjectMeta :=
  {| om_Name := om_Name m; om_Namespace := om_Namespace m; om_UID := om_UID m;
     om_CreationTimestamp := om_CreationTimestamp m;
     om_DeletionTimestamp := om_DeletionTimestamp m; om_Labels := l;
     om_Annotations := om_Annotations m; om_OwnerReferences := om_OwnerReferences m;
     om_Finalizers := om_Finalizers m |}.
Definition om_set_Annotations (a : gomap string) (m : ObjectMeta) : ObjectMeta :=
  {| om_Name := om_Name m; om_Namespace := om_Namespace m; om_UID := om_UID m;
     om_CreationTimestamp := om_CreationTimestamp m;
     om_DeletionTimestamp := om_DeletionTimestamp m; om_Labels := om_Labels m;
     om_Annotations := a; om_OwnerReferences := om_OwnerReferences m;
     om_Finalizers := om_Finalizers m |}.
Definition om_set_Finalizers (f : list string) (m : ObjectMeta) : ObjectMeta :=
  {| om_Name := om_Name m; om_Namespace := om_Namespace m; om_UID := om_UID m;
     om_CreationTimestamp := om_CreationTimestamp m;
     om_DeletionTimestamp := om_DeletionTimestamp m; om_Labels := om_Labels m;
     om_Annotations := om_Annotations m; om_OwnerReferences := om_OwnerReferences m;
     om_Finalizers := f |}.

(** ** Resource lists *)

Definition ResourceStorage : string := "storage".
Section resource_list.
Context {L : K8sLib}.
Definition ResourceList := gomap Quantity.
(** [ResourceList.Storage]: a zero quantity when the key is missing. *)
Definition ResourceList_Storage (r : ResourceList) : Quantity :=
  default Quantity_zero (map_get r ResourceStorage).
End resource_list.

(** ** The client of the API server

    One kind of object [T] in a world [W]. Writing calls return the object the
    server stored, which the Go client copies back into the caller's pointer. *)
Class KubeClient (W T : Type) := {
  kGet : string → string → go W (result T);
  kCreate : T → go W (result T);
  kUpdate : T → go W (result T);
  kUpdateStatus : T → go W (result T);
  kPatch : T → T → go W (result T);
  kPatchStatus : T → T → go W (result T);
  kDelete : T → go W (option error);
}.
