(* ===== verification/Api.v ===== *)
(** * The custom resources

    [pkg/api/volume.antstor.alipay.com/v1]: volumes, storage pools, volume
    groups, data controls, snapshots and migrations, as records with the
    fields of the Go structs, and the methods of [volume_func.go] and
    [pool_func.go]. String-typed enumerations stay strings, as in the source:
    an object may hold any value. [x_set_F v r] is the assignment [r.F = v]. *)

From Stdlib Require Import ZArith Lia.
From stdpp Require Import base gmap strings option list.
From S2P Require Import Prelude Strconv Float64 Misc K8s.

(** ** Keys and enumeration values *)

(* [v1/volume_types.go:27-27] TargetNodeIdLabelKey *)
Definition TargetNodeIdLabelKey : string := "obnvmf/target-node-id".
(* [v1/volume_types.go:29-29] UuidLabelKey *)
Definition UuidLabelKey : string := "obnvmf/vol-uuid".
(* [v1/volume_types.go:31-31] PVTargetNodeNameLabelKey *)
Definition PVTargetNodeNameLabelKey : string := "obnvmf/pv-target-node".
(* [v1/volume_types.go:33-33] VolumePVNameLabelKey *)
Definition VolumePVNameLabelKey : string := "obnvmf/pv-name".
(* [v1/volume_types.go:35-35] ExpansionOriginalSize *)
Definition ExpansionOriginalSize : string := "obnvmf/expansion-original-size".
(* [v1/volume_types.go:37-37] VolumeGroupNameLabelKey *)
Definition VolumeGroupNameLabelKey : string := "obnvmf/vol-group-name".
(* [v1/volume_types.go:43-43] SpdkConnectModeKey *)
Definition SpdkConnectModeKey : string := "obnvmf/spdk-conn-mode".
(* [v1/volume_types.go:45-45] SpdkConnectModeGuestKernelDirect *)
Definition SpdkConnectModeGuestKernelDirect : string := "guest-direct".
(* [v1/volume_types.go:48-48] FsTypeLabelKey *)
Definition FsTypeLabelKey : string := "obnvmf/fs-type".
(* [v1/volume_types.go:51-51] LvLayoutAnnoKey *)
Definition LvLayoutAnnoKey : string := "obnvmf/lv-layout".
(* [v1/volume_types.go:53-53] AllocatedSizeAnnoKey *)
Definition AllocatedSizeAnnoKey : string := "obnvmf/allocated-bytes".
(* [v1/volume_types.go:56-56] NodeLabelSelectorKey *)
Definition NodeLabelSelectorKey : string := "obnvmf/node-label-selector".
(* [v1/volume_types.go:57-57] PoolLabelSelectorKey *)
Definition PoolLabelSelectorKey : string := "obnvmf/pool-label-selector".
(* [v1/volume_types.go:60-60] SnapshotReservedSpaceAnnotationKey *)
Definition SnapshotReservedSpaceAnnotationKey : string := "obnvmf/snapshot-reserved-bytes".
(* [v1/volume_types.go:62-62] VolumeSourceSnapNameLabelKey *)
Definition VolumeSourceSnapNameLabelKey : string := "obnvmf/volume-source-snap-name".
(* [v1/volume_types.go:63-63] VolumeSourceSnapNamespaceLabelKey *)
Definition VolumeSourceSnapNamespaceLabelKey : string := "obnvmf/volume-source-snap-ns".
(* [v1/volume_types.go:66-66] ReservationIDKey *)
Definition ReservationIDKey : string := "obnvmf/reservation-id".
(* [v1/volume_types.go:68-68] SelectedTgtNodeKey *)
Definition SelectedTgtNodeKey : string := "obnvmf/selected-tgt-node".
(* [v1/volume_types.go:70-70] K8SAnnoSelectedNode *)
Definition K8SAnnoSelectedNode : string := "volume.kubernetes.io/selected-node".
(* [v1/volume_types.go:73-73] VfiouserModeKey *)
Definition VfiouserModeKey : string := "obnvmf/volume-vfiouser-mode".
(* [v1/volume_types.go:78-78] MustLocal *)
Definition MustLocal : string := "MustLocal".
(* [v1/volume_types.go:80-80] PreferLocal *)
Definition PreferLocal : string := "PreferLocal".
(* [v1/volume_types.go:81-81] PreferRemote *)
Definition PreferRemote : string := "PreferRemote".
(* [v1/volume_types.go:83-83] MustRemote *)
Definition MustRemote : string := "MustRemote".
(* [v1/volume_types.go:85-85] NoPreference *)
Definition NoPreference : string := "".
(* [v1/volume_types.go:90-90] IndexKeyUUID *)
Definition IndexKeyUUID : string := ".spec.uuid".
(* [v1/volume_types.go:91-91] IndexKeyTargetNodeID *)
Definition IndexKeyTargetNodeID : string := ".spec.targetNodeId".
(* [v1/volume_types.go:93-93] StoragePoolTypeKernelVGroup *)
Definition StoragePoolTypeKernelVGroup : string := "KernelVGroup".
(* [v1/volume_types.go:94-94] StoragePoolTypeSpdkLVStore *)
Definition StoragePoolTypeSpdkLVStore : string := "SpdkLVStore".
(* [v1/volume_types.go:96-96] VolumeTypeKernelLVol *)
Definition VolumeTypeKernelLVol : string := "KernelLVol".
(* [v1/volume_types.go:97-97] VolumeTypeSpdkLVol *)
Definition VolumeTypeSpdkLVol : string := "SpdkLVol".
(* [v1/volume_types.go:98-98] VolumeTypeFlexible *)
Definition VolumeTypeFlexible : string := "Flexible".
(* [v1/volume_types.go:100-100] PoolStatusReady *)
Definition PoolStatusReady : string := "ready".
(* [v1/volume_types.go:102-102] PoolStatusLocked *)
Definition PoolStatusLocked : string := "locked".
(* [v1/volume_types.go:104-104] PoolStatusOffline *)
Definition PoolStatusOffline : string := "offline".
(* [v1/volume_types.go:106-106] PoolStatusUnknown *)
Definition PoolStatusUnknown : string := "unknown".
(* [v1/volume_types.go:109-109] VolumeStatusCreating *)
Definition VolumeStatusCreating : string := "creating".
(* [v1/volume_types.go:110-110] VolumeStatusReady *)
Definition VolumeStatusReady : string := "ready".
(* [v1/volume_types.go:111-111] VolumeStatusDeleted *)
Definition VolumeStatusDeleted : string := "deleted".
(* [v1/volume_types.go:113-113] PendingPhase *)
Definition PendingPhase : string := "Pending".
(* [v1/volume_types.go:114-114] ReadyPhase *)
Definition ReadyPhase : string := "Ready".
(* [v1/volume_types.go:117-117] VolumeDataHolderKey *)
Definition VolumeDataHolderKey : string := "antstor.csi.alipay.com/data-holder".
(* [v1/volume_types.go:120-120] VolumeContextKeyPodName *)
Definition VolumeContextKeyPodName : string := "csi.storage.k8s.io/pod.name".
(* [v1/volume_types.go:121-121] VolumeContextKeyPodNS *)
Definition VolumeContextKeyPodNS : string := "csi.storage.k8s.io/pod.namespace".
(* [v1/volume_types.go:122-122] VolumeContextKeyPvcName *)
Definition VolumeContextKeyPvcName : string := "csi.storage.k8s.io/pvc-name".
(* [v1/volume_types.go:123-123] VolumeContextKeyPvcNS *)
Definition VolumeContextKeyPvcNS : string := "csi.storage.k8s.io/pvc-namespace".
Definition PoolStatus := string.

(* [v1/pool_types.go:27-27] StorageClassProvisioner *)
Definition StorageClassProvisioner : string := "antstor.csi.alipay.com".
(* [v1/pool_types.go:29-29] StorageClassParamPositionAdvice *)
Definition StorageClassParamPositionAdvice : string := "positionAdvice".
(* [v1/pool_types.go:31-31] PVCAnnotationSnapshotReservedSize *)
Definition PVCAnnotationSnapshotReservedSize : string := "obnvmf/snapshot-reserved-bytes".
(* [v1/pool_types.go:33-33] AnnotationTgtSpdkVersion *)
Definition AnnotationTgtSpdkVersion : string := "obnvmf/tgt-version".
(* [v1/pool_types.go:35-35] AnnotationHostNQN *)
Definition AnnotationHostNQN : string := "obnvmf/hostnqn".
(* [v1/pool_types.go:39-39] DefaultNamespace *)
Definition DefaultNamespace : string := "obnvmf".
(* [v1/pool_types.go:41-41] PoolModeKernelLVM *)
Definition PoolModeKernelLVM : string := "KernelLVM".
(* [v1/pool_types.go:42-42] PoolModeSpdkLVStore *)
Definition PoolModeSpdkLVStore : string := "SpdkLVStore".
(* [v1/pool_types.go:44-44] PoolConditionSpkdHealth *)
Definition PoolConditionSpkdHealth : string := "Spdk".
(* [v1/pool_types.go:45-45] PoolConditionLvmHealth *)
Definition PoolConditionLvmHealth : string := "Lvm".
(* [v1/pool_types.go:46-46] PoolConditionKubeNode *)
Definition PoolConditionKubeNode : string := "KubeNode".
(* [v1/pool_types.go:48-48] KubeNodeMsgNcOffline *)
Definition KubeNodeMsgNcOffline : string := "NC_OFFLINE".
(* [v1/pool_types.go:50-50] StatusOK *)
Definition StatusOK : string := "OK".
(* [v1/pool_types.go:51-51] StatusError *)
Definition StatusError : string := "Error".
(* [v1/pool_types.go:54-54] ResourceVolumesCount *)
Definition ResourceVolumesCount : string := "volumes".
(* [v1/pool_types.go:60-60] StoragePoolFinalizer *)
Definition StoragePoolFinalizer : string := "antstor.alipay.com/storage-pool".
(* [v1/pool_types.go:61-61] InStateFinalizer *)
Definition InStateFinalizer : string := "antstor.alipay.com/in-state".
(* [v1/pool_types.go:64-64] KernelLVolFinalizer *)
Definition KernelLVolFinalizer : string := "antstor.alipay.com/lvm".
(* [v1/pool_types.go:66-66] SpdkLvolFinalizer *)
Definition SpdkLvolFinalizer : string := "antstor.alipay.com/spdk-lvol".
(* [v1/pool_types.go:69-69] LogicVolumeFinalizer *)
Definition LogicVolumeFinalizer : string := "antstor.alipay.com/logic-volume".
(* [v1/pool_types.go:72-72] SpdkTargetFinalizer *)
Definition SpdkTargetFinalizer : string := "antstor.alipay.com/spdk-tgt".
(* [v1/pool_types.go:75-75] SnapshotFinalizer *)
Definition SnapshotFinalizer : string := "antstor.alipay.com/snapshot".
(* [v1/pool_types.go:78-78] VolumesFinalizer *)
Definition VolumesFinalizer : string := "antstor.alipay.com/volumes".
(* [v1/pool_types.go:84-84] PoolLocalStorageBytesKey *)
Definition PoolLocalStorageBytesKey : string := "obnvmf/local-storage-bytes".
(* [v1/pool_types.go:86-86] PoolLabelsNodeSnKey *)
Definition PoolLabelsNodeSnKey : string := "obnvmf/node-sn".
(* [v1/pool_types.go:94-94] PoolSchedulingStatusLabelKey *)
Definition PoolSchedulingStatusLabelKey : string := "obnvmf/pool-scheduling-status".
(* [v1/pool_types.go:98-98] LVLayoutLinear *)
Definition LVLayoutLinear : string := "linear".
(* [v1/pool_types.go:99-99] LVLayoutStriped *)
Definition LVLayoutStriped : string := "striped".
(* [v1/pool_types.go:100-100] LVLayoutThinPool *)
Definition LVLayoutThinPool : string := "thin,pool".
(* [v1/pool_types.go:53-53] ResourceDiskPoolByte *)
Definition ResourceDiskPoolByte : string := ResourceStorage.
(* [v1/pool_types.go:95-95] PoolSchedulingStatusLocked *)
Definition PoolSchedulingStatusLocked : string := PoolStatusLocked.
(* [v1/volume_group_types.go:26-26] DataControlNameKey *)
Definition DataControlNameKey : string := "obnvmf/data-control-name".
(* [v1/volume_group_types.go:30-30] Asymmetric *)
Definition Asymmetric : string := "Asymmetric".
(* [v1/volume_group_types.go:31-31] Symmetric *)
Definition Symmetric : string := "Symmetric".
(* [v1/volume_group_types.go:34-34] StragetyBestFit *)
Definition StragetyBestFit : string := "BestFit".
(* [v1/volume_group_types.go:36-36] StragetyNonEmptyBestFit *)
Definition StragetyNonEmptyBestFit : string := "NonEmptyBestFit".
(* [v1/snapshot_types.go:8-8] SnapshotStatusCreating *)
Definition SnapshotStatusCreating : string := "creating".
(* [v1/snapshot_types.go:9-9] SnapshotStatusReady *)
Definition SnapshotStatusReady : string := "ready".
(* [v1/snapshot_types.go:10-10] SnapshotStatusMerging *)
Definition SnapshotStatusMerging : string := "merging".
(* [v1/snapshot_types.go:11-11] SnapshotStatusMerged *)
Definition SnapshotStatusMerged : string := "merged".
(* [v1/snapshot_types.go:12-12] SnapshotStatusError *)
Definition SnapshotStatusError : string := "error".
(* [v1/snapshot_types.go:13-13] SnapshotStatusDeleted *)
Definition SnapshotStatusDeleted : string := "deleted".
(* [v1/snapshot_types.go:15-15] OriginVolumeNameLabelKey *)
Definition OriginVolumeNameLabelKey : string := "obnmvf/origin-antstorvol-name".
(* [v1/snapshot_types.go:16-16] OriginVolumeNamespaceLabelKey *)
Definition OriginVolumeNamespaceLabelKey : string := "obnmvf/origin-antstorvol-ns".
(* [v1/snapshot_types.go:19-19] MergeStartTimestampLabelKey *)
Definition MergeStartTimestampLabelKey : string := "obnmvf/merge-start-timestamp".
(* [v1/snapshot_types.go:20-20] MergeFinishTimestampLabelKey *)
Definition MergeFinishTimestampLabelKey : string := "obnmvf/merge-finish-timestamp".
(* [v1/snapshot_types.go:23-23] SnapUuidLabelKey *)
Definition SnapUuidLabelKey : string := "obnvmf/snap-uuid".
(* [v1/data_control_types.go:24-24] RaidLinear *)
Definition RaidLinear : string := "linear".
(* [v1/data_control_types.go:25-25] Raid0 *)
Definition Raid0 : string := "raid0".
(* [v1/data_control_types.go:26-26] Raid1 *)
Definition Raid1 : string := "raid1".
(* [v1/data_control_types.go:27-27] Raid5 *)
Definition Raid5 : string := "raid5".
(* [v1/data_control_types.go:28-28] Raid6 *)
Definition Raid6 : string := "raid6".
(* [v1/volume_migration.go:10-10] MigrationPhasePending *)
Definition MigrationPhasePending : string := "Pending".
(* [v1/volume_migration.go:11-11] MigrationPhaseCreatingVolume *)
Definition MigrationPhaseCreatingVolume : string := "CreatingVolume".
(* [v1/volume_migration.go:12-12] MigrationPhaseSetupPipe *)
Definition MigrationPhaseSetupPipe : string := "SetupPipe".
(* [v1/volume_migration.go:13-13] MigrationPhaseSyncing *)
Definition MigrationPhaseSyncing : string := "Syncing".
(* [v1/volume_migration.go:14-14] MigrationPhaseCleaning *)
Definition MigrationPhaseCleaning : string := "Cleaning".
(* [v1/volume_migration.go:15-15] MigrationPhaseFinished *)
Definition MigrationPhaseFinished : string := "Finished".
(* [v1/volume_migration.go:17-17] MigrationStatusError *)
Definition MigrationStatusError : string := "Error".
(* [v1/volume_migration.go:18-18] MigrationStatusWorking *)
Definition MigrationStatusWorking : string := "Working".
(* [v1/volume_migration.go:20-20] ConnectStatusUnknown *)
Definition ConnectStatusUnknown : string := "Unknown".
(* [v1/volume_migration.go:21-21] ConnectStatusConnected *)
Definition ConnectStatusConnected : string := "Connected".
(* [v1/volume_migration.go:22-22] ConnectStatusDisconnected *)
Definition ConnectStatusDisconnected : string := "Disconnected".
(* [v1/volume_migration.go:24-24] ResultStatusUnknown *)
Definition ResultStatusUnknown : string := "Unknown".
(* [v1/volume_migration.go:25-25] ResultStatusSuccess *)
Definition ResultStatusSuccess : string := "Success".
(* [v1/volume_migration.go:26-26] ResultStatusError *)
Definition ResultStatusError : string := "Error".
(* [v1/volume_migration.go:28-28] MigrationLabelKeyMigrationName *)
Definition MigrationLabelKeyMigrationName : string := "migrate.obnvmf/migration-name".
(* [v1/volume_migration.go:29-29] MigrationLabelKeySourceVolumeName *)
Definition MigrationLabelKeySourceVolumeName : string := "migrate.obnvmf/source-volume-name".
(* [v1/volume_migration.go:30-30] MigrationLabelKeySourceNodeId *)
Definition MigrationLabelKeySourceNodeId : string := "migrate.obnvmf/source-node-id".
(* [v1/volume_migration.go:31-31] MigrationLabelKeyHostNodeId *)
Definition MigrationLabelKeyHostNodeId : string := "migrate.obnvmf/host-node-id".
(* [v1/volume_migration.go:33-33] MigrationFinalizerPipeConnected *)
Definition MigrationFinalizerPipeConnected : string := "obnvmf/migrate-pipe-connected".
(* [v1/volume_migration.go:34-34] MigrationFinalizerHostConnected *)
Definition MigrationFinalizerHostConnected : string := "obnvmf/migrate-host-connected".

(** ** Volumes *)

(* [v1/volume_types.go:147-156] NodeInfo *)
Record NodeInfo := {
  ni_ID : string;
  ni_IP : string;
  ni_Hostname : string;
  ni_Labels : gomap string;
}.
#[export] Instance NodeInfo_eq : EqDecision NodeInfo.
Proof. solve_decision. Defined.
Definition NodeInfo_zero : NodeInfo := {|
  ni_ID := "";
  ni_IP := "";
  ni_Hostname := "";
  ni_Labels := None |}.

(* [v1/volume_types.go:158-167] SpdkTarget *)
Record SpdkTarget := {
  tgt_BdevName : string;
  tgt_SubsysNQN : string;
  tgt_SvcID : string;
  tgt_SerialNum : string;
  tgt_TransType : string;
  tgt_NSUUID : string;
  tgt_Address : string;
  tgt_AddrFam : string;
}.
#[export] Instance SpdkTarget_eq : EqDecision SpdkTarget.
Proof. solve_decision. Defined.
Definition SpdkTarget_zero : SpdkTarget := {|
  tgt_BdevName := "";
  tgt_SubsysNQN := "";
  tgt_SvcID := "";
  tgt_SerialNum := "";
  tgt_TransType := "";
  tgt_NSUUID := "";
  tgt_Address := "";
  tgt_AddrFam := "" |}.
Definition tgt_set_Address (v : string) (r : SpdkTarget) : SpdkTarget := {|
  tgt_BdevName := tgt_BdevName r; tgt_SubsysNQN := tgt_SubsysNQN r; 
  tgt_SvcID := tgt_SvcID r; tgt_SerialNum := tgt_SerialNum r; 
  tgt_TransType := tgt_TransType r; tgt_NSUUID := tgt_NSUUID r; tgt_Address := v; 
  tgt_AddrFam := tgt_AddrFam r |}.
Definition tgt_set_AddrFam (v : string) (r : SpdkTarget) : SpdkTarget := {|
  tgt_BdevName := tgt_BdevName r; tgt_SubsysNQN := tgt_SubsysNQN r; 
  tgt_SvcID := tgt_SvcID r; tgt_SerialNum := tgt_SerialNum r; 
  tgt_TransType := tgt_TransType r; tgt_NSUUID := tgt_NSUUID r; 
  tgt_Address := tgt_Address r; tgt_AddrFam := v |}.
Definition tgt_set_BdevName (v : string) (r : SpdkTarget) : SpdkTarget := {|
  tgt_BdevName := v; tgt_SubsysNQN := tgt_SubsysNQN r; tgt_SvcID := tgt_SvcID r; 
  tgt_SerialNum := tgt_SerialNum r; tgt_TransType := tgt_TransType r; 
  tgt_NSUUID := tgt_NSUUID r; tgt_Address := tgt_Address r; tgt_AddrFam := tgt_AddrFam r |}.

(* [v1/volume_types.go:169-172] KernelLvol *)
Record KernelLvol := {
  kl_Name : string;
  kl_DevPath : string;
}.
#[export] Instance KernelLvol_eq : EqDecision KernelLvol.
Proof. solve_decision. Defined.
Definition KernelLvol_zero : KernelLvol := {|
  kl_Name := "";
  kl_DevPath := "" |}.

(* [v1/volume_types.go:174-179] CSINodePubParams *)
Record CSINodePubParams := {
  cnp_StagingTargetPath : string;
  cnp_TargetPath : string;
  cnp_CSIVolumeContext : gomap string;
}.
#[export] Instance CSINodePubParams_eq : EqDecision CSINodePubParams.
Proof. solve_decision. Defined.

(* [v1/volume_types.go:181-184] HostAttachment *)
Record HostAttachment := {
  ha_HostDevPath : string;
}.
#[export] Instance HostAttachment_eq : EqDecision HostAttachment.
Proof. solve_decision. Defined.

(* [v1/volume_types.go:186-190] SpdkLvol *)
Record SpdkLvol := {
  sl_Name : string;
  sl_LvsName : string;
  sl_Thin : bool;
}.
#[export] Instance SpdkLvol_eq : EqDecision SpdkLvol.
Proof. solve_decision. Defined.
Definition SpdkLvol_zero : SpdkLvol := {|
  sl_Name := "";
  sl_LvsName := "";
  sl_Thin := false |}.

#[export] Instance NodeSelectorRequirement_eq : EqDecision NodeSelectorRequirement.
Proof. solve_decision. Defined.
#[export] Instance NodeSelectorTerm_eq : EqDecision NodeSelectorTerm.
Proof. solve_decision. Defined.
#[export] Instance NodeAffinity_eq : EqDecision NodeAffinity.
Proof. unfold EqDecision, NodeSelector. solve_decision. Defined.
#[export] Instance OwnerReference_eq : EqDecision OwnerReference.
Proof. solve_decision. Defined.
#[export] Instance ObjectMeta_eq : EqDecision ObjectMeta.
Proof. solve_decision. Defined.

(* [v1/volume_types.go:192-244] AntstorVolumeSpec *)
Record AntstorVolumeSpec := {
  vs_Uuid : string;
  vs_Type : string;
  vs_SizeByte : Z;
  vs_PositionAdvice : string;
  vs_IsThin : bool;
  vs_StopReconcile : bool;
  vs_NodeAffinity : option NodeAffinity;
  vs_PoolAffinity : option NodeAffinity;
  vs_TargetNodeId : string;
  vs_HostNode : option NodeInfo;
  vs_KernelLvol : option KernelLvol;
  vs_SpdkLvol : option SpdkLvol;
  vs_SpdkTarget : option SpdkTarget;
}.
#[export] Instance AntstorVolumeSpec_eq : EqDecision AntstorVolumeSpec.
Proof. solve_decision. Defined.
Definition AntstorVolumeSpec_zero : AntstorVolumeSpec := {|
  vs_Uuid := "";
  vs_Type := "";
  vs_SizeByte := 0;
  vs_PositionAdvice := "";
  vs_IsThin := false;
  vs_StopReconcile := false;
  vs_NodeAffinity := None;
  vs_PoolAffinity := None;
  vs_TargetNodeId := "";
  vs_HostNode := None;
  vs_KernelLvol := None;
  vs_SpdkLvol := None;
  vs_SpdkTarget := None |}.
Definition vs_set_Uuid (v : string) (r : AntstorVolumeSpec) : AntstorVolumeSpec := {|
  vs_Uuid := v; vs_Type := vs_Type r; vs_SizeByte := vs_SizeByte r; 
  vs_PositionAdvice := vs_PositionAdvice r; vs_IsThin := vs_IsThin r; 
  vs_StopReconcile := vs_StopReconcile r; vs_NodeAffinity := vs_NodeAffinity r; 
  vs_PoolAffinity := vs_PoolAffinity r; vs_TargetNodeId := vs_TargetNodeId r; 
  vs_HostNode := vs_HostNode r; vs_KernelLvol := vs_KernelLvol r; 
  vs_SpdkLvol := vs_SpdkLvol r; vs_SpdkTarget := vs_SpdkTarget r |}.
Definition vs_set_Type (v : string) (r : AntstorVolumeSpec) : AntstorVolumeSpec := {|
  vs_Uuid := vs_Uuid r; vs_Type := v; vs_SizeByte := vs_SizeByte r; 
  vs_PositionAdvice := vs_PositionAdvice r; vs_IsThin := vs_IsThin r; 
  vs_StopReconcile := vs_StopReconcile r; vs_NodeAffinity := vs_NodeAffinity r; 
  vs_PoolAffinity := vs_PoolAffinity r; vs_TargetNodeId := vs_TargetNodeId r; 
  vs_HostNode := vs_HostNode r; vs_KernelLvol := vs_KernelLvol r; 
  vs_SpdkLvol := vs_SpdkLvol r; vs_SpdkTarget := vs_SpdkTarget r |}.
Definition vs_set_SizeByte (v : Z) (r : AntstorVolumeSpec) : AntstorVolumeSpec := {|
  vs_Uuid := vs_Uuid r; vs_Type := vs_Type r; vs_SizeByte := v; 
  vs_PositionAdvice := vs_PositionAdvice r; vs_IsThin := vs_IsThin r; 
  vs_StopReconcile := vs_StopReconcile r; vs_NodeAffinity := vs_NodeAffinity r; 
  vs_PoolAffinity := vs_PoolAffinity r; vs_TargetNodeId := vs_TargetNodeId r; 
  vs_HostNode := vs_HostNode r; vs_KernelLvol := vs_KernelLvol r; 
  vs_SpdkLvol := vs_SpdkLvol r; vs_SpdkTarget := vs_SpdkTarget r |}.
Definition vs_set_TargetNodeId (v : string) (r : AntstorVolumeSpec) : AntstorVolumeSpec := {|
  vs_Uuid := vs_Uuid r; vs_Type := vs_Type r; vs_SizeByte := vs_SizeByte r; 
  vs_PositionAdvice := vs_PositionAdvice r; vs_IsThin := vs_IsThin r; 
  vs_StopReconcile := vs_StopReconcile r; vs_NodeAffinity := vs_NodeAffinity r; 
  vs_PoolAffinity := vs_PoolAffinity r; vs_TargetNodeId := v; vs_HostNode := vs_HostNode r; 
  vs_KernelLvol := vs_KernelLvol r; vs_SpdkLvol := vs_SpdkLvol r; 
  vs_SpdkTarget := vs_SpdkTarget r |}.
Definition vs_set_HostNode (v : option NodeInfo) (r : AntstorVolumeSpec) : AntstorVolumeSpec := {|
  vs_Uuid := vs_Uuid r; vs_Type := vs_Type r; vs_SizeByte := vs_SizeByte r; 
  vs_PositionAdvice := vs_PositionAdvice r; vs_IsThin := vs_IsThin r; 
  vs_StopReconcile := vs_StopReconcile r; vs_NodeAffinity := vs_NodeAffinity r; 
  vs_PoolAffinity := vs_PoolAffinity r; vs_TargetNodeId := vs_TargetNodeId r; 
  vs_HostNode := v; vs_KernelLvol := vs_KernelLvol r; vs_SpdkLvol := vs_SpdkLvol r; 
  vs_SpdkTarget := vs_SpdkTarget r |}.
Definition vs_set_KernelLvol (v : option KernelLvol) (r : AntstorVolumeSpec) : AntstorVolumeSpec := {|
  vs_Uuid := vs_Uuid r; vs_Type := vs_Type r; vs_SizeByte := vs_SizeByte r; 
  vs_PositionAdvice := vs_PositionAdvice r; vs_IsThin := vs_IsThin r; 
  vs_StopReconcile := vs_StopReconcile r; vs_NodeAffinity := vs_NodeAffinity r; 
  vs_PoolAffinity := vs_PoolAffinity r; vs_TargetNodeId := vs_TargetNodeId r; 
  vs_HostNode := vs_HostNode r; vs_KernelLvol := v; vs_SpdkLvol := vs_SpdkLvol r; 
  vs_SpdkTarget := vs_SpdkTarget r |}.
Definition vs_set_SpdkLvol (v : option SpdkLvol) (r : AntstorVolumeSpec) : AntstorVolumeSpec := {|
  vs_Uuid := vs_Uuid r; vs_Type := vs_Type r; vs_SizeByte := vs_SizeByte r; 
  vs_PositionAdvice := vs_PositionAdvice r; vs_IsThin := vs_IsThin r; 
  vs_StopReconcile := vs_StopReconcile r; vs_NodeAffinity := vs_NodeAffinity r; 
  vs_PoolAffinity := vs_PoolAffinity r; vs_TargetNodeId := vs_TargetNodeId r; 
  vs_HostNode := vs_HostNode r; vs_KernelLvol := vs_KernelLvol r; vs_SpdkLvol := v; 
  vs_SpdkTarget := vs_SpdkTarget r |}.
Definition vs_set_SpdkTarget (v : option SpdkTarget) (r : AntstorVolumeSpec) : AntstorVolumeSpec := {|
  vs_Uuid := vs_Uuid r; vs_Type := vs_Type r; vs_SizeByte := vs_SizeByte r; 
  vs_PositionAdvice := vs_PositionAdvice r; vs_IsThin := vs_IsThin r; 
  vs_StopReconcile := vs_StopReconcile r; vs_NodeAffinity := vs_NodeAffinity r; 
  vs_PoolAffinity := vs_PoolAffinity r; vs_TargetNodeId := vs_TargetNodeId r; 
  vs_HostNode := vs_HostNode r; vs_KernelLvol := vs_KernelLvol r; 
  vs_SpdkLvol := vs_SpdkLvol r; vs_SpdkTarget := v |}.

(* [v1/volume_types.go:246-263] AntstorVolumeStatus *)
Record AntstorVolumeStatus := {
  vst_Status : string;
  vst_CSINodePubParams : option CSINodePubParams;
  vst_HostAttachment : option HostAttachment;
  vst_Message : string;
}.
#[export] Instance AntstorVolumeStatus_eq : EqDecision AntstorVolumeStatus.
Proof. solve_decision. Defined.
Definition AntstorVolumeStatus_zero : AntstorVolumeStatus := {|
  vst_Status := "";
  vst_CSINodePubParams := None;
  vst_HostAttachment := None;
  vst_Message := "" |}.
Definition vst_set_Status (v : string) (r : AntstorVolumeStatus) : AntstorVolumeStatus := {|
  vst_Status := v; vst_CSINodePubParams := vst_CSINodePubParams r; 
  vst_HostAttachment := vst_HostAttachment r; vst_Message := vst_Message r |}.
Definition vst_set_CSINodePubParams (v : option CSINodePubParams) (r : AntstorVolumeStatus) : AntstorVolumeStatus := {|
  vst_Status := vst_Status r; vst_CSINodePubParams := v; 
  vst_HostAttachment := vst_HostAttachment r; vst_Message := vst_Message r |}.
Definition vst_set_HostAttachment (v : option HostAttachment) (r : AntstorVolumeStatus) : AntstorVolumeStatus := {|
  vst_Status := vst_Status r; vst_CSINodePubParams := vst_CSINodePubParams r; 
  vst_HostAttachment := v; vst_Message := vst_Message r |}.
Definition vst_set_Message (v : string) (r : AntstorVolumeStatus) : AntstorVolumeStatus := {|
  vst_Status := vst_Status r; vst_CSINodePubParams := vst_CSINodePubParams r; 
  vst_HostAttachment := vst_HostAttachment r; vst_Message := v |}.

(* [v1/volume_types.go:287-295] AntstorVolume *)
Record AntstorVolume := {
  vol_meta : ObjectMeta;
  vol_Spec : AntstorVolumeSpec;
  vol_Status : AntstorVolumeStatus;
}.
#[export] Instance AntstorVolume_eq : EqDecision AntstorVolume.
Proof. solve_decision. Defined.
Definition AntstorVolume_zero : AntstorVolume := {|
  vol_meta := ObjectMeta_zero;
  vol_Spec := AntstorVolumeSpec_zero;
  vol_Status := AntstorVolumeStatus_zero |}.
Definition vol_set_meta (v : ObjectMeta) (r : AntstorVolume) : AntstorVolume := {|
  vol_meta := v; vol_Spec := vol_Spec r; vol_Status := vol_Status r |}.
Definition vol_set_Spec (v : AntstorVolumeSpec) (r : AntstorVolume) : AntstorVolume := {|
  vol_meta := vol_meta r; vol_Spec := v; vol_Status := vol_Status r |}.
Definition vol_set_Status (v : AntstorVolumeStatus) (r : AntstorVolume) : AntstorVolume := {|
  vol_meta := vol_meta r; vol_Spec := vol_Spec r; vol_Status := v |}.

Definition vol_set_finalizers (f : list string) (vol : AntstorVolume) : AntstorVolume :=
  vol_set_meta (om_set_Finalizers f (vol_meta vol)) vol.
Definition vol_set_status (st : string) (vol : AntstorVolume) : AntstorVolume :=
  vol_set_Status (vst_set_Status st (vol_Status vol)) vol.
Definition vol_set_message (m : string) (vol : AntstorVolume) : AntstorVolume :=
  vol_set_Status (vst_set_Message m (vol_Status vol)) vol.
Definition vol_set_target (id : string) (vol : AntstorVolume) : AntstorVolume :=
  vol_set_Spec (vs_set_TargetNodeId id (vol_Spec vol)) vol.
Definition vol_set_labels (l : gomap string) (vol : AntstorVolume) : AntstorVolume :=
  vol_set_meta (om_set_Labels l (vol_meta vol)) vol.

(** ** Storage pools *)

(* [v1/pool_types.go:109-116] KernelLVol *)
Record KernelLVol := {
  rl_Name : string;
  rl_VGName : string;
  rl_DevPath : string;
  rl_SizeByte : Z;
  rl_LvLayout : string;
}.
#[export] Instance KernelLVol_eq : EqDecision KernelLVol.
Proof. solve_decision. Defined.

(* [v1/pool_types.go:118-129] KernelLVM *)
Record KernelLVM := {
  klvm_Name : string;
  klvm_VgUUID : string;
  klvm_Bytes : Z;
  klvm_ExtendSize : Z;
  klvm_ExtendCount : Z;
  klvm_PVCount : Z;
  klvm_ReservedLVol : list KernelLVol;
}.
#[export] Instance KernelLVM_eq : EqDecision KernelLVM.
Proof. solve_decision. Defined.
Definition KernelLVM_zero : KernelLVM := {|
  klvm_Name := "";
  klvm_VgUUID := "";
  klvm_Bytes := 0;
  klvm_ExtendSize := 0;
  klvm_ExtendCount := 0;
  klvm_PVCount := 0;
  klvm_ReservedLVol := [] |}.
Definition klvm_set_ReservedLVol (v : list KernelLVol) (r : KernelLVM) : KernelLVM := {|
  klvm_Name := klvm_Name r; klvm_VgUUID := klvm_VgUUID r; klvm_Bytes := klvm_Bytes r; 
  klvm_ExtendSize := klvm_ExtendSize r; klvm_ExtendCount := klvm_ExtendCount r; 
  klvm_PVCount := klvm_PVCount r; klvm_ReservedLVol := v |}.

(* [v1/pool_types.go:131-139] SpdkLVStore *)
Record SpdkLVStore := {
  lvst_Name : string;
  lvst_UUID : string;
  lvst_BaseBdev : string;
  lvst_Bytes : Z;
  lvst_ClusterSize : Z;
  lvst_TotalDataCluster : Z;
  lvst_BlockSize : Z;
}.
#[export] Instance SpdkLVStore_eq : EqDecision SpdkLVStore.
Proof. solve_decision. Defined.
Definition SpdkLVStore_zero : SpdkLVStore := {|
  lvst_Name := "";
  lvst_UUID := "";
  lvst_BaseBdev := "";
  lvst_Bytes := 0;
  lvst_ClusterSize := 0;
  lvst_TotalDataCluster := 0;
  lvst_BlockSize := 0 |}.

(* [v1/pool_types.go:141-145] PoolCondition *)
Record PoolCondition := {
  pc_Type : string;
  pc_Status : string;
  pc_Message : string;
}.
#[export] Instance PoolCondition_eq : EqDecision PoolCondition.
Proof. solve_decision. Defined.

(** [corev1.NodeAddress]. *)
Record NodeAddress := { na_Type : string; na_Address : string }.
#[export] Instance NodeAddress_eq : EqDecision NodeAddress.
Proof. solve_decision. Defined.

(* [v1/pool_types.go:150-171] StoragePoolSpec *)
Record StoragePoolSpec := {
  sps_KernelLVM : KernelLVM;
  sps_SpdkLVStore : SpdkLVStore;
  sps_Addresses : list NodeAddress;
  sps_NodeInfo : NodeInfo;
}.
#[export] Instance StoragePoolSpec_eq : EqDecision StoragePoolSpec.
Proof. solve_decision. Defined.
Definition StoragePoolSpec_zero : StoragePoolSpec := {|
  sps_KernelLVM := KernelLVM_zero;
  sps_SpdkLVStore := SpdkLVStore_zero;
  sps_Addresses := [];
  sps_NodeInfo := NodeInfo_zero |}.
Definition sps_set_KernelLVM (v : KernelLVM) (r : StoragePoolSpec) : StoragePoolSpec := {|
  sps_KernelLVM := v; sps_SpdkLVStore := sps_SpdkLVStore r; 
  sps_Addresses := sps_Addresses r; sps_NodeInfo := sps_NodeInfo r |}.
Definition sps_set_NodeInfo (v : NodeInfo) (r : StoragePoolSpec) : StoragePoolSpec := {|
  sps_KernelLVM := sps_KernelLVM r; sps_SpdkLVStore := sps_SpdkLVStore r; 
  sps_Addresses := sps_Addresses r; sps_NodeInfo := v |}.

Section pools.
Context {L : K8sLib}.

(* [v1/pool_types.go:173-197] StoragePoolStatus *)
Record StoragePoolStatus := {
spst_Capacity : ResourceList;
spst_VGFreeSize : Quantity;
spst_Conditions : list PoolCondition;
spst_Status : string;
spst_Message : string;
}.
Definition spst_set_Capacity (v : ResourceList) (r : StoragePoolStatus) : StoragePoolStatus := {|
spst_Capacity := v; spst_VGFreeSize := spst_VGFreeSize r; 
spst_Conditions := spst_Conditions r; spst_Status := spst_Status r; 
spst_Message := spst_Message r |}.
Definition spst_set_VGFreeSize (v : Quantity) (r : StoragePoolStatus) : StoragePoolStatus := {|
spst_Capacity := spst_Capacity r; spst_VGFreeSize := v; 
spst_Conditions := spst_Conditions r; spst_Status := spst_Status r; 
spst_Message := spst_Message r |}.
Definition spst_set_Conditions (v : list PoolCondition) (r : StoragePoolStatus) : StoragePoolStatus := {|
spst_Capacity := spst_Capacity r; spst_VGFreeSize := spst_VGFreeSize r; 
spst_Conditions := v; spst_Status := spst_Status r; spst_Message := spst_Message r |}.
Definition spst_set_Status (v : string) (r : StoragePoolStatus) : StoragePoolStatus := {|
spst_Capacity := spst_Capacity r; spst_VGFreeSize := spst_VGFreeSize r; 
spst_Conditions := spst_Conditions r; spst_Status := v; spst_Message := spst_Message r |}.
Definition spst_set_Message (v : string) (r : StoragePoolStatus) : StoragePoolStatus := {|
spst_Capacity := spst_Capacity r; spst_VGFreeSize := spst_VGFreeSize r; 
spst_Conditions := spst_Conditions r; spst_Status := spst_Status r; spst_Message := v |}.

(* [v1/pool_types.go:210-218] StoragePool *)
Record StoragePool := {
sp_meta : ObjectMeta;
sp_Spec : StoragePoolSpec;
sp_Status : StoragePoolStatus;
}.
Definition sp_set_meta (v : ObjectMeta) (r : StoragePool) : StoragePool := {|
sp_meta := v; sp_Spec := sp_Spec r; sp_Status := sp_Status r |}.
Definition sp_set_Spec (v : StoragePoolSpec) (r : StoragePool) : StoragePool := {|
sp_meta := sp_meta r; sp_Spec := v; sp_Status := sp_Status r |}.
Definition sp_set_Status (v : StoragePoolStatus) (r : StoragePool) : StoragePool := {|
sp_meta := sp_meta r; sp_Spec := sp_Spec r; sp_Status := v |}.

End pools.

(** ** Volume groups *)

(* [v1/data_control_types.go:51-55] EntityIdentity *)
Record EntityIdentity := {
  ei_Namespace : string;
  ei_Name : string;
  ei_UUID : string;
}.
#[export] Instance EntityIdentity_eq : EqDecision EntityIdentity.
Proof. solve_decision. Defined.

(* [v1/volume_group_types.go:41-46] IntRange *)
Record IntRange := {
  ir_Min : Z;
  ir_Max : Z;
}.
#[export] Instance IntRange_eq : EqDecision IntRange.
Proof. solve_decision. Defined.

(* [v1/volume_group_types.go:76-86] VolumeGroupStrategy *)
Record VolumeGroupStrategy := {
  vgs_Name : string;
  vgs_EmptyThreasholdPct : Z;
  vgs_AllowEmptyNode : bool;
}.
#[export] Instance VolumeGroupStrategy_eq : EqDecision VolumeGroupStrategy.
Proof. solve_decision. Defined.

(* [v1/volume_group_types.go:88-92] VolumeMeta *)
Record VolumeMeta := {
  vm_VolId : EntityIdentity;
  vm_TargetNodeName : string;
  vm_Size : Z;
}.
#[export] Instance VolumeMeta_eq : EqDecision VolumeMeta.
Proof. solve_decision. Defined.
Definition vm_set_TargetNodeName (v : string) (r : VolumeMeta) : VolumeMeta := {|
  vm_VolId := vm_VolId r; vm_TargetNodeName := v; vm_Size := vm_Size r |}.
Definition vm_set_Size (v : Z) (r : VolumeMeta) : VolumeMeta := {|
  vm_VolId := vm_VolId r; vm_TargetNodeName := vm_TargetNodeName r; vm_Size := v |}.
Definition vm_set_VolId (v : EntityIdentity) (r : VolumeMeta) : VolumeMeta := {|
  vm_VolId := v; vm_TargetNodeName := vm_TargetNodeName r; vm_Size := vm_Size r |}.

(* [v1/volume_group_types.go:94-109] VolumeTargetStatus *)
Record VolumeTargetStatus := {
  vts_UUID : string;
  vts_SpdkTarget : option SpdkTarget;
  vts_Status : string;
  vts_Message : string;
}.
#[export] Instance VolumeTargetStatus_eq : EqDecision VolumeTargetStatus.
Proof. solve_decision. Defined.

(* [v1/volume_group_types.go:138-152] AntstorVolumeGroupStatus *)
Record AntstorVolumeGroupStatus := {
  vgst_VolumeStatus : list VolumeTargetStatus;
  vgst_Status : string;
  vgst_Message : string;
}.
#[export] Instance AntstorVolumeGroupStatus_eq : EqDecision AntstorVolumeGroupStatus.
Proof. solve_decision. Defined.
Definition vgst_set_VolumeStatus (v : list VolumeTargetStatus) (r : AntstorVolumeGroupStatus) : AntstorVolumeGroupStatus := {|
  vgst_VolumeStatus := v; vgst_Status := vgst_Status r; vgst_Message := vgst_Message r |}.
Definition vgst_set_Status (v : string) (r : AntstorVolumeGroupStatus) : AntstorVolumeGroupStatus := {|
  vgst_VolumeStatus := vgst_VolumeStatus r; vgst_Status := v; 
  vgst_Message := vgst_Message r |}.
Definition vgst_set_Message (v : string) (r : AntstorVolumeGroupStatus) : AntstorVolumeGroupStatus := {|
  vgst_VolumeStatus := vgst_VolumeStatus r; vgst_Status := vgst_Status r; 
  vgst_Message := v |}.

Section groups.
Context {L : K8sLib}.

(* [v1/volume_group_types.go:48-53] QuantityRange *)
Record QuantityRange := {
qr_Min : Quantity;
qr_Max : Quantity;
}.

(* [v1/volume_group_types.go:55-74] DesiredVolumeSpec *)
Record DesiredVolumeSpec := {
dvs_Annotations : gomap string;
dvs_Labels : gomap string;
dvs_DesiredCount : Z;
dvs_CountRange : IntRange;
dvs_SizeRange : QuantityRange;
dvs_SizeSymmetry : string;
}.

(* [v1/volume_group_types.go:114-136] AntstorVolumeGroupSpec *)
Record AntstorVolumeGroupSpec := {
vgsp_Uuid : string;
vgsp_TotalSize : Z;
vgsp_DesiredVolumeSpec : DesiredVolumeSpec;
vgsp_Stragety : VolumeGroupStrategy;
vgsp_Volumes : list VolumeMeta;
}.
Definition vgsp_set_Volumes (v : list VolumeMeta) (r : AntstorVolumeGroupSpec) : AntstorVolumeGroupSpec := {|
vgsp_Uuid := vgsp_Uuid r; vgsp_TotalSize := vgsp_TotalSize r; 
vgsp_DesiredVolumeSpec := vgsp_DesiredVolumeSpec r; vgsp_Stragety := vgsp_Stragety r; 
vgsp_Volumes := v |}.
Definition vgsp_set_Uuid (v : string) (r : AntstorVolumeGroupSpec) : AntstorVolumeGroupSpec := {|
vgsp_Uuid := v; vgsp_TotalSize := vgsp_TotalSize r; 
vgsp_DesiredVolumeSpec := vgsp_DesiredVolumeSpec r; vgsp_Stragety := vgsp_Stragety r; 
vgsp_Volumes := vgsp_Volumes r |}.

(* [v1/volume_group_types.go:163-171] AntstorVolumeGroup *)
Record AntstorVolumeGroup := {
vg_meta : ObjectMeta;
vg_Spec : AntstorVolumeGroupSpec;
vg_Status : AntstorVolumeGroupStatus;
}.
Definition vg_set_meta (v : ObjectMeta) (r : AntstorVolumeGroup) : AntstorVolumeGroup := {|
vg_meta := v; vg_Spec := vg_Spec r; vg_Status := vg_Status r |}.
Definition vg_set_Spec (v : AntstorVolumeGroupSpec) (r : AntstorVolumeGroup) : AntstorVolumeGroup := {|
vg_meta := vg_meta r; vg_Spec := v; vg_Status := vg_Status r |}.
Definition vg_set_Status (v : AntstorVolumeGroupStatus) (r : AntstorVolumeGroup) : AntstorVolumeGroup := {|
vg_meta := vg_meta r; vg_Spec := vg_Spec r; vg_Status := v |}.

End groups.

(** ** Data controls *)

(* [v1/data_control_types.go:42-49] LVMControlPV *)
Record LVMControlPV := {
  lpv_DevPath : string;
  lpv_VolId : EntityIdentity;
  lpv_TargetInfo : SpdkTarget;
}.
#[export] Instance LVMControlPV_eq : EqDecision LVMControlPV.
Proof. solve_decision. Defined.

(* [v1/data_control_types.go:33-40] LVMControl *)
Record LVMControl := {
  lvmc_VG : string;
  lvmc_LVol : string;
  lvmc_PVs : list LVMControlPV;
}.
#[export] Instance LVMControl_eq : EqDecision LVMControl.
Proof. solve_decision. Defined.
Definition lvmc_set_PVs (v : list LVMControlPV) (r : LVMControl) : LVMControl := {|
  lvmc_VG := lvmc_VG r; lvmc_LVol := lvmc_LVol r; lvmc_PVs := v |}.

(* [v1/data_control_types.go:57-60] Raid *)
Record Raid := {
  raid_Level : string;
}.
#[export] Instance Raid_eq : EqDecision Raid.
Proof. solve_decision. Defined.

(* [v1/data_control_types.go:66-94] AntstorDataControlSpec *)
Record AntstorDataControlSpec := {
  dcs_UUID : string;
  dcs_TotalSize : Z;
  dcs_LVM : option LVMControl;
  dcs_EngineType : string;
  dcs_Raid : Raid;
  dcs_HostNode : NodeInfo;
  dcs_TargetNodeId : string;
  dcs_VolumeGroups : list EntityIdentity;
}.
#[export] Instance AntstorDataControlSpec_eq : EqDecision AntstorDataControlSpec.
Proof. solve_decision. Defined.
Definition dcs_set_LVM (v : option LVMControl) (r : AntstorDataControlSpec) : AntstorDataControlSpec := {|
  dcs_UUID := dcs_UUID r; dcs_TotalSize := dcs_TotalSize r; dcs_LVM := v; 
  dcs_EngineType := dcs_EngineType r; dcs_Raid := dcs_Raid r; 
  dcs_HostNode := dcs_HostNode r; dcs_TargetNodeId := dcs_TargetNodeId r; 
  dcs_VolumeGroups := dcs_VolumeGroups r |}.
Definition dcs_set_TargetNodeId (v : string) (r : AntstorDataControlSpec) : AntstorDataControlSpec := {|
  dcs_UUID := dcs_UUID r; dcs_TotalSize := dcs_TotalSize r; dcs_LVM := dcs_LVM r; 
  dcs_EngineType := dcs_EngineType r; dcs_Raid := dcs_Raid r; 
  dcs_HostNode := dcs_HostNode r; dcs_TargetNodeId := v; 
  dcs_VolumeGroups := dcs_VolumeGroups r |}.

(* [v1/data_control_types.go:97-110] AntstorDataControlStatus *)
Record AntstorDataControlStatus := {
  dcst_Status : string;
  dcst_CSINodePubParams : option CSINodePubParams;
  dcst_Message : string;
}.
#[export] Instance AntstorDataControlStatus_eq : EqDecision AntstorDataControlStatus.
Proof. solve_decision. Defined.
Definition dcst_set_Status (v : string) (r : AntstorDataControlStatus) : AntstorDataControlStatus := {|
  dcst_Status := v; dcst_CSINodePubParams := dcst_CSINodePubParams r; 
  dcst_Message := dcst_Message r |}.

(* [v1/data_control_types.go:122-130] AntstorDataControl *)
Record AntstorDataControl := {
  dc_meta : ObjectMeta;
  dc_Spec : AntstorDataControlSpec;
  dc_Status : AntstorDataControlStatus;
}.
#[export] Instance AntstorDataControl_eq : EqDecision AntstorDataControl.
Proof. solve_decision. Defined.
Definition dc_set_meta (v : ObjectMeta) (r : AntstorDataControl) : AntstorDataControl := {|
  dc_meta := v; dc_Spec := dc_Spec r; dc_Status := dc_Status r |}.
Definition dc_set_Spec (v : AntstorDataControlSpec) (r : AntstorDataControl) : AntstorDataControl := {|
  dc_meta := dc_meta r; dc_Spec := v; dc_Status := dc_Status r |}.
Definition dc_set_Status (v : AntstorDataControlStatus) (r : AntstorDataControl) : AntstorDataControl := {|
  dc_meta := dc_meta r; dc_Spec := dc_Spec r; dc_Status := v |}.

(** ** Snapshots *)

(* [v1/snapshot_types.go:49-75] AntstorSnapshotSpec *)
Record AntstorSnapshotSpec := {
  ss_Uuid : string;
  ss_VolType : string;
  ss_KernelLvol : KernelLvol;
  ss_SpdkLvol : SpdkLvol;
  ss_Size : Z;
  ss_OriginVolName : string;
  ss_OriginVolNamespace : string;
  ss_OriginVolTargetNodeID : string;
}.
#[export] Instance AntstorSnapshotSpec_eq : EqDecision AntstorSnapshotSpec.
Proof. solve_decision. Defined.
Definition ss_set_KernelLvol (v : KernelLvol) (r : AntstorSnapshotSpec) : AntstorSnapshotSpec := {|
  ss_Uuid := ss_Uuid r; ss_VolType := ss_VolType r; ss_KernelLvol := v; 
  ss_SpdkLvol := ss_SpdkLvol r; ss_Size := ss_Size r; 
  ss_OriginVolName := ss_OriginVolName r; ss_OriginVolNamespace := ss_OriginVolNamespace r; 
  ss_OriginVolTargetNodeID := ss_OriginVolTargetNodeID r |}.
Definition ss_set_SpdkLvol (v : SpdkLvol) (r : AntstorSnapshotSpec) : AntstorSnapshotSpec := {|
  ss_Uuid := ss_Uuid r; ss_VolType := ss_VolType r; ss_KernelLvol := ss_KernelLvol r; 
  ss_SpdkLvol := v; ss_Size := ss_Size r; ss_OriginVolName := ss_OriginVolName r; 
  ss_OriginVolNamespace := ss_OriginVolNamespace r; 
  ss_OriginVolTargetNodeID := ss_OriginVolTargetNodeID r |}.
Definition ss_set_Size (v : Z) (r : AntstorSnapshotSpec) : AntstorSnapshotSpec := {|
  ss_Uuid := ss_Uuid r; ss_VolType := ss_VolType r; ss_KernelLvol := ss_KernelLvol r; 
  ss_SpdkLvol := ss_SpdkLvol r; ss_Size := v; ss_OriginVolName := ss_OriginVolName r; 
  ss_OriginVolNamespace := ss_OriginVolNamespace r; 
  ss_OriginVolTargetNodeID := ss_OriginVolTargetNodeID r |}.
Definition ss_set_OriginVolTargetNodeID (v : string) (r : AntstorSnapshotSpec) : AntstorSnapshotSpec := {|
  ss_Uuid := ss_Uuid r; ss_VolType := ss_VolType r; ss_KernelLvol := ss_KernelLvol r; 
  ss_SpdkLvol := ss_SpdkLvol r; ss_Size := ss_Size r; 
  ss_OriginVolName := ss_OriginVolName r; ss_OriginVolNamespace := ss_OriginVolNamespace r; 
  ss_OriginVolTargetNodeID := v |}.
Definition ss_set_VolType (v : string) (r : AntstorSnapshotSpec) : AntstorSnapshotSpec := {|
  ss_Uuid := ss_Uuid r; ss_VolType := v; ss_KernelLvol := ss_KernelLvol r; 
  ss_SpdkLvol := ss_SpdkLvol r; ss_Size := ss_Size r; 
  ss_OriginVolName := ss_OriginVolName r; ss_OriginVolNamespace := ss_OriginVolNamespace r; 
  ss_OriginVolTargetNodeID := ss_OriginVolTargetNodeID r |}.
Definition ss_set_Uuid (v : string) (r : AntstorSnapshotSpec) : AntstorSnapshotSpec := {|
  ss_Uuid := v; ss_VolType := ss_VolType r; ss_KernelLvol := ss_KernelLvol r; 
  ss_SpdkLvol := ss_SpdkLvol r; ss_Size := ss_Size r; 
  ss_OriginVolName := ss_OriginVolName r; ss_OriginVolNamespace := ss_OriginVolNamespace r; 
  ss_OriginVolTargetNodeID := ss_OriginVolTargetNodeID r |}.

(* [v1/snapshot_types.go:77-80] AntstorSnapshotStatus *)
Record AntstorSnapshotStatus := {
  sst_Status : string;
}.
#[export] Instance AntstorSnapshotStatus_eq : EqDecision AntstorSnapshotStatus.
Proof. solve_decision. Defined.

(* [v1/snapshot_types.go:39-47] AntstorSnapshot *)
Record AntstorSnapshot := {
  snap_meta : ObjectMeta;
  snap_Spec : AntstorSnapshotSpec;
  snap_Status : AntstorSnapshotStatus;
}.
#[export] Instance AntstorSnapshot_eq : EqDecision AntstorSnapshot.
Proof. solve_decision. Defined.
Definition snap_set_meta (v : ObjectMeta) (r : AntstorSnapshot) : AntstorSnapshot := {|
  snap_meta := v; snap_Spec := snap_Spec r; snap_Status := snap_Status r |}.
Definition snap_set_Spec (v : AntstorSnapshotSpec) (r : AntstorSnapshot) : AntstorSnapshot := {|
  snap_meta := snap_meta r; snap_Spec := v; snap_Status := snap_Status r |}.
Definition snap_set_Status (v : AntstorSnapshotStatus) (r : AntstorSnapshot) : AntstorSnapshot := {|
  snap_meta := snap_meta r; snap_Spec := snap_Spec r; snap_Status := v |}.

(** ** Migrations *)

(* [v1/volume_migration.go:46-58] VolumeInfo *)
Record VolumeInfo := {
  vi_Namespace : string;
  vi_Name : string;
  vi_TargetNodeId : string;
  vi_HostNodeId : string;
  vi_Spdk : SpdkTarget;
}.
#[export] Instance VolumeInfo_eq : EqDecision VolumeInfo.
Proof. solve_decision. Defined.
Definition vi_set_Spdk (v : SpdkTarget) (r : VolumeInfo) : VolumeInfo := {|
  vi_Namespace := vi_Namespace r; vi_Name := vi_Name r; 
  vi_TargetNodeId := vi_TargetNodeId r; vi_HostNodeId := vi_HostNodeId r; vi_Spdk := v |}.

(* [v1/volume_migration.go:60-64] MigrationPipe *)
Record MigrationPipe := {
  mp_DestBdevName : string;
  mp_Status : string;
}.
#[export] Instance MigrationPipe_eq : EqDecision MigrationPipe.
Proof. solve_decision. Defined.

(* [v1/volume_migration.go:70-75] AutoSwitch *)
Record AutoSwitch := {
  as_Enabled : bool;
  as_Status : string;
}.
#[export] Instance AutoSwitch_eq : EqDecision AutoSwitch.
Proof. solve_decision. Defined.

(* [v1/volume_migration.go:77-87] JobProgress *)
Record JobProgress := {
  jp_SrcBdev : string;
  jp_DstBdev : string;
  jp_Status : string;
  jp_TotalWritePages : Z;
  jp_TotalReadPages : Z;
  jp_RoundPassed : Z;
  jp_ElapsedTimeMs : Z;
  jp_IsLastRound : string;
}.
#[export] Instance JobProgress_eq : EqDecision JobProgress.
Proof. solve_decision. Defined.

(* [v1/volume_migration.go:89-105] MigrationInfo *)
Record MigrationInfo := {
  mi_MigrationPipe : MigrationPipe;
  mi_HostConnectStatus : string;
  mi_StartTimestamp : Z;
  mi_AutoSwitch : AutoSwitch;
  mi_JobProgress : JobProgress;
}.
#[export] Instance MigrationInfo_eq : EqDecision MigrationInfo.
Proof. solve_decision. Defined.
Definition mi_set_MigrationPipe (v : MigrationPipe) (r : MigrationInfo) : MigrationInfo := {|
  mi_MigrationPipe := v; mi_HostConnectStatus := mi_HostConnectStatus r; 
  mi_StartTimestamp := mi_StartTimestamp r; mi_AutoSwitch := mi_AutoSwitch r; 
  mi_JobProgress := mi_JobProgress r |}.
Definition mi_set_HostConnectStatus (v : string) (r : MigrationInfo) : MigrationInfo := {|
  mi_MigrationPipe := mi_MigrationPipe r; mi_HostConnectStatus := v; 
  mi_StartTimestamp := mi_StartTimestamp r; mi_AutoSwitch := mi_AutoSwitch r; 
  mi_JobProgress := mi_JobProgress r |}.
Definition mi_set_StartTimestamp (v : Z) (r : MigrationInfo) : MigrationInfo := {|
  mi_MigrationPipe := mi_MigrationPipe r; mi_HostConnectStatus := mi_HostConnectStatus r; 
  mi_StartTimestamp := v; mi_AutoSwitch := mi_AutoSwitch r; 
  mi_JobProgress := mi_JobProgress r |}.
Definition mi_set_AutoSwitch (v : AutoSwitch) (r : MigrationInfo) : MigrationInfo := {|
  mi_MigrationPipe := mi_MigrationPipe r; mi_HostConnectStatus := mi_HostConnectStatus r; 
  mi_StartTimestamp := mi_StartTimestamp r; mi_AutoSwitch := v; 
  mi_JobProgress := mi_JobProgress r |}.
Definition mi_set_JobProgress (v : JobProgress) (r : MigrationInfo) : MigrationInfo := {|
  mi_MigrationPipe := mi_MigrationPipe r; mi_HostConnectStatus := mi_HostConnectStatus r; 
  mi_StartTimestamp := mi_StartTimestamp r; mi_AutoSwitch := mi_AutoSwitch r; 
  mi_JobProgress := v |}.

(* [v1/volume_migration.go:107-118] VolumeMigrationSpec *)
Record VolumeMigrationSpec := {
  ms_SourceVolume : VolumeInfo;
  ms_DestVolume : VolumeInfo;
  ms_MigrationInfo : MigrationInfo;
}.
#[export] Instance VolumeMigrationSpec_eq : EqDecision VolumeMigrationSpec.
Proof. solve_decision. Defined.
Definition ms_set_SourceVolume (v : VolumeInfo) (r : VolumeMigrationSpec) : VolumeMigrationSpec := {|
  ms_SourceVolume := v; ms_DestVolume := ms_DestVolume r; 
  ms_MigrationInfo := ms_MigrationInfo r |}.
Definition ms_set_DestVolume (v : VolumeInfo) (r : VolumeMigrationSpec) : VolumeMigrationSpec := {|
  ms_SourceVolume := ms_SourceVolume r; ms_DestVolume := v; 
  ms_MigrationInfo := ms_MigrationInfo r |}.
Definition ms_set_MigrationInfo (v : MigrationInfo) (r : VolumeMigrationSpec) : VolumeMigrationSpec := {|
  ms_SourceVolume := ms_SourceVolume r; ms_DestVolume := ms_DestVolume r; 
  ms_MigrationInfo := v |}.

(* [v1/volume_migration.go:120-130] VolumeMigrationStatus *)
Record VolumeMigrationStatus := {
  mst_Phase : string;
  mst_Status : string;
  mst_Message : string;
}.
#[export] Instance VolumeMigrationStatus_eq : EqDecision VolumeMigrationStatus.
Proof. solve_decision. Defined.
Definition mst_set_Phase (v : string) (r : VolumeMigrationStatus) : VolumeMigrationStatus := {|
  mst_Phase := v; mst_Status := mst_Status r; mst_Message := mst_Message r |}.
Definition mst_set_Status (v : string) (r : VolumeMigrationStatus) : VolumeMigrationStatus := {|
  mst_Phase := mst_Phase r; mst_Status := v; mst_Message := mst_Message r |}.
Definition mst_set_Message (v : string) (r : VolumeMigrationStatus) : VolumeMigrationStatus := {|
  mst_Phase := mst_Phase r; mst_Status := mst_Status r; mst_Message := v |}.

(* [v1/volume_migration.go:142-150] VolumeMigration *)
Record VolumeMigration := {
  mig_meta : ObjectMeta;
  mig_Spec : VolumeMigrationSpec;
  mig_Status : VolumeMigrationStatus;
}.
#[export] Instance VolumeMigration_eq : EqDecision VolumeMigration.
Proof. solve_decision. Defined.
Definition mig_set_meta (v : ObjectMeta) (r : VolumeMigration) : VolumeMigration := {|
  mig_meta := v; mig_Spec := mig_Spec r; mig_Status := mig_Status r |}.
Definition mig_set_Spec (v : VolumeMigrationSpec) (r : VolumeMigration) : VolumeMigration := {|
  mig_meta := mig_meta r; mig_Spec := v; mig_Status := mig_Status r |}.
Definition mig_set_Status (v : VolumeMigrationStatus) (r : VolumeMigration) : VolumeMigration := {|
  mig_meta := mig_meta r; mig_Spec := mig_Spec r; mig_Status := v |}.
(** ** Methods of the resources *)

Definition vol_Name (v : AntstorVolume) : string := om_Name (vol_meta v).
Definition vol_Namespace (v : AntstorVolume) : string := om_Namespace (vol_meta v).

(** The value [strconv.Atoi] leaves in the variable, used even on an error. *)
Definition anno_int (annos : gomap string) (key : string) : Z :=
  match map_get annos key with Some v => (Atoi v).1 | None => 0 end.

(* [v1/volume_func.go:10-37] AntstorVolume.GetTotalSize *)
Definition GetTotalSize (vol : AntstorVolume) : Z :=
  let reservedSnapSize := anno_int (om_Annotations (vol_meta vol)) SnapshotReservedSpaceAnnotationKey in
  let allocatedSize := anno_int (om_Annotations (vol_meta vol)) AllocatedSizeAnnoKey in
  if decide (allocatedSize > 0)%Z
  then uwrap64 (wrap64 (allocatedSize + reservedSnapSize))
  else uwrap64 (vs_SizeByte (vol_Spec vol) + uwrap64 reservedSnapSize).

(** [vol.Spec.HostNode.ID]: panics on a nil host node. *)
Definition HostNode_ID {S} (vol : AntstorVolume) : go S string :=
  h ← deref "HostNode" (vs_HostNode (vol_Spec vol)); mret (ni_ID h).

(* [v1/volume_func.go:39-41] AntstorVolume.IsLocal *)
Definition IsLocal {S} (vol : AntstorVolume) : go S bool :=
  id ← HostNode_ID vol; mret (bool_decide (id = vs_TargetNodeId (vol_Spec vol))).

(* [v1/volume_func.go:43-49] AntstorVolume.ReservationID *)
Definition ReservationID (vol : AntstorVolume) : string :=
  map_str (om_Annotations (vol_meta vol)) ReservationIDKey.

(* [v1/volume_func.go:51-53] SpdkLvol.FullName *)
Definition SpdkLvol_FullName (l : SpdkLvol) : string := sl_LvsName l +:+ "/" +:+ sl_Name l.

Section pool_methods.
Context {L : K8sLib}.

(** [q.AsInt64()] and, when it fails, the rounded float. *)
Definition Quantity_bytes (q : Quantity) : Z :=
  let '(bytes, ok) := Quantity_AsInt64 q in
  if (ok : bool) then bytes else f64_round_int64 (Quantity_AsApproximateFloat64 q).

(* [v1/pool_func.go:7-29] StoragePool.GetVgTotalBytes *)
Definition GetVgTotalBytes (sp : StoragePool) : Z :=
  let bytes0 := 0%Z in
  let lvm := klvm_Bytes (sps_KernelLVM (sp_Spec sp)) in
  let bytes1 := if decide (bytes0 ≤ 0 ∧ lvm > 0)%Z then wrap64 lvm else bytes0 in
  let lvs := lvst_Bytes (sps_SpdkLVStore (sp_Spec sp)) in
  let bytes2 := if decide (bytes1 ≤ 0 ∧ lvs > 0)%Z then wrap64 lvs else bytes1 in
  if decide (bytes2 ≤ 0)%Z
  then Quantity_bytes (default Quantity_zero (map_get (spst_Capacity (sp_Status sp)) ResourceDiskPoolByte))
  else bytes2.

(* [v1/pool_func.go:31-40] StoragePool.GetVgFreeBytes *)
Definition GetVgFreeBytes (sp : StoragePool) : Z := Quantity_bytes (spst_VGFreeSize (sp_Status sp)).

(* [v1/pool_func.go:42-52] StoragePool.GetAvailableBytes *)
Definition GetAvailableBytes (sp : StoragePool) : Z :=
  foldl (λ size item, wrap64 (size - wrap64 (rl_SizeByte item)))
    (GetVgTotalBytes sp) (klvm_ReservedLVol (sps_KernelLVM (sp_Spec sp))).

(* [v1/pool_func.go:72-78] StoragePool.IsSchedulable *)
Definition IsSchedulable (sp : StoragePool) : bool :=
  let labelLocked :=
    match map_get (om_Labels (sp_meta sp)) PoolSchedulingStatusLabelKey with
    | Some val => bool_decide (val = PoolSchedulingStatusLocked)
    | None => false
    end in
  let statusNotReady := bool_decide (spst_Status (sp_Status sp) ≠ PoolStatusReady) in
  negb labelLocked && negb statusNotReady.

(* [v1/pool_func.go:80-88] StoragePool.Mode *)
Definition Pool_Mode (sp : StoragePool) : string :=
  let mode0 := "" in
  let mode1 := if decide (klvm_Name (sps_KernelLVM (sp_Spec sp)) ≠ "") then PoolModeKernelLVM else mode0 in
  if decide (lvst_Name (sps_SpdkLVStore (sp_Spec sp)) ≠ "") then PoolModeSpdkLVStore else mode1.

Context {HL : K8sLaws L}.

Lemma Quantity_bytes_new z : is_int64 z → Quantity_bytes (NewQuantity z) = z.
Proof. intros Hz. unfold Quantity_bytes. by rewrite nano_as_int64_new. Qed.

Lemma Quantity_bytes_range q : is_int64 (Quantity_bytes q).
Proof.
  unfold Quantity_bytes. pose proof (nano_as_int64_range q) as Hr.
  destruct (Quantity_AsInt64 q) as [b []]; [done|auto with liteio].
Qed.

Lemma GetVgTotalBytes_range sp : is_int64 (GetVgTotalBytes sp).
Proof.
  unfold GetVgTotalBytes.
  repeat case_decide; auto using Quantity_bytes_range with liteio; unfold is_int64; lia.
Qed.

Lemma GetAvailableBytes_range sp : is_int64 (GetAvailableBytes sp).
Proof.
  unfold GetAvailableBytes. pose proof (GetVgTotalBytes_range sp) as H.
  revert H. generalize (GetVgTotalBytes sp).
  induction (klvm_ReservedLVol _) as [|r l IH]; intros z Hz; simpl; [done|].
  apply IH. auto with liteio.
Qed.

(** Without overflow the available space is the total minus the reserved
    logical volumes. *)
Lemma GetAvailableBytes_sum sp :
  Forall (λ r, 0 ≤ rl_SizeByte r)%Z (klvm_ReservedLVol (sps_KernelLVM (sp_Spec sp))) →
  (sumZ (rl_SizeByte <$> klvm_ReservedLVol (sps_KernelLVM (sp_Spec sp))) < 9223372036854775808)%Z →
  (0 ≤ GetVgTotalBytes sp)%Z →
  GetAvailableBytes sp =
    (GetVgTotalBytes sp - sumZ (rl_SizeByte <$> klvm_ReservedLVol (sps_KernelLVM (sp_Spec sp))))%Z.
Proof.
  unfold GetAvailableBytes. pose proof (GetVgTotalBytes_range sp) as Hr.
  intros Hall Hsum H0.
  assert (∀ z l, Forall (λ r, 0 ≤ rl_SizeByte r)%Z l → is_int64 z →
    (-9223372036854775808 ≤ z - sumZ (rl_SizeByte <$> l))%Z →
    (sumZ (rl_SizeByte <$> l) < 9223372036854775808)%Z →
    foldl (λ size item, wrap64 (size - wrap64 (rl_SizeByte item))) z l =
      (z - sumZ (rl_SizeByte <$> l))%Z) as Hgen.
  { intros z l Hl. revert z. induction Hl as [|r l Hr0 Hl IH]; intros z Hz Hlo Hs.
    { simpl. lia. }
    rewrite sumZ_fmap_cons in *. cbn [foldl].
    pose proof (sumZ_fmap_nonneg _ _ Hl) as Hnn.
    unfold is_int64 in Hz.
    rewrite (wrap64_id (rl_SizeByte r)) by (unfold is_int64; lia).
    rewrite wrap64_id by (unfold is_int64; lia).
    rewrite IH; [lia|unfold is_int64; lia|lia|lia]. }
  apply Hgen; try done. lia.
Qed.
End pool_methods.

Lemma GetTotalSize_range vol : is_uint64 (GetTotalSize vol).
Proof. unfold GetTotalSize. case_decide; auto with liteio. Qed.

#[export] Hint Resolve GetTotalSize_range : liteio.

(** [GetTotalSize] of a volume without annotations is its requested size. *)
Lemma GetTotalSize_plain vol :
  om_Annotations (vol_meta vol) = None → is_uint64 (vs_SizeByte (vol_Spec vol)) →
  GetTotalSize vol = vs_SizeByte (vol_Spec vol).
Proof.
  intros Ha Hs. unfold GetTotalSize, anno_int. rewrite Ha. simpl.
  change (uwrap64 0) with 0%Z. rewrite Z.add_0_r. by apply uwrap64_id.
Qed.
