(* ===== verification/State.v ===== *)
(** * The manager's in-memory state

    [pkg/controller/manager/state]: reservations ([reservation.go]), the node
    of a storage pool with its volumes and its free resource ([node.go]), and
    the map of nodes with the index of volumes ([state.go]).

    A [Node] of the source holds [Info], a pointer into its own pool: it is the
    projection [nd_Info] here. Operations take the receiver and return it
    updated; the mutexes serialise them. *)

From Stdlib Require Import ZArith Lia.
From stdpp Require Import base gmap strings option list.
From S2P Require Import Prelude Strconv Float64 Misc K8s Api.

(** ** Reservations *)

(* [state/reservation.go:74-78] reservation *)
Record Reservation := {
  rv_id : string;
  rv_namespacedName : string;
  rv_sizeByte : Z;
}.

(** The field [rMap] of [reservationSet]. *)
Abbreviation ReservationSet := (gmap string Reservation).

(* [state/reservation.go:31-36] NewReservationSet *)
Definition NewReservationSet : ReservationSet := ∅.

(* [state/reservation.go:38-42] reservationSet.Reserve *)
Definition rs_Reserve (r : Reservation) (rs : ReservationSet) : ReservationSet := <[rv_id r := r]> rs.

(* [state/reservation.go:44-48] reservationSet.Unreserve *)
Definition rs_Unreserve (id : string) (rs : ReservationSet) : ReservationSet := delete id rs.

(* [state/reservation.go:50-59] reservationSet.Items *)
Definition rs_Items (rs : ReservationSet) : list Reservation := (map_to_list rs).*2.

(* [state/reservation.go:61-72] reservationSet.GetById *)
Definition rs_GetById (id : string) (rs : ReservationSet) : option Reservation :=
  List.find (λ item, bool_decide (rv_id item = id)) (rs_Items rs).

(* [state/reservation.go:80-85] NewReservation *)
Definition NewReservation (id : string) (size : Z) : Reservation :=
  {| rv_id := id; rv_namespacedName := ""; rv_sizeByte := size |}.

(* [state/reservation.go:115-130] getVolumeReservationID *)
Definition getVolumeReservationID (vol : AntstorVolume) : string :=
  match map_get (om_Annotations (vol_meta vol)) ReservationIDKey with
  | Some resvId => resvId
  | None =>
      let pvcNS := map_str (om_Labels (vol_meta vol)) VolumeContextKeyPvcNS in
      let pvcName := map_str (om_Labels (vol_meta vol)) VolumeContextKeyPvcName in
      if decide (pvcNS ≠ "" ∧ pvcName ≠ "") then pvcNS +:+ "/" +:+ pvcName else ""
  end.

(* [state/state.go:15-15] ErrDuplicateVolume *)
Definition ErrDuplicateVolume : error := ErrNew "DuplicatedVolume".
(* [state/state.go:16-16] ErrNotFoundVolumeByID *)
Definition ErrNotFoundVolumeByID : error := ErrNew "ErrNotFoundVolumeByID".
(* [state/state.go:17-17] ErrNotFoundNode *)
Definition ErrNotFoundNode : error := ErrNew "NotFoundNode".

(* [state/state.go:224-226] newNotFoundNodeError *)
Definition newNotFoundNodeError (id : string) : error :=
  ErrWrap ("NotFoundNode by id " +:+ id) ErrNotFoundNode.

(* [state/state.go:228-234] IsNotFoundNodeError *)
Definition IsNotFoundNodeError (err : option error) : bool :=
  match err with Some e => errors_Is e ErrNotFoundNode | None => false end.

Section state.
Context {L : K8sLib}.

(* [state/reservation.go:87-101] NewPvcReservation *)
Definition NewPvcReservation (pvc : ObjectMeta) (requests : ResourceList) : option Reservation :=
  match om_DeletionTimestamp pvc with
  | Some _ => None
  | None =>
      let pvcName := om_Namespace pvc +:+ "/" +:+ om_Name pvc in
      let size := f64_round_int64 (Quantity_AsApproximateFloat64 (ResourceList_Storage requests)) in
      Some {| rv_id := pvcName; rv_namespacedName := pvcName; rv_sizeByte := size |}
  end.

(** ** Nodes *)

(* [state/node.go:13-27] Node *)
Record Node := {
  nd_Pool : StoragePool;
  nd_Volumes : list AntstorVolume;
  nd_FreeResource : ResourceList;
  nd_resvSet : ReservationSet;
}.

Definition nd_Info (n : Node) : NodeInfo := sps_NodeInfo (sp_Spec (nd_Pool n)).
Definition nd_set_Pool (p : StoragePool) (n : Node) : Node :=
  {| nd_Pool := p; nd_Volumes := nd_Volumes n; nd_FreeResource := nd_FreeResource n;
     nd_resvSet := nd_resvSet n |}.
Definition nd_set_Volumes (v : list AntstorVolume) (n : Node) : Node :=
  {| nd_Pool := nd_Pool n; nd_Volumes := v; nd_FreeResource := nd_FreeResource n;
     nd_resvSet := nd_resvSet n |}.
Definition nd_set_FreeResource (f : ResourceList) (n : Node) : Node :=
  {| nd_Pool := nd_Pool n; nd_Volumes := nd_Volumes n; nd_FreeResource := f;
     nd_resvSet := nd_resvSet n |}.
Definition nd_set_resvSet (rs : ReservationSet) (n : Node) : Node :=
  {| nd_Pool := nd_Pool n; nd_Volumes := nd_Volumes n; nd_FreeResource := nd_FreeResource n;
     nd_resvSet := rs |}.

(** The loop over the reservations: a reservation whose volume is bound is
    removed from the set, any other one is counted. *)
Definition free_resv_step (volResvIDs : MapSet.t) (acc : Z * ReservationSet) (item : Reservation)
    : Z * ReservationSet :=
  let '(toMinus, rs) := acc in
  if negb (MapSet.Contains volResvIDs (rv_id item))
  then (wrap64 (toMinus + rv_sizeByte item), rs)
  else (toMinus, rs_Unreserve (rv_id item) rs).

(** What [GetFreeResourceNonLock] subtracts, when the reservations are visited
    in the order [items], and the reservations left. *)
Definition free_minus (hasStorage : bool) (n : Node) (items : list Reservation) : Z * ReservationSet :=
  let minus0 :=
    foldl (λ acc item, if hasStorage then wrap64 (acc + wrap64 (rl_SizeByte item)) else acc)
      0%Z (klvm_ReservedLVol (sps_KernelLVM (sp_Spec (nd_Pool n)))) in
  let '(volResvIDs, minus1) :=
    foldl (λ acc vol, if hasStorage
                      then (MapSet.Add acc.1 (getVolumeReservationID vol),
                            wrap64 (acc.2 + wrap64 (GetTotalSize vol)))
                      else acc)
      (MapSet.NewEmptySet, minus0) (nd_Volumes n) in
  foldl (free_resv_step volResvIDs) (minus1, nd_resvSet n) items.

Definition free_resource_in_order (n : Node) (items : list Reservation) : ResourceList * Node :=
  let free := default ∅ (spst_Capacity (sp_Status (nd_Pool n))) in
  let hasStorage := bool_decide (is_Some (free !! ResourceDiskPoolByte)) in
  let '(toMinus, rs) := free_minus hasStorage n items in
  let free' := match free !! ResourceDiskPoolByte with
               | Some q => <[ResourceDiskPoolByte := Quantity_Sub q (NewQuantity toMinus)]> free
               | None => free
               end in
  (Some free', nd_set_resvSet rs n).

(* [state/node.go:178-234] Node.GetFreeResourceNonLock *)
Definition GetFreeResourceNonLock (n : Node) : ResourceList * Node :=
  free_resource_in_order n (rs_Items (nd_resvSet n)).

(** [n.FreeResource = n.GetFreeResourceNonLock()] *)
Definition update_free (n : Node) : Node :=
  let '(free, n') := GetFreeResourceNonLock n in nd_set_FreeResource free n'.

(* [state/node.go:29-41] NewNode *)
Definition NewNode (pool : StoragePool) : Node :=
  update_free {| nd_Pool := pool; nd_Volumes := []; nd_FreeResource := None;
                 nd_resvSet := NewReservationSet |}.

(** Whether some selected annotation makes the count ignore the volume. *)
Definition ignored_by (ignoreAnnoSelector : gomap string) (item : AntstorVolume) : bool :=
  existsb (λ kv, bool_decide (map_get (om_Annotations (vol_meta item)) kv.1 = Some kv.2))
    (map_to_list (default ∅ ignoreAnnoSelector)).

(* [state/node.go:43-59] Node.RemoteVolumesCount *)
Definition RemoteVolumesCount (ignoreAnnoSelector : gomap string) (n : Node) : Z :=
  foldl (λ cnt item,
      if ignored_by ignoreAnnoSelector item then cnt
      else match vs_HostNode (vol_Spec item) with
           | Some h => if decide (vs_TargetNodeId (vol_Spec item) ≠ "" ∧
                                  vs_TargetNodeId (vol_Spec item) ≠ ni_ID h)
                       then (cnt + 1)%Z else cnt
           | None => cnt
           end) 0%Z (nd_Volumes n).

(** The loop of [AddVolume] over the volumes present: their new list, whether
    one was replaced, and the error that stopped it. *)
Fixpoint AddVolume_loop (vol : AntstorVolume) (items : list AntstorVolume) (duplicate : bool)
    : list AntstorVolume * bool * option error :=
  match items with
  | [] => ([], duplicate, None)
  | item :: rest =>
      if decide (vol_Name item = vol_Name vol) then
        if decide (vs_SizeByte (vol_Spec item) ≠ vs_SizeByte (vol_Spec vol))
        then (item :: rest, duplicate, Some ErrDuplicateVolume)
        else
          let '(rest', dup, err) := AddVolume_loop vol rest true in (vol :: rest', dup, err)
      else
        let '(rest', dup, err) := AddVolume_loop vol rest duplicate in (item :: rest', dup, err)
  end.

(** [vol.Spec.TargetNodeId = n.Pool.Spec.NodeInfo.ID]: the assignment comes
    before every use of the volume that follows it. *)
Definition place_on (n : Node) (vol : AntstorVolume) : AntstorVolume :=
  vol_set_Spec (vs_set_TargetNodeId (ni_ID (nd_Info n)) (vol_Spec vol)) vol.

(** Deletes the reservation a volume names. *)
Definition drop_reservation (vol : AntstorVolume) (n : Node) : Node :=
  if decide (getVolumeReservationID vol ≠ "")
  then nd_set_resvSet (rs_Unreserve (getVolumeReservationID vol) (nd_resvSet n)) n
  else n.

(* [state/node.go:61-101] Node.AddVolume *)
Definition AddVolume (vol : AntstorVolume) (n : Node) : Node * option error :=
  let n1 := drop_reservation vol n in
  let '(items, duplicate, err) := AddVolume_loop (place_on n1 vol) (nd_Volumes n1) false in
  let n2 := nd_set_Volumes items n1 in
  match err with
  | Some e => (n2, Some e)
  | None =>
      let n3 := if duplicate : bool then n2
                else nd_set_Volumes (nd_Volumes n2 ++ [place_on n1 vol]) n2 in
      (update_free n3, None)
  end.

(** Deletes the first volume with the id; [None] when there is none. *)
Fixpoint remove_first (volID : string) (l : list AntstorVolume) : option (list AntstorVolume) :=
  match l with
  | [] => None
  | item :: rest =>
      if decide (vs_Uuid (vol_Spec item) = volID) then Some rest
      else cons item <$> remove_first volID rest
  end.

(* [state/node.go:103-127] Node.RemoveVolumeByID *)
Definition RemoveVolumeByID (volID : string) (n : Node) : Node :=
  match remove_first volID (nd_Volumes n) with
  | Some vols => update_free (nd_set_Volumes vols n)
  | None => n
  end.

(* [state/node.go:129-145] Node.GetVolumeByID *)
Definition Node_GetVolumeByID (volID : string) (n : Node) : result AntstorVolume :=
  match List.find (λ item, bool_decide (vs_Uuid (vol_Spec item) = volID)) (nd_Volumes n) with
  | Some vol => inl vol
  | None => inr ErrNotFoundVolumeByID
  end.

Definition is_local_vol (item : AntstorVolume) : bool :=
  match vs_HostNode (vol_Spec item) with
  | Some h => bool_decide (vs_TargetNodeId (vol_Spec item) = ni_ID h)
  | None => false
  end.
Definition is_remote_vol (item : AntstorVolume) : bool :=
  match vs_HostNode (vol_Spec item) with
  | Some h => bool_decide (vs_TargetNodeId (vol_Spec item) ≠ ni_ID h)
  | None => false
  end.

(* [state/node.go:147-156] Node.GetAllocatedLocalBytes *)
Definition GetAllocatedLocalBytes (n : Node) : Z :=
  foldl (λ size item, if is_local_vol item then uwrap64 (size + GetTotalSize item) else size)
    0%Z (nd_Volumes n).

(* [state/node.go:158-167] Node.GetAllocatedRemoteBytes *)
Definition GetAllocatedRemoteBytes (n : Node) : Z :=
  foldl (λ size item, if is_remote_vol item then uwrap64 (size + GetTotalSize item) else size)
    0%Z (nd_Volumes n).

(* [state/node.go:169-176] Node.GetReservedVolBytes *)
Definition GetReservedVolBytes (n : Node) : Z :=
  foldl (λ size item, uwrap64 (size + rl_SizeByte item)) 0%Z
    (klvm_ReservedLVol (sps_KernelLVM (sp_Spec (nd_Pool n)))).

(* [state/node.go:236-260] Node.Reserve *)
Definition Node_Reserve (r : Reservation) (n : Node) : Node :=
  if existsb (λ vol, bool_decide (rv_id r = getVolumeReservationID vol)) (nd_Volumes n) then n
  else if decide (Quantity_CmpInt64 (ResourceList_Storage (nd_FreeResource n)) (rv_sizeByte r) < 0)%Z
  then n
  else update_free (nd_set_resvSet (rs_Reserve r (nd_resvSet n)) n).

(* [state/node.go:262-270] Node.Unreserve *)
Definition Node_Unreserve (id : string) (n : Node) : Node :=
  update_free (nd_set_resvSet (rs_Unreserve id (nd_resvSet n)) n).

(* [state/node.go:272-274] Node.GetReservation *)
Definition Node_GetReservation (id : string) (n : Node) : option Reservation :=
  rs_GetById id (nd_resvSet n).

(** ** The state *)

(* [state/state.go:39-45] state *)
Record State := {
  NodeMap : gmap string Node;
  volIDMap : gmap string string;
}.
Definition st_set_NodeMap (m : gmap string Node) (s : State) : State :=
  {| NodeMap := m; volIDMap := volIDMap s |}.
Definition st_set_volIDMap (m : gmap string string) (s : State) : State :=
  {| NodeMap := NodeMap s; volIDMap := m |}.

(* [state/state.go:47-52] NewState *)
Definition NewState : State := {| NodeMap := ∅; volIDMap := ∅ |}.

(* [state/state.go:54-63] state.GetAllNodes *)
Definition GetAllNodes (s : State) : list Node := (map_to_list (NodeMap s)).*2.

(* [state/state.go:65-76] state.FindVolumesByNodeID *)
Definition FindVolumesByNodeID (nodeID : string) (s : State) : result (list AntstorVolume) :=
  match NodeMap s !! nodeID with
  | Some node => inl (nd_Volumes node)
  | None => inr (newNotFoundNodeError nodeID)
  end.

(* [state/state.go:78-90] state.GetNodeByNodeID *)
Definition GetNodeByNodeID (nodeID : string) (s : State) : result Node :=
  match NodeMap s !! nodeID with
  | Some node => inl node
  | None => inr (newNotFoundNodeError nodeID)
  end.

(* [state/state.go:92-105] state.GetStoragePoolByNodeID *)
Definition GetStoragePoolByNodeID (nodeID : string) (s : State) : result StoragePool :=
  match NodeMap s !! nodeID with
  | Some node => inl (nd_Pool node)
  | None => inr (newNotFoundNodeError nodeID)
  end.

(** The capacity [SetStoragePool] leaves in the pool it is given. *)
Definition set_pool_capacity (pool : StoragePool) : StoragePool :=
  let cap := default ∅ (spst_Capacity (sp_Status pool)) in
  let set c := sp_set_Status (spst_set_Capacity (Some c) (sp_Status pool)) pool in
  let hasStorageCapacity := bool_decide (is_Some (cap !! ResourceDiskPoolByte)) in
  let totalVgBytes := GetVgTotalBytes (set cap) in
  if decide (totalVgBytes > 0 ∧ hasStorageCapacity = false)%Z
  then set (<[ResourceDiskPoolByte := NewQuantity totalVgBytes]> cap)
  else set cap.

(* [state/state.go:107-135] state.SetStoragePool *)
Definition SetStoragePool (pool0 : StoragePool) (s : State) : StoragePool * State :=
  let pool := set_pool_capacity pool0 in
  let id := ni_ID (sps_NodeInfo (sp_Spec pool)) in
  (pool,
   match NodeMap s !! id with
   | Some val => st_set_NodeMap (<[id := update_free (nd_set_Pool pool val)]> (NodeMap s)) s
   | None => st_set_NodeMap (<[id := NewNode pool]> (NodeMap s)) s
   end).

(* [state/state.go:137-145] state.UpdateStoragePoolStatus *)
Definition UpdateStoragePoolStatus (nodeID status : string) (s : State) : State :=
  match NodeMap s !! nodeID with
  | Some val =>
      let p := nd_Pool val in
      let val' := nd_set_Pool (sp_set_Status (spst_set_Status status (sp_Status p)) p) val in
      st_set_NodeMap (<[nodeID := val']> (NodeMap s)) s
  | None => s
  end.

(* [state/state.go:147-152] state.RemoveStoragePool *)
Definition RemoveStoragePool (nodeID : string) (s : State) : State :=
  st_set_NodeMap (delete nodeID (NodeMap s)) s.

(* [state/state.go:154-179] state.BindAntstorVolume *)
Definition BindAntstorVolume (nodeID : string) (vol : AntstorVolume) (s : State)
    : State * option error :=
  match NodeMap s !! nodeID with
  | None => (s, Some (newNotFoundNodeError nodeID))
  | Some node =>
      if decide (vs_Uuid (vol_Spec vol) = "") then
        (s, Some (ErrNew ("volume name=" +:+ vol_Name vol +:+
                          ", volume UUID cannot be empty")))
      else
        let '(node', err) := AddVolume vol node in
        let s1 := st_set_NodeMap (<[nodeID := node']> (NodeMap s)) s in
        match err with
        | Some e => (s1, Some e)
        | None => (st_set_volIDMap (<[vs_Uuid (vol_Spec vol) := nodeID]> (volIDMap s1)) s1, None)
        end
  end.

(* [state/state.go:181-203] state.UnbindAntstorVolume *)
Definition UnbindAntstorVolume (volID : string) (s : State) : State * option error :=
  match volIDMap s !! volID with
  | None => (s, Some (ErrNew ("cannot find Node by volID " +:+ volID)))
  | Some nodeID =>
      match NodeMap s !! nodeID with
      | None => (s, Some (ErrNew ("not found node by id " +:+ nodeID)))
      | Some node =>
          ({| NodeMap := <[nodeID := RemoveVolumeByID volID node]> (NodeMap s);
              volIDMap := delete volID (volIDMap s) |}, None)
      end
  end.

(* [state/state.go:205-222] state.GetVolumeByID *)
Definition GetVolumeByID (volID : string) (s : State) : result AntstorVolume :=
  match volIDMap s !! volID with
  | None => inr (ErrNew ("cannot find Node by volID " +:+ volID))
  | Some nodeID =>
      match NodeMap s !! nodeID with
      | None => inr (ErrNew ("not found node by id " +:+ nodeID))
      | Some node => Node_GetVolumeByID volID node
      end
  end.
End state.

(** ** What the free resource is *)

Section state_spec.
Context {L : K8sLib}.

(** The ids of the reservations bound by the node's volumes. *)
Definition bound_ids (n : Node) : gset string :=
  list_to_set (getVolumeReservationID <$> nd_Volumes n).

(** The reservations no volume of the node has taken up. *)
Definition unbound (n : Node) (items : list Reservation) : list Reservation :=
  filter (λ r, rv_id r ∉ bound_ids n) items.

(** The bytes committed on a node: reserved logical volumes, volumes with
    their snapshot space, and the reservations not bound yet. *)
Definition committed_by (n : Node) (items : list Reservation) : Z :=
  (sumZ (rl_SizeByte <$> klvm_ReservedLVol (sps_KernelLVM (sp_Spec (nd_Pool n)))) +
   sumZ (GetTotalSize <$> nd_Volumes n) +
   sumZ (rv_sizeByte <$> unbound n items))%Z.
Definition committed (n : Node) : Z := committed_by n (rs_Items (nd_resvSet n)).

Definition resv_wf (rs : ReservationSet) : Prop := map_Forall (λ k r, rv_id r = k) rs.

(** The stored free resource is the one [GetFreeResourceNonLock] computes. *)
Definition free_coherent (n : Node) : Prop :=
  nd_FreeResource n = (GetFreeResourceNonLock n).1.

Record node_wf (id : string) (n : Node) : Prop := {
  nwf_id : ni_ID (nd_Info n) = id;
  nwf_resv : resv_wf (nd_resvSet n);
  nwf_target : Forall (λ v, vs_TargetNodeId (vol_Spec v) = id) (nd_Volumes n);
  nwf_uuid : Forall (λ v, vs_Uuid (vol_Spec v) ≠ "") (nd_Volumes n);
  nwf_names : NoDup (vol_Name <$> nd_Volumes n);
}.

Definition state_wf (s : State) : Prop := map_Forall node_wf (NodeMap s).

(** The operations of the manager on the state, their results dropped, and
    runs of them. *)
Inductive state_action :=
| ASetPool (pool : StoragePool)
| AUpdateStatus (nodeID status : string)
| ARemovePool (nodeID : string)
| ABind (nodeID : string) (vol : AntstorVolume)
| AUnbind (volID : string)
| AReserve (nodeID : string) (r : Reservation)
| AUnreserve (nodeID resvID : string)
| AReadFree (nodeID : string).

Definition on_node (nodeID : string) (f : Node → Node) (s : State) : State :=
  match NodeMap s !! nodeID with
  | Some n => st_set_NodeMap (<[nodeID := f n]> (NodeMap s)) s
  | None => s
  end.

Definition state_exec (a : state_action) (s : State) : State :=
  match a with
  | ASetPool pool => (SetStoragePool pool s).2
  | AUpdateStatus id st => UpdateStoragePoolStatus id st s
  | ARemovePool id => RemoveStoragePool id s
  | ABind id vol => (BindAntstorVolume id vol s).1
  | AUnbind volID => (UnbindAntstorVolume volID s).1
  | AReserve id r => on_node id (Node_Reserve r) s
  | AUnreserve id rid => on_node id (Node_Unreserve rid) s
  | AReadFree id => on_node id (λ n, (GetFreeResourceNonLock n).2) s
  end.

Definition state_run (acts : list state_action) (s : State) : State :=
  foldl (λ s a, state_exec a s) s acts.

(** An action that does not ask to bind a volume carrying a reservation under
    a name the node already uses with another size. *)
Definition action_clean (a : state_action) (s : State) : Prop :=
  match a with
  | ABind id vol => getVolumeReservationID vol = "" ∨
                    (BindAntstorVolume id vol s).2 ≠ Some ErrDuplicateVolume
  | _ => True
  end.
Fixpoint actions_clean (acts : list state_action) (s : State) : Prop :=
  match acts with
  | [] => True
  | a :: rest => action_clean a s ∧ actions_clean rest (state_exec a s)
  end.

Definition state_coherent (s : State) : Prop := map_Forall (λ _, free_coherent) (NodeMap s).
End state_spec.

Section free_lemmas.
Context {L : K8sLib}.
Implicit Types (n : Node) (v vol : AntstorVolume) (s : State).

Lemma resv_fold_fst ids items m rs :
  (foldl (free_resv_step ids) (m, rs) items).1 =
  foldl (λ a r, wrap64 (a + rv_sizeByte r)) m (filter (λ r, rv_id r ∉ ids) items).
Proof.
  revert m rs. induction items as [|r items IH]; intros m rs; [done|]. cbn [foldl].
  rewrite filter_cons. unfold free_resv_step at 2, MapSet.Contains.
  case_bool_decide; simpl; case_decide; try done; apply IH.
Qed.

Lemma resv_fold_snd ids items m rs k :
  (foldl (free_resv_step ids) (m, rs) items).2 !! k =
  if decide (k ∈ ids ∧ k ∈ rv_id <$> items) then None else rs !! k.
Proof.
  revert m rs. induction items as [|r items IH]; intros m rs; cbn [foldl].
  { rewrite decide_False; [done|]. intros [_ H]. by apply elem_of_nil in H. }
  unfold free_resv_step at 2, MapSet.Contains. rewrite fmap_cons.
  case_bool_decide as Hin; cbn [negb]; rewrite IH.
  - unfold rs_Unreserve. destruct (decide (rv_id r = k)) as [Heq|Hne].
    + rewrite Heq, lookup_delete_eq in *. rewrite (decide_True (P := k ∈ ids ∧ k ∈ k :: _)).
      * by case_decide.
      * split; [done|by left].
    + rewrite lookup_delete_ne by done. f_equal.
      apply decide_ext. rewrite elem_of_cons. naive_solver.
  - apply decide_ext. rewrite elem_of_cons. naive_solver.
Qed.

Lemma vol_ids_fold (vols : list AntstorVolume) (ids : MapSet.t) m :
  foldl (λ acc vol, (MapSet.Add acc.1 (getVolumeReservationID vol),
                     wrap64 (acc.2 + wrap64 (GetTotalSize vol)))) (ids, m) vols =
  (list_to_set (getVolumeReservationID <$> vols) ∪ ids,
   foldl (λ a vol, wrap64 (a + wrap64 (GetTotalSize vol))) m vols).
Proof.
  revert ids m. induction vols as [|v vols IH]; intros ids m; simpl.
  { f_equal. by rewrite (left_id_L ∅ (∪)). }
  rewrite IH. f_equal. unfold MapSet.Add. set_solver.
Qed.

Lemma foldl_id {A B} (l : list B) (a : A) : foldl (λ acc _, acc) a l = a.
Proof. by induction l. Qed.

(** Both components of [free_minus] when the pool has a storage capacity. *)
Lemma free_minus_true n items :
  (free_minus true n items).1 = wrap64 (committed_by n items) ∧
  ∀ k, (free_minus true n items).2 !! k =
       if decide (k ∈ bound_ids n ∧ k ∈ rv_id <$> items) then None else nd_resvSet n !! k.
Proof.
  unfold free_minus. rewrite vol_ids_fold.
  assert (list_to_set (getVolumeReservationID <$> nd_Volumes n) ∪ MapSet.NewEmptySet = bound_ids n)
    as -> by apply (right_id_L ∅ (∪)).
  split; [|intros k; apply resv_fold_snd].
  assert (is_int64 0) as H0 by (unfold is_int64; lia).
  rewrite resv_fold_fst. cbn [fst snd].
  rewrite (foldl_wrap64 (λ x, wrap64 (rl_SizeByte x))) by done.
  rewrite (foldl_wrap64 (λ x, wrap64 (GetTotalSize x))) by auto with liteio.
  rewrite (foldl_wrap64 rv_sizeByte) by auto with liteio.
  rewrite !wrap64_sum_wrap64, !wrap64_add_l. unfold committed_by, unbound.
  rewrite <- Z.add_assoc, wrap64_add_l. f_equal. lia.
Qed.

(** Without a storage capacity nothing is collected, so nothing is released. *)
Lemma free_minus_false n items : (free_minus false n items).2 = nd_resvSet n.
Proof.
  unfold free_minus. rewrite !foldl_id. apply map_eq. intros k.
  rewrite resv_fold_snd. rewrite decide_False; [done|].
  unfold MapSet.NewEmptySet. set_solver.
Qed.
End free_lemmas.

Section state_lemmas.
Context {L : K8sLib}.
Implicit Types (n : Node) (v vol : AntstorVolume) (s : State).

Lemma elem_of_Items (rs : ReservationSet) r : r ∈ rs_Items rs ↔ ∃ k, rs !! k = Some r.
Proof.
  unfold rs_Items. rewrite list_elem_of_fmap. split.
  - intros [[k r'] [-> H]]. apply elem_of_map_to_list in H. eauto.
  - intros [k H]. exists (k, r). split; [done|]. by apply elem_of_map_to_list.
Qed.

Lemma NoDup_Items (rs : ReservationSet) : resv_wf rs → NoDup (rs_Items rs).
Proof.
  intros Hwf. unfold rs_Items. apply NoDup_fmap_2_strong; [|apply NoDup_map_to_list].
  intros [k1 r1] [k2 r2] H1 H2 E. simpl in E. subst r2.
  apply elem_of_map_to_list in H1, H2. apply Hwf in H1, H2. simpl in *. congruence.
Qed.

Lemma rs_GetById_lookup (rs : ReservationSet) id : resv_wf rs → rs_GetById id rs = rs !! id.
Proof.
  intros Hwf. unfold rs_GetById. destruct (List.find _ _) as [r|] eqn:E.
  - apply List.find_some in E as [Hin Hid]. apply bool_decide_eq_true in Hid.
    apply list_elem_of_In, elem_of_Items in Hin as [k Hk].
    rewrite <- Hid. by rewrite (Hwf _ _ Hk).
  - destruct (rs !! id) as [r|] eqn:Er; [|done].
    assert (r ∈ rs_Items rs) as Hin by (apply elem_of_Items; eauto).
    apply list_elem_of_In in Hin. pose proof (List.find_none _ _ E _ Hin) as Hf. simpl in Hf.
    apply bool_decide_eq_false in Hf. by destruct Hf, (Hwf _ _ Er).
Qed.

Lemma resv_wf_insert rs r : resv_wf rs → resv_wf (rs_Reserve r rs).
Proof. intros H. unfold resv_wf, rs_Reserve. by apply map_Forall_insert_2. Qed.

Lemma resv_wf_subseteq (rs rs' : ReservationSet) : rs' ⊆ rs → resv_wf rs → resv_wf rs'.
Proof. intros Hs H k r Hk. by apply H, (lookup_weaken _ _ _ _ Hk). Qed.

Lemma resv_wf_delete id rs : resv_wf rs → resv_wf (rs_Unreserve id rs).
Proof. apply resv_wf_subseteq, delete_subseteq. Qed.

Lemma free_in_order_perm n items items' :
  items ≡ₚ items' → free_resource_in_order n items = free_resource_in_order n items'.
Proof.
  intros Hp. unfold free_resource_in_order. case_bool_decide as Hs.
  - pose proof (free_minus_true n items) as [H1 H2].
    pose proof (free_minus_true n items') as [H1' H2'].
    destruct (free_minus true n items) as [m rs], (free_minus true n items') as [m' rs'].
    simpl in *.
    assert (committed_by n items = committed_by n items') as Hc.
    { unfold committed_by, unbound. f_equal. apply sumZ_perm. by rewrite Hp. }
    assert (rs = rs') as ->.
    { apply map_eq. intros k. rewrite H2, H2'. apply decide_ext. by rewrite Hp. }
    by rewrite H1, H1', Hc.
  - pose proof (free_minus_false n items) as H1. pose proof (free_minus_false n items') as H1'.
    destruct (free_minus false n items) as [m rs], (free_minus false n items') as [m' rs'].
    simpl in *. subst. destruct (_ !! _) eqn:E; [|done]. by destruct Hs.
Qed.

(** The cleaned reservation set. *)
Lemma GetFree_resv_sub n : nd_resvSet (GetFreeResourceNonLock n).2 ⊆ nd_resvSet n.
Proof.
  unfold GetFreeResourceNonLock, free_resource_in_order. case_bool_decide as Hs.
  - pose proof (free_minus_true n (rs_Items (nd_resvSet n))) as [_ H2].
    destruct (free_minus _ _ _) as [m rs]. simpl in *.
    apply map_subseteq_spec. intros k r Hk. rewrite H2 in Hk. by case_decide.
  - pose proof (free_minus_false n (rs_Items (nd_resvSet n))) as H2.
    destruct (free_minus _ _ _) as [m rs]. simpl in *. by subst.
Qed.

Lemma GetFree_pool n : nd_Pool (GetFreeResourceNonLock n).2 = nd_Pool n.
Proof. unfold GetFreeResourceNonLock, free_resource_in_order. by destruct (free_minus _ _ _). Qed.

Lemma GetFree_volumes n : nd_Volumes (GetFreeResourceNonLock n).2 = nd_Volumes n.
Proof. unfold GetFreeResourceNonLock, free_resource_in_order. by destruct (free_minus _ _ _). Qed.

Lemma GetFree_fresource n :
  nd_FreeResource (GetFreeResourceNonLock n).2 = nd_FreeResource n.
Proof. unfold GetFreeResourceNonLock, free_resource_in_order. by destruct (free_minus _ _ _). Qed.

(** What is not counted twice: the reservations the cleaning removes are those
    it does not count. *)
Lemma GetFree_unbound n :
  resv_wf (nd_resvSet n) →
  unbound n (rs_Items (nd_resvSet (GetFreeResourceNonLock n).2)) ≡ₚ
  unbound n (rs_Items (nd_resvSet n)).
Proof.
  intros Hwf. pose proof (GetFree_resv_sub n) as Hsub.
  apply NoDup_Permutation.
  { apply NoDup_filter, NoDup_Items. by eapply resv_wf_subseteq. }
  { by apply NoDup_filter, NoDup_Items. }
  intros r. unfold unbound. rewrite !list_elem_of_filter, !elem_of_Items.
  split; intros [Hr [k Hk]]; (split; [done|]); exists k.
  { by eapply lookup_weaken. }
  revert Hsub. unfold GetFreeResourceNonLock, free_resource_in_order.
  case_bool_decide as Hs; intros _.
  - pose proof (free_minus_true n (rs_Items (nd_resvSet n))) as [_ H2].
    destruct (free_minus _ _ _) as [m rs]. simpl in *. rewrite H2.
    rewrite decide_False; [done|]. rewrite <- (Hwf _ _ Hk). tauto.
  - pose proof (free_minus_false n (rs_Items (nd_resvSet n))) as H2.
    destruct (free_minus _ _ _) as [m rs]. simpl in *. by subst.
Qed.

(** The reservations no volume has taken up stay. *)
Lemma GetFree_kept n k : k ∉ bound_ids n → nd_resvSet (GetFreeResourceNonLock n).2 !! k = nd_resvSet n !! k.
Proof.
  intros Hk. unfold GetFreeResourceNonLock, free_resource_in_order. case_bool_decide as Hs.
  - pose proof (free_minus_true n (rs_Items (nd_resvSet n))) as [_ H2].
    destruct (free_minus _ _ _) as [m rs]. simpl in *. rewrite H2, decide_False by tauto. done.
  - pose proof (free_minus_false n (rs_Items (nd_resvSet n))) as H2.
    destruct (free_minus _ _ _) as [m rs]. simpl in *. by subst.
Qed.
Lemma unbound_perm n n' :
  resv_wf (nd_resvSet n) → nd_resvSet n' ⊆ nd_resvSet n → bound_ids n' = bound_ids n →
  (∀ k, k ∉ bound_ids n → nd_resvSet n' !! k = nd_resvSet n !! k) →
  unbound n' (rs_Items (nd_resvSet n')) ≡ₚ unbound n (rs_Items (nd_resvSet n)).
Proof.
  intros Hwf Hsub Hb Hk. assert (resv_wf (nd_resvSet n')) as Hwf' by (by eapply resv_wf_subseteq).
  apply NoDup_Permutation; [by apply NoDup_filter, NoDup_Items..|].
  intros r. unfold unbound. rewrite !list_elem_of_filter, !elem_of_Items, Hb.
  split; intros [Hr [k Hin]]; (split; [done|]); exists k; [by eapply lookup_weaken|].
  rewrite Hk; [done|]. by rewrite <- (Hwf _ _ Hin).
Qed.

(** The free resource as a function of what it depends on. *)
Lemma GetFree_value n n' :
  spst_Capacity (sp_Status (nd_Pool n)) = spst_Capacity (sp_Status (nd_Pool n')) →
  (committed n = committed n' ∨ spst_Capacity (sp_Status (nd_Pool n)) = None) →
  (GetFreeResourceNonLock n).1 = (GetFreeResourceNonLock n').1.
Proof.
  intros Hc Hm. unfold GetFreeResourceNonLock, free_resource_in_order. rewrite <- Hc.
  case_bool_decide as Hs.
  - pose proof (free_minus_true n (rs_Items (nd_resvSet n))) as [H1 _].
    pose proof (free_minus_true n' (rs_Items (nd_resvSet n'))) as [H1' _].
    destruct (free_minus _ n _) as [m rs], (free_minus _ n' _) as [m' rs']. simpl in *.
    destruct Hm as [Hm|Hn].
    + unfold committed in Hm. by rewrite H1, H1', Hm.
    + rewrite Hn in *. simpl in *. by destruct Hs as [x Hx].
  - destruct (free_minus _ n _) as [m rs], (free_minus _ n' _) as [m' rs']. simpl in *.
    destruct (_ !! _) eqn:E; [by destruct Hs|done].
Qed.

Lemma update_free_pool n : nd_Pool (update_free n) = nd_Pool n.
Proof.
  unfold update_free. pose proof (GetFree_pool n). by destruct (GetFreeResourceNonLock n).
Qed.
Lemma update_free_volumes n : nd_Volumes (update_free n) = nd_Volumes n.
Proof.
  unfold update_free. pose proof (GetFree_volumes n). by destruct (GetFreeResourceNonLock n).
Qed.
Lemma update_free_resv n :
  nd_resvSet (update_free n) = nd_resvSet (GetFreeResourceNonLock n).2.
Proof. unfold update_free. by destruct (GetFreeResourceNonLock n). Qed.
Lemma update_free_free n : nd_FreeResource (update_free n) = (GetFreeResourceNonLock n).1.
Proof. unfold update_free. by destruct (GetFreeResourceNonLock n). Qed.

Lemma bound_ids_ext n n' : nd_Volumes n = nd_Volumes n' → bound_ids n = bound_ids n'.
Proof. unfold bound_ids. by intros ->. Qed.

(** Computing the free resource twice gives the same value. *)
Lemma committed_cleaned n n' :
  resv_wf (nd_resvSet n) → nd_Pool n' = nd_Pool n → nd_Volumes n' = nd_Volumes n →
  nd_resvSet n' = nd_resvSet (GetFreeResourceNonLock n).2 → committed n' = committed n.
Proof.
  intros Hwf Hp Hv Hr. unfold committed, committed_by. rewrite Hp, Hv, Hr. f_equal.
  apply sumZ_perm, Permutation_map. unfold unbound. rewrite (bound_ids_ext _ _ Hv).
  by apply GetFree_unbound.
Qed.

Lemma update_free_coherent n : resv_wf (nd_resvSet n) → free_coherent (update_free n).
Proof.
  intros Hwf. unfold free_coherent. rewrite update_free_free. apply GetFree_value.
  - by rewrite update_free_pool.
  - left. symmetry. apply committed_cleaned; auto using update_free_pool, update_free_volumes,
      update_free_resv.
Qed.

Lemma update_free_wf id n : node_wf id n → node_wf id (update_free n).
Proof.
  intros []. split; unfold nd_Info in *; rewrite ?update_free_pool, ?update_free_volumes; try done.
  rewrite update_free_resv. eapply resv_wf_subseteq; [apply GetFree_resv_sub|done].
Qed.
End state_lemmas.

(** ** Invariants of the operations *)

(** Case analysis of one turn of the loop of [AddVolume]. *)
Ltac split_add w vol :=
  destruct (decide (vol_Name w = vol_Name vol)) as [Hd|Hd];
  [destruct (decide (vs_SizeByte (vol_Spec w) ≠ vs_SizeByte (vol_Spec vol)))|].

Section state_inv.
Context {L : K8sLib}.
Implicit Types (n : Node) (v vol : AntstorVolume) (s : State).


Lemma AddVolume_loop_names vol items dup :
  vol_Name <$> (AddVolume_loop vol items dup).1.1 = vol_Name <$> items.
Proof.
  revert dup. induction items as [|v items IH]; intros dup; [done|]. csimpl.
  split_add v vol; [done|specialize (IH true)|specialize (IH dup)];
    destruct (AddVolume_loop _ _ _) as [[l d] e]; csimpl in *; rewrite IH; by rewrite ?Hd.
Qed.

Lemma AddVolume_loop_elem vol items dup v :
  v ∈ (AddVolume_loop vol items dup).1.1 → v ∈ items ∨ v = vol.
Proof.
  revert dup. induction items as [|w items IH]; intros dup; csimpl.
  { intros H. by apply elem_of_nil in H. }
  split_add w vol; [by left|specialize (IH true)|specialize (IH dup)];
    destruct (AddVolume_loop _ _ _) as [[l d] e]; csimpl in *;
    rewrite !elem_of_cons; naive_solver.
Qed.

(** The flag tells whether a volume of that name was met. *)
Lemma AddVolume_loop_dup vol items dup :
  (AddVolume_loop vol items dup).2 = None →
  (AddVolume_loop vol items dup).1.2 = dup || bool_decide (vol_Name vol ∈ vol_Name <$> items).
Proof.
  revert dup. induction items as [|w items IH]; intros dup; csimpl.
  { intros _. by rewrite orb_false_r. }
  split_add w vol; [done|specialize (IH true)|specialize (IH dup)];
    destruct (AddVolume_loop _ _ _) as [[l d] e]; csimpl in *; intros He; rewrite (IH He).
  - rewrite (bool_decide_eq_true_2 (vol_Name vol ∈ _ :: _)) by (rewrite Hd; left).
    by rewrite !orb_true_r.
  - f_equal. apply bool_decide_ext. rewrite elem_of_cons. naive_solver.
Qed.

Lemma AddVolume_loop_error vol items dup e :
  (AddVolume_loop vol items dup).2 = Some e → e = ErrDuplicateVolume.
Proof.
  revert dup. induction items as [|w items IH]; intros dup; csimpl; [done|].
  split_add w vol; [by intros [= <-]|specialize (IH true)|specialize (IH dup)];
    by destruct (AddVolume_loop _ _ _) as [[l d] e'].
Qed.

(** A name that is not there leaves the volumes alone. *)
Lemma AddVolume_loop_fresh vol items dup :
  vol_Name vol ∉ vol_Name <$> items → AddVolume_loop vol items dup = (items, dup, None).
Proof.
  revert dup. induction items as [|w items IH]; intros dup Hn; [done|]. csimpl in *.
  apply not_elem_of_cons in Hn as [Hne Hn]. rewrite decide_False by done. by rewrite IH.
Qed.

(** With distinct names the error leaves the volumes alone too. *)
Lemma AddVolume_loop_err vol items dup :
  NoDup (vol_Name <$> items) → is_Some (AddVolume_loop vol items dup).2 →
  (AddVolume_loop vol items dup).1.1 = items.
Proof.
  revert dup. induction items as [|w items IH]; intros dup Hnd; [done|]. csimpl in *.
  apply NoDup_cons in Hnd as [Hni Hnd]. split_add w vol; [done| |].
  - rewrite AddVolume_loop_fresh by (rewrite <- Hd; done). csimpl. by intros [].
  - specialize (IH dup Hnd). destruct (AddVolume_loop _ _ _) as [[l d] e]; csimpl in *.
    intros He. f_equal. auto.
Qed.

Lemma node_wf_resv id n rs :
  node_wf id n → resv_wf rs → node_wf id (nd_set_resvSet rs n).
Proof. intros [] Hr. by split. Qed.

Lemma drop_reservation_wf id vol n : node_wf id n → node_wf id (drop_reservation vol n).
Proof.
  intros Hwf. unfold drop_reservation. case_decide; [|done].
  apply node_wf_resv; [done|]. apply resv_wf_delete, Hwf.
Qed.

Lemma AddVolume_wf id vol n :
  node_wf id n → vs_Uuid (vol_Spec vol) ≠ "" → node_wf id (AddVolume vol n).1.
Proof.
  intros Hwf Hu. unfold AddVolume.
  destruct (drop_reservation_wf id vol n Hwf) as [Hid Hr Ht Huu Hn].
  generalize dependent (drop_reservation vol n). intros n1 Hid Hr Ht Huu Hn.
  pose proof (AddVolume_loop_names (place_on n1 vol) (nd_Volumes n1) false) as Hnames.
  pose proof (AddVolume_loop_elem (place_on n1 vol) (nd_Volumes n1) false) as Helem.
  pose proof (AddVolume_loop_dup (place_on n1 vol) (nd_Volumes n1) false) as Hdup.
  destruct (AddVolume_loop _ _ _) as [[items dup] err]. csimpl in *.
  assert (Forall (λ v, vs_TargetNodeId (vol_Spec v) = id) items) as Ht'.
  { apply Forall_forall. intros v Hv. rewrite Forall_forall in Ht.
    destruct (Helem _ Hv) as [Hin| ->]; [auto|done]. }
  assert (Forall (λ v, vs_Uuid (vol_Spec v) ≠ "") items) as Hu'.
  { apply Forall_forall. intros v Hv. rewrite Forall_forall in Huu.
    destruct (Helem _ Hv) as [Hin| ->]; [auto|done]. }
  destruct err as [e|]; csimpl.
  { split; csimpl; try done. by rewrite Hnames. }
  apply update_free_wf. specialize (Hdup eq_refl). destruct dup; split; csimpl; try done.
  - by rewrite Hnames.
  - apply Forall_app. split; [done|]. by apply Forall_singleton.
  - apply Forall_app. split; [done|]. by apply Forall_singleton.
  - rewrite fmap_app, Hnames. apply NoDup_app. split; [done|].
    symmetry in Hdup. apply bool_decide_eq_false in Hdup. split.
    + intros x Hx ->%list_elem_of_singleton. done.
    + apply NoDup_singleton.
Qed.

Lemma remove_first_elem volID l l' v :
  remove_first volID l = Some l' → v ∈ l' → v ∈ l.
Proof.
  revert l'. induction l as [|w l IH]; intros l'; csimpl; [done|]. case_decide.
  - intros [= ->]. by right.
  - destruct (remove_first volID l) as [l0|]; csimpl; [|done]. intros [= <-].
    rewrite !elem_of_cons. intros [->|]; [by left|]. right. by eapply IH.
Qed.

Lemma remove_first_names volID l l' :
  remove_first volID l = Some l' → NoDup (vol_Name <$> l) → NoDup (vol_Name <$> l').
Proof.
  revert l'. induction l as [|w l IH]; intros l'; csimpl; [done|].
  rewrite NoDup_cons. intros Hr [Hni Hnd]. case_decide; [by simplify_eq|].
  destruct (remove_first volID l) as [l0|] eqn:E; csimpl in Hr; [|done]. simplify_eq. csimpl.
  apply NoDup_cons. split; [|by eapply IH].
  intros (v & Hv & Hin)%list_elem_of_fmap. apply Hni, list_elem_of_fmap. exists v. split; [done|].
  by eapply remove_first_elem.
Qed.

Lemma RemoveVolumeByID_wf id volID n : node_wf id n → node_wf id (RemoveVolumeByID volID n).
Proof.
  intros Hwf. unfold RemoveVolumeByID. destruct (remove_first _ _) as [l|] eqn:E; [|done].
  apply update_free_wf. destruct Hwf as [Hid Hr Ht Hu Hn]. split; csimpl; try done.
  - rewrite Forall_forall in *. eauto using remove_first_elem.
  - rewrite Forall_forall in *. eauto using remove_first_elem.
  - by eapply remove_first_names.
Qed.

Lemma Node_Reserve_wf id r n : node_wf id n → node_wf id (Node_Reserve r n).
Proof.
  intros Hwf. unfold Node_Reserve. case_match; [done|]. case_decide; [done|].
  apply update_free_wf, node_wf_resv; [done|]. apply resv_wf_insert, Hwf.
Qed.

Lemma Node_Unreserve_wf id rid n : node_wf id n → node_wf id (Node_Unreserve rid n).
Proof.
  intros Hwf. apply update_free_wf, node_wf_resv; [done|]. apply resv_wf_delete, Hwf.
Qed.

Lemma GetFree_wf id n : node_wf id n → node_wf id (GetFreeResourceNonLock n).2.
Proof.
  intros []. split; unfold nd_Info in *; rewrite ?GetFree_pool, ?GetFree_volumes; try done.
  eapply resv_wf_subseteq; [apply GetFree_resv_sub|done].
Qed.

Lemma nd_set_Pool_wf id p n :
  node_wf id n → ni_ID (sps_NodeInfo (sp_Spec p)) = id → node_wf id (nd_set_Pool p n).
Proof. intros [] Hp. by split. Qed.

Lemma set_pool_capacity_id p : sp_Spec (set_pool_capacity p) = sp_Spec p.
Proof. unfold set_pool_capacity. by case_decide. Qed.

Lemma SetStoragePool_wf pool s : state_wf s → state_wf (SetStoragePool pool s).2.
Proof.
  intros Hwf. unfold SetStoragePool. csimpl.
  destruct (NodeMap s !! _) as [n|] eqn:E; apply map_Forall_insert_2; try done.
  - apply update_free_wf, nd_set_Pool_wf; [|done]. by apply Hwf.
  - apply update_free_wf. split; csimpl; try done. constructor.
Qed.

Lemma on_node_wf id f s :
  (∀ n, node_wf id n → node_wf id (f n)) → state_wf s → state_wf (on_node id f s).
Proof.
  intros Hf Hwf. unfold on_node. destruct (NodeMap s !! id) as [n|] eqn:E; [|done].
  apply map_Forall_insert_2; [|done]. by apply Hf, Hwf.
Qed.

Lemma BindAntstorVolume_wf id vol s : state_wf s → state_wf (BindAntstorVolume id vol s).1.
Proof.
  intros Hwf. unfold BindAntstorVolume. destruct (NodeMap s !! id) as [n|] eqn:E; [|done].
  case_decide as Hu; [done|]. pose proof (AddVolume_wf id vol n (Hwf _ _ E) Hu) as Hn.
  destruct (AddVolume vol n) as [n' [e|]]; by apply map_Forall_insert_2.
Qed.

Lemma UnbindAntstorVolume_wf volID s : state_wf s → state_wf (UnbindAntstorVolume volID s).1.
Proof.
  intros Hwf. unfold UnbindAntstorVolume. destruct (volIDMap s !! volID) as [id|]; [|done].
  destruct (NodeMap s !! id) as [n|] eqn:E; [|done].
  apply map_Forall_insert_2; [|done]. by apply RemoveVolumeByID_wf, Hwf.
Qed.

Lemma UpdateStoragePoolStatus_wf id st s : state_wf s → state_wf (UpdateStoragePoolStatus id st s).
Proof.
  intros Hwf. unfold UpdateStoragePoolStatus. destruct (NodeMap s !! id) as [n|] eqn:E; [|done].
  apply map_Forall_insert_2; [|done]. apply nd_set_Pool_wf; apply Hwf in E; [done|apply E].
Qed.

Lemma state_exec_wf a s : state_wf s → state_wf (state_exec a s).
Proof.
  intros Hwf. destruct a; simpl.
  - by apply SetStoragePool_wf.
  - by apply UpdateStoragePoolStatus_wf.
  - by apply map_Forall_delete.
  - by apply BindAntstorVolume_wf.
  - by apply UnbindAntstorVolume_wf.
  - apply on_node_wf; auto using Node_Reserve_wf.
  - apply on_node_wf; auto using Node_Unreserve_wf.
  - apply on_node_wf; auto using GetFree_wf.
Qed.

Lemma state_run_wf acts s : state_wf s → state_wf (state_run acts s).
Proof.
  unfold state_run. revert s. induction acts as [|a acts IH]; intros s Hwf; [done|].
  apply IH, state_exec_wf, Hwf.
Qed.

(** *** Coherence of the stored free resource *)

Lemma AddVolume_coherent id vol n :
  node_wf id n → free_coherent n → vs_Uuid (vol_Spec vol) ≠ "" →
  (getVolumeReservationID vol = "" ∨ (AddVolume vol n).2 = None) →
  free_coherent (AddVolume vol n).1.
Proof.
  intros Hwf Hco Hu Hok. unfold AddVolume in *.
  pose proof (drop_reservation_wf id vol n Hwf) as Hwf1.
  pose proof (AddVolume_loop_err (place_on (drop_reservation vol n) vol)
    (nd_Volumes (drop_reservation vol n)) false (nwf_names _ _ Hwf1)) as Herr.
  destruct (AddVolume_loop _ _ _) as [[items dup] [e|]]; csimpl in *.
  - destruct Hok as [He|]; [|done]. rewrite Herr by eauto.
    unfold drop_reservation. rewrite decide_False by (rewrite He; auto).
    destruct n. exact Hco.
  - apply update_free_coherent. destruct dup; apply Hwf1.
Qed.

Lemma on_node_coherent id f s :
  (∀ n, node_wf id n → free_coherent n → free_coherent (f n)) →
  state_wf s → state_coherent s → state_coherent (on_node id f s).
Proof.
  intros Hf Hwf Hco. unfold on_node. destruct (NodeMap s !! id) as [n|] eqn:E; [|done].
  apply map_Forall_insert_2; [|done]. apply Hf; [by apply Hwf|by apply (Hco id)].
Qed.

Lemma GetFree_coherent id n :
  node_wf id n → free_coherent n → free_coherent (GetFreeResourceNonLock n).2.
Proof.
  intros Hwf Hco. unfold free_coherent. rewrite GetFree_fresource, Hco. apply GetFree_value.
  - by rewrite GetFree_pool.
  - left. symmetry. apply committed_cleaned; auto using GetFree_pool, GetFree_volumes.
    apply Hwf.
Qed.

Lemma state_exec_coherent a s :
  state_wf s → state_coherent s → action_clean a s → state_coherent (state_exec a s).
Proof.
  intros Hwf Hco Hcl. destruct a as [pool|id st|id|id vol|volID|id r|id rid|id]; csimpl in *.
  - unfold SetStoragePool. csimpl.
    destruct (NodeMap s !! _) as [n|] eqn:E; (apply map_Forall_insert_2; [|done]);
      apply update_free_coherent; csimpl; [apply (Hwf _ _ E)|apply map_Forall_empty].
  - unfold UpdateStoragePoolStatus. destruct (NodeMap s !! id) as [n|] eqn:E; [|done].
    apply map_Forall_insert_2; [|done]. unfold free_coherent. csimpl. rewrite (Hco _ _ E).
    apply GetFree_value; [done|by left].
  - by apply map_Forall_delete.
  - unfold BindAntstorVolume in *. destruct (NodeMap s !! id) as [n|] eqn:E; [|done].
    case_decide as Hu; [done|].
    assert (free_coherent (AddVolume vol n).1) as Hn.
    { eapply AddVolume_coherent; [by apply Hwf|by apply (Hco _ _ E)|done|].
      destruct Hcl as [|Hcl]; [by left|right]. unfold AddVolume in *.
      destruct (AddVolume_loop _ _ _) as [[items dup] [e|]] eqn:El; [|done]. csimpl in *.
      exfalso. apply Hcl. f_equal.
      eapply AddVolume_loop_error. by rewrite El. }
    destruct (AddVolume vol n) as [n' [e|]]; by apply map_Forall_insert_2.
  - unfold UnbindAntstorVolume. destruct (volIDMap s !! volID) as [id|]; [|done].
    destruct (NodeMap s !! id) as [n|] eqn:E; [|done].
    apply map_Forall_insert_2; [|done]. unfold RemoveVolumeByID.
    destruct (remove_first _ _); [|by apply (Hco _ _ E)].
    apply update_free_coherent. apply (Hwf _ _ E).
  - apply on_node_coherent; [|done|done]. intros n Hn Hc. unfold Node_Reserve.
    case_match; [done|]. case_decide; [done|].
    apply update_free_coherent. apply resv_wf_insert, Hn.
  - apply on_node_coherent; [|done|done]. intros n Hn Hc.
    apply update_free_coherent. apply resv_wf_delete, Hn.
  - apply on_node_coherent; [|done|done]. intros n Hn Hc. by eapply GetFree_coherent.
Qed.

Lemma state_run_coherent acts s :
  state_wf s → state_coherent s → actions_clean acts s → state_coherent (state_run acts s).
Proof.
  unfold state_run. revert s. induction acts as [|a acts IH]; intros s Hwf Hco; [done|].
  intros [Ha Hacts]. apply IH; [by apply state_exec_wf|by apply state_exec_coherent|done].
Qed.

Lemma NewState_wf : state_wf NewState.
Proof. apply map_Forall_empty. Qed.
Lemma NewState_coherent : state_coherent NewState.
Proof. apply map_Forall_empty. Qed.
End state_inv.

(** ** Properties *)

Section state_props.
Context {L : K8sLib}.
Implicit Types (n : Node) (v vol : AntstorVolume) (s : State).

(** The map of reservations has no iteration order: whatever order the
    loop visits it in, [GetFreeResourceNonLock] returns the same free resource
    and leaves the same reservations. *)
Lemma GetFree_any_order n items :
  items ≡ₚ rs_Items (nd_resvSet n) →
  free_resource_in_order n items = GetFreeResourceNonLock n.
Proof. apply free_in_order_perm. Qed.

(** C17. Every run of the manager's operations from the empty state keeps the
    state well formed: each node is stored under its own id, its volumes target
    it, have a UUID and distinct names, and its reservations are keyed by their
    ids. *)
Theorem state_reachable_wf acts : state_wf (state_run acts NewState).
Proof. apply state_run_wf, NewState_wf. Qed.

(** C6. In every run in which no volume carrying a reservation is refused as a
    duplicate, the free resource stored in each node is the one recomputed from
    the node's pool, volumes and reservations. *)
Theorem state_reachable_coherent acts :
  actions_clean acts NewState → state_coherent (state_run acts NewState).
Proof. intros H. by apply state_run_coherent; [apply NewState_wf|apply NewState_coherent|]. Qed.

Lemma free_storage_eq {HL : K8sLaws L} n cap q :
  spst_Capacity (sp_Status (nd_Pool n)) = Some cap → cap !! ResourceDiskPoolByte = Some q →
  is_int64 (committed n) →
  quantity_nano (ResourceList_Storage (GetFreeResourceNonLock n).1) =
    (quantity_nano q - committed n * 1000000000)%Z.
Proof.
  intros Hcap Hq Hin. unfold GetFreeResourceNonLock, free_resource_in_order.
  rewrite Hcap. csimpl. rewrite Hq, bool_decide_eq_true_2 by eauto.
  pose proof (free_minus_true n (rs_Items (nd_resvSet n))) as [H1 _].
  destruct (free_minus _ _ _) as [m rs]. csimpl in *.
  unfold ResourceList_Storage. csimpl. change ResourceDiskPoolByte with ResourceStorage.
  rewrite lookup_insert_eq. csimpl. rewrite nano_sub, nano_new, H1.
  change (committed_by _ _) with (committed n). by rewrite wrap64_id.
Qed.

(** The free storage is exactly the capacity minus the committed bytes:
    reserved logical volumes, volumes with their snapshot space, and the
    reservations whose volume is not bound yet, none counted twice. *)
Lemma free_storage_value {HL : K8sLaws L} n cap q :
  spst_Capacity (sp_Status (nd_Pool n)) = Some cap → cap !! ResourceDiskPoolByte = Some q →
  is_int64 (committed n) →
  quantity_nano (ResourceList_Storage (GetFreeResourceNonLock n).1) =
    (quantity_nano q - committed n * 1000000000)%Z.
Proof. apply free_storage_eq. Qed.

Lemma AddVolume_loop_other vol items dup v :
  v ∈ (AddVolume_loop vol items dup).1.1 → (AddVolume_loop vol items dup).2 = None →
  v = vol ∨ (v ∈ items ∧ vol_Name v ≠ vol_Name vol).
Proof.
  revert dup. induction items as [|w items IH]; intros dup; csimpl.
  { intros H. by apply elem_of_nil in H. }
  split_add w vol; [done|specialize (IH true)|specialize (IH dup)];
    destruct (AddVolume_loop _ _ _) as [[l d] e]; csimpl in *;
    rewrite !elem_of_cons; intros [->|Hin] He; auto; destruct (IH Hin He) as [|[]]; auto.
Qed.

Lemma AddVolume_loop_has vol items dup :
  (AddVolume_loop vol items dup).2 = None → vol_Name vol ∈ vol_Name <$> items →
  vol ∈ (AddVolume_loop vol items dup).1.1.
Proof.
  revert dup. induction items as [|w items IH]; intros dup; csimpl.
  { intros _ H. by apply elem_of_nil in H. }
  split_add w vol; [done|specialize (IH true)|specialize (IH dup)];
    destruct (AddVolume_loop _ _ _) as [[l d] e]; csimpl in *;
    rewrite !elem_of_cons; [by left|]. intros He [?|?]; [done|right; auto].
Qed.

(** The volumes of a node after a successful [AddVolume]. *)
Lemma AddVolume_ok_volumes vol n v :
  (AddVolume vol n).2 = None →
  place_on n vol ∈ nd_Volumes (AddVolume vol n).1 ∧
  (v ∈ nd_Volumes (AddVolume vol n).1 →
   v = place_on n vol ∨ (v ∈ nd_Volumes n ∧ vol_Name v ≠ vol_Name vol)).
Proof.
  unfold AddVolume.
  assert (place_on (drop_reservation vol n) vol = place_on n vol) as Hp.
  { unfold drop_reservation, place_on, nd_Info. by case_decide. }
  assert (nd_Volumes (drop_reservation vol n) = nd_Volumes n) as Hv.
  { unfold drop_reservation. by case_decide. }
  rewrite Hp, Hv.
  pose proof (AddVolume_loop_other (place_on n vol) (nd_Volumes n) false v) as Ho.
  pose proof (AddVolume_loop_has (place_on n vol) (nd_Volumes n) false) as Hh.
  pose proof (AddVolume_loop_dup (place_on n vol) (nd_Volumes n) false) as Hd.
  destruct (AddVolume_loop _ _ _) as [[items dup] [e|]]; csimpl in *; [done|]. intros _.
  rewrite update_free_volumes. specialize (Hd eq_refl). destruct dup; csimpl.
  - symmetry in Hd. apply bool_decide_eq_true in Hd. split; [by apply Hh|].
    intros Hin. by apply Ho.
  - rewrite !elem_of_app, !list_elem_of_singleton. split; [by right|].
    intros [Hin| ->]; [by apply Ho|by left].
Qed.

(** A volume bound to a node is found by its UUID, placed on that node,
    unless another volume of the node, under another name, has the same UUID. *)
Lemma Bind_then_Get id vol s n :
  NodeMap s !! id = Some n →
  Forall (λ v, vs_Uuid (vol_Spec v) = vs_Uuid (vol_Spec vol) → vol_Name v = vol_Name vol)
    (nd_Volumes n) →
  (BindAntstorVolume id vol s).2 = None →
  GetVolumeByID (vs_Uuid (vol_Spec vol)) (BindAntstorVolume id vol s).1 = inl (place_on n vol).
Proof.
  intros Hn Huniq. unfold BindAntstorVolume. rewrite Hn. case_decide; [done|].
  pose proof (λ v, AddVolume_ok_volumes vol n v) as Hvols.
  destruct (AddVolume vol n) as [n' [e|]]; [done|]. intros _.
  csimpl in *. unfold GetVolumeByID. csimpl. rewrite !lookup_insert_eq.
  unfold Node_GetVolumeByID. destruct (List.find _ _) as [w|] eqn:E.
  - apply List.find_some in E as [Hin Hw]. apply list_elem_of_In in Hin.
    apply bool_decide_eq_true in Hw.
    destruct (Hvols w eq_refl) as [_ Hor]. destruct (Hor Hin) as [->|[Hold Hne]]; [done|].
    rewrite Forall_forall in Huniq. by destruct Hne; apply Huniq.
  - destruct (Hvols vol eq_refl) as [Hin _]. apply list_elem_of_In in Hin.
    pose proof (List.find_none _ _ E _ Hin) as Hf. csimpl in Hf.
    by apply bool_decide_eq_false in Hf.
Qed.

Lemma remove_first_app volID l v :
  Forall (λ w, vs_Uuid (vol_Spec w) ≠ volID) l → vs_Uuid (vol_Spec v) = volID →
  remove_first volID (l ++ [v]) = Some l.
Proof.
  intros Hl Hv. induction Hl as [|w l Hw Hl IH]; csimpl.
  - by rewrite decide_True.
  - rewrite decide_False by done. by rewrite IH.
Qed.

(** No reservation of the node is held for one of its volumes. *)
Definition resv_clean n : Prop := ∀ k, k ∈ bound_ids n → nd_resvSet n !! k = None.

Lemma GetFree_resv_clean n : resv_clean n → nd_resvSet (GetFreeResourceNonLock n).2 = nd_resvSet n.
Proof.
  intros Hc. unfold GetFreeResourceNonLock, free_resource_in_order. case_bool_decide.
  - pose proof (free_minus_true n (rs_Items (nd_resvSet n))) as [_ H2].
    destruct (free_minus _ _ _) as [m rs]. csimpl in *. apply map_eq. intros k. rewrite H2.
    case_decide as Hk; [|done]. symmetry. apply Hc, Hk.
  - pose proof (free_minus_false n (rs_Items (nd_resvSet n))) as H2.
    destruct (free_minus _ _ _) as [m rs]. csimpl in *. by subst.
Qed.

Lemma update_free_id n : free_coherent n → resv_clean n → update_free n = n.
Proof.
  intros Hco Hc. pose proof (GetFree_resv_clean n Hc) as Hr.
  unfold update_free. pose proof (GetFree_pool n) as Hp. pose proof (GetFree_volumes n) as Hv.
  unfold free_coherent in Hco. destruct (GetFreeResourceNonLock n) as [f n']. csimpl in *.
  destruct n, n'. csimpl in *. by subst.
Qed.

(** The stored value is overwritten. *)
Lemma update_free_stored f n : update_free (nd_set_FreeResource f n) = update_free n.
Proof.
  unfold update_free, GetFreeResourceNonLock, free_resource_in_order.
  assert (∀ b i, free_minus b (nd_set_FreeResource f n) i = free_minus b n i) as H
    by reflexivity.
  csimpl. rewrite H. by destruct (free_minus _ n _).
Qed.

(** Unbinding a volume right after binding it restores the state: for a
    volume new to the node (name and UUID) and to the index, and without a
    pending reservation, nothing is left behind and no space is lost. *)
Lemma Bind_then_Unbind id vol s n :
  NodeMap s !! id = Some n → free_coherent n → resv_clean n →
  vs_Uuid (vol_Spec vol) ≠ "" → volIDMap s !! vs_Uuid (vol_Spec vol) = None →
  nd_resvSet n !! getVolumeReservationID vol = None →
  Forall (λ v, vs_Uuid (vol_Spec v) ≠ vs_Uuid (vol_Spec vol)) (nd_Volumes n) →
  vol_Name vol ∉ vol_Name <$> nd_Volumes n →
  (BindAntstorVolume id vol s).2 = None ∧
  UnbindAntstorVolume (vs_Uuid (vol_Spec vol)) (BindAntstorVolume id vol s).1 = (s, None).
Proof.
  intros Hn Hco Hcl Hu Hidx Hresv Huu Hname. unfold BindAntstorVolume.
  rewrite Hn, decide_False by done.
  assert (drop_reservation vol n = n) as Hdrop.
  { unfold drop_reservation. case_decide; [|done]. unfold rs_Unreserve.
    rewrite delete_id by done. by destruct n. }
  assert (AddVolume vol n =
    (update_free (nd_set_Volumes (nd_Volumes n ++ [place_on n vol]) n), None)) as ->.
  { unfold AddVolume. rewrite Hdrop, AddVolume_loop_fresh by done. by destruct n. }
  split; [done|]. unfold UnbindAntstorVolume. csimpl. rewrite !lookup_insert_eq.
  assert (RemoveVolumeByID (vs_Uuid (vol_Spec vol))
    (update_free (nd_set_Volumes (nd_Volumes n ++ [place_on n vol]) n)) = n) as ->.
  { set (n1 := nd_set_Volumes (nd_Volumes n ++ [place_on n vol]) n).
    assert (resv_clean n1) as Hcl1.
    { intros k. unfold bound_ids, n1. csimpl. rewrite fmap_app, list_to_set_app_L.
      rewrite elem_of_union. intros [Hk|Hk]; [by apply Hcl|].
      csimpl in Hk. rewrite (right_id_L ∅ (∪)) in Hk. by apply elem_of_singleton in Hk as ->. }
    unfold RemoveVolumeByID. rewrite update_free_volumes. unfold n1 at 1. csimpl.
    rewrite remove_first_app by done.
    assert (nd_set_Volumes (nd_Volumes n) (update_free n1) =
            nd_set_FreeResource (nd_FreeResource (update_free n1)) n) as ->.
    { pose proof (update_free_pool n1) as Hp. pose proof (update_free_resv n1) as Hr.
      rewrite GetFree_resv_clean in Hr by done.
      destruct (update_free n1) as [p vs f r]. csimpl in *. subst. by destruct n. }
    rewrite update_free_stored. by apply update_free_id. }
  rewrite insert_insert_eq, (insert_id (NodeMap s)) by done. rewrite delete_insert_id by done.
  by destruct s.
Qed.

(** Binding fails, and changes neither the node's volumes nor the index,
    when the node is unknown (a not-found error), when the volume has no UUID,
    and when the node has a volume of that name with another size. *)
Lemma Bind_errors id vol s :
  state_wf s →
  (NodeMap s !! id = None →
     (BindAntstorVolume id vol s).1 = s ∧ IsNotFoundNodeError (BindAntstorVolume id vol s).2 = true) ∧
  (∀ n, NodeMap s !! id = Some n → vs_Uuid (vol_Spec vol) = "" →
     (BindAntstorVolume id vol s).1 = s ∧ (BindAntstorVolume id vol s).2 ≠ None) ∧
  (∀ n v, NodeMap s !! id = Some n → vs_Uuid (vol_Spec vol) ≠ "" → v ∈ nd_Volumes n →
     vol_Name v = vol_Name vol → vs_SizeByte (vol_Spec v) ≠ vs_SizeByte (vol_Spec vol) →
     (BindAntstorVolume id vol s).2 = Some ErrDuplicateVolume ∧
     volIDMap (BindAntstorVolume id vol s).1 = volIDMap s ∧
     nd_Volumes <$> NodeMap (BindAntstorVolume id vol s).1 !! id = Some (nd_Volumes n)).
Proof.
  intros Hwf. unfold BindAntstorVolume. split; [|split].
  - intros ->. done.
  - intros n -> Hu. by rewrite decide_True.
  - intros n v Hn Hu Hv Hname Hsize. rewrite Hn, decide_False by done.
    unfold AddVolume.
    assert (nd_Volumes (drop_reservation vol n) = nd_Volumes n) as ->.
    { unfold drop_reservation. by case_decide. }
    set (vol' := place_on _ vol).
    pose proof (AddVolume_loop_err vol' (nd_Volumes n) false
      (nwf_names _ _ (Hwf _ _ Hn))) as Herr.
    assert ((AddVolume_loop vol' (nd_Volumes n) false).2 = Some ErrDuplicateVolume) as He.
    { clear Herr Hn. assert (vol_Name v = vol_Name vol') as Hn' by done.
      assert (vs_SizeByte (vol_Spec v) ≠ vs_SizeByte (vol_Spec vol')) as Hs' by done.
      clearbody vol'. generalize false.
      induction (nd_Volumes n) as [|w l IH]; intros d; [by apply elem_of_nil in Hv|]. csimpl.
      apply elem_of_cons in Hv as [<-|Hv]; [by rewrite !decide_True|].
      split_add w vol'; [done| |]; specialize (IH Hv);
        [specialize (IH true)|specialize (IH d)]; by destruct (AddVolume_loop _ l _) as [[] []]. }
    destruct (AddVolume_loop _ _ _) as [[items dup] [e|]]; csimpl in *; [|done].
    rewrite Herr by eauto. rewrite lookup_insert_eq. naive_solver.
Qed.

Lemma bound_ids_existsb id n :
  existsb (λ vol, bool_decide (id = getVolumeReservationID vol)) (nd_Volumes n) = true ↔ id ∈ bound_ids n.
Proof.
  unfold bound_ids. rewrite existsb_exists, elem_of_list_to_set, list_elem_of_fmap. split.
  - intros (v & Hin & ->%bool_decide_eq_true). exists v. split; [done|by apply list_elem_of_In].
  - intros (v & -> & Hin). exists v. split; [by apply list_elem_of_In|by apply bool_decide_eq_true].
Qed.

Lemma committed_reserve r n : rv_id r ∉ bound_ids n → nd_resvSet n !! rv_id r = None →
  committed (nd_set_resvSet (rs_Reserve r (nd_resvSet n)) n) = (committed n + rv_sizeByte r)%Z.
Proof.
  intros Hb Hfresh. unfold committed, committed_by. csimpl.
  rewrite (sumZ_perm (rv_sizeByte <$> unbound _ (rs_Items (rs_Reserve r (nd_resvSet n))))
    (rv_sizeByte <$> r :: unbound n (rs_Items (nd_resvSet n)))).
  { rewrite sumZ_fmap_cons. lia. }
  apply Permutation_map. unfold rs_Reserve, rs_Items, unbound.
  rewrite map_to_list_insert by done. csimpl. by rewrite filter_cons_True.
Qed.

(** A new reservation that the stored free resource covers is booked. *)
Lemma Node_Reserve_books {HL : K8sLaws L} r n cap q :
  resv_wf (nd_resvSet n) → rv_id r ∉ bound_ids n → nd_resvSet n !! rv_id r = None →
  spst_Capacity (sp_Status (nd_Pool n)) = Some cap → cap !! ResourceDiskPoolByte = Some q →
  is_int64 (committed n + rv_sizeByte r) →
  (rv_sizeByte r * 1000000000 <= quantity_nano (ResourceList_Storage (nd_FreeResource n)))%Z →
  let n' := Node_Reserve r n in
  nd_Pool n' = nd_Pool n ∧ nd_Volumes n' = nd_Volumes n ∧ resv_wf (nd_resvSet n') ∧
  nd_resvSet n' !! rv_id r = Some r ∧
  (∀ k, k ∉ bound_ids n → k ≠ rv_id r → nd_resvSet n' !! k = nd_resvSet n !! k) ∧
  committed n' = (committed n + rv_sizeByte r)%Z ∧
  quantity_nano (ResourceList_Storage (nd_FreeResource n')) = (quantity_nano q - committed n' * 1000000000)%Z.
Proof.
  intros Hwf Hb Hfresh Hcap Hq Hin Hfree n'.
  assert (n' = update_free (nd_set_resvSet (rs_Reserve r (nd_resvSet n)) n)) as Hn'.
  { unfold n', Node_Reserve. destruct (existsb _ _) eqn:Hex; [by apply bound_ids_existsb in Hex|].
    rewrite decide_False; [done|]. rewrite CmpInt64_lt. lia. }
  pose proof (committed_reserve r n Hb Hfresh) as Hc. set (n1 := nd_set_resvSet _ n) in *.
  assert (resv_wf (nd_resvSet n1)) as Hwf1 by (by apply resv_wf_insert).
  assert (committed n' = committed n1) as Hc'.
  { rewrite Hn'. apply committed_cleaned; auto using update_free_pool, update_free_volumes, update_free_resv. }
  split; [by rewrite Hn', update_free_pool|]. split; [by rewrite Hn', update_free_volumes|].
  split; [rewrite Hn', update_free_resv; eapply resv_wf_subseteq; [apply GetFree_resv_sub|done]|].
  assert (∀ k, k ∉ bound_ids n → nd_resvSet n' !! k = rs_Reserve r (nd_resvSet n) !! k) as Hk.
  { intros k Hk. rewrite Hn', update_free_resv. by rewrite GetFree_kept. }
  split; [rewrite Hk by done; apply lookup_insert_eq|].
  split; [intros k Hkb Hne; rewrite Hk by done; by apply lookup_insert_ne|].
  split; [by rewrite Hc', Hc|]. rewrite Hc', Hn', update_free_free.
  apply (free_storage_eq n1 cap q); [done|done|by rewrite Hc].
Qed.

(** A reservation is accepted only when the free storage covers it: a new
    reservation never drives the free storage of a coherent node below zero. *)
Lemma Reserve_no_overcommit {HL : K8sLaws L} id r n cap q :
  node_wf id n → free_coherent n →
  spst_Capacity (sp_Status (nd_Pool n)) = Some cap → cap !! ResourceDiskPoolByte = Some q →
  nd_resvSet n !! rv_id r = None →
  is_int64 (committed n) → is_int64 (committed n + rv_sizeByte r) →
  (0 ≤ quantity_nano (ResourceList_Storage (nd_FreeResource n)))%Z →
  (0 ≤ quantity_nano (ResourceList_Storage (nd_FreeResource (Node_Reserve r n))))%Z.
Proof.
  intros Hwf Hco Hcap Hq Hfresh Hc1 Hc2 H0. unfold Node_Reserve at 1.
  destruct (existsb _ _) eqn:Hex; [done|]. case_decide as Hlt; [done|].
  rewrite CmpInt64_lt in Hlt.
  assert (rv_id r ∉ bound_ids n) as Hb.
  { intros Hb%bound_ids_existsb. congruence. }
  destruct (Node_Reserve_books r n cap q) as (_ & _ & _ & _ & _ & Hc & Hf);
    [apply Hwf|done|done|done|done|done|lia|].
  unfold Node_Reserve in Hc, Hf. rewrite Hex, decide_False in Hc, Hf by (rewrite CmpInt64_lt; lia).
  rewrite Hf, Hc. unfold free_coherent in Hco. rewrite Hco in Hlt. erewrite free_storage_eq in Hlt by done. lia.
Qed.
End state_props.

(** ** A concrete node

    A pool of 100 GiB with a reserved logical volume of 10 GiB, a volume of
    20 GiB and a reservation of 5 GiB; it serves the evaluations below and in
    the files of the scheduler. *)

Definition ex_node_info : NodeInfo :=
  {| ni_ID := "node-1"; ni_IP := "10.0.0.1"; ni_Hostname := "host-1"; ni_Labels := None |}.
Definition ex_pool : @StoragePool NanoLib :=
  {| sp_meta := ObjectMeta_zero;
     sp_Spec := {|
       sps_KernelLVM := {| klvm_Name := "vg"; klvm_VgUUID := "vg-uuid"; klvm_Bytes := 100 * GiB;
         klvm_ExtendSize := FourMiB; klvm_ExtendCount := 25600; klvm_PVCount := 1;
         klvm_ReservedLVol := [{| rl_Name := "sys"; rl_VGName := "vg"; rl_DevPath := "/dev/vg/sys";
                                  rl_SizeByte := 10 * GiB; rl_LvLayout := "linear" |}] |};
       sps_SpdkLVStore := SpdkLVStore_zero; sps_Addresses := []; sps_NodeInfo := ex_node_info |};
     sp_Status := {|
       spst_Capacity := Some {[ ResourceDiskPoolByte := NewQuantity (100 * GiB) ]};
       spst_VGFreeSize := NewQuantity (90 * GiB);
       spst_Conditions := [{| pc_Type := PoolConditionSpkdHealth; pc_Status := StatusOK; pc_Message := "" |}];
       spst_Status := PoolStatusReady; spst_Message := "" |} |}.

Definition ex_meta (name : string) : ObjectMeta :=
  {| om_Name := name; om_Namespace := DefaultNamespace; om_UID := name;
     om_CreationTimestamp := 0; om_DeletionTimestamp := None; om_Labels := map_make;
     om_Annotations := None; om_OwnerReferences := []; om_Finalizers := [] |}.
Definition ex_vol (name uuid : string) (size : Z) : AntstorVolume :=
  vol_set_Spec (vs_set_Uuid uuid (vs_set_SizeByte size
    (vs_set_HostNode (Some ex_node_info) AntstorVolumeSpec_zero)))
    (vol_set_meta (ex_meta name) AntstorVolume_zero).

Definition ex_actions : list (@state_action NanoLib) :=
  [ASetPool ex_pool; ABind "node-1" (ex_vol "a" "uuid-a" (20 * GiB));
   AReserve "node-1" (NewReservation "r" (5 * GiB))].
Definition ex_state : @State NanoLib := state_run ex_actions NewState.
Definition ex_node : @Node NanoLib :=
  default (NewNode ex_pool) (NodeMap ex_state !! "node-1").

Example ex_free : ResourceList_Storage (nd_FreeResource ex_node) = NewQuantity (65 * GiB).
Proof. vm_compute. reflexivity. Qed.

Lemma ex_actions_clean : actions_clean ex_actions NewState.
Proof.
  unfold ex_actions. cbn [actions_clean action_clean]. split_and!; auto.
Qed.
Lemma ex_node_volumes : nd_Volumes ex_node = [place_on ex_node (ex_vol "a" "uuid-a" (20 * GiB))].
Proof. vm_compute. reflexivity. Qed.
Lemma ex_node_in : NodeMap ex_state !! "node-1" = Some ex_node.
Proof.
  apply opt_is_some_eq. vm_compute. reflexivity.
Qed.
Lemma ex_node_wf : node_wf "node-1" ex_node.
Proof. apply (state_run_wf ex_actions NewState NewState_wf "node-1"), ex_node_in. Qed.
Lemma ex_node_coherent : free_coherent ex_node.
Proof.
  apply (state_run_coherent ex_actions NewState NewState_wf NewState_coherent ex_actions_clean "node-1").
  exact ex_node_in.
Qed.

Lemma GetFree_any_order_witness :
  free_resource_in_order ex_node (rev (rs_Items (nd_resvSet ex_node))) = GetFreeResourceNonLock ex_node.
Proof. apply (GetFree_any_order ex_node). symmetry. apply Permutation_rev. Defined.

Lemma state_reachable_coherent_witness : state_coherent ex_state.
Proof. apply (state_reachable_coherent ex_actions). exact ex_actions_clean. Defined.

Lemma free_storage_value_witness :
  quantity_nano (L := NanoLib) (ResourceList_Storage (GetFreeResourceNonLock ex_node).1) =
  (quantity_nano (L := NanoLib) (NewQuantity (100 * GiB)) - committed ex_node * 1000000000)%Z ∧ committed ex_node = (35 * GiB)%Z.
Proof.
  split; [|vm_compute; reflexivity].
  apply (free_storage_value ex_node {[ ResourceDiskPoolByte := NewQuantity (100 * GiB) ]}
    (NewQuantity (100 * GiB))); [vm_compute; reflexivity|reflexivity|].
  vm_compute. split; congruence.
Defined.

Lemma Bind_then_Get_witness :
  GetVolumeByID "uuid-b" (BindAntstorVolume "node-1" (ex_vol "b" "uuid-b" GiB) ex_state).1 =
  inl (place_on ex_node (ex_vol "b" "uuid-b" GiB)).
Proof.
  apply (Bind_then_Get "node-1" (ex_vol "b" "uuid-b" GiB) ex_state ex_node).
  - exact ex_node_in.
  - rewrite ex_node_volumes. apply Forall_singleton. discriminate.
  - vm_compute. reflexivity.
Defined.

Lemma Bind_then_Unbind_witness :
  UnbindAntstorVolume "uuid-b" (BindAntstorVolume "node-1" (ex_vol "b" "uuid-b" GiB) ex_state).1
  = (ex_state, None).
Proof.
  apply (Bind_then_Unbind "node-1" (ex_vol "b" "uuid-b" GiB) ex_state ex_node).
  - exact ex_node_in.
  - exact ex_node_coherent.
  - intros k Hk. assert (bound_ids ex_node = {[ "" ]}) as E by (vm_compute; reflexivity).
    rewrite E in Hk. apply elem_of_singleton in Hk as ->. vm_compute. reflexivity.
  - discriminate.
  - vm_compute. reflexivity.
  - vm_compute. reflexivity.
  - rewrite ex_node_volumes. apply Forall_singleton. discriminate.
  - rewrite ex_node_volumes. csimpl. intros H. by apply list_elem_of_singleton in H.
Defined.

Lemma Bind_errors_witness :
  (BindAntstorVolume "node-1" (ex_vol "a" "uuid-a" GiB) ex_state).2 = Some ErrDuplicateVolume ∧
  IsNotFoundNodeError (BindAntstorVolume "node-9" (ex_vol "a" "uuid-a" GiB) ex_state).2 = true.
Proof.
  pose proof (state_run_wf ex_actions NewState NewState_wf) as Hwf. split.
  - apply (Bind_errors "node-1" (ex_vol "a" "uuid-a" GiB) ex_state Hwf)
      with (n := ex_node) (v := place_on ex_node (ex_vol "a" "uuid-a" (20 * GiB))).
    + exact ex_node_in.
    + discriminate.
    + rewrite ex_node_volumes. left.
    + reflexivity.
    + discriminate.
  - apply (Bind_errors "node-9" (ex_vol "a" "uuid-a" GiB) ex_state Hwf).
    apply opt_is_none_eq. vm_compute. reflexivity.
Defined.

Lemma Reserve_no_overcommit_witness :
  (0 ≤ quantity_nano (L := NanoLib)
     (ResourceList_Storage (nd_FreeResource (Node_Reserve (NewReservation "s" (60 * GiB)) ex_node))))%Z.
Proof.
  apply (Reserve_no_overcommit "node-1" (NewReservation "s" (60 * GiB)) ex_node
    {[ ResourceDiskPoolByte := NewQuantity (100 * GiB) ]} (NewQuantity (100 * GiB))).
  - exact ex_node_wf.
  - exact ex_node_coherent.
  - vm_compute. reflexivity.
  - reflexivity.
  - vm_compute. reflexivity.
  - vm_compute. split; congruence.
  - vm_compute. split; congruence.
  - vm_compute. congruence.
Defined.
