(* ===== verification/Filter.v ===== *)
(** * The filters of the scheduler

    [pkg/controller/manager/config] and
    [pkg/controller/manager/scheduler/filter]: the predicates on a node and a
    volume, the error that counts the reasons of rejection, and the chain that
    applies the configured predicates to every node.

    A predicate runs on the reasons collected so far and on the node, which
    [GetFreeResourceNonLock] updates: the state of the [go] monad is the pair. *)

From Stdlib Require Import ZArith Lia.
From stdpp Require Import base gmap strings option list.
From S2P Require Import Prelude Strconv Float64 Misc K8s Api State.

(** ** Configuration *)

(* [controller/manager/config/config.go:37-40] NodeReservation *)
Record NodeReservation := { nr_ID : string; nr_Size : Z }.
(** [corev1.Toleration] *)
Record Toleration := { tol_Key : string; tol_Operator : string; tol_Value : string; tol_Effect : string }.
(* [controller/manager/config/config.go:42-45] NoScheduleConfig *)
Record NoScheduleConfig := {
  nsc_NodeSelector : list NodeSelectorRequirement; nsc_NodeTaints : list Toleration }.
(* [controller/manager/config/config.go:17-35] SchedulerConfig *)
Record SchedulerConfig := {
  cfg_MaxRemoteVolumeCount : Z;
  cfg_RemoteIgnoreAnnoSelector : gomap string;
  cfg_Filters : list string;
  cfg_Priorities : list string;
  cfg_LockSchedCfg : NoScheduleConfig;
  cfg_NodeCacheSelector : gomap string;
  cfg_MinLocalStoragePct : Z;
  cfg_NodeReservations : list NodeReservation;
}.

(* [controller/manager/config/default.go:3-22] SetDefaults *)
Definition SetDefaults (cfg : SchedulerConfig) : SchedulerConfig := {|
  cfg_MaxRemoteVolumeCount :=
    if decide (cfg_MaxRemoteVolumeCount cfg ≤ 0)%Z then 3 else cfg_MaxRemoteVolumeCount cfg;
  cfg_RemoteIgnoreAnnoSelector := cfg_RemoteIgnoreAnnoSelector cfg;
  cfg_Filters := match cfg_Filters cfg with [] => ["Basic"; "Affinity"] | fs => fs end;
  cfg_Priorities :=
    match cfg_Priorities cfg with [] => ["LeastResource"; "PositionAdvice"] | ps => ps end;
  cfg_LockSchedCfg := cfg_LockSchedCfg cfg;
  cfg_NodeCacheSelector := cfg_NodeCacheSelector cfg;
  cfg_MinLocalStoragePct := cfg_MinLocalStoragePct cfg;
  cfg_NodeReservations := cfg_NodeReservations cfg |}.

(** ** Reasons *)

(* [filter/error.go:10-10] ReasonPoolFreeSize *)
Definition ReasonPoolFreeSize : string := "PoolFreeSize".
(* [filter/error.go:11-11] ReasonSpdkUnhealthy *)
Definition ReasonSpdkUnhealthy : string := "SpdkUnhealthy".
(* [filter/error.go:12-12] ReasonRemoteVolMaxCount *)
Definition ReasonRemoteVolMaxCount : string := "RemoteVolMaxCount".
(* [filter/error.go:13-13] ReasonPositionNotMatch *)
Definition ReasonPositionNotMatch : string := "PositionNotMatch".
(* [filter/error.go:14-14] ReasonVolTypeNotMatch *)
Definition ReasonVolTypeNotMatch : string := "VolTypeNotMatch".
(* [filter/error.go:16-16] ReasonNodeAffinity *)
Definition ReasonNodeAffinity : string := "NodeAffinity".
(* [filter/error.go:17-17] ReasonPoolAffinity *)
Definition ReasonPoolAffinity : string := "PoolAffinity".
(* [filter/error.go:18-18] ReasonPoolUnschedulable *)
Definition ReasonPoolUnschedulable : string := "PoolUnschedulable".
(* [filter/error.go:19-19] ReasonReservationSize *)
Definition ReasonReservationSize : string := "ReservationTooSmall".
(* [filter/error.go:20-20] ReasonReserveNotMatch *)
Definition ReasonReserveNotMatch : string := "ReservationNotMatch".
(* [filter/error.go:22-22] NoStoragePoolAvailable *)
Definition NoStoragePoolAvailable : string := "NoStoragePoolAvailable".
(* [filter/localline.go:9-11] ReasonLocalStorageTooLow *)
Definition ReasonLocalStorageTooLow : string := "LocalStorageTooLow".

(* [filter/error.go:27-31] MergedError *)
Definition MergedError := gmap string Z.
(* [filter/error.go:33-37] NewMergedError *)
Definition NewMergedError : MergedError := (∅ : gmap string Z).

(* [filter/error.go:52-61] MergedError.AddReason *)
Definition AddReason (reason : string) (e : MergedError) : MergedError :=
  match (e : gmap string Z) !! reason with
  | Some cnt => <[reason := (cnt + 1)%Z]> (e : gmap string Z)
  | None => <[reason := 1%Z]> (e : gmap string Z)
  end.

(* [filter/error.go:39-50] MergedError.Error *)
Definition MergedError_Error (e : MergedError) : string :=
  foldl (λ s kv, s +:+ (kv.1 +:+ ": " +:+ Itoa kv.2 +:+ ", "))
    (NoStoragePoolAvailable +:+ ": ") (map_to_list (e : gmap string Z)).

(* [filter/error.go:63-68] IsNoStoragePoolAvailable *)
Definition IsNoStoragePoolAvailable (err : option error) : bool :=
  match err with
  | None => false
  | Some e => str_contains (error_msg e) NoStoragePoolAvailable
  end.

Section filters.
Context {L : K8sLib}.

(** What a predicate reads and updates: the reasons and the node. *)
Definition FilterState := (MergedError * Node)%type.
(* [filter/filter_chain.go:18-18] PredicateFunc *)
Definition PredicateFunc := SchedulerConfig → AntstorVolume → go FilterState bool.

(** [ctx.Error.AddReason(reason); return false] *)
Definition reject (reason : string) : go FilterState bool :=
  _ ← gmodify (λ st : FilterState, (AddReason reason st.1, st.2)); mret false.
Definition the_node : go FilterState Node := st ← gget; mret (st.2 : Node).
Definition node_free : go FilterState ResourceList :=
  st ← gget;
  let '(free, n') := GetFreeResourceNonLock (st.2 : Node) in
  _ ← gput ((st.1, n') : FilterState); mret free.

(* [filter/basic.go:110-132] matchReservationFilter *)
Definition matchReservationFilter (vol : AntstorVolume) : go FilterState (bool * bool) :=
  match map_get (om_Annotations (vol_meta vol)) ReservationIDKey with
  | Some resvId =>
      n ← the_node;
      if decide (Quantity_CmpInt64 (ResourceList_Storage (nd_FreeResource n)) 0 < 0)%Z
      then _ ← reject ReasonPoolFreeSize; mret (false, true)
      else match Node_GetReservation resvId n with
           | Some r =>
               if decide (rv_sizeByte r < wrap64 (vs_SizeByte (vol_Spec vol)))%Z
               then _ ← reject ReasonReservationSize; mret (false, true)
               else mret (true, false)
           | None => _ ← reject ReasonReserveNotMatch; mret (false, true)
           end
  | None => mret (false, false)
  end.

(** The SPDK condition of the pool: the last one of that type decides. *)
Definition tgtConditionOk (n : Node) : bool :=
  foldl (λ ok item, if decide (pc_Type item = PoolConditionSpkdHealth)
                    then bool_decide (pc_Status item = StatusOK) else ok)
    false (spst_Conditions (sp_Status (nd_Pool n))).

Definition pool_nodeID (n : Node) : string := ni_ID (sps_NodeInfo (sp_Spec (nd_Pool n))).

(** The last checks of [BasicFilterFunc]: position advice and volume type. *)
Definition basic_position_type (hostID : string) (vol : AntstorVolume) : go FilterState bool :=
  n ← the_node;
  let spec := vol_Spec vol in
  if decide (vs_PositionAdvice spec = MustLocal ∧ pool_nodeID n ≠ hostID)
  then reject ReasonPositionNotMatch
  else if decide (vs_PositionAdvice spec = MustRemote ∧ pool_nodeID n = hostID)
  then reject ReasonPositionNotMatch
  else if decide (vs_Type spec = VolumeTypeSpdkLVol ∧
                  lvst_UUID (sps_SpdkLVStore (sp_Spec (nd_Pool n))) = "")
  then reject ReasonVolTypeNotMatch
  else if decide (vs_Type spec = VolumeTypeKernelLVol ∧
                  klvm_VgUUID (sps_KernelLVM (sp_Spec (nd_Pool n))) = "")
  then reject ReasonVolTypeNotMatch
  else mret true.

(** The checks of [BasicFilterFunc] that follow the one of the free space. *)
Definition basic_remote (cfg : SchedulerConfig) (vol : AntstorVolume) : go FilterState bool :=
  n ← the_node;
  if decide (tgtConditionOk n = false ∧ lvst_Name (sps_SpdkLVStore (sp_Spec (nd_Pool n))) ≠ "")
  then reject ReasonSpdkUnhealthy
  else
    hostID ← HostNode_ID vol;
    let isLocalVol := bool_decide (pool_nodeID n = hostID) in
    if decide (isLocalVol = false ∧
               cfg_MaxRemoteVolumeCount cfg ≤ RemoteVolumesCount (cfg_RemoteIgnoreAnnoSelector cfg) n)%Z
    then reject ReasonRemoteVolMaxCount
    else if decide (isLocalVol = false ∧ tgtConditionOk n = false)
    then reject ReasonSpdkUnhealthy
    else basic_position_type hostID vol.

(* [filter/basic.go:10-108] BasicFilterFunc *)
Definition BasicFilterFunc : PredicateFunc := λ cfg vol,
  n ← the_node;
  if decide (IsSchedulable (nd_Pool n) = false) then reject ReasonPoolUnschedulable
  else
    r ← matchReservationFilter vol;
    let '(pass, hasErr) := (r : bool * bool) in
    if decide (hasErr = true ∨ pass = true) then mret pass
    else
      freeRes ← node_free;
      let freeDisk := default Quantity_zero (map_get freeRes ResourceDiskPoolByte) in
      if decide (Quantity_CmpInt64 freeDisk (wrap64 (vs_SizeByte (vol_Spec vol))) < 0)%Z
      then reject ReasonPoolFreeSize
      else basic_remote cfg vol.

(* [filter/affinity.go:67-72] convertNodeInfo *)
Definition convertNodeInfo (nodeInfo : NodeInfo) : K8sNodeRef :=
  {| kn_Name := ni_ID nodeInfo; kn_Labels := ni_Labels nodeInfo |}.
(* [filter/affinity.go:74-78] convertPoolLabels *)
Definition convertPoolLabels (labels : gomap string) : K8sNodeRef :=
  {| kn_Name := ""; kn_Labels := labels |}.

(** Whether a required affinity matches; no requirement always does. *)
Definition affinity_ok (a : option NodeAffinity) (ref : K8sNodeRef) : bool :=
  match a with
  | Some na =>
      match na_Required na with
      | Some sel => match MatchNodeSelectorTerms ref sel with inl m => m | inr _ => false end
      | None => true
      end
  | None => true
  end.

(** Whether the selector of an annotation matches; one that does not parse is
    ignored. *)
Definition selector_ok (vol : AntstorVolume) (key : string) (labels : gomap string) : bool :=
  match map_get (om_Annotations (vol_meta vol)) key with
  | Some val => match labels_Parse val with
                | inl selector => Selector_Matches selector labels
                | inr _ => true
                end
  | None => true
  end.

(* [filter/affinity.go:12-65] AffinityFilterFunc *)
Definition AffinityFilterFunc : PredicateFunc := λ cfg vol,
  n ← the_node;
  let poolLabels := om_Labels (sp_meta (nd_Pool n)) in
  if decide (affinity_ok (vs_NodeAffinity (vol_Spec vol)) (convertNodeInfo (nd_Info n)) = false)
  then reject ReasonNodeAffinity
  else if decide (selector_ok vol NodeLabelSelectorKey (ni_Labels (nd_Info n)) = false)
  then reject ReasonNodeAffinity
  else if decide (affinity_ok (vs_PoolAffinity (vol_Spec vol)) (convertPoolLabels poolLabels) = false)
  then reject ReasonPoolAffinity
  else if decide (selector_ok vol PoolLabelSelectorKey poolLabels = false)
  then reject ReasonPoolAffinity
  else mret true.

(** The percentage of local storage left once a remote volume is placed. *)
Definition local_pct (n : Node) (vol : AntstorVolume) : float64 :=
  let total := GetAvailableBytes (nd_Pool n) in
  let rest := wrap64 (wrap64 (total - wrap64 (GetAllocatedRemoteBytes n))
                      - wrap64 (vs_SizeByte (vol_Spec vol))) in
  f64_mul (f64_div (f64_of_Z rest) (f64_of_Z total)) (f64_of_Z 100).

(* [filter/localline.go:13-31] MinLocalStorageFilterFunc *)
Definition MinLocalStorageFilterFunc : PredicateFunc := λ cfg vol,
  n ← the_node;
  hostID ← HostNode_ID vol;
  let isLocalVol := bool_decide (hostID = pool_nodeID n) in
  if decide (isLocalVol = false ∧
             f64_ltb (local_pct n vol) (f64_of_Z (cfg_MinLocalStoragePct cfg)) = true)
  then reject ReasonLocalStorageTooLow
  else mret true.

(** ** The registry *)

Definition Registry := gmap string PredicateFunc.
(* [filter/registry.go:20-25] RegisterFilter *)
Definition RegisterFilter (name : string) (filter : PredicateFunc) (m : Registry) : Registry :=
  <[name := filter]> (m : gmap string PredicateFunc).
(* [filter/registry.go:14-18] init *)
Definition filtersMap : Registry :=
  RegisterFilter "MinLocalStorage" MinLocalStorageFilterFunc
    (RegisterFilter "Affinity" AffinityFilterFunc
      (RegisterFilter "Basic" BasicFilterFunc (∅ : gmap string PredicateFunc))).
(* [filter/registry.go:27-35] GetFilterByName *)
Definition GetFilterByName (m : Registry) (name : string) : result PredicateFunc :=
  match (m : gmap string PredicateFunc) !! name with
  | Some f => inl f
  | None => inr (ErrNew ("not found filter by name " +:+ name))
  end.

(** ** The chain *)

(* [filter/filter_chain.go:20-25] FilterChain *)
Record FilterChain := {
  fc_nodes : list Node;
  fc_vol : AntstorVolume;
  fc_filters : list PredicateFunc;
  fc_cfg : SchedulerConfig;
  fc_err : MergedError;
}.

(* [filter/filter_chain.go:27-38] NewFilterChain *)
Definition NewFilterChain (cfg : SchedulerConfig) : FilterChain :=
  {| fc_nodes := []; fc_vol := AntstorVolume_zero; fc_filters := []; fc_cfg := cfg;
     fc_err := NewMergedError |}.
(* [filter/filter_chain.go:45-49] FilterChain.Input *)
Definition fc_Input (nodes : list Node) (vol : AntstorVolume) (fc : FilterChain) : FilterChain :=
  {| fc_nodes := nodes; fc_vol := vol; fc_filters := fc_filters fc; fc_cfg := fc_cfg fc;
     fc_err := fc_err fc |}.
(* [filter/filter_chain.go:66-69] FilterChain.Filter *)
Definition fc_Filter (f : PredicateFunc) (fc : FilterChain) : FilterChain :=
  {| fc_nodes := fc_nodes fc; fc_vol := fc_vol fc; fc_filters := fc_filters fc ++ [f];
     fc_cfg := fc_cfg fc; fc_err := fc_err fc |}.
(* [filter/filter_chain.go:51-64] FilterChain.LoadFilterFromConfig *)
Definition LoadFilterFromConfig (m : Registry) (fc : FilterChain) : FilterChain :=
  foldl (λ fc name, match GetFilterByName m name with
                    | inl f => fc_Filter f fc
                    | inr _ => fc
                    end) fc (cfg_Filters (fc_cfg fc)).

(* [filter/filter_chain.go:83-90] FilterChain.passAllFilters *)
Fixpoint passAllFilters (cfg : SchedulerConfig) (filters : list PredicateFunc) (vol : AntstorVolume)
    : go FilterState bool :=
  match filters with
  | [] => mret true
  | f :: rest => ok ← f cfg vol; if (ok : bool) then passAllFilters cfg rest vol else mret false
  end.

(** The loop over the nodes: the nodes as the predicates left them, and the
    candidates among them. *)
Fixpoint MatchAll_loop (fc : FilterChain) (nodes : list Node)
    : go MergedError (list Node * list Node) := λ err,
  match nodes with
  | [] => Ret ([], []) err
  | node :: rest =>
      match passAllFilters (fc_cfg fc) (fc_filters fc) (fc_vol fc) (err, node) with
      | Panic why (err', _) => Panic why err'
      | Ret ok (err', node') =>
          match MatchAll_loop fc rest err' with
          | Panic why e => Panic why e
          | Ret (nodes', cands) e =>
              Ret (node' :: nodes', if (ok : bool) then node' :: cands else cands) e
          end
      end
  end.

(* [filter/filter_chain.go:71-81] FilterChain.MatchAll *)
Definition MatchAll (fc : FilterChain)
    : go MergedError (list Node * list Node * option error) :=
  r ← MatchAll_loop fc (fc_nodes fc);
  let '(nodes, candidates) := (r : list Node * list Node) in
  err ← gget;
  mret (nodes, candidates,
        match candidates with [] => Some (ErrNew (MergedError_Error err)) | _ => None end).
End filters.

(** ** What the filters promise *)

Section filter_spec.
Context {L : K8sLib}.

(** A predicate leaves the pool, the volumes and the stored free resource of
    the node alone, and can only release reservations of the node's volumes. *)
Record same_node (n n' : Node) : Prop := {
  sn_pool : nd_Pool n' = nd_Pool n;
  sn_volumes : nd_Volumes n' = nd_Volumes n;
  sn_free : nd_FreeResource n' = nd_FreeResource n;
  sn_resv : nd_resvSet n' ⊆ nd_resvSet n;
  sn_kept k : k ∉ bound_ids n → nd_resvSet n' !! k = nd_resvSet n !! k;
}.

(** The same verdict on the same node, whatever reasons were collected. *)
Definition same_verdict (o1 o2 : outcome FilterState bool) : Prop :=
  match o1, o2 with
  | Ret b1 (_, n1), Ret b2 (_, n2) => b1 = b2 ∧ n1 = n2
  | Panic _ _, Panic _ _ => True
  | _, _ => False
  end.

(** The contract of a registered predicate: it panics only on a volume without
    a host node, an accepted node adds no reason, a rejected one exactly one,
    and the verdict does not depend on the reasons collected before. *)
Record filter_contract (f : PredicateFunc) : Prop := {
  fct_run cfg vol e n :
    match f cfg vol (e, n) with
    | Ret b (e', n') =>
        same_node n n' ∧ if (b : bool) then e' = e else ∃ reason, e' = AddReason reason e
    | Panic _ _ => vs_HostNode (vol_Spec vol) = None
    end;
  fct_indep cfg vol e1 e2 n : same_verdict (f cfg vol (e1, n)) (f cfg vol (e2, n));
}.

(** A registry whose predicates all keep it. *)
Class RegistryOk (m : Registry) : Prop :=
  registry_ok name f : GetFilterByName m name = inl f → filter_contract f.

(** The number of rejections a [MergedError] counts. *)
Definition reasons_total (e : MergedError) : Z :=
  map_fold (λ _ cnt acc, (cnt + acc)%Z) 0%Z (e : gmap string Z).

(** When the basic filter accepts a volume without a reservation. *)
Record basic_accepts (cfg : SchedulerConfig) (vol : AntstorVolume) (hostID : string) (n : Node)
    : Prop := {
  ba_sched : IsSchedulable (nd_Pool n) = true;
  ba_free : ¬ (Quantity_CmpInt64 (ResourceList_Storage (GetFreeResourceNonLock n).1)
                 (wrap64 (vs_SizeByte (vol_Spec vol))) < 0)%Z;
  ba_spdk : lvst_Name (sps_SpdkLVStore (sp_Spec (nd_Pool n))) ≠ "" → tgtConditionOk n = true;
  ba_remote : pool_nodeID n ≠ hostID →
    (RemoteVolumesCount (cfg_RemoteIgnoreAnnoSelector cfg) n < cfg_MaxRemoteVolumeCount cfg)%Z ∧
    tgtConditionOk n = true;
  ba_local : vs_PositionAdvice (vol_Spec vol) = MustLocal → pool_nodeID n = hostID;
  ba_mustremote : vs_PositionAdvice (vol_Spec vol) = MustRemote → pool_nodeID n ≠ hostID;
  ba_lvs : vs_Type (vol_Spec vol) = VolumeTypeSpdkLVol →
    lvst_UUID (sps_SpdkLVStore (sp_Spec (nd_Pool n))) ≠ "";
  ba_vg : vs_Type (vol_Spec vol) = VolumeTypeKernelLVol →
    klvm_VgUUID (sps_KernelLVM (sp_Spec (nd_Pool n))) ≠ "";
}.

(** When the basic filter accepts a volume that names the reservation [resvId]. *)
Definition reservation_accepts (vol : AntstorVolume) (resvId : string) (n : Node) : Prop :=
  IsSchedulable (nd_Pool n) = true ∧
  ¬ (Quantity_CmpInt64 (ResourceList_Storage (nd_FreeResource n)) 0 < 0)%Z ∧
  ∃ r, Node_GetReservation resvId n = Some r ∧
       (wrap64 (vs_SizeByte (vol_Spec vol)) ≤ rv_sizeByte r)%Z.
End filter_spec.

Section filter_lemmas.
Context {L : K8sLib}.
Implicit Types (n : Node) (vol : AntstorVolume) (e : MergedError).

Lemma same_node_refl n : same_node n n.
Proof. by split. Qed.

Lemma same_node_trans n1 n2 n3 : same_node n1 n2 → same_node n2 n3 → same_node n1 n3.
Proof.
  intros [Hp Hv Hf Hr Hk] [Hp' Hv' Hf' Hr' Hk']. split; [congruence..|by etrans|].
  intros k Hb. rewrite Hk', Hk; [done|done|]. by rewrite (bound_ids_ext n2 n1).
Qed.

#[local] Instance same_node_preorder : PreOrder same_node.
Proof. split; [intros ?; apply same_node_refl|intros ???; apply same_node_trans]. Qed.

Lemma GetFree_same n : same_node n (GetFreeResourceNonLock n).2.
Proof.
  split; auto using GetFree_pool, GetFree_volumes, GetFree_fresource, GetFree_resv_sub, GetFree_kept.
Qed.

Lemma same_node_committed n n' : resv_wf (nd_resvSet n) → same_node n n' → committed n' = committed n.
Proof.
  intros Hwf Hs. unfold committed, committed_by. rewrite (sn_pool _ _ Hs), (sn_volumes _ _ Hs). f_equal.
  apply sumZ_perm, Permutation_map, unbound_perm; [done|by apply Hs|by apply bound_ids_ext, Hs|apply Hs].
Qed.

Lemma reject_run reason e n : reject reason (e, n) = Ret false (AddReason reason e, n).
Proof. reflexivity. Qed.

#[local] Hint Resolve same_node_refl GetFree_same : core.
Ltac filter_done := rewrite ?reject_run; cbn; eauto.

Lemma node_free_run e n :
  node_free (e, n) = Ret (GetFreeResourceNonLock n).1 (e, (GetFreeResourceNonLock n).2).
Proof. unfold node_free. go_simpl. by destruct (GetFreeResourceNonLock n). Qed.

Lemma basic_position_type_contract hostID vol n0 e n :
  same_node n0 n →
  match basic_position_type hostID vol (e, n) with
  | Ret b (e', n') => same_node n0 n' ∧ if (b : bool) then e' = e else ∃ r, e' = AddReason r e
  | Panic _ _ => vs_HostNode (vol_Spec vol) = None
  end.
Proof.
  intros H. unfold basic_position_type, the_node. go_simpl.
  repeat case_decide; filter_done.
Qed.

Lemma basic_remote_contract cfg vol n0 e n :
  same_node n0 n →
  match basic_remote cfg vol (e, n) with
  | Ret b (e', n') => same_node n0 n' ∧ if (b : bool) then e' = e else ∃ r, e' = AddReason r e
  | Panic _ _ => vs_HostNode (vol_Spec vol) = None
  end.
Proof.
  intros H. unfold basic_remote, the_node, HostNode_ID, deref, panic. go_simpl.
  case_decide; [filter_done|].
  destruct (vs_HostNode _) as [h|] eqn:Hh; cbn; [|done]. rewrite <- Hh.
  repeat case_decide; first [by apply basic_position_type_contract|filter_done].
Qed.

Lemma matchReservationFilter_run vol e n :
  matchReservationFilter vol (e, n) =
  match map_get (om_Annotations (vol_meta vol)) ReservationIDKey with
  | None => Ret (false, false) (e, n)
  | Some id =>
      if decide (Quantity_CmpInt64 (ResourceList_Storage (nd_FreeResource n)) 0 < 0)%Z
      then Ret (false, true) (AddReason ReasonPoolFreeSize e, n)
      else match Node_GetReservation id n with
           | Some r => if decide (rv_sizeByte r < wrap64 (vs_SizeByte (vol_Spec vol)))%Z
                       then Ret (false, true) (AddReason ReasonReservationSize e, n)
                       else Ret (true, false) (e, n)
           | None => Ret (false, true) (AddReason ReasonReserveNotMatch e, n)
           end
  end.
Proof.
  unfold matchReservationFilter, the_node. destruct (map_get _ _) as [id|]; [|done]. go_simpl.
  case_decide; [done|]. destruct (Node_GetReservation id n); [|done]. by case_decide.
Qed.

(** [BasicFilterFunc] after its first checks. *)
Lemma BasicFilterFunc_run cfg vol e n :
  BasicFilterFunc cfg vol (e, n) =
  if decide (IsSchedulable (nd_Pool n) = false) then Ret false (AddReason ReasonPoolUnschedulable e, n)
  else match matchReservationFilter vol (e, n) with
       | Ret (true, _) st => Ret true st
       | Ret (false, true) st => Ret false st
       | Ret (false, false) _ =>
           if decide (Quantity_CmpInt64 (ResourceList_Storage (GetFreeResourceNonLock n).1)
                        (wrap64 (vs_SizeByte (vol_Spec vol))) < 0)%Z
           then Ret false (AddReason ReasonPoolFreeSize e, (GetFreeResourceNonLock n).2)
           else basic_remote cfg vol (e, (GetFreeResourceNonLock n).2)
       | Panic why st => Panic why st
       end.
Proof.
  unfold BasicFilterFunc, the_node. go_simpl. destruct (decide (IsSchedulable _ = false)); [done|].
  rewrite matchReservationFilter_run.
  destruct (map_get _ _) as [id|].
  - destruct (decide (_ < 0)%Z); [done|]. destruct (Node_GetReservation id n); [|done].
    by destruct (decide (_ < _)%Z).
  - cbn. rewrite decide_False by (intros [|]; discriminate). rewrite node_free_run.
    change (ResourceList_Storage (GetFreeResourceNonLock n).1)
      with (default Quantity_zero (map_get (GetFreeResourceNonLock n).1 ResourceDiskPoolByte)).
    by destruct (decide (_ < _)%Z).
Qed.

Lemma basic_remote_indep cfg vol e1 e2 n :
  same_verdict (basic_remote cfg vol (e1, n)) (basic_remote cfg vol (e2, n)).
Proof.
  unfold basic_remote, basic_position_type, the_node, HostNode_ID, deref, panic. go_simpl.
  destruct (vs_HostNode _) as [h|]; cbn; repeat case_decide; rewrite ?reject_run; done.
Qed.

Lemma BasicFilterFunc_contract : filter_contract BasicFilterFunc.
Proof.
  split; intros cfg vol; intros.
  - rewrite BasicFilterFunc_run, matchReservationFilter_run.
    destruct (decide (IsSchedulable _ = false)); [filter_done|].
    destruct (map_get _ _) as [id|].
    + destruct (decide (_ < 0)%Z); [filter_done|]. destruct (Node_GetReservation id n); [|filter_done].
      destruct (decide (_ < _)%Z); filter_done.
    + destruct (decide (_ < _)%Z); [filter_done|]. by apply basic_remote_contract.
  - rewrite !BasicFilterFunc_run, !matchReservationFilter_run.
    destruct (decide (IsSchedulable _ = false)); [done|].
    destruct (map_get _ _) as [id|].
    + destruct (decide (_ < 0)%Z); [done|]. destruct (Node_GetReservation id n); [|done].
      by destruct (decide (_ < _)%Z).
    + destruct (decide (_ < _)%Z); [done|]. apply basic_remote_indep.
Qed.

Lemma AffinityFilterFunc_contract : filter_contract AffinityFilterFunc.
Proof.
  split; intros cfg vol; intros; unfold AffinityFilterFunc, the_node; go_simpl;
    repeat case_decide; rewrite ?reject_run; cbn; eauto.
Qed.

Lemma MinLocalStorageFilterFunc_contract : filter_contract MinLocalStorageFilterFunc.
Proof.
  split; intros cfg vol; intros; unfold MinLocalStorageFilterFunc, the_node, HostNode_ID, deref, panic;
    go_simpl; destruct (vs_HostNode _); cbn; try done;
    repeat case_decide; rewrite ?reject_run; cbn; eauto.
Qed.

Lemma filtersMap_contract name f : GetFilterByName filtersMap name = inl f → filter_contract f.
Proof.
  unfold GetFilterByName, filtersMap, RegisterFilter.
  destruct (decide (name = "MinLocalStorage")) as [->|H1].
  { rewrite lookup_insert_eq. intros [= <-]. apply MinLocalStorageFilterFunc_contract. }
  rewrite lookup_insert_ne by done. destruct (decide (name = "Affinity")) as [->|H2].
  { rewrite lookup_insert_eq. intros [= <-]. apply AffinityFilterFunc_contract. }
  rewrite lookup_insert_ne by done. destruct (decide (name = "Basic")) as [->|H3].
  { rewrite lookup_insert_eq. intros [= <-]. apply BasicFilterFunc_contract. }
  by rewrite lookup_insert_ne, lookup_empty by done.
Qed.

#[export] Instance filtersMap_ok : RegistryOk filtersMap.
Proof. intros name f. apply filtersMap_contract. Qed.

(** Registering a filter that keeps the contract keeps the registry. *)
Lemma RegisterFilter_ok name f m : filter_contract f → RegistryOk m → RegistryOk (RegisterFilter name f m).
Proof.
  intros Hf Hm k g. unfold GetFilterByName, RegisterFilter. destruct (decide (name = k)) as [<-|Hne].
  - rewrite lookup_insert_eq. by intros [= <-].
  - rewrite lookup_insert_ne by done. apply Hm.
Qed.

Lemma LoadFilterFromConfig_contract m `{!RegistryOk m} fc :
  Forall filter_contract (fc_filters fc) →
  Forall filter_contract (fc_filters (LoadFilterFromConfig m fc)).
Proof.
  unfold LoadFilterFromConfig. generalize (cfg_Filters (fc_cfg fc)). intros names.
  revert fc. induction names as [|name names IH]; intros fc Hfc; [done|]. cbn [foldl].
  apply IH. destruct (GetFilterByName m name) as [f|] eqn:E; [|done].
  apply Forall_app. split; [done|]. apply Forall_singleton. by eapply registry_ok.
Qed.

Lemma LoadFilterFromConfig_input m fc :
  fc_nodes (LoadFilterFromConfig m fc) = fc_nodes fc ∧ fc_vol (LoadFilterFromConfig m fc) = fc_vol fc ∧
  fc_cfg (LoadFilterFromConfig m fc) = fc_cfg fc ∧ fc_err (LoadFilterFromConfig m fc) = fc_err fc.
Proof.
  unfold LoadFilterFromConfig. generalize (cfg_Filters (fc_cfg fc)). intros names.
  revert fc. induction names as [|name names IH]; intros fc; [done|]. cbn [foldl].
  destruct (IH (match GetFilterByName m name with inl f => fc_Filter f fc | inr _ => fc end))
    as (-> & -> & -> & ->). by destruct (GetFilterByName m name).
Qed.

Lemma reasons_total_add reason e : reasons_total (AddReason reason e) = (reasons_total e + 1)%Z.
Proof.
  unfold reasons_total, AddReason. destruct ((e : gmap string Z) !! reason) as [c|] eqn:E.
  - rewrite (map_fold_delete_L _ _ reason (c + 1)%Z); [|lia|by rewrite lookup_insert_eq].
    rewrite (map_fold_delete_L _ _ reason c (e : gmap string Z)) by (done || lia).
    rewrite delete_insert_eq. lia.
  - rewrite map_fold_insert_L; [|lia|done]. lia.
Qed.

Lemma passAllFilters_contract cfg filters vol e n :
  Forall filter_contract filters →
  match passAllFilters cfg filters vol (e, n) with
  | Ret b (e', n') => same_node n n' ∧ if (b : bool) then e' = e else ∃ r, e' = AddReason r e
  | Panic _ _ => vs_HostNode (vol_Spec vol) = None
  end.
Proof.
  intros Hall. revert n. induction Hall as [|f fs Hf _ IH]; intros n; cbn [passAllFilters].
  - go_simpl. split; [apply same_node_refl|done].
  - go_simpl. pose proof (fct_run _ Hf cfg vol e n) as Hrun. clear Hf. rename Hrun into Hf.
    destruct (f cfg vol (e, n)) as [[] [e' n']|]; [| |done].
    + destruct Hf as [Hs ->]. specialize (IH n').
      destruct (passAllFilters cfg fs vol (e, n')) as [b [e' n'']|]; [|done].
      destruct IH as [Hs' Hb]. split; [by eapply same_node_trans|done].
    + done.
Qed.

Lemma passAllFilters_indep cfg filters vol e1 e2 n :
  Forall filter_contract filters →
  same_verdict (passAllFilters cfg filters vol (e1, n)) (passAllFilters cfg filters vol (e2, n)).
Proof.
  intros Hall. revert e1 e2 n. induction Hall as [|f fs Hf _ IH]; intros e1 e2 n;
    cbn [passAllFilters]; go_simpl; [done|].
  pose proof (fct_indep _ Hf cfg vol e1 e2 n) as Hi. unfold same_verdict in Hi.
  destruct (f cfg vol (e1, n)) as [[] [e1' n1]|], (f cfg vol (e2, n)) as [[] [e2' n2]|];
    try done; destruct Hi as [Hb ->]; try discriminate Hb; first [apply IH|done].
Qed.

(** The nodes a chain accepts, decided by the predicates on each node. *)
Definition accepted (fc : FilterChain) (n : Node) : Prop :=
  ∃ e st, passAllFilters (fc_cfg fc) (fc_filters fc) (fc_vol fc) (e, n) = Ret true st.

(** A node that passes a chain passed each of its predicates. *)
Lemma passAllFilters_in cfg filters vol e n st (f : PredicateFunc) :
  Forall filter_contract filters → f ∈ filters →
  passAllFilters cfg filters vol (e, n) = Ret true st →
  ∃ e1 n1 st1, same_node n n1 ∧ f cfg vol (e1, n1) = Ret true st1.
Proof.
  intros Hall. revert e n. induction Hall as [|g fs Hg _ IH]; intros e n; [by intros []%elem_of_nil|].
  cbn [passAllFilters]. rewrite elem_of_cons. intros Hin (ok & [e1 n1] & H1 & H2)%go_bind_inv.
  destruct ok; [|done]. pose proof (fct_run _ Hg cfg vol e n) as Hr. rewrite H1 in Hr.
  destruct Hin as [->|Hin].
  - exists e, n, (e1, n1). split; [apply same_node_refl|done].
  - destruct (IH _ _ Hin H2) as (e2 & n2 & st2 & Hs & Hf). exists e2, n2, st2.
    split; [|done]. eapply same_node_trans; [apply Hr|done].
Qed.

Lemma LoadFilterFromConfig_in m name f fc :
  name ∈ cfg_Filters (fc_cfg fc) → GetFilterByName m name = inl f →
  f ∈ fc_filters (LoadFilterFromConfig m fc).
Proof.
  unfold LoadFilterFromConfig. generalize (cfg_Filters (fc_cfg fc)). intros names Hin Hf.
  revert fc Hin. induction names as [|n names IH]; intros fc Hin; [by apply elem_of_nil in Hin|].
  assert (∀ ns fc', f ∈ fc_filters fc' → f ∈ fc_filters (foldl (λ fc name,
    match GetFilterByName m name with inl f => fc_Filter f fc | inr _ => fc end) fc' ns)) as Hkeep.
  { induction ns as [|x ns IHn]; intros fc' H'; [done|]. cbn [foldl]. apply IHn.
    destruct (GetFilterByName m x); [|done]. cbn. apply elem_of_app. by left. }
  cbn [foldl]. apply elem_of_cons in Hin as [->|Hin].
  - rewrite Hf. apply Hkeep. cbn. apply elem_of_app. right. by apply list_elem_of_singleton.
  - by apply IH.
Qed.

Lemma MatchAll_loop_spec fc nodes e :
  Forall filter_contract (fc_filters fc) → is_Some (vs_HostNode (vol_Spec (fc_vol fc))) →
  ∃ nodes' cands e', MatchAll_loop fc nodes e = Ret (nodes', cands) e' ∧
    Forall2 same_node nodes nodes' ∧ cands `sublist_of` nodes' ∧
    reasons_total e' = (reasons_total e + Z.of_nat (length nodes) - Z.of_nat (length cands))%Z ∧
    Forall (λ c, ∃ n, n ∈ nodes ∧ same_node n c ∧ accepted fc n) cands ∧
    Forall (λ n, accepted fc n → ∃ c, c ∈ cands ∧ same_node n c) nodes.
Proof.
  intros Hall [h Hh]. revert e. induction nodes as [|n nodes IH]; intros e.
  { exists [], [], e. cbn. split_and!; auto. lia. }
  cbn [MatchAll_loop].
  pose proof (passAllFilters_contract (fc_cfg fc) _ (fc_vol fc) e n Hall) as Hc.
  destruct (passAllFilters _ _ _ (e, n)) as [b [e1 n1]|why st] eqn:E; [|congruence].
  destruct Hc as [Hs Hb].
  destruct (IH e1) as (nodes' & cands & e' & -> & Hn & Hsub & Htot & Hacc & Hcompl).
  assert (Forall (λ c, ∃ n0, n0 ∈ n :: nodes ∧ same_node n0 c ∧ accepted fc n0) cands) as Hacc'.
  { eapply Forall_impl; [exact Hacc|]. intros c (n0 & Hin & Hsc & Ha). exists n0.
    split; [by right|done]. }
  eexists _, _, _. split; [reflexivity|]. split; [by constructor|].
  destruct b.
  - subst e1. split; [by apply sublist_skip|]. split; [cbn [length]; lia|]. split.
    { constructor; [|done]. exists n. split; [by left|]. split; [done|]. by exists e, (e, n1). }
    constructor; [intros _; exists n1; split; [by left|done]|].
    eapply Forall_impl; [exact Hcompl|]. intros m Hm Ha. destruct (Hm Ha) as (c & Hc' & ?).
    exists c. split; [by right|done].
  - destruct Hb as [r ->]. split; [by apply sublist_cons|]. split.
    { rewrite reasons_total_add in Htot. cbn [length]. lia. }
    split; [done|]. constructor; [|done]. intros (e0 & st & Ht). exfalso.
    pose proof (passAllFilters_indep (fc_cfg fc) _ (fc_vol fc) e0 e n Hall) as Hi.
    rewrite Ht, E in Hi. destruct st. by destruct Hi as [? _].
Qed.
End filter_lemmas.

(** ** Properties *)

Section filter_props.
Context {L : K8sLib}.
Implicit Types (n : Node) (vol : AntstorVolume) (e : MergedError).

(** The tail of the basic filter accepts exactly the remaining conditions. *)
Lemma basic_remote_true cfg vol h e n :
  vs_HostNode (vol_Spec vol) = Some h →
  (∃ st, basic_remote cfg vol (e, n) = Ret true st) ↔
  (lvst_Name (sps_SpdkLVStore (sp_Spec (nd_Pool n))) ≠ "" → tgtConditionOk n = true) ∧
  (pool_nodeID n ≠ ni_ID h →
    (RemoteVolumesCount (cfg_RemoteIgnoreAnnoSelector cfg) n < cfg_MaxRemoteVolumeCount cfg)%Z ∧
    tgtConditionOk n = true) ∧
  (vs_PositionAdvice (vol_Spec vol) = MustLocal → pool_nodeID n = ni_ID h) ∧
  (vs_PositionAdvice (vol_Spec vol) = MustRemote → pool_nodeID n ≠ ni_ID h) ∧
  (vs_Type (vol_Spec vol) = VolumeTypeSpdkLVol →
    lvst_UUID (sps_SpdkLVStore (sp_Spec (nd_Pool n))) ≠ "") ∧
  (vs_Type (vol_Spec vol) = VolumeTypeKernelLVol →
    klvm_VgUUID (sps_KernelLVM (sp_Spec (nd_Pool n))) ≠ "").
Proof.
  intros Hh. unfold basic_remote, the_node, HostNode_ID, deref. rewrite Hh. go_simpl.
  destruct (decide (tgtConditionOk n = false ∧ _)) as [[H1 H1']|H1].
  { split; [intros [st Hst]; by rewrite reject_run in Hst|]. intros [Ha _].
    rewrite Ha in H1 by done. done. }
  assert (lvst_Name (sps_SpdkLVStore (sp_Spec (nd_Pool n))) ≠ "" → tgtConditionOk n = true) as Ha.
  { intros Hne. destruct (tgtConditionOk n); [done|]. by destruct H1. }
  destruct (decide (_ ∧ _)) as [[H2 H2']|H2].
  { apply bool_decide_eq_false in H2.
    split; [intros [st Hst]; by rewrite reject_run in Hst|]. intros (_ & Hb & _).
    destruct (Hb H2). lia. }
  destruct (decide (_ ∧ tgtConditionOk n = false)) as [[H3 H3']|H3].
  { apply bool_decide_eq_false in H3.
    split; [intros [st Hst]; by rewrite reject_run in Hst|]. intros (_ & Hb & _).
    destruct (Hb H3). congruence. }
  assert (pool_nodeID n ≠ ni_ID h →
    (RemoteVolumesCount (cfg_RemoteIgnoreAnnoSelector cfg) n < cfg_MaxRemoteVolumeCount cfg)%Z ∧
    tgtConditionOk n = true) as Hb.
  { intros Hne. apply (bool_decide_eq_false_2 (pool_nodeID n = ni_ID h)) in Hne. split.
    - apply Z.nle_gt. intros Hle. by destruct H2.
    - destruct (tgtConditionOk n); [done|]. by destruct H3. }
  unfold basic_position_type, the_node. go_simpl.
  repeat case_decide; rewrite ?reject_run; split;
    try (intros [st Hst]; discriminate); try (intros; naive_solver); naive_solver.
Qed.

Lemma BasicFilter_unreserved_iff cfg vol h e n :
  map_get (om_Annotations (vol_meta vol)) ReservationIDKey = None →
  vs_HostNode (vol_Spec vol) = Some h →
  (∃ st, BasicFilterFunc cfg vol (e, n) = Ret true st) ↔ basic_accepts cfg vol (ni_ID h) n.
Proof.
  intros Hanno Hh. rewrite BasicFilterFunc_run, matchReservationFilter_run, Hanno.
  destruct (decide (IsSchedulable _ = false)) as [Hs|Hs].
  { split; [intros [? [=]]|]. intros []. congruence. }
  destruct (decide (_ < _)%Z) as [Hf|Hf].
  { split; [intros [? [=]]|]. by intros []. }
  rewrite (basic_remote_true _ _ h) by done.
  unfold pool_nodeID, tgtConditionOk, RemoteVolumesCount. rewrite GetFree_pool, GetFree_volumes.
  split.
  - intros (?&?&?&?&?&?). split; try done. by apply Bool.not_false_iff_true.
  - intros []. done.
Qed.

(** A volume that names a reservation skips the other checks: it is accepted
    exactly when the pool is schedulable, its free resource is not negative and
    the node holds a reservation of that id at least as large. *)
Lemma BasicFilter_reservation_iff cfg vol resvId e n :
  map_get (om_Annotations (vol_meta vol)) ReservationIDKey = Some resvId →
  (∃ st, BasicFilterFunc cfg vol (e, n) = Ret true st) ↔ reservation_accepts vol resvId n.
Proof.
  intros Hanno. rewrite BasicFilterFunc_run, matchReservationFilter_run, Hanno.
  unfold reservation_accepts.
  destruct (decide (IsSchedulable _ = false)) as [Hs|Hs].
  { split; [intros [? [=]]|]. intros []. congruence. }
  apply Bool.not_false_iff_true in Hs.
  destruct (decide (_ < 0)%Z) as [Hf|Hf]; [naive_solver|].
  destruct (Node_GetReservation resvId n) as [r|]; [|naive_solver].
  destruct (decide (_ < _)%Z) as [Hlt|Hlt].
  - split; [intros [? [=]]|]. intros (_ & _ & r' & [= <-] & Hle). lia.
  - split; [|eauto]. intros _. split_and!; eauto. exists r. split; [done|lia].
Qed.

(** C29. The basic filter accepts a volume with a host exactly when its declarative
    specification holds. For a volume without a reservation annotation: the pool is
    schedulable, its free storage covers the volume, its SPDK condition is good where
    it matters, the node has room for another remote volume, and position advice and
    volume type fit. For one that names a reservation: the pool is schedulable, its
    free storage is not negative and the node holds a reservation of that id that is
    at least as large; nothing else is asked. Otherwise it rejects with one reason
    counted. It never panics and leaves the node as it was. *)
Theorem BasicFilter_accepts_iff cfg vol h e n : vs_HostNode (vol_Spec vol) = Some h →
  ∃ b e' n', BasicFilterFunc cfg vol (e, n) = Ret b (e', n') ∧ same_node n n' ∧
    (if b then e' = e else ∃ reason, e' = AddReason reason e) ∧
    (b = true ↔ match map_get (om_Annotations (vol_meta vol)) ReservationIDKey with
                | Some resvId => reservation_accepts vol resvId n
                | None => basic_accepts cfg vol (ni_ID h) n
                end).
Proof.
  intros Hh. pose proof (fct_run _ BasicFilterFunc_contract cfg vol e n) as Hc.
  destruct (BasicFilterFunc cfg vol (e, n)) as [b [e' n']|] eqn:Hrun; [|congruence]. destruct Hc as [Hsame He].
  exists b, e', n'. split; [done|]. split; [done|]. split; [done|].
  destruct (map_get _ ReservationIDKey) as [resvId|] eqn:Hanno.
  - rewrite <- (BasicFilter_reservation_iff cfg vol resvId e n Hanno), Hrun. split; [intros ->; by eexists|by intros [? [=]]].
  - rewrite <- (BasicFilter_unreserved_iff cfg vol h e n Hanno Hh), Hrun. split; [intros ->; by eexists|by intros [? [=]]].
Qed.

(** The chain built from any configuration, run on a volume that has a host
    node, never panics: it leaves every node as it was but for released
    reservations, its candidates are the nodes all predicates accept, it fails
    exactly when there is none, and it counts one reason per node left out. *)
Lemma MatchAll_contract m `{!RegistryOk m} cfg nodes vol :
  is_Some (vs_HostNode (vol_Spec vol)) →
  let fc := LoadFilterFromConfig m (fc_Input nodes vol (NewFilterChain cfg)) in
  ∃ nodes' cands err e', MatchAll fc NewMergedError = Ret (nodes', cands, err) e' ∧
    Forall2 same_node nodes nodes' ∧ cands `sublist_of` nodes' ∧
    Forall (λ c, ∃ n, n ∈ nodes ∧ same_node n c ∧ accepted fc n) cands ∧
    Forall (λ n, accepted fc n → ∃ c, c ∈ cands ∧ same_node n c) nodes ∧
    (err = None ↔ cands ≠ []) ∧
    reasons_total e' = (Z.of_nat (length nodes) - Z.of_nat (length cands))%Z.
Proof.
  intros Hh fc. unfold MatchAll.
  pose proof (LoadFilterFromConfig_contract m (fc_Input nodes vol (NewFilterChain cfg))
    (Forall_nil_2 _)) as Hall. fold fc in Hall.
  destruct (LoadFilterFromConfig_input m (fc_Input nodes vol (NewFilterChain cfg)))
    as (Hn & Hv & _ & _). fold fc in Hn, Hv. cbn in Hn, Hv.
  rewrite Hn.
  destruct (MatchAll_loop_spec fc nodes NewMergedError Hall) as
    (nodes' & cands & e' & Hrun & Hf2 & Hsub & Htot & Hacc & Hcompl); [by rewrite Hv|].
  eexists nodes', cands, _, e'. split.
  { go_simpl. rewrite Hrun. reflexivity. }
  split_and!; try done. by destruct cands.
Qed.
End filter_props.

(** *** Evaluations *)

Definition ex_cfg : SchedulerConfig := SetDefaults {|
  cfg_MaxRemoteVolumeCount := 0; cfg_RemoteIgnoreAnnoSelector := None; cfg_Filters := [];
  cfg_Priorities := []; cfg_LockSchedCfg := {| nsc_NodeSelector := []; nsc_NodeTaints := [] |};
  cfg_NodeCacheSelector := None; cfg_MinLocalStoragePct := 0; cfg_NodeReservations := [] |}.

Definition ex_resv_vol : AntstorVolume :=
  vol_set_meta (om_set_Annotations (Some {[ ReservationIDKey := "r" ]}) (ex_meta "c"))
    (ex_vol "c" "uuid-c" (4 * GiB)).

(** The verdict of the basic filter on the example node. *)
Definition ex_verdict (vol : AntstorVolume) (b : bool) : Prop := ∃ st, BasicFilterFunc ex_cfg vol (NewMergedError, ex_node) = Ret b st.
Definition ex_big_resv_vol : AntstorVolume :=
  vol_set_meta (om_set_Annotations (Some {[ ReservationIDKey := "r" ]}) (ex_meta "c")) (ex_vol "c" "uuid-c" (60 * GiB)).
Lemma ex_verdict_run vol b : run_val (BasicFilterFunc ex_cfg vol (NewMergedError, ex_node)) = Some b → ex_verdict vol b.
Proof. apply run_val_Some. Qed.

Lemma BasicFilter_accepts_iff_witness :
  basic_accepts ex_cfg (ex_vol "b" "uuid-b" (60 * GiB)) "node-1" ex_node ∧
  ¬ basic_accepts ex_cfg (ex_vol "b" "uuid-b" (70 * GiB)) "node-1" ex_node ∧
  reservation_accepts ex_resv_vol "r" ex_node ∧
  ¬ reservation_accepts ex_big_resv_vol "r" ex_node.
Proof.
  assert (ex_verdict (ex_vol "b" "uuid-b" (60 * GiB)) true) as [st1 V1] by (apply ex_verdict_run; vm_compute; reflexivity).
  assert (ex_verdict (ex_vol "b" "uuid-b" (70 * GiB)) false) as [st2 V2] by (apply ex_verdict_run; vm_compute; reflexivity).
  assert (ex_verdict ex_resv_vol true) as [st3 V3] by (apply ex_verdict_run; vm_compute; reflexivity).
  assert (ex_verdict ex_big_resv_vol false) as [st4 V4] by (apply ex_verdict_run; vm_compute; reflexivity).
  destruct (BasicFilter_accepts_iff ex_cfg (ex_vol "b" "uuid-b" (60 * GiB)) ex_node_info NewMergedError ex_node) as (b1 & ? & ? & R1 & _ & _ & H1); [reflexivity|].
  destruct (BasicFilter_accepts_iff ex_cfg (ex_vol "b" "uuid-b" (70 * GiB)) ex_node_info NewMergedError ex_node) as (b2 & ? & ? & R2 & _ & _ & H2); [reflexivity|].
  destruct (BasicFilter_accepts_iff ex_cfg ex_resv_vol ex_node_info NewMergedError ex_node) as (b3 & ? & ? & R3 & _ & _ & H3); [reflexivity|].
  destruct (BasicFilter_accepts_iff ex_cfg ex_big_resv_vol ex_node_info NewMergedError ex_node) as (b4 & ? & ? & R4 & _ & _ & H4); [reflexivity|].
  rewrite V1 in R1. rewrite V2 in R2. rewrite V3 in R3. rewrite V4 in R4.
  injection R1 as <- _. injection R2 as <- _. injection R3 as <- _. injection R4 as <- _.
  split_and!; [by apply H1|intros Ha; by apply H2 in Ha|by apply H3|intros Ha; by apply H4 in Ha].
Defined.

Lemma MatchAll_contract_witness :
  ∃ nodes' cands err e',
    MatchAll (LoadFilterFromConfig filtersMap
      (fc_Input [ex_node] (ex_vol "b" "uuid-b" GiB) (NewFilterChain ex_cfg))) NewMergedError
    = Ret (nodes', cands, err) e' ∧ (err = None ↔ cands ≠ []).
Proof.
  destruct (MatchAll_contract filtersMap ex_cfg [ex_node] (ex_vol "b" "uuid-b" GiB))
    as (nodes' & cands & err & e' & Hrun & _ & _ & _ & _ & Herr & _); [by eexists|].
  exists nodes', cands, err, e'. split; [exact Hrun|exact Herr].
Defined.
