(* ===== verification/Sched.v ===== *)
(** * Scheduling one volume

    [pkg/controller/manager/scheduler/priority] and [.../scheduler/sched.go]:
    the scores of the nodes that pass the filters, the choice of the best one,
    and [ScheduleVolume].

    [sort.Sort] is Go's unstable sort: [GoSort] is any sort that meets its
    documentation, and [go_insertion_sort], what the library runs on at most
    twelve elements, is an instance. *)

From Stdlib Require Import ZArith Lia.
From stdpp Require Import base gmap strings option list sorting.
From S2P Require Import Prelude Strconv Float64 Misc K8s Api State Filter.

(** ** [sort.Sort] *)

Class GoSort := { go_sort : ∀ {A : Type}, (A → A → bool) → list A → list A }.

(** What [Less] must be for [sort.Sort] to order the data. *)
Record strict_weak {A} (less : A → A → bool) : Prop := {
  sw_trans x y z : less x y = true → less y z = true → less x z = true;
  sw_neg_trans x y z : less x y = false → less y z = false → less x z = false;
  sw_irrefl x : less x x = false;
}.
Class GoSortLaws (G : GoSort) := {
  go_sort_perm {A} (less : A → A → bool) l : go_sort less l ≡ₚ l;
  go_sort_sorted {A} (less : A → A → bool) l :
    strict_weak less → StronglySorted (λ x y, less y x = false) (go_sort less l);
}.

(** [sort.Reverse] *)
Definition sort_Reverse {A} (less : A → A → bool) : A → A → bool := λ x y, less y x.

Fixpoint go_insert {A} (less : A → A → bool) (x : A) (l : list A) : list A :=
  match l with
  | [] => [x]
  | y :: l' => if less x y then x :: y :: l' else y :: go_insert less x l'
  end.
#[export] Instance go_insertion_sort : GoSort :=
  {| go_sort A less l := foldl (λ acc x, go_insert less x acc) [] l |}.

Section sched.
Context {L : K8sLib} {G : GoSort}.

(** ** Priorities *)

(* [priority/priority.go:13-16] PriorityResult *)
Record PriorityResult := { pr_NodeID : string; pr_Score : Z }.

(* [priority/priority.go:23-25] PriorityResultList.Less *)
Definition PriorityResultList_Less (p q : PriorityResult) : bool :=
  bool_decide (pr_Score p < pr_Score q)%Z.

(* [priority/priority.go:30-30] PriorityFunc *)
Definition PriorityFunc := Node → AntstorVolume → go unit Z.

(* [priority/least_resource.go:12-34] PriorityByLeastResource *)
Definition PriorityByLeastResource : PriorityFunc := λ n vol,
  let total := f64_of_Z (GetVgTotalBytes (nd_Pool n)) in
  let free := f64_of_Z (GetVgFreeBytes (nd_Pool n)) in
  if f64_leb total (f64_of_Z 0) then mret 0%Z
  else
    let score := f64_to_int64 (f64_mul (f64_div (f64_sub total free) total) (f64_of_Z 100)) in
    mret (if decide (score < 0)%Z then 0%Z else score).

(* [priority/position_advice.go:11-27] PriorityByPositionAdivce *)
Definition PriorityByPositionAdivce : PriorityFunc := λ n vol,
  let score0 := 0%Z in
  score1 ← (if decide (vs_PositionAdvice (vol_Spec vol) = PreferLocal)
            then hostID ← HostNode_ID vol;
                 mret (if decide (pool_nodeID n = hostID) then (score0 + 20)%Z else score0)
            else mret score0);
  if decide (vs_PositionAdvice (vol_Spec vol) = PreferRemote)
  then hostID ← HostNode_ID vol;
       mret (if decide (pool_nodeID n ≠ hostID) then (score1 + 20)%Z else score1)
  else mret score1.

Definition PriorityRegistry := gmap string PriorityFunc.
(* [priority/registry.go:19-24] RegisterPriorityFunc *)
Definition RegisterPriorityFunc (name : string) (f : PriorityFunc) (m : PriorityRegistry)
    : PriorityRegistry := <[name := f]> (m : gmap string PriorityFunc).
(* [priority/registry.go:14-17] init *)
Definition prioritiesMap : PriorityRegistry :=
  RegisterPriorityFunc "PositionAdvice" PriorityByPositionAdivce
    (RegisterPriorityFunc "LeastResource" PriorityByLeastResource
      (∅ : gmap string PriorityFunc)).
(* [priority/registry.go:26-34] GetPriorityByName *)
Definition GetPriorityByName (m : PriorityRegistry) (name : string) : result PriorityFunc :=
  match (m : gmap string PriorityFunc) !! name with
  | Some f => inl f
  | None => inr (ErrNew ("not found priority by name " +:+ name))
  end.

(* [priority/priority.go:32-38] PriorityCalculator *)
Record PriorityCalculator := {
  pcal_nodes : list Node; pcal_vol : AntstorVolume; pcal_funcs : list PriorityFunc;
  pcal_cfg : SchedulerConfig }.
(* [priority/priority.go:40-45] NewPriorityCalculator *)
Definition NewPriorityCalculator (cfg : SchedulerConfig) : PriorityCalculator :=
  {| pcal_nodes := []; pcal_vol := AntstorVolume_zero; pcal_funcs := []; pcal_cfg := cfg |}.
(* [priority/priority.go:47-51] PriorityCalculator.Input *)
Definition pcal_Input (nodes : list Node) (vol : AntstorVolume) (pc : PriorityCalculator)
    : PriorityCalculator :=
  {| pcal_nodes := nodes; pcal_vol := vol; pcal_funcs := pcal_funcs pc; pcal_cfg := pcal_cfg pc |}.
(* [priority/priority.go:68-71] PriorityCalculator.AddPriorityFunc *)
Definition AddPriorityFunc (f : PriorityFunc) (pc : PriorityCalculator) : PriorityCalculator :=
  {| pcal_nodes := pcal_nodes pc; pcal_vol := pcal_vol pc; pcal_funcs := pcal_funcs pc ++ [f];
     pcal_cfg := pcal_cfg pc |}.
(* [priority/priority.go:53-66] PriorityCalculator.LoadPriorityFromConfig *)
Definition LoadPriorityFromConfig (m : PriorityRegistry) (pc : PriorityCalculator) : PriorityCalculator :=
  foldl (λ pc name, match GetPriorityByName m name with
                    | inl f => AddPriorityFunc f pc
                    | inr _ => pc
                    end) pc (cfg_Priorities (pcal_cfg pc)).

(** [result.Score += pfunc(pc.ctx, node, pc.vol)] over the functions. *)
Fixpoint score_node (funcs : list PriorityFunc) (n : Node) (vol : AntstorVolume) (score : Z)
    : go unit Z :=
  match funcs with
  | [] => mret score
  | f :: rest => s ← f n vol; score_node rest n vol (wrap64 (score + s))
  end.
Fixpoint score_nodes (funcs : list PriorityFunc) (nodes : list Node) (vol : AntstorVolume)
    : go unit (list PriorityResult) :=
  match nodes with
  | [] => mret []
  | n :: rest =>
      s ← score_node funcs n vol 0;
      l ← score_nodes funcs rest vol;
      mret ({| pr_NodeID := pool_nodeID n; pr_Score := s |} :: l)
  end.

(* [priority/priority.go:78-110] PriorityCalculator.GetFirstByScore *)
Definition GetFirstByScore (pc : PriorityCalculator) : go unit (option Node * Z) :=
  match pcal_nodes pc with
  | [] => mret (None, 0%Z)
  | _ =>
      resultList ← score_nodes (pcal_funcs pc) (pcal_nodes pc) (pcal_vol pc);
      match go_sort (sort_Reverse PriorityResultList_Less) resultList with
      | [] => panic "index out of range"
      | best :: _ =>
          match List.find (λ n, bool_decide (pool_nodeID n = pr_NodeID best)) (pcal_nodes pc) with
          | Some node => mret (Some node, pr_Score best)
          | None => mret (None, 0%Z)
          end
      end
  end.

(** ** [sched.go]

    The state is the list of all nodes, which the filters update in place. *)

Definition SchedM := go (list Node).

(* [scheduler/sched.go:77-83] predicate *)
Definition predicate (m : Registry) (vol : AntstorVolume) (cfg : SchedulerConfig)
    : SchedM (list Node * option error) := λ nodes,
  match MatchAll (LoadFilterFromConfig m (fc_Input nodes vol (NewFilterChain cfg))) NewMergedError with
  | Ret (nodes', qualified, err) _ => Ret (qualified, err) nodes'
  | Panic why _ => Panic why nodes
  end.

(* [scheduler/sched.go:85-98] byPriority *)
Definition byPriority (m : PriorityRegistry) (nodes : list Node) (vol : AntstorVolume)
    (cfg : SchedulerConfig) : SchedM (option Node) :=
  match nodes with
  | [] => mret None
  | _ =>
      r ← no_state (GetFirstByScore
            (LoadPriorityFromConfig m (pcal_Input nodes vol (NewPriorityCalculator cfg))));
      mret r.1
  end.

Context (filters : Registry) (priorities : PriorityRegistry) (cfg : SchedulerConfig).

(* [scheduler/sched.go:65-74] scheduler.sched *)
Definition sched (vol : AntstorVolume) : SchedM (option Node * option error) :=
  r ← predicate filters vol cfg;
  let '(nodes, err) := (r : list Node * option error) in
  match err with
  | Some e => mret (None, Some e)
  | None => node ← byPriority priorities nodes vol cfg; mret (node, None)
  end.

(* [scheduler/sched.go:32-63] scheduler.ScheduleVolume *)
Definition ScheduleVolume (vol : AntstorVolume)
    : SchedM (NodeInfo * AntstorVolume * option error) :=
  match map_get (om_Annotations (vol_meta vol)) SelectedTgtNodeKey with
  | Some nodeName =>
      allNodes ← gget;
      let node0 := {| ni_ID := nodeName; ni_IP := ""; ni_Hostname := ""; ni_Labels := None |} in
      let node := foldl (λ node item, if decide (ni_ID (nd_Info item) = nodeName)
                                      then nd_Info item else node) node0 (allNodes : list Node) in
      mret (node, vol, None)
  | None =>
      r ← sched vol;
      match (r : option Node * option error) with
      | (_, Some e) => mret (NodeInfo_zero, vol, Some e)
      | (on, None) =>
          n ← deref "node" on;
          let node := nd_Info n in
          mret (node, vol_set_Spec (vs_set_TargetNodeId (ni_ID node) (vol_Spec vol)) vol, None)
      end
  end.
End sched.

(** ** The insertion sort is a sort *)

Section insertion.
Context {A : Type} (less : A → A → bool).

Lemma go_insert_perm x l : go_insert less x l ≡ₚ x :: l.
Proof.
  induction l as [|y l IH]; [done|]. cbn [go_insert]. destruct (less x y); [done|].
  rewrite IH. apply Permutation_swap.
Qed.

Lemma go_insert_sorted x l :
  strict_weak less → StronglySorted (λ a b, less b a = false) l →
  StronglySorted (λ a b, less b a = false) (go_insert less x l).
Proof.
  intros Hw. induction 1 as [|y l Hl IH Hy]; cbn [go_insert]; [by repeat constructor|].
  assert (∀ z, less x y = true → less z x = true → less z y = true) as Ht
    by (intros z H1 H2; by eapply (sw_trans _ Hw)).
  assert (less x y = true → less y x = false) as Has.
  { intros H1. destruct (less y x) eqn:H2; [|done].
    pose proof (sw_trans _ Hw _ _ _ H1 H2) as H3. by rewrite (sw_irrefl _ Hw) in H3. }
  destruct (less x y) eqn:E.
  - constructor; [by constructor|]. constructor; [auto|]. rewrite Forall_forall in *. intros z Hz.
    destruct (less z x) eqn:E2; [|done]. specialize (Hy z Hz). rewrite Ht in Hy; done.
  - constructor; [done|]. rewrite go_insert_perm. by constructor.
Qed.

Lemma go_insert_all l acc :
  foldl (λ acc x, go_insert less x acc) acc l ≡ₚ acc ++ l ∧
  (strict_weak less → StronglySorted (λ a b, less b a = false) acc →
   StronglySorted (λ a b, less b a = false) (foldl (λ acc x, go_insert less x acc) acc l)).
Proof.
  revert acc. induction l as [|x l IH]; intros acc; cbn [foldl].
  { by rewrite app_nil_r. }
  destruct (IH (go_insert less x acc)) as [Hp Hs]. split.
  - rewrite Hp, go_insert_perm. cbn. apply Permutation_middle.
  - intros Hw Hacc. apply Hs; [done|]. by apply go_insert_sorted.
Qed.
End insertion.

#[export] Instance go_insertion_sort_laws : GoSortLaws go_insertion_sort.
Proof.
  split; intros A less l.
  - apply (go_insert_all less l []).
  - intros Hw. apply (go_insert_all less l []); [done|constructor].
Qed.

(** ** What the scores promise *)

Section sched_spec.
Context {L : K8sLib} {G : GoSort}.

(** A registered priority gives a non-negative score to a volume that has a
    host node, and reads only the pool of the node. *)
Record priority_contract (f : PriorityFunc) : Prop := {
  pct_run n vol : is_Some (vs_HostNode (vol_Spec vol)) →
    ∃ s, f n vol tt = Ret s tt ∧ (0 ≤ s)%Z ∧ is_int64 s;
  pct_pool n n' vol : nd_Pool n = nd_Pool n' → f n vol tt = f n' vol tt;
}.

(** The total score of a node. *)
Definition node_score (funcs : list PriorityFunc) (vol : AntstorVolume) (n : Node) : Z :=
  default 0%Z (run_val (score_node funcs n vol 0 tt)).

(** The node [n] has the best score among [nodes]. *)
Definition best_of (funcs : list PriorityFunc) (vol : AntstorVolume) (nodes : list Node) (n : Node)
    : Prop :=
  n ∈ nodes ∧ ∀ n', n' ∈ nodes → (node_score funcs vol n' ≤ node_score funcs vol n)%Z.
End sched_spec.

Section sched_lemmas.
Context {L : K8sLib} {G : GoSort} {HG : GoSortLaws G}.
Implicit Types (n : Node) (vol : AntstorVolume).

Lemma PriorityByLeastResource_contract : priority_contract PriorityByLeastResource.
Proof.
  split; [|intros n n' vol E; unfold PriorityByLeastResource; by rewrite E].
  intros n vol _. unfold PriorityByLeastResource. go_simpl. case_match.
  { exists 0%Z. split_and!; [done|lia|unfold is_int64; lia]. }
  eexists. split; [reflexivity|].
  pose proof (f64_to_int64_range (f64_mul (f64_div (f64_sub (f64_of_Z (GetVgTotalBytes (nd_Pool n)))
    (f64_of_Z (GetVgFreeBytes (nd_Pool n)))) (f64_of_Z (GetVgTotalBytes (nd_Pool n)))) (f64_of_Z 100))) as Hr.
  case_decide; (split; [lia|]); [unfold is_int64; lia|done].
Qed.

Lemma PriorityByPositionAdivce_contract : priority_contract PriorityByPositionAdivce.
Proof.
  split; [|intros n n' vol E; unfold PriorityByPositionAdivce, pool_nodeID; by rewrite E].
  intros n vol [h Hh]. unfold PriorityByPositionAdivce, HostNode_ID, deref. rewrite Hh. go_simpl.
  repeat (case_decide; cbn); eexists; (split; [reflexivity|]); unfold is_int64; split; lia.
Qed.

Lemma prioritiesMap_contract name f :
  GetPriorityByName prioritiesMap name = inl f → priority_contract f.
Proof.
  unfold GetPriorityByName, prioritiesMap, RegisterPriorityFunc.
  destruct (decide (name = "PositionAdvice")) as [->|H1].
  { rewrite lookup_insert_eq. intros [= <-]. apply PriorityByPositionAdivce_contract. }
  rewrite lookup_insert_ne by done. destruct (decide (name = "LeastResource")) as [->|H2].
  { rewrite lookup_insert_eq. intros [= <-]. apply PriorityByLeastResource_contract. }
  by rewrite lookup_insert_ne, lookup_empty by done.
Qed.

Lemma LoadPriorityFromConfig_spec pc :
  Forall priority_contract (pcal_funcs pc) →
  Forall priority_contract (pcal_funcs (LoadPriorityFromConfig prioritiesMap pc)) ∧
  pcal_nodes (LoadPriorityFromConfig prioritiesMap pc) = pcal_nodes pc ∧
  pcal_vol (LoadPriorityFromConfig prioritiesMap pc) = pcal_vol pc.
Proof.
  unfold LoadPriorityFromConfig. generalize (cfg_Priorities (pcal_cfg pc)). intros names.
  revert pc. induction names as [|name names IH]; intros pc Hpc; [done|]. cbn [foldl].
  destruct (GetPriorityByName prioritiesMap name) as [f|] eqn:E; [|by apply IH].
  destruct (IH (AddPriorityFunc f pc)) as (? & -> & ->); [|done].
  apply Forall_app. split; [done|]. apply Forall_singleton. by eapply prioritiesMap_contract.
Qed.

Lemma score_node_total funcs n vol z :
  Forall priority_contract funcs → is_Some (vs_HostNode (vol_Spec vol)) →
  ∃ s, score_node funcs n vol z tt = Ret s tt.
Proof.
  intros Hf Hh. revert z. induction Hf as [|f fs Hf _ IH]; intros z; [by eexists|].
  cbn [score_node]. go_simpl. destruct (pct_run _ Hf n vol Hh) as (s & -> & _). apply IH.
Qed.

Lemma score_nodes_total funcs nodes vol :
  Forall priority_contract funcs → is_Some (vs_HostNode (vol_Spec vol)) →
  score_nodes funcs nodes vol tt =
  Ret ((λ n, {| pr_NodeID := pool_nodeID n; pr_Score := node_score funcs vol n |}) <$> nodes) tt.
Proof.
  intros Hf Hh. induction nodes as [|n nodes IH]; [done|]. cbn [score_nodes]. go_simpl.
  destruct (score_node_total funcs n vol 0 Hf Hh) as [s Hs]. rewrite Hs, IH.
  rewrite fmap_cons. unfold node_score at 2. by rewrite Hs.
Qed.

Lemma score_order_weak : strict_weak (sort_Reverse PriorityResultList_Less).
Proof.
  split; unfold sort_Reverse, PriorityResultList_Less; intros *;
    rewrite ?bool_decide_eq_true, ?bool_decide_eq_false; lia.
Qed.

(** The best node is found, with its score. *)
Lemma GetFirstByScore_best pc :
  Forall priority_contract (pcal_funcs pc) → is_Some (vs_HostNode (vol_Spec (pcal_vol pc))) →
  pcal_nodes pc ≠ [] → NoDup (pool_nodeID <$> pcal_nodes pc) →
  ∃ n, GetFirstByScore pc tt = Ret (Some n, node_score (pcal_funcs pc) (pcal_vol pc) n) tt ∧
       best_of (pcal_funcs pc) (pcal_vol pc) (pcal_nodes pc) n.
Proof.
  intros Hf Hh Hne Hnd. unfold GetFirstByScore.
  set (vol := pcal_vol pc) in *. set (funcs := pcal_funcs pc) in *.
  set (nodes := pcal_nodes pc) in *.
  set (mk := λ n, {| pr_NodeID := pool_nodeID n; pr_Score := node_score funcs vol n |}).
  assert (∃ best l, go_sort (sort_Reverse PriorityResultList_Less) (mk <$> nodes) = best :: l)
    as (best & l & Hsort).
  { destruct (go_sort _ (mk <$> nodes)) as [|b l] eqn:E; [|eauto].
    pose proof (go_sort_perm (sort_Reverse PriorityResultList_Less) (mk <$> nodes)) as Hp.
    rewrite E in Hp. apply Permutation_nil, fmap_nil_inv in Hp. done. }
  pose proof (go_sort_perm (sort_Reverse PriorityResultList_Less) (mk <$> nodes)) as Hp.
  pose proof (go_sort_sorted (sort_Reverse PriorityResultList_Less) (mk <$> nodes)
    score_order_weak) as Hs.
  rewrite Hsort in Hp, Hs.
  assert (best ∈ mk <$> nodes) as Hbest by (rewrite <- Hp; left).
  apply list_elem_of_fmap in Hbest as (n & -> & Hn).
  assert (∀ n', n' ∈ nodes → (node_score funcs vol n' ≤ node_score funcs vol n)%Z) as Hmax.
  { intros n' Hn'. assert (mk n' ∈ mk n :: l) as Hin.
    { rewrite Hp. by apply list_elem_of_fmap_2. }
    apply elem_of_cons in Hin as [E|Hin].
    - apply (f_equal pr_Score) in E. cbn in E. lia.
    - inversion Hs as [|? ? _ Hall]. subst. rewrite Forall_forall in Hall.
      specialize (Hall _ Hin). unfold sort_Reverse, PriorityResultList_Less in Hall.
      apply bool_decide_eq_false in Hall. cbn in Hall. lia. }
  assert (List.find (λ m, bool_decide (pool_nodeID m = pr_NodeID (mk n))) nodes = Some n) as Hfind.
  { clear -Hn Hnd. cbn. induction nodes as [|m nodes IH]; [by apply elem_of_nil in Hn|].
    rewrite fmap_cons in Hnd. apply NoDup_cons in Hnd as [Hni Hnd]. cbn [List.find].
    apply elem_of_cons in Hn as [<-|Hn]; [by rewrite bool_decide_true|].
    rewrite bool_decide_false; [by apply IH|]. intros E. apply Hni. rewrite E.
    by apply list_elem_of_fmap_2. }
  exists n. split; [|done].
  destruct nodes as [|n0 nodes'] eqn:En; [done|]. go_simpl.
  rewrite score_nodes_total by done. fold mk. rewrite Hsort, Hfind. done.
Qed.
End sched_lemmas.

(** ** Properties *)

Section sched_props.
Context {L : K8sLib} {G : GoSort} {HG : GoSortLaws G}.
Implicit Types (n : Node) (vol : AntstorVolume).

Lemma score_node_pool funcs n n' vol z :
  Forall priority_contract funcs → nd_Pool n = nd_Pool n' →
  score_node funcs n vol z tt = score_node funcs n' vol z tt.
Proof.
  intros Hf Hp. revert z. induction Hf as [|f fs Hf _ IH]; intros z; [done|].
  cbn [score_node]. go_simpl. rewrite (pct_pool _ Hf n n' vol Hp).
  destruct (f n' vol tt) as [s []|]; [apply IH|done].
Qed.

(** The calculator [byPriority] builds from the configuration. *)
Definition configured_scores (cfg : SchedulerConfig) (nodes : list Node) vol : PriorityCalculator :=
  LoadPriorityFromConfig prioritiesMap (pcal_Input nodes vol (NewPriorityCalculator cfg)).
Definition configured_chain (reg : Registry) (cfg : SchedulerConfig) (nodes : list Node) vol : FilterChain :=
  LoadFilterFromConfig reg (fc_Input nodes vol (NewFilterChain cfg)).

(** A node the configured chain accepts passes every filter that is named. *)
Lemma accepted_by reg `{!RegistryOk reg} name f cfg nodes vol n :
  name ∈ cfg_Filters cfg → GetFilterByName reg name = inl f →
  accepted (configured_chain reg cfg nodes vol) n →
  ∃ c e1 n1 st1, same_node n n1 ∧ f c vol (e1, n1) = Ret true st1.
Proof.
  intros Hin Hf (e & st & Hpass). set (fc0 := fc_Input nodes vol (NewFilterChain cfg)).
  assert (Forall filter_contract (fc_filters (LoadFilterFromConfig reg fc0))) as Hall
    by (by apply LoadFilterFromConfig_contract).
  destruct (LoadFilterFromConfig_input reg fc0) as (_ & Hv & _).
  destruct (passAllFilters_in _ _ _ _ _ _ f Hall (LoadFilterFromConfig_in reg name _ fc0 Hin Hf) Hpass)
    as (e1 & n1 & st1 & Hs & Hr).
  unfold configured_chain in Hr. fold fc0 in Hr. rewrite Hv in Hr. by eexists _, e1, n1, st1.
Qed.

Lemma configured_funcs cfg nodes nodes' vol vol' :
  pcal_funcs (configured_scores cfg nodes vol) = pcal_funcs (configured_scores cfg nodes' vol').
Proof.
  unfold configured_scores, LoadPriorityFromConfig. cbn [pcal_Input NewPriorityCalculator pcal_cfg].
  assert (∀ names pc pc', pcal_funcs pc = pcal_funcs pc' →
    pcal_funcs (foldl (λ pc name, match GetPriorityByName prioritiesMap name with
      | inl f => AddPriorityFunc f pc | inr _ => pc end) pc names) =
    pcal_funcs (foldl (λ pc name, match GetPriorityByName prioritiesMap name with
      | inl f => AddPriorityFunc f pc | inr _ => pc end) pc' names)) as H; [|by apply H].
  induction names as [|name names IH]; intros pc pc' E; [done|]. cbn [foldl]. apply IH.
  destruct (GetPriorityByName prioritiesMap name); [cbn; by rewrite E|done].
Qed.

(** The node [GetFirstByScore] returns has the highest total score of all
    the nodes it was given, and the score returned is its own. *)
Lemma GetFirstByScore_max cfg nodes vol :
  is_Some (vs_HostNode (vol_Spec vol)) → nodes ≠ [] → NoDup (pool_nodeID <$> nodes) →
  let pc := configured_scores cfg nodes vol in
  ∃ n, GetFirstByScore pc tt = Ret (Some n, node_score (pcal_funcs pc) vol n) tt ∧
       best_of (pcal_funcs pc) vol nodes n.
Proof.
  intros Hh Hne Hnd pc.
  destruct (LoadPriorityFromConfig_spec (pcal_Input nodes vol (NewPriorityCalculator cfg)))
    as (Hf & Hn & Hv); [constructor|]. fold (configured_scores cfg nodes vol) pc in Hf, Hn, Hv.
  cbn in Hn, Hv. rewrite <- Hv, <- Hn. apply GetFirstByScore_best; rewrite ?Hv, ?Hn; done.
Qed.

Lemma byPriority_best cfg nodes vol all :
  is_Some (vs_HostNode (vol_Spec vol)) → nodes ≠ [] → NoDup (pool_nodeID <$> nodes) →
  ∃ n, byPriority prioritiesMap nodes vol cfg all = Ret (Some n) all ∧
       best_of (pcal_funcs (configured_scores cfg nodes vol)) vol nodes n.
Proof.
  intros Hh Hne Hnd.
  destruct (LoadPriorityFromConfig_spec (pcal_Input nodes vol (NewPriorityCalculator cfg)))
    as (Hf & Hn & Hv); [constructor|].
  destruct (GetFirstByScore_best (configured_scores cfg nodes vol)) as (n & Hrun & Hbest);
    unfold configured_scores in *; rewrite ?Hn, ?Hv in *; try done.
  exists n. split; [|done]. unfold byPriority. destruct nodes; [done|]. go_simpl.
  unfold no_state. by rewrite Hrun.
Qed.

Lemma same_node_ids (nodes nodes' : list Node) :
  Forall2 same_node nodes nodes' → pool_nodeID <$> nodes' = pool_nodeID <$> nodes.
Proof.
  induction 1 as [|n n' l l' Hs _ IH]; [done|]. rewrite !fmap_cons, IH. f_equal.
  unfold pool_nodeID. by rewrite (sn_pool _ _ Hs).
Qed.

Lemma NoAvailable_error e : IsNoStoragePoolAvailable (Some (ErrNew (MergedError_Error e))) = true.
Proof.
  unfold IsNoStoragePoolAvailable, MergedError_Error. cbn [error_msg].
  generalize (map_to_list (e : gmap string Z)). intros l.
  assert (∀ s, HasPrefix s NoStoragePoolAvailable = true →
    HasPrefix (foldl (λ s kv, s +:+ (kv.1 +:+ ": " +:+ Itoa kv.2 +:+ ", ")) s l)
      NoStoragePoolAvailable = true) as H.
  { induction l as [|kv l IH]; intros s Hs; [done|]. cbn [foldl]. apply IH.
    by apply HasPrefix_app. }
  by apply str_contains_prefix, H.
Qed.

(** What [ScheduleVolume_spec] states. *)
Lemma ScheduleVolume_unhinted reg `{!RegistryOk reg} cfg vol nodes :
  map_get (om_Annotations (vol_meta vol)) SelectedTgtNodeKey = None →
  is_Some (vs_HostNode (vol_Spec vol)) → NoDup (pool_nodeID <$> nodes) →
  let fc := configured_chain reg cfg nodes vol in
  let funcs := pcal_funcs (configured_scores cfg nodes vol) in
  ∃ info vol' err nodes',
    ScheduleVolume reg prioritiesMap cfg vol nodes = Ret (info, vol', err) nodes' ∧
    Forall2 same_node nodes nodes' ∧
    match err with
    | None => ∃ n, n ∈ nodes ∧ accepted fc n ∧ info = nd_Info n ∧
        vol' = vol_set_Spec (vs_set_TargetNodeId (ni_ID info) (vol_Spec vol)) vol ∧
        ∀ n', n' ∈ nodes → accepted fc n' → (node_score funcs vol n' ≤ node_score funcs vol n)%Z
    | Some _ => (∀ n, n ∈ nodes → ¬ accepted fc n) ∧ vol' = vol ∧
        IsNoStoragePoolAvailable err = true
    end.
Proof.
  intros Hanno Hh Hnd fc funcs.
  assert (Forall filter_contract (fc_filters fc)) as Hall
    by (by apply LoadFilterFromConfig_contract).
  destruct (LoadFilterFromConfig_input reg (fc_Input nodes vol (NewFilterChain cfg)))
    as (Hn & Hv & _ & _). fold (configured_chain reg cfg nodes vol) fc in Hn, Hv. cbn in Hn, Hv.
  destruct (MatchAll_loop_spec fc nodes NewMergedError Hall) as
    (nodes' & cands & e' & Hrun & Hf2 & Hsub & _ & Hacc & Hcompl); [by rewrite Hv|].
  assert (Forall priority_contract funcs) as Hfuncs.
  { destruct (LoadPriorityFromConfig_spec (pcal_Input nodes vol (NewPriorityCalculator cfg)))
      as (Hf & _); [constructor|done]. }
  unfold ScheduleVolume, sched, predicate, MatchAll. rewrite Hanno.
  go_simpl. change (LoadFilterFromConfig reg (fc_Input nodes vol (NewFilterChain cfg))) with fc.
  rewrite Hn, Hrun.
  destruct cands as [|c0 cs].
  { eexists _, _, _, nodes'. split; [reflexivity|]. split; [done|]. cbn.
    split_and!; [|done|apply NoAvailable_error].
    intros n Hin Ha. rewrite Forall_forall in Hcompl.
    destruct (Hcompl n Hin Ha) as (c & Hc & _). by apply elem_of_nil in Hc. }
  destruct (byPriority_best cfg (c0 :: cs) vol nodes' Hh) as (c & Hby & Hcin & Hbest); [done| |].
  { eapply sublist_NoDup; [|by apply (sublist_map pool_nodeID), Hsub].
    by rewrite (same_node_ids nodes). }
  rewrite Hby. cbn. eexists _, _, _, nodes'. split; [reflexivity|]. split; [done|]. cbn.
  rewrite Forall_forall in Hacc. destruct (Hacc c Hcin) as (n & Hin & Hs & Ha).
  exists n. split_and!; try done.
  { unfold nd_Info. by rewrite (sn_pool _ _ Hs). }
  intros n' Hin' Ha'. rewrite Forall_forall in Hcompl.
  destruct (Hcompl n' Hin' Ha') as (c' & Hc' & Hs').
  specialize (Hbest c' Hc'). rewrite (configured_funcs cfg _ nodes _ vol) in Hbest. fold funcs in Hbest.
  unfold node_score in *.
  rewrite (score_node_pool funcs n c vol 0 Hfuncs), (score_node_pool funcs n' c' vol 0 Hfuncs);
    [done|symmetry; apply Hs'|symmetry; apply Hs].
Qed.

(** A volume that carries the hint of the scheduler plugin goes to the node named,
    whatever the filters say. *)
Lemma ScheduleVolume_hinted reg cfg vol nodes nodeName :
  map_get (om_Annotations (vol_meta vol)) SelectedTgtNodeKey = Some nodeName →
  ∃ info, ScheduleVolume reg prioritiesMap cfg vol nodes = Ret (info, vol, None) nodes ∧
    ni_ID info = nodeName ∧
    ((∃ n, n ∈ nodes ∧ info = nd_Info n) ∨
     (info = {| ni_ID := nodeName; ni_IP := ""; ni_Hostname := ""; ni_Labels := None |} ∧
      ∀ n, n ∈ nodes → ni_ID (nd_Info n) ≠ nodeName)).
Proof.
  intros Hanno. unfold ScheduleVolume. rewrite Hanno. go_simpl. eexists. split; [reflexivity|].
  generalize {| ni_ID := nodeName; ni_IP := ""; ni_Hostname := ""; ni_Labels := None |} as d, 
    (eq_refl nodeName : ni_ID {| ni_ID := nodeName; ni_IP := ""; ni_Hostname := ""; ni_Labels := None |} = nodeName).
  induction nodes as [|n nodes IH]; intros d Hd; cbn [foldl].
  - split; [done|]. right. split; [done|]. intros n H. by apply elem_of_nil in H.
  - destruct (decide (ni_ID (nd_Info n) = nodeName)) as [E|E].
    + destruct (IH (nd_Info n) E) as [H1 [(m & Hm & H2)|[H2 _]]]; (split; [done|]); left.
      * exists m. split; [by right|done].
      * exists n. split; [by left|done].
    + destruct (IH d Hd) as [H1 [(m & Hm & H2)|[H2 H3]]]; (split; [done|]).
      * left. exists m. split; [by right|done].
      * right. split; [done|]. intros m. rewrite elem_of_cons. intros [->|Hm]; auto.
Qed.

(** C2. ScheduleVolume, on the volume of a host and nodes of distinct ids. Without the
    hint annotation it picks the best-scored node among those that every configured
    filter accepts, and fails with the no-pool error, the volume unchanged, exactly
    when no node is accepted. With the hint, which the scheduler plugin writes, no
    filter and no score is asked: the node named is taken, the volume and the nodes
    are returned as they were, and the information is that of the node named, or the
    bare name when no node has it. *)
Theorem ScheduleVolume_spec reg `{!RegistryOk reg} cfg vol nodes :
  is_Some (vs_HostNode (vol_Spec vol)) → NoDup (pool_nodeID <$> nodes) →
  let fc := configured_chain reg cfg nodes vol in
  let funcs := pcal_funcs (configured_scores cfg nodes vol) in
  ∃ info vol' err nodes',
    ScheduleVolume reg prioritiesMap cfg vol nodes = Ret (info, vol', err) nodes' ∧
    Forall2 same_node nodes nodes' ∧
    match map_get (om_Annotations (vol_meta vol)) SelectedTgtNodeKey, err with
    | None, None => ∃ n, n ∈ nodes ∧ accepted fc n ∧ info = nd_Info n ∧
        vol' = vol_set_Spec (vs_set_TargetNodeId (ni_ID info) (vol_Spec vol)) vol ∧
        ∀ n', n' ∈ nodes → accepted fc n' → (node_score funcs vol n' ≤ node_score funcs vol n)%Z
    | None, Some _ => (∀ n, n ∈ nodes → ¬ accepted fc n) ∧ vol' = vol ∧
        IsNoStoragePoolAvailable err = true
    | Some nodeName, _ => err = None ∧ vol' = vol ∧ nodes' = nodes ∧ ni_ID info = nodeName ∧
        ((∃ n, n ∈ nodes ∧ info = nd_Info n) ∨
         (info = {| ni_ID := nodeName; ni_IP := ""; ni_Hostname := ""; ni_Labels := None |} ∧
          ∀ n, n ∈ nodes → ni_ID (nd_Info n) ≠ nodeName))
    end.
Proof.
  intros Hh Hnd fc funcs. destruct (map_get _ SelectedTgtNodeKey) as [nodeName|] eqn:Hanno.
  - destruct (ScheduleVolume_hinted reg cfg vol nodes nodeName Hanno) as (info & Hrun & Hid & Hinfo).
    exists info, vol, None, nodes. split; [done|]. split; [|done]. clear. induction nodes; constructor; [apply same_node_refl|done].
  - destruct (ScheduleVolume_unhinted reg cfg vol nodes Hanno Hh Hnd) as (info & vol' & err & nodes' & Hrun & Hs & Hm).
    exists info, vol', err, nodes'. by destruct err.
Qed.

End sched_props.

(** *** Evaluations *)

(** A second node, remote for the example volumes, on a fuller pool. *)
Definition ex_pool2 : @StoragePool NanoLib :=
  sp_set_Status (spst_set_VGFreeSize (NewQuantity (30 * GiB)) (sp_Status ex_pool))
    (sp_set_Spec (sps_set_NodeInfo {| ni_ID := "node-2"; ni_IP := "10.0.0.2";
       ni_Hostname := "host-2"; ni_Labels := None |} (sp_Spec ex_pool)) ex_pool).
Definition ex_node2 : @Node NanoLib := NewNode ex_pool2.

Example ex_schedule :
  match ScheduleVolume filtersMap prioritiesMap ex_cfg (ex_vol "b" "uuid-b" GiB) [ex_node; ex_node2] with
  | Ret (info, vol, None) _ => ni_ID info = "node-2" ∧ vs_TargetNodeId (vol_Spec vol) = "node-2"
  | _ => False
  end.
Proof. vm_compute. auto. Qed.

Lemma ex_ids : NoDup (pool_nodeID <$> [ex_node; ex_node2]).
Proof.
  assert (pool_nodeID <$> [ex_node; ex_node2] = ["node-1"; "node-2"]) as -> by (vm_compute; reflexivity).
  repeat constructor; set_solver.
Qed.

Lemma GetFirstByScore_max_witness :
  let pc := configured_scores ex_cfg [ex_node; ex_node2] (ex_vol "b" "uuid-b" GiB) in
  ∃ n, GetFirstByScore pc tt = Ret (Some n, node_score (pcal_funcs pc) (ex_vol "b" "uuid-b" GiB) n) tt ∧
       best_of (pcal_funcs pc) (ex_vol "b" "uuid-b" GiB) [ex_node; ex_node2] n.
Proof.
  apply (GetFirstByScore_max ex_cfg [ex_node; ex_node2] (ex_vol "b" "uuid-b" GiB)).
  - by eexists.
  - discriminate.
  - exact ex_ids.
Defined.

Definition ex_hint_vol : AntstorVolume :=
  vol_set_meta (om_set_Annotations (Some {[ SelectedTgtNodeKey := "node-7" ]}) (ex_meta "c"))
    (ex_vol "c" "uuid-c" GiB).

Lemma ScheduleVolume_spec_witness :
  (∃ info vol' nodes',
    ScheduleVolume filtersMap prioritiesMap ex_cfg (ex_vol "b" "uuid-b" GiB) [ex_node; ex_node2]
      = Ret (info, vol', None) nodes' ∧ ni_ID info = "node-2" ∧
    vol' = vol_set_Spec (vs_set_TargetNodeId (ni_ID info) (vol_Spec (ex_vol "b" "uuid-b" GiB))) (ex_vol "b" "uuid-b" GiB)) ∧
  ∃ info, ScheduleVolume filtersMap prioritiesMap ex_cfg ex_hint_vol [ex_node; ex_node2] = Ret (info, ex_hint_vol, None) [ex_node; ex_node2] ∧
    ni_ID info = "node-7".
Proof.
  split.
  - destruct (ScheduleVolume_spec filtersMap ex_cfg (ex_vol "b" "uuid-b" GiB) [ex_node; ex_node2] ltac:(by eexists) ex_ids)
      as (info & vol' & err & nodes' & Hrun & Hsame & Hm).
    assert (map_get (om_Annotations (vol_meta (ex_vol "b" "uuid-b" GiB))) SelectedTgtNodeKey = None) as E by (vm_compute; reflexivity).
    rewrite E in Hm. pose proof ex_schedule as Hs. rewrite Hrun in Hs.
    destruct err as [err|]; [destruct Hs|]. destruct Hs as [Hid _]. destruct Hm as (n & _ & _ & _ & Hv & _). exists info, vol', nodes'. split; [exact Hrun|]. split; [exact Hid|exact Hv].
  - destruct (ScheduleVolume_spec filtersMap ex_cfg ex_hint_vol [ex_node; ex_node2] ltac:(by eexists) ex_ids)
      as (info & vol' & err & nodes' & Hrun & Hsame & Hm).
    assert (map_get (om_Annotations (vol_meta ex_hint_vol)) SelectedTgtNodeKey = Some "node-7") as E by (vm_compute; reflexivity).
    rewrite E in Hm. destruct Hm as (-> & -> & -> & Hid & _). exists info. split; [exact Hrun|exact Hid].
Defined.
