(* ===== verification/SchedGroup.v ===== *)
(** * Scheduling a volume group

    [pkg/controller/manager/scheduler/sched_vol_group.go]: the nodes are
    filtered for a volume of the smallest size, sorted by free storage, and
    volumes are placed on distinct nodes until the requested size is covered.

    Random suffixes and UUIDs are a stream given to the call: [Random]. *)

From Stdlib Require Import ZArith Lia.
From stdpp Require Import base gmap strings option list.
From S2P Require Import Prelude Strconv Float64 Misc K8s Api State Filter Sched.

(** [misc.RandomStringWithCharSet(10, LowerCharNumSet)] and [uuid.NewV4()]: the
    [k]-th value drawn. *)
Class Random := { rand_suffix : nat → string; rand_uuid : nat → string }.

Section group.
Context {L : K8sLib} {G : GoSort} {R : Random}.

(** ** Sizes *)

(* [scheduler/sched_vol_group.go:76-97] schedVolGroup.pickSizeFn *)
Definition pickSize (minSize maxSize : Quantity) (node : Node) (volSize : Z) : Z :=
  let free := ResourceList_Storage (nd_FreeResource node) in
  let picked := if decide (Quantity_CmpInt64 free volSize > 0)%Z then NewQuantity volSize else free in
  if decide (Quantity_Cmp picked minSize < 0)%Z then 0%Z
  else
    let picked' := if decide (Quantity_Cmp picked maxSize > 0)%Z then maxSize else picked in
    let bytes := f64_to_int64 (Quantity_AsApproximateFloat64 picked') in
    let result := (Z.quot bytes FourMiB * FourMiB)%Z in
    if decide (Z.rem bytes FourMiB > 0)%Z then wrap64 (result + FourMiB) else result.

(* [scheduler/sched_vol_group.go:267-289] getAllocatableRemoteVolumeSize *)
Definition getAllocatableRemoteVolumeSize (node : Node) (volSize : Z) (minLocalStoragePct : float64) : Z :=
  if decide (volSize = 0)%Z then 0%Z
  else
    let allocRemotes := GetAllocatedRemoteBytes node in
    let total := GetAvailableBytes (nd_Pool node) in
    let maxResultSize :=
      wrap64 (wrap64 (total - f64_to_int64 (f64_div (f64_mul (f64_of_Z total) minLocalStoragePct)
                                              (f64_of_Z 100)))
              - wrap64 allocRemotes) in
    if decide (maxResultSize < 0)%Z then 0%Z
    else
      let result := if decide (maxResultSize < volSize)%Z then maxResultSize else volSize in
      (Z.quot result FourMiB * FourMiB)%Z.

(** ** The choice of nodes *)

(** The variables of [schedVolGroup] its loops update; [gs_created] counts the
    identities drawn. *)
Record GroupState := {
  gs_left : Z;
  gs_cnt : Z;
  gs_nodes : MapSet.t;
  gs_volumes : list VolumeMeta;
  gs_created : nat;
}.

Record GroupParams := {
  gp_max : Z;
  gp_minSize : Quantity;
  gp_maxSize : Quantity;
  gp_pct : float64;
  gp_ns : string;
  gp_name : string;
}.

(** The inner loop over the nodes: the last size computed and the node the
    [break] stopped at. *)
Fixpoint pick_node (p : GroupParams) (used : MapSet.t) (leftSize : Z) (nodes : list Node) (result : Z)
    : Z * option string :=
  match nodes with
  | [] => (result, None)
  | item :: rest =>
      let id := ni_ID (nd_Info item) in
      if MapSet.Contains used id then pick_node p used leftSize rest result
      else
        let r := getAllocatableRemoteVolumeSize item
                   (pickSize (gp_minSize p) (gp_maxSize p) item leftSize) (gp_pct p) in
        if decide (r > 0)%Z then (r, Some id) else pick_node p used leftSize rest r
  end.

Definition needSchedNext (p : GroupParams) (cnt leftSize : Z) : bool :=
  bool_decide (cnt < gp_max p)%Z && bool_decide (leftSize > 0)%Z.

(** Books a node for a volume of size [r]. *)
Definition book (id : string) (r : Z) (vols : list VolumeMeta) (created : nat) (s : GroupState) : GroupState :=
  {| gs_left := wrap64 (gs_left s - r); gs_cnt := gs_cnt s + 1;
     gs_nodes := MapSet.Add (gs_nodes s) id; gs_volumes := vols; gs_created := created |}.

(** One turn of the loops; an error makes the function return. *)
Definition place (p : GroupParams) (nodes : list Node)
    (put : string → Z → GroupState → GroupState) (s : GroupState) : GroupState * option error :=
  if needSchedNext p (gs_cnt s) (gs_left s) then
    match pick_node p (gs_nodes s) (gs_left s) nodes 0 with
    | (r, Some id) => (put id r s, None)
    | (r, None) => (s, if decide (r = 0)%Z then Some (ErrNew (MergedError_Error NewMergedError)) else None)
    end
  else (s, None).

(** [volGroup.Spec.Volumes[idx]] gets the size and the node. *)
Definition put_at (idx : nat) (id : string) (r : Z) (s : GroupState) : GroupState :=
  book id r (match gs_volumes s !! idx with
             | Some v => <[idx := vm_set_TargetNodeName id (vm_set_Size r v)]> (gs_volumes s)
             | None => gs_volumes s
             end) (gs_created s) s.

(** A new volume is appended. *)
Definition put_new (p : GroupParams) (id : string) (r : Z) (s : GroupState) : GroupState :=
  let k := gs_created s in
  let newVol := {| vm_VolId := {| ei_Namespace := gp_ns p;
                                  ei_Name := gp_name p +:+ "-" +:+ rand_suffix k;
                                  ei_UUID := rand_uuid k |};
                   vm_TargetNodeName := id; vm_Size := r |} in
  book id r (gs_volumes s ++ [newVol]) (S k) s.

(** [vol.Size > 0 && vol.TargetNodeName != ""] *)
Definition is_scheduled (v : VolumeMeta) : bool :=
  bool_decide (vm_Size v > 0)%Z && bool_decide (vm_TargetNodeName v ≠ "").

(** The loop that records what is scheduled: the state and the indexes left. *)
Fixpoint record_unsched (idx : nat) (vols : list VolumeMeta) (leftSize cnt : Z) (used : MapSet.t)
    : Z * Z * MapSet.t * list nat :=
  match vols with
  | [] => (leftSize, cnt, used, [])
  | v :: rest =>
      if is_scheduled v
      then record_unsched (S idx) rest (wrap64 (leftSize - vm_Size v)) (cnt + 1)
             (MapSet.Add used (vm_TargetNodeName v))
      else let '(l, c, u, idxs) := record_unsched (S idx) rest leftSize cnt used in (l, c, u, idx :: idxs)
  end.

Fixpoint unsched_loop (p : GroupParams) (nodes : list Node) (idxs : list nat) (s : GroupState)
    : GroupState * option error :=
  match idxs with
  | [] => (s, None)
  | idx :: rest =>
      match place p nodes (put_at idx) s with
      | (s', None) => unsched_loop p nodes rest s'
      | (s', Some e) => (s', Some e)
      end
  end.

(** [for i := 0; i < maxVolCnt-cnt; i++]: the bound is read at every turn;
    [None] when the fuel runs out. *)
Fixpoint new_loop (fuel : nat) (p : GroupParams) (nodes : list Node) (i : Z) (s : GroupState)
    : option (GroupState * option error) :=
  match fuel with
  | O => None
  | S f =>
      if decide (i < gp_max p - gs_cnt s)%Z then
        match place p nodes (put_new p) s with
        | (s', None) => new_loop f p nodes (i + 1) s'
        | (s', Some e) => Some (s', Some e)
        end
      else Some (s, None)
  end.

Definition group_params (cfg : SchedulerConfig) (volGroup : AntstorVolumeGroup) : GroupParams :=
  let d := vgsp_DesiredVolumeSpec (vg_Spec volGroup) in
  {| gp_max := ir_Max (dvs_CountRange d);
     gp_minSize := qr_Min (dvs_SizeRange d); gp_maxSize := qr_Max (dvs_SizeRange d);
     gp_pct := f64_of_Z (cfg_MinLocalStoragePct cfg);
     gp_ns := om_Namespace (vg_meta volGroup); gp_name := om_Name (vg_meta volGroup) |}.

Definition group_init (volGroup : AntstorVolumeGroup) : GroupState * list nat :=
  let vols := vgsp_Volumes (vg_Spec volGroup) in
  let '(leftSize, cnt, used, idxs) :=
    record_unsched 0 vols (vgsp_TotalSize (vg_Spec volGroup)) 0 MapSet.NewEmptySet in
  ({| gs_left := leftSize; gs_cnt := cnt; gs_nodes := used; gs_volumes := vols; gs_created := 0 |}, idxs).

(** The loop runs at most [maxVolCnt - cnt] times, and once more to stop. *)
Definition new_loop_fuel (p : GroupParams) (s : GroupState) : nat :=
  S (Z.to_nat (gp_max p - gs_cnt s)).

(** The variables when both loops have ended, or when one returned an error. *)
Definition sched_volumes (p : GroupParams) (nodes : list Node) (s0 : GroupState) (idxs : list nat)
    : option (GroupState * option error) :=
  match unsched_loop p nodes idxs s0 with
  | (s1, Some e) => Some (s1, Some e)
  | (s1, None) => new_loop (new_loop_fuel p s1) p nodes 0 s1
  end.

(** The group with the volumes [vols]. *)
Definition with_volumes (volGroup : AntstorVolumeGroup) (vols : list VolumeMeta) : AntstorVolumeGroup :=
  vg_set_Spec (vgsp_set_Volumes vols (vg_Spec volGroup)) volGroup.

(* [scheduler/sched_vol_group.go:65-201] schedVolGroup *)
Definition schedVolGroup (cfg : SchedulerConfig) (nodes : list Node) (volGroup : AntstorVolumeGroup)
    : option (AntstorVolumeGroup * option error) :=
  let p := group_params cfg volGroup in
  let '(s0, idxs) := group_init volGroup in
  match sched_volumes p nodes s0 idxs with
  | None => None
  | Some (s, Some e) => Some (with_volumes volGroup (gs_volumes s), Some e)
  | Some (s, None) => Some (with_volumes volGroup (List.filter is_scheduled (gs_volumes s)), None)
  end.

(** ** The nodes *)

(* [scheduler/sched_vol_group.go:249-262] SortByStorage.Less *)
Definition SortByStorage_Less (a b : Node) : bool :=
  let cmpStorage := bool_decide (Quantity_Cmp (ResourceList_Storage (nd_FreeResource a))
                                   (ResourceList_Storage (nd_FreeResource b)) < 0)%Z in
  match nd_Volumes a, nd_Volumes b with
  | [], [] => cmpStorage
  | [], _ :: _ => true
  | _ :: _, [] => false
  | _, _ => cmpStorage
  end.

(** The first predicate of the chain: without [AllowEmptyNode] a node without
    volumes is left out, and no reason is counted. *)
Definition emptyNodeFilter (volGroup : AntstorVolumeGroup) : PredicateFunc := λ cfg vol,
  n ← the_node;
  mret (vgs_AllowEmptyNode (vgsp_Stragety (vg_Spec volGroup)) ||
        match nd_Volumes n with [] => false | _ => true end).

(** The volume of minimal size the nodes are filtered for. *)
Definition group_fake_volume (volGroup : AntstorVolumeGroup) : AntstorVolume :=
  let minSize := qr_Min (dvs_SizeRange (vgsp_DesiredVolumeSpec (vg_Spec volGroup))) in
  {| vol_meta := vg_meta volGroup;
     vol_Spec := vs_set_HostNode (Some NodeInfo_zero)
       (vs_set_SizeByte (f64_round_uint64 (Quantity_AsApproximateFloat64 minSize)) AntstorVolumeSpec_zero);
     vol_Status := AntstorVolumeStatus_zero |}.

Context (filters : Registry) (cfg : SchedulerConfig).

(* [scheduler/sched_vol_group.go:203-242] scheduler.filterNodes *)
Definition filterNodes (volGroup : AntstorVolumeGroup) : SchedM (list Node * option error) := λ nodes,
  let fc := LoadFilterFromConfig filters
              (fc_Input nodes (group_fake_volume volGroup)
                 (fc_Filter (emptyNodeFilter volGroup) (NewFilterChain cfg))) in
  match MatchAll fc NewMergedError with
  | Ret (nodes', qualified, err) _ => Ret (qualified, err) nodes'
  | Panic why _ => Panic why nodes
  end.

(** [scheduledSize] *)
Definition scheduled_size (volGroup : AntstorVolumeGroup) : Z :=
  foldl (λ acc v, if decide (vm_TargetNodeName v ≠ "") then wrap64 (acc + vm_Size v) else acc)
    0%Z (vgsp_Volumes (vg_Spec volGroup)).

(* [scheduler/sched_vol_group.go:20-63] scheduler.ScheduleVolumeGroup *)
Definition ScheduleVolumeGroup (volGroup : AntstorVolumeGroup)
    : SchedM (AntstorVolumeGroup * option error) :=
  if decide (vgsp_TotalSize (vg_Spec volGroup) ≤ scheduled_size volGroup)%Z
  then mret (volGroup, None)
  else
    r ← filterNodes volGroup;
    let '(qualified, err) := (r : list Node * option error) in
    match err with
    | Some e => mret (volGroup, Some e)
    | None =>
        let sorted := go_sort (sort_Reverse SortByStorage_Less) qualified in
        match schedVolGroup cfg sorted volGroup with
        | Some r => mret r
        | None => panic "out of fuel"
        end
    end.
End group.

(** ** What the group scheduler promises *)

Section group_spec.
Context {L : K8sLib}.

Definition targets (vols : list VolumeMeta) : list string :=
  vm_TargetNodeName <$> List.filter is_scheduled vols.

(** A volume the scheduler placed: a positive multiple of 4 MiB on one of the
    nodes. *)
Definition placed_on (nodes : list Node) (v : VolumeMeta) : Prop :=
  (vm_Size v > 0)%Z ∧ (∃ k, vm_Size v = k * FourMiB)%Z ∧
  ∃ n, n ∈ nodes ∧ vm_TargetNodeName v = ni_ID (nd_Info n).

(** The invariant of the two loops; [vols0] are the volumes at the start and
    [idxs] the indexes still to be scheduled. *)
Record group_inv (p : GroupParams) (nodes : list Node) (vols0 : list VolumeMeta) (idxs : list nat)
    (s : GroupState) : Prop := {
  gi_nodup : NoDup (targets (gs_volumes s));
  gi_used : ∀ t, t ∈ targets (gs_volumes s) → t ∈ gs_nodes s;
  gi_cnt : gs_cnt s = Z.of_nat (length (targets (gs_volumes s)));
  gi_max : (gs_cnt s ≤ Z.max (Z.of_nat (length (targets vols0))) (gp_max p))%Z;
  gi_from : ∀ v, v ∈ gs_volumes s → is_scheduled v = true → v ∈ vols0 ∨ placed_on nodes v;
  gi_keep : ∀ v, v ∈ vols0 → is_scheduled v = true → v ∈ gs_volumes s;
  gi_idxs : Forall (λ i, ∀ v, gs_volumes s !! i = Some v → is_scheduled v = false) idxs;
  gi_idxs_nodup : NoDup idxs;
  gi_idxs_in : Forall (λ i, (i < length (gs_volumes s))%nat) idxs;
}.
End group_spec.

Section group_lemmas.
Context {L : K8sLib} {R : Random}.
Implicit Types (s : GroupState) (v : VolumeMeta) (vols : list VolumeMeta).

Lemma targets_app vols1 vols2 : targets (vols1 ++ vols2) = targets vols1 ++ targets vols2.
Proof. unfold targets. by rewrite List.filter_app, fmap_app. Qed.

Lemma targets_one v : is_scheduled v = true → targets [v] = [vm_TargetNodeName v].
Proof. intros H. unfold targets. cbn. by rewrite H. Qed.

Lemma targets_update vols i v w :
  vols !! i = Some v → is_scheduled v = false → is_scheduled w = true →
  targets (<[i := w]> vols) ≡ₚ vm_TargetNodeName w :: targets vols.
Proof.
  intros Hi Hv Hw.
  rewrite <- (take_drop_middle vols i v Hi) at 2.
  rewrite insert_take_drop by (by eapply lookup_lt_Some).
  change (w :: drop (S i) vols) with ([w] ++ drop (S i) vols).
  change (v :: drop (S i) vols) with ([v] ++ drop (S i) vols).
  rewrite !targets_app, targets_one by done.
  assert (targets [v] = []) as -> by (unfold targets; cbn; by rewrite Hv).
  cbn. symmetry. apply Permutation_middle.
Qed.

Lemma getAllocatable_multiple node z pct :
  ∃ k, getAllocatableRemoteVolumeSize node z pct = (k * FourMiB)%Z.
Proof.
  unfold getAllocatableRemoteVolumeSize. repeat case_decide; eauto; by exists 0%Z.
Qed.

Lemma pick_node_found p used left nodes z r id :
  pick_node p used left nodes z = (r, Some id) →
  (r > 0)%Z ∧ (∃ k, r = k * FourMiB)%Z ∧ id ∉ used ∧ ∃ n, n ∈ nodes ∧ id = ni_ID (nd_Info n).
Proof.
  revert z. induction nodes as [|n nodes IH]; intros z; cbn [pick_node]; [discriminate|].
  assert ((∃ z', pick_node p used left nodes z' = (r, Some id)) →
    (r > 0)%Z ∧ (∃ k, r = k * FourMiB)%Z ∧ id ∉ used ∧
    ∃ n', n' ∈ n :: nodes ∧ id = ni_ID (nd_Info n')) as Hrec.
  { intros [z' Hz']. destruct (IH z' Hz') as (H1 & H2 & H3 & m & Hm & H4).
    split_and!; try done. exists m. split; [by right|done]. }
  destruct (MapSet.Contains used (ni_ID (nd_Info n))) eqn:E; [eauto|].
  case_decide as Hr; [|eauto]. intros [= <- <-]. split_and!; [done|apply getAllocatable_multiple| |].
  - intros Hin. apply MapSet.MapSet_Contains_spec in Hin. congruence.
  - exists n. split; [by left|done].
Qed.

Lemma place_cnt p nodes put s :
  (∀ id r s, gs_cnt (put id r s) = gs_cnt s + 1)%Z →
  (gs_cnt s ≤ gs_cnt (place p nodes put s).1)%Z.
Proof.
  intros Hp. unfold place. case_match; [|done]. destruct (pick_node _ _ _ _ _) as [r [id|]].
  - cbn. rewrite Hp. lia.
  - done.
Qed.

(** The bound of the second loop falls at every turn: the fuel is enough. *)
Lemma new_loop_total fuel p nodes i s :
  (Z.max 0 (gp_max p - gs_cnt s - i) < Z.of_nat fuel)%Z → is_Some (new_loop fuel p nodes i s).
Proof.
  revert i s. induction fuel as [|f IH]; intros i s Hf; [lia|]. cbn [new_loop].
  case_decide as Hi; [|eauto].
  pose proof (place_cnt p nodes (put_new p) s (λ _ _ _, eq_refl)) as Hc.
  destruct (place _ _ _ _) as [s' [e|]]; [eauto|]. apply IH. cbn in Hc. lia.
Qed.

Lemma sched_volumes_total p nodes s idxs : is_Some (sched_volumes p nodes s idxs).
Proof.
  unfold sched_volumes. destruct (unsched_loop _ _ _ _) as [s1 [e|]]; [eauto|].
  apply new_loop_total. unfold new_loop_fuel. lia.
Qed.

(** A booking keeps the invariant when its node is fresh. *)
Lemma place_inv p nodes put vols0 idxs idxs' s :
  Forall (λ n, ni_ID (nd_Info n) ≠ "") nodes →
  group_inv p nodes vols0 idxs s → group_inv p nodes vols0 idxs' s →
  (∀ id r, is_scheduled {| vm_VolId := {| ei_Namespace := ""; ei_Name := ""; ei_UUID := "" |};
                           vm_TargetNodeName := id; vm_Size := r |} = true →
     gs_cnt (put id r s) = (gs_cnt s + 1)%Z ∧
     gs_nodes (put id r s) = MapSet.Add (gs_nodes s) id ∧
     targets (gs_volumes (put id r s)) ≡ₚ id :: targets (gs_volumes s) ∧
     (∀ v, v ∈ gs_volumes (put id r s) → v ∈ gs_volumes s ∨ (vm_TargetNodeName v = id ∧ vm_Size v = r)) ∧
     (∀ v, v ∈ gs_volumes s → is_scheduled v = true → v ∈ gs_volumes (put id r s)) ∧
     Forall (λ i, ∀ v, gs_volumes (put id r s) !! i = Some v → is_scheduled v = false) idxs' ∧
     length (gs_volumes s) ≤ length (gs_volumes (put id r s))) →
  group_inv p nodes vols0 idxs' (place p nodes put s).1.
Proof.
  intros Hids Hinv Hinv' Hput. unfold place. destruct (needSchedNext _ _ _) eqn:En; [|done].
  destruct (pick_node _ _ _ _ _) as [r [id|]] eqn:Ep; [|done]. cbn.
  apply pick_node_found in Ep as (Hr & Hk & Hfresh & n & Hn & ->).
  rewrite Forall_forall in Hids. specialize (Hids n Hn).
  destruct (Hput (ni_ID (nd_Info n)) r) as (Hc & Hu & Ht & Hv & Hkeep & Hi & Hlen).
  { unfold is_scheduled. cbn. rewrite !bool_decide_true by done. done. }
  unfold needSchedNext in En. apply andb_true_iff in En as [En _]. apply bool_decide_eq_true in En.
  destruct Hinv'. split.
  - rewrite Ht. apply NoDup_cons. split; [|done]. intros Hin. by apply Hfresh, gi_used0.
  - intros t. rewrite Ht, Hu. unfold MapSet.Add. rewrite elem_of_cons, elem_of_union, elem_of_singleton.
    intros [->|Hin]; [by left|right; auto].
  - rewrite Hc, Ht, gi_cnt0. cbn [length]. lia.
  - rewrite Hc. lia.
  - intros v Hin Hs. destruct (Hv v Hin) as [Hold|[H1 H2]]; [auto|]. right.
    split_and!; rewrite ?H2; try done. exists n. by rewrite H1.
  - intros v Hin Hs. auto.
  - done.
  - done.
  - eapply Forall_impl; [exact gi_idxs_in0|]. cbn. intros i Hlt. lia.
Qed.

Lemma put_at_inv p nodes vols0 idx rest s :
  Forall (λ n, ni_ID (nd_Info n) ≠ "") nodes →
  group_inv p nodes vols0 (idx :: rest) s → group_inv p nodes vols0 rest (place p nodes (put_at idx) s).1.
Proof.
  intros Hids Hinv. apply (place_inv _ _ _ _ (idx :: rest)); [done|done| |].
  { destruct Hinv. inversion gi_idxs_nodup0. inversion gi_idxs0. inversion gi_idxs_in0. by split. }
  intros id r Hsched. destruct Hinv.
  inversion gi_idxs_nodup0 as [|? ? Hni Hnd]. inversion gi_idxs0 as [|? ? Hun Hrest].
  inversion gi_idxs_in0 as [|? ? Hlt Hin]. subst.
  destruct (lookup_lt_is_Some_2 _ _ Hlt) as [v Hv]. unfold put_at, book. rewrite Hv.
  cbn [gs_volumes gs_nodes gs_cnt].
  specialize (Hun v Hv).
  assert (is_scheduled (vm_set_TargetNodeName id (vm_set_Size r v)) = true) as Hs' by exact Hsched.
  split_and!; try done.
  - rewrite (targets_update _ _ v) by done. done.
  - intros w Hw. apply list_elem_of_lookup in Hw as [j Hj].
    destruct (decide (idx = j)) as [->|Hne].
    + rewrite list_lookup_insert_eq in Hj by done. injection Hj as <-. by right.
    + rewrite list_lookup_insert_ne in Hj by done. left. by eapply list_elem_of_lookup_2.
  - intros w Hw Hsw. apply list_elem_of_lookup in Hw as [j Hj].
    assert (idx ≠ j) as Hne by (intros ->; congruence).
    apply (list_elem_of_lookup_2 _ j). by rewrite list_lookup_insert_ne.
  - rewrite Forall_forall in Hrest |- *. intros j Hj w Hw.
    rewrite list_lookup_insert_ne in Hw by (intros ->; done). eauto.
  - rewrite length_insert. lia.
Qed.

Lemma put_new_inv p nodes vols0 s :
  Forall (λ n, ni_ID (nd_Info n) ≠ "") nodes →
  group_inv p nodes vols0 [] s → group_inv p nodes vols0 [] (place p nodes (put_new p) s).1.
Proof.
  intros Hids Hinv. apply (place_inv _ _ _ _ []); [done|done|done|].
  intros id r Hsched. unfold put_new, book. cbn [gs_volumes gs_nodes gs_cnt]. split_and!; try done.
  - rewrite targets_app, targets_one by exact Hsched. cbn. symmetry. apply Permutation_cons_append.
  - intros w. rewrite elem_of_app, list_elem_of_singleton. intros [Hin| ->]; [by left|by right].
  - intros w Hw _. apply elem_of_app. by left.
  - rewrite length_app. lia.
Qed.

Lemma unsched_loop_inv p nodes vols0 idxs s :
  Forall (λ n, ni_ID (nd_Info n) ≠ "") nodes →
  group_inv p nodes vols0 idxs s → group_inv p nodes vols0 [] (unsched_loop p nodes idxs s).1.
Proof.
  intros Hids. revert s. induction idxs as [|i idxs IH]; intros s Hinv; cbn [unsched_loop]; [done|].
  pose proof (put_at_inv p nodes vols0 i idxs s Hids Hinv) as Hp.
  destruct (place _ _ _ _) as [s' [e|]]; cbn in *; [|by apply IH].
  destruct Hp. split; try done; constructor.
Qed.

Lemma new_loop_inv fuel p nodes vols0 i s o :
  Forall (λ n, ni_ID (nd_Info n) ≠ "") nodes →
  group_inv p nodes vols0 [] s → new_loop fuel p nodes i s = Some o → group_inv p nodes vols0 [] o.1.
Proof.
  intros Hids. revert i s. induction fuel as [|f IH]; intros i s Hinv; cbn [new_loop]; [done|].
  case_decide; [|by intros [= <-]].
  pose proof (put_new_inv p nodes vols0 s Hids Hinv) as Hp.
  destruct (place _ _ _ _) as [s' [e|]]; cbn in *; [by intros [= <-]|]. by apply IH.
Qed.

Lemma record_unsched_spec idx vols l c (u : MapSet.t) l' c' u' idxs :
  record_unsched idx vols l c u = (l', c', u', idxs) →
  c' = (c + Z.of_nat (length (targets vols)))%Z ∧
  (∀ t, t ∈ u' ↔ t ∈ u ∨ t ∈ targets vols) ∧
  (∀ i, i ∈ idxs → idx ≤ i < idx + length vols ∧
        ∀ v, vols !! (i - idx) = Some v → is_scheduled v = false) ∧
  NoDup idxs.
Proof.
  revert idx l c u l' c' u' idxs.
  induction vols as [|v vols IH]; intros idx l c u l' c' u' idxs; cbn [record_unsched].
  { intros [= <- <- <- <-]. split_and!; [cbn; lia| | |constructor].
    - intros t. rewrite elem_of_nil. tauto.
    - intros i Hi. by apply elem_of_nil in Hi. }
  destruct (is_scheduled v) eqn:Ev.
  - intros Hr. apply IH in Hr as (Hc & Hu & Hi & Hnd).
    assert (targets (v :: vols) = vm_TargetNodeName v :: targets vols) as Ht.
    { change (v :: vols) with ([v] ++ vols). by rewrite targets_app, targets_one. }
    split_and!; [rewrite Hc, Ht; cbn [length]; lia| | |done].
    + intros t. rewrite Hu, Ht. unfold MapSet.Add.
      rewrite elem_of_union, elem_of_singleton, elem_of_cons. tauto.
    + intros i Hin. destruct (Hi i Hin) as [Hb Hv]. split; [cbn [length]; lia|].
      intros w Hw. apply Hv. replace (i - idx) with (S (i - S idx)) in Hw by lia. done.
  - destruct (record_unsched (S idx) vols l c u) as [[[l1 c1] u1] is1] eqn:Er. intros [= <- <- <- <-].
    apply IH in Er as (Hc & Hu & Hi & Hnd).
    assert (targets (v :: vols) = targets vols) as Ht.
    { change (v :: vols) with ([v] ++ vols). rewrite targets_app. unfold targets at 1. cbn. by rewrite Ev. }
    rewrite Ht. split_and!; try done.
    + intros i. rewrite elem_of_cons. intros [->|Hin].
      * split; [cbn [length]; lia|]. intros w. rewrite Nat.sub_diag. intros [= <-]. done.
      * destruct (Hi i Hin) as [Hb Hv]. split; [cbn [length]; lia|].
        intros w Hw. apply Hv. replace (i - idx) with (S (i - S idx)) in Hw by lia. done.
    + apply NoDup_cons. split; [|done]. intros Hin. destruct (Hi idx Hin). lia.
Qed.

Lemma group_init_inv cfg nodes volGroup s idxs :
  NoDup (targets (vgsp_Volumes (vg_Spec volGroup))) → group_init volGroup = (s, idxs) →
  group_inv (group_params cfg volGroup) nodes (vgsp_Volumes (vg_Spec volGroup)) idxs s.
Proof.
  intros Hnd. unfold group_init.
  destruct (record_unsched _ _ _ _ _) as [[[l c] u] is1] eqn:Er. intros [= <- <-].
  apply record_unsched_spec in Er as (Hc & Hu & Hi & Hnd').
  split; cbn; try done.
  - intros t Ht. apply Hu. by right.
  - lia.
  - intros v Hv _. by left.
  - rewrite Forall_forall. intros i Hin v Hv. destruct (Hi i Hin) as [_ H]. apply H.
    by rewrite Nat.sub_0_r.
  - rewrite Forall_forall. intros i Hin. destruct (Hi i Hin) as [H _]. lia.
Qed.
End group_lemmas.

(** ** Properties *)

Section group_props.
Context {L : K8sLib} {G : GoSort} {R : Random}.

(** C10. Scheduling a group always returns (its loops end). The volumes placed so
    far never share a node, never outnumber the larger of the count at the start
    and the maximum, every new one is a positive multiple of 4 MiB on one of the
    nodes, none placed before is lost; and without an error every volume left in
    the group is placed. *)
Theorem schedVolGroup_places cfg nodes volGroup :
  Forall (λ n, ni_ID (nd_Info n) ≠ "") nodes →
  NoDup (targets (vgsp_Volumes (vg_Spec volGroup))) →
  ∃ vg' err, schedVolGroup cfg nodes volGroup = Some (vg', err) ∧
    let vols := vgsp_Volumes (vg_Spec volGroup) in
    let vols' := vgsp_Volumes (vg_Spec vg') in
    NoDup (targets vols') ∧
    (Z.of_nat (length (targets vols')) ≤
       Z.max (Z.of_nat (length (targets vols)))
         (ir_Max (dvs_CountRange (vgsp_DesiredVolumeSpec (vg_Spec volGroup)))))%Z ∧
    (∀ v, v ∈ vols' → is_scheduled v = true → v ∈ vols ∨ placed_on nodes v) ∧
    (∀ v, v ∈ vols → is_scheduled v = true → v ∈ vols') ∧
    (err = None → Forall (λ v, is_scheduled v = true) vols').
Proof.
  intros Hids Hnd. unfold schedVolGroup.
  destruct (group_init volGroup) as [s0 idxs] eqn:Ei.
  apply (group_init_inv cfg nodes) in Ei; [|done]. 
  destruct (sched_volumes_total (group_params cfg volGroup) nodes s0 idxs) as [[s o] Hs].
  assert (group_inv (group_params cfg volGroup) nodes (vgsp_Volumes (vg_Spec volGroup)) [] s) as Hinv.
  { unfold sched_volumes in Hs.
    pose proof (unsched_loop_inv _ _ _ _ _ Hids Ei) as H1.
    destruct (unsched_loop _ _ _ _) as [s1 [e|]]; cbn in H1; [by injection Hs as <- <-|].
    by apply (new_loop_inv _ _ _ _ _ _ _ Hids H1 Hs). }
  rewrite Hs.
  assert (targets (List.filter is_scheduled (gs_volumes s)) = targets (gs_volumes s)) as Ht.
  { unfold targets. f_equal. induction (gs_volumes s) as [|v l IH]; [done|]. cbn.
    destruct (is_scheduled v) eqn:E; cbn; rewrite ?E; by rewrite ?IH. }
  assert (∀ v, v ∈ List.filter is_scheduled (gs_volumes s) ↔ v ∈ gs_volumes s ∧ is_scheduled v = true)
    as Hin.
  { intros v. rewrite !list_elem_of_In. apply List.filter_In. }
  destruct Hinv. rewrite gi_cnt0 in gi_max0.
  destruct o as [e|]; eexists _, _; (split; [reflexivity|]);
    cbn [with_volumes vg_set_Spec vg_Spec vgsp_set_Volumes vgsp_Volumes].
  - split_and!; done.
  - rewrite Ht. split_and!; try done.
    + intros v [Hv _]%Hin Hsv. auto.
    + intros v Hv Hsv. apply Hin. auto.
    + intros _. apply Forall_forall. intros v Hv. by apply Hin in Hv as [].
Qed.
End group_props.


Section group_props2.
Context {L : K8sLib} {G : GoSort} {R : Random}.

(** The size left for a remote volume is a multiple of 4 MiB between zero and
    the size asked for, and with the remote volumes present it never exceeds the
    share of the pool that may be remote. *)
Lemma getAllocatable_bounds node volSize pct :
  (0 ≤ volSize)%Z →
  let r := getAllocatableRemoteVolumeSize node volSize pct in
  let total := GetAvailableBytes (nd_Pool node) in
  let maxRemote :=
    wrap64 (wrap64 (total - f64_to_int64 (f64_div (f64_mul (f64_of_Z total) pct) (f64_of_Z 100)))
            - wrap64 (GetAllocatedRemoteBytes node)) in
  (0 ≤ r ≤ volSize)%Z ∧ (∃ k, r = k * FourMiB)%Z ∧ ((0 < r)%Z → (r ≤ maxRemote)%Z).
Proof.
  intros H0 r total maxRemote. subst r. split; [|split; [apply getAllocatable_multiple|]];
    unfold getAllocatableRemoteVolumeSize; fold total; fold maxRemote;
    repeat case_decide; try lia.
  - pose proof (round_down_bounds maxRemote FourMiB ltac:(reflexivity) ltac:(lia)). lia.
  - pose proof (round_down_bounds volSize FourMiB ltac:(reflexivity) ltac:(lia)). lia.
  - pose proof (round_down_bounds maxRemote FourMiB ltac:(reflexivity) ltac:(lia)). lia.
  - pose proof (round_down_bounds volSize FourMiB ltac:(reflexivity) ltac:(lia)). lia.
Qed.

(** A group whose placed volumes already cover its size is left alone: no
    filter runs, no node and no volume changes. *)
Lemma ScheduleVolumeGroup_done filters cfg volGroup nodes :
  (vgsp_TotalSize (vg_Spec volGroup) ≤ scheduled_size volGroup)%Z →
  ScheduleVolumeGroup filters cfg volGroup nodes = Ret (volGroup, None) nodes.
Proof. intros H. unfold ScheduleVolumeGroup. by rewrite decide_True. Qed.
End group_props2.

(** *** Evaluations *)

#[export] Instance ex_random : Random :=
  {| rand_suffix := λ k, "suffix" +:+ Itoa (Z.of_nat k); rand_uuid := λ k, "uuid" +:+ Itoa (Z.of_nat k) |}.

(** Empty pools of 100 GiB with 90 GiB to give. *)
Definition ex_group_node (id : string) : @Node NanoLib :=
  NewNode (sp_set_Spec (sps_set_NodeInfo {| ni_ID := id; ni_IP := ""; ni_Hostname := ""; ni_Labels := None |}
    (sp_Spec ex_pool)) ex_pool).
Definition ex_group_nodes : list (@Node NanoLib) := ex_group_node <$> ["a"; "b"; "c"; "d"].

(** At most [cnt] volumes of 10 GiB that must add up to [total]. *)
Definition ex_group (total cnt : Z) (vols : list VolumeMeta) : @AntstorVolumeGroup NanoLib :=
  {| vg_meta := ex_meta "group";
     vg_Spec := {| vgsp_Uuid := "g"; vgsp_TotalSize := total;
       vgsp_DesiredVolumeSpec := {| dvs_Annotations := None; dvs_Labels := None; dvs_DesiredCount := 0;
         dvs_CountRange := {| ir_Min := 1; ir_Max := cnt |};
         dvs_SizeRange := {| qr_Min := NewQuantity (10 * GiB); qr_Max := NewQuantity (10 * GiB) |};
         dvs_SizeSymmetry := Symmetric |};
       vgsp_Stragety := {| vgs_Name := StragetyBestFit; vgs_EmptyThreasholdPct := 0; vgs_AllowEmptyNode := true |};
       vgsp_Volumes := vols |};
     vg_Status := {| vgst_VolumeStatus := []; vgst_Status := ""; vgst_Message := "" |} |}.

Definition ex_placed : VolumeMeta :=
  {| vm_VolId := {| ei_Namespace := ""; ei_Name := "v0"; ei_UUID := "u0" |};
     vm_TargetNodeName := "b"; vm_Size := 10 * GiB |}.

(** The second loop re-reads its bound [maxVolCnt-cnt] while the count grows,
    so one call creates only about half of the missing volumes: asked for 40 GiB
    in at most four volumes of 10 GiB on four nodes with room, it places two and
    reports success with half of the size missing. *)
Lemma schedVolGroup_stops_halfway :
  match schedVolGroup ex_cfg ex_group_nodes (ex_group (40 * GiB) 4 []) with
  | Some (vg', None) =>
      length (targets (vgsp_Volumes (vg_Spec vg'))) = 2%nat ∧
      sumZ (vm_Size <$> vgsp_Volumes (vg_Spec vg')) = (20 * GiB)%Z
  | _ => False
  end.
Proof. vm_compute. split; reflexivity. Qed.

Lemma schedVolGroup_places_witness :
  ∃ vg' err, schedVolGroup ex_cfg ex_group_nodes (ex_group (30 * GiB) 3 [ex_placed]) = Some (vg', err) ∧
    NoDup (targets (vgsp_Volumes (vg_Spec vg'))) ∧ ex_placed ∈ vgsp_Volumes (vg_Spec vg').
Proof.
  destruct (schedVolGroup_places ex_cfg ex_group_nodes (ex_group (30 * GiB) 3 [ex_placed]))
    as (vg' & err & Hrun & Hnd & _ & _ & Hkeep & _).
  - repeat constructor; vm_compute; discriminate.
  - assert (targets (vgsp_Volumes (vg_Spec (ex_group (30 * GiB) 3 [ex_placed]))) = ["b"]) as ->
      by (vm_compute; reflexivity). apply NoDup_singleton.
  - exists vg', err. split; [exact Hrun|]. split; [exact Hnd|].
    apply Hkeep; [left|vm_compute; reflexivity].
Defined.

Lemma getAllocatable_bounds_witness :
  (0 ≤ getAllocatableRemoteVolumeSize (ex_group_node "a") (10 * GiB) (f64_of_Z 20) ≤ 10 * GiB)%Z.
Proof. apply (getAllocatable_bounds (ex_group_node "a") (10 * GiB) (f64_of_Z 20)). vm_compute. discriminate. Defined.

Lemma ScheduleVolumeGroup_done_witness :
  ScheduleVolumeGroup filtersMap ex_cfg (ex_group (10 * GiB) 3 [ex_placed]) ex_group_nodes =
  Ret (ex_group (10 * GiB) 3 [ex_placed], None) ex_group_nodes.
Proof. apply (ScheduleVolumeGroup_done filtersMap ex_cfg). vm_compute. discriminate. Defined.
