(* ===== verification/Spdk.v ===== *)
(** * The SPDK service of the agent: NVMe-oF targets

    [pkg/spdk]: the allocator of service ids ([svcid.go]), the connection
    ([service.go], [service_transport.go]) and the targets ([service_tgt.go]).

    The SPDK process is reached by JSON-RPC and is not LiteIO code: [SpdkRpc] is
    its interface over a world [W], [SpdkRpcLaws] its documented behaviour on the
    list of subsystems, [FakeSpdk] an instance that keeps that list in memory. *)

From Stdlib Require Import ZArith Lia.
From stdpp Require Import base gmap strings option list.
From S2P Require Import Prelude Strconv Misc.

(** ** Subsystems, as the JSON-RPC reports them *)

Record ListenAddress := { la_TrType : string; la_AdrFam : string; la_TrAddr : string; la_TrSvcID : string }.
Record SubsysNamespace := { ns_BdevName : string; ns_UUID : string }.
Record Subsystem := {
  sub_NQN : string;
  sub_ListenAddresses : list ListenAddress;
  sub_Namespaces : list SubsysNamespace;
  (** the host names allowed to connect *)
  sub_Hosts : list string;
}.
#[export] Instance ListenAddress_eq : EqDecision ListenAddress.
Proof. solve_decision. Defined.
#[export] Instance SubsysNamespace_eq : EqDecision SubsysNamespace.
Proof. solve_decision. Defined.
#[export] Instance Subsystem_eq : EqDecision Subsystem.
Proof. solve_decision. Defined.

(** The service ids the listeners use. *)
Definition svc_ids (l : list Subsystem) : list string :=
  l ≫= λ s, la_TrSvcID <$> sub_ListenAddresses s.

Definition TransportTypeTCP : string := "TCP".
Definition TransportTypeVFIOUSER : string := "VFIOUSER".

Class SpdkRpc (W : Type) := {
  (** the client generator of the configuration *)
  rpc_dial : go W (option error);
  NVMFGetTransports : go W (result (list string));
  NVMFCreateTransport : string → go W (result bool);
  NVMFGetSubsystems : go W (result (list Subsystem));
  NVMFCreateSubsystem : string → bool → string → string → go W (result bool);
  NVMFSubsystemAddNS : string → SubsysNamespace → go W (result Z);
  NVMFSubsystemAddListener : string → ListenAddress → go W (result bool);
  NVMFSubsystemAddHost : string → string → go W (result bool);
  NVMFDeleteSubsystem : string → go W (result bool);
}.

(** ** The allocator of service ids *)

(* [spdk/svcid.go:12-21] SvcIdAllocator *)
Record SvcIdAllocator := {
  sa_cursor : Z;
  sa_inUse : MapSet.t;
  sa_minId : Z;
  sa_maxId : Z;
  (** whether [subsysReader] is set *)
  sa_reader : bool;
}.
Definition sa_set (cursor : Z) (inUse : MapSet.t) (a : SvcIdAllocator) : SvcIdAllocator :=
  {| sa_cursor := cursor; sa_inUse := inUse; sa_minId := sa_minId a; sa_maxId := sa_maxId a;
     sa_reader := sa_reader a |}.

(* [spdk/svcid.go:23-29] SvcIdAllocator.FreeID *)
Definition FreeID (svcId : Z) (a : SvcIdAllocator) : SvcIdAllocator :=
  sa_set (sa_cursor a) (MapSet.Remove (sa_inUse a) (Itoa svcId)).2 a.

(** The cursor after one step. *)
Definition next_cursor (a : SvcIdAllocator) (cursor : Z) : Z :=
  let c := (cursor + 1)%Z in if decide (c > sa_maxId a)%Z then sa_minId a else c.

Definition err_no_port (a : SvcIdAllocator) : error :=
  ErrNew ("cannot find available port (svcID) from " +:+ Itoa (sa_minId a) +:+ " to " +:+ Itoa (sa_maxId a)).

(** The loop [for !found]; it leaves the cursor where it stopped. *)
Fixpoint NextID_loop (fuel : nat) (a : SvcIdAllocator) (cursor count : Z)
    : option (Z * option error) :=
  match fuel with
  | O => None
  | S f =>
      let cursor' := next_cursor a cursor in
      let found := negb (MapSet.Contains (sa_inUse a) (Itoa cursor')) in
      let count' := (count + 1)%Z in
      if decide (sa_maxId a - sa_minId a + 1 ≤ count')%Z then Some (cursor', Some (err_no_port a))
      else if found then Some (cursor', None)
      else NextID_loop f a cursor' count'
  end.

(** As many turns as there are ids are enough. *)
Definition NextID_fuel (a : SvcIdAllocator) : nat := S (Z.to_nat (sa_maxId a - sa_minId a)).

(* [spdk/svcid.go:31-69] SvcIdAllocator.NextID *)
Definition NextID (a : SvcIdAllocator) : option (SvcIdAllocator * result Z) :=
  if decide (MapSet.Size (sa_inUse a) = 0)%Z then
    let cursor := sa_minId a in
    Some (sa_set cursor (MapSet.Add (sa_inUse a) (Itoa cursor)) a, inl cursor)
  else
    match NextID_loop (NextID_fuel a) a (sa_cursor a) 0 with
    | None => None
    | Some (cursor, Some e) => Some (sa_set cursor (sa_inUse a) a, inr e)
    | Some (cursor, None) => Some (sa_set cursor (MapSet.Add (sa_inUse a) (Itoa cursor)) a, inl cursor)
    end.

(** ** The service *)

(* [spdk/service.go:29-29] ErrorSpdkConnectionLost *)
Definition ErrorSpdkConnectionLost : error := ErrNew "SpdkConnectionLost".
(* [spdk/service.go:14-14] SpdkController *)
Definition SpdkController : string := "SPKD_Controller".
(* [spdk/service.go:21-21] MinSvcID *)
Definition MinSvcID : Z := 4510.
(* [spdk/service.go:22-22] MaxSvcID *)
Definition MaxSvcID : Z := 4610.

(* [spdk/service.go:73-78] SpdkService *)
Record SpdkService := {
  ss_AllowAnyHost : bool;
  (** whether [cli] is not nil *)
  ss_cli : bool;
  ss_idAlloc : SvcIdAllocator;
}.
Definition ss_set_cli (b : bool) (s : SpdkService) : SpdkService :=
  {| ss_AllowAnyHost := ss_AllowAnyHost s; ss_cli := b; ss_idAlloc := ss_idAlloc s |}.
Definition ss_set_idAlloc (a : SvcIdAllocator) (s : SpdkService) : SpdkService :=
  {| ss_AllowAnyHost := ss_AllowAnyHost s; ss_cli := ss_cli s; ss_idAlloc := a |}.

(* [spdk/service_tgt.go:33-43] Target *)
Record Target := {
  t_NQN : string; t_SerialNumber : string; t_NSUUID : string; t_TransAddr : string;
  t_TransType : string; t_SvcID : string; t_AddrFam : string }.
Definition Target_zero : Target :=
  {| t_NQN := ""; t_SerialNumber := ""; t_NSUUID := ""; t_TransAddr := ""; t_TransType := "";
     t_SvcID := ""; t_AddrFam := "" |}.
Definition t_set_SvcID (v : string) (t : Target) : Target :=
  {| t_NQN := t_NQN t; t_SerialNumber := t_SerialNumber t; t_NSUUID := t_NSUUID t;
     t_TransAddr := t_TransAddr t; t_TransType := t_TransType t; t_SvcID := v; t_AddrFam := t_AddrFam t |}.
Definition t_set_TransType (v : string) (t : Target) : Target :=
  {| t_NQN := t_NQN t; t_SerialNumber := t_SerialNumber t; t_NSUUID := t_NSUUID t;
     t_TransAddr := t_TransAddr t; t_TransType := v; t_SvcID := t_SvcID t; t_AddrFam := t_AddrFam t |}.
(* [spdk/service_tgt.go:11-14] TargetCreateRequest *)
Record TargetCreateRequest := { tcr_BdevName : string; tcr_TargetInfo : Target }.

Section spdk.
Context {W : Type} {RPC : SpdkRpc W}.

Definition SpdkM := go (SpdkService * W).
Definition rpc {A} (op : go W A) : SpdkM A := on_snd op.
Definition with_svc (f : SpdkService → SpdkService) : SpdkM unit := on_fst (gmodify f).
Definition the_svc : SpdkM SpdkService := on_fst gget.

(* [spdk/svcid.go:71-94] SvcIdAllocator.SyncFromTruth *)
Definition SyncFromTruth : SpdkM (option error) :=
  svc ← the_svc;
  let a := ss_idAlloc svc in
  if sa_reader a then
    _ ← with_svc (ss_set_idAlloc (sa_set (sa_cursor a) MapSet.NewEmptySet a));
    r ← rpc NVMFGetSubsystems;
    match r with
    | inr e => mret (Some e)
    | inl list =>
        _ ← with_svc (ss_set_idAlloc (sa_set (sa_cursor a)
              (foldl MapSet.Add MapSet.NewEmptySet (svc_ids list)) a));
        mret None
    end
  else mret (Some ErrorSpdkConnectionLost).

(* [spdk/service_transport.go:10-70] SpdkService.InitTransport *)
Definition InitTransport : SpdkM (option error) :=
  r ← rpc NVMFGetTransports;
  match r with
  | inr e => mret (Some e)
  | inl list =>
      tcp ← (if bool_decide (TransportTypeTCP ∈ list) then mret None
             else c ← rpc (NVMFCreateTransport TransportTypeTCP);
                  mret match c with
                       | inr e => Some e
                       | inl true => None
                       | inl false => Some (ErrNew "SPDK init TCP transport result is false")
                       end);
      match tcp with
      | Some e => mret (Some e)
      | None =>
          _ ← (if bool_decide (TransportTypeVFIOUSER ∈ list) then mret (inl true)
               else rpc (NVMFCreateTransport TransportTypeVFIOUSER));
          mret None
      end
  end.

(* [spdk/service.go:99-114] SpdkService.Reconnect *)
Definition Reconnect : SpdkM (option error) :=
  e ← rpc rpc_dial;
  match e with
  | Some e => _ ← with_svc (ss_set_cli false); mret (Some e)
  | None =>
      _ ← with_svc (λ s, ss_set_cli true (ss_set_idAlloc
            {| sa_cursor := sa_cursor (ss_idAlloc s); sa_inUse := sa_inUse (ss_idAlloc s);
               sa_minId := sa_minId (ss_idAlloc s); sa_maxId := sa_maxId (ss_idAlloc s);
               sa_reader := true |} s));
      e ← InitTransport;
      match e with
      | Some e => mret (Some e)
      | None => SyncFromTruth
      end
  end.

(* [spdk/service.go:140-146] SpdkService.client *)
Definition client : SpdkM (option error) :=
  svc ← the_svc; if ss_cli svc then mret None else Reconnect.

(** The allocator's [NextID], which cannot run out of fuel. *)
Definition alloc_id : SpdkM (result Z) :=
  svc ← the_svc;
  match NextID (ss_idAlloc svc) with
  | Some (a, r) => _ ← with_svc (ss_set_idAlloc a); mret r
  | None => panic "out of fuel"
  end.

(** What the scan of the subsystems finds: the subsystem of that name (the last
    one), the service id of its listener of that transport, and whether another
    subsystem uses the block device. *)
Definition scan_subsystems (nqn bdevName transType : string) (list : list Subsystem) (svcID : string)
    : option Subsystem * string * bool :=
  foldl (λ acc subsys,
      let '(found, svcID, bdevInUse) := (acc : option Subsystem * string * bool) in
      if decide (nqn = sub_NQN subsys) then
        (Some subsys,
         foldl (λ id laddr, if decide (la_TrType laddr = transType) then la_TrSvcID laddr else id)
           svcID (sub_ListenAddresses subsys),
         bdevInUse)
      else
        (found, svcID,
         foldl (λ b ns, if decide (ns_BdevName ns = bdevName) then true else b)
           bdevInUse (sub_Namespaces subsys)))
    (None, svcID, false) list.

(** The service id of the request, or a fresh one when it names none. *)
Definition listener_id (t : Target) : SpdkM (result string) :=
  if decide (t_SvcID t = "") then
    r ← alloc_id; mret match r with inl i => inl (Itoa i) | inr e => inr e end
  else mret (inl (t_SvcID t)).

(** Adds the listener. *)
Definition add_listener (nqn transType : string) (t : Target) (result0 : Target)
    : SpdkM (Target * option error) :=
  id ← listener_id t;
  match id with
  | inr e => mret (result0, Some e)
  | inl svcID =>
      let result1 := t_set_TransType transType (t_set_SvcID svcID result0) in
      r ← rpc (NVMFSubsystemAddListener nqn
                 {| la_TrType := transType; la_AdrFam := t_AddrFam t; la_TrAddr := t_TransAddr t;
                    la_TrSvcID := svcID |});
      mret (result1, match r with inl _ => None | inr e => Some e end)
  end.

Definition add_ns (nqn : string) (req : TargetCreateRequest) : SpdkM (option error) :=
  r ← rpc (NVMFSubsystemAddNS nqn {| ns_BdevName := tcr_BdevName req; ns_UUID := t_NSUUID (tcr_TargetInfo req) |});
  mret match r with inl _ => None | inr e => Some e end.

(** The part of [CreateTarget] that makes the subsystem complete. *)
Definition complete_target (req : TargetCreateRequest) (modelNumber transType : string)
    (found : option Subsystem) (result0 : Target) : SpdkM (Target * option error) :=
  let t := tcr_TargetInfo req in
  match found with
  | Some subsystem =>
      e ← (match sub_Namespaces subsystem with [] => add_ns (t_NQN t) req | _ => mret None end);
      match e with
      | Some e => mret (result0, Some e)
      | None => match sub_ListenAddresses subsystem with
                | [] => add_listener (t_NQN t) transType t result0
                | _ => mret (result0, None)
                end
      end
  | None =>
      svc ← the_svc;
      c ← rpc (NVMFCreateSubsystem (t_NQN t) (ss_AllowAnyHost svc) (t_SerialNumber t) modelNumber);
      match c with
      | inr e => mret (result0, Some e)
      | inl _ =>
          e ← add_ns (t_NQN t) req;
          match e with
          | Some e => mret (result0, Some e)
          | None => add_listener (t_NQN t) transType t result0
          end
      end
  end.

(* [spdk/service_tgt.go:61-236] SpdkService.CreateTarget *)
Definition CreateTarget (req : TargetCreateRequest) : SpdkM (Target * option error) :=
  e ← client;
  match e with
  | Some e => mret (Target_zero, Some e)
  | None =>
      let t := tcr_TargetInfo req in
      let modelNumber := if decide (t_NSUUID t = "") then SpdkController else t_NSUUID t in
      let transType := if decide (t_TransType t = "") then TransportTypeTCP else t_TransType t in
      r ← rpc NVMFGetSubsystems;
      match r with
      | inr e => mret (t, Some e)
      | inl list =>
          let '(found, svcID, bdevInUse) :=
            scan_subsystems (t_NQN t) (tcr_BdevName req) transType list (t_SvcID t) in
          let result0 := t_set_SvcID svcID t in
          if (bdevInUse : bool) then
            mret (result0, Some (ErrNew ("bdev " +:+ tcr_BdevName req +:+ " is used by other subsystem")))
          else
            r ← complete_target req modelNumber transType found result0;
            let '(result1, err) := (r : Target * option error) in
            match err with
            | Some e => mret (result1, Some e)
            | None => e ← SyncFromTruth; mret (result1, e)
            end
      end
  end.

(* [spdk/service_tgt.go:238-270] SpdkService.DeleteTarget *)
Definition DeleteTarget (nqn : string) : SpdkM (option error) :=
  e ← client;
  match e with
  | Some e => mret (Some e)
  | None =>
      r ← rpc NVMFGetSubsystems;
      match r with
      | inr e => mret (Some e)
      | inl list =>
          if bool_decide (nqn ∈ sub_NQN <$> list) then
            d ← rpc (NVMFDeleteSubsystem nqn);
            _ ← SyncFromTruth;
            mret match d with inl _ => None | inr e => Some e end
          else mret None
      end
  end.

(* [spdk/service_tgt.go:313-335] SpdkService.SubsysAddHost *)
Definition SubsysAddHost (nqn hostNQN : string) : SpdkM (option error) :=
  e ← client;
  match e with
  | Some e => mret (Some e)
  | None =>
      r ← rpc (NVMFSubsystemAddHost nqn hostNQN);
      mret match r with
           | inr e => Some e
           | inl true => None
           | inl false => Some (ErrNew "subsystem addhost failed, false")
           end
  end.

(* [spdk/service_tgt.go:337-366] SpdkService.GetSubsystemByNQN *)
Definition GetSubsystemByNQN (nqn : string) : SpdkM (result Subsystem) :=
  e ← client;
  match e with
  | Some e => mret (inr e)
  | None =>
      r ← rpc NVMFGetSubsystems;
      mret match r with
           | inr e => inr e
           | inl list =>
               match foldl (λ acc item, if decide (nqn = sub_NQN item) then Some item else acc) None list with
               | Some s => inl s
               | None => inr (ErrNew ("not found subsystem " +:+ nqn))
               end
           end
  end.
End spdk.

(** ** The documented behaviour of the JSON-RPC *)

Definition add_to (nqn : string) (f : Subsystem → Subsystem) (l : list Subsystem) : list Subsystem :=
  (λ s, if decide (sub_NQN s = nqn) then f s else s) <$> l.
Definition with_ns (ns : SubsysNamespace) (s : Subsystem) : Subsystem :=
  {| sub_NQN := sub_NQN s; sub_ListenAddresses := sub_ListenAddresses s;
     sub_Namespaces := sub_Namespaces s ++ [ns]; sub_Hosts := sub_Hosts s |}.
Definition with_listener (la : ListenAddress) (s : Subsystem) : Subsystem :=
  {| sub_NQN := sub_NQN s; sub_ListenAddresses := sub_ListenAddresses s ++ [la];
     sub_Namespaces := sub_Namespaces s; sub_Hosts := sub_Hosts s |}.
Definition with_host (h : string) (s : Subsystem) : Subsystem :=
  {| sub_NQN := sub_NQN s; sub_ListenAddresses := sub_ListenAddresses s;
     sub_Namespaces := sub_Namespaces s; sub_Hosts := sub_Hosts s ++ [h] |}.
Definition new_subsystem (nqn : string) : Subsystem :=
  {| sub_NQN := nqn; sub_ListenAddresses := []; sub_Namespaces := []; sub_Hosts := [] |}.

(** A call returns, and changes the subsystems as documented when it succeeds
    and not at all when it fails. [subs] is what [nvmf_get_subsystems] lists. *)
Class SpdkRpcLaws {W : Type} (RPC : SpdkRpc W) := {
  subs : W → list Subsystem;
  law_dial w : ∃ r w', rpc_dial w = Ret r w' ∧ subs w' = subs w;
  law_transports w : ∃ r w', NVMFGetTransports w = Ret r w' ∧ subs w' = subs w;
  law_create_transport t w : ∃ r w', NVMFCreateTransport t w = Ret r w' ∧ subs w' = subs w;
  law_get w : ∃ r w', NVMFGetSubsystems w = Ret r w' ∧ subs w' = subs w ∧
    match r with inl l => l = subs w | inr _ => True end;
  law_create nqn h sn mn w : ∃ r w', NVMFCreateSubsystem nqn h sn mn w = Ret r w' ∧
    subs w' = match r with inl _ => subs w ++ [new_subsystem nqn] | inr _ => subs w end;
  law_add_ns nqn ns w : ∃ r w', NVMFSubsystemAddNS nqn ns w = Ret r w' ∧
    subs w' = match r with inl _ => add_to nqn (with_ns ns) (subs w) | inr _ => subs w end;
  law_add_listener nqn la w : ∃ r w', NVMFSubsystemAddListener nqn la w = Ret r w' ∧
    subs w' = match r with inl _ => add_to nqn (with_listener la) (subs w) | inr _ => subs w end;
  law_add_host nqn h w : ∃ r w', NVMFSubsystemAddHost nqn h w = Ret r w' ∧
    subs w' = match r with inl true => add_to nqn (with_host h) (subs w) | _ => subs w end;
  law_delete nqn w : ∃ r w', NVMFDeleteSubsystem nqn w = Ret r w' ∧
    match r with
    | inl ok => ok = true ∧
                subs w' = List.filter (λ s, bool_decide (sub_NQN s ≠ nqn)) (subs w)
    | inr _ => subs w' = subs w
    end;
}.

(** A range that is not empty and holds the cursor. *)
Record alloc_wf (a : SvcIdAllocator) : Prop := {
  awf_range : (sa_minId a ≤ sa_maxId a)%Z;
  awf_cursor : (sa_minId a ≤ sa_cursor a ≤ sa_maxId a)%Z;
}.

(** The ids the loop tries, in order. *)
Fixpoint probes (n : nat) (a : SvcIdAllocator) (cursor : Z) : list Z :=
  match n with
  | O => []
  | S m => let c := next_cursor a cursor in c :: probes m a c
  end.

Definition id_free (a : SvcIdAllocator) (id : Z) : Prop := Itoa id ∉ sa_inUse a.

(** ** The allocator *)

Lemma next_cursor_range a c :
  (sa_minId a ≤ sa_maxId a)%Z → (sa_minId a ≤ c ≤ sa_maxId a)%Z →
  (sa_minId a ≤ next_cursor a c ≤ sa_maxId a)%Z.
Proof. intros Hr Hc. unfold next_cursor. case_decide; lia. Qed.

(** The loop stops at the first free probe, unless that is the last one. *)
Lemma NextID_loop_spec fuel a c count :
  (sa_minId a ≤ sa_maxId a)%Z → (sa_minId a ≤ c ≤ sa_maxId a)%Z →
  (0 ≤ count ≤ sa_maxId a - sa_minId a)%Z → (sa_maxId a - sa_minId a - count < Z.of_nat fuel)%Z →
  ∃ c' o, NextID_loop fuel a c count = Some (c', o) ∧ (sa_minId a ≤ c' ≤ sa_maxId a)%Z ∧
    let tried := probes (Z.to_nat (sa_maxId a - sa_minId a - count)) a c in
    match o with
    | None => id_free a c' ∧ c' ∈ tried
    | Some e => e = err_no_port a ∧ Forall (λ i, ¬ id_free a i) tried
    end.
Proof.
  intros Hr. revert c count. induction fuel as [|f IH]; intros c count Hc H0 Hf; [lia|].
  cbn [NextID_loop]. pose proof (next_cursor_range a c Hr Hc) as Hc'.
  case_decide as Hlast.
  - replace (sa_maxId a - sa_minId a - count)%Z with 0%Z by lia.
    eexists _, _. split; [reflexivity|]. split; [done|]. split; [done|constructor].
  - replace (Z.to_nat (sa_maxId a - sa_minId a - count))
      with (S (Z.to_nat (sa_maxId a - sa_minId a - (count + 1)))) by lia. cbn [probes].
    destruct (MapSet.Contains _ _) eqn:E; cbn [negb].
    + destruct (IH (next_cursor a c) (count + 1)%Z) as (c' & o & Hrun & Hc'' & Ho); [done|lia|lia|].
      eexists _, _. split; [exact Hrun|]. split; [done|]. destruct o as [e|].
      * destruct Ho as [-> Ho]. split; [done|]. constructor; [|done].
        intros Hfree. by apply MapSet.MapSet_Contains_spec in E.
      * destruct Ho. split; [done|by right].
    + eexists _, _. split; [reflexivity|]. split; [done|]. split; [|by left].
      intros Hin. apply MapSet.MapSet_Contains_spec in Hin. congruence.
Qed.

Lemma NextID_total a :
  alloc_wf a →
  ∃ a' r, NextID a = Some (a', r) ∧ alloc_wf a' ∧ sa_minId a' = sa_minId a ∧ sa_maxId a' = sa_maxId a ∧
    match r with
    | inl id => (sa_minId a ≤ id ≤ sa_maxId a)%Z ∧ id_free a id ∧
                sa_inUse a' = {[ Itoa id ]} ∪ sa_inUse a ∧ sa_cursor a' = id
    | inr e => sa_inUse a' = sa_inUse a ∧
               Forall (λ i, ¬ id_free a i)
                 (probes (Z.to_nat (sa_maxId a - sa_minId a)) a (sa_cursor a))
    end.
Proof.
  intros [Hr Hc]. unfold NextID. case_decide as Hs.
  - eexists _, _. split; [reflexivity|]. split; [by split; cbn; lia|]. split; [done|]. split; [done|]. split_and!; try done; try lia.
    unfold id_free. unfold MapSet.Size in Hs.
    assert (size (sa_inUse a) = 0)%nat as H0 by lia. apply size_empty_inv in H0. set_solver.
  - destruct (NextID_loop_spec (NextID_fuel a) a (sa_cursor a) 0) as (c' & o & -> & Hc' & Ho);
      [done|done|lia|unfold NextID_fuel; lia|].
    rewrite Z.sub_0_r in Ho. destruct o as [e|]; eexists _, _; (split; [reflexivity|]);
      (split; [by split|]); (split; [done|]); (split; [done|]); [by destruct Ho|]. by destruct Ho.
Qed.

(** [NextID] always returns. An id it hands out lies in the range, was free
    and is in use from then on; it fails, leaving the ids in use alone, only when
    every id it tried before the last turn of the range is taken. *)
Lemma NextID_spec a :
  alloc_wf a →
  ∃ a' r, NextID a = Some (a', r) ∧ alloc_wf a' ∧
    match r with
    | inl id => (sa_minId a ≤ id ≤ sa_maxId a)%Z ∧ id_free a id ∧
                sa_inUse a' = {[ Itoa id ]} ∪ sa_inUse a ∧ sa_cursor a' = id
    | inr e => sa_inUse a' = sa_inUse a ∧
               Forall (λ i, ¬ id_free a i)
                 (probes (Z.to_nat (sa_maxId a - sa_minId a)) a (sa_cursor a))
    end.
Proof.
  intros Hwf. destruct (NextID_total a Hwf) as (a' & r & H1 & H2 & _ & _ & H3). eauto.
Qed.

(** The turn that would hand out the last free id gives up instead: with the
    range [1..2], the cursor on 1 and only 2 in use, the id 1 is free and [NextID]
    fails. *)
Lemma NextID_gives_up_on_last :
  let a := {| sa_cursor := 1; sa_inUse := {[ "2" ]}; sa_minId := 1; sa_maxId := 2; sa_reader := true |} in
  bool_decide (id_free a 1) = true ∧
  match NextID a with Some (_, inr _) => True | _ => False end.
Proof. vm_compute. split; [reflexivity|exact I]. Qed.

Lemma NextID_spec_witness :
  let a := {| sa_cursor := MinSvcID; sa_inUse := {[ "4510"; "4511" ]}; sa_minId := MinSvcID;
              sa_maxId := MaxSvcID; sa_reader := true |} in
  ∃ a' r, NextID a = Some (a', r) ∧ alloc_wf a'.
Proof.
  intros a. destruct (NextID_spec a) as (a' & r & H1 & H2 & _).
  - split; cbn; unfold MinSvcID, MaxSvcID; lia.
  - exists a', r. split; [exact H1|exact H2].
Defined.

(** ** The targets *)

Section target.
Context {W : Type} {RPC : SpdkRpc W} {HR : SpdkRpcLaws RPC}.
Implicit Types (svc : SpdkService) (w : W).

(** The subsystems of other names. *)
Definition others (nqn : string) (l : list Subsystem) : list Subsystem :=
  List.filter (λ s, bool_decide (sub_NQN s ≠ nqn)) l.

(** A subsystem of that name that can be connected to and has a block device. *)
Definition complete (nqn : string) (l : list Subsystem) : Prop :=
  ∃ s, s ∈ l ∧ sub_NQN s = nqn ∧ sub_Namespaces s ≠ [] ∧ sub_ListenAddresses s ≠ [].

(** Whether a subsystem of another name uses the block device. *)
Definition bdev_taken (nqn bdevName : string) (l : list Subsystem) : Prop :=
  ∃ s ns, s ∈ l ∧ sub_NQN s ≠ nqn ∧ ns ∈ sub_Namespaces s ∧ ns_BdevName ns = bdevName.

(** What no call of the service changes: the range of the ids. *)
Definition same_range svc svc' : Prop :=
  sa_minId (ss_idAlloc svc') = sa_minId (ss_idAlloc svc) ∧
  sa_maxId (ss_idAlloc svc') = sa_maxId (ss_idAlloc svc).

Lemma others_add_to nqn f l :
  (∀ s, sub_NQN (f s) = sub_NQN s) → others nqn (add_to nqn f l) = others nqn l.
Proof.
  intros Hf. unfold others, add_to. induction l as [|s l IH]; [done|].
  rewrite fmap_cons. cbn [List.filter]. case_decide as Hs.
  - rewrite Hf, Hs. rewrite !bool_decide_false by tauto. apply IH.
  - by rewrite IH.
Qed.

Lemma others_app nqn l1 l2 : others nqn (l1 ++ l2) = others nqn l1 ++ others nqn l2.
Proof. apply List.filter_app. Qed.

Lemma rpc_run {A} (op : go W A) svc w r w' : op w = Ret r w' → rpc op (svc, w) = Ret r (svc, w').
Proof. intros H. unfold rpc, on_snd. cbn. by rewrite H. Qed.

Lemma foldl_add_set l (s : MapSet.t) : foldl MapSet.Add s l = list_to_set l ∪ s.
Proof. apply set_eq. intros x. rewrite MapSet.elem_of_foldl_add. set_solver. Qed.

Lemma SyncFromTruth_run svc w :
  alloc_wf (ss_idAlloc svc) →
  ∃ e svc' w', SyncFromTruth (svc, w) = Ret e (svc', w') ∧ subs w' = subs w ∧
    same_range svc svc' ∧ alloc_wf (ss_idAlloc svc') ∧
    (e = None → sa_inUse (ss_idAlloc svc') = list_to_set (svc_ids (subs w))).
Proof.
  intros Hwf. unfold SyncFromTruth, the_svc, with_svc, on_fst. go_simpl.
  destruct (sa_reader _).
  - destruct (law_get w) as (r & w' & Hr & Hs & Hl). rewrite (rpc_run _ _ _ _ _ Hr).
    destruct r as [l|e]; cbn.
    + eexists _, _, _. split; [reflexivity|]. split_and!; try done; [by destruct Hwf|].
      intros _. cbn. rewrite foldl_add_set, Hl. unfold MapSet.NewEmptySet. by rewrite (right_id_L ∅ (∪)).
    + eexists _, _, _. split; [reflexivity|]. split_and!; try done. by destruct Hwf.
  - eexists _, _, _. split; [reflexivity|]. by split_and!.
Qed.

Lemma InitTransport_run svc w :
  ∃ e w', InitTransport (svc, w) = Ret e (svc, w') ∧ subs w' = subs w.
Proof.
  unfold InitTransport. go_simpl.
  destruct (law_transports w) as (r & w1 & Hr & Hs1). rewrite (rpc_run _ _ _ _ _ Hr).
  destruct r as [l|e]; [|eauto].
  destruct (law_create_transport TransportTypeVFIOUSER w1) as (cv & wv & Hcv & Hsv).
  destruct (law_create_transport TransportTypeTCP w1) as (c & w2 & Hc & Hs2).
  destruct (law_create_transport TransportTypeVFIOUSER w2) as (cv' & w3 & Hcv' & Hs3).
  destruct (bool_decide (TransportTypeTCP ∈ l)), (bool_decide (TransportTypeVFIOUSER ∈ l));
    rewrite ?(rpc_run _ _ _ _ _ Hc), ?(rpc_run _ _ _ _ _ Hcv);
    try destruct c as [[]|e]; rewrite ?(rpc_run _ _ _ _ _ Hcv');
    eexists _, _; (split; [reflexivity|congruence]).
Qed.

Lemma client_run svc w :
  alloc_wf (ss_idAlloc svc) →
  ∃ e svc' w', client (svc, w) = Ret e (svc', w') ∧ subs w' = subs w ∧
    same_range svc svc' ∧ alloc_wf (ss_idAlloc svc') ∧
    (ss_cli svc = true → e = None ∧ svc' = svc ∧ w' = w).
Proof.
  intros Hwf. unfold client, the_svc, on_fst. go_simpl. destruct (ss_cli svc) eqn:Ec.
  { eexists _, _, _. split; [reflexivity|]. by split_and!. }
  unfold Reconnect, with_svc, on_fst. go_simpl.
  destruct (law_dial w) as (r & w1 & Hr & Hs1). rewrite (rpc_run _ _ _ _ _ Hr).
  destruct r as [e|]; cbn.
  { eexists _, _, _. split; [reflexivity|]. by split_and!. }
  match goal with |- context [InitTransport (?x, w1)] => set (svc1 := x) end.
  destruct (InitTransport_run svc1 w1) as (e & w2 & -> & Hs2).
  destruct e as [e|].
  { eexists _, _, _. split; [reflexivity|]. split_and!; try done; [congruence|by destruct Hwf]. }
  destruct (SyncFromTruth_run svc1 w2) as (e & svc2 & w3 & Hrun & Hs3 & Hrg & Hwf2 & _).
  { by destruct Hwf. }
  exists e, svc2, w3. split; [exact Hrun|]. split_and!; try done. congruence.
Qed.

Lemma scan_spec nqn bdev tt l id :
  let '(found, id', taken) := scan_subsystems nqn bdev tt l id in
  (taken = true ↔ bdev_taken nqn bdev l) ∧
  match found with
  | Some s => s ∈ l ∧ sub_NQN s = nqn
  | None => ∀ s, s ∈ l → sub_NQN s ≠ nqn
  end.
Proof.
  unfold scan_subsystems, bdev_taken.
  induction l as [|s l IH] using rev_ind; cbn.
  { split; [|intros s Hs; by apply elem_of_nil in Hs].
    split; [done|]. intros (s & ns & Hs & _). by apply elem_of_nil in Hs. }
  rewrite foldl_app. cbn [foldl].
  destruct (foldl _ (None, id, false) l) as [[found id'] taken]. destruct IH as [IHt IHf].
  assert (∀ b nss, foldl (λ b ns, if decide (ns_BdevName ns = bdev) then true else b) b nss = true ↔
    b = true ∨ ∃ ns, ns ∈ nss ∧ ns_BdevName ns = bdev) as Hf.
  { intros b nss. revert b. induction nss as [|ns nss IH]; intros b; cbn [foldl].
    - split; [by left|]. intros [?|(ns & Hns & _)]; [done|]. by apply elem_of_nil in Hns.
    - rewrite IH. setoid_rewrite elem_of_cons. case_decide; naive_solver. }
  assert (∀ x, x ∈ l ++ [s] ↔ x ∈ l ∨ x = s) as Hin.
  { intros x. by rewrite elem_of_app, list_elem_of_singleton. }
  destruct (decide (nqn = sub_NQN s)) as [Hn|Hn].
  - split; [|by split; [apply Hin; right|]]. rewrite IHt. split.
    + intros (s' & ns & Hs & ?). exists s', ns. split; [apply Hin; by left|done].
    + intros (s' & ns & [Hs| ->]%Hin & ?); [by exists s', ns|]. naive_solver.
  - split.
    + rewrite Hf, IHt. split.
      * intros [(s' & ns & Hs & ?)|(ns & ?)].
        -- exists s', ns. split; [apply Hin; by left|done].
        -- exists s, ns. split; [apply Hin; by right|]. naive_solver.
      * intros (s' & ns & [Hs| ->]%Hin & ?); [left; by exists s', ns|right; naive_solver].
    + destruct found as [s0|].
      * destruct IHf. split; [apply Hin; by left|done].
      * intros s' [Hs| ->]%Hin; [auto|congruence].
Qed.

Lemma same_range_refl svc : same_range svc svc.
Proof. done. Qed.
Lemma same_range_trans svc1 svc2 svc3 : same_range svc1 svc2 → same_range svc2 svc3 → same_range svc1 svc3.
Proof. unfold same_range. intros [-> ->] [-> ->]. done. Qed.

Lemma elem_of_add_to nqn f l s : s ∈ l → sub_NQN s = nqn → f s ∈ add_to nqn f l.
Proof.
  intros Hs Hn. unfold add_to. apply list_elem_of_fmap. exists s. by rewrite decide_True.
Qed.

Lemma add_ns_run nqn req svc w :
  ∃ e w', add_ns nqn req (svc, w) = Ret e (svc, w') ∧
    subs w' = match e with
              | None => add_to nqn (with_ns {| ns_BdevName := tcr_BdevName req;
                                              ns_UUID := t_NSUUID (tcr_TargetInfo req) |}) (subs w)
              | Some _ => subs w
              end.
Proof.
  unfold add_ns. go_simpl.
  destruct (law_add_ns nqn {| ns_BdevName := tcr_BdevName req; ns_UUID := t_NSUUID (tcr_TargetInfo req) |} w)
    as (r & w' & Hr & Hs). rewrite (rpc_run _ _ _ _ _ Hr). destruct r; eauto.
Qed.

(** The id a listener gets when the request names none. *)
Definition fresh_id svc (id : string) : Prop :=
  ∃ i, id = Itoa i ∧ (sa_minId (ss_idAlloc svc) ≤ i ≤ sa_maxId (ss_idAlloc svc))%Z ∧
       id ∉ sa_inUse (ss_idAlloc svc).

Lemma alloc_id_run svc w :
  alloc_wf (ss_idAlloc svc) →
  ∃ r svc', alloc_id (svc, w) = Ret r (svc', w) ∧ same_range svc svc' ∧ alloc_wf (ss_idAlloc svc') ∧
    match r with inl i => fresh_id svc (Itoa i) | inr _ => True end.
Proof.
  intros Hwf. unfold alloc_id, the_svc, with_svc, on_fst. go_simpl.
  destruct (NextID_total (ss_idAlloc svc) Hwf) as (a' & r & -> & Hwf' & Hmin & Hmax & Hr). cbn.
  eexists _, _. split; [reflexivity|]. split; [by split|]. split; [done|].
  destruct r as [i|]; [|done]. destruct Hr as (? & ? & _). by exists i.
Qed.

Lemma listener_id_run t svc w :
  alloc_wf (ss_idAlloc svc) →
  ∃ r svc', listener_id t (svc, w) = Ret r (svc', w) ∧ same_range svc svc' ∧
    alloc_wf (ss_idAlloc svc') ∧
    match r with inl i => t_SvcID t = "" → fresh_id svc i | inr _ => True end.
Proof.
  intros Hwf. unfold listener_id. destruct (decide (t_SvcID t = "")) as [Ht|Ht]; go_simpl.
  - destruct (alloc_id_run svc w Hwf) as (r & svc1 & -> & Hrg & Hwf1 & Hr).
    eexists _, svc1. split; [reflexivity|]. destruct r; by split_and!.
  - eexists _, svc. split; [reflexivity|]. by split_and!.
Qed.

Lemma add_listener_run nqn tt t r0 svc w :
  alloc_wf (ss_idAlloc svc) →
  ∃ r1 e svc' w', add_listener nqn tt t r0 (svc, w) = Ret (r1, e) (svc', w') ∧
    same_range svc svc' ∧ alloc_wf (ss_idAlloc svc') ∧
    match e with
    | None => (∃ la, subs w' = add_to nqn (with_listener la) (subs w)) ∧
              (t_SvcID t = "" → fresh_id svc (t_SvcID r1))
    | Some _ => subs w' = subs w
    end.
Proof.
  intros Hwf. unfold add_listener. go_simpl.
  destruct (listener_id_run t svc w Hwf) as (id & svc1 & -> & Hrg & Hwf1 & Hid).
  destruct id as [id|e]; [|by eexists _, _, _, _].
  match goal with |- context [NVMFSubsystemAddListener nqn ?x] => set (la := x) end.
  destruct (law_add_listener nqn la w) as (r & w' & Hr & Hs). rewrite (rpc_run _ _ _ _ _ Hr).
  eexists _, _, svc1, w'. split; [reflexivity|]. split; [done|]. split; [done|].
  destruct r; [|done]. split; [by exists la|done].
Qed.

Lemma complete_target_run req mn tt found r0 svc w :
  let nqn := t_NQN (tcr_TargetInfo req) in
  alloc_wf (ss_idAlloc svc) →
  match found with Some s => s ∈ subs w ∧ sub_NQN s = nqn | None => True end →
  ∃ r1 e svc' w', complete_target req mn tt found r0 (svc, w) = Ret (r1, e) (svc', w') ∧
    same_range svc svc' ∧ alloc_wf (ss_idAlloc svc') ∧
    others nqn (subs w') = others nqn (subs w) ∧
    (e = None → complete nqn (subs w') ∧
                (found = None → t_SvcID (tcr_TargetInfo req) = "" → fresh_id svc (t_SvcID r1))) ∧
    (match found with
     | Some s => sub_Namespaces s ≠ [] ∧ sub_ListenAddresses s ≠ []
     | None => False
     end → subs w' = subs w).
Proof.
  intros nqn Hwf Hfound. unfold complete_target. fold nqn. destruct found as [s|].
  - destruct Hfound as [Hs Hn]. destruct (sub_Namespaces s) as [|ns nss] eqn:Ens; go_simpl.
    + destruct (add_ns_run nqn req svc w) as (e & w1 & -> & Hs1). destruct e as [e|].
      { eexists _, _, _, _. split; [reflexivity|]. split_and!; try done; by rewrite Hs1. }
      set (f := with_ns _) in Hs1. assert (f s ∈ subs w1) as Hs1' by (rewrite Hs1; by apply elem_of_add_to).
      assert (others nqn (subs w1) = others nqn (subs w)) as Ho1 by (rewrite Hs1; by apply others_add_to).
      destruct (sub_ListenAddresses s) as [|la las] eqn:Ela.
      * destruct (add_listener_run nqn tt (tcr_TargetInfo req) r0 svc w1 Hwf)
          as (r1 & e & svc2 & w2 & -> & Hrg & Hwf2 & He).
        eexists _, _, _, _. split; [reflexivity|]. split; [done|]. split; [done|].
        destruct e as [e|]; [rewrite He; split_and!; try done; naive_solver|].
        destruct He as [[la Hla] _]. rewrite Hla. split; [by rewrite others_add_to|].
        split; [|naive_solver]. intros _. split; [|done]. exists (with_listener la (f s)).
        split; [by apply elem_of_add_to|]. split; [done|]. cbn. split; by destruct (_ ++ _) eqn:E;
          [apply app_eq_nil in E as []|].
      * eexists _, _, _, _. split; [reflexivity|]. split_and!; try done; [|naive_solver].
        intros _. split; [|done]. exists (f s). split_and!; try done; cbn; [by rewrite Ens|by rewrite Ela].
    + destruct (sub_ListenAddresses s) as [|la las] eqn:Ela.
      * destruct (add_listener_run nqn tt (tcr_TargetInfo req) r0 svc w Hwf)
          as (r1 & e & svc2 & w2 & -> & Hrg & Hwf2 & He).
        eexists _, _, _, _. split; [reflexivity|]. split; [done|]. split; [done|].
        destruct e as [e|]; [rewrite He; split_and!; try done; naive_solver|].
        destruct He as [[la Hla] _]. rewrite Hla. split; [by rewrite others_add_to|].
        split; [|naive_solver]. intros _. split; [|done]. exists (with_listener la s).
        split; [by apply elem_of_add_to|]. cbn. rewrite Ens, Ela. done.
      * eexists _, _, _, _. split; [reflexivity|]. split_and!; try done.
        intros _. split; [|done]. exists s. by rewrite Ens, Ela.
  - unfold the_svc, on_fst. go_simpl.
    destruct (law_create nqn (ss_AllowAnyHost svc) (t_SerialNumber (tcr_TargetInfo req)) mn w)
      as (c & w1 & Hc & Hs1). rewrite (rpc_run _ _ _ _ _ Hc). destruct c as [ok|e].
    2: { eexists _, _, _, _. split; [reflexivity|]. rewrite Hs1. by split_and!. }
    assert (new_subsystem nqn ∈ subs w1) as Hnew.
    { rewrite Hs1, elem_of_app, list_elem_of_singleton. by right. }
    assert (others nqn (subs w1) = others nqn (subs w)) as Ho1.
    { rewrite Hs1, others_app. unfold others at 2. cbn. rewrite bool_decide_false by tauto.
      by rewrite app_nil_r. }
    destruct (add_ns_run nqn req svc w1) as (e & w2 & -> & Hs2). destruct e as [e|].
    { eexists _, _, _, _. split; [reflexivity|]. rewrite Hs2. by split_and!. }
    set (f := with_ns _) in Hs2.
    assert (f (new_subsystem nqn) ∈ subs w2) as Hs2' by (rewrite Hs2; by apply elem_of_add_to).
    assert (others nqn (subs w2) = others nqn (subs w)) as Ho2 by (rewrite Hs2; by rewrite others_add_to).
    destruct (add_listener_run nqn tt (tcr_TargetInfo req) r0 svc w2 Hwf)
      as (r1 & e & svc3 & w3 & -> & Hrg & Hwf3 & He).
    eexists _, _, _, _. split; [reflexivity|]. split; [done|]. split; [done|].
    destruct e as [e|]; [rewrite He; by split_and!|].
    destruct He as [[la Hla] Hfresh]. rewrite Hla. split; [by rewrite others_add_to|].
    split; [|done]. intros _. split; [|auto]. exists (with_listener la (f (new_subsystem nqn))).
    split; [by apply elem_of_add_to|]. done.
Qed.
End target.

(** ** Properties of the targets *)

Section target_props.
Context {W : Type} {RPC : SpdkRpc W} {HR : SpdkRpcLaws RPC}.
Implicit Types (svc : SpdkService) (w : W).

(** [CreateTarget] on a connected or unconnected service, in one statement. *)
Lemma CreateTarget_run req svc w :
  let nqn := t_NQN (tcr_TargetInfo req) in
  alloc_wf (ss_idAlloc svc) →
  ∃ t e svc' w', CreateTarget req (svc, w) = Ret (t, e) (svc', w') ∧
    same_range svc svc' ∧ alloc_wf (ss_idAlloc svc') ∧
    others nqn (subs w') = others nqn (subs w) ∧
    (e = None → complete nqn (subs w') ∧
       sa_inUse (ss_idAlloc svc') = list_to_set (svc_ids (subs w')) ∧
       (ss_cli svc = true → (∀ s, s ∈ subs w → sub_NQN s ≠ nqn) →
        t_SvcID (tcr_TargetInfo req) = "" → fresh_id svc (t_SvcID t))) ∧
    (bdev_taken nqn (tcr_BdevName req) (subs w) → e ≠ None ∧ subs w' = subs w) ∧
    ((∀ s, s ∈ subs w → sub_NQN s = nqn → sub_Namespaces s ≠ [] ∧ sub_ListenAddresses s ≠ []) →
     (∃ s, s ∈ subs w ∧ sub_NQN s = nqn) → subs w' = subs w).
Proof.
  intros nqn Hwf. unfold CreateTarget. go_simpl. fold nqn.
  destruct (client_run svc w Hwf) as (e & svc1 & w1 & -> & Hs1 & Hrg1 & Hwf1 & Hcli).
  destruct e as [e|].
  { eexists _, _, _, _. split; [reflexivity|]. rewrite Hs1. by split_and!. }
  destruct (law_get w1) as (r & w2 & Hr & Hs2 & Hl). rewrite (rpc_run _ _ _ _ _ Hr).
  destruct r as [l|e].
  2: { eexists _, _, _, _. split; [reflexivity|]. rewrite Hs2, Hs1. by split_and!. }
  assert (subs w2 = l) as Hl2 by congruence. assert (subs w = l) as Hl0 by congruence.
  set (tt := if decide (t_TransType _ = "") then _ else _).
  pose proof (scan_spec nqn (tcr_BdevName req) tt l (t_SvcID (tcr_TargetInfo req))) as Hscan.
  destruct (scan_subsystems _ _ _ _ _) as [[found id'] taken]. destruct Hscan as [Ht Hf].
  rewrite Hl0. destruct taken.
  { eexists _, _, _, _. split; [reflexivity|]. rewrite Hl2. by split_and!. }
  assert (¬ bdev_taken nqn (tcr_BdevName req) l) as Hnt.
  { intros H. apply Ht in H. done. }
  set (mn := if decide (t_NSUUID _ = "") then _ else _).
  destruct (complete_target_run req mn tt found (t_set_SvcID id' (tcr_TargetInfo req)) svc1 w2 Hwf1)
    as (r1 & e & svc3 & w3 & -> & Hrg3 & Hwf3 & Ho & Hok & Hid).
  { rewrite Hl2. by destruct found. }
  fold nqn in Ho, Hok. rewrite Hl2 in Ho, Hid.
  assert ((∀ s, s ∈ l → sub_NQN s = nqn → sub_Namespaces s ≠ [] ∧ sub_ListenAddresses s ≠ []) →
     (∃ s, s ∈ l ∧ sub_NQN s = nqn) → subs w3 = l) as Hid'.
  { intros Hall (s & Hs & Hn). apply Hid. destruct found as [s'|]; [by apply Hall; apply Hf|].
    by apply (Hf s Hs). }
  destruct e as [e|].
  { eexists _, _, _, _. split; [reflexivity|]. split_and!; try done. by eapply same_range_trans. }
  destruct (SyncFromTruth_run svc3 w3 Hwf3) as (e & svc4 & w4 & -> & Hs4 & Hrg4 & Hwf4 & Hsync).
  eexists _, _, _, _. split; [reflexivity|]. rewrite Hs4. split_and!; try done.
  - by eapply same_range_trans, same_range_trans.
  - intros ->. destruct (Hok eq_refl) as [Hc Hfresh]. split_and!; [done|by apply Hsync|].
    intros Hc1 Habs Hid0. destruct (Hcli Hc1) as (_ & -> & _). apply Hfresh; [|done].
    destruct found as [s|]; [|done]. destruct Hf as [Hin Hn]. by destruct (Habs s Hin).
Qed.

(** Creating a target never touches a subsystem of another name. When it
    reports success the subsystem of that name exists with a block device and a
    listener, and the ids recorded as in use are those of the listeners; when
    another subsystem uses the block device it fails and changes nothing. *)
Lemma CreateTarget_spec req svc w :
  let nqn := t_NQN (tcr_TargetInfo req) in
  alloc_wf (ss_idAlloc svc) →
  ∃ t e svc' w', CreateTarget req (svc, w) = Ret (t, e) (svc', w') ∧
    others nqn (subs w') = others nqn (subs w) ∧
    (e = None → complete nqn (subs w') ∧
       sa_inUse (ss_idAlloc svc') = list_to_set (svc_ids (subs w'))) ∧
    (bdev_taken nqn (tcr_BdevName req) (subs w) → e ≠ None ∧ subs w' = subs w).
Proof.
  intros nqn Hwf.
  destruct (CreateTarget_run req svc w Hwf) as (t & e & svc' & w' & Hrun & _ & _ & Ho & Hok & Hb & _).
  exists t, e, svc', w'. split_and!; try done. intros He. by destruct (Hok He) as (? & ? & _).
Qed.

(** Creating a target that is already there changes no subsystem: the call
    can be repeated. *)
Lemma CreateTarget_idempotent req svc w :
  let nqn := t_NQN (tcr_TargetInfo req) in
  alloc_wf (ss_idAlloc svc) →
  (∃ s, s ∈ subs w ∧ sub_NQN s = nqn) →
  (∀ s, s ∈ subs w → sub_NQN s = nqn → sub_Namespaces s ≠ [] ∧ sub_ListenAddresses s ≠ []) →
  ∃ t e svc' w', CreateTarget req (svc, w) = Ret (t, e) (svc', w') ∧ subs w' = subs w.
Proof.
  intros nqn Hwf Hex Hall.
  destruct (CreateTarget_run req svc w Hwf) as (t & e & svc' & w' & Hrun & _ & _ & _ & _ & _ & Hid).
  exists t, e, svc', w'. split; [done|]. by apply Hid.
Qed.

(** A new target whose request names no service id gets one of the range
    that no listener uses, provided the allocator was in step with SPDK. *)
Lemma CreateTarget_fresh_port req svc w :
  alloc_wf (ss_idAlloc svc) → ss_cli svc = true →
  sa_inUse (ss_idAlloc svc) = list_to_set (svc_ids (subs w)) →
  (∀ s, s ∈ subs w → sub_NQN s ≠ t_NQN (tcr_TargetInfo req)) →
  t_SvcID (tcr_TargetInfo req) = "" →
  ∃ t e svc' w', CreateTarget req (svc, w) = Ret (t, e) (svc', w') ∧
    (e = None → ∃ i, t_SvcID t = Itoa i ∧
       (sa_minId (ss_idAlloc svc) ≤ i ≤ sa_maxId (ss_idAlloc svc))%Z ∧ Itoa i ∉ svc_ids (subs w)).
Proof.
  intros Hwf Hcli Hsync Habs Hid.
  destruct (CreateTarget_run req svc w Hwf) as (t & e & svc' & w' & Hrun & _ & _ & _ & Hok & _).
  exists t, e, svc', w'. split; [done|]. intros He.
  destruct (Hok He) as (_ & _ & Hf). destruct (Hf Hcli Habs Hid) as (i & Hi & Hr & Hn).
  exists i. split; [done|]. split; [done|]. rewrite <- Hi. rewrite Hsync, elem_of_list_to_set in Hn. done.
Qed.

(** What [DeleteTarget] does, the allocator included. *)
Lemma DeleteTarget_run nqn svc w :
  alloc_wf (ss_idAlloc svc) →
  ∃ e svc' w', DeleteTarget nqn (svc, w) = Ret e (svc', w') ∧ alloc_wf (ss_idAlloc svc') ∧
    match e with
    | None => subs w' = others nqn (subs w) ∧ ∀ s, s ∈ subs w' → sub_NQN s ≠ nqn
    | Some _ => subs w' = subs w
    end.
Proof.
  intros Hwf. unfold DeleteTarget. go_simpl.
  destruct (client_run svc w Hwf) as (e & svc1 & w1 & -> & Hs1 & Hrg1 & Hwf1 & _).
  destruct e as [e|]; [by eexists _, _, _|].
  destruct (law_get w1) as (r & w2 & Hr & Hs2 & Hl). rewrite (rpc_run _ _ _ _ _ Hr).
  destruct r as [l|e]; [|eexists _, _, _; split; [reflexivity|]; split; [done|congruence]].
  assert (∀ s, s ∈ others nqn l → sub_NQN s ≠ nqn) as Hother.
  { intros s Hs. unfold others in Hs. apply list_elem_of_In, List.filter_In in Hs as [_ Hs].
    by apply bool_decide_eq_true in Hs. }
  case_bool_decide as Hin.
  - destruct (law_delete nqn w2) as (d & w3 & Hd & Hs3). rewrite (rpc_run _ _ _ _ _ Hd).
    destruct (SyncFromTruth_run svc1 w3 Hwf1) as (e & svc4 & w4 & -> & Hs4 & _ & Hwf4 & _).
    eexists _, svc4, w4. split; [reflexivity|]. split; [done|]. rewrite Hs4. destruct d as [ok|e'].
    + destruct Hs3 as [_ Hs3]. rewrite Hs3. assert (subs w2 = l) as -> by congruence.
      assert (subs w = l) as -> by congruence. split; [done|exact Hother].
    + congruence.
  - eexists _, svc1, w2. split; [reflexivity|]. split; [done|].
    assert (others nqn l = l) as Hol.
    { clear -Hin. unfold others. induction l as [|s l IH]; [done|]. cbn.
      rewrite fmap_cons, not_elem_of_cons in Hin. destruct Hin.
      rewrite bool_decide_true by congruence. by rewrite IH. }
    assert (subs w2 = l) as -> by congruence. assert (subs w = l) as -> by congruence.
    rewrite Hol. split; [done|]. intros s Hs. apply Hother. by rewrite Hol.
Qed.

(** Deleting a target removes its subsystem and no other: on success no
    subsystem of that name is left, on an error none has changed, and a target
    that is not there is deleted already. *)
Lemma DeleteTarget_spec nqn svc w :
  alloc_wf (ss_idAlloc svc) →
  ∃ e svc' w', DeleteTarget nqn (svc, w) = Ret e (svc', w') ∧
    match e with
    | None => subs w' = others nqn (subs w) ∧ ∀ s, s ∈ subs w' → sub_NQN s ≠ nqn
    | Some _ => subs w' = subs w
    end.
Proof.
  intros Hwf. destruct (DeleteTarget_run nqn svc w Hwf) as (e & svc' & w' & H & _ & Hm). by exists e, svc', w'.
Qed.
End target_props.

(** ** An SPDK process in memory *)

#[export] Instance FakeSpdk : SpdkRpc (list Subsystem) := {|
  rpc_dial := mret None;
  NVMFGetTransports := mret (inl [TransportTypeTCP]);
  NVMFCreateTransport _ := mret (inl true);
  NVMFGetSubsystems := λ l, Ret (inl l) l;
  NVMFCreateSubsystem nqn _ _ _ := λ l, Ret (inl true) (l ++ [new_subsystem nqn]);
  NVMFSubsystemAddNS nqn ns := λ l, Ret (inl 1%Z) (add_to nqn (with_ns ns) l);
  NVMFSubsystemAddListener nqn la := λ l, Ret (inl true) (add_to nqn (with_listener la) l);
  NVMFSubsystemAddHost nqn h := λ l, Ret (inl true) (add_to nqn (with_host h) l);
  NVMFDeleteSubsystem nqn := λ l, Ret (inl true) (List.filter (λ s, bool_decide (sub_NQN s ≠ nqn)) l);
|}.
#[export] Instance FakeSpdkLaws : SpdkRpcLaws FakeSpdk.
Proof.
  refine {| subs := λ w : list Subsystem, w |}; intros; eexists _, _; (split; [reflexivity|]); done.
Defined.

Definition ex_service : SpdkService :=
  {| ss_AllowAnyHost := true; ss_cli := true;
     ss_idAlloc := {| sa_cursor := MinSvcID; sa_inUse := {[ "4510" ]}; sa_minId := MinSvcID;
                      sa_maxId := MaxSvcID; sa_reader := true |} |}.
Definition ex_subsystems : list Subsystem :=
  [{| sub_NQN := "nqn-0";
      sub_ListenAddresses := [{| la_TrType := "TCP"; la_AdrFam := "IPv4"; la_TrAddr := "10.0.0.1";
                                 la_TrSvcID := "4510" |}];
      sub_Namespaces := [{| ns_BdevName := "bdev-0"; ns_UUID := "u-0" |}]; sub_Hosts := [] |}].
Definition ex_request (nqn bdev : string) : TargetCreateRequest :=
  {| tcr_BdevName := bdev;
     tcr_TargetInfo := {| t_NQN := nqn; t_SerialNumber := "sn"; t_NSUUID := "u-1";
       t_TransAddr := "10.0.0.1"; t_TransType := ""; t_SvcID := ""; t_AddrFam := "IPv4" |} |}.

Example ex_create_target :
  match CreateTarget (ex_request "nqn-1" "bdev-1") (ex_service, ex_subsystems) with
  | Ret (t, None) (svc, l) => t_SvcID t = "4511" ∧ length l = 2%nat ∧ sa_inUse (ss_idAlloc svc) = {[ "4510"; "4511" ]}
  | _ => False
  end.
Proof. vm_compute. auto. Qed.

Lemma ex_service_wf : alloc_wf (ss_idAlloc ex_service).
Proof. split; cbn; unfold MinSvcID, MaxSvcID; lia. Qed.

Lemma CreateTarget_spec_witness :
  ∃ t e svc' l', CreateTarget (ex_request "nqn-1" "bdev-1") (ex_service, ex_subsystems) = Ret (t, e) (svc', l') ∧
    others "nqn-1" l' = ex_subsystems.
Proof.
  destruct (CreateTarget_spec (ex_request "nqn-1" "bdev-1") ex_service ex_subsystems ex_service_wf)
    as (t & e & svc' & l' & H1 & H2 & _).
  exists t, e, svc', l'. split; [exact H1|exact H2].
Defined.

Lemma CreateTarget_idempotent_witness :
  ∃ t e svc' l', CreateTarget (ex_request "nqn-0" "bdev-0") (ex_service, ex_subsystems) = Ret (t, e) (svc', l') ∧
    l' = ex_subsystems.
Proof.
  destruct (CreateTarget_idempotent (ex_request "nqn-0" "bdev-0") ex_service ex_subsystems ex_service_wf)
    as (t & e & svc' & l' & H1 & H2).
  - eexists. split; [by left|done].
  - intros s [->|H]%elem_of_cons; [done|by apply elem_of_nil in H].
  - exists t, e, svc', l'. split; [exact H1|exact H2].
Defined.

Lemma CreateTarget_fresh_port_witness :
  ∃ t e svc' l', CreateTarget (ex_request "nqn-1" "bdev-1") (ex_service, ex_subsystems) = Ret (t, e) (svc', l') ∧
    (e = None → ∃ i, t_SvcID t = Itoa i ∧ (MinSvcID ≤ i ≤ MaxSvcID)%Z ∧ Itoa i ∉ svc_ids ex_subsystems).
Proof.
  destruct (CreateTarget_fresh_port (ex_request "nqn-1" "bdev-1") ex_service ex_subsystems ex_service_wf)
    as (t & e & svc' & l' & H1 & H2).
  - reflexivity.
  - vm_compute. reflexivity.
  - intros s [->|H]%elem_of_cons; [done|by apply elem_of_nil in H].
  - reflexivity.
  - exists t, e, svc', l'. split; [exact H1|exact H2].
Defined.

Lemma DeleteTarget_spec_witness :
  ∃ e svc' l', DeleteTarget "nqn-0" (ex_service, ex_subsystems) = Ret e (svc', l').
Proof.
  destruct (DeleteTarget_spec "nqn-0" ex_service ex_subsystems ex_service_wf) as (e & svc' & l' & H & _).
  exists e, svc', l'. exact H.
Defined.
