(* ===== verification/SpdkBdev.v ===== *)
(** * Block devices, logical volumes and migration tasks of SPDK

    [pkg/spdk/service_aio.go], [service_lvol.go] and [service_migrate.go]: what
    the agent asks the SPDK process besides targets. [BdevRpc] is the part of the
    JSON-RPC these operations use, [BdevLaws] what it does to the block devices,
    answers that are lost included; [FakeBdevs] keeps them in memory, and
    [RpcBdev.v] shows that the client has the laws. *)

From Stdlib Require Import ZArith Lia.
From stdpp Require Import base gmap strings option list.
From S2P Require Import Prelude Strconv Misc Spdk.

(** ** The JSON-RPC *)

(** [client.Bdev], with the fields the program reads. *)
Record Bdev := {
  bdev_Name : string; bdev_Aliases : list string; bdev_UUID : string; bdev_BlockSize : Z; bdev_NumBlocks : Z }.
Record LVStoreInfo := {
  lvsi_UUID : string; lvsi_Name : string; lvsi_BaseBdev : string; lvsi_FreeClusters : Z;
  lvsi_ClusterSize : Z; lvsi_TotalDataClusters : Z; lvsi_BlockSize : Z }.
Definition LVStoreInfo_zero : LVStoreInfo :=
  {| lvsi_UUID := ""; lvsi_Name := ""; lvsi_BaseBdev := ""; lvsi_FreeClusters := 0;
     lvsi_ClusterSize := 0; lvsi_TotalDataClusters := 0; lvsi_BlockSize := 0 |}.
Record ControllerInfo := { ci_Name : string; ci_TrType : string; ci_TrAddr : string }.
Record AttachControllerRequest := {
  acr_TrType : string; acr_TrAddr : string; acr_Name : string; acr_AdrFam : string;
  acr_TrSvcId : string; acr_SubNQN : string }.
Record CreateBdevRaidRequest := {
  rr_Name : string; rr_RaidLevel : string; rr_StripSizeKB : Z; rr_BaseBdevs : list string }.
(** [client.MigrateTask]: the fields the program reads. *)
Record MigrateTask := {
  mt_SrcBdev : string; mt_DstBdev : string; mt_Status : string; mt_TotalWritePages : Z;
  mt_TotalReadPages : Z; mt_TimeElapsedMS : Z; mt_RoundPassed : Z; mt_IsLastRound : string }.
#[export] Instance MigrateTask_eq : EqDecision MigrateTask.
Proof. solve_decision. Defined.
Record MigrateStartRequest := { msr_SrcBdev : string; msr_DstBdev : string; msr_AutoSwitch : bool }.
Record MigrateConfigRequest := {
  mcr_SrcBdev : string; mcr_DstBdev : string; mcr_AutoSwitch : bool; mcr_LastRoundExtends : Z;
  mcr_LastRoundSize : Z }.

Class BdevRpc (W : Type) := {
  BdevGetBdevs : string → go W (result (list Bdev));
  BdevAioCreate : string → string → Z → go W (result string);
  BdevAioDelete : string → go W (result bool);
  BdevAioResize : string → Z → go W (result bool);
  BdevLVolGetLVStores : string → go W (result (list LVStoreInfo));
  BdevLVolCreateLVStore : string → string → Z → go W (result string);
  BdevLVolCreate : string → Z → string → go W (result string);
  BdevLVolDelete : string → go W (result bool);
  BdevLVolResize : string → Z → go W (result bool);
  BdevLVolSnapshot : string → string → go W (result string);
  BdevLVolClone : string → string → go W (result string);
  BdevLVolInflate : string → go W (result bool);
  ListControllers : go W (result (list ControllerInfo));
  AttachController : AttachControllerRequest → go W (result (list string));
  DetachController : string → go W (option error);
  ListBdevRaid : string → go W (result (list string));
  RpcCreateBdevRaid : CreateBdevRaidRequest → go W (result bool);
  BdevMigrateQuery : string → bool → go W (result (list MigrateTask));
  BdevMigrateStart : MigrateStartRequest → go W (option error);
  BdevMigrateSetConfig : MigrateConfigRequest → go W (option error);
  BdevMigrateCleanupTask : MigrateStartRequest → go W (option error);
}.

(** [os.Stat]: nothing when the file is there, otherwise the error and whether
    it says that the file does not exist. *)
Class OsFiles (W : Type) := {
  os_Stat : string → go W (option (bool * error));
  os_MkdirAll : string → go W (option error);
  os_RemoveAll : string → go W (option error);
}.

(* [util/misc/file.go:9-18] FileExists *)
Definition FileExists {W} {F : OsFiles W} (name : string) : go W (bool * option error) :=
  r ← os_Stat name;
  mret match r with
       | Some (true, e) => (false, Some e)
       | Some (false, e) => (true, Some e)
       | None => (true, None)
       end.

(** [client.ErrorCodeNoDevice] *)
Definition ErrorCodeNoDevice : Z := -19.
(* [spdk/service.go:148-155] IsNotFoundDeviceError *)
Fixpoint IsNotFoundDeviceError (err : error) : bool :=
  match err with
  | ErrRPC code _ => bool_decide (code = ErrorCodeNoDevice)
  | ErrWrap _ e => IsNotFoundDeviceError e
  | _ => false
  end.

Definition slash : Ascii.ascii := Ascii.ascii_of_nat 47.
(** [strings.SplitN(name, "/", 2)]: the parts before and after the first slash. *)
Fixpoint split_slash (s : string) : option (string * string) :=
  match s with
  | EmptyString => None
  | String c s' =>
      if decide (c = slash) then Some ("", s')
      else match split_slash s' with
           | Some (a, b) => Some (String c a, b)
           | None => None
           end
  end.
(* [spdk/service.go:157-167] parseLvolFullName *)
Definition parseLvolFullName (name : string) : string * string :=
  match split_slash name with Some (lvs, lvol) => (lvs, lvol) | None => ("", name) end.

(* [spdk/service.go:18-18] BdevRaidName *)
Definition BdevRaidName : string := "antstor_raid0".
(* [spdk/service.go:19-19] LVStoreName *)
Definition LVStoreName : string := "antstor_lvstore".
Definition TrTypePCIe : string := "PCIe".
Definition RaidBdevCategoryAll : string := "all".

(** ** Requests *)

(* [spdk/service_aio.go:11-15] AioBdevCreateRequest *)
Record AioBdevCreateRequest := { abc_BdevName : string; abc_DevPath : string; abc_BlockSize : Z }.
(* [spdk/service_aio.go:21-24] AioBdevResizeRequest *)
Record AioBdevResizeRequest := { abr_BdevName : string; abr_TargetSize : Z }.
(* [spdk/service_lvol.go:33-36] ResizeLvolReq *)
Record ResizeLvolReq := { rlr_LvolFullName : string; rlr_TargetSize : Z }.
(* [spdk/service_lvol.go:42-47] CreateBdevRaidReq *)
Record CreateBdevRaidReq := {
  cbr_RaidName : string; cbr_BdevNames : list string; cbr_RaidLevel : string; cbr_StripSizeKB : Z }.
(* [spdk/service_lvol.go:49-52] CreateLVStoreReq *)
Record CreateLVStoreReq := { clr_BdevName : string; clr_LVStoreName : string }.
(* [spdk/service_lvol.go:54-58] CreateLvolReq *)
Record CreateLvolReq := { cl_LVStore : string; cl_LvolName : string; cl_SizeByte : Z }.
(* [spdk/service_lvol.go:60-64] CreateLvolSnapReq *)
Record CreateLvolSnapReq := { cls_LvolFullName : string; cls_SnapName : string }.
(* [spdk/service_lvol.go:66-70] CreateLvolCloneReq *)
Record CreateLvolCloneReq := { clc_LVStore : string; clc_SnapName : string; clc_CloneName : string }.
(* [spdk/service_lvol.go:77-79] CreateLvolReq.BdevName *)
Definition CreateLvolReq_BdevName (req : CreateLvolReq) : string :=
  cl_LVStore req +:+ "/" +:+ cl_LvolName req.
(* [spdk/service_lvol.go:86-88] DeleteLvolReq.BdevName *)
Definition DeleteLvolReq_BdevName (lvs lvol : string) : string := lvs +:+ "/" +:+ lvol.
(* [spdk/service_migrate.go:23-32] SpdkTargetInfo *)
Record SpdkTargetInfo := {
  sti_NQN : string; sti_AddrFam : string; sti_IPAddr : string; sti_TransType : string; sti_SvcID : string }.
(* [spdk/service_migrate.go:34-37] AttachDestBdevRequest *)
Record AttachDestBdevRequest := { adb_ControllerName : string; adb_Target : SpdkTargetInfo }.

Section services.
Context {W : Type} {RPC : SpdkRpc W} {BR : BdevRpc W} {OS : OsFiles W}.
Abbreviation SM := (@SpdkM W).

(** [ss.cli, err = ss.client(); if err != nil { return }]. *)
Definition with_client {A} (fail : error → A) (body : SM A) : SM A :=
  e ← client; match e with Some e => mret (fail e) | None => body end.

(** [list, err = BdevGetBdevs(name)], where a device that is not there is not an
    error and [err] stays set. *)
Definition find_bdevs (name : string) : SM (list Bdev * option error * bool) :=
  r ← rpc (BdevGetBdevs name);
  mret match r with
       | inl l => (l, None, false)
       | inr e => ([], Some e, negb (IsNotFoundDeviceError e))
       end.

(** *** Files as block devices *)

(* [spdk/service_aio.go:32-82] SpdkService.CreateAioBdev *)
Definition CreateAioBdev (req : AioBdevCreateRequest) : SM (option error) :=
  with_client Some (
    '(hasDev, err) ← rpc (FileExists (abc_DevPath req));
    if opt_is_some err || negb hasDev then
      mret (Some (ErrNew ("devPath " +:+ abc_DevPath req +:+ " not exists")))
    else
      '(l, err, fatal) ← find_bdevs (abc_BdevName req);
      if (fatal : bool) then mret err
      else if existsb (λ item, bool_decide (bdev_Name item = abc_BdevName req)) l then mret err
      else
        r ← rpc (BdevAioCreate (abc_BdevName req) (abc_DevPath req) (abc_BlockSize req));
        mret match r with inl _ => None | inr e => Some e end).

(* [spdk/service_aio.go:84-125] SpdkService.DeleteAioBdev *)
Definition DeleteAioBdev (bdevName : string) : SM (option error) :=
  with_client Some (
    '(l, err, fatal) ← find_bdevs bdevName;
    if (fatal : bool) then mret err
    else match l with
         | [] => mret None
         | _ =>
             if existsb (λ item, bool_decide (bdev_Name item = bdevName)) l then
               r ← rpc (BdevAioDelete bdevName);
               mret match r with
                    | inl true => err
                    | _ => Some (ErrNew ("delete AioBdev " +:+ bdevName +:+ " failed"))
                    end
             else mret err
         end).

(* [spdk/service_aio.go:127-153] SpdkService.ResizeAioBdev *)
Definition ResizeAioBdev (req : AioBdevResizeRequest) : SM (option error) :=
  with_client Some (
    r ← rpc (BdevGetBdevs (abr_BdevName req));
    match r with
    | inr e => mret (Some e)
    | inl _ =>
        r ← rpc (BdevAioResize (abr_BdevName req) (abr_TargetSize req));
        mret match r with
             | inl true => None
             | _ => Some (ErrNew ("resize AioBdev " +:+ abr_BdevName req +:+ " failed"))
             end
    end).

(** *** Logical volumes *)

(** The answer of a call that gives an identifier. *)
Definition uuid_of (r : result string) : string * option error :=
  match r with inl u => (u, None) | inr e => ("", Some e) end.

(* [spdk/service_lvol.go:137-166] SpdkService.CreateLvol *)
Definition CreateLvol (req : CreateLvolReq) : SM (string * option error) :=
  with_client (λ e, ("", Some e)) (
    '(l, err, fatal) ← find_bdevs (CreateLvolReq_BdevName req);
    if (fatal : bool) then mret ("", err)
    else match l with
         | [] => r ← rpc (BdevLVolCreate (cl_LvolName req) (cl_SizeByte req) (cl_LVStore req));
                 mret (uuid_of r)
         | _ => mret ("", err)
         end).

(* [spdk/service_lvol.go:168-198] SpdkService.DeleteLvol *)
Definition DeleteLvol (lvs lvol : string) : SM (option error) :=
  with_client Some (
    '(l, err, fatal) ← find_bdevs (DeleteLvolReq_BdevName lvs lvol);
    if (fatal : bool) then mret err
    else match l with
         | [] => mret None
         | _ => r ← rpc (BdevLVolDelete (DeleteLvolReq_BdevName lvs lvol));
                mret match r with inl _ => None | inr e => Some e end
         end).

(* [spdk/service_lvol.go:200-230] SpdkService.ResizeLvol *)
Definition ResizeLvol (req : ResizeLvolReq) : SM (option error) :=
  with_client Some (
    '(l, err, fatal) ← find_bdevs (rlr_LvolFullName req);
    if (fatal : bool) then mret err
    else match l with
         | [_] => r ← rpc (BdevLVolResize (rlr_LvolFullName req) (rlr_TargetSize req));
                  mret match r with inl _ => None | inr e => Some e end
         | _ => mret err
         end).

(* [spdk/service_lvol.go:232-249] SpdkService.GetLVStore *)
Definition GetLVStore (name : string) : SM (LVStoreInfo * option error) :=
  with_client (λ e, (LVStoreInfo_zero, Some e)) (
    r ← rpc (BdevLVolGetLVStores name);
    match r with
    | inr e => mret (LVStoreInfo_zero, Some e)
    | inl (lvs :: _) => mret (lvs, None)
    | inl [] => panic "index out of range [0] with length 0"
    end).

(** The end of [CreateLvolSnapshot] and [CreateLvolClone]: the origin has to be
    there. *)
Definition from_origin (origin what : string) (op : go W (result string)) : SM (string * option error) :=
  r ← rpc (BdevGetBdevs origin);
  match r with
  | inr e => mret ("", Some e)
  | inl [_] => r ← rpc op; mret (uuid_of r)
  | inl l => mret ("", Some (ErrNew ("the count of " +:+ what +:+ " volume is invalid, " +:+
                                     Itoa (Z.of_nat (length l)))))
  end.

(* [spdk/service_lvol.go:251-296] SpdkService.CreateLvolSnapshot *)
Definition CreateLvolSnapshot (req : CreateLvolSnapReq) : SM (string * option error) :=
  with_client (λ e, ("", Some e)) (
    let '(lvs, _) := parseLvolFullName (cls_LvolFullName req) in
    '(l, err, fatal) ← find_bdevs (lvs +:+ "/" +:+ cls_SnapName req);
    if (fatal : bool) then mret ("", err)
    else match l with
         | [_] => mret ("", err)
         | _ => from_origin (cls_LvolFullName req) "origin"
                  (BdevLVolSnapshot (cls_LvolFullName req) (cls_SnapName req))
         end).

(* [spdk/service_lvol.go:298-341] SpdkService.CreateLvolClone *)
Definition CreateLvolClone (req : CreateLvolCloneReq) : SM (string * option error) :=
  with_client (λ e, ("", Some e)) (
    '(l, err, fatal) ← find_bdevs (clc_LVStore req +:+ "/" +:+ clc_CloneName req);
    if (fatal : bool) then mret ("", err)
    else match l with
         | [_] => mret ("", err)
         | _ => let snap := clc_LVStore req +:+ "/" +:+ clc_SnapName req in
                from_origin snap "snapshot" (BdevLVolClone snap (clc_CloneName req))
         end).

(* [spdk/service_lvol.go:343-361] SpdkService.InflateLvol *)
Definition InflateLvol (lvs lvol : string) : SM (option error) :=
  with_client Some (
    r ← rpc (BdevLVolInflate (lvs +:+ "/" +:+ lvol));
    mret match r with inl _ => None | inr e => Some e end).

(** [svc.cli] is used without a call of [client]: a nil client panics. *)
Definition need_cli {A} (body : SM A) : SM A :=
  svc ← the_svc; if ss_cli svc then body else panic "nil pointer dereference: cli".

(* [spdk/service.go:116-122] SpdkService.BdevGetBdevs *)
Definition svc_BdevGetBdevs (name : string) : SM (result (list Bdev)) :=
  need_cli (rpc (BdevGetBdevs name)).

(** The names of the controllers to attach, and of their block devices. *)
Definition nvme_name (idx : nat) : string := "Antstor_NVME" +:+ Itoa (Z.of_nat idx).

(** Attaching stops at the first error. *)
Fixpoint attach_loop (pairs : list (string * string)) : SM (option error) :=
  match pairs with
  | [] => mret None
  | (name, id) :: rest =>
      r ← rpc (AttachController {| acr_TrType := TrTypePCIe; acr_TrAddr := id; acr_Name := name;
                                   acr_AdrFam := ""; acr_TrSvcId := ""; acr_SubNQN := "" |});
      match r with inr e => mret (Some e) | inl _ => attach_loop rest end
  end.

(* [spdk/service_lvol.go:363-424] SpdkService.AttachNVMe *)
Definition AttachNVMe (nvmeIDs : list string) : SM (list string * option error) :=
  with_client (λ e, ([], Some e)) (
    let names := nvme_name <$> seq 0 (length nvmeIDs) in
    let bdevNames := (λ n, n +:+ "n1") <$> names in
    r ← rpc ListControllers;
    match r with
    | inr e => mret (bdevNames, Some e)
    | inl list =>
        let ours := List.filter (λ item, HasPrefix (ci_Name item) "Antstor_" &&
                                         bool_decide (ci_TrType item = TrTypePCIe)) list in
        let toCreateNames := MapSet.Difference (foldl MapSet.Add MapSet.NewEmptySet names)
                               (foldl MapSet.Add MapSet.NewEmptySet (ci_Name <$> ours)) in
        let toAttachIDs := MapSet.Difference (MapSet.FromSlice nvmeIDs)
                             (foldl MapSet.Add MapSet.NewEmptySet (ci_TrAddr <$> ours)) in
        if decide (MapSet.Size toCreateNames ≠ MapSet.Size toAttachIDs) then
          mret (bdevNames, Some (ErrNew "size of toCreateNames not equals to toAttachIDs"))
        else
          e ← attach_loop (zip (MapSet.Values toCreateNames) (MapSet.Values toAttachIDs));
          mret (bdevNames, e)
    end).

(* [spdk/service_lvol.go:426-454] SpdkService.CreateBdevRaid *)
Definition CreateBdevRaid (req : CreateBdevRaidReq) : SM (option error) :=
  need_cli (
    r ← rpc (ListBdevRaid RaidBdevCategoryAll);
    match r with
    | inr e => mret (Some e)
    | inl names =>
        if InSliceString (cbr_RaidName req) names then mret None
        else
          r ← rpc (RpcCreateBdevRaid {| rr_Name := cbr_RaidName req; rr_RaidLevel := cbr_RaidLevel req;
                     rr_StripSizeKB := cbr_StripSizeKB req; rr_BaseBdevs := cbr_BdevNames req |});
          mret match r with inl true => None | _ => Some (ErrNew "CreateBdevRaid failed") end
    end).

(* [spdk/service_lvol.go:456-499] SpdkService.CreateLVStore *)
Definition CreateLVStore (req : CreateLVStoreReq) : SM (LVStoreInfo * option error) :=
  need_cli (
    r ← rpc (BdevLVolGetLVStores (clr_LVStoreName req));
    let '(list, err) := match r with inl l => (l, None) | inr e => ([], Some e) end in
    if match err with Some e => negb (IsNotFoundDeviceError e) | None => false end
    then mret (LVStoreInfo_zero, err)
    else match list with
         | lvs :: _ => mret (lvs, err)
         | [] =>
             r ← rpc (BdevLVolCreateLVStore (clr_BdevName req) (clr_LVStoreName req) (2 * MiB));
             match r with
             | inr e => mret (LVStoreInfo_zero, Some e)
             | inl _ =>
                 r ← rpc (BdevLVolGetLVStores (clr_LVStoreName req));
                 match r with
                 | inl (lvs :: _) => mret (lvs, None)
                 | inr e => mret (LVStoreInfo_zero, Some (ErrNew (error_msg e +:+ " or not found any lvs")))
                 | inl [] => panic "nil pointer dereference: err.Error()"
                 end
             end
         end).

(* [spdk/service_lvol.go:90-135] SpdkService.CreateLVStoreFromNVMeIDs *)
Definition CreateLVStoreFromNVMeIDs (nvmeIDs : list string) : SM (LVStoreInfo * option error) :=
  match nvmeIDs with
  | [] => mret (LVStoreInfo_zero, Some (ErrNew "cannot create lvs with empty NVMe list"))
  | _ =>
      with_client (λ e, (LVStoreInfo_zero, Some e)) (
        '(bdevNames, err) ← AttachNVMe nvmeIDs;
        match err with
        | Some e => mret (LVStoreInfo_zero, Some e)
        | None =>
            '(base, err) ← (if decide (1 < length bdevNames)%nat then
                e ← CreateBdevRaid {| cbr_RaidName := BdevRaidName; cbr_BdevNames := bdevNames;
                                      cbr_RaidLevel := "0"; cbr_StripSizeKB := 128 |};
                mret (BdevRaidName, e)
              else match bdevNames with
                   | b :: _ => mret (b, None)
                   | [] => panic "index out of range [0] with length 0"
                   end);
            match err with
            | Some e => mret (LVStoreInfo_zero, Some e)
            | None => CreateLVStore {| clr_BdevName := base; clr_LVStoreName := LVStoreName |}
            end
        end)
  end.

(** *** Migration *)

(* [spdk/service_migrate.go:41-87] SpdkService.EnsureMigrationDestBdev *)
Definition EnsureMigrationDestBdev (req : AttachDestBdevRequest) : SM (option error) :=
  with_client Some (
    '(bdevs, err, fatal) ← find_bdevs (adb_ControllerName req +:+ "n1");
    if (fatal : bool) then mret err
    else match bdevs with
         | _ :: _ => mret err
         | [] =>
             let t := adb_Target req in
             r ← rpc (AttachController {| acr_TrType := sti_TransType t; acr_TrAddr := sti_IPAddr t;
                   acr_Name := adb_ControllerName req; acr_AdrFam := sti_AddrFam t;
                   acr_TrSvcId := sti_SvcID t; acr_SubNQN := sti_NQN t |});
             mret match r with inl _ => None | inr e => Some e end
         end).

(* [spdk/service_migrate.go:89-127] SpdkService.DetachMigrationDestBdev *)
Definition DetachMigrationDestBdev (controllerName : string) : SM (option error) :=
  with_client Some (
    '(bdevs, err, fatal) ← find_bdevs (controllerName +:+ "n1");
    if (fatal : bool) then mret err
    else match bdevs with
         | [] => mret None
         | _ => rpc (DetachController controllerName)
         end).

(* [spdk/service_migrate.go:129-152] SpdkService.GetMigrationTask *)
Definition GetMigrationTask (srcBdev : string) (history : bool) : SM (result (list MigrateTask)) :=
  with_client inr (
    r ← rpc (BdevMigrateQuery srcBdev history);
    mret match r with
         | inr e => inr e
         | inl list => inl (List.filter (λ item, bool_decide (mt_SrcBdev item = srcBdev)) list)
         end).

(* [spdk/service_migrate.go:154-163] SpdkService.StartMigrationTask *)
Definition StartMigrationTask (req : MigrateStartRequest) : SM (option error) :=
  with_client Some (rpc (BdevMigrateStart req)).

(** The loop that looks for the task: each turn overwrites the answer. *)
Definition task_found (req : MigrateStartRequest) (list : list MigrateTask) : bool :=
  foldl (λ _ item, bool_decide (mt_SrcBdev item = msr_SrcBdev req) &&
                   bool_decide (mt_DstBdev item = msr_DstBdev req)) false list.

(* [spdk/service_migrate.go:165-190] SpdkService.CleanMigrationTask *)
Definition CleanMigrationTask (req : MigrateStartRequest) : SM (option error) :=
  with_client Some (
    r ← rpc (BdevMigrateQuery (msr_SrcBdev req) false);
    let '(list, err) := match r with inl l => (l, None) | inr e => ([], Some e) end in
    if task_found req list then rpc (BdevMigrateCleanupTask req) else mret err).

(* [spdk/service_migrate.go:192-201] SpdkService.SetMigrationConfig *)
Definition SetMigrationConfig (req : MigrateConfigRequest) : SM (option error) :=
  with_client Some (rpc (BdevMigrateSetConfig req)).
End services.

(** ** The documented behaviour *)

(** A call that leaves a view of the world alone. *)
Definition stays {W V A} (view : W → V) (op : go W A) : Prop :=
  ∀ w r w', op w = Ret r w' → view w' = view w.
(** A call that returns. *)
Definition returns {W A} (op : go W A) : Prop := ∀ w, ∃ r w', op w = Ret r w'.

(** The call reports an error. *)
Definition call_failed {A} (r : result A) : Prop := match r with inl _ => False | inr _ => True end.

(** [bdevs w] has the block devices by the names the program gives them, of
    logical volumes the alias [store/volume]. Calls return; those on block
    devices leave the subsystems alone and the other way round. A call that
    succeeds has done its work. One that fails has done all of it or nothing: its
    answer may be lost. The client takes a lost answer to [DetachController] for a
    success ([lost_answer_is_success] in [RpcClient.v]): [bl_unanswered name w]
    says that in [w] the connection breaks between that request and its answer. *)
Class BdevLaws {W} (RPC : SpdkRpc W) (BR : BdevRpc W) (OS : OsFiles W) {HR : SpdkRpcLaws RPC} := {
  bdevs : W → gmap string Bdev;
  bl_unanswered : string → W → Prop;
  bl_get name : returns (BdevGetBdevs name) ∧ stays subs (BdevGetBdevs name) ∧ stays bdevs (BdevGetBdevs name);
  bl_found name w r w' : BdevGetBdevs name w = Ret r w' → name ≠ "" →
    match r with
    | inl l => ∃ b, bdevs w !! name = Some b ∧ l = [b]
    | inr e => IsNotFoundDeviceError e = true → bdevs w !! name = None
    end;
  bl_aio_create name file bs w : ∃ r w', BdevAioCreate name file bs w = Ret r w' ∧ subs w' = subs w ∧
    (bdevs w !! name = None ∧ (∃ b, bdev_Name b = name ∧ bdevs w' = <[name := b]> (bdevs w)) ∨
     call_failed r ∧ bdevs w' = bdevs w);
  bl_aio_delete name w : ∃ r w', BdevAioDelete name w = Ret r w' ∧ subs w' = subs w ∧
    (bdevs w' = delete name (bdevs w) ∨ r ≠ inl true ∧ bdevs w' = bdevs w);
  bl_lvol_create lvol size lvs w : ∃ r w', BdevLVolCreate lvol size lvs w = Ret r w' ∧ subs w' = subs w ∧
    ((∃ b, (size <= bdev_BlockSize b * bdev_NumBlocks b)%Z ∧ bdevs w' = <[lvs +:+ "/" +:+ lvol := b]> (bdevs w)) ∨
     call_failed r ∧ bdevs w' = bdevs w);
  bl_lvol_delete name w : ∃ r w', BdevLVolDelete name w = Ret r w' ∧ subs w' = subs w ∧
    (bdevs w' = delete name (bdevs w) ∨ call_failed r ∧ bdevs w' = bdevs w);
  bl_snapshot lvol snap w : ∃ r w', BdevLVolSnapshot lvol snap w = Ret r w' ∧ subs w' = subs w ∧
    ((∃ b, bdevs w' = <[(parseLvolFullName lvol).1 +:+ "/" +:+ snap := b]> (bdevs w)) ∨
     call_failed r ∧ bdevs w' = bdevs w);
  bl_clone snap clone w : ∃ r w', BdevLVolClone snap clone w = Ret r w' ∧ subs w' = subs w ∧
    ((∃ b, bdevs w' = <[(parseLvolFullName snap).1 +:+ "/" +:+ clone := b]> (bdevs w)) ∨
     call_failed r ∧ bdevs w' = bdevs w);
  bl_attach req w : ∃ r w', AttachController req w = Ret r w' ∧ subs w' = subs w ∧
    ((∃ b, bdevs w' = <[acr_Name req +:+ "n1" := b]> (bdevs w)) ∨ call_failed r ∧ bdevs w' = bdevs w);
  bl_detach name w : ∃ r w', DetachController name w = Ret r w' ∧ subs w' = subs w ∧
    (bdevs w' = delete (name +:+ "n1") (bdevs w) ∨
     bdevs w' = bdevs w ∧ (r = None → bl_unanswered name w));
  bl_inflate name : returns (BdevLVolInflate name) ∧ stays subs (BdevLVolInflate name) ∧
    stays bdevs (BdevLVolInflate name);
  bl_stat name : returns (os_Stat name) ∧ stays subs (os_Stat name) ∧ stays bdevs (os_Stat name);
  bl_mkdir name : returns (os_MkdirAll name) ∧ stays subs (os_MkdirAll name) ∧ stays bdevs (os_MkdirAll name);
  bl_remove_all name : returns (os_RemoveAll name) ∧ stays subs (os_RemoveAll name) ∧
    stays bdevs (os_RemoveAll name);
  bl_query src h : returns (BdevMigrateQuery src h) ∧ stays subs (BdevMigrateQuery src h) ∧
    stays bdevs (BdevMigrateQuery src h);
  bl_start req : returns (BdevMigrateStart req) ∧ stays subs (BdevMigrateStart req) ∧
    stays bdevs (BdevMigrateStart req);
  bl_config req : returns (BdevMigrateSetConfig req) ∧ stays subs (BdevMigrateSetConfig req) ∧
    stays bdevs (BdevMigrateSetConfig req);
  bl_cleanup req : returns (BdevMigrateCleanupTask req) ∧ stays subs (BdevMigrateCleanupTask req) ∧
    stays bdevs (BdevMigrateCleanupTask req);
  bl_dial : stays bdevs rpc_dial;
  bl_transports : stays bdevs NVMFGetTransports;
  bl_create_transport t : stays bdevs (NVMFCreateTransport t);
  bl_subsystems : stays bdevs NVMFGetSubsystems;
  bl_create nqn h sn mn : stays bdevs (NVMFCreateSubsystem nqn h sn mn);
  bl_add_ns nqn ns : stays bdevs (NVMFSubsystemAddNS nqn ns);
  bl_add_listener nqn la : stays bdevs (NVMFSubsystemAddListener nqn la);
  bl_add_host nqn h : stays bdevs (NVMFSubsystemAddHost nqn h);
  bl_delete nqn : stays bdevs (NVMFDeleteSubsystem nqn);
}.

(** ** The operations on block devices *)

Section bdev_spec.
Context {W : Type} {RPC : SpdkRpc W} {BR : BdevRpc W} {OS : OsFiles W}.
Context {HR : SpdkRpcLaws RPC} {HB : BdevLaws RPC BR OS}.
Implicit Types (svc : SpdkService) (w : W).
Abbreviation SM' := (@SpdkM W).

(** Computations that leave the block devices alone, whatever they return. *)
Definition bdev_quiet {A} (m : SM' A) : Prop :=
  ∀ st a st', m st = Ret a st' → bdevs st'.2 = bdevs st.2.

Lemma bdev_quiet_ret {A} (a : A) : bdev_quiet (mret a).
Proof. by intros st a' st' [= _ <-]. Qed.
Lemma bdev_quiet_bind {A B} (m : SM' A) (f : A → SM' B) :
  bdev_quiet m → (∀ a, bdev_quiet (f a)) → bdev_quiet (m ≫= f).
Proof.
  intros Hm Hf st b st' (a & s1 & H1 & H2)%go_bind_inv.
  by rewrite (Hf _ _ _ _ H2), (Hm _ _ _ H1).
Qed.
Lemma bdev_quiet_rpc {A} (op : go W A) : stays bdevs op → bdev_quiet (rpc op).
Proof.
  intros H [svc w] a st'. unfold rpc, on_snd. cbn [fst snd].
  destruct (op w) as [r w'|] eqn:E; [|done]. intros [= _ <-]. by eapply H.
Qed.
Lemma bdev_quiet_svc {A} (m : go SpdkService A) : bdev_quiet (on_fst m).
Proof.
  intros [svc w] a st'. unfold on_fst. cbn [fst snd]. destruct (m svc); [|done]. by intros [= _ <-].
Qed.
Lemma bdev_quiet_panic {A} why : bdev_quiet (panic (A := A) why).
Proof. done. Qed.

Create HintDb quiet.
#[local] Hint Resolve bdev_quiet_ret bdev_quiet_svc bdev_quiet_panic bl_dial bl_transports bl_create_transport
  bl_subsystems bl_create bl_add_ns bl_add_listener bl_add_host bl_delete : quiet.
Ltac quiet :=
  cbv zeta;
  repeat first
    [ progress intros
    | solve [eauto with quiet]
    | match goal with
      | |- bdev_quiet (_ ≫= _) => apply bdev_quiet_bind
      | |- bdev_quiet (rpc _) => apply bdev_quiet_rpc
      | |- bdev_quiet (match ?x with _ => _ end) => destruct x
      end ].

Lemma SyncFromTruth_quiet : bdev_quiet SyncFromTruth.
Proof. unfold SyncFromTruth, the_svc, with_svc. quiet. Qed.
#[local] Hint Resolve SyncFromTruth_quiet : quiet.
Lemma InitTransport_quiet : bdev_quiet InitTransport.
Proof. unfold InitTransport. quiet. Qed.
#[local] Hint Resolve InitTransport_quiet : quiet.
Lemma client_quiet : bdev_quiet client.
Proof. unfold client, Reconnect, the_svc, with_svc. quiet. Qed.
#[local] Hint Resolve client_quiet : quiet.
Lemma CreateTarget_quiet req : bdev_quiet (CreateTarget req).
Proof.
  unfold CreateTarget, complete_target, add_listener, add_ns, listener_id, alloc_id, the_svc, with_svc. quiet.
Qed.
Lemma DeleteTarget_quiet nqn : bdev_quiet (DeleteTarget nqn).
Proof. unfold DeleteTarget. quiet. Qed.
Lemma SubsysAddHost_quiet nqn h : bdev_quiet (SubsysAddHost nqn h).
Proof. unfold SubsysAddHost. quiet. Qed.
Lemma GetSubsystemByNQN_quiet nqn : bdev_quiet (GetSubsystemByNQN nqn).
Proof. unfold GetSubsystemByNQN. quiet. Qed.

(** *** What a request for a device does *)

Definition listed w (name : string) : bool := bool_decide (is_Some (bdevs w !! name)).
(** From [w] to [w']: the targets and the other devices are left alone; without
    an error the device is there, or gone, as asked, unless [w'] is a state in
    which that cannot be known; and nothing happens when it already was. *)
Record moves_or (unknown : W → Prop) (name : string) (present : bool) (err : option error) w w' : Prop := {
  mv_subs : subs w' = subs w;
  mv_others n : n ≠ name → bdevs w' !! n = bdevs w !! n;
  mv_done : err = None → listed w' name = present ∨ unknown w';
  mv_idle : listed w name = present → bdevs w' = bdevs w;
}.
Definition moves := moves_or (λ _, False).
(** From devices [P] holds of, the operation returns and does that. *)
Definition ensures_or (unknown : W → Prop) {A} (P : gmap string Bdev → Prop) (err : A → option error) (op : SM' A)
    (name : string) (present : bool) : Prop :=
  ∀ svc w, alloc_wf (ss_idAlloc svc) → P (bdevs w) →
    ∃ r svc' w', op (svc, w) = Ret r (svc', w') ∧ alloc_wf (ss_idAlloc svc') ∧
      moves_or unknown name present (err r) w w'.
Definition ensures_from {A} := ensures_or (λ _, False) (A := A).
Definition ensures {A} := ensures_from (λ _, True) (A := A).

Lemma listed_some w name b : bdevs w !! name = Some b → listed w name = true.
Proof. intros H. apply bool_decide_eq_true. eauto. Qed.
Lemma listed_none w name : bdevs w !! name = None → listed w name = false.
Proof. intros H. apply bool_decide_eq_false. rewrite H. by intros []. Qed.
Lemma listed_proper w w' name : bdevs w' = bdevs w → listed w' name = listed w name.
Proof. unfold listed. by intros ->. Qed.

Lemma moves_same unknown name present err w w' :
  subs w' = subs w → bdevs w' = bdevs w → (err = None → listed w name = present ∨ unknown w') →
  moves_or unknown name present err w w'.
Proof.
  intros H1 H2 H3. split; [done|intros; by rewrite H2|intros; rewrite (listed_proper _ _ _ H2); auto|done].
Qed.
Lemma moves_insert unknown name b err w w' :
  subs w' = subs w → bdevs w' = <[name := b]> (bdevs w) → listed w name = false →
  moves_or unknown name true err w w'.
Proof.
  intros H1 H2 H3. split; [done| | |congruence].
  - intros n Hn. rewrite H2. by apply lookup_insert_ne.
  - intros _. left. eapply listed_some. rewrite H2. apply lookup_insert_eq.
Qed.
Lemma moves_delete unknown name err w w' :
  subs w' = subs w → bdevs w' = delete name (bdevs w) → listed w name = true →
  moves_or unknown name false err w w'.
Proof.
  intros H1 H2 H3. split; [done| | |congruence].
  - intros n Hn. rewrite H2. by apply lookup_delete_ne.
  - intros _. left. apply listed_none. rewrite H2. apply lookup_delete_eq.
Qed.
(** Where the outcome is known. *)
Lemma moves_done name present err w w' : moves name present err w w' → err = None → listed w' name = present.
Proof. intros Hm He. by destruct (mv_done _ _ _ _ _ _ Hm He). Qed.
(** Steps before that leave both views alone do not matter. *)
Lemma moves_after unknown name present err w0 w w' :
  subs w = subs w0 → bdevs w = bdevs w0 → moves_or unknown name present err w w' →
  moves_or unknown name present err w0 w'.
Proof.
  intros H1 H2 []. split.
  - by rewrite mv_subs0.
  - intros n Hn. rewrite <- H2. auto.
  - done.
  - rewrite <- (listed_proper _ _ _ H2), <- H2. auto.
Qed.
(** A call that failed and did nothing. *)
Lemma moves_failed {A} (r : result A) unknown name present err w w' :
  call_failed r → (call_failed r → err ≠ None) → subs w' = subs w → bdevs w' = bdevs w →
  moves_or unknown name present err w w'.
Proof. intros Hr He H1 H2. apply moves_same; [done|done|]. intros ->. by destruct (He Hr). Qed.

Lemma with_client_ensures {A} unknown P (err : A → option error) (fail : error → A) (body : SM' A) name present :
  (∀ e, err (fail e) = Some e) → ensures_or unknown P err body name present →
  ensures_or unknown P err (with_client fail body) name present.
Proof.
  intros Hf Hb svc w Hwf HP.
  destruct (client_run svc w Hwf) as (e & svc1 & w1 & Hc & Hs & _ & Hw & _).
  pose proof (client_quiet _ _ _ Hc) as Hq. cbn in Hq.
  unfold with_client. rewrite (go_bind_Ret _ _ _ _ _ Hc).
  destruct e as [e|].
  - exists (fail e), svc1, w1. split; [done|]. split; [done|]. rewrite Hf. by apply moves_same.
  - destruct (Hb svc1 w1) as (r & svc2 & w2 & Hr & Hw2 & Hm); [done|by rewrite Hq|].
    exists r, svc2, w2. split; [exact Hr|]. split; [done|]. by eapply moves_after.
Qed.

(** The answer of [find_bdevs]. *)
Lemma find_run name svc w : name ≠ "" →
  ∃ l err fatal w', find_bdevs name (svc, w) = Ret (l, err, fatal) (svc, w') ∧
    subs w' = subs w ∧ bdevs w' = bdevs w ∧
    ((fatal = true ∧ err ≠ None ∧ l = []) ∨
     (fatal = false ∧ listed w name = true ∧ err = None ∧ ∃ b, bdevs w !! name = Some b ∧ l = [b]) ∨
     (fatal = false ∧ listed w name = false ∧ bdevs w !! name = None ∧ l = [])).
Proof.
  intros Hn. destruct (bl_get name) as (Hr & Hs & Hb). destruct (Hr w) as (r & w' & E).
  unfold find_bdevs. rewrite (go_bind_Ret _ _ _ _ _ (rpc_run _ svc _ _ _ E)).
  pose proof (bl_found _ _ _ _ E Hn) as Hf.
  pose proof (Hs _ _ _ E). pose proof (Hb _ _ _ E).
  destruct r as [l|e]; do 4 eexists; (split; [reflexivity|]); (split; [done|]); (split; [done|]).
  - destruct Hf as (b & Hl & ->). right. left. split_and!; [done|by eapply listed_some|done|by exists b].
  - destruct (IsNotFoundDeviceError e) eqn:En.
    + right. right. split_and!; [done|by apply listed_none; auto|by auto|done].
    + by left.
Qed.

(** Looking first: the three cases of the answer. *)
Lemma find_ensures {A} (unknown : W → Prop) (P : gmap string Bdev → Prop) (err : A → option error) name present (k : list Bdev * option error * bool → SM' A) :
  name ≠ "" →
  (∀ e svc w, e ≠ None → ∃ r, k ([], e, true) (svc, w) = Ret r (svc, w) ∧ err r ≠ None) →
  (∀ b svc w, P (bdevs w) → bdevs w !! name = Some b →
     ∃ r w', k ([b], None, false) (svc, w) = Ret r (svc, w') ∧ moves_or unknown name present (err r) w w') →
  (∀ e svc w, bdevs w !! name = None →
     ∃ r w', k ([], e, false) (svc, w) = Ret r (svc, w') ∧ moves_or unknown name present (err r) w w') →
  ensures_or unknown P err (find_bdevs name ≫= k) name present.
Proof.
  intros Hn Hfatal Hfound Hnone svc w Hwf HP.
  destruct (find_run name svc w Hn) as (l & e & fatal & w1 & E & Hs & Hb & H).
  rewrite (go_bind_Ret _ _ _ _ _ E).
  destruct H as [(-> & He & ->)|[(-> & _ & -> & b & Hl & ->)|(-> & _ & Hl & ->)]].
  - destruct (Hfatal e svc w1 He) as (r & Hr & Hne). exists r, svc, w1. split; [exact Hr|].
    split; [done|]. by apply moves_same.
  - destruct (Hfound b svc w1) as (r & w2 & Hr & Hm); [by rewrite Hb..|].
    exists r, svc, w2. split; [exact Hr|]. split; [done|]. by eapply moves_after.
  - destruct (Hnone e svc w1) as (r & w2 & Hr & Hm); [by rewrite Hb|].
    exists r, svc, w2. split; [exact Hr|]. split; [done|]. by eapply moves_after.
Qed.

Lemma slashed_ne a b : a +:+ "/" +:+ b ≠ "".
Proof. by destruct a. Qed.
Lemma n1_ne a : a +:+ "n1" ≠ "".
Proof. by destruct a. Qed.

(** The case of an error that stops the operation at once. *)
Ltac fatal := intros e0 svc0 w0 Hne; eexists; split; [reflexivity|exact Hne].
Ltac idle Hl :=
  do 2 eexists; split; [reflexivity|]; apply moves_same; [done|done|];
  intros _; left; first [exact (listed_some _ _ _ Hl) | exact (listed_none _ _ Hl)].
Ltac after_rpc E := rewrite (go_bind_Ret _ _ _ _ _ (rpc_run _ _ _ _ _ E)).

Lemma CreateLvol_ensures req : ensures snd (CreateLvol req) (CreateLvolReq_BdevName req) true.
Proof.
  apply with_client_ensures; [done|]. apply find_ensures; [apply slashed_ne|fatal| |].
  - intros b svc w _ Hl. idle Hl.
  - intros e svc w Hl. cbn.
    destruct (bl_lvol_create (cl_LvolName req) (cl_SizeByte req) (cl_LVStore req) w) as (r & w' & E & Hs & H).
    after_rpc E. do 2 eexists. split; [reflexivity|]. destruct H as [(b & _ & H)|[Hf H]].
    + eapply moves_insert; [done|exact H|by apply listed_none].
    + apply (moves_failed _ _ _ _ _ _ _ Hf); [by destruct r|done..].
Qed.

Lemma DeleteLvol_ensures lvs lvol : ensures id (DeleteLvol lvs lvol) (DeleteLvolReq_BdevName lvs lvol) false.
Proof.
  apply with_client_ensures; [done|]. apply find_ensures; [apply slashed_ne|fatal| |].
  - intros b svc w _ Hl. cbn.
    destruct (bl_lvol_delete (DeleteLvolReq_BdevName lvs lvol) w) as (r & w' & E & Hs & H).
    after_rpc E. do 2 eexists. split; [reflexivity|]. destruct H as [H|[Hf H]].
    + apply moves_delete; [done|exact H|by eapply listed_some].
    + apply (moves_failed _ _ _ _ _ _ _ Hf); [by destruct r|done..].
  - intros e svc w Hl. idle Hl.
Qed.

Lemma FileExists_run name w :
  ∃ r w', FileExists name w = Ret r w' ∧ subs w' = subs w ∧ bdevs w' = bdevs w.
Proof.
  destruct (bl_stat name) as (Hr & Hs & Hb). destruct (Hr w) as (r & w1 & E).
  unfold FileExists. rewrite (go_bind_Ret _ _ _ _ _ E). do 2 eexists. split; [reflexivity|]. eauto.
Qed.

Lemma CreateAioBdev_ensures req : abc_BdevName req ≠ "" →
  ensures id (CreateAioBdev req) (abc_BdevName req) true.
Proof.
  intros Hn. apply with_client_ensures; [done|]. intros svc w Hwf _.
  destruct (FileExists_run (abc_DevPath req) w) as ([has e] & w1 & E & Hs & Hb). after_rpc E.
  destruct (opt_is_some e || negb has).
  { do 3 eexists. split; [reflexivity|]. split; [done|]. by apply moves_same. }
  match goal with |- context [(find_bdevs _ ≫= ?k) _] =>
    assert (ensures id (find_bdevs (abc_BdevName req) ≫= k) (abc_BdevName req) true) as H end.
  - apply find_ensures; [done|fatal| |].
    + intros b svc1 w2 _ Hl. cbn. destruct (bool_decide _); cbn; [idle Hl|].
      destruct (bl_aio_create (abc_BdevName req) (abc_DevPath req) (abc_BlockSize req) w2)
        as (r & w' & E' & Hs' & H). after_rpc E'.
      do 2 eexists. split; [reflexivity|]. destruct H as [[H _]|[Hf H]]; [congruence|].
      apply (moves_failed _ _ _ _ _ _ _ Hf); [by destruct r|done..].
    + intros e1 svc1 w2 Hl. cbn.
      destruct (bl_aio_create (abc_BdevName req) (abc_DevPath req) (abc_BlockSize req) w2)
        as (r & w' & E' & Hs' & H). after_rpc E'.
      do 2 eexists. split; [reflexivity|]. destruct H as [(_ & b & _ & H)|[Hf H]].
      * eapply moves_insert; [done|exact H|by apply listed_none].
      * apply (moves_failed _ _ _ _ _ _ _ Hf); [by destruct r|done..].
  - destruct (H svc w1 Hwf I) as (r & svc2 & w2 & Hr & Hw2 & Hm).
    exists r, svc2, w2. split; [exact Hr|]. split; [done|]. by eapply moves_after.
Qed.

(** The origin has to be listed for the new volume to be made. *)
Lemma from_origin_ensures origin what name (op : go W (result string)) svc w : origin ≠ "" →
  bdevs w !! name = None →
  (∀ w1, ∃ r w', op w1 = Ret r w' ∧ subs w' = subs w1 ∧
     ((∃ b, bdevs w' = <[name := b]> (bdevs w1)) ∨ call_failed r ∧ bdevs w' = bdevs w1)) →
  ∃ r w', from_origin origin what op (svc, w) = Ret r (svc, w') ∧ moves name true (snd r) w w'.
Proof.
  intros Ho Hl Hop. destruct (bl_get origin) as (Hr & Hs & Hb). destruct (Hr w) as (r & w1 & E).
  specialize (Hs _ _ _ E). specialize (Hb _ _ _ E). pose proof (bl_found _ _ _ _ E Ho) as Hf.
  unfold from_origin. after_rpc E. destruct r as [l|e].
  - destruct Hf as (b & _ & ->). destruct (Hop w1) as (r & w2 & E2 & Hs2 & H). after_rpc E2.
    do 2 eexists. split; [reflexivity|]. destruct H as [(b' & H)|[Hf H]].
    + eapply (moves_insert _ _ b'); [congruence|congruence|by apply listed_none].
    + apply (moves_failed _ _ _ _ _ _ _ Hf); [by destruct r|congruence..].
  - do 2 eexists; (split; [reflexivity|]). by apply moves_same.
Qed.

Lemma CreateLvolSnapshot_ensures req : cls_LvolFullName req ≠ "" →
  ensures snd (CreateLvolSnapshot req)
    ((parseLvolFullName (cls_LvolFullName req)).1 +:+ "/" +:+ cls_SnapName req) true.
Proof.
  intros Ho. apply with_client_ensures; [done|].
  assert (∀ w1, _) as Hop by exact (bl_snapshot (cls_LvolFullName req) (cls_SnapName req)).
  destruct (parseLvolFullName (cls_LvolFullName req)) as [lvs lvol]. cbn [fst] in Hop |- *.
  apply find_ensures; [apply slashed_ne|fatal| |].
  - intros b svc w _ Hl. idle Hl.
  - intros e svc w Hl. by apply from_origin_ensures.
Qed.

(** A store name with no slash is found again in the full name. *)
Lemma split_slash_app lvs rest :
  split_slash lvs = None → split_slash (lvs +:+ "/" +:+ rest) = Some (lvs, rest).
Proof.
  induction lvs as [|c s IH]; [done|]. intros H.
  change (split_slash (String c (s +:+ "/" +:+ rest)) = Some (String c s, rest)).
  cbn [split_slash] in H |- *. destruct (decide _); [done|].
  destruct (split_slash s) as [[]|]; [done|]. by rewrite (IH eq_refl).
Qed.

Lemma CreateLvolClone_ensures req : split_slash (clc_LVStore req) = None →
  ensures snd (CreateLvolClone req) (clc_LVStore req +:+ "/" +:+ clc_CloneName req) true.
Proof.
  intros Ho. apply with_client_ensures; [done|].
  assert (∀ w1, _) as Hop
    by exact (bl_clone (clc_LVStore req +:+ "/" +:+ clc_SnapName req) (clc_CloneName req)).
  unfold parseLvolFullName in Hop. rewrite (split_slash_app _ _ Ho) in Hop. cbn [fst] in Hop.
  apply find_ensures; [apply slashed_ne|fatal| |].
  - intros b svc w _ Hl. idle Hl.
  - intros e svc w Hl. apply from_origin_ensures; [apply slashed_ne|done|done].
Qed.

Lemma EnsureMigrationDestBdev_ensures req :
  ensures id (EnsureMigrationDestBdev req) (adb_ControllerName req +:+ "n1") true.
Proof.
  apply with_client_ensures; [done|]. apply find_ensures; [apply n1_ne|fatal| |].
  - intros b svc w _ Hl. idle Hl.
  - intros e svc w Hl. cbn.
    match goal with |- context [AttachController ?q] => destruct (bl_attach q w) as (r & w' & E & Hs & H) end.
    after_rpc E. do 2 eexists. split; [reflexivity|]. destruct H as [(b & H)|[Hf H]].
    + eapply moves_insert; [done|exact H|by apply listed_none].
    + apply (moves_failed _ _ _ _ _ _ _ Hf); [by destruct r|done..].
Qed.

(** The last thing that happened was a request to detach the controller whose
    answer was lost, and the process has not done it: the client reports a
    success. *)
Definition detach_unanswered (name : string) (w' : W) : Prop :=
  ∃ w, DetachController name w = Ret None w' ∧ bdevs w' = bdevs w ∧ bl_unanswered name w.

Lemma DetachMigrationDestBdev_ensures name :
  ensures_or (detach_unanswered name) (λ _, True) id (DetachMigrationDestBdev name) (name +:+ "n1") false.
Proof.
  apply with_client_ensures; [done|]. apply find_ensures; [apply n1_ne|fatal| |].
  - intros b svc w _ Hl. cbn. destruct (bl_detach name w) as (r & w' & E & Hs & H).
    exists r, w'. split; [exact (rpc_run _ _ _ _ _ E)|]. destruct H as [H|[H Hu]].
    + apply moves_delete; [done|exact H|by eapply listed_some].
    + apply moves_same; [done|done|]. cbn. intros ->. right. exists w. auto.
  - intros e svc w Hl. idle Hl.
Qed.

Lemma DeleteAioBdev_ensures name : name ≠ "" →
  ensures_from (λ m, ∀ b, m !! name = Some b → bdev_Name b = name) id (DeleteAioBdev name) name false.
Proof.
  intros Hn. apply with_client_ensures; [done|]. apply find_ensures; [done|fatal| |].
  - intros b svc w Hself Hl. cbn. rewrite (Hself _ Hl), bool_decide_eq_true_2 by done. cbn.
    destruct (bl_aio_delete name w) as (r & w' & E & Hs & H). after_rpc E.
    do 2 eexists. split; [reflexivity|]. destruct H as [H|[Hf H]].
    + apply moves_delete; [done|exact H|by eapply listed_some].
    + apply moves_same; [done|done|]. by destruct r as [[]|].
  - intros e svc w Hl. idle Hl.
Qed.

(** C16. Every request of the agent for a block device returns, whether the
    answers of SPDK come or are lost, and leaves the targets and all other devices
    alone. When it reports success the device is there ([CreateAioBdev],
    [CreateLvol], [CreateLvolSnapshot], [CreateLvolClone],
    [EnsureMigrationDestBdev]) or gone ([DeleteAioBdev], [DeleteLvol]); a success
    of [DetachMigrationDestBdev] says that the device is gone or that the last
    thing that happened is that the answer to the detachment was lost. Each does
    nothing when the device is there, or gone, already. Deleting a file's device
    relies on the device's name being the one it was asked by, cloning on a store
    name without a slash. *)
Theorem bdev_operations_ensure
    (aio : AioBdevCreateRequest) (lvol : CreateLvolReq) (snap : CreateLvolSnapReq)
    (clone : CreateLvolCloneReq) (dest : AttachDestBdevRequest) (lvs name ctrl : string) :
  abc_BdevName aio ≠ "" → cls_LvolFullName snap ≠ "" → split_slash (clc_LVStore clone) = None → name ≠ "" →
  ensures id (CreateAioBdev aio) (abc_BdevName aio) true ∧
  ensures_from (λ m, ∀ b, m !! name = Some b → bdev_Name b = name) id (DeleteAioBdev name) name false ∧
  ensures snd (CreateLvol lvol) (CreateLvolReq_BdevName lvol) true ∧
  ensures id (DeleteLvol lvs name) (DeleteLvolReq_BdevName lvs name) false ∧
  ensures snd (CreateLvolSnapshot snap)
    ((parseLvolFullName (cls_LvolFullName snap)).1 +:+ "/" +:+ cls_SnapName snap) true ∧
  ensures snd (CreateLvolClone clone) (clc_LVStore clone +:+ "/" +:+ clc_CloneName clone) true ∧
  ensures id (EnsureMigrationDestBdev dest) (adb_ControllerName dest +:+ "n1") true ∧
  ensures_or (detach_unanswered ctrl) (λ _, True) id (DetachMigrationDestBdev ctrl) (ctrl +:+ "n1") false.
Proof.
  intros. split_and!;
    auto using CreateAioBdev_ensures, DeleteAioBdev_ensures, CreateLvol_ensures, DeleteLvol_ensures,
      CreateLvolSnapshot_ensures, CreateLvolClone_ensures, EnsureMigrationDestBdev_ensures,
      DetachMigrationDestBdev_ensures.
Qed.
End bdev_spec.

(** ** A node's SPDK process in memory *)

Record FakeNode := { fn_subs : list Subsystem; fn_bdevs : gmap string Bdev }.

Definition on_subs {A} (op : go (list Subsystem) A) : go FakeNode A := λ w,
  match op (fn_subs w) with
  | Ret a l => Ret a {| fn_subs := l; fn_bdevs := fn_bdevs w |}
  | Panic why l => Panic why {| fn_subs := l; fn_bdevs := fn_bdevs w |}
  end.
Definition set_bdevs (f : gmap string Bdev → gmap string Bdev) (w : FakeNode) : FakeNode :=
  {| fn_subs := fn_subs w; fn_bdevs := f (fn_bdevs w) |}.
Definition no_device : error := ErrRPC ErrorCodeNoDevice "No such device".

(** A new device has to be new; one to delete has to be there. *)
Definition fake_add (name : string) (b : Bdev) : go FakeNode (result string) := λ w,
  match fn_bdevs w !! name with
  | Some _ => Ret (inr (ErrRPC (-17) "File exists")) w
  | None => Ret (inl "uuid") (set_bdevs (<[name := b]>) w)
  end.
Definition fake_del (name : string) : go FakeNode (result bool) := λ w,
  match fn_bdevs w !! name with
  | Some _ => Ret (inl true) (set_bdevs (delete name) w)
  | None => Ret (inr no_device) w
  end.

#[export] Instance FakeNodeRpc : SpdkRpc FakeNode := {|
  rpc_dial := on_subs rpc_dial;
  NVMFGetTransports := on_subs NVMFGetTransports;
  NVMFCreateTransport t := on_subs (NVMFCreateTransport t);
  NVMFGetSubsystems := on_subs NVMFGetSubsystems;
  NVMFCreateSubsystem nqn h sn mn := on_subs (NVMFCreateSubsystem nqn h sn mn);
  NVMFSubsystemAddNS nqn ns := on_subs (NVMFSubsystemAddNS nqn ns);
  NVMFSubsystemAddListener nqn la := on_subs (NVMFSubsystemAddListener nqn la);
  NVMFSubsystemAddHost nqn h := on_subs (NVMFSubsystemAddHost nqn h);
  NVMFDeleteSubsystem nqn := on_subs (NVMFDeleteSubsystem nqn);
|}.
#[export] Instance FakeNodeRpcLaws : SpdkRpcLaws FakeNodeRpc.
Proof.
  refine {| subs := fn_subs |}; intros; eexists _, _; (split; [reflexivity|]); done.
Defined.

#[export] Instance FakeBdevs : BdevRpc FakeNode := {|
  BdevGetBdevs name := λ w, Ret (match fn_bdevs w !! name with Some b => inl [b] | None => inr no_device end) w;
  BdevAioCreate name file bs :=
    fake_add name {| bdev_Name := name; bdev_Aliases := []; bdev_UUID := ""; bdev_BlockSize := bs; bdev_NumBlocks := 1 |};
  BdevAioDelete name := fake_del name;
  BdevAioResize name size := mret (inl true);
  BdevLVolGetLVStores name := mret (inl []);
  BdevLVolCreateLVStore base name cs := mret (inl "uuid");
  BdevLVolCreate lvol size lvs := fake_add (lvs +:+ "/" +:+ lvol)
    {| bdev_Name := "uuid"; bdev_Aliases := [lvs +:+ "/" +:+ lvol]; bdev_UUID := ""; bdev_BlockSize := 1; bdev_NumBlocks := size |};
  BdevLVolDelete name := fake_del name;
  BdevLVolResize name size := mret (inl true);
  BdevLVolSnapshot lvol snap := fake_add ((parseLvolFullName lvol).1 +:+ "/" +:+ snap)
    {| bdev_Name := "uuid"; bdev_Aliases := []; bdev_UUID := ""; bdev_BlockSize := 1; bdev_NumBlocks := 0 |};
  BdevLVolClone snap clone := fake_add ((parseLvolFullName snap).1 +:+ "/" +:+ clone)
    {| bdev_Name := "uuid"; bdev_Aliases := []; bdev_UUID := ""; bdev_BlockSize := 1; bdev_NumBlocks := 0 |};
  BdevLVolInflate name := mret (inl true);
  ListControllers := mret (inl []);
  AttachController req := λ w, Ret (inl [acr_Name req +:+ "n1"]) (set_bdevs (<[acr_Name req +:+ "n1" :=
    {| bdev_Name := acr_Name req +:+ "n1"; bdev_Aliases := []; bdev_UUID := ""; bdev_BlockSize := 1; bdev_NumBlocks := 0 |}]>) w);
  DetachController name := λ w, Ret None (set_bdevs (delete (name +:+ "n1")) w);
  ListBdevRaid c := mret (inl []);
  RpcCreateBdevRaid req := mret (inl true);
  BdevMigrateQuery src h := mret (inl []);
  BdevMigrateStart req := mret None;
  BdevMigrateSetConfig req := mret None;
  BdevMigrateCleanupTask req := mret None;
|}.
#[export] Instance FakeFiles : OsFiles FakeNode := {|
  os_Stat name := mret None; os_MkdirAll name := mret None; os_RemoveAll name := mret None |}.

Lemma fake_add_run name b w : ∃ r w', fake_add name b w = Ret r w' ∧ fn_subs w' = fn_subs w ∧
  match r with
  | inl _ => fn_bdevs w !! name = None ∧ fn_bdevs w' = <[name := b]> (fn_bdevs w)
  | inr _ => fn_bdevs w' = fn_bdevs w
  end.
Proof. unfold fake_add. destruct (fn_bdevs w !! name) eqn:E; do 2 eexists; (split; [reflexivity|]); done. Qed.
Lemma fake_del_run name w : ∃ r w', fake_del name w = Ret r w' ∧ fn_subs w' = fn_subs w ∧
  match r with
  | inl ok => ok = true ∧ fn_bdevs w' = delete name (fn_bdevs w)
  | inr _ => fn_bdevs w' = fn_bdevs w
  end.
Proof. unfold fake_del. destruct (fn_bdevs w !! name) eqn:E; do 2 eexists; (split; [reflexivity|]); done. Qed.

Lemma ret_stays {W V A} (view : W → V) (f : W → A) : stays view (λ w, Ret (f w) w).
Proof. by intros w r w' [= _ <-]. Qed.
Lemma ret_returns {W A} (f : W → A) : returns (λ w, Ret (f w) w).
Proof. intros w. eauto. Qed.
Lemma on_subs_stays {A} (op : go (list Subsystem) A) : stays fn_bdevs (on_subs op).
Proof. intros w r w'. unfold on_subs. destruct (op _); [|done]. by intros [= _ <-]. Qed.

#[export] Instance FakeBdevLaws : BdevLaws FakeNodeRpc FakeBdevs FakeFiles.
Proof.
  refine {| bdevs := fn_bdevs; bl_unanswered _ _ := False |}; intros; try apply on_subs_stays;
    try (split_and!; [apply (ret_returns (λ _, _))|apply (ret_stays _ (λ _, _))..]).
  - cbn in H. destruct (fn_bdevs w !! name) as [b|] eqn:E; injection H as <- <-; eauto.
  - destruct (fake_add_run name {| bdev_Name := name; bdev_Aliases := []; bdev_UUID := ""; bdev_BlockSize := bs; bdev_NumBlocks := 1 |} w)
      as (r & w' & E & Hs & H). exists r, w'. split_and!; [done|done|]. destruct r; [left|by right].
    destruct H as [H1 H2]. split; [exact H1|]. eexists. split; [|exact H2]. done.
  - destruct (fake_del_run name w) as (r & w' & E & Hs & H). exists r, w'. split_and!; [done|done|].
    destruct r as [ok|]; [left; by destruct H|by right].
  - edestruct fake_add_run as (r & w' & E & Hs & H). exists r, w'. split_and!; [exact E|done|].
    destruct r; [left|by right]. destruct H. eexists. split; [|done]. cbn. lia.
  - destruct (fake_del_run name w) as (r & w' & E & Hs & H). exists r, w'. split_and!; [done|done|].
    destruct r as [ok|]; [left; by destruct H|by right].
  - edestruct fake_add_run as (r & w' & E & Hs & H). exists r, w'. split_and!; [exact E|done|].
    destruct r; [left|by right]. destruct H. by eexists.
  - edestruct fake_add_run as (r & w' & E & Hs & H). exists r, w'. split_and!; [exact E|done|].
    destruct r; [left|by right]. destruct H. by eexists.
  - do 2 eexists. split; [reflexivity|]. split; [done|]. left. by eexists.
  - do 2 eexists. split; [reflexivity|]. split; [done|by left].
Defined.

Definition ex_aio : AioBdevCreateRequest :=
  {| abc_BdevName := "vol-1"; abc_DevPath := "/dev/vg/vol-1"; abc_BlockSize := 512 |}.
Definition ex_node : FakeNode := {| fn_subs := ex_subsystems; fn_bdevs := ∅ |}.

Example ex_lvols :
  match (_ ← CreateLvol {| cl_LVStore := "lvs"; cl_LvolName := "v1"; cl_SizeByte := 8 |};
         r ← CreateLvolSnapshot {| cls_LvolFullName := "lvs/v1"; cls_SnapName := "s1" |};
         e ← DeleteLvol "lvs" "v1"; mret (r, e)) (ex_service, ex_node) with
  | Ret (("uuid", None), None) (_, w) => elements (dom (fn_bdevs w)) = ["lvs/s1"]
  | _ => False
  end.
Proof. vm_compute. reflexivity. Qed.

Definition ex_dest : AttachDestBdevRequest :=
  {| adb_ControllerName := "ctrl"; adb_Target := {| sti_NQN := ""; sti_AddrFam := ""; sti_IPAddr := "";
     sti_TransType := ""; sti_SvcID := "" |} |}.

(** All eight, on one node; the detachment there leaves no doubt. *)
Lemma bdev_operations_ensure_witness :
  let lvol := {| cl_LVStore := "lvs"; cl_LvolName := "v1"; cl_SizeByte := 8 |} in
  let snap := {| cls_LvolFullName := "lvs/v1"; cls_SnapName := "s1" |} in
  let clone := {| clc_LVStore := "lvs"; clc_SnapName := "s1"; clc_CloneName := "c1" |} in
  ensures id (CreateAioBdev ex_aio) "vol-1" true ∧
  (∃ e svc' w', DeleteAioBdev "v1" (ex_service, ex_node) = Ret e (svc', w') ∧ moves "v1" false e ex_node w') ∧
  ensures snd (CreateLvol lvol) "lvs/v1" true ∧ ensures id (DeleteLvol "lvs" "v1") "lvs/v1" false ∧
  ensures snd (CreateLvolSnapshot snap) "lvs/s1" true ∧ ensures snd (CreateLvolClone clone) "lvs/c1" true ∧
  ensures id (EnsureMigrationDestBdev ex_dest) "ctrln1" true ∧
  (∃ e svc' w', DetachMigrationDestBdev "ctrl" (ex_service, ex_node) = Ret e (svc', w') ∧
     e = None ∧ listed w' "ctrln1" = false).
Proof.
  destruct (bdev_operations_ensure ex_aio {| cl_LVStore := "lvs"; cl_LvolName := "v1"; cl_SizeByte := 8 |}
    {| cls_LvolFullName := "lvs/v1"; cls_SnapName := "s1" |}
    {| clc_LVStore := "lvs"; clc_SnapName := "s1"; clc_CloneName := "c1" |} ex_dest "lvs" "v1" "ctrl")
    as (H1 & H2 & H3 & H4 & H5 & H6 & H7 & H8); [done|done|reflexivity|done|].
  split_and!; try assumption.
  - destruct (H2 ex_service ex_node ex_service_wf) as (e & svc' & w' & E & _ & Hm); [done|].
    by exists e, svc', w'.
  - destruct (H8 ex_service ex_node ex_service_wf I) as (e & svc' & w' & E & _ & Hm).
    exists e, svc', w'. assert (e = None) as -> by (vm_compute in E; by injection E as <-).
    split; [exact E|]. split; [done|].
    destruct (mv_done _ _ _ _ _ _ Hm eq_refl) as [H|(w0 & _ & _ & [])]. exact H.
Defined.
