(* ===== verification/Plugin.v ===== *)
(** * Plugable reconcilers

    [reconciler/plugable_reconciler.go], [reconciler/plugin/plugable.go],
    [plugin/metasync.go], [util/misc/lock.go] and [kubeutil/controller.go]: the
    frame every controller of the manager runs in. A reconciler takes the lock
    of the object it is asked about, fetches the object, runs its plugins until
    one of them breaks, and then its main handler.

    The object a request is about is a pointer that plugins and handler share
    and write through: each of them takes the object and returns it as it left
    it. [S] is what handlers act on besides it, the manager's state and the API
    server.

    [Reconcile] is a program ([prog]): a tree of calls, each tagged as taking the
    lock, working or releasing it, with the code's [defer] as [p_defer]. [p_run]
    runs it at once; [pool_step] lets the workers of a reconciler make one call of
    theirs at a time, in any order. *)

From Stdlib Require Import ZArith Lia.
From stdpp Require Import base gmap strings option list.
From S2P Require Import Prelude Float64 Misc K8s Api.

(** ** Durations, in nanoseconds *)

Definition Second : Z := 1000000000.
Definition Minute : Z := (60 * Second)%Z.
Definition Hour : Z := (60 * Minute)%Z.

(** [time.Since(t)] at the time [now] (nanoseconds) for a [t] in seconds; the
    standard library saturates the difference. *)
Definition time_Since (now t : Z) : Z :=
  let d := (now - t * Second)%Z in
  Z.max (-9223372036854775808) (Z.min 9223372036854775807 d).

(** ** Resource locks *)

(* [misc/lock.go:16-19] ResourceLocks *)
Definition ResourceLocks := gset string.

(* [misc/lock.go:21-25] NewResourceLocks *)
Definition NewResourceLocks : ResourceLocks := ∅.

(* [misc/lock.go:29-37] ResourceLocks.TryAcquire *)
Definition TryAcquire (resourceID : string) (lock : ResourceLocks) : bool * ResourceLocks :=
  if decide (resourceID ∈ lock) then (false, lock) else (true, {[resourceID]} ∪ lock).

(* [misc/lock.go:39-43] ResourceLocks.Release *)
Definition Release (resourceID : string) (lock : ResourceLocks) : ResourceLocks :=
  lock ∖ {[resourceID]}.

(** ** Runs that others interrupt

    A call of [Reconcile] as the sequence of the calls it makes: what follows a call
    depends on what it returned, or on its panic. Other workers may run between two
    calls. A call is tagged with what it is for. *)

Inductive Tag := Acquire | Work | Leave.
Inductive prog (T A : Type) : Type :=
| PRet (a : A)
| PPanic (why : string)
| PStep (t : Tag) (B : Type) (m : go T B) (k : B + string → prog T A).
Arguments PRet {T A} a.
Arguments PPanic {T A} why.
Arguments PStep {T A} t {B} m k.

(** One call: its answer, or its panic, and the state it leaves. *)
Definition answer {T B} (o : outcome T B) : B + string := match o with Ret b _ => inl b | Panic why _ => inr why end.
(** The run that nobody interrupts. *)
Fixpoint p_run {T A} (p : prog T A) : go T A := λ st,
  match p with
  | PRet a => Ret a st
  | PPanic why => Panic why st
  | PStep _ m k => let o := m st in p_run (k (answer o)) (run_state o)
  end.
(** The next call, and what is left of the run after it. *)
Definition p_next {T A} (p : prog T A) (st : T) : option (prog T A * T) :=
  match p with PStep _ m k => let o := m st in Some (k (answer o), run_state o) | _ => None end.
Definition p_call {T B} (t : Tag) (m : go T B) : prog T B :=
  PStep t m (λ r, match r with inl b => PRet b | inr why => PPanic why end).
Fixpoint p_bind {T A B} (f : A → prog T B) (p : prog T A) : prog T B :=
  match p with
  | PRet a => f a
  | PPanic why => PPanic why
  | PStep t m k => PStep t m (λ r, p_bind f (k r))
  end.
#[export] Instance prog_mret T : MRet (prog T) := λ A, PRet.
#[export] Instance prog_mbind T : MBind (prog T) := λ A B, p_bind.
(** A deferred call is made when the function returns and when it panics. *)
Fixpoint p_defer {T A} (d : T → T) (p : prog T A) : prog T A :=
  match p with
  | PRet a => PStep Leave (gmodify d) (λ _, PRet a)
  | PPanic why => PStep Leave (gmodify d) (λ _, PPanic why)
  | PStep t m k => PStep t m (λ r, p_defer d (k r))
  end.
(** A run on a part of the state. *)
Fixpoint p_fst {S T A} (p : prog S A) : prog (S * T) A :=
  match p with
  | PRet a => PRet a
  | PPanic why => PPanic why
  | PStep t m k => PStep t (on_fst m) (λ r, p_fst (k r))
  end.

Lemma go_bind_run {T A B} (f : A → go T B) (m : go T A) st :
  (m ≫= f) st = match m st with Ret a st' => f a st' | Panic why st' => Panic why st' end.
Proof. reflexivity. Qed.
Lemma p_run_bind {T A B} (f : A → prog T B) (p : prog T A) st :
  p_run (p ≫= f) st = match p_run p st with Ret a st' => p_run (f a) st' | Panic why st' => Panic why st' end.
Proof.
  unfold mbind, prog_mbind. revert st. induction p as [a|why|t C m k IH]; intros st; cbn [p_run p_bind]; [done|done|apply IH].
Qed.
Lemma p_run_call {T B} t (m : go T B) st : p_run (p_call t m) st = m st.
Proof. cbn. by destruct (m st). Qed.
Lemma p_run_fst {S T A} (p : prog S A) (st : S * T) : p_run (p_fst p) st = on_fst (p_run p) st.
Proof.
  revert st. induction p as [a|why|t C m k IH]; intros st; cbn [p_run p_fst]; [by destruct st|by destruct st|].
  rewrite IH. unfold on_fst. cbn. by destruct (m st.1).
Qed.

(** ** Results *)

(** [ctrl.Result]. *)
Record CtrlResult := { cr_Requeue : bool; cr_RequeueAfter : Z }.
Definition CtrlResult_zero : CtrlResult := {| cr_Requeue := false; cr_RequeueAfter := 0 |}.
Definition RequeueAfter (d : Z) : CtrlResult := {| cr_Requeue := false; cr_RequeueAfter := d |}.

(* [plugin/plugable.go:30-34] Result *)
Record Result := {
  res_Result : CtrlResult;
  res_Error : option error;
  res_Break : bool;
}.
Definition Result_zero : Result :=
  {| res_Result := CtrlResult_zero; res_Error := None; res_Break := false |}.
(** [Result{Error: err}] and [Result{Break: true, Error: err}]. *)
Definition result_err (err : option error) : Result :=
  {| res_Result := CtrlResult_zero; res_Error := err; res_Break := false |}.
Definition result_break (err : option error) : Result :=
  {| res_Result := CtrlResult_zero; res_Error := err; res_Break := true |}.
Definition result_after (d : Z) : Result :=
  {| res_Result := RequeueAfter d; res_Error := None; res_Break := false |}.

(* [plugin/plugable.go:36-38] Result.NeedBreak *)
Definition NeedBreak (r : Result) : bool := opt_is_some (res_Error r) || res_Break r.

(** ** Objects and requests *)

Section plugin.
Context {L : K8sLib}.

(** The kinds of [runtime.Object] the controllers are set up for. *)
Inductive Object :=
| OVolume (vol : AntstorVolume)
| OPool (sp : StoragePool)
| OVolumeGroup (vg : AntstorVolumeGroup)
| ODataControl (dc : AntstorDataControl)
| OSnapshot (snap : AntstorSnapshot)
| OMigration (mig : VolumeMigration)
| ONil.

(** [meta.Accessor]. *)
Definition Accessor (obj : Object) : option ObjectMeta :=
  match obj with
  | OVolume x => Some (vol_meta x)
  | OPool x => Some (sp_meta x)
  | OVolumeGroup x => Some (vg_meta x)
  | ODataControl x => Some (dc_meta x)
  | OSnapshot x => Some (snap_meta x)
  | OMigration x => Some (mig_meta x)
  | ONil => None
  end.

(** [ctrl.Request]. *)
Record Request := { rq_Namespace : string; rq_Name : string }.
(** [NamespacedName.String()]. *)
Definition rq_String (r : Request) : string := rq_Namespace r +:+ "/" +:+ rq_Name r.

Section reconciler.
Context {S : Type}.

(* [plugin/plugable.go:45-49] Plugin *)
Record Plugin := {
  pl_Name : string;
  pl_Reconcile : Request → Object → go S (Result * Object);
  pl_HandleDeletion : Request → Object → go S (option error * Object);
}.

(* [reconciler/plugable_reconciler.go:32-37] ReconcileHandler *)
Record ReconcileHandler := {
  rh_ResourceName : string;
  rh_GetObject : Request → go S (result Object);
  rh_HandleReconcile : Request → Object → go S (Result * Object);
  rh_HandleDeletion : Request → Object → go S (Result * Object);
}.

(* [plugin/plugable.go:51-53] PluginList *)
Definition PluginList := list Plugin.
(* [plugin/plugable.go:61-65] PluginList.RegisterPlugin *)
Definition RegisterPlugin (p : list Plugin) (pe : PluginList) : PluginList :=
  if decide (0 < length p)%nat then pe ++ p else pe.

(** The loops of [Reconcile] over the plugins. *)
Fixpoint plugins_deletion (ps : PluginList) (req : Request) (obj : Object) : go S Object :=
  match ps with
  | [] => mret obj
  | p :: rest =>
      '(_, obj') ← pl_HandleDeletion p req obj;
      plugins_deletion rest req obj'
  end.
Fixpoint plugins_reconcile (ps : PluginList) (req : Request) (obj : Object)
    : go S (option Result * Object) :=
  match ps with
  | [] => mret (None, obj)
  | p :: rest =>
      '(result, obj') ← pl_Reconcile p req obj;
      if NeedBreak result then mret (Some result, obj')
      else plugins_reconcile rest req obj'
  end.

(** The part of [Reconcile] that runs with the lock held. *)
Definition Reconcile_locked (h : ReconcileHandler) (ps : PluginList) (req : Request)
    : go S (CtrlResult * option error) :=
  got ← rh_GetObject h req;
  match got with
  | inr err => mret (CtrlResult_zero, IgnoreNotFound (Some err))
  | inl obj =>
      match Accessor obj with
      | None => mret (CtrlResult_zero, Some (ErrNew "object does not implement the Object interfaces"))
      | Some metaObj =>
          if opt_is_some (om_DeletionTimestamp metaObj) then
            obj' ← plugins_deletion ps req obj;
            '(result, _) ← rh_HandleDeletion h req obj';
            mret (res_Result result, res_Error result)
          else
            '(broke, obj') ← plugins_reconcile ps req obj;
            match broke with
            | Some result => mret (res_Result result, res_Error result)
            | None =>
                '(result, _) ← rh_HandleReconcile h req obj';
                mret (res_Result result, res_Error result)
            end
      end
  end.

(** The same, call by call. *)
Fixpoint prog_deletion (ps : PluginList) (req : Request) (obj : Object) : prog S Object :=
  match ps with
  | [] => mret obj
  | p :: rest =>
      '(_, obj') ← p_call Work (pl_HandleDeletion p req obj);
      prog_deletion rest req obj'
  end.
Fixpoint prog_reconcile (ps : PluginList) (req : Request) (obj : Object) : prog S (option Result * Object) :=
  match ps with
  | [] => mret (None, obj)
  | p :: rest =>
      '(result, obj') ← p_call Work (pl_Reconcile p req obj);
      if NeedBreak result then mret (Some result, obj')
      else prog_reconcile rest req obj'
  end.
(* [reconciler/plugable_reconciler.go:117-175] PlugableReconciler.Reconcile, with the lock held *)
Definition Reconcile_body (h : ReconcileHandler) (ps : PluginList) (req : Request)
    : prog S (CtrlResult * option error) :=
  got ← p_call Work (rh_GetObject h req);
  match got with
  | inr err => mret (CtrlResult_zero, IgnoreNotFound (Some err))
  | inl obj =>
      match Accessor obj with
      | None => mret (CtrlResult_zero, Some (ErrNew "object does not implement the Object interfaces"))
      | Some metaObj =>
          if opt_is_some (om_DeletionTimestamp metaObj) then
            obj' ← prog_deletion ps req obj;
            '(result, _) ← p_call Work (rh_HandleDeletion h req obj');
            mret (res_Result result, res_Error result)
          else
            '(broke, obj') ← prog_reconcile ps req obj;
            match broke with
            | Some result => mret (res_Result result, res_Error result)
            | None =>
                '(result, _) ← p_call Work (rh_HandleReconcile h req obj');
                mret (res_Result result, res_Error result)
            end
      end
  end.

(** A deferred call runs when the function returns and when it panics. *)
Definition go_defer {T A} (d : T → T) (m : go T A) : go T A := λ s,
  match m s with
  | Ret a s' => Ret a (d s')
  | Panic why s' => Panic why (d s')
  end.

(** The state of a reconciler: its locks, absent when it runs one worker, and
    what its handlers act on. *)
Definition RState := (S * option ResourceLocks)%type.

(** Taking the lock is one step: the lock set has a mutex. [None]: there is no lock. *)
Definition try_lock (resourceID : string) : go RState (option bool) := λ st,
  match st.2 with
  | Some lock => let '(ok, lock') := TryAcquire resourceID lock in Ret (Some ok) (st.1, Some lock')
  | None => Ret None st
  end.
Definition unlock (resourceID : string) (st : RState) : RState := (st.1, Release resourceID <$> st.2).
(* [reconciler/plugable_reconciler.go:100-176] PlugableReconciler.Reconcile *)
Definition Reconcile_prog (h : ReconcileHandler) (ps : PluginList) (req : Request)
    : prog RState (CtrlResult * option error) :=
  let resourceID := rq_String req in
  locked ← p_call Acquire (try_lock resourceID);
  match (locked : option bool) with
  | Some true => p_defer (unlock resourceID) (p_fst (Reconcile_body h ps req))
  | Some false => mret (RequeueAfter (10 * Second), None)
  | None => p_fst (Reconcile_body h ps req)
  end.
(* [reconciler/plugable_reconciler.go:100-176] PlugableReconciler.Reconcile *)
Definition Reconcile (h : ReconcileHandler) (ps : PluginList) (req : Request)
    : go RState (CtrlResult * option error) := p_run (Reconcile_prog h ps req).

(** The locks [SetupWithManager] gives a reconciler. *)
Definition setup_concurrency (c : Z) : Z := if decide (c <= 0)%Z then 1%Z else c.
(* [reconciler/plugable_reconciler.go:69-75] PlugableReconciler.SetupWithManager *)
Definition setup_locks (Concurrency : Z) : option ResourceLocks :=
  if decide (setup_concurrency Concurrency > 1)%Z then Some NewResourceLocks else None.

(* [plugin/metasync.go:25-48] MetaSyncPlugin.Reconcile *)
Definition MetaSync_Reconcile (Syncer : option (Object → go S (option error)))
    (req : Request) (obj : Object) : go S (Result * Object) :=
  match obj with
  | ONil => mret (Result_zero, obj)
  | _ => match Syncer with
         | None => mret (Result_zero, obj)
         | Some sync => err ← sync obj; mret (result_err err, obj)
         end
  end.

(* [plugin/metasync.go:20-23] MetaSyncPlugin.HandleDeletion *)
Definition MetaSync_HandleDeletion (Syncer : option (Object → go S (option error)))
    (req : Request) (obj : Object) : go S (option error * Object) :=
  '(result, obj') ← MetaSync_Reconcile Syncer req obj;
  mret (res_Error result, obj').

(* [plugin/metasync.go:10-18] MetaSyncPlugin *)
Definition MetaSyncPlugin (Syncer : option (Object → go S (option error))) : Plugin :=
  {| pl_Name := "MetaSync";
     pl_Reconcile := MetaSync_Reconcile Syncer;
     pl_HandleDeletion := MetaSync_HandleDeletion Syncer |}.
End reconciler.

(** ** The work queue

    What a controller tells its queue after a request. *)

Inductive QueueAction :=
| QForget (req : Request)
| QAddAfter (req : Request) (d : Z)
| QAddRateLimited (req : Request).

(* [kubeutil/controller.go:74-111] SimpleController.reconcileHandler *)
Definition reconcileHandler {S} (reconcile : Request → go S (CtrlResult * option error))
    (req : Request) : go S (list QueueAction) :=
  '(result, err) ← reconcile req;
  mret (match err with
        | Some _ => [QAddRateLimited req]
        | None => if decide (cr_RequeueAfter result > 0)%Z
                  then [QForget req; QAddAfter req (cr_RequeueAfter result)]
                  else if cr_Requeue result then [QAddRateLimited req]
                  else [QForget req]
        end).
End plugin.
Arguments Plugin {L} S.
Arguments ReconcileHandler {L} S.

(** ** What the frame guarantees *)

Section plugin_lemmas.
Context {L : K8sLib} {S : Type}.
Implicit Types (h : ReconcileHandler S) (ps : list (Plugin S)) (lock : ResourceLocks).

Lemma TryAcquire_free id lock : id ∉ lock → TryAcquire id lock = (true, {[id]} ∪ lock).
Proof. intros. unfold TryAcquire. by rewrite decide_False. Qed.

Lemma TryAcquire_held id lock : id ∈ lock → TryAcquire id lock = (false, lock).
Proof. intros. unfold TryAcquire. by rewrite decide_True. Qed.

Lemma TryAcquire_Release id lock : id ∉ lock → Release id ({[id]} ∪ lock) = lock.
Proof. intros. unfold Release. set_solver. Qed.

(** The plugins of a concatenation run in order, the second part only when no
    plugin of the first one breaks. *)
Lemma plugins_reconcile_app ps1 ps2 req obj s :
  plugins_reconcile (ps1 ++ ps2) req obj s =
  match plugins_reconcile ps1 req obj s with
  | Ret (Some r, o) s' => Ret (Some r, o) s'
  | Ret (None, o) s' => plugins_reconcile ps2 req o s'
  | Panic why s' => Panic why s'
  end.
Proof.
  revert obj s. induction ps1 as [|p ps1 IH]; intros obj s; [done|].
  cbn [app plugins_reconcile]. go_simpl.
  destruct (pl_Reconcile p req obj s) as [[r o] s'|]; [|done].
  destruct (NeedBreak r); [done|]. apply IH.
Qed.

(** A plugin that breaks stops the request: the plugins after it and the main
    handler have no influence on the outcome. *)
Lemma Reconcile_locked_break h h' ps p ps2 ps2' req obj s r o s1 s2 o2 m :
  rh_GetObject h req s = Ret (inl obj) s1 → rh_GetObject h' req s = Ret (inl obj) s1 →
  Accessor obj = Some m → om_DeletionTimestamp m = None →
  plugins_reconcile ps req obj s1 = Ret (None, o) s2 →
  pl_Reconcile p req o s2 = Ret (r, o2) s → NeedBreak r = true →
  Reconcile_locked h (ps ++ p :: ps2) req s = Ret (res_Result r, res_Error r) s ∧
  Reconcile_locked h' (ps ++ p :: ps2') req s = Ret (res_Result r, res_Error r) s.
Proof.
  intros H1 H2 Hm Hd Hps Hp Hb. unfold Reconcile_locked. go_simpl.
  rewrite H1, H2, Hm, Hd. cbn [opt_is_some]. rewrite !plugins_reconcile_app, Hps.
  cbn [plugins_reconcile]. go_simpl. rewrite Hp, Hb. done.
Qed.

Lemma p_run_defer {T A} (d : T → T) (p : prog T A) st : p_run (p_defer d p) st = go_defer d (p_run p) st.
Proof. revert st. induction p as [a|why|t C m k IH]; intros st; cbn [p_run p_defer]; [done|done|apply IH]. Qed.
Lemma prog_deletion_run ps req obj (s : S) : p_run (prog_deletion ps req obj) s = plugins_deletion ps req obj s.
Proof.
  revert obj s. induction ps as [|p ps IH]; intros obj s; [done|]. cbn [prog_deletion plugins_deletion].
  rewrite p_run_bind, p_run_call, ?go_bind_run. destruct (pl_HandleDeletion p req obj s) as [[r o] s'|]; [apply IH|done].
Qed.
Lemma prog_reconcile_run ps req obj (s : S) : p_run (prog_reconcile ps req obj) s = plugins_reconcile ps req obj s.
Proof.
  revert obj s. induction ps as [|p ps IH]; intros obj s; [done|]. cbn [prog_reconcile plugins_reconcile].
  rewrite p_run_bind, p_run_call, ?go_bind_run. destruct (pl_Reconcile p req obj s) as [[r o] s'|]; [|done].
  destruct (NeedBreak r); [done|apply IH].
Qed.
Lemma Reconcile_body_run h ps req (s : S) : p_run (Reconcile_body h ps req) s = Reconcile_locked h ps req s.
Proof.
  unfold Reconcile_body, Reconcile_locked. rewrite p_run_bind, p_run_call, ?go_bind_run.
  destruct (rh_GetObject h req s) as [[obj|e] s1|]; [|done|done]. destruct (Accessor obj) as [m|]; [|done].
  destruct (opt_is_some _); rewrite p_run_bind, go_bind_run.
  - rewrite prog_deletion_run. destruct (plugins_deletion ps req obj s1) as [o s2|]; [|done].
    rewrite p_run_bind, p_run_call, ?go_bind_run. by destruct (rh_HandleDeletion h req o s2) as [[r ?] ?|].
  - rewrite prog_reconcile_run. destruct (plugins_reconcile ps req obj s1) as [[[r|] o] s2|]; [done| |done].
    rewrite p_run_bind, p_run_call, ?go_bind_run. by destruct (rh_HandleReconcile h req o s2) as [[r ?] ?|].
Qed.
(** The run of [Reconcile]: it asks for the lock, works, and releases it. *)
Lemma Reconcile_run h ps req st :
  Reconcile h ps req st =
  match st.2 with
  | Some lock =>
      let '(ok, lock') := TryAcquire (rq_String req) lock in
      if ok : bool then go_defer (unlock (rq_String req)) (on_fst (Reconcile_locked h ps req)) (st.1, Some lock')
      else Ret (RequeueAfter (10 * Second), None) st
  | None => on_fst (Reconcile_locked h ps req) st
  end.
Proof.
  assert (∀ st : RState (S := S), p_run (T := RState (S := S)) (p_fst (Reconcile_body h ps req)) st = on_fst (Reconcile_locked h ps req) st) as Hbody.
  { intros st'. etransitivity; [apply p_run_fst|]. unfold on_fst. by rewrite Reconcile_body_run. }
  unfold Reconcile, Reconcile_prog. rewrite p_run_bind, p_run_call, ?go_bind_run. unfold try_lock. destruct st as [s [lock|]]; cbn [fst snd].
  - unfold TryAcquire. case_decide; [done|]. rewrite p_run_defer. unfold go_defer. by rewrite Hbody.
  - by rewrite Hbody.
Qed.

(** What [Reconcile] does once it holds the lock, its lock released again. *)
Lemma Reconcile_acquired h ps req s lock : rq_String req ∉ lock →
  Reconcile h ps req (s, Some lock) =
  match Reconcile_locked h ps req s with
  | Ret a s' => Ret a (s', Some lock)
  | Panic why s' => Panic why (s', Some lock)
  end.
Proof.
  intros Hfree. rewrite Reconcile_run. cbn [snd]. rewrite TryAcquire_free by done.
  unfold go_defer, on_fst, unlock. cbn [fst snd].
  destruct (Reconcile_locked h ps req s); cbn [fst snd]; csimpl; by rewrite TryAcquire_Release.
Qed.
End plugin_lemmas.

(** ** Workers

    The workers of a reconciler run [Reconcile] on requests, any requests, call by
    call; the rest of the world changes what they act on at any time. *)

Section workers.
Context {L : K8sLib} {S : Type} (h : ReconcileHandler S) (ps : PluginList (S := S)) (Concurrency : Z).
Abbreviation Reply := (CtrlResult * option error)%type.

(** A worker has the request it runs and what is left of the run. *)
Definition Worker := (Request * prog (RState (S := S)) Reply)%type.
Record Pool := { po_state : RState (S := S); po_workers : list Worker }.
Definition finished (p : prog (RState (S := S)) Reply) : bool := match p with PStep _ _ _ => false | _ => true end.

(** [MaxConcurrentReconciles] workers. *)
Inductive pool_step : Pool → Pool → Prop :=
| wk_start req st ws : (Z.of_nat (length ws) < setup_concurrency Concurrency)%Z →
    pool_step {| po_state := st; po_workers := ws |} {| po_state := st; po_workers := (req, Reconcile_prog h ps req) :: ws |}
| wk_call st st' req p p' ws1 ws2 : p_next p st = Some (p', st') →
    pool_step {| po_state := st; po_workers := ws1 ++ (req, p) :: ws2 |}
      {| po_state := st'; po_workers := ws1 ++ (req, p') :: ws2 |}
| wk_end st req p ws1 ws2 : finished p = true →
    pool_step {| po_state := st; po_workers := ws1 ++ (req, p) :: ws2 |} {| po_state := st; po_workers := ws1 ++ ws2 |}
| wk_world s s' locks ws :
    pool_step {| po_state := (s, locks); po_workers := ws |} {| po_state := (s', locks); po_workers := ws |}.

(** A worker is busy when its next call is of the work, or the release. *)
Definition busy (w : Worker) : Prop := match w.2 with PStep Work _ _ | PStep Leave _ _ => True | _ => False end.
#[export] Instance busy_dec w : Decision (busy w).
Proof. unfold busy. destruct w as [r [a|why|[] B m k]]; apply _. Defined.
Definition busy_ids (ws : list Worker) : list string := (λ w : Worker, rq_String w.1) <$> filter busy ws.

(** Where a run can be. *)
Inductive working : prog S Reply → Prop :=
| wg_ret a : working (PRet a)
| wg_panic why : working (PPanic why)
| wg_step B (m : go S B) k : (∀ r, working (k r)) → working (PStep Work m k).
Definition placed (locked : bool) (w : Worker) : Prop :=
  w.2 = Reconcile_prog h ps w.1 ∨ finished w.2 = true ∨
  ∃ q, working q ∧ w.2 = if locked then p_defer (unlock (rq_String w.1)) (p_fst q) else p_fst q.
Record pool_ok (p : Pool) : Prop := {
  pk_placed w : w ∈ po_workers p → placed (opt_is_some (po_state p).2) w;
  pk_nodup : NoDup (busy_ids (po_workers p));
  pk_locks : match (po_state p).2 with
             | Some lock => lock = list_to_set (busy_ids (po_workers p))
             | None => (length (po_workers p) ≤ 1)%nat
             end;
}.

Lemma working_call {B} (m : go S B) (f : B → prog S Reply) : (∀ b, working (f b)) → working (p_call Work m ≫= f).
Proof. intros Hf. constructor. intros [b|why]; [apply Hf|constructor]. Qed.
Lemma working_deletion l req obj (f : Object → prog S Reply) : (∀ o, working (f o)) → working (prog_deletion l req obj ≫= f).
Proof.
  intros Hf. revert obj. induction l as [|p l IH]; intros obj; cbn [prog_deletion]; [apply Hf|].
  apply (wg_step _ (pl_HandleDeletion p req obj)). intros [[r o]|why]; [apply IH|apply wg_panic].
Qed.
Lemma working_reconcile l req obj (f : option Result * Object → prog S Reply) :
  (∀ x, working (f x)) → working (prog_reconcile l req obj ≫= f).
Proof.
  intros Hf. revert obj. induction l as [|p l IH]; intros obj; cbn [prog_reconcile]; [apply Hf|].
  apply (wg_step _ (pl_Reconcile p req obj)). intros [[r o]|why]; [|apply wg_panic]. cbn. destruct (NeedBreak r); [apply Hf|apply IH].
Qed.
Lemma working_body req : working (Reconcile_body h ps req).
Proof.
  apply working_call. intros [obj|e]; [|apply wg_ret]. destruct (Accessor obj) as [m|]; [|apply wg_ret]. destruct (opt_is_some _).
  - apply working_deletion. intros o. apply working_call. intros [r ?]. apply wg_ret.
  - apply working_reconcile. intros [[r|] o]; [apply wg_ret|]. apply working_call. intros [r' ?]. apply wg_ret.
Qed.

Lemma busy_ids_app ws1 ws2 : busy_ids (ws1 ++ ws2) = busy_ids ws1 ++ busy_ids ws2.
Proof. unfold busy_ids. by rewrite filter_app, fmap_app. Qed.
Lemma busy_ids_cons w ws : busy_ids (w :: ws) = (if decide (busy w) then [rq_String w.1] else []) ++ busy_ids ws.
Proof. unfold busy_ids. rewrite filter_cons. by case_decide. Qed.
Lemma finished_idle req p : finished p = true → ¬ busy (req, p).
Proof. destruct p; unfold busy; cbn; [intros _ []..|done]. Qed.

(** What one call does to the locks and to what is left of the run. *)
Record called (w w' : Worker) (st st' : RState (S := S)) : Prop := {
  ca_placed : placed (opt_is_some st.2) w';
  ca_locked : opt_is_some st'.2 = opt_is_some st.2;
  ca_idle : ¬ busy w → st'.1 = st.1;
  ca_locks lock : st.2 = Some lock →
    (st'.2 = Some lock ∧ (busy w' ↔ busy w)) ∨
    (¬ busy w ∧ busy w' ∧ rq_String w.1 ∉ lock ∧ st'.2 = Some ({[rq_String w.1]} ∪ lock)) ∨
    (busy w ∧ ¬ busy w' ∧ st'.2 = Some (Release (rq_String w.1) lock));
}.
Lemma busy_locked req q : working q → busy (req, p_defer (unlock (rq_String req)) (p_fst q)).
Proof. by destruct 1. Qed.
Lemma begin_granted req s lock : rq_String req ∉ lock →
  p_next (Reconcile_prog h ps req) (s, Some lock) =
  Some (p_defer (unlock (rq_String req)) (p_fst (Reconcile_body h ps req)), (s, Some ({[rq_String req]} ∪ lock))).
Proof. intros Hd. unfold p_next. cbn. unfold try_lock. cbn [fst snd]. by rewrite TryAcquire_free. Qed.
Lemma begin_refused req s lock : rq_String req ∈ lock →
  p_next (Reconcile_prog h ps req) (s, Some lock) = Some (PRet (RequeueAfter (10 * Second), None), (s, Some lock)).
Proof. intros Hd. unfold p_next. cbn. unfold try_lock. cbn [fst snd]. by rewrite TryAcquire_held. Qed.
Lemma call_begins req st p' st' : p_next (Reconcile_prog h ps req) st = Some (p', st') →
  called (req, Reconcile_prog h ps req) (req, p') st st'.
Proof.
  cbn. intros [= <- <-]. pose proof (working_body req) as Hw. unfold try_lock. destruct st as [s [lock|]]; cbn [fst snd].
  - unfold TryAcquire. case_decide as Hd; cbn.
    + split; cbn; [right; left; done|done|done|]. intros l [= <-]. left. split; [done|]. by unfold busy.
    + split; cbn; [right; right; by eexists|done|done|]. intros l [= <-]. right; left. split; [by intros []|]. split; [exact I|]. done.
  - split; cbn; [right; right; by eexists|done|done|done].
Qed.
Lemma call_works locked req q st p' st' : working q → opt_is_some st.2 = locked →
  let p := if locked then p_defer (unlock (rq_String req)) (p_fst q) else p_fst q in
  p_next p st = Some (p', st') → called (req, p) (req, p') st st'.
Proof.
  intros Hq Hl p Hn. destruct st as [s locks]. cbn [snd] in Hl. destruct Hq as [a|why|B m k Hk]; subst p; destruct locked; cbn in Hn; try discriminate Hn.
  - injection Hn as <- <-. destruct locks as [lock|]; [|done].
    split; cbn; [right; left; done|done|done|]. intros l [= <-]. right; right. split; [exact I|]. split; [by intros []|done].
  - injection Hn as <- <-. destruct locks as [lock|]; [|done].
    split; cbn; [right; left; done|done|done|]. intros l [= <-]. right; right. split; [exact I|]. split; [by intros []|done].
  - injection Hn as <- <-. unfold on_fst. cbn. split; cbn.
    + right; right. rewrite Hl. destruct (m s); by eexists.
    + by destruct (m s).
    + intros Hb. by destruct Hb.
    + intros lock ->. left. split; [by destruct (m s)|]. split; [done|]. intros _. apply busy_locked, Hk.
  - injection Hn as <- <-. destruct locks as [lock|]; [done|]. unfold on_fst. cbn. split; cbn; [|by destruct (m s)|intros Hb; by destruct Hb|done].
    right; right. destruct (m s); by eexists.
Qed.
Lemma call_placed st req p p' st' : placed (opt_is_some st.2) (req, p) → p_next p st = Some (p', st') → called (req, p) (req, p') st st'.
Proof.
  intros [H|[H|(q & Hq & H)]] Hn; cbn [fst snd] in H.
  - subst p. by apply call_begins.
  - by destruct p.
  - subst p. by apply call_works.
Qed.

Lemma busy_ids_one w ws1 ws2 : busy_ids (ws1 ++ w :: ws2) ≡ₚ (if decide (busy w) then [rq_String w.1] else []) ++ busy_ids (ws1 ++ ws2).
Proof. rewrite !busy_ids_app, busy_ids_cons. solve_Permutation. Qed.
Lemma pool_ok_locks st ws ws' : busy_ids ws' ≡ₚ busy_ids ws → (length ws' ≤ length ws)%nat →
  match st.2 with Some lock => lock = list_to_set (busy_ids ws) | None => (length ws ≤ 1)%nat end →
  match (st : RState (S := S)).2 with Some lock => lock = list_to_set (busy_ids ws') | None => (length ws' ≤ 1)%nat end.
Proof. intros Hp Hl. destruct st.2 as [lock|]; [intros ->|lia]. apply list_to_set_perm_L. by symmetry. Qed.

Lemma pool_step_ok p p' : (∀ st, (po_state p).2 = None → st = po_state p → (Concurrency <= 1)%Z) → pool_step p p' → pool_ok p → pool_ok p'.
Proof.
  intros Hc Hstep [Hp Hn Hk]. destruct Hstep as [req st ws Hlt|st st' req p p' ws1 ws2 Hnext|st req p ws1 ws2 Hf|s s' locks ws]; cbn [po_state po_workers] in *.
  - (* a request begins: its next call asks for the lock *)
    assert (busy_ids ((req, Reconcile_prog h ps req) :: ws) = busy_ids ws) as E by (rewrite busy_ids_cons; by rewrite decide_False by (intros [])).
    split; cbn [po_state po_workers]; rewrite ?E; [|done|].
    + intros w [->|Hw]%elem_of_cons; [by left|by apply Hp].
    + destruct (st.2) eqn:El; [done|]. specialize (Hc st eq_refl eq_refl). unfold setup_concurrency in Hlt. cbn [length].
      destruct (decide _); lia.
  - (* a call *)
    destruct (call_placed st req p p' st') as [Hpl Hlk _ Hl]; [apply Hp, elem_of_app; right; left|done|].
    assert (∀ w, w ∈ po_workers {| po_state := st'; po_workers := ws1 ++ (req, p') :: ws2 |} → placed (opt_is_some st'.2) w) as Hplaced.
    { cbn [po_workers]. rewrite Hlk. intros w Hw. rewrite elem_of_app, elem_of_cons in Hw.
      destruct Hw as [Hw|[->|Hw]]; [|done|]; apply Hp; rewrite elem_of_app, elem_of_cons; auto. }
    pose proof (busy_ids_one (req, p) ws1 ws2) as E. pose proof (busy_ids_one (req, p') ws1 ws2) as E'. cbn [fst] in E, E'.
    destruct st.2 as [lock|] eqn:El.
    + subst lock. destruct (Hl _ eq_refl) as [[Hst Hb]|[(Hb & Hb' & Hnin & Hst)|(Hb & Hb' & Hst)]]; split; cbn [po_state po_workers]; try exact Hplaced; rewrite ?Hst.
      * rewrite E', (decide_ext _ _ _ _ Hb), <- E. done.
      * apply list_to_set_perm_L. by rewrite E, E', (decide_ext _ _ _ _ Hb).
      * rewrite decide_False in E by done. rewrite decide_True in E' by done. rewrite E'. constructor; [|by rewrite <- E].
        intros Hin. apply Hnin. apply elem_of_list_to_set. by rewrite E.
      * rewrite decide_False in E by done. rewrite decide_True in E' by done.
        rewrite (list_to_set_perm_L _ _ E), (list_to_set_perm_L _ _ E'). done.
      * rewrite decide_True in E by done. rewrite decide_False in E' by done. rewrite E in Hn. apply NoDup_cons in Hn as [_ Hn]. by rewrite E'.
      * rewrite decide_True in E by done. rewrite decide_False in E' by done. rewrite E in Hn. apply NoDup_cons in Hn as [Hni _].
        rewrite (list_to_set_perm_L _ _ E), (list_to_set_perm_L _ _ E'). unfold Release. cbn [app list_to_set] in *.
        assert (rq_String req ∉ (list_to_set (busy_ids (ws1 ++ ws2)) : gset string)) by (by rewrite elem_of_list_to_set). set_solver.
    + cbn [opt_is_some] in Hlk. destruct st'.2 eqn:El'; [done|]. rewrite length_app in Hk. cbn [length] in Hk.
      split; cbn [po_state po_workers]; [by rewrite El'| |rewrite El', length_app; cbn [length]; lia].
      rewrite E'. destruct ws1, ws2; cbn [length app] in *; try lia. destruct (decide (busy (req, p'))); [apply NoDup_singleton|constructor].
  - (* a run is over *)
    assert (busy_ids (ws1 ++ (req, p) :: ws2) ≡ₚ busy_ids (ws1 ++ ws2)) as E by (rewrite busy_ids_one, decide_False by (by apply finished_idle); done).
    split; cbn [po_state po_workers].
    + intros w Hw. apply Hp. rewrite elem_of_app, elem_of_cons in *. tauto.
    + by rewrite <- E.
    + apply (pool_ok_locks st (ws1 ++ (req, p) :: ws2)); [by symmetry|rewrite !length_app; cbn; lia|done].
  - by split.
Qed.

(** The pool that [SetupWithManager] makes, and what its workers may come to. *)
Definition pool_start (s : S) : Pool := {| po_state := (s, setup_locks Concurrency); po_workers := [] |}.
Lemma pool_reached s p : rtc pool_step (pool_start s) p → pool_ok p ∧ opt_is_some (po_state p).2 = opt_is_some (setup_locks Concurrency).
Proof.
  intros H. assert (pool_ok (pool_start s)) as H0.
  { split; cbn; [intros w Hw; by apply elem_of_nil in Hw|constructor|]. unfold setup_locks. case_decide; cbn; [done|lia]. }
  assert (opt_is_some (po_state (pool_start s)).2 = opt_is_some (setup_locks Concurrency)) as H1 by done.
  revert H0 H1. induction H as [|x y z Hxy _ IH]; [done|]. intros H0 H1. apply IH.
  - apply (pool_step_ok x); [|done|done]. intros _ Hn _. rewrite Hn in H1. unfold setup_locks, setup_concurrency in H1.
    destruct (decide (Concurrency <= 0)%Z); [lia|]. destruct (decide (Concurrency > 1)%Z); [done|lia].
  - rewrite <- H1. destruct Hxy as [| st st' req p p' ws1 ws2 Hnext| |]; cbn in *; try done.
    destruct (call_placed st req p p' st') as [_ Hlk _ _]; [apply (pk_placed _ H0), elem_of_app; right; left|done|done].
Qed.

(** C28. The workers of a reconciler run [Reconcile] on any requests, interrupted by
    each other and by the world at every call, some of them panicking. In every
    interleaving, for every concurrency the reconciler is set up with, no two
    workers are at the same object between taking its lock and releasing it; where
    there are locks, the lock set is exactly the set of the objects being worked
    on, so that no lock leaks and none is lost, and where there are none there is
    one worker; and a call that is made without the lock, taking it, leaves alone
    what the handlers act on. *)
Theorem workers_exclusive (s : S) (p : Pool) : rtc pool_step (pool_start s) p →
  NoDup (busy_ids (po_workers p)) ∧
  match (po_state p).2 with
  | Some lock => lock = list_to_set (busy_ids (po_workers p))
  | None => (length (po_workers p) ≤ 1)%nat
  end ∧
  ∀ w q st', w ∈ po_workers p → ¬ busy w → p_next w.2 (po_state p) = Some (q, st') → st'.1 = (po_state p).1.
Proof.
  intros H. destruct (pool_reached s p H) as [[Hp Hn Hk] _]. split; [done|]. split; [done|]. intros w q st' Hw Hb Hq.
  destruct w as [req r]. by destruct (call_placed (po_state p) req r q st' (Hp _ Hw) Hq) as [_ _ Hi _]; apply Hi.
Qed.
End workers.

(** [Reconcile] with locks never works on an object whose lock is held: it
    asks to be called again ten seconds later and changes nothing. When the
    lock is free it does what it would do without locks, and on every path,
    errors and panics included, the lock set is afterwards what it was. *)
Lemma Reconcile_locks {L : K8sLib} {S} (h : ReconcileHandler S) ps req (s : S) lock :
  (rq_String req ∈ lock →
     Reconcile h ps req (s, Some lock) = Ret (RequeueAfter (10 * Second), None) (s, Some lock)) ∧
  (rq_String req ∉ lock →
     run_val (Reconcile h ps req (s, Some lock)) = run_val (Reconcile h ps req (s, None)) ∧
     run_state (Reconcile h ps req (s, Some lock)) =
       ((run_state (Reconcile h ps req (s, None))).1, Some lock)).
Proof.
  split; intros Hin.
  - rewrite Reconcile_run. cbn [snd]. by rewrite TryAcquire_held.
  - rewrite Reconcile_acquired by done. rewrite !Reconcile_run. unfold on_fst. cbn [fst snd].
    by destruct (Reconcile_locked h ps req s).
Qed.

(** ** Instances *)

Definition ex_req : Request := {| rq_Namespace := "obnvmf"; rq_Name := "vol" |}.
Definition ex_handler : @ReconcileHandler NanoLib nat := {|
  rh_ResourceName := "X";
  rh_GetObject := λ _ n, Ret (inl (OVolume AntstorVolume_zero)) (n + 1);
  rh_HandleReconcile := λ _ o n, Ret (Result_zero, o) (n + 1);
  rh_HandleDeletion := λ _ o n, Panic "unexpected" n |}.

Definition ex_req2 : Request := {| rq_Namespace := "obnvmf"; rq_Name := "other" |}.
(** Three workers: two have the locks of their objects and have fetched nothing yet,
    the third was asked for the first one's object again and was refused. *)
Definition ex_workers : Pool := {|
  po_state := (0, Some {["obnvmf/other"; "obnvmf/vol"]});
  po_workers := [(ex_req, PRet (RequeueAfter (10 * Second), None));
    (ex_req2, p_defer (unlock "obnvmf/other") (p_fst (Reconcile_body ex_handler [] ex_req2)));
    (ex_req, p_defer (unlock "obnvmf/vol") (p_fst (Reconcile_body ex_handler [] ex_req)))] |}.
Lemma ex_pool_reached : rtc (pool_step ex_handler [] 3) (pool_start 3 0) ex_workers.
Proof.
  eapply rtc_l; [apply (wk_start _ _ _ ex_req); vm_compute; reflexivity|].
  eapply rtc_l; [eapply (wk_call _ _ _ _ _ ex_req _ _ [] []); apply begin_granted, not_elem_of_empty|].
  eapply rtc_l; [apply (wk_start _ _ _ ex_req2); vm_compute; reflexivity|].
  eapply rtc_l; [eapply (wk_call _ _ _ _ _ ex_req2 _ _ []); apply begin_granted; unfold rq_String; cbn; set_solver|].
  eapply rtc_l; [apply (wk_start _ _ _ ex_req); vm_compute; reflexivity|].
  eapply rtc_l; [eapply (wk_call _ _ _ _ _ ex_req _ _ []); apply begin_refused; unfold rq_String; cbn; set_solver|].
  cbn [app]. unfold ex_workers.
  assert ({[rq_String ex_req2]} ∪ ({[rq_String ex_req]} ∪ NewResourceLocks) = ({["obnvmf/other"; "obnvmf/vol"]} : gset string)) as E.
  { change (rq_String ex_req2) with "obnvmf/other". change (rq_String ex_req) with "obnvmf/vol". unfold NewResourceLocks. set_solver. }
  rewrite E. apply rtc_refl.
Qed.
Lemma workers_exclusive_witness :
  busy_ids (po_workers ex_workers) = ["obnvmf/other"; "obnvmf/vol"] ∧ NoDup (busy_ids (po_workers ex_workers)) ∧
  (po_state ex_workers).2 = Some (list_to_set (busy_ids (po_workers ex_workers))).
Proof.
  destruct (workers_exclusive ex_handler [] 3 0 ex_workers ex_pool_reached) as (Hn & Hl & _).
  split; [vm_compute; reflexivity|]. split; [exact Hn|]. cbn [ex_workers po_state snd] in *. rewrite Hl at 1. reflexivity.
Defined.

Lemma Reconcile_locks_witness :
  Reconcile ex_handler [] ex_req (0, Some {["obnvmf/vol"]}) =
    Ret (RequeueAfter (10 * Second), None) (0, Some {["obnvmf/vol"]}) ∧
  run_state (Reconcile ex_handler [] ex_req (0, Some ∅)) =
    ((run_state (Reconcile ex_handler [] ex_req (0, None))).1, Some ∅).
Proof.
  split.
  - apply (Reconcile_locks ex_handler [] ex_req 0 {["obnvmf/vol"]}). by apply elem_of_singleton.
  - apply (Reconcile_locks ex_handler [] ex_req 0 ∅). apply not_elem_of_empty.
Defined.
