(* ===== verification/Server.v ===== *)
(** * API servers to state properties with

    The code talks to the API server through [KubeClient]. Two servers are
    described here. [Recording] wraps any server and writes down the calls that
    change objects, so that a property can speak about what a handler asks for
    whatever the server answers. [StoreLaws] describes a server that keeps
    objects and is not disturbed by other writers: an update or a patch leaves
    the status alone, a status update changes nothing else, an object that is
    being deleted disappears with its last finalizer. [MemStore] is such a
    server. *)

From Stdlib Require Import ZArith Lia.
From stdpp Require Import base gmap strings option list.
From S2P Require Import Prelude Float64 Misc K8s Api State.

(** ** Recording the writes *)

Inductive Write (T : Type) :=
| WCreate (obj : T)
| WUpdate (obj : T)
| WUpdateStatus (obj : T)
| WPatch (base obj : T)
| WPatchStatus (base obj : T)
| WDelete (obj : T).
Arguments WCreate {T}.
Arguments WUpdate {T}.
Arguments WUpdateStatus {T}.
Arguments WPatch {T}.
Arguments WPatchStatus {T}.
Arguments WDelete {T}.

(** The world with the log of the writes, the last one first. *)
Definition Logged (W E : Type) := (W * list E)%type.

Definition logged {W E A} (e : E) (m : go W A) : go (Logged W E) A :=
  _ ← gmodify (λ wl : Logged W E, (wl.1, e :: wl.2)); on_fst m.

Definition Recording {W T E} (K : KubeClient W T) (inj : Write T → E) : KubeClient (Logged W E) T := {|
  kGet ns name := on_fst (kGet (T := T) ns name);
  kCreate o := logged (inj (WCreate o)) (kCreate o);
  kUpdate o := logged (inj (WUpdate o)) (kUpdate o);
  kUpdateStatus o := logged (inj (WUpdateStatus o)) (kUpdateStatus o);
  kPatch b o := logged (inj (WPatch b o)) (kPatch b o);
  kPatchStatus b o := logged (inj (WPatchStatus b o)) (kPatchStatus b o);
  kDelete o := logged (inj (WDelete o)) (kDelete o);
|}.

Lemma logged_run {W E A} (e : E) (m : go W A) w log :
  logged e m (w, log) = match m w with
                        | Ret a w' => Ret a (w', e :: log)
                        | Panic why w' => Panic why (w', e :: log)
                        end.
Proof. reflexivity. Qed.

(** ** Objects with metadata and a status *)

Class KubeObject (T : Type) := {
  ko_meta : T → ObjectMeta;
  ko_with_status : T → T → T;  (** the first object with the second one's status *)
  ko_with_meta : ObjectMeta → T → T;
}.

Definition ko_key {T} `{KubeObject T} (o : T) : string * string :=
  (om_Namespace (ko_meta o), om_Name (ko_meta o)).
(** An object being deleted stays as long as it has finalizers. *)
Definition ko_gone {T} `{KubeObject T} (o : T) : bool :=
  opt_is_some (om_DeletionTimestamp (ko_meta o)) && bool_decide (om_Finalizers (ko_meta o) = []).
Definition store_put {T} `{KubeObject T} (o : T) (m : gmap (string * string) T) :
    gmap (string * string) T :=
  if ko_gone o then delete (ko_key o) m else <[ko_key o := o]> m.

(** ** A server that keeps objects *)

Class StoreLaws {W T} (K : KubeClient W T) `{KubeObject T} := {
  sl_view : W → gmap (string * string) T;
  sl_get ns name w o : sl_view w !! (ns, name) = Some o →
    ∃ w', kGet ns name w = Ret (inl o) w' ∧ sl_view w' = sl_view w;
  sl_get_none ns name w : sl_view w !! (ns, name) = None →
    ∃ e w', kGet ns name w = Ret (inr e) w' ∧ IsNotFound e = true ∧ sl_view w' = sl_view w;
  sl_create o w : sl_view w !! ko_key o = None →
    ∃ w', kCreate o w = Ret (inl o) w' ∧ sl_view w' = <[ko_key o := o]> (sl_view w);
  sl_update o w old : sl_view w !! ko_key o = Some old →
    ∃ w', kUpdate o w = Ret (inl (ko_with_status o old)) w' ∧
          sl_view w' = store_put (ko_with_status o old) (sl_view w);
  sl_update_status o w old : sl_view w !! ko_key o = Some old →
    ∃ w', kUpdateStatus o w = Ret (inl (ko_with_status old o)) w' ∧
          sl_view w' = store_put (ko_with_status old o) (sl_view w);
  (** A merge patch computed from the object the server holds. *)
  sl_patch o w old : sl_view w !! ko_key o = Some old →
    ∃ w', kPatch old o w = Ret (inl (ko_with_status o old)) w' ∧
          sl_view w' = store_put (ko_with_status o old) (sl_view w);
  sl_patch_status o w old : sl_view w !! ko_key o = Some old →
    ∃ w', kPatchStatus old o w = Ret (inl (ko_with_status old o)) w' ∧
          sl_view w' = store_put (ko_with_status old o) (sl_view w);
}.

(** ** An instance *)

Abbreviation MemStore T := (gmap (string * string) T).

Section mem.
Context {T : Type} `{KubeObject T}.

Definition mem_not_found (name : string) : error := ErrAPI ReasonNotFound (name +:+ " not found").

Definition mem_write (change : T → T) (key : string * string) : go (MemStore T) (result T) := λ m,
  match m !! key with
  | Some old => Ret (inl (change old)) (store_put (change old) m)
  | None => Ret (inr (mem_not_found key.2)) m
  end.

Definition mem_delete (o : T) : go (MemStore T) (option error) := λ m,
  match m !! ko_key o with
  | Some old =>
      if decide (om_Finalizers (ko_meta old) = []) then Ret None (delete (ko_key o) m)
      else
        let meta := ko_meta old in
        Ret None (<[ko_key o := ko_with_meta
          {| om_Name := om_Name meta; om_Namespace := om_Namespace meta; om_UID := om_UID meta;
             om_CreationTimestamp := om_CreationTimestamp meta;
             om_DeletionTimestamp := Some (default 0%Z (om_DeletionTimestamp meta));
             om_Labels := om_Labels meta; om_Annotations := om_Annotations meta;
             om_OwnerReferences := om_OwnerReferences meta;
             om_Finalizers := om_Finalizers meta |} old]> m)
  | None => Ret (Some (mem_not_found (ko_key o).2)) m
  end.

#[export] Instance MemClient : KubeClient (MemStore T) T := {|
  kGet ns name := λ m, Ret (match m !! (ns, name) with
                            | Some o => inl o
                            | None => inr (mem_not_found name) end) m;
  kCreate o := λ m, match m !! ko_key o with
                    | Some _ => Ret (inr (ErrAPI ReasonAlreadyExists "already exists")) m
                    | None => Ret (inl o) (<[ko_key o := o]> m)
                    end;
  kUpdate o := mem_write (ko_with_status o) (ko_key o);
  kUpdateStatus o := mem_write (λ old, ko_with_status old o) (ko_key o);
  kPatch _ o := mem_write (ko_with_status o) (ko_key o);
  kPatchStatus _ o := mem_write (λ old, ko_with_status old o) (ko_key o);
  kDelete o := mem_delete o;
|}.

#[export] Instance MemLaws : StoreLaws MemClient.
Proof.
  refine {| sl_view := λ m : MemStore T, m |};
    intros *; unfold kGet, kCreate, kUpdate, kUpdateStatus, kPatch, kPatchStatus, MemClient, mem_write;
    intros E; rewrite E; eauto.
Defined.
End mem.

(** ** Two servers side by side *)

Definition client_fst {W1 W2 T} (K : KubeClient W1 T) : KubeClient (W1 * W2) T := {|
  kGet ns name := on_fst (kGet ns name);
  kCreate o := on_fst (kCreate o);
  kUpdate o := on_fst (kUpdate o);
  kUpdateStatus o := on_fst (kUpdateStatus o);
  kPatch b o := on_fst (kPatch b o);
  kPatchStatus b o := on_fst (kPatchStatus b o);
  kDelete o := on_fst (kDelete o);
|}.
Definition client_snd {W1 W2 T} (K : KubeClient W2 T) : KubeClient (W1 * W2) T := {|
  kGet ns name := on_snd (kGet ns name);
  kCreate o := on_snd (kCreate o);
  kUpdate o := on_snd (kUpdate o);
  kUpdateStatus o := on_snd (kUpdateStatus o);
  kPatch b o := on_snd (kPatch b o);
  kPatchStatus b o := on_snd (kPatchStatus b o);
  kDelete o := on_snd (kDelete o);
|}.

Definition laws_fst {W1 W2 T} (K : KubeClient W1 T) `{KubeObject T} (HK : StoreLaws K) :
  StoreLaws (client_fst (W2 := W2) K).
Proof.
  refine {| sl_view := λ w : W1 * W2, sl_view w.1 |};
    intros *; unfold kGet, kCreate, kUpdate, kUpdateStatus, kPatch, kPatchStatus, client_fst, on_fst; intros E.
  - destruct (sl_get _ _ _ _ E) as (w' & -> & Hv). by exists (w', w.2).
  - destruct (sl_get_none _ _ _ E) as (e & w' & -> & He & Hv). by exists e, (w', w.2).
  - destruct (sl_create _ _ E) as (w' & -> & Hv). by exists (w', w.2).
  - destruct (sl_update _ _ _ E) as (w' & -> & Hv). by exists (w', w.2).
  - destruct (sl_update_status _ _ _ E) as (w' & -> & Hv). by exists (w', w.2).
  - destruct (sl_patch _ _ _ E) as (w' & -> & Hv). by exists (w', w.2).
  - destruct (sl_patch_status _ _ _ E) as (w' & -> & Hv). by exists (w', w.2).
Defined.
Definition laws_snd {W1 W2 T} (K : KubeClient W2 T) `{KubeObject T} (HK : StoreLaws K) :
  StoreLaws (client_snd (W1 := W1) K).
Proof.
  refine {| sl_view := λ w : W1 * W2, sl_view w.2 |};
    intros *; unfold kGet, kCreate, kUpdate, kUpdateStatus, kPatch, kPatchStatus, client_snd, on_snd; intros E.
  - destruct (sl_get _ _ _ _ E) as (w' & -> & Hv). by exists (w.1, w').
  - destruct (sl_get_none _ _ _ E) as (e & w' & -> & He & Hv). by exists e, (w.1, w').
  - destruct (sl_create _ _ E) as (w' & -> & Hv). by exists (w.1, w').
  - destruct (sl_update _ _ _ E) as (w' & -> & Hv). by exists (w.1, w').
  - destruct (sl_update_status _ _ _ E) as (w' & -> & Hv). by exists (w.1, w').
  - destruct (sl_patch _ _ _ E) as (w' & -> & Hv). by exists (w.1, w').
  - destruct (sl_patch_status _ _ _ E) as (w' & -> & Hv). by exists (w.1, w').
Defined.

(** ** The resources as objects *)

#[export] Instance vol_KubeObject : KubeObject AntstorVolume := {|
  ko_meta := vol_meta;
  ko_with_status o old := vol_set_Status (vol_Status old) o;
  ko_with_meta := vol_set_meta;
|}.
#[export] Instance mig_KubeObject : KubeObject VolumeMigration := {|
  ko_meta := mig_meta;
  ko_with_status o old := mig_set_Status (mig_Status old) o;
  ko_with_meta := mig_set_meta;
|}.
#[export] Instance sp_KubeObject {L : K8sLib} : KubeObject StoragePool := {|
  ko_meta := sp_meta;
  ko_with_status o old := sp_set_Status (sp_Status old) o;
  ko_with_meta := sp_set_meta;
|}.

Section resources.
Context {L : K8sLib}.

Definition StoragePool_zero : StoragePool := {|
  sp_meta := ObjectMeta_zero; sp_Spec := StoragePoolSpec_zero;
  sp_Status := {| spst_Capacity := None; spst_VGFreeSize := Quantity_zero; spst_Conditions := [];
                  spst_Status := ""; spst_Message := "" |} |}.

(** What the manager's handlers act on: its state and the API server. *)
Definition ManagerWorld (W : Type) := (State * W)%type.

Definition state_op {A} (f : State → State * A) : go State A := λ s, Ret (f s).2 (f s).1.
End resources.

(** The result of a call that writes an object: the object is the server's on
    success and stays as it was otherwise. *)
Definition wrote {T} (o : T) (r : result T) : T * option error :=
  match r with inl o' => (o', None) | inr e => (o, Some e) end.
