(* ===== verification/VolumeReconciler.v ===== *)
(** * The volume reconciler

    [reconciler/volume_reconciler.go]: the handler that gives a volume its
    labels and initial status, schedules it, binds it to a node of the state,
    and takes its finalizers away when it is deleted. It acts on the manager's
    state and the API server, whose answers are arbitrary unless a theorem says
    otherwise. *)

From Stdlib Require Import ZArith Lia.
From stdpp Require Import base gmap strings option list.
From S2P Require Import Prelude Strconv Float64 Misc K8s Api State Filter Sched Plugin Server.

Section handler.
Context {L : K8sLib} {W : Type}.
Context {KV : KubeClient W AntstorVolume} {KP : KubeClient W StoragePool}.

Abbreviation MW := (ManagerWorld W).

(** The generated client of pools: it returns a pointer to the object it
    decoded into, which is never nil, also when the call fails. *)
Definition pools_Get (name : string) : go W (option StoragePool * option error) :=
  r ← kGet (T := StoragePool) DefaultNamespace name;
  mret match r with
       | inl p => (Some p, None)
       | inr e => (Some StoragePool_zero, Some e)
       end.

(** [volume.Labels[k] = v]. *)
Definition vol_put_label {S} (k v : string) (vol : AntstorVolume) : go S AntstorVolume :=
  l ← map_put (om_Labels (vol_meta vol)) k v;
  mret (vol_set_labels l vol).

(** The finalizers of the agent, left behind when a node fails. *)
Definition drop_agent_finalizers (l : list string) : list string :=
  List.filter (λ item, negb (bool_decide (item = KernelLVolFinalizer) ||
                             bool_decide (item = SpdkTargetFinalizer))) l.

(** The three updates of [handleDeletion]. *)
Definition update_finalizers (f : list string) (volume : AntstorVolume) : go MW (Result * Object) :=
  let volume1 := vol_set_finalizers f volume in
  r ← on_snd (kUpdate volume1);
  let '(volume2, err) := wrote volume1 r in
  mret (result_err err, OVolume volume2).

(* [reconciler/volume_reconciler.go:93-177] AntstorVolumeReconcileHandler.handleDeletion *)
Definition vol_handleDeletion (now : Z) (obj : Object) : go MW (Result * Object) :=
  match obj with
  | OVolume volume =>
      let finalizers := om_Finalizers (vol_meta volume) in
      let uuid := vs_Uuid (vol_Spec volume) in
      if bool_decide (length finalizers = 1%nat) && Contains finalizers InStateFinalizer then
        _ ← on_fst (state_op (UnbindAntstorVolume uuid));
        update_finalizers [] volume
      else
        got ← on_snd (pools_Get (vs_TargetNodeId (vol_Spec volume)));
        let '(targetPool, err) := (got : option StoragePool * option error) in
        match IgnoreNotFound err, targetPool with
        | Some e, _ => mret (result_err (Some e), obj)
        | None, None =>
            _ ← on_fst (state_op (UnbindAntstorVolume uuid));
            update_finalizers [] volume
        | None, Some targetPool =>
            del ← deref "DeletionTimestamp" (om_DeletionTimestamp (vol_meta volume));
            let sinceDel := time_Since now del in
            let isPoolNotReady := bool_decide (spst_Status (sp_Status targetPool) ≠ PoolStatusReady) in
            if bool_decide (20 * Minute <= sinceDel)%Z && isPoolNotReady &&
               bool_decide (1 < length finalizers)%nat
            then update_finalizers (drop_agent_finalizers finalizers) volume
            else mret (result_after (2 * Minute), obj)
        end
  | _ => mret (Result_zero, obj)
  end.

(** The end of [validateAndMutate], once the volume is bound: the label and the
    finalizer, and one patch when one of them was missing. *)
Definition vol_mark (base volume : AntstorVolume) : go MW (Result * AntstorVolume) :=
  let target := vs_TargetNodeId (vol_Spec volume) in
  let noLabel := negb (map_has (om_Labels (vol_meta volume)) TargetNodeIdLabelKey) in
  volume1 ← (if noLabel then vol_put_label TargetNodeIdLabelKey target volume else mret volume);
  let noFinalizer := negb (InSliceString InStateFinalizer (om_Finalizers (vol_meta volume1))) in
  let volume2 := if noFinalizer
    then vol_set_finalizers (om_Finalizers (vol_meta volume1) ++ [InStateFinalizer]) volume1
    else volume1 in
  if noLabel || noFinalizer then
    r ← on_snd (kPatch base volume2);
    let '(volume3, err) := wrote volume2 r in
    mret (result_err err, volume3)
  else mret (Result_zero, volume2).

(** The last part of [validateAndMutate]: a scheduled volume is bound. *)
Definition vol_bind (volume : AntstorVolume) : go MW (Result * AntstorVolume) :=
  if decide (vs_TargetNodeId (vol_Spec volume) ≠ "") then
    err ← on_fst (state_op (BindAntstorVolume (vs_TargetNodeId (vol_Spec volume)) volume));
    match err with
    | Some e => mret (result_err (Some e), volume)
    | None => vol_mark volume volume
    end
  else mret (Result_zero, volume).

(** The layouts the annotation may name. *)
Definition lv_layout_ok (volume : AntstorVolume) : bool :=
  match map_get (om_Annotations (vol_meta volume)) LvLayoutAnnoKey with
  | Some val => InSliceString val [""; LVLayoutLinear; LVLayoutStriped]
  | None => true
  end.

(* [reconciler/volume_reconciler.go:179-287] AntstorVolumeReconcileHandler.validateAndMutate *)
Definition vol_validateAndMutate (volume : AntstorVolume) : go MW (Result * AntstorVolume) :=
  if decide (vs_Uuid (vol_Spec volume) = "") then mret (result_after (2 * Minute), volume)
  else if negb (map_has (om_Labels (vol_meta volume)) UuidLabelKey) &&
          bool_decide (vs_Uuid (vol_Spec volume) ≠ "") then
    volume1 ← vol_put_label UuidLabelKey (vs_Uuid (vol_Spec volume)) volume;
    r ← on_snd (kPatch volume volume1);
    let '(volume2, err) := wrote volume1 r in
    match err with
    | Some e => mret (result_err (Some e), volume2)
    | None => mret (result_break None, volume2)
    end
  else if decide (vst_Status (vol_Status volume) = "") then
    let volume1 := vol_set_status VolumeStatusCreating volume in
    r ← on_snd (kUpdateStatus volume1);
    let '(volume2, err) := wrote volume1 r in
    mret (result_break err, volume2)
  else if negb (lv_layout_ok volume) then
    let volume1 := vol_set_message
      ("invalide value of Anno obnvmf/lv-layout=" +:+
       map_str (om_Annotations (vol_meta volume)) LvLayoutAnnoKey) volume in
    r ← on_snd (kUpdateStatus volume1);
    let '(volume2, err) := wrote volume1 r in
    match err with
    | Some e => mret (result_err (Some e), volume2)
    | None => mret (result_break None, volume2)
    end
  else vol_bind volume.

(** The interface [SchedulerIface]: a scheduler works on the list of all nodes,
    which are the nodes of the state. *)
Definition Scheduler := AntstorVolume → go (list Node) (NodeInfo * AntstorVolume * option error).

Definition set_all_nodes (nodes : list Node) (s : State) : State :=
  st_set_NodeMap (list_to_map (zip (map_to_list (NodeMap s)).*1 nodes)) s.

Definition run_scheduler {A} (m : go (list Node) A) : go State A := λ s,
  match m (GetAllNodes s) with
  | Ret a nodes => Ret a (set_all_nodes nodes s)
  | Panic why nodes => Panic why (set_all_nodes nodes s)
  end.

(** Saving the node the scheduler chose: binding, then one patch. *)
Definition vol_assign (base volume : AntstorVolume) (nodeID : string) : go MW (Result * AntstorVolume) :=
  err ← on_fst (state_op (BindAntstorVolume nodeID volume));
  match err with
  | Some e => mret (result_err (Some e), volume)
  | None =>
      let volume1 := if map_is_nil (om_Labels (vol_meta volume))
                     then vol_set_labels map_make volume else volume in
      volume2 ← vol_put_label TargetNodeIdLabelKey nodeID (vol_set_target nodeID volume1);
      let volume3 := vol_set_status VolumeStatusCreating volume2 in
      r ← on_snd (kPatch base volume3);
      let '(volume4, err) := wrote volume3 r in
      match err with
      | Some e => mret (result_err (Some e), volume4)
      | None => mret (result_break None, volume4)
      end
  end.

(** No pool fits: the reason is saved once, and the volume tried again. *)
Definition vol_no_pool (volume : AntstorVolume) (err : error) : go MW (Result * AntstorVolume) :=
  volume' ← (if negb (str_contains (vst_Message (vol_Status volume)) NoStoragePoolAvailable) then
               let volume1 := vol_set_status VolumeStatusCreating
                                (vol_set_message (error_msg err) volume) in
               r ← on_snd (kUpdateStatus volume1);
               mret (wrote volume1 r).1
             else mret volume);
  mret ({| res_Result := RequeueAfter (20 * Second); res_Error := None; res_Break := true |}, volume').

(* [reconciler/volume_reconciler.go:289-373] AntstorVolumeReconcileHandler.scheduleVolume *)
Definition vol_scheduleVolume (scheduler : option Scheduler) (volume : AntstorVolume)
    : go MW (Result * AntstorVolume) :=
  match scheduler with
  | Some sched =>
      if decide (vs_TargetNodeId (vol_Spec volume) = "") then
        s ← on_fst gget;
        let bound := match GetVolumeByID (vs_Uuid (vol_Spec volume)) (s : State) with
                     | inl boundVol => vs_TargetNodeId (vol_Spec boundVol)
                     | inr _ => ""
                     end in
        if decide (bound ≠ "") then
          let volume1 := vol_set_target bound volume in
          r ← on_snd (kUpdate volume1);
          let '(volume2, err) := wrote volume1 r in
          match err with
          | Some e => mret (result_err (Some e), volume2)
          | None => mret (result_break None, volume2)
          end
        else
          res ← on_fst (run_scheduler (sched volume));
          let '(nodeInfo, volume1, err) := (res : NodeInfo * AntstorVolume * option error) in
          match err with
          | Some e => if IsNoStoragePoolAvailable (Some e) then vol_no_pool volume1 e
                      else mret (result_err (Some e), volume1)
          | None => vol_assign volume volume1 (ni_ID nodeInfo)
          end
      else mret (Result_zero, volume)
  | None => mret (Result_zero, volume)
  end.

(* [reconciler/volume_reconciler.go:60-91] AntstorVolumeReconcileHandler.HandleReconcile *)
Definition vol_HandleReconcile (scheduler : option Scheduler) (obj : Object)
    : go MW (Result * Object) :=
  match obj with
  | OVolume volume =>
      if vs_StopReconcile (vol_Spec volume) then mret (Result_zero, obj)
      else
        '(result, volume1) ← vol_validateAndMutate volume;
        if NeedBreak result then mret (result, OVolume volume1)
        else
          '(result', volume2) ← vol_scheduleVolume scheduler volume1;
          mret (result', OVolume volume2)
  | _ => mret (result_err (Some (ErrNew "object is not *v1.AntstorVolume")), obj)
  end.

(* [reconciler/volume_reconciler.go:49-53] AntstorVolumeReconcileHandler.GetObject *)
Definition vol_GetObject (req : Request) : go MW (result Object) :=
  r ← on_snd (kGet (T := AntstorVolume) (rq_Namespace req) (rq_Name req));
  mret match r with inl vol => inl (OVolume vol) | inr e => inr e end.

(* [reconciler/volume_reconciler.go:33-58] AntstorVolumeReconcileHandler *)
Definition AntstorVolumeReconcileHandler (now : Z) (scheduler : option Scheduler)
    : ReconcileHandler MW := {|
  rh_ResourceName := "AntstorVolume";
  rh_GetObject := vol_GetObject;
  rh_HandleReconcile _ := vol_HandleReconcile scheduler;
  rh_HandleDeletion _ := vol_handleDeletion now;
|}.
End handler.

(** ** Deletion *)

(** What the handlers of this file write: volumes, never pools. *)
Abbreviation VolWrite := (Write AntstorVolume).

Section deletion.
Context {L : K8sLib} {W : Type}.
Implicit Types (vol : AntstorVolume) (s : State).

Lemma Unbind_unresolvable uuid s s' err :
  UnbindAntstorVolume uuid s = (s', err) → ∃ e, GetVolumeByID uuid s' = inr e.
Proof.
  unfold UnbindAntstorVolume, GetVolumeByID. destruct (volIDMap s !! uuid) as [id|] eqn:E.
  - destruct (NodeMap s !! id) as [n|] eqn:En; intros [= <- <-]; cbn.
    + rewrite lookup_delete_eq. eauto.
    + rewrite E, En. eauto.
  - intros [= <- <-]. rewrite E. eauto.
Qed.

Lemma drop_agent_finalizers_spec l x :
  x ∈ drop_agent_finalizers l ↔ x ∈ l ∧ x ≠ KernelLVolFinalizer ∧ x ≠ SpdkTargetFinalizer.
Proof.
  unfold drop_agent_finalizers. rewrite !list_elem_of_In, List.filter_In, negb_true_iff.
  rewrite orb_false_iff, !bool_decide_eq_false. tauto.
Qed.

Context {KV : KubeClient W AntstorVolume} {KP : KubeClient W StoragePool}.

(** The client with its writes to volumes recorded. *)
#[local] Instance recV : KubeClient (Logged W (VolWrite + Write StoragePool)) AntstorVolume :=
  Recording KV inl.
#[local] Instance recP : KubeClient (Logged W (VolWrite + Write StoragePool)) StoragePool :=
  Recording KP inr.

Lemma update_finalizers_inv fs vol s w log r o' s' w' log' :
  update_finalizers fs vol (s, (w, log)) = Ret (r, o') (s', (w', log')) →
  s' = s ∧ log' = inl (WUpdate (vol_set_finalizers fs vol)) :: log.
Proof.
  unfold update_finalizers, on_snd. go_simpl. cbn. rewrite logged_run.
  destruct (kUpdate (T:=AntstorVolume) _ w) as [[v|e] w1|]; cbn; by intros [= <- <- <- <- <-].
Qed.

(** The pool of the volume, as the server answers now, is gone or not ready. *)
Definition pool_lost (name : string) (w : W) : Prop :=
  ∃ pool err w', pools_Get name w = Ret (Some pool, err) w' ∧ IgnoreNotFound err = None ∧
    spst_Status (sp_Status pool) ≠ PoolStatusReady.

(** C11. The reconciler takes finalizers from a volume being deleted in two
    situations only, whatever the API server answers. The last one, of the
    manager's state, goes after the volume is unbound: the state no longer
    resolves it. The ones of the agent, which stand for the logical volume and
    the SPDK target on the node, go when the deletion is at least twenty minutes
    old and the pool is gone or not ready, and then the state is not touched
    and every other finalizer stays. In every other case nothing is written. *)
Theorem vol_handleDeletion_safe now vol s w r o' s' w' log :
  vol_handleDeletion now (OVolume vol) (s, (w, [])) = Ret (r, o') (s', (w', log)) →
  (log = [] ∧ s' = s) ∨
  ∃ fs, log = [inl (WUpdate (vol_set_finalizers fs vol))] ∧
    ((om_Finalizers (vol_meta vol) = [InStateFinalizer] ∧ fs = [] ∧
      ∃ e, GetVolumeByID (vs_Uuid (vol_Spec vol)) s' = inr e) ∨
     (s' = s ∧
      (∀ x, x ∈ fs ↔ x ∈ om_Finalizers (vol_meta vol) ∧
                      x ≠ KernelLVolFinalizer ∧ x ≠ SpdkTargetFinalizer) ∧
      (∃ t, om_DeletionTimestamp (vol_meta vol) = Some t ∧ (20 * Minute <= time_Since now t)%Z) ∧
      pool_lost (vs_TargetNodeId (vol_Spec vol)) w)).
Proof.
  unfold vol_handleDeletion. destruct (bool_decide _ && Contains _ _) eqn:E1.
  - apply andb_true_iff in E1 as [Hl Hc]. apply bool_decide_eq_true in Hl.
    apply Contains_spec in Hc.
    assert (om_Finalizers (vol_meta vol) = [InStateFinalizer]) as Hf.
    { destruct (om_Finalizers (vol_meta vol)) as [|x [|]]; try discriminate.
      by apply list_elem_of_singleton in Hc as ->. }
    go_simpl. unfold state_op, on_fst. cbn.
    destruct (UnbindAntstorVolume _ s) as [s1 e1] eqn:Eu. cbn.
    intros [-> ->]%update_finalizers_inv. right. exists []. split; [done|]. left.
    eauto using Unbind_unresolvable.
  - unfold on_snd, pools_Get. go_simpl. cbn. unfold on_fst. cbn.
    destruct (kGet (T:=StoragePool) _ _ w) as [got w1|] eqn:Eg; cbn; [|discriminate].
    assert (∀ pool err, (pool, err) = match got with inl p => (Some p, None)
                                      | inr e => (Some StoragePool_zero, Some e) end →
      pools_Get (vs_TargetNodeId (vol_Spec vol)) w = Ret (pool, err) w1 ∧ is_Some pool) as Hp.
    { intros pool err Hpe. unfold pools_Get. go_simpl. rewrite Eg. rewrite Hpe.
      split; [done|]. destruct got; simplify_eq; eauto. }
    destruct (match got with inl p => _ | inr e => _ end) as [pool err] eqn:Epe.
    destruct (Hp pool err eq_refl) as [Hpg [p ->]].
    destruct (IgnoreNotFound err) as [e|] eqn:Ei; [intros [= <- <- <- <- <-]; by left|].
    destruct (om_DeletionTimestamp (vol_meta vol)) as [t|] eqn:Ed; cbn; [|discriminate].
    destruct (_ && _ && _) eqn:Ec; [|intros [= <- <- <- <- <-]; by left].
    apply andb_true_iff in Ec as [[Ht Hst]%andb_true_iff _].
    apply bool_decide_eq_true in Ht, Hst.
    intros [-> ->]%update_finalizers_inv. right. eexists. split; [done|]. right.
    split; [done|]. split; [apply drop_agent_finalizers_spec|].
    split; [by exists t|]. by exists p, err, w1.
Qed.
End deletion.

Definition vol_key (vol : AntstorVolume) : string * string := ko_key vol.

Section deletion_done.
Context {L : K8sLib} {W : Type}.
Context {KV : KubeClient W AntstorVolume} {KP : KubeClient W StoragePool} {HK : StoreLaws KV}.
Implicit Types (vol : AntstorVolume) (s : State) (w : W) (sched : option Scheduler).

Definition vol_req (vol : AntstorVolume) : Request :=
  {| rq_Namespace := om_Namespace (vol_meta vol); rq_Name := om_Name (vol_meta vol) |}.

(** One request for a volume that the server holds, and for one it does not. *)
Lemma vol_round now sched vol s w :
  sl_view w !! vol_key vol = Some vol →
  ∃ w', sl_view w' = sl_view w ∧
    Reconcile_locked (AntstorVolumeReconcileHandler now sched) [] (vol_req vol) (s, w) =
    (if opt_is_some (om_DeletionTimestamp (vol_meta vol))
     then vol_handleDeletion now (OVolume vol)
     else vol_HandleReconcile sched (OVolume vol))
      ≫= (λ ro, mret (res_Result ro.1, res_Error ro.1)) $ (s, w').
Proof.
  intros Hv. destruct (sl_get (om_Namespace (vol_meta vol)) (om_Name (vol_meta vol)) w vol Hv)
    as (w' & Hg & Hw'). exists w'. split; [done|].
  unfold Reconcile_locked. cbn [rh_GetObject AntstorVolumeReconcileHandler].
  unfold vol_GetObject, on_snd. go_simpl. cbn. rewrite Hg. cbn.
  destruct (om_DeletionTimestamp (vol_meta vol)) as [t|] eqn:E; cbn; repeat case_match; done.
Qed.

Lemma vol_round_missing now sched req s w :
  sl_view w !! (rq_Namespace req, rq_Name req) = None →
  ∃ w', Reconcile_locked (AntstorVolumeReconcileHandler now sched) [] req (s, w) =
          Ret (CtrlResult_zero, None) (s, w') ∧ sl_view w' = sl_view w.
Proof.
  intros Hv. destruct (sl_get_none (rq_Namespace req) (rq_Name req) w Hv) as (e & w' & Hg & He & Hw').
  exists w'. split; [|done]. unfold Reconcile_locked. cbn [rh_GetObject AntstorVolumeReconcileHandler].
  unfold vol_GetObject, on_snd. go_simpl. cbn. rewrite Hg. cbn. by rewrite He.
Qed.

(** An update of the finalizers of a volume the server holds. *)
Lemma update_finalizers_run fs vol s w :
  sl_view w !! vol_key vol = Some vol →
  ∃ w', update_finalizers fs vol (s, w) =
          Ret (Result_zero, OVolume (vol_set_finalizers fs vol)) (s, w') ∧
    sl_view w' = store_put (vol_set_finalizers fs vol) (sl_view w).
Proof.
  intros Hv. destruct (sl_update (vol_set_finalizers fs vol) w vol) as (w' & Hu & Hw'); [done|].
  exists w'. unfold update_finalizers, on_snd. go_simpl. rewrite Hu. split; [done|exact Hw'].
Qed.

Lemma vol_handleDeletion_last now vol :
  om_Finalizers (vol_meta vol) = [InStateFinalizer] →
  vol_handleDeletion now (OVolume vol) =
  (_ ← on_fst (state_op (UnbindAntstorVolume (vs_Uuid (vol_Spec vol)))); update_finalizers [] vol).
Proof. intros Hf. unfold vol_handleDeletion. rewrite Hf. reflexivity. Qed.

Lemma vol_last_finalizer now sched vol s w :
  sl_view w !! vol_key vol = Some vol → is_Some (om_DeletionTimestamp (vol_meta vol)) →
  om_Finalizers (vol_meta vol) = [InStateFinalizer] →
  ∃ s' w', Reconcile_locked (AntstorVolumeReconcileHandler now sched) [] (vol_req vol) (s, w) =
             Ret (CtrlResult_zero, None) (s', w') ∧
    sl_view w' = delete (vol_key vol) (sl_view w) ∧
    ∃ e, GetVolumeByID (vs_Uuid (vol_Spec vol)) s' = inr e.
Proof.
  intros Hv [t Ht] Hf. destruct (vol_round now sched vol s w Hv) as (w1 & Hw1 & ->).
  rewrite Ht. cbn [opt_is_some]. rewrite vol_handleDeletion_last by done.
  unfold state_op, on_fst. go_simpl. cbn [fst snd].
  destruct (UnbindAntstorVolume _ s) as [s1 e1] eqn:Eu.
  destruct (update_finalizers_run [] vol s1 w1) as (w2 & Hu & Hw2); [by rewrite Hw1|].
  cbn [fst snd]. rewrite Hu. exists s1, w2. split; [done|]. split; [|by eapply Unbind_unresolvable].
  rewrite Hw2, Hw1. unfold store_put, ko_gone. cbn. by rewrite Ht.
Qed.

Lemma drop_agent_only_state l :
  NoDup l → InStateFinalizer ∈ l →
  (∀ x, x ∈ l → x = InStateFinalizer ∨ x = KernelLVolFinalizer ∨ x = SpdkTargetFinalizer) →
  drop_agent_finalizers l = [InStateFinalizer].
Proof.
  intros Hnd Hin Hall.
  assert (NoDup (drop_agent_finalizers l)) as Hnd'.
  { apply NoDup_ListNoDup, List.NoDup_filter, NoDup_ListNoDup, Hnd. }
  pose proof (drop_agent_finalizers_spec l) as Hspec.
  assert (∀ x, x ∈ drop_agent_finalizers l ↔ x = InStateFinalizer) as Hx.
  { intros x. rewrite Hspec. split.
    - intros (Hi & H1 & H2). destruct (Hall x Hi) as [|[|]]; done.
    - intros ->. done. }
  destruct (drop_agent_finalizers l) as [|a [|b r]].
  - by assert (InStateFinalizer ∈ []) as []%elem_of_nil by by apply Hx.
  - f_equal. apply Hx. by left.
  - exfalso. apply NoDup_cons in Hnd' as [Ha _]. apply Ha.
    rewrite (proj1 (Hx a) ltac:(by left)), <- (proj1 (Hx b) ltac:(right; by left)). by left.
Qed.
End deletion_done.

Section deletion_live.
Context {L : K8sLib} {W : Type}.
Context {KV : KubeClient W AntstorVolume} {KP : KubeClient W StoragePool} {HK : StoreLaws KV}.
Implicit Types (vol : AntstorVolume) (s : State) (w : W) (sched : option Scheduler).

(** Reads of the pool [name] answer [r], or that there is none, and leave the
    volumes alone. *)
Definition pool_answer (name : string) (P : option StoragePool → Prop) (w : W) : Prop :=
  ∃ got w', kGet (T := StoragePool) DefaultNamespace name w = Ret got w' ∧
    sl_view w' = sl_view w ∧
    match got with inl p => P (Some p) | inr e => IsNotFound e = true ∧ P None end.

Definition never_ready (p : option StoragePool) : Prop :=
  match p with Some p => spst_Status (sp_Status p) ≠ PoolStatusReady | None => True end.

Lemma pools_Get_answer name P w : pool_answer name P w →
  ∃ p err w', pools_Get name w = Ret (Some p, err) w' ∧ sl_view w' = sl_view w ∧
    IgnoreNotFound err = None ∧ (P (Some p) ∨ p = StoragePool_zero ∧ P None).
Proof.
  intros (got & w' & Hg & Hw' & Hgot). unfold pools_Get. go_simpl. rewrite Hg.
  destruct got as [p|e]; eexists _, _, w'; (split; [reflexivity|]); (split; [done|]).
  - split; [done|by left].
  - destruct Hgot as [He HP]. cbn. rewrite He. split; [done|]. right. done.
Qed.

Lemma vol_handleDeletion_other now vol s w :
  length (om_Finalizers (vol_meta vol)) ≠ 1 →
  vol_handleDeletion now (OVolume vol) (s, w) =
  (got ← on_snd (pools_Get (vs_TargetNodeId (vol_Spec vol)));
   let '(targetPool, err) := (got : option StoragePool * option error) in
   match IgnoreNotFound err, targetPool with
   | Some e, _ => mret (result_err (Some e), OVolume vol)
   | None, None =>
       _ ← on_fst (state_op (UnbindAntstorVolume (vs_Uuid (vol_Spec vol))));
       update_finalizers [] vol
   | None, Some targetPool =>
       del ← deref "DeletionTimestamp" (om_DeletionTimestamp (vol_meta vol));
       if bool_decide (20 * Minute <= time_Since now del)%Z &&
          bool_decide (spst_Status (sp_Status targetPool) ≠ PoolStatusReady) &&
          bool_decide (1 < length (om_Finalizers (vol_meta vol)))%nat
       then update_finalizers (drop_agent_finalizers (om_Finalizers (vol_meta vol))) vol
       else mret (result_after (2 * Minute), OVolume vol)
   end) (s, w).
Proof. intros Hl. unfold vol_handleDeletion. by rewrite bool_decide_false. Qed.

(** The deletion of a volume on a failed node ends: when the pool is gone or
    not ready, the deletion is twenty minutes old, and the volume has only the
    finalizers of the manager and of the agent, two requests remove it from the
    API server, no other volume is touched, and the state no longer resolves it. *)
Lemma vol_deletion_completes now sched vol s w t :
  sl_view w !! vol_key vol = Some vol →
  om_DeletionTimestamp (vol_meta vol) = Some t → (20 * Minute <= time_Since now t)%Z →
  NoDup (om_Finalizers (vol_meta vol)) → InStateFinalizer ∈ om_Finalizers (vol_meta vol) →
  (∀ x, x ∈ om_Finalizers (vol_meta vol) →
        x = InStateFinalizer ∨ x = KernelLVolFinalizer ∨ x = SpdkTargetFinalizer) →
  (∀ w', pool_answer (vs_TargetNodeId (vol_Spec vol)) never_ready w') →
  let h := AntstorVolumeReconcileHandler now sched in
  ∃ s1 w1 s2 w2,
    Reconcile_locked h [] (vol_req vol) (s, w) = Ret (CtrlResult_zero, None) (s1, w1) ∧
    Reconcile_locked h [] (vol_req vol) (s1, w1) = Ret (CtrlResult_zero, None) (s2, w2) ∧
    sl_view w2 = delete (vol_key vol) (sl_view w) ∧
    ∃ e, GetVolumeByID (vs_Uuid (vol_Spec vol)) s2 = inr e.
Proof.
  intros Hv Ht Hold Hnd Hin Hall Hpool h.
  destruct (decide (length (om_Finalizers (vol_meta vol)) = 1)) as [Hl|Hl].
  - assert (om_Finalizers (vol_meta vol) = [InStateFinalizer]) as Hf.
    { destruct (om_Finalizers (vol_meta vol)) as [|x [|]]; try discriminate.
      by apply list_elem_of_singleton in Hin as ->. }
    destruct (vol_last_finalizer now sched vol s w) as (s1 & w1 & H1 & Hw1 & He); [done|by exists t|done|].
    destruct (vol_round_missing now sched (vol_req vol) s1 w1) as (w2 & H2 & Hw2).
    { rewrite Hw1. apply lookup_delete_eq. }
    exists s1, w1, s1, w2. by rewrite Hw2.
  - set (vol1 := vol_set_finalizers [InStateFinalizer] vol).
    destruct (vol_round now sched vol s w Hv) as (w0 & Hw0 & Hround).
    destruct (pools_Get_answer _ _ w0 (Hpool w0)) as (p & err & w0' & Hg & Hw0' & Herr & Hp).
    destruct (update_finalizers_run [InStateFinalizer] vol s w0') as (w1 & Hu & Hw1);
      [by rewrite Hw0', Hw0|].
    assert (sl_view w1 = <[vol_key vol := vol1]> (sl_view w)) as Hv1.
    { rewrite Hw1, Hw0', Hw0. unfold store_put, ko_gone. cbn. by rewrite andb_false_r. }
    destruct (vol_last_finalizer now sched vol1 s w1) as (s2 & w2 & H2 & Hw2 & He).
    { rewrite Hv1. apply lookup_insert_eq. }
    { by exists t. }
    { done. }
    exists s, w1, s2, w2. split.
    + unfold h. rewrite Hround, Ht. cbn [opt_is_some].
      unfold mbind at 1, go_mbind, go_bind. rewrite vol_handleDeletion_other by done.
      unfold on_snd. go_simpl. rewrite Hg, Herr, Ht. cbn [deref]. go_simpl.
      assert (1 < length (om_Finalizers (vol_meta vol))) as Hl1.
      { destruct (om_Finalizers (vol_meta vol)) as [|x [|]]; simpl in *; try lia.
        by apply elem_of_nil in Hin. }
      rewrite !bool_decide_true; [|done| |done].
      * cbn [andb]. rewrite drop_agent_only_state by done. by rewrite Hu.
      * destruct Hp as [Hp|[-> _]]; [exact Hp|discriminate].
    + split; [exact H2|]. split; [|exact He]. rewrite Hw2, Hv1. apply delete_insert_eq.
Qed.

(** A volume whose pool was deleted from the cluster is not removed right
    away: as long as the deletion is less than twenty minutes old the request
    writes nothing and is put off for two minutes, like that of a volume whose
    node is healthy. *)
Lemma vol_handleDeletion_pool_gone now vol s w t :
  om_DeletionTimestamp (vol_meta vol) = Some t → (time_Since now t < 20 * Minute)%Z →
  length (om_Finalizers (vol_meta vol)) ≠ 1 →
  pool_answer (vs_TargetNodeId (vol_Spec vol)) (λ p, p = None) w →
  ∃ w', vol_handleDeletion now (OVolume vol) (s, w) =
          Ret (result_after (2 * Minute), OVolume vol) (s, w') ∧ sl_view w' = sl_view w.
Proof.
  intros Ht Hyoung Hl Hpool. rewrite vol_handleDeletion_other by done.
  destruct (pools_Get_answer _ _ _ Hpool) as (p & err & w' & Hg & Hw' & Herr & Hp).
  exists w'. split; [|done]. unfold on_snd. go_simpl. cbn [fst snd]. rewrite Hg, Herr, Ht. cbn [deref].
  go_simpl. rewrite bool_decide_false by lia. done.
Qed.
End deletion_live.

(** ** Reconciling, as one abstract step

    What one request for a live volume makes of the state and of the volume the
    server holds, the protocol with the server left out. *)

Section abstract.
Context {L : K8sLib}.
Implicit Types (vol : AntstorVolume) (s : State) (sched : Scheduler).

Definition vol_add_label (k v : string) (vol : AntstorVolume) : AntstorVolume :=
  vol_set_labels (Some (<[k := v]> (default ∅ (om_Labels (vol_meta vol))))) vol.

(** The marks of a bound volume: the label of its node and the finalizer. *)
Definition vol_marked (vol : AntstorVolume) : AntstorVolume :=
  let vol1 := if map_has (om_Labels (vol_meta vol)) TargetNodeIdLabelKey then vol
              else vol_add_label TargetNodeIdLabelKey (vs_TargetNodeId (vol_Spec vol)) vol in
  if InSliceString InStateFinalizer (om_Finalizers (vol_meta vol1)) then vol1
  else vol_set_finalizers (om_Finalizers (vol_meta vol1) ++ [InStateFinalizer]) vol1.

Definition vol_next_placed (s : State) (vol : AntstorVolume) : State * AntstorVolume :=
  match BindAntstorVolume (vs_TargetNodeId (vol_Spec vol)) vol s with
  | (s1, Some _) => (s1, vol)
  | (s1, None) => (s1, vol_marked vol)
  end.

Definition vol_refused (e : error) (vol : AntstorVolume) : AntstorVolume :=
  if IsNoStoragePoolAvailable (Some e) &&
     negb (str_contains (vst_Message (vol_Status vol)) NoStoragePoolAvailable)
  then vol_set_status VolumeStatusCreating (vol_set_message (error_msg e) vol) else vol.

Definition vol_next_unplaced (sched : Scheduler) (s : State) (vol : AntstorVolume)
    : State * AntstorVolume :=
  let bound := match GetVolumeByID (vs_Uuid (vol_Spec vol)) s with
               | inl boundVol => vs_TargetNodeId (vol_Spec boundVol)
               | inr _ => "" end in
  if decide (bound ≠ "") then (s, vol_set_target bound vol)
  else
    let o := run_scheduler (sched vol) s in
    let s1 := run_state o in
    match run_val o with
    | Some (info, vol1, None) =>
        match BindAntstorVolume (ni_ID info) vol1 s1 with
        | (s2, Some _) => (s2, vol)
        | (s2, None) => (s2, vol_add_label TargetNodeIdLabelKey (ni_ID info)
                               (vol_set_target (ni_ID info) vol))
        end
    | Some (_, _, Some e) => (s1, vol_refused e vol)
    | None => (s1, vol)
    end.

Definition vol_next (sched : Scheduler) (s : State) (vol : AntstorVolume) : State * AntstorVolume :=
  if negb (map_has (om_Labels (vol_meta vol)) UuidLabelKey)
  then (s, vol_add_label UuidLabelKey (vs_Uuid (vol_Spec vol)) vol)
  else if decide (vst_Status (vol_Status vol) = "") then (s, vol_set_status VolumeStatusCreating vol)
  else if negb (lv_layout_ok vol) then
    (s, vol_set_message ("invalide value of Anno obnvmf/lv-layout=" +:+
                         map_str (om_Annotations (vol_meta vol)) LvLayoutAnnoKey) vol)
  else if decide (vs_TargetNodeId (vol_Spec vol) ≠ "") then vol_next_placed s vol
  else vol_next_unplaced sched s vol.

(** The contract of a scheduler, on nodes with distinct ids: it returns, the nodes only lose released
    reservations, and the volume at most gets the node chosen. *)
Record sched_contract (sched : Scheduler) : Prop := {
  sc_run vol nodes : is_Some (vs_HostNode (vol_Spec vol)) → NoDup (pool_nodeID <$> nodes) →
    ∃ info vol' err nodes', sched vol nodes = Ret (info, vol', err) nodes' ∧
      Forall2 same_node nodes nodes' ∧
      match err with
      | None => vol' = vol ∨ vol' = vol_set_target (ni_ID info) vol
      | Some _ => vol' = vol
      end;
}.

(** The configured scheduler keeps it, over any registry of filters that keep theirs. *)
Lemma ScheduleVolume_contract {G : GoSort} {HG : GoSortLaws G} reg `{!RegistryOk reg} cfg :
  sched_contract (ScheduleVolume reg prioritiesMap cfg).
Proof.
  split. intros vol nodes Hh Hnd.
  destruct (map_get (om_Annotations (vol_meta vol)) SelectedTgtNodeKey) as [nodeName|] eqn:E.
  - destruct (ScheduleVolume_hinted reg cfg vol nodes nodeName E) as (info & Hr & _ & _).
    exists info, vol, None, nodes. split; [done|]. split; [|by left].
    clear. induction nodes; constructor; auto using same_node_refl.
  - destruct (ScheduleVolume_unhinted reg cfg vol nodes E Hh Hnd) as (info & vol' & err & nodes' & Hr & Hs & He).
    exists info, vol', err, nodes'. split; [done|]. split; [done|]. destruct err; [apply He|].
    right. destruct He as (n & _ & _ & _ & -> & _). done.
Qed.

Lemma GetAllNodes_ids s : state_wf s → NoDup (pool_nodeID <$> GetAllNodes s).
Proof.
  intros Hwf. unfold GetAllNodes. rewrite <- list_fmap_compose.
  rewrite (list_fmap_ext (pool_nodeID ∘ snd) fst).
  - apply NoDup_fst_map_to_list.
  - intros i [k n] H. apply list_elem_of_lookup_2, elem_of_map_to_list in H.
    apply (nwf_id _ _ (Hwf _ _ H)).
Qed.

(** A volume a request can be about: it was admitted with a uuid, a host node
    and labels, and it is not being deleted. *)
Record vol_live (vol : AntstorVolume) : Prop := {
  vl_labels : is_Some (om_Labels (vol_meta vol));
  vl_del : om_DeletionTimestamp (vol_meta vol) = None;
  vl_uuid : vs_Uuid (vol_Spec vol) ≠ "";
  vl_active : vs_StopReconcile (vol_Spec vol) = false;
  vl_host : is_Some (vs_HostNode (vol_Spec vol));
}.

Lemma vol_live_set_target id vol : vol_live vol → vol_live (vol_set_target id vol).
Proof. intros []. by split. Qed.
Lemma vol_live_add_label k v vol : vol_live vol → vol_live (vol_add_label k v vol).
Proof. intros []. by split. Qed.
Lemma vol_live_set_finalizers f vol : vol_live vol → vol_live (vol_set_finalizers f vol).
Proof. intros []. by split. Qed.
Lemma vol_live_set_Status st vol : vol_live vol → vol_live (vol_set_Status st vol).
Proof. intros []. by split. Qed.
Lemma vol_live_marked vol : vol_live vol → vol_live (vol_marked vol).
Proof.
  intros. unfold vol_marked. repeat case_match; auto using vol_live_add_label, vol_live_set_finalizers.
Qed.
Lemma vol_key_marked vol : vol_key (vol_marked vol) = vol_key vol.
Proof. unfold vol_marked. by repeat case_match. Qed.

Lemma set_all_nodes_lookup s nodes' id :
  Forall2 same_node (GetAllNodes s) nodes' →
  option_Forall2 same_node (NodeMap s !! id) (NodeMap (set_all_nodes nodes' s) !! id).
Proof.
  unfold GetAllNodes, set_all_nodes. cbn [NodeMap st_set_NodeMap].
  rewrite <- (list_to_map_to_list (NodeMap s)) at 2.
  generalize (map_to_list (NodeMap s)). intros l. revert nodes'.
  induction l as [|[k n] l IH]; intros nodes' H; csimpl in *.
  { rewrite !lookup_empty. constructor. }
  apply Forall2_cons_inv_l in H as (n' & ns & Hn & Hl & ->). csimpl.
  destruct (decide (k = id)) as [->|Hne].
  - rewrite !lookup_insert_eq. by constructor.
  - rewrite !lookup_insert_ne by done. by apply IH.
Qed.

Lemma same_node_wf id n n' : same_node n n' → node_wf id n → node_wf id n'.
Proof.
  intros [Hp Hv _ Hr] []. split; unfold nd_Info; rewrite ?Hp, ?Hv; try done.
  by eapply resv_wf_subseteq.
Qed.

Lemma set_all_nodes_wf s nodes' :
  Forall2 same_node (GetAllNodes s) nodes' → state_wf s → state_wf (set_all_nodes nodes' s).
Proof.
  intros H Hwf id n' Hn'. pose proof (set_all_nodes_lookup s nodes' id H) as Ho.
  rewrite Hn' in Ho. inversion Ho as [n n'' Hs Hn|].
  by apply (same_node_wf _ n); [|apply Hwf].
Qed.

Lemma vol_next_wf sched s vol :
  state_wf s → vol_live vol → sched_contract sched → state_wf (vol_next sched s vol).1.
Proof.
  intros Hwf Hl Hs. unfold vol_next, vol_next_placed, vol_next_unplaced, run_scheduler.
  destruct (sc_run _ Hs vol (GetAllNodes s) (vl_host _ Hl) (GetAllNodes_ids _ Hwf))
    as (info & v1 & err & nodes' & -> & Hf2 & _). cbn [run_state run_val].
  pose proof (set_all_nodes_wf s nodes' Hf2 Hwf) as Hwf1.
  pose proof (BindAntstorVolume_wf (vs_TargetNodeId (vol_Spec vol)) vol s Hwf) as Hb.
  pose proof (BindAntstorVolume_wf (ni_ID info) v1 _ Hwf1) as Hb1.
  destruct (BindAntstorVolume _ vol s) as [? []], (BindAntstorVolume _ v1 _) as [? []], err;
    cbn [fst] in *; repeat (case_match || case_decide); done.
Qed.

Lemma vol_put_label_run {S} k v vol (s : S) : is_Some (om_Labels (vol_meta vol)) →
  vol_put_label k v vol s = Ret (vol_add_label k v vol) s.
Proof.
  intros [l Hl]. unfold vol_put_label, vol_add_label, map_put. rewrite Hl. reflexivity.
Qed.
End abstract.
#[export] Hint Resolve vol_live_set_target vol_live_add_label vol_live_set_finalizers
  vol_live_set_Status vol_live_marked : liteio.

Section refine.
Context {L : K8sLib} {W : Type}.
Context {KV : KubeClient W AntstorVolume} {KP : KubeClient W StoragePool} {HK : StoreLaws KV}.
Implicit Types (vol : AntstorVolume) (s : State) (w : W) (sched : Scheduler).

(** The server holds the volume [vol'] in the place of [vol], the rest as in [w]. *)
Definition stored (vol vol' : AntstorVolume) (w w' : W) : Prop :=
  sl_view w' = <[vol_key vol := vol']> (sl_view w).

Lemma stored_same vol w w' :
  sl_view w !! vol_key vol = Some vol → sl_view w' = sl_view w → stored vol vol w w'.
Proof. intros Hv Hw. unfold stored. by rewrite insert_id. Qed.

Lemma store_put_live vol (m : gmap (string * string) AntstorVolume) :
  om_DeletionTimestamp (vol_meta vol) = None → store_put vol m = <[vol_key vol := vol]> m.
Proof. intros Hd. unfold store_put, ko_gone. cbn. by rewrite Hd. Qed.

(** The three ways the reconciler writes a live volume. *)
Lemma patch_run vol v1 s w :
  sl_view w !! vol_key vol = Some vol → vol_key v1 = vol_key vol →
  om_DeletionTimestamp (vol_meta v1) = None →
  ∃ w', on_snd (kPatch vol v1) (s, w) = Ret (inl (vol_set_Status (vol_Status vol) v1)) (s, w') ∧
    stored vol (vol_set_Status (vol_Status vol) v1) w w'.
Proof.
  intros Hv Hk Hd. destruct (sl_patch v1 w vol) as (w' & Hp & Hw').
  { change (ko_key v1) with (vol_key v1). by rewrite Hk. }
  exists w'. unfold on_snd. cbn [fst snd]. rewrite Hp. split; [done|].
  unfold stored. rewrite Hw'. cbn [ko_with_status vol_KubeObject].
  rewrite store_put_live by done. by rewrite <- Hk.
Qed.

Lemma update_run vol v1 s w :
  sl_view w !! vol_key vol = Some vol → vol_key v1 = vol_key vol →
  om_DeletionTimestamp (vol_meta v1) = None →
  ∃ w', on_snd (kUpdate v1) (s, w) = Ret (inl (vol_set_Status (vol_Status vol) v1)) (s, w') ∧
    stored vol (vol_set_Status (vol_Status vol) v1) w w'.
Proof.
  intros Hv Hk Hd. destruct (sl_update v1 w vol) as (w' & Hp & Hw').
  { change (ko_key v1) with (vol_key v1). by rewrite Hk. }
  exists w'. unfold on_snd. cbn [fst snd]. rewrite Hp. split; [done|].
  unfold stored. rewrite Hw'. cbn [ko_with_status vol_KubeObject].
  rewrite store_put_live by done. by rewrite <- Hk.
Qed.

Lemma status_run vol st s w :
  sl_view w !! vol_key vol = Some vol → om_DeletionTimestamp (vol_meta vol) = None →
  ∃ w', on_snd (kUpdateStatus (vol_set_Status st vol)) (s, w) = Ret (inl (vol_set_Status st vol)) (s, w') ∧
    stored vol (vol_set_Status st vol) w w'.
Proof.
  intros Hv Hd. destruct (sl_update_status (vol_set_Status st vol) w vol) as (w' & Hp & Hw'); [done|].
  exists w'. unfold on_snd. cbn [fst snd]. rewrite Hp. split; [done|].
  unfold stored. rewrite Hw'. cbn [ko_with_status vol_KubeObject]. by rewrite store_put_live.
Qed.

Lemma vol_mark_steps vol s w :
  sl_view w !! vol_key vol = Some vol → vol_live vol →
  ∃ w', vol_mark vol vol (s, w) = Ret (Result_zero, vol_marked vol) (s, w') ∧
    stored vol (vol_marked vol) w w'.
Proof.
  intros Hv Hl. pose proof (vol_live_marked vol Hl) as Hlm. pose proof (vol_key_marked vol) as Hkm.
  destruct (patch_run vol (vol_marked vol) s w Hv Hkm (vl_del _ Hlm)) as (w' & Hp & Hw').
  assert (vol_set_Status (vol_Status vol) (vol_marked vol) = vol_marked vol) as Hst.
  { unfold vol_marked. repeat case_match; by destruct vol. }
  rewrite Hst in *.
  unfold vol_mark. go_simpl. unfold vol_marked in *.
  destruct (map_has (om_Labels (vol_meta vol)) TargetNodeIdLabelKey); cbn [negb].
  - destruct (InSliceString _ _); cbn [negb orb].
    + exists w. split; [done|]. by apply stored_same.
    + rewrite Hp. cbn [wrote]. exists w'. done.
  - rewrite vol_put_label_run by apply Hl. cbn [orb].
    destruct (InSliceString _ _); cbn [negb]; rewrite Hp; cbn [wrote]; by exists w'.
Qed.

Lemma vol_assign_steps vol vol1 id s w :
  sl_view w !! vol_key vol = Some vol → vol_live vol →
  vol1 = vol ∨ vol1 = vol_set_target id vol →
  ∃ r v' w',
    vol_assign vol vol1 id (s, w) = Ret (r, v') ((BindAntstorVolume id vol1 s).1, w') ∧
    NeedBreak r = true ∧
    stored vol (match (BindAntstorVolume id vol1 s).2 with
                | Some _ => vol
                | None => vol_add_label TargetNodeIdLabelKey id (vol_set_target id vol)
                end) w w'.
Proof.
  intros Hv Hl Hv1. unfold vol_assign, state_op, on_fst. go_simpl. cbn [fst snd].
  destruct (BindAntstorVolume id vol1 s) as [s1 [e|]]; cbn [fst snd].
  - eexists _, _, w. split; [reflexivity|]. split; [done|]. by apply stored_same.
  - assert (is_Some (om_Labels (vol_meta vol1))) as Hlab by (destruct Hv1 as [-> | ->]; apply Hl).
    assert (map_is_nil (om_Labels (vol_meta vol1)) = false) as -> by (by destruct Hlab as [? ->]).
    rewrite vol_put_label_run by done.
    assert (vol_set_target id vol1 = vol_set_target id vol) as -> by (by destruct Hv1 as [-> | ->]).
    set (v2 := vol_add_label TargetNodeIdLabelKey id (vol_set_target id vol)).
    destruct (patch_run vol (vol_set_status VolumeStatusCreating v2) s1 w Hv eq_refl (vl_del _ Hl))
      as (w' & Hp & Hw'). rewrite Hp. cbn [wrote].
    eexists _, _, w'. split; [reflexivity|]. split; [done|exact Hw'].
Qed.

Lemma vol_no_pool_steps vol e s w :
  sl_view w !! vol_key vol = Some vol → vol_live vol → IsNoStoragePoolAvailable (Some e) = true →
  ∃ r v' w', vol_no_pool vol e (s, w) = Ret (r, v') (s, w') ∧ NeedBreak r = true ∧
    stored vol (vol_refused e vol) w w'.
Proof.
  intros Hv Hl He. unfold vol_no_pool, vol_refused. rewrite He. cbn [andb]. go_simpl.
  destruct (negb _).
  - destruct (status_run vol (vst_set_Status VolumeStatusCreating
        (vst_set_Message (error_msg e) (vol_Status vol))) s w Hv (vl_del _ Hl)) as (w' & Hp & Hw').
    unfold vol_set_status, vol_set_message in *. cbn [vol_Status vol_set_Status] in *.
    change (vol_set_Status ?a (vol_set_Status ?b vol)) with (vol_set_Status a vol).
    rewrite Hp. cbn [wrote fst]. eexists _, _, w'. done.
  - eexists _, _, w. split; [reflexivity|]. split; [done|]. by apply stored_same.
Qed.

Lemma vol_scheduleVolume_steps sched vol s w :
  sl_view w !! vol_key vol = Some vol → vol_live vol → state_wf s → sched_contract sched →
  vs_TargetNodeId (vol_Spec vol) = "" →
  ∃ r v' w',
    vol_scheduleVolume (Some sched) vol (s, w) = Ret (r, v') ((vol_next_unplaced sched s vol).1, w') ∧
    NeedBreak r = true ∧
    stored vol (vol_next_unplaced sched s vol).2 w w'.
Proof.
  intros Hv Hl Hwf Hs Ht. unfold vol_scheduleVolume, vol_next_unplaced. rewrite decide_True by done.
  unfold mbind at 1, go_mbind, go_bind, on_fst at 1, gget. cbn [fst snd].
  set (bound := match GetVolumeByID _ s with inl b => _ | inr _ => _ end).
  destruct (decide (bound ≠ "")) as [Hb|Hb].
  - go_simpl. destruct (update_run vol (vol_set_target bound vol) s w Hv eq_refl (vl_del _ Hl))
      as (w' & Hp & Hw').
    rewrite Hp. cbn [wrote]. eexists _, _, w'. split; [reflexivity|]. split; [done|exact Hw'].
  - destruct (sc_run _ Hs vol (GetAllNodes s) (vl_host _ Hl) (GetAllNodes_ids _ Hwf)) as (info & v1 & err & nodes' & Hr & _ & Hv1).
    assert (run_scheduler (sched vol) s = Ret (info, v1, err) (set_all_nodes nodes' s)) as Hrun
      by (unfold run_scheduler; by rewrite Hr).
    rewrite Hrun. cbn [run_state run_val].
    unfold mbind, go_mbind, go_bind, on_fst. cbn [fst snd]. rewrite Hrun. cbn beta iota.
    set (s1 := set_all_nodes nodes' s). destruct err as [e|].
    + subst v1. destruct (IsNoStoragePoolAvailable (Some e)) eqn:He.
      * by apply vol_no_pool_steps.
      * eexists _, _, w. split; [reflexivity|]. split; [done|]. unfold vol_refused. rewrite He.
        by apply stored_same.
    + destruct (vol_assign_steps vol v1 (ni_ID info) s1 w Hv Hl Hv1) as (r & v' & w' & Ha & Hb' & Hw').
      exists r, v', w'. rewrite Ha. by destruct (BindAntstorVolume _ _ _) as [s2 [e|]].
Qed.

Lemma vol_HandleReconcile_steps sched vol s w :
  sl_view w !! vol_key vol = Some vol → vol_live vol → state_wf s → sched_contract sched →
  ∃ r o' w',
    vol_HandleReconcile (Some sched) (OVolume vol) (s, w) = Ret (r, o') ((vol_next sched s vol).1, w') ∧
    stored vol (vol_next sched s vol).2 w w'.
Proof.
  intros Hv Hl Hwf Hs. unfold vol_HandleReconcile. rewrite (vl_active _ Hl).
  unfold vol_validateAndMutate, vol_next. rewrite decide_False by apply Hl.
  rewrite (bool_decide_true (vs_Uuid (vol_Spec vol) ≠ "")) by apply Hl. rewrite andb_true_r.
  destruct (negb _); [|case_decide as Hst; [|destruct (negb _)]].
  - go_simpl. rewrite vol_put_label_run by apply Hl.
    set (v1 := vol_add_label _ _ vol).
    destruct (patch_run vol v1 s w Hv eq_refl (vl_del _ Hl)) as (w' & Hp & Hw').
    rewrite Hp. cbn [wrote]. eexists _, _, w'. split; [reflexivity|].
    assert (vol_set_Status (vol_Status vol) v1 = v1) as <- by (by destruct vol). exact Hw'.
  - go_simpl. destruct (status_run vol (vst_set_Status VolumeStatusCreating (vol_Status vol)) s w Hv (vl_del _ Hl))
      as (w' & Hp & Hw'). unfold vol_set_status. rewrite Hp. cbn [wrote].
    eexists _, _, w'. split; [reflexivity|exact Hw'].
  - go_simpl. unfold vol_set_message.
    edestruct (status_run vol) as (w' & Hp & Hw'); [done|apply Hl|]. rewrite Hp. cbn [wrote].
    eexists _, _, w'. split; [reflexivity|exact Hw'].
  - unfold vol_bind. case_decide as Ht.
    + unfold vol_next_placed, state_op, on_fst. go_simpl. cbn [fst snd].
      destruct (BindAntstorVolume _ _ s) as [s1 [e|]]; cbn [fst snd].
      * eexists _, _, w. split; [reflexivity|]. by apply stored_same.
      * destruct (vol_mark_steps vol s1 w Hv Hl) as (w' & Hm & Hw'). rewrite Hm. cbn [NeedBreak].
        unfold vol_scheduleVolume. rewrite decide_False.
        { eexists _, _, w'. split; [reflexivity|exact Hw']. }
        assert (vol_Spec (vol_marked vol) = vol_Spec vol) as -> by (unfold vol_marked; by repeat case_match).
        done.
    + destruct (vol_scheduleVolume_steps sched vol s w) as (r & v' & w' & Hr & _ & Hw'); try done.
      go_simpl. cbn [NeedBreak opt_is_some res_Error res_Break Result_zero orb]. rewrite Hr.
      eexists _, _, w'. split; [reflexivity|exact Hw'].
Qed.

Lemma vol_next_live sched s vol :
  vol_live vol → vol_live (vol_next sched s vol).2 ∧ vol_key (vol_next sched s vol).2 = vol_key vol.
Proof.
  intros Hl. unfold vol_next, vol_next_placed, vol_next_unplaced, vol_refused, vol_set_message, vol_set_status.
  repeat case_match; simplify_eq/=; split; try done; try (by apply vol_key_marked); auto with liteio.
Qed.
End refine.

(** ** Placement *)

Section placed.
Context {L : K8sLib}.
Implicit Types (vol : AntstorVolume) (s : State) (sched : Scheduler) (n : Node).

(** The volumes of a node that has the name of [vol] have its size too. *)
Definition bindable (vol : AntstorVolume) (n : Node) : Prop :=
  Forall (λ v, vol_Name v = vol_Name vol → vs_SizeByte (vol_Spec v) = vs_SizeByte (vol_Spec vol))
    (nd_Volumes n).

Lemma AddVolume_loop_ok vol items dup :
  Forall (λ v, vol_Name v = vol_Name vol → vs_SizeByte (vol_Spec v) = vs_SizeByte (vol_Spec vol)) items →
  (AddVolume_loop vol items dup).2 = None.
Proof.
  intros H. revert dup. induction H as [|v items Hv _ IH]; intros dup; [done|]. csimpl.
  destruct (decide (vol_Name v = vol_Name vol)) as [E|E].
  - rewrite decide_False by (intros Hn; by apply Hn, Hv).
    specialize (IH true). by destruct (AddVolume_loop _ _ _) as [[] ?].
  - specialize (IH dup). by destruct (AddVolume_loop _ _ _) as [[] ?].
Qed.

(** What binding leaves: the volume resolves to its node. *)
Record placed_at (id : string) (vol : AntstorVolume) (s : State) : Prop := {
  pa_wf : state_wf s;
  pa_node : ∃ n, NodeMap s !! id = Some n ∧ bindable vol n;
}.
Definition resolves_at (id uuid : string) (s : State) : Prop :=
  ∃ bv, GetVolumeByID uuid s = inl bv ∧ vs_TargetNodeId (vol_Spec bv) = id.

Lemma AddVolume_bindable vol n : bindable vol n →
  (AddVolume vol n).2 = None ∧ bindable vol (AddVolume vol n).1 ∧
  place_on n vol ∈ nd_Volumes (AddVolume vol n).1.
Proof.
  intros Hb. pose proof (AddVolume_ok_volumes vol n) as Hok.
  assert ((AddVolume vol n).2 = None) as Herr.
  { unfold AddVolume.
    assert (nd_Volumes (drop_reservation vol n) = nd_Volumes n) as ->
      by (unfold drop_reservation; by case_decide).
    pose proof (AddVolume_loop_ok (place_on (drop_reservation vol n) vol) (nd_Volumes n) false Hb) as He.
    by destruct (AddVolume_loop _ _ _) as [[] []]. }
  split; [done|]. split; [|by apply (Hok vol)].
  apply Forall_forall. intros v Hv Hname. destruct (Hok v Herr) as [_ Hor].
  destruct (Hor Hv) as [->|[_ Hne]]; [done|]. by destruct Hne.
Qed.

Lemma Bind_placed id vol s :
  placed_at id vol s → vs_Uuid (vol_Spec vol) ≠ "" →
  (BindAntstorVolume id vol s).2 = None ∧
  placed_at id vol (BindAntstorVolume id vol s).1 ∧
  resolves_at id (vs_Uuid (vol_Spec vol)) (BindAntstorVolume id vol s).1.
Proof.
  intros [Hwf (n & Hn & Hb)] Hu. pose proof (BindAntstorVolume_wf id vol s Hwf) as Hwf'.
  destruct (AddVolume_bindable vol n Hb) as (Herr & Hb' & Hin).
  unfold BindAntstorVolume in *. rewrite Hn in *. rewrite decide_False in * by done.
  destruct (AddVolume vol n) as [n' err]. cbn [fst snd] in *. subst err. cbn [fst snd] in *.
  split; [done|]. split.
  - split; [done|]. exists n'. cbn. by rewrite lookup_insert_eq.
  - assert (node_wf id n') as Hn' by (apply Hwf'; cbn; apply lookup_insert_eq).
    unfold resolves_at, GetVolumeByID. cbn. rewrite !lookup_insert_eq.
    unfold Node_GetVolumeByID. destruct (List.find _ _) as [bv|] eqn:E.
    + apply List.find_some in E as [Hbv _]. apply list_elem_of_In in Hbv. exists bv.
      split; [done|]. pose proof (nwf_target _ _ Hn') as Ht. rewrite Forall_forall in Ht. by apply Ht.
    + apply list_elem_of_In in Hin. pose proof (List.find_none _ _ E _ Hin) as Hf. cbn in Hf.
      by apply bool_decide_eq_false in Hf.
Qed.
End placed.

(** ** Requests in a row *)

Section iterate.
Context {L : K8sLib}.
Implicit Types (vol : AntstorVolume) (s : State) (sched : Scheduler).

Fixpoint vol_iter (sched : Scheduler) (n : nat) (s : State) (vol : AntstorVolume) : State * AntstorVolume :=
  match n with
  | O => (s, vol)
  | S n' => vol_iter sched n' (vol_next sched s vol).1 (vol_next sched s vol).2
  end.

Lemma vol_iter_add sched n m s vol :
  vol_iter sched (n + m) s vol =
  vol_iter sched m (vol_iter sched n s vol).1 (vol_iter sched n s vol).2.
Proof. revert s vol. induction n as [|n IH]; intros s vol; [done|]. apply IH. Qed.

(** A volume past the checks of [validateAndMutate]. *)
Record vol_ready (vol : AntstorVolume) : Prop := {
  vr_uuid : vs_Uuid (vol_Spec vol) ≠ "";
  vr_label : map_has (om_Labels (vol_meta vol)) UuidLabelKey = true;
  vr_status : vst_Status (vol_Status vol) ≠ "";
  vr_layout : lv_layout_ok vol = true;
}.

Lemma vol_next_ready sched s vol : vol_ready vol →
  vol_next sched s vol = if decide (vs_TargetNodeId (vol_Spec vol) ≠ "") then vol_next_placed s vol
                         else vol_next_unplaced sched s vol.
Proof.
  intros [_ Hlab Hst Hlay]. unfold vol_next. rewrite Hlab, Hlay. cbn [negb].
  by rewrite (decide_False (P := vst_Status (vol_Status vol) = "")).
Qed.

Lemma map_has_insert_same {V} (m : gomap V) k (v : V) : map_has (Some (<[k := v]> (default ∅ m))) k = true.
Proof. unfold map_has, map_get. rewrite lookup_insert_eq. by apply bool_decide_eq_true. Qed.
Lemma map_has_insert {V} (m : gomap V) k k' (v : V) :
  map_has m k = true → map_has (Some (<[k' := v]> (default ∅ m))) k = true.
Proof.
  unfold map_has, map_get. rewrite !bool_decide_eq_true. destruct m as [m|]; [|by intros []].
  intros H. cbn. destruct (decide (k' = k)) as [->|Hne]; [by rewrite lookup_insert_eq|].
  by rewrite lookup_insert_ne.
Qed.

Lemma vol_ready_add_label k v vol : vol_ready vol → vol_ready (vol_add_label k v vol).
Proof. intros []. split; try done. by apply map_has_insert. Qed.
Lemma vol_ready_set_target id vol : vol_ready vol → vol_ready (vol_set_target id vol).
Proof. intros []. by split. Qed.
Lemma vol_ready_marked vol : vol_ready vol → vol_ready (vol_marked vol).
Proof.
  intros Hr. unfold vol_marked. set (v1 := if map_has _ _ then vol else _).
  assert (vol_ready v1) as H1 by (unfold v1; case_match; auto using vol_ready_add_label).
  case_match; [done|]. destruct H1. by split.
Qed.

(** What [vol_marked] adds, and that it adds nothing twice. *)
Lemma vol_marked_marks vol :
  map_has (om_Labels (vol_meta (vol_marked vol))) TargetNodeIdLabelKey = true ∧
  InSliceString InStateFinalizer (om_Finalizers (vol_meta (vol_marked vol))) = true.
Proof.
  unfold vol_marked. set (v1 := if map_has _ _ then vol else _).
  assert (map_has (om_Labels (vol_meta v1)) TargetNodeIdLabelKey = true) as H1.
  { unfold v1. destruct (map_has _ _) eqn:E; [done|]. apply map_has_insert_same. }
  destruct (InSliceString _ _) eqn:E; [done|]. split; [done|].
  apply InSliceString_spec. cbn. apply elem_of_app. right. by apply list_elem_of_singleton.
Qed.
Lemma vol_marked_idemp vol : vol_marked (vol_marked vol) = vol_marked vol.
Proof.
  destruct (vol_marked_marks vol) as [H1 H2]. set (v := vol_marked vol) in *.
  unfold vol_marked. by rewrite H1, H2.
Qed.
Lemma vol_marked_Spec vol : vol_Spec (vol_marked vol) = vol_Spec vol.
Proof. unfold vol_marked. by repeat case_match. Qed.
Lemma vol_marked_Name vol : vol_Name (vol_marked vol) = vol_Name vol.
Proof. unfold vol_marked. by repeat case_match. Qed.

Lemma placed_at_marked id vol s : placed_at id vol s → placed_at id (vol_marked vol) s.
Proof.
  intros [Hwf (n & Hn & Hb)]. split; [done|]. exists n. split; [done|].
  unfold bindable. by rewrite vol_marked_Name, vol_marked_Spec.
Qed.

Lemma vol_iter_placed sched n s vol :
  vol_ready vol → vs_TargetNodeId (vol_Spec vol) ≠ "" →
  placed_at (vs_TargetNodeId (vol_Spec vol)) vol s →
  (vol_iter sched (S n) s vol).2 = vol_marked vol ∧
  resolves_at (vs_TargetNodeId (vol_Spec vol)) (vs_Uuid (vol_Spec vol)) (vol_iter sched (S n) s vol).1.
Proof.
  intros Hr Ht Hp. cbn [vol_iter].
  destruct (Bind_placed _ vol s Hp (vr_uuid _ Hr)) as (Herr & Hp1 & Hres).
  assert (vol_next sched s vol = ((BindAntstorVolume (vs_TargetNodeId (vol_Spec vol)) vol s).1, vol_marked vol))
    as ->.
  { rewrite vol_next_ready, decide_True by done. unfold vol_next_placed.
    destruct (BindAntstorVolume _ _ _) as [s1 e1]. cbn in *. by subst e1. }
  cbn [fst snd]. revert Hp1 Hres. generalize (BindAntstorVolume (vs_TargetNodeId (vol_Spec vol)) vol s).1.
  induction n as [|n IH]; intros s1 Hp1 Hres; [done|]. cbn [vol_iter].
  pose proof (placed_at_marked _ _ _ Hp1) as Hp2.
  destruct (Bind_placed _ (vol_marked vol) s1 Hp2) as (Herr2 & Hp3 & Hres3).
  { rewrite vol_marked_Spec. apply Hr. }
  assert (vol_next sched s1 (vol_marked vol) =
    ((BindAntstorVolume (vs_TargetNodeId (vol_Spec vol)) (vol_marked vol) s1).1, vol_marked vol)) as ->.
  { rewrite vol_next_ready, vol_marked_Spec, decide_True by (try done; by apply vol_ready_marked).
    unfold vol_next_placed. rewrite vol_marked_Spec.
    rewrite vol_marked_idemp.
    destruct (BindAntstorVolume _ (vol_marked vol) s1) as [s2 e2]. cbn [fst snd] in *. by subst e2. }
  
  cbn [fst snd]. apply IH.
  - destruct Hp3 as [Hwf (m & Hm & Hb)]. split; [done|]. exists m. split; [done|].
    unfold bindable in *. by rewrite vol_marked_Name, vol_marked_Spec in Hb.
  - by rewrite vol_marked_Spec in Hres3.
Qed.

(** The scheduler finds a node of the state for the volume, whatever its
    labels and status, which the first requests change. *)
Definition sched_finds (sched : Scheduler) (s : State) (vol : AntstorVolume) : Prop :=
  ∀ v, vol_Spec v = vol_Spec vol → om_Annotations (vol_meta v) = om_Annotations (vol_meta vol) →
    ∃ info vol' nodes', sched v (GetAllNodes s) = Ret (info, vol', None) nodes' ∧
      ni_ID info ≠ "" ∧ is_Some (NodeMap s !! ni_ID info).

Definition name_free (vol : AntstorVolume) (s : State) : Prop :=
  ∀ id n, NodeMap s !! id = Some n → vol_Name vol ∉ vol_Name <$> nd_Volumes n.

Lemma name_free_bindable vol n : vol_Name vol ∉ vol_Name <$> nd_Volumes n → bindable vol n.
Proof.
  intros H. apply Forall_forall. intros v Hv E. exfalso. apply H, list_elem_of_fmap. eauto.
Qed.

(** One request for an unplaced volume that is ready places it. *)
Lemma vol_next_schedules sched s vol :
  vol_ready vol → vs_TargetNodeId (vol_Spec vol) = "" → is_Some (vs_HostNode (vol_Spec vol)) →
  sched_contract sched → sched_finds sched s vol → state_wf s → name_free vol s →
  (∃ e, GetVolumeByID (vs_Uuid (vol_Spec vol)) s = inr e) →
  ∃ id s1, id ≠ "" ∧
    vol_next sched s vol = (s1, vol_add_label TargetNodeIdLabelKey id (vol_set_target id vol)) ∧
    placed_at id vol s1.
Proof.
  intros Hr Ht Hh Hs Hf Hwf Hfree [e He].
  destruct (Hf vol eq_refl eq_refl) as (info & v1 & nodes' & Hrun & Hid & [n0 Hn0]).
  destruct (sc_run _ Hs vol (GetAllNodes s) Hh (GetAllNodes_ids _ Hwf)) as (info' & v1' & err' & nodes'' & Hrun' & Hsame & Hv1).
  rewrite Hrun in Hrun'. injection Hrun' as <- <- <- <-.
  set (s0 := set_all_nodes nodes' s).
  assert (state_wf s0) as Hwf0 by by apply set_all_nodes_wf.
  pose proof (set_all_nodes_lookup s nodes' (ni_ID info) Hsame) as Ho. rewrite Hn0 in Ho.
  inversion Ho as [? n1 Hs01 E1 Hn1|]; subst.
  assert (placed_at (ni_ID info) v1 s0) as Hp0.
  { split; [done|]. exists n1. split; [done|]. apply name_free_bindable.
    rewrite (sn_volumes _ _ Hs01). destruct Hv1 as [-> | ->]; by apply (Hfree (ni_ID info)). }
  destruct (Bind_placed _ v1 s0 Hp0) as (Herr & Hp1 & _).
  { destruct Hv1 as [-> | ->]; apply Hr. }
  exists (ni_ID info), (BindAntstorVolume (ni_ID info) v1 s0).1. split; [done|]. split.
  - rewrite vol_next_ready, decide_False by (try done; by intros []).
    unfold vol_next_unplaced. rewrite He, decide_False by (by intros []).
    unfold run_scheduler. rewrite Hrun. cbn [run_state run_val]. fold s0.
    destruct (BindAntstorVolume _ _ _) as [s2 e2]. cbn in *. by subst e2.
  - destruct Hp1 as [Hwf1 (m & Hm & Hb)]. split; [done|]. exists m. split; [done|].
    destruct Hv1 as [-> | ->]; exact Hb.
Qed.
End iterate.

Section converge.
Context {L : K8sLib} {W : Type}.
Context {KV : KubeClient W AntstorVolume} {KP : KubeClient W StoragePool} {HK : StoreLaws KV}.
Implicit Types (vol : AntstorVolume) (s : State) (w : W) (sched : Scheduler).

(** C3. The reconciler implements the abstract step: when the server holds a live
    volume, one request, from fetching the volume to the last write, ends with
    the state and with the volume on the server that [vol_next] computes, and
    touches no other volume. *)
Theorem vol_Reconcile_refines now sched vol s w :
  sl_view w !! vol_key vol = Some vol → vol_live vol → state_wf s → sched_contract sched →
  ∃ res w',
    Reconcile_locked (AntstorVolumeReconcileHandler now (Some sched)) [] (vol_req vol) (s, w) =
      Ret res ((vol_next sched s vol).1, w') ∧
    sl_view w' = <[vol_key vol := (vol_next sched s vol).2]> (sl_view w) ∧
    vol_live (vol_next sched s vol).2 ∧ vol_key (vol_next sched s vol).2 = vol_key vol.
Proof.
  intros Hv Hl Hwf Hs. destruct (vol_round now (Some sched) vol s w Hv) as (w1 & Hw1 & ->).
  rewrite (vl_del _ Hl). cbn [opt_is_some].
  destruct (vol_HandleReconcile_steps sched vol s w1) as (r & o' & w' & Hr & Hw'); [by rewrite Hw1|done..|].
  go_simpl. rewrite Hr. eexists _, w'. split; [reflexivity|].
  split; [|by apply vol_next_live]. unfold stored in Hw'. by rewrite Hw', Hw1.
Qed.

(** [n] requests for the same object. *)
Fixpoint vol_requests (now : Z) (sched : Scheduler) (req : Request) (n : nat) : go (ManagerWorld W) unit :=
  match n with
  | O => mret tt
  | S n' => _ ← Reconcile_locked (AntstorVolumeReconcileHandler now (Some sched)) [] req;
            vol_requests now sched req n'
  end.

Lemma vol_requests_iter now sched vol s w n :
  sl_view w !! vol_key vol = Some vol → vol_live vol → state_wf s → sched_contract sched →
  ∃ w', vol_requests now sched (vol_req vol) n (s, w) = Ret tt ((vol_iter sched n s vol).1, w') ∧
    sl_view w' = <[vol_key vol := (vol_iter sched n s vol).2]> (sl_view w).
Proof.
  revert vol s w. induction n as [|n IH]; intros vol s w Hv Hl Hwf Hs.
  { exists w. split; [done|]. cbn. by rewrite insert_id. }
  cbn [vol_requests vol_iter].
  destruct (vol_round now (Some sched) vol s w Hv) as (w1 & Hw1 & Hround).
  destruct (vol_HandleReconcile_steps sched vol s w1) as (r & o' & w2 & Hr & Hw2);
    [by rewrite Hw1|done..|].
  destruct (vol_next_live sched s vol Hl) as [Hl' Hk'].
  unfold stored in Hw2. rewrite Hw1 in Hw2.
  destruct (IH (vol_next sched s vol).2 (vol_next sched s vol).1 w2) as (w' & Hrun & Hw'); [|done|by apply vol_next_wf|done|].
  { rewrite Hw2, Hk'. apply lookup_insert_eq. }
  exists w'. split.
  - unfold mbind at 1, go_mbind, go_bind. rewrite Hround, (vl_del _ Hl). cbn [opt_is_some].
    unfold mbind, go_mbind, go_bind, mret, go_mret, go_ret. rewrite Hr.
    assert (vol_req (vol_next sched s vol).2 = vol_req vol) as Hreq
      by (unfold vol_key, ko_key in Hk'; unfold vol_req; cbn in Hk'; congruence).
    by rewrite <- Hreq.
  - rewrite Hw', Hk', Hw2. apply insert_insert_eq.
Qed.

(** The first requests label the volume and give it a status. *)
Lemma vol_prepare sched vol s :
  vol_live vol → lv_layout_ok vol = true →
  ∃ k v, k ≤ 2 ∧ vol_iter sched k s vol = (s, v) ∧ vol_ready v ∧ vol_Spec v = vol_Spec vol ∧
    om_Annotations (vol_meta v) = om_Annotations (vol_meta vol) ∧ vol_key v = vol_key vol.
Proof.
  intros Hl Hlay.
  set (v1 := if map_has (om_Labels (vol_meta vol)) UuidLabelKey then vol
             else vol_add_label UuidLabelKey (vs_Uuid (vol_Spec vol)) vol).
  assert (map_has (om_Labels (vol_meta v1)) UuidLabelKey = true) as Hlab.
  { unfold v1. destruct (map_has (om_Labels (vol_meta vol)) UuidLabelKey) eqn:E; [done|].
    apply map_has_insert_same. }
  assert (vol_Spec v1 = vol_Spec vol ∧ om_Annotations (vol_meta v1) = om_Annotations (vol_meta vol) ∧
          vol_key v1 = vol_key vol ∧ vol_Status v1 = vol_Status vol) as (Hsp & Han & Hk & Hst)
    by (unfold v1; by case_match).
  assert (∃ k, k ≤ 1 ∧ vol_iter sched k s vol = (s, v1)) as (k1 & Hk1 & Hit1).
  { unfold v1. destruct (map_has (om_Labels (vol_meta vol)) UuidLabelKey) eqn:E; [exists 0; split; [lia|done]|].
    exists 1. split; [lia|]. cbn. unfold vol_next. by rewrite E. }
  assert (lv_layout_ok v1 = true) as Hlay1 by (unfold lv_layout_ok; by rewrite Han).
  destruct (decide (vst_Status (vol_Status v1) = "")) as [Hs1|Hs1].
  - exists (k1 + 1), (vol_set_status VolumeStatusCreating v1). split; [lia|].
    rewrite vol_iter_add, Hit1. cbn. unfold vol_next. rewrite Hlab, decide_True by done.
    split; [done|]. split; [|done]. split; try done. cbn. rewrite Hsp. apply Hl.
  - exists k1, v1. split; [lia|]. split; [done|]. split; [|done]. split; try done.
    rewrite Hsp. apply Hl.
Qed.

(** C7. Every live volume gets a node. When the scheduler finds one, at most four
    requests bind the volume in the state and save its node, its label and its
    finalizer on the API server, and every later request leaves the volume as
    it is, with the state resolving it to that node. *)
Theorem vol_converges now sched vol s w :
  sl_view w !! vol_key vol = Some vol → vol_live vol → lv_layout_ok vol = true →
  vs_TargetNodeId (vol_Spec vol) = "" →
  sched_contract sched → sched_finds sched s vol → state_wf s → name_free vol s →
  (∃ e, GetVolumeByID (vs_Uuid (vol_Spec vol)) s = inr e) →
  ∃ vol' id, id ≠ "" ∧ vs_TargetNodeId (vol_Spec vol') = id ∧
    map_get (om_Labels (vol_meta vol')) TargetNodeIdLabelKey = Some id ∧
    InStateFinalizer ∈ om_Finalizers (vol_meta vol') ∧
    ∀ n, 4 ≤ n → ∃ s' w',
      vol_requests now sched (vol_req vol) n (s, w) = Ret tt (s', w') ∧
      sl_view w' = <[vol_key vol := vol']> (sl_view w) ∧
      resolves_at id (vs_Uuid (vol_Spec vol)) s'.
Proof.
  intros Hv Hl Hlay Ht Hs Hf Hwf Hfree He.
  destruct (vol_prepare sched vol s Hl Hlay) as (k & v & Hk & Hit & Hr & Hsp & Han & Hkey).
  assert (vol_Name v = vol_Name vol) as Hname.
  { unfold vol_key, ko_key in Hkey. cbn in Hkey. unfold vol_Name. congruence. }
  destruct (vol_next_schedules sched s v) as (id & s1 & Hid & Hnext & Hp1); try done;
    try (rewrite Hsp; try done; by apply Hl).
  { intros u Hu1 Hu2. apply Hf; congruence. }
  { unfold name_free. by rewrite Hname. }
  set (v2 := vol_add_label TargetNodeIdLabelKey id (vol_set_target id v)) in *.
  assert (map_has (om_Labels (vol_meta v2)) TargetNodeIdLabelKey = true) as Hlab
    by apply map_has_insert_same.
  exists (vol_marked v2), id. split; [done|]. split; [by rewrite vol_marked_Spec|].
  split.
  { unfold vol_marked. rewrite Hlab.
    assert (map_get (om_Labels (vol_meta v2)) TargetNodeIdLabelKey = Some id) as Hg
      by (cbn; apply lookup_insert_eq).
    by case_match. }
  split; [apply InSliceString_spec, vol_marked_marks|].
  intros n Hn. destruct (vol_requests_iter now sched vol s w n Hv Hl Hwf Hs) as (w' & Hrun & Hw').
  replace n with (k + (1 + S (n - k - 2))) in * by lia.
  rewrite !vol_iter_add, Hit in Hrun, Hw'. cbn [fst snd] in *.
  destruct (vol_iter_placed sched (n - k - 2) s1 v2) as [Hfin Hres].
  - by apply vol_ready_add_label, vol_ready_set_target.
  - done.
  - destruct Hp1 as [Hwf1 (m & Hm & Hb)]. split; [done|]. by exists m.
  - cbn [vol_iter] in Hrun, Hw'. rewrite Hnext in Hrun, Hw'.
    cbn [fst snd] in Hrun, Hw'.
    eexists _, w'. split; [exact Hrun|]. cbn [vol_iter] in Hfin, Hres. rewrite Hfin in Hw'.
    split; [exact Hw'|]. cbn in Hres. by rewrite Hsp in Hres.
Qed.
End converge.

Section empty_uuid.
Context {L : K8sLib} {W : Type}.
Context {KV : KubeClient W AntstorVolume} {KP : KubeClient W StoragePool}.

(** A volume without a uuid is not stopped by the check that is there for it:
    its result does not break, so the volume goes on to the scheduler, and when
    a node is found the request ends with the error of the binding, which asks
    for an immediate retry instead of one in two minutes. *)
Lemma vol_empty_uuid_scheduled (vol : AntstorVolume) (s : State) (w : W) sched info vol' nodes' :
  vs_Uuid (vol_Spec vol) = "" → vs_StopReconcile (vol_Spec vol) = false →
  vs_TargetNodeId (vol_Spec vol) = "" → volIDMap s !! "" = None →
  sched vol (GetAllNodes s) = Ret (info, vol', None) nodes' → vs_Uuid (vol_Spec vol') = "" →
  is_Some (NodeMap (set_all_nodes nodes' s) !! ni_ID info) →
  ∃ o e, vol_HandleReconcile (Some sched) (OVolume vol) (s, w) =
           Ret (result_err (Some e), o) (set_all_nodes nodes' s, w) ∧
         str_contains (error_msg e) "volume UUID cannot be empty" = true.
Proof.
  intros Hu Hst Ht Hi Hrun Hu' [n Hn]. unfold vol_HandleReconcile. rewrite Hst.
  unfold vol_validateAndMutate. rewrite decide_True by done. go_simpl.
  change (NeedBreak (result_after (2 * Minute))) with false. cbn iota beta.
  unfold vol_scheduleVolume. rewrite decide_True by done.
  unfold mbind, go_mbind, go_bind, on_fst, gget. cbn [fst snd].
  assert (GetVolumeByID (vs_Uuid (vol_Spec vol)) s = inr (ErrNew ("cannot find Node by volID " +:+ ""))) as ->
    by (unfold GetVolumeByID; by rewrite Hu, Hi).
  rewrite decide_False by (intros Hne; by apply Hne).
  unfold run_scheduler. cbn [fst snd]. rewrite Hrun. unfold vol_assign, state_op, on_fst. go_simpl.
  unfold BindAntstorVolume. rewrite Hn, decide_True by done. cbn [fst snd].
  eexists _, _. split; [reflexivity|]. cbn [error_msg].
  by apply str_contains_app_l, str_contains_app_l.
Qed.
End empty_uuid.

(** ** Evaluations *)

(** A manager that knows one pool, and a server that holds one volume. *)
Definition ex_one_pool : @State NanoLib := state_run [ASetPool ex_pool] NewState.
Definition ExW := (MemStore AntstorVolume * MemStore (@StoragePool NanoLib))%type.
#[local] Instance exKV : KubeClient ExW AntstorVolume := client_fst MemClient.
#[local] Instance exKP : KubeClient ExW StoragePool := client_snd MemClient.
#[local] Instance exHK : StoreLaws exKV := laws_fst MemClient MemLaws.

Definition ex_server (vol : AntstorVolume) : ExW := ({[vol_key vol := vol]}, ∅).

Definition first_node_sched : @Scheduler NanoLib := λ vol nodes,
  match nodes with
  | [] => Ret (NodeInfo_zero, vol, Some (ErrNew NoStoragePoolAvailable)) []
  | n :: _ => Ret (nd_Info n, vol_set_target (ni_ID (nd_Info n)) vol, None) nodes
  end.

Lemma first_node_contract : sched_contract first_node_sched.
Proof.
  split. intros vol nodes _ _.
  assert (Forall2 same_node nodes nodes) as H.
  { induction nodes; constructor; auto using same_node_refl. }
  destruct nodes as [|n nodes]; eexists _, _, _, _; (split; [reflexivity|]); (split; [done|]); [done|].
  by right.
Qed.

Lemma ex_one_pool_map : NodeMap ex_one_pool = {["node-1" := NewNode (set_pool_capacity ex_pool)]}.
Proof. reflexivity. Qed.
Lemma ex_one_pool_wf : state_wf ex_one_pool.
Proof. apply state_run_wf, NewState_wf. Qed.
Lemma ex_one_pool_nodes : GetAllNodes ex_one_pool = [NewNode (set_pool_capacity ex_pool)].
Proof. unfold GetAllNodes. rewrite ex_one_pool_map, map_to_list_singleton. reflexivity. Qed.
Lemma ex_one_pool_index k : volIDMap ex_one_pool !! k = None.
Proof. apply lookup_empty. Qed.
Lemma ex_one_pool_id : ni_ID (nd_Info (NewNode (set_pool_capacity ex_pool))) = "node-1".
Proof. reflexivity. Qed.

Lemma ex_first_node_finds vol : sched_finds first_node_sched ex_one_pool vol.
Proof.
  intros v _ _. rewrite ex_one_pool_nodes. cbn [first_node_sched].
  eexists _, _, _. split; [reflexivity|]. rewrite ex_one_pool_id. split; [done|].
  rewrite ex_one_pool_map, lookup_singleton_eq. by eexists.
Qed.

Definition ex_new_vol : AntstorVolume := ex_vol "b" "uuid-b" GiB.
Lemma ex_new_vol_live : vol_live ex_new_vol.
Proof. split; try done; by eexists. Qed.
Lemma ex_server_has vol : sl_view (ex_server vol) !! vol_key vol = Some vol.
Proof. apply lookup_singleton_eq. Qed.

Lemma vol_Reconcile_refines_witness :
  ∃ res w',
    Reconcile_locked (AntstorVolumeReconcileHandler 0 (Some first_node_sched)) [] (vol_req ex_new_vol)
      (ex_one_pool, ex_server ex_new_vol) =
      Ret res ((vol_next first_node_sched ex_one_pool ex_new_vol).1, w') ∧
    vst_Status (vol_Status (vol_next first_node_sched ex_one_pool ex_new_vol).2) = "".
Proof.
  destruct (vol_Reconcile_refines 0 first_node_sched ex_new_vol ex_one_pool (ex_server ex_new_vol))
    as (res & w' & H & _).
  - apply ex_server_has.
  - apply ex_new_vol_live.
  - apply ex_one_pool_wf.
  - apply first_node_contract.
  - exists res, w'. split; [exact H|reflexivity].
Defined.

Lemma vol_converges_witness :
  ∃ vol' id, id ≠ "" ∧ vs_TargetNodeId (vol_Spec vol') = id ∧
    ∃ s' w', vol_requests 0 first_node_sched (vol_req ex_new_vol) 4
               (ex_one_pool, ex_server ex_new_vol) = Ret tt (s', w') ∧
             resolves_at id "uuid-b" s'.
Proof.
  destruct (vol_converges 0 first_node_sched ex_new_vol ex_one_pool (ex_server ex_new_vol))
    as (vol' & id & Hid & Ht & _ & _ & Hn).
  - apply ex_server_has.
  - apply ex_new_vol_live.
  - reflexivity.
  - reflexivity.
  - apply first_node_contract.
  - apply ex_first_node_finds.
  - apply ex_one_pool_wf.
  - intros i n. rewrite ex_one_pool_map. intros [_ <-]%lookup_singleton_Some. apply not_elem_of_nil.
  - eexists. unfold GetVolumeByID. rewrite ex_one_pool_index. reflexivity.
  - exists vol', id. split; [exact Hid|]. split; [exact Ht|].
    destruct (Hn 4) as (s' & w' & H1 & _ & H2); [lia|]. exists s', w'. split; [exact H1|exact H2].
Defined.

Lemma vol_empty_uuid_scheduled_witness :
  ∃ o e s', vol_HandleReconcile (Some first_node_sched) (OVolume (ex_vol "b" "" GiB))
              (ex_one_pool, ex_server ex_new_vol) = Ret (result_err (Some e), o) (s', ex_server ex_new_vol) ∧
            str_contains (error_msg e) "volume UUID cannot be empty" = true.
Proof.
  edestruct (vol_empty_uuid_scheduled (ex_vol "b" "" GiB) ex_one_pool (ex_server ex_new_vol)
    first_node_sched) as (o & e & H1 & H2).
  - reflexivity.
  - reflexivity.
  - reflexivity.
  - apply ex_one_pool_index.
  - rewrite ex_one_pool_nodes. cbn [first_node_sched]. reflexivity.
  - reflexivity.
  - rewrite <- ex_one_pool_nodes, ex_one_pool_id. unfold set_all_nodes, GetAllNodes. cbn [NodeMap st_set_NodeMap].
    rewrite ex_one_pool_map, map_to_list_singleton. by eexists.
  - eexists o, e, _. split; [exact H1|exact H2].
Defined.

(** A volume being deleted whose pool is gone. *)
Definition ex_deleted_vol (finalizers : list string) : AntstorVolume :=
  vol_set_meta {| om_Name := "b"; om_Namespace := DefaultNamespace; om_UID := "b";
     om_CreationTimestamp := 0; om_DeletionTimestamp := Some 0%Z; om_Labels := map_make;
     om_Annotations := None; om_OwnerReferences := []; om_Finalizers := finalizers |} ex_new_vol.

Lemma ex_no_pools (P : option (@StoragePool NanoLib) → Prop) (name : string) (vols : MemStore AntstorVolume) :
  P None → pool_answer name P ((vols, ∅) : ExW).
Proof.
  intros HP. eexists _, _. split; [reflexivity|]. split; [reflexivity|]. by split.
Qed.

Lemma vol_handleDeletion_pool_gone_witness :
  ∃ w', vol_handleDeletion (5 * Minute) (OVolume (ex_deleted_vol [InStateFinalizer; SpdkTargetFinalizer]))
          (ex_one_pool, ex_server (ex_deleted_vol [InStateFinalizer; SpdkTargetFinalizer])) =
        Ret (result_after (2 * Minute), OVolume (ex_deleted_vol [InStateFinalizer; SpdkTargetFinalizer]))
          (ex_one_pool, w').
Proof.
  edestruct (vol_handleDeletion_pool_gone (5 * Minute)
    (ex_deleted_vol [InStateFinalizer; SpdkTargetFinalizer]) ex_one_pool
    (ex_server (ex_deleted_vol [InStateFinalizer; SpdkTargetFinalizer]))) as (w' & H & _).
  - reflexivity.
  - vm_compute. reflexivity.
  - discriminate.
  - by apply ex_no_pools.
  - exists w'. exact H.
Defined.

Lemma vol_handleDeletion_safe_witness :
  ∃ r o' s' w' log, vol_handleDeletion (KV := recV) (KP := recP) 0
    (OVolume (ex_deleted_vol [InStateFinalizer]))
    (ex_one_pool, (ex_server ex_new_vol, [])) = Ret (r, o') (s', (w', log)) ∧
  ∃ fs, log = [inl (WUpdate (vol_set_finalizers fs (ex_deleted_vol [InStateFinalizer])))].
Proof.
  eexists _, _, _, _, _. split; [reflexivity|].
  edestruct (vol_handleDeletion_safe 0 (ex_deleted_vol [InStateFinalizer]) ex_one_pool
    (ex_server ex_new_vol)) as [[H _]|(fs & H & _)]; [reflexivity|discriminate H|].
  exists fs. exact H.
Defined.

(** Pools are never there, so neither is one that is ready. *)
#[local] Instance noKP : KubeClient ExW StoragePool := {|
  kGet _ name := λ w, Ret (inr (mem_not_found name)) w;
  kCreate o := mret (inl o); kUpdate o := mret (inl o); kUpdateStatus o := mret (inl o);
  kPatch _ o := mret (inl o); kPatchStatus _ o := mret (inl o); kDelete _ := mret None |}.

Lemma vol_deletion_completes_witness :
  let vol := ex_deleted_vol [InStateFinalizer; SpdkTargetFinalizer] in
  let h := AntstorVolumeReconcileHandler (KP := noKP) (30 * Minute) None in
  ∃ s1 w1 s2 w2,
    Reconcile_locked h [] (vol_req vol) (ex_one_pool, ex_server vol) = Ret (CtrlResult_zero, None) (s1, w1) ∧
    Reconcile_locked h [] (vol_req vol) (s1, w1) = Ret (CtrlResult_zero, None) (s2, w2) ∧
    sl_view w2 = delete (vol_key vol) (sl_view (ex_server vol)).
Proof.
  intros vol h.
  destruct (vol_deletion_completes (KP := noKP) (30 * Minute) None vol ex_one_pool (ex_server vol) 0)
    as (s1 & w1 & s2 & w2 & H1 & H2 & H3 & _).
  - apply ex_server_has.
  - reflexivity.
  - vm_compute. discriminate.
  - apply (bool_decide_unpack _). vm_compute. exact I.
  - left.
  - intros x. cbn. rewrite !elem_of_cons, elem_of_nil. tauto.
  - intros w'. eexists _, _. split; [reflexivity|]. split; [reflexivity|]. by split.
  - exists s1, w1, s2, w2. split; [exact H1|]. split; [exact H2|exact H3].
Defined.
