(* ===== verification/PoolReconciler.v ===== *)
(** * The storage pool reconciler and its lock plugin

    [reconciler/pool_reconciler.go] keeps the state's copy of every pool, its
    reservations and its status in step with the node's heartbeat, and deletes
    the pools of nodes that left the cluster. [plugin/lockpool.go] locks the
    pools of nodes that match the configured selectors or taints. The status of
    a pool is a state machine driven by both. *)

From Stdlib Require Import ZArith Lia.
From stdpp Require Import base gmap strings option list.
From S2P Require Import Prelude Strconv Float64 Misc K8s Api State Filter Plugin Server.

(** ** The cluster's nodes and leases *)

(** [corev1.Taint], [corev1.Node] and [coordinationv1.Lease], as far as they
    are read; the renew time is in nanoseconds. *)
Record Taint := { tn_Key : string; tn_Value : string; tn_Effect : string }.
Record CoreNode := { cn_Name : string; cn_Labels : gomap string; cn_Taints : list Taint }.
Definition CoreNode_zero : CoreNode := {| cn_Name := ""; cn_Labels := None; cn_Taints := [] |}.
Record Lease := {
  ls_Name : string; ls_RenewTime : option Z; ls_HolderIdentity : option string; ls_LeaseDurationSeconds : option Z;
  ls_OwnerReferences : list OwnerReference }.
Definition lease_named (name : string) (renew : option Z) : Lease := {|
  ls_Name := name; ls_RenewTime := renew; ls_HolderIdentity := None; ls_LeaseDurationSeconds := None; ls_OwnerReferences := [] |}.

(** The operators of [selection.Operator]. *)
Inductive SelectionOp := SelIn | SelNotIn | SelExists | SelDoesNotExist | SelGreaterThan | SelLessThan.

(** Matching tolerations and label requirements is the library's. *)
Class NodeMatchLib := {
  ToleratesTaint : Toleration → Taint → bool;
  Requirement : Type;
  NewRequirement : string → SelectionOp → list string → result Requirement;
  Requirement_Matches : Requirement → gomap string → bool;
}.

(** The cached list of the volumes placed on a node, by its index. *)
Class VolumeLister (W : Type) := {
  CacheListAnstorVolumeByNodeID : string → go W (result (list AntstorVolume));
}.

(* [reconciler/pool_reconciler.go:29-31] LeaseNamespace *)
Definition LeaseNamespace : string := "obnvmf".
(* [reconciler/pool_reconciler.go:34-35] nodeExpireDuration *)
Definition nodeExpireDuration : Z := (3 * Minute)%Z.
(* [reconciler/pool_reconciler.go:36-37] nodeOfflineExpireDuration *)
Definition nodeOfflineExpireDuration : Z := (24 * Hour)%Z.

(** [time.Since] of a time in nanoseconds. *)
Definition time_Since_ns (now t : Z) : Z :=
  Z.max (-9223372036854775808) (Z.min 9223372036854775807 (now - t)).

(* [plugin/lockpool.go:131-150] convertSelectionOp *)
Definition convertSelectionOp (selecorOp : string) : result SelectionOp :=
  if decide (selecorOp = "In") then inl SelIn
  else if decide (selecorOp = "NotIn") then inl SelNotIn
  else if decide (selecorOp = "Exists") then inl SelExists
  else if decide (selecorOp = "DoesNotExist") then inl SelDoesNotExist
  else if decide (selecorOp = "Gt") then inl SelGreaterThan
  else if decide (selecorOp = "Lt") then inl SelLessThan
  else inr (ErrNew ("not support op " +:+ selecorOp)).

Section pool.
Context {L : K8sLib} {NL : NodeMatchLib} {W : Type}.
Context {KP : KubeClient W StoragePool} {KN : KubeClient W CoreNode} {KL : KubeClient W Lease}.
Context {VL : VolumeLister W}.

Abbreviation MW := (ManagerWorld W).

(** ** The lock plugin *)

(* [plugin/lockpool.go:152-159] matchAnyTaint *)
Fixpoint matchAnyTaint (toler : Toleration) (taints : list Taint) : bool :=
  match taints with
  | [] => false
  | item :: rest => if ToleratesTaint toler item then true else matchAnyTaint toler rest
  end.

(** The loop over the selectors: one that cannot be converted is skipped. *)
Definition selector_item_matches (node : CoreNode) (item : NodeSelectorRequirement) : bool :=
  match convertSelectionOp (nsr_Operator item) with
  | inr _ => false
  | inl op =>
      match NewRequirement (nsr_Key item) op (nsr_Values item) with
      | inr _ => false
      | inl require => Requirement_Matches require (cn_Labels node)
      end
  end.

Definition lock_matched (cfg : NoScheduleConfig) (node : CoreNode) : bool :=
  existsb (selector_item_matches node) (nsc_NodeSelector cfg) ||
  existsb (λ toler, matchAnyTaint toler (cn_Taints node)) (nsc_NodeTaints cfg).

(** The last condition of the Kubernetes node, and its index. *)
Fixpoint find_kube_cond (idx : nat) (conds : list PoolCondition) (found : option (nat * PoolCondition))
    : option (nat * PoolCondition) :=
  match conds with
  | [] => found
  | item :: rest =>
      find_kube_cond (S idx) rest
        (if decide (pc_Type item = PoolConditionKubeNode) then Some (idx, item) else found)
  end.

Definition sp_set_conditions (c : list PoolCondition) (sp : StoragePool) : StoragePool :=
  sp_set_Status (spst_set_Conditions c (sp_Status sp)) sp.
Definition sp_set_status (st : string) (sp : StoragePool) : StoragePool :=
  sp_set_Status (spst_set_Status st (sp_Status sp)) sp.
Definition kube_cond (status msg : string) : PoolCondition :=
  {| pc_Type := PoolConditionKubeNode; pc_Status := status; pc_Message := msg |}.

(** [sp.Status.Conditions[idx].Status = status] and the same for the message. *)
Definition cond_update (idx : nat) (status msg : string) (conds : list PoolCondition) : list PoolCondition :=
  alter (λ c, {| pc_Type := pc_Type c; pc_Status := status; pc_Message := msg |}) idx conds.

Definition is_lock_error (item : PoolCondition) : bool :=
  bool_decide (pc_Status item = StatusError) &&
  (bool_decide (pc_Type item = PoolConditionKubeNode) ||
   bool_decide (pc_Type item = PoolConditionLvmHealth)).

(** [p.Client.Status().Update(ctx, sp)] and the result of its error. *)
Definition sp_status_update (sp : StoragePool) : go MW (StoragePool * option error) :=
  r ← on_snd (kUpdateStatus sp);
  mret (wrote sp r).

(* [plugin/lockpool.go:161-195] LockPoolPlugin.checkConditions *)
Definition checkConditions (sp : StoragePool) : go MW (Result * StoragePool) :=
  let foundError := existsb is_lock_error (spst_Conditions (sp_Status sp)) in
  '(sp1, err) ←
    (if foundError && bool_decide (spst_Status (sp_Status sp) = PoolStatusReady)
     then sp_status_update (sp_set_status PoolStatusLocked sp) else mret (sp, None));
  match err with
  | Some e => mret (result_err (Some e), sp1)
  | None =>
      '(sp2, err2) ←
        (if negb foundError && bool_decide (spst_Status (sp_Status sp1) = PoolStatusLocked)
         then sp_status_update (sp_set_status PoolStatusReady sp1) else mret (sp1, None));
      mret (result_err err2, sp2)
  end.

(** The two changes of the node's condition in [Reconcile]. *)
Definition lock_conditions (matched : bool) (found : option (nat * PoolCondition))
    (conds : list PoolCondition) : option (list PoolCondition) :=
  match found with
  | None =>
      if matched then Some (conds ++ [kube_cond StatusError KubeNodeMsgNcOffline]) else None
  | Some (idx, cond) =>
      if matched && bool_decide (pc_Status cond = StatusOK)
      then Some (cond_update idx StatusError KubeNodeMsgNcOffline conds)
      else if negb matched && bool_decide (pc_Status cond = StatusError)
      then Some (cond_update idx StatusOK "" conds)
      else None
  end.

(* [plugin/lockpool.go:27-125] LockPoolPlugin.Reconcile *)
Definition LockPool_Reconcile (cfg : SchedulerConfig) (req : Request) (obj : Object)
    : go MW (Result * Object) :=
  match obj with
  | OPool sp =>
      got ← on_snd (kGet (T := CoreNode) "" (om_Name (sp_meta sp)));
      let node := match got with inl n => n | inr _ => CoreNode_zero end in
      let matched := lock_matched (cfg_LockSchedCfg cfg) node in
      let conds := spst_Conditions (sp_Status sp) in
      match lock_conditions matched (find_kube_cond 0 conds None) conds with
      | Some conds' =>
          '(sp1, err) ← sp_status_update (sp_set_conditions conds' sp);
          match err with
          | Some e => mret (result_err (Some e), OPool sp1)
          | None => '(r, sp2) ← checkConditions sp1; mret (r, OPool sp2)
          end
      | None => '(r, sp2) ← checkConditions sp; mret (r, OPool sp2)
      end
  | _ => mret (Result_zero, obj)
  end.

(* [plugin/lockpool.go:17-25] LockPoolPlugin *)
Definition LockPoolPlugin (cfg : SchedulerConfig) : Plugin MW := {|
  pl_Name := "LockPool";
  pl_Reconcile := LockPool_Reconcile cfg;
  pl_HandleDeletion _ obj := mret (None, obj);
|}.

(** ** The pool handler *)

Definition sp_Name (sp : StoragePool) : string := om_Name (sp_meta sp).
Definition sp_set_labels (l : gomap string) (sp : StoragePool) : StoragePool :=
  sp_set_meta (om_set_Labels l (sp_meta sp)) sp.
Definition sp_set_finalizers (f : list string) (sp : StoragePool) : StoragePool :=
  sp_set_meta (om_set_Finalizers f (sp_meta sp)) sp.

(** A capacity of the volume group's size for a pool that has none. *)
Definition sp_init_status (sp : StoragePool) : StoragePool :=
  let sp1 := sp_set_status PoolStatusUnknown sp in
  let cap := default ∅ (spst_Capacity (sp_Status sp1)) in
  let sp2 := sp_set_Status (spst_set_Capacity (Some cap) (sp_Status sp1)) sp1 in
  let quant := NewQuantity (GetVgTotalBytes sp2) in
  sp_set_Status (spst_set_Capacity (Some (<[ResourceDiskPoolByte := quant]> cap)) (sp_Status sp2)) sp2.

(* [reconciler/pool_reconciler.go:266-317] StoragePoolReconcileHandler.validateAndMutate *)
Definition pool_validateAndMutate (sp : StoragePool) : go MW (Result * StoragePool) :=
  if decide (ni_ID (sps_NodeInfo (sp_Spec sp)) = "") then
    mret (result_err (Some (ErrNew "invalid SotragePool, it has no value of NodeInfo.ID")), sp)
  else if decide (map_len (om_Labels (sp_meta sp)) = 0)%nat then
    let sp1 := sp_set_labels (Some {[PoolLabelsNodeSnKey := sp_Name sp]}) sp in
    r ← on_snd (kPatch sp sp1);
    let '(sp2, err) := wrote sp1 r in
    mret (result_break err, sp2)
  else if bool_decide (spst_Status (sp_Status sp) = "") ||
          bool_decide (map_len (spst_Capacity (sp_Status sp)) = 0)%nat then
    '(sp1, err) ← sp_status_update (sp_init_status sp);
    mret (result_break err, sp1)
  else mret (Result_zero, sp).

(** [node.Reserve] for the configured reservations the node does not have. *)
Definition add_reservations (rs : list NodeReservation) (n : Node) : Node :=
  foldl (λ n item,
      match Node_GetReservation (nr_ID item) n with
      | Some _ => n
      | None => Node_Reserve (NewReservation (nr_ID item) (nr_Size item)) n
      end) n rs.

(* [reconciler/pool_reconciler.go:229-264] StoragePoolReconcileHandler.saveToState *)
Definition saveToState (cfg : SchedulerConfig) (sp : StoragePool) : go MW (Result * StoragePool) :=
  sp1 ← on_fst (state_op (λ s, ((SetStoragePool sp s).2, (SetStoragePool sp s).1)));
  if negb (InSliceString InStateFinalizer (om_Finalizers (sp_meta sp1))) then
    let sp2 := sp_set_finalizers (om_Finalizers (sp_meta sp1) ++ [InStateFinalizer]) sp1 in
    r ← on_snd (kPatch sp sp2);
    let '(sp3, err) := wrote sp2 r in
    mret (result_break err, sp3)
  else
    _ ← on_fst (gmodify (on_node (sp_Name sp1) (add_reservations (cfg_NodeReservations cfg))));
    mret (Result_zero, sp1).

(* [kubeutil/pool.go:134-139] StoragePoolUtil.UpdateStoragePoolStatus *)
Definition PoolUtil_UpdateStoragePoolStatus (nodeID newStatus : string) (original : StoragePool)
    : go MW (StoragePool * option error) :=
  let changed := sp_set_status newStatus original in
  r ← on_snd (kPatchStatus original changed);
  let '(pool, err) := wrote changed r in
  _ ← on_fst (gmodify (on_node nodeID (nd_set_Pool pool)));
  mret (pool, err).

(** One status change of [checkHeartbeat]: the error of the last one that was
    tried is the function's. *)
Definition heartbeat_status (nodeID : string) (cond : string → bool) (newStatus : string)
    (acc : StoragePool * option error) : go MW (StoragePool * option error) :=
  if cond (spst_Status (sp_Status acc.1))
  then PoolUtil_UpdateStoragePoolStatus nodeID newStatus acc.1
  else mret acc.

(** The node of the state a lease stands for; when it is not there, the lease
    of a node that is gone is deleted, and the nil node is used all the same. *)
Definition heartbeat_node (name : string) : go MW (option Node * option error) :=
  s ← on_fst gget;
  match GetNodeByNodeID name (s : State) with
  | inl node => mret (Some node, None)
  | inr _ =>
      got ← on_snd (kGet (T := CoreNode) "" name);
      match got with
      | inl _ => mret (None, None)
      | inr e =>
          if IsNotFound e then
            err ← on_snd (kDelete (T := Lease) (lease_named name None));
            mret (None, err)
          else mret (None, Some e)
      end
  end.

(* [reconciler/pool_reconciler.go:110-174] StoragePoolReconcileHandler.checkHeartbeat *)
Definition checkHeartbeat (now : Z) (sp : StoragePool) : go MW (option error) :=
  got ← on_snd (kGet (T := Lease) LeaseNamespace (sp_Name sp));
  match got with
  | inr e => mret (Some e)
  | inl lease =>
      renew ← deref "RenewTime" (ls_RenewTime lease);
      let since := time_Since_ns now renew in
      let lostHB := bool_decide (nodeExpireDuration < since)%Z in
      let shouldOffline := bool_decide (nodeOfflineExpireDuration < since)%Z in
      '(on, err0) ← heartbeat_node (ls_Name lease);
      node ← deref "node" on;
      acc1 ← heartbeat_status (ls_Name lease)
        (λ st, negb lostHB && (bool_decide (st = PoolStatusUnknown) || bool_decide (st = PoolStatusOffline)))
        PoolStatusReady (nd_Pool node, err0);
      acc2 ← heartbeat_status (ls_Name lease) (λ st, lostHB && bool_decide (st = PoolStatusReady))
        PoolStatusUnknown acc1;
      acc3 ← heartbeat_status (ls_Name lease) (λ _, shouldOffline) PoolStatusOffline acc2;
      mret acc3.2
  end.

(* [reconciler/pool_reconciler.go:319-369] StoragePoolReconcileHandler.processNodeOffline *)
Definition processNodeOffline (now : Z) (sp : StoragePool) : go MW Result :=
  let sinceCreation := time_Since now (om_CreationTimestamp (sp_meta sp)) in
  let isNotReady := bool_decide (spst_Status (sp_Status sp) ≠ PoolStatusReady) in
  vols ← on_snd (CacheListAnstorVolumeByNodeID (sp_Name sp));
  match vols with
  | inr e => mret (result_err (Some e))
  | inl volList =>
      if bool_decide (length volList = 0)%nat && isNotReady &&
         bool_decide (10 * Minute < sinceCreation)%Z then
        got ← on_snd (kGet (T := CoreNode) "" (sp_Name sp));
        match got with
        | inl _ => mret Result_zero
        | inr e =>
            if IsNotFound e then err ← on_snd (kDelete sp); mret (result_err err)
            else mret (result_err (Some e))
        end
      else mret Result_zero
  end.

(* [reconciler/pool_reconciler.go:64-108] StoragePoolReconcileHandler.HandleReconcile *)
Definition pool_HandleReconcile (cfg : SchedulerConfig) (now : Z) (obj : Object)
    : go MW (Result * Object) :=
  match obj with
  | OPool sp =>
      '(r1, sp1) ← pool_validateAndMutate sp;
      if NeedBreak r1 then mret (r1, OPool sp1)
      else
        '(r2, sp2) ← saveToState cfg sp1;
        if NeedBreak r2 then mret (r2, OPool sp2)
        else
          err ← checkHeartbeat now sp2;
          match err with
          | Some e => mret (result_err (Some e), OPool sp2)
          | None =>
              r3 ← processNodeOffline now sp2;
              if NeedBreak r3 then mret (r3, OPool sp2)
              else mret (result_after (5 * Minute), OPool sp2)
          end
  | _ => mret (result_err (Some (ErrNew "object is not *v1.AntstorVolumeGroup")), obj)
  end.

Definition VolumesLeftMessage : string := "Volumes left on node".
(** [strings.Join]. *)
Definition strings_Join (l : list string) (sep : string) : string :=
  match l with
  | [] => ""
  | x :: rest => foldl (λ acc y, acc +:+ sep +:+ y) x rest
  end.
Definition sp_set_message (m : string) (sp : StoragePool) : StoragePool :=
  sp_set_Status (spst_set_Message m (sp_Status sp)) sp.

(* [reconciler/pool_reconciler.go:176-227] StoragePoolReconcileHandler.handleDeletion *)
Definition pool_handleDeletion (obj : Object) : go MW (CtrlResult * option error * Object) :=
  match obj with
  | OPool sp =>
      s ← on_fst gget;
      let '(volumes, err0) := match GetNodeByNodeID (sp_Name sp) (s : State) with
                              | inl n => (nd_Volumes n, None)
                              | inr e => ([], Some e) end in
      if decide (0 < length volumes)%nat then
        let volNames := (λ item, vol_Namespace item +:+ "/" +:+ vol_Name item) <$> volumes in
        if negb (HasPrefix (spst_Message (sp_Status sp)) VolumesLeftMessage) then
          '(sp1, err) ← sp_status_update
            (sp_set_message ("Volumes left on node: " +:+ strings_Join volNames ", ") sp);
          mret (CtrlResult_zero, err, OPool sp1)
        else mret (CtrlResult_zero, err0, obj)
      else
        _ ← on_fst (gmodify (RemoveStoragePool (sp_Name sp)));
        if decide (0 < length (om_Finalizers (sp_meta sp)))%nat then
          let sp1 := sp_set_finalizers [] sp in
          r ← on_snd (kUpdate sp1);
          mret (CtrlResult_zero, None, OPool (wrote sp1 r).1)
        else mret (CtrlResult_zero, None, obj)
  | _ => mret (CtrlResult_zero, Some (ErrNew "object is not *v1.AntstorVolumeGroup"), obj)
  end.

(* [reconciler/pool_reconciler.go:53-57] StoragePoolReconcileHandler.GetObject *)
Definition pool_GetObject (req : Request) : go MW (result Object) :=
  r ← on_snd (kGet (T := StoragePool) (rq_Namespace req) (rq_Name req));
  mret match r with inl sp => inl (OPool sp) | inr e => inr e end.

(* [reconciler/pool_reconciler.go:40-51] StoragePoolReconcileHandler *)
Definition StoragePoolReconcileHandler (cfg : SchedulerConfig) (now : Z) : ReconcileHandler MW := {|
  rh_ResourceName := "StoragePool";
  rh_GetObject := pool_GetObject;
  rh_HandleReconcile _ := pool_HandleReconcile cfg now;
  rh_HandleDeletion _ obj :=
    '(res, err, obj') ← pool_handleDeletion obj;
    mret ({| res_Result := res; res_Error := err; res_Break := false |}, obj');
|}.
End pool.

(** ** The lock plugin's contract *)

Section lock_lemmas.
Context {L : K8sLib}.
Implicit Types (conds : list PoolCondition) (sp : StoragePool).

(** At most one condition of each type, and a node condition that is OK or an
    error. *)
Record conds_wf (conds : list PoolCondition) : Prop := {
  cw_types : NoDup (pc_Type <$> conds);
  cw_kube c : c ∈ conds → pc_Type c = PoolConditionKubeNode →
              pc_Status c = StatusOK ∨ pc_Status c = StatusError;
}.
Definition kube_error (conds : list PoolCondition) : Prop :=
  ∃ c, c ∈ conds ∧ pc_Type c = PoolConditionKubeNode ∧ pc_Status c = StatusError.
Definition lvm_error (conds : list PoolCondition) : Prop :=
  ∃ c, c ∈ conds ∧ pc_Type c = PoolConditionLvmHealth ∧ pc_Status c = StatusError.
Definition other_conds (conds : list PoolCondition) : list PoolCondition :=
  filter (λ c, pc_Type c ≠ PoolConditionKubeNode) conds.

Lemma find_kube_cond_none i conds found :
  PoolConditionKubeNode ∉ pc_Type <$> conds → find_kube_cond i conds found = found.
Proof.
  revert i found. induction conds as [|c conds IH]; intros i found Hn; csimpl in *; [done|].
  apply not_elem_of_cons in Hn as [Hne Hn]. rewrite decide_False by done. by apply IH.
Qed.

(** The node's condition, between the others. *)
Lemma find_kube_cond_split conds :
  NoDup (pc_Type <$> conds) →
  (find_kube_cond 0 conds None = None ∧ PoolConditionKubeNode ∉ pc_Type <$> conds) ∨
  ∃ l1 c l2, conds = l1 ++ c :: l2 ∧ pc_Type c = PoolConditionKubeNode ∧
    PoolConditionKubeNode ∉ pc_Type <$> l1 ++ l2 ∧
    find_kube_cond 0 conds None = Some (length l1, c).
Proof.
  intros Hnd. destruct (decide (PoolConditionKubeNode ∈ pc_Type <$> conds)) as [Hin|Hn].
  - right. apply list_elem_of_fmap in Hin as (c & Hc & Hin).
    apply list_elem_of_split in Hin as (l1 & l2 & ->). exists l1, c, l2.
    rewrite fmap_app, fmap_cons in Hnd.
    apply NoDup_app in Hnd as (Hn1 & Hdis & [Hni Hn2]%NoDup_cons).
    assert (PoolConditionKubeNode ∉ pc_Type <$> l1) as H1.
    { intros H. apply (Hdis _ H). rewrite Hc. left. }
    assert (PoolConditionKubeNode ∉ pc_Type <$> l2) as H2 by by rewrite Hc.
    split_and!; try done.
    + rewrite fmap_app, elem_of_app. tauto.
    + clear -Hc H1 H2. generalize (@None (nat * PoolCondition)).
      replace (length l1) with (0 + length l1) by lia. generalize 0.
      induction l1 as [|d l1 IH]; intros i found; csimpl.
      * rewrite decide_True by done. rewrite find_kube_cond_none by done. by rewrite Nat.add_0_r.
      * csimpl in H1. apply not_elem_of_cons in H1 as [Hne H1]. rewrite IH by done. do 2 f_equal. lia.
  - left. split; [by apply find_kube_cond_none|done].
Qed.

Lemma cond_update_middle l1 c l2 st msg : pc_Type c = PoolConditionKubeNode →
  cond_update (length l1) st msg (l1 ++ c :: l2) = l1 ++ kube_cond st msg :: l2.
Proof.
  intros Hc. unfold cond_update. rewrite alter_app_r_alt by lia.
  rewrite Nat.sub_diag. cbn. unfold kube_cond. by rewrite Hc.
Qed.

Lemma is_lock_error_spec conds :
  existsb is_lock_error conds = true ↔ kube_error conds ∨ lvm_error conds.
Proof.
  unfold kube_error, lvm_error. rewrite existsb_exists. unfold is_lock_error.
  setoid_rewrite andb_true_iff. setoid_rewrite orb_true_iff.
  setoid_rewrite bool_decide_eq_true. setoid_rewrite <- list_elem_of_In. naive_solver.
Qed.

(** The conditions after the plugin: an error for the node exactly when it is
    matched, the others as they were. *)
Lemma lock_conditions_spec matched conds :
  conds_wf conds →
  let conds' := default conds (lock_conditions matched (find_kube_cond 0 conds None) conds) in
  (kube_error conds' ↔ matched = true) ∧ other_conds conds' = other_conds conds ∧
  (lvm_error conds' ↔ lvm_error conds).
Proof.
  intros [Hnd Hk]. set (conds' := default _ _). cbn zeta.
  assert ((kube_error conds' ↔ matched = true) ∧ other_conds conds' = other_conds conds) as [H1 H2].
  { destruct (find_kube_cond_split conds Hnd) as [[Hf Hn]|(l1 & c & l2 & E & Hc & Hn & Hf)].
    - unfold conds', lock_conditions. rewrite Hf. destruct matched; cbn [from_option id].
      + split.
        * split; [done|]. intros _. exists (kube_cond StatusError KubeNodeMsgNcOffline).
          split; [|done]. apply elem_of_app. right. by apply list_elem_of_singleton.
        * unfold other_conds. rewrite filter_app. cbn. apply app_nil_r.
      + split; [|done]. split; [|done]. intros (c & Hin & Hty & _).
        destruct Hn. rewrite <- Hty. by apply list_elem_of_fmap_2.
    - assert (∀ c', pc_Type c' = PoolConditionKubeNode →
        (kube_error (l1 ++ c' :: l2) ↔ pc_Status c' = StatusError) ∧
        other_conds (l1 ++ c' :: l2) = other_conds (l1 ++ l2)) as Hmid.
      { intros c' Hc'. split.
        - split.
          + intros (d & Hin & Hd & Hs). rewrite elem_of_app, elem_of_cons in Hin.
            destruct Hin as [Hin|[->|Hin]]; [|done|];
              destruct Hn; rewrite fmap_app, elem_of_app, <- Hd; [left|right]; by apply list_elem_of_fmap_2.
          + intros Hs. exists c'. split; [|done]. apply elem_of_app. right. left.
        - unfold other_conds. rewrite !filter_app, filter_cons_False; [done|]. intros H. by apply H. }
      destruct (Hk c) as [Hs|Hs]; [rewrite E; apply elem_of_app; right; left|done| |];
        unfold conds', lock_conditions; rewrite Hf, Hs; destruct matched; cbn [andb negb from_option id];
        rewrite ?(bool_decide_true (StatusOK = StatusOK)), ?(bool_decide_false (StatusOK = StatusError)),
          ?(bool_decide_true (StatusError = StatusError)), ?(bool_decide_false (StatusError = StatusOK)) by done;
        cbn [andb negb from_option id]; rewrite E, ?cond_update_middle by done;
        destruct (Hmid c Hc) as [Hm1 Hm2]; rewrite Hs in Hm1.
      + destruct (Hmid (kube_cond StatusError KubeNodeMsgNcOffline) eq_refl) as [-> ->]. done.
      + rewrite Hm1. split; [|done]. done.
      + rewrite Hm1. done.
      + destruct (Hmid (kube_cond StatusOK "") eq_refl) as [-> ->]. split; [|done]. done. }
  split; [done|]. split; [done|].
  assert (∀ cs, lvm_error cs ↔ lvm_error (other_conds cs)) as Ho.
  { intros cs. unfold lvm_error, other_conds. setoid_rewrite list_elem_of_filter. split.
    - intros (c & Hin & Hty & Hs). exists c. split_and!; try done. by rewrite Hty.
    - intros (c & [_ Hin] & Hty & Hs). by exists c. }
  rewrite Ho, H2, <- Ho. done.
Qed.
End lock_lemmas.

Definition sp_key {L : K8sLib} (sp : StoragePool) : string * string := ko_key sp.

Section lock_spec.
Context {L : K8sLib} {NL : NodeMatchLib} {W : Type}.
Context {KP : KubeClient W StoragePool} {KN : KubeClient W CoreNode} {HK : StoreLaws KP}.
Implicit Types (sp : StoragePool) (s : State) (w : W).

(** A pool of the server that is not being deleted. *)
Definition pool_live sp w : Prop :=
  sl_view w !! sp_key sp = Some sp ∧ om_DeletionTimestamp (sp_meta sp) = None.

Lemma sp_put_live sp (m : gmap (string * string) StoragePool) :
  om_DeletionTimestamp (sp_meta sp) = None → store_put sp m = <[sp_key sp := sp]> m.
Proof. intros Hd. unfold store_put, ko_gone. cbn. by rewrite Hd. Qed.

Lemma sp_status_update_run sp st s w : pool_live sp w →
  ∃ w', sp_status_update (sp_set_Status st sp) (s, w) = Ret (sp_set_Status st sp, None) (s, w') ∧
    sl_view w' = <[sp_key sp := sp_set_Status st sp]> (sl_view w).
Proof.
  intros [Hv Hd]. destruct (sl_update_status (sp_set_Status st sp) w sp Hv) as (w' & Hp & Hw').
  exists w'. unfold sp_status_update, on_snd. go_simpl. rewrite Hp. split; [done|].
  rewrite Hw'. by apply (sp_put_live (sp_set_Status st sp)).
Qed.

Lemma pool_live_insert sp st w w' :
  pool_live sp w → sl_view w' = <[sp_key sp := sp_set_Status st sp]> (sl_view w) →
  pool_live (sp_set_Status st sp) w'.
Proof. intros [_ Hd] Hw'. split; [rewrite Hw'; apply lookup_insert_eq|done]. Qed.

Definition lock_status (foundError : bool) (st : string) : string :=
  if foundError then (if decide (st = PoolStatusReady) then PoolStatusLocked else st)
  else (if decide (st = PoolStatusLocked) then PoolStatusReady else st).

Lemma sp_set_status_id sp : sp_set_status (spst_Status (sp_Status sp)) sp = sp.
Proof. by destruct sp as [? ? []]. Qed.

Lemma checkConditions_run sp s w : pool_live sp w →
  let found := existsb is_lock_error (spst_Conditions (sp_Status sp)) in
  let sp' := sp_set_status (lock_status found (spst_Status (sp_Status sp))) sp in
  ∃ w', checkConditions sp (s, w) = Ret (Result_zero, sp') (s, w') ∧
    sl_view w' = <[sp_key sp := sp']> (sl_view w).
Proof.
  intros Hl found sp'. unfold checkConditions. fold found. unfold sp', lock_status.
  assert (∃ w', Ret (Result_zero, sp) (s, w) = Ret (Result_zero, sp) (s, w') ∧
    sl_view w' = <[sp_key sp := sp]> (sl_view w)) as Hsame.
  { exists w. split; [done|]. symmetry. apply insert_id, Hl. }
  destruct found; cbn [andb negb].
  - case_bool_decide as Hst.
    + rewrite decide_True by done. go_simpl.
      edestruct (sp_status_update_run sp) as (w' & Hu & Hw'); [done|].
      unfold sp_set_status at 1. rewrite Hu. cbn. by exists w'.
    + rewrite decide_False, sp_set_status_id by done. exact Hsame.
  - go_simpl. case_bool_decide as Hst.
    + rewrite decide_True by done.
      edestruct (sp_status_update_run sp) as (w' & Hu & Hw'); [done|].
      unfold sp_set_status at 1. rewrite Hu. by exists w'.
    + rewrite decide_False, sp_set_status_id by done. exact Hsame.
Qed.

(** C27. The lock plugin makes a pool's status follow its node. On a server that
    is not disturbed, one call ends with the node's condition an error exactly
    when the node matches a configured selector or taint, all other conditions
    as they were, and, for a pool that was ready or locked, the status locked
    exactly when the node matches or the volume group is broken, and ready
    otherwise; an offline or unknown pool keeps its status. Nothing else of the
    pool and no other pool changes. *)
Theorem LockPool_spec cfg req sp s w got w0 :
  pool_live sp w → conds_wf (spst_Conditions (sp_Status sp)) →
  kGet (T := CoreNode) "" (sp_Name sp) w = Ret got w0 → sl_view w0 = sl_view w →
  let matched := lock_matched (cfg_LockSchedCfg cfg)
                   (match got with inl n => n | inr _ => CoreNode_zero end) in
  let st := spst_Status (sp_Status sp) in
  let locked := matched = true ∨ lvm_error (spst_Conditions (sp_Status sp)) in
  ∃ conds' st' w',
    LockPool_Reconcile cfg req (OPool sp) (s, w) =
      Ret (Result_zero, OPool (sp_set_status st' (sp_set_conditions conds' sp))) (s, w') ∧
    sl_view w' = <[sp_key sp := sp_set_status st' (sp_set_conditions conds' sp)]> (sl_view w) ∧
    (kube_error conds' ↔ matched = true) ∧
    other_conds conds' = other_conds (spst_Conditions (sp_Status sp)) ∧
    (st = PoolStatusReady ∨ st = PoolStatusLocked →
       (locked → st' = PoolStatusLocked) ∧ (¬ locked → st' = PoolStatusReady)) ∧
    (st ≠ PoolStatusReady → st ≠ PoolStatusLocked → st' = st).
Proof.
  intros Hl Hwf Hg Hw0 matched st locked.
  destruct (lock_conditions_spec matched _ Hwf) as (Hkube & Hother & Hlvm).
  set (conds := spst_Conditions (sp_Status sp)) in *.
  set (conds' := default conds (lock_conditions matched (find_kube_cond 0 conds None) conds)) in *.
  set (found := existsb is_lock_error conds').
  exists conds', (lock_status found st).
  assert (pool_live sp w0) as Hl0 by (unfold pool_live; by rewrite Hw0).
  assert (found = true ↔ locked) as Hfound
    by (unfold found, locked; rewrite is_lock_error_spec, Hkube, Hlvm; done).
  assert (∃ w', LockPool_Reconcile cfg req (OPool sp) (s, w) =
      Ret (Result_zero, OPool (sp_set_status (lock_status found st) (sp_set_conditions conds' sp))) (s, w') ∧
    sl_view w' = <[sp_key sp := sp_set_status (lock_status found st) (sp_set_conditions conds' sp)]> (sl_view w))
    as (w' & Hrun & Hw').
  { unfold LockPool_Reconcile, on_snd at 1. go_simpl. cbn [fst snd].
    fold (sp_Name sp). rewrite Hg. fold matched conds.
    destruct (lock_conditions matched _ conds) as [c|] eqn:Ec.
    - destruct (sp_status_update_run sp (spst_set_Conditions c (sp_Status sp)) s w0 Hl0) as (w1 & Hu & Hw1).
      fold (sp_set_conditions c sp) in Hu, Hw1. rewrite Hu.
      destruct (checkConditions_run (sp_set_conditions c sp) s w1) as (w2 & Hc & Hw2).
      { by apply (pool_live_insert sp _ w0). }
      rewrite Hc. exists w2. split; [done|]. rewrite Hw2, Hw1, Hw0.
      apply insert_insert_eq.
    - destruct (checkConditions_run sp s w0 Hl0) as (w2 & Hc & Hw2).
      assert (sp_set_conditions conds' sp = sp) as -> by (by destruct sp as [? ? []]).
      rewrite Hc. exists w2. split; [done|]. by rewrite Hw2, Hw0. }
  exists w'. split; [exact Hrun|]. split; [exact Hw'|]. split; [done|]. split; [done|].
  unfold lock_status. split.
  - intros Hst. split.
    + intros Hlk%Hfound. rewrite Hlk. case_decide; [done|]. by destruct Hst.
    + intros Hlk. assert (found = false) as ->.
      { apply not_true_is_false. by rewrite Hfound. }
      case_decide; [done|]. by destruct Hst.
  - intros H1 H2. destruct found; by rewrite decide_False.
Qed.
End lock_spec.

(** ** The heartbeat *)

Section heartbeat.
Context {L : K8sLib} {W : Type}.
Context {KP : KubeClient W StoragePool} {KN : KubeClient W CoreNode} {KL : KubeClient W Lease}.
Context {HK : StoreLaws KP}.
Implicit Types (sp p : StoragePool) (s : State) (w : W) (n : Node).
(** A part of the server that the status of pools is no part of. *)
Context {F : Type} (frame : W → F).
Hypothesis frame_patch : ∀ base o w r w', kPatchStatus (T := StoragePool) base o w = Ret r w' → frame w' = frame w.

(** The status after a look at a lease last renewed [since] ago. *)
Definition heartbeat_next (since : Z) (st : string) : string :=
  if decide (24 * Hour < since)%Z then PoolStatusOffline
  else if decide (3 * Minute < since)%Z then
    (if decide (st = PoolStatusReady) then PoolStatusUnknown else st)
  else if decide (st = PoolStatusUnknown ∨ st = PoolStatusOffline) then PoolStatusReady
  else st.

(** The three changes of [checkHeartbeat] one after the other. *)
Lemma heartbeat_next_steps since st :
  let lost := bool_decide (nodeExpireDuration < since)%Z in
  let off := bool_decide (nodeOfflineExpireDuration < since)%Z in
  let st1 := if negb lost && (bool_decide (st = PoolStatusUnknown) || bool_decide (st = PoolStatusOffline))
             then PoolStatusReady else st in
  let st2 := if lost && bool_decide (st1 = PoolStatusReady) then PoolStatusUnknown else st1 in
  (if off then PoolStatusOffline else st2) = heartbeat_next since st.
Proof.
  cbn zeta. unfold heartbeat_next, nodeExpireDuration, nodeOfflineExpireDuration.
  destruct (decide (24 * Hour < since)%Z) as [H|H];
    [by rewrite (bool_decide_true (24 * Hour < since)%Z)|].
  rewrite (bool_decide_false (24 * Hour < since)%Z) by done.
  destruct (decide (3 * Minute < since)%Z) as [H3|H3].
  - rewrite (bool_decide_true (3 * Minute < since)%Z) by done. cbn [negb andb].
    case_bool_decide as E; [by rewrite decide_True|by rewrite decide_False].
  - rewrite (bool_decide_false (3 * Minute < since)%Z) by done. cbn [negb andb].
    repeat case_bool_decide; cbn [orb]; try (rewrite decide_True by tauto; done).
    by rewrite decide_False by tauto.
Qed.

(** The node's pool in the state and on the server. *)
Definition pool_synced (id : string) p s w : Prop :=
  (∃ n, NodeMap s !! id = Some n ∧ nd_Pool n = p) ∧ pool_live p w.

Definition with_pool (id : string) p s : State := on_node id (nd_set_Pool p) s.

Lemma with_pool_twice id p p' s : with_pool id p' (with_pool id p s) = with_pool id p' s.
Proof.
  unfold with_pool, on_node. destruct (NodeMap s !! id) as [n|] eqn:E; [|by rewrite E].
  cbn [NodeMap st_set_NodeMap]. rewrite lookup_insert_eq. unfold st_set_NodeMap. cbn. f_equal.
  apply insert_insert_eq.
Qed.

Lemma with_pool_same id p s : (∃ n, NodeMap s !! id = Some n ∧ nd_Pool n = p) → with_pool id p s = s.
Proof.
  intros (n & Hn & <-). unfold with_pool, on_node. rewrite Hn. unfold st_set_NodeMap.
  rewrite insert_id; [by destruct s|]. rewrite Hn. by destruct n.
Qed.

(** What a run of status changes has done so far. *)
Definition hb_state (id : string) p s w (st : string) (sw : ManagerWorld W) : Prop :=
  sw.1 = with_pool id (sp_set_status st p) s ∧
  sl_view sw.2 = <[sp_key p := sp_set_status st p]> (sl_view w) ∧ frame sw.2 = frame w.

Lemma heartbeat_status_run id p s w st cond newStatus e sw :
  pool_synced id p s w → hb_state id p s w st sw →
  ∃ sw' e', heartbeat_status id cond newStatus (sp_set_status st p, e) sw =
    Ret (sp_set_status (if cond st then newStatus else st) p, e') sw' ∧
    hb_state id p s w (if cond st then newStatus else st) sw' ∧
    (e = None → e' = None).
Proof.
  intros [(n & Hn & Hp) [Hv Hd]] (Hs & Hw & Hf). unfold heartbeat_status. cbn [fst sp_Status sp_set_status sp_set_Status].
  change (spst_Status (spst_set_Status st (sp_Status p))) with st.
  destruct (cond st); [|by exists sw, e].
  set (q := sp_set_status st p) in *. destruct sw as [s1 w1]. cbn [fst snd] in *.
  destruct (sl_patch_status (sp_set_status newStatus q) w1 q) as (w2 & Hpatch & Hw2).
  { rewrite Hw. apply lookup_insert_eq. }
  unfold PoolUtil_UpdateStoragePoolStatus, on_fst, on_snd. go_simpl. rewrite Hpatch. cbn [wrote fst snd].
  eexists _, None. split; [reflexivity|]. split; [|done]. split_and!.
  - cbn [fst]. rewrite Hs. apply with_pool_twice.
  - cbn [snd]. rewrite Hw2, Hw. cbn [ko_with_status sp_KubeObject].
    rewrite sp_put_live by done. apply insert_insert_eq.
  - cbn [snd]. by rewrite (frame_patch _ _ _ _ _ Hpatch).
Qed.

(** The status follows the heartbeat: with the lease last renewed [since] ago
    the pool becomes offline after a day, unknown after three minutes if it was
    ready, and ready again from unknown or offline once it is renewed; a locked
    pool stays locked for up to a day. The state's copy and the server's get
    the same status and nothing else changes. *)
Lemma checkHeartbeat_status now sp p s w w0 lease renew :
  kGet (T := Lease) LeaseNamespace (sp_Name sp) w = Ret (inl lease) w0 → sl_view w0 = sl_view w → frame w0 = frame w →
  ls_RenewTime lease = Some renew → pool_synced (ls_Name lease) p s w →
  let st' := heartbeat_next (time_Since_ns now renew) (spst_Status (sp_Status p)) in
  ∃ w', checkHeartbeat now sp (s, w) = Ret None (with_pool (ls_Name lease) (sp_set_status st' p) s, w') ∧
    sl_view w' = <[sp_key p := sp_set_status st' p]> (sl_view w) ∧ frame w' = frame w.
Proof.
  intros Hg Hw0 Hf0 Hr Hsync st'. pose proof Hsync as [(n & Hn & Hp) [Hv Hd]].
  set (st := spst_Status (sp_Status p)) in *. set (since := time_Since_ns now renew) in *.
  set (id := ls_Name lease) in *.
  assert (hb_state id p s w st (s, w0)) as H0.
  { unfold hb_state. cbn [fst snd]. unfold st. rewrite sp_set_status_id. split_and!; [| |done].
    - symmetry. apply with_pool_same. by exists n.
    - rewrite Hw0. symmetry. by apply insert_id. }
  unfold checkHeartbeat, heartbeat_node.
  unfold mbind, go_mbind, go_bind, on_fst, on_snd, gget. cbn [fst snd].
  rewrite Hg, Hr. cbn [deref]. unfold mret, go_mret, go_ret. fold since id. cbn [fst snd].
  unfold GetNodeByNodeID. rewrite Hn. cbn [deref]. unfold mret, go_mret, go_ret. rewrite Hp.
  set (lost := bool_decide (nodeExpireDuration < since)%Z).
  set (off := bool_decide (nodeOfflineExpireDuration < since)%Z).
  assert ((p, @None error) = (sp_set_status st p, None)) as -> by (unfold st; by rewrite sp_set_status_id).
  edestruct (heartbeat_status_run id p s w st) as (sw1 & e1 & -> & H1 & He1); [done|exact H0|].
  cbn beta iota. edestruct (heartbeat_status_run id p s w) as (sw2 & e2 & -> & H2 & He2); [done|exact H1|].
  cbn beta iota. edestruct (heartbeat_status_run id p s w) as (sw3 & e3 & -> & H3 & He3); [done|exact H2|].
  cbn beta iota. cbn [snd]. rewrite He3 by auto.
  assert (∀ x, x = st' → hb_state id p s w x sw3 →
    ∃ w', Ret (A := option error) None sw3 =
      Ret None (with_pool id (sp_set_status st' p) s, w') ∧
      sl_view w' = <[sp_key p := sp_set_status st' p]> (sl_view w) ∧ frame w' = frame w) as Hend.
  { intros x -> (Hs & Hw & Hf). exists sw3.2. split; [|by split]. rewrite <- Hs. by destruct sw3. }
  eapply Hend; [|exact H3]. apply heartbeat_next_steps.
Qed.

(** A pool whose name is not the id its node has in the state crashes the
    reconciler: the node the lease names is not found, the error is only
    logged, and the nil node is read. *)
Lemma checkHeartbeat_missing_node now sp s w w0 lease renew :
  kGet (T := Lease) LeaseNamespace (sp_Name sp) w = Ret (inl lease) w0 →
  ls_RenewTime lease = Some renew → NodeMap s !! ls_Name lease = None →
  run_val (checkHeartbeat now sp (s, w)) = None.
Proof.
  intros Hg Hr Hn. unfold checkHeartbeat, heartbeat_node.
  unfold mbind, go_mbind, go_bind, on_fst, on_snd, gget. cbn [fst snd].
  rewrite Hg, Hr. cbn [deref]. unfold mret, go_mret, go_ret. cbn [fst snd].
  unfold GetNodeByNodeID. rewrite Hn. cbn [fst snd].
  destruct (kGet (T := CoreNode) "" (ls_Name lease) w0) as [[node|e] w1|]; cbn; [done| |done].
  destruct (IsNotFound e); [|done]. cbn [fst snd].
  by destruct (kDelete (T := Lease) (lease_named (ls_Name lease) None) w1) as [[e'|] w2|].
Qed.
End heartbeat.

(** ** What pools are deleted *)

Section pool_deletion.
Context {L : K8sLib} {W : Type}.
Context {KP : KubeClient W StoragePool} {KN : KubeClient W CoreNode} {VL : VolumeLister W}.
Implicit Types (sp : StoragePool) (s : State) (w : W).

Abbreviation PoolWrites := (Write StoragePool + Write CoreNode)%type.

(** The clients with their writes recorded. *)
#[local] Instance recPool : KubeClient (Logged W PoolWrites) StoragePool := Recording KP inl.
#[local] Instance recNode : KubeClient (Logged W PoolWrites) CoreNode := Recording KN inr.
#[local] Instance recList : VolumeLister (Logged W PoolWrites) :=
  {| CacheListAnstorVolumeByNodeID id := on_fst (CacheListAnstorVolumeByNodeID id) |}.

(** A pool is deleted by the offline check only when all four conditions of
    its comment hold: no volume is left on it, it is not ready, it is more than
    ten minutes old, and the API server says its node does not exist. The check
    writes nothing else, and never touches the state. *)
Lemma processNodeOffline_safe now sp s w r s' w' log :
  processNodeOffline now sp (s, (w, [])) = Ret r (s', (w', log)) →
  s' = s ∧
  (log = [] ∨
   log = [inl (WDelete sp)] ∧
   spst_Status (sp_Status sp) ≠ PoolStatusReady ∧
   (10 * Minute < time_Since now (om_CreationTimestamp (sp_meta sp)))%Z ∧
   ∃ w1 e w2, CacheListAnstorVolumeByNodeID (sp_Name sp) w = Ret (inl []) w1 ∧
     kGet (T := CoreNode) "" (sp_Name sp) w1 = Ret (inr e) w2 ∧ IsNotFound e = true).
Proof.
  unfold processNodeOffline, on_snd. go_simpl. cbn [fst snd].
  cbn [CacheListAnstorVolumeByNodeID recList]. unfold on_fst. cbn [fst snd].
  destruct (CacheListAnstorVolumeByNodeID (sp_Name sp) w) as [[vols|e] w1|] eqn:El; cbn [fst snd];
    [|intros [= <- <- <- <-]; by split; [|left]|discriminate].
  destruct (_ && _ && _) eqn:Ec; [|intros [= <- <- <- <-]; by split; [|left]].
  apply andb_true_iff in Ec as [[Hl Hst]%andb_true_iff Hc].
  apply bool_decide_eq_true in Hl, Hst, Hc. apply nil_length_inv in Hl as ->.
  cbn [kGet recNode Recording]. unfold on_fst. cbn [fst snd].
  destruct (kGet (T := CoreNode) "" (sp_Name sp) w1) as [[n|e] w2|] eqn:Eg; cbn [fst snd];
    [intros [= <- <- <- <-]; by split; [|left]| |discriminate].
  destruct (IsNotFound e) eqn:Ee; [|intros [= <- <- <- <-]; by split; [|left]].
  cbn [kDelete recPool Recording fst snd]. rewrite logged_run.
  destruct (kDelete sp w2) as [err w3|]; [|discriminate]. intros [= <- <- <- <-].
  split; [done|]. right. split; [done|]. split; [done|]. split; [done|].
  exists w1, e, w2. done.
Qed.

(** A pool being deleted keeps its finalizers and its node in the state as
    long as the state knows a volume on the node: then at most its status
    message is written. Otherwise the node is removed from the state and the
    finalizers are cleared in one update, whose failure is not reported: the
    request always counts as done. *)
Lemma pool_handleDeletion_safe sp s w res err o' s' w' log :
  pool_handleDeletion (OPool sp) (s, (w, [])) = Ret (res, err, o') (s', (w', log)) →
  (∃ n, NodeMap s !! sp_Name sp = Some n ∧ nd_Volumes n ≠ [] ∧ s' = s ∧
     (log = [] ∨ ∃ m, log = [inl (WUpdateStatus (sp_set_message m sp))])) ∨
  ((∀ n, NodeMap s !! sp_Name sp = Some n → nd_Volumes n = []) ∧
   s' = RemoveStoragePool (sp_Name sp) s ∧ res = CtrlResult_zero ∧ err = None ∧
   log = if decide (om_Finalizers (sp_meta sp) = []) then []
         else [inl (WUpdate (sp_set_finalizers [] sp))]).
Proof.
  unfold pool_handleDeletion. unfold mbind at 1, go_mbind, go_bind, on_fst at 1, gget.
  cbn [fst snd]. unfold GetNodeByNodeID.
  destruct (NodeMap s !! sp_Name sp) as [n|] eqn:En.
  - destruct (nd_Volumes n) as [|v vs] eqn:Ev.
    + rewrite decide_False by (cbn; lia). intros Hrun. right.
      split; [by intros ? [= <-]|]. revert Hrun.
      unfold on_fst, on_snd. go_simpl. cbn [fst snd].
      destruct (om_Finalizers (sp_meta sp)) as [|f fs].
      * rewrite decide_False by (cbn; lia). by intros [= <- <- <- <- <- <-].
      * rewrite decide_True by (cbn; lia). cbn [kUpdate recPool Recording fst snd]. rewrite logged_run.
        destruct (kUpdate _ w) as [r w2|]; [|done]. by intros [= <- <- <- <- <- <-].
    + rewrite decide_True by (cbn; lia). intros Hrun. left. exists n. split; [done|].
      rewrite Ev. split; [done|]. revert Hrun. destruct (negb _).
      * unfold sp_status_update, on_snd. go_simpl. cbn [fst snd].
        cbn [kUpdateStatus recPool Recording fst snd]. rewrite logged_run.
        destruct (kUpdateStatus _ w) as [[p|e] w2|]; [| |done];
          intros [= <- <- <- <- <- <-]; (split; [done|]); right; by eexists.
      * intros [= <- <- <- <- <- <-]. by split; [|left].
  - rewrite decide_False by (cbn; lia). intros Hrun. right. split; [done|]. revert Hrun.
    unfold on_fst, on_snd. go_simpl. cbn [fst snd].
    destruct (om_Finalizers (sp_meta sp)) as [|f fs].
    + rewrite decide_False by (cbn; lia). by intros [= <- <- <- <- <- <-].
    + rewrite decide_True by (cbn; lia). cbn [kUpdate recPool Recording fst snd]. rewrite logged_run.
      destruct (kUpdate _ w) as [r w2|]; [|done]. by intros [= <- <- <- <- <- <-].
Qed.
End pool_deletion.

(** ** Evaluations *)

(** Matching by equality of keys and values, as documented for [Equal] and
    [Exists] tolerations and for the selector operators on strings. *)
Definition simple_tolerates (t : Toleration) (taint : Taint) : bool :=
  (bool_decide (tol_Effect t = "") || bool_decide (tol_Effect t = tn_Effect taint)) &&
  (bool_decide (tol_Key t = "") || bool_decide (tol_Key t = tn_Key taint)) &&
  (bool_decide (tol_Operator t = "Exists") || bool_decide (tol_Value t = tn_Value taint)).
Definition simple_matches (r : string * SelectionOp * list string) (labels : gomap string) : bool :=
  let '(key, op, vals) := r in
  match op, map_get labels key with
  | SelIn, Some v => bool_decide (v ∈ vals)
  | SelNotIn, Some v => bool_decide (v ∉ vals)
  | SelNotIn, None | SelDoesNotExist, None => true
  | SelExists, Some _ => true
  | _, _ => false
  end.
#[local] Instance simple_NodeMatch : NodeMatchLib := {|
  ToleratesTaint := simple_tolerates;
  Requirement := string * SelectionOp * list string;
  NewRequirement key op vals := inl (key, op, vals);
  Requirement_Matches := simple_matches |}.

Abbreviation ExPools := (MemStore (@StoragePool NanoLib)).

(** A client that answers every read alike. *)
Definition fixed_client {T} (answer : result T) : KubeClient ExPools T := {|
  kGet _ _ := λ w, Ret answer w; kCreate o := mret (inl o); kUpdate o := mret (inl o);
  kUpdateStatus o := mret (inl o); kPatch _ o := mret (inl o); kPatchStatus _ o := mret (inl o);
  kDelete _ := mret None |}.

Definition ex_offline_taint : Taint := {| tn_Key := "nc"; tn_Value := "offline"; tn_Effect := "NoSchedule" |}.
Definition ex_core_node : CoreNode :=
  {| cn_Name := "node-1"; cn_Labels := None; cn_Taints := [ex_offline_taint] |}.
Definition ex_lock_cfg : SchedulerConfig :=
  {| cfg_MaxRemoteVolumeCount := 3; cfg_RemoteIgnoreAnnoSelector := None; cfg_Filters := [];
     cfg_Priorities := [];
     cfg_LockSchedCfg := {| nsc_NodeSelector := [];
       nsc_NodeTaints := [{| tol_Key := "nc"; tol_Operator := "Exists"; tol_Value := ""; tol_Effect := "" |}] |};
     cfg_NodeCacheSelector := None; cfg_MinLocalStoragePct := 0; cfg_NodeReservations := [] |}.

Definition ex_sp : @StoragePool NanoLib := sp_set_meta (ex_meta "node-1") ex_pool.
Definition ex_pools : ExPools := {[sp_key ex_sp := ex_sp]}.
Definition ex_pool_state : @State NanoLib :=
  {| NodeMap := {["node-1" := NewNode ex_sp]}; volIDMap := ∅ |}.

Lemma ex_sp_live : pool_live ex_sp ex_pools.
Proof. split; [apply lookup_singleton_eq|reflexivity]. Qed.

Lemma LockPool_spec_witness :
  ∃ conds' st' w',
    LockPool_Reconcile (KN := fixed_client (inl ex_core_node)) ex_lock_cfg ex_req (OPool ex_sp)
      (ex_pool_state, ex_pools) =
      Ret (Result_zero, OPool (sp_set_status st' (sp_set_conditions conds' ex_sp))) (ex_pool_state, w') ∧
    st' = PoolStatusLocked.
Proof.
  destruct (LockPool_spec (KN := fixed_client (inl ex_core_node)) ex_lock_cfg ex_req ex_sp ex_pool_state
    ex_pools (inl ex_core_node) ex_pools) as (conds' & st' & w' & H1 & _ & _ & _ & H2 & _).
  - exact ex_sp_live.
  - split; [repeat constructor; apply not_elem_of_nil|].
    intros c Hc. apply list_elem_of_singleton in Hc as ->. discriminate.
  - reflexivity.
  - reflexivity.
  - exists conds', st', w'. split; [exact H1|]. apply H2; [left; reflexivity|]. left. vm_compute. reflexivity.
Defined.

Definition ex_lease (renew : Z) : Lease := lease_named "node-1" (Some renew).

Lemma ex_pool_synced : pool_synced (HK := MemLaws) "node-1" ex_sp ex_pool_state ex_pools.
Proof.
  split; [|exact ex_sp_live]. exists (NewNode ex_sp). split; [|reflexivity].
  apply lookup_singleton_eq.
Qed.

Lemma checkHeartbeat_status_witness :
  ∃ w', checkHeartbeat (KN := fixed_client (inl ex_core_node)) (KL := fixed_client (inl (ex_lease 0)))
          (5 * Minute) ex_sp (ex_pool_state, ex_pools) =
        Ret None (with_pool "node-1" (sp_set_status PoolStatusUnknown ex_sp) ex_pool_state, w').
Proof.
  destruct (checkHeartbeat_status (KN := fixed_client (inl ex_core_node))
    (KL := fixed_client (inl (ex_lease 0))) (λ _, tt) (λ _ _ _ _ _ _, eq_refl) (5 * Minute) ex_sp ex_sp ex_pool_state ex_pools ex_pools
    (ex_lease 0) 0) as (w' & H & _).
  - reflexivity.
  - reflexivity.
  - reflexivity.
  - reflexivity.
  - exact ex_pool_synced.
  - exists w'. exact H.
Defined.

Lemma checkHeartbeat_missing_node_witness :
  run_val (checkHeartbeat (KN := fixed_client (inl ex_core_node)) (KL := fixed_client (inl (ex_lease 0)))
    0 ex_sp (NewState, ex_pools)) = None.
Proof.
  apply (checkHeartbeat_missing_node (KN := fixed_client (inl ex_core_node))
    (KL := fixed_client (inl (ex_lease 0))) 0 ex_sp NewState ex_pools ex_pools (ex_lease 0) 0).
  - reflexivity.
  - reflexivity.
  - apply lookup_empty.
Defined.

#[local] Instance no_volumes : VolumeLister ExPools :=
  {| CacheListAnstorVolumeByNodeID _ := mret (inl []) |}.

Definition ex_lost_sp : @StoragePool NanoLib := sp_set_status PoolStatusOffline ex_sp.

Lemma processNodeOffline_safe_witness :
  ∃ r s' w' log,
    processNodeOffline (KP := recPool) (KN := recNode (KN := fixed_client (inr (mem_not_found "node-1"))))
      (VL := recList) (11 * Minute) ex_lost_sp (ex_pool_state, (ex_pools, [])) = Ret r (s', (w', log)) ∧
    s' = ex_pool_state ∧ log = [inl (WDelete ex_lost_sp)].
Proof.
  eexists _, _, _, _. split; [reflexivity|].
  edestruct (processNodeOffline_safe (KN := fixed_client (inr (mem_not_found "node-1"))) (11 * Minute)
    ex_lost_sp ex_pool_state ex_pools) as [H1 [H2|[H2 _]]]; [reflexivity|discriminate H2|].
  split; [exact H1|exact H2].
Defined.

Lemma pool_handleDeletion_safe_witness :
  ∃ res err o' s' w' log,
    pool_handleDeletion (KP := recPool) (OPool ex_sp)
      (ex_pool_state, (ex_pools, [])) = Ret (res, err, o') (s', (w', log)) ∧
    s' = RemoveStoragePool "node-1" ex_pool_state ∧ err = None.
Proof.
  eexists _, _, _, _, _, _. split; [reflexivity|].
  edestruct (pool_handleDeletion_safe ex_sp ex_pool_state ex_pools)
    as [(n & Hn & Hv & _)|(_ & Hs & _ & He & _)]; [reflexivity| |].
  - exfalso. apply Hv. cbn in Hn. rewrite lookup_singleton_eq in Hn. by injection Hn as <-.
  - split; [exact Hs|exact He].
Defined.
