(* ===== verification/MigrationReconciler.v ===== *)
(** * The migration reconciler

    [reconciler/migration_reconciler.go]: moving an SPDK volume to another node
    as a machine of phases. The reconciler checks the source volume, copies what
    it needs from it into the migration, names and creates the destination
    volume, and then waits in each phase for the agent of the source node and
    the host to do their part. Every request makes at most one step. *)

From Stdlib Require Import ZArith Lia.
From stdpp Require Import base gmap strings option list.
From S2P Require Import Prelude Strconv Float64 Misc K8s Api State Filter Sched Plugin Server.

Section reconciler.
Context {W : Type} {KM : KubeClient W VolumeMigration} {KV : KubeClient W AntstorVolume}.
(** The text [fmt] gives for a status with [%+v]; it shows addresses. *)
Context (status_text : AntstorVolumeStatus → string).

(** What [Reconcile] returns. *)
Definition MigReply : Type := (CtrlResult * option error).

Definition mig_set_phase (ph : string) (m : VolumeMigration) : VolumeMigration :=
  mig_set_Status (mst_set_Phase ph (mig_Status m)) m.
Definition mig_set_state (st : string) (m : VolumeMigration) : VolumeMigration :=
  mig_set_Status (mst_set_Status st (mig_Status m)) m.
Definition mig_set_message (msg : string) (m : VolumeMigration) : VolumeMigration :=
  mig_set_Status (mst_set_Message msg (mig_Status m)) m.
Definition mig_set_source (vi : VolumeInfo) (m : VolumeMigration) : VolumeMigration :=
  mig_set_Spec (ms_set_SourceVolume vi (mig_Spec m)) m.
Definition mig_set_dest (vi : VolumeInfo) (m : VolumeMigration) : VolumeMigration :=
  mig_set_Spec (ms_set_DestVolume vi (mig_Spec m)) m.
Definition mig_phase (m : VolumeMigration) : string := mst_Phase (mig_Status m).
Definition mig_state (m : VolumeMigration) : string := mst_Status (mig_Status m).
Definition mig_source (m : VolumeMigration) : VolumeInfo := ms_SourceVolume (mig_Spec m).
Definition mig_dest (m : VolumeMigration) : VolumeInfo := ms_DestVolume (mig_Spec m).
Definition mig_info (m : VolumeMigration) : MigrationInfo := ms_MigrationInfo (mig_Spec m).

(** [return ctrl.Result{}, r.Update(ctx, &migration)] and the same for the
    status. *)
Definition mig_update (m : VolumeMigration) : go W MigReply :=
  r ← kUpdate m; mret (CtrlResult_zero, (wrote m r).2).
Definition mig_update_status (m : VolumeMigration) : go W MigReply :=
  r ← kUpdateStatus m; mret (CtrlResult_zero, (wrote m r).2).
(** The status is saved, and an error of that is only logged. *)
Definition mig_report (m : VolumeMigration) (res : CtrlResult) : go W MigReply :=
  _ ← kUpdateStatus m; mret (res, None).
Definition mig_wait (d : Z) : go W MigReply := mret (RequeueAfter d, None).
Definition mig_done : go W MigReply := mret (CtrlResult_zero, None).

(** The checks of the source volume: the status to report when one fails. *)
(* [reconciler/migration_reconciler.go:85-103] VolumeMigrationReconciler.Reconcile, source checks *)
Definition mig_source_problem (srcVol : AntstorVolume) (m : VolumeMigration) : option VolumeMigration :=
  if decide (vs_Type (vol_Spec srcVol) ≠ VolumeTypeSpdkLVol) then
    Some (mig_set_state MigrationStatusError (mig_set_message
      ("invalid source volume: type is " +:+ vs_Type (vol_Spec srcVol)) m))
  else if decide (vs_PositionAdvice (vol_Spec srcVol) = MustLocal) then
    Some (mig_set_state MigrationStatusError (mig_set_message
      ("invalid source volume: postion advice is " +:+ vs_PositionAdvice (vol_Spec srcVol)) m))
  else if decide (vst_Status (vol_Status srcVol) ≠ VolumeStatusReady) then
    Some (mig_set_message ("invalid source volume: status not ready " +:+
                           status_text (vol_Status srcVol)) m)
  else None.

(* [reconciler/migration_reconciler.go:156-196] VolumeMigrationReconciler.Reconcile, the destination volume *)
Definition mig_dest_volume {S} (m : VolumeMigration) (srcVol : AntstorVolume) : go S AntstorVolume :=
  tgt ← deref "SpdkTarget" (vs_SpdkTarget (vol_Spec srcVol));
  let labels := default ∅ (om_Labels (vol_meta srcVol)) in
  let annos := default ∅ (om_Annotations (vol_meta srcVol)) in
  mret {|
    vol_meta := {|
      om_Name := vi_Name (mig_dest m); om_Namespace := vi_Namespace (mig_dest m); om_UID := "";
      om_CreationTimestamp := 0; om_DeletionTimestamp := None;
      om_Labels := Some (<[MigrationLabelKeyMigrationName := om_Name (mig_meta m)]>
                        (<[MigrationLabelKeySourceVolumeName := vol_Name srcVol]>
                        (delete TargetNodeIdLabelKey labels)));
      om_Annotations := Some (<[PoolLabelSelectorKey :=
                        PoolLabelsNodeSnKey +:+ "!=" +:+ vs_TargetNodeId (vol_Spec srcVol)]> annos);
      om_OwnerReferences := []; om_Finalizers := [] |};
    vol_Spec := {|
      vs_Uuid := TrimPrefix (vi_Name (mig_dest m)) "mig-";
      vs_Type := vs_Type (vol_Spec srcVol);
      vs_SizeByte := vs_SizeByte (vol_Spec srcVol);
      vs_PositionAdvice := vs_PositionAdvice (vol_Spec srcVol);
      vs_IsThin := false; vs_StopReconcile := false; vs_NodeAffinity := None; vs_PoolAffinity := None;
      vs_TargetNodeId := "";
      vs_HostNode := vs_HostNode (vol_Spec srcVol);
      vs_KernelLvol := None; vs_SpdkLvol := None;
      vs_SpdkTarget := Some {| tgt_BdevName := ""; tgt_SubsysNQN := tgt_SubsysNQN tgt; tgt_SvcID := "";
        tgt_SerialNum := ""; tgt_TransType := ""; tgt_NSUUID := tgt_NSUUID tgt; tgt_Address := "";
        tgt_AddrFam := "" |} |};
    vol_Status := AntstorVolumeStatus_zero |}.

(* [reconciler/migration_reconciler.go:212-271] VolumeMigrationReconciler.Reconcile, phases 2 to 5 *)
Definition mig_advance (m : VolumeMigration) : go W MigReply :=
  let pipe := mp_Status (mi_MigrationPipe (mig_info m)) in
  let host := mi_HostConnectStatus (mig_info m) in
  if decide (mig_phase m = MigrationPhaseCreatingVolume) then
    mig_update_status (mig_set_phase MigrationPhaseSetupPipe m)
  else if decide (mig_phase m = MigrationPhaseSetupPipe) then
    if decide (pipe ≠ ConnectStatusConnected) then mig_wait (30 * Second)
    else if decide (host ≠ ConnectStatusConnected) then mig_wait (30 * Second)
    else mig_update_status (mig_set_phase MigrationPhaseSyncing m)
  else if decide (mig_phase m = MigrationPhaseSyncing) then
    if decide (as_Status (mi_AutoSwitch (mig_info m)) ≠ ResultStatusSuccess) then mig_wait Minute
    else mig_update_status (mig_set_phase MigrationPhaseCleaning m)
  else if decide (mig_phase m = MigrationPhaseCleaning) then
    if decide (pipe ≠ ConnectStatusDisconnected) then mig_wait (30 * Second)
    else if decide (host ≠ ConnectStatusDisconnected) then mig_wait (30 * Second)
    else mig_update_status (mig_set_state MigrationPhaseFinished (mig_set_phase MigrationPhaseFinished m))
  else mig_done.

(* [reconciler/migration_reconciler.go:145-210] VolumeMigrationReconciler.Reconcile, waiting for the destination *)
Definition mig_destination (srcVol : AntstorVolume) (m : VolumeMigration) : go W MigReply :=
  r ← kGet (T := AntstorVolume) (vi_Namespace (mig_dest m)) (vi_Name (mig_dest m));
  match r with
  | inr err =>
      if negb (IsNotFound err) then mret (CtrlResult_zero, Some err)
      else
        destVolume ← mig_dest_volume m srcVol;
        r ← kCreate destVolume;
        mret (RequeueAfter (10 * Second), (wrote destVolume r).2)
  | inl destVolume =>
      if decide (vst_Status (vol_Status destVolume) ≠ VolumeStatusReady) then mig_wait (30 * Second)
      else if decide (vi_TargetNodeId (mig_dest m) = "" ∨ tgt_Address (vi_Spdk (mig_dest m)) = "") then
        tgt ← deref "SpdkTarget" (vs_SpdkTarget (vol_Spec destVolume));
        mig_update (mig_set_dest {| vi_Namespace := vi_Namespace (mig_dest m);
          vi_Name := vi_Name (mig_dest m); vi_TargetNodeId := vs_TargetNodeId (vol_Spec destVolume);
          vi_HostNodeId := vi_HostNodeId (mig_dest m); vi_Spdk := tgt |} m)
      else mig_advance m
  end.

(* [reconciler/migration_reconciler.go:105-143] VolumeMigrationReconciler.Reconcile, what is copied and named *)
Definition mig_prepare (newUUID : string) (srcVol : AntstorVolume) (m : VolumeMigration) : go W MigReply :=
  if decide (vi_TargetNodeId (mig_source m) = "" ∨ tgt_SubsysNQN (vi_Spdk (mig_source m)) = "" ∨
             vi_HostNodeId (mig_source m) = "") then
    hostID ← HostNode_ID srcVol;
    tgt ← deref "SpdkTarget" (vs_SpdkTarget (vol_Spec srcVol));
    mig_update (mig_set_source {| vi_Namespace := vi_Namespace (mig_source m);
      vi_Name := vi_Name (mig_source m); vi_TargetNodeId := vs_TargetNodeId (vol_Spec srcVol);
      vi_HostNodeId := hostID; vi_Spdk := tgt |} m)
  else
    let labels := default ∅ (om_Labels (mig_meta m)) in
    let m := mig_set_meta (om_set_Labels (Some labels) (mig_meta m)) m in
    if decide (map_str (Some labels) MigrationLabelKeySourceNodeId = "") then
      hostID ← HostNode_ID srcVol;
      mig_update (mig_set_meta (om_set_Labels (Some
        (<[MigrationLabelKeyHostNodeId := hostID]>
        (<[MigrationLabelKeySourceNodeId := vs_TargetNodeId (vol_Spec srcVol)]> labels))) (mig_meta m)) m)
    else if decide (mig_phase m = MigrationPhasePending) then
      mig_update_status (mig_set_state MigrationStatusWorking (mig_set_phase MigrationPhaseCreatingVolume m))
    else if decide (vi_Name (mig_dest m) = "") then
      hostID ← HostNode_ID srcVol;
      mig_update (mig_set_dest {| vi_Namespace := vol_Namespace srcVol; vi_Name := "mig-" +:+ newUUID;
        vi_TargetNodeId := vi_TargetNodeId (mig_dest m); vi_HostNodeId := hostID;
        vi_Spdk := vi_Spdk (mig_dest m) |} m)
    else mig_destination srcVol m.

(** [newUUID] is the identifier [uuid.NewV4] would give. *)
(* [reconciler/migration_reconciler.go:33-103] VolumeMigrationReconciler.Reconcile *)
Definition mig_Reconcile (newUUID : string) (req : Request) : go W MigReply :=
  r ← kGet (T := VolumeMigration) (rq_Namespace req) (rq_Name req);
  match r with
  | inr err => mret (CtrlResult_zero, IgnoreNotFound (Some err))
  | inl m =>
      if opt_is_some (om_DeletionTimestamp (mig_meta m)) then mig_done
      else if decide (mig_state m = MigrationStatusError) then mig_done
      else if decide (mig_phase m = "") then
        mig_update_status (mig_set_state MigrationStatusWorking (mig_set_phase MigrationPhasePending m))
      else
        r ← kGet (T := AntstorVolume) (vi_Namespace (mig_source m)) (vi_Name (mig_source m));
        match r with
        | inr err =>
            mig_report (mig_set_state MigrationStatusError
              (mig_set_message ("invalid source volume " +:+ error_msg err) m)) (RequeueAfter (30 * Second))
        | inl srcVol =>
            match mig_source_problem srcVol m with
            | Some m' => mig_report m' CtrlResult_zero
            | None => mig_prepare newUUID srcVol m
            end
        end
  end.
End reconciler.

(** ** What a request writes

    Whatever the API server answers, one request writes at most once, and the
    write is one of six kinds. *)

Section guarded.
Context {W : Type} {KM : KubeClient W VolumeMigration} {KV : KubeClient W AntstorVolume}.
Context (status_text : AntstorVolumeStatus → string).
Implicit Types (m : VolumeMigration) (srcVol : AntstorVolume).

Abbreviation MigWrite := (Write VolumeMigration + Write AntstorVolume)%type.
#[local] Instance recM : KubeClient (Logged W MigWrite) VolumeMigration := Recording KM inl.
#[local] Instance recMV : KubeClient (Logged W MigWrite) AntstorVolume := Recording KV inr.

(** The server answered a read of the source volume with [srcVol], and it can
    be migrated. *)
Record mig_source_valid (m : VolumeMigration) (srcVol : AntstorVolume) : Prop := {
  msv_get : ∃ w1 w2 : W, kGet (T := AntstorVolume) (vi_Namespace (mig_source m))
                       (vi_Name (mig_source m)) w1 = Ret (inl srcVol) w2;
  msv_type : vs_Type (vol_Spec srcVol) = VolumeTypeSpdkLVol;
  msv_position : vs_PositionAdvice (vol_Spec srcVol) ≠ MustLocal;
  msv_ready : vst_Status (vol_Status srcVol) = VolumeStatusReady;
}.

(** The edges of the phase machine, with what the migration must show. *)
Inductive mig_moves (m : VolumeMigration) : string → Prop :=
| move_create : mig_phase m = MigrationPhasePending → mig_moves m MigrationPhaseCreatingVolume
| move_pipe : mig_phase m = MigrationPhaseCreatingVolume → vi_Name (mig_dest m) ≠ "" →
    vi_TargetNodeId (mig_dest m) ≠ "" → tgt_Address (vi_Spdk (mig_dest m)) ≠ "" →
    mig_moves m MigrationPhaseSetupPipe
| move_sync : mig_phase m = MigrationPhaseSetupPipe →
    mp_Status (mi_MigrationPipe (mig_info m)) = ConnectStatusConnected →
    mi_HostConnectStatus (mig_info m) = ConnectStatusConnected →
    mig_moves m MigrationPhaseSyncing
| move_clean : mig_phase m = MigrationPhaseSyncing →
    as_Status (mi_AutoSwitch (mig_info m)) = ResultStatusSuccess →
    mig_moves m MigrationPhaseCleaning
| move_finish : mig_phase m = MigrationPhaseCleaning →
    mp_Status (mi_MigrationPipe (mig_info m)) = ConnectStatusDisconnected →
    mi_HostConnectStatus (mig_info m) = ConnectStatusDisconnected →
    mig_moves m MigrationPhaseFinished.

Inductive mig_wrote (m : VolumeMigration) : list MigWrite → Prop :=
| mw_nothing : mig_wrote m []
| mw_start m' : mig_phase m = "" → mig_phase m' = MigrationPhasePending → mig_Spec m' = mig_Spec m →
    mig_wrote m [inl (WUpdateStatus m')]
| mw_report m' : mig_Spec m' = mig_Spec m → mig_phase m' = mig_phase m →
    mig_state m' = MigrationStatusError ∨ mig_state m' = mig_state m →
    mig_wrote m [inl (WUpdateStatus m')]
| mw_move m' srcVol : mig_source_valid m srcVol → mig_moves m (mig_phase m') →
    mig_Spec m' = mig_Spec m → mig_wrote m [inl (WUpdateStatus m')]
| mw_info m' srcVol : mig_source_valid m srcVol → mig_Status m' = mig_Status m →
    om_Finalizers (mig_meta m') = om_Finalizers (mig_meta m) →
    mig_info m' = mig_info m →
    vi_Name (mig_source m') = vi_Name (mig_source m) →
    vi_Namespace (mig_source m') = vi_Namespace (mig_source m) →
    (vi_Name (mig_dest m) ≠ "" → vi_Name (mig_dest m') = vi_Name (mig_dest m) ∧
                                 vi_Namespace (mig_dest m') = vi_Namespace (mig_dest m)) →
    mig_wrote m [inl (WUpdate m')]
| mw_create v srcVol : mig_source_valid m srcVol → mig_phase m ≠ "" → mig_phase m ≠ MigrationPhasePending →
    vi_Name (mig_dest m) ≠ "" → vol_Name v = vi_Name (mig_dest m) →
    vol_Namespace v = vi_Namespace (mig_dest m) → vs_TargetNodeId (vol_Spec v) = "" →
    map_get (om_Annotations (vol_meta v)) PoolLabelSelectorKey =
      Some (PoolLabelsNodeSnKey +:+ "!=" +:+ vs_TargetNodeId (vol_Spec srcVol)) →
    mig_wrote m [inr (WCreate v)].

(** What was written, if anything: also when the request panics. *)
Definition writes {A} (c : go (Logged W MigWrite) A) (w : W) : list MigWrite := (run_state (c (w, []))).2.

Lemma mig_update_writes m w : writes (mig_update m) w = [inl (WUpdate m)].
Proof.
  unfold writes, mig_update. go_simpl. cbn. rewrite logged_run.
  by destruct (kUpdate (T:=VolumeMigration) _ w).
Qed.
Lemma mig_update_status_writes m w : writes (mig_update_status m) w = [inl (WUpdateStatus m)].
Proof.
  unfold writes, mig_update_status. go_simpl. cbn. rewrite logged_run.
  by destruct (kUpdateStatus (T:=VolumeMigration) _ w).
Qed.
Lemma mig_report_writes m res w : writes (mig_report m res) w = [inl (WUpdateStatus m)].
Proof.
  unfold writes, mig_report. go_simpl. cbn. rewrite logged_run.
  by destruct (kUpdateStatus (T:=VolumeMigration) _ w).
Qed.
(** A read writes nothing, and what follows is all that is written. *)
Lemma get_writes {A} ns name (f : result AntstorVolume → go (Logged W MigWrite) A) w :
  writes (r ← kGet (T := AntstorVolume) ns name; f r) w =
  match kGet (T := AntstorVolume) (KubeClient := KV) ns name w with
  | Ret r w' => writes (f r) w'
  | Panic _ _ => []
  end.
Proof.
  unfold writes. go_simpl. cbn. unfold on_fst. cbn [fst snd].
  by destruct (kGet (T:=AntstorVolume) ns name w).
Qed.
Lemma get_mig_writes {A} ns name (f : result VolumeMigration → go (Logged W MigWrite) A) w :
  writes (r ← kGet (T := VolumeMigration) ns name; f r) w =
  match kGet (T := VolumeMigration) (KubeClient := KM) ns name w with
  | Ret r w' => writes (f r) w'
  | Panic _ _ => []
  end.
Proof.
  unfold writes. go_simpl. cbn. unfold on_fst. cbn [fst snd].
  by destruct (kGet (T:=VolumeMigration) ns name w).
Qed.
Lemma deref_writes {A B} what (p : option A) (f : A → go (Logged W MigWrite) B) w :
  writes (x ← deref what p; f x) w = match p with Some x => writes (f x) w | None => [] end.
Proof. by destruct p. Qed.
Lemma host_writes {B} v (f : string → go (Logged W MigWrite) B) w :
  writes (x ← HostNode_ID v; f x) w =
  match vs_HostNode (vol_Spec v) with Some h => writes (f (ni_ID h)) w | None => [] end.
Proof. unfold HostNode_ID. by destruct (vs_HostNode (vol_Spec v)). Qed.

Lemma mig_advance_wrote m srcVol w :
  mig_source_valid m srcVol → vi_Name (mig_dest m) ≠ "" →
  vi_TargetNodeId (mig_dest m) ≠ "" → tgt_Address (vi_Spdk (mig_dest m)) ≠ "" →
  mig_wrote m (writes (mig_advance m) w).
Proof.
  intros Hs Hn Ht Ha. unfold mig_advance.
  repeat match goal with |- context [decide ?P] => destruct (decide P) end;
    rewrite ?mig_update_status_writes; try apply mw_nothing;
    (eapply mw_move; [exact Hs| |done]); econstructor; try done; by apply dec_stable.
Qed.

Lemma mig_destination_wrote m srcVol w :
  mig_source_valid m srcVol → vi_Name (mig_dest m) ≠ "" →
  mig_phase m ≠ "" → mig_phase m ≠ MigrationPhasePending →
  mig_wrote m (writes (mig_destination srcVol m) w).
Proof.
  intros Hs Hn H0 H1. unfold mig_destination. rewrite get_writes.
  destruct (kGet _ _ w) as [[d|e] w1|]; [| |apply mw_nothing].
  - repeat case_decide; try apply mw_nothing.
    + rewrite deref_writes. case_match; [|apply mw_nothing]. rewrite mig_update_writes.
      by eapply mw_info.
    + eapply mig_advance_wrote; try done; tauto.
  - destruct (negb _); [apply mw_nothing|]. unfold mig_dest_volume.
    destruct (vs_SpdkTarget (vol_Spec srcVol)) as [t|]; [|apply mw_nothing].
    unfold writes. go_simpl. cbn. rewrite logged_run.
    assert (∀ v, vol_Name v = vi_Name (mig_dest m) → vol_Namespace v = vi_Namespace (mig_dest m) →
      vs_TargetNodeId (vol_Spec v) = "" →
      map_get (om_Annotations (vol_meta v)) PoolLabelSelectorKey =
      Some (PoolLabelsNodeSnKey +:+ "!=" +:+ vs_TargetNodeId (vol_Spec srcVol)) →
      mig_wrote m [inr (WCreate v)]) as Hc by (intros v; by eapply mw_create).
    destruct (kCreate _ w1); cbn [run_state snd]; apply Hc; try done; apply lookup_insert_eq.
Qed.

(** Only the spec and the status of the migration matter. *)
Lemma mig_wrote_ext m m1 l :
  mig_Spec m1 = mig_Spec m → mig_Status m1 = mig_Status m →
  om_Finalizers (mig_meta m1) = om_Finalizers (mig_meta m) → mig_wrote m1 l → mig_wrote m l.
Proof.
  intros Hsp Hst Hfin.
  assert (∀ s, mig_source_valid m1 s → mig_source_valid m s) as Hv.
  { intros s [Hg ? ? ?]. split; try done. unfold mig_source in *. by rewrite Hsp in Hg. }
  assert (∀ p, mig_moves m1 p → mig_moves m p) as Hmv.
  { intros p []; unfold mig_phase, mig_info, mig_dest in *; rewrite ?Hsp, ?Hst in *; by constructor. }
  unfold mig_phase, mig_state in *.
  intros [|m'|m'|m' s|m' s|v s]; unfold mig_phase, mig_state, mig_source, mig_dest, mig_info in *;
    rewrite ?Hsp, ?Hst, ?Hfin in *.
  - apply mw_nothing.
  - by eapply mw_start.
  - by eapply mw_report.
  - eapply mw_move; eauto.
  - eapply mw_info; eauto.
  - eapply mw_create; eauto.
Qed.

Lemma mig_prepare_wrote u m srcVol w :
  mig_source_valid m srcVol → mig_phase m ≠ "" →
  mig_wrote m (writes (mig_prepare u srcVol m) w).
Proof.
  intros Hs Hph. unfold mig_prepare. case_decide as Hi.
  { rewrite host_writes. case_match; [|apply mw_nothing].
    rewrite deref_writes. case_match; [|apply mw_nothing].
    rewrite mig_update_writes. by eapply mw_info. }
  set (m1 := mig_set_meta _ m).
  apply (mig_wrote_ext m m1); [done|done|done|].
  assert (mig_source_valid m1 srcVol) as Hs1 by (destruct Hs; by split).
  case_decide.
  { rewrite host_writes. case_match; [|apply mw_nothing]. rewrite mig_update_writes. by eapply mw_info. }
  case_decide as Hp.
  { rewrite mig_update_status_writes. eapply mw_move; [done| |done]. by apply move_create. }
  case_decide as Hn; [|by apply mig_destination_wrote].
  rewrite host_writes. case_match; [|apply mw_nothing]. rewrite mig_update_writes. by eapply mw_info.
Qed.

(** The source checks: what is reported when one fails, and what holds when
    none does. *)
Lemma mig_source_problem_spec m srcVol :
  match mig_source_problem status_text srcVol m with
  | Some m' => mig_Spec m' = mig_Spec m ∧ mig_phase m' = mig_phase m ∧
               (mig_state m' = MigrationStatusError ∨ mig_state m' = mig_state m)
  | None => vs_Type (vol_Spec srcVol) = VolumeTypeSpdkLVol ∧
            vs_PositionAdvice (vol_Spec srcVol) ≠ MustLocal ∧
            vst_Status (vol_Status srcVol) = VolumeStatusReady
  end.
Proof.
  unfold mig_source_problem. repeat case_decide; auto.
Qed.

Definition mig_writes u req w : list MigWrite := writes (mig_Reconcile status_text u req) w.

Lemma mig_Reconcile_wrote u req m w w' :
  kGet (T := VolumeMigration) (rq_Namespace req) (rq_Name req) w = Ret (inl m) w' →
  let l := mig_writes u req w in
  l = [] ∨ om_DeletionTimestamp (mig_meta m) = None ∧ mig_state m ≠ MigrationStatusError ∧ mig_wrote m l.
Proof.
  intros Eg l. unfold l, mig_writes, mig_Reconcile. rewrite get_mig_writes, Eg.
  destruct (om_DeletionTimestamp (mig_meta m)) as [t|] eqn:Ed; cbn [opt_is_some]; [by left|].
  case_decide as He; [by left|]. right. split; [done|]. split; [done|].
  case_decide as Hph.
  { rewrite mig_update_status_writes. by apply mw_start. }
  rewrite get_writes.
  destruct (kGet _ _ w') as [[s|e] w2|] eqn:Eg2; [| |apply mw_nothing].
  - pose proof (mig_source_problem_spec m s) as Hs. destruct (mig_source_problem status_text s m) as [m'|].
    + rewrite mig_report_writes. destruct Hs as (? & ? & ?). by apply mw_report.
    + apply mig_prepare_wrote; [|done]. destruct Hs as (? & ? & ?). split; try done. by exists w', w2.
  - rewrite mig_report_writes. apply mw_report; [done|done|by left].
Qed.

(** Whatever the API server answers, a request for a migration writes at most
    once, also when it panics. It never writes to a migration that is deleted,
    unknown or failed; its phase only moves along the edges of the phase
    machine, when the migration shows that the agent and the host have done
    their part and the source volume is valid; what the agent and the host
    recorded, and the finalizers, are never changed; the source, and the destination once named,
    stay the same; and a destination volume is created only under that name,
    without a node and with a selector that excludes the source's node. *)
Lemma mig_Reconcile_guarded u req w :
  let l := writes (mig_Reconcile status_text u req) w in
  l = [] ∨
  ∃ m w', kGet (T := VolumeMigration) (rq_Namespace req) (rq_Name req) w = Ret (inl m) w' ∧
    om_DeletionTimestamp (mig_meta m) = None ∧ mig_state m ≠ MigrationStatusError ∧
    mig_wrote m l.
Proof.
  intros l. destruct (kGet (T := VolumeMigration) (KubeClient := KM) (rq_Namespace req) (rq_Name req) w)
    as [[m|e] w1|] eqn:Eg.
  - destruct (mig_Reconcile_wrote u req m w w1 Eg) as [E|E]; [left; exact E|right; by exists m, w1].
  - left. unfold l, mig_Reconcile. by rewrite get_mig_writes, Eg.
  - left. unfold l, mig_Reconcile. by rewrite get_mig_writes, Eg.
Qed.
End guarded.

(** ** Where the destination goes *)

Section elsewhere.
Context {L : K8sLib} {G : GoSort} {HG : GoSortLaws G} {W : Type}.
Implicit Types (m : VolumeMigration) (srcVol : AntstorVolume) (nodes : list Node).

Lemma mig_dest_volume_inv m srcVol w v w' :
  mig_dest_volume (S := W) m srcVol w = Ret v w' →
  w' = w ∧ vs_HostNode (vol_Spec v) = vs_HostNode (vol_Spec srcVol) ∧
  om_Annotations (vol_meta v) = Some (<[PoolLabelSelectorKey :=
    PoolLabelsNodeSnKey +:+ "!=" +:+ vs_TargetNodeId (vol_Spec srcVol)]>
    (default ∅ (om_Annotations (vol_meta srcVol)))).
Proof.
  unfold mig_dest_volume. destruct (vs_SpdkTarget (vol_Spec srcVol)); [|discriminate].
  by intros [= <- <-].
Qed.

(** Its hint is the one of the source volume. *)
Lemma mig_dest_volume_hint m srcVol w v w' :
  mig_dest_volume (S := W) m srcVol w = Ret v w' →
  map_get (om_Annotations (vol_meta v)) SelectedTgtNodeKey =
  map_get (om_Annotations (vol_meta srcVol)) SelectedTgtNodeKey.
Proof.
  intros (_ & _ & ->)%mig_dest_volume_inv. unfold map_get.
  rewrite lookup_insert_ne by done. destruct (om_Annotations (vol_meta srcVol)); [done|apply lookup_empty].
Qed.

(** A node the affinity filter accepts matches the pool selector. *)
Lemma AffinityFilterFunc_pool cfg vol e n st :
  AffinityFilterFunc cfg vol (e, n) = Ret true st →
  selector_ok vol PoolLabelSelectorKey (om_Labels (sp_meta (nd_Pool n))) = true.
Proof.
  unfold AffinityFilterFunc, the_node. go_simpl. repeat case_decide; rewrite ?reject_run; try done.
  intros _. by destruct (selector_ok vol PoolLabelSelectorKey _).
Qed.

Lemma accepted_pool_selector cfg nodes vol n :
  "Affinity" ∈ cfg_Filters cfg → accepted (configured_chain filtersMap cfg nodes vol) n →
  selector_ok vol PoolLabelSelectorKey (om_Labels (sp_meta (nd_Pool n))) = true.
Proof.
  intros Haff Hacc. destruct (accepted_by filtersMap "Affinity" AffinityFilterFunc cfg nodes vol n Haff eq_refl Hacc)
    as (c & e1 & n1 & st1 & Hs & Hf).
  apply AffinityFilterFunc_pool in Hf. by rewrite (sn_pool _ _ Hs) in Hf.
Qed.

(** The destination of a migration does not land on the node of its source,
    provided the source carries no hint of the scheduler plugin and the affinity
    filter is on: the node that scheduling chooses for the created volume, if
    any, has a pool without the source node's label. The selector written has
    to parse, and to exclude that label, as the library documents it. *)
Lemma mig_dest_elsewhere cfg m srcVol nodes sel w v w' info v' nodes' :
  mig_dest_volume (S := W) m srcVol w = Ret v w' →
  map_get (om_Annotations (vol_meta srcVol)) SelectedTgtNodeKey = None →
  is_Some (vs_HostNode (vol_Spec srcVol)) → NoDup (pool_nodeID <$> nodes) →
  "Affinity" ∈ cfg_Filters cfg →
  labels_Parse (PoolLabelsNodeSnKey +:+ "!=" +:+ vs_TargetNodeId (vol_Spec srcVol)) = inl sel →
  (∀ labels, Selector_Matches sel labels = true →
             map_get labels PoolLabelsNodeSnKey ≠ Some (vs_TargetNodeId (vol_Spec srcVol))) →
  ScheduleVolume filtersMap prioritiesMap cfg v nodes = Ret (info, v', None) nodes' →
  ∃ n, n ∈ nodes ∧ info = nd_Info n ∧
    map_get (om_Labels (sp_meta (nd_Pool n))) PoolLabelsNodeSnKey ≠ Some (vs_TargetNodeId (vol_Spec srcVol)).
Proof.
  intros Hdest Hhint Hh Hnd Haff Hparse Hsel Hsched.
  pose proof (mig_dest_volume_hint _ _ _ _ _ Hdest) as Hv. rewrite Hhint in Hv.
  apply mig_dest_volume_inv in Hdest as (_ & Hhost & Hanno).
  destruct (ScheduleVolume_unhinted filtersMap cfg v nodes Hv) as (i & v1 & err & ns & Hrun & _ & Hspec); [by rewrite Hhost|done|].
  rewrite Hsched in Hrun. injection Hrun as <- <- <- <-.
  destruct Hspec as (n & Hin & Hacc & -> & _). exists n. split; [done|]. split; [done|].
  apply accepted_pool_selector in Hacc; [|done]. apply Hsel.
  unfold selector_ok in Hacc. rewrite Hanno in Hacc. unfold map_get in Hacc.
  by rewrite lookup_insert_eq, Hparse in Hacc.
Qed.

(** A source volume placed through the hint of the scheduler plugin cannot be
    moved: its annotations are copied with the hint, so the destination is
    scheduled onto the very node of the source, whatever the selector says. *)
Lemma mig_dest_hinted_back cfg m srcVol nodes w v w' :
  mig_dest_volume (S := W) m srcVol w = Ret v w' →
  map_get (om_Annotations (vol_meta srcVol)) SelectedTgtNodeKey = Some (vs_TargetNodeId (vol_Spec srcVol)) →
  ∃ info, ScheduleVolume filtersMap prioritiesMap cfg v nodes = Ret (info, v, None) nodes ∧
    ni_ID info = vs_TargetNodeId (vol_Spec srcVol).
Proof.
  intros Hdest Hhint. pose proof (mig_dest_volume_hint _ _ _ _ _ Hdest) as Hv. rewrite Hhint in Hv.
  destruct (ScheduleVolume_hinted filtersMap cfg v nodes _ Hv) as (info & Hr & Hid & _). by exists info.
Qed.
End elsewhere.

(** ** Progress

    A server that keeps migrations and one that keeps volumes. Between requests
    the agent and the host do their part: a step of theirs leaves to the
    reconciler what is the reconciler's. *)

Section progress.
Context {WM WV : Type} {KM0 : KubeClient WM VolumeMigration} {KV0 : KubeClient WV AntstorVolume}.
Context {HM : StoreLaws KM0} (status_text : AntstorVolumeStatus → string).
Implicit Types (m : VolumeMigration) (srcVol dest : AntstorVolume) (w : WM * WV).

#[local] Instance prodKM : KubeClient (WM * WV) VolumeMigration := client_fst KM0.
#[local] Instance prodKV : KubeClient (WM * WV) AntstorVolume := client_snd KV0.

Definition migs (w : WM * WV) : MemStore VolumeMigration := sl_view w.1.
Definition mig_req (m : VolumeMigration) : Request :=
  {| rq_Namespace := om_Namespace (mig_meta m); rq_Name := om_Name (mig_meta m) |}.
Definition source_key (m : VolumeMigration) : string * string :=
  (vi_Namespace (mig_source m), vi_Name (mig_source m)).
Definition dest_key (m : VolumeMigration) : string * string :=
  (vi_Namespace (mig_dest m), vi_Name (mig_dest m)).

(** One server step each. *)
Lemma mig_get_run m w :
  migs w !! ko_key m = Some m →
  ∃ w', kGet (rq_Namespace (mig_req m)) (rq_Name (mig_req m)) w = Ret (inl m) w' ∧
        migs w' = migs w ∧ w'.2 = w.2.
Proof.
  intros Hm. destruct (sl_get _ _ _ _ Hm) as (w1 & Hg & Hw1). exists (w1, w.2).
  unfold kGet, prodKM, client_fst, on_fst. cbn [mig_req rq_Namespace rq_Name].
  change (mig_meta m) with (ko_meta m). by rewrite Hg.
Qed.

Lemma mig_status_run m m' w :
  migs w !! ko_key m = Some m → ko_key m' = ko_key m → om_DeletionTimestamp (mig_meta m) = None →
  ∃ w' r, kUpdateStatus m' w = Ret (inl r) w' ∧
        migs w' = <[ko_key m := mig_set_Status (mig_Status m') m]> (migs w) ∧ w'.2 = w.2.
Proof.
  intros Hm Hk Hd. destruct (sl_update_status m' w.1 m) as (w1 & Hu & Hw1); [by rewrite Hk|].
  exists (w1, w.2). eexists. unfold kUpdateStatus at 1, prodKM, client_fst, on_fst. rewrite Hu.
  split; [done|]. split; [|done]. unfold migs. cbn [fst]. rewrite Hw1. unfold store_put, ko_gone.
  cbn [ko_meta mig_KubeObject ko_with_status mig_set_Status mig_meta]. by rewrite Hd.
Qed.

(** Every failed read of the source volume ends the migration, also a passing
    error of the API server: the migration is marked as failed, and although
    the request is put off for thirty seconds to be tried again, every later
    request does nothing. *)
Lemma mig_source_error_final m w e (v2 : WV) u :
  migs w !! ko_key m = Some m → om_DeletionTimestamp (mig_meta m) = None →
  mig_state m ≠ MigrationStatusError → mig_phase m ≠ "" →
  (∀ w', w'.2 = w.2 → kGet (T := AntstorVolume) (source_key m).1 (source_key m).2 w' = Ret (inr e) (w'.1, v2)) →
  ∃ m' w', mig_Reconcile status_text u (mig_req m) w = Ret (RequeueAfter (30 * Second), None) w' ∧
    migs w' = <[ko_key m := m']> (migs w) ∧ mig_state m' = MigrationStatusError ∧
    ∀ u1 w1, migs w1 !! ko_key m = Some m' →
      ∃ w1', mig_Reconcile status_text u1 (mig_req m) w1 = Ret (CtrlResult_zero, None) w1' ∧
        migs w1' = migs w1 ∧ w1'.2 = w1.2.
Proof.
  intros Hm Hd Hst Hph Hsrc. destruct (mig_get_run m w Hm) as (wa & Hg & Hwa & Hwa2).
  set (m1 := mig_set_state MigrationStatusError
              (mig_set_message ("invalid source volume " +:+ error_msg e) m)).
  destruct (mig_status_run m m1 (wa.1, v2)) as (wb & r & Hu & Hwb & Hwb2); [|done|done|].
  { unfold migs in *. cbn. by rewrite Hwa. }
  exists m1, wb. split_and!; [| |done|].
  - unfold mig_Reconcile. go_simpl. rewrite Hg, Hd. cbn [opt_is_some].
    rewrite !decide_False by done. pose proof (Hsrc wa Hwa2) as Hs. cbn [source_key fst snd] in Hs. rewrite Hs. unfold mig_report. go_simpl. fold m1. by rewrite Hu.
  - rewrite Hwb. unfold migs in *. cbn [fst]. rewrite Hwa. f_equal.
  - intros u1 w1 Hm1. change (mig_req m) with (mig_req m1).
    destruct (mig_get_run m1 w1 Hm1) as (wc & Hgc & Hwc & Hwc2). exists wc.
    unfold mig_Reconcile. go_simpl. rewrite Hgc. cbn [mig_meta]. 
    change (mig_meta m1) with (mig_meta m). rewrite Hd. cbn [opt_is_some].
    by rewrite decide_True by done.
Qed.

(** From here on the server keeps the volumes too. *)
Context {HV : StoreLaws KV0}.

Definition vols (w : WM * WV) : MemStore AntstorVolume := sl_view w.2.

Lemma vol_get_run ns name srcVol w :
  vols w !! (ns, name) = Some srcVol →
  ∃ w', kGet (T := AntstorVolume) ns name w = Ret (inl srcVol) w' ∧ vols w' = vols w ∧ w'.1 = w.1.
Proof.
  intros Hv. destruct (sl_get _ _ _ _ Hv) as (w2 & Hg & Hw2). exists (w.1, w2).
  unfold kGet, prodKV, client_snd, on_snd. by rewrite Hg.
Qed.

Lemma vol_get_none ns name w :
  vols w !! (ns, name) = None →
  ∃ e w', kGet (T := AntstorVolume) ns name w = Ret (inr e) w' ∧ IsNotFound e = true ∧
          vols w' = vols w ∧ w'.1 = w.1.
Proof.
  intros Hv. destruct (sl_get_none _ _ _ Hv) as (e & w2 & Hg & He & Hw2). exists e, (w.1, w2).
  unfold kGet, prodKV, client_snd, on_snd. by rewrite Hg.
Qed.

Lemma mig_update_run m m' w :
  migs w !! ko_key m = Some m → ko_key m' = ko_key m → om_DeletionTimestamp (mig_meta m') = None →
  mig_Status m' = mig_Status m →
  ∃ w', mig_update m' w = Ret (CtrlResult_zero, None) w' ∧
        migs w' = <[ko_key m := m']> (migs w) ∧ vols w' = vols w.
Proof.
  intros Hm Hk Hd Hst. destruct (sl_update m' w.1 m) as (w1 & Hu & Hw1); [by rewrite Hk|].
  exists (w1, w.2). unfold mig_update. go_simpl.
  unfold kUpdate at 1, prodKM, client_fst, on_fst. rewrite Hu. split; [done|]. split; [|done].
  unfold migs. cbn [fst]. rewrite Hw1. unfold store_put, ko_gone.
  assert (ko_with_status m' m = m') as -> by (destruct m'; cbn in *; by subst).
  cbn [ko_meta mig_KubeObject]. by rewrite Hd, Hk.
Qed.


(** *** What is left to do *)

Definition phase_left (p : string) : nat :=
  if decide (p = MigrationPhaseFinished) then 0
  else if decide (p = MigrationPhaseCleaning) then 1
  else if decide (p = MigrationPhaseSyncing) then 2
  else if decide (p = MigrationPhaseSetupPipe) then 3
  else if decide (p = MigrationPhaseCreatingVolume) then 4
  else if decide (p = MigrationPhasePending) then 5 else 6.

Definition source_missing m : bool :=
  bool_decide (vi_TargetNodeId (mig_source m) = "" ∨ tgt_SubsysNQN (vi_Spdk (mig_source m)) = "" ∨
               vi_HostNodeId (mig_source m) = "").
Definition label_missing m : bool :=
  bool_decide (map_str (Some (default ∅ (om_Labels (mig_meta m)))) MigrationLabelKeySourceNodeId = "").
Definition dest_unnamed m : bool := bool_decide (vi_Name (mig_dest m) = "").
Definition dest_absent m (vs : MemStore AntstorVolume) : bool :=
  dest_unnamed m || negb (opt_is_some (vs !! dest_key m)).
Definition dest_unknown m : bool :=
  bool_decide (vi_TargetNodeId (mig_dest m) = "" ∨ tgt_Address (vi_Spdk (mig_dest m)) = "").

(** The number of requests a migration still needs. *)
Definition mig_left m (vs : MemStore AntstorVolume) : nat :=
  phase_left (mig_phase m) + Nat.b2n (source_missing m) + Nat.b2n (label_missing m) +
  Nat.b2n (dest_unnamed m) + Nat.b2n (dest_absent m vs) + Nat.b2n (dest_unknown m).

Lemma phase_left_le p : phase_left p ≤ 6.
Proof. unfold phase_left. repeat case_decide; lia. Qed.
Lemma mig_left_le m vs : mig_left m vs ≤ 11.
Proof.
  unfold mig_left. pose proof (phase_left_le (mig_phase m)).
  destruct (source_missing m), (label_missing m), (dest_unnamed m), (dest_absent m vs), (dest_unknown m);
    simpl; lia.
Qed.

(** A source that can be migrated, and a destination that came up. *)
Record source_usable (srcVol : AntstorVolume) : Prop := {
  su_type : vs_Type (vol_Spec srcVol) = VolumeTypeSpdkLVol;
  su_position : vs_PositionAdvice (vol_Spec srcVol) ≠ MustLocal;
  su_ready : vst_Status (vol_Status srcVol) = VolumeStatusReady;
  su_node : vs_TargetNodeId (vol_Spec srcVol) ≠ "";
  su_host : ∃ h, vs_HostNode (vol_Spec srcVol) = Some h ∧ ni_ID h ≠ "";
  su_target : ∃ t, vs_SpdkTarget (vol_Spec srcVol) = Some t ∧ tgt_SubsysNQN t ≠ "";
}.
Record dest_usable (dest : AntstorVolume) : Prop := {
  du_ready : vst_Status (vol_Status dest) = VolumeStatusReady;
  du_node : vs_TargetNodeId (vol_Spec dest) ≠ "";
  du_target : ∃ t, vs_SpdkTarget (vol_Spec dest) = Some t ∧ tgt_Address t ≠ "";
}.

(** A migration in progress. *)
Record mig_good m : Prop := {
  mg_del : om_DeletionTimestamp (mig_meta m) = None;
  mg_state : mig_state m ≠ MigrationStatusError;
  mg_phase : mig_phase m ∈ [""; MigrationPhasePending; MigrationPhaseCreatingVolume;
    MigrationPhaseSetupPipe; MigrationPhaseSyncing; MigrationPhaseCleaning; MigrationPhaseFinished];
  mg_end : mig_phase m = MigrationPhaseFinished → mig_state m = MigrationPhaseFinished;
}.

(** The others have done their part for the phase the migration is in. *)
Record part_done m (vs : MemStore AntstorVolume) : Prop := {
  pd_dest d : vi_Name (mig_dest m) ≠ "" → vs !! dest_key m = Some d → dest_usable d;
  pd_pipe : mig_phase m = MigrationPhaseSetupPipe →
    mp_Status (mi_MigrationPipe (mig_info m)) = ConnectStatusConnected ∧
    mi_HostConnectStatus (mig_info m) = ConnectStatusConnected;
  pd_sync : mig_phase m = MigrationPhaseSyncing →
    as_Status (mi_AutoSwitch (mig_info m)) = ResultStatusSuccess;
  pd_clean : mig_phase m = MigrationPhaseCleaning →
    mp_Status (mi_MigrationPipe (mig_info m)) = ConnectStatusDisconnected ∧
    mi_HostConnectStatus (mig_info m) = ConnectStatusDisconnected;
}.

(** One request brings the end nearer. *)
Definition mig_steps m w (c : go (WM * WV) MigReply) : Prop :=
  ∃ rep w' m', c w = Ret rep w' ∧ migs w' = <[ko_key m := m']> (migs w) ∧ ko_key m' = ko_key m ∧
    mig_good m' ∧ source_key m' = source_key m ∧
    (∀ k v, vols w !! k = Some v → vols w' !! k = Some v) ∧
    mig_left m' (vols w') ≤ mig_left m (vols w) - 1.

Lemma steps_update m m' w :
  migs w !! ko_key m = Some m → mig_good m → ko_key m' = ko_key m →
  om_DeletionTimestamp (mig_meta m') = None → mig_Status m' = mig_Status m →
  source_key m' = source_key m → mig_left m' (vols w) < mig_left m (vols w) →
  mig_steps m w (mig_update m').
Proof.
  intros Hm [] Hk Hd Hst Hs Hl. destruct (mig_update_run m m' w) as (w' & Hr & Hw' & Hv'); try done.
  eexists _, w', m'. split; [exact Hr|]. split; [done|]. split; [done|].
  split; [split; unfold mig_state, mig_phase in *; by rewrite ?Hst|]. split; [done|].
  rewrite Hv'. split; [done|lia].
Qed.

(** A status update keeps the spec and the metadata the server has. *)
Lemma steps_status m m' w :
  let m1 := mig_set_Status (mig_Status m') m in
  migs w !! ko_key m = Some m → ko_key m' = ko_key m → om_DeletionTimestamp (mig_meta m) = None →
  mig_good m1 → mig_left m1 (vols w) < mig_left m (vols w) →
  mig_steps m w (mig_update_status m').
Proof.
  intros m1 Hm Hk Hd Hg Hl. destruct (mig_status_run m m' w) as (w' & r & Hr & Hw' & Hv'); try done.
  eexists _, w', m1. unfold mig_update_status. go_simpl. rewrite Hr. split; [reflexivity|].
  split; [done|]. split; [done|]. split; [done|]. split; [done|].
  unfold vols in *. rewrite Hv'. split; [done|lia].
Qed.

Lemma steps_nothing m w w' (c : go (WM * WV) MigReply) rep :
  c w = Ret rep w' → migs w !! ko_key m = Some m → mig_good m → migs w' = migs w → vols w' = vols w →
  mig_left m (vols w) = 0 → mig_steps m w c.
Proof.
  intros Hc Hm Hg Hw Hv Hl. exists rep, w', m. split; [done|].
  split; [by rewrite insert_id, Hw|]. rewrite Hv. split_and!; try done. lia.
Qed.

(** Reads before a step. *)
Lemma steps_after m w w1 c c1 :
  c w = c1 w1 → migs w1 = migs w → vols w1 = vols w → mig_steps m w1 c1 → mig_steps m w c.
Proof.
  intros Hc Hm Hv (rep & w' & m' & H1 & H2 & H3 & H4 & H5 & H6 & H7). rewrite <- Hc in H1.
  rewrite Hm in H2. rewrite Hv in *. by exists rep, w', m'.
Qed.

Lemma mig_good_status m ph st :
  om_DeletionTimestamp (mig_meta m) = None → st ≠ MigrationStatusError →
  ph ∈ [""; MigrationPhasePending; MigrationPhaseCreatingVolume;
    MigrationPhaseSetupPipe; MigrationPhaseSyncing; MigrationPhaseCleaning; MigrationPhaseFinished] →
  (ph = MigrationPhaseFinished → st = MigrationPhaseFinished) →
  mig_good (mig_set_Status {| mst_Phase := ph; mst_Status := st; mst_Message := mst_Message (mig_Status m) |} m).
Proof. by split. Qed.

(** A phase is left behind. *)
Lemma steps_phase m m' w ph st :
  migs w !! ko_key m = Some m → mig_good m → ko_key m' = ko_key m →
  mig_Status m' = {| mst_Phase := ph; mst_Status := st; mst_Message := mst_Message (mig_Status m) |} →
  st ≠ MigrationStatusError → phase_left ph < phase_left (mig_phase m) → ph ≠ "" →
  (ph = MigrationPhaseFinished → st = MigrationPhaseFinished) →
  ph ∈ [MigrationPhasePending; MigrationPhaseCreatingVolume;
    MigrationPhaseSetupPipe; MigrationPhaseSyncing; MigrationPhaseCleaning; MigrationPhaseFinished] →
  mig_steps m w (mig_update_status m').
Proof.
  intros Hm Hg Hk Hst Hne Hl H0 Hend Hin. apply steps_status; [done|done|apply Hg| |]; rewrite Hst.
  - apply mig_good_status; [apply Hg|done| |done]. by right.
  - unfold mig_left, source_missing, label_missing, dest_unnamed, dest_absent, dest_unknown, dest_key,
      dest_unnamed, mig_source, mig_dest, mig_phase in *. cbn [mig_set_Status mig_Spec mig_meta mig_Status mst_Phase].
    lia.
Qed.

Ltac in_list := repeat first [by left | right].

Lemma mig_advance_steps m w :
  migs w !! ko_key m = Some m → mig_good m → part_done m (vols w) →
  mig_phase m ≠ "" → mig_phase m ≠ MigrationPhasePending →
  source_missing m = false → label_missing m = false → dest_absent m (vols w) = false →
  dest_unknown m = false →
  mig_steps m w (mig_advance m).
Proof.
  intros Hm Hg [_ Hpipe Hsync Hclean] H0 H1 Hs Hlab Hda Hdu. unfold mig_advance.
  pose proof (mg_state _ Hg) as Hst. pose proof (mg_phase _ Hg) as Hph.
  assert (dest_unnamed m = false) as Hdn.
  { unfold dest_absent in Hda. by apply orb_false_iff in Hda as []. }
  case_decide as E1.
  { apply (steps_phase m _ w MigrationPhaseSetupPipe (mig_state m)); try done; [rewrite E1; compute; lia|in_list]. }
  case_decide as E2.
  { destruct (Hpipe E2) as [-> ->]. rewrite !decide_False by (intros n; by apply n).
    apply (steps_phase m _ w MigrationPhaseSyncing (mig_state m)); try done; [rewrite E2; compute; lia|in_list]. }
  case_decide as E3.
  { rewrite (Hsync E3), decide_False by (intros n; by apply n).
    apply (steps_phase m _ w MigrationPhaseCleaning (mig_state m)); try done; [rewrite E3; compute; lia|in_list]. }
  case_decide as E4.
  { destruct (Hclean E4) as [-> ->]. rewrite !decide_False by (intros n; by apply n).
    apply (steps_phase m _ w MigrationPhaseFinished MigrationPhaseFinished); try done;
      [rewrite E4; compute; lia|in_list]. }
  eapply steps_nothing; try done.
  assert (mig_phase m = MigrationPhaseFinished) as Hf by (rewrite !elem_of_cons, elem_of_nil in Hph; tauto).
  unfold mig_left. by rewrite Hf, Hs, Hlab, Hda, Hdu, Hdn.
Qed.

Lemma mig_destination_steps m srcVol w :
  migs w !! ko_key m = Some m → mig_good m → part_done m (vols w) → source_usable srcVol →
  mig_phase m ≠ "" → mig_phase m ≠ MigrationPhasePending →
  source_missing m = false → label_missing m = false → vi_Name (mig_dest m) ≠ "" →
  mig_steps m w (mig_destination srcVol m).
Proof.
  intros Hm Hg Hp Hsrc H0 H1 Hs Hlab Hn. unfold mig_destination.
  assert (dest_unnamed m = false) as Hdn by (by apply bool_decide_eq_false).
  destruct (vols w !! dest_key m) as [d|] eqn:Ed.
  - destruct (vol_get_run _ _ _ _ Ed) as (w1 & Hr & Hv1 & Hw1).
    apply (steps_after m w w1 _ (if decide (vi_TargetNodeId (mig_dest m) = "" ∨ tgt_Address (vi_Spdk (mig_dest m)) = "") then
        tgt ← deref "SpdkTarget" (vs_SpdkTarget (vol_Spec d));
        mig_update (mig_set_dest {| vi_Namespace := vi_Namespace (mig_dest m);
          vi_Name := vi_Name (mig_dest m); vi_TargetNodeId := vs_TargetNodeId (vol_Spec d);
          vi_HostNodeId := vi_HostNodeId (mig_dest m); vi_Spdk := tgt |} m)
      else mig_advance m)).
    + go_simpl. rewrite Hr. destruct (pd_dest _ _ Hp d Hn Ed) as [Hrd _ _].
      by rewrite (decide_False (P := vst_Status (vol_Status d) ≠ VolumeStatusReady)) by (intros n; by apply n).
    + unfold migs. by rewrite Hw1.
    + done.
    + assert (migs w1 !! ko_key m = Some m) as Hm1 by (unfold migs; by rewrite Hw1).
      rewrite <- Hv1 in Hp, Ed.
      assert (dest_absent m (vols w1) = false) as Hda by (unfold dest_absent; by rewrite Hdn, Ed).
      destruct (pd_dest _ _ Hp d Hn Ed) as [_ Hnode (t & Ht & Haddr)].
      case_decide as Hu.
      * rewrite Ht. cbn [deref]. change (mret t ≫= ?f) with (f t).
        assert (dest_unknown m = true) as Hu' by (by apply bool_decide_eq_true).
        eapply steps_update; try done; [apply Hg|].
        set (m' := mig_set_dest _ m).
        assert (dest_unknown m' = false) as Hu'' by (apply bool_decide_eq_false; cbn; tauto).
        unfold mig_left. rewrite Hu', Hu''. unfold source_missing, label_missing, dest_unnamed, dest_absent,
          dest_key, dest_unnamed, mig_source, mig_phase in *. cbn. lia.
      * apply mig_advance_steps; try done. by apply bool_decide_eq_false.
  - destruct (vol_get_none _ _ _ Ed) as (e & w1 & Hr & He & Hv1 & Hw1).
    destruct (su_target _ Hsrc) as (t & Ht & _).
    assert (∃ v, mig_dest_volume m srcVol w1 = Ret v w1 ∧ ko_key v = dest_key m) as (v & Hv & Hk).
    { unfold mig_dest_volume. rewrite Ht. eexists. split; [reflexivity|done]. }
    destruct (sl_create v w1.2) as (w2 & Hc & Hw2).
    { change (vols w1 !! ko_key v = None). by rewrite Hk, Hv1. }
    exists (RequeueAfter (10 * Second), None), (w1.1, w2), m. split_and!; try done.
    + go_simpl. rewrite Hr, He. cbn [negb]. rewrite Hv.
      unfold kCreate, prodKV, client_snd, on_snd. by rewrite Hc.
    + unfold migs. cbn [fst]. rewrite Hw1. symmetry. by apply insert_id.
    + intros k x Hx. unfold vols in *. cbn [snd]. rewrite Hw2, Hk, Hv1.
      rewrite lookup_insert_ne; [done|]. intros <-. congruence.
    + assert (dest_absent m (vols w) = true) as Ha by (unfold dest_absent; by rewrite Ed, orb_true_r).
      assert (dest_absent m (vols (w1.1, w2)) = false) as Ha'.
      { unfold dest_absent, vols. cbn [snd]. rewrite Hw2, Hk, lookup_insert_eq, Hdn. done. }
      unfold mig_left. rewrite Ha, Ha'. simpl. lia.
Qed.

Lemma mig_prepare_steps u m srcVol w :
  migs w !! ko_key m = Some m → mig_good m → part_done m (vols w) → source_usable srcVol →
  mig_phase m ≠ "" → mig_steps m w (mig_prepare u srcVol m).
Proof.
  intros Hm Hg Hp Hsrc H0. unfold mig_prepare, HostNode_ID.
  destruct (su_host _ Hsrc) as (h & Hh & Hid). destruct (su_target _ Hsrc) as (t & Ht & Hnqn).
  rewrite Hh, Ht. cbn [deref]. change (mret h ≫= ?f) with (f h). change (mret t ≫= ?f) with (f t).
  cbn beta. change (mret (ni_ID h) ≫= ?f) with (f (ni_ID h)). cbn beta.
  case_decide as E1.
  { assert (source_missing m = true) as Es by (by apply bool_decide_eq_true).
    eapply steps_update; try done; [apply Hg|]. set (m' := mig_set_source _ m).
    assert (source_missing m' = false) as Es'.
    { apply bool_decide_eq_false. pose proof (su_node _ Hsrc). cbn. tauto. }
    unfold mig_left. rewrite Es, Es'. unfold label_missing, dest_unnamed, dest_absent, dest_unknown,
      dest_key, dest_unnamed, mig_dest, mig_phase in *. cbn. lia. }
  assert (source_missing m = false) as Es by (by apply bool_decide_eq_false).
  set (m1 := mig_set_meta _ m).
  case_decide as E2.
  { assert (label_missing m = true) as El by (by apply bool_decide_eq_true).
    eapply steps_update; try done; [apply Hg|]. set (m' := mig_set_meta _ m1).
    assert (label_missing m' = false) as El'.
    { apply bool_decide_eq_false. cbn. unfold map_str, map_get.
      rewrite lookup_insert_ne, lookup_insert_eq by done. apply (su_node _ Hsrc). }
    unfold mig_left. rewrite El, El'. unfold source_missing, dest_unnamed, dest_absent, dest_unknown,
      dest_key, dest_unnamed, mig_source, mig_dest, mig_phase in *. cbn. lia. }
  assert (label_missing m = false) as El by (by apply bool_decide_eq_false).
  assert (m1 = m) as ->.
  { unfold label_missing in El. apply bool_decide_eq_false in El. unfold m1.
    destruct m as [[] ? ?]. cbn in *. destruct om_Labels; [done|]. cbn in El.
    unfold map_str, map_get in El. by rewrite lookup_empty in El. }
  case_decide as E3.
  { apply (steps_phase m _ w MigrationPhaseCreatingVolume MigrationStatusWorking); try done;
      [rewrite E3; compute; lia|in_list]. }
  case_decide as E4; [|by apply mig_destination_steps].
  eapply steps_update; try done; [apply Hg|]. set (m' := mig_set_dest _ m).
  assert (dest_unnamed m = true) as Ed by (by apply bool_decide_eq_true).
  assert (dest_unnamed m' = false) as Ed' by (by apply bool_decide_eq_false).
  assert (Nat.b2n (dest_absent m' (vols w)) ≤ Nat.b2n (dest_absent m (vols w))) as Ha.
  { unfold dest_absent at 2. rewrite Ed. by destruct (dest_absent _ _); simpl; lia. }
  unfold mig_left. rewrite Ed, Ed'. unfold source_missing, label_missing, dest_unknown,
    mig_source, mig_dest, mig_phase in *. cbn in *. lia.
Qed.

Lemma mig_Reconcile_steps u m srcVol w :
  migs w !! ko_key m = Some m → mig_good m → part_done m (vols w) →
  vols w !! source_key m = Some srcVol → source_usable srcVol →
  mig_steps m w (mig_Reconcile status_text u (mig_req m)).
Proof.
  intros Hm Hg Hp Hsrc Hu. destruct (mig_get_run m w Hm) as (w1 & Hr & Hw1 & Hv1).
  assert (vols w1 = vols w) as Hv1' by (unfold vols; by rewrite Hv1).
  pose proof (mg_del _ Hg) as Hd. pose proof (mg_state _ Hg) as Hst.
  destruct (decide (mig_phase m = "")) as [E|E].
  - eapply (steps_after m w w1 _ (mig_update_status (mig_set_state MigrationStatusWorking
      (mig_set_phase MigrationPhasePending m)))); try done.
    { unfold mig_Reconcile. go_simpl. rewrite Hr, Hd. cbn [opt_is_some].
      by rewrite decide_False, decide_True by done. }
    apply (steps_phase m _ w1 MigrationPhasePending MigrationStatusWorking); try done;
      [by rewrite Hw1|rewrite E; compute; lia|in_list].
  - rewrite <- Hv1' in Hsrc, Hp. destruct (vol_get_run _ _ _ _ Hsrc) as (w2 & Hr2 & Hv2 & Hw2).
    assert (migs w2 = migs w) as Hw2' by (unfold migs in *; by rewrite Hw2).
    eapply (steps_after m w w2 _ (mig_prepare u srcVol m)).
    { unfold mig_Reconcile. go_simpl. rewrite Hr, Hd. cbn [opt_is_some].
      rewrite !decide_False by done. rewrite Hr2. unfold mig_source_problem. destruct Hu as [-> ? -> _ _ _].
      by rewrite !decide_False by (done || (intros n; by apply n)). }
    { done. }
    { by rewrite Hv2, Hv1'. }
    apply mig_prepare_steps; try done; [by rewrite Hw2'|by rewrite Hv2].
Qed.

(** *** Requests in a row *)

Definition mig_set_info (i : MigrationInfo) m : VolumeMigration :=
  mig_set_Spec (ms_set_MigrationInfo i (mig_Spec m)) m.

(** What the agent and the host do between two requests for [key]: they record
    their part in the migration, bring up the destination volume, and leave the
    source volume usable. *)
Record helpful (key : string * string) (env : WM * WV → WM * WV) : Prop := {
  hp_step w m srcVol : migs w !! key = Some m → mig_good m →
    vols w !! source_key m = Some srcVol → source_usable srcVol →
    (∃ i, migs (env w) !! key = Some (mig_set_info i m) ∧
          part_done (mig_set_info i m) (vols (env w))) ∧
    (∃ srcVol', vols (env w) !! source_key m = Some srcVol' ∧ source_usable srcVol') ∧
    ∀ k, is_Some (vols w !! k) → is_Some (vols (env w) !! k);
}.

(** Each round: the others, then a request, with the identifier it would draw. *)
Fixpoint mig_rounds (env : WM * WV → WM * WV) (uuids : list string) (req : Request) : go (WM * WV) unit :=
  match uuids with
  | [] => mret tt
  | u :: rest =>
      _ ← gmodify env;
      _ ← mig_Reconcile status_text u req;
      mig_rounds env rest req
  end.

Lemma mig_left_env i m vs vs' :
  (∀ k, is_Some (vs !! k) → is_Some (vs' !! k)) → mig_left (mig_set_info i m) vs' ≤ mig_left m vs.
Proof.
  intros H. assert (Nat.b2n (dest_absent (mig_set_info i m) vs') ≤ Nat.b2n (dest_absent m vs)) as Ha.
  { unfold dest_absent. change (dest_unnamed (mig_set_info i m)) with (dest_unnamed m).
    change (dest_key (mig_set_info i m)) with (dest_key m). destruct (dest_unnamed m); [done|]. simpl.
    destruct (vs !! dest_key m) eqn:E; [|destruct (vs' !! dest_key m); simpl; lia].
    destruct (H (dest_key m)) as [x ->]; [by eexists|]. simpl. lia. }
  unfold mig_left, source_missing, label_missing, dest_unnamed, dest_unknown, mig_source, mig_dest, mig_phase in *.
  cbn in *. lia.
Qed.

Lemma mig_rounds_left env uuids m srcVol w :
  helpful (ko_key m) env →
  migs w !! ko_key m = Some m → mig_good m → vols w !! source_key m = Some srcVol → source_usable srcVol →
  ∃ w' m', mig_rounds env uuids (mig_req m) w = Ret tt w' ∧ migs w' !! ko_key m = Some m' ∧
    mig_good m' ∧ mig_left m' (vols w') ≤ mig_left m (vols w) - length uuids.
Proof.
  intros Henv. revert m srcVol w Henv. induction uuids as [|u us IH]; intros m srcVol w Henv Hm Hg Hs Hu.
  { exists w, m. split_and!; try done. simpl. lia. }
  destruct (hp_step _ _ Henv w m srcVol Hm Hg Hs Hu) as ((i & Hi & Hp) & (s' & Hs' & Hu') & Hk).
  set (m1 := mig_set_info i m) in *.
  assert (mig_good m1) as Hg1 by (destruct Hg; by split).
  destruct (mig_Reconcile_steps u m1 s' (env w)) as (rep & w2 & m2 & Hr & Hw2 & Hk2 & Hg2 & Hs2 & Hv2 & Hl); try done.
  destruct (IH m2 s' w2) as (w' & m' & Hrun & Hm' & Hg' & Hl'); [by rewrite Hk2| |done| |done|].
  { rewrite Hw2, Hk2. apply lookup_insert_eq. }
  { rewrite Hs2. by apply Hv2. }
  exists w', m'. split_and!; [| |done|].
  - cbn [mig_rounds]. unfold mbind, go_mbind, go_bind, gmodify. change (mig_req m) with (mig_req m1). rewrite Hr.
    replace (mig_req m1) with (mig_req m2); [done|]. injection Hk2 as H1 H2. unfold mig_req. by f_equal.
  - by rewrite Hk2 in Hm'.
  - pose proof (mig_left_env i m _ _ Hk). fold m1 in H. simpl. lia.
Qed.

(** C8. A migration finishes. As long as the agent and the host do their part
    between requests, eleven requests bring a migration in any phase, of a
    usable source, to its end, where it stays: it is marked as finished, and
    names the destination volume, its node and its address. *)
Theorem mig_finishes env uuids m srcVol w :
  migs w !! ko_key m = Some m → mig_good m →
  vols w !! source_key m = Some srcVol → source_usable srcVol → helpful (ko_key m) env →
  11 ≤ length uuids →
  ∃ w' m', mig_rounds env uuids (mig_req m) w = Ret tt w' ∧ migs w' !! ko_key m = Some m' ∧
    mig_phase m' = MigrationPhaseFinished ∧ mig_state m' = MigrationPhaseFinished ∧
    is_Some (vols w' !! dest_key m') ∧ vi_TargetNodeId (mig_dest m') ≠ "" ∧
    tgt_Address (vi_Spdk (mig_dest m')) ≠ "".
Proof.
  intros Hm Hg Hs Hu Henv Hlen.
  destruct (mig_rounds_left env uuids m srcVol w) as (w' & m' & Hr & Hm' & Hg' & Hl); try done.
  exists w', m'. split; [done|]. split; [done|].
  pose proof (mig_left_le m (vols w)). assert (mig_left m' (vols w') = 0) as H0 by lia.
  unfold mig_left in H0.
  assert (phase_left (mig_phase m') = 0) as Hp by lia.
  assert (mig_phase m' = MigrationPhaseFinished) as Hph.
  { unfold phase_left in Hp. repeat case_decide; done. }
  destruct (dest_absent m' (vols w')) eqn:Ea; [simpl in H0; lia|].
  destruct (dest_unknown m') eqn:Eu; [simpl in H0; lia|].
  apply bool_decide_eq_false in Eu. apply orb_false_iff in Ea as [_ Ea]. apply negb_false_iff in Ea.
  split; [done|]. split; [by apply (mg_end _ Hg')|]. split; [|tauto].
  destruct (vols w' !! dest_key m'); [by eexists|done].
Qed.
End progress.

(** ** Evaluations *)

Definition ex_src : AntstorVolume :=
  vol_set_Status (vst_set_Status VolumeStatusReady AntstorVolumeStatus_zero)
    (vol_set_Spec (vs_set_Type VolumeTypeSpdkLVol (vs_set_TargetNodeId "node-1"
      (vs_set_SpdkTarget (Some (tgt_set_Address "10.0.0.1" {| tgt_BdevName := ""; tgt_SubsysNQN := "nqn";
         tgt_SvcID := ""; tgt_SerialNum := ""; tgt_TransType := ""; tgt_NSUUID := "ns"; tgt_Address := "";
         tgt_AddrFam := "" |}))
      (vol_Spec (ex_vol "src" "uuid-src" GiB))))) (ex_vol "src" "uuid-src" GiB)).

Definition ex_volume_info (ns name : string) : VolumeInfo :=
  {| vi_Namespace := ns; vi_Name := name; vi_TargetNodeId := ""; vi_HostNodeId := "";
     vi_Spdk := SpdkTarget_zero |}.
Definition ex_info (pipe host switch : string) : MigrationInfo :=
  {| mi_MigrationPipe := {| mp_DestBdevName := ""; mp_Status := pipe |}; mi_HostConnectStatus := host;
     mi_StartTimestamp := 0; mi_AutoSwitch := {| as_Enabled := true; as_Status := switch |};
     mi_JobProgress := {| jp_SrcBdev := ""; jp_DstBdev := ""; jp_Status := ""; jp_TotalWritePages := 0;
       jp_TotalReadPages := 0; jp_RoundPassed := 0; jp_ElapsedTimeMs := 0; jp_IsLastRound := "" |} |}.
Definition ex_mig (phase : string) : VolumeMigration :=
  {| mig_meta := ex_meta "mig"; 
     mig_Spec := {| ms_SourceVolume := ex_volume_info DefaultNamespace "src";
                    ms_DestVolume := ex_volume_info "" "";
                    ms_MigrationInfo := ex_info ConnectStatusUnknown ConnectStatusUnknown ResultStatusUnknown |};
     mig_Status := {| mst_Phase := phase; mst_Status := ""; mst_Message := "" |} |}.

(** The agents: volumes come up on some node, the phase's part is done. *)
Definition bring_up (v : AntstorVolume) : AntstorVolume :=
  let t := default SpdkTarget_zero (vs_SpdkTarget (vol_Spec v)) in
  let id := vs_TargetNodeId (vol_Spec v) in
  vol_set_Status (vst_set_Status VolumeStatusReady (vol_Status v))
    (vol_set_Spec (vs_set_TargetNodeId (if decide (id = "") then "node-2" else id)
      (vs_set_SpdkTarget (Some (if decide (tgt_Address t = "") then tgt_set_Address "10.0.0.2" t else t))
        (vol_Spec v))) v).
Definition do_part (m : VolumeMigration) : VolumeMigration :=
  let st := if decide (mig_phase m = MigrationPhaseCleaning) then ConnectStatusDisconnected
            else ConnectStatusConnected in
  mig_set_info (ex_info st st ResultStatusSuccess) m.

Abbreviation ExMW := (MemStore VolumeMigration * MemStore AntstorVolume)%type.
Definition ex_env (w : ExMW) : ExMW := (do_part <$> w.1, bring_up <$> w.2).
Definition ex_mig_world (m : VolumeMigration) : ExMW := ({[ko_key m := m]}, {[ko_key ex_src := ex_src]}).

Lemma bring_up_dest v : dest_usable (bring_up v).
Proof.
  split; [done|cbn; by case_decide|]. eexists. split; [reflexivity|]. by case_decide.
Qed.
Lemma bring_up_source v : source_usable v → source_usable (bring_up v).
Proof.
  intros [? ? ? Hn ? (t & Ht & Hnqn)]. split; try done; cbn.
  - by case_decide.
  - eexists. split; [reflexivity|]. rewrite Ht. cbn. by case_decide.
Qed.

Lemma ex_env_helpful key : helpful (HM := MemLaws) (HV := MemLaws) key ex_env.
Proof.
  split. intros w m s Hm Hg Hs Hu. unfold migs, vols in *. cbn in *. split_and!.
  - eexists. rewrite lookup_fmap, Hm. split; [reflexivity|]. fold (do_part m). split.
    + intros d _. rewrite lookup_fmap. intros (d0 & _ & ->)%fmap_Some. apply bring_up_dest.
    + intros Hp. cbn. change (mig_phase m = MigrationPhaseSetupPipe) in Hp.
      rewrite decide_False by (by rewrite Hp). done.
    + done.
    + intros Hp. cbn. change (mig_phase m = MigrationPhaseCleaning) in Hp. by rewrite decide_True.
  - exists (bring_up s). rewrite lookup_fmap, Hs. split; [done|by apply bring_up_source].
  - intros k [x Hx]. rewrite lookup_fmap, Hx. by eexists.
Qed.

Lemma mig_finishes_witness :
  ∃ w' m', mig_rounds (KM0 := MemClient) (KV0 := MemClient) (λ _, "") ex_env
             ["a"; "b"; "c"; "d"; "e"; "f"; "g"; "h"; "i"; "j"; "k"] (mig_req (ex_mig ""))
             (ex_mig_world (ex_mig "")) = Ret tt w' ∧
           w'.1 !! ko_key (ex_mig "") = Some m' ∧ mig_phase m' = MigrationPhaseFinished.
Proof.
  destruct (mig_finishes (HM := MemLaws) (HV := MemLaws) (λ _, "") ex_env
    ["a"; "b"; "c"; "d"; "e"; "f"; "g"; "h"; "i"; "j"; "k"] (ex_mig "") ex_src (ex_mig_world (ex_mig "")))
    as (w' & m' & H1 & H2 & H3 & _).
  - apply lookup_singleton_eq.
  - split; try done. by left.
  - apply lookup_singleton_eq.
  - split; try done; by eexists.
  - apply ex_env_helpful.
  - cbn. lia.
  - exists w', m'. split; [exact H1|]. split; [exact H2|exact H3].
Defined.

(** A server whose volumes cannot be read. *)
Definition brokenKV : KubeClient (MemStore AntstorVolume) AntstorVolume := {|
  kGet _ _ := mret (inr (ErrAPI ReasonOther "timeout"));
  kCreate o := mret (inl o); kUpdate o := mret (inl o); kUpdateStatus o := mret (inl o);
  kPatch _ o := mret (inl o); kPatchStatus _ o := mret (inl o); kDelete _ := mret None |}.

Lemma mig_source_error_final_witness :
  ∃ m' w', mig_Reconcile (KM := client_fst MemClient) (KV := client_snd brokenKV) (λ _, "") "u"
             (mig_req (ex_mig MigrationPhaseSyncing)) (ex_mig_world (ex_mig MigrationPhaseSyncing)) =
             Ret (RequeueAfter (30 * Second), None) w' ∧
           mig_state m' = MigrationStatusError ∧ w'.1 !! ko_key (ex_mig MigrationPhaseSyncing) = Some m'.
Proof.
  destruct (mig_source_error_final (KV0 := brokenKV) (HM := MemLaws) (λ _, "")
    (ex_mig MigrationPhaseSyncing) (ex_mig_world (ex_mig MigrationPhaseSyncing))
    (ErrAPI ReasonOther "timeout") (ex_mig_world (ex_mig "")).2 "u") as (m' & w' & H1 & H2 & H3 & _).
  - apply lookup_singleton_eq.
  - reflexivity.
  - discriminate.
  - discriminate.
  - intros [w1 w2] Hw. cbn in Hw. subst w2. reflexivity.
  - exists m', w'. split; [exact H1|]. split; [exact H3|].
    change (migs w' !! ko_key (ex_mig MigrationPhaseSyncing) = Some m'). rewrite H2. apply lookup_insert_eq.
Defined.

(** Two nodes whose pools carry the label of their node; only the affinity
    filter is configured. *)
Definition ex_labelled (id : string) (sp : @StoragePool NanoLib) : @StoragePool NanoLib :=
  sp_set_meta (om_set_Labels (Some {[PoolLabelsNodeSnKey := id]}) (sp_meta sp)) sp.
Definition ex_mig_nodes : list (@Node NanoLib) :=
  [NewNode (ex_labelled "node-1" ex_pool); NewNode (ex_labelled "node-2" ex_pool2)].
Definition ex_affinity_cfg : SchedulerConfig := SetDefaults {|
  cfg_MaxRemoteVolumeCount := 0; cfg_RemoteIgnoreAnnoSelector := None; cfg_Filters := ["Affinity"];
  cfg_Priorities := []; cfg_LockSchedCfg := {| nsc_NodeSelector := []; nsc_NodeTaints := [] |};
  cfg_NodeCacheSelector := None; cfg_MinLocalStoragePct := 0; cfg_NodeReservations := [] |}.
Definition ex_dest : AntstorVolume :=
  default AntstorVolume_zero (run_val (mig_dest_volume (ex_mig MigrationPhaseCreatingVolume) ex_src tt)).

Lemma ex_mig_nodes_ids : NoDup (pool_nodeID <$> ex_mig_nodes).
Proof.
  assert (pool_nodeID <$> ex_mig_nodes = ["node-1"; "node-2"]) as -> by (vm_compute; reflexivity).
  repeat constructor; set_solver.
Qed.

Lemma ex_dest_scheduled :
  ∃ info v' nodes', ScheduleVolume filtersMap prioritiesMap ex_affinity_cfg ex_dest ex_mig_nodes =
    Ret (info, v', None) nodes'.
Proof.
  assert (match ScheduleVolume filtersMap prioritiesMap ex_affinity_cfg ex_dest ex_mig_nodes with
          | Ret (_, _, None) _ => true | _ => false end = true) as H by (vm_compute; reflexivity).
  destruct (ScheduleVolume _ _ _ _ _) as [[[info v'] [e|]] ns|]; try discriminate. by exists info, v', ns.
Qed.

Lemma mig_dest_elsewhere_witness :
  ∃ n : @Node NanoLib, n ∈ ex_mig_nodes ∧
    map_get (om_Labels (sp_meta (nd_Pool n))) PoolLabelsNodeSnKey ≠ Some "node-1".
Proof.
  destruct ex_dest_scheduled as (info & v' & nodes' & Hs).
  edestruct (mig_dest_elsewhere ex_affinity_cfg (ex_mig MigrationPhaseCreatingVolume) ex_src ex_mig_nodes
    (PoolLabelsNodeSnKey, Some "node-1") tt ex_dest tt info v' nodes') as (n & H1 & _ & H2).
  - reflexivity.
  - reflexivity.
  - by eexists.
  - exact ex_mig_nodes_ids.
  - left.
  - vm_compute. reflexivity.
  - intros labels Hl. cbn in Hl. apply bool_decide_eq_true in Hl. exact Hl.
  - exact Hs.
  - exists n. split; [exact H1|exact H2].
Defined.

Definition ex_hinted_src : AntstorVolume :=
  vol_set_meta (om_set_Annotations (Some {[SelectedTgtNodeKey := "node-1"]}) (vol_meta ex_src)) ex_src.

Lemma mig_dest_hinted_back_witness :
  ∃ v info, mig_dest_volume (ex_mig MigrationPhaseCreatingVolume) ex_hinted_src tt = Ret v tt ∧
    ScheduleVolume filtersMap prioritiesMap ex_affinity_cfg v ex_mig_nodes = Ret (info, v, None) ex_mig_nodes ∧
    ni_ID info = "node-1".
Proof.
  eexists. edestruct (mig_dest_hinted_back ex_affinity_cfg (ex_mig MigrationPhaseCreatingVolume)
    ex_hinted_src ex_mig_nodes tt) as (info & H1 & H2).
  - reflexivity.
  - apply lookup_singleton_eq.
  - exists info. split; [reflexivity|]. split; [exact H1|exact H2].
Defined.
