(* ===== verification/Lvm.v ===== *)
(** * LVM commands

    [pkg/util/lvm/lvm.go] and [cmd.go]: the arguments of the LVM commands, and
    what is read from their output, as JSON or as columns. Running a command
    ([osutil.ShellExec]) and decoding JSON text into the report structs are
    parameters; the commands' documented effects are the laws of [LvmIface] in
    [LvmEngine.v]. *)

From Stdlib Require Import ZArith Lia.
From stdpp Require Import base gmap strings option list.
From S2P Require Import Prelude Strconv Misc.

(** ** Data *)

(* [lvm/lvm.go:13-22] VG *)
Record VG := {
  VG_Name : string; VG_UUID : string; VG_TotalByte : Z; VG_FreeByte : Z;
  VG_PVCount : Z; VG_ExtendCount : Z; VG_ExtendSize : Z }.
Definition VG_zero : VG :=
  {| VG_Name := ""; VG_UUID := ""; VG_TotalByte := 0; VG_FreeByte := 0;
     VG_PVCount := 0; VG_ExtendCount := 0; VG_ExtendSize := 0 |}.

(* [lvm/lvm.go:24-39] LV *)
Record LV := {
  LV_Name : string; LV_VGName : string; LV_DevPath : string; LV_SizeByte : Z;
  LV_LvLayout : string; LV_LvAttr : string; LV_LvDeviceOpen : string;
  LV_Origin : string; LV_OriginUUID : string; LV_OriginSize : string }.
Definition LV_zero : LV :=
  {| LV_Name := ""; LV_VGName := ""; LV_DevPath := ""; LV_SizeByte := 0; LV_LvLayout := "";
     LV_LvAttr := ""; LV_LvDeviceOpen := ""; LV_Origin := ""; LV_OriginUUID := "";
     LV_OriginSize := "" |}.
#[export] Instance LV_eq : EqDecision LV.
Proof. solve_decision. Defined.

(* [lvm/lvm.go:41-44] LvOption *)
Record LvOption := { lo_Size : Z; lo_LogicSize : string }.

(* [lvm/cmd.go:18-18] LvDeviceOpen *)
Definition LvDeviceOpen : string := "open".
(* [lvm/cmd.go:21-21] pvLostErrStr *)
Definition pvLostErrStr : string := "Couldn't find device".
(* [lvm/cmd.go:25-25] PvLostErr *)
Definition PvLostErr : error := ErrNew "LVM_PV_LOST".

(* [lvm/cmd.go:55-58] cmdArgs *)
Record cmdArgs := { ca_cmd : string; ca_args : list string }.

(* [lvm/cmd.go:27-30] vgsCmd *)
Definition vgsCmd : cmdArgs := {| ca_cmd := "vgs"; ca_args := ["--units"; "B"; "-o"; "uuid"] |}.
(* [lvm/cmd.go:32-35] lvsCmd *)
Definition lvsCmd : cmdArgs := {| ca_cmd := "lvs"; ca_args := ["--units"; "B"] |}.
(* [lvm/cmd.go:37-40] pvsCmdJson *)
Definition pvsCmdJson : cmdArgs :=
  {| ca_cmd := "pvs"; ca_args := ["--reportformat"; "json"; "--units"; "B"] |}.
(* [lvm/cmd.go:42-46] vgsCmdJson *)
Definition vgsCmdJson : cmdArgs :=
  {| ca_cmd := "vgs"; ca_args := ["--options"; "vg_all"; "--reportformat"; "json"; "--units"; "B"] |}.
(* [lvm/cmd.go:48-52] lvsCmdJson *)
Definition lvsCmdJson : cmdArgs :=
  {| ca_cmd := "lvs";
     ca_args := ["--noheadings"; "--units"; "B"; "-o";
       "lv_uuid,lv_name,lv_size,lv_path,lv_full_name,vg_name,lv_layout,lv_attr,lv_device_open,origin,origin_uuid,origin_size,vg_name,segtype";
       "--reportformat"; "json"] |}.

(* [lvm/cmd.go:72-78] PV *)
Record PV := { PvName : string; PV_VgName : string; PvFmt : string; PvSize : string; PvFree : string }.
(* [lvm/cmd.go:80-90] reportVG *)
Record reportVG := {
  rvg_UUID : string; rvg_Name : string; rvg_Size : string; rvg_Free : string;
  rvg_PVCount : string; rvg_ExtendSize : string; rvg_ExtendCount : string }.
(* [lvm/cmd.go:92-109] reportLV *)
Record reportLV := {
  rlv_UUID : string; rlv_Name : string; rlv_Size : string; rlv_DevPath : string;
  rlv_FullName : string; rlv_VGName : string; rlv_LvLayout : string; rlv_LvAttr : string;
  rlv_LvDeviceOpen : string; rlv_Origin : string; rlv_OriginUUID : string; rlv_OriginSize : string }.
(* [lvm/cmd.go:64-68] report *)
Record report := { rep_Vg : list reportVG; rep_Lv : list reportLV; rep_Pv : list PV }.
(* [lvm/cmd.go:60-62] lvmJSONOutput *)
Definition lvmJSONOutput := list report.

(** ** Command lines *)

(** [fmt.Sprintf("%dB", sizeByte)] and [fmt.Sprintf("%s/%s", vg, lv)]. *)
Definition size_B (sizeByte : Z) : string := FormatUint sizeByte +:+ "B".
Definition vg_lv (vg lv : string) : string := vg +:+ "/" +:+ lv.

(* [lvm/cmd.go:627-640] getCreateSnapshotStripeCmd *)
Definition getCreateSnapshotStripeCmd (vg snapName originName : string) (sizeByte pvCnt : Z) : cmdArgs :=
  {| ca_cmd := "lvcreate";
     ca_args := ["-i"; Itoa pvCnt; "-I"; "128k"; "-L"; size_B sizeByte; "-s"; "-n"; snapName;
                 vg_lv vg originName] |}.
(* [lvm/cmd.go:642-653] getCreateSnapshotLinearCmd *)
Definition getCreateSnapshotLinearCmd (vg snapName originName : string) (sizeByte : Z) : cmdArgs :=
  {| ca_cmd := "lvcreate";
     ca_args := ["-L"; size_B sizeByte; "-s"; "-n"; snapName; vg_lv vg originName] |}.
(* [lvm/cmd.go:655-662] getMergeSnapshotCmd *)
Definition getMergeSnapshotCmd (vg snapName : string) : cmdArgs :=
  {| ca_cmd := "lvconvert"; ca_args := ["--merge"; vg_lv vg snapName] |}.
(* [lvm/cmd.go:664-676] getStripeLVCreateCmd *)
Definition getStripeLVCreateCmd (vg lv : string) (sizeByte pvNum : Z) : cmdArgs :=
  {| ca_cmd := "lvcreate";
     ca_args := ["-y"; "-L"; size_B sizeByte; "-i"; Itoa pvNum; "-I"; "128k"; "-n"; lv; vg] |}.
(* [lvm/cmd.go:678-700] getLvCreateCmd *)
Definition getLvCreateCmd (vg lv : string) (sizeByte : Z) (logicSize : string) : cmdArgs :=
  if decide (logicSize ≠ "")
  then {| ca_cmd := "lvcreate"; ca_args := ["-y"; "-l"; logicSize; "-n"; lv; vg] |}
  else {| ca_cmd := "lvcreate"; ca_args := ["-y"; "-L"; size_B sizeByte; "-n"; lv; vg] |}.
(* [lvm/cmd.go:702-710] getLvRemoveCmd *)
Definition getLvRemoveCmd (vg lv : string) : cmdArgs :=
  {| ca_cmd := "lvremove"; ca_args := ["-y"; vg_lv vg lv] |}.

(** ** Text *)

(** [strings.TrimLeft(s, "B")], [TrimRight] and [Trim]. *)
Definition char_B : Ascii.ascii := Ascii.ascii_of_nat 66.
Fixpoint trim_left_B (s : string) : string :=
  match s with
  | String c s' => if Ascii.eqb c char_B then trim_left_B s' else s
  | EmptyString => s
  end.
Fixpoint trim_right_B (s : string) : string :=
  match s with
  | EmptyString => EmptyString
  | String c s' =>
      match trim_right_B s' with
      | EmptyString => if Ascii.eqb c char_B then EmptyString else String c EmptyString
      | t => String c t
      end
  end.
Definition trim_B (s : string) : string := trim_left_B (trim_right_B s).

(** The white space of [strings.Fields] among the ASCII characters. *)
Definition is_space (c : Ascii.ascii) : bool :=
  let n := Ascii.nat_of_ascii c in
  bool_decide (n = 32%nat) || (bool_decide (9 <= n)%nat && bool_decide (n <= 13)%nat).

(** [strings.Fields]: [cur] is the field being read. *)
Fixpoint fields_loop (s cur : string) : list string :=
  let flush l := if decide (cur = "") then l else cur :: l in
  match s with
  | EmptyString => flush []
  | String c s' => if is_space c then flush (fields_loop s' "")
                   else fields_loop s' (cur +:+ String c EmptyString)
  end.
Definition strings_Fields (s : string) : list string := fields_loop s "".

(** The lines of a text. *)
Fixpoint lines_loop (s cur : string) : list string :=
  match s with
  | EmptyString => [cur]
  | String c s' => if Ascii.eqb c (Ascii.ascii_of_nat 10) then cur :: lines_loop s' ""
                   else lines_loop s' (cur +:+ String c EmptyString)
  end.
Definition lines (s : string) : list string := lines_loop s "".

(** The loop over the lines: blank ones are skipped, the first error ends it. *)
Fixpoint each_line {A} (ls : list string) (lineFn : list string → A → A + error) (acc : A)
    : A + error :=
  match ls with
  | [] => inl acc
  | line :: rest =>
      match strings_Fields line with
      | [] => each_line rest lineFn acc
      | cols => match lineFn cols acc with
                | inl acc' => each_line rest lineFn acc'
                | inr e => inr e
                end
      end
  end.

(* [lvm/cmd.go:712-735] handleFieldsOfEachLine *)
Definition handleFieldsOfEachLine {A} (out : string) (lineFn : list string → A → A + error) (acc : A)
    : A + error := each_line (lines out) lineFn acc.

(** The uint64 read by [Atoi], and the error it is wrapped in. *)
Definition atoi_bytes (what col : string) : result Z :=
  match Atoi (trim_right_B col) with
  | (n, None) => inl (uwrap64 n)
  | (_, Some e) => inr (ErrNew (what +:+ " is " +:+ col +:+ ", err " +:+ error_msg e))
  end.
Definition col (cols : list string) (i : nat) : string := nth i cols "".

Definition vg_line (cols : list string) (vgs : list VG) : list VG + error :=
  if bool_decide (8 <= length cols)%nat && negb (bool_decide (col cols 0 = "VG")) then
    match atoi_bytes "VSize" (col cols 5) with
    | inr e => inr e
    | inl total =>
        match atoi_bytes "VFree" (col cols 6) with
        | inr e => inr e
        | inl free =>
            inl (vgs ++ [{| VG_Name := col cols 0; VG_UUID := col cols 7; VG_TotalByte := total;
                            VG_FreeByte := free; VG_PVCount := 0; VG_ExtendCount := 0;
                            VG_ExtendSize := 0 |}])
        end
    end
  else inl vgs.

Definition lv_line (vgName : string) (cols : list string) (lvs : list LV) : list LV + error :=
  if bool_decide (4 <= length cols)%nat && negb (bool_decide (col cols 0 = "LV")) then
    match atoi_bytes "VSize" (col cols 3) with
    | inr e => inr e
    | inl total =>
        inl (lvs ++ [{| LV_Name := col cols 0; LV_VGName := col cols 1;
               LV_DevPath := "/dev/" +:+ vg_lv vgName (col cols 0); LV_SizeByte := total;
               LV_LvLayout := ""; LV_LvAttr := ""; LV_LvDeviceOpen := ""; LV_Origin := "";
               LV_OriginUUID := ""; LV_OriginSize := "" |}])
    end
  else inl lvs.

(** ** JSON reports *)

(** The logical volume of an entry, or the error of its size. *)
Definition lv_of_report (item : reportLV) : result LV :=
  match ParseUint (trim_B (rlv_Size item)) with
  | (_, Some e) => inr e
  | (total, None) =>
      inl {| LV_Name := rlv_Name item; LV_VGName := rlv_VGName item; LV_DevPath := rlv_DevPath item;
             LV_SizeByte := total; LV_LvLayout := rlv_LvLayout item; LV_LvAttr := rlv_LvAttr item;
             LV_LvDeviceOpen := rlv_LvDeviceOpen item; LV_Origin := rlv_Origin item;
             LV_OriginUUID := rlv_OriginUUID item; LV_OriginSize := rlv_OriginSize item |}
  end.

Definition parse_size (s : string) : result Z :=
  match ParseUint (trim_B s) with (n, None) => inl n | (_, Some e) => inr e end.
Definition parse_int (s : string) : result Z :=
  match Atoi s with (n, None) => inl n | (_, Some e) => inr e end.

Definition vg_of_report (item : reportVG) : result VG :=
  match parse_size (rvg_Size item) with inr e => inr e | inl total =>
  match parse_size (rvg_Free item) with inr e => inr e | inl free =>
  match parse_size (rvg_ExtendSize item) with inr e => inr e | inl extendSize =>
  match parse_int (rvg_PVCount item) with inr e => inr e | inl pvCount =>
  match parse_int (rvg_ExtendCount item) with inr e => inr e | inl extendCount =>
    inl {| VG_Name := rvg_Name item; VG_UUID := rvg_UUID item; VG_TotalByte := total;
           VG_FreeByte := free; VG_PVCount := pvCount; VG_ExtendCount := extendCount;
           VG_ExtendSize := extendSize |}
  end end end end end.

(** The loops over the entries: an entry that cannot be parsed leaves the zero
    value at its index, and the error kept is that of the last entry. *)
Fixpoint parse_entries {A B} (zero : B) (parse : A → result B) (items : list A) (err : option error)
    : list B * option error :=
  match items with
  | [] => ([], err)
  | item :: rest =>
      match parse item with
      | inl b => let '(bs, e) := parse_entries zero parse rest None in (b :: bs, e)
      | inr e => let '(bs, e') := parse_entries zero parse rest (Some e) in (zero :: bs, e')
      end
  end.

Definition entries_result {B} (r : list B * option error) : result (list B) :=
  match r.2 with Some e => inr e | None => inl r.1 end.

(** ** The command runner *)

Class ShellExec (W : Type) := {
  ExecCmd : string → list string → go W (result string);
  ExecCmdWithError : string → list string → go W (result (string * string));
}.
(** Decoding of JSON text by the tags of the report structs. *)
Class LvmJson := { Unmarshal_lvm : string → result lvmJSONOutput }.

Section cmd.
Context {W : Type} {X : ShellExec W} {J : LvmJson}.
(** The fields [binDir], empty or a clean directory, and [jsonFormat]. *)
Context (binDir : string) (jsonFormat : bool).

Definition filepath_Join (dir cmd : string) : string :=
  if decide (dir = "") then cmd else dir +:+ "/" +:+ cmd.

Definition run_cmd (c : cmdArgs) : go W (result string) :=
  ExecCmd (filepath_Join binDir (ca_cmd c)) (ca_args c).
(** A command whose output is only logged. *)
Definition run_unit (c : cmdArgs) : go W (option error) :=
  r ← run_cmd c;
  mret match r with inl _ => None | inr e => Some e end.

(* [lvm/cmd.go:118-146] cmd.ListPV *)
Definition ListPV : go W (result (list PV)) :=
  r ← run_cmd pvsCmdJson;
  mret match r with
       | inr e => inr e
       | inl out => match Unmarshal_lvm out with
                    | inr e => inr e
                    | inl [] => inl []
                    | inl (rep :: _) => inl (rep_Pv rep)
                    end
       end.

(* [lvm/cmd.go:248-304] cmd.listLVInVGJSON *)
Definition listLVInVGJSON (vgName : string) : go W (result (list LV)) :=
  r ← run_cmd lvsCmdJson;
  mret match r with
       | inr e => inr e
       | inl out =>
           match Unmarshal_lvm out with
           | inr e => inr e
           | inl [] => inl []
           | inl (rep :: _) =>
               entries_result (parse_entries LV_zero lv_of_report
                 (List.filter (λ item, bool_decide (rlv_VGName item = vgName)) (rep_Lv rep)) None)
           end
       end.

(* [lvm/cmd.go:306-379] cmd.listVGJSON *)
Definition listVGJSON : go W (result (list VG)) :=
  r ← ExecCmdWithError (filepath_Join binDir (ca_cmd vgsCmdJson)) (ca_args vgsCmdJson);
  mret match r with
       | inr e => inr e
       | inl (out, stderr) =>
           if str_contains stderr pvLostErrStr
           then inr (ErrWrap ("LVM_PV_LOST stderr=" +:+ stderr) PvLostErr)
           else match Unmarshal_lvm out with
                | inr e => inr e
                | inl [] => inl []
                | inl (rep :: _) => entries_result (parse_entries VG_zero vg_of_report (rep_Vg rep) None)
                end
       end.

(* [lvm/cmd.go:388-430] cmd.listVG *)
Definition listVG : go W (result (list VG)) :=
  r ← run_cmd vgsCmd;
  mret match r with inr e => inr e | inl out => handleFieldsOfEachLine out vg_line [] end.

(* [lvm/cmd.go:439-482] cmd.listLVInVG *)
Definition listLVInVG (vgName : string) : go W (result (list LV)) :=
  r ← run_cmd lvsCmd;
  mret match r with
       | inr e => inr e
       | inl out =>
           match handleFieldsOfEachLine out (lv_line vgName) [] with
           | inr e => inr e
           | inl all => inl (List.filter (λ item, bool_decide (LV_VGName item = vgName)) all)
           end
       end.

(* [lvm/cmd.go:148-153] cmd.ListVG *)
Definition ListVG : go W (result (list VG)) := if jsonFormat then listVGJSON else listVG.
(* [lvm/cmd.go:155-160] cmd.ListLVInVG *)
Definition ListLVInVG (vgName : string) : go W (result (list LV)) :=
  if jsonFormat then listLVInVGJSON vgName else listLVInVG vgName.

(* [lvm/cmd.go:162-192] cmd.CreateVG *)
Definition CreateVG (name : string) (pvs : list string) : go W (result VG) :=
  r ← run_cmd {| ca_cmd := "vgcreate"; ca_args := name :: pvs |};
  match r with
  | inr e => mret (inr e)
  | inl _ =>
      l ← ListVG;
      mret match l with
           | inr e => inr e
           | inl vgs => inl (foldl (λ vg item, if decide (VG_Name item = name) then item else vg) VG_zero vgs)
           end
  end.

(* [lvm/cmd.go:194-210] cmd.RemoveVG *)
Definition RemoveVG (vgName : string) : go W (option error) :=
  run_unit {| ca_cmd := "vgremove"; ca_args := [vgName; "-y"] |}.
(* [lvm/cmd.go:212-228] cmd.CreatePV *)
Definition CreatePV (pvs : list string) : go W (option error) :=
  run_unit {| ca_cmd := "pvcreate"; ca_args := pvs |}.
(* [lvm/cmd.go:230-246] cmd.RemovePVs *)
Definition RemovePVs (pvs : list string) : go W (option error) :=
  run_unit {| ca_cmd := "pvremove"; ca_args := pvs ++ ["-y"] |}.

(* [lvm/cmd.go:484-498] cmd.getPvCount *)
Definition getPvCount (vgName : string) : go W (result (Z * VG)) :=
  r ← listVGJSON;
  mret match r with
       | inr e => inr e
       | inl vgs => match List.find (λ item, bool_decide (VG_Name item = vgName)) vgs with
                    | Some item => inl (VG_PVCount item, item)
                    | None => inl (0%Z, VG_zero)
                    end
       end.

(** The LV the create commands describe to their caller. *)
Definition new_lv (vgName lvName : string) (sizeByte : Z) : LV :=
  {| LV_Name := lvName; LV_VGName := vgName; LV_DevPath := "/dev/" +:+ vg_lv vgName lvName;
     LV_SizeByte := sizeByte; LV_LvLayout := ""; LV_LvAttr := ""; LV_LvDeviceOpen := "";
     LV_Origin := ""; LV_OriginUUID := ""; LV_OriginSize := "" |}.

Definition no_vg_error (vgName : string) : error := ErrNew ("cannot found vg by name " +:+ vgName).

(* [lvm/cmd.go:500-527] cmd.CreateStripeLV *)
Definition CreateStripeLV (vgName lvName : string) (sizeByte : Z) : go W (result LV) :=
  c ← getPvCount vgName;
  match c with
  | inr e => mret (inr e)
  | inl (pvNum, _) =>
      if decide (pvNum < 1)%Z then mret (inr (no_vg_error vgName))
      else
        r ← run_cmd (getStripeLVCreateCmd vgName lvName sizeByte pvNum);
        mret match r with inr e => inr e | inl _ => inl (new_lv vgName lvName sizeByte) end
  end.

(* [lvm/cmd.go:529-547] cmd.CreateLinearLV *)
Definition CreateLinearLV (vgName lvName : string) (opt : LvOption) : go W (result LV) :=
  r ← run_cmd (getLvCreateCmd vgName lvName (lo_Size opt) (lo_LogicSize opt));
  mret match r with inr e => inr e | inl _ => inl (new_lv vgName lvName (lo_Size opt)) end.

(* [lvm/cmd.go:549-560] cmd.RemoveLV *)
Definition RemoveLV (vgName lvName : string) : go W (option error) :=
  run_unit (getLvRemoveCmd vgName lvName).

(* [lvm/cmd.go:562-573] cmd.CreateSnapshotLinear *)
Definition CreateSnapshotLinear (vgName snapName originVol : string) (sizeByte : Z) : go W (option error) :=
  run_unit (getCreateSnapshotLinearCmd vgName snapName originVol sizeByte).

(* [lvm/cmd.go:575-599] cmd.CreateSnapshotStripe *)
Definition CreateSnapshotStripe (vgName snapName originVol : string) (sizeByte : Z) : go W (option error) :=
  c ← getPvCount vgName;
  match c with
  | inr e => mret (Some e)
  | inl (pvNum, _) =>
      if decide (pvNum < 1)%Z then mret (Some (no_vg_error vgName))
      else run_unit (getCreateSnapshotStripeCmd vgName snapName originVol sizeByte pvNum)
  end.

(* [lvm/cmd.go:601-612] cmd.MergeSnapshot *)
Definition MergeSnapshot (vgName snapName : string) : go W (option error) :=
  run_unit (getMergeSnapshotCmd vgName snapName).

(* [lvm/cmd.go:614-625] cmd.ExpandVolume *)
Definition ExpandVolume (deltaBytes : Z) (targetVol : string) : go W (option error) :=
  run_unit {| ca_cmd := "lvextend";
              ca_args := ["--size"; "+" +:+ Itoa deltaBytes +:+ "B"; targetVol] |}.
End cmd.

(** ** What listing returns *)

Section listing.
Implicit Types (lv : LV).

(** The report entry the command prints for a logical volume. *)
Definition report_of_lv (lv : LV) : reportLV :=
  {| rlv_UUID := ""; rlv_Name := LV_Name lv; rlv_Size := size_B (LV_SizeByte lv);
     rlv_DevPath := LV_DevPath lv; rlv_FullName := vg_lv (LV_VGName lv) (LV_Name lv);
     rlv_VGName := LV_VGName lv; rlv_LvLayout := LV_LvLayout lv; rlv_LvAttr := LV_LvAttr lv;
     rlv_LvDeviceOpen := LV_LvDeviceOpen lv; rlv_Origin := LV_Origin lv;
     rlv_OriginUUID := LV_OriginUUID lv; rlv_OriginSize := LV_OriginSize lv |}.

(** A text without the unit's letter, such as that of a number. *)
Fixpoint no_B (s : string) : Prop :=
  match s with EmptyString => True | String c s' => Ascii.eqb c char_B = false ∧ no_B s' end.

Lemma digit_not_B d : (0 <= d < 10)%Z → Ascii.eqb (digit_char d) char_B = false.
Proof.
  intros Hd. assert (∃ n, n < 10 ∧ d = Z.of_nat n)%nat as (n & Hn & ->)
    by (exists (Z.to_nat d); lia).
  do 10 (destruct n as [|n]; [reflexivity|]). lia.
Qed.

Lemma format_loop_no_B f n acc : (0 <= n)%Z → no_B acc → no_B (format_loop f n acc).
Proof.
  revert n acc. induction f as [|f IH]; intros n acc Hn Ha; [done|]. cbn [format_loop].
  pose proof (Z.mod_pos_bound n 10). case_match.
  - split; [apply digit_not_B; lia|done].
  - apply IH; [apply Z.div_pos; lia|]. split; [apply digit_not_B; lia|done].
Qed.

Lemma trim_right_B_id s : no_B s → trim_right_B s = s.
Proof.
  induction s as [|c s IH]; [done|]. intros [Hc Hs]. cbn. rewrite IH by done.
  destruct s; [by rewrite Hc|done].
Qed.
Lemma trim_right_B_size s : no_B s → trim_right_B (s +:+ "B") = s.
Proof.
  induction s as [|c s IH]; [done|]. intros [Hc Hs].
  change (String c s +:+ "B") with (String c (s +:+ "B")). cbn. rewrite IH by done.
  destruct s; [by rewrite Hc|done].
Qed.
Lemma trim_left_B_id s : no_B s → trim_left_B s = s.
Proof. destruct s as [|c s]; [done|]. intros [Hc _]. cbn. by rewrite Hc. Qed.

Lemma trim_size n : is_uint64 n → trim_B (size_B n) = FormatUint n.
Proof.
  intros Hn. unfold trim_B, size_B. assert (no_B (FormatUint n)) as H.
  { apply format_loop_no_B; [apply Hn|done]. }
  by rewrite trim_right_B_size, trim_left_B_id.
Qed.

Lemma lv_of_report_of_lv lv : is_uint64 (LV_SizeByte lv) → lv_of_report (report_of_lv lv) = inl lv.
Proof.
  intros H. unfold lv_of_report. cbn [rlv_Size report_of_lv]. rewrite trim_size, ParseUint_FormatUint by done. by destruct lv.
Qed.

(** The error of a list of entries is that of its last one. *)
Definition last_error {A B} (parse : A → result B) (items : list A) (err : option error) : option error :=
  match last items with
  | Some item => match parse item with inr e => Some e | inl _ => None end
  | None => err
  end.

Lemma parse_entries_spec {A B} (zero : B) (parse : A → result B) items err :
  parse_entries zero parse items err =
  ((λ item, match parse item with inl b => b | inr _ => zero end) <$> items, last_error parse items err).
Proof.
  revert err. induction items as [|item items IH]; intros err; [done|]. cbn [parse_entries].
  assert (∀ e0, last_error parse (item :: items) err =
    match items with [] => last_error parse [item] err | _ => last_error parse items e0 end) as Hlast.
  { intros e0. destruct items as [|i items]; [done|]. unfold last_error.
    change (last (item :: i :: items)) with (last (i :: items)).
    destruct (last (i :: items)) eqn:El; [done|]. by apply last_None in El. }
  destruct (parse item) as [b|e] eqn:E; rewrite IH, fmap_cons, E;
    [rewrite (Hlast None)|rewrite (Hlast (Some e))]; destruct items; try done;
    unfold last_error; cbn; by rewrite E.
Qed.
End listing.

(** Listing the volumes of a group decides on the last entry only. When its
    size parses, the listing succeeds and has one volume per entry of the group,
    in order: the entry's volume, or the zero volume for an entry whose size did
    not parse. When the last size does not parse, its error is returned. In
    particular a report of well-formed volumes is read back exactly. *)
Lemma listLVInVGJSON_spec {W} {X : ShellExec W} {J : LvmJson} binDir vgName (w w' : W) out rep reps :
  ExecCmd (filepath_Join binDir "lvs") (ca_args lvsCmdJson) w = Ret (inl out) w' →
  Unmarshal_lvm out = inl (rep :: reps) →
  let items := List.filter (λ item, bool_decide (rlv_VGName item = vgName)) (rep_Lv rep) in
  listLVInVGJSON binDir vgName w =
    Ret (match last_error lv_of_report items None with
         | Some e => inr e
         | None => inl ((λ item, match lv_of_report item with inl lv => lv | inr _ => LV_zero end) <$> items)
         end) w' ∧
  ∀ lvs, Forall (λ lv, is_uint64 (LV_SizeByte lv)) lvs → rep_Lv rep = report_of_lv <$> lvs →
    listLVInVGJSON binDir vgName w = Ret (inl (filter (λ lv, LV_VGName lv = vgName) lvs)) w'.
Proof.
  intros Hx Hj items.
  assert (listLVInVGJSON binDir vgName w = Ret (match last_error lv_of_report items None with
         | Some e => inr e
         | None => inl ((λ item, match lv_of_report item with inl lv => lv | inr _ => LV_zero end) <$> items)
         end) w') as Hrun.
  { unfold listLVInVGJSON, run_cmd. go_simpl.
    change (ca_cmd lvsCmdJson) with "lvs". rewrite Hx, Hj.
    unfold entries_result. rewrite parse_entries_spec. done. }
  split; [exact Hrun|]. intros lvs Hu Hrep. rewrite Hrun. clear Hrun.
  assert (items = report_of_lv <$> filter (λ lv, LV_VGName lv = vgName) lvs) as Hitems.
  { unfold items. rewrite Hrep. clear. induction lvs as [|lv lvs IH]; [done|].
    rewrite fmap_cons. cbn [List.filter]. rewrite filter_cons.
    change (rlv_VGName (report_of_lv lv)) with (LV_VGName lv). rewrite IH.
    case_bool_decide as E; [by rewrite decide_True|by rewrite decide_False]. }
  assert (Forall (λ lv, lv_of_report (report_of_lv lv) = inl lv) (filter (λ lv, LV_VGName lv = vgName) lvs))
    as Hall.
  { apply Forall_forall. intros lv [_ Hin]%list_elem_of_filter. rewrite Forall_forall in Hu.
    by apply lv_of_report_of_lv, Hu. }
  rewrite Hitems. generalize dependent (filter (λ lv, LV_VGName lv = vgName) lvs).
  intros l _ Hall. unfold last_error. rewrite fmap_last.
  destruct (last l) as [lv|] eqn:El; cbn [fmap option_fmap option_map].
  - rewrite Forall_forall in Hall.
    assert (lv ∈ l) as Hin by (by apply last_Some_elem_of).
    rewrite (Hall lv Hin). do 2 f_equal. rewrite <- list_fmap_compose.
    rewrite <- (list_fmap_id l) at 2. apply list_fmap_ext. intros i x Hx'. cbn.
    by rewrite (Hall x) by (by eapply list_elem_of_lookup_2).
  - apply last_None in El as ->. done.
Qed.

(** ** Evaluations *)

(** A machine whose commands all print the same text, and one report. *)
#[local] Instance ex_exec : ShellExec unit :=
  {| ExecCmd _ _ := mret (inl "out"); ExecCmdWithError _ _ := mret (inl ("out", "")) |}.
Definition ex_lv (name : string) (size : Z) : LV :=
  {| LV_Name := name; LV_VGName := "vg"; LV_DevPath := "/dev/vg/" +:+ name; LV_SizeByte := size;
     LV_LvLayout := "linear"; LV_LvAttr := ""; LV_LvDeviceOpen := ""; LV_Origin := "";
     LV_OriginUUID := ""; LV_OriginSize := "" |}.
#[local] Instance ex_json : LvmJson :=
  {| Unmarshal_lvm _ := inl [{| rep_Vg := []; rep_Lv := report_of_lv <$> [ex_lv "a" 4096; ex_lv "b" 8192];
                                rep_Pv := [] |}] |}.

Example ex_fields : strings_Fields "  vol-1 vg  -wi-a-----   41943040B " = ["vol-1"; "vg"; "-wi-a-----"; "41943040B"].
Proof. reflexivity. Qed.
Example ex_stripe_cmd :
  ca_args (getStripeLVCreateCmd "vg" "v" 8388608 2) = ["-y"; "-L"; "8388608B"; "-i"; "2"; "-I"; "128k"; "-n"; "v"; "vg"].
Proof. reflexivity. Qed.

Lemma listLVInVGJSON_spec_witness :
  listLVInVGJSON "" "vg" tt = Ret (inl [ex_lv "a" 4096; ex_lv "b" 8192]) tt.
Proof.
  destruct (listLVInVGJSON_spec "" "vg" tt tt "out"
    {| rep_Vg := []; rep_Lv := report_of_lv <$> [ex_lv "a" 4096; ex_lv "b" 8192]; rep_Pv := [] |} [])
    as [_ H].
  - reflexivity.
  - reflexivity.
  - apply (H [ex_lv "a" 4096; ex_lv "b" 8192]).
    + repeat constructor; vm_compute; done.
    + reflexivity.
Defined.
