(* ===== verification/LvmEngine.v ===== *)
(** * The LVM pool engine

    [pkg/agent/pool/engine/service.go] and [vg.go]: volumes and snapshots of one
    volume group. The engine is a client of [LvmIface], the interface of
    [lvm.go] as a class; [LvmLaws] states what the commands do to the volume
    group, and the JSON commands of [Lvm.v] are an instance of the class. *)

From Stdlib Require Import ZArith Lia.
From stdpp Require Import base gmap strings option list.
From S2P Require Import Prelude Strconv Float64 Misc K8s Api Lvm.

(* [lvm/lvm.go:46-62] LvmIface *)
Class LvmIface (W : Type) := {
  lvm_ListVG : go W (result (list VG));
  lvm_ListLVInVG : string → go W (result (list LV));
  lvm_CreateLinearLV : string → string → LvOption → go W (result LV);
  lvm_CreateStripeLV : string → string → Z → go W (result LV);
  lvm_RemoveLV : string → string → go W (option error);
  lvm_ExpandVolume : Z → string → go W (option error);
  lvm_CreateSnapshotLinear : string → string → string → Z → go W (option error);
  lvm_CreateSnapshotStripe : string → string → string → Z → go W (option error);
  lvm_MergeSnapshot : string → string → go W (option error);
}.

(** The implementation used by the agent: JSON output, commands on the path. *)
#[export] Instance cmd_LvmIface {W} {X : ShellExec W} {J : LvmJson} : LvmIface W := {|
  lvm_ListVG := ListVG "" true;
  lvm_ListLVInVG := ListLVInVG "" true;
  lvm_CreateLinearLV := CreateLinearLV "";
  lvm_CreateStripeLV := CreateStripeLV "";
  lvm_RemoveLV := RemoveLV "";
  lvm_ExpandVolume := ExpandVolume "";
  lvm_CreateSnapshotLinear := CreateSnapshotLinear "";
  lvm_CreateSnapshotStripe := CreateSnapshotStripe "";
  lvm_MergeSnapshot := MergeSnapshot "";
|}.

(** [mount.SafeFormat] runs mkfs on a device that has no file system. *)
Class Formatter (W : Type) := { SafeFormat : string → string → go W (option error) }.

(** ** Requests *)

(* [engine/service.go:32-35] SpdkLvolBdev *)
Record SpdkLvolBdev := { slb_Lvol : SpdkLvol; slb_SizeByte : Z }.
(* [engine/service.go:26-30] VolumeInfo *)
Record VolumeInfo := {
  vinf_Type : string; vinf_LvmLV : option KernelLVol; vinf_SpdkLvol : option SpdkLvolBdev }.
Definition VolumeInfo_zero : VolumeInfo :=
  {| vinf_Type := ""; vinf_LvmLV := None; vinf_SpdkLvol := None |}.
(* [engine/service.go:37-40] StaticInfo *)
Record StaticInfo := { si_LVM : option KernelLVM; si_LVS : option SpdkLVStore }.
(* [engine/service.go:42-50] CreateVolumeRequest *)
Record CreateVolumeRequest := {
  cvr_VolName : string; cvr_SizeByte : Z; cvr_FsType : string; cvr_LvLayout : string }.
(* [engine/service.go:52-57] CreateVolumeResponse *)
Record CreateVolumeResponse := { cvp_UUID : string; cvp_DevPath : string }.
(* [engine/service.go:59-63] CreateSnapshotRequest *)
Record CreateSnapshotRequest := { csr_SnapshotName : string; csr_OriginName : string; csr_SizeByte : Z }.
(* [engine/service.go:65-69] ExpandVolumeRequest *)
Record ExpandVolumeRequest := { evr_VolName : string; evr_TargetSize : Z; evr_OriginSize : Z }.

(* [engine/vg.go:16-16] reservedLvolPrefix *)
Definition reservedLvolPrefix : string := "reserved-".
(* [engine/vg.go:20-20] ErrNotFoundVG *)
Definition ErrNotFoundVG : error := ErrNew "NotFoundVG".

(* [engine/vg.go:23-26] LvmPoolEngine *)
Record LvmPoolEngine := { pe_VgName : string; pe_VgCache : KernelLVM }.
(* [engine/vg.go:28-34] NewLvmPoolEngine *)
Definition NewLvmPoolEngine (vgName : string) : LvmPoolEngine :=
  {| pe_VgName := vgName; pe_VgCache := KernelLVM_zero |}.

Section engine.
Context {W : Type} {I : LvmIface W} {F : Formatter W}.

(** The scan of [isVolumeExistent]: it stops at the volume looked for, so linear
    volumes listed after it are not seen. *)
Fixpoint scan_lvs (lvName : string) (lvs : list LV) (hasLinearLV : bool) : bool * bool * LV :=
  match lvs with
  | [] => (false, hasLinearLV, LV_zero)
  | lv :: rest =>
      let linear := hasLinearLV || bool_decide (LV_LvLayout lv = LVLayoutLinear) in
      if decide (LV_Name lv = lvName) then (true, linear, lv) else scan_lvs lvName rest linear
  end.

(* [engine/vg.go:392-411] isVolumeExistent *)
Definition isVolumeExistent (vgName lvName : string) : go W (result (bool * bool * LV)) :=
  r ← lvm_ListLVInVG vgName;
  mret match r with inr e => inr e | inl lvs => inl (scan_lvs lvName lvs false) end.

(** The reserved volumes among those listed, one per name. *)
Fixpoint reserved_loop (lvs : list LV) (nameSet : MapSet.t) : list KernelLVol :=
  match lvs with
  | [] => []
  | item :: rest =>
      if negb (MapSet.Contains nameSet (LV_Name item)) && HasPrefix (LV_Name item) reservedLvolPrefix
      then {| rl_Name := LV_Name item; rl_VGName := LV_VGName item; rl_DevPath := LV_DevPath item;
              rl_SizeByte := LV_SizeByte item; rl_LvLayout := LV_LvLayout item |}
           :: reserved_loop rest (MapSet.Add nameSet (LV_Name item))
      else reserved_loop rest nameSet
  end.

(* [engine/vg.go:364-390] LvmPoolEngine.getReservedVols *)
Definition getReservedVols (pe : LvmPoolEngine) : go W (list KernelLVol) :=
  r ← lvm_ListLVInVG (pe_VgName pe);
  match r with
  | inr e => panic ("klog.Fatal: " +:+ error_msg e)
  | inl lvs => mret (reserved_loop lvs MapSet.NewEmptySet)
  end.

(** The loop over the volume groups: the last one of the name wins. *)
Fixpoint initialize_loop (pe : LvmPoolEngine) (vgName : string) (vgs : list VG)
    (found : option KernelLVM) : go W (option KernelLVM) :=
  match vgs with
  | [] => mret found
  | item :: rest =>
      if decide (VG_Name item = vgName) then
        reserved ← getReservedVols pe;
        initialize_loop pe vgName rest (Some {|
          klvm_Name := VG_Name item; klvm_VgUUID := VG_UUID item; klvm_Bytes := VG_TotalByte item;
          klvm_ExtendSize := VG_ExtendSize item; klvm_ExtendCount := VG_ExtendCount item;
          klvm_PVCount := VG_PVCount item; klvm_ReservedLVol := reserved |})
      else initialize_loop pe vgName rest found
  end.

(* [engine/vg.go:328-362] LvmPoolEngine.initialize *)
Definition initialize (pe : LvmPoolEngine) (vgName : string) : go W (KernelLVM * option error) :=
  r ← lvm_ListVG;
  match r with
  | inr e => mret (KernelLVM_zero, Some e)
  | inl vgs =>
      found ← initialize_loop pe vgName vgs None;
      mret match found with
           | Some result => (result, None)
           | None => (KernelLVM_zero, Some ErrNotFoundVG)
           end
  end.

(* [engine/vg.go:36-44] LvmPoolEngine.PoolInfo *)
Definition PoolInfo (vgName : string) (pe : LvmPoolEngine)
    : go W (StaticInfo * option error * LvmPoolEngine) :=
  '(cache, err) ← initialize pe vgName;
  let pe' := {| pe_VgName := pe_VgName pe; pe_VgCache := cache |} in
  mret match err with
       | Some e => ({| si_LVM := None; si_LVS := None |}, Some e, pe')
       | None => ({| si_LVM := Some cache; si_LVS := None |}, None, pe')
       end.

(* [engine/vg.go:46-63] LvmPoolEngine.TotalAndFreeSize *)
Definition TotalAndFreeSize (pe : LvmPoolEngine) : go W (result (Z * Z)) :=
  r ← lvm_ListVG;
  mret match r with
       | inr e => inr e
       | inl vgs =>
           match List.find (λ item, bool_decide (VG_Name item = pe_VgName pe)) vgs with
           | Some item => inl (VG_TotalByte item, VG_FreeByte item)
           | None => inl (0%Z, 0%Z)
           end
       end.

(* [engine/vg.go:65-90] LvmPoolEngine.GetVolume *)
Definition GetVolume (pe : LvmPoolEngine) (volName : string) : go W (result VolumeInfo) :=
  r ← isVolumeExistent (pe_VgName pe) volName;
  mret match r with
       | inr e => inr e
       | inl (volExists, _, target) =>
           if volExists : bool
           then inl {| vinf_Type := VolumeTypeKernelLVol;
                       vinf_LvmLV := Some {| rl_Name := volName; rl_VGName := pe_VgName pe;
                         rl_DevPath := LV_DevPath target; rl_SizeByte := LV_SizeByte target;
                         rl_LvLayout := LV_LvLayout target |};
                       vinf_SpdkLvol := None |}
           else inl VolumeInfo_zero
       end.

(** The size of a striped volume: rounded down to whole stripes. *)
Definition stripe_size (pe : LvmPoolEngine) (size : Z) : Z :=
  if decide (klvm_PVCount (pe_VgCache pe) > 0)%Z then
    let unitSize := uwrap64 (uwrap64 (klvm_PVCount (pe_VgCache pe)) * klvm_ExtendSize (pe_VgCache pe)) in
    uwrap64 (Z.quot size unitSize * unitSize)
  else size.

(** The creation in [allocate]; a zero stripe unit is a division by zero. *)
Definition create_lv (pe : LvmPoolEngine) (name : string) (size : Z) (lvLayout : string)
    : go W (option error) :=
  if decide (lvLayout = LVLayoutLinear) then
    r ← lvm_CreateLinearLV (pe_VgName pe) name {| lo_Size := size; lo_LogicSize := "" |};
    mret match r with inl _ => None | inr e => Some e end
  else if decide (lvLayout = LVLayoutStriped) then
    if decide (klvm_PVCount (pe_VgCache pe) > 0 ∧
               uwrap64 (uwrap64 (klvm_PVCount (pe_VgCache pe)) * klvm_ExtendSize (pe_VgCache pe)) = 0)%Z
    then panic "integer divide by zero"
    else
      r ← lvm_CreateStripeLV (pe_VgName pe) name (stripe_size pe size);
      mret match r with inl _ => None | inr e => Some e end
  else mret (Some (ErrNew ("unsupported LV layout " +:+ lvLayout))).

(** The layout, when none is asked for: the one of the volumes seen. *)
Definition choose_layout (hasLinearLV : bool) (lvLayout : string) : string :=
  if decide (lvLayout = "") then (if hasLinearLV then LVLayoutLinear else LVLayoutStriped)
  else lvLayout.

(* [engine/vg.go:175-243] LvmPoolEngine.allocate *)
Definition allocate (pe : LvmPoolEngine) (name : string) (size : Z) (lvLayout : string)
    : go W (result KernelLvol) :=
  r ← isVolumeExistent (pe_VgName pe) name;
  match r with
  | inr e => mret (inr e)
  | inl (volExists, hasLinearLV, target) =>
      err ← (if volExists : bool then
               mret (if decide (LV_SizeByte target ≠ size)
                     then Some (ErrNew ("LV " +:+ name +:+ " size is " +:+
                            FormatUint (LV_SizeByte target) +:+ ", but want " +:+ FormatUint size))
                     else None)
             else create_lv pe name size (choose_layout hasLinearLV lvLayout));
      mret match err with
           | Some e => inr e
           | None => inl {| kl_Name := name; kl_DevPath := "/dev/" +:+ vg_lv (pe_VgName pe) name |}
           end
  end.

(* [engine/vg.go:92-113] LvmPoolEngine.CreateVolume *)
Definition CreateVolume (pe : LvmPoolEngine) (req : CreateVolumeRequest)
    : go W (result CreateVolumeResponse) :=
  r ← allocate pe (cvr_VolName req) (cvr_SizeByte req) (cvr_LvLayout req);
  match r with
  | inr e => mret (inr e)
  | inl vol =>
      err ← (if decide (cvr_FsType req ≠ "") then SafeFormat (kl_DevPath vol) (cvr_FsType req)
             else mret None);
      mret match err with
           | Some e => inr e
           | None => inl {| cvp_UUID := ""; cvp_DevPath := kl_DevPath vol |}
           end
  end.

(* [engine/vg.go:115-144] LvmPoolEngine.DeleteVolume *)
Definition DeleteVolume (pe : LvmPoolEngine) (volName : string) : go W (option error) :=
  r ← lvm_ListLVInVG (pe_VgName pe);
  match r with
  | inr e => mret (Some e)
  | inl volList =>
      if existsb (λ item, bool_decide (LV_Name item = volName)) volList
      then lvm_RemoveLV (pe_VgName pe) volName
      else mret None
  end.

(* [engine/vg.go:245-286] LvmPoolEngine.createSnapshot *)
Definition createSnapshot (pe : LvmPoolEngine) (snapVol originVol : string) (size : Z)
    : go W (option error) :=
  r ← isVolumeExistent (pe_VgName pe) snapVol;
  match r with
  | inr e => mret (Some e)
  | inl (volExists, hasLinearLV, target) =>
      if volExists : bool then
        mret (if decide (LV_SizeByte target ≠ size)
              then Some (ErrNew ("snapshot " +:+ snapVol +:+ " size is " +:+
                     FormatUint (LV_SizeByte target) +:+ ", but want " +:+ FormatUint size))
              else None)
      else if hasLinearLV : bool
      then lvm_CreateSnapshotLinear (pe_VgName pe) snapVol originVol size
      else lvm_CreateSnapshotStripe (pe_VgName pe) snapVol originVol size
  end.

(* [engine/vg.go:146-153] LvmPoolEngine.CreateSnapshot *)
Definition CreateSnapshot (pe : LvmPoolEngine) (req : CreateSnapshotRequest) : go W (option error) :=
  createSnapshot pe (csr_SnapshotName req) (csr_OriginName req) (csr_SizeByte req).

(* [engine/vg.go:288-326] LvmPoolEngine.mergeSnapshot *)
Definition mergeSnapshot (pe : LvmPoolEngine) (snapName : string) : go W (option error) :=
  r ← isVolumeExistent (pe_VgName pe) snapName;
  match r with
  | inr e => mret (Some e)
  | inl (snapVolExist, _, snapVol) =>
      if decide (LV_Origin snapVol = "")
      then mret (Some (ErrNew ("MergeSnapshot failed, " +:+ snapName +:+ " is not a snapshot")))
      else
        r2 ← isVolumeExistent (pe_VgName pe) (LV_Origin snapVol);
        match r2 with
        | inr e => mret (Some e)
        | inl (_, _, originVol) =>
            if decide (LV_LvDeviceOpen originVol = LvDeviceOpen)
            then mret (Some (ErrNew ("MergeSnapshot failed, origin vol (" +:+ LV_Origin snapVol +:+
                         ") of snapshot (" +:+ snapName +:+ ") is opened")))
            else if negb snapVolExist
            then mret (Some (ErrNew ("snap vol " +:+ snapName +:+ " not exists")))
            else lvm_MergeSnapshot (pe_VgName pe) snapName
        end
  end.

(* [engine/vg.go:155-163] LvmPoolEngine.RestoreSnapshot *)
Definition RestoreSnapshot (pe : LvmPoolEngine) (snapshotName : string) : go W (option error) :=
  mergeSnapshot pe snapshotName.

(* [engine/vg.go:165-173] LvmPoolEngine.ExpandVolume *)
Definition ExpandVolume (pe : LvmPoolEngine) (req : ExpandVolumeRequest) : go W (option error) :=
  lvm_ExpandVolume (wrap64 (uwrap64 (evr_TargetSize req - evr_OriginSize req)))
    (vg_lv (pe_VgName pe) (evr_VolName req)).
End engine.

(** ** What the commands do to a volume group *)

(** Sizes are rounded up to whole extents, of every physical volume for a
    striped volume. *)
Definition round_up (z u : Z) : Z := ((z + u - 1) / u * u)%Z.

Class LvmLaws {W} (I : LvmIface W) := {
  ll_view : W → string → list LV;
  ll_extent : string → Z;
  ll_pvs : string → Z;
  ll_list vg w : lvm_ListLVInVG vg w = Ret (inl (ll_view w vg)) w;
  ll_linear vg name size w : ∃ r w',
    lvm_CreateLinearLV vg name {| lo_Size := size; lo_LogicSize := "" |} w = Ret r w' ∧
    match r with
    | inl _ => ∃ lv, LV_Name lv = name ∧ LV_SizeByte lv = round_up size (ll_extent vg) ∧
                 LV_LvLayout lv = LVLayoutLinear ∧ ll_view w' vg = ll_view w vg ++ [lv]
    | inr _ => ll_view w' vg = ll_view w vg
    end;
  ll_stripe vg name size w : ∃ r w',
    lvm_CreateStripeLV vg name size w = Ret r w' ∧
    match r with
    | inl _ => ∃ lv, LV_Name lv = name ∧ LV_SizeByte lv = round_up size (ll_pvs vg * ll_extent vg) ∧
                 LV_LvLayout lv = LVLayoutStriped ∧ ll_view w' vg = ll_view w vg ++ [lv]
    | inr _ => ll_view w' vg = ll_view w vg
    end;
  ll_remove vg name w : ∃ r w',
    lvm_RemoveLV vg name w = Ret r w' ∧
    match r with
    | None => ll_view w' vg = List.filter (λ lv, negb (bool_decide (LV_Name lv = name))) (ll_view w vg)
    | Some _ => ll_view w' vg = ll_view w vg
    end;
  ll_snapshot_linear vg snap origin size w : ∃ r w',
    lvm_CreateSnapshotLinear vg snap origin size w = Ret r w' ∧
    match r with
    | None => ∃ lv, LV_Name lv = snap ∧ LV_Origin lv = origin ∧ ll_view w' vg = ll_view w vg ++ [lv]
    | Some _ => ll_view w' vg = ll_view w vg
    end;
  ll_snapshot_stripe vg snap origin size w : ∃ r w',
    lvm_CreateSnapshotStripe vg snap origin size w = Ret r w' ∧
    match r with
    | None => ∃ lv, LV_Name lv = snap ∧ LV_Origin lv = origin ∧ ll_view w' vg = ll_view w vg ++ [lv]
    | Some _ => ll_view w' vg = ll_view w vg
    end;
  (** A merged snapshot is no longer in the group. *)
  ll_merge vg name w : ∃ r w',
    lvm_MergeSnapshot vg name w = Ret r w' ∧
    match r with
    | None => LV_Name <$> ll_view w' vg =
              List.filter (λ n, negb (bool_decide (n = name))) (LV_Name <$> ll_view w vg)
    | Some _ => ll_view w' vg = ll_view w vg
    end;
}.

Section engine_spec.
Context {W : Type} {I : LvmIface W} {LL : LvmLaws I}.
Implicit Types (pe : LvmPoolEngine) (w : W) (lv : LV).

(** The engine knows its group: the cached extents are the group's, and sizes
    of whole stripes do not overflow. *)
Record engine_wf pe : Prop := {
  ew_pvs : klvm_PVCount (pe_VgCache pe) = ll_pvs (pe_VgName pe);
  ew_extent : klvm_ExtendSize (pe_VgCache pe) = ll_extent (pe_VgName pe);
  ew_pvs_pos : (0 < ll_pvs (pe_VgName pe))%Z;
  ew_extent_pos : (0 < ll_extent (pe_VgName pe))%Z;
  ew_unit : is_uint64 (ll_pvs (pe_VgName pe) * ll_extent (pe_VgName pe));
}.
Definition stripe_unit pe : Z := (ll_pvs (pe_VgName pe) * ll_extent (pe_VgName pe))%Z.

Lemma stripe_unit_pos pe : engine_wf pe → (0 < stripe_unit pe)%Z.
Proof. intros []. unfold stripe_unit. nia. Qed.

Lemma stripe_unit_wrap pe : engine_wf pe →
  uwrap64 (uwrap64 (klvm_PVCount (pe_VgCache pe)) * klvm_ExtendSize (pe_VgCache pe)) = stripe_unit pe.
Proof.
  intros [Hp He Hp0 He0 Hu]. rewrite Hp, He. unfold stripe_unit.
  assert (is_uint64 (ll_pvs (pe_VgName pe))) as Hup by (unfold is_uint64 in *; nia).
  by rewrite (uwrap64_id (ll_pvs _)), uwrap64_id.
Qed.

Lemma stripe_size_spec pe size : engine_wf pe → is_uint64 size →
  stripe_size pe size = (size / stripe_unit pe * stripe_unit pe)%Z.
Proof.
  intros Hwf Hs. pose proof (stripe_unit_pos pe Hwf) as Hpos. unfold stripe_size.
  rewrite decide_True by (rewrite (ew_pvs _ Hwf); pose proof (ew_pvs_pos _ Hwf); lia).
  rewrite stripe_unit_wrap by done. unfold is_uint64 in Hs.
  rewrite Z.quot_div_nonneg by lia. apply uwrap64_id. unfold is_uint64.
  pose proof (Z.mul_div_le size (stripe_unit pe) Hpos).
  pose proof (Z.div_pos size (stripe_unit pe)). nia.
Qed.

Lemma round_up_multiple k u : (0 < u)%Z → round_up (k * u) u = (k * u)%Z.
Proof.
  intros Hu. unfold round_up. replace (k * u + u - 1)%Z with (u - 1 + k * u)%Z by lia.
  rewrite Z.div_add by lia. rewrite (Z.div_small (u - 1) u) by lia. lia.
Qed.

Lemma scan_lvs_found name lvs b :
  match scan_lvs name lvs b with
  | (true, _, lv) => lv ∈ lvs ∧ LV_Name lv = name
  | (false, _, lv) => lv = LV_zero ∧ name ∉ LV_Name <$> lvs
  end.
Proof.
  revert b. induction lvs as [|lv lvs IH]; intros b; cbn [scan_lvs].
  { split; [done|apply not_elem_of_nil]. }
  destruct (decide (LV_Name lv = name)) as [E|E]; [split; [left|done]|].
  specialize (IH (b || bool_decide (LV_LvLayout lv = LVLayoutLinear))).
  destruct (scan_lvs _ _ _) as [[[] l] t].
  - destruct IH. split; [by right|done].
  - destruct IH as [-> H]. split; [done|]. rewrite fmap_cons. by apply not_elem_of_cons.
Qed.

(** A volume appended to a group that had none of its name is the one found. *)
Lemma scan_lvs_appended name lvs lv b : name ∉ LV_Name <$> lvs → LV_Name lv = name →
  ∃ l, scan_lvs name (lvs ++ [lv]) b = (true, l, lv).
Proof.
  intros Hn Hlv. revert b. induction lvs as [|x lvs IH]; intros b; cbn [app scan_lvs].
  - rewrite decide_True by done. eauto.
  - rewrite fmap_cons in Hn. apply not_elem_of_cons in Hn as [Hne Hn].
    rewrite decide_False by done. by apply IH.
Qed.

Lemma isVolumeExistent_run vg name w :
  isVolumeExistent vg name w = Ret (inl (scan_lvs name (ll_view w vg) false)) w.
Proof. unfold isVolumeExistent. go_simpl. by rewrite ll_list. Qed.

(** The volume [create_lv] adds, with the size it ends up with. *)
Definition created_size pe (layout : string) (size : Z) : Z :=
  if decide (layout = LVLayoutLinear) then round_up size (ll_extent (pe_VgName pe))
  else stripe_size pe size.

Lemma create_lv_run pe name size layout w : engine_wf pe → is_uint64 size →
  ∃ err w', create_lv pe name size layout w = Ret err w' ∧
    match err with
    | None => ∃ lv, LV_Name lv = name ∧ LV_SizeByte lv = created_size pe layout size ∧
                ll_view w' (pe_VgName pe) = ll_view w (pe_VgName pe) ++ [lv]
    | Some _ => ll_view w' (pe_VgName pe) = ll_view w (pe_VgName pe)
    end.
Proof.
  intros Hwf Hs. unfold create_lv, created_size.
  destruct (decide (layout = LVLayoutLinear)) as [E|E].
  - destruct (ll_linear (pe_VgName pe) name size w) as (r & w' & Hr & Hw'). go_simpl. rewrite Hr.
    destruct r as [v|e]; eexists _, w'; (split; [reflexivity|]); [|done].
    destruct Hw' as (lv & H1 & H2 & _ & H3). by exists lv.
  - destruct (decide (layout = LVLayoutStriped)) as [E2|E2].
    + rewrite stripe_unit_wrap by done. pose proof (stripe_unit_pos pe Hwf) as Hpos.
      rewrite decide_False by lia.
      destruct (ll_stripe (pe_VgName pe) name (stripe_size pe size) w) as (r & w' & Hr & Hw').
      go_simpl. rewrite Hr. destruct r as [v|e]; eexists _, w'; (split; [reflexivity|]); [|done].
      destruct Hw' as (lv & H1 & H2 & _ & H3). exists lv. split; [done|]. split; [|done].
      rewrite H2, stripe_size_spec by done. by apply round_up_multiple.
    + by eexists _, w.
Qed.

Lemma allocate_run pe name size layout w : engine_wf pe → is_uint64 size →
  ∃ r w', allocate pe name size layout w = Ret r w' ∧
    match r with
    | inl vol => kl_Name vol = name ∧ kl_DevPath vol = "/dev/" +:+ vg_lv (pe_VgName pe) name ∧
        ∃ lv b, scan_lvs name (ll_view w' (pe_VgName pe)) false = (true, b, lv) ∧
          ((w' = w ∧ LV_SizeByte lv = size) ∨
           (name ∉ LV_Name <$> ll_view w (pe_VgName pe) ∧
            LV_SizeByte lv = created_size pe
              (choose_layout (scan_lvs name (ll_view w (pe_VgName pe)) false).1.2 layout) size ∧
            ll_view w' (pe_VgName pe) = ll_view w (pe_VgName pe) ++ [lv]))
    | inr _ => ll_view w' (pe_VgName pe) = ll_view w (pe_VgName pe)
    end.
Proof.
  intros Hwf Hs. unfold allocate. go_simpl. rewrite isVolumeExistent_run.
  pose proof (scan_lvs_found name (ll_view w (pe_VgName pe)) false) as Hscan.
  destruct (scan_lvs name (ll_view w (pe_VgName pe)) false) as [[[] linear] target] eqn:Es.
  - destruct (decide (LV_SizeByte target ≠ size)) as [Hne|Heq].
    + by eexists _, w.
    + apply dec_stable in Heq. eexists _, w. split; [reflexivity|]. split; [done|]. split; [done|].
      exists target, linear. split; [done|]. by left.
  - destruct Hscan as [_ Hn].
    destruct (create_lv_run pe name size (choose_layout linear layout) w Hwf Hs) as (err & w' & Hc & Hw').
    rewrite Hc. destruct err as [e|]; eexists _, w'; (split; [reflexivity|]); [done|].
    destruct Hw' as (lv & Hname & Hsize & Hview). split; [done|]. split; [done|].
    destruct (scan_lvs_appended name (ll_view w (pe_VgName pe)) lv false Hn Hname) as [b Hb].
    exists lv, b. rewrite Hview. split; [done|]. by right.
Qed.

(** A volume that is there is answered by its size alone. *)
Lemma allocate_existing pe name size layout w b lv :
  scan_lvs name (ll_view w (pe_VgName pe)) false = (true, b, lv) →
  (LV_SizeByte lv = size →
     allocate pe name size layout w =
       Ret (inl {| kl_Name := name; kl_DevPath := "/dev/" +:+ vg_lv (pe_VgName pe) name |}) w) ∧
  (LV_SizeByte lv ≠ size → ∃ e, allocate pe name size layout w = Ret (inr e) w).
Proof.
  intros Hs. unfold allocate. go_simpl. rewrite isVolumeExistent_run, Hs. split; intros E.
  - by rewrite decide_False by tauto.
  - rewrite decide_True by done. eauto.
Qed.

(** Allocating is idempotent for sizes of whole stripes: a successful
    allocation leaves a volume of the name with exactly the size asked for, and
    the same request made again succeeds with the same answer and changes
    nothing. *)
Lemma allocate_idempotent pe name size layout w vol w' :
  engine_wf pe → is_uint64 size → (stripe_unit pe | size)%Z →
  allocate pe name size layout w = Ret (inl vol) w' →
  (∃ lv, lv ∈ ll_view w' (pe_VgName pe) ∧ LV_Name lv = name ∧ LV_SizeByte lv = size) ∧
  allocate pe name size layout w' = Ret (inl vol) w'.
Proof.
  intros Hwf Hs [k Hk] Hrun.
  destruct (allocate_run pe name size layout w Hwf Hs) as (r & w1 & Hr & Hspec).
  rewrite Hrun in Hr. injection Hr as <- <-. destruct Hspec as (Hn & Hd & lv & b & Hscan & Hor).
  assert (LV_SizeByte lv = size) as Hsize.
  { destruct Hor as [[_ H]|(_ & -> & _)]; [done|]. unfold created_size.
    pose proof (stripe_unit_pos pe Hwf). case_decide.
    - rewrite Hk. unfold stripe_unit.
      replace (k * (ll_pvs (pe_VgName pe) * ll_extent (pe_VgName pe)))%Z
        with (k * ll_pvs (pe_VgName pe) * ll_extent (pe_VgName pe))%Z by lia.
      apply round_up_multiple, Hwf.
    - rewrite stripe_size_spec by done. rewrite Hk, Z.div_mul by lia. done. }
  pose proof (scan_lvs_found name (ll_view w' (pe_VgName pe)) false) as Hfound. rewrite Hscan in Hfound.
  split; [exists lv; tauto|].
  destruct (allocate_existing pe name size layout w' b lv Hscan) as [He _]. rewrite He by done.
  destruct vol. cbn in *. by subst.
Qed.

(** A striped volume of any other size cannot be allocated twice: the first
    request succeeds with a volume smaller than asked for, because the size is
    rounded down, and the same request made again, as a controller does after a
    failure of a later step, is refused because of that size. *)
Lemma allocate_striped_retry_fails pe name size w vol w' :
  engine_wf pe → is_uint64 size → ¬ (stripe_unit pe | size)%Z →
  name ∉ LV_Name <$> ll_view w (pe_VgName pe) →
  allocate pe name size LVLayoutStriped w = Ret (inl vol) w' →
  (∃ lv, lv ∈ ll_view w' (pe_VgName pe) ∧ LV_Name lv = name ∧ (LV_SizeByte lv < size)%Z) ∧
  ∃ e, allocate pe name size LVLayoutStriped w' = Ret (inr e) w'.
Proof.
  intros Hwf Hs Hdiv Hfree Hrun. pose proof (stripe_unit_pos pe Hwf) as Hpos.
  destruct (allocate_run pe name size LVLayoutStriped w Hwf Hs) as (r & w1 & Hr & Hspec).
  rewrite Hrun in Hr. injection Hr as <- <-. destruct Hspec as (_ & _ & lv & b & Hscan & Hor).
  pose proof (scan_lvs_found name (ll_view w' (pe_VgName pe)) false) as Hfound. rewrite Hscan in Hfound.
  assert (LV_SizeByte lv = size / stripe_unit pe * stripe_unit pe)%Z as Hsize.
  { destruct Hor as [[-> _]|(_ & -> & _)].
    - destruct Hfree, Hfound as [Hin <-]. by apply list_elem_of_fmap_2.
    - by apply stripe_size_spec. }
  assert (LV_SizeByte lv < size)%Z as Hlt.
  { pose proof (Z.mul_div_le size (stripe_unit pe) Hpos).
    assert (LV_SizeByte lv ≠ size) by (intros E; apply Hdiv; exists (size / stripe_unit pe)%Z; lia). lia. }
  split; [exists lv; tauto|].
  apply (allocate_existing pe name size LVLayoutStriped w' b lv Hscan). lia.
Qed.

(** Deleting: the volume is gone and the others stay. *)
Lemma DeleteVolume_spec pe name w :
  ∃ r w', DeleteVolume pe name w = Ret r w' ∧
    match r with
    | None => name ∉ LV_Name <$> ll_view w' (pe_VgName pe) ∧
        ∀ lv, LV_Name lv ≠ name → lv ∈ ll_view w' (pe_VgName pe) ↔ lv ∈ ll_view w (pe_VgName pe)
    | Some _ => ll_view w' (pe_VgName pe) = ll_view w (pe_VgName pe)
    end.
Proof.
  unfold DeleteVolume. go_simpl. rewrite ll_list.
  destruct (existsb _ _) eqn:E.
  - destruct (ll_remove (pe_VgName pe) name w) as (r & w' & Hr & Hw'). exists r, w'. split; [done|].
    destruct r; [done|]. rewrite Hw'. split.
    + intros (lv & Hn & Hin)%list_elem_of_fmap. apply list_elem_of_In, List.filter_In in Hin as [_ Hf].
      apply negb_true_iff, bool_decide_eq_false in Hf. by destruct Hf.
    + intros lv Hne. rewrite !list_elem_of_In, List.filter_In, negb_true_iff, bool_decide_eq_false. tauto.
  - exists None, w. split; [done|]. split; [|done]. intros (lv & Hn & Hin)%list_elem_of_fmap.
    apply not_true_iff_false in E. apply E, existsb_exists. exists lv.
    split; [by apply list_elem_of_In|]. by apply bool_decide_eq_true.
Qed.

(** A snapshot is merged into its origin only when it exists, has an origin,
    and the origin is not in use; otherwise the request is an error and nothing
    is run. *)
Lemma RestoreSnapshot_guarded pe name w :
  let snap := (scan_lvs name (ll_view w (pe_VgName pe)) false).2 in
  let origin := (scan_lvs (LV_Origin snap) (ll_view w (pe_VgName pe)) false).2 in
  (∃ e, RestoreSnapshot pe name w = Ret (Some e) w ∧
     (name ∉ LV_Name <$> ll_view w (pe_VgName pe) ∨ LV_Origin snap = "" ∨
      LV_LvDeviceOpen origin = LvDeviceOpen)) ∨
  (RestoreSnapshot pe name w = lvm_MergeSnapshot (pe_VgName pe) name w ∧
   snap ∈ ll_view w (pe_VgName pe) ∧ LV_Name snap = name ∧ LV_Origin snap ≠ "" ∧
   LV_LvDeviceOpen origin ≠ LvDeviceOpen).
Proof.
  unfold RestoreSnapshot, mergeSnapshot. go_simpl. rewrite isVolumeExistent_run.
  pose proof (scan_lvs_found name (ll_view w (pe_VgName pe)) false) as Hscan.
  destruct (scan_lvs name (ll_view w (pe_VgName pe)) false) as [[found b] snap]. cbn [snd].
  destruct (decide (LV_Origin snap = "")) as [E|E]; [left; eauto|].
  rewrite isVolumeExistent_run.
  destruct (scan_lvs (LV_Origin snap) _ _) as [[found2 b2] origin]. cbn [snd].
  destruct (decide (LV_LvDeviceOpen origin = LvDeviceOpen)) as [Eo|Eo]; [left; eauto 6|].
  destruct found; cbn [negb]; [right; tauto|]. left. destruct Hscan as [_ Hn]. eauto.
Qed.
End engine_spec.

(** ** A group in memory *)

(** Two physical volumes with extents of 4 MiB, without a limit on space. *)
Abbreviation MemGroup := (list LV).
Definition mem_add (name : string) (size : Z) (layout origin : string) : MemGroup → MemGroup := λ g,
  g ++ [{| LV_Name := name; LV_VGName := "vg"; LV_DevPath := "/dev/vg/" +:+ name; LV_SizeByte := size;
           LV_LvLayout := layout; LV_LvAttr := ""; LV_LvDeviceOpen := ""; LV_Origin := origin;
           LV_OriginUUID := ""; LV_OriginSize := "" |}].
#[export] Instance mem_LvmIface : LvmIface MemGroup := {|
  lvm_ListVG := mret (inl []);
  lvm_ListLVInVG _ := λ g, Ret (inl g) g;
  lvm_CreateLinearLV _ name opt := λ g,
    Ret (inl LV_zero) (mem_add name (round_up (lo_Size opt) FourMiB) LVLayoutLinear "" g);
  lvm_CreateStripeLV _ name size := λ g,
    Ret (inl LV_zero) (mem_add name (round_up size (2 * FourMiB)) LVLayoutStriped "" g);
  lvm_RemoveLV _ name := λ g,
    Ret None (List.filter (λ lv, negb (bool_decide (LV_Name lv = name))) g);
  lvm_ExpandVolume _ _ := mret None;
  lvm_CreateSnapshotLinear _ snap origin size := λ g,
    Ret None (mem_add snap (round_up size FourMiB) LVLayoutLinear origin g);
  lvm_CreateSnapshotStripe _ snap origin size := λ g,
    Ret None (mem_add snap (round_up size (2 * FourMiB)) LVLayoutStriped origin g);
  lvm_MergeSnapshot _ snap := λ g,
    Ret None (List.filter (λ lv, negb (bool_decide (LV_Name lv = snap))) g);
|}.

#[export] Instance mem_LvmLaws : LvmLaws mem_LvmIface.
Proof.
  refine {| ll_view := λ (g : MemGroup) _, g; ll_extent := λ _, FourMiB; ll_pvs := λ _, 2%Z |}; cbn.
  - done.
  - intros. eexists _, _. split; [reflexivity|]. eexists. split_and!; [| | |reflexivity]; reflexivity.
  - intros. eexists _, _. split; [reflexivity|]. eexists. split_and!; [| | |reflexivity]; reflexivity.
  - intros. by eexists _, _.
  - intros. eexists _, _. split; [reflexivity|]. eexists. split_and!; [| |reflexivity]; reflexivity.
  - intros. eexists _, _. split; [reflexivity|]. eexists. split_and!; [| |reflexivity]; reflexivity.
  - intros vg name g. eexists _, _. split; [reflexivity|]. cbn. induction g as [|lv g IH]; [done|].
    cbn. destruct (decide (LV_Name lv = name)) as [E|E].
    + rewrite !bool_decide_true by done. exact IH.
    + rewrite !bool_decide_false by done. cbn. by f_equal.
Defined.

Definition ex_engine : LvmPoolEngine :=
  {| pe_VgName := "vg";
     pe_VgCache := {| klvm_Name := "vg"; klvm_VgUUID := "u"; klvm_Bytes := 100 * GiB;
       klvm_ExtendSize := FourMiB; klvm_ExtendCount := 25600; klvm_PVCount := 2;
       klvm_ReservedLVol := [] |} |}.
Lemma ex_engine_wf : engine_wf ex_engine.
Proof. by split. Qed.

Lemma allocate_idempotent_witness :
  ∃ vol w', allocate ex_engine "v" (8 * MiB) "" ([] : MemGroup) = Ret (inl vol) w' ∧
            allocate ex_engine "v" (8 * MiB) "" w' = Ret (inl vol) w'.
Proof.
  eexists _, _. split; [reflexivity|].
  eapply (allocate_idempotent ex_engine "v" (8 * MiB) "" []).
  - apply ex_engine_wf.
  - vm_compute. split; [discriminate|reflexivity].
  - exists 1%Z. reflexivity.
  - reflexivity.
Defined.

Lemma allocate_striped_retry_fails_witness :
  ∃ vol w' e, allocate ex_engine "v" (9 * MiB) LVLayoutStriped ([] : MemGroup) = Ret (inl vol) w' ∧
              allocate ex_engine "v" (9 * MiB) LVLayoutStriped w' = Ret (inr e) w'.
Proof.
  edestruct (allocate_striped_retry_fails ex_engine "v" (9 * MiB) []) as [_ [e He]].
  - apply ex_engine_wf.
  - vm_compute. split; [discriminate|reflexivity].
  - intros [k Hk]. change (stripe_unit ex_engine) with 8388608%Z in Hk.
    change (9 * MiB)%Z with 9437184%Z in Hk. lia.
  - apply not_elem_of_nil.
  - reflexivity.
  - eexists _, _, e. split; [reflexivity|exact He].
Defined.

Definition ex_group : MemGroup := mem_add "s" FourMiB LVLayoutLinear "v" (mem_add "v" FourMiB LVLayoutLinear "" []).
Lemma RestoreSnapshot_guarded_witness :
  RestoreSnapshot ex_engine "s" ex_group = lvm_MergeSnapshot "vg" "s" ex_group.
Proof.
  destruct (RestoreSnapshot_guarded ex_engine "s" ex_group) as [(e & _ & H)|[H _]]; [|exact H].
  exfalso. destruct H as [H|[H|H]]; [|discriminate H..].
  apply H. right. left.
Defined.
