(* ===== verification/Engine.v ===== *)
(** * Pool engines

    [PoolEngineIface] of [pkg/agent/pool/engine/service.go] as a class, what it
    promises to the agent's loops ([EngineLaws]), and its two implementations:
    the volume group of [LvmEngine.v] and the lvstore of [engine/lvs.go]. Both
    are proved to keep the promise. *)

From Stdlib Require Import ZArith Lia.
From stdpp Require Import base gmap strings option list.
From S2P Require Import Prelude Strconv Misc K8s Api Spdk SpdkBdev Lvm LvmEngine.

(* [engine/service.go:7-24] PoolEngineIface *)
Class PoolEngineIface (S : Type) := {
  pei_PoolInfo : string → go S (StaticInfo * option error);
  pei_TotalAndFreeSize : go S (result (Z * Z));
  pei_CreateVolume : CreateVolumeRequest → go S (result CreateVolumeResponse);
  pei_DeleteVolume : string → go S (option error);
  pei_GetVolume : string → go S (result VolumeInfo);
  pei_CreateSnapshot : CreateSnapshotRequest → go S (option error);
  pei_RestoreSnapshot : string → go S (option error);
  pei_ExpandVolume : ExpandVolumeRequest → go S (option error);
}.

(** ** The lvstore engine *)

Section lvs.
Context {N : Type} {RPC : SpdkRpc N} {BR : BdevRpc N}.
Abbreviation SM := (@SpdkM N).
(* [engine/lvs.go:12-17] SpdkLvsPoolEngine.LvsName *)
Variable LvsName : string.

(* [engine/lvs.go:27-46] SpdkLvsPoolEngine.PoolInfo *)
Definition lvs_PoolInfo (lvsName : string) : SM (StaticInfo * option error) :=
  '(lvs, err) ← GetLVStore lvsName;
  mret match err with
       | Some e => ({| si_LVM := None; si_LVS := None |}, Some e)
       | None =>
           ({| si_LVM := None;
               si_LVS := Some {| lvst_Name := lvsi_Name lvs; lvst_UUID := lvsi_UUID lvs;
                 lvst_BaseBdev := lvsi_BaseBdev lvs;
                 lvst_Bytes := uwrap64 (wrap64 (lvsi_ClusterSize lvs * lvsi_TotalDataClusters lvs));
                 lvst_ClusterSize := lvsi_ClusterSize lvs;
                 lvst_TotalDataCluster := lvsi_TotalDataClusters lvs;
                 lvst_BlockSize := lvsi_BlockSize lvs |} |}, None)
       end.

(* [engine/lvs.go:48-58] SpdkLvsPoolEngine.TotalAndFreeSize *)
Definition lvs_TotalAndFreeSize : SM (result (Z * Z)) :=
  '(lvs, err) ← GetLVStore LvsName;
  mret match err with
       | Some e => inr e
       | None => inl (uwrap64 (wrap64 (lvsi_ClusterSize lvs * lvsi_TotalDataClusters lvs)),
                      uwrap64 (wrap64 (lvsi_ClusterSize lvs * lvsi_FreeClusters lvs)))
       end.

(* [engine/lvs.go:60-72] SpdkLvsPoolEngine.CreateVolume *)
Definition lvs_CreateVolume (req : CreateVolumeRequest) : SM (result CreateVolumeResponse) :=
  '(uuid, err) ← CreateLvol {| cl_LVStore := LvsName; cl_LvolName := cvr_VolName req;
                              cl_SizeByte := wrap64 (cvr_SizeByte req) |};
  mret match err with
       | Some e => inr e
       | None => inl {| cvp_UUID := uuid; cvp_DevPath := "" |}
       end.

(* [engine/lvs.go:74-85] SpdkLvsPoolEngine.DeleteVolume *)
Definition lvs_DeleteVolume (volName : string) : SM (option error) := DeleteLvol LvsName volName.

(* [engine/lvs.go:87-113] SpdkLvsPoolEngine.GetVolume *)
Definition lvs_GetVolume (volName : string) : SM (result VolumeInfo) :=
  r ← svc_BdevGetBdevs (LvsName +:+ "/" +:+ volName);
  mret match r with
       | inr e => inr e
       | inl [] => inl VolumeInfo_zero
       | inl (b :: _) =>
           inl {| vinf_Type := VolumeTypeSpdkLVol; vinf_LvmLV := None;
                  vinf_SpdkLvol := Some {|
                    slb_Lvol := {| sl_Name := volName; sl_LvsName := LvsName; sl_Thin := false |};
                    slb_SizeByte := uwrap64 (wrap64 (bdev_BlockSize b * bdev_NumBlocks b)) |} |}
       end.

(* [engine/lvs.go:115-125] SpdkLvsPoolEngine.CreateSnapshot *)
Definition lvs_CreateSnapshot (req : CreateSnapshotRequest) : SM (option error) :=
  '(_, err) ← CreateLvolSnapshot {| cls_LvolFullName := csr_OriginName req;
                                    cls_SnapName := csr_SnapshotName req |};
  mret err.

(* [engine/lvs.go:127-130] SpdkLvsPoolEngine.RestoreSnapshot *)
Definition lvs_RestoreSnapshot (snapshotName : string) : SM (option error) :=
  mret (Some (ErrNew "SPDK LVS not support RestoreSnapshot")).

(* [engine/lvs.go:132-143] SpdkLvsPoolEngine.ExpandVolume *)
Definition lvs_ExpandVolume (req : ExpandVolumeRequest) : SM (option error) :=
  ResizeLvol {| rlr_LvolFullName := evr_VolName req; rlr_TargetSize := evr_TargetSize req |}.

Definition lvs_engine : PoolEngineIface (SpdkService * N) := {|
  pei_PoolInfo := lvs_PoolInfo;
  pei_TotalAndFreeSize := lvs_TotalAndFreeSize;
  pei_CreateVolume := lvs_CreateVolume;
  pei_DeleteVolume := lvs_DeleteVolume;
  pei_GetVolume := lvs_GetVolume;
  pei_CreateSnapshot := lvs_CreateSnapshot;
  pei_RestoreSnapshot := lvs_RestoreSnapshot;
  pei_ExpandVolume := lvs_ExpandVolume;
|}.
End lvs.

(** ** The volume group engine behind the interface

    The cache [PoolInfo] refreshes is a parameter: the group does not change
    while the agent runs. *)
Definition lvm_engine {N} {I : LvmIface N} {F : Formatter N} (pe : LvmPoolEngine) :
    PoolEngineIface (SpdkService * N) := {|
  pei_PoolInfo name := '(info, err, _) ← on_snd (PoolInfo name pe); mret (info, err);
  pei_TotalAndFreeSize := on_snd (TotalAndFreeSize pe);
  pei_CreateVolume req := on_snd (CreateVolume pe req);
  pei_DeleteVolume name := on_snd (DeleteVolume pe name);
  pei_GetVolume name := on_snd (GetVolume pe name);
  pei_CreateSnapshot req := on_snd (CreateSnapshot pe req);
  pei_RestoreSnapshot name := on_snd (RestoreSnapshot pe name);
  pei_ExpandVolume req := on_snd (ExpandVolume pe req);
|}.

(** ** What an engine promises *)

Definition svc_wf {N} (st : SpdkService * N) : Prop := alloc_wf (ss_idAlloc st.1).

(** Creating and deleting return, concern no other volume, and after a success
    the volume is there, or gone; looking a volume up changes nothing. *)
Class EngineLaws {N} (E : PoolEngineIface (SpdkService * N)) := {
  has_volume : N → string → Prop;
  el_create req st : svc_wf st → is_uint64 (cvr_SizeByte req) →
    ∃ r st', pei_CreateVolume req st = Ret r st' ∧ svc_wf st' ∧
      (∀ n, n ≠ cvr_VolName req → has_volume st'.2 n ↔ has_volume st.2 n) ∧
      match r with inl _ => has_volume st'.2 (cvr_VolName req) | inr _ => True end;
  el_delete name st : svc_wf st →
    ∃ e st', pei_DeleteVolume name st = Ret e st' ∧ svc_wf st' ∧
      (∀ n, n ≠ name → has_volume st'.2 n ↔ has_volume st.2 n) ∧
      (e = None → ¬ has_volume st'.2 name);
}.

(** The same for snapshots, [es_origin] being the name of the origin in a request:
    merging one takes it away, and there is nothing to merge when it is not
    there. *)
Class SnapshotLaws {N} (E : PoolEngineIface (SpdkService * N)) (HE : EngineLaws E) := {
  es_origin : string → string;
  es_create snap vol size st : svc_wf st →
    ∃ e st', pei_CreateSnapshot {| csr_SnapshotName := snap; csr_OriginName := es_origin vol; csr_SizeByte := size |} st =
      Ret e st' ∧ svc_wf st' ∧
      (∀ n, n ≠ snap → has_volume st'.2 n ↔ has_volume st.2 n) ∧ (e = None → has_volume st'.2 snap);
  es_restore snap st : svc_wf st →
    ∃ e st', pei_RestoreSnapshot snap st = Ret e st' ∧ svc_wf st' ∧
      (∀ n, n ≠ snap → has_volume st'.2 n ↔ has_volume st.2 n) ∧
      (e = None → has_volume st.2 snap ∧ ¬ has_volume st'.2 snap) ∧
      (¬ has_volume st.2 snap → is_Some e ∧ st' = st);
}.

Lemma append_inj_r (a b c : string) : a +:+ b = a +:+ c → b = c.
Proof. induction a as [|x a IH]; [done|]. intros H. apply IH. by injection H. Qed.

Lemma with_slash_inj lvs a b : lvs +:+ "/" +:+ a = lvs +:+ "/" +:+ b → a = b.
Proof. intros H%append_inj_r. by injection H. Qed.

Section lvs_laws.
Context {N : Type} {RPC : SpdkRpc N} {BR : BdevRpc N} {OS : OsFiles N}.
Context {HR : SpdkRpcLaws RPC} {HB : BdevLaws RPC BR OS}.
Implicit Types (st : SpdkService * N) (n : N).

(** The lvstore engine keeps its promise: a volume is there when its block device
    is. *)
#[export] Instance lvs_laws (lvs : string) : EngineLaws (lvs_engine lvs).
Proof.
  refine {| has_volume := λ n name, listed n (lvs +:+ "/" +:+ name) = true |}.
  - intros req [svc n] Hwf _.
    destruct (CreateLvol_ensures {| cl_LVStore := lvs; cl_LvolName := cvr_VolName req;
      cl_SizeByte := wrap64 (cvr_SizeByte req) |} svc n Hwf I) as ([u e] & svc' & n' & Hr & Hwf' & Hm).
    pose proof (moves_done _ _ _ _ _ Hm) as Hd. destruct Hm as [_ Ho _ _]. cbn [snd cl_LVStore cl_LvolName CreateLvolReq_BdevName] in *.
    cbn [pei_CreateVolume lvs_engine]. unfold lvs_CreateVolume.
    rewrite (go_bind_Ret _ _ _ _ _ Hr). do 2 eexists. split; [reflexivity|]. split; [exact Hwf'|]. split.
    + intros m Hne. unfold listed. cbn [snd]. rewrite Ho; [done|]. intros H%with_slash_inj. done.
    + destruct e; [done|]. by apply Hd.
  - intros name [svc n] Hwf.
    destruct (DeleteLvol_ensures lvs name svc n Hwf I) as (e & svc' & n' & Hr & Hwf' & Hm).
    pose proof (moves_done _ _ _ _ _ Hm) as Hd. destruct Hm as [_ Ho _ _]. unfold DeleteLvolReq_BdevName in *.
    exists e, (svc', n'). split; [exact Hr|]. split; [exact Hwf'|]. cbn [snd]. split.
    + intros m Hne. unfold listed. rewrite Ho; [done|]. by intros H%with_slash_inj.
    + intros He. cbn in Hd. by rewrite (Hd He).
Defined.

(** A store name has no slash. *)
Definition lvs_snapshot_laws (lvs : string) : split_slash lvs = None →
  SnapshotLaws (lvs_engine lvs) (lvs_laws lvs).
Proof.
  intros Hs. refine {| es_origin := λ v, lvs +:+ "/" +:+ v |}.
  - intros snap vol size [svc n] Hwf. cbn [pei_CreateSnapshot lvs_engine].
    unfold lvs_CreateSnapshot. cbn [csr_SnapshotName csr_OriginName].
    destruct (CreateLvolSnapshot_ensures {| cls_LvolFullName := lvs +:+ "/" +:+ vol; cls_SnapName := snap |}
      (slashed_ne _ _) svc n Hwf I) as ([u e] & svc' & n' & Hr & Hwf' & Hm).
    pose proof (moves_done _ _ _ _ _ Hm) as Hd. destruct Hm as [_ Ho _ _].
    rewrite (go_bind_Ret _ _ _ _ _ Hr). exists e, (svc', n'). split; [reflexivity|]. split; [exact Hwf'|].
    cbn [cls_LvolFullName cls_SnapName] in *. unfold parseLvolFullName in *. rewrite (split_slash_app _ _ Hs) in *.
    cbn [fst snd] in *. split; [|exact Hd].
    intros m Hne. cbn. unfold listed. rewrite Ho; [done|]. by intros H%with_slash_inj.
  - intros snap [svc n] Hwf. eexists _, (svc, n). split; [reflexivity|]. split; [exact Hwf|].
    split; [done|]. split; [done|]. intros _. split; [by eexists|done].
Defined.
End lvs_laws.

Section lvm_laws.
Context {N : Type} {I : LvmIface N} {F : Formatter N} {LL : LvmLaws I}.
Implicit Types (pe : LvmPoolEngine) (st : SpdkService * N) (n : N).

Definition in_group pe n (name : string) : Prop := name ∈ LV_Name <$> ll_view n (pe_VgName pe).

Lemma in_group_app pe n n' lv name :
  ll_view n' (pe_VgName pe) = ll_view n (pe_VgName pe) ++ [lv] → name ≠ LV_Name lv →
  in_group pe n' name ↔ in_group pe n name.
Proof.
  unfold in_group. intros -> Hne. rewrite fmap_app, elem_of_app. cbn.
  rewrite list_elem_of_singleton. tauto.
Qed.

(** So does the volume group's, when mkfs returns and leaves the group alone. *)
Definition lvm_laws pe :
  engine_wf pe →
  (∀ dev fs n, ∃ e n', SafeFormat dev fs n = Ret e n' ∧ ll_view n' (pe_VgName pe) = ll_view n (pe_VgName pe)) →
  EngineLaws (lvm_engine pe).
Proof.
  intros Hpe Hfmt. refine {| has_volume := in_group pe |}.
  - intros req [svc n] Hwf Hsz. cbn [pei_CreateVolume lvm_engine]. unfold on_snd. cbn [fst snd].
    unfold CreateVolume.
    destruct (allocate_run pe (cvr_VolName req) (cvr_SizeByte req) (cvr_LvLayout req) n Hpe Hsz)
      as (r & n1 & Hr & Hspec). rewrite (go_bind_Ret _ _ _ _ _ Hr).
    destruct r as [vol|e].
    2:{ do 2 eexists. split; [reflexivity|]. split; [exact Hwf|]. unfold in_group. cbn [snd]. by rewrite Hspec. }
    destruct Hspec as (_ & _ & lv & b & Hscan & Hor).
    pose proof (scan_lvs_found (cvr_VolName req) (ll_view n1 (pe_VgName pe)) false) as Hf.
    rewrite Hscan in Hf. destruct Hf as [Hin Hname].
    assert (∀ m, m ≠ cvr_VolName req → in_group pe n1 m ↔ in_group pe n m) as Hoth.
    { intros m Hne. destruct Hor as [[-> _]|(_ & _ & Hv)]; [done|].
      eapply in_group_app; [exact Hv|congruence]. }
    assert (∃ e n2, (if decide (cvr_FsType req ≠ "") then SafeFormat (kl_DevPath vol) (cvr_FsType req)
                     else mret None) n1 = Ret e n2 ∧
              ll_view n2 (pe_VgName pe) = ll_view n1 (pe_VgName pe)) as (e & n2 & H2 & Hv2).
    { destruct (decide _); [apply Hfmt|]. by exists None, n1. }
    rewrite (go_bind_Ret _ _ _ _ _ H2).
    do 2 eexists. split; [reflexivity|]. split; [exact Hwf|]. unfold in_group in *. cbn [snd].
    rewrite Hv2. split; [exact Hoth|]. destruct e; [done|].
    rewrite <- Hname. by apply list_elem_of_fmap_2.
  - intros name [svc n] Hwf. cbn [pei_DeleteVolume lvm_engine]. unfold on_snd. cbn [fst snd].
    destruct (DeleteVolume_spec pe name n) as (e & n' & -> & Hspec).
    do 2 eexists. split; [reflexivity|]. split; [exact Hwf|]. cbn [snd]. unfold in_group.
    destruct e as [e|]; [by rewrite Hspec|]. destruct Hspec as [Hgone Hoth]. split; [|done].
    intros m Hne. rewrite !list_elem_of_fmap. split; intros (lv & -> & Hlv); exists lv; (split; [done|]).
    + by apply Hoth.
    + by apply Hoth.
Defined.

Definition lvm_snapshot_laws pe (HE : EngineLaws (lvm_engine pe)) :
  (∀ n name, has_volume (EngineLaws := HE) n name ↔ in_group pe n name) → SnapshotLaws (lvm_engine pe) HE.
Proof.
  intros Hhas. refine {| es_origin := id |}.
  - intros snap vol size [svc n] Hwf. cbn [pei_CreateSnapshot lvm_engine]. unfold on_snd. cbn [fst snd].
    unfold CreateSnapshot, createSnapshot. cbn [csr_SnapshotName csr_OriginName csr_SizeByte]. go_simpl.
    rewrite isVolumeExistent_run.
    pose proof (scan_lvs_found snap (ll_view n (pe_VgName pe)) false) as Hf.
    destruct (scan_lvs _ _ _) as [[[] linear] target].
    + eexists _, (svc, n). split; [reflexivity|]. split; [exact Hwf|]. split; [done|]. intros _.
      apply Hhas. destruct Hf as [Hin <-]. by apply list_elem_of_fmap_2.
    + assert (∃ r w', (if linear : bool then lvm_CreateSnapshotLinear (pe_VgName pe) snap (id vol) size
                        else lvm_CreateSnapshotStripe (pe_VgName pe) snap (id vol) size) n = Ret r w' ∧
        match r with
        | None => ∃ lv, LV_Name lv = snap ∧ LV_Origin lv = id vol ∧
                    ll_view w' (pe_VgName pe) = ll_view n (pe_VgName pe) ++ [lv]
        | Some _ => ll_view w' (pe_VgName pe) = ll_view n (pe_VgName pe)
        end) as (r & w' & -> & Hr) by (destruct linear; [apply ll_snapshot_linear|apply ll_snapshot_stripe]).
      exists r, (svc, w'). split; [reflexivity|]. split; [exact Hwf|]. cbn [snd].
      destruct r as [e|].
      { split; [|done]. intros m _. rewrite !Hhas. unfold in_group. by rewrite Hr. }
      destruct Hr as (lv & Hn & _ & Hv). split.
      * intros m Hne. rewrite !Hhas. eapply in_group_app; [exact Hv|congruence].
      * intros _. apply Hhas. unfold in_group. rewrite Hv, fmap_app, elem_of_app. right.
        cbn. rewrite Hn. by left.
  - intros snap [svc n] Hwf. cbn [pei_RestoreSnapshot lvm_engine]. unfold on_snd. cbn [fst snd].
    unfold RestoreSnapshot, mergeSnapshot. go_simpl. rewrite isVolumeExistent_run.
    pose proof (scan_lvs_found snap (ll_view n (pe_VgName pe)) false) as Hf.
    destruct (scan_lvs snap _ _) as [[found b] lv].
    assert (∀ e : error, ∃ (e0 : option error) (st' : SpdkService * N), Ret (Some e) (svc, n) = Ret e0 st' ∧ svc_wf st' ∧
      (∀ m, m ≠ snap → has_volume (EngineLaws := HE) st'.2 m ↔ has_volume (EngineLaws := HE) n m) ∧
      (e0 = None → has_volume (EngineLaws := HE) n snap ∧ ¬ has_volume (EngineLaws := HE) st'.2 snap) ∧
      (¬ has_volume (EngineLaws := HE) n snap → is_Some e0 ∧ st' = (svc, n))) as Herr.
    { intros e. eexists _, (svc, n). split; [reflexivity|]. split; [exact Hwf|].
      split; [done|]. split; [done|]. intros _. split; [by eexists|done]. }
    destruct (decide (LV_Origin lv = "")) as [Eo|Eo]; [apply Herr|].
    rewrite isVolumeExistent_run. destruct (scan_lvs (LV_Origin lv) _ _) as [[f2 b2] origin].
    destruct (decide _) as [_|_]; [apply Herr|]. destruct found; cbn [negb]; [|apply Herr].
    destruct Hf as [Hin Hname].
    assert (has_volume (EngineLaws := HE) n snap) as Hthere by (apply Hhas; rewrite <- Hname; by apply list_elem_of_fmap_2).
    destruct (ll_merge (pe_VgName pe) snap n) as (r & w' & -> & Hr).
    exists r, (svc, w'). split; [reflexivity|]. split; [exact Hwf|]. cbn [snd]. destruct r as [e|].
    + split; [|done]. intros m _. rewrite !Hhas. unfold in_group. by rewrite Hr.
    + assert (∀ m, in_group pe w' m ↔ in_group pe n m ∧ m ≠ snap) as Hm.
      { intros m. unfold in_group. rewrite Hr, !list_elem_of_In, List.filter_In, negb_true_iff.
        by rewrite bool_decide_eq_false. }
      split; [|split; [|done]].
      * intros m Hne. rewrite !Hhas, Hm. tauto.
      * intros _. split; [done|]. rewrite Hhas, Hm. tauto.
Defined.
End lvm_laws.
