(* ===== verification/Access.v ===== *)
(** * Exposing a volume

    [pkg/agent/pool/access.go]: a volume is exposed by turning its device into a
    block device of SPDK and a target over it, and hidden by removing both. *)

From Stdlib Require Import ZArith Lia.
From stdpp Require Import base gmap strings option list.
From S2P Require Import Prelude Strconv Misc Spdk SpdkBdev Engine.

(* [pool/access.go:23-28] AioVolume *)
Record AioVolume := { aio_DevPath : string; aio_BdevName : string }.
(* [pool/access.go:30-33] SpdkLVolume *)
Record SpdkLVolume := { slv_LvsName : string; slv_LvolName : string }.
(* [pool/access.go:14-21] Access *)
Record Access := {
  ac_AIO : option AioVolume;
  ac_LVol : option SpdkLVolume;
  ac_OpenAccess : Target;
  ac_AllowHostNQN : list string;
}.

Section access.
Context {N : Type} {RPC : SpdkRpc N} {BR : BdevRpc N} {OS : OsFiles N}.
Abbreviation SM := (@SpdkM N).

(** The block device of the volume. *)
Definition bdev_of (a : Access) : string :=
  match ac_LVol a, ac_AIO a with
  | Some l, _ => slv_LvsName l +:+ "/" +:+ slv_LvolName l
  | None, Some aio => aio_BdevName aio
  | None, None => ""
  end.

(** The socket directory of a local VFIOUSER volume. *)
Definition socket_dir (tgt : Target) : SM (option error) :=
  if decide (t_TransType tgt = TransportTypeVFIOUSER) then
    '(there, err) ← rpc (FileExists (t_TransAddr tgt));
    match err with
    | Some e => mret (Some e)
    | None => if there : bool then mret None else rpc (os_MkdirAll (t_TransAddr tgt))
    end
  else mret None.

(** Hosts that are not allowed yet are added, up to the first error. *)
Fixpoint allow_hosts (nqn : string) (allowed : MapSet.t) (hosts : list string) : SM (option error) :=
  match hosts with
  | [] => mret None
  | item :: rest =>
      if MapSet.Contains allowed item then allow_hosts nqn allowed rest
      else
        e ← SubsysAddHost nqn item;
        match e with Some e => mret (Some e) | None => allow_hosts nqn allowed rest end
  end.

(* [pool/access.go:50-129] SpdkAccess.ExposeAccess *)
Definition ExposeAccess (a : Access) : SM (Target * option error) :=
  err ← match ac_AIO a with
        | Some aio => CreateAioBdev {| abc_BdevName := aio_BdevName aio; abc_DevPath := aio_DevPath aio;
                                       abc_BlockSize := 0 |}
        | None => mret None
        end;
  match err with
  | Some e => mret (Target_zero, Some e)
  | None =>
      err ← socket_dir (ac_OpenAccess a);
      match err with
      | Some e => mret (Target_zero, Some e)
      | None =>
          '(resp, err) ← CreateTarget {| tcr_BdevName := bdev_of a; tcr_TargetInfo := ac_OpenAccess a |};
          match err with
          | Some e => mret (Target_zero, Some e)
          | None =>
              let tgt := {| t_NQN := t_NQN resp; t_SerialNumber := ""; t_NSUUID := ""; t_TransAddr := "";
                            t_TransType := ""; t_SvcID := t_SvcID resp; t_AddrFam := "" |} in
              r ← GetSubsystemByNQN (t_NQN resp);
              match r with
              | inr e => mret (tgt, Some e)
              | inl subsys =>
                  err ← allow_hosts (t_NQN resp) (foldl MapSet.Add MapSet.NewEmptySet (sub_Hosts subsys))
                          (ac_AllowHostNQN a);
                  mret (tgt, err)
              end
          end
      end
  end.

(** The socket directory goes with the access; an unreadable one is left. *)
Definition clear_socket (tgt : Target) : SM (option error) :=
  if decide (t_TransType tgt = TransportTypeVFIOUSER) then
    '(has, _) ← rpc (FileExists (t_TransAddr tgt));
    if has : bool then
      e ← rpc (os_RemoveAll (t_TransAddr tgt));
      mret (ErrWrap ("delete directory " +:+ t_TransAddr tgt +:+ " failed, ") <$> e)
    else mret None
  else mret None.

(* [pool/access.go:131-168] SpdkAccess.RemoveAccces *)
Definition RemoveAccces (a : Access) : SM (option error) :=
  err ← (if decide (t_NQN (ac_OpenAccess a) ≠ "") then DeleteTarget (t_NQN (ac_OpenAccess a)) else mret None);
  match err with
  | Some e => mret (Some e)
  | None =>
      err ← clear_socket (ac_OpenAccess a);
      match err with
      | Some e => mret (Some e)
      | None => match ac_AIO a with
                | Some aio => DeleteAioBdev (aio_BdevName aio)
                | None => mret None
                end
      end
  end.
End access.

(** ** What access promises *)

(** A target of that name that allows these hosts. *)
Definition hosted (nqn : string) (hosts : list string) (l : list Subsystem) : Prop :=
  ∃ s, s ∈ l ∧ sub_NQN s = nqn ∧ ∀ h, h ∈ hosts → h ∈ sub_Hosts s.

Section access_spec.
Context {N : Type} {RPC : SpdkRpc N} {BR : BdevRpc N} {OS : OsFiles N}.
Context {HR : SpdkRpcLaws RPC} {HB : BdevLaws RPC BR OS}.
Implicit Types (svc : SpdkService) (n : N) (a : Access).

Lemma complete_add_host nqn nqn' h l : complete nqn l → complete nqn (add_to nqn' (with_host h) l).
Proof.
  intros (s & Hs & Hn & H1 & H2). destruct (decide (sub_NQN s = nqn')) as [E|E].
  - exists (with_host h s). split; [by apply elem_of_add_to|done].
  - exists s. split; [|done]. unfold add_to. apply list_elem_of_fmap. exists s. by rewrite decide_False.
Qed.

Lemma hosted_add_host nqn h hosts l :
  hosted nqn hosts l → hosted nqn (h :: hosts) (add_to nqn (with_host h) l).
Proof.
  intros (s & Hs & Hn & Hh). exists (with_host h s).
  split; [by apply elem_of_add_to|]. split; [done|]. intros x. cbn.
  rewrite elem_of_cons, elem_of_app, list_elem_of_singleton. naive_solver.
Qed.

Lemma hosted_weaken nqn hosts hosts' l :
  (∀ h, h ∈ hosts' → h ∈ hosts) → hosted nqn hosts l → hosted nqn hosts' l.
Proof. intros Hsub (s & Hs & Hn & Hh). exists s. eauto. Qed.

Lemma SubsysAddHost_run nqn h svc n : alloc_wf (ss_idAlloc svc) →
  ∃ e svc' n', SubsysAddHost nqn h (svc, n) = Ret e (svc', n') ∧ alloc_wf (ss_idAlloc svc') ∧
    subs n' = match e with None => add_to nqn (with_host h) (subs n) | Some _ => subs n end.
Proof.
  intros Hwf. unfold SubsysAddHost.
  destruct (client_run svc n Hwf) as (e & svc1 & n1 & Hc & Hs & _ & Hw & _).
  rewrite (go_bind_Ret _ _ _ _ _ Hc). destruct e as [e|]; [by exists (Some e), svc1, n1|].
  destruct (law_add_host nqn h n1) as (r & n2 & Hr & Hn2).
  rewrite (go_bind_Ret _ _ _ _ _ (rpc_run _ svc1 _ _ _ Hr)). rewrite Hs in Hn2.
  destruct r as [[]|e]; do 3 eexists; (split; [reflexivity|]); by split.
Qed.

Lemma GetSubsystemByNQN_run nqn svc n : alloc_wf (ss_idAlloc svc) →
  ∃ r svc' n', GetSubsystemByNQN nqn (svc, n) = Ret r (svc', n') ∧ alloc_wf (ss_idAlloc svc') ∧
    subs n' = subs n ∧ match r with inl s => s ∈ subs n ∧ sub_NQN s = nqn | inr _ => True end.
Proof.
  intros Hwf. unfold GetSubsystemByNQN.
  destruct (client_run svc n Hwf) as (e & svc1 & n1 & Hc & Hs & _ & Hw & _).
  rewrite (go_bind_Ret _ _ _ _ _ Hc). destruct e as [e|]; [by exists (inr e), svc1, n1|].
  destruct (law_get n1) as (r & n2 & Hr & Hs2 & Hl).
  rewrite (go_bind_Ret _ _ _ _ _ (rpc_run _ svc1 _ _ _ Hr)).
  do 3 eexists. split; [reflexivity|]. split; [done|]. split; [congruence|].
  destruct r as [l|e]; [|done]. assert (l = subs n) as -> by congruence. clear.
  induction (subs n) as [|s l IH] using rev_ind; [done|].
  rewrite foldl_app. cbn. destruct (decide (nqn = sub_NQN s)) as [->|_].
  { split; [|done]. apply elem_of_app. right. by left. }
  destruct (foldl _ None l) as [s'|]; [|done]. destruct IH as [Hin ?]. split; [|done].
  apply elem_of_app. by left.
Qed.

Lemma allow_hosts_run nqn hosts : ∀ allowed svc n, alloc_wf (ss_idAlloc svc) →
  ∃ e svc' n', allow_hosts nqn allowed hosts (svc, n) = Ret e (svc', n') ∧ alloc_wf (ss_idAlloc svc') ∧
    others nqn (subs n') = others nqn (subs n) ∧
    (complete nqn (subs n) → complete nqn (subs n')) ∧
    (e = None → ∀ base, (∀ h, h ∈ allowed → h ∈ base) → hosted nqn base (subs n) →
     hosted nqn (base ++ hosts) (subs n')).
Proof.
  induction hosts as [|h hosts IH]; intros allowed svc n Hwf; cbn [allow_hosts].
  { exists None, svc, n. split_and!; try done. intros _ base _. by rewrite app_nil_r. }
  destruct (MapSet.Contains allowed h) eqn:Eh.
  - unfold MapSet.Contains in Eh. apply bool_decide_eq_true in Eh.
    destruct (IH allowed svc n Hwf) as (e & svc' & n' & Hr & Hw & Ho & Hc & Hh).
    exists e, svc', n'. split_and!; try done. intros He base Hb Hhost.
    eapply hosted_weaken; [|exact (Hh He base Hb Hhost)]. intros x.
    rewrite !elem_of_app, elem_of_cons. intros [?|[->|?]]; auto.
  - destruct (SubsysAddHost_run nqn h svc n Hwf) as (e & svc1 & n1 & Hr & Hw1 & Hs1).
    rewrite (go_bind_Ret _ _ _ _ _ Hr). destruct e as [e|].
    { exists (Some e), svc1, n1. rewrite Hs1. by split_and!. }
    destruct (IH allowed svc1 n1 Hw1) as (e & svc' & n' & Hr' & Hw & Ho & Hc & Hh).
    exists e, svc', n'. split; [exact Hr'|]. split; [done|]. rewrite Ho, Hs1.
    split; [by apply others_add_to|]. split.
    { intros H. apply Hc. rewrite Hs1. by apply complete_add_host. }
    intros He base Hb Hhost. eapply hosted_weaken; [|apply (Hh He (h :: base))].
    + intros x. rewrite !elem_of_app, !elem_of_cons. tauto.
    + intros x Hx. right. auto.
    + rewrite Hs1. by apply hosted_add_host.
Qed.

Lemma allow_hosts_quiet nqn hosts : ∀ allowed, bdev_quiet (allow_hosts nqn allowed hosts).
Proof.
  induction hosts as [|h hosts IH]; intros allowed; cbn [allow_hosts]; [apply bdev_quiet_ret|].
  destruct (MapSet.Contains _ _); [apply IH|]. apply bdev_quiet_bind; [apply SubsysAddHost_quiet|].
  intros [e|]; [apply bdev_quiet_ret|apply IH].
Qed.

(** The socket directory is not SPDK's. *)
Lemma socket_dir_run tgt svc n :
  ∃ e n', socket_dir tgt (svc, n) = Ret e (svc, n') ∧ subs n' = subs n ∧ bdevs n' = bdevs n.
Proof.
  unfold socket_dir. destruct (decide _) as [_|_]; [|by exists None, n].
  destruct (FileExists_run (t_TransAddr tgt) n) as ([there e] & n1 & E & Hs & Hb).
  rewrite (go_bind_Ret _ _ _ _ _ (rpc_run _ _ _ _ _ E)). destruct e as [e|]; [by exists (Some e), n1|].
  destruct there; [by exists None, n1|].
  destruct (bl_mkdir (t_TransAddr tgt)) as (Hr & Hs' & Hb'). destruct (Hr n1) as (r & n2 & E2).
  exists r, n2. split; [by apply rpc_run|]. rewrite <- Hs, <- Hb. split; [by eapply Hs'|by eapply Hb'].
Qed.
Lemma clear_socket_run tgt svc n :
  ∃ e n', clear_socket tgt (svc, n) = Ret e (svc, n') ∧ subs n' = subs n ∧ bdevs n' = bdevs n.
Proof.
  unfold clear_socket. destruct (decide _) as [_|_]; [|by exists None, n].
  destruct (FileExists_run (t_TransAddr tgt) n) as ([there e] & n1 & E & Hs & Hb).
  rewrite (go_bind_Ret _ _ _ _ _ (rpc_run _ _ _ _ _ E)).
  destruct there; [|by exists None, n1].
  destruct (bl_remove_all (t_TransAddr tgt)) as (Hr & Hs' & Hb'). destruct (Hr n1) as (r & n2 & E2).
  rewrite (go_bind_Ret _ _ _ _ _ (rpc_run _ _ _ _ _ E2)).
  do 2 eexists. split; [reflexivity|]. rewrite <- Hs, <- Hb. split; [by eapply Hs'|by eapply Hb'].
Qed.

Lemma add_listener_nqn nqn tt t r0 st r1 err st' :
  add_listener nqn tt t r0 st = Ret (r1, err) st' → t_NQN r1 = t_NQN r0.
Proof.
  unfold add_listener. intros ([id|e] & s1 & _ & H)%go_bind_inv; [|by injection H as <- _].
  apply go_bind_inv in H as (r & s2 & _ & H). by injection H as <- _.
Qed.
Lemma complete_target_nqn req mn tt found r0 st r1 err st' :
  complete_target req mn tt found r0 st = Ret (r1, err) st' → t_NQN r1 = t_NQN r0.
Proof.
  unfold complete_target. destruct found as [s|].
  - intros ([e|] & s1 & _ & H)%go_bind_inv; [by injection H as <- _|].
    destruct (sub_ListenAddresses s); [by eapply add_listener_nqn|by injection H as <- _].
  - intros (svc & s1 & _ & H)%go_bind_inv. apply go_bind_inv in H as ([c|e] & s2 & _ & H); [|by injection H as <- _].
    apply go_bind_inv in H as ([e|] & s3 & _ & H); [by injection H as <- _|]. by eapply add_listener_nqn.
Qed.
Lemma CreateTarget_nqn req st t st' :
  CreateTarget req st = Ret (t, None) st' → t_NQN t = t_NQN (tcr_TargetInfo req).
Proof.
  unfold CreateTarget. intros (e & s1 & _ & H)%go_bind_inv. destruct e as [e|]; [discriminate|].
  apply go_bind_inv in H as (r & s2 & _ & H). destruct r as [l|e]; [|discriminate].
  destruct (scan_subsystems _ _ _ _ _) as [[found id'] taken]. destruct taken; [discriminate|].
  apply go_bind_inv in H as ([r1 err] & s3 & Hc & H). apply complete_target_nqn in Hc.
  destruct err as [e|]; [discriminate|].
  apply go_bind_inv in H as (e & s4 & _ & [= <- _ _]). by rewrite Hc.
Qed.

(** *** Exposing *)

(** The block device of a file is asked for by name; other accesses need none. *)
Definition aio_named a : Prop := ∀ aio, ac_AIO a = Some aio → aio_BdevName aio ≠ "".
Definition access_nqn a : string := t_NQN (ac_OpenAccess a).

Record exposed a n : Prop := {
  ex_target : complete (access_nqn a) (subs n);
  ex_hosts : hosted (access_nqn a) (ac_AllowHostNQN a) (subs n);
  ex_bdev aio : ac_AIO a = Some aio → listed n (aio_BdevName aio) = true;
}.
(** The other targets and the other devices stay. *)
Definition access_frame a n n' : Prop :=
  others (access_nqn a) (subs n') = others (access_nqn a) (subs n) ∧
  ∀ m, (∀ aio, ac_AIO a = Some aio → m ≠ aio_BdevName aio) → bdevs n' !! m = bdevs n !! m.

Lemma aio_run a svc n : alloc_wf (ss_idAlloc svc) → aio_named a →
  ∃ e svc' n',
    match ac_AIO a with
    | Some aio => CreateAioBdev {| abc_BdevName := aio_BdevName aio; abc_DevPath := aio_DevPath aio;
                                   abc_BlockSize := 0 |}
    | None => mret None
    end (svc, n) = Ret e (svc', n') ∧ alloc_wf (ss_idAlloc svc') ∧ access_frame a n n' ∧
    (e = None → ∀ aio, ac_AIO a = Some aio → listed n' (aio_BdevName aio) = true).
Proof.
  intros Hwf Hn. unfold access_frame, aio_named in *. destruct (ac_AIO a) as [aio|].
  - destruct (CreateAioBdev_ensures {| abc_BdevName := aio_BdevName aio; abc_DevPath := aio_DevPath aio;
      abc_BlockSize := 0 |} (Hn aio eq_refl) svc n Hwf I) as (e & svc' & n' & Hr & Hwf' & Hm).
    pose proof (moves_done _ _ _ _ _ Hm) as Hd. destruct Hm as [Hs Ho _ _].
    exists e, svc', n'. split_and!; [exact Hr|done|by rewrite Hs| |].
    + intros m Hm. by apply Ho, Hm.
    + intros He aio' [= <-]. by apply Hd.
  - by exists None, svc, n.
Qed.

Lemma ExposeAccess_run a svc n : alloc_wf (ss_idAlloc svc) → aio_named a →
  ∃ tgt e svc' n', ExposeAccess a (svc, n) = Ret (tgt, e) (svc', n') ∧ alloc_wf (ss_idAlloc svc') ∧
    access_frame a n n' ∧ (e = None → exposed a n').
Proof.
  intros Hwf Hn. unfold ExposeAccess.
  destruct (aio_run a svc n Hwf Hn) as (e & svc1 & n1 & H1 & Hw1 & [Ho1 Hb1] & Haio).
  rewrite (go_bind_Ret _ _ _ _ _ H1). destruct e as [e|]; [by do 4 eexists|].
  destruct (socket_dir_run (ac_OpenAccess a) svc1 n1) as (e & n2 & H2 & Hs2 & Hb2).
  rewrite (go_bind_Ret _ _ _ _ _ H2).
  assert (access_frame a n n2) as Hf2.
  { unfold access_frame. rewrite Hs2, Hb2. split; [exact Ho1|exact Hb1]. }
  destruct e as [e|]; [by do 4 eexists|].
  set (req := {| tcr_BdevName := bdev_of a; tcr_TargetInfo := ac_OpenAccess a |}).
  destruct (CreateTarget_run req svc1 n2 Hw1) as (t & e & svc3 & n3 & H3 & _ & Hw3 & Ho3 & Hc3 & _).
  pose proof (CreateTarget_quiet _ _ _ _ H3) as Hb3. cbn in Hb3.
  rewrite (go_bind_Ret _ _ _ _ _ H3).
  assert (access_frame a n n3) as Hf3.
  { destruct Hf2 as [Ho2 Hbd2]. unfold access_frame. rewrite Hb3. split; [|exact Hbd2]. by rewrite <- Ho2. }
  destruct e as [e|]; [by do 4 eexists|]. destruct (Hc3 eq_refl) as [Hcomp _].
  apply CreateTarget_nqn in H3. cbn in H3. rewrite H3. fold (access_nqn a).
  destruct (GetSubsystemByNQN_run (access_nqn a) svc3 n3 Hw3) as (r & svc4 & n4 & H4 & Hw4 & Hs4 & Hsub).
  pose proof (GetSubsystemByNQN_quiet _ _ _ _ H4) as Hb4. cbn in Hb4.
  rewrite (go_bind_Ret _ _ _ _ _ H4).
  assert (access_frame a n n4) as Hf4 by (unfold access_frame; by rewrite Hs4, Hb4).
  destruct r as [s|e]; [|by do 4 eexists].
  set (allowed := foldl MapSet.Add MapSet.NewEmptySet (sub_Hosts s)).
  destruct (allow_hosts_run (access_nqn a) (ac_AllowHostNQN a) allowed svc4 n4 Hw4)
    as (e & svc5 & n5 & H5 & Hw5 & Ho5 & Hc5 & Hh5).
  pose proof (allow_hosts_quiet _ _ _ _ _ _ H5) as Hb5. cbn in Hb5.
  rewrite (go_bind_Ret _ _ _ _ _ H5). do 4 eexists. split; [reflexivity|]. split; [done|].
  split. { destruct Hf4 as [Ho4 Hbd4]. unfold access_frame. rewrite Hb5. split; [|exact Hbd4]. by rewrite <- Ho4. }
  intros ->. split.
  - apply Hc5. by rewrite Hs4.
  - eapply hosted_weaken; [|apply (Hh5 eq_refl (sub_Hosts s))].
    + intros h Hh. apply elem_of_app. by right.
    + intros h Hh. unfold allowed in Hh. apply MapSet.elem_of_foldl_add in Hh. set_solver.
    + exists s. rewrite Hs4. destruct Hsub. by split_and!.
  - intros aio Ha. rewrite <- (Haio eq_refl aio Ha). apply listed_proper. congruence.
Qed.

(** *** Hiding *)

(** No device of its own name [name] is listed. *)
Definition aio_gone n (name : string) : Prop := ∀ b, bdevs n !! name = Some b → bdev_Name b ≠ name.

(** Deleting a file's device: one listed under the name by an alias only is not
    the file's and stays. *)
Lemma DeleteAioBdev_run name svc n : alloc_wf (ss_idAlloc svc) → name ≠ "" →
  ∃ e svc' n', DeleteAioBdev name (svc, n) = Ret e (svc', n') ∧ alloc_wf (ss_idAlloc svc') ∧
    subs n' = subs n ∧ (∀ m, m ≠ name → bdevs n' !! m = bdevs n !! m) ∧ (e = None → aio_gone n' name).
Proof.
  intros Hwf Hn.
  assert (aio_gone n name ∨ ∀ b, bdevs n !! name = Some b → bdev_Name b = name) as [Hg|Hs].
  { unfold aio_gone. destruct (bdevs n !! name) as [b|]; [|naive_solver].
    destruct (decide (bdev_Name b = name)); naive_solver. }
  - unfold DeleteAioBdev, with_client.
    destruct (client_run svc n Hwf) as (e & svc1 & n1 & Hc & Hs1 & _ & Hw1 & _).
    pose proof (client_quiet _ _ _ Hc) as Hb1. cbn in Hb1. rewrite (go_bind_Ret _ _ _ _ _ Hc).
    destruct e as [e|]; [exists (Some e), svc1, n1; rewrite Hb1; by split_and!|].
    destruct (find_run name svc1 n1 Hn) as (l & e & fatal & n2 & E & Hs2 & Hb2 & H).
    rewrite (go_bind_Ret _ _ _ _ _ E).
    assert (bdevs n2 = bdevs n) as Hb by congruence. assert (subs n2 = subs n) as Hs by congruence.
    assert (aio_gone n2 name) as Hg2 by (unfold aio_gone; by rewrite Hb).
    destruct H as [(-> & He & ->)|[(-> & _ & -> & b & Hl & ->)|(-> & _ & Hl & ->)]].
    + exists e, svc1, n2. split_and!; [done|done|done|by rewrite Hb|done].
    + rewrite Hb1 in Hl. cbn. rewrite bool_decide_eq_false_2 by (by apply Hg).
      exists None, svc1, n2. split_and!; [done|done|done|by rewrite Hb|done].
    + exists None, svc1, n2. split_and!; [done|done|done|by rewrite Hb|done].
  - destruct (DeleteAioBdev_ensures name Hn svc n Hwf Hs) as (e & svc' & n' & Hr & Hw & Hm).
    pose proof (moves_done _ _ _ _ _ Hm) as Hd. destruct Hm as [Hsub Ho _ _].
    exists e, svc', n'. split_and!; try done. intros He b Hb. specialize (Hd He).
    by rewrite (listed_some _ _ _ Hb) in Hd.
Qed.

Lemma RemoveAccces_run a svc n : alloc_wf (ss_idAlloc svc) → aio_named a →
  ∃ e svc' n', RemoveAccces a (svc, n) = Ret e (svc', n') ∧ alloc_wf (ss_idAlloc svc') ∧
    access_frame a n n' ∧
    (e = None →
       (access_nqn a ≠ "" → subs n' = others (access_nqn a) (subs n)) ∧
       ∀ aio, ac_AIO a = Some aio → aio_gone n' (aio_BdevName aio)).
Proof.
  intros Hwf Hn. unfold RemoveAccces. fold (access_nqn a).
  assert (∃ e svc1 n1, (if decide (access_nqn a ≠ "") then DeleteTarget (access_nqn a) else mret None)
            (svc, n) = Ret e (svc1, n1) ∧ alloc_wf (ss_idAlloc svc1) ∧ bdevs n1 = bdevs n ∧
            others (access_nqn a) (subs n1) = others (access_nqn a) (subs n) ∧
            (e = None → access_nqn a ≠ "" → subs n1 = others (access_nqn a) (subs n)))
    as (e & svc1 & n1 & H1 & Hw1 & Hb1 & Ho1 & Hd1).
  { destruct (decide (access_nqn a ≠ "")); [|by exists None, svc, n].
    destruct (DeleteTarget_run (access_nqn a) svc n Hwf) as (e & svc1 & n1 & H1 & Hw1 & Hm).
    pose proof (DeleteTarget_quiet _ _ _ _ H1) as Hb1. cbn in Hb1.
    exists e, svc1, n1. split; [done|]. split; [done|]. split; [done|].
    destruct e as [e|]; [by rewrite Hm|]. destruct Hm as [-> _]. split; [|done].
    unfold others. induction (subs n) as [|s l IH]; [done|]. cbn.
    case_bool_decide as Hs; [cbn; rewrite bool_decide_eq_true_2 by done; by rewrite IH|exact IH]. }
  rewrite (go_bind_Ret _ _ _ _ _ H1). destruct e as [e|].
  { do 3 eexists. split; [reflexivity|]. split; [done|]. split; [|done]. split; [done|by rewrite Hb1]. }
  destruct (clear_socket_run (ac_OpenAccess a) svc1 n1) as (e & n2 & H2 & Hs2 & Hb2).
  rewrite (go_bind_Ret _ _ _ _ _ H2).
  assert (access_frame a n n2) as Hf2 by (unfold access_frame; rewrite Hs2, Hb2, Hb1; by split).
  destruct e as [e|]; [by do 3 eexists|].
  unfold aio_named in Hn. unfold access_frame in *. destruct Hf2 as [Ho2 Hbd2].
  destruct (ac_AIO a) as [aio|].
  - destruct (DeleteAioBdev_run (aio_BdevName aio) svc1 n2 Hw1 (Hn aio eq_refl))
      as (e & svc3 & n3 & H3 & Hw3 & Hs3 & Hb3 & Hg3).
    exists e, svc3, n3. rewrite Hs3. split_and!; [exact H3|done|done| |].
    + intros m Hm. rewrite Hb3 by (by apply Hm). auto.
    + intros He. split; [intros; rewrite Hs2; auto|]. intros aio' [= <-]. auto.
  - exists None, svc1, n2. split_and!; try done. intros _. split; [intros; rewrite Hs2; auto|done].
Qed.

(** C15. Hiding undoes exposing: whatever else the node serves, after a successful
    [ExposeAccess] there is a target that can be connected to, with the hosts
    allowed and the device listed; after a successful [RemoveAccces] the target
    and the file's device are gone, and the other targets and devices are what
    they were before both. Both always return. *)
Theorem access_roundtrip a svc n :
  alloc_wf (ss_idAlloc svc) → aio_named a → access_nqn a ≠ "" →
  ∃ tgt e1 svc1 n1 e2 svc2 n2,
    ExposeAccess a (svc, n) = Ret (tgt, e1) (svc1, n1) ∧ RemoveAccces a (svc1, n1) = Ret e2 (svc2, n2) ∧
    (e1 = None → exposed a n1) ∧
    (e2 = None → subs n2 = others (access_nqn a) (subs n) ∧
       ∀ aio, ac_AIO a = Some aio → aio_gone n2 (aio_BdevName aio)) ∧
    ∀ m, (∀ aio, ac_AIO a = Some aio → m ≠ aio_BdevName aio) → bdevs n2 !! m = bdevs n !! m.
Proof.
  intros Hwf Hn Hq.
  destruct (ExposeAccess_run a svc n Hwf Hn) as (tgt & e1 & svc1 & n1 & H1 & Hw1 & [Ho1 Hb1] & Hx).
  destruct (RemoveAccces_run a svc1 n1 Hw1 Hn) as (e2 & svc2 & n2 & H2 & _ & [_ Hb2] & Hg).
  exists tgt, e1, svc1, n1, e2, svc2, n2. split_and!; [done|done|done| |].
  - intros He. destruct (Hg He) as [Hs Ha]. split; [by rewrite Hs|done].
  - intros m Hm. by rewrite Hb2, Hb1.
Qed.
End access_spec.

Definition ex_access : Access := {|
  ac_AIO := Some {| aio_DevPath := "/dev/vg/vol-1"; aio_BdevName := "vol1" |};
  ac_LVol := None;
  ac_OpenAccess := {| t_NQN := "nqn-1"; t_SerialNumber := "vol1"; t_NSUUID := "u-1"; t_TransAddr := "10.0.0.1";
                      t_TransType := TransportTypeTCP; t_SvcID := ""; t_AddrFam := "IPv4" |};
  ac_AllowHostNQN := ["host-nqn"];
|}.

Example ex_expose :
  match ExposeAccess ex_access (ex_service, ex_node) with
  | Ret (t, None) (_, n) => t_SvcID t = "4511" ∧ elements (dom (fn_bdevs n)) = ["vol1"] ∧
      sub_Hosts <$> fn_subs n = [[]; ["host-nqn"]]
  | _ => False
  end.
Proof. vm_compute. auto. Qed.

Lemma access_roundtrip_witness :
  ∃ tgt e1 svc1 n1 e2 svc2 n2,
    ExposeAccess ex_access (ex_service, ex_node) = Ret (tgt, e1) (svc1, n1) ∧
    RemoveAccces ex_access (svc1, n1) = Ret e2 (svc2, n2) ∧ (e1 = None → exposed ex_access n1).
Proof.
  destruct (access_roundtrip ex_access ex_service ex_node ex_service_wf)
    as (tgt & e1 & svc1 & n1 & e2 & svc2 & n2 & H1 & H2 & H3 & _).
  - by intros aio [= <-].
  - done.
  - exists tgt, e1, svc1, n1, e2, svc2, n2. exact (conj H1 (conj H2 H3)).
Defined.
