(* ===== verification/VolumeSync.v ===== *)
(** * The agent's volume loop

    [pkg/agent/sync/sync_volume.go]: the agent of a node creates the logical
    volume and the target of every volume placed on it, and removes them when the
    volume is deleted. It works on the node, through the pool engine and SPDK,
    and on the API server. The finalizers of a volume say what exists for it on
    the node; that they say the truth is what is proved here. *)

From Stdlib Require Import ZArith Lia.
From stdpp Require Import base gmap strings option list.
From S2P Require Import Prelude Strconv Misc K8s Api Spdk SpdkBdev Server LvmEngine Engine Access.

(** [cache.SplitMetaNamespaceKey]. *)
Definition SplitMetaNamespaceKey (key : string) : result (string * string) :=
  match split_slash key with
  | None => inl ("", key)
  | Some (ns, name) =>
      match split_slash name with
      | None => inl (ns, name)
      | Some _ => inr (ErrNew ("unexpected key format: " +:+ key))
      end
  end.

(** [strings.ReplaceAll(s, "-", "")]. *)
Fixpoint remove_dashes (s : string) : string :=
  match s with
  | EmptyString => EmptyString
  | String c s' => if decide (c = Ascii.ascii_of_nat 45) then remove_dashes s' else String c (remove_dashes s')
  end.

(* [sync/sync_volume.go:620-626] GetSNFromUUID *)
Definition GetSNFromUUID (uuid : string) : string :=
  let sn := remove_dashes uuid in
  if decide (20 < String.length sn)%nat then String.substring 0 20 sn else sn.
(* [sync/sync_volume.go:628-630] GetBdevNameFromUUID *)
Definition GetBdevNameFromUUID (uuid : string) : string := GetSNFromUUID uuid.
(* [sync/sync_volume.go:632-634] GetNQNFromUUID *)
Definition GetNQNFromUUID (uuid : string) : string := "nqn.2021-03.com.alipay.ob:uuid:" +:+ uuid.
(* [sync/sync_volume.go:636-638] GetSocketPathFromeUUID *)
Definition GetSocketPathFromeUUID (uuid : string) : string := "/usr/tmp/" +:+ uuid.

Definition AddrFamilyIPv4 : string := "IPv4".
Definition AddrFamilyLocalCopy : string := "LOCAL_COPY".

(** The list call of the API server, with a label selector. *)
Class KubeLister (K T : Type) := { kList : string → string → go K (result (list T)) }.
(** [metric.MetricTargetListerIface]: the volumes whose metrics are exported. *)
Class TargetLister (K : Type) := {
  lister_AddObject : AntstorVolume → go K unit;
  lister_DeleteObject : string → go K unit;
}.

(** What [StoragePoolServiceIface] tells of the node: the mode and the pool. *)
Record PoolService {L : K8sLib} := { ps_Mode : string; ps_Pool : StoragePool }.
Arguments PoolService : clear implicits.
Arguments PoolService {L}.

Definition logic_finalizers : list string := [KernelLVolFinalizer; SpdkLvolFinalizer; LogicVolumeFinalizer].
Definition hasLogicVolFinalizer (volume : AntstorVolume) : bool :=
  let f := om_Finalizers (vol_meta volume) in
  InSliceString KernelLVolFinalizer f || InSliceString SpdkLvolFinalizer f || InSliceString LogicVolumeFinalizer f.
Definition vol_label (volume : AntstorVolume) (k : string) : option string :=
  map_get (om_Labels (vol_meta volume)) k.
Definition vol_anno (volume : AntstorVolume) (k : string) : string :=
  map_str (om_Annotations (vol_meta volume)) k.
(** The snapshot the volume is to be cloned from: its namespace and name. *)
Definition source_snap (volume : AntstorVolume) : option (string * string) :=
  match vol_label volume VolumeSourceSnapNameLabelKey, vol_label volume VolumeSourceSnapNamespaceLabelKey with
  | Some name, Some ns => Some (ns, name)
  | _, _ => None
  end.
Definition with_spec (f : AntstorVolumeSpec → AntstorVolumeSpec) (vol : AntstorVolume) : AntstorVolume :=
  vol_set_Spec (f (vol_Spec vol)) vol.
Definition add_finalizer (f : string) (vol : AntstorVolume) : AntstorVolume :=
  vol_set_finalizers (om_Finalizers (vol_meta vol) ++ [f]) vol.

Section volume_loop.
Context {L : K8sLib} {N K : Type}.
Context {RPC : SpdkRpc N} {BR : BdevRpc N} {OS : OsFiles N}.
Context {E : PoolEngineIface (SpdkService * N)}.
Context {KV : KubeClient K AntstorVolume} {KP : KubeClient K StoragePool}.
Context {KS : KubeClient K AntstorSnapshot} {LS : KubeLister K AntstorSnapshot} {TL : TargetLister K}.
Variable ps : PoolService.

(** The node, with the SPDK service, and the API server. *)
Abbreviation AM := (go ((SpdkService * N) * K)).
Definition node {A} (m : go (SpdkService * N) A) : AM A := on_fst m.
Definition api {A} (m : go K A) : AM A := on_snd m.

(** The typed client sends an object to a namespace, and the server refuses one of
    another namespace. The answer is not copied into the object. *)
Definition volumes_Update (ns : string) (vol : AntstorVolume) : AM (option error) :=
  if decide (ns = om_Namespace (vol_meta vol)) then
    r ← api (kUpdate vol); mret match r with inl _ => None | inr e => Some e end
  else mret (Some (ErrAPI ReasonOther "the namespace of the provided object does not match the namespace sent on the request")).
Definition update_vol (vol : AntstorVolume) : AM (option error) :=
  r ← api (kUpdate vol); mret match r with inl _ => None | inr e => Some e end.

(** The host allowed to connect: the name the pool of the volume's host announces. *)
Definition allowed_hosts (vol : AntstorVolume) : AM (result (list string)) :=
  match vs_HostNode (vol_Spec vol) with
  | Some host =>
      if decide (ni_ID host ≠ "") then
        r ← api (kGet (T := StoragePool) DefaultNamespace (ni_ID host));
        mret match r with
             | inr e => inr e
             | inl hostPool => inl (match map_get (om_Annotations (sp_meta hostPool)) AnnotationHostNQN with
                                    | Some nqn => [nqn]
                                    | None => []
                                    end)
             end
      else mret (inl [])
  | None => mret (inl [])
  end.

Definition target_of (t : SpdkTarget) : Target := {|
  t_NQN := tgt_SubsysNQN t; t_SerialNumber := tgt_SerialNum t; t_NSUUID := tgt_NSUUID t;
  t_TransAddr := tgt_Address t; t_TransType := tgt_TransType t; t_SvcID := tgt_SvcID t;
  t_AddrFam := tgt_AddrFam t |}.

(** The device behind a volume being expanded, and the file's device over it. *)
Definition expansion_names (vol : AntstorVolume) : AM (string * option AioVolume) :=
  let spec := vol_Spec vol in
  if decide (vs_Type spec = VolumeTypeKernelLVol) then
    lvol ← deref "Spec.KernelLvol" (vs_KernelLvol spec);
    host ← deref "Spec.HostNode" (vs_HostNode spec);
    if decide (vs_TargetNodeId spec ≠ ni_ID host) then
      tgt ← deref "Spec.SpdkTarget" (vs_SpdkTarget spec);
      mret (kl_Name lvol, Some {| aio_DevPath := kl_DevPath lvol; aio_BdevName := tgt_BdevName tgt |})
    else mret (kl_Name lvol, None)
  else if decide (vs_Type spec = VolumeTypeSpdkLVol) then
    lvol ← deref "Spec.SpdkLvol" (vs_SpdkLvol spec);
    mret (SpdkLvol_FullName lvol, None)
  else mret ("", None).

(* [sync/sync_volume.go:141-217] VolumeSyncer.expandVolume *)
Definition expandVolume (vol : AntstorVolume) : AM (AntstorVolume * option error) :=
  match vol_label vol ExpansionOriginalSize with
  | None => mret (vol, None)
  | Some originSizeStr =>
      let '(originalSize, err) := ParseInt originSizeStr in
      match err with
      | Some e => mret (vol, Some e)
      | None =>
          '(volName, aioVolume) ← expansion_names vol;
          err ← node (pei_ExpandVolume {| evr_VolName := volName; evr_TargetSize := vs_SizeByte (vol_Spec vol);
                                          evr_OriginSize := uwrap64 originalSize |});
          match err with
          | Some e => mret (vol, Some e)
          | None =>
              err ← (match aioVolume with
                     | Some aio => node (ResizeAioBdev {| abr_BdevName := aio_BdevName aio;
                                                          abr_TargetSize := vs_SizeByte (vol_Spec vol) |})
                     | None => mret None
                     end);
              match err with
              | Some e => mret (vol, Some e)
              | None =>
                  let vol1 := vol_set_labels (map_del (om_Labels (vol_meta vol)) ExpansionOriginalSize) vol in
                  err ← update_vol vol1;
                  mret (vol1, err)
              end
          end
      end
  end.

(** What is removed when the volume's access goes. *)
Definition deletion_access (t : SpdkTarget) : Access := {|
  ac_AIO := Some {| aio_DevPath := ""; aio_BdevName := tgt_BdevName t |};
  ac_LVol := None;
  ac_OpenAccess := {| t_NQN := tgt_SubsysNQN t; t_SerialNumber := ""; t_NSUUID := ""; t_TransAddr := tgt_Address t;
                      t_TransType := tgt_TransType t; t_SvcID := ""; t_AddrFam := "" |};
  ac_AllowHostNQN := [];
|}.

(** A cloned lvol and one with snapshots are inflated before they are deleted. *)
Definition inflate (vol : AntstorVolume) : AM (option error) :=
  node (InflateLvol (lvst_Name (sps_SpdkLVStore (sp_Spec (ps_Pool ps)))) (om_Name (vol_meta vol))).
Definition inflate_lvol (vol : AntstorVolume) : AM (option error) :=
  if decide (vs_Type (vol_Spec vol) = VolumeTypeSpdkLVol) then
    err ← (if opt_is_some (source_snap vol) then inflate vol else mret None);
    match err with
    | Some e => mret (Some e)
    | None =>
        r ← api (kList (T := AntstorSnapshot) (om_Namespace (vol_meta vol))
                   (OriginVolumeNameLabelKey +:+ "=" +:+ om_Name (vol_meta vol)));
        match r with
        | inr e => mret (Some e)
        | inl [] => mret None
        | inl _ => inflate vol
        end
    end
  else mret None.

(** The second half of [handleDeletion]: the logical volume. *)
Definition delete_logic (volume : AntstorVolume) : AM (option error) :=
  if hasLogicVolFinalizer volume then
    err ← inflate_lvol volume;
    match err with
    | Some e => mret (Some e)
    | None =>
        err ← node (pei_DeleteVolume (om_Name (vol_meta volume)));
        match err with
        | Some e => mret (Some e)
        | None =>
            err ← update_vol (vol_set_finalizers
                    (List.filter (λ item, negb (InSliceString item logic_finalizers))
                       (om_Finalizers (vol_meta volume))) volume);
            _ ← api (lister_DeleteObject (om_Name (vol_meta volume)));
            mret err
        end
    end
  else mret None.

(* [sync/sync_volume.go:219-334] VolumeSyncer.handleDeletion *)
Definition sync_handleDeletion (volume : AntstorVolume) : AM (option error) :=
  let finalizers := om_Finalizers (vol_meta volume) in
  if InSliceString SpdkTargetFinalizer finalizers || opt_is_some (vs_SpdkTarget (vol_Spec volume)) then
    match vs_SpdkTarget (vol_Spec volume) with
    | None => mret (Some (ErrNew ("volume " +:+ om_Name (vol_meta volume) +:+ " SpdkTarget is nil")))
    | Some t =>
        err ← node (RemoveAccces (deletion_access t));
        match err with
        | Some e => mret (Some e)
        | None =>
            if InSliceString SpdkTargetFinalizer finalizers then
              update_vol (vol_set_finalizers
                (List.filter (λ item, negb (bool_decide (item = SpdkTargetFinalizer))) finalizers) volume)
            else delete_logic volume
        end
    end
  else delete_logic volume.

(* [sync/sync_volume.go:336-350] VolumeSyncer.updateVolumeType *)
Definition updateVolumeType (volume : AntstorVolume) : AM (option error) :=
  let volume1 :=
    if decide (ps_Mode ps = PoolModeKernelLVM) then with_spec (vs_set_Type VolumeTypeKernelLVol) volume
    else if decide (ps_Mode ps = PoolModeSpdkLVStore) then with_spec (vs_set_Type VolumeTypeSpdkLVol) volume
    else volume in
  update_vol volume1.

Definition fs_type (volume : AntstorVolume) : string :=
  if decide (vol_anno volume SpdkConnectModeKey = SpdkConnectModeGuestKernelDirect ∧
             vol_anno volume FsTypeLabelKey ≠ "")
  then vol_anno volume FsTypeLabelKey else "".

(** The preparation in [createVolume]: the request for the engine, if any, and the
    volume with its device named. *)
Definition no_request : CreateVolumeRequest :=
  {| cvr_VolName := ""; cvr_SizeByte := 0; cvr_FsType := ""; cvr_LvLayout := "" |}.
Definition prepare_kernel (volume : AntstorVolume) : AM (result (CreateVolumeRequest * AntstorVolume)) :=
  if opt_is_some (source_snap volume) then
    mret (inr (ErrNew "not support creating new lvm volume from a lvm snapshot yet"))
  else
    let dev := match vs_KernelLvol (vol_Spec volume) with Some l => kl_DevPath l | None => "" end in
    mret (inl ({| cvr_VolName := om_Name (vol_meta volume); cvr_SizeByte := vs_SizeByte (vol_Spec volume);
                  cvr_FsType := fs_type volume; cvr_LvLayout := vol_anno volume LvLayoutAnnoKey |},
               with_spec (vs_set_KernelLvol (Some {| kl_Name := om_Name (vol_meta volume); kl_DevPath := dev |}))
                 volume)).

Definition clone_source (lvsName : string) (volume : AntstorVolume) (ns name : string) : AM (option error) :=
  r ← api (kGet (T := AntstorSnapshot) ns name);
  match r with
  | inr e => mret (Some e)
  | inl snap =>
      '(_, err) ← node (CreateLvolClone {| clc_LVStore := lvsName;
                     clc_SnapName := sl_Name (ss_SpdkLvol (snap_Spec snap));
                     clc_CloneName := om_Name (vol_meta volume) |});
      mret err
  end.

Definition prepare_spdk (volume : AntstorVolume) : AM (result (CreateVolumeRequest * AntstorVolume)) :=
  let lvsName := lvst_Name (sps_SpdkLVStore (sp_Spec (ps_Pool ps))) in
  let volume1 := with_spec (vs_set_SpdkLvol (Some
      {| sl_Name := om_Name (vol_meta volume); sl_LvsName := lvsName; sl_Thin := false |})) volume in
  match source_snap volume with
  | Some (ns, name) =>
      err ← clone_source lvsName volume ns name;
      mret match err with Some e => inr e | None => inl (no_request, volume1) end
  | None =>
      mret (inl ({| cvr_VolName := om_Name (vol_meta volume); cvr_SizeByte := vs_SizeByte (vol_Spec volume);
                    cvr_FsType := ""; cvr_LvLayout := "" |}, volume1))
  end.
Definition prepare (volume : AntstorVolume) : AM (result (CreateVolumeRequest * AntstorVolume)) :=
  if decide (vs_Type (vol_Spec volume) = VolumeTypeKernelLVol) then prepare_kernel volume
  else if decide (vs_Type (vol_Spec volume) = VolumeTypeSpdkLVol) then prepare_spdk volume
  else mret (inl (no_request, volume)).

(** The device path the engine answers. *)
Definition set_dev_path (resp : CreateVolumeResponse) (volume : AntstorVolume) : AM AntstorVolume :=
  if decide (cvp_DevPath resp ≠ "") then
    lvol ← deref "Spec.KernelLvol" (vs_KernelLvol (vol_Spec volume));
    mret (with_spec (vs_set_KernelLvol (Some {| kl_Name := kl_Name lvol; kl_DevPath := cvp_DevPath resp |})) volume)
  else mret volume.

(* [sync/sync_volume.go:352-466] VolumeSyncer.createVolume *)
Definition sync_createVolume (volume : AntstorVolume) : AM (bool * option error) :=
  if hasLogicVolFinalizer volume then mret (false, None)
  else
    r ← prepare volume;
    match r with
    | inr e => mret (false, Some e)
    | inl (req, volume1) =>
        r ← (if decide (0 < cvr_SizeByte req ∧ cvr_VolName req ≠ "")%Z then node (pei_CreateVolume req)
             else mret (inl {| cvp_UUID := ""; cvp_DevPath := "" |}));
        match r with
        | inr e => mret (false, Some e)
        | inl resp =>
            volume2 ← set_dev_path resp volume1;
            err ← update_vol (add_finalizer LogicVolumeFinalizer volume2);
            mret (true, err)
        end
    end.

(** TODO in the code: whether the SPDK target has the VFIOUSER capability. *)
Definition vfioUserCapable : bool := false.

(** The target of a volume over LVM and of one over an lvstore. *)
Definition kernel_target (nodeIP uuid : string) : SpdkTarget := {|
  tgt_BdevName := GetBdevNameFromUUID uuid; tgt_SubsysNQN := GetNQNFromUUID uuid; tgt_SvcID := "";
  tgt_SerialNum := GetSNFromUUID uuid; tgt_TransType := TransportTypeTCP; tgt_NSUUID := uuid;
  tgt_Address := nodeIP; tgt_AddrFam := AddrFamilyIPv4 |}.
Definition lvol_target (volume : AntstorVolume) (isLocal : bool) (nodeIP : string) (lvol : SpdkLvol) : SpdkTarget :=
  let uuid := vs_Uuid (vol_Spec volume) in
  let t := default SpdkTarget_zero (vs_SpdkTarget (vol_Spec volume)) in
  let nqn := if decide (tgt_SubsysNQN t = "") then GetNQNFromUUID uuid else tgt_SubsysNQN t in
  let nsuuid := if decide (tgt_NSUUID t = "") then uuid else tgt_NSUUID t in
  if isLocal && vfioUserCapable then {|
    tgt_BdevName := SpdkLvol_FullName lvol; tgt_SubsysNQN := nqn; tgt_SvcID := "0000:6b:00.0";
    tgt_SerialNum := GetSNFromUUID uuid; tgt_TransType := TransportTypeVFIOUSER; tgt_NSUUID := nsuuid;
    tgt_Address := GetSocketPathFromeUUID uuid;
    tgt_AddrFam := match map_get (om_Annotations (vol_meta volume)) VfiouserModeKey with
                   | Some mode => mode | None => AddrFamilyLocalCopy end |}
  else {|
    tgt_BdevName := SpdkLvol_FullName lvol; tgt_SubsysNQN := nqn; tgt_SvcID := tgt_SvcID t;
    tgt_SerialNum := GetSNFromUUID uuid; tgt_TransType := TransportTypeTCP; tgt_NSUUID := nsuuid;
    tgt_Address := nodeIP; tgt_AddrFam := AddrFamilyIPv4 |}.

(** The end of [createOpenAccess]: the access is exposed and recorded. *)
Definition expose_volume (volume : AntstorVolume) (aio : option AioVolume) (lvol : option SpdkLVolume)
    : AM (bool * option error) :=
  r ← allowed_hosts volume;
  match r with
  | inr e => mret (false, Some e)
  | inl allowHosts =>
      t ← deref "Spec.SpdkTarget" (vs_SpdkTarget (vol_Spec volume));
      '(resp, err) ← node (ExposeAccess {| ac_AIO := aio; ac_LVol := lvol; ac_OpenAccess := target_of t;
                                          ac_AllowHostNQN := allowHosts |});
      match err with
      | Some e => mret (false, Some e)
      | None =>
          let t1 := {| tgt_BdevName := tgt_BdevName t; tgt_SubsysNQN := tgt_SubsysNQN t; tgt_SvcID := t_SvcID resp;
                       tgt_SerialNum := tgt_SerialNum t; tgt_TransType := tgt_TransType t;
                       tgt_NSUUID := tgt_NSUUID t; tgt_Address := tgt_Address t; tgt_AddrFam := tgt_AddrFam t |} in
          err ← update_vol (add_finalizer SpdkTargetFinalizer (with_spec (vs_set_SpdkTarget (Some t1)) volume));
          mret (true, err)
      end
  end.

(* [sync/sync_volume.go:468-618] VolumeSyncer.createOpenAccess *)
Definition createOpenAccess (volume : AntstorVolume) : AM (bool * option error) :=
  let spec := vol_Spec volume in
  host ← deref "Spec.HostNode" (vs_HostNode spec);
  let isLocal := bool_decide (vs_TargetNodeId spec = ni_ID host) in
  let nodeIP := ni_IP (sps_NodeInfo (sp_Spec (ps_Pool ps))) in
  if decide (nodeIP = "") then mret (false, Some (ErrNew "cannot get node ip to create OpenAccess of volume"))
  else if InSliceString SpdkTargetFinalizer (om_Finalizers (vol_meta volume)) then mret (false, None)
  else if decide (vs_Uuid spec = "") then mret (false, Some (ErrNew "invalid volume, no uuid"))
  else if decide (vs_Type spec = VolumeTypeKernelLVol) then
    if isLocal then mret (false, None)
    else
      lvol ← deref "Spec.KernelLvol" (vs_KernelLvol spec);
      if decide (kl_DevPath lvol = "") then mret (false, Some (ErrNew "invalid KernelLvol to create OpenAccess"))
      else
        let t := kernel_target nodeIP (vs_Uuid spec) in
        expose_volume (with_spec (vs_set_SpdkTarget (Some t)) volume)
          (Some {| aio_DevPath := kl_DevPath lvol; aio_BdevName := tgt_BdevName t |}) None
  else if decide (vs_Type spec = VolumeTypeSpdkLVol) then
    lvol ← deref "Spec.SpdkLvol" (vs_SpdkLvol spec);
    expose_volume (with_spec (vs_set_SpdkTarget (Some (lvol_target volume isLocal nodeIP lvol))) volume)
      None (Some {| slv_LvsName := sl_LvsName lvol; slv_LvolName := sl_Name lvol |})
  else expose_volume volume None None.

(** The first half of [applyVolume]: the size the volume really has. *)
Definition real_size (vol : VolumeInfo) : Z :=
  if decide (vinf_Type vol = VolumeTypeKernelLVol) then
    match vinf_LvmLV vol with Some lv => rl_SizeByte lv | None => 0 end
  else if decide (vinf_Type vol = VolumeTypeSpdkLVol) then
    match vinf_SpdkLvol vol with Some lvol => slb_SizeByte lvol | None => 0 end
  else 0.
Definition apply_size (volume : AntstorVolume) : AM (AntstorVolume * option error * bool) :=
  if map_has (om_Annotations (vol_meta volume)) AllocatedSizeAnnoKey ||
     bool_decide (vst_Status (vol_Status volume) ≠ VolumeStatusReady)
  then mret (volume, None, false)
  else
    r ← node (pei_GetVolume (om_Name (vol_meta volume)));
    let '(vol, err) := match r with inl v => (v, None) | inr e => (VolumeInfo_zero, Some e) end in
    if match err with Some e => negb (IsNotFoundDeviceError e) | None => false end
    then mret (volume, err, true)
    else
      let sizeByte := real_size vol in
      if decide (0 < sizeByte ∧ sizeByte ≠ vs_SizeByte (vol_Spec volume))%Z then
        let annos := default ∅ (om_Annotations (vol_meta volume)) in
        let volume1 := vol_set_meta (om_set_Annotations
              (Some (<[AllocatedSizeAnnoKey := Itoa (wrap64 sizeByte)]> annos)) (vol_meta volume)) volume in
        err ← volumes_Update DefaultNamespace volume1;
        mret (volume1, err, opt_is_some err)
      else mret (volume, err, false).

(* [sync/sync_volume.go:640-719] VolumeSyncer.applyVolume *)
Definition applyVolume (volume : AntstorVolume) : AM (AntstorVolume * option error) :=
  '(volume1, err, stop) ← apply_size volume;
  if stop : bool then mret (volume1, err)
  else
    match vs_SpdkTarget (vol_Spec volume1) with
    | None => mret (volume1, err)
    | Some t =>
        r ← allowed_hosts volume1;
        match r with
        | inr e => mret (volume1, Some e)
        | inl allowHosts =>
            _ ← node (ExposeAccess {| ac_AIO := None; ac_LVol := None; ac_OpenAccess := target_of t;
                                     ac_AllowHostNQN := allowHosts |});
            (* a pool that was read overwrites the error kept above *)
            let asked := match vs_HostNode (vol_Spec volume1) with
                         | Some host => bool_decide (ni_ID host ≠ "") | None => false end in
            mret (volume1, if asked then None else err)
        end
    end.

(** From the creation of the logical volume to the status. *)
Definition set_ready (volume : AntstorVolume) : AM (option error) :=
  r ← api (kUpdateStatus (vol_set_status VolumeStatusReady volume));
  mret match r with inl _ => None | inr e => Some e end.
Definition sync_create (volume : AntstorVolume) : AM (option error) :=
  '(needReturn, err) ← sync_createVolume volume;
  if opt_is_some err || needReturn then mret err
  else
    '(needReturn, err) ← createOpenAccess volume;
    if opt_is_some err || needReturn then mret err else set_ready volume.

(* [sync/sync_volume.go:76-139] VolumeSyncer.syncOneVolume *)
Definition syncOneVolume (volume : AntstorVolume) : AM (option error) :=
  if negb (InSliceString InStateFinalizer (om_Finalizers (vol_meta volume))) then mret None
  else if opt_is_some (om_DeletionTimestamp (vol_meta volume)) then sync_handleDeletion volume
  else
    '(volume1, err) ← expandVolume volume;
    match err with
    | Some e => mret (Some e)
    | None =>
        '(volume2, err) ← applyVolume volume1;
        match err with
        | Some e => mret (Some e)
        | None =>
            if decide (vst_Status (vol_Status volume2) = VolumeStatusReady) then
              _ ← api (lister_AddObject volume2); mret None
            else if decide (vs_Type (vol_Spec volume2) = VolumeTypeFlexible) then updateVolumeType volume2
            else sync_create volume2
        end
    end.

(* [sync/sync_volume.go:58-74] VolumeSyncer.syncOneVolumeByName *)
Definition syncOneVolumeByName (nsName : string) : AM (option error) :=
  match SplitMetaNamespaceKey nsName with
  | inr e => mret (Some e)
  | inl (ns, name) =>
      r ← api (kGet (T := AntstorVolume) ns name);
      match r with
      | inr e => mret (if IsNotFound e then None else Some e)
      | inl volume => syncOneVolume volume
      end
  end.
End volume_loop.

(** ** Servers that answer *)

(** The calls of the loop return, whatever they answer. *)
Class ServerAnswers {K} (KV : KubeClient K AntstorVolume) {L : K8sLib} (KP : KubeClient K StoragePool)
    (KS : KubeClient K AntstorSnapshot) (LS : KubeLister K AntstorSnapshot) (TL : TargetLister K) := {
  an_get_volume ns name : returns (kGet (KubeClient := KV) ns name);
  an_update vol : returns (kUpdate (KubeClient := KV) vol);
  an_update_status vol : returns (kUpdateStatus (KubeClient := KV) vol);
  an_get_pool ns name : returns (kGet (KubeClient := KP) ns name);
  an_get_snap ns name : returns (kGet (KubeClient := KS) ns name);
  an_list_snaps ns sel : returns (kList (KubeLister := LS) ns sel);
  an_lister_add vol : returns (lister_AddObject (TargetLister := TL) vol);
  an_lister_delete name : returns (lister_DeleteObject (TargetLister := TL) name);
}.

Lemma returns_wp {S A} (m : go S A) (Q : A → S → Prop) s :
  returns m → (∀ a s', Q a s') → wp m Q s.
Proof. intros Hr HQ. apply wp_run. destruct (Hr s) as (a & s' & E). eauto. Qed.

Section sync_spec.
Context {L : K8sLib} {N K : Type}.
Context {RPC : SpdkRpc N} {BR : BdevRpc N} {OS : OsFiles N}.
Context {HR : SpdkRpcLaws RPC} {HB : BdevLaws RPC BR OS}.
Context {E : PoolEngineIface (SpdkService * N)} {HE : EngineLaws E}.
Context {KV : KubeClient K AntstorVolume} {KP : KubeClient K StoragePool}.
Context {KS : KubeClient K AntstorSnapshot} {LS : KubeLister K AntstorSnapshot} {TL : TargetLister K}.
Context {HA : ServerAnswers KV KP KS LS TL}.
Implicit Types (ps : PoolService) (vol : AntstorVolume) (svc : SpdkService) (n : N) (k : K).

(** The server with the writes to volumes recorded. *)
Abbreviation RK := (Logged K (Write AntstorVolume)).
#[local] Instance recV : KubeClient RK AntstorVolume := Recording KV id.
#[local] Instance recP : KubeClient RK StoragePool := client_fst KP.
#[local] Instance recS : KubeClient RK AntstorSnapshot := client_fst KS.
#[local] Instance recL : KubeLister RK AntstorSnapshot := {| kList ns sel := on_fst (kList ns sel) |}.
#[local] Instance recT : TargetLister RK :=
  {| lister_AddObject v := on_fst (lister_AddObject v); lister_DeleteObject x := on_fst (lister_DeleteObject x) |}.
Abbreviation RM := (go ((SpdkService * N) * RK)).

(** Rules for the calls: on the node, of the server, and the update recorded. *)
Lemma wp_node {A} (m : go (SpdkService * N) A) Q st (rk : RK) :
  wp m (λ a st', Q a (st', rk)) st → wp (node m) Q (st, rk).
Proof. apply wp_on_fst. Qed.
Lemma wp_ask {A} (m : go K A) Q st k log : returns m →
  (∀ a k', Q a (st, (k', log))) → wp (api (N := N) (on_fst m : go RK A)) Q (st, (k, log)).
Proof. intros Hr HQ. apply wp_on_snd, wp_on_fst, returns_wp; auto. Qed.
Lemma wp_update vol Q st k log :
  (∀ err k', Q err (st, (k', WUpdate vol :: log))) → wp (update_vol (N := N) vol) Q (st, (k, log)).
Proof.
  intros HQ. apply wp_bind, wp_on_snd. unfold kUpdate, recV, Recording, wp. rewrite logged_run.
  destruct (an_update vol k) as (r & k' & ->). apply HQ.
Qed.
Lemma wp_update_status vol Q st k log :
  (∀ r k', Q r (st, (k', WUpdateStatus vol :: log))) →
  wp (api (N := N) (kUpdateStatus (T := AntstorVolume) vol)) Q (st, (k, log)).
Proof.
  intros HQ. apply wp_on_snd. unfold kUpdateStatus, recV, Recording, wp. rewrite logged_run.
  destruct (an_update_status vol k) as (r & k' & ->). apply HQ.
Qed.

(** *** Deletion *)

Definition without (fs l : list string) : list string := List.filter (λ item, negb (InSliceString item fs)) l.

(** The target of the volume and its file's device are gone. *)
Definition target_gone (t : SpdkTarget) n : Prop :=
  (tgt_SubsysNQN t ≠ "" → ∀ s, s ∈ subs n → sub_NQN s ≠ tgt_SubsysNQN t) ∧ aio_gone n (tgt_BdevName t).

Lemma others_ne nqn l s : s ∈ others nqn l → sub_NQN s ≠ nqn.
Proof.
  unfold others. intros H. apply list_elem_of_In, List.filter_In in H as [_ H].
  by apply bool_decide_eq_true in H.
Qed.

Lemma wp_remove_access t Q svc n (rk : RK) : alloc_wf (ss_idAlloc svc) → tgt_BdevName t ≠ "" →
  (∀ e svc' n', alloc_wf (ss_idAlloc svc') → (e = None → target_gone t n') → Q e ((svc', n'), rk)) →
  wp (node (RemoveAccces (deletion_access t))) Q ((svc, n), rk).
Proof.
  intros Hwf Hb HQ. apply wp_node, wp_run.
  destruct (RemoveAccces_run (deletion_access t) svc n Hwf) as (e & svc' & n' & Hr & Hw & _ & Hg).
  { by intros aio [= <-]. }
  do 2 eexists. split; [exact Hr|]. apply HQ; [done|]. intros He. destruct (Hg He) as [Hs Ha]. split.
  - intros Hn s Hin. cbn in Hs. rewrite Hs in Hin by done. by apply others_ne in Hin.
  - by apply (Ha _ eq_refl).
Qed.

Lemma wp_inflate ps vol Q svc n (rk : RK) : alloc_wf (ss_idAlloc svc) →
  (∀ e svc' n', alloc_wf (ss_idAlloc svc') → Q e ((svc', n'), rk)) → wp (inflate ps vol) Q ((svc, n), rk).
Proof.
  intros Hwf HQ. unfold inflate, InflateLvol, with_client. apply wp_node, wp_bind, wp_run.
  destruct (client_run svc n Hwf) as (e & svc1 & n1 & Hc & _ & _ & Hw & _).
  do 2 eexists. split; [exact Hc|]. destruct e as [e|]; [by apply wp_ret, HQ|].
  apply wp_bind, wp_on_snd, returns_wp; [apply bl_inflate|]. intros r n2. by apply wp_ret, HQ.
Qed.

Lemma wp_inflate_lvol ps vol Q svc n k log : alloc_wf (ss_idAlloc svc) →
  (∀ e svc' n' k', alloc_wf (ss_idAlloc svc') → Q e ((svc', n'), (k', log))) →
  wp (inflate_lvol ps vol) Q ((svc, n), (k, log)).
Proof.
  intros Hwf HQ. unfold inflate_lvol. destruct (decide _) as [_|_]; [|by apply wp_ret, HQ].
  apply wp_bind.
  assert (∀ e svc' n', alloc_wf (ss_idAlloc svc') →
    wp match e with
       | Some e => mret (Some e)
       | None => api (kList (T := AntstorSnapshot) (om_Namespace (vol_meta vol))
                        (OriginVolumeNameLabelKey +:+ "=" +:+ om_Name (vol_meta vol)))
                  ≫= λ r, match r with inr e => mret (Some e) | inl [] => mret None | inl _ => inflate ps vol end
       end Q ((svc', n'), (k, log))) as Hrest.
  { intros [e|] svc' n' Hw; [by apply wp_ret, HQ|]. apply wp_bind, wp_ask; [apply an_list_snaps|].
    intros [[|x l]|e] k'; [by apply wp_ret, HQ| |by apply wp_ret, HQ]. apply wp_inflate; [done|]. auto. }
  destruct (opt_is_some _); [by apply wp_inflate|by apply wp_ret, (Hrest None)].
Qed.

Lemma wp_delete_volume name Q svc n (rk : RK) : alloc_wf (ss_idAlloc svc) →
  (∀ e svc' n', alloc_wf (ss_idAlloc svc') → (e = None → ¬ has_volume n' name) → Q e ((svc', n'), rk)) →
  wp (node (pei_DeleteVolume name)) Q ((svc, n), rk).
Proof.
  intros Hwf HQ. apply wp_node, wp_run. destruct (el_delete name (svc, n) Hwf) as (e & [svc' n'] & Hr & Hw & _ & Hg).
  do 2 eexists. split; [exact Hr|]. by apply HQ.
Qed.

(** What one pass over a volume being deleted does to its finalizers. *)
Definition logic_left vol : bool := hasLogicVolFinalizer vol.
Definition deletion_step vol n (fs : list string) : Prop :=
  let old := om_Finalizers (vol_meta vol) in
  (SpdkTargetFinalizer ∈ old ∧ fs = without [SpdkTargetFinalizer] old ∧
     ∃ t, vs_SpdkTarget (vol_Spec vol) = Some t ∧ target_gone t n) ∨
  (SpdkTargetFinalizer ∉ old ∧ hasLogicVolFinalizer vol = true ∧ fs = without logic_finalizers old ∧
     ¬ has_volume n (om_Name (vol_meta vol))).

Definition deletion_post vol (err : option error) (st : (SpdkService * N) * RK) : Prop :=
  let n := st.1.2 in
  (st.2.2 = [] ∧ (err = None → SpdkTargetFinalizer ∉ om_Finalizers (vol_meta vol) ∧ hasLogicVolFinalizer vol = false)) ∨
  ∃ fs, st.2.2 = [WUpdate (vol_set_finalizers fs vol)] ∧ deletion_step vol n fs.

Lemma wp_delete_logic ps vol svc n k : alloc_wf (ss_idAlloc svc) →
  SpdkTargetFinalizer ∉ om_Finalizers (vol_meta vol) →
  wp (delete_logic ps vol) (deletion_post vol) ((svc, n), (k, [])).
Proof.
  intros Hwf Ht. unfold delete_logic. destruct (hasLogicVolFinalizer vol) eqn:Eh; [|apply wp_ret; by left].
  apply wp_bind, wp_inflate_lvol; [done|]. intros [e|] svc1 n1 k1 Hw1; [apply wp_ret; by left|].
  apply wp_bind, wp_delete_volume; [done|]. intros [e|] svc2 n2 Hw2 Hg; [apply wp_ret; by left|].
  apply wp_bind, wp_update. intros err k2. apply wp_bind, wp_ask; [apply an_lister_delete|]. intros _ k3.
  apply wp_ret. right. eexists. split; [reflexivity|]. right. auto.
Qed.

(** C5. The finalizers of a volume being deleted tell the truth, whatever the API
    server answers. A pass over the volume always returns and writes it at most
    once. While the finalizer of the target is there it is the only one taken
    away, and only after no target of the volume's name and no device of its file
    are left; after that the finalizers of the logical volume are taken away, and
    only once the engine has no volume of that name. A pass that reports no error
    and writes nothing has nothing left to remove. *)
Theorem deletion_truthful ps vol svc n k :
  alloc_wf (ss_idAlloc svc) → is_Some (om_DeletionTimestamp (vol_meta vol)) →
  InStateFinalizer ∈ om_Finalizers (vol_meta vol) →
  (∀ t, vs_SpdkTarget (vol_Spec vol) = Some t → tgt_BdevName t ≠ "") →
  ∃ err svc' n' k' log,
    syncOneVolume ps vol ((svc, n), (k, [])) = Ret err ((svc', n'), (k', log)) ∧
    ((log = [] ∧ (err = None → SpdkTargetFinalizer ∉ om_Finalizers (vol_meta vol) ∧
                                hasLogicVolFinalizer vol = false)) ∨
     ∃ fs, log = [WUpdate (vol_set_finalizers fs vol)] ∧ deletion_step vol n' fs).
Proof.
  intros Hwf [ts Hts] Hin Hb.
  assert (wp (syncOneVolume ps vol) (deletion_post vol) ((svc, n), (k, []))) as H.
  { unfold syncOneVolume. apply InSliceString_spec in Hin. rewrite Hin, Hts. cbn [negb opt_is_some].
    unfold sync_handleDeletion. destruct (_ || _) eqn:Eo.
    2:{ apply orb_false_iff in Eo as [Ht%InSliceString_false _]. by apply wp_delete_logic. }
    destruct (vs_SpdkTarget (vol_Spec vol)) as [t|] eqn:Et; [|apply wp_ret; by left].
    apply wp_bind, wp_remove_access; [done|by apply Hb|].
    intros [e|] svc1 n1 Hw1 Hg; [apply wp_ret; by left|].
    destruct (InSliceString SpdkTargetFinalizer _) eqn:Es.
    - apply wp_update. intros err k1. right. eexists. split; [reflexivity|]. left.
      apply InSliceString_spec in Es. split; [done|]. split; [|eauto].
      unfold without. f_equal.
    - apply InSliceString_false in Es. by apply wp_delete_logic. }
  apply wp_run in H as (err & [[svc' n'] [k' log]] & Hr & Hp). by exists err, svc', n', k', log.
Qed.

(** *** Creation *)

(** How far a volume is: its type is decided, its logical volume is recorded, its
    target is recorded or not needed, it is ready. *)
Definition is_local vol : bool :=
  match vs_HostNode (vol_Spec vol) with
  | Some host => bool_decide (vs_TargetNodeId (vol_Spec vol) = ni_ID host)
  | None => false
  end.
Definition target_needed vol : bool :=
  negb (bool_decide (vs_Type (vol_Spec vol) = VolumeTypeKernelLVol) && is_local vol).
Definition sync_stage vol : nat :=
  if decide (vst_Status (vol_Status vol) = VolumeStatusReady) then 4
  else if decide (vs_Type (vol_Spec vol) = VolumeTypeFlexible) then 0
  else if negb (hasLogicVolFinalizer vol) then 1
  else if target_needed vol && negb (InSliceString SpdkTargetFinalizer (om_Finalizers (vol_meta vol))) then 2
  else 3.

(** The logical volume is on the node: the engine has it, or it was cloned. *)
Definition volume_there ps vol n : Prop :=
  has_volume n (om_Name (vol_meta vol)) ∨
  (is_Some (source_snap vol) ∧
   listed n (lvst_Name (sps_SpdkLVStore (sp_Spec (ps_Pool ps))) +:+ "/" +:+ om_Name (vol_meta vol)) = true).

(** The target is on the node: it can be connected to, and a file's device is
    there. *)
Definition target_there vol n (t : SpdkTarget) : Prop :=
  complete (tgt_SubsysNQN t) (subs n) ∧
  (vs_Type (vol_Spec vol) = VolumeTypeKernelLVol → listed n (tgt_BdevName t) = true).

(** What a pass may write, with the node as it is then. *)
Inductive sync_step ps vol n : Write AntstorVolume → Prop :=
| step_type t :
    sync_stage vol = 0%nat → t ≠ VolumeTypeFlexible →
    sync_step ps vol n (WUpdate (with_spec (vs_set_Type t) vol))
| step_logic vol' :
    sync_stage vol = 1%nat → volume_there ps vol n →
    vol_Status vol' = vol_Status vol → vol_meta vol' = vol_meta (add_finalizer LogicVolumeFinalizer vol) →
    vs_Type (vol_Spec vol') = vs_Type (vol_Spec vol) →
    sync_step ps vol n (WUpdate vol')
| step_target t vol' :
    sync_stage vol = 2%nat → target_there vol n t →
    vol' = add_finalizer SpdkTargetFinalizer (with_spec (vs_set_SpdkTarget (Some t)) vol) →
    sync_step ps vol n (WUpdate vol')
| step_ready :
    sync_stage vol = 3%nat → sync_step ps vol n (WUpdateStatus (vol_set_status VolumeStatusReady vol)).

Definition written (w : Write AntstorVolume) : option AntstorVolume :=
  match w with WUpdate v | WUpdateStatus v => Some v | _ => None end.

(** The pool's mode is one of the two, its lvstore has a name without a slash and
    its volumes no device path. *)
Record pool_ok ps : Prop := {
  po_mode : ps_Mode ps = PoolModeKernelLVM ∨ ps_Mode ps = PoolModeSpdkLVStore;
  po_lvs : split_slash (lvst_Name (sps_SpdkLVStore (sp_Spec (ps_Pool ps)))) = None;
  po_paths : ps_Mode ps = PoolModeSpdkLVStore →
    ∀ req st r st', pei_CreateVolume req st = Ret (inl r) st' → cvp_DevPath r = "";
}.
(** A volume the manager has placed: it has a name, a size, a host and an identity,
    and what its finalizers and type say it has. *)
Record vol_ok ps vol : Prop := {
  vk_fits : vs_Type (vol_Spec vol) = VolumeTypeSpdkLVol → ps_Mode ps = PoolModeSpdkLVStore;
  vk_state : InStateFinalizer ∈ om_Finalizers (vol_meta vol);
  vk_alive : om_DeletionTimestamp (vol_meta vol) = None;
  vk_settled : vol_label vol ExpansionOriginalSize = None;
  vk_name : om_Name (vol_meta vol) ≠ "";
  vk_size : is_uint64 (vs_SizeByte (vol_Spec vol)) ∧ (0 < vs_SizeByte (vol_Spec vol))%Z;
  vk_host : is_Some (vs_HostNode (vol_Spec vol));
  vk_uuid : GetSNFromUUID (vs_Uuid (vol_Spec vol)) ≠ "";
  vk_type : vs_Type (vol_Spec vol) ∈ [VolumeTypeFlexible; VolumeTypeKernelLVol; VolumeTypeSpdkLVol];
  vk_kernel : vs_Type (vol_Spec vol) = VolumeTypeKernelLVol → hasLogicVolFinalizer vol = true →
    is_Some (vs_KernelLvol (vol_Spec vol));
  vk_spdk : vs_Type (vol_Spec vol) = VolumeTypeSpdkLVol → hasLogicVolFinalizer vol = true →
    is_Some (vs_SpdkLvol (vol_Spec vol));
}.

Lemma stage_step ps vol n w vol' : sync_step ps vol n w → written w = Some vol' →
  (sync_stage vol < sync_stage vol')%nat.
Proof.
  intros [t H0 Ht|v H1 _ Hst Hm Hty|t v H2 _ ->|H3] [= <-].
  - rewrite H0. unfold sync_stage in H0 |- *. cbn -[hasLogicVolFinalizer target_needed InSliceString]. destruct (decide (vst_Status _ = _)); [done|].
    rewrite decide_False by done. clear H0.
    destruct (hasLogicVolFinalizer _), (target_needed _), (InSliceString _ _); cbn; lia.
  - rewrite H1. unfold sync_stage in H1 |- *. rewrite Hst, Hty. destruct (decide (vst_Status _ = _)); [done|].
    destruct (decide (vs_Type _ = _)); [done|].
    assert (hasLogicVolFinalizer v = true) as ->.
    { unfold hasLogicVolFinalizer. rewrite Hm. cbn. apply orb_true_iff. right.
      apply InSliceString_spec, elem_of_app. right. by left. }
    cbn [negb]. clear H1. destruct (target_needed _), (InSliceString _ _); cbn; lia.
  - rewrite H2. unfold sync_stage in H2 |- *. cbn -[hasLogicVolFinalizer target_needed InSliceString SpdkTargetFinalizer].
    destruct (decide (vst_Status _ = _)); [done|]. destruct (decide (vs_Type _ = _)); [done|].
    destruct (hasLogicVolFinalizer vol) eqn:Eh; [|done].
    assert (hasLogicVolFinalizer (add_finalizer SpdkTargetFinalizer
              (with_spec (vs_set_SpdkTarget (Some t)) vol)) = true) as ->.
    { revert Eh. unfold hasLogicVolFinalizer. cbn -[InSliceString].
      rewrite !orb_true_iff, !InSliceString_spec, !elem_of_app. tauto. }
    assert (InSliceString SpdkTargetFinalizer (om_Finalizers (vol_meta vol) ++ [SpdkTargetFinalizer]) = true) as ->.
    { apply InSliceString_spec, elem_of_app. right. by left. }
    cbn [negb]. rewrite andb_false_r. lia.
  - rewrite H3. unfold sync_stage. rewrite decide_True by done. lia.
Qed.

Lemma wp_allowed_hosts vol Q (st : SpdkService * N) k log :
  (∀ r k', Q r (st, (k', log))) → wp (allowed_hosts vol) Q (st, (k, log)).
Proof.
  intros HQ. unfold allowed_hosts. destruct (vs_HostNode _); [|apply HQ].
  destruct (decide _); [|apply HQ]. apply wp_bind, wp_ask; [apply an_get_pool|]. intros r k'. apply HQ.
Qed.

Lemma wp_expose a Q svc n (rk : RK) : alloc_wf (ss_idAlloc svc) → aio_named a →
  (∀ t e svc' n', alloc_wf (ss_idAlloc svc') → (e = None → exposed a n') → Q (t, e) ((svc', n'), rk)) →
  wp (node (ExposeAccess a)) Q ((svc, n), rk).
Proof.
  intros Hwf Ha HQ. apply wp_node, wp_run.
  destruct (ExposeAccess_run a svc n Hwf Ha) as (t & e & svc' & n' & Hr & Hw & _ & Hx).
  do 2 eexists. split; [exact Hr|]. by apply HQ.
Qed.

(** The host of a volume that is not ready yet is allowed, or the pass stops. *)
Lemma wp_apply vol Q svc n k log :
  vst_Status (vol_Status vol) ≠ VolumeStatusReady → alloc_wf (ss_idAlloc svc) →
  (∀ e svc' n' k', alloc_wf (ss_idAlloc svc') → Q (vol, e) ((svc', n'), (k', log))) →
  wp (applyVolume vol) Q ((svc, n), (k, log)).
Proof.
  intros Hst Hwf HQ. unfold applyVolume, apply_size.
  rewrite (bool_decide_eq_true_2 _ Hst), orb_true_r. apply wp_bind, wp_ret. cbn beta iota.
  destruct (vs_SpdkTarget _) as [t|]; [|by apply wp_ret, HQ].
  apply wp_bind, wp_allowed_hosts. intros [hosts|e] k1; [|by apply wp_ret, HQ].
  apply wp_bind, wp_expose; [done|by intros aio|]. intros tgt e svc1 n1 Hw1 _. by apply wp_ret, HQ.
Qed.

Definition create_post ps vol (err : option error) (st : (SpdkService * N) * RK) : Prop :=
  (st.2.2 = [] ∧ err ≠ None) ∨ ∃ w, st.2.2 = [w] ∧ sync_step ps vol st.1.2 w.

Lemma wp_engine_create req Q svc n (rk : RK) : alloc_wf (ss_idAlloc svc) → is_uint64 (cvr_SizeByte req) →
  (∀ r svc' n', alloc_wf (ss_idAlloc svc') →
     match r with inl _ => has_volume n' (cvr_VolName req) | inr _ => True end → Q r ((svc', n'), rk)) →
  wp (node (pei_CreateVolume req)) Q ((svc, n), rk).
Proof.
  intros Hwf Hs HQ. apply wp_node, wp_run.
  destruct (el_create req (svc, n) Hwf Hs) as (r & [svc' n'] & Hr & Hw & _ & Hg).
  do 2 eexists. split; [exact Hr|]. by apply HQ.
Qed.

(** The preparation: a request with the volume's name and size, or a clone. *)
Definition prepared ps vol (r : result (CreateVolumeRequest * AntstorVolume)) n : Prop :=
  match r with
  | inr _ => True
  | inl (req, vol') =>
      vol_Status vol' = vol_Status vol ∧ vol_meta vol' = vol_meta vol ∧
      vs_Type (vol_Spec vol') = vs_Type (vol_Spec vol) ∧
      (vs_Type (vol_Spec vol) = VolumeTypeKernelLVol → is_Some (vs_KernelLvol (vol_Spec vol'))) ∧
      ((cvr_VolName req = om_Name (vol_meta vol) ∧ cvr_SizeByte req = vs_SizeByte (vol_Spec vol)) ∨
       (req = no_request ∧ volume_there ps vol n))
  end.
Lemma wp_prepare ps vol Q svc n k log : pool_ok ps → alloc_wf (ss_idAlloc svc) →
  vs_Type (vol_Spec vol) ∈ [VolumeTypeKernelLVol; VolumeTypeSpdkLVol] →
  (∀ r svc' n' k', alloc_wf (ss_idAlloc svc') → prepared ps vol r n' → Q r ((svc', n'), (k', log))) →
  wp (prepare ps vol) Q ((svc, n), (k, log)).
Proof.
  intros [_ Hlvs _] Hwf Hty HQ. unfold prepare.
  destruct (decide (vs_Type (vol_Spec vol) = VolumeTypeKernelLVol)) as [Ek|Ek].
  { unfold prepare_kernel. destruct (opt_is_some _); [by apply wp_ret, HQ|].
    apply wp_ret, HQ; [done|]. cbn. split_and!; [done|done|done|by eexists|by left]. }
  rewrite decide_True by (apply elem_of_cons in Hty as [?|?%list_elem_of_singleton]; done).
  unfold prepare_spdk. destruct (source_snap vol) as [[ns name]|] eqn:Es.
  - unfold clone_source. apply wp_bind, wp_bind, wp_ask; [apply an_get_snap|].
    intros [snap|e] k1; [|by apply wp_ret, wp_ret, HQ]. apply wp_bind, wp_node, wp_run.
    destruct (CreateLvolClone_ensures {| clc_LVStore := lvst_Name (sps_SpdkLVStore (sp_Spec (ps_Pool ps)));
      clc_SnapName := sl_Name (ss_SpdkLvol (snap_Spec snap)); clc_CloneName := om_Name (vol_meta vol) |} Hlvs
      svc n Hwf I) as ([u e] & svc1 & n1 & Hr & Hw & Hm).
    pose proof (moves_done _ _ _ _ _ Hm) as Hd.
    do 2 eexists. split; [exact Hr|]. apply wp_ret, wp_ret, HQ; [done|]. cbn.
    destruct e; [done|]. split_and!; [done|done|done|by intros ?|]. right. split; [done|].
    right. rewrite Es. split; [eauto|]. by apply Hd.
  - apply wp_ret, HQ; [done|]. cbn. split_and!; [done|done|done|by intros ?|by left].
Qed.

(** Facts the stage tells. *)
Lemma stage_of_type vol : vst_Status (vol_Status vol) ≠ VolumeStatusReady →
  vs_Type (vol_Spec vol) = VolumeTypeFlexible → sync_stage vol = 0%nat.
Proof. intros Hs Ht. unfold sync_stage. by rewrite decide_False, decide_True. Qed.
Lemma stage_of_logic vol : vst_Status (vol_Status vol) ≠ VolumeStatusReady →
  vs_Type (vol_Spec vol) ≠ VolumeTypeFlexible → hasLogicVolFinalizer vol = false → sync_stage vol = 1%nat.
Proof. intros Hs Ht Hl. unfold sync_stage. by rewrite decide_False, decide_False, Hl. Qed.
Lemma stage_of_target vol : vst_Status (vol_Status vol) ≠ VolumeStatusReady →
  vs_Type (vol_Spec vol) ≠ VolumeTypeFlexible → hasLogicVolFinalizer vol = true →
  sync_stage vol = if target_needed vol && negb (InSliceString SpdkTargetFinalizer (om_Finalizers (vol_meta vol)))
                   then 2%nat else 3%nat.
Proof. intros Hs Ht Hl. unfold sync_stage. by rewrite decide_False, decide_False, Hl. Qed.

Lemma set_ready_step ps vol svc n k : sync_stage vol = 3%nat →
  wp (set_ready vol) (create_post ps vol) ((svc, n), (k, [])).
Proof.
  intros H3. unfold set_ready. apply wp_bind, wp_update_status. intros r k'. apply wp_ret. right.
  eexists. split; [reflexivity|]. by apply step_ready.
Qed.

(** The logical volume: one write that records it, or an error. *)
Lemma wp_createVolume ps vol svc n k : pool_ok ps → vol_ok ps vol → alloc_wf (ss_idAlloc svc) →
  vst_Status (vol_Status vol) ≠ VolumeStatusReady → vs_Type (vol_Spec vol) ≠ VolumeTypeFlexible →
  hasLogicVolFinalizer vol = false →
  wp (sync_createVolume ps vol) (λ r st, create_post ps vol r.2 st ∧ (r.1 = true ∨ r.2 ≠ None))
    ((svc, n), (k, [])).
Proof.
  intros Hps Hvol Hwf Hst Hty Hl. unfold sync_createVolume. rewrite Hl.
  apply wp_bind, wp_prepare; [done|done| |].
  { pose proof (vk_type _ _ Hvol) as Ht. rewrite elem_of_cons in Ht. naive_solver. }
  intros [[req vol1]|e] svc1 n1 k1 Hw1 Hp; [|apply wp_ret; split; [by left|by right]].
  destruct Hp as (Hs1 & Hm1 & Ht1 & Hk1 & Hreq).
  apply wp_bind.
  assert (∀ r svc2 n2 k2,
    match r with inl _ => volume_there ps vol n2 | inr _ => True end →
    (∀ resp, r = inl resp → cvp_DevPath resp ≠ "" → is_Some (vs_KernelLvol (vol_Spec vol1))) →
    wp match r with
       | inr e => mret (false, Some e)
       | inl resp => set_dev_path resp vol1 ≫= λ volume2,
           update_vol (add_finalizer LogicVolumeFinalizer volume2) ≫= λ err, mret (true, err)
       end (λ r st, create_post ps vol r.2 st ∧ (r.1 = true ∨ r.2 ≠ None)) ((svc2, n2), (k2, []))) as Hend.
  { intros [resp|e] svc2 n2 k2 Hthere Hdev; [|apply wp_ret; split; [by left|by right]].
    assert (∀ v, vol_Status v = vol_Status vol → vol_meta v = vol_meta vol →
              vs_Type (vol_Spec v) = vs_Type (vol_Spec vol) →
      wp (update_vol (add_finalizer LogicVolumeFinalizer v) ≫= λ err, mret (true, err))
         (λ r st, create_post ps vol r.2 st ∧ (r.1 = true ∨ r.2 ≠ None)) ((svc2, n2), (k2, []))) as Hup.
    { intros v Hsv Hmv Htv. apply wp_bind, wp_update. intros err k3. apply wp_ret. split; [|by left]. right.
      eexists. split; [reflexivity|]. apply step_logic; [by apply stage_of_logic|done|done| |done].
      unfold add_finalizer, vol_set_finalizers. cbn. by rewrite Hmv. }
    apply wp_bind. unfold set_dev_path. destruct (decide (cvp_DevPath resp ≠ "")) as [Hd|_].
    - destruct (Hdev resp eq_refl Hd) as [l El]. rewrite El. apply wp_bind, wp_deref, wp_ret. by apply Hup.
    - by apply wp_ret, Hup. }
  destruct Hreq as [[Hn Hsz]|[-> Hthere]].
  - rewrite decide_True by (rewrite Hn, Hsz; split; [apply Hvol|by eapply vk_name]).
    apply wp_node, wp_run.
    destruct (el_create req (svc1, n1) Hw1) as (r & [svc2 n2] & Hr & _ & _ & Hg); [rewrite Hsz; apply Hvol|].
    do 2 eexists. split; [exact Hr|]. apply Hend.
    + destruct r; [|done]. left. by rewrite <- Hn.
    + intros resp -> Hd. apply Hk1. pose proof (vk_type _ _ Hvol) as Ht.
      rewrite !elem_of_cons, elem_of_nil in Ht. destruct Ht as [?|[?|[Ht|[]]]]; [done|done|].
      destruct Hd. eapply (po_paths _ Hps); [by apply (vk_fits _ _ Hvol)|exact Hr].
  - apply wp_ret, (Hend (inl _)); [done|]. by intros resp [= <-].
Qed.

(** The target: one write that records it, or an error. *)
Lemma wp_expose_volume ps vol vol1 aio lvol svc n k : alloc_wf (ss_idAlloc svc) →
  sync_stage vol = 2%nat → (∃ t, vol1 = with_spec (vs_set_SpdkTarget (Some t)) vol ∧
    ∀ a, aio = Some a → aio_BdevName a = tgt_BdevName t ∧ aio_BdevName a ≠ "") →
  (vs_Type (vol_Spec vol) = VolumeTypeKernelLVol → is_Some aio) →
  wp (expose_volume vol1 aio lvol) (λ r st, create_post ps vol r.2 st ∧ (r.1 = true ∨ r.2 ≠ None))
    ((svc, n), (k, [])).
Proof.
  intros Hwf H2 (t & -> & Haio) Hker. unfold expose_volume. apply wp_bind, wp_allowed_hosts.
  intros [hosts|e] k1; [|apply wp_ret; split; [by left|by right]].
  apply wp_bind. cbn [with_spec vol_set_Spec vol_Spec vs_set_SpdkTarget vs_SpdkTarget]. apply wp_deref.
  apply wp_bind, wp_expose; [done|intros a [= ->]; by apply (Haio a)|].
  intros resp [e|] svc1 n1 Hw1 Hx; [apply wp_ret; split; [by left|by right]|].
  specialize (Hx eq_refl). apply wp_bind, wp_update. intros err k2. apply wp_ret. split; [|by left]. right.
  eexists. split; [reflexivity|]. eapply step_target; [done| |reflexivity]. split; [apply Hx|].
  intros Hk. destruct (Hker Hk) as [a ->]. cbn. destruct (Haio a eq_refl) as [<- _]. by apply (ex_bdev _ _ Hx).
Qed.

Lemma wp_createOpenAccess ps vol svc n k : vol_ok ps vol → alloc_wf (ss_idAlloc svc) →
  vst_Status (vol_Status vol) ≠ VolumeStatusReady → vs_Type (vol_Spec vol) ≠ VolumeTypeFlexible →
  hasLogicVolFinalizer vol = true →
  wp (createOpenAccess ps vol) (λ r st,
      (r = (false, None) ∧ sync_stage vol = 3%nat ∧ alloc_wf (ss_idAlloc st.1.1) ∧ st.2.2 = []) ∨
      (create_post ps vol r.2 st ∧ (r.1 = true ∨ r.2 ≠ None)))
    ((svc, n), (k, [])).
Proof.
  intros Hvol Hwf Hst Hty Hl. pose proof (stage_of_target vol Hst Hty Hl) as Hstage. unfold createOpenAccess.
  destruct (vk_host _ _ Hvol) as [host Eh]. rewrite Eh. apply wp_bind, wp_deref.
  destruct (decide (ni_IP _ = "")) as [_|_]; [apply wp_ret; right; split; [by left|by right]|].
  destruct (InSliceString SpdkTargetFinalizer _) eqn:Et.
  { apply wp_ret. left. rewrite Hstage, andb_false_r. done. }
  destruct (decide (vs_Uuid _ = "")) as [_|_]; [apply wp_ret; right; split; [by left|by right]|].
  assert (is_local vol = bool_decide (vs_TargetNodeId (vol_Spec vol) = ni_ID host)) as Hloc
    by (unfold is_local; by rewrite Eh).
  rewrite <- Hloc. unfold target_needed in Hstage.
  pose proof (vk_type _ _ Hvol) as Ht. rewrite !elem_of_cons, elem_of_nil in Ht.
  destruct Ht as [?|[Ek|[Es|[]]]]; [done| |].
  - rewrite Ek in Hstage |- *. rewrite decide_True by done. rewrite bool_decide_eq_true_2 in Hstage by done.
    destruct (is_local vol); [by apply wp_ret; left|].
    destruct (vk_kernel _ _ Hvol Ek Hl) as [l ->]. apply wp_bind, wp_deref.
    destruct (decide (kl_DevPath l = "")) as [_|_]; [apply wp_ret; right; split; [by left|by right]|].
    eapply wp_mono; [apply (wp_expose_volume ps); [done|exact Hstage| |by eexists]|intros r st H; by right].
    eexists. split; [reflexivity|]. intros a [= <-]. split; [done|]. by eapply vk_uuid.
  - rewrite Es in Hstage |- *. rewrite decide_False, decide_True by done.
    rewrite bool_decide_eq_false_2 in Hstage by done. cbn [andb negb] in Hstage.
    destruct (vk_spdk _ _ Hvol Es Hl) as [l ->]. apply wp_bind, wp_deref.
    eapply wp_mono; [apply (wp_expose_volume ps); [done|exact Hstage| |by rewrite Es]|intros r st H; by right].
    eexists. split; [reflexivity|]. by intros a.
Qed.

(** C4. The finalizers and the status of a volume being created tell the truth,
    whatever the API server answers. A pass over a placed volume that is not ready
    always returns; it writes the volume at most once, and only one step further:
    its type, the finalizer of the logical volume when the engine has the volume
    (or the clone is there), the finalizer of the target when a target of its name
    can be connected to (with the file's device there for LVM), and the status
    [ready] when both are recorded or the target is not needed. Without an error
    one such step is written, so four passes are enough. *)
Theorem creation_truthful ps vol svc n k :
  pool_ok ps → vol_ok ps vol → alloc_wf (ss_idAlloc svc) →
  vst_Status (vol_Status vol) ≠ VolumeStatusReady →
  ∃ err svc' n' k' log,
    syncOneVolume ps vol ((svc, n), (k, [])) = Ret err ((svc', n'), (k', log)) ∧
    ((log = [] ∧ err ≠ None) ∨
     ∃ w vol', log = [w] ∧ written w = Some vol' ∧ sync_step ps vol n' w ∧
       (sync_stage vol < sync_stage vol' <= 4)%nat).
Proof.
  intros Hps Hvol Hwf Hst.
  assert (wp (syncOneVolume ps vol) (create_post ps vol) ((svc, n), (k, []))) as H.
  { unfold syncOneVolume. pose proof (vk_state _ _ Hvol) as Hin. apply InSliceString_spec in Hin.
    rewrite Hin, (vk_alive _ _ Hvol). cbn [negb opt_is_some].
    unfold expandVolume. rewrite (vk_settled _ _ Hvol). apply wp_bind, wp_ret.
    apply wp_bind, wp_apply; [done|done|]. intros [e|] svc1 n1 k1 Hw1; [apply wp_ret; by left|].
    rewrite decide_False by done.
    destruct (decide (vs_Type (vol_Spec vol) = VolumeTypeFlexible)) as [Hf|Hf].
    - unfold updateVolumeType. apply wp_update. intros err k2. right. eexists. split; [reflexivity|].
      destruct (decide (ps_Mode ps = PoolModeKernelLVM)) as [_|Hm].
      { apply step_type; [by apply stage_of_type|done]. }
      rewrite decide_True by (by destruct (po_mode _ Hps)). apply step_type; [by apply stage_of_type|done].
    - unfold sync_create. apply wp_bind. destruct (hasLogicVolFinalizer vol) eqn:El.
      + unfold sync_createVolume. rewrite El. apply wp_ret. cbn [opt_is_some orb].
        apply wp_bind. eapply wp_mono; [by apply wp_createOpenAccess|].
        intros [b e] [[svc2 n2] [k2 log]] [(Hr & H3 & Hw2 & Hlog)|[Hp Hor]].
        * injection Hr as -> ->. cbn in Hlog. subst log. by apply set_ready_step.
        * cbn in Hor. replace (opt_is_some e || b) with true by (destruct e, b; naive_solver). exact Hp.
      + eapply wp_mono; [by apply wp_createVolume|].
        intros [b e] st2 [Hp Hor]. cbn in Hor.
        replace (opt_is_some e || b) with true by (destruct e, b; naive_solver). exact Hp. }
  apply wp_run in H as (err & [[svc' n'] [k' log]] & Hr & Hp). exists err, svc', n', k', log. split; [done|].
  destruct Hp as [Hp|(w & Hlog & Hstep)]; [by left|]. right.
  assert (∃ vol', written w = Some vol') as [vol' Hvol'] by (destruct Hstep; eauto).
  exists w, vol'. split; [exact Hlog|]. split; [done|]. split; [exact Hstep|].
  split; [by eapply stage_step|]. unfold sync_stage. repeat case_match; lia.
Qed.
End sync_spec.

(** ** A node in memory *)

(** A server that has no object of a kind. *)
Definition no_objects {K T} : KubeClient K T := {|
  kGet _ name := mret (inr (ErrAPI ReasonNotFound name));
  kCreate _ := mret (inr (ErrAPI ReasonOther "refused"));
  kUpdate o := mret (inr (ErrAPI ReasonNotFound "gone"));
  kUpdateStatus o := mret (inr (ErrAPI ReasonNotFound "gone"));
  kPatch _ o := mret (inr (ErrAPI ReasonNotFound "gone"));
  kPatchStatus _ o := mret (inr (ErrAPI ReasonNotFound "gone"));
  kDelete _ := mret (Some (ErrAPI ReasonNotFound "gone"));
|}.

Module SyncExample.
#[local] Existing Instance NanoLib.
Abbreviation Store := (MemStore AntstorVolume).
(** Every pool announces the same host name. *)
Definition host_pool : StoragePool :=
  sp_set_meta (om_set_Annotations (Some {[ AnnotationHostNQN := "host-nqn" ]}) ObjectMeta_zero) StoragePool_zero.
#[export] Instance pools : KubeClient Store StoragePool := {|
  kGet _ _ := mret (inl host_pool);
  kCreate := kCreate (KubeClient := no_objects); kUpdate := kUpdate (KubeClient := no_objects);
  kUpdateStatus := kUpdateStatus (KubeClient := no_objects); kPatch := kPatch (KubeClient := no_objects);
  kPatchStatus := kPatchStatus (KubeClient := no_objects); kDelete := kDelete (KubeClient := no_objects);
|}.
#[export] Instance snaps : KubeClient Store AntstorSnapshot := no_objects.
#[export] Instance snap_list : KubeLister Store AntstorSnapshot := {| kList _ _ := mret (inl []) |}.
#[export] Instance lister : TargetLister Store := {| lister_AddObject _ := mret tt; lister_DeleteObject _ := mret tt |}.
#[export] Instance engine : PoolEngineIface (SpdkService * FakeNode) := lvs_engine "lvs".
#[export] Instance engine_laws : EngineLaws engine := lvs_laws "lvs".

Lemma answers : ServerAnswers MemClient pools snaps snap_list lister.
Proof.
  split; intros * m; cbn; unfold mem_write; repeat case_match; eauto.
Qed.

Definition ps : PoolService := {|
  ps_Mode := PoolModeSpdkLVStore;
  ps_Pool := {| sp_meta := ObjectMeta_zero;
    sp_Spec := {| sps_KernelLVM := KernelLVM_zero;
      sps_SpdkLVStore := {| lvst_Name := "lvs"; lvst_UUID := ""; lvst_BaseBdev := ""; lvst_Bytes := 0;
        lvst_ClusterSize := 0; lvst_TotalDataCluster := 0; lvst_BlockSize := 0 |};
      sps_Addresses := [];
      sps_NodeInfo := {| ni_ID := "node-1"; ni_IP := "10.0.0.1"; ni_Hostname := ""; ni_Labels := None |} |};
    sp_Status := sp_Status StoragePool_zero |} |}.
Definition vol : AntstorVolume := {|
  vol_meta := om_set_Finalizers [InStateFinalizer]
    {| om_Name := "vol-1"; om_Namespace := "obnvmf"; om_UID := "uid"; om_CreationTimestamp := 0;
       om_DeletionTimestamp := None; om_Labels := None; om_Annotations := None; om_OwnerReferences := [];
       om_Finalizers := [] |};
  vol_Spec := vs_set_HostNode (Some {| ni_ID := "node-2"; ni_IP := "10.0.0.2"; ni_Hostname := ""; ni_Labels := None |})
    (vs_set_TargetNodeId "node-1" (vs_set_Type VolumeTypeFlexible (vs_set_SizeByte 8388608
      (vs_set_Uuid "0b1f-77" AntstorVolumeSpec_zero))));
  vol_Status := AntstorVolumeStatus_zero |}.

Lemma ps_ok : pool_ok ps.
Proof.
  split; [by right|done|]. intros _ req [svc n] r st'. cbn [pei_CreateVolume engine lvs_engine].
  unfold lvs_CreateVolume. intros ([u e] & st1 & _ & H)%go_bind_inv. destruct e; [done|]. by injection H as <- _.
Qed.
Lemma vol_1_ok : vol_ok ps vol.
Proof. split; first [done|by left|by eexists|split; [by vm_compute|done]]. Qed.

(** Four passes, each over the volume the server holds. *)
Definition pass (st : (SpdkService * FakeNode) * Store) : (SpdkService * FakeNode) * Store :=
  run_state (syncOneVolumeByName ps "obnvmf/vol-1" st).
Definition start : (SpdkService * FakeNode) * Store :=
  ((ex_service, ex_node), {[ ("obnvmf", "vol-1") := vol ]}).
Example four_passes :
  let st := pass (pass (pass (pass start))) in
  (vst_Status ∘ vol_Status) <$> (st.2 !! ("obnvmf", "vol-1")) = Some VolumeStatusReady ∧
  elements (dom (fn_bdevs st.1.2)) = ["lvs/vol-1"] ∧
  (λ s, (sub_NQN s, sub_Hosts s)) <$> fn_subs st.1.2 =
    [("nqn-0", []); ("nqn.2021-03.com.alipay.ob:uuid:0b1f-77", ["host-nqn"])].
Proof. vm_compute. auto. Qed.

(** The volume, ready, when it is deleted. *)
Definition deleted (v : AntstorVolume) : AntstorVolume :=
  vol_set_meta {| om_Name := om_Name (vol_meta v); om_Namespace := om_Namespace (vol_meta v);
    om_UID := om_UID (vol_meta v); om_CreationTimestamp := 0; om_DeletionTimestamp := Some 100%Z;
    om_Labels := None; om_Annotations := None; om_OwnerReferences := []; om_Finalizers := om_Finalizers (vol_meta v) |} v.
Definition vol_deleted : AntstorVolume :=
  deleted (add_finalizer SpdkTargetFinalizer (add_finalizer LogicVolumeFinalizer
    (with_spec (vs_set_SpdkTarget (Some (kernel_target "10.0.0.1" "0b1f-77"))) vol))).
End SyncExample.
Import SyncExample.

Lemma creation_truthful_witness :
  ∃ err st, syncOneVolume (KV := Recording MemClient id) (KP := client_fst SyncExample.pools)
      (KS := client_fst SyncExample.snaps)
      (LS := {| kList ns sel := on_fst (kList (KubeLister := SyncExample.snap_list) ns sel) |})
      (TL := {| lister_AddObject v := on_fst (lister_AddObject (TargetLister := SyncExample.lister) v);
                lister_DeleteObject x := on_fst (lister_DeleteObject (TargetLister := SyncExample.lister) x) |})
      SyncExample.ps SyncExample.vol ((ex_service, ex_node), ((∅ : SyncExample.Store), [])) = Ret err st.
Proof.
  destruct (creation_truthful (HA := SyncExample.answers) SyncExample.ps SyncExample.vol ex_service ex_node
    (∅ : SyncExample.Store) SyncExample.ps_ok SyncExample.vol_1_ok ex_service_wf)
    as (err & svc' & n' & k' & log & H & _); [discriminate|].
  exists err, ((svc', n'), (k', log)). exact H.
Defined.

Lemma deletion_truthful_witness :
  ∃ err st, syncOneVolume (KV := Recording MemClient id) (KP := client_fst SyncExample.pools)
      (KS := client_fst SyncExample.snaps)
      (LS := {| kList ns sel := on_fst (kList (KubeLister := SyncExample.snap_list) ns sel) |})
      (TL := {| lister_AddObject v := on_fst (lister_AddObject (TargetLister := SyncExample.lister) v);
                lister_DeleteObject x := on_fst (lister_DeleteObject (TargetLister := SyncExample.lister) x) |})
      SyncExample.ps SyncExample.vol_deleted ((ex_service, ex_node), ((∅ : SyncExample.Store), [])) = Ret err st.
Proof.
  destruct (deletion_truthful (HA := SyncExample.answers) SyncExample.ps SyncExample.vol_deleted ex_service ex_node
    (∅ : SyncExample.Store) ex_service_wf) as (err & svc' & n' & k' & log & H & _).
  - by eexists.
  - by left.
  - by intros t [= <-].
  - exists err, ((svc', n'), (k', log)). exact H.
Defined.
