(* ===== verification/Nvme.v ===== *)
(** * The nvme command

    [pkg/spdk/jsonrpc/nvme]: the client of the [nvme] command line tool: its
    arguments, and what is made of its reports. Running the tool and decoding its
    JSON is the class [NvmeExec]. *)

From Stdlib Require Import ZArith Lia.
From stdpp Require Import base gmap strings option list.
From S2P Require Import Prelude Strconv.

(** [strings.SplitN(s, c, 2)] with both parts, if [c] occurs. *)
Fixpoint split_at (c : Ascii.ascii) (s : string) : option (string * string) :=
  match s with
  | EmptyString => None
  | String x s' =>
      if decide (x = c) then Some ("", s')
      else match split_at c s' with Some (a, b) => Some (String x a, b) | None => None end
  end.
(** [strings.SplitN(s, c, n)]: at most [n] parts, the last one with the rest. *)
Fixpoint SplitN (c : Ascii.ascii) (s : string) (n : nat) : list string :=
  match n with
  | O => []
  | S O => [s]
  | S m => match split_at c s with Some (a, b) => a :: SplitN c b m | None => [s] end
  end.
(** [strings.Split(s, c)]: there are no more parts than characters and one. *)
Definition Split (c : Ascii.ascii) (s : string) : list string := SplitN c s (S (String.length s)).
Definition space : Ascii.ascii := Ascii.ascii_of_nat 32.
Definition equals_sign : Ascii.ascii := Ascii.ascii_of_nat 61.

(* [nvme/types.go:3-10] NvmeDevice *)
Record NvmeDevice := { nd_DevicePath : string; nd_SerialNumber : string }.
(* [nvme/types.go:61-72] Path *)
Record NvmePath := {
  np_Name : string; np_Transport : string; np_Address : string; np_State : string; np_PathState : string }.
(* [nvme/types.go:52-59] SubsystemItem *)
Record SubsystemItem := { si_Name : string; si_NQN : string; si_Paths : list NvmePath }.
(* [nvme/nvme.go:81-87] ConnectTargetOpts *)
Record ConnectTargetOpts := { cto_ReconnectDelaySec : Z; cto_CtrlLossTMO : Z; cto_HostTransAddr : string }.
(* [nvme/nvme.go:18-22] DisconnectTargetRequest *)
Record DisconnectTargetRequest := { dtr_NQN : string; dtr_TrAddr : string; dtr_SvcID : string }.

(** The tool: [nvme list], [nvme list-subsys] with their JSON decoded, and the
    commands that only succeed or fail. *)
Class NvmeExec (W : Type) := {
  nvme_list : go W (result (list NvmeDevice));
  nvme_list_subsys : go W (result (list SubsystemItem));
  nvme_run : list string → go W (option error);
}.

(** An entry with a name is followed by the one that has its paths. *)
(* [nvme/nvme.go:156-166] formatSybsysList *)
Fixpoint formatSybsysList (rawList : list SubsystemItem) : list SubsystemItem :=
  match rawList with
  | [] => []
  | firstOne :: rest =>
      match rest with
      | paths :: _ =>
          if decide (si_NQN firstOne ≠ "")
          then {| si_Name := si_Name firstOne; si_NQN := si_NQN firstOne; si_Paths := si_Paths paths |}
               :: formatSybsysList rest
          else formatSybsysList rest
      | [] => []
      end
  end.

(* [nvme/nvme.go:168-183] ParseNvmePathAddress *)
Definition ParseNvmePathAddress (addr : string) : string * string :=
  foldl (λ acc item,
      match split_at equals_sign item with
      | Some (k, v) => if decide (k = "traddr") then (v, acc.2)
                       else if decide (k = "trsvcid") then (acc.1, v) else acc
      | None => acc
      end) ("", "") (Split space addr).

(* [nvme/version.go:21-25] NvmfVersion *)
Record NvmfVersion := { nv_Version : string; nv_Commit : string; nv_Time : string }.
(* [nvme/version.go:71-83] parseNVMeTCPVersion *)
Definition parseNVMeTCPVersion (raw : string) : NvmfVersion :=
  let parts := SplitN space raw 4 in
  {| nv_Version := default "" (parts !! 1%nat); nv_Commit := default "" (parts !! 2%nat);
     nv_Time := default "" (parts !! 3%nat) |}.

(* [nvme/nvme.go:89-111] CmdClient.ConnectTarget, the arguments *)
Definition connect_args (transType transAddr svcID nqn : string) (opt : ConnectTargetOpts) : list string :=
  ["connect"; "-t"; transType; "-a"; transAddr; "-s"; svcID; "-n"; nqn]
  ++ (if decide (0 < cto_ReconnectDelaySec opt)%Z then ["--reconnect-delay"; Itoa (cto_ReconnectDelaySec opt)] else [])
  ++ (if decide (0 < cto_CtrlLossTMO opt)%Z then ["--ctrl-loss-tmo"; Itoa (cto_CtrlLossTMO opt)] else [])
  ++ (if decide (cto_HostTransAddr opt ≠ "") then ["-w"; cto_HostTransAddr opt] else []).
Definition disconnect_args (req : DisconnectTargetRequest) : list string :=
  ["disconnect"; "-n"; dtr_NQN req]
  ++ (if decide (dtr_TrAddr req ≠ "") then ["-a"; dtr_TrAddr req] else [])
  ++ (if decide (dtr_SvcID req ≠ "") then ["-s"; dtr_SvcID req] else []).

Section client.
Context {W : Type} {X : NvmeExec W}.

(* [nvme/nvme.go:89-111] CmdClient.ConnectTarget *)
Definition ConnectTarget (transType transAddr svcID nqn : string) (opt : ConnectTargetOpts) : go W (option error) :=
  nvme_run (connect_args transType transAddr svcID nqn opt).
(* [nvme/nvme.go:113-133] CmdClient.DisconnectTarget *)
Definition DisconnectTarget (req : DisconnectTargetRequest) : go W (option error) :=
  if decide (dtr_NQN req = "") then mret (Some (ErrNew "invalid param")) else nvme_run (disconnect_args req).
(* [nvme/nvme.go:135-154] CmdClient.ListSubsystems *)
Definition ListSubsystems : go W (result (list SubsystemItem)) :=
  r ← nvme_list_subsys;
  mret match r with inr e => inr e | inl raw => inl (formatSybsysList raw) end.
(* [nvme/nvme.go:60-79] CmdClient.ListNvmeDisk *)
Definition ListNvmeDisk : go W (result (list NvmeDevice)) := nvme_list.
End client.

Example ex_parse_address :
  ParseNvmePathAddress "traddr=100.100.100.1 trsvcid=20002 xxx=yyy" = ("100.100.100.1", "20002") ∧
  ParseNvmePathAddress "trsvcid=xxx" = ("", "xxx") ∧ ParseNvmePathAddress "" = ("", "").
Proof. vm_compute. auto. Qed.
Example ex_parse_version :
  parseNVMeTCPVersion "alinvme v0.0.8 a4e115c 2022-11-17 18:44:03" =
    {| nv_Version := "v0.0.8"; nv_Commit := "a4e115c"; nv_Time := "2022-11-17 18:44:03" |}.
Proof. vm_compute. reflexivity. Qed.
