(* ===== verification/MigrationNode.v ===== *)
(** * The other two sides of a migration

    [pkg/agent/sync/sync_migration.go] on the node of the source volume connects
    the destination as a block device, starts the copying, and cleans up;
    [pkg/host-nvme/sync_migration.go] on the host connects it to the destination
    and reports when its path is in use. Both record what they did in the
    migration; the manager's reconciler of [MigrationReconciler.v] reads it. *)

From Stdlib Require Import ZArith Lia.
From stdpp Require Import base gmap strings option list.
From S2P Require Import Prelude Strconv Float64 Misc K8s Api Spdk SpdkBdev Plugin Server MigrationReconciler VolumeSync Nvme.

Definition MigrateTaskStatusCompleted : string := "completed".

Definition mig_set_mig_info (i : MigrationInfo) (m : VolumeMigration) : VolumeMigration :=
  mig_set_Spec (ms_set_MigrationInfo i (mig_Spec m)) m.
Definition mig_set_finalizers (f : list string) (m : VolumeMigration) : VolumeMigration :=
  mig_set_meta (om_set_Finalizers f (mig_meta m)) m.
Definition drop_finalizer (x : string) (m : VolumeMigration) : VolumeMigration :=
  mig_set_finalizers (List.filter (λ item, negb (bool_decide (item = x))) (om_Finalizers (mig_meta m))) m.
Definition append_finalizer (x : string) (m : VolumeMigration) : VolumeMigration :=
  mig_set_finalizers (om_Finalizers (mig_meta m) ++ [x]) m.
Definition wait {S} (d : Z) : go S MigReply := mret (RequeueAfter d, None).
Definition done_reply {S} : go S MigReply := mret (CtrlResult_zero, None).
Definition failed {S} (e : error) : go S MigReply := mret (CtrlResult_zero, Some e).

(** ** The agent *)

Section agent.
Context {N K : Type} {RPC : SpdkRpc N} {BR : BdevRpc N}.
Context {KM : KubeClient K VolumeMigration} {KV : KubeClient K AntstorVolume}.
Abbreviation AM := (go ((SpdkService * N) * K)).

(** The destination, connected as a controller. *)
(* [sync/sync_migration.go:112-122] MigrationReconciler.Reconcile, the request to attach *)
Definition attach_request (destVolume : AntstorVolume) (t : SpdkTarget) : AttachDestBdevRequest := {|
  adb_ControllerName := vol_Name destVolume;
  adb_Target := {| sti_NQN := tgt_SubsysNQN t; sti_AddrFam := AddrFamilyIPv4; sti_IPAddr := tgt_Address t;
                   sti_TransType := TransportTypeTCP; sti_SvcID := tgt_SvcID t |} |}.
(* [sync/sync_migration.go:128-137] MigrationReconciler.Reconcile, what step 2 records *)
Definition pipe_up (destVolume : AntstorVolume) (m : VolumeMigration) : VolumeMigration :=
  append_finalizer MigrationFinalizerPipeConnected
    (mig_set_mig_info (mi_set_MigrationPipe
       {| mp_DestBdevName := vol_Name destVolume +:+ "n1"; mp_Status := ConnectStatusConnected |} (mig_info m)) m).
(* [sync/sync_migration.go:265-273] MigrationReconciler.Reconcile, what step 5 records *)
Definition pipe_down (m : VolumeMigration) : VolumeMigration :=
  drop_finalizer MigrationFinalizerPipeConnected
    (mig_set_mig_info (mi_set_MigrationPipe
       {| mp_DestBdevName := mp_DestBdevName (mi_MigrationPipe (mig_info m));
          mp_Status := ConnectStatusDisconnected |} (mig_info m)) m).

(* [sync/sync_migration.go:108-149] MigrationReconciler.Reconcile, steps 2 and 3 *)
Definition agent_setup (destVolume : AntstorVolume) (m : VolumeMigration) : AM (option MigReply * VolumeMigration) :=
  '(err, m1) ← (if decide (mig_phase m = MigrationPhaseSetupPipe ∧
                          mp_DestBdevName (mi_MigrationPipe (mig_info m)) = "") then
      t ← deref "Spec.SpdkTarget" (vs_SpdkTarget (vol_Spec destVolume));
      e ← node (EnsureMigrationDestBdev (attach_request destVolume t));
      match e with
      | Some e => mret (Some e, m)
      | None => r ← api (kUpdate (pipe_up destVolume m));
                mret (match r with inl _ => None | inr e => Some e end, pipe_up destVolume m)
      end
    else mret (None, m));
  mret match err with
       | Some e => (Some (CtrlResult_zero, Some e), m1)
       | None =>
           if decide (mig_phase m1 = MigrationPhaseSetupPipe ∧
                      mi_HostConnectStatus (mig_info m1) ≠ ConnectStatusConnected)
           then (Some (RequeueAfter (30 * Second), None), m1)
           else (None, m1)
       end.

(* [sync/sync_migration.go:185-194] MigrationReconciler.Reconcile, the progress *)
Definition task_progress (src dst : string) (task : MigrateTask) : JobProgress := {|
  jp_SrcBdev := src; jp_DstBdev := dst; jp_Status := mt_Status task;
  jp_TotalWritePages := mt_TotalWritePages task; jp_TotalReadPages := mt_TotalReadPages task;
  jp_RoundPassed := mt_RoundPassed task; jp_ElapsedTimeMs := mt_TimeElapsedMS task;
  jp_IsLastRound := mt_IsLastRound task |}.

(** Enabling the switch once a round has passed: whether to go on, and the
    migration. *)
(* [sync/sync_migration.go:201-222] MigrationReconciler.Reconcile, the switch *)
Definition agent_switch (src dst : string) (m : VolumeMigration) : AM (option MigReply * VolumeMigration) :=
  if as_Enabled (mi_AutoSwitch (mig_info m)) then mret (None, m)
  else if decide (0 < jp_RoundPassed (mi_JobProgress (mig_info m)))%Z then
    e ← node (SetMigrationConfig {| mcr_SrcBdev := src; mcr_DstBdev := dst; mcr_AutoSwitch := true;
                                    mcr_LastRoundExtends := 0; mcr_LastRoundSize := 0 |});
    mret match e with
         | Some e => (Some (CtrlResult_zero, Some e), m)
         | None => (None, mig_set_mig_info (mi_set_AutoSwitch
                     {| as_Enabled := true; as_Status := ResultStatusUnknown |} (mig_info m)) m)
         end
  else mret (Some (RequeueAfter (15 * Second), None), m).

(* [sync/sync_migration.go:151-237] MigrationReconciler.Reconcile, step 4 *)
Definition agent_sync (srcVolume : AntstorVolume) (m : VolumeMigration) : AM MigReply :=
  lvol ← deref "Spec.SpdkLvol" (vs_SpdkLvol (vol_Spec srcVolume));
  let src := SpdkLvol_FullName lvol in
  let dst := mp_DestBdevName (mi_MigrationPipe (mig_info m)) in
  r ← node (GetMigrationTask src false);
  match r with
  | inr e => failed e
  | inl [] =>
      e ← node (StartMigrationTask {| msr_SrcBdev := src; msr_DstBdev := dst; msr_AutoSwitch := false |});
      mret (RequeueAfter (10 * Second), e)
  | inl (task :: _) =>
      let elapsed := jp_ElapsedTimeMs (mi_JobProgress (mig_info m)) in
      let m1 := mig_set_mig_info (mi_set_JobProgress (task_progress src dst task) (mig_info m)) m in
      if decide (mt_Status task ≠ MigrateTaskStatusCompleted ∧
                 wrap64 (mt_TimeElapsedMS task - elapsed) < 10 * 1000)%Z
      then wait (30 * Second)
      else
        '(stop, m2) ← agent_switch src dst m1;
        match stop with
        | Some rep => mret rep
        | None =>
            r ← api (kPatch m m2);
            match r with
            | inr e => failed e
            | inl _ => wait (30 * Second)
            end
        end
  end.

(* [sync/sync_migration.go:239-279] MigrationReconciler.Reconcile, step 5 *)
Definition agent_clean (srcVolume destVolume : AntstorVolume) (m : VolumeMigration) : AM MigReply :=
  if decide (mp_Status (mi_MigrationPipe (mig_info m)) = ConnectStatusConnected) then
    lvol ← deref "Spec.SpdkLvol" (vs_SpdkLvol (vol_Spec srcVolume));
    e ← node (CleanMigrationTask {| msr_SrcBdev := SpdkLvol_FullName lvol;
           msr_DstBdev := mp_DestBdevName (mi_MigrationPipe (mig_info m)); msr_AutoSwitch := false |});
    match e with
    | Some e => failed e
    | None =>
        e ← node (DetachMigrationDestBdev (vol_Name destVolume));
        match e with
        | Some e => failed e
        | None =>
            r ← api (kUpdate (pipe_down m));
            match r with inr e => failed e | inl _ => done_reply end
        end
    end
  else done_reply.

(* [sync/sync_migration.go:54-282] MigrationReconciler.Reconcile *)
Definition agent_mig_Reconcile (req : Request) : AM MigReply :=
  r ← api (kGet (T := VolumeMigration) (rq_Namespace req) (rq_Name req));
  match r with
  | inr err => mret (CtrlResult_zero, IgnoreNotFound (Some err))
  | inl m =>
      if opt_is_some (om_DeletionTimestamp (mig_meta m)) then done_reply
      else if decide (vi_Name (mig_dest m) = "" ∨ vi_Namespace (mig_dest m) = "") then wait Minute
      else
        r ← api (kGet (T := AntstorVolume) (vi_Namespace (mig_dest m)) (vi_Name (mig_source m)));
        match r with
        | inr e => failed e
        | inl srcVolume =>
            r ← api (kGet (T := AntstorVolume) (vi_Namespace (mig_dest m)) (vi_Name (mig_dest m)));
            match r with
            | inr e => if IsNotFound e then wait Minute else failed e
            | inl destVolume =>
                if decide (vst_Status (vol_Status destVolume) ≠ VolumeStatusReady) then wait (30 * Second)
                else if decide (vs_Type (vol_Spec destVolume) ≠ VolumeTypeSpdkLVol) then done_reply
                else
                  '(stop, m1) ← agent_setup destVolume m;
                  match stop with
                  | Some rep => mret rep
                  | None =>
                      if decide (mig_phase m1 = MigrationPhaseSyncing) then agent_sync srcVolume m1
                      else if decide (mig_phase m1 = MigrationPhaseCleaning) then agent_clean srcVolume destVolume m1
                      else done_reply
                  end
            end
        end
  end.
End agent.

(** ** The host *)

Section host.
Context {W : Type} {X : NvmeExec W}.
Context {KM : KubeClient W VolumeMigration} {KV : KubeClient W AntstorVolume}.

(** Whether a path of a subsystem of that name satisfies [ok]: of every such
    subsystem the search stops at the first path that does, and the last
    subsystem decides. *)
(* [host-nvme/sync_migration.go:126-136] MigrationReconciler.Reconcile, the search for a path *)
Definition path_test (nqn : string) (ok : NvmePath → bool) (list : list SubsystemItem) : bool :=
  foldl (λ acc item,
      if decide (si_NQN item = nqn) then
        match si_Paths item with
        | [] => acc
        | paths => existsb ok paths
        end
      else acc) false list.

Definition at_address (t : SpdkTarget) (path : NvmePath) : bool :=
  let '(addr, svcId) := ParseNvmePathAddress (np_Address path) in
  bool_decide (addr = tgt_Address t) && bool_decide (svcId = tgt_SvcID t).
Definition working_at (t : SpdkTarget) (path : NvmePath) : bool :=
  bool_decide (np_PathState path = "working") && at_address t path.

Definition host_update (m : VolumeMigration) (reply : MigReply) : go W MigReply :=
  r ← kUpdate m; match r with inr e => failed e | inl _ => mret reply end.

(* [host-nvme/sync_migration.go:161-162] MigrationReconciler.Reconcile, what step 2 records *)
Definition host_up (m : VolumeMigration) : VolumeMigration :=
  append_finalizer MigrationFinalizerHostConnected
    (mig_set_mig_info (mi_set_HostConnectStatus ConnectStatusConnected (mig_info m)) m).
(* [host-nvme/sync_migration.go:268-276] MigrationReconciler.Reconcile, what step 5 records *)
Definition host_down (m : VolumeMigration) : VolumeMigration :=
  drop_finalizer MigrationFinalizerHostConnected
    (mig_set_mig_info (mi_set_HostConnectStatus ConnectStatusDisconnected (mig_info m)) m).
(* [host-nvme/sync_migration.go:202-202] MigrationReconciler.Reconcile, what step 4 records *)
Definition host_switched (m : VolumeMigration) : VolumeMigration :=
  mig_set_mig_info (mi_set_AutoSwitch
    {| as_Enabled := as_Enabled (mi_AutoSwitch (mig_info m)); as_Status := ResultStatusSuccess |} (mig_info m)) m.

(** Connecting to the destination. *)
(* [host-nvme/sync_migration.go:141-154] MigrationReconciler.Reconcile, connecting *)
Definition connect_dest (t : SpdkTarget) : go W (option error) :=
  let transType := if decide (tgt_TransType t = TransportTypeVFIOUSER) then "vfio-user"
                   else if decide (tgt_TransType t = TransportTypeTCP) then "tcp" else "" in
  let hostAddr := if decide (tgt_TransType t = TransportTypeVFIOUSER) then tgt_AddrFam t else "" in
  ConnectTarget transType (tgt_Address t) (tgt_SvcID t) (tgt_SubsysNQN t)
    {| cto_ReconnectDelaySec := 2; cto_CtrlLossTMO := 10; cto_HostTransAddr := hostAddr |}.

(* [host-nvme/sync_migration.go:111-169] MigrationReconciler.Reconcile, step 2 *)
Definition host_connect (destVolume : AntstorVolume) (m : VolumeMigration) : go W MigReply :=
  r ← ListSubsystems;
  match r with
  | inr e => failed e
  | inl list =>
      t ← (match list with
           | [] => mret SpdkTarget_zero
           | _ => deref "Spec.SpdkTarget" (vs_SpdkTarget (vol_Spec destVolume))
           end);
      if path_test (tgt_SubsysNQN t) (at_address t) list then host_update (host_up m) (CtrlResult_zero, None)
      else
        t ← deref "Spec.SpdkTarget" (vs_SpdkTarget (vol_Spec destVolume));
        e ← connect_dest t;
        match e with
        | Some e => failed e
        | None => host_update (host_up m) (CtrlResult_zero, None)
        end
  end.

(* [host-nvme/sync_migration.go:175-214] MigrationReconciler.Reconcile, step 4 *)
Definition host_sync (m : VolumeMigration) : go W MigReply :=
  let t := vi_Spdk (mig_dest m) in
  if decide (as_Status (mi_AutoSwitch (mig_info m)) ≠ ResultStatusSuccess) then
    if as_Enabled (mi_AutoSwitch (mig_info m)) then
      r ← ListSubsystems;
      match r with
      | inr e => failed e
      | inl list =>
          if path_test (tgt_SubsysNQN t) (working_at t) list
          then host_update (host_switched m) (RequeueAfter Minute, None)
          else wait (30 * Second)
      end
    else wait Minute
  else wait Minute.

(** The path to the source, when the host has more than one: the last one. *)
(* [host-nvme/sync_migration.go:228-241] MigrationReconciler.Reconcile, the path to the source *)
Definition source_path (m : VolumeMigration) (list : list SubsystemItem) : option NvmePath :=
  foldl (λ acc item,
      if decide (si_NQN item = tgt_SubsysNQN (vi_Spdk (mig_dest m)) ∧ 1 < length (si_Paths item))%nat then
        foldl (λ acc path, if at_address (vi_Spdk (mig_source m)) path then Some path else acc) acc (si_Paths item)
      else acc) None list.

(* [host-nvme/sync_migration.go:216-282] MigrationReconciler.Reconcile, step 5 *)
Definition host_clean (m : VolumeMigration) : go W MigReply :=
  if decide (mi_HostConnectStatus (mig_info m) = ConnectStatusConnected) then
    r ← ListSubsystems;
    match r with
    | inr e => failed e
    | inl list =>
        match source_path m list with
        | Some path =>
            if decide (np_PathState path ≠ "degraded") then wait (20 * Second)
            else
              e ← DisconnectTarget {| dtr_NQN := tgt_SubsysNQN (vi_Spdk (mig_source m));
                     dtr_TrAddr := tgt_Address (vi_Spdk (mig_source m));
                     dtr_SvcID := tgt_SvcID (vi_Spdk (mig_source m)) |};
              match e with
              | Some e => failed e
              | None => host_update (host_down m) (CtrlResult_zero, None)
              end
        | None => host_update (host_down m) (CtrlResult_zero, None)
        end
    end
  else done_reply.

(** The source volume is read by the name of the destination: a destination that
    does not exist is an error here, and the second read finds it. *)
(* [host-nvme/sync_migration.go:54-285] MigrationReconciler.Reconcile *)
Definition host_mig_Reconcile (req : Request) : go W MigReply :=
  r ← kGet (T := VolumeMigration) (rq_Namespace req) (rq_Name req);
  match r with
  | inr err => mret (CtrlResult_zero, IgnoreNotFound (Some err))
  | inl m =>
      if opt_is_some (om_DeletionTimestamp (mig_meta m)) then done_reply
      else if decide (vi_Name (mig_dest m) = "" ∨ vi_Namespace (mig_dest m) = "") then wait Minute
      else
        r ← kGet (T := AntstorVolume) (vi_Namespace (mig_dest m)) (vi_Name (mig_dest m));
        match r with
        | inr e => failed e
        | inl srcVolume =>
            r ← kGet (T := AntstorVolume) (vi_Namespace (mig_dest m)) (vi_Name (mig_dest m));
            match r with
            | inr e => if IsNotFound e then wait Minute else failed e
            | inl destVolume =>
                if decide (vst_Status (vol_Status destVolume) ≠ VolumeStatusReady) then wait (30 * Second)
                else if decide (vs_Type (vol_Spec destVolume) ≠ VolumeTypeSpdkLVol) then done_reply
                else if decide (mig_phase m = MigrationPhaseSetupPipe ∧
                                mi_HostConnectStatus (mig_info m) ≠ ConnectStatusConnected)
                then host_connect destVolume m
                else if decide (mig_phase m = MigrationPhaseSyncing) then host_sync m
                else if decide (mig_phase m = MigrationPhaseCleaning) then host_clean m
                else done_reply
            end
        end
  end.
End host.

(** ** What the agent records is true *)

Section agent_truth.
Context {N K : Type} {RPC : SpdkRpc N} {BR : BdevRpc N} {OS : OsFiles N}.
Context {HR : SpdkRpcLaws RPC} {HB : BdevLaws RPC BR OS}.
Context {KM : KubeClient K VolumeMigration} {KV : KubeClient K AntstorVolume}.
Implicit Types (m : VolumeMigration) (svc : SpdkService) (n : N) (k : K).

Abbreviation RK := (Logged K (Write VolumeMigration)).
#[local] Instance recM : KubeClient RK VolumeMigration := Recording KM id.
#[local] Instance recV : KubeClient RK AntstorVolume := client_fst KV.
Abbreviation AgentState := ((SpdkService * N) * RK)%type.

(** What the agent may write to a migration, with the node as it is then. *)
Inductive agent_wrote m n : list (Write VolumeMigration) → Prop :=
| aw_nothing : agent_wrote m n []
| aw_up dest :
    mig_phase m = MigrationPhaseSetupPipe → mp_DestBdevName (mi_MigrationPipe (mig_info m)) = "" →
    listed n (vol_Name dest +:+ "n1") = true → agent_wrote m n [WUpdate (pipe_up dest m)]
| aw_progress p s :
    mig_phase m = MigrationPhaseSyncing →
    (s = mi_AutoSwitch (mig_info m) ∨
     as_Enabled (mi_AutoSwitch (mig_info m)) = false ∧ (0 < jp_RoundPassed p)%Z ∧
     s = {| as_Enabled := true; as_Status := ResultStatusUnknown |}) →
    agent_wrote m n [WPatch m (mig_set_mig_info (mi_set_AutoSwitch s (mi_set_JobProgress p (mig_info m))) m)]
| aw_down dest :
    mig_phase m = MigrationPhaseCleaning →
    mp_Status (mi_MigrationPipe (mig_info m)) = ConnectStatusConnected →
    listed n (vol_Name dest +:+ "n1") = false ∨ detach_unanswered (vol_Name dest) n → agent_wrote m n [WUpdate (pipe_down m)].

(** A state in which the agent has handled [m]. *)
Definition handled m (st : AgentState) : Prop := agent_wrote m st.1.2 st.2.2.
Abbreviation hp m := (wpp (handled m)).

(** Rules. *)
Lemma hp_reply m (r : MigReply) st : handled m st → hp m (mret r) (λ _, handled m) st.
Proof. done. Qed.
Lemma hp_ask {A} m (op : go K A) Q st k :
  (∀ a k', Q a (st, (k', []))) → hp m (api (on_fst op : go RK A)) Q (st, (k, [])).
Proof.
  intros HQ. apply (wpp_on_snd _ (λ rk, rk.2 = [])); [|intros [k' l] Hl; cbn in Hl; rewrite Hl; apply aw_nothing].
  apply (wpp_on_fst _ (λ _, True)); [|done]. apply wpp_any; [intros a s' _; apply HQ|done].
Qed.
Lemma hp_node {A} m (op : go (SpdkService * N) A) Q svc n k :
  (∃ a svc' n', op (svc, n) = Ret a (svc', n') ∧ Q a ((svc', n'), (k, []))) →
  hp m (node op) Q ((svc, n), (k, [])).
Proof.
  intros (a & svc' & n' & E & HQ). apply wpp_returns. exists a, ((svc', n'), (k, [])).
  split; [|exact HQ]. unfold node, on_fst. cbn [fst snd]. by rewrite E.
Qed.
Definition body_returns {A} (body : @SpdkM N A) : Prop :=
  ∀ svc n, ∃ a n', body (svc, n) = Ret a (svc, n').
Lemma rpc_returns {A} (op : go N A) : returns op → body_returns (rpc op).
Proof. intros Hr svc n. destruct (Hr n) as (a & n' & E). exists a, n'. by apply rpc_run. Qed.
Lemma rpc_map_returns {A B} (op : go N A) (f : A → B) : returns op → body_returns (r ← rpc op; mret (f r)).
Proof.
  intros Hr svc n. destruct (Hr n) as (a & n' & E). rewrite (go_bind_Ret _ _ _ _ _ (rpc_run _ svc _ _ _ E)). eauto.
Qed.
Lemma hp_client {A} (fail : error → A) (body : @SpdkM N A) Q svc n k m : alloc_wf (ss_idAlloc svc) →
  body_returns body →
  (∀ a svc' n', alloc_wf (ss_idAlloc svc') → Q a ((svc', n'), (k, []))) →
  hp m (node (with_client fail body)) Q ((svc, n), (k, [])).
Proof.
  intros Hwf Hr HQ. apply hp_node. unfold with_client.
  destruct (client_run svc n Hwf) as (e & svc1 & n1 & Hc & _ & _ & Hw & _).
  rewrite (go_bind_Ret _ _ _ _ _ Hc). destruct e as [e|].
  - do 3 eexists. split; [reflexivity|]. by apply HQ.
  - destruct (Hr svc1 n1) as (a & n2 & E). do 3 eexists. split; [exact E|]. by apply HQ.
Qed.
Lemma hp_ensures {A} unknown (err : A → option error) op name present Q svc n k m : alloc_wf (ss_idAlloc svc) →
  ensures_or unknown (λ _, True) err op name present →
  (∀ a svc' n', alloc_wf (ss_idAlloc svc') → (err a = None → listed n' name = present ∨ unknown n') → Q a ((svc', n'), (k, []))) →
  hp m (node op) Q ((svc, n), (k, [])).
Proof.
  intros Hwf He HQ. apply hp_node. destruct (He svc n Hwf I) as (a & svc' & n' & Hr & Hw & [_ _ Hd _]).
  do 3 eexists. split; [exact Hr|]. by apply HQ.
Qed.
(** A recorded write: what it says has to be true of the node. *)
Lemma hp_update m o (Q : result VolumeMigration → AgentState → Prop) svc n k :
  agent_wrote m n [WUpdate o] → (∀ r k', Q r ((svc, n), (k', [WUpdate o]))) →
  hp m (api (kUpdate (T := VolumeMigration) o)) Q ((svc, n), (k, [])).
Proof.
  intros Hw HQ. apply (wpp_on_snd _ (λ rk, agent_wrote m n rk.2)); [|done].
  unfold kUpdate, recM, Recording, wpp. rewrite logged_run. destruct (kUpdate o k); [apply HQ|exact Hw].
Qed.
Lemma hp_patch m o (Q : result VolumeMigration → AgentState → Prop) svc n k :
  agent_wrote m n [WPatch m o] → (∀ r k', Q r ((svc, n), (k', [WPatch m o]))) →
  hp m (api (kPatch (T := VolumeMigration) m o)) Q ((svc, n), (k, [])).
Proof.
  intros Hw HQ. apply (wpp_on_snd _ (λ rk, agent_wrote m n rk.2)); [|done].
  unfold kPatch, recM, Recording, wpp. rewrite logged_run. destruct (kPatch m o k); [apply HQ|exact Hw].
Qed.

Lemma quiet_state m svc n k : handled m ((svc, n), (k, [])).
Proof. apply aw_nothing. Qed.
#[local] Hint Resolve quiet_state : core.
(** The end of a request that wrote nothing. *)
Ltac unwritten := apply wpp_ret, quiet_state.

(** The set-up: it stops after a write, unless the migration is in a later phase. *)
Lemma agent_setup_handled dest m svc n k : alloc_wf (ss_idAlloc svc) →
  hp m (agent_setup dest m) (λ r st, handled m st ∧
      (mig_phase m ≠ MigrationPhaseSetupPipe → r.2 = m ∧ st.2.2 = [] ∧ alloc_wf (ss_idAlloc st.1.1)) ∧
      mig_phase r.2 = mig_phase m) ((svc, n), (k, [])).
Proof.
  intros Hwf. unfold agent_setup. apply wpp_bind.
  destruct (decide _) as [[Hph Hd]|Hnot].
  - apply wpp_bind, wpp_deref; [done|]. intros t Ht.
    apply wpp_bind. eapply hp_ensures; [done|apply EnsureMigrationDestBdev_ensures|].
    intros [e|] svc1 n1 Hw1 Hl; [apply wpp_ret; cbn; by split_and!|].
    assert (agent_wrote m n1 [WUpdate (pipe_up dest m)]) as Hup
      by (apply aw_up; [exact Hph|exact Hd|by destruct (Hl eq_refl)]).
    apply wpp_bind, hp_update; [done|]. intros r k1. apply wpp_ret.
    destruct r as [o|e]; cbn; [|split_and!; [done|done|done]].
    destruct (decide _); cbn; (split_and!; [done|done|done]).
  - apply wpp_ret. cbn. destruct (decide _); cbn; split_and!; done.
Qed.

Lemma agent_switch_handled src dst m0 m svc n k (Q : option MigReply * VolumeMigration → AgentState → Prop) :
  alloc_wf (ss_idAlloc svc) →
  (∀ rep svc' n', Q (Some rep, m) ((svc', n'), (k, []))) →
  (∀ s svc' n', (s = mi_AutoSwitch (mig_info m) ∨
      as_Enabled (mi_AutoSwitch (mig_info m)) = false ∧
      (0 < jp_RoundPassed (mi_JobProgress (mig_info m)))%Z ∧
      s = {| as_Enabled := true; as_Status := ResultStatusUnknown |}) →
    Q (None, mig_set_mig_info (mi_set_AutoSwitch s (mig_info m)) m) ((svc', n'), (k, []))) →
  hp m0 (agent_switch src dst m) Q ((svc, n), (k, [])).
Proof.
  intros Hwf Hstop Hgo. unfold agent_switch. destruct (as_Enabled _) eqn:Ee.
  { apply wpp_ret. specialize (Hgo (mi_AutoSwitch (mig_info m)) svc n (or_introl eq_refl)).
    destruct m as [? [? ? []] ?]. exact Hgo. }
  destruct (decide _) as [Hr|_]; [|by apply wpp_ret, Hstop].
  apply wpp_bind, hp_client; [done|apply rpc_returns, bl_config|].
  intros [e|] svc1 n1 Hw1; apply wpp_ret; [apply Hstop|]. apply Hgo. by right.
Qed.

Lemma agent_sync_handled src m svc n k : alloc_wf (ss_idAlloc svc) → mig_phase m = MigrationPhaseSyncing →
  hp m (agent_sync src m) (λ _, handled m) ((svc, n), (k, [])).
Proof.
  intros Hwf Hph. unfold agent_sync. apply wpp_bind, wpp_deref; [done|]. intros lvol _.
  apply wpp_bind, hp_client; [done|apply rpc_map_returns, bl_query|].
  intros [[|task tasks]|e] svc1 n1 Hw1; [| |unwritten].
  - apply wpp_bind, hp_client; [done|apply rpc_returns, bl_start|]. intros e svc2 n2 Hw2. unwritten.
  - destruct (decide _); [unwritten|].
    apply wpp_bind, agent_switch_handled; [done|intros; unwritten|].
    intros s svc2 n2 Hs. cbn beta iota. cbn in Hs.
    apply wpp_bind, hp_patch.
    + apply (aw_progress m n2 (task_progress _ _ task) s); [done|exact Hs].
    + intros [o|e] k2; (apply (aw_progress m n2 (task_progress _ _ task) s); [done|exact Hs]).
Qed.

Lemma agent_clean_handled src dest m svc n k : alloc_wf (ss_idAlloc svc) → mig_phase m = MigrationPhaseCleaning →
  hp m (agent_clean src dest m) (λ _, handled m) ((svc, n), (k, [])).
Proof.
  intros Hwf Hph. unfold agent_clean. destruct (decide _) as [Hc|_]; [|unwritten].
  apply wpp_bind, wpp_deref; [done|]. intros lvol _.
  apply wpp_bind, hp_client; [done| |].
  { intros svc1 n1. destruct (bl_query (SpdkLvol_FullName lvol) false) as (Hr & _). destruct (Hr n1) as (r & n2 & E).
    cbn [msr_SrcBdev]. rewrite (go_bind_Ret _ _ _ _ _ (rpc_run _ svc1 _ _ _ E)).
    destruct (match r with inl l => _ | inr e => _ end) as [l err].
    destruct (task_found _ l); [|eauto]. apply rpc_returns, bl_cleanup. }
  intros [e|] svc1 n1 Hw1; [unwritten|].
  apply wpp_bind. eapply hp_ensures; [done|apply DetachMigrationDestBdev_ensures|].
  intros [e|] svc2 n2 Hw2 Hl; [unwritten|].
  assert (agent_wrote m n2 [WUpdate (pipe_down m)]) as Hdown
    by (eapply aw_down; [exact Hph|exact Hc|exact (Hl eq_refl)]).
  apply wpp_bind, hp_update; [done|]. intros [o|e] k2; exact Hdown.
Qed.

(** What a request for a migration writes. *)
Definition agent_mig_writes req svc n k : list (Write VolumeMigration) :=
  (run_state (agent_mig_Reconcile req ((svc, n), (k, [])))).2.2.

Lemma agent_mig_wrote req svc n k m k' : alloc_wf (ss_idAlloc svc) →
  kGet (T := VolumeMigration) (KubeClient := KM) (rq_Namespace req) (rq_Name req) k = Ret (inl m) k' →
  let st := run_state (agent_mig_Reconcile req ((svc, n), (k, []))) in
  st.2.2 = [] ∨ om_DeletionTimestamp (mig_meta m) = None ∧ agent_wrote m st.1.2 st.2.2.
Proof.
  intros Hwf Eg st. unfold st, agent_mig_Reconcile. clear st.
  assert (∀ f : result VolumeMigration → go AgentState MigReply,
    run_state ((r ← api (kGet (T := VolumeMigration) (rq_Namespace req) (rq_Name req)); f r) ((svc, n), (k, []))) =
    run_state (f (inl m) ((svc, n), (k', [])))) as ->.
  { intros f. unfold mbind, go_mbind, go_bind, api, on_snd. cbn. unfold on_fst. cbn. by rewrite Eg. }
  destruct (om_DeletionTimestamp (mig_meta m)) as [t|] eqn:Ed; cbn [opt_is_some]; [by left|].
  right. split; [done|].
  match goal with |- context [run_state ?o] => change (handled m (run_state o)) end.
  apply wpp_state. destruct (decide _) as [_|_]; [unwritten|].
  apply wpp_bind, hp_ask. intros [src|e] k1; [|unwritten].
  apply wpp_bind, hp_ask. intros [dest|e] k2; [|destruct (IsNotFound e); unwritten].
  destruct (decide _) as [_|_]; [unwritten|]. destruct (decide _) as [_|_]; [unwritten|].
  apply wpp_bind. eapply wpp_mono; [by apply agent_setup_handled|].
  intros [stop m1] [[svc1 n1] [k3 l]] (Hh & Hlater & Hph). cbn [fst snd] in *.
  destruct stop as [rep|]; [exact Hh|]. rewrite Hph.
  destruct (decide (mig_phase m = MigrationPhaseSyncing)) as [E1|_].
  { destruct Hlater as (-> & -> & Hw); [by rewrite E1|]. by apply agent_sync_handled. }
  destruct (decide (mig_phase m = MigrationPhaseCleaning)) as [E2|_]; [|exact Hh].
  destruct Hlater as (-> & -> & Hw); [by rewrite E2|]. by apply agent_clean_handled.
Qed.

End agent_truth.

(** ** What the host records is true *)

Lemma path_test_true nqn ok l : path_test nqn ok l = true →
  ∃ item path, item ∈ l ∧ si_NQN item = nqn ∧ path ∈ si_Paths item ∧ ok path = true.
Proof.
  unfold path_test. induction l as [|item l IH] using rev_ind; [done|]. rewrite foldl_app. cbn.
  assert (foldl (λ acc item0,
      if decide (si_NQN item0 = nqn) then match si_Paths item0 with [] => acc | paths => existsb ok paths end
      else acc) false l = true →
    ∃ i p, i ∈ l ++ [item] ∧ si_NQN i = nqn ∧ p ∈ si_Paths i ∧ ok p = true) as Hl.
  { intros H. destruct (IH H) as (i & p & Hi & ?). exists i, p. split; [|done]. apply elem_of_app. by left. }
  destruct (decide (si_NQN item = nqn)) as [E|_]; [|exact Hl].
  destruct (si_Paths item) as [|p0 ps] eqn:Ep; [exact Hl|].
  change (existsb ok (p0 :: ps) = true → ∃ i p, i ∈ l ++ [item] ∧ si_NQN i = nqn ∧ p ∈ si_Paths i ∧ ok p = true).
  intros (p & Hp & Hok)%existsb_exists. exists item, p. rewrite Ep.
  split; [apply elem_of_app; right; by left|]. split; [done|]. split; [by apply list_elem_of_In|done].
Qed.

Section host_truth.
Context {W : Type} {X : NvmeExec W} {KM : KubeClient W VolumeMigration} {KV : KubeClient W AntstorVolume}.
Implicit Types (m : VolumeMigration) (w : W) (t : SpdkTarget).

Abbreviation RW := (Logged W (Write VolumeMigration)).
#[local] Instance recH : KubeClient RW VolumeMigration := Recording KM id.
#[local] Instance recHV : KubeClient RW AntstorVolume := client_fst KV.
#[local] Instance recX : NvmeExec RW := {|
  nvme_list := on_fst nvme_list; nvme_list_subsys := on_fst nvme_list_subsys;
  nvme_run args := on_fst (nvme_run args) |}.

(** What the tool has answered at some time. *)
Definition listed_subsys (l : list SubsystemItem) : Prop := ∃ w w', ListSubsystems w = Ret (inl l) w'.
Definition ran (c : go W (option error)) : Prop := ∃ w w', c w = Ret None w'.
(** The target the server names for the destination. *)
Definition dest_target m t : Prop :=
  ∃ w w' dest, kGet (T := AntstorVolume) (vi_Namespace (mig_dest m)) (vi_Name (mig_dest m)) w = Ret (inl dest) w' ∧
    vs_SpdkTarget (vol_Spec dest) = Some t.

Inductive host_wrote m : list (Write VolumeMigration) → Prop :=
| hw_nothing : host_wrote m []
| hw_up t :
    mig_phase m = MigrationPhaseSetupPipe → dest_target m t →
    ran (connect_dest t) ∨
      (∃ l item path, listed_subsys l ∧ item ∈ l ∧ si_NQN item = tgt_SubsysNQN t ∧ path ∈ si_Paths item ∧
         at_address t path = true) →
    host_wrote m [WUpdate (host_up m)]
| hw_switched l item path :
    mig_phase m = MigrationPhaseSyncing → as_Enabled (mi_AutoSwitch (mig_info m)) = true →
    listed_subsys l → item ∈ l → si_NQN item = tgt_SubsysNQN (vi_Spdk (mig_dest m)) → path ∈ si_Paths item →
    working_at (vi_Spdk (mig_dest m)) path = true →
    host_wrote m [WUpdate (host_switched m)]
| hw_down l :
    mig_phase m = MigrationPhaseCleaning → mi_HostConnectStatus (mig_info m) = ConnectStatusConnected →
    listed_subsys l →
    match source_path m l with
    | None => True
    | Some path => np_PathState path = "degraded" ∧
        ran (DisconnectTarget {| dtr_NQN := tgt_SubsysNQN (vi_Spdk (mig_source m));
               dtr_TrAddr := tgt_Address (vi_Spdk (mig_source m)); dtr_SvcID := tgt_SvcID (vi_Spdk (mig_source m)) |})
    end →
    host_wrote m [WUpdate (host_down m)].

Definition told m (st : RW) : Prop := host_wrote m st.2.
Abbreviation ht m := (wpp (told m)).

Lemma ht_quiet m w : told m (w, []).
Proof. apply hw_nothing. Qed.
Ltac untold := apply wpp_ret, ht_quiet.

(** A call that does not write, with what it answered. *)
Lemma ht_call {A} m (op : go W A) Q w :
  (∀ a w', op w = Ret a w' → Q a (w', [])) → ht m (on_fst op : go RW A) Q (w, []).
Proof.
  intros HQ. apply (wpp_on_fst _ (λ _, True)); [|intros; apply ht_quiet].
  apply wpp_any; [exact HQ|done].
Qed.
Lemma ht_list m Q w :
  (∀ r w', (∀ l, r = inl l → listed_subsys l) → Q r (w', [])) → ht m (ListSubsystems : go RW _) Q (w, []).
Proof.
  intros HQ. unfold ListSubsystems at 1. apply wpp_bind, ht_call. intros r w' E. apply wpp_ret, HQ.
  intros l Hl. exists w, w'. unfold ListSubsystems. rewrite (go_bind_Ret _ _ _ _ _ E). by rewrite Hl.
Qed.
Lemma ht_run m args Q w :
  (∀ e w', (e = None → ∃ w w', nvme_run (W := W) args w = Ret None w') → Q e (w', [])) →
  ht m (nvme_run args : go RW _) Q (w, []).
Proof. intros HQ. apply ht_call. intros e w' E. apply HQ. intros ->. eauto. Qed.
Lemma ht_update m o rep w : host_wrote m [WUpdate o] → ht m (host_update o rep) (λ _, told m) (w, []).
Proof.
  intros Hw. unfold host_update. apply wpp_bind.
  unfold kUpdate, recH, Recording, wpp. rewrite logged_run.
  destruct (kUpdate o w) as [[v|e] w'|]; exact Hw.
Qed.

Lemma host_connect_told dest m w : mig_phase m = MigrationPhaseSetupPipe →
  (∀ t, vs_SpdkTarget (vol_Spec dest) = Some t → dest_target m t) →
  ht m (host_connect dest m) (λ _, told m) (w, []).
Proof.
  intros Hph Hd. unfold host_connect. apply wpp_bind, ht_list. intros [l|e] w1 Hl; [|untold].
  specialize (Hl l eq_refl). apply wpp_bind.
  assert (∀ t w2, (l ≠ [] → vs_SpdkTarget (vol_Spec dest) = Some t) →
    ht m (if path_test (tgt_SubsysNQN t) (at_address t) l then host_update (host_up m) (CtrlResult_zero, None)
          else t0 ← deref "Spec.SpdkTarget" (vs_SpdkTarget (vol_Spec dest));
               e ← connect_dest t0;
               match e with Some e => failed e | None => host_update (host_up m) (CtrlResult_zero, None) end)
      (λ _, told m) (w2, [])) as Hgo.
  { intros t w2 Ht. destruct (path_test _ _ l) eqn:Ep.
    - apply path_test_true in Ep as (item & path & Hi & ?). assert (l ≠ []) as Hne by (by intros ->; apply elem_of_nil in Hi).
      apply ht_update. eapply hw_up; [done|by apply Hd, Ht|]. right. exists l, item, path. tauto.
    - apply wpp_bind, wpp_deref; [apply ht_quiet|]. intros t0 Ht0.
      apply wpp_bind. unfold connect_dest, ConnectTarget. apply ht_run. intros [e|] w3 Hr; [untold|].
      apply ht_update. eapply hw_up; [done|by apply Hd|]. left. destruct (Hr eq_refl) as (w4 & w5 & E).
      by exists w4, w5. }
  destruct l as [|i l'].
  - apply wpp_ret. by apply Hgo.
  - apply wpp_deref; [apply ht_quiet|]. intros t Ht. by apply Hgo.
Qed.

Lemma host_sync_told m w : mig_phase m = MigrationPhaseSyncing → ht m (host_sync m) (λ _, told m) (w, []).
Proof.
  intros Hph. unfold host_sync. destruct (decide _) as [_|_]; [|untold].
  destruct (as_Enabled _) eqn:Ee; [|untold].
  apply wpp_bind, ht_list. intros [l|e] w1 Hl; [|untold]. specialize (Hl l eq_refl).
  destruct (path_test _ _ l) eqn:Ep; [|untold].
  apply path_test_true in Ep as (item & path & Hi & Hn & Hp & Hw). apply ht_update. by eapply hw_switched.
Qed.

Lemma host_clean_told m w : mig_phase m = MigrationPhaseCleaning → ht m (host_clean m) (λ _, told m) (w, []).
Proof.
  intros Hph. unfold host_clean. destruct (decide _) as [Hc|_]; [|untold].
  apply wpp_bind, ht_list. intros [l|e] w1 Hl; [|untold]. specialize (Hl l eq_refl).
  destruct (source_path m l) as [path|] eqn:Es.
  - destruct (decide _) as [_|Hdeg]; [untold|]. apply dec_stable in Hdeg.
    apply wpp_bind. unfold DisconnectTarget at 1. destruct (decide (dtr_NQN _ = "")) as [_|Hq]; [untold|].
    apply ht_run. intros [e|] w2 Hr; [untold|]. apply ht_update. eapply hw_down; [done|done|exact Hl|].
    rewrite Es. split; [done|]. destruct (Hr eq_refl) as (w3 & w4 & E). exists w3, w4.
    unfold DisconnectTarget. by rewrite decide_False.
  - apply ht_update. eapply hw_down; [done|done|exact Hl|]. by rewrite Es.
Qed.

(** What a request for a migration writes. *)
Definition host_mig_writes req w : list (Write VolumeMigration) := (run_state (host_mig_Reconcile req (w, []))).2.

Lemma host_mig_wrote req m w w' :
  kGet (T := VolumeMigration) (KubeClient := KM) (rq_Namespace req) (rq_Name req) w = Ret (inl m) w' →
  host_mig_writes req w = [] ∨ om_DeletionTimestamp (mig_meta m) = None ∧ host_wrote m (host_mig_writes req w).
Proof.
  intros Eg. unfold host_mig_writes, host_mig_Reconcile.
  assert (∀ f : result VolumeMigration → go RW MigReply,
    run_state ((r ← kGet (T := VolumeMigration) (rq_Namespace req) (rq_Name req); f r) (w, [])) =
    run_state (f (inl m) (w', []))) as ->.
  { intros f. unfold mbind, go_mbind, go_bind. cbn. unfold on_fst. cbn. by rewrite Eg. }
  destruct (om_DeletionTimestamp (mig_meta m)) as [t|] eqn:Ed; cbn [opt_is_some]; [by left|].
  right. split; [done|].
  match goal with |- context [run_state ?o] => change (told m (run_state o)) end.
  apply wpp_state. destruct (decide _) as [_|_]; [untold|].
  apply wpp_bind, ht_call. intros [src|e] w1 _; [|untold].
  apply wpp_bind, ht_call. intros [dest|e] w2 Hdest; [|destruct (IsNotFound e); untold].
  destruct (decide _) as [_|_]; [untold|]. destruct (decide _) as [_|_]; [untold|].
  destruct (decide _) as [[Hph _]|_].
  { apply host_connect_told; [done|]. intros t Ht. by exists w1, w2, dest. }
  destruct (decide _) as [Hph|_]; [by apply host_sync_told|].
  destruct (decide _) as [Hph|_]; [by apply host_clean_told|untold].
Qed.

(** What the host records in a migration is true, whatever the API server and
    the nvme tool answer and also when the request panics: it writes at most once,
    to a migration that is not deleted; it reports itself connected only in phase
    SetupPipe, after the tool connected it to the destination's target or listed a
    path to it; it reports the switch a success only in phase Syncing, when it is
    enabled and a path to the destination is at work; and itself disconnected only
    in phase Cleaning, when no second path leads to the source or the degraded one
    was disconnected. *)
Lemma host_mig_truthful req w :
  let l := host_mig_writes req w in
  l = [] ∨
  ∃ m w', kGet (T := VolumeMigration) (KubeClient := KM) (rq_Namespace req) (rq_Name req) w = Ret (inl m) w' ∧
    om_DeletionTimestamp (mig_meta m) = None ∧ host_wrote m l.
Proof.
  intros l. destruct (kGet (KubeClient := KM) (rq_Namespace req) (rq_Name req) w) as [[m|e] w0|why w0] eqn:Eg.
  - destruct (host_mig_wrote req m w w0 Eg) as [E|E]; [left; exact E|right; by exists m, w0].
  - left. unfold l, host_mig_writes, host_mig_Reconcile, mbind, go_mbind, go_bind. cbn. unfold on_fst. cbn. by rewrite Eg.
  - left. unfold l, host_mig_writes, host_mig_Reconcile, mbind, go_mbind, go_bind. cbn. unfold on_fst. cbn. by rewrite Eg.
Qed.
End host_truth.

(** ** The protocol

    The manager, the agent, the host and the users act on one stored migration,
    in any order and each with whatever the rest of its world answers. An update
    is refused when the object has changed since it was read, so it acts on the
    object that was read; a merge patch carries no version, and the agent's may
    have been computed from an old copy. *)

Section protocol.
Context {WM : Type} {KM : KubeClient WM VolumeMigration} {KV : KubeClient WM AntstorVolume}.
Context (status_text : AntstorVolumeStatus → string).
Context {N K : Type} {RPC : SpdkRpc N} {BR : BdevRpc N} {OS : OsFiles N}.
Context {HR : SpdkRpcLaws RPC} {HB : BdevLaws RPC BR OS}.
Context {AM : KubeClient K VolumeMigration} {AV : KubeClient K AntstorVolume}.
Context {WH : Type} {X : NvmeExec WH} {HM : KubeClient WH VolumeMigration} {HV : KubeClient WH AntstorVolume}.
Implicit Types (m c : VolumeMigration).

(** What the server makes of a merge patch from [base] to [obj] when it holds
    [c], and what is documented of it: fields in which the two agree are left
    alone, the others are set; the status is not part of it. *)
Context (merge_patch : VolumeMigration → VolumeMigration → VolumeMigration → VolumeMigration).
Record MergePatchLaws : Prop := {
  mpl_status base obj c : mig_Status (merge_patch base obj c) = mig_Status c;
  mpl_finalizers base obj c :
    om_Finalizers (mig_meta base) = om_Finalizers (mig_meta obj) →
    om_Finalizers (mig_meta (merge_patch base obj c)) = om_Finalizers (mig_meta c);
  mpl_pipe base obj c :
    mi_MigrationPipe (mig_info base) = mi_MigrationPipe (mig_info obj) →
    mi_MigrationPipe (mig_info (merge_patch base obj c)) = mi_MigrationPipe (mig_info c);
  mpl_host base obj c :
    mi_HostConnectStatus (mig_info base) = mi_HostConnectStatus (mig_info obj) →
    mi_HostConnectStatus (mig_info (merge_patch base obj c)) = mi_HostConnectStatus (mig_info c);
  mpl_switch base obj c :
    as_Status (mi_AutoSwitch (mig_info (merge_patch base obj c))) =
    as_Status (mi_AutoSwitch (mig_info
      (if decide (as_Status (mi_AutoSwitch (mig_info base)) = as_Status (mi_AutoSwitch (mig_info obj)))
       then c else obj)));
}.
Context (Hpatch : MergePatchLaws).

(** The stored migration after a write that was accepted. *)
Definition accept c (x : Write VolumeMigration) : VolumeMigration :=
  match x with
  | WUpdate o => ko_with_status o c
  | WUpdateStatus o => ko_with_status c o
  | WPatch base o => merge_patch base o c
  | _ => c
  end.
Definition is_patch (x : Write VolumeMigration) : Prop := ∃ base o, x = WPatch base o.
Definition switched_in c : bool := bool_decide (as_Status (mi_AutoSwitch (mig_info c)) = ResultStatusSuccess).

(** The stored migration, and whether the host has ever reported the switch. *)
Record Sys := { sys_mig : VolumeMigration; sys_switched : bool }.

Inductive sys_step : Sys → Sys → Prop :=
| step_manager c sw u req w w' x :
    kGet (T := VolumeMigration) (KubeClient := KM) (rq_Namespace req) (rq_Name req) w = Ret (inl c) w' →
    inl x ∈ mig_writes status_text u req w →
    sys_step {| sys_mig := c; sys_switched := sw |} {| sys_mig := accept c x; sys_switched := sw |}
| step_agent c sw m req svc n k k' x :
    kGet (T := VolumeMigration) (KubeClient := AM) (rq_Namespace req) (rq_Name req) k = Ret (inl m) k' →
    alloc_wf (ss_idAlloc svc) → x ∈ agent_mig_writes req svc n k → m = c ∨ is_patch x →
    sys_step {| sys_mig := c; sys_switched := sw |} {| sys_mig := accept c x; sys_switched := sw |}
| step_host c sw req w w' x :
    kGet (T := VolumeMigration) (KubeClient := HM) (rq_Namespace req) (rq_Name req) w = Ret (inl c) w' →
    x ∈ host_mig_writes req w →
    sys_step {| sys_mig := c; sys_switched := sw |}
             {| sys_mig := accept c x; sys_switched := sw || switched_in (accept c x) |}
| step_others c c' sw :
    mig_Status c' = mig_Status c → mig_info c' = mig_info c →
    om_Finalizers (mig_meta c') = om_Finalizers (mig_meta c) →
    sys_step {| sys_mig := c; sys_switched := sw |} {| sys_mig := c'; sys_switched := sw |}.

Definition pipe_of c : string := mp_Status (mi_MigrationPipe (mig_info c)).
Definition host_of c : string := mi_HostConnectStatus (mig_info c).
Definition has_finalizer (f : string) c : Prop := f ∈ om_Finalizers (mig_meta c).

(** A migration as users create it. *)
Record mig_fresh c : Prop := {
  mf_phase : mig_phase c = "";
  mf_pipe : pipe_of c ≠ ConnectStatusConnected;
  mf_host : host_of c ≠ ConnectStatusConnected;
  mf_switch : as_Status (mi_AutoSwitch (mig_info c)) ≠ ResultStatusSuccess;
  mf_pipe_fin : ¬ has_finalizer MigrationFinalizerPipeConnected c;
  mf_host_fin : ¬ has_finalizer MigrationFinalizerHostConnected c;
}.

Definition moved (st : string) : Prop := st = ConnectStatusConnected ∨ st = ConnectStatusDisconnected.

Record mig_protocol (s : Sys) : Prop := {
  mp_pipe_fin : has_finalizer MigrationFinalizerPipeConnected (sys_mig s) ↔ pipe_of (sys_mig s) = ConnectStatusConnected;
  mp_host_fin : has_finalizer MigrationFinalizerHostConnected (sys_mig s) ↔ host_of (sys_mig s) = ConnectStatusConnected;
  mp_before : mig_phase (sys_mig s) = "" ∨ mig_phase (sys_mig s) = MigrationPhasePending ∨
              mig_phase (sys_mig s) = MigrationPhaseCreatingVolume →
    pipe_of (sys_mig s) ≠ ConnectStatusConnected ∧ host_of (sys_mig s) ≠ ConnectStatusConnected;
  mp_syncing : mig_phase (sys_mig s) = MigrationPhaseSyncing →
    pipe_of (sys_mig s) = ConnectStatusConnected ∧ host_of (sys_mig s) = ConnectStatusConnected;
  mp_cleaning : mig_phase (sys_mig s) = MigrationPhaseCleaning →
    moved (pipe_of (sys_mig s)) ∧ moved (host_of (sys_mig s));
  mp_finished : mig_phase (sys_mig s) = MigrationPhaseFinished →
    pipe_of (sys_mig s) = ConnectStatusDisconnected ∧ host_of (sys_mig s) = ConnectStatusDisconnected;
  mp_reported : as_Status (mi_AutoSwitch (mig_info (sys_mig s))) = ResultStatusSuccess → sys_switched s = true;
  mp_switched : mig_phase (sys_mig s) = MigrationPhaseCleaning ∨ mig_phase (sys_mig s) = MigrationPhaseFinished →
    sys_switched s = true;
}.

(** What the steps come down to. *)
Lemma manager_accepts c u req w w' x :
  kGet (T := VolumeMigration) (KubeClient := KM) (rq_Namespace req) (rq_Name req) w = Ret (inl c) w' →
  inl x ∈ mig_writes status_text u req w →
  mig_info (accept c x) = mig_info c ∧ om_Finalizers (mig_meta (accept c x)) = om_Finalizers (mig_meta c) ∧
  (mig_phase (accept c x) = mig_phase c ∨ mig_moves c (mig_phase (accept c x)) ∨
   mig_phase c = "" ∧ mig_phase (accept c x) = MigrationPhasePending).
Proof.
  intros Hg Hx. destruct (mig_Reconcile_wrote status_text u req c w w' Hg) as [E|(_ & _ & Hw)].
  { rewrite E in Hx. by apply elem_of_nil in Hx. }
  revert Hw Hx. generalize (mig_writes status_text u req w).
  intros l [|m' H1 H2 _|m' _ H2 _|m' s _ H2 _|m' s _ H1 H2 H3 _ _ _|v s _ _ _ _ _ _ _ _] Hx;
    rewrite ?elem_of_nil, ?list_elem_of_singleton in Hx; try done; injection Hx as ->;
    (split; [done|]); (split; [done|]); cbn; auto.
Qed.

Lemma agent_accepts c m req svc n k k' x :
  kGet (T := VolumeMigration) (KubeClient := AM) (rq_Namespace req) (rq_Name req) k = Ret (inl m) k' →
  alloc_wf (ss_idAlloc svc) → x ∈ agent_mig_writes req svc n k → m = c ∨ is_patch x →
  (∃ dest, mig_phase c = MigrationPhaseSetupPipe ∧ x = WUpdate (pipe_up dest c)) ∨
  mig_phase c = MigrationPhaseCleaning ∧ x = WUpdate (pipe_down c) ∨
  (∃ p s, x = WPatch m (mig_set_mig_info (mi_set_AutoSwitch s (mi_set_JobProgress p (mig_info m))) m) ∧
     (s = mi_AutoSwitch (mig_info m) ∨ as_Status s = ResultStatusUnknown)).
Proof.
  intros Hg Hwf Hx Hm. destruct (agent_mig_wrote req svc n k m k' Hwf Hg) as [E|(_ & Hw)].
  { unfold agent_mig_writes in Hx. rewrite E in Hx. by apply elem_of_nil in Hx. }
  match type of Hw with agent_wrote _ ?n1 _ =>
    change (agent_wrote m n1 (agent_mig_writes req svc n k)) in Hw; revert Hw Hx;
    generalize n1 (agent_mig_writes req svc n k) end.
  intros n1 l [|dest H1 _ _|p s _ Hs|dest H1 _ _] Hx;
    rewrite ?elem_of_nil, ?list_elem_of_singleton in Hx; try done; subst x.
  - left. destruct Hm as [->|(b & o & [=])]. eauto.
  - right; right. exists p, s. split; [done|]. destruct Hs as [->|(_ & _ & ->)]; auto.
  - right; left. destruct Hm as [->|(b & o & [=])]. done.
Qed.

Lemma host_accepts c req w w' x :
  kGet (T := VolumeMigration) (KubeClient := HM) (rq_Namespace req) (rq_Name req) w = Ret (inl c) w' →
  x ∈ host_mig_writes req w →
  mig_phase c = MigrationPhaseSetupPipe ∧ x = WUpdate (host_up c) ∨
  mig_phase c = MigrationPhaseSyncing ∧ x = WUpdate (host_switched c) ∨
  mig_phase c = MigrationPhaseCleaning ∧ x = WUpdate (host_down c).
Proof.
  intros Hg Hx. destruct (host_mig_wrote req c w w' Hg) as [E|(_ & Hw)].
  { rewrite E in Hx. by apply elem_of_nil in Hx. }
  revert Hw Hx. generalize (host_mig_writes req w).
  intros l [|t H1 _ _|l0 i p H1 _ _ _ _ _ _|l0 H1 _ _ _] Hx;
    rewrite ?elem_of_nil, ?list_elem_of_singleton in Hx; try done; subst x; tauto.
Qed.

Lemma finalizer_append f g c : has_finalizer f (append_finalizer g c) ↔ has_finalizer f c ∨ f = g.
Proof. unfold has_finalizer, append_finalizer. cbn. by rewrite elem_of_app, list_elem_of_singleton. Qed.
Lemma finalizer_drop f g c : has_finalizer f (drop_finalizer g c) ↔ has_finalizer f c ∧ f ≠ g.
Proof.
  unfold has_finalizer, drop_finalizer. cbn. rewrite !list_elem_of_In, filter_In, negb_true_iff.
  by rewrite bool_decide_eq_false.
Qed.

(** The invariant only looks at the phase, what was recorded and the finalizers. *)
Lemma protocol_ext c c' sw sw' :
  mig_phase c' = mig_phase c → mi_MigrationPipe (mig_info c') = mi_MigrationPipe (mig_info c) →
  host_of c' = host_of c → om_Finalizers (mig_meta c') = om_Finalizers (mig_meta c) →
  (sw = true → sw' = true) →
  (as_Status (mi_AutoSwitch (mig_info c')) = ResultStatusSuccess →
   sw' = true ∨ as_Status (mi_AutoSwitch (mig_info c)) = ResultStatusSuccess) →
  mig_protocol {| sys_mig := c; sys_switched := sw |} → mig_protocol {| sys_mig := c'; sys_switched := sw' |}.
Proof.
  intros Hp Hpi Hh Hf Hsw Has []. split; unfold has_finalizer, pipe_of in *; cbn in *;
    rewrite ?Hp, ?Hpi, ?Hh, ?Hf in *; auto.
  intros H. destruct (Has H); auto.
Qed.

(** The edges of the manager. *)
Lemma protocol_moves c c' sw :
  mig_info c' = mig_info c → om_Finalizers (mig_meta c') = om_Finalizers (mig_meta c) →
  mig_moves c (mig_phase c') ∨ mig_phase c = "" ∧ mig_phase c' = MigrationPhasePending →
  mig_protocol {| sys_mig := c; sys_switched := sw |} →
  mig_protocol {| sys_mig := c'; sys_switched := sw |}.
Proof.
  intros Hi Hf Hm [H1 H2 H3 H4 H5 H6 H7 H8]. unfold has_finalizer, pipe_of, host_of in *. cbn in *.
  split; unfold has_finalizer, pipe_of, host_of; cbn; rewrite ?Hi, ?Hf; try done;
    remember (mig_phase c') as ph; clear Heqph;
    destruct Hm as [[Hp|Hp ? ? ?|Hp ? ?|Hp ?|Hp ? ?]|[Hp ->]]; intros Hph; rewrite Hp in *;
    try discriminate; try (by destruct Hph as [|[|]]); auto; try (by destruct Hph); unfold moved;
    destruct (H4 eq_refl); auto.
Qed.

(** A phase that is not this one. *)
Ltac other_phase := solve [intros Hother; repeat (destruct Hother as [Hother|Hother]); discriminate Hother].

(** What the agent and the host record. *)
Lemma protocol_pipe_up dest c sw : mig_phase c = MigrationPhaseSetupPipe →
  mig_protocol {| sys_mig := c; sys_switched := sw |} →
  mig_protocol {| sys_mig := pipe_up dest c; sys_switched := sw |}.
Proof.
  intros Hp [H1 H2 H3 H4 H5 H6 H7 H8]. cbn [sys_mig sys_switched] in *.
  assert (mig_phase (pipe_up dest c) = MigrationPhaseSetupPipe) as Hp' by exact Hp.
  split; cbn [sys_mig sys_switched]; rewrite ?Hp'; try other_phase; try done.
  - split; [done|]. intros _. apply finalizer_append. by right.
  - unfold pipe_up. rewrite finalizer_append. rewrite <- H2. split; [by intros [|]|by left].
Qed.
Lemma protocol_pipe_down c sw : mig_phase c = MigrationPhaseCleaning →
  mig_protocol {| sys_mig := c; sys_switched := sw |} →
  mig_protocol {| sys_mig := pipe_down c; sys_switched := sw |}.
Proof.
  intros Hp [H1 H2 H3 H4 H5 H6 H7 H8]. cbn [sys_mig sys_switched] in *.
  assert (mig_phase (pipe_down c) = MigrationPhaseCleaning) as Hp' by exact Hp.
  split; cbn [sys_mig sys_switched]; rewrite ?Hp'; rewrite ?Hp in *; try other_phase; auto.
  - unfold pipe_down at 1. rewrite finalizer_drop. by split; [intros []|].
  - unfold pipe_down. rewrite finalizer_drop. rewrite <- H2. split; [by intros []|done].
  - intros _. destruct (H5 eq_refl). split; [by right|done].
Qed.
Lemma protocol_host_up c sw : mig_phase c = MigrationPhaseSetupPipe →
  mig_protocol {| sys_mig := c; sys_switched := sw |} →
  mig_protocol {| sys_mig := host_up c; sys_switched := sw |}.
Proof.
  intros Hp [H1 H2 H3 H4 H5 H6 H7 H8]. cbn [sys_mig sys_switched] in *.
  assert (mig_phase (host_up c) = MigrationPhaseSetupPipe) as Hp' by exact Hp.
  split; cbn [sys_mig sys_switched]; rewrite ?Hp'; try other_phase; try done.
  - unfold host_up. rewrite finalizer_append. rewrite <- H1. split; [by intros [|]|by left].
  - split; [done|]. intros _. apply finalizer_append. by right.
Qed.
Lemma protocol_host_down c sw : mig_phase c = MigrationPhaseCleaning →
  mig_protocol {| sys_mig := c; sys_switched := sw |} →
  mig_protocol {| sys_mig := host_down c; sys_switched := sw |}.
Proof.
  intros Hp [H1 H2 H3 H4 H5 H6 H7 H8]. cbn [sys_mig sys_switched] in *.
  assert (mig_phase (host_down c) = MigrationPhaseCleaning) as Hp' by exact Hp.
  split; cbn [sys_mig sys_switched]; rewrite ?Hp'; rewrite ?Hp in *; try other_phase; auto.
  - unfold host_down. rewrite finalizer_drop. rewrite <- H1. split; [by intros []|done].
  - unfold host_down at 1. rewrite finalizer_drop. by split; [intros []|].
  - intros _. destruct (H5 eq_refl). split; [done|by right].
Qed.
Lemma protocol_patch base c p s sw :
  s = mi_AutoSwitch (mig_info base) ∨ as_Status s = ResultStatusUnknown →
  mig_protocol {| sys_mig := c; sys_switched := sw |} →
  mig_protocol {| sys_mig := merge_patch base
      (mig_set_mig_info (mi_set_AutoSwitch s (mi_set_JobProgress p (mig_info base))) base) c; sys_switched := sw |}.
Proof.
  destruct Hpatch as [L1 L2 L3 L4 L5]. intros Hs.
  apply protocol_ext; [unfold mig_phase; by rewrite L1|by apply L3|by apply L4|by apply L2|done|].
  rewrite L5. destruct (decide _) as [E|E]; [by right|]. cbn. destruct Hs as [-> | ->]; [|done].
  by destruct E.
Qed.

Lemma sys_step_protocol s s' : sys_step s s' → mig_protocol s → mig_protocol s'.
Proof.
  intros Hst Hs. destruct Hst as [c sw u req w w' x Hg Hx|c sw m req svc n k k' x Hg Hwf Hx Hm|c sw req w w' x Hg Hx|
    c c' sw H1 H2 H3].
  - destruct (manager_accepts _ _ _ _ _ _ Hg Hx) as (Hi & Hf & [Hp|Hp]).
    + revert Hs. apply protocol_ext; unfold host_of; rewrite ?Hi; auto.
    + revert Hs. by apply protocol_moves.
  - destruct (agent_accepts c m _ _ _ _ _ _ Hg Hwf Hx Hm) as [(d & Hp & ->)|[[Hp ->]|(p & as1 & -> & He)]].
    + by apply protocol_pipe_up.
    + by apply protocol_pipe_down.
    + by apply protocol_patch.
  - assert (∀ c', mig_protocol {| sys_mig := c'; sys_switched := sw |} →
      mig_protocol {| sys_mig := c'; sys_switched := sw || switched_in c' |}) as Hor.
    { intros c'. apply protocol_ext; try done; [by intros ->|by right]. }
    destruct (host_accepts _ _ _ _ _ Hg Hx) as [[Hp ->]|[[Hp ->]|[Hp ->]]].
    + by apply Hor, protocol_host_up.
    + revert Hs. apply protocol_ext; try done; [by intros ->|]. left. by apply orb_true_r.
    + by apply Hor, protocol_host_down.
  - revert Hs. apply protocol_ext; unfold mig_phase, host_of; rewrite ?H1, ?H2; auto.
Qed.

Lemma mig_moves_forward c p : mig_moves c p → phase_left p < phase_left (mig_phase c).
Proof. intros [H|H|H|H|H]; rewrite H; vm_compute; lia. Qed.

Lemma sys_step_forward s s' : sys_step s s' →
  phase_left (mig_phase (sys_mig s')) ≤ phase_left (mig_phase (sys_mig s)).
Proof.
  intros [c sw u req w w' x Hg Hx|c sw m req svc n k k' x Hg Hwf Hx Hm|c sw req w w' x Hg Hx|
    c c' sw H1 H2 H3]; cbn [sys_mig].
  - destruct (manager_accepts _ _ _ _ _ _ Hg Hx) as (_ & _ & [Hp|[Hp|[H0 Hp]]]).
    + by rewrite Hp.
    + apply mig_moves_forward in Hp. lia.
    + rewrite Hp, H0. vm_compute. lia.
  - destruct (agent_accepts c m _ _ _ _ _ _ Hg Hwf Hx Hm) as [(d & _ & ->)|[[_ ->]|(p & as1 & -> & _)]]; [done..|].
    cbn [accept]. unfold mig_phase. by rewrite (mpl_status Hpatch).
  - by destruct (host_accepts _ _ _ _ _ Hg Hx) as [[_ ->]|[[_ ->]|[_ ->]]].
  - unfold mig_phase. by rewrite H1.
Qed.

Lemma fresh_protocol c : mig_fresh c → mig_protocol {| sys_mig := c; sys_switched := false |}.
Proof.
  intros [Hp ? ? ? ? ?]. split; cbn [sys_mig sys_switched]; rewrite ?Hp; try other_phase; try done; split; done.
Qed.

End protocol.

(** ** Examples *)

(** The merge patch, field by field. *)
Definition kept {A} `{EqDecision A} (base obj cur : A) : A := if decide (base = obj) then cur else obj.
Definition ex_merge (base obj c : VolumeMigration) : VolumeMigration :=
  let b := mig_info base in let o := mig_info obj in let i := mig_info c in
  mig_set_finalizers (kept (om_Finalizers (mig_meta base)) (om_Finalizers (mig_meta obj)) (om_Finalizers (mig_meta c)))
    (mig_set_mig_info {|
       mi_MigrationPipe := kept (mi_MigrationPipe b) (mi_MigrationPipe o) (mi_MigrationPipe i);
       mi_HostConnectStatus := kept (mi_HostConnectStatus b) (mi_HostConnectStatus o) (mi_HostConnectStatus i);
       mi_StartTimestamp := kept (mi_StartTimestamp b) (mi_StartTimestamp o) (mi_StartTimestamp i);
       mi_AutoSwitch := {|
         as_Enabled := kept (as_Enabled (mi_AutoSwitch b)) (as_Enabled (mi_AutoSwitch o)) (as_Enabled (mi_AutoSwitch i));
         as_Status := kept (as_Status (mi_AutoSwitch b)) (as_Status (mi_AutoSwitch o)) (as_Status (mi_AutoSwitch i)) |};
       mi_JobProgress := kept (mi_JobProgress b) (mi_JobProgress o) (mi_JobProgress i) |} c).

Lemma ex_merge_laws : MergePatchLaws ex_merge.
Proof.
  split; intros; unfold ex_merge, kept; cbn; try done; try (by rewrite decide_True).
  by case_decide.
Qed.

Lemma ex_mig_fresh : mig_fresh (ex_mig "").
Proof. by split; try done; intros ?%elem_of_nil. Qed.

(** A host without the tool. *)
Definition ex_exec {W} : NvmeExec W := {|
  nvme_list := mret (inl []); nvme_list_subsys := mret (inr (ErrAPI ReasonOther "no subsystems")); nvme_run _ := mret None |}.

Definition ex_pending : VolumeMigration :=
  accept ex_merge (ex_mig "") (WUpdateStatus (mig_set_state MigrationStatusWorking
    (mig_set_phase MigrationPhasePending (ex_mig "")))).


(** A migration whose destination has come up, on the node of the source. *)
Definition ex_mig_pipe : VolumeMigration :=
  mig_set_dest (ex_volume_info DefaultNamespace "src") (ex_mig MigrationPhaseSetupPipe).

