(* ===== verification/Snapshot.v ===== *)
(** * Snapshots

    [reconciler/snapshot_reconciler.go] checks a snapshot, binds it to the node of
    its origin and moves its status; [pkg/agent/sync/sync_snapshot.go] on that
    node creates the logical volume, deletes it, and merges it into the origin.
    Proved here: what either writes is guarded, an origin has at most one snapshot
    at work, the finalizer tells whether the logical volume is there, and a merge
    whose record is lost can never be recorded again. *)

From Stdlib Require Import ZArith Lia.
From stdpp Require Import base gmap strings option list.
From S2P Require Import Prelude Strconv Misc K8s Api Spdk SpdkBdev Plugin Server Lvm LvmEngine Engine VolumeSync.

Definition snap_set_finalizers (f : list string) (s : AntstorSnapshot) : AntstorSnapshot :=
  snap_set_meta (om_set_Finalizers f (snap_meta s)) s.
Definition snap_set_labels (l : option (gmap string string)) (s : AntstorSnapshot) : AntstorSnapshot :=
  snap_set_meta (om_set_Labels l (snap_meta s)) s.
Definition snap_with_spec (f : AntstorSnapshotSpec → AntstorSnapshotSpec) (s : AntstorSnapshot) : AntstorSnapshot :=
  snap_set_Spec (f (snap_Spec s)) s.
Definition snap_set_status (st : string) (s : AntstorSnapshot) : AntstorSnapshot :=
  snap_set_Status {| sst_Status := st |} s.
Definition snap_status (s : AntstorSnapshot) : string := sst_Status (snap_Status s).
Definition snap_origin (s : AntstorSnapshot) : string := ss_OriginVolName (snap_Spec s).
Definition snap_target (s : AntstorSnapshot) : string := ss_OriginVolTargetNodeID (snap_Spec s).
Definition snap_size (s : AntstorSnapshot) : Z := ss_Size (snap_Spec s).
Definition snap_label (s : AntstorSnapshot) (k : string) : option string := map_get (om_Labels (snap_meta s)) k.
#[export] Instance snap_KubeObject : KubeObject AntstorSnapshot := {|
  ko_meta := snap_meta;
  ko_with_status o old := snap_set_Status (snap_Status old) o;
  ko_with_meta := snap_set_meta |}.

(** The recorder of events: the reason and the text of a warning. *)
Class EventRecorder (W : Type) := { event_Warning : AntstorSnapshot → string → string → go W unit }.

(* [reconciler/snapshot_reconciler.go:25-25] SnapshotCreateFailure *)
Definition SnapshotCreateFailure : string := "SnapshotCreateFailure".
(* [reconciler/snapshot_reconciler.go:26-26] SnapshotMergeFailure *)
Definition SnapshotMergeFailure : string := "SnapshotMergeFailure".
(* [reconciler/snapshot_reconciler.go:27-27] SnapshotDeleteFailure *)
Definition SnapshotDeleteFailure : string := "SnapshotDeleteFailure".

(** ** The manager *)

Section manager.
Context {L : K8sLib} {W : Type}.
Context {KS : KubeClient W AntstorSnapshot} {LS : KubeLister W AntstorSnapshot}.
Context {KP : KubeClient W StoragePool} {KV : KubeClient W AntstorVolume} {ER : EventRecorder W}.
Definition SnapReply : Type := (CtrlResult * option error).
Abbreviation SR := (go W SnapReply).

Definition snap_done : SR := mret (CtrlResult_zero, None).
Definition snap_update (s : AntstorSnapshot) : SR :=
  r ← kUpdate s; mret (CtrlResult_zero, match r with inl _ => None | inr e => Some e end).
Definition snap_update_status (s : AntstorSnapshot) : SR :=
  r ← kUpdateStatus s; mret (CtrlResult_zero, match r with inl _ => None | inr e => Some e end).
(** A warning, and what the request comes to. *)
Definition refuse (s : AntstorSnapshot) (why : string) (res : CtrlResult) : SR :=
  _ ← event_Warning s SnapshotCreateFailure why; mret (res, None).
Definition requeue_in (d : Z) : CtrlResult := {| cr_Requeue := true; cr_RequeueAfter := d |}.

(** The last steps: bound to a node, being created, being merged. *)
(* [reconciler/snapshot_reconciler.go:195-220] SnapshotReconciler.Reconcile, binding and status *)
Definition snap_advance (originVol : AntstorVolume) (obj : AntstorSnapshot) : SR :=
  if decide (snap_target obj = "") then
    match om_Labels (snap_meta obj) with
    | None => panic "assignment to entry in nil map"
    | Some labels =>
        snap_update (snap_set_labels (Some (<[TargetNodeIdLabelKey := vs_TargetNodeId (vol_Spec originVol)]> labels))
          (snap_with_spec (ss_set_OriginVolTargetNodeID (vs_TargetNodeId (vol_Spec originVol))) obj))
    end
  else if decide (snap_status obj = "" ∧ snap_target obj ≠ "") then
    snap_update_status (snap_set_status SnapshotStatusCreating obj)
  else if decide (map_str (om_Labels (snap_meta obj)) MergeStartTimestampLabelKey ≠ "" ∧
                  snap_status obj ≠ SnapshotStatusMerging) then
    snap_update_status (snap_set_status SnapshotStatusMerging obj)
  else snap_done.

(** The origin: scheduled, with room reserved for the snapshot. [None] when it
    is fine. *)
(* [reconciler/snapshot_reconciler.go:171-193] SnapshotReconciler.Reconcile, the origin volume *)
Definition origin_problem (originVol : AntstorVolume) (obj : AntstorSnapshot) : option (string * CtrlResult) :=
  let volFullName := ss_OriginVolNamespace (snap_Spec obj) +:+ "/" +:+ snap_origin obj in
  if decide (vs_TargetNodeId (vol_Spec originVol) = "") then
    Some ("origin volume " +:+ volFullName +:+ " is not scheduled", requeue_in Minute)
  else match om_Annotations (vol_meta originVol) with
  | None => Some ("origin volume has no obnvmf/snapshot-reserved-bytes in annotations", requeue_in (3 * Minute))
  | Some annotations =>
      let snapReservedSpace := default "" (annotations !! SnapshotReservedSpaceAnnotationKey) in
      match Atoi snapReservedSpace with
      | (_, Some err) =>
          Some ("invalid reserved space " +:+ snapReservedSpace +:+ ", err " +:+ error_msg err, requeue_in (3 * Minute))
      | (snapReservedBytes, None) =>
          if decide (snap_size obj > snapReservedBytes)%Z then
            Some ("snap size too large: " +:+ Itoa (snap_size obj) +:+ ", reserved size " +:+ Itoa snapReservedBytes,
                  requeue_in (3 * Minute))
          else None
      end
  end.

(** Another snapshot of the list that is not merged. *)
(* [reconciler/snapshot_reconciler.go:143-153] SnapshotReconciler.Reconcile, the other snapshots *)
Definition other_snapshot (obj : AntstorSnapshot) (items : list AntstorSnapshot) : bool :=
  existsb (λ item, negb (bool_decide (om_Name (snap_meta item) = om_Name (snap_meta obj) ∧
                                      om_Namespace (snap_meta item) = om_Namespace (snap_meta obj))) &&
                   negb (bool_decide (snap_status item = SnapshotStatusMerged))) items.

Definition origin_selector (obj : AntstorSnapshot) : string := OriginVolumeNameLabelKey +:+ "=" +:+ snap_origin obj.

(* [reconciler/snapshot_reconciler.go:135-193] SnapshotReconciler.Reconcile, validation against the others *)
Definition snap_validate (obj : AntstorSnapshot) : SR :=
  r ← kList (om_Namespace (snap_meta obj)) (origin_selector obj);
  match r with
  | inr e => mret (CtrlResult_zero, Some e)
  | inl items =>
      if other_snapshot obj items
      then refuse obj "origin volume can only have one snapshot" (requeue_in (3 * Minute))
      else
        r ← kGet (T := AntstorVolume) (ss_OriginVolNamespace (snap_Spec obj)) (snap_origin obj);
        match r with
        | inr e =>
            _ ← (if IsNotFound e
                 then event_Warning obj SnapshotCreateFailure
                        ("cannot find origin volume " +:+ ss_OriginVolNamespace (snap_Spec obj) +:+ "/" +:+ snap_origin obj)
                 else mret tt);
            mret (CtrlResult_zero, IgnoreNotFound (Some e))
        | inl originVol =>
            match origin_problem originVol obj with
            | Some (why, res) => refuse obj why res
            | None => snap_advance originVol obj
            end
        end
  end.

(** Labels, and the size in units of 4 MiB. *)
(* [reconciler/snapshot_reconciler.go:107-133] SnapshotReconciler.Reconcile, labels and size *)
Definition snap_prepare (obj : AntstorSnapshot) : SR :=
  if decide (snap_status obj = SnapshotStatusMerged) then snap_done
  else if decide (default ∅ (om_Labels (snap_meta obj)) = ∅) then
    snap_update (snap_set_labels (Some (<[OriginVolumeNamespaceLabelKey := ss_OriginVolNamespace (snap_Spec obj)]>
                                       (<[OriginVolumeNameLabelKey := snap_origin obj]> ∅))) obj)
  else if decide (snap_size obj < FourMiB)%Z then
    refuse obj "size too small, at least 4MiB" CtrlResult_zero
  else if decide (Z.rem (snap_size obj) FourMiB > 0)%Z then
    snap_update (snap_with_spec (ss_set_Size (Z.quot (snap_size obj) FourMiB * FourMiB)) obj)
  else snap_validate obj.

(** A snapshot being deleted is let go when it is merged or its node's pool is
    gone; otherwise it is treated like any other. *)
(* [reconciler/snapshot_reconciler.go:50-105] SnapshotReconciler.Reconcile, deletion *)
Definition snap_Reconcile (req : Request) : SR :=
  r ← kGet (T := AntstorSnapshot) (rq_Namespace req) (rq_Name req);
  match r with
  | inr err => mret (CtrlResult_zero, IgnoreNotFound (Some err))
  | inl obj =>
      if opt_is_some (om_DeletionTimestamp (snap_meta obj)) then
        if decide (snap_status obj = SnapshotStatusMerged) then snap_update (snap_set_finalizers [] obj)
        else
          r ← kGet (T := StoragePool) DefaultNamespace (snap_target obj);
          match r with
          | inr e =>
              if IsNotFound e then snap_update (snap_set_finalizers [] obj)
              else
                _ ← event_Warning obj SnapshotDeleteFailure (error_msg e);
                mret (CtrlResult_zero, Some e)
          | inl targetPool =>
              if decide (om_Name (sp_meta targetPool) = "") then snap_update (snap_set_finalizers [] obj)
              else snap_prepare obj
          end
      else snap_prepare obj
  end.
End manager.

(** ** The agent *)

Section agent.
Context {L : K8sLib} {N K : Type}.
Context {E : PoolEngineIface (SpdkService * N)} {KS : KubeClient K AntstorSnapshot}.
Variable ps : PoolService.
(** [time.Now().Unix()]. *)
Variable now : Z.
Abbreviation AM := (go ((SpdkService * N) * K)).

Definition update_snap (s : AntstorSnapshot) : AM (option error) :=
  r ← api (kUpdate s); mret (match r with inl _ => None | inr e => Some e end).
Definition update_snap_status (s : AntstorSnapshot) : AM (option error) :=
  r ← api (kUpdateStatus s); mret (match r with inl _ => None | inr e => Some e end).

Definition snap_volume_name (s : AntstorSnapshot) : string :=
  if decide (ss_VolType (snap_Spec s) = VolumeTypeKernelLVol) then kl_Name (ss_KernelLvol (snap_Spec s))
  else if decide (ss_VolType (snap_Spec s) = VolumeTypeSpdkLVol) then sl_Name (ss_SpdkLvol (snap_Spec s))
  else "".
Definition drop_snap_finalizer (s : AntstorSnapshot) : AntstorSnapshot :=
  snap_set_finalizers (List.filter (λ item, negb (bool_decide (item = SnapshotFinalizer)))
                         (om_Finalizers (snap_meta s))) s.

(* [sync/sync_snapshot.go:62-99] SnapshotSyncer.syncOneSnapshot, deletion *)
Definition sync_snap_delete (s : AntstorSnapshot) : AM (option error) :=
  if InSliceString SnapshotFinalizer (om_Finalizers (snap_meta s)) then
    err ← node (pei_DeleteVolume (snap_volume_name s));
    match err with
    | Some e => mret (Some e)
    | None => update_snap (drop_snap_finalizer s)
    end
  else mret None.

(** The name of the snapshot's volume, the origin as the engine names it, and the
    snapshot with these recorded. *)
(* [sync/sync_snapshot.go:122-142] SnapshotSyncer.syncOneSnapshot, the names *)
Definition snap_names (s : AntstorSnapshot) : string * string * AntstorSnapshot :=
  let snapName := snap_origin s +:+ "_snap" in
  if decide (ps_Mode ps = PoolModeKernelLVM) then
    let vgName := klvm_Name (sps_KernelLVM (sp_Spec (ps_Pool ps))) in
    (snapName, snap_origin s,
     snap_with_spec (λ sp, ss_set_VolType VolumeTypeKernelLVol (ss_set_KernelLvol
       {| kl_Name := snapName; kl_DevPath := "/dev/" +:+ vgName +:+ "/" +:+ snapName |} sp)) s)
  else if decide (ps_Mode ps = PoolModeSpdkLVStore) then
    let lvsName := lvst_Name (sps_SpdkLVStore (sp_Spec (ps_Pool ps))) in
    (snapName, lvsName +:+ "/" +:+ snap_origin s,
     snap_with_spec (λ sp, ss_set_VolType VolumeTypeSpdkLVol (ss_set_SpdkLvol
       {| sl_Name := snapName; sl_LvsName := lvsName; sl_Thin := sl_Thin (ss_SpdkLvol sp) |} sp)) s)
  else ("", "", s).

(* [sync/sync_snapshot.go:107-162] SnapshotSyncer.syncOneSnapshot, creation *)
Definition sync_snap_create (s : AntstorSnapshot) : AM (option error) :=
  if InSliceString SnapshotFinalizer (om_Finalizers (snap_meta s))
  then update_snap_status (snap_set_status SnapshotStatusReady s)
  else
    let '(snapName, originName, s1) := snap_names s in
    err ← node (pei_CreateSnapshot {| csr_SnapshotName := snapName; csr_OriginName := originName;
                                      csr_SizeByte := uwrap64 (snap_size s) |});
    match err with
    | Some e => mret (Some e)
    | None => update_snap (snap_set_finalizers (om_Finalizers (snap_meta s1) ++ [SnapshotFinalizer]) s1)
    end.

(* [sync/sync_snapshot.go:164-196] SnapshotSyncer.syncOneSnapshot, merging *)
Definition sync_snap_merge (s : AntstorSnapshot) : AM (option error) :=
  if opt_is_some (snap_label s MergeFinishTimestampLabelKey)
  then update_snap_status (snap_set_status SnapshotStatusMerged s)
  else
    err ← node (pei_RestoreSnapshot (kl_Name (ss_KernelLvol (snap_Spec s))));
    match err with
    | Some e => mret (Some e)
    | None =>
        match om_Labels (snap_meta s) with
        | None => panic "assignment to entry in nil map"
        | Some labels =>
            update_snap (snap_set_status SnapshotStatusMerged
              (snap_set_labels (Some (<[MergeFinishTimestampLabelKey := Itoa now]> labels)) s))
        end
    end.

(* [sync/sync_snapshot.go:47-199] SnapshotSyncer.syncOneSnapshot *)
Definition syncOneSnapshot (nsName : string) : AM (option error) :=
  match SplitMetaNamespaceKey nsName with
  | inr e => mret (Some e)
  | inl (ns, name) =>
      r ← api (kGet (T := AntstorSnapshot) ns name);
      match r with
      | inr e => mret (if IsNotFound e then None else Some e)
      | inl s =>
          if opt_is_some (om_DeletionTimestamp (snap_meta s)) then sync_snap_delete s
          else if decide (snap_status s = SnapshotStatusReady ∨ snap_status s = SnapshotStatusMerged) then mret None
          else if decide (snap_status s = SnapshotStatusCreating) then sync_snap_create s
          else if decide (ss_VolType (snap_Spec s) = VolumeTypeKernelLVol ∧ snap_status s = SnapshotStatusMerging)
          then sync_snap_merge s
          else mret None
      end
  end.
End agent.

(** ** What the manager writes *)

Section guarded.
Context {L : K8sLib} {W : Type}.
Context {KS : KubeClient W AntstorSnapshot} {LS : KubeLister W AntstorSnapshot}.
Context {KP : KubeClient W StoragePool} {KV : KubeClient W AntstorVolume} {ER : EventRecorder W}.
Implicit Types (obj : AntstorSnapshot) (v : AntstorVolume) (w : W).

Abbreviation RW := (Logged W (Write AntstorSnapshot)).
#[local] Instance recS : KubeClient RW AntstorSnapshot := Recording KS id.
#[local] Instance recL : KubeLister RW AntstorSnapshot := {| kList ns sel := on_fst (kList ns sel) |}.
#[local] Instance recP : KubeClient RW StoragePool := client_fst KP.
#[local] Instance recV : KubeClient RW AntstorVolume := client_fst KV.
#[local] Instance recE : EventRecorder RW := {| event_Warning s a b := on_fst (event_Warning s a b) |}.

(** The checks a snapshot has passed: the server listed the snapshots with the
    label of its origin and all others of them are merged, and its origin [v] is
    on a node and has room reserved for it. *)
Record admitted obj v : Prop := {
  ad_alone : ∃ w1 w2 items, kList (om_Namespace (snap_meta obj)) (origin_selector obj) w1 = Ret (inl items) w2 ∧
    ∀ item, item ∈ items → ko_key item = ko_key obj ∨ snap_status item = SnapshotStatusMerged;
  ad_origin : ∃ w1 w2, kGet (T := AntstorVolume) (ss_OriginVolNamespace (snap_Spec obj)) (snap_origin obj) w1 =
    Ret (inl v) w2;
  ad_scheduled : vs_TargetNodeId (vol_Spec v) ≠ "";
  ad_reserved : ∃ n, Atoi (map_str (om_Annotations (vol_meta v)) SnapshotReservedSpaceAnnotationKey) = (n, None) ∧
    (snap_size obj <= n)%Z;
  ad_size : (FourMiB <= snap_size obj)%Z ∧ (FourMiB | snap_size obj)%Z;
  ad_labels : default ∅ (om_Labels (snap_meta obj)) ≠ ∅;
  ad_status : snap_status obj ≠ SnapshotStatusMerged;
}.

Inductive snap_wrote obj : list (Write AntstorSnapshot) → Prop :=
| sw_nothing : snap_wrote obj []
| sw_let_go : is_Some (om_DeletionTimestamp (snap_meta obj)) →
    snap_status obj = SnapshotStatusMerged ∨
    (∃ w1 w2 r, kGet (T := StoragePool) DefaultNamespace (snap_target obj) w1 = Ret r w2 ∧
       match r with inl sp => om_Name (sp_meta sp) = "" | inr e => IsNotFound e = true end) →
    snap_wrote obj [WUpdate (snap_set_finalizers [] obj)]
| sw_label obj' : default ∅ (om_Labels (snap_meta obj)) = ∅ → snap_Spec obj' = snap_Spec obj →
    snap_Status obj' = snap_Status obj → om_Finalizers (snap_meta obj') = om_Finalizers (snap_meta obj) →
    ko_key obj' = ko_key obj → snap_label obj' OriginVolumeNameLabelKey = Some (snap_origin obj) →
    snap_wrote obj [WUpdate obj']
| sw_align obj' : snap_meta obj' = snap_meta obj → snap_Status obj' = snap_Status obj →
    snap_Spec obj' = ss_set_Size (snap_size obj') (snap_Spec obj) →
    (FourMiB | snap_size obj')%Z → (0 < snap_size obj - snap_size obj' < FourMiB)%Z →
    (FourMiB <= snap_size obj')%Z → snap_wrote obj [WUpdate obj']
| sw_bind v obj' : admitted obj v → snap_target obj = "" →
    snap_Spec obj' = ss_set_OriginVolTargetNodeID (vs_TargetNodeId (vol_Spec v)) (snap_Spec obj) →
    snap_Status obj' = snap_Status obj → om_Finalizers (snap_meta obj') = om_Finalizers (snap_meta obj) →
    ko_key obj' = ko_key obj →
    om_Labels (snap_meta obj') = (<[TargetNodeIdLabelKey := vs_TargetNodeId (vol_Spec v)]>) <$> om_Labels (snap_meta obj) →
    snap_wrote obj [WUpdate obj']
| sw_create v : admitted obj v → snap_target obj ≠ "" → snap_status obj = "" →
    snap_wrote obj [WUpdateStatus (snap_set_status SnapshotStatusCreating obj)]
| sw_merge v : admitted obj v → snap_target obj ≠ "" → snap_status obj ≠ "" →
    snap_status obj ≠ SnapshotStatusMerging → map_str (om_Labels (snap_meta obj)) MergeStartTimestampLabelKey ≠ "" →
    snap_wrote obj [WUpdateStatus (snap_set_status SnapshotStatusMerging obj)].

Definition snap_told obj (st : RW) : Prop := snap_wrote obj st.2.
Abbreviation tp obj := (wpp (snap_told obj)).

Lemma tp_quiet obj w : snap_told obj (w, []).
Proof. apply sw_nothing. Qed.
Ltac untold := apply wpp_ret, tp_quiet.

Lemma tp_call {A} obj (op : go W A) Q w :
  (∀ a w', op w = Ret a w' → Q a (w', [])) → tp obj (on_fst op : go RW A) Q (w, []).
Proof.
  intros HQ. apply (wpp_on_fst _ (λ _, True)); [|intros; apply tp_quiet].
  apply wpp_any; [exact HQ|done].
Qed.
Lemma tp_update obj o w : snap_wrote obj [WUpdate o] → tp obj (snap_update o) (λ _, snap_told obj) (w, []).
Proof.
  intros Hw. unfold snap_update. apply wpp_bind. unfold kUpdate, recS, Recording, wpp. rewrite logged_run.
  destruct (kUpdate o w) as [[|] w'|]; exact Hw.
Qed.
Lemma tp_update_status obj o w : snap_wrote obj [WUpdateStatus o] →
  tp obj (snap_update_status o) (λ _, snap_told obj) (w, []).
Proof.
  intros Hw. unfold snap_update_status. apply wpp_bind. unfold kUpdateStatus, recS, Recording, wpp. rewrite logged_run.
  destruct (kUpdateStatus o w) as [[|] w'|]; exact Hw.
Qed.
Lemma tp_refuse obj why res w : tp obj (refuse obj why res) (λ _, snap_told obj) (w, []).
Proof. unfold refuse. apply wpp_bind, tp_call. intros _ w' _. untold. Qed.

Lemma snap_advance_told obj v w : admitted obj v →
  tp obj (snap_advance v obj) (λ _, snap_told obj) (w, []).
Proof.
  intros Ha. unfold snap_advance. destruct (decide (snap_target obj = "")) as [Ht|Ht].
  - destruct (om_Labels (snap_meta obj)) as [labels|] eqn:El.
    2: exact (tp_quiet obj w).
    apply tp_update. eapply sw_bind; try done. cbn. by rewrite El.
  - destruct (decide _) as [[Hs _]|Hs].
    { by eapply tp_update_status, sw_create. }
    destruct (decide _) as [[Hl Hm]|_]; [|untold].
    eapply tp_update_status, sw_merge; [done|done|tauto|done|done].
Qed.

Lemma other_snapshot_false obj items : other_snapshot obj items = false →
  ∀ item, item ∈ items → ko_key item = ko_key obj ∨ snap_status item = SnapshotStatusMerged.
Proof.
  unfold other_snapshot. intros H item Hin. destruct (decide (ko_key item = ko_key obj)) as [|Hk]; [by left|right].
  destruct (decide (snap_status item = SnapshotStatusMerged)) as [|Hs]; [done|].
  exfalso. apply not_true_iff_false in H. apply H, existsb_exists. exists item.
  split; [by apply list_elem_of_In|]. apply andb_true_iff. split; apply negb_true_iff, bool_decide_eq_false; [|done].
  intros [H1 H2]. apply Hk. unfold ko_key. cbn. by rewrite H1, H2.
Qed.

Lemma origin_problem_none v obj : origin_problem v obj = None →
  vs_TargetNodeId (vol_Spec v) ≠ "" ∧
  ∃ n, Atoi (map_str (om_Annotations (vol_meta v)) SnapshotReservedSpaceAnnotationKey) = (n, None) ∧ (snap_size obj <= n)%Z.
Proof.
  unfold origin_problem, map_str, map_get. destruct (decide _) as [_|Ht]; [done|].
  destruct (om_Annotations (vol_meta v)) as [a|]; [|done].
  destruct (Atoi _) as [n [e|]]; [done|]. destruct (decide _) as [_|Hn]; [done|]. intros _.
  split; [done|]. exists n. split; [done|lia].
Qed.

Lemma snap_validate_told obj w :
  (FourMiB <= snap_size obj)%Z → (FourMiB | snap_size obj)%Z → default ∅ (om_Labels (snap_meta obj)) ≠ ∅ →
  snap_status obj ≠ SnapshotStatusMerged → tp obj (snap_validate obj) (λ _, snap_told obj) (w, []).
Proof.
  intros Hsz Hdiv Hl Hst. unfold snap_validate. apply wpp_bind, tp_call. intros [items|e] w1 Hlist; [|untold].
  destruct (other_snapshot obj items) eqn:Eo; [apply tp_refuse|].
  apply wpp_bind, tp_call. intros [v|e] w2 Hget.
  - destruct (origin_problem v obj) as [[why res]|] eqn:Ep; [apply tp_refuse|].
    destruct (origin_problem_none _ _ Ep) as [Ht Hr]. apply snap_advance_told. split; try done.
    + exists w, w1, items. split; [done|]. by apply other_snapshot_false.
    + by exists w1, w2.
  - apply wpp_bind. destruct (IsNotFound e); [apply tp_call; intros _ w3 _; untold|].
    apply wpp_ret. untold.
Qed.

Lemma align_down size : (FourMiB <= size)%Z → (Z.rem size FourMiB > 0)%Z →
  let size' := (Z.quot size FourMiB * FourMiB)%Z in
  (FourMiB | size')%Z ∧ (0 < size - size' < FourMiB)%Z ∧ (FourMiB <= size')%Z.
Proof.
  intros Hs Hr. pose proof (Z.quot_rem' size FourMiB) as Hq.
  assert (0 < FourMiB)%Z as Hpos by done.
  pose proof (Z.rem_bound_pos size FourMiB) as Hb. assert (0 <= size)%Z by lia.
  specialize (Hb ltac:(lia) Hpos). cbn zeta. split; [by exists (Z.quot size FourMiB)|].
  assert (1 <= Z.quot size FourMiB)%Z by (apply Z.quot_le_lower_bound; lia). nia.
Qed.

Lemma snap_prepare_told obj w : tp obj (snap_prepare obj) (λ _, snap_told obj) (w, []).
Proof.
  unfold snap_prepare. destruct (decide _) as [_|Hst]; [untold|].
  destruct (decide _) as [Hl|Hl].
  { by apply tp_update, sw_label. }
  destruct (decide _) as [_|Hsz]; [apply tp_refuse|]. destruct (decide _) as [Hr|Hr].
  { destruct (align_down (snap_size obj)) as (H1 & H2 & H3); [lia|done|]. apply tp_update. by apply sw_align. }
  apply snap_validate_told; [lia| |done|done].
  assert (0 < FourMiB)%Z as Hpos by done.
  apply Z.rem_divide; [lia|]. pose proof (Z.rem_nonneg (snap_size obj) FourMiB). lia.
Qed.

Definition snap_writes req w : list (Write AntstorSnapshot) := (run_state (snap_Reconcile req (w, []))).2.

Lemma snap_Reconcile_wrote req obj w w' :
  kGet (T := AntstorSnapshot) (KubeClient := KS) (rq_Namespace req) (rq_Name req) w = Ret (inl obj) w' →
  snap_wrote obj (snap_writes req w).
Proof.
  intros Eg. unfold snap_writes, snap_Reconcile.
  assert (∀ f : result AntstorSnapshot → go RW SnapReply,
    run_state ((r ← kGet (T := AntstorSnapshot) (rq_Namespace req) (rq_Name req); f r) (w, [])) =
    run_state (f (inl obj) (w', []))) as ->.
  { intros f. unfold mbind, go_mbind, go_bind. cbn. unfold on_fst. cbn. by rewrite Eg. }
  match goal with |- context [run_state ?o] => change (snap_told obj (run_state o)) end.
  apply wpp_state. destruct (om_DeletionTimestamp (snap_meta obj)) as [t|] eqn:Ed; cbn [opt_is_some];
    [|apply snap_prepare_told].
  assert (is_Some (om_DeletionTimestamp (snap_meta obj))) as Hd by (rewrite Ed; eauto).
  destruct (decide _) as [Hm|_].
  { apply tp_update, sw_let_go; auto. }
  apply wpp_bind, tp_call. intros [sp|e] w1 Hpool.
  - destruct (decide _) as [Hn|_]; [|apply snap_prepare_told].
    apply tp_update, sw_let_go; [done|]. right. by exists w', w1, (inl sp).
  - destruct (IsNotFound e) eqn:Ee.
    + apply tp_update, sw_let_go; [done|]. right. by exists w', w1, (inr e).
    + apply wpp_bind, tp_call. intros _ w2 _. untold.
Qed.

(** Whatever the API server answers, a request for a snapshot writes at most
    once, also when it panics: it lets a deleted snapshot go when it is merged or
    its pool does not exist; labels it when it has no label; rounds its size down
    to 4 MiB; and binds it to the node of its origin, marks it as being created,
    or as being merged when that was asked for, only after every other listed
    snapshot of the origin is merged, the origin is on a node, and the room
    reserved for snapshots is enough. *)
Lemma snap_Reconcile_guarded req w :
  let l := snap_writes req w in
  l = [] ∨
  ∃ obj w', kGet (T := AntstorSnapshot) (KubeClient := KS) (rq_Namespace req) (rq_Name req) w = Ret (inl obj) w' ∧
    snap_wrote obj l.
Proof.
  intros l. destruct (kGet (KubeClient := KS) (rq_Namespace req) (rq_Name req) w) as [[obj|e] w1|why w1] eqn:Eg.
  - right. exists obj, w1. split; [done|]. by apply (snap_Reconcile_wrote req obj w w1).
  - left. unfold l, snap_writes, snap_Reconcile, mbind, go_mbind, go_bind. cbn. unfold on_fst. cbn. by rewrite Eg.
  - left. unfold l, snap_writes, snap_Reconcile, mbind, go_mbind, go_bind. cbn. unfold on_fst. cbn. by rewrite Eg.
Qed.
End guarded.

(** ** What the agent records is true *)

Section agent_truth.
Context {L : K8sLib} {N K : Type}.
Context {E : PoolEngineIface (SpdkService * N)} {HE : EngineLaws E} {HS : SnapshotLaws E HE}.
Context {KS : KubeClient K AntstorSnapshot}.
Implicit Types (s : AntstorSnapshot) (n : N) (k : K).

Abbreviation RK := (Logged K (Write AntstorSnapshot)).
#[local] Instance recK : KubeClient RK AntstorSnapshot := Recording KS id.

(** The node's mode is one of the two, and origins are named as the engine names
    them. *)
Record snap_service ps : Prop := {
  sv_mode : ps_Mode ps = PoolModeKernelLVM ∨ ps_Mode ps = PoolModeSpdkLVStore;
  sv_origin s : (snap_names ps s).1.2 = es_origin (snap_origin s);
}.

(** What a pass may write, with the node as it is then. *)
Inductive snap_synced s n : list (Write AntstorSnapshot) → Prop :=
| sy_nothing : snap_synced s n []
| sy_deleted : is_Some (om_DeletionTimestamp (snap_meta s)) → SnapshotFinalizer ∈ om_Finalizers (snap_meta s) →
    ¬ has_volume n (snap_volume_name s) → snap_synced s n [WUpdate (drop_snap_finalizer s)]
| sy_created s' : om_DeletionTimestamp (snap_meta s) = None → snap_status s = SnapshotStatusCreating →
    SnapshotFinalizer ∉ om_Finalizers (snap_meta s) → has_volume n (snap_volume_name s') →
    snap_Status s' = snap_Status s → snap_origin s' = snap_origin s → snap_target s' = snap_target s →
    snap_meta s' = om_set_Finalizers (om_Finalizers (snap_meta s) ++ [SnapshotFinalizer]) (snap_meta s) →
    snap_synced s n [WUpdate s']
| sy_ready : om_DeletionTimestamp (snap_meta s) = None → snap_status s = SnapshotStatusCreating →
    SnapshotFinalizer ∈ om_Finalizers (snap_meta s) →
    snap_synced s n [WUpdateStatus (snap_set_status SnapshotStatusReady s)]
| sy_finished : om_DeletionTimestamp (snap_meta s) = None → snap_status s = SnapshotStatusMerging →
    is_Some (snap_label s MergeFinishTimestampLabelKey) →
    snap_synced s n [WUpdateStatus (snap_set_status SnapshotStatusMerged s)]
| sy_merged labels t : om_DeletionTimestamp (snap_meta s) = None → snap_status s = SnapshotStatusMerging →
    om_Labels (snap_meta s) = Some labels → ¬ has_volume n (snap_volume_name s) →
    snap_synced s n [WUpdate (snap_set_status SnapshotStatusMerged
      (snap_set_labels (Some (<[MergeFinishTimestampLabelKey := t]> labels)) s))].

Definition snap_handled s (st : (SpdkService * N) * RK) : Prop := snap_synced s st.1.2 st.2.2.
Abbreviation sp s := (wpp (snap_handled s)).

Lemma sp_node {A} (op : go (SpdkService * N) A) s Q st k :
  (∃ a st', op st = Ret a st' ∧ Q a (st', (k, []))) → sp s (node op) Q (st, (k, [])).
Proof.
  intros (a & st' & Ho & HQ). apply wpp_returns. exists a, (st', (k, [])). split; [|exact HQ].
  unfold node, on_fst. cbn [fst snd]. by rewrite Ho.
Qed.
Lemma sp_update s o svc n k : snap_synced s n [WUpdate o] →
  sp s (update_snap (N := N) o) (λ _, snap_handled s) ((svc, n), (k, [])).
Proof.
  intros Hw. unfold update_snap. apply wpp_bind. apply (wpp_on_snd _ (λ rk, snap_synced s n rk.2)); [|done].
  unfold kUpdate, recK, Recording, wpp. rewrite logged_run. destruct (kUpdate o k) as [[|] w'|]; exact Hw.
Qed.
Lemma sp_update_status s o svc n k : snap_synced s n [WUpdateStatus o] →
  sp s (update_snap_status (N := N) o) (λ _, snap_handled s) ((svc, n), (k, [])).
Proof.
  intros Hw. unfold update_snap_status. apply wpp_bind. apply (wpp_on_snd _ (λ rk, snap_synced s n rk.2)); [|done].
  unfold kUpdateStatus, recK, Recording, wpp. rewrite logged_run. destruct (kUpdateStatus o k) as [[|] w'|]; exact Hw.
Qed.
Ltac unwritten := apply wpp_ret, sy_nothing.

Lemma sync_snap_delete_handled s st k : svc_wf st → is_Some (om_DeletionTimestamp (snap_meta s)) →
  sp s (sync_snap_delete s) (λ _, snap_handled s) (st, (k, [])).
Proof.
  intros Hwf Hd. unfold sync_snap_delete. destruct (InSliceString _ _) eqn:Ef; [|unwritten].
  apply InSliceString_spec in Ef. apply wpp_bind, sp_node.
  destruct (el_delete (snap_volume_name s) st Hwf) as (e & [svc' n'] & Hr & _ & _ & Hg).
  do 2 eexists. split; [exact Hr|]. destruct e as [e|]; [unwritten|].
  apply sp_update, sy_deleted; [done|done|by apply Hg].
Qed.

Lemma snap_names_spec ps s : ps_Mode ps = PoolModeKernelLVM ∨ ps_Mode ps = PoolModeSpdkLVStore →
  let '(snapName, _, s1) := snap_names ps s in
  snap_volume_name s1 = snapName ∧ snap_meta s1 = snap_meta s ∧ snap_Status s1 = snap_Status s ∧
  snap_origin s1 = snap_origin s ∧ snap_target s1 = snap_target s.
Proof. intros [E1|E1]; unfold snap_names; rewrite E1; done. Qed.

Lemma sync_snap_create_handled ps s st k : snap_service ps → svc_wf st →
  om_DeletionTimestamp (snap_meta s) = None → snap_status s = SnapshotStatusCreating →
  sp s (sync_snap_create ps s) (λ _, snap_handled s) (st, (k, [])).
Proof.
  intros [Hmode Horig] Hwf Hd Hst. unfold sync_snap_create. destruct (InSliceString _ _) eqn:Ef.
  { apply InSliceString_spec in Ef. destruct st as [svc n]. by apply sp_update_status, sy_ready. }
  apply InSliceString_false in Ef. specialize (Horig s). pose proof (snap_names_spec ps s Hmode) as Hn.
  destruct (snap_names ps s) as [[snapName originName] s1]. cbn [fst snd] in Horig. subst originName.
  destruct Hn as (H1 & H2 & H3 & H4 & H5).
  apply wpp_bind, sp_node.
  destruct (es_create snapName (snap_origin s) (uwrap64 (snap_size s)) st Hwf) as (e & [svc' n'] & Hr & _ & _ & Hg).
  do 2 eexists. split; [exact Hr|]. destruct e as [e|]; [unwritten|].
  apply sp_update, sy_created; try done.
  - change (has_volume n' (snap_volume_name s1)). rewrite H1. by apply Hg.
  - cbn. by rewrite H2.
Qed.

Lemma sync_snap_merge_handled now s st k : svc_wf st → om_DeletionTimestamp (snap_meta s) = None →
  snap_status s = SnapshotStatusMerging → ss_VolType (snap_Spec s) = VolumeTypeKernelLVol →
  sp s (sync_snap_merge now s) (λ _, snap_handled s) (st, (k, [])).
Proof.
  intros Hwf Hd Hst Hty. unfold sync_snap_merge. destruct (snap_label s _) as [t|] eqn:El; cbn [opt_is_some].
  { destruct st as [svc n]. apply sp_update_status, sy_finished; [done|done|by rewrite El]. }
  apply wpp_bind, sp_node.
  destruct (es_restore (kl_Name (ss_KernelLvol (snap_Spec s))) st Hwf) as (e & [svc' n'] & Hr & _ & _ & Hg & _).
  do 2 eexists. split; [exact Hr|]. destruct e as [e|]; [unwritten|].
  destruct (om_Labels (snap_meta s)) as [labels|] eqn:Elab.
  2: exact (sy_nothing s n').
  eapply sp_update, sy_merged; [done|done|done|].
  unfold snap_volume_name. rewrite decide_True by done. by apply Hg.
Qed.

Definition sync_snap_writes ps now nsName svc n k : list (Write AntstorSnapshot) :=
  (run_state (syncOneSnapshot ps now nsName ((svc, n), (k, [])))).2.2.

Lemma syncOneSnapshot_synced ps now nsName ns name s svc n k k' :
  snap_service ps → alloc_wf (ss_idAlloc svc) → SplitMetaNamespaceKey nsName = inl (ns, name) →
  kGet (T := AntstorSnapshot) (KubeClient := KS) ns name k = Ret (inl s) k' →
  let st := run_state (syncOneSnapshot ps now nsName ((svc, n), (k, []))) in snap_synced s st.1.2 st.2.2.
Proof.
  intros Hps Hwf Hsplit Eg st. unfold st, syncOneSnapshot. rewrite Hsplit. clear st.
  assert (∀ f : result AntstorSnapshot → go ((SpdkService * N) * RK) (option error),
    run_state ((r ← api (kGet (T := AntstorSnapshot) ns name); f r) ((svc, n), (k, []))) =
    run_state (f (inl s) ((svc, n), (k', [])))) as ->.
  { intros f. unfold mbind, go_mbind, go_bind, api, on_snd. cbn. unfold on_fst. cbn. by rewrite Eg. }
  match goal with |- context [run_state ?o] => change (snap_handled s (run_state o)) end.
  apply wpp_state. destruct (om_DeletionTimestamp (snap_meta s)) as [t|] eqn:Ed; cbn [opt_is_some].
  { apply sync_snap_delete_handled; [exact Hwf|by rewrite Ed]. }
  destruct (decide _) as [_|_]; [unwritten|].
  destruct (decide _) as [Hc|_]; [by apply sync_snap_create_handled|].
  destruct (decide _) as [[Hty Hm]|_]; [by apply sync_snap_merge_handled|unwritten].
Qed.

(** C14. What the agent records of a snapshot is true, whatever the API server
    answers: it writes at most once; the finalizer is added only when the logical
    volume the snapshot then names is on the node, and taken away, for a deleted
    snapshot, only when it is gone; it is called ready only with the finalizer,
    and merged only when its logical volume has gone into the origin. *)
Theorem snapshot_truthful ps now nsName svc n k :
  snap_service ps → alloc_wf (ss_idAlloc svc) →
  let st := run_state (syncOneSnapshot ps now nsName ((svc, n), (k, []))) in
  st.2.2 = [] ∨
  ∃ ns name s k', SplitMetaNamespaceKey nsName = inl (ns, name) ∧
    kGet (T := AntstorSnapshot) (KubeClient := KS) ns name k = Ret (inl s) k' ∧ snap_synced s st.1.2 st.2.2.
Proof.
  intros Hps Hwf st. destruct (SplitMetaNamespaceKey nsName) as [[ns name]|e] eqn:Es.
  2: left; unfold st, syncOneSnapshot; by rewrite Es.
  destruct (kGet (KubeClient := KS) ns name k) as [[s|e] k'|why k'] eqn:Eg.
  - right. exists ns, name, s, k'. split; [done|]. split; [done|]. by eapply syncOneSnapshot_synced.
  - left. unfold st, syncOneSnapshot. rewrite Es. unfold mbind, go_mbind, go_bind, api, on_snd. cbn. unfold on_fst.
    cbn. by rewrite Eg.
  - left. unfold st, syncOneSnapshot. rewrite Es. unfold mbind, go_mbind, go_bind, api, on_snd. cbn. unfold on_fst.
    cbn. by rewrite Eg.
Qed.

(** A merge cannot be repeated: when the logical volume of a snapshot is gone
    and the label that says so is not on it, because its update was refused, every
    later pass fails and writes nothing. The snapshot stays in status merging. *)
Lemma merge_not_repeatable ps now nsName ns name s svc n k k' :
  alloc_wf (ss_idAlloc svc) → SplitMetaNamespaceKey nsName = inl (ns, name) →
  kGet (T := AntstorSnapshot) (KubeClient := KS) ns name k = Ret (inl s) k' →
  om_DeletionTimestamp (snap_meta s) = None → snap_status s = SnapshotStatusMerging →
  ss_VolType (snap_Spec s) = VolumeTypeKernelLVol → snap_label s MergeFinishTimestampLabelKey = None →
  ¬ has_volume n (snap_volume_name s) →
  ∃ e, syncOneSnapshot ps now nsName ((svc, n), (k, [])) = Ret (Some e) ((svc, n), (k', [])).
Proof.
  intros Hwf Hsplit Eg Hd Hm Hty Hl Hgone. unfold syncOneSnapshot. rewrite Hsplit.
  assert (∀ f : result AntstorSnapshot → go ((SpdkService * N) * RK) (option error),
    (r ← api (kGet (T := AntstorSnapshot) ns name); f r) ((svc, n), (k, [])) =
    f (inl s) ((svc, n), (k', []))) as ->.
  { intros f. unfold mbind, go_mbind, go_bind, api, on_snd. cbn. unfold on_fst. cbn. by rewrite Eg. }
  rewrite Hd, Hm. cbn [opt_is_some]. rewrite decide_False by (intros [|]; discriminate).
  rewrite decide_False by discriminate. rewrite decide_True by done. unfold sync_snap_merge. rewrite Hl.
  cbn [opt_is_some].
  destruct (es_restore (kl_Name (ss_KernelLvol (snap_Spec s))) (svc, n) Hwf) as (e & st' & Hr & _ & _ & _ & Hno).
  destruct Hno as [[e' ->] ->].
  { intros Hh. apply Hgone. unfold snap_volume_name. by rewrite decide_True. }
  assert (node (K := RK) (pei_RestoreSnapshot (kl_Name (ss_KernelLvol (snap_Spec s)))) ((svc, n), (k', [])) =
          Ret (Some e') ((svc, n), (k', []))) as Hn by (unfold node, on_fst; cbn [fst snd]; by rewrite Hr).
  exists e'. rewrite (go_bind_Ret _ _ _ _ _ Hn). reflexivity.
Qed.
End agent_truth.

(** ** One snapshot of an origin at a time

    The stored snapshots, with the manager and the agents of all nodes acting on
    them; an update is refused when the object has changed since it was read. *)

Section exclusive.
Context {L : K8sLib} {W : Type}.
Context {N K : Type} {E : PoolEngineIface (SpdkService * N)} {HE : EngineLaws E} {HS : SnapshotLaws E HE}.
Implicit Types (s obj : AntstorSnapshot) (st : MemStore AntstorSnapshot).

(** Given to a node, and not merged yet. *)
Definition active s : Prop := snap_target s ≠ "" ∧ snap_status s ≠ SnapshotStatusMerged.
Definition origin_label s : option string := snap_label s OriginVolumeNameLabelKey.
(** Created without labels, or with the one the manager would set. *)
Definition labelled s : Prop :=
  default ∅ (om_Labels (snap_meta s)) = ∅ ∨ origin_label s = Some (snap_origin s).

Definition snap_accept c (x : Write AntstorSnapshot) : AntstorSnapshot :=
  match x with
  | WUpdate o => ko_with_status o c
  | WUpdateStatus o => ko_with_status c o
  | _ => c
  end.

(** A list call answers with every stored snapshot that carries the label. *)
Definition lists_store (LS : KubeLister W AntstorSnapshot) st : Prop :=
  ∀ ns origin w items w', kList ns (OriginVolumeNameLabelKey +:+ "=" +:+ origin) w = Ret (inl items) w' →
    ∀ k s, st !! k = Some s → k.1 = ns → origin_label s = Some origin → s ∈ items.

(** Every request finds a server, and a node, of its own. *)
Inductive snap_step : MemStore AntstorSnapshot → MemStore AntstorSnapshot → Prop :=
| sn_manager st (KS : KubeClient W AntstorSnapshot) (LS : KubeLister W AntstorSnapshot)
      (KP : KubeClient W StoragePool) (KV : KubeClient W AntstorVolume) (ER : EventRecorder W) req obj w w' x :
    st !! (rq_Namespace req, rq_Name req) = Some obj → lists_store LS st →
    kGet (T := AntstorSnapshot) (KubeClient := KS) (rq_Namespace req) (rq_Name req) w = Ret (inl obj) w' →
    x ∈ snap_writes req w → snap_step st (store_put (snap_accept obj x) st)
| sn_agent st (KA : KubeClient K AntstorSnapshot) ps now nsName ns name obj svc n k k' x :
    snap_service ps → alloc_wf (ss_idAlloc svc) →
    SplitMetaNamespaceKey nsName = inl (ns, name) → st !! (ns, name) = Some obj →
    kGet (T := AntstorSnapshot) (KubeClient := KA) ns name k = Ret (inl obj) k' →
    x ∈ sync_snap_writes ps now nsName svc n k → snap_step st (store_put (snap_accept obj x) st)
(** The server does not take a status at creation. *)
| sn_create st s : st !! ko_key s = None → snap_target s = "" → snap_status s = "" → labelled s →
    snap_step st (<[ko_key s := s]> st)
| sn_edit st k s s' : st !! k = Some s → ko_key s' = ko_key s → snap_origin s' = snap_origin s →
    snap_target s' = snap_target s → snap_status s' = snap_status s → labelled s' →
    origin_label s' = origin_label s → snap_step st (<[k := s']> st)
| sn_gone st k : snap_step st (delete k st).

(** Bound snapshots carry the label of their origin; only they have a status. *)
Definition bound s : Prop := snap_target s ≠ "".
Record good s : Prop := {
  gd_labelled : labelled s;
  gd_bound : bound s → origin_label s = Some (snap_origin s);
  gd_status : snap_status s ≠ "" → bound s;
}.

Record snaps_ok st : Prop := {
  so_key k s : st !! k = Some s → ko_key s = k;
  so_good k s : st !! k = Some s → good s;
  so_exclusive k1 k2 s1 s2 : st !! k1 = Some s1 → st !! k2 = Some s2 → k1.1 = k2.1 →
    snap_origin s1 = snap_origin s2 → active s1 → active s2 → k1 = k2;
}.

(** A change that keeps the name and the origin, and starts nothing that is not
    alone. *)
Record allowed st s s' : Prop := {
  al_key : ko_key s' = ko_key s;
  al_origin : snap_origin s' = snap_origin s;
  al_good : good s';
  al_active : active s' → active s ∨
    ∀ k1 s1, st !! k1 = Some s1 → k1.1 = (ko_key s).1 → snap_origin s1 = snap_origin s → active s1 → k1 = ko_key s;
}.

Lemma snaps_ok_insert st k s s' : snaps_ok st → st !! k = Some s → allowed st s s' → snaps_ok (<[k := s']> st).
Proof.
  intros [Hk Hg Hex] Hs [A1 A2 A3 A4]. pose proof (Hk _ _ Hs) as Hks.
  assert (∀ k1 s1, st !! k1 = Some s1 → k1 ≠ k → k1.1 = k.1 → snap_origin s1 = snap_origin s →
    active s1 → active s' → False) as Hno.
  { intros k1 s1 H1 Hne Hns Ho Ha Ha'. apply Hne. destruct (A4 Ha') as [Hold|Hnew].
    - by apply (Hex k1 k s1 s).
    - rewrite <- Hks in *. by apply (Hnew k1 s1). }
  split.
  - intros k' x [[<- <-]|[Hne Hx]]%lookup_insert_Some; [congruence|by apply Hk].
  - intros k' x [[<- <-]|[Hne Hx]]%lookup_insert_Some; [done|by eapply Hg].
  - intros k1 k2 s1 s2 [[<- <-]|[Hne1 H1]]%lookup_insert_Some [[<- <-]|[Hne2 H2]]%lookup_insert_Some Hns Ho Ha1 Ha2;
      [done| | |by eapply Hex].
    + destruct (Hno k2 s2 H2); [done|done|congruence|done|done].
    + destruct (Hno k1 s1 H1); [done|done|congruence|done|done].
Qed.

Lemma snaps_ok_delete st k : snaps_ok st → snaps_ok (delete k st).
Proof.
  intros [Hk Hg Hex]. split; intros *; rewrite ?lookup_delete_Some.
  - intros [_ H]. by apply Hk.
  - intros [_ H]. by eapply Hg.
  - intros [_ H1] [_ H2]. by eapply Hex.
Qed.

Lemma snaps_ok_put st s s' : snaps_ok st → st !! ko_key s = Some s → allowed st s s' → snaps_ok (store_put s' st).
Proof.
  intros Hok Hs Ha. unfold store_put. destruct (ko_gone s'); [by apply snaps_ok_delete|].
  rewrite (al_key _ _ _ Ha). by eapply snaps_ok_insert.
Qed.

(** Only the status and metadata other than labels change. *)
Lemma allowed_same st s s' : good s →
  ko_key s' = ko_key s → snap_origin s' = snap_origin s → snap_target s' = snap_target s →
  om_Labels (snap_meta s') = om_Labels (snap_meta s) →
  (snap_status s' ≠ "" → snap_status s ≠ "" ∨ bound s) →
  (snap_status s' ≠ SnapshotStatusMerged → snap_status s ≠ SnapshotStatusMerged) → allowed st s s'.
Proof.
  intros [G1 G2 G3] Hk Ho Ht Hl Hst Hm. unfold active.
  split; [done|done| |intros [H1 H2]; left; split; [by rewrite <- Ht|auto]].
  unfold labelled, bound, origin_label, snap_label in *. rewrite <- ?Ht, <- ?Ho, <- ?Hl in *.
  split; unfold labelled, bound, origin_label, snap_label; auto. intros H. destruct (Hst H); auto.
Qed.

(** What the manager does to a snapshot. *)
Lemma manager_allowed (KS : KubeClient W AntstorSnapshot) (LS : KubeLister W AntstorSnapshot)
    (KP : KubeClient W StoragePool) (KV : KubeClient W AntstorVolume) (ER : EventRecorder W) st req obj w w' x : snaps_ok st →
  st !! (rq_Namespace req, rq_Name req) = Some obj → lists_store LS st →
  kGet (T := AntstorSnapshot) (KubeClient := KS) (rq_Namespace req) (rq_Name req) w = Ret (inl obj) w' →
  x ∈ snap_writes req w → allowed st obj (snap_accept obj x).
Proof.
  intros Hok Hs Hlist Hg Hx. pose proof (so_good _ Hok _ _ Hs) as Hgood.
  pose proof (so_key _ Hok _ _ Hs) as Hkey.
  pose proof (snap_Reconcile_wrote req obj w w' Hg) as Hw. revert Hw Hx. generalize (snap_writes req w).
  intros l [|Hd _|o H1 H2 H3 H4 H5 H6|o H1 H2 H3 _ _ _|v o Ha H1 H2 H3 H4 H5 H6|v Ha H1 H2|v Ha H1 H2 H3 H4] Hx;
    rewrite ?elem_of_nil, ?list_elem_of_singleton in Hx; try done; subst x.
  - by apply allowed_same; auto.
  - split; [done|unfold snap_origin; cbn; by rewrite H2| |].
    + destruct Hgood as [_ G2 G3]. unfold bound, snap_target in *. split; unfold labelled, bound, snap_target, snap_origin in *;
        cbn in *; rewrite ?H2; auto.
    + intros [Ht Hm]. left. split; [|exact Hm]. unfold snap_target in *. cbn in Ht. by rewrite H2 in Ht.
  - apply allowed_same; unfold ko_key, snap_origin, snap_target; cbn; rewrite ?H1, ?H3; auto.
  - assert (origin_label obj = Some (snap_origin obj)) as Hol.
    { destruct (gd_labelled _ Hgood) as [He|]; [|done]. by destruct (ad_labels _ _ Ha). }
    assert (origin_label (snap_accept obj (WUpdate o)) = origin_label obj) as Hol'.
    { unfold origin_label, snap_label in *. cbn. rewrite H6. destruct (om_Labels (snap_meta obj)) as [m|]; [|done].
      cbn. by rewrite lookup_insert_ne. }
    split; [done|unfold snap_origin; cbn; by rewrite H2| |].
    + split.
      * right. rewrite Hol', Hol. unfold snap_origin. cbn. by rewrite H2.
      * intros _. rewrite Hol', Hol. unfold snap_origin. cbn. by rewrite H2.
      * intros _. unfold bound, snap_target. cbn. rewrite H2. exact (ad_scheduled _ _ Ha).
    + intros _. right. intros k1 s1 Hs1 Hns Ho1 Ha1.
      destruct (ad_alone _ _ Ha) as (w1 & w2 & items & Hl & Hothers).
      assert (s1 ∈ items) as Hin.
      { eapply (Hlist _ _ _ _ _ Hl k1 s1 Hs1); [done|]. rewrite <- Ho1.
        apply (gd_bound _ (so_good _ Hok _ _ Hs1)), Ha1. }
      destruct (Hothers s1 Hin) as [Hk1|Hm]; [|by destruct Ha1].
      by rewrite <- (so_key _ Hok _ _ Hs1).
  - apply allowed_same; try done; [by right|]. intros _. by rewrite H2.
  - apply allowed_same; try done; [by left|]. intros _. exact (ad_status _ _ Ha).
Qed.

(** What an agent does to one. *)
Lemma agent_allowed (KA : KubeClient K AntstorSnapshot) st ps now nsName ns name obj svc n k k' x : snaps_ok st →
  snap_service ps → alloc_wf (ss_idAlloc svc) →
  SplitMetaNamespaceKey nsName = inl (ns, name) → st !! (ns, name) = Some obj →
  kGet (T := AntstorSnapshot) (KubeClient := KA) ns name k = Ret (inl obj) k' →
  x ∈ sync_snap_writes ps now nsName svc n k → allowed st obj (snap_accept obj x).
Proof.
  intros Hok Hps Hwf Hsp Hs Hg Hx. pose proof (so_good _ Hok _ _ Hs) as Hgood.
  pose proof (syncOneSnapshot_synced ps now nsName ns name obj svc n k k' Hps Hwf Hsp Hg) as Hw.
  cbv zeta in Hw. match type of Hw with snap_synced _ ?n1 _ =>
    change (snap_synced obj n1 (sync_snap_writes ps now nsName svc n k)) in Hw; revert Hw Hx;
    generalize n1 (sync_snap_writes ps now nsName svc n k) end.
  intros n1 l [|_ _ _|s' _ Hst _ _ H1 H2 H3 H4|_ Hst _|_ Hst _|labels t _ Hst Hl _] Hx;
    rewrite ?elem_of_nil, ?list_elem_of_singleton in Hx; try done; subst x.
  - by apply allowed_same; auto.
  - apply allowed_same; unfold ko_key; cbn; rewrite ?H4; auto.
  - apply allowed_same; try done; [left; by rewrite Hst|]. intros _. by rewrite Hst.
  - apply allowed_same; try done; left; by rewrite Hst.
  - destruct Hgood as [G1 G2 G3]. assert (bound obj) as Hb by (apply G3; by rewrite Hst).
    specialize (G2 Hb). set (o := snap_accept _ _).
    assert (origin_label o = origin_label obj) as Hol.
    { unfold origin_label, snap_label. cbn. rewrite Hl. cbn. by rewrite lookup_insert_ne. }
    split; [done|done| |].
    + split; [right; by rewrite Hol, G2|intros _; by rewrite Hol, G2|done].
    + intros [Ht Hm]. left. by split.
Qed.

Lemma snap_step_ok st st' : snap_step st st' → snaps_ok st → snaps_ok st'.
Proof.
  intros [st0 KS LS KP KV ER req obj w w' x Hs Hl Hg Hx|st0 KA ps now nsName ns name obj svc n k k' x Hps Hwf Hsp Hs Hg Hx|
    st0 s Hnone Ht Hst Hlab|st0 k s s' Hs Hk Ho Ht Hst Hlab Hol|st0 k] Hok.
  - apply (snaps_ok_put _ obj); [done|by rewrite (so_key _ Hok _ _ Hs)|by eapply manager_allowed].
  - apply (snaps_ok_put _ obj); [done|by rewrite (so_key _ Hok _ _ Hs)|by eapply agent_allowed].
  - destruct Hok as [Hk Hg Hex]. split.
    + intros k x [[<- <-]|[Hne Hx]]%lookup_insert_Some; [done|by apply Hk].
    + intros k x [[<- <-]|[Hne Hx]]%lookup_insert_Some; [|by eapply Hg]. by split.
    + intros k1 k2 s1 s2 [[<- <-]|[Hne1 H1]]%lookup_insert_Some [[<- <-]|[Hne2 H2]]%lookup_insert_Some Hns Ho Ha1 Ha2;
        [done| | |by eapply Hex]; [by destruct Ha1|by destruct Ha2].
  - apply (snaps_ok_insert _ k s); [done|done|]. destruct (so_good _ Hok _ _ Hs) as [G1 G2 G3].
    split; [done|done| |].
    + unfold bound in *. split; unfold bound; rewrite ?Hol, ?Ho, ?Ht, ?Hst; auto.
    + intros [H1 H2]. left. split; [by rewrite <- Ht|by rewrite <- Hst].
  - by apply snaps_ok_delete.
Qed.

(** C13. An origin has at most one snapshot at work: of the snapshots of a namespace
    with the same origin, at most one is bound to a node and not yet merged,
    whatever the order in which the manager, the agents and the users act and
    whatever the servers and nodes answer, under two conditions on [snap_step]. The
    list call tells of every stored snapshot with the label. And users create and
    edit snapshots only without any label or with the label of their origin, and
    their edits keep the origin, its label, the node and the status: a snapshot
    with other labels but without its origin's never gets that label, so the check
    of its siblings does not find it. *)
Theorem snapshots_exclusive st k1 k2 s1 s2 :
  rtc snap_step ∅ st → st !! k1 = Some s1 → st !! k2 = Some s2 → k1.1 = k2.1 →
  snap_origin s1 = snap_origin s2 → active s1 → active s2 → k1 = k2.
Proof.
  intros Hr. assert (snaps_ok st) as Hok; [|by eapply so_exclusive].
  assert (snaps_ok ∅) as H0 by (split; intros *; by rewrite lookup_empty). revert H0.
  induction Hr as [|s0 s3 s4 Hst _ IH]; [done|]. intros H0. by apply IH, (snap_step_ok s0).
Qed.
End exclusive.

(** ** Examples *)

Module SnapExample.
#[local] Existing Instance NanoLib.
Definition meta (name : string) : ObjectMeta :=
  {| om_Name := name; om_Namespace := "obnvmf"; om_UID := ""; om_CreationTimestamp := 0;
     om_DeletionTimestamp := None; om_Labels := None; om_Annotations := None; om_OwnerReferences := [];
     om_Finalizers := [] |}.
Definition snap : AntstorSnapshot := {|
  snap_meta := om_set_Labels (Some {[OriginVolumeNameLabelKey := "v"]}) (meta "s");
  snap_Spec := {| ss_Uuid := "u"; ss_VolType := VolumeTypeKernelLVol;
    ss_KernelLvol := {| kl_Name := "v_snap"; kl_DevPath := "" |};
    ss_SpdkLvol := {| sl_Name := ""; sl_LvsName := ""; sl_Thin := false |}; ss_Size := 8388608;
    ss_OriginVolName := "v"; ss_OriginVolNamespace := "obnvmf"; ss_OriginVolTargetNodeID := "" |};
  snap_Status := {| sst_Status := "" |} |}.
Definition origin : AntstorVolume := {|
  vol_meta := om_set_Annotations (Some {[SnapshotReservedSpaceAnnotationKey := "9000000"]}) (meta "v");
  vol_Spec := vs_set_TargetNodeId "node-1" AntstorVolumeSpec_zero; vol_Status := AntstorVolumeStatus_zero |}.

(** A node with a volume group in memory. *)
#[export] Instance formatter : Formatter MemGroup := {| SafeFormat _ _ := mret None |}.
#[export] Instance engine : PoolEngineIface (SpdkService * MemGroup) := lvm_engine ex_engine.
#[export] Instance laws : EngineLaws engine.
Proof. apply lvm_laws; [exact ex_engine_wf|]. intros dev fs g. by exists None, g. Defined.
#[export] Instance snap_laws : SnapshotLaws engine laws.
Proof. by apply lvm_snapshot_laws. Defined.
Definition ps : PoolService := {| ps_Mode := PoolModeKernelLVM; ps_Pool := StoragePool_zero |}.
Lemma snap_ps_ok : snap_service ps.
Proof. split; [by left|done]. Qed.

(** A server that holds one object and refuses every write. *)
Definition holds {K T} (o : T) : KubeClient K T := {|
  kGet _ _ := mret (inl o);
  kCreate := kCreate (KubeClient := no_objects); kUpdate := kUpdate (KubeClient := no_objects);
  kUpdateStatus := kUpdateStatus (KubeClient := no_objects); kPatch := kPatch (KubeClient := no_objects);
  kPatchStatus := kPatchStatus (KubeClient := no_objects); kDelete := kDelete (KubeClient := no_objects) |}.
Definition creating : AntstorSnapshot := snap_set_status SnapshotStatusCreating snap.
Definition merging : AntstorSnapshot := snap_set_status SnapshotStatusMerging snap.
Definition group : MemGroup := mem_add "v_snap" 8388608 LVLayoutLinear "v" (mem_add "v" 8388608 LVLayoutLinear "" []).

(** The snapshot is created on the node, then merged; the update that says so is
    refused. *)
Example create_then_merge :
  let st := run_state (syncOneSnapshot (KS := Recording (holds creating) id) ps 7 "obnvmf/s"
              ((ex_service, mem_add "v" 8388608 LVLayoutLinear "" []), (tt, []))) in
  LV_Name <$> st.1.2 = ["v"; "v_snap"] ∧ length st.2.2 = 1%nat ∧
  LV_Name <$> (run_state (syncOneSnapshot (KS := Recording (holds merging) id) ps 7 "obnvmf/s"
              ((ex_service, st.1.2), (tt, [])))).1.2 = ["v"].
Proof. vm_compute. auto. Qed.
End SnapExample.
Import SnapExample.

Lemma snapshot_truthful_witness :
  ∃ s n, snap_synced s n (sync_snap_writes (KS := holds SnapExample.creating) SnapExample.ps 7 "obnvmf/s"
    ex_service (mem_add "v" 8388608 LVLayoutLinear "" []) tt) ∧ snap_status s = SnapshotStatusCreating.
Proof.
  destruct (snapshot_truthful (HS := SnapExample.snap_laws) (KS := holds SnapExample.creating) SnapExample.ps 7 "obnvmf/s"
    ex_service (mem_add "v" 8388608 LVLayoutLinear "" []) tt SnapExample.snap_ps_ok ex_service_wf)
    as [H|(ns & name & s & k' & _ & Hg & H)].
  - exfalso. vm_compute in H. discriminate.
  - exists s. eexists. split; [exact H|]. injection Hg as <- _. reflexivity.
Defined.

Lemma merge_not_repeatable_witness :
  let st := run_state (syncOneSnapshot (KS := Recording (holds SnapExample.merging) id) SnapExample.ps 7 "obnvmf/s"
              ((ex_service, SnapExample.group), (tt, []))) in
  st.1 = (ex_service, [hd LV_zero SnapExample.group]) ∧
  ∃ e, syncOneSnapshot (KS := Recording (holds SnapExample.merging) id) SnapExample.ps 8 "obnvmf/s"
         ((ex_service, [hd LV_zero SnapExample.group]), (tt, [])) =
       Ret (Some e) ((ex_service, [hd LV_zero SnapExample.group]), (tt, [])).
Proof.
  split; [reflexivity|].
  apply (merge_not_repeatable (HS := SnapExample.snap_laws) (KS := holds SnapExample.merging) SnapExample.ps 8 "obnvmf/s"
    "obnvmf" "s" SnapExample.merging ex_service [hd LV_zero SnapExample.group] tt tt ex_service_wf).
  1-6: reflexivity.
  intros H. vm_compute in H. apply elem_of_cons in H as [H|H]; [discriminate|by apply elem_of_nil in H].
Defined.

Lemma snapshots_exclusive_witness :
  ∃ (st : MemStore AntstorSnapshot) s, st !! ("obnvmf", "s") = Some s ∧ active s ∧
    ∀ k2 s2, st !! k2 = Some s2 → "obnvmf" = k2.1 → "v" = snap_origin s2 → active s2 → ("obnvmf", "s") = k2.
Proof.
  pose (s := SnapExample.snap).
  pose (s1 := snap_set_labels (Some (<[TargetNodeIdLabelKey := "node-1"]> {[OriginVolumeNameLabelKey := "v"]}))
                (snap_with_spec (ss_set_OriginVolTargetNodeID "node-1") s)).
  pose (st := store_put (snap_accept s (WUpdate s1)) (<[ko_key s := s]> ∅ : MemStore AntstorSnapshot)).
  assert (st !! ("obnvmf", "s") = Some s1) as Hst by reflexivity.
  assert (active s1) as Ha by (split; discriminate).
  exists st, s1. split; [exact Hst|]. split; [exact Ha|]. intros k2 s2 H2 Hns Ho Ha2.
  apply (snapshots_exclusive (W := unit) (K := unit) (L := NanoLib) (HS := SnapExample.snap_laws) st
    ("obnvmf", "s") k2 s1 s2); try assumption.
  apply (rtc_l _ _ (<[ko_key s := s]> ∅)); [|apply rtc_once].
  - apply (sn_create ∅ s); [reflexivity|reflexivity|reflexivity|right; reflexivity].
  - apply (sn_manager _ (holds s) {| kList _ _ := mret (inl [s]) |} no_objects (holds SnapExample.origin)
      {| event_Warning _ _ _ := mret tt |} {| rq_Namespace := "obnvmf"; rq_Name := "s" |} s tt tt);
      [reflexivity| |reflexivity|].
    + intros ns o w items w' H k x Hx _ _. injection H as <- _.
      apply lookup_insert_Some in Hx as [[_ <-]|[_ Hx]]; [left|]. by rewrite lookup_empty in Hx.
    + vm_compute. left.
Defined.
