(* ===== verification/VolumeGroup.v ===== *)
(** * The volume group reconciler

    [reconciler/volume_group_reconciler.go]: a group is scheduled as a whole
    ([SchedGroup.v]); the handler then creates one volume per entry, pinned to the
    pool the group scheduler chose, follows their status, gives up placements
    that turn out impossible, and deletes the volumes with the group. *)

From Stdlib Require Import ZArith Lia.
From stdpp Require Import base gmap strings option list.
From S2P Require Import Prelude Strconv Float64 Misc K8s Api State Filter Sched SchedGroup Plugin Server.

#[export] Instance vg_KubeObject {L : K8sLib} : KubeObject AntstorVolumeGroup := {|
  ko_meta := vg_meta;
  ko_with_status o old := vg_set_Status (vg_Status old) o;
  ko_with_meta := vg_set_meta |}.

Section handler.
Context {L : K8sLib} {W : Type}.
Context {KG : KubeClient W AntstorVolumeGroup} {KV : KubeClient W AntstorVolume} {KD : KubeClient W AntstorDataControl}.
(** The text of a quantity. *)
Context (quantity_text : Quantity → string).

Abbreviation MW := (ManagerWorld W).
Abbreviation VG := AntstorVolumeGroup.

(** [Quantity.IsZero]. *)
Definition Quantity_IsZero (q : Quantity) : bool := bool_decide (Quantity_Cmp q Quantity_zero = 0%Z).
Definition vg_volumes (g : VG) : list VolumeMeta := vgsp_Volumes (vg_Spec g).
Definition vg_statuses (g : VG) : list VolumeTargetStatus := vgst_VolumeStatus (vg_Status g).
Definition vg_status (g : VG) : string := vgst_Status (vg_Status g).
Definition vg_set_volumes (l : list VolumeMeta) (g : VG) : VG := vg_set_Spec (vgsp_set_Volumes l (vg_Spec g)) g.
Definition vg_set_statuses (l : list VolumeTargetStatus) (g : VG) : VG :=
  vg_set_Status (vgst_set_VolumeStatus l (vg_Status g)) g.
Definition vg_set_state (st : string) (g : VG) : VG := vg_set_Status (vgst_set_Status st (vg_Status g)) g.
Definition vg_set_message (msg : string) (g : VG) : VG := vg_set_Status (vgst_set_Message msg (vg_Status g)) g.
Definition vg_set_finalizers (f : list string) (g : VG) : VG := vg_set_meta (om_set_Finalizers f (vg_meta g)) g.
Definition vts_zero : VolumeTargetStatus :=
  {| vts_UUID := ""; vts_SpdkTarget := None; vts_Status := ""; vts_Message := "" |}.

(** ** Deletion *)

(** The volumes one after the other: the first that is still there is deleted, and
    the request comes back later. *)
(* [reconciler/volume_group_reconciler.go:117-137] AntstorVolumeGroupReconcileHandler.handleDeletion, the volumes *)
Fixpoint delete_volumes (l : list VolumeMeta) : go W bool :=
  match l with
  | [] => mret true
  | m :: l' =>
      r ← kGet (T := AntstorVolume) (ei_Namespace (vm_VolId m)) (ei_Name (vm_VolId m));
      let gone := match r with inl _ => false | inr e => IsNotFound e end in
      if gone then delete_volumes l'
      else _ ← kDelete (match r with inl v => v | inr _ => AntstorVolume_zero end); mret false
  end.

(** The first entry equal to [x], or the first entry of all, is left out. *)
Definition remove_first (x : string) (l : list string) : list string :=
  match l with
  | [] => []
  | y :: l' => match list_find (λ item, item = x) l with
               | Some (i, _) => take i l ++ drop (S i) l
               | None => l'
               end
  end.

(* [reconciler/volume_group_reconciler.go:90-158] AntstorVolumeGroupReconcileHandler.handleDeletion *)
Definition vg_handleDeletion (g : VG) : go W (Result * VG) :=
  waiting ← match map_get (om_Labels (vg_meta g)) DataControlNameKey with
            | Some val =>
                r ← kGet (T := AntstorDataControl) DefaultNamespace val;
                mret (negb (match r with inl _ => false | inr e => IsNotFound e end))
            | None => mret false
            end;
  if (waiting : bool) then mret (result_after (20 * Second), g)
  else if InSliceString VolumesFinalizer (om_Finalizers (vg_meta g)) then
    gone ← delete_volumes (vg_volumes g);
    if (gone : bool) then
      let g1 := vg_set_finalizers (remove_first VolumesFinalizer (om_Finalizers (vg_meta g))) g in
      r ← kUpdate g1;
      let '(g2, err) := wrote g1 r in mret (result_err err, g2)
    else mret (result_after (10 * Second), g)
  else mret (Result_zero, g).

(** ** Validation *)

(* [reconciler/volume_group_reconciler.go:160-216] AntstorVolumeGroupReconcileHandler.validateAndMutate *)
Definition vg_validateAndMutate (g : VG) : Result :=
  let d := vgsp_DesiredVolumeSpec (vg_Spec g) in
  let minQ := qr_Min (dvs_SizeRange d) in
  let maxQ := qr_Max (dvs_SizeRange d) in
  let uuid_check := if decide (vgsp_Uuid (vg_Spec g) = "")
                    then result_err (Some (ErrNew "invalid VolumeGroup, uuid is empty")) else Result_zero in
  if decide (dvs_SizeSymmetry d = Symmetric) then
    if decide (dvs_DesiredCount d = 0%Z)
    then result_err (Some (ErrNew "invalid Symmetric VolumeGroup, DesiredCount is 0"))
    else if Quantity_IsZero maxQ
    then result_err (Some (ErrNew "invalid VolumeGroup, SizeRange.Max is 0"))
    else
      let singleVolSize := wrap64 (Z.quot (vgsp_TotalSize (vg_Spec g)) (dvs_DesiredCount d)) in
      if negb (Quantity_IsZero minQ) && bool_decide (Quantity_CmpInt64 minQ singleVolSize > 0)%Z
      then result_err (Some (ErrNew ("invalid Symmetric VolumeGroup, SizeRange.Min " +:+ quantity_text minQ +:+
             " is larger than singleVolSize " +:+ Itoa singleVolSize)))
      else uuid_check
  else if decide (dvs_SizeSymmetry d = Asymmetric) then
    if decide (dvs_DesiredCount d ≠ 0%Z)
    then result_err (Some (ErrNew "invalid Asymmetric VolumeGroup, DesiredCount is not 0"))
    else uuid_check
  else result_err (Some (ErrNew ("invalid SizeSymmetry " +:+ dvs_SizeSymmetry d))).

(** ** The volumes of a group *)

(** The pool with the label of that node. *)
Definition pinned_to (node : string) : NodeAffinity := {| na_Required := Some [
  {| nst_MatchExpressions := [{| nsr_Key := PoolLabelsNodeSnKey; nsr_Operator := "In"; nsr_Values := [node] |}];
     nst_MatchFields := [] |}] |}.

(* [reconciler/volume_group_reconciler.go:440-497] newVolume *)
Definition newVolume (g : VG) (volId : EntityIdentity) (volSize : Z) (volTgtNode : string) : AntstorVolume :=
  let d := vgsp_DesiredVolumeSpec (vg_Spec g) in
  let labels := <[VolumeGroupNameLabelKey := om_Name (vg_meta g)]> (default ∅ (CopyLabel (dvs_Labels d))) in
  let annos := filter (λ kv, HasPrefix kv.1 "obnvmf" = true) (default ∅ (om_Annotations (vg_meta g)))
               ∪ default ∅ (CopyLabel (dvs_Annotations d)) in
  {| vol_meta := {|
       om_Name := ei_Name volId; om_Namespace := ei_Namespace volId; om_UID := "";
       om_CreationTimestamp := 0; om_DeletionTimestamp := None;
       om_Labels := Some labels; om_Annotations := Some annos;
       om_OwnerReferences := [{| or_APIVersion := "volume.antstor.alipay.com/v1"; or_Kind := "AntstorVolumeGroup";
         or_Name := om_Name (vg_meta g); or_UID := om_UID (vg_meta g) |}];
       om_Finalizers := [] |};
     vol_Spec := {|
       vs_Uuid := ei_UUID volId; vs_Type := VolumeTypeFlexible; vs_SizeByte := uwrap64 volSize;
       vs_PositionAdvice := ""; vs_IsThin := false; vs_StopReconcile := false; vs_NodeAffinity := None;
       vs_PoolAffinity := Some (pinned_to volTgtNode); vs_TargetNodeId := "";
       vs_HostNode := Some {| ni_ID := ""; ni_IP := ""; ni_Hostname := ""; ni_Labels := None |};
       vs_KernelLvol := None; vs_SpdkLvol := None; vs_SpdkTarget := None |};
     vol_Status := AntstorVolumeStatus_zero |}.

(** One entry: its status, and whether it is known not to be ready. *)
Definition sync_entry (g : VG) (m : VolumeMeta) : go W (VolumeTargetStatus * bool) :=
  let id := vm_VolId m in
  if decide (ei_UUID id ≠ "" ∧ ei_Name id ≠ "" ∧ ei_Namespace id ≠ "") then
    r ← kGet (T := AntstorVolume) (ei_Namespace id) (ei_Name id);
    match r with
    | inr e =>
        _ ← (if bool_decide (0 < vm_Size m)%Z && bool_decide (vm_TargetNodeName m ≠ "") && IsNotFound e
             then _ ← kCreate (newVolume g id (vm_Size m) (vm_TargetNodeName m)); mret tt
             else mret tt);
        mret ({| vts_UUID := ei_UUID id; vts_SpdkTarget := None; vts_Status := VolumeStatusCreating;
                 vts_Message := "" |}, true)
    | inl vol =>
        mret ({| vts_UUID := ei_UUID id; vts_SpdkTarget := vs_SpdkTarget (vol_Spec vol);
                 vts_Status := vst_Status (vol_Status vol); vts_Message := vst_Message (vol_Status vol) |},
              negb (bool_decide (vst_Status (vol_Status vol) = VolumeStatusReady)))
    end
  else mret (vts_zero, false).
Fixpoint sync_entries (g : VG) (l : list VolumeMeta) : go W (list VolumeTargetStatus * bool) :=
  match l with
  | [] => mret ([], false)
  | m :: l' =>
      '(s, notReady) ← sync_entry g m;
      '(rest, notReady') ← sync_entries g l';
      mret (s :: rest, notReady || notReady')
  end.

Definition total_size (l : list VolumeMeta) : Z := foldl (λ acc m, wrap64 (acc + vm_Size m)) 0%Z l.

(* [reconciler/volume_group_reconciler.go:327-414] AntstorVolumeGroupReconcileHandler.syncVolumes *)
Definition vg_syncVolumes (g : VG) : go W (Result * VG) :=
  match vg_volumes g with
  | [] => mret (Result_zero, g)
  | vols =>
      if decide (vg_status g = VolumeStatusReady) then mret (Result_zero, g)
      else
        '(statuses, volNotAllReady) ← sync_entries g vols;
        let ready := bool_decide (vgsp_TotalSize (vg_Spec g) <= total_size vols)%Z && negb volNotAllReady in
        let g1 := vg_set_state (if ready then VolumeStatusReady else VolumeStatusCreating)
                    (vg_set_statuses statuses g) in
        if decide (vg_Status g1 ≠ vg_Status g) then
          r ← kUpdateStatus g1;
          let '(g2, err) := wrote g1 r in
          match err with
          | Some e => mret (result_err (Some e), g2)
          | None => mret ({| res_Result := RequeueAfter (10 * Second); res_Error := None; res_Break := true |}, g2)
          end
        else mret (Result_zero, g1)
  end.

(** ** Giving placements up *)

(** [time.Since(vol.CreationTimestamp.Time)]: a zero time is long ago. *)
Definition since_creation (now : Z) (vol : AntstorVolume) : Z :=
  if decide (om_CreationTimestamp (vol_meta vol) = 0%Z) then 9223372036854775807%Z
  else time_Since now (om_CreationTimestamp (vol_meta vol)).

(** What happens to the volume of an entry: is the placement given up? *)
Definition abandon (now : Z) (m : VolumeMeta) : go W bool :=
  r ← kGet (T := AntstorVolume) (ei_Namespace (vm_VolId m)) (ei_Name (vm_VolId m));
  let gone := match r with inl _ => false | inr e => IsNotFound e end in
  if gone then mret true
  else
    let vol := match r with inl v => v | inr _ => AntstorVolume_zero end in
    if decide (Minute < since_creation now vol)%Z then _ ← kDelete vol; mret true
    else mret false.

Definition cleared_meta (m : VolumeMeta) : VolumeMeta := vm_set_Size 0 (vm_set_TargetNodeName "" m).
Definition cleared_status (s : VolumeTargetStatus) : VolumeTargetStatus :=
  {| vts_UUID := vts_UUID s; vts_SpdkTarget := vts_SpdkTarget s; vts_Status := ""; vts_Message := "" |}.

(** The loop over the statuses, from [idx] on. *)
(* [reconciler/volume_group_reconciler.go:232-271] AntstorVolumeGroupReconcileHandler.rollbackUnrecoverable, the loop *)
Fixpoint rollback_loop (now : Z) (idx : nat) (items : list VolumeTargetStatus) (g : VG) (rollback : bool)
    : go W (VG * bool) :=
  match items with
  | [] => mret (g, rollback)
  | item :: items' =>
      if str_contains (vts_Message item) NoStoragePoolAvailable then
        match vg_volumes g !! idx with
        | None => panic "index out of range"
        | Some m =>
            up ← abandon now m;
            if (up : bool) then
              rollback_loop now (S idx) items'
                (vg_set_statuses (alter cleared_status idx (vg_statuses g))
                  (vg_set_volumes (<[idx := cleared_meta m]> (vg_volumes g)) g)) true
            else rollback_loop now (S idx) items' g rollback
        end
      else rollback_loop now (S idx) items' g rollback
  end.

(* [reconciler/volume_group_reconciler.go:220-283] AntstorVolumeGroupReconcileHandler.rollbackUnrecoverable *)
Definition vg_rollbackUnrecoverable (now : Z) (g : VG) : go W (Result * VG) :=
  if decide (vg_status g = VolumeStatusReady) then mret (Result_zero, g)
  else
    '(g1, rollback) ← rollback_loop now 0 (vg_statuses g) g false;
    if (rollback : bool) then
      r ← kUpdate g1;
      let '(g2, err) := wrote g1 r in
      match err with
      | Some e => mret (result_err (Some e), g2)
      | None => mret (result_break None, g2)
      end
    else mret (Result_zero, g1).

(** ** Scheduling *)

(** The interface [SchedulerIface], for groups. *)
Definition GroupScheduler := VG → go (list Node) (VG * option error).

Definition run_on_nodes {A} (m : go (list Node) A) : go State A := λ s,
  let back nodes := st_set_NodeMap (list_to_map (zip (map_to_list (NodeMap s)).*1 nodes)) s in
  match m (GetAllNodes s) with
  | Ret a nodes => Ret a (back nodes)
  | Panic why nodes => Panic why (back nodes)
  end.

(* [reconciler/volume_group_reconciler.go:285-325] AntstorVolumeGroupReconcileHandler.scheduleVolGroup *)
Definition vg_scheduleVolGroup (scheduler : GroupScheduler) (g : VG) : go MW (Result * VG) :=
  if decide (vg_status g = VolumeStatusReady) then mret (Result_zero, g)
  else
    '(g1, err) ← on_fst (run_on_nodes (scheduler g));
    match (err : option error) with
    | Some e =>
        let g2 := vg_set_message (error_msg e) g1 in
        r ← on_snd (kUpdateStatus g2);
        mret ({| res_Result := RequeueAfter Minute; res_Error := None; res_Break := true |}, (wrote g2 r).1)
    | None =>
        if decide (vg_volumes g1 ≠ vg_volumes g) then
          let g2 := if InSliceString VolumesFinalizer (om_Finalizers (vg_meta g1)) then g1
                    else vg_set_finalizers (om_Finalizers (vg_meta g1) ++ [VolumesFinalizer]) g1 in
          r ← on_snd (kUpdate g2);
          let '(g3, err) := wrote g2 r in
          match err with
          | Some e => mret (result_err (Some e), g3)
          | None => mret (result_break None, g3)
          end
        else mret (Result_zero, g1)
    end.

(* [reconciler/volume_group_reconciler.go:416-438] AntstorVolumeGroupReconcileHandler.waitVolumesReady *)
Definition vg_waitVolumesReady (g : VG) : Result :=
  let volNotAllReady := existsb (λ item, negb (bool_decide (vts_Status item = VolumeStatusReady))) (vg_statuses g) in
  if negb (bool_decide (vg_status g = VolumeStatusReady)) || volNotAllReady
  then {| res_Result := RequeueAfter Minute; res_Error := None; res_Break := true |}
  else Result_zero.

(** ** The handler *)

Definition and_then (r : Result * VG) (f : VG → go MW (Result * VG)) : go MW (Result * VG) :=
  if NeedBreak r.1 then mret r else f r.2.

(* [reconciler/volume_group_reconciler.go:48-88] AntstorVolumeGroupReconcileHandler.HandleReconcile *)
Definition vg_HandleReconcile (now : Z) (scheduler : GroupScheduler) (obj : Object) : go MW (Result * Object) :=
  match obj with
  | OVolumeGroup g =>
      '(res, g') ← and_then (vg_validateAndMutate g, g) (λ g0,
        r1 ← on_snd (vg_syncVolumes g0); and_then r1 (λ g1,
        r2 ← on_snd (vg_rollbackUnrecoverable now g1); and_then r2 (λ g2,
        r3 ← vg_scheduleVolGroup scheduler g2; and_then r3 (λ g3,
        mret (vg_waitVolumesReady g3, g3)))));
      mret (res, OVolumeGroup g')
  | _ => mret (result_err (Some (ErrNew "object is not *v1.AntstorVolumeGroup")), obj)
  end.

(* [reconciler/volume_group_reconciler.go:43-46] AntstorVolumeGroupReconcileHandler.HandleDeletion *)
Definition vg_HandleDeletion (obj : Object) : go MW (Result * Object) :=
  match obj with
  | OVolumeGroup g => '(res, g') ← on_snd (vg_handleDeletion g); mret (res, OVolumeGroup g')
  | _ => mret (result_err (Some (ErrNew "object is not *v1.AntstorVolumeGroup")), obj)
  end.

(* [reconciler/volume_group_reconciler.go:37-41] AntstorVolumeGroupReconcileHandler.GetObject *)
Definition vg_GetObject (req : Request) : go MW (result Object) :=
  r ← on_snd (kGet (T := AntstorVolumeGroup) (rq_Namespace req) (rq_Name req));
  mret match r with inl g => inl (OVolumeGroup g) | inr e => inr e end.

(* [reconciler/volume_group_reconciler.go:26-31] AntstorVolumeGroupReconcileHandler *)
Definition AntstorVolumeGroupReconcileHandler (now : Z) (scheduler : GroupScheduler) : ReconcileHandler MW := {|
  rh_ResourceName := "AntstorVolumeGroup";
  rh_GetObject := vg_GetObject;
  rh_HandleReconcile _ := vg_HandleReconcile now scheduler;
  rh_HandleDeletion _ := vg_HandleDeletion;
|}.
End handler.

(** ** What the handler writes *)

Section group_truth.
Context {L : K8sLib} {W : Type}.
Context {KG : KubeClient W AntstorVolumeGroup} {KV : KubeClient W AntstorVolume} {KD : KubeClient W AntstorDataControl}.
Context (quantity_text : Quantity → string).
Abbreviation VG := AntstorVolumeGroup.
Implicit Types (g : VG) (m : VolumeMeta) (v : AntstorVolume) (w : W) (s : State).

Abbreviation GroupWrite := (Write AntstorVolumeGroup + Write AntstorVolume)%type.
Abbreviation RW := (Logged W GroupWrite).
#[local] Instance recG : KubeClient RW AntstorVolumeGroup := Recording KG inl.
#[local] Instance recV : KubeClient RW AntstorVolume := Recording KV inr.
#[local] Instance recD : KubeClient RW AntstorDataControl := client_fst KD.

(** What the server answered for the volume of an entry, at some time. *)
Definition answered m (r : result AntstorVolume) : Prop :=
  ∃ w w', kGet (T := AntstorVolume) (ei_Namespace (vm_VolId m)) (ei_Name (vm_VolId m)) w = Ret r w'.
Definition answered_gone m : Prop := ∃ e, answered m (inr e) ∧ IsNotFound e = true.
Definition identified m : Prop :=
  ei_UUID (vm_VolId m) ≠ "" ∧ ei_Name (vm_VolId m) ≠ "" ∧ ei_Namespace (vm_VolId m) ≠ "".

(** *** Deletion *)

(** The server said that the data control the group is labelled with is gone. *)
Definition control_gone g : Prop :=
  ∀ val, map_get (om_Labels (vg_meta g)) DataControlNameKey = Some val →
    ∃ w w' e, kGet (T := AntstorDataControl) DefaultNamespace val w = Ret (inr e) w' ∧ IsNotFound e = true.

Inductive group_released g : list GroupWrite → Prop :=
| gr_nothing : group_released g []
| gr_volume m v : VolumesFinalizer ∈ om_Finalizers (vg_meta g) → control_gone g → m ∈ vg_volumes g →
    answered m (inl v) ∨ (v = AntstorVolume_zero ∧ ∃ e, answered m (inr e) ∧ IsNotFound e = false) →
    group_released g [inr (WDelete v)]
| gr_done f1 f2 : om_Finalizers (vg_meta g) = f1 ++ VolumesFinalizer :: f2 → VolumesFinalizer ∉ f1 →
    control_gone g → (∀ m, m ∈ vg_volumes g → answered_gone m) →
    group_released g [inl (WUpdate (vg_set_finalizers (f1 ++ f2) g))].

Lemma remove_first_spec x l : x ∈ l → ∃ l1 l2, l = l1 ++ x :: l2 ∧ x ∉ l1 ∧ remove_first x l = l1 ++ l2.
Proof.
  intros Hin. unfold remove_first. destruct l as [|y l']; [by apply elem_of_nil in Hin|].
  destruct (list_find (λ item, item = x) (y :: l')) as [[i z]|] eqn:E.
  - apply list_find_Some in E as (Hi & -> & Hbefore). exists (take i (y :: l')), (drop (S i) (y :: l')).
    split; [symmetry; by apply take_drop_middle|]. split; [|done].
    intros [j Hj]%list_elem_of_lookup. apply lookup_take_Some in Hj as [Hj Hlt]. by apply (Hbefore j x).
  - apply list_find_None in E. rewrite Forall_forall in E. by destruct (E x Hin).
Qed.

Definition released g (rk : RW) : Prop := group_released g rk.2.
Abbreviation rp g := (wpp (released g)).
Lemma rp_read {A} g (op : go W A) Q w :
  (∀ a w', op w = Ret a w' → Q a (w', [])) → rp g (on_fst op : go RW A) Q (w, []).
Proof.
  intros HQ. apply (wpp_on_fst _ (λ _, True)); [|intros; apply gr_nothing]. apply wpp_any; [exact HQ|done].
Qed.
Lemma rp_quiet g w : released g (w, []).
Proof. apply gr_nothing. Qed.

Lemma delete_volumes_told g l w : VolumesFinalizer ∈ om_Finalizers (vg_meta g) → control_gone g →
  (∀ m, m ∈ l → m ∈ vg_volumes g) →
  rp g (delete_volumes l) (λ gone rk, (gone = false ∧ released g rk) ∨
                                      (gone = true ∧ rk.2 = [] ∧ ∀ m, m ∈ l → answered_gone m)) (w, []).
Proof.
  intros Hf Hdc. revert w. induction l as [|m l IH]; intros w Hl; cbn [delete_volumes].
  { apply wpp_ret. right. split; [done|]. split; [done|]. intros m Hm. by apply elem_of_nil in Hm. }
  apply wpp_bind, rp_read. intros r w1 Hr.
  destruct (match r with inl _ => false | inr e => IsNotFound e end) eqn:Eg.
  - assert (answered_gone m) as Hm by (destruct r as [v|e]; [done|exists e; split; [by exists w, w1|done]]).
    eapply wpp_mono; [apply IH; intros; apply Hl; by right|].
    intros gone rk [[-> ?]|(-> & ? & Hall)]; [by left|right]. split; [done|]. split; [done|].
    intros m' [->|Hin]%elem_of_cons; [done|by apply Hall].
  - assert (released g (w1, [inr (WDelete (match r with inl v => v | inr _ => AntstorVolume_zero end))])) as Hdel.
    { apply (gr_volume g m); [done|done|apply Hl; by left|]. destruct r as [v|e]; [left; by exists w, w1|].
      right. split; [done|]. exists e. split; [by exists w, w1|done]. }
    apply wpp_bind. unfold kDelete, recV, Recording, wpp. rewrite logged_run.
    destruct (kDelete _ w1) as [a w2|why w2]; [|exact Hdel]. apply wpp_ret. left. split; [done|exact Hdel].
Qed.

(** C19. A group being deleted is released only after its data control and all its
    volumes are gone, as the API server answered; until then a request deletes at
    most one volume, one of the group's, and none before the data control is
    gone. Nothing else is written, also when the request panics. *)
Theorem group_deletion_safe g w :
  group_released g (run_state (vg_handleDeletion g (w, []))).2.
Proof.
  apply (wpp_state (released g)). unfold vg_handleDeletion. apply wpp_bind.
  apply (wpp_mono _ _ (λ waiting rk, rk.2 = [] ∧ (waiting = false → control_gone g))).
  { destruct (map_get _ _) as [val|] eqn:El.
    - apply wpp_bind, rp_read. intros r w1 Hr. apply wpp_ret. split; [done|]. intros Hw val'. rewrite El. intros [= <-].
      destruct r as [dc|e]; [done|]. exists w, w1, e. split; [done|]. by apply negb_false_iff in Hw.
    - apply wpp_ret. split; [done|]. intros _ val. by rewrite El. }
  intros waiting [w1 l1] [Hl Hdc]. cbn in Hl. subst l1. destruct waiting; [apply wpp_ret, gr_nothing|].
  specialize (Hdc eq_refl). destruct (InSliceString _ _) eqn:Ef; [|apply wpp_ret, gr_nothing].
  apply InSliceString_spec in Ef. apply wpp_bind. eapply wpp_mono; [by apply (delete_volumes_told g)|].
  intros gone [w2 l2] [[-> Hrel]|(-> & Hl & Hall)]; [by apply wpp_ret|]. cbn in Hl. subst l2.
  destruct (remove_first_spec _ _ Ef) as (f1 & f2 & Hf & Hn & ->).
  assert (released g (w2, [inl (WUpdate (vg_set_finalizers (f1 ++ f2) g))])) as Hdone by (by apply gr_done).
  apply wpp_bind. unfold kUpdate, recG, Recording, wpp. rewrite logged_run.
  destruct (kUpdate _ w2) as [[a|e] w3|why w3]; exact Hdone.
Qed.

(** *** The other requests *)

Context (now : Z) (scheduler : GroupScheduler).

(** The volume of the entry was read, and it says that no storage pool was found. *)
Definition refused m : Prop :=
  identified m ∧ ∃ v, answered m (inl v) ∧ str_contains (vst_Message (vol_Status v)) NoStoragePoolAvailable = true.
(** What is known of an entry whose placement was given up. *)
Definition unplaceable m : Prop := refused m ∧
  (answered_gone m ∨ (∃ v, answered m (inl v) ∧ (Minute < since_creation now v)%Z) ∨
   (∃ e, answered m (inr e) ∧ IsNotFound e = false)).

Inductive group_wrote g : GroupWrite → Prop :=
| gw_create m : m ∈ vg_volumes g → identified m → (0 < vm_Size m)%Z → vm_TargetNodeName m ≠ "" → answered_gone m →
    group_wrote g (inr (WCreate (newVolume g (vm_VolId m) (vm_Size m) (vm_TargetNodeName m))))
| gw_status g' : vg_volumes g' = vg_volumes g → vg_meta g' = vg_meta g →
    (vg_status g' = VolumeStatusReady →
       (vgsp_TotalSize (vg_Spec g) <= total_size (vg_volumes g))%Z ∧
       ∀ m, m ∈ vg_volumes g → identified m →
         ∃ v, answered m (inl v) ∧ vst_Status (vol_Status v) = VolumeStatusReady) →
    group_wrote g (inl (WUpdateStatus g'))
| gw_delete m v : m ∈ vg_volumes g → refused m →
    (answered m (inl v) ∧ (Minute < since_creation now v)%Z) ∨
    (v = AntstorVolume_zero ∧ ∃ e, answered m (inr e) ∧ IsNotFound e = false) →
    group_wrote g (inr (WDelete v))
| gw_rollback g' : vg_meta g' = vg_meta g →
    Forall2 (λ m m', m' = m ∨ m' = cleared_meta m ∧ unplaceable m) (vg_volumes g) (vg_volumes g') →
    group_wrote g (inl (WUpdate g'))
| gw_failed g' g1 e nodes nodes' : vg_volumes g1 = vg_volumes g → vg_meta g1 = vg_meta g →
    scheduler g1 nodes = Ret (g', Some e) nodes' →
    group_wrote g (inl (WUpdateStatus (vg_set_message (error_msg e) g')))
| gw_scheduled g' g1 g2 nodes nodes' : vg_volumes g1 = vg_volumes g → vg_meta g1 = vg_meta g →
    scheduler g1 nodes = Ret (g2, None) nodes' → vg_volumes g2 ≠ vg_volumes g →
    vg_Spec g' = vg_Spec g2 → VolumesFinalizer ∈ om_Finalizers (vg_meta g') →
    group_wrote g (inl (WUpdate g')).

Definition log_ok g (rk : RW) : Prop := Forall (group_wrote g) rk.2.
Abbreviation lp g := (wpp (log_ok g)).

Lemma lp_read {A} g (op : go W A) Q rk : log_ok g rk →
  (∀ a w', op rk.1 = Ret a w' → Q a (w', rk.2)) → lp g (on_fst op : go RW A) Q rk.
Proof.
  destruct rk as [w l]. intros Hl HQ. apply (wpp_on_fst _ (λ _, True)); [|intros; exact Hl]. apply wpp_any; [exact HQ|done].
Qed.
Lemma lp_logged {A} g e (op : go W A) Q rk : log_ok g rk → group_wrote g e →
  (∀ a rk', log_ok g rk' → Q a rk') → lp g (logged e op : go RW A) Q rk.
Proof.
  destruct rk as [w l]. intros Hl He HQ. unfold wpp. rewrite logged_run.
  assert (∀ w', log_ok g (w', e :: l)) as Hok by (intros w'; by constructor).
  destruct (op w) as [a w'|why w']; [apply HQ|]; apply Hok.
Qed.

(** Following the volumes. *)
Definition entry_ready m : Prop :=
  identified m → ∃ v, answered m (inl v) ∧ vst_Status (vol_Status v) = VolumeStatusReady.

(** A status that tells of no storage pool was read from the entry's volume. *)
Definition entry_told (item : VolumeTargetStatus) m : Prop :=
  str_contains (vts_Message item) NoStoragePoolAvailable = true → refused m.
Definition entries_told (statuses : list VolumeTargetStatus) (l : list VolumeMeta) : Prop :=
  ∀ i item m, statuses !! i = Some item → l !! i = Some m → entry_told item m.

Lemma sync_entry_ok g m rk : log_ok g rk → m ∈ vg_volumes g →
  lp g (sync_entry g m) (λ r rk', log_ok g rk' ∧ (r.2 = false → entry_ready m) ∧ entry_told r.1 m) rk.
Proof.
  intros Hl Hm. unfold sync_entry. destruct (decide _) as [Hid|Hid].
  2: { apply wpp_ret. split; [done|]. split; [intros _ Hi; by destruct Hid|by intros H]. }
  apply wpp_bind, lp_read; [done|]. intros r w1 Hr.
  assert (∀ r', r = r' → answered m r') as Ha by (intros r' <-; by eexists _, w1).
  destruct r as [v|e].
  - apply wpp_ret. split; [exact Hl|]. cbn. split; [|by intros Hc; split; [|exists v; split; [apply Ha|]]].
    intros Hs _. exists v. split; [by apply Ha|]. by apply negb_false_iff, bool_decide_eq_true in Hs.
  - apply wpp_bind. destruct (_ && _ && _) eqn:Ec.
    + apply andb_true_iff in Ec as [[H1%bool_decide_eq_true H2%bool_decide_eq_true]%andb_true_iff H3].
      apply wpp_bind, lp_logged; [exact Hl| |].
      { apply gw_create; [done|done|done|done|]. exists e. split; [by apply Ha|done]. }
      intros _ rk2 Hl2. apply wpp_ret, wpp_ret. by split_and!.
    + apply wpp_ret, wpp_ret. by split_and!.
Qed.

Lemma sync_entries_ok g l rk : log_ok g rk → (∀ m, m ∈ l → m ∈ vg_volumes g) →
  lp g (sync_entries g l) (λ r rk', log_ok g rk' ∧ (r.2 = false → ∀ m, m ∈ l → entry_ready m) ∧ entries_told r.1 l) rk.
Proof.
  revert rk. induction l as [|m l IH]; intros rk Hl Hin; cbn [sync_entries].
  { apply wpp_ret. split; [done|]. split; [intros _ m Hm; by apply elem_of_nil in Hm|]. intros i item m H. cbn [fst] in H. by rewrite lookup_nil in H. }
  apply wpp_bind. eapply wpp_mono; [apply (sync_entry_ok g m); [done|apply Hin; by left]|].
  intros [s b] rk1 (Hl1 & Hr & Ht). cbn [fst snd] in Hr, Ht. apply wpp_bind.
  eapply wpp_mono; [apply IH; [done|intros; apply Hin; by right]|].
  intros [rest b'] rk2 (Hl2 & Hrest & Htold). cbn [fst snd] in Hrest, Htold. apply wpp_ret. split; [done|]. cbn. split.
  - intros [-> ->]%orb_false_iff m' [->|Hm']%elem_of_cons; [by apply Hr|by apply Hrest].
  - intros [|i] s' m' Hs' Hm'; [injection Hs' as <-; injection Hm' as <-; done|by apply (Htold i)].
Qed.

(** The group as the next phase finds it: the entries and the metadata are those
    of the request. *)
Definition passed_on g (res : Result * VG) : Prop :=
  NeedBreak res.1 = false → vg_volumes res.2 = vg_volumes g ∧ vg_meta res.2 = vg_meta g.

(** Unless it was Ready, the statuses it finds were read in this request. *)
Definition told_on g (res : Result * VG) : Prop :=
  NeedBreak res.1 = false → vg_status res.2 = VolumeStatusReady ∨ entries_told (vg_statuses res.2) (vg_volumes g).

Lemma wrote_group g' (r : result VG) : (wrote g' r).1 = match r with inl o => o | inr _ => g' end.
Proof. by destruct r. Qed.

Lemma vg_syncVolumes_ok g rk : log_ok g rk →
  lp g (vg_syncVolumes g) (λ res rk', log_ok g rk' ∧ passed_on g res ∧ told_on g res) rk.
Proof.
  intros Hl. unfold vg_syncVolumes, told_on. destruct (vg_volumes g) as [|m0 vols] eqn:Ev.
  { apply wpp_ret. split_and!; [done|done|]. intros _. right. intros i s m _ H. by rewrite lookup_nil in H. }
  destruct (decide _) as [Hst|_]; [apply wpp_ret; split_and!; [done|done|by left]|]. rewrite <- Ev.
  apply wpp_bind. eapply wpp_mono; [by apply (sync_entries_ok g)|].
  intros [statuses b] rk1 (Hl1 & Hready & Htold). cbn [fst snd] in Hready, Htold. set (g1 := vg_set_state _ _).
  destruct (decide _) as [_|_].
  - apply wpp_bind, lp_logged; [done| |].
    + apply gw_status; [done|done|]. unfold g1. cbn. destruct (_ && _) eqn:Er; [|discriminate].
      intros _. apply andb_true_iff in Er as [Hsz%bool_decide_eq_true Hb%negb_true_iff].
      split; [done|]. intros m Hm Hid. by apply (Hready Hb m Hm).
    + intros [o|e] rk2 Hl2; apply wpp_ret; (split_and!; [done|..]); intros H; discriminate H.
  - apply wpp_ret. split_and!; [done|by intros _|]. intros _. by right.
Qed.

(** Giving up: an entry that is cleared is known to be unplaceable, and when none
    is, nothing has changed. *)
Lemma abandon_ok g m rk : log_ok g rk → m ∈ vg_volumes g → refused m →
  lp g (abandon now m) (λ up rk', log_ok g rk' ∧ (up = true → unplaceable m)) rk.
Proof.
  intros Hl Hm Href. unfold abandon. apply wpp_bind, lp_read; [done|]. intros r w1 Hr.
  assert (answered m r) as Ha by (by eexists _, w1).
  destruct r as [v|e].
  - destruct (decide _) as [Hlong|_]; [|by apply wpp_ret].
    apply wpp_bind, lp_logged; [exact Hl|apply (gw_delete g m); [done|done|by left]|].
    intros _ rk2 Hl2. apply wpp_ret. split; [done|]. intros _. split; [done|]. right; left. eauto.
  - destruct (IsNotFound e) eqn:Ee.
    { apply wpp_ret. split; [exact Hl|]. intros _. split; [done|]. left. by exists e. }
    destruct (decide _) as [Hlong|_]; [|by apply wpp_ret].
    apply wpp_bind, lp_logged; [exact Hl|apply (gw_delete g m); [done|done|right; split; [done|by exists e]]|].
    intros _ rk2 Hl2. apply wpp_ret. split; [done|]. intros _. split; [done|]. right; right. eauto.
Qed.

Definition rolled_back g g1 : Prop :=
  vg_meta g1 = vg_meta g ∧
  Forall2 (λ m m', m' = m ∨ m' = cleared_meta m ∧ unplaceable m) (vg_volumes g) (vg_volumes g1).

(** Entries from [idx] on are still those of the group. *)
Lemma rollback_loop_ok g g0 idx items g1 rb rk : log_ok g rk → rolled_back g g1 →
  (∀ i, idx ≤ i → vg_volumes g1 !! i = vg_volumes g !! i) →
  entries_told items (drop idx (vg_volumes g)) →
  (rb = false → g1 = g0) →
  lp g (rollback_loop now idx items g1 rb)
    (λ r rk', log_ok g rk' ∧ rolled_back g r.1 ∧ (r.2 = false → r.1 = g0)) rk.
Proof.
  revert idx g1 rb rk. induction items as [|item items IH]; intros idx g1 rb rk Hl Hg Hi Htold Hrb; cbn [rollback_loop].
  { apply wpp_ret. split; [done|]. split; [done|exact Hrb]. }
  assert (entries_told items (drop (S idx) (vg_volumes g))) as Htold'.
  { intros i x m Hx Hm. apply (Htold (S i)); [done|]. rewrite lookup_drop in *. by replace (idx + S i) with (S idx + i) by lia. }
  destruct (str_contains _ _) eqn:Hmsg; [|apply IH; try done; intros; apply Hi; lia].
  destruct (vg_volumes g1 !! idx) as [m|] eqn:Em; [|exact Hl].
  pose proof Em as Em0. rewrite Hi in Em0 by lia.
  assert (refused m) as Href by (apply (Htold 0 item m); [done|by rewrite lookup_drop, Nat.add_0_r|done]).
  apply wpp_bind. eapply wpp_mono; [apply (abandon_ok g m); [done|by eapply list_elem_of_lookup_2|done]|].
  intros up rk1 [Hl1 Hup]. destruct up; [|apply IH; try done; intros; apply Hi; lia].
  apply IH; [done| | |done|done].
  - destruct Hg as [Hm Hf]. split; [done|]. cbn. apply Forall2_lookup. intros i.
    destruct (decide (i = idx)) as [->|Hne].
    + rewrite list_lookup_insert_eq by (by eapply lookup_lt_Some). rewrite Em0. constructor. right. auto.
    + rewrite list_lookup_insert_ne by done. rewrite Forall2_lookup in Hf. apply Hf.
  - intros i Hlt. cbn. rewrite list_lookup_insert_ne by lia. apply Hi. lia.
Qed.

Lemma vg_rollback_ok g g0 rk : log_ok g rk → vg_volumes g0 = vg_volumes g → vg_meta g0 = vg_meta g →
  vg_status g0 = VolumeStatusReady ∨ entries_told (vg_statuses g0) (vg_volumes g) →
  lp g (vg_rollbackUnrecoverable now g0) (λ res rk', log_ok g rk' ∧ passed_on g res) rk.
Proof.
  intros Hl Hv Hm Htold. unfold vg_rollbackUnrecoverable. destruct (decide _) as [_|Hst]; [by apply wpp_ret|].
  destruct Htold as [|Htold]; [done|].
  apply wpp_bind. eapply wpp_mono; [apply (rollback_loop_ok g g0); [done| |intros; by rewrite Hv|done|done]|].
  { split; [done|]. rewrite Hv. apply Forall2_lookup. intros i. destruct (_ !! i); constructor. by left. }
  intros [g1 rb] rk1 (Hl1 & [Hm1 Hf] & Hsame). cbn in *. destruct rb.
  - apply wpp_bind, lp_logged; [done|by apply gw_rollback|].
    intros [o|e] rk2 Hl2; apply wpp_ret; (split; [done|]); intros H; discriminate H.
  - rewrite (Hsame eq_refl). apply wpp_ret. split; [done|]. by intros _.
Qed.

(** The manager's cache next to the server: only the server's log is watched. *)
Abbreviation MR := (ManagerWorld RW).
Definition mlog_ok g (ms : MR) : Prop := log_ok g ms.2.
Abbreviation mp g := (wpp (mlog_ok g)).
Lemma mp_snd {A} g (op : go RW A) Q ms : lp g op (λ a rk, Q a (ms.1, rk)) ms.2 → mp g (on_snd op : go MR A) Q ms.
Proof. destruct ms as [s rk]. cbn. unfold wpp, on_snd. cbn. by destruct (op rk). Qed.
Lemma mp_fst {A} g (op : go State A) Q ms : mlog_ok g ms →
  (∀ a s', op ms.1 = Ret a s' → Q a (s', ms.2)) → mp g (on_fst op : go MR A) Q ms.
Proof. destruct ms as [s rk]. cbn. intros Hl HQ. unfold wpp, on_fst. cbn. destruct (op s) as [a s'|why s']; [by apply HQ|done]. Qed.

Lemma vg_schedule_ok g g0 ms : mlog_ok g ms → vg_volumes g0 = vg_volumes g → vg_meta g0 = vg_meta g →
  mp g (vg_scheduleVolGroup scheduler g0) (λ _ ms', mlog_ok g ms') ms.
Proof.
  intros Hl Hv Hm. unfold vg_scheduleVolGroup. destruct (decide _) as [_|_]; [by apply wpp_ret|].
  apply wpp_bind, mp_fst; [done|]. intros [g1 err] s' Hs. unfold run_on_nodes in Hs.
  destruct (scheduler g0 (GetAllNodes ms.1)) as [[g2 err2] nodes'|] eqn:Es; [|done]. inversion Hs; subst.
  destruct err as [e|].
  - apply wpp_bind, mp_snd, lp_logged; [done|by eapply gw_failed|]. intros r rk2 Hl2. by apply wpp_ret.
  - destruct (decide _) as [Hne|_]; [|by apply wpp_ret].
    apply wpp_bind, mp_snd, lp_logged; [done| |].
    + eapply gw_scheduled; [exact Hv|exact Hm|exact Es|by rewrite <- Hv| |].
      * by destruct (InSliceString _ _).
      * destruct (InSliceString _ _) eqn:Ef; [by apply InSliceString_spec in Ef|].
        cbn. apply elem_of_app. right. by left.
    + intros [o|e] rk2 Hl2; by apply wpp_ret.
Qed.

Lemma and_then_ok g r f ms : mlog_ok g ms →
  (NeedBreak r.1 = false → mp g (f r.2) (λ _ ms', mlog_ok g ms') ms) →
  mp g (and_then r f) (λ _ ms', mlog_ok g ms') ms.
Proof. intros Hl Hf. unfold and_then. destruct (NeedBreak r.1); [by apply wpp_ret|by apply Hf]. Qed.

(** C18. Whatever the server answers and however the request ends, all that a
    request for a group writes is justified: a volume is created only for a sized
    and placed entry of the group whose volume the server said to be absent; the
    group is only reported Ready when the sizes of its entries add up to the
    total and every identified volume was read as Ready; a volume is deleted, and a
    placement cleared, only for an entry whose volume was read in this request with
    a message that no storage pool is available, and then only when the second read
    finds the volume gone or more than a minute old, or fails with another error; a
    new placement is one the scheduler returned for these entries, and it is stored
    together with the finalizer. *)
Theorem group_writes_truthful g s w :
  Forall (group_wrote g) (run_state (vg_HandleReconcile quantity_text now scheduler (OVolumeGroup g) (s, (w, [])))).2.2.
Proof.
  apply (wpp_state (mlog_ok g)). unfold vg_HandleReconcile. apply wpp_bind.
  apply (wpp_mono _ _ (λ _ ms', mlog_ok g ms')); [|by intros [res g'] ms' Hl; apply wpp_ret].
  assert (mlog_ok g (s, (w, []))) as Hl0 by constructor.
  apply and_then_ok; [done|]. intros _. apply wpp_bind, mp_snd. eapply wpp_mono; [by apply vg_syncVolumes_ok|].
  intros r1 rk1 (Hl1 & Hp1 & Ht1). apply and_then_ok; [exact Hl1|]. intros Hgo. destruct (Hp1 Hgo) as [Hv1 Hm1].
  apply wpp_bind, mp_snd. eapply wpp_mono; [apply (vg_rollback_ok g); [done|done|done|by apply Ht1]|].
  intros r2 rk2 [Hl2 Hp2]. apply and_then_ok; [exact Hl2|]. intros [Hv2 Hm2]%Hp2.
  apply wpp_bind. eapply wpp_mono; [by apply (vg_schedule_ok g)|].
  intros r3 ms3 Hl3. apply and_then_ok; [done|]. intros _. by apply wpp_ret.
Qed.
End group_truth.

(** ** Where the volumes of a group end up *)

Section pinned.
Context {L : K8sLib}.

Lemma accepted_pool_affinity cfg nodes vol n :
  "Affinity" ∈ cfg_Filters cfg → accepted (configured_chain filtersMap cfg nodes vol) n →
  affinity_ok (vs_PoolAffinity (vol_Spec vol)) (convertPoolLabels (om_Labels (sp_meta (nd_Pool n)))) = true.
Proof.
  intros Haff Hacc. destruct (accepted_by filtersMap "Affinity" AffinityFilterFunc cfg nodes vol n Haff eq_refl Hacc)
    as (c & e1 & n1 & st1 & Hs & Hf). rewrite <- (sn_pool _ _ Hs). revert Hf.
  unfold AffinityFilterFunc, the_node. go_simpl. repeat case_decide; rewrite ?reject_run; try done.
  intros _. by destruct (affinity_ok (vs_PoolAffinity _) _).
Qed.

Lemma newVolume_hint g volId size node :
  map_get (om_Annotations (vg_meta g)) SelectedTgtNodeKey = None →
  map_get (dvs_Annotations (vgsp_DesiredVolumeSpec (vg_Spec g))) SelectedTgtNodeKey = None →
  map_get (om_Annotations (vol_meta (newVolume g volId size node))) SelectedTgtNodeKey = None.
Proof.
  unfold map_get. cbn. intros Hg Hd. apply lookup_union_None. split.
  - apply map_lookup_filter_None. left. destruct (om_Annotations (vg_meta g)); [exact Hg|done].
  - destruct (dvs_Annotations _) as [a|]; [exact Hd|apply lookup_empty].
Qed.

(** The scheduler of single volumes honours what the group scheduler chose: with
    the affinity filter on, and without a hint in the annotations, a volume that
    the group handler creates for a node is only placed on a node whose pool
    carries that node's label. The one term written has to match as the library
    documents it. *)
Lemma group_volume_pinned cfg g volId size node nodes info v' nodes' :
  map_get (om_Annotations (vg_meta g)) SelectedTgtNodeKey = None →
  map_get (dvs_Annotations (vgsp_DesiredVolumeSpec (vg_Spec g))) SelectedTgtNodeKey = None →
  NoDup (pool_nodeID <$> nodes) → "Affinity" ∈ cfg_Filters cfg →
  (∀ labels, MatchNodeSelectorTerms (convertPoolLabels labels)
      [{| nst_MatchExpressions := [{| nsr_Key := PoolLabelsNodeSnKey; nsr_Operator := "In"; nsr_Values := [node] |}];
          nst_MatchFields := [] |}] = inl true → map_get labels PoolLabelsNodeSnKey = Some node) →
  ScheduleVolume filtersMap prioritiesMap cfg (newVolume g volId size node) nodes = Ret (info, v', None) nodes' →
  ∃ n, n ∈ nodes ∧ info = nd_Info n ∧ vs_TargetNodeId (vol_Spec v') = ni_ID (nd_Info n) ∧
    map_get (om_Labels (sp_meta (nd_Pool n))) PoolLabelsNodeSnKey = Some node.
Proof.
  intros Hg Hd Hnd Haff Hlib Hsched.
  destruct (ScheduleVolume_unhinted filtersMap cfg (newVolume g volId size node) nodes) as (i & v1 & err & ns & Hrun & _ & Hspec);
    [by apply newVolume_hint|by eexists|done|].
  rewrite Hsched in Hrun. injection Hrun as <- <- <- <-.
  destruct Hspec as (n & Hin & Hacc & -> & -> & _). exists n. split; [done|]. split; [done|]. split; [done|].
  apply accepted_pool_affinity in Hacc; [|done]. apply Hlib. cbn in Hacc.
  by destruct (MatchNodeSelectorTerms _ _) as [[]|].
Qed.
End pinned.

(** ** Examples *)

Module GroupExample.
#[local] Existing Instance NanoLib.
Definition group : AntstorVolumeGroup := ex_group (30 * GiB) 3 [ex_placed].
Definition volId : EntityIdentity := {| ei_Namespace := "obnvmf"; ei_Name := "v1"; ei_UUID := "u1" |}.
Definition cfg : SchedulerConfig := SetDefaults {|
  cfg_MaxRemoteVolumeCount := 0; cfg_RemoteIgnoreAnnoSelector := None; cfg_Filters := ["Affinity"];
  cfg_Priorities := []; cfg_LockSchedCfg := {| nsc_NodeSelector := []; nsc_NodeTaints := [] |};
  cfg_NodeCacheSelector := None; cfg_MinLocalStoragePct := 0; cfg_NodeReservations := [] |}.
Definition labelled (id : string) : Node :=
  NewNode (sp_set_meta (om_set_Labels (Some {[PoolLabelsNodeSnKey := id]}) (sp_meta (nd_Pool (ex_group_node id))))
             (nd_Pool (ex_group_node id))).
Definition nodes : list Node := labelled <$> ["a"; "b"; "c"].

Lemma nodes_ids : NoDup (pool_nodeID <$> nodes).
Proof.
  assert (pool_nodeID <$> nodes = ["a"; "b"; "c"]) as -> by (vm_compute; reflexivity).
  apply (bool_decide_unpack _). vm_compute. exact I.
Qed.
Lemma scheduled : ∃ info v' nodes',
  ScheduleVolume filtersMap prioritiesMap cfg (newVolume group volId (10 * GiB) "b") nodes = Ret (info, v', None) nodes'.
Proof.
  assert (match ScheduleVolume filtersMap prioritiesMap cfg (newVolume group volId (10 * GiB) "b") nodes with
          | Ret (_, _, None) _ => true | _ => false end = true) as H by (vm_compute; reflexivity).
  destruct (ScheduleVolume _ _ _ _ _) as [[[info v'] [e|]] ns|]; try discriminate. by exists info, v', ns.
Qed.
End GroupExample.

Lemma group_volume_pinned_witness :
  ∃ n : @Node NanoLib, n ∈ GroupExample.nodes ∧ map_get (om_Labels (sp_meta (nd_Pool n))) PoolLabelsNodeSnKey = Some "b".
Proof.
  destruct GroupExample.scheduled as (info & v' & nodes' & Hs).
  destruct (group_volume_pinned GroupExample.cfg GroupExample.group GroupExample.volId (10 * GiB) "b"
    GroupExample.nodes info v' nodes') as (n & H1 & _ & _ & H2).
  - reflexivity.
  - reflexivity.
  - exact GroupExample.nodes_ids.
  - left.
  - intros labels H. cbn in H. unfold nano_match, nano_requirement in H. cbn in H.
    destruct (map_get labels PoolLabelsNodeSnKey) as [v|] eqn:E; cbn in H; [|discriminate].
    destruct (bool_decide (v ∈ ["b"])) eqn:Ev; [|discriminate].
    apply bool_decide_eq_true in Ev. apply elem_of_cons in Ev as [->|Ev]; [done|by apply elem_of_nil in Ev].
  - exact Hs.
  - exists n. split; [exact H1|exact H2].
Defined.
