(* ===== verification/DataControl.v ===== *)
(** * Data controls

    A data control joins the volumes of its groups into one device on a host.
    [reconciler/data_control_reconciler.go] waits for the groups, hands their
    volumes to the host and spreads the mount parameters;
    [agent/sync/sync_datacontrol.go] on the host connects the volumes with the
    nvme command, builds a volume group and a logical volume from them, and takes
    both down again. *)

From Stdlib Require Import ZArith Lia.
From stdpp Require Import base gmap strings option list.
From S2P Require Import Prelude Strconv Float64 Misc K8s Api Lvm Plugin Server Nvme VolumeGroup.

#[export] Instance dc_KubeObject : KubeObject AntstorDataControl := {|
  ko_meta := dc_meta;
  ko_with_status o old := dc_set_Status (dc_Status old) o;
  ko_with_meta := dc_set_meta |}.

Definition dc_set_finalizers (f : list string) (d : AntstorDataControl) : AntstorDataControl :=
  dc_set_meta (om_set_Finalizers f (dc_meta d)) d.
Definition dc_finalizers (d : AntstorDataControl) : list string := om_Finalizers (dc_meta d).
Definition dc_groups (d : AntstorDataControl) : list EntityIdentity := dcs_VolumeGroups (dc_Spec d).
Definition dc_params (d : AntstorDataControl) : option CSINodePubParams := dcst_CSINodePubParams (dc_Status d).
Definition dc_status (d : AntstorDataControl) : string := dcst_Status (dc_Status d).

(** ** The manager *)

Section manager.
Context {L : K8sLib} {W : Type}.
Context {KD : KubeClient W AntstorDataControl} {KG : KubeClient W AntstorVolumeGroup} {KV : KubeClient W AntstorVolume}.

Definition AntstorVolumeGroup_status (r : result AntstorVolumeGroup) : string :=
  match r with inl g => vg_status g | inr _ => "" end.

(** Are all the groups ready? An object that cannot be read has no status. *)
(* [reconciler/data_control_reconciler.go:57-75] AntstorDataControlReconcileHandler.HandleReconcile, waiting *)
Fixpoint groups_ready (l : list EntityIdentity) : go W bool :=
  match l with
  | [] => mret true
  | item :: l' =>
      r ← kGet (T := AntstorVolumeGroup) (ei_Namespace item) (ei_Name item);
      if decide (AntstorVolumeGroup_status r ≠ VolumeStatusReady) then mret false else groups_ready l'
  end.

(** One volume of a group after the other; the first error ends the request. *)
(* [reconciler/data_control_reconciler.go:105-126] AntstorDataControlReconcileHandler.HandleReconcile, the volumes of a group *)
Fixpoint each_volume (upd : AntstorVolume → go W (option error)) (l : list VolumeMeta) : go W bool :=
  match l with
  | [] => mret true
  | m :: l' =>
      r ← kGet (T := AntstorVolume) (ei_Namespace (vm_VolId m)) (ei_Name (vm_VolId m));
      match r with
      | inr _ => mret false
      | inl vol =>
          e ← upd vol;
          match e with Some _ => mret false | None => each_volume upd l' end
      end
  end.
(* [reconciler/data_control_reconciler.go:93-128] AntstorDataControlReconcileHandler.HandleReconcile, the groups *)
Fixpoint each_group (upd : AntstorVolume → go W (option error)) (l : list EntityIdentity) : go W bool :=
  match l with
  | [] => mret true
  | item :: l' =>
      r ← kGet (T := AntstorVolumeGroup) (ei_Namespace item) (ei_Name item);
      match r with
      | inr _ => mret false
      | inl g => ok ← each_volume upd (vg_volumes g); if (ok : bool) then each_group upd l' else mret false
      end
  end.

Definition with_host (d : AntstorDataControl) (vol : AntstorVolume) : AntstorVolume :=
  vol_set_Spec (vs_set_HostNode (Some (dcs_HostNode (dc_Spec d))) (vol_Spec vol)) vol.
(* [reconciler/data_control_reconciler.go:117-125] AntstorDataControlReconcileHandler.HandleReconcile, the host of a volume *)
Definition set_host (d : AntstorDataControl) (vol : AntstorVolume) : go W (option error) :=
  r ← kUpdate (with_host d vol);
  mret match r with inl _ => None | inr e => Some e end.

Definition with_params (d : AntstorDataControl) (vol : AntstorVolume) : AntstorVolume :=
  vol_set_Status (vst_set_CSINodePubParams (dc_params d) (vol_Status vol)) vol.
Definition has_params (vol : AntstorVolume) : Prop :=
  match vst_CSINodePubParams (vol_Status vol) with Some p => cnp_TargetPath p ≠ "" | None => False end.
#[export] Instance has_params_dec vol : Decision (has_params vol).
Proof. unfold has_params. destruct (vst_CSINodePubParams (vol_Status vol)); apply _. Defined.
(* [reconciler/data_control_reconciler.go:165-174] AntstorDataControlReconcileHandler.HandleReconcile, the parameters of a volume *)
Definition set_params (d : AntstorDataControl) (vol : AntstorVolume) : go W (option error) :=
  if decide (has_params vol) then mret None
  else
    r ← kUpdateStatus (with_params d vol);
    mret match r with inl _ => None | inr e => Some e end.

(** The node of a data control of type LVM is its host. *)
(* [reconciler/data_control_reconciler.go:80-89] AntstorDataControlReconcileHandler.HandleReconcile, the node *)
Definition on_host (d : AntstorDataControl) : go W AntstorDataControl :=
  if decide (dcs_EngineType (dc_Spec d) = PoolModeKernelLVM) then
    let id := ni_ID (dcs_HostNode (dc_Spec d)) in
    labels ← map_put (om_Labels (dc_meta d)) TargetNodeIdLabelKey id;
    mret (dc_set_meta (om_set_Labels labels (dc_meta d)) (dc_set_Spec (dcs_set_TargetNodeId id (dc_Spec d)) d))
  else mret d.

(** Does the request go on? *)
(* [reconciler/data_control_reconciler.go:77-137] AntstorDataControlReconcileHandler.HandleReconcile, scheduling *)
Definition dc_schedule (d : AntstorDataControl) : go W (bool * AntstorDataControl) :=
  if decide (dcs_TargetNodeId (dc_Spec d) = "") then
    d1 ← on_host d;
    ok ← each_group (set_host d1) (dc_groups d1);
    if (ok : bool) then
      r ← kUpdate d1;
      mret match r with inl d2 => (true, d2) | inr _ => (false, d1) end
    else mret (false, d1)
  else mret (true, d).

(* [reconciler/data_control_reconciler.go:183-190] AntstorDataControlReconcileHandler.validateAndMutate *)
Definition dc_validateAndMutate (d : AntstorDataControl) : Result :=
  if InSliceString (dcs_EngineType (dc_Spec d)) [PoolModeKernelLVM; PoolModeSpdkLVStore] then Result_zero
  else result_err (Some (ErrNew ("invalid type " +:+ dcs_EngineType (dc_Spec d)))).

(* [reconciler/data_control_reconciler.go:34-181] AntstorDataControlReconcileHandler.HandleReconcile *)
Definition dc_reconcile (d : AntstorDataControl) : go W (Result * AntstorDataControl) :=
  let result := dc_validateAndMutate d in
  if NeedBreak result then mret (result, d)
  else
    ready ← groups_ready (dc_groups d);
    if negb ready then mret (result_after (20 * Second), d)
    else
      '(scheduled, d') ← dc_schedule d;
      if negb scheduled then mret (result_after (10 * Second), d')
      else if opt_is_some (dc_params d') then
        ok ← each_group (set_params d') (dc_groups d');
        mret (if (ok : bool) then result else result_after (10 * Second), d')
      else mret (result, d').

(* [reconciler/data_control_reconciler.go:24-28] AntstorDataControlReconcileHandler.GetObject *)
Definition dc_GetObject (req : Request) : go (ManagerWorld W) (result Object) :=
  r ← on_snd (kGet (T := AntstorDataControl) (rq_Namespace req) (rq_Name req));
  mret match r with inl d => inl (ODataControl d) | inr e => inr e end.

(* [reconciler/data_control_reconciler.go:16-32] AntstorDataControlReconcileHandler *)
Definition AntstorDataControlReconcileHandler : ReconcileHandler (ManagerWorld W) := {|
  rh_ResourceName := "AntstorDataControl";
  rh_GetObject := dc_GetObject;
  rh_HandleReconcile _ obj :=
    match obj with
    | ODataControl d => '(res, d') ← on_snd (dc_reconcile d); mret (res, ODataControl d')
    | _ => mret (result_err (Some (ErrNew "object is not *v1.AntstorDataControl")), obj)
    end;
  rh_HandleDeletion _ obj := mret (Result_zero, obj);
|}.
End manager.

(** ** The agent on the host *)

(** The commands of [lvm.LvmUtil] that build volume groups. *)
Class LvmGroups (N : Type) := {
  lg_ListPV : go N (result (list PV));
  lg_CreatePV : list string → go N (option error);
  lg_RemovePVs : list string → go N (option error);
  lg_ListVG : go N (result (list VG));
  lg_CreateVG : string → list string → go N (result VG);
  lg_RemoveVG : string → go N (option error);
  lg_ListLVInVG : string → go N (result (list LV));
  lg_CreateLinearLV : string → string → LvOption → go N (result LV);
}.
#[export] Instance cmd_LvmGroups {N} {X : ShellExec N} {J : LvmJson} : LvmGroups N := {|
  lg_ListPV := ListPV ""; lg_CreatePV := CreatePV ""; lg_RemovePVs := RemovePVs "";
  lg_ListVG := ListVG "" true; lg_CreateVG := CreateVG "" true; lg_RemoveVG := RemoveVG "";
  lg_ListLVInVG := ListLVInVG "" true; lg_CreateLinearLV := CreateLinearLV "";
|}.

(** [strings.ToLower] of ASCII text. *)
Definition lower_char (c : Ascii.ascii) : Ascii.ascii :=
  let n := Ascii.nat_of_ascii c in
  if (Nat.leb 65 n && Nat.leb n 90)%bool then Ascii.ascii_of_nat (n + 32) else c.
Fixpoint ToLower (s : string) : string :=
  match s with EmptyString => EmptyString | String c s' => String (lower_char c) (ToLower s') end.

(* [sync/sync_datacontrol.go:25-25] twentySec *)
Definition twentySec : Z := (20 * Second)%Z.

Section agent.
Context {L : K8sLib} {N K : Type} {G : LvmGroups N} {X : NvmeExec N}.
Context {KD : KubeClient K AntstorDataControl} {KG : KubeClient K AntstorVolumeGroup}.
Abbreviation AG := (go (N * K)).

(** A step that fails: the request is retried after twenty seconds. *)
Definition attempt {S A B} (m : go S (result A)) (f : A → go S (option B)) : go S (option B) :=
  r ← m; match r with inl a => f a | inr _ => mret None end.

(** The volumes of one group, with the targets its status tells. *)
Fixpoint group_pvs (idx : nat) (items : list VolumeTargetStatus) (vols : list VolumeMeta) : go K (list LVMControlPV) :=
  match items with
  | [] => mret []
  | item :: items' =>
      match vts_SpdkTarget item with
      | None => group_pvs (S idx) items' vols
      | Some t =>
          match vols !! idx with
          | None => panic "index out of range"
          | Some m =>
              rest ← group_pvs (S idx) items' vols;
              mret ({| lpv_DevPath := ""; lpv_VolId := vm_VolId m; lpv_TargetInfo := t |} :: rest)
          end
      end
  end.
(** [None] when a group is not ready. *)
(* [sync/sync_datacontrol.go:97-120] DataControlReconciler.Reconcile, step 1 *)
Fixpoint collect_pvs (ns : string) (l : list EntityIdentity) : go K (option (list LVMControlPV)) :=
  match l with
  | [] => mret (Some [])
  | item :: l' =>
      r ← kGet (T := AntstorVolumeGroup) ns (ei_Name item);
      match r with
      | inl g =>
          if decide (vg_status g ≠ VolumeStatusReady) then mret None
          else
            pvs ← group_pvs 0 (vg_statuses g) (vg_volumes g);
            rest ← collect_pvs ns l';
            mret ((λ rest, pvs ++ rest) <$> rest)
      | inr _ => mret None
      end
  end.

(* [sync/sync_datacontrol.go:149-163] DataControlReconciler.Reconcile, connecting the targets *)
Fixpoint connect_all (connectedNQN : list string) (pvs : list LVMControlPV) : go N (option unit) :=
  match pvs with
  | [] => mret (Some tt)
  | pv :: pvs' =>
      let target := lpv_TargetInfo pv in
      if InSliceString (tgt_SubsysNQN target) connectedNQN then connect_all connectedNQN pvs'
      else
        e ← ConnectTarget (ToLower (tgt_TransType target)) (tgt_Address target) (tgt_SvcID target) (tgt_SubsysNQN target)
              {| cto_ReconnectDelaySec := 2; cto_CtrlLossTMO := 10; cto_HostTransAddr := "" |};
        match e with Some _ => mret None | None => connect_all connectedNQN pvs' end
  end.

(** The paths of all the disks with the serial number; the last one is recorded. *)
Definition disks_of (nvmeList : list NvmeDevice) (pv : LVMControlPV) : list string :=
  nd_DevicePath <$> List.filter (λ item, bool_decide (nd_SerialNumber item = tgt_SerialNum (lpv_TargetInfo pv))) nvmeList.
(* [sync/sync_datacontrol.go:171-186] DataControlReconciler.Reconcile, finding the devices *)
Fixpoint find_devices (nvmeList : list NvmeDevice) (pvs : list LVMControlPV) : option (list LVMControlPV * list string) :=
  match pvs with
  | [] => Some ([], [])
  | pv :: pvs' =>
      match last (disks_of nvmeList pv), find_devices nvmeList pvs' with
      | Some path, Some (rest, devs) =>
          Some ({| lpv_DevPath := path; lpv_VolId := lpv_VolId pv; lpv_TargetInfo := lpv_TargetInfo pv |} :: rest,
                disks_of nvmeList pv ++ devs)
      | _, _ => None
      end
  end.

(** A command without output, as a step that may fail. *)
Definition step {S} (m : go S (option error)) : go S (result unit) :=
  e ← m; mret match e with None => inl tt | Some e => inr e end.

(* [sync/sync_datacontrol.go:188-208] DataControlReconciler.Reconcile, the physical volumes *)
Definition setup_pvs (devs : list string) : go N (option unit) :=
  attempt lg_ListPV (λ pvs,
    let toCreatePVs := MapSet.Difference (MapSet.FromSlice devs) (MapSet.FromSlice (PvName <$> pvs)) in
    if decide (0 < MapSet.Size toCreatePVs)%Z
    then attempt (step (lg_CreatePV (MapSet.Values toCreatePVs))) (λ _, mret (Some tt))
    else mret (Some tt)).
(* [sync/sync_datacontrol.go:210-230] DataControlReconciler.Reconcile, the volume group *)
Definition setup_vg (vgName : string) (devs : list string) : go N (option unit) :=
  attempt lg_ListVG (λ vgs,
    if existsb (λ item, bool_decide (VG_Name item = vgName)) vgs then mret (Some tt)
    else attempt (lg_CreateVG vgName devs) (λ _, mret (Some tt))).
(* [sync/sync_datacontrol.go:232-255] DataControlReconciler.Reconcile, the logical volume *)
Definition setup_lv (vgName lvName : string) : go N (option unit) :=
  attempt (lg_ListLVInVG vgName) (λ lvs,
    if existsb (λ item, bool_decide (LV_Name item = lvName)) lvs then mret (Some tt)
    else attempt (lg_CreateLinearLV vgName lvName {| lo_Size := 0; lo_LogicSize := "100%FREE" |}) (λ _, mret (Some tt))).

(** The next step of a set-up, if the last one worked. *)
Definition next {S A B} (m : go S (option A)) (f : A → go S (option B)) : go S (option B) :=
  r ← m; match r with Some a => f a | None => mret None end.

(* [sync/sync_datacontrol.go:125-255] DataControlReconciler.Reconcile, building the device *)
Definition setup_lvm (vgName lvName : string) (pvs : list LVMControlPV) : go N (option LVMControl) :=
  attempt ListSubsystems (λ subsysList,
  next (connect_all (si_NQN <$> subsysList) pvs) (λ _,
  attempt ListNvmeDisk (λ nvmeList,
  match find_devices nvmeList pvs with
  | None => mret None
  | Some (pvs', devs) =>
      next (setup_pvs devs) (λ _,
      next (setup_vg vgName devs) (λ _,
      next (setup_lv vgName lvName) (λ _,
      mret (Some {| lvmc_VG := vgName; lvmc_LVol := lvName; lvmc_PVs := pvs' |}))))
  end))).

(** ** Taking it down *)

(* [sync/sync_datacontrol.go:298-317] DataControlReconciler.handleDeletion, the volume group *)
Definition remove_vg (vgName : string) : go N (option unit) :=
  if decide (vgName ≠ "") then
    r ← lg_ListVG;
    let vgs := match r with inl vgs => vgs | inr _ => [] end in
    if existsb (λ item, bool_decide (VG_Name item = vgName)) vgs
    then attempt (step (lg_RemoveVG vgName)) (λ _, mret (Some tt))
    else mret (Some tt)
  else mret (Some tt).
(* [sync/sync_datacontrol.go:319-337] DataControlReconciler.handleDeletion, the physical volumes *)
Definition remove_pvs (devs : list string) : go N (option unit) :=
  r ← lg_ListPV;
  let pvs := match r with inl pvs => pvs | inr _ => [] end in
  let toDelDevs := MapSet.Intersect (MapSet.FromSlice devs) (MapSet.FromSlice (PvName <$> pvs)) in
  if decide (0 < MapSet.Size toDelDevs)%Z
  then attempt (step (lg_RemovePVs (MapSet.Values toDelDevs))) (λ _, mret (Some tt))
  else mret (Some tt).
(** Errors are only logged. *)
(* [sync/sync_datacontrol.go:339-352] DataControlReconciler.handleDeletion, the targets *)
Fixpoint disconnect_all (pvs : list LVMControlPV) : go N unit :=
  match pvs with
  | [] => mret tt
  | pv :: pvs' =>
      _ ← (if decide (tgt_SubsysNQN (lpv_TargetInfo pv) ≠ "")
           then DisconnectTarget {| dtr_NQN := tgt_SubsysNQN (lpv_TargetInfo pv); dtr_TrAddr := ""; dtr_SvcID := "" |}
           else mret None);
      disconnect_all pvs'
  end.

(** [append(l[:i], l[i+1:]...)] with [i] the place of [x], or 0. *)
Definition cut_finalizer (x : string) (l : list string) : option (list string) :=
  match l with [] => None | _ => Some (remove_first x l) end.

Abbreviation DcReply := (CtrlResult * option error)%type.
Definition dc_done : AG DcReply := mret (CtrlResult_zero, None).
Definition dc_retry : AG DcReply := mret (RequeueAfter twentySec, None).

(* [sync/sync_datacontrol.go:281-376] DataControlReconciler.handleDeletion *)
Definition dc_take_down (d : AntstorDataControl) : AG DcReply :=
  match dcs_LVM (dc_Spec d) with
  | Some lvm =>
      if decide (dcs_EngineType (dc_Spec d) = PoolModeKernelLVM) then
        r ← on_fst (next (remove_vg (lvmc_VG lvm)) (λ _, remove_pvs (lpv_DevPath <$> lvmc_PVs lvm)));
        match (r : option unit) with
        | None => dc_retry
        | Some _ =>
            _ ← on_fst (disconnect_all (lvmc_PVs lvm));
            match cut_finalizer KernelLVolFinalizer (dc_finalizers d) with
            | None => panic "slice bounds out of range"
            | Some f =>
                if InSliceString KernelLVolFinalizer (dc_finalizers d) then
                  r ← on_snd (kUpdate (dc_set_finalizers f d));
                  match r with inl _ => dc_done | inr _ => dc_retry end
                else dc_done
            end
        end
      else dc_done
  | None => dc_done
  end.

(** ** One request *)

(** What is recorded once the device is there. *)
(* [sync/sync_datacontrol.go:256-257] DataControlReconciler.Reconcile, what is recorded *)
Definition dc_built (lvm : LVMControl) (d : AntstorDataControl) : AntstorDataControl :=
  dc_set_finalizers (dc_finalizers d ++ [KernelLVolFinalizer]) (dc_set_Spec (dcs_set_LVM (Some lvm) (dc_Spec d)) d).
Definition dc_set_ready (d : AntstorDataControl) : AntstorDataControl :=
  dc_set_Status (dcst_set_Status VolumeStatusReady (dc_Status d)) d.
Definition dc_vgName (d : AntstorDataControl) : string := om_Namespace (dc_meta d) +:+ "-" +:+ om_Name (dc_meta d).
Definition dc_lvName (d : AntstorDataControl) : string := om_Name (dc_meta d).

(** The device, unless it is there already. *)
(* [sync/sync_datacontrol.go:122-265] DataControlReconciler.Reconcile, step 2 *)
Definition dc_build (pvs : list LVMControlPV) (d : AntstorDataControl) : AG (option AntstorDataControl) :=
  if InSliceString KernelLVolFinalizer (dc_finalizers d) then mret (Some d)
  else
    next (on_fst (setup_lvm (dc_vgName d) (dc_lvName d) pvs)) (λ lvm,
    attempt (on_snd (kUpdate (dc_built lvm d))) (λ _, mret (Some (dc_built lvm d)))).

(* [sync/sync_datacontrol.go:76-279] DataControlReconciler.Reconcile, a live one *)
Definition dc_set_up (d : AntstorDataControl) : AG DcReply :=
  if decide (dc_status d = VolumeStatusReady) then dc_done
  else if decide (dc_groups d = []) then mret (RequeueAfter Minute, None)
  else
    pvs ← on_snd (collect_pvs (om_Namespace (dc_meta d)) (dc_groups d));
    match pvs with
    | None => dc_retry
    | Some pvs =>
        if decide (dcs_EngineType (dc_Spec d) = PoolModeKernelLVM) then
          r ← dc_build (match dcs_LVM (dc_Spec d) with Some lvm => lvmc_PVs lvm | None => [] end ++ pvs) d;
          match r with
          | None => dc_retry
          | Some d1 =>
              if match dcs_LVM (dc_Spec d1) with Some lvm => bool_decide (lvmc_LVol lvm ≠ "") | None => false end then
                r ← on_snd (kUpdateStatus (dc_set_ready d1));
                match r with inl _ => dc_done | inr _ => dc_retry end
              else dc_done
          end
        else dc_done
    end.

(* [sync/sync_datacontrol.go:58-279] DataControlReconciler.Reconcile *)
Definition dc_agent_Reconcile (req : Request) : AG DcReply :=
  r ← on_snd (kGet (T := AntstorDataControl) (rq_Namespace req) (rq_Name req));
  match r with
  | inr e => mret (CtrlResult_zero, IgnoreNotFound (Some e))
  | inl d => if opt_is_some (om_DeletionTimestamp (dc_meta d)) then dc_take_down d else dc_set_up d
  end.
End agent.

(** ** What the manager writes *)

Section manager_truth.
Context {L : K8sLib} {W : Type}.
Context {KD : KubeClient W AntstorDataControl} {KG : KubeClient W AntstorVolumeGroup} {KV : KubeClient W AntstorVolume}.
Implicit Types (d : AntstorDataControl) (v : AntstorVolume) (g : AntstorVolumeGroup) (w : W).
Definition group_read (item : EntityIdentity) g : Prop :=
  ∃ w w', kGet (T := AntstorVolumeGroup) (ei_Namespace item) (ei_Name item) w = Ret (inl g) w'.
Definition volume_read m v : Prop := answered m (inl v).
Definition all_ready d : Prop := ∀ item, item ∈ dc_groups d → ∃ g, group_read item g ∧ vg_status g = VolumeStatusReady.
Definition host_given d v : Prop := ∃ w w' o, kUpdate (with_host d v) w = Ret (inl o) w'.
(** Every volume of a group has been handed to the host. *)
Definition handed_over d : Prop := ∀ item, item ∈ dc_groups d → ∃ g, group_read item g ∧
  ∀ m, m ∈ vg_volumes g → ∃ v, volume_read m v ∧ host_given d v.

Inductive dc_wrote d : Write AntstorDataControl + Write AntstorVolume → Prop :=
| dw_host item g m v : dcs_TargetNodeId (dc_Spec d) = "" → all_ready d →
    item ∈ dc_groups d → group_read item g → m ∈ vg_volumes g → volume_read m v →
    dc_wrote d (inr (WUpdate (with_host d v)))
| dw_scheduled d' : dcs_TargetNodeId (dc_Spec d) = "" → all_ready d → handed_over d →
    (dcs_EngineType (dc_Spec d) = PoolModeKernelLVM ∧
       dcs_TargetNodeId (dc_Spec d') = ni_ID (dcs_HostNode (dc_Spec d)) ∧
       map_get (om_Labels (dc_meta d')) TargetNodeIdLabelKey = Some (ni_ID (dcs_HostNode (dc_Spec d)))
     ∨ dcs_EngineType (dc_Spec d) = PoolModeSpdkLVStore ∧ d' = d) →
    dc_wrote d (inl (WUpdate d'))
| dw_params p m v : all_ready d → volume_read m v → ¬ has_params v →
    dc_wrote d (inr (WUpdateStatus (vol_set_Status (vst_set_CSINodePubParams (Some p) (vol_Status v)) v))).

Abbreviation RW := (Logged W (Write AntstorDataControl + Write AntstorVolume)).
#[local] Instance recDD : KubeClient RW AntstorDataControl := Recording KD inl.
#[local] Instance recDV : KubeClient RW AntstorVolume := Recording KV inr.
#[local] Instance recDG : KubeClient RW AntstorVolumeGroup := client_fst KG.

Definition dlog_ok d (rk : RW) : Prop := Forall (dc_wrote d) rk.2.
Abbreviation dp d := (wpp (dlog_ok d)).
Lemma dp_read {A} d (op : go W A) Q rk : dlog_ok d rk →
  (∀ a w', op rk.1 = Ret a w' → Q a (w', rk.2)) → dp d (on_fst op : go RW A) Q rk.
Proof.
  destruct rk as [w l]. intros Hl HQ. apply (wpp_on_fst _ (λ _, True)); [|intros; exact Hl]. apply wpp_any; [exact HQ|done].
Qed.
Lemma dp_logged {A} d e (op : go W A) Q rk : dlog_ok d rk → dc_wrote d e →
  (∀ a rk' w', op rk.1 = Ret a w' → dlog_ok d rk' → Q a rk') → dp d (logged e op : go RW A) Q rk.
Proof.
  destruct rk as [w l]. intros Hl He HQ. unfold wpp. rewrite logged_run.
  assert (∀ w', dlog_ok d (w', e :: l)) as Hok by (intros w'; by constructor).
  cbn in *. destruct (op w) as [a w'|why w'] eqn:E; [eapply HQ; [done|]|]; apply Hok.
Qed.

Lemma groups_ready_ok d l rk : dlog_ok d rk →
  dp d (groups_ready l) (λ ok rk', dlog_ok d rk' ∧
    (ok = true → ∀ item, item ∈ l → ∃ g, group_read item g ∧ vg_status g = VolumeStatusReady)) rk.
Proof.
  revert rk. induction l as [|item l IH]; intros rk Hl; cbn [groups_ready].
  { apply wpp_ret. split; [done|]. intros _ item Hin. by apply elem_of_nil in Hin. }
  apply wpp_bind, dp_read; [done|]. intros r w1 Hr. destruct (decide _) as [_|Hst]; [by apply wpp_ret|].
  apply dec_stable in Hst. eapply wpp_mono; [by apply (IH (w1, rk.2))|].
  intros ok rk' [Hl' Hall]. split; [done|]. intros Hok item' [->|Hin]%elem_of_cons; [|by apply Hall].
  destruct r as [g|e]; [|done]. exists g. split; [by exists rk.1, w1|done].
Qed.

(** What an update of each volume guarantees, all of them guarantee together. *)
Lemma each_volume_ok d upd done_for l rk : dlog_ok d rk →
  (∀ m v rk', m ∈ l → volume_read m v → dlog_ok d rk' →
     dp d (upd v) (λ e rk2, dlog_ok d rk2 ∧ (e = None → done_for v)) rk') →
  dp d (each_volume upd l) (λ ok rk', dlog_ok d rk' ∧
    (ok = true → ∀ m, m ∈ l → ∃ v, volume_read m v ∧ (done_for v : Prop))) rk.
Proof.
  revert rk. induction l as [|m l IH]; intros rk Hl Hupd; cbn [each_volume].
  { apply wpp_ret. split; [done|]. intros _ m Hm. by apply elem_of_nil in Hm. }
  apply wpp_bind, dp_read; [done|]. intros [v|e] w1 Hr; [|by apply wpp_ret].
  assert (volume_read m v) as Hv by (by exists rk.1, w1).
  apply wpp_bind. eapply wpp_mono; [apply (Hupd m); [by left|done|exact Hl]|].
  intros e rk2 [Hl2 He]. destruct e as [e|]; [by apply wpp_ret|].
  eapply wpp_mono; [apply IH; [done|]|].
  { intros m' v' rk' Hm. apply (Hupd m'). by right. }
  intros ok rk' [Hl' Hall]. split; [done|]. intros Hok m' [->|Hin]%elem_of_cons; [|by apply Hall]. eauto.
Qed.
Lemma each_group_ok d upd done_for l rk : dlog_ok d rk →
  (∀ item g m v rk', item ∈ l → group_read item g → m ∈ vg_volumes g → volume_read m v → dlog_ok d rk' →
     dp d (upd v) (λ e rk2, dlog_ok d rk2 ∧ (e = None → done_for v)) rk') →
  dp d (each_group upd l) (λ ok rk', dlog_ok d rk' ∧ (ok = true → ∀ item, item ∈ l →
    ∃ g, group_read item g ∧ ∀ m, m ∈ vg_volumes g → ∃ v, volume_read m v ∧ (done_for v : Prop))) rk.
Proof.
  revert rk. induction l as [|item l IH]; intros rk Hl Hupd; cbn [each_group].
  { apply wpp_ret. split; [done|]. intros _ item Hin. by apply elem_of_nil in Hin. }
  apply wpp_bind, dp_read; [done|]. intros [g|e] w1 Hr; [|by apply wpp_ret].
  assert (group_read item g) as Hg by (by exists rk.1, w1).
  apply wpp_bind. eapply wpp_mono; [apply (each_volume_ok d upd done_for); [exact Hl|]|].
  { intros m v rk' Hm. apply (Hupd item g); [by left|done|done]. }
  intros ok rk2 [Hl2 Hok]. destruct ok; [|by apply wpp_ret].
  eapply wpp_mono; [apply IH; [done|]|].
  { intros item' g' m v rk' Hi. apply (Hupd item' g'). by right. }
  intros ok' rk' [Hl' Hall]. split; [done|]. intros Hok' item' [->|Hin]%elem_of_cons; [|by apply Hall]. eauto.
Qed.

Lemma dc_schedule_ok d rk : dlog_ok d rk → all_ready d →
  dcs_EngineType (dc_Spec d) = PoolModeKernelLVM ∨ dcs_EngineType (dc_Spec d) = PoolModeSpdkLVStore →
  dp d (dc_schedule d) (λ _ rk', dlog_ok d rk') rk.
Proof.
  intros Hl Hready Htype. unfold dc_schedule. destruct (decide _) as [Ht|_]; [|by apply wpp_ret].
  apply wpp_bind. apply (wpp_mono _ _ (λ d1 rk', dlog_ok d rk' ∧ dc_groups d1 = dc_groups d ∧
     dcs_HostNode (dc_Spec d1) = dcs_HostNode (dc_Spec d) ∧ (handed_over d → dc_wrote d (inl (WUpdate d1))))).
  { unfold on_host. destruct (decide _) as [He|He].
    - apply wpp_bind. unfold map_put. destruct (om_Labels (dc_meta d)) as [labels|]; [|exact Hl].
      apply wpp_ret, wpp_ret. split; [done|]. split; [done|]. split; [done|]. intros Hh.
      apply dw_scheduled; try done. left. split; [done|]. split; [done|]. unfold map_get. cbn. apply lookup_insert_eq.
    - apply wpp_ret. split; [done|]. split; [done|]. split; [done|]. intros Hh. apply dw_scheduled; try done.
      right. split; [|done]. by destruct Htype. }
  intros d1 rk1 (Hl1 & Hgr & Hhost & Hsched). apply wpp_bind.
  assert (∀ v, with_host d1 v = with_host d v) as Hwith by (intros v; unfold with_host; by rewrite Hhost).
  rewrite Hgr. eapply wpp_mono;
    [apply (each_group_ok d _ (host_given d)); [done|]|].
  { intros item g m v rk' Hi Hg Hm Hv Hl'. unfold set_host. rewrite Hwith. apply wpp_bind, dp_logged; [done|by eapply dw_host|].
    intros [o|e] rk2 w2 Hrun Hl2; apply wpp_ret; (split; [done|]); [|done]. intros _. by eexists _, _, _. }
  intros ok rk2 [Hl2 Hok]. destruct ok; [|by apply wpp_ret].
  apply wpp_bind, dp_logged; [done|exact (Hsched (Hok eq_refl))|]. intros [o|e] rk3 w3 _ Hl3; by apply wpp_ret.
Qed.

(** Whatever the server answers and however the request ends, what a request for
    a data control writes is justified: nothing before every group was read as
    Ready; a volume of one of the groups is given the host only while the control
    has no node; the control is given its node, the host of an LVM control, only
    after every volume of every group was given the host without an error; and
    mount parameters are only given to a volume that has none. *)
Lemma dc_writes_truthful d w :
  Forall (dc_wrote d) (run_state (dc_reconcile d (w, []))).2.
Proof.
  apply (wpp_state (dlog_ok d)). unfold dc_reconcile.
  assert (dlog_ok d (w, [])) as Hl0 by constructor.
  destruct (NeedBreak _) eqn:Ev; [by apply wpp_ret|].
  assert (dcs_EngineType (dc_Spec d) = PoolModeKernelLVM ∨ dcs_EngineType (dc_Spec d) = PoolModeSpdkLVStore) as Htype.
  { unfold dc_validateAndMutate in Ev. destruct (InSliceString _ _) eqn:Es; [|discriminate].
    apply InSliceString_spec in Es. apply elem_of_cons in Es as [?|Es]; [by left|].
    apply elem_of_cons in Es as [?|Es]; [by right|]. by apply elem_of_nil in Es. }
  apply wpp_bind. eapply wpp_mono; [by apply groups_ready_ok|].
  intros ready rk1 [Hl1 Hready]. destruct ready; [|by apply wpp_ret]. cbn [negb].
  specialize (Hready eq_refl). change (all_ready d) in Hready.
  apply wpp_bind. eapply wpp_mono; [by apply dc_schedule_ok|].
  intros [scheduled d'] rk2 Hl2. destruct scheduled; [|by apply wpp_ret]. cbn [negb].
  destruct (dc_params d') as [p|] eqn:Ep; [|by apply wpp_ret]. cbn [opt_is_some].
  apply wpp_bind. eapply wpp_mono; [apply (each_group_ok d _ (λ _, True)); [done|]|].
  { intros item g m v rk' Hi Hg Hm Hv Hl'. unfold set_params. destruct (decide _) as [_|Hno]; [by apply wpp_ret|].
    unfold with_params. rewrite Ep. apply wpp_bind, dp_logged; [done|by eapply dw_params|].
    intros [o|e] rk3 w3 _ Hl3; by apply wpp_ret. }
  intros ok rk3 [Hl3 _]. by apply wpp_ret.
Qed.
End manager_truth.

(** ** What the agent records *)

(** What LVM has on a node. *)
Record LvmView := { lw_pvs : gset string; lw_groups : gset string; lw_lvs : string → gset string }.

(** Documented behaviour of the commands: a list call that succeeds tells what is
    there; a call that reports success has done what it is called for; none takes
    away what another one made. *)
Class GroupLaws {N : Type} (G : LvmGroups N) (X : NvmeExec N) := {
  gl_view : N → LvmView;
  gl_ListPV n : ∃ r n', lg_ListPV n = Ret r n' ∧ gl_view n' = gl_view n ∧
    match r with inl l => ∀ x, x ∈ PvName <$> l ↔ x ∈ lw_pvs (gl_view n) | inr _ => True end;
  gl_ListVG n : ∃ r n', lg_ListVG n = Ret r n' ∧ gl_view n' = gl_view n ∧
    match r with inl l => ∀ x, x ∈ VG_Name <$> l ↔ x ∈ lw_groups (gl_view n) | inr _ => True end;
  gl_ListLV vg n : ∃ r n', lg_ListLVInVG vg n = Ret r n' ∧ gl_view n' = gl_view n ∧
    match r with inl l => ∀ x, x ∈ LV_Name <$> l ↔ x ∈ lw_lvs (gl_view n) vg | inr _ => True end;
  gl_CreatePV devs n : ∃ r n', lg_CreatePV devs n = Ret r n' ∧
    lw_pvs (gl_view n) ⊆ lw_pvs (gl_view n') ∧ (r = None → ∀ x, x ∈ devs → x ∈ lw_pvs (gl_view n'));
  gl_CreateVG vg devs n : ∃ r n', lg_CreateVG vg devs n = Ret r n' ∧
    lw_pvs (gl_view n) ⊆ lw_pvs (gl_view n') ∧
    match r with inl _ => vg ∈ lw_groups (gl_view n') | inr _ => True end;
  gl_CreateLV vg lv o n : ∃ r n', lg_CreateLinearLV vg lv o n = Ret r n' ∧
    lw_pvs (gl_view n) ⊆ lw_pvs (gl_view n') ∧ lw_groups (gl_view n) ⊆ lw_groups (gl_view n') ∧
    match r with inl _ => lv ∈ lw_lvs (gl_view n') vg | inr _ => True end;
  gl_RemoveVG vg n : ∃ r n', lg_RemoveVG vg n = Ret r n' ∧
    lw_groups (gl_view n') ⊆ lw_groups (gl_view n) ∧ (r = None → vg ∉ lw_groups (gl_view n'));
  gl_RemovePVs devs n : ∃ r n', lg_RemovePVs devs n = Ret r n' ∧
    lw_groups (gl_view n') ⊆ lw_groups (gl_view n) ∧ lw_pvs (gl_view n') ⊆ lw_pvs (gl_view n) ∧
    (r = None → ∀ x, x ∈ devs → x ∉ lw_pvs (gl_view n'));
  gl_disconnect req n : ∃ r n', DisconnectTarget req n = Ret r n' ∧
    lw_groups (gl_view n') ⊆ lw_groups (gl_view n) ∧ lw_pvs (gl_view n') ⊆ lw_pvs (gl_view n);
}.

Section agent_truth.
Context {L : K8sLib} {N K : Type} {G : LvmGroups N} {X : NvmeExec N} {GL : GroupLaws G X}.
Context {KD : KubeClient K AntstorDataControl} {KG : KubeClient K AntstorVolumeGroup}.
Implicit Types (d : AntstorDataControl) (n : N) (lvm : LVMControl).

Definition pvs_at n : gset string := lw_pvs (gl_view n).
Definition groups_at n : gset string := lw_groups (gl_view n).
Definition lvs_at n (vg : string) : gset string := lw_lvs (gl_view n) vg.

(** *** Building *)

(** The nvme command told of a disk of the volume at the recorded path. *)
Definition disk_told (pv : LVMControlPV) : Prop :=
  ∃ n n' l dev, nvme_list n = Ret (inl l) n' ∧ dev ∈ l ∧
    nd_SerialNumber dev = tgt_SerialNum (lpv_TargetInfo pv) ∧ nd_DevicePath dev = lpv_DevPath pv.

Lemma find_devices_spec l pvs pvs' devs : find_devices l pvs = Some (pvs', devs) →
  lpv_TargetInfo <$> pvs' = lpv_TargetInfo <$> pvs ∧ lpv_VolId <$> pvs' = lpv_VolId <$> pvs ∧
  ∀ pv, pv ∈ pvs' → lpv_DevPath pv ∈ devs ∧
    ∃ dev, dev ∈ l ∧ nd_SerialNumber dev = tgt_SerialNum (lpv_TargetInfo pv) ∧ nd_DevicePath dev = lpv_DevPath pv.
Proof.
  revert pvs' devs. induction pvs as [|pv pvs IH]; intros pvs' devs; cbn [find_devices].
  { intros [= <- <-]. split; [done|]. split; [done|]. intros pv Hin. by apply elem_of_nil in Hin. }
  destruct (last (disks_of l pv)) as [path|] eqn:El; [|done].
  destruct (find_devices l pvs) as [[rest ds]|] eqn:Ef; [|done]. intros [= <- <-].
  destruct (IH _ _ eq_refl) as (H1 & H2 & H3). cbn. rewrite H1, H2. split; [done|]. split; [done|].
  assert (path ∈ disks_of l pv) as Hpath.
  { rewrite last_lookup in El. by eapply list_elem_of_lookup_2. }
  intros pv' [->|Hin]%elem_of_cons.
  - cbn. split; [apply elem_of_app; by left|]. unfold disks_of in Hpath.
    apply list_elem_of_fmap in Hpath as (dev & -> & Hdev). apply list_elem_of_In, List.filter_In in Hdev as [Hin Hs].
    apply bool_decide_eq_true in Hs. exists dev. split; [by apply list_elem_of_In|]. split; [exact Hs|done].
  - destruct (H3 _ Hin) as [Hd Hdev]. split; [apply elem_of_app; by right|done].
Qed.

(** A run with an early end: what holds if it goes through. *)
Definition goes {A} (m : go N (option A)) (Q : A → N → Prop) (n : N) : Prop :=
  wpp (λ _, True) m (λ r n', ∀ a, r = Some a → Q a n') n.
Lemma goes_ret {A} (a : A) Q n : Q a n → goes (mret (Some a)) Q n.
Proof. intros H. apply wpp_ret. by intros _ [= <-]. Qed.
Lemma goes_next {A B} (m : go N (option A)) (f : A → go N (option B)) Q n :
  goes m (λ a n', goes (f a) Q n') n → goes (next m f) Q n.
Proof.
  intros H. unfold next. apply wpp_bind. eapply wpp_mono; [exact H|].
  intros [a|] n' Ha; [by apply Ha|by apply wpp_ret].
Qed.
Lemma goes_attempt {A B} (m : go N (result A)) (f : A → go N (option B)) Q n :
  wpp (λ _, True) m (λ r n', ∀ a, r = inl a → goes (f a) Q n') n → goes (attempt m f) Q n.
Proof.
  intros H. unfold attempt. apply wpp_bind. eapply wpp_mono; [exact H|].
  intros [a|e] n' Ha; [by apply Ha|by apply wpp_ret].
Qed.
Lemma goes_mono {A} (m : go N (option A)) (Q Q' : A → N → Prop) n :
  goes m Q n → (∀ a n', Q a n' → Q' a n') → goes m Q' n.
Proof. intros H HQ. eapply wpp_mono; [exact H|]. intros r n' Hr a Ha. by apply HQ, Hr. Qed.
Lemma goes_step {B} (m : go N (option error)) (f : unit → go N (option B)) (Q : B → N → Prop) n r n' :
  m n = Ret r n' → (r = None → goes (f tt) Q n') → goes (attempt (step m) f) Q n.
Proof.
  intros Hrun HQ. apply goes_attempt. unfold step. apply wpp_bind. unfold wpp. rewrite Hrun.
  apply wpp_ret. destruct r as [e|]; [done|]. intros [] _. by apply HQ.
Qed.

Lemma size_pos x (s : MapSet.t) : x ∈ s → (0 < MapSet.Size s)%Z.
Proof.
  intros Hx. unfold MapSet.Size. assert (size s ≠ 0%nat) as Hs; [|lia].
  intros H0%size_empty_inv. set_solver.
Qed.

Lemma setup_pvs_ok devs n :
  goes (setup_pvs devs) (λ _ n', ∀ x, x ∈ devs → x ∈ pvs_at n') n.
Proof.
  unfold setup_pvs. destruct (gl_ListPV n) as (r & n1 & Hrun & Hv & Hr).
  apply goes_attempt. unfold wpp. rewrite Hrun. intros l ->.
  assert (∀ x, x ∈ devs → x ∈ MapSet.Difference (MapSet.FromSlice devs) (MapSet.FromSlice (PvName <$> l)) ∨ x ∈ pvs_at n1) as Hcase.
  { intros x Hx. destruct (decide (x ∈ PvName <$> l)) as [Hin|Hout].
    - right. unfold pvs_at. rewrite Hv. by apply Hr.
    - left. rewrite MapSet.Difference_spec. apply elem_of_difference. by rewrite !MapSet.elem_of_FromSlice. }
  cbv zeta. match goal with |- context [MapSet.Size ?s] => remember s as new eqn:Enew end. clear Enew.
  destruct (decide _) as [_|Hz].
  - destruct (gl_CreatePV (MapSet.Values new) n1) as (r & n2 & Hrun2 & Hsub & Hin).
    eapply goes_step; [exact Hrun2|]. intros Hok. apply goes_ret. intros x Hx.
    destruct (Hcase x Hx) as [Hnew|Hold]; [|by apply Hsub]. apply Hin; [done|]. by apply elem_of_elements.
  - apply goes_ret. intros x Hx. destruct (Hcase x Hx) as [Hnew|]; [|done]. exfalso. apply Hz.
    by eapply size_pos.
Qed.

Lemma existsb_name {A} (name : A → string) (x : string) l :
  existsb (λ item, bool_decide (name item = x)) l = true ↔ x ∈ name <$> l.
Proof.
  rewrite existsb_exists, list_elem_of_fmap. split.
  - intros (a & Hin & Hx%bool_decide_eq_true). exists a. split; [done|by apply list_elem_of_In].
  - intros (a & -> & Hin). exists a. split; [by apply list_elem_of_In|]. by apply bool_decide_eq_true.
Qed.

Lemma setup_vg_ok vg devs n :
  goes (setup_vg vg devs) (λ _ n', pvs_at n ⊆ pvs_at n' ∧ vg ∈ groups_at n') n.
Proof.
  unfold setup_vg. destruct (gl_ListVG n) as (r & n1 & Hrun & Hv & Hr).
  apply goes_attempt. unfold wpp. rewrite Hrun. intros l ->. unfold pvs_at, groups_at. destruct (existsb _ l) eqn:E.
  - apply existsb_name in E. apply goes_ret. rewrite Hv. split; [done|by apply Hr].
  - destruct (gl_CreateVG vg devs n1) as (r & n2 & Hrun2 & Hsub & Hin).
    apply goes_attempt. unfold wpp. rewrite Hrun2. intros v ->. apply goes_ret. rewrite <- Hv. by split.
Qed.
Lemma setup_lv_ok vg lv n :
  goes (setup_lv vg lv) (λ _ n', pvs_at n ⊆ pvs_at n' ∧ groups_at n ⊆ groups_at n' ∧ lv ∈ lvs_at n' vg) n.
Proof.
  unfold setup_lv. destruct (gl_ListLV vg n) as (r & n1 & Hrun & Hv & Hr).
  apply goes_attempt. unfold wpp. rewrite Hrun. intros l ->. unfold pvs_at, groups_at, lvs_at. destruct (existsb _ l) eqn:E.
  - apply existsb_name in E. apply goes_ret. rewrite Hv. split; [done|]. split; [done|by apply Hr].
  - destruct (gl_CreateLV vg lv {| lo_Size := 0; lo_LogicSize := "100%FREE" |} n1) as (r & n2 & Hrun2 & Hp & Hg & Hin).
    apply goes_attempt. unfold wpp. rewrite Hrun2. intros v ->. apply goes_ret. by rewrite <- Hv.
Qed.

(** The device is there. *)
Record built_on (pvs : list LVMControlPV) lvm n : Prop := {
  bo_targets : lpv_TargetInfo <$> lvmc_PVs lvm = lpv_TargetInfo <$> pvs;
  bo_volumes : lpv_VolId <$> lvmc_PVs lvm = lpv_VolId <$> pvs;
  bo_disks : ∀ pv, pv ∈ lvmc_PVs lvm → disk_told pv ∧ lpv_DevPath pv ∈ pvs_at n;
  bo_group : lvmc_VG lvm ∈ groups_at n;
  bo_lv : lvmc_LVol lvm ∈ lvs_at n (lvmc_VG lvm);
}.
Lemma setup_lvm_ok vg lv pvs n :
  goes (setup_lvm vg lv pvs) (λ lvm n', lvmc_VG lvm = vg ∧ lvmc_LVol lvm = lv ∧ built_on pvs lvm n') n.
Proof.
  unfold setup_lvm. apply goes_attempt, wpp_any; [|done]. intros r n1 _ subsys ->.
  apply goes_next, wpp_any; [|done]. intros r n2 _ [] ->.
  apply goes_attempt, wpp_any; [|done]. intros r n3 Hlist disks ->.
  destruct (find_devices disks pvs) as [[pvs' devs]|] eqn:Ef; [|by apply wpp_ret].
  destruct (find_devices_spec _ _ _ _ Ef) as (H1 & H2 & H3).
  apply goes_next. eapply goes_mono; [apply setup_pvs_ok|]. intros [] n4 Hpvs.
  apply goes_next. eapply goes_mono; [apply setup_vg_ok|]. intros [] n5 [Hsub5 Hvg].
  apply goes_next. eapply goes_mono; [apply setup_lv_ok|]. intros [] n6 (Hsub6 & Hvg6 & Hlv).
  apply goes_ret. split; [done|]. split; [done|]. split; try done; [|by apply Hvg6].
  cbn. intros pv Hin. destruct (H3 pv Hin) as [Hdev (dev & Hd & Hs & Hp)]. split.
  - exists n2, n3, disks, dev. by split.
  - by apply Hsub6, Hsub5, Hpvs.
Qed.

(** *** Taking down *)

(** The list command that this very node answers with an error: its own listing of
    the groups, and the listing of the physical volumes where the removal of the
    group has left it. *)
Definition groups_untold n : Prop := ∃ e n', lg_ListVG n = Ret (inr e) n'.
Definition pvs_untold n : Prop := ∃ e n', lg_ListPV n = Ret (inr e) n'.
(** The device is gone from [n]; what the request, which found [n0], was not told of
    may be left. *)
Definition gone_from lvm (n0 n : N) : Prop :=
  (lvmc_VG lvm ≠ "" → lvmc_VG lvm ∉ groups_at n ∨ groups_untold n0) ∧
  ((∀ pv, pv ∈ lvmc_PVs lvm → lpv_DevPath pv ∉ pvs_at n) ∨
   ∃ n1, remove_vg (lvmc_VG lvm) n0 = Ret (Some tt) n1 ∧ pvs_untold n1).

Lemma remove_vg_ok vg n :
  goes (remove_vg vg) (λ _ n', remove_vg vg n = Ret (Some tt) n' ∧ (vg ≠ "" → vg ∉ groups_at n' ∨ groups_untold n)) n.
Proof.
  assert (goes (remove_vg vg) (λ _ n', vg ≠ "" → vg ∉ groups_at n' ∨ groups_untold n) n) as H.
  { unfold remove_vg. destruct (decide _) as [Hne|He]; [|by apply goes_ret].
    unfold goes. apply wpp_bind. destruct (gl_ListVG n) as (r & n1 & Hrun & Hv & Hr). unfold wpp at 1. rewrite Hrun.
    destruct r as [l|e]; [|apply goes_ret; intros _; right; by exists e, n1].
    cbv zeta. destruct (existsb _ l) eqn:E.
    + destruct (gl_RemoveVG vg n1) as (r & n2 & Hrun2 & Hsub & Hgone).
      eapply goes_step; [exact Hrun2|]. intros Hok. apply goes_ret. intros _. left. by apply Hgone.
    + apply goes_ret. intros _. left. unfold groups_at. rewrite Hv. intros Hin%Hr%existsb_name. by rewrite Hin in E. }
  unfold goes, wpp in *. destruct (remove_vg vg n) as [a n'|why n']; [|done]. intros [] ->. split; [done|by apply (H tt)].
Qed.
Lemma remove_pvs_ok devs n :
  goes (remove_pvs devs) (λ _ n', groups_at n' ⊆ groups_at n ∧
    ((∀ x, x ∈ devs → x ∉ pvs_at n') ∨ pvs_untold n)) n.
Proof.
  unfold remove_pvs, goes. apply wpp_bind. destruct (gl_ListPV n) as (r & n1 & Hrun & Hv & Hr). unfold wpp at 1. rewrite Hrun.
  assert (∀ l, r = inl l → ∀ x, x ∈ devs → x ∈ pvs_at n1 →
            x ∈ MapSet.Intersect (MapSet.FromSlice devs) (MapSet.FromSlice (PvName <$> l))) as Hcase.
  { intros l -> x Hx Hin. rewrite MapSet.Intersect_spec. apply elem_of_intersection. rewrite !MapSet.elem_of_FromSlice.
    split; [done|]. apply Hr. by rewrite <- Hv. }
  cbv zeta. destruct (decide _) as [_|Hz].
  - match goal with |- context [MapSet.Values ?s] => destruct (gl_RemovePVs (MapSet.Values s) n1) as (r2 & n2 & Hrun2 & Hg & Hp & Hgone) end.
    eapply goes_step; [exact Hrun2|]. intros Hok. apply goes_ret. split.
    { unfold groups_at. by rewrite <- Hv. }
    destruct r as [l|e]; [|right; by exists e, n1]. left. intros x Hx Hin.
    apply (Hgone Hok x); [|done]. apply elem_of_elements, (Hcase l); [done|done|]. by apply Hp.
  - apply goes_ret. split; [unfold groups_at; by rewrite Hv|].
    destruct r as [l|e]; [|right; by exists e, n1]. left. intros x Hx Hin. apply Hz.
    by eapply size_pos, (Hcase l).
Qed.
Lemma disconnect_all_shrinks pvs n : ∃ n', disconnect_all pvs n = Ret tt n' ∧
  groups_at n' ⊆ groups_at n ∧ pvs_at n' ⊆ pvs_at n.
Proof.
  revert n. induction pvs as [|pv pvs IH]; intros n; cbn [disconnect_all]; [by exists n|].
  unfold mbind, go_mbind, go_bind. destruct (decide _) as [_|_].
  - destruct (gl_disconnect {| dtr_NQN := tgt_SubsysNQN (lpv_TargetInfo pv); dtr_TrAddr := ""; dtr_SvcID := "" |} n)
      as (r & n1 & -> & Hg & Hp). destruct (IH n1) as (n2 & H2 & Hg2 & Hp2). exists n2. split; [done|].
    unfold groups_at, pvs_at in *. set_solver.
  - apply IH.
Qed.

(** *** One request *)

Definition agent_group_read d (item : EntityIdentity) (g : AntstorVolumeGroup) : Prop :=
  ∃ k k', kGet (T := AntstorVolumeGroup) (KubeClient := KG) (om_Namespace (dc_meta d)) (ei_Name item) k = Ret (inl g) k'.
(** The targets a group tells of, with their volumes. *)
Definition targets_of (g : AntstorVolumeGroup) (pvs : list LVMControlPV) : Prop :=
  ∀ pv, pv ∈ pvs ↔ ∃ i st t m, vg_statuses g !! i = Some st ∧ vts_SpdkTarget st = Some t ∧ vg_volumes g !! i = Some m ∧
    pv = {| lpv_DevPath := ""; lpv_VolId := vm_VolId m; lpv_TargetInfo := t |}.
Definition collected d (pvs : list LVMControlPV) : Prop :=
  ∃ parts, pvs = concat parts ∧ Forall2 (λ item part, ∃ g, agent_group_read d item g ∧
    vg_status g = VolumeStatusReady ∧ targets_of g part) (dc_groups d) parts.
Definition own_pvs d : list LVMControlPV := match dcs_LVM (dc_Spec d) with Some lvm => lvmc_PVs lvm | None => [] end.

(** The log of a request, the newest entry first, with the node it finds and the one
    it leaves. *)
Inductive dc_synced d (n0 n : N) : list (Write AntstorDataControl) → Prop :=
| ds_nothing : dc_synced d n0 n []
| ds_built pvs lvm l : om_DeletionTimestamp (dc_meta d) = None → dc_status d ≠ VolumeStatusReady →
    dcs_EngineType (dc_Spec d) = PoolModeKernelLVM → KernelLVolFinalizer ∉ dc_finalizers d →
    collected d pvs → lvmc_VG lvm = dc_vgName d → lvmc_LVol lvm = dc_lvName d → built_on (own_pvs d ++ pvs) lvm n →
    l = [WUpdate (dc_built lvm d)] ∨ l = [WUpdateStatus (dc_set_ready (dc_built lvm d)); WUpdate (dc_built lvm d)] →
    dc_synced d n0 n l
| ds_ready lvm : om_DeletionTimestamp (dc_meta d) = None → KernelLVolFinalizer ∈ dc_finalizers d →
    dcs_LVM (dc_Spec d) = Some lvm → lvmc_LVol lvm ≠ "" → (∃ pvs, collected d pvs) →
    dc_synced d n0 n [WUpdateStatus (dc_set_ready d)]
| ds_removed lvm f1 f2 : is_Some (om_DeletionTimestamp (dc_meta d)) → dcs_LVM (dc_Spec d) = Some lvm →
    dc_finalizers d = f1 ++ KernelLVolFinalizer :: f2 → KernelLVolFinalizer ∉ f1 →
    gone_from lvm n0 n →
    dc_synced d n0 n [WUpdate (dc_set_finalizers (f1 ++ f2) d)].

Abbreviation RK := (N * Logged K (Write AntstorDataControl))%type.
#[local] Instance recAD : KubeClient (Logged K (Write AntstorDataControl)) AntstorDataControl := Recording KD id.
#[local] Instance recAG : KubeClient (Logged K (Write AntstorDataControl)) AntstorVolumeGroup := client_fst KG.

(** The node as the request finds it. *)
Context (n0 : N).
Definition synced_at d (st : RK) : Prop := dc_synced d n0 st.1 st.2.2.
Abbreviation sp d := (wpp (synced_at d)).
Lemma dh_quiet d n k : synced_at d (n, (k, [])).
Proof. apply ds_nothing. Qed.
Lemma dh_node {A} d (m : go N A) Q n k : wpp (λ _, True) m (λ a n', Q a (n', (k, []))) n →
  sp d (on_fst m : go RK A) Q (n, (k, [])).
Proof. intros H. eapply wpp_on_fst; [exact H|]. intros. apply dh_quiet. Qed.
Lemma dh_update d o (Q : result AntstorDataControl → RK → Prop) n k l :
  (∀ k', synced_at d (n, (k', WUpdate o :: l))) → (∀ r k', Q r (n, (k', WUpdate o :: l))) →
  sp d (on_snd (kUpdate o)) Q (n, (k, l)).
Proof.
  intros Hs HQ. unfold wpp, on_snd. cbn. rewrite logged_run. destruct (kUpdate o k); [apply HQ|apply Hs].
Qed.
Lemma dh_update_status d o (Q : result AntstorDataControl → RK → Prop) n k l :
  (∀ k', synced_at d (n, (k', WUpdateStatus o :: l))) → (∀ r k', Q r (n, (k', WUpdateStatus o :: l))) →
  sp d (on_snd (kUpdateStatus o)) Q (n, (k, l)).
Proof.
  intros Hs HQ. unfold wpp, on_snd. cbn. rewrite logged_run. destruct (kUpdateStatus o k); [apply HQ|apply Hs].
Qed.

Lemma group_pvs_run {T} idx items vols (s : T) : (∃ why, group_pvs idx items vols s = Panic why s) ∨
  ∃ pvs, group_pvs idx items vols s = Ret pvs s ∧
    ∀ pv, pv ∈ pvs ↔ ∃ i st t m, items !! i = Some st ∧ vts_SpdkTarget st = Some t ∧ vols !! (idx + i)%nat = Some m ∧
      pv = {| lpv_DevPath := ""; lpv_VolId := vm_VolId m; lpv_TargetInfo := t |}.
Proof.
  revert idx. induction items as [|item items IH]; intros idx; cbn [group_pvs].
  { right. exists []. split; [done|]. intros pv. rewrite elem_of_nil. split; [done|]. by intros (i & st & t & m & H & _). }
  destruct (vts_SpdkTarget item) as [t|] eqn:Et; [destruct (vols !! idx) as [m|] eqn:Em|].
  - unfold mbind, go_mbind, go_bind. destruct (IH (S idx)) as [[why ->]|(pvs & -> & Hpvs)]; [left; by exists why|right].
    eexists. split; [done|]. intros pv. rewrite elem_of_cons, Hpvs. split.
    + intros [->|(i & st & t' & m' & H1 & H2 & H3 & H4)].
      * exists 0%nat, item, t, m. by rewrite Nat.add_0_r.
      * exists (S i), st, t', m'. by rewrite Nat.add_succ_r.
    + intros ([|i] & st & t' & m' & H1 & H2 & H3 & H4); [left|right].
      * injection H1 as <-. rewrite Nat.add_0_r in H3. congruence.
      * exists i, st, t', m'. by rewrite Nat.add_succ_r in H3.
  - left. eauto.
  - destruct (IH (S idx)) as [[why ->]|(pvs & -> & Hpvs)]; [left; by exists why|right].
    exists pvs. split; [done|]. intros pv. rewrite Hpvs. split.
    + intros (i & st & t' & m' & H1 & H2 & H3 & H4). exists (S i), st, t', m'. by rewrite Nat.add_succ_r.
    + intros ([|i] & st & t' & m' & H1 & H2 & H3 & H4); [injection H1 as <-; congruence|].
      exists i, st, t', m'. by rewrite Nat.add_succ_r in H3.
Qed.

Lemma collect_pvs_ok d l n k :
  sp d (on_snd (collect_pvs (om_Namespace (dc_meta d)) l) : go RK _)
    (λ r st, st.1 = n ∧ st.2.2 = [] ∧ ∀ pvs, r = Some pvs → ∃ parts, pvs = concat parts ∧
       Forall2 (λ item part, ∃ g, agent_group_read d item g ∧ vg_status g = VolumeStatusReady ∧ targets_of g part) l parts)
    (n, (k, [])).
Proof.
  apply (wpp_on_snd _ (λ kk, kk.2 = [])); [|intros [k' l'] Hl; cbn in Hl; subst l'; apply dh_quiet].
  revert k. induction l as [|item l IH]; intros k; cbn [collect_pvs].
  { apply wpp_ret. split; [done|]. split; [done|]. intros pvs [= <-]. exists []. split; [done|constructor]. }
  apply wpp_bind. apply (wpp_on_fst _ (λ _, True)); [|done]. apply wpp_any; [|done]. intros [g|e] k1 Hg; [|by apply wpp_ret].
  destruct (decide _) as [_|Hst]; [by apply wpp_ret|]. apply dec_stable in Hst.
  apply wpp_bind. unfold wpp at 1.
  match goal with |- context [group_pvs ?i ?a ?b ?s] =>
    destruct (group_pvs_run (T := Logged K (Write AntstorDataControl)) i a b s) as [[why ->]|(part & -> & Hpart)]; [done|] end.
  cbn beta iota. apply wpp_bind. eapply wpp_mono; [apply IH|]. cbn. intros rest [k2 l2] (_ & Hl2 & Hrest). cbn in Hl2. subst l2.
  apply (wpp_ret (λ _, True)). split; [done|]. split; [done|]. intros pvs Hp. destruct rest as [rest|]; [|done]. injection Hp as <-.
  destruct (Hrest rest eq_refl) as (parts & -> & Hf). exists (part :: parts). split; [done|].
  constructor; [|done]. exists g. split; [by exists k, k1|]. by split.
Qed.

Lemma dc_build_told d pvs n k : om_DeletionTimestamp (dc_meta d) = None → dc_status d ≠ VolumeStatusReady →
  dcs_EngineType (dc_Spec d) = PoolModeKernelLVM → collected d pvs →
  sp d (dc_build (own_pvs d ++ pvs) d) (λ r st, synced_at d st ∧ ∀ d1, r = Some d1 →
    (d1 = d ∧ KernelLVolFinalizer ∈ dc_finalizers d ∧ st.2.2 = []) ∨
    ∃ lvm, d1 = dc_built lvm d ∧ KernelLVolFinalizer ∉ dc_finalizers d ∧ lvmc_VG lvm = dc_vgName d ∧
      lvmc_LVol lvm = dc_lvName d ∧ built_on (own_pvs d ++ pvs) lvm st.1 ∧ st.2.2 = [WUpdate d1]) (n, (k, [])).
Proof.
  intros Hdel Hst Het Hcol. unfold dc_build. destruct (InSliceString _ _) eqn:Ef.
  { apply InSliceString_spec in Ef. apply (wpp_ret (synced_at d)). split; [apply dh_quiet|]. intros d1 [= <-]. by left. }
  apply InSliceString_false in Ef. unfold next. apply wpp_bind, dh_node.
  eapply wpp_mono; [apply setup_lvm_ok|]. intros r n1 Hr. destruct r as [lvm|]; [|apply (wpp_ret (synced_at d)); split; [apply dh_quiet|done]].
  destruct (Hr lvm eq_refl) as (Hvg & Hlv & Hb). unfold attempt. apply wpp_bind, dh_update.
  - intros k'. eapply ds_built; eauto.
  - intros r' k'. assert (synced_at d (n1, (k', [WUpdate (dc_built lvm d)]))) as Hok by (eapply ds_built; eauto).
    destruct r' as [o|e]; apply (wpp_ret (synced_at d)); (split; [exact Hok|]); [|done]. intros d1 [= <-]. right. exists lvm. by split_and!.
Qed.

Lemma dc_set_up_told d n k : om_DeletionTimestamp (dc_meta d) = None →
  sp d (dc_set_up d) (λ _, synced_at d) (n, (k, [])).
Proof.
  intros Hdel. unfold dc_set_up. destruct (decide _) as [_|Hst]; [apply wpp_ret, dh_quiet|].
  destruct (decide _) as [_|_]; [apply wpp_ret, dh_quiet|].
  apply wpp_bind. eapply wpp_mono; [apply collect_pvs_ok|]. intros pvs [n1 [k1 l1]] (Hn & Hl & Hpvs). cbn in Hn, Hl. subst n1 l1.
  destruct pvs as [pvs|]; [|apply wpp_ret, dh_quiet]. assert (collected d pvs) as Hcol by (by apply Hpvs).
  destruct (decide _) as [Het|_]; [|apply wpp_ret, dh_quiet].
  apply wpp_bind. eapply wpp_mono; [by apply dc_build_told|]. intros r [n2 [k2 l2]] [Hok Hr].
  destruct r as [d1|]; [|apply wpp_ret, Hok]. specialize (Hr d1 eq_refl).
  match goal with |- context [if ?c then _ else _] => destruct c eqn:Ec end; [|apply wpp_ret, Hok].
  assert (∀ k', synced_at d (n2, (k', WUpdateStatus (dc_set_ready d1) :: l2))) as Hready.
  { intros k'. destruct Hr as [(-> & Hf & Hl2)|(lvm & -> & Hf & Hvg & Hlv & Hb & Hl2)]; cbn in Hl2; subst l2.
    - destruct (dcs_LVM (dc_Spec d)) as [lvm|] eqn:El; [|done]. apply bool_decide_eq_true in Ec.
      eapply ds_ready; eauto.
    - eapply ds_built; eauto. }
  apply wpp_bind, dh_update_status; [exact Hready|]. intros [o|e] k'; apply wpp_ret, Hready.
Qed.

Lemma cut_finalizer_spec x l f : cut_finalizer x l = Some f → x ∈ l → ∃ f1 f2, l = f1 ++ x :: f2 ∧ x ∉ f1 ∧ f = f1 ++ f2.
Proof.
  unfold cut_finalizer. destruct l as [|y l]; [done|]. intros [= <-] Hin.
  destruct (remove_first_spec x (y :: l) Hin) as (f1 & f2 & H1 & H2 & H3). eauto.
Qed.

Lemma dc_take_down_told d k : is_Some (om_DeletionTimestamp (dc_meta d)) →
  sp d (dc_take_down d) (λ _, synced_at d) (n0, (k, [])).
Proof.
  intros Hdel. unfold dc_take_down. destruct (dcs_LVM (dc_Spec d)) as [lvm|] eqn:El; [|apply wpp_ret, dh_quiet].
  destruct (decide _) as [_|_]; [|apply wpp_ret, dh_quiet]. apply wpp_bind, dh_node.
  apply (wpp_mono _ _ (λ r n', ∀ a : unit, r = Some a → gone_from lvm n0 n')).
  { apply goes_next. eapply goes_mono; [apply remove_vg_ok|]. intros [] n1 [Hrun1 Hvg].
    eapply goes_mono; [apply remove_pvs_ok|]. intros [] n2 [Hsub Hpv]. split.
    - intros Hne. destruct (Hvg Hne) as [Hout|]; [left|by right]. intros Hin. by apply Hout, Hsub.
    - destruct Hpv as [Hpv|Hpv]; [left|right; by exists n1]. intros pv Hin. apply Hpv. apply list_elem_of_fmap. by exists pv. }
  intros r n1 Hr. destruct r as [[]|]; [|apply wpp_ret, dh_quiet]. specialize (Hr tt eq_refl).
  apply wpp_bind, dh_node, wpp_returns. destruct (disconnect_all_shrinks (lvmc_PVs lvm) n1) as (n2 & Hrun & Hg & Hp).
  exists tt, n2. split; [exact Hrun|]. assert (gone_from lvm n0 n2) as Hgone.
  { destruct Hr as [H1 H2]. split.
    - intros Hne. destruct (H1 Hne) as [Hout|]; [left|by right]. intros Hin. by apply Hout, Hg.
    - destruct H2 as [H2|]; [left|by right]. intros pv Hin Hpv. by apply (H2 pv Hin), Hp. }
  destruct (cut_finalizer _ _) as [f|] eqn:Ecut; [|apply dh_quiet].
  destruct (InSliceString _ _) eqn:Ef; [|apply wpp_ret, dh_quiet]. apply InSliceString_spec in Ef.
  destruct (cut_finalizer_spec _ _ _ Ecut Ef) as (f1 & f2 & Hf & Hn & ->).
  assert (∀ k', synced_at d (n2, (k', [WUpdate (dc_set_finalizers (f1 ++ f2) d)]))) as Hok.
  { intros k'. by eapply ds_removed. }
  apply wpp_bind, dh_update; [exact Hok|]. intros [o|e] k'; apply wpp_ret, Hok.
Qed.

(** The node and the log of a request. *)
Definition dc_run (req : Request) n (k : K) : N * list (Write AntstorDataControl) :=
  let st := run_state (dc_agent_Reconcile req (n, (k, []))) in (st.1, st.2.2).

(** C20. What the agent records of a data control is true of its node, whatever the
    server answers and however the request ends: when the device is recorded, the
    volume group and the logical volume of the recorded names are there, with a
    physical volume on a disk of every volume of every group, as the groups, read
    as Ready, name them; the control is only reported Ready when its device is
    recorded. The finalizer of a deleted control only goes when the volume group is
    gone from the node, or this request's own listing of the groups failed, and when
    the physical volumes are gone, or its own listing of them failed: the code takes
    a listing that failed for an empty one. *)
Theorem datacontrol_truthful req k :
  let '(n', l) := dc_run req n0 k in
  l = [] ∨
  ∃ d k', kGet (T := AntstorDataControl) (KubeClient := KD) (rq_Namespace req) (rq_Name req) k = Ret (inl d) k' ∧
    dc_synced d n0 n' l.
Proof.
  unfold dc_run. destruct (kGet (KubeClient := KD) (rq_Namespace req) (rq_Name req) k) as [[d|e] k1|why k1] eqn:Eg.
  2,3: left; unfold dc_agent_Reconcile, mbind, go_mbind, go_bind; cbn; unfold on_snd, on_fst; cbn; by rewrite Eg.
  right. exists d, k1. split; [done|].
  match goal with |- dc_synced d n0 (run_state ?o).1 _ => change (synced_at d (run_state o)) end.
  unfold dc_agent_Reconcile.
  assert (∀ f : result AntstorDataControl → go RK (CtrlResult * option error),
    run_state ((r ← on_snd (kGet (T := AntstorDataControl) (rq_Namespace req) (rq_Name req)); f r) (n0, (k, []))) =
    run_state (f (inl d) (n0, (k1, [])))) as ->.
  { intros f. unfold mbind, go_mbind, go_bind. cbn. unfold on_snd, on_fst. cbn. by rewrite Eg. }
  apply wpp_state. destruct (om_DeletionTimestamp (dc_meta d)) as [t|] eqn:Ed; cbn [opt_is_some].
  - apply dc_take_down_told. by rewrite Ed.
  - by apply dc_set_up_told.
Qed.
End agent_truth.

(** ** A finalizer released too early *)

Section blind.
Context {N K : Type} {G : LvmGroups N} {X : NvmeExec N} {GL : GroupLaws G X}.
Context {KD : KubeClient K AntstorDataControl}.

Lemma disconnect_all_keeps pvs n :
  (∀ req n n' r, DisconnectTarget req n = Ret r n' → groups_at n' = groups_at n) →
  ∃ n', disconnect_all pvs n = Ret tt n' ∧ groups_at n' = groups_at n.
Proof.
  intros Hd. revert n. induction pvs as [|pv pvs IH]; intros n; cbn [disconnect_all]; [by exists n|].
  unfold mbind, go_mbind, go_bind. destruct (decide _) as [_|_]; [|apply IH].
  destruct (gl_disconnect {| dtr_NQN := tgt_SubsysNQN (lpv_TargetInfo pv); dtr_TrAddr := ""; dtr_SvcID := "" |} n)
    as (r & n1 & Hrun & _). rewrite Hrun. destruct (IH n1) as (n2 & H2 & Hg). exists n2. split; [done|].
  by rewrite Hg, (Hd _ _ _ _ Hrun).
Qed.

(** Two list commands that fail are enough to lose a device: their errors are
    only logged and taken for empty lists, so nothing is removed, and the
    finalizer of the deleted control goes although its volume group is still on
    the node. *)
Lemma take_down_blind (d : AntstorDataControl) lvm (n n1 n2 : N) (k k1 : K) e1 e2 f1 f2 o :
  dcs_LVM (dc_Spec d) = Some lvm → dcs_EngineType (dc_Spec d) = PoolModeKernelLVM →
  lvmc_VG lvm ≠ "" → lvmc_VG lvm ∈ groups_at n →
  lg_ListVG n = Ret (inr e1) n1 → lg_ListPV n1 = Ret (inr e2) n2 →
  (∀ req n n' r, DisconnectTarget req n = Ret r n' → groups_at n' = groups_at n) →
  dc_finalizers d = f1 ++ KernelLVolFinalizer :: f2 → KernelLVolFinalizer ∉ f1 →
  kUpdate (dc_set_finalizers (f1 ++ f2) d) k = Ret (inl o) k1 →
  ∃ n', dc_take_down d (n, k) = Ret (CtrlResult_zero, None) (n', k1) ∧ lvmc_VG lvm ∈ groups_at n'.
Proof.
  intros Hlvm Het Hne Hin Hvg Hpv Hd Hf Hn Hup.
  assert (groups_at n2 = groups_at n) as Hsame.
  { destruct (gl_ListVG n) as (r1 & m1 & H1 & Hv1 & _). destruct (gl_ListPV n1) as (r2 & m2 & H2 & Hv2 & _).
    rewrite Hvg in H1. rewrite Hpv in H2. injection H1 as _ <-. injection H2 as _ <-.
    unfold groups_at. by rewrite Hv2, Hv1. }
  destruct (disconnect_all_keeps (lvmc_PVs lvm) n2 Hd) as (n3 & Hdis & Hg3).
  exists n3. split; [|by rewrite Hg3, Hsame].
  unfold dc_take_down. rewrite Hlvm, decide_True by done.
  assert (remove_vg (lvmc_VG lvm) n = Ret (Some tt) n1) as Hrv.
  { unfold remove_vg. rewrite decide_True by done. unfold mbind, go_mbind, go_bind. by rewrite Hvg. }
  assert (remove_pvs (lpv_DevPath <$> lvmc_PVs lvm) n1 = Ret (Some tt) n2) as Hrp.
  { unfold remove_pvs, mbind, go_mbind, go_bind. rewrite Hpv. rewrite MapSet.Intersect_spec. cbv zeta.
    rewrite decide_False; [done|]. unfold MapSet.Size.
    assert (MapSet.FromSlice (lpv_DevPath <$> lvmc_PVs lvm) ∩ MapSet.FromSlice (PvName <$> []) = ∅) as ->; [|done].
    cbn. unfold MapSet.FromSlice, MapSet.NewEmptySet. cbn. set_solver. }
  unfold next, mbind, go_mbind, go_bind, on_fst at 1. cbn [fst snd]. rewrite Hrv, Hrp.
  unfold on_fst. cbn [fst snd]. rewrite Hdis.
  assert (InSliceString KernelLVolFinalizer (dc_finalizers d) = true) as Hc.
  { apply InSliceString_spec. rewrite Hf. apply elem_of_app. right. left. }
  assert (cut_finalizer KernelLVolFinalizer (dc_finalizers d) = Some (f1 ++ f2)) as ->.
  { unfold cut_finalizer. destruct (dc_finalizers d) as [|y l] eqn:El; [by destruct f1|].
    apply InSliceString_spec in Hc. destruct (remove_first_spec _ _ Hc) as (g1 & g2 & H1 & H2 & H3).
    rewrite H3. f_equal. rewrite H1 in Hf. clear -Hf Hn H2. revert g1 H2 Hf. induction f1 as [|x f1 IH]; intros [|z g1] H2 Hf.
    - by injection Hf as ->.
    - injection Hf as -> _. destruct H2. left.
    - injection Hf as <- _. destruct Hn. left.
    - injection Hf as -> Hf. cbn. f_equal. apply IH; [|intros ?; apply H2; by right|done]. intros ?. apply Hn. by right. }
  rewrite Hc. unfold on_snd. cbn [fst snd]. by rewrite Hup.
Qed.
End blind.

(** ** A host in memory *)

Module HostExample.
#[local] Existing Instance NanoLib.
Record MemHost := {
  mh_pvs : list string; mh_groups : list string; mh_lvs : list (string * string);
  mh_disks : list NvmeDevice; mh_broken : bool }.
Definition set_pvs l h := {| mh_pvs := l; mh_groups := mh_groups h; mh_lvs := mh_lvs h;
  mh_disks := mh_disks h; mh_broken := mh_broken h |}.
Definition set_groups l h := {| mh_pvs := mh_pvs h; mh_groups := l; mh_lvs := mh_lvs h;
  mh_disks := mh_disks h; mh_broken := mh_broken h |}.
Definition set_lvs l h := {| mh_pvs := mh_pvs h; mh_groups := mh_groups h; mh_lvs := l;
  mh_disks := mh_disks h; mh_broken := mh_broken h |}.
Definition without (l gone : list string) : list string := filter (λ x, x ∉ gone) l.
Definition pv_named (x : string) : PV := {| PvName := x; PV_VgName := ""; PvFmt := ""; PvSize := ""; PvFree := "" |}.
Definition vg_named (x : string) : VG :=
  {| VG_Name := x; VG_UUID := ""; VG_TotalByte := 0; VG_FreeByte := 0; VG_PVCount := 0; VG_ExtendCount := 0; VG_ExtendSize := 0 |}.
Definition listing {A} (h : MemHost) (l : list A) : result (list A) :=
  if mh_broken h then inr (ErrNew "broken") else inl l.
#[export] Instance host_lvm : LvmGroups MemHost := {|
  lg_ListPV := λ h, Ret (listing h (pv_named <$> mh_pvs h)) h;
  lg_CreatePV devs := λ h, Ret None (set_pvs (mh_pvs h ++ devs) h);
  lg_RemovePVs devs := λ h, Ret None (set_pvs (without (mh_pvs h) devs) h);
  lg_ListVG := λ h, Ret (listing h (vg_named <$> mh_groups h)) h;
  lg_CreateVG vg _ := λ h, Ret (inl (vg_named vg)) (set_groups (mh_groups h ++ [vg]) h);
  lg_RemoveVG vg := λ h, Ret None (set_groups (without (mh_groups h) [vg]) h);
  lg_ListLVInVG vg := λ h, Ret (listing h ((λ p, new_lv vg p.2 0) <$> filter (λ p, p.1 = vg) (mh_lvs h))) h;
  lg_CreateLinearLV vg lv _ := λ h, Ret (inl (new_lv vg lv 0)) (set_lvs (mh_lvs h ++ [(vg, lv)]) h);
|}.
#[export] Instance host_nvme : NvmeExec MemHost := {|
  nvme_list := λ h, Ret (inl (mh_disks h)) h;
  nvme_list_subsys := mret (inl []);
  nvme_run _ := mret None;
|}.
Definition view (h : MemHost) : LvmView := {|
  lw_pvs := list_to_set (mh_pvs h); lw_groups := list_to_set (mh_groups h);
  lw_lvs vg := list_to_set (snd <$> filter (λ p, p.1 = vg) (mh_lvs h)) |}.
Lemma names {A} (name : A → string) (mk : string → A) l x : (∀ y, name (mk y) = y) → x ∈ name <$> (mk <$> l) ↔ x ∈ (list_to_set l : gset string).
Proof.
  intros H. rewrite elem_of_list_to_set, <- list_fmap_compose. assert (name ∘ mk <$> l = l) as ->; [|done].
  induction l as [|y l IH]; [done|]. cbn. by rewrite H, IH.
Qed.
Lemma elem_without l gone x : x ∈ (list_to_set (without l gone) : gset string) ↔ x ∉ gone ∧ x ∈ l.
Proof. unfold without. by rewrite elem_of_list_to_set, list_elem_of_filter. Qed.
#[export] Instance host_laws : GroupLaws host_lvm host_nvme.
Proof.
  refine {| gl_view := view |}; intros *.
  - do 2 eexists. split; [done|]. split; [done|]. unfold listing. destruct (mh_broken n); [done|]. intros x. by apply names.
  - do 2 eexists. split; [done|]. split; [done|]. unfold listing. destruct (mh_broken n); [done|]. intros x. by apply names.
  - do 2 eexists. split; [done|]. split; [done|]. unfold listing. destruct (mh_broken n); [done|]. intros x. cbn.
    rewrite elem_of_list_to_set, <- list_fmap_compose. done.
  - do 2 eexists. split; [done|]. cbn. split; [|intros _ x Hx]; set_solver.
  - do 2 eexists. split; [done|]. cbn. split; [done|]. set_solver.
  - do 2 eexists. split; [done|]. cbn. split; [done|]. split; [done|].
    rewrite filter_app, fmap_app. cbn. rewrite decide_True by done. set_solver.
  - do 2 eexists. split; [done|]. cbn. split; [intros x; rewrite elem_without, elem_of_list_to_set; tauto|].
    intros _. rewrite elem_without. intros [H _]. apply H. left.
  - do 2 eexists. split; [done|]. cbn. split; [done|]. split; [intros x; rewrite elem_without, elem_of_list_to_set; tauto|].
    intros _ x Hx. rewrite elem_without. tauto.
  - unfold DisconnectTarget. destruct (decide _); do 2 eexists; (split; [reflexivity|]); done.
Defined.

(** A group of two volumes on targets, the host with their disks, and servers
    that hold the control and its group and refuse or accept every update. *)
Definition target (serial : string) : SpdkTarget :=
  {| tgt_BdevName := ""; tgt_SubsysNQN := "nqn-" +:+ serial; tgt_SvcID := "4420"; tgt_SerialNum := serial;
     tgt_TransType := "TCP"; tgt_NSUUID := ""; tgt_Address := "10.0.0.1"; tgt_AddrFam := "" |}.
Definition member (name : string) : VolumeMeta := {|
  vm_VolId := {| ei_Namespace := "obnvmf"; ei_Name := name; ei_UUID := name |};
  vm_TargetNodeName := "a"; vm_Size := 8388608 |}.
Definition state (name : string) : VolumeTargetStatus :=
  {| vts_UUID := name; vts_SpdkTarget := Some (target name); vts_Status := VolumeStatusReady; vts_Message := "" |}.
Definition vols : list string := ["v1"; "v2"].
Definition meta (name : string) (fins : list string) (deleted : option Z) : ObjectMeta :=
  {| om_Name := name; om_Namespace := "obnvmf"; om_UID := ""; om_CreationTimestamp := 0;
     om_DeletionTimestamp := deleted; om_Labels := None; om_Annotations := None; om_OwnerReferences := [];
     om_Finalizers := fins |}.
Definition group : AntstorVolumeGroup :=
  vg_set_state VolumeStatusReady (vg_set_statuses (state <$> vols)
    (vg_set_volumes (member <$> vols) (SchedGroup.ex_group 16777216 2 []))).
Definition control (fins : list string) (deleted : option Z) (lvm : option LVMControl) : AntstorDataControl := {|
  dc_meta := meta "dc" fins deleted;
  dc_Spec := {| dcs_UUID := "u"; dcs_TotalSize := 16777216; dcs_LVM := lvm; dcs_EngineType := PoolModeKernelLVM;
    dcs_Raid := {| raid_Level := "" |}; dcs_HostNode := NodeInfo_zero; dcs_TargetNodeId := "node-1";
    dcs_VolumeGroups := [{| ei_Namespace := "obnvmf"; ei_Name := "g"; ei_UUID := "" |}] |};
  dc_Status := {| dcst_Status := ""; dcst_CSINodePubParams := None; dcst_Message := "" |} |}.
Definition host (broken : bool) : MemHost := {|
  mh_pvs := if broken then ["/dev/v1"; "/dev/v2"] else []; mh_groups := if broken then ["obnvmf-dc"] else [];
  mh_lvs := if broken then [("obnvmf-dc", "dc")] else [];
  mh_disks := (λ v, {| nd_DevicePath := "/dev/" +:+ v; nd_SerialNumber := v |}) <$> vols; mh_broken := broken |}.
Definition with_group (h : MemHost) : MemHost := set_groups ["obnvmf-dc"] h.
Definition accepts {K T} (o : T) : KubeClient K T := {|
  kGet _ _ := mret (inl o); kCreate o := mret (inl o); kUpdate o := mret (inl o);
  kUpdateStatus o := mret (inl o); kPatch _ o := mret (inl o);
  kPatchStatus _ o := mret (inl o); kDelete _ := mret None |}.
Definition req : Request := {| rq_Namespace := "obnvmf"; rq_Name := "dc" |}.

(** The device is built, recorded and reported in one request. *)
Definition ex_run := dc_run (KD := accepts (control [] None None)) (KG := accepts group) req (host false) tt.
Example built : (mh_pvs ex_run.1, mh_groups ex_run.1, mh_lvs ex_run.1, length ex_run.2) =
  (["/dev/v1"; "/dev/v2"], ["obnvmf-dc"], [("obnvmf-dc", "dc")], 2%nat).
Proof. vm_compute. reflexivity. Qed.
Definition recorded : LVMControl := {| lvmc_VG := "obnvmf-dc"; lvmc_LVol := "dc"; lvmc_PVs := [] |}.
Definition deleted : AntstorDataControl := control [KernelLVolFinalizer] (Some 7%Z) (Some recorded).
End HostExample.
Import HostExample.

(** The same control taken down again, on the host that has it. *)
Definition HostExample_down := dc_run (KD := HostExample.accepts (HostExample.control [KernelLVolFinalizer] (Some 7%Z) (Some HostExample.recorded)))
  (KG := HostExample.accepts HostExample.group) HostExample.req (HostExample.with_group (HostExample.host false)) tt.
Lemma datacontrol_truthful_witness :
  (∃ d, dc_synced (KG := HostExample.accepts HostExample.group) (K := unit) d (HostExample.host false) HostExample.ex_run.1 HostExample.ex_run.2 ∧
    length HostExample.ex_run.2 = 2%nat) ∧
  "obnvmf-dc" ∈ groups_at (HostExample.with_group (HostExample.host false)) ∧
  length HostExample_down.2 = 1%nat ∧ "obnvmf-dc" ∉ groups_at HostExample_down.1.
Proof.
  split; [|split; [unfold groups_at; cbn; set_solver|]].
  - pose proof (datacontrol_truthful (KD := HostExample.accepts (HostExample.control [] None None))
      (KG := HostExample.accepts HostExample.group) (HostExample.host false) HostExample.req tt) as H.
    change (dc_run _ _ _) with HostExample.ex_run in H. assert (length HostExample.ex_run.2 = 2%nat) as Hlen by (vm_compute; reflexivity).
    destruct HostExample.ex_run as [n l]. destruct H as [->|(d & k' & _ & H)]; [discriminate|]. exists d. by split.
  - pose proof (datacontrol_truthful (KD := HostExample.accepts (HostExample.control [KernelLVolFinalizer] (Some 7%Z) (Some HostExample.recorded)))
      (KG := HostExample.accepts HostExample.group) (HostExample.with_group (HostExample.host false)) HostExample.req tt) as H.
    change (dc_run _ _ _) with HostExample_down in H. assert (length HostExample_down.2 = 1%nat) as Hlen by (vm_compute; reflexivity).
    split; [exact Hlen|]. destruct HostExample_down as [n l]. destruct H as [->|(d & k' & [= <-] & H)]; [discriminate|].
    inversion H as [|? ? ? Hd|? Hd|lvm f1 f2 _ Hl _ _ [Hvg _] Hw]; subst; [discriminate|discriminate Hd|discriminate Hd|].
    cbn in Hl. injection Hl as <-. destruct (Hvg ltac:(discriminate)) as [Hout|(e & n' & He)]; [exact Hout|]. cbn in He. discriminate He.
Defined.

Lemma take_down_blind_witness :
  ∃ n', dc_take_down (KD := HostExample.accepts HostExample.deleted) HostExample.deleted (HostExample.host true, tt) =
    Ret (CtrlResult_zero, None) (n', tt) ∧ "obnvmf-dc" ∈ groups_at n'.
Proof.
  apply (take_down_blind (KD := HostExample.accepts HostExample.deleted) HostExample.deleted HostExample.recorded (HostExample.host true)
    (HostExample.host true) (HostExample.host true) tt tt (ErrNew "broken") (ErrNew "broken") [] []
    (dc_set_finalizers [] HostExample.deleted)).
  1,2,5,6,8,10: reflexivity.
  - discriminate.
  - unfold groups_at. cbn. set_solver.
  - intros req n n' r. unfold DisconnectTarget. destruct (decide _); intros [= _ <-]; reflexivity.
  - apply not_elem_of_nil.
Defined.
