(* ===== verification/SchedPlugin.v ===== *)
(** * The kube-scheduler plugin

    [scheduler/plugin]: the extension points of the scheduling framework for pods
    whose claims must be local. [PreFilter] collects the claims of a pod,
    [Filter] asks the volume filters whether a node can take them, [Score] ranks
    nodes, [Reserve] and [Unreserve] book their space in the state, and [PreBind]
    writes the decision into the claims, from where it reaches the volumes. *)

From Stdlib Require Import ZArith Lia.
From stdpp Require Import base gmap strings option list.
From S2P Require Import Prelude Strconv Float64 Misc K8s Api State Filter Sched Server VolumeSync.

(** ** The objects of Kubernetes the plugin reads *)

(** The part of [storagev1.StorageClass] that is read. *)
Record StorageClass := { sc_Provisioner : string; sc_Parameters : gomap string }.
Definition ClaimBound : string := "Bound".

(* [plugin/helper.go:10-10] annSelectedNode *)
Definition annSelectedNode : string := "volume.kubernetes.io/selected-node".
(* [plugin/filter.go:16-16] NoFitStoragePool *)
Definition NoFitStoragePool : string := "NoFitStoragePool".
(* [plugin/filter.go:18-18] nodeLabelKeyHostName *)
Definition nodeLabelKeyHostName : string := "kubernetes.io/hostname".

(** [framework.Status]: nil is a success. *)
Inductive StatusCode := StSuccess | StError | StUnschedulable | StUnschedulableAndUnresolvable.
#[export] Instance StatusCode_eq : EqDecision StatusCode.
Proof. solve_decision. Defined.
Definition Status := option (StatusCode * string).
Definition NewStatus (code : StatusCode) (msg : string) : Status := Some (code, msg).
Definition AsStatus (err : error) : Status := Some (StError, error_msg err).
Definition status_ok (s : Status) : bool := match s with Some (c, _) => bool_decide (c = StSuccess) | None => true end.

(* [plugin/helper.go:22-27] isMustLocalStorageClass *)
Definition isMustLocalStorageClass (sc : StorageClass) : bool :=
  bool_decide (sc_Provisioner sc = StorageClassProvisioner) &&
  bool_decide (map_str (sc_Parameters sc) StorageClassParamPositionAdvice = MustLocal).
(* [plugin/helper.go:29-34] isAntstorStorageClass *)
Definition isAntstorStorageClass (sc : StorageClass) : bool := bool_decide (sc_Provisioner sc = StorageClassProvisioner).

Section plugin.
Context {L : K8sLib} {Sort : GoSort}.

(** The part of [corev1.PersistentVolumeClaim] that is read. *)
Record PVC := {
pvc_meta : ObjectMeta;
pvc_StorageClassName : option string;
pvc_Requests : ResourceList;
pvc_Phase : string;
}.
(** A pod: its namespace and, for each volume, the claim it uses, if any. *)
Record Pod := { pod_Namespace : string; pod_Claims : list (option string) }.
(** [corev1.Node] *)
Record K8sNode := { k8n_Name : string; k8n_Labels : gomap string }.

Definition pvc_annotations (pvc : PVC) : gomap string := om_Annotations (pvc_meta pvc).
(** [pvc.Spec.Resources.Requests.Storage().AsApproximateFloat64()] *)
Definition pvc_float (pvc : PVC) : float64 := Quantity_AsApproximateFloat64 (ResourceList_Storage (pvc_Requests pvc)).

(* [plugin/helper.go:13-20] isPVCFullyBound *)
Definition isPVCFullyBound (pvc : PVC) : string * bool :=
  match map_get (pvc_annotations pvc) annSelectedNode with
  | Some nodeName => (nodeName, bool_decide (pvc_Phase pvc = ClaimBound))
  | None => ("", false)
  end.

(** ** The data of one scheduling cycle *)

(* [plugin/prefilter.go:18-29] cycleData *)
Record CycleData := {
cd_mustLocal : list PVC;
cd_other : list PVC;
cd_scMap : gmap string StorageClass;
cd_skip : bool;
cd_reservations : list Reservation;
}.
(** The entry of the framework's cycle state. *)
Definition CycleState := option CycleData.
(* [plugin/prefilter.go:40-51] GetCycleData *)
Definition GetCycleData (s : CycleState) : result CycleData :=
  match s with Some d => inl d | None => inr (ErrNew "not found") end.
(* [plugin/prefilter.go:31-38] cycleData.Clone *)
Definition Clone (d : CycleData) : CycleData := {|
  cd_mustLocal := cd_mustLocal d; cd_other := cd_other d; cd_scMap := cd_scMap d;
  cd_skip := false; cd_reservations := [] |}.
Definition add_reservation (r : Reservation) (d : CycleData) : CycleData := {|
  cd_mustLocal := cd_mustLocal d; cd_other := cd_other d; cd_scMap := cd_scMap d;
  cd_skip := cd_skip d; cd_reservations := cd_reservations d ++ [r] |}.

(** The caches of claims and storage classes. *)
Context (pvcGet : string → string → result PVC) (scGet : string → result StorageClass).

(** One claim after the other, [inr] when the pod is rejected. *)
(* [plugin/prefilter.go:67-93] AntstorSchdulerPlugin.PreFilter, the loop *)
Fixpoint collect_claims (ns : string) (claims : list (option string)) (d : CycleData) : go CycleState (CycleData + error) :=
  match claims with
  | [] => mret (inl d)
  | None :: rest => collect_claims ns rest d
  | Some pvcName :: rest =>
      match pvcGet ns pvcName with
      | inr e => mret (inr e)
      | inl pvc =>
          scName ← deref "Spec.StorageClassName" (pvc_StorageClassName pvc);
          match scGet scName with
          | inr e => mret (inr e)
          | inl sc =>
              let mine := isAntstorStorageClass sc in
              let must := isMustLocalStorageClass sc in
              collect_claims ns rest {|
                cd_mustLocal := if mine && must then cd_mustLocal d ++ [pvc] else cd_mustLocal d;
                cd_other := if mine && negb must then cd_other d ++ [pvc] else cd_other d;
                cd_scMap := <[scName := sc]> (cd_scMap d);
                cd_skip := cd_skip d; cd_reservations := cd_reservations d |}
          end
      end
  end.

(* [plugin/prefilter.go:55-103] AntstorSchdulerPlugin.PreFilter *)
Definition PreFilter (pod : Pod) : go CycleState Status :=
  r ← collect_claims (pod_Namespace pod) (pod_Claims pod)
        {| cd_mustLocal := []; cd_other := []; cd_scMap := ∅; cd_skip := false; cd_reservations := [] |};
  match r with
  | inr e => mret (AsStatus e)
  | inl d =>
      let skip := match cd_mustLocal d, cd_other d with [], [] => true | _, _ => cd_skip d end in
      _ ← gput (Some {| cd_mustLocal := cd_mustLocal d; cd_other := cd_other d; cd_scMap := cd_scMap d;
                        cd_skip := skip; cd_reservations := cd_reservations d |});
      mret None
  end.

(** ** Filter *)

(** The sum of the claims that must be local, as one volume. *)
Definition add_claim (acc : AntstorVolume * Z) (pvc : PVC) : AntstorVolume * Z :=
  let '(vol, snap) := acc in
  let annos := default ∅ (om_Annotations (vol_meta vol)) in
  let copied := filter (λ kv, HasPrefix kv.1 "obnvmf/" = true) (default ∅ (pvc_annotations pvc)) in
  (vol_set_Spec (vs_set_SizeByte (uwrap64 (vs_SizeByte (vol_Spec vol) + uwrap64 (f64_round_int64 (pvc_float pvc)))) (vol_Spec vol))
     (vol_set_meta (om_set_Annotations (Some (copied ∪ annos)) (vol_meta vol)) vol),
   match map_get (pvc_annotations pvc) PVCAnnotationSnapshotReservedSize with
   | Some val => match Atoi val with (size, None) => wrap64 (snap + size) | (_, Some _) => snap end
   | None => snap
   end).
(* [plugin/filter.go:74-105] AntstorSchdulerPlugin.Filter, the virtual volume *)
Definition virtualMustLocalVol (node : K8sNode) (pvcs : list PVC) : AntstorVolume :=
  let host := map_str (k8n_Labels node) nodeLabelKeyHostName in
  let vol0 := vol_set_Spec (vs_set_HostNode (Some {| ni_ID := k8n_Name node; ni_IP := host; ni_Hostname := host;
                              ni_Labels := k8n_Labels node |}) AntstorVolumeSpec_zero)
                (vol_set_meta (om_set_Annotations (Some ∅) ObjectMeta_zero) AntstorVolume_zero) in
  let '(vol, snapshotReservedSize) := foldl add_claim (vol0, 0%Z) pvcs in
  if decide (0 < snapshotReservedSize)%Z
  then vol_set_meta (om_set_Annotations
         (Some (<[PVCAnnotationSnapshotReservedSize := Itoa snapshotReservedSize]> (default ∅ (om_Annotations (vol_meta vol)))))
         (vol_meta vol)) vol
  else vol.

(** The filter chain on one node of the state, which it may update. *)
Definition chain_on_node (cfg : SchedulerConfig) (nodeName : string) (n : Node) (vol : AntstorVolume)
    : go State (list Node * option error) := λ s,
  match MatchAll (LoadFilterFromConfig filtersMap (fc_Input [n] vol (NewFilterChain cfg))) NewMergedError with
  | Ret (nodes, filtered, err) _ => Ret (filtered, err) (on_node nodeName (λ n, default n (head nodes)) s)
  | Panic why _ => Panic why s
  end.

(* [plugin/filter.go:32-120] AntstorSchdulerPlugin.Filter *)
Definition Filter (cfg : SchedulerConfig) (cs : CycleState) (node : K8sNode) : go State Status :=
  match GetCycleData cs with
  | inr e => mret (AsStatus e)
  | inl cycledata =>
      if cd_skip cycledata then mret (NewStatus StSuccess "")
      else
        s ← gget;
        match GetNodeByNodeID (k8n_Name node) s with
        | inr _ => mret (NewStatus StUnschedulable NoFitStoragePool)
        | inl stateNode =>
            let elsewhere pvc := let '(nodeName, bound) := isPVCFullyBound pvc in
                                 bound && negb (bool_decide (k8n_Name node = nodeName)) in
            if existsb elsewhere (cd_mustLocal cycledata) then mret (NewStatus StUnschedulable NoFitStoragePool)
            else
              '(filtered, err) ← chain_on_node cfg (k8n_Name node) stateNode (virtualMustLocalVol node (cd_mustLocal cycledata));
              mret (match (err : option error), (filtered : list Node) with
                    | None, _ :: _ => NewStatus StSuccess ""
                    | _, _ => NewStatus StUnschedulable NoFitStoragePool
                    end)
        end
  end.

(** ** Score *)

(* [plugin/score.go:43-55] AntstorSchdulerPlugin.Score, the space of the claims *)
Definition claimed_bytes (d : CycleData) : go unit Z :=
  let add size pvc := uwrap64 (size + uwrap64 (f64_to_int64 (pvc_float pvc))) in
  let must := foldl add 0%Z (cd_mustLocal d) in
  foldl (λ acc pvc,
      size ← (acc : go unit Z);
      scName ← deref "Spec.StorageClassName" (pvc_StorageClassName pvc);
      mret (match cd_scMap d !! scName with
            | Some sc => if decide (map_str (sc_Parameters sc) StorageClassParamPositionAdvice = PreferLocal)
                         then add size pvc else size
            | None => size
            end)) (mret must) (cd_other d).
(* [plugin/score.go:18-77] AntstorSchdulerPlugin.Score *)
Definition Score (cfg : SchedulerConfig) (cs : CycleState) (nodeName : string) (s : State) : go unit (Z * Status) :=
  match GetCycleData cs with
  | inr _ => mret (0%Z, None)
  | inl cycledata =>
      if cd_skip cycledata then mret (0%Z, None)
      else match GetNodeByNodeID nodeName s with
           | inr e => mret (0%Z, NewStatus StUnschedulableAndUnresolvable (error_msg e))
           | inl stateNode =>
               size ← claimed_bytes cycledata;
               let virtualVol := vol_set_Spec (vs_set_SizeByte size (vs_set_HostNode
                 (Some {| ni_ID := nodeName; ni_IP := ""; ni_Hostname := ""; ni_Labels := None |}) AntstorVolumeSpec_zero))
                 AntstorVolume_zero in
               '(_, score) ← GetFirstByScore (LoadPriorityFromConfig prioritiesMap
                               (pcal_Input [stateNode] virtualVol (NewPriorityCalculator cfg)));
               mret (score, None)
           end
  end.

(* [plugin/score.go:87-94] ScoreFuncPlentySpaceForAntstorPVCs *)
Definition ScoreFuncPlentySpaceForAntstorPVCs (n : Node) (vol : AntstorVolume) : Z :=
  let freeBytes := f64_to_int64 (Quantity_AsApproximateFloat64 (ResourceList_Storage (nd_FreeResource n))) in
  if decide (wrap64 (vs_SizeByte (vol_Spec vol)) < freeBytes)%Z then 50%Z else 0%Z.

(** ** Reserve and Unreserve *)

Abbreviation CycleM := (go (State * CycleState)).

(** [NewPvcReservation] returns nil for a claim that is being deleted, and
    [Reserve] calls a method of what it is given. *)
(* [plugin/reserve.go:37-43] AntstorSchdulerPlugin.Reserve, the claims *)
Fixpoint reserve_claims (nodeName : string) (pvcs : list PVC) : CycleM unit :=
  match pvcs with
  | [] => mret tt
  | pvc :: rest =>
      resv ← deref "ReservationIface" (NewPvcReservation (pvc_meta pvc) (pvc_Requests pvc));
      _ ← gmodify (λ st : State * CycleState, (on_node nodeName (Node_Reserve resv) st.1, add_reservation resv <$> st.2));
      reserve_claims nodeName rest
  end.
(* [plugin/reserve.go:15-49] AntstorSchdulerPlugin.Reserve *)
Definition Reserve (nodeName : string) : CycleM Status :=
  st ← gget;
  match GetCycleData (st : State * CycleState).2 with
  | inr e => mret (AsStatus e)
  | inl cycledata =>
      if cd_skip cycledata then mret None
      else match GetNodeByNodeID nodeName st.1 with
           | inr e => mret (AsStatus e)
           | inl _ => _ ← reserve_claims nodeName (cd_mustLocal cycledata); mret None
           end
  end.
(* [plugin/reserve.go:57-82] AntstorSchdulerPlugin.Unreserve *)
Definition Unreserve (nodeName : string) (cs : CycleState) (s : State) : State :=
  match GetCycleData cs with
  | inr _ => s
  | inl cycledata =>
      if cd_skip cycledata then s
      else match GetNodeByNodeID nodeName s with
           | inr _ => s
           | inl _ => foldl (λ s item, on_node nodeName (Node_Unreserve (rv_id item)) s) s (cd_reservations cycledata)
           end
  end.

(** ** PreBind *)

Section bind.
Context {W : Type}.
(** The snapshot of the nodes and the merge patch of a claim's annotations. *)
Context (nodeInfos : string → option error).
Context (patch_annotations : string → string → gmap string string → go W (option error)).

Definition decision (nodeName : string) (resv : Reservation) : gmap string string :=
  <[SelectedTgtNodeKey := nodeName]> (<[ReservationIDKey := rv_id resv]> ∅).
(** A claim whose name does not parse is passed over. *)
(* [plugin/bind.go:45-69] AntstorSchdulerPlugin.PreBind, the claims *)
Fixpoint bind_claims (nodeName : string) (l : list Reservation) : go W Status :=
  match l with
  | [] => mret (NewStatus StSuccess "")
  | resv :: rest =>
      match SplitMetaNamespaceKey (rv_namespacedName resv) with
      | inr _ => bind_claims nodeName rest
      | inl (ns, name) =>
          bindErr ← patch_annotations ns name (decision nodeName resv);
          match bindErr with
          | Some e => mret (AsStatus e)
          | None => bind_claims nodeName rest
          end
      end
  end.
(* [plugin/bind.go:20-72] AntstorSchdulerPlugin.PreBind *)
Definition PreBind (cs : CycleState) (nodeName : string) : go W Status :=
  match nodeInfos nodeName with
  | Some e => mret (NewStatus StError (error_msg e))
  | None =>
      match GetCycleData cs with
      | inr e => mret (AsStatus e)
      | inl cycledata =>
          if cd_skip cycledata then mret (NewStatus StSuccess "")
          else bind_claims nodeName (cd_reservations cycledata)
      end
  end.
End bind.
End plugin.

(** ** What the plugin promises *)

Section plugin_spec.
Context {L : K8sLib} {Sort : GoSort}.
Implicit Types (n : Node) (s : State) (pvc : PVC) (d : CycleData).

(** The reservation of a claim. *)
Definition pvc_id pvc : string := om_Namespace (pvc_meta pvc) +:+ "/" +:+ om_Name (pvc_meta pvc).
Definition pvc_size pvc : Z := f64_round_int64 (pvc_float pvc).
Definition pvc_resv pvc : Reservation :=
  {| rv_id := pvc_id pvc; rv_namespacedName := pvc_id pvc; rv_sizeByte := pvc_size pvc |}.
Definition pvc_live pvc : Prop := om_DeletionTimestamp (pvc_meta pvc) = None.

(** *** Booking *)

Lemma reserve_claims_run nodeName pvcs s cs : Forall pvc_live pvcs →
  reserve_claims nodeName pvcs (s, cs) =
  Ret tt (foldl (λ s pvc, on_node nodeName (Node_Reserve (pvc_resv pvc)) s) s pvcs,
          foldl (λ cs pvc, add_reservation (pvc_resv pvc) <$> cs) cs pvcs).
Proof.
  intros Hl. revert s cs. induction Hl as [|pvc pvcs Hp _ IH]; intros s cs; [done|].
  cbn [reserve_claims foldl]. assert (NewPvcReservation (pvc_meta pvc) (pvc_Requests pvc) = Some (pvc_resv pvc)) as ->.
  { unfold NewPvcReservation. by rewrite Hp. }
  go_simpl. apply IH.
Qed.
Lemma add_reservations_run pvcs d :
  foldl (λ cs pvc, add_reservation (pvc_resv pvc) <$> cs) (Some d) pvcs =
  Some {| cd_mustLocal := cd_mustLocal d; cd_other := cd_other d; cd_scMap := cd_scMap d;
          cd_skip := cd_skip d; cd_reservations := cd_reservations d ++ (pvc_resv <$> pvcs) |}.
Proof.
  revert d. induction pvcs as [|pvc pvcs IH]; intros d; cbn [foldl].
  { destruct d. cbn. by rewrite app_nil_r. }
  cbn [fmap option_fmap option_map]. rewrite IH. cbn. by rewrite <- app_assoc.
Qed.
Lemma on_node_loop {A} name (f : A → Node → Node) l s n : NodeMap s !! name = Some n →
  foldl (λ s a, on_node name (f a) s) s l = on_node name (λ n, foldl (λ n a, f a n) n l) s.
Proof.
  revert s n. induction l as [|a l IH]; intros s n Hn; cbn [foldl].
  { unfold on_node. rewrite Hn, insert_id by done. by destruct s. }
  assert (NodeMap (on_node name (f a) s) !! name = Some (f a n)) as Hn1.
  { unfold on_node. rewrite Hn. cbn. apply lookup_insert_eq. }
  rewrite (IH _ _ Hn1). unfold on_node. rewrite Hn. cbn. rewrite lookup_insert_eq. cbn.
  by rewrite insert_insert_eq.
Qed.
Definition book (pvcs : list PVC) n : Node := foldl (λ n pvc, Node_Reserve (pvc_resv pvc) n) n pvcs.

Lemma Node_Reserve_volumes r n : nd_Volumes (Node_Reserve r n) = nd_Volumes n.
Proof. unfold Node_Reserve. destruct (existsb _ _); [done|]. destruct (decide _); [done|]. by rewrite update_free_volumes. Qed.
Lemma Node_Reserve_pool r n : nd_Pool (Node_Reserve r n) = nd_Pool n.
Proof. unfold Node_Reserve. destruct (existsb _ _); [done|]. destruct (decide _); [done|]. by rewrite update_free_pool. Qed.
Lemma Node_Reserve_other r n k : k ∉ bound_ids n → k ≠ rv_id r →
  nd_resvSet (Node_Reserve r n) !! k = nd_resvSet n !! k.
Proof.
  intros Hb Hne. unfold Node_Reserve. destruct (existsb _ _); [done|]. destruct (decide _); [done|].
  rewrite update_free_resv, GetFree_kept by done. cbn. by apply lookup_insert_ne.
Qed.
Lemma book_other pvcs n k : k ∉ bound_ids n → k ∉ pvc_id <$> pvcs → nd_resvSet (book pvcs n) !! k = nd_resvSet n !! k.
Proof.
  revert n. induction pvcs as [|p l IH]; intros n Hb Hn; [done|].
  rewrite fmap_cons, not_elem_of_cons in Hn. destruct Hn as [Hne Hn].
  change (book (p :: l) n) with (book l (Node_Reserve (pvc_resv p) n)).
  rewrite IH; [by apply Node_Reserve_other|rewrite (bound_ids_ext _ n); [done|apply Node_Reserve_volumes]|done].
Qed.

(** Claims that the stored free resource covers together are all booked. *)
Lemma book_all {HL : K8sLaws L} pvcs n cap q :
  resv_wf (nd_resvSet n) → NoDup (pvc_id <$> pvcs) →
  Forall (λ pvc, pvc_id pvc ∉ bound_ids n ∧ nd_resvSet n !! pvc_id pvc = None ∧ (0 <= pvc_size pvc)%Z) pvcs →
  spst_Capacity (sp_Status (nd_Pool n)) = Some cap → cap !! ResourceDiskPoolByte = Some q →
  (0 <= committed n)%Z → is_int64 (committed n + sumZ (pvc_size <$> pvcs)) →
  (sumZ (pvc_size <$> pvcs) * 1000000000 <= quantity_nano (ResourceList_Storage (nd_FreeResource n)))%Z →
  (quantity_nano (ResourceList_Storage (nd_FreeResource n)) <= quantity_nano q - committed n * 1000000000)%Z →
  (∀ pvc, pvc ∈ pvcs → nd_resvSet (book pvcs n) !! pvc_id pvc = Some (pvc_resv pvc)) ∧
  committed (book pvcs n) = (committed n + sumZ (pvc_size <$> pvcs))%Z ∧
  (0 <= quantity_nano (ResourceList_Storage (nd_FreeResource (book pvcs n))))%Z.
Proof.
  revert n. induction pvcs as [|pvc pvcs IH]; intros n Hwf Hnd Hall Hcap Hq H0 Hin Hfree Hle.
  { cbn in *. split; [by intros pvc []%elem_of_nil|]. unfold sumZ in *. cbn in *. split; lia. }
  apply NoDup_cons in Hnd as [Hnew Hnd]. apply Forall_cons in Hall as [(Hb & Hf & Hs) Hall].
  rewrite sumZ_fmap_cons in Hin, Hfree.
  assert (0 <= sumZ (pvc_size <$> pvcs))%Z as Hrest.
  { apply sumZ_fmap_nonneg. eapply Forall_impl; [exact Hall|]. by intros x (_ & _ & Hx). }
  destruct (Node_Reserve_books (pvc_resv pvc) n cap q) as (Hp & Hv & Hwf1 & Hbook & Hother & Hc & Hfree1); try done.
  { unfold is_int64 in *. cbn. lia. }
  { cbn. lia. }
  cbn [rv_sizeByte pvc_resv] in Hc. change (book (pvc :: pvcs) n) with (book pvcs (Node_Reserve (pvc_resv pvc) n)).
  set (n1 := Node_Reserve (pvc_resv pvc) n) in *.
  assert (bound_ids n1 = bound_ids n) as Hbi by (by apply bound_ids_ext).
  destruct (IH n1) as (H1 & H2 & H3); try done.
  - apply Forall_forall. intros pvc' Hin'. rewrite Forall_forall in Hall. destruct (Hall pvc' Hin') as (Hb' & Hf' & Hs').
    rewrite Hbi. split; [done|]. split; [|done]. rewrite Hother; [done|done|].
    intros Heq. apply Hnew. cbn in Heq. rewrite <- Heq. apply list_elem_of_fmap. by exists pvc'.
  - by rewrite Hp.
  - lia.
  - rewrite Hc. by rewrite <- Z.add_assoc.
  - rewrite Hfree1, Hc. lia.
  - lia.
  - split; [|split; [rewrite H2, Hc, sumZ_fmap_cons; cbn; lia|done]].
    intros pvc' [->|Hin']%elem_of_cons; [|by apply H1].
    rewrite book_other; [done|by rewrite Hbi|done].
Qed.
End plugin_spec.

(** *** Filtering *)

Section filter_facts.
Context {L : K8sLib} {Sort : GoSort}.
Implicit Types (n : Node) (s : State) (pvc : PVC) (d : CycleData).

Definition claim_sum (vol0 : AntstorVolume) (pvcs : list PVC) : AntstorVolume * Z := foldl add_claim (vol0, 0%Z) pvcs.

Lemma claim_sum_snoc vol0 pvcs pvc : claim_sum vol0 (pvcs ++ [pvc]) = add_claim (claim_sum vol0 pvcs) pvc.
Proof. unfold claim_sum. by rewrite foldl_app. Qed.
Lemma claim_sum_host vol0 pvcs : vs_HostNode (vol_Spec (claim_sum vol0 pvcs).1) = vs_HostNode (vol_Spec vol0).
Proof.
  induction pvcs as [|pvc pvcs IH] using rev_ind; [done|]. rewrite claim_sum_snoc.
  unfold add_claim. by destruct (claim_sum vol0 pvcs) as [vol snap].
Qed.
Lemma claim_sum_size vol0 pvcs : vs_SizeByte (vol_Spec vol0) = 0%Z →
  vs_SizeByte (vol_Spec (claim_sum vol0 pvcs).1) = uwrap64 (sumZ (pvc_size <$> pvcs)).
Proof.
  intros H0. induction pvcs as [|pvc pvcs IH] using rev_ind; [exact H0|]. rewrite claim_sum_snoc.
  unfold add_claim. destruct (claim_sum vol0 pvcs) as [vol snap]. cbn in *.
  rewrite IH, fmap_app, sumZ_app. assert (sumZ (pvc_size <$> [pvc]) = pvc_size pvc) as -> by (cbn; lia).
  unfold uwrap64. rewrite <- Zplus_mod. done.
Qed.
Lemma claim_sum_anno vol0 pvcs key : om_Annotations (vol_meta vol0) = Some ∅ → HasPrefix key "obnvmf/" = true →
  map_get (om_Annotations (vol_meta (claim_sum vol0 pvcs).1)) key =
  last (omap (λ pvc, map_get (pvc_annotations pvc) key) pvcs).
Proof.
  intros H0 Hp. induction pvcs as [|pvc pvcs IH] using rev_ind.
  { cbn. unfold map_get. by rewrite H0. }
  rewrite claim_sum_snoc, omap_app. unfold add_claim. destruct (claim_sum vol0 pvcs) as [vol snap]. cbn [fst] in IH. cbn [fst].
  rewrite last_app. unfold map_get at 1. cbn. rewrite lookup_union.
  assert ((filter (λ kv : string * string, HasPrefix kv.1 "obnvmf/" = true) (default ∅ (pvc_annotations pvc)) : gmap string string) !! key
    = map_get (pvc_annotations pvc) key) as ->.
  { unfold map_get. destruct (pvc_annotations pvc) as [m|]; cbn.
    - destruct (m !! key) as [v|] eqn:E.
      + apply map_lookup_filter_Some. by split.
      + apply map_lookup_filter_None. by left.
    - rewrite map_filter_empty. apply lookup_empty. }
  destruct (map_get (pvc_annotations pvc) key) as [v|]; cbn; [by destruct (default ∅ _ !! key)|].
  rewrite <- IH. unfold map_get. destruct (om_Annotations (vol_meta vol)) as [m|]; cbn.
  - by destruct (m !! key).
  - by rewrite lookup_empty.
Qed.

(** The reservation that a chain of claims names, if any. *)
Definition claimed_reservation (pvcs : list PVC) : option string :=
  last (omap (λ pvc, map_get (pvc_annotations pvc) ReservationIDKey) pvcs).

Lemma virtual_facts node pvcs :
  let vol := virtualMustLocalVol node pvcs in
  map_get (om_Annotations (vol_meta vol)) ReservationIDKey = claimed_reservation pvcs ∧
  (∃ h, vs_HostNode (vol_Spec vol) = Some h ∧ ni_ID h = k8n_Name node) ∧
  vs_SizeByte (vol_Spec vol) = uwrap64 (sumZ (pvc_size <$> pvcs)).
Proof.
  unfold virtualMustLocalVol. cbv zeta. set (vol0 := vol_set_Spec _ _).
  pose proof (claim_sum_anno vol0 pvcs ReservationIDKey eq_refl eq_refl) as Ha.
  pose proof (claim_sum_host vol0 pvcs) as Hh. pose proof (claim_sum_size vol0 pvcs eq_refl) as Hs.
  unfold claim_sum in *. destruct (foldl add_claim (vol0, 0%Z) pvcs) as [vol snap]. cbn [fst] in *.
  destruct (decide _) as [_|_]; cbn.
  - split; [|split; [rewrite Hh; by eexists|done]]. unfold claimed_reservation. rewrite <- Ha. unfold map_get. cbn.
    rewrite lookup_insert_ne by done. destruct (om_Annotations _); [done|apply lookup_empty].
  - split; [exact Ha|]. split; [rewrite Hh; by eexists|done].
Qed.

Lemma chain_on_node_run cfg name n vol s : is_Some (vs_HostNode (vol_Spec vol)) →
  ∃ n' cands err, chain_on_node cfg name n vol s = Ret (cands, err) (on_node name (λ _, n') s) ∧ same_node n n' ∧
    (err = None → cands ≠ [] → accepted (configured_chain filtersMap cfg [n] vol) n).
Proof.
  intros Hh. unfold chain_on_node, MatchAll, configured_chain.
  pose proof (LoadFilterFromConfig_contract filtersMap (fc_Input [n] vol (NewFilterChain cfg)) (Forall_nil_2 _)) as Hall.
  destruct (LoadFilterFromConfig_input filtersMap (fc_Input [n] vol (NewFilterChain cfg))) as (Hn & Hv & _ & _).
  set (fc := LoadFilterFromConfig _ _) in *.
  destruct (MatchAll_loop_spec fc [n] NewMergedError Hall) as (nodes' & cands & e' & Hrun & Hf2 & Hsub & _ & Hacc & _);
    [by rewrite Hv|].
  rewrite Hn. change (fc_nodes (fc_Input [n] vol (NewFilterChain cfg))) with [n]. go_simpl. rewrite Hrun.
  inversion Hf2 as [|? n' ? rest Hs Hnil]; subst. inversion Hnil; subst. cbn.
  exists n', cands, (match cands with [] => Some (ErrNew (MergedError_Error e')) | _ => None end).
  split; [by destruct cands|]. split; [done|]. intros _ Hne. destruct cands as [|c cands]; [done|].
  apply Forall_cons in Hacc as [(n0 & Hin & _ & Ha) _]. by apply list_elem_of_singleton in Hin as ->.
Qed.

(** What a successful verdict of the plugin's filter means. *)
Lemma Filter_success cfg d node s st s1 : cd_skip d = false →
  Filter cfg (Some d) node s = Ret st s1 → status_ok st = true →
  ∃ n n', NodeMap s !! k8n_Name node = Some n ∧ same_node n n' ∧ s1 = on_node (k8n_Name node) (λ _, n') s ∧
    accepted (configured_chain filtersMap cfg [n] (virtualMustLocalVol node (cd_mustLocal d))) n.
Proof.
  intros Hskip. unfold Filter. cbn [GetCycleData]. rewrite Hskip. go_simpl. unfold GetNodeByNodeID.
  destruct (NodeMap s !! k8n_Name node) as [n|] eqn:En; cbn; [|by intros [= <- _]].
  destruct (existsb _ _); [by intros [= <- _]|].
  destruct (virtual_facts node (cd_mustLocal d)) as (_ & (h & Hh & _) & _).
  unfold mbind, go_mbind, go_bind.
  destruct (chain_on_node_run cfg (k8n_Name node) n (virtualMustLocalVol node (cd_mustLocal d)) s)
    as (n' & cands & err & -> & Hs & Hacc); [by eexists|].
  intros [= <- <-] Hok. exists n, n'. split; [done|]. split; [done|]. split; [done|].
  destruct err; [done|]. apply Hacc; [done|]. by destruct cands.
Qed.
Lemma Filter_total cfg d node s : cd_skip d = false → ∃ st s1, Filter cfg (Some d) node s = Ret st s1.
Proof.
  intros Hskip. unfold Filter. cbn [GetCycleData]. rewrite Hskip. go_simpl.
  destruct (GetNodeByNodeID _ s) as [n|e]; [|by do 2 eexists]. destruct (existsb _ _); [by do 2 eexists|].
  destruct (virtual_facts node (cd_mustLocal d)) as (_ & (h & Hh & _) & _).
  unfold mbind, go_mbind, go_bind.
  destruct (chain_on_node_run cfg (k8n_Name node) n (virtualMustLocalVol node (cd_mustLocal d)) s)
    as (n' & cands & err & -> & _); [by eexists|]. by do 2 eexists.
Qed.
End filter_facts.



Section plugin_props.
Context {L : K8sLib} {Sort : GoSort}.
Implicit Types (n : Node) (s : State) (pvc : PVC) (d : CycleData).

Lemma basic_covers cfg vol n : map_get (om_Annotations (vol_meta vol)) ReservationIDKey = None →
  "Basic" ∈ cfg_Filters cfg → accepted (configured_chain filtersMap cfg [n] vol) n →
  ∃ n1, same_node n n1 ∧
    ¬ (Quantity_CmpInt64 (ResourceList_Storage (GetFreeResourceNonLock n1).1) (wrap64 (vs_SizeByte (vol_Spec vol))) < 0)%Z.
Proof.
  intros Hanno Hin Hacc. destruct (accepted_by filtersMap "Basic" BasicFilterFunc cfg [n] vol n Hin eq_refl Hacc)
    as (c & e1 & n1 & st1 & Hs & Hf). exists n1. split; [done|]. revert Hf.
  rewrite BasicFilterFunc_run, matchReservationFilter_run, Hanno.
  destruct (decide (IsSchedulable _ = false)); [done|]. by destruct (decide (_ < 0)%Z).
Qed.
Lemma basic_refuses cfg vol n id : map_get (om_Annotations (vol_meta vol)) ReservationIDKey = Some id →
  "Basic" ∈ cfg_Filters cfg → accepted (configured_chain filtersMap cfg [n] vol) n →
  ∃ n1 r, same_node n n1 ∧ Node_GetReservation id n1 = Some r.
Proof.
  intros Hanno Hin Hacc. destruct (accepted_by filtersMap "Basic" BasicFilterFunc cfg [n] vol n Hin eq_refl Hacc)
    as (c & e1 & n1 & st1 & Hs & Hf). revert Hf.
  rewrite BasicFilterFunc_run, matchReservationFilter_run, Hanno.
  destruct (decide (IsSchedulable _ = false)); [done|]. destruct (decide (_ < 0)%Z); [done|].
  destruct (Node_GetReservation id n1) as [r|] eqn:Er; [|done]. by exists n1, r.
Qed.

Definition booked_cycle d : CycleData := {|
  cd_mustLocal := cd_mustLocal d; cd_other := cd_other d; cd_scMap := cd_scMap d; cd_skip := cd_skip d;
  cd_reservations := cd_reservations d ++ (pvc_resv <$> cd_mustLocal d) |}.

Lemma Reserve_run d name s n : cd_skip d = false → NodeMap s !! name = Some n → Forall pvc_live (cd_mustLocal d) →
  Reserve name (s, Some d) = Ret None (on_node name (book (cd_mustLocal d)) s, Some (booked_cycle d)).
Proof.
  intros Hskip Hn Hl. unfold Reserve. go_simpl. cbn [fst snd GetCycleData]. rewrite Hskip. unfold GetNodeByNodeID. rewrite Hn. go_simpl.
  change (@pair State (option CycleData) s (Some d)) with (@pair State CycleState s (Some d)).
  rewrite reserve_claims_run by done. rewrite (add_reservations_run (cd_mustLocal d) d).
  by rewrite (on_node_loop name (λ pvc, Node_Reserve (pvc_resv pvc)) _ s n Hn).
Qed.

(** C21. What the plugin's filter lets pass, its reservation step books: when a node
    was found to fit the claims of a pod, none of them carrying a reservation
    yet, and nothing else happened in between, every claim ends up with a
    reservation of its size on that node, and the free storage does not become
    negative. The hypotheses say that the state is a reachable one, and that the
    claims are new to the node and do not overflow. *)
Theorem filtered_claims_booked {HL : K8sLaws L} cfg d node s st s1 n cap q :
  state_wf s → state_coherent s → NodeMap s !! k8n_Name node = Some n →
  spst_Capacity (sp_Status (nd_Pool n)) = Some cap → cap !! ResourceDiskPoolByte = Some q →
  cd_skip d = false → "Basic" ∈ cfg_Filters cfg → Forall pvc_live (cd_mustLocal d) →
  claimed_reservation (cd_mustLocal d) = None → NoDup (pvc_id <$> cd_mustLocal d) →
  Forall (λ pvc, pvc_id pvc ∉ bound_ids n ∧ nd_resvSet n !! pvc_id pvc = None ∧ (0 <= pvc_size pvc)%Z) (cd_mustLocal d) →
  (0 <= committed n)%Z → is_int64 (committed n + sumZ (pvc_size <$> cd_mustLocal d)) →
  Filter cfg (Some d) node s = Ret st s1 → status_ok st = true →
  ∃ s2 n2, Reserve (k8n_Name node) (s1, Some d) = Ret None (s2, Some (booked_cycle d)) ∧
    NodeMap s2 !! k8n_Name node = Some n2 ∧
    (∀ pvc, pvc ∈ cd_mustLocal d → nd_resvSet n2 !! pvc_id pvc = Some (pvc_resv pvc)) ∧
    (0 <= quantity_nano (ResourceList_Storage (nd_FreeResource n2)))%Z.
Proof.
  intros Hwf Hco Hn Hcap Hq Hskip Hbasic Hlive Hno Hnd Hall H0 Hin Hfilter Hok.
  destruct (Filter_success _ _ _ _ _ _ Hskip Hfilter Hok) as (n0 & n' & Hn0 & Hs & -> & Hacc).
  rewrite Hn in Hn0. injection Hn0 as <-.
  destruct (virtual_facts node (cd_mustLocal d)) as (Ha & _ & Hsz). rewrite Hno in Ha.
  destruct (basic_covers _ _ _ Ha Hbasic Hacc) as (n1 & Hs1 & Hcov).
  pose proof (nwf_resv _ _ (Hwf _ _ Hn)) as Hrw.
  assert (0 <= sumZ (pvc_size <$> cd_mustLocal d))%Z as Hsum.
  { apply sumZ_fmap_nonneg. eapply Forall_impl; [exact Hall|]. by intros x (_ & _ & Hx). }
  assert (is_int64 (committed n)) as Hcn by (unfold is_int64 in *; lia).
  assert (quantity_nano (ResourceList_Storage (nd_FreeResource n)) = quantity_nano q - committed n * 1000000000)%Z as Hfree.
  { rewrite (Hco _ _ Hn). by apply (free_storage_eq n cap q). }
  rewrite CmpInt64_lt, (free_storage_eq n1 cap q) in Hcov; [|by rewrite (sn_pool _ _ Hs1)|done|by rewrite (same_node_committed n n1)].
  rewrite (same_node_committed n n1), Hsz in Hcov by done.
  rewrite uwrap64_id, wrap64_id in Hcov by (unfold is_int64, is_uint64 in *; lia).
  assert (NodeMap (on_node (k8n_Name node) (λ _, n') s) !! k8n_Name node = Some n') as Hn'.
  { unfold on_node. rewrite Hn. cbn. apply lookup_insert_eq. }
  rewrite (Reserve_run d _ _ n') by done.
  assert (bound_ids n' = bound_ids n) as Hbi by (apply bound_ids_ext, Hs).
  destruct (book_all (cd_mustLocal d) n' cap q) as (Hb & _ & Hf); try done.
  - eapply resv_wf_subseteq; [apply Hs|done].
  - eapply Forall_impl; [exact Hall|]. intros pvc (H1 & H2 & H3). rewrite Hbi. split; [done|]. split; [|done].
    by rewrite (sn_kept _ _ Hs).
  - by rewrite (sn_pool _ _ Hs).
  - by rewrite (same_node_committed n n').
  - by rewrite (same_node_committed n n').
  - rewrite (sn_free _ _ Hs), Hfree. lia.
  - rewrite (sn_free _ _ Hs), Hfree, (same_node_committed n n') by done. lia.
  - eexists _, (book (cd_mustLocal d) n'). split; [done|]. split; [|done].
    unfold on_node at 1. rewrite Hn'. cbn. apply lookup_insert_eq.
Qed.

(** *** Giving back *)

(** A node is determined by its pool, volumes and reservations. *)
Lemma node_determined n n' : nd_Pool n' = nd_Pool n → nd_Volumes n' = nd_Volumes n →
  nd_resvSet n' = nd_resvSet n → free_coherent n → free_coherent n' → n' = n.
Proof.
  unfold free_coherent. destruct n as [p v f r], n' as [p' v' f' r']. cbn. intros -> -> -> Hf Hf'. f_equal.
  rewrite Hf, Hf'. unfold GetFreeResourceNonLock, free_resource_in_order. cbn [nd_Pool nd_resvSet].
  set (h := bool_decide _).
  change (free_minus h (Build_Node p v f' r) (rs_Items r)) with (free_minus h (Build_Node p v f r) (rs_Items r)).
  by destruct (free_minus h _ _).
Qed.

Lemma book_shape pvcs n : resv_clean n → free_coherent n → resv_wf (nd_resvSet n) →
  Forall (λ pvc, pvc_id pvc ∉ bound_ids n) pvcs →
  let m := book pvcs n in
  nd_Pool m = nd_Pool n ∧ nd_Volumes m = nd_Volumes n ∧ resv_wf (nd_resvSet m) ∧ free_coherent m ∧ resv_clean m ∧
  ∀ k, k ∉ pvc_id <$> pvcs → nd_resvSet m !! k = nd_resvSet n !! k.
Proof.
  intros Hc Hco Hwf Hb. cbv zeta. revert n Hc Hco Hwf Hb. induction pvcs as [|pvc pvcs IH]; intros n Hc Hco Hwf Hb; [done|].
  apply Forall_cons in Hb as [Hb Hall]. change (book (pvc :: pvcs) n) with (book pvcs (Node_Reserve (pvc_resv pvc) n)).
  set (n1 := Node_Reserve (pvc_resv pvc) n). assert (nd_Volumes n1 = nd_Volumes n) as Hv by apply Node_Reserve_volumes.
  assert (resv_clean n1) as Hc1.
  { intros k. rewrite (bound_ids_ext n1 n) by done. intros Hk. unfold n1, Node_Reserve.
    destruct (existsb _ _); [by apply Hc|]. destruct (decide _); [by apply Hc|]. rewrite update_free_resv.
    eapply lookup_weaken_None; [|apply GetFree_resv_sub]. cbn.
    rewrite lookup_insert_ne; [by apply Hc|]. intros <-. by apply Hb. }
  assert (free_coherent n1 ∧ resv_wf (nd_resvSet n1)) as [Hco1 Hwf1].
  { unfold n1, Node_Reserve. destruct (existsb _ _); [done|]. destruct (decide _); [done|].
    assert (resv_wf (rs_Reserve (pvc_resv pvc) (nd_resvSet n))) as Hw by (by apply resv_wf_insert).
    split; [by apply update_free_coherent|]. rewrite update_free_resv. eapply resv_wf_subseteq; [apply GetFree_resv_sub|exact Hw]. }
  destruct (IH n1 Hc1 Hco1 Hwf1) as (H1 & H2 & H3 & H4 & H5 & H6).
  { by rewrite (bound_ids_ext n1 n). }
  split; [rewrite H1; apply Node_Reserve_pool|]. split; [by rewrite H2|]. split; [done|]. split; [done|]. split; [done|].
  intros k Hk. rewrite fmap_cons, not_elem_of_cons in Hk. destruct Hk as [Hne Hk]. rewrite H6 by done.
  destruct (decide (k ∈ bound_ids n)) as [Hkb|Hkb]; [|by apply Node_Reserve_other].
  rewrite Hc by done. apply Hc1. by rewrite (bound_ids_ext n1 n).
Qed.
Definition release (ids : list string) n : Node := foldl (λ n id, Node_Unreserve id n) n ids.
Lemma release_shape ids n : resv_clean n → free_coherent n → resv_wf (nd_resvSet n) →
  let m := release ids n in
  nd_Pool m = nd_Pool n ∧ nd_Volumes m = nd_Volumes n ∧ free_coherent m ∧
  ∀ k, nd_resvSet m !! k = if decide (k ∈ ids) then None else nd_resvSet n !! k.
Proof.
  cbv zeta. revert n. induction ids as [|id ids IH]; intros n Hc Hco Hwf; [done|].
  change (release (id :: ids) n) with (release ids (Node_Unreserve id n)). set (n1 := Node_Unreserve id n).
  assert (nd_Volumes n1 = nd_Volumes n) as Hv by (unfold n1, Node_Unreserve; by rewrite update_free_volumes).
  assert (resv_wf (rs_Unreserve id (nd_resvSet n))) as Hw by (by apply resv_wf_delete).
  assert (nd_resvSet n1 = delete id (nd_resvSet n)) as Hr.
  { unfold n1, Node_Unreserve. rewrite update_free_resv, GetFree_resv_clean; [done|].
    intros k Hk. cbn. unfold rs_Unreserve. destruct (decide (id = k)) as [->|Hne]; [apply lookup_delete_eq|].
    rewrite lookup_delete_ne by done. by apply Hc. }
  destruct (IH n1) as (H1 & H2 & H3 & H4).
  - intros k Hk. rewrite Hr. rewrite (bound_ids_ext n1 n) in Hk by done.
    destruct (decide (id = k)) as [->|Hne]; [apply lookup_delete_eq|]. rewrite lookup_delete_ne by done. by apply Hc.
  - unfold n1, Node_Unreserve. by apply update_free_coherent.
  - rewrite Hr. exact Hw.
  - split; [rewrite H1; unfold n1, Node_Unreserve; by rewrite update_free_pool|]. split; [by rewrite H2|]. split; [done|].
    intros k. rewrite H4, Hr. destruct (decide (k = id)) as [->|Hne].
    + rewrite lookup_delete_eq. rewrite (decide_True (P := id ∈ id :: ids)) by (by left). by destruct (decide _).
    + rewrite lookup_delete_ne by done. destruct (decide (k ∈ ids)); [by rewrite decide_True by (by right)|].
      rewrite decide_False; [done|]. rewrite elem_of_cons. tauto.
Qed.

Lemma Unreserve_run d name s n : cd_skip d = false → NodeMap s !! name = Some n →
  Unreserve name (Some d) s = on_node name (release (rv_id <$> cd_reservations d)) s.
Proof.
  intros Hskip Hn. unfold Unreserve. cbn. rewrite Hskip. unfold GetNodeByNodeID. rewrite Hn.
  rewrite (on_node_loop name (λ item, Node_Unreserve (rv_id item)) _ s n Hn).
  unfold on_node. rewrite Hn. do 2 f_equal. unfold release. by rewrite foldl_fmap.
Qed.

(** C22. Giving a pod's reservations back restores the state, whatever part of them
    was accepted: for claims that are new to a coherent node, [Unreserve] after
    [Reserve] is the identity. *)
Theorem Reserve_then_Unreserve d name s n :
  cd_skip d = false → cd_reservations d = [] → NodeMap s !! name = Some n → Forall pvc_live (cd_mustLocal d) →
  node_wf name n → free_coherent n → resv_clean n →
  Forall (λ pvc, pvc_id pvc ∉ bound_ids n ∧ nd_resvSet n !! pvc_id pvc = None) (cd_mustLocal d) →
  ∃ s1 cs, Reserve name (s, Some d) = Ret None (s1, cs) ∧ Unreserve name cs s1 = s.
Proof.
  intros Hskip Hnil Hn Hlive Hwf Hco Hc Hall. rewrite (Reserve_run d name s n) by done. do 2 eexists. split; [done|].
  destruct (book_shape (cd_mustLocal d) n) as (P1 & V1 & W1 & C1 & K1 & R1); [done|done|apply Hwf| |].
  { eapply Forall_impl; [exact Hall|]. by intros x [Hx _]. }
  assert (NodeMap (on_node name (book (cd_mustLocal d)) s) !! name = Some (book (cd_mustLocal d) n)) as Hn1.
  { unfold on_node. rewrite Hn. cbn. apply lookup_insert_eq. }
  rewrite (Unreserve_run (booked_cycle d) name _ _ Hskip Hn1). cbn [cd_reservations booked_cycle]. rewrite Hnil. cbn [app].
  rewrite <- list_fmap_compose. set (ids := (rv_id ∘ pvc_resv <$> cd_mustLocal d)).
  destruct (release_shape ids (book (cd_mustLocal d) n) K1 C1 W1) as (P2 & V2 & C2 & R2).
  assert (release ids (book (cd_mustLocal d) n) = n) as Hback.
  { apply node_determined; [congruence|congruence| |done|done]. apply map_eq. intros k. rewrite R2.
    destruct (decide (k ∈ ids)) as [Hk|Hk]; [|by apply R1].
    apply list_elem_of_fmap in Hk as (pvc & -> & Hin). rewrite Forall_forall in Hall. symmetry. by apply Hall. }
  unfold on_node. rewrite Hn. cbn. rewrite lookup_insert_eq. cbn. rewrite Hback, insert_insert_eq, insert_id by done. by destruct s.
Qed.

(** *** A decision that cannot be repeated *)

(** The node has no reservation of that id any more: it was given back, or a
    volume took it up. *)
Inductive released (name id : string) : State → Prop :=
| rel_unreserved d s : cd_skip d = false → id ∈ rv_id <$> cd_reservations d → released name id (Unreserve name (Some d) s)
| rel_bound vol s s' : getVolumeReservationID vol = id → id ≠ "" →
    BindAntstorVolume name vol s = (s', None) → released name id s'.

Lemma Node_Unreserve_sub id n : nd_resvSet (Node_Unreserve id n) ⊆ delete id (nd_resvSet n).
Proof. unfold Node_Unreserve. rewrite update_free_resv. apply (GetFree_resv_sub (nd_set_resvSet _ n)). Qed.
Lemma release_gone ids n k : k ∈ ids → nd_resvSet (release ids n) !! k = None.
Proof.
  assert (∀ ids n, nd_resvSet (release ids n) ⊆ nd_resvSet n) as Hsub.
  { clear. induction ids as [|id ids IH]; intros n; [done|].
    change (release (id :: ids) n) with (release ids (Node_Unreserve id n)). etrans; [apply IH|].
    etrans; [apply Node_Unreserve_sub|apply delete_subseteq]. }
  revert n. induction ids as [|id ids IH]; intros n Hk; [by apply elem_of_nil in Hk|].
  change (release (id :: ids) n) with (release ids (Node_Unreserve id n)).
  apply elem_of_cons in Hk as [->|Hk]; [|by apply IH].
  eapply lookup_weaken_None; [|apply Hsub]. eapply lookup_weaken_None; [|apply Node_Unreserve_sub]. apply lookup_delete_eq.
Qed.

Lemma AddVolume_consumes vol n n' : AddVolume vol n = (n', None) → getVolumeReservationID vol ≠ "" →
  nd_resvSet n' !! getVolumeReservationID vol = None.
Proof.
  unfold AddVolume. intros Hadd Hid. unfold drop_reservation in Hadd. rewrite decide_True in Hadd by done.
  destruct (AddVolume_loop _ _ _) as [[items dup] [e|]]; [done|]. injection Hadd as <-.
  rewrite update_free_resv. eapply lookup_weaken_None; [|apply GetFree_resv_sub].
  destruct dup; cbn; apply lookup_delete_eq.
Qed.
Lemma released_gone name id s n : released name id s → NodeMap s !! name = Some n → nd_resvSet n !! id = None.
Proof.
  intros [d s0 Hskip Hin|vol s0 s' <- Hid Hbind] Hn.
  - destruct (NodeMap s0 !! name) as [n0|] eqn:En.
    + rewrite (Unreserve_run d name s0 n0 Hskip En) in Hn. unfold on_node in Hn. rewrite En in Hn. cbn in Hn.
      rewrite lookup_insert_eq in Hn. injection Hn as <-. by apply release_gone.
    + unfold Unreserve in Hn. cbn in Hn. rewrite Hskip in Hn. unfold GetNodeByNodeID in Hn. rewrite En in Hn. congruence.
  - unfold BindAntstorVolume in Hbind. destruct (NodeMap s0 !! name) as [n0|] eqn:En; [|done].
    destruct (decide _); [done|]. destruct (AddVolume vol n0) as [m0 err0] eqn:Ea. destruct err0; [done|]. injection Hbind as <-.
    cbn in Hn. rewrite lookup_insert_eq in Hn. injection Hn as <-. by eapply AddVolume_consumes.
Qed.

(** A pod that was decided once cannot be decided again: [PreBind] writes the
    reservation's id into the claim, the filter then asks for that reservation,
    and it is gone as soon as it was given back, because the binding of the pod
    failed, or was taken up by the volume, so that no second pod with the claim
    passes either. *)
Lemma decided_pod_stuck cfg d node id s :
  cd_skip d = false → "Basic" ∈ cfg_Filters cfg → claimed_reservation (cd_mustLocal d) = Some id → state_wf s →
  released (k8n_Name node) id s →
  ∃ code msg s', Filter cfg (Some d) node s = Ret (Some (code, msg)) s' ∧ code ≠ StSuccess.
Proof.
  intros Hskip Hbasic Hid Hwf Hrel. destruct (Filter_total cfg d node s Hskip) as (st & s' & Hrun).
  assert (status_ok st = false) as Hst.
  { apply not_true_iff_false. intros Hok.
    destruct (Filter_success _ _ _ _ _ _ Hskip Hrun Hok) as (n & n' & Hn & _ & _ & Hacc).
    destruct (virtual_facts node (cd_mustLocal d)) as (Ha & _ & _). rewrite Hid in Ha.
    destruct (basic_refuses _ _ _ _ Ha Hbasic Hacc) as (n1 & r & Hs & Hr).
    pose proof (released_gone _ _ _ _ Hrel Hn) as Hgone.
    unfold Node_GetReservation, rs_GetById in Hr. apply List.find_some in Hr as [Hin Heq%bool_decide_eq_true].
    apply list_elem_of_In, elem_of_Items in Hin as [k Hk].
    pose proof (lookup_weaken _ _ _ _ Hk (sn_resv _ _ Hs)) as Hk'.
    pose proof (nwf_resv _ _ (Hwf _ _ Hn) _ _ Hk') as Hkey. cbn in Hkey. congruence. }
  destruct st as [[code msg]|]; [|done]. exists code, msg, s'. split; [done|]. intros ->. by apply bool_decide_eq_false in Hst.
Qed.
End plugin_props.

(** *** Evaluations *)

Definition ex_claim (name : string) (size : Z) (annos : gomap string) : @PVC NanoLib := {|
  pvc_meta := om_set_Annotations annos (ex_meta name); pvc_StorageClassName := Some "local";
  pvc_Requests := Some {[ ResourceStorage := NewQuantity size ]}; pvc_Phase := "Pending" |}.
Definition ex_cycle (pvcs : list (@PVC NanoLib)) (resvs : list Reservation) : @CycleData NanoLib := {|
  cd_mustLocal := pvcs; cd_other := []; cd_scMap := ∅; cd_skip := false; cd_reservations := resvs |}.
Definition ex_claims : list (@PVC NanoLib) := [ex_claim "c" (10 * GiB) None; ex_claim "d" (20 * GiB) None].
Definition ex_host : K8sNode := {| k8n_Name := "node-1"; k8n_Labels := None |}.

Lemma ex_state_reachable : state_wf ex_state ∧ state_coherent ex_state.
Proof.
  split; [apply (state_run_wf ex_actions NewState NewState_wf)|].
  apply (state_run_coherent ex_actions NewState NewState_wf NewState_coherent ex_actions_clean).
Qed.
Lemma ex_claims_new : Forall (λ pvc, pvc_id pvc ∉ bound_ids ex_node ∧ nd_resvSet ex_node !! pvc_id pvc = None ∧ (0 <= pvc_size pvc)%Z) ex_claims.
Proof.
  assert (bound_ids ex_node = {[ "" ]}) as Hb by (vm_compute; reflexivity).
  repeat constructor; rewrite ?Hb, ?elem_of_singleton; vm_compute; try reflexivity; discriminate.
Qed.
Lemma ex_filter_ok : ∃ st s1, Filter ex_cfg (Some (ex_cycle ex_claims [])) ex_host ex_state = Ret st s1 ∧ status_ok st = true.
Proof.
  assert (match Filter ex_cfg (Some (ex_cycle ex_claims [])) ex_host ex_state with Ret st _ => status_ok st | _ => false end = true) as H
    by (vm_compute; reflexivity).
  destruct (Filter _ _ _ _) as [st s1|]; [by exists st, s1|done].
Qed.

Lemma filtered_claims_booked_witness : ∃ s1 s2 n2,
  Reserve (L := NanoLib) "node-1" (s1, Some (ex_cycle ex_claims [])) = Ret None (s2, Some (booked_cycle (ex_cycle ex_claims []))) ∧
  NodeMap s2 !! "node-1" = Some n2 ∧
  (∀ pvc, pvc ∈ ex_claims → nd_resvSet n2 !! pvc_id pvc = Some (pvc_resv pvc)) ∧
  (0 <= quantity_nano (ResourceList_Storage (nd_FreeResource n2)))%Z.
Proof.
  destruct ex_filter_ok as (st & s1 & Hrun & Hok). exists s1.
  apply (filtered_claims_booked (L := NanoLib) ex_cfg (ex_cycle ex_claims []) ex_host ex_state st s1 ex_node
    {[ ResourceDiskPoolByte := NewQuantity (100 * GiB) ]} (NewQuantity (100 * GiB))).
  - apply ex_state_reachable.
  - apply ex_state_reachable.
  - exact ex_node_in.
  - vm_compute. reflexivity.
  - apply lookup_insert_eq.
  - reflexivity.
  - left.
  - repeat constructor.
  - reflexivity.
  - apply (bool_decide_unpack _). vm_compute. exact I.
  - exact ex_claims_new.
  - vm_compute. discriminate.
  - vm_compute. split; [discriminate|reflexivity].
  - exact Hrun.
  - exact Hok.
Defined.

Lemma Reserve_then_Unreserve_witness : ∃ s1 cs,
  Reserve (L := NanoLib) "node-1" (ex_state, Some (ex_cycle ex_claims [])) = Ret None (s1, cs) ∧ Unreserve "node-1" cs s1 = ex_state.
Proof.
  apply (Reserve_then_Unreserve (L := NanoLib) (ex_cycle ex_claims []) "node-1" ex_state ex_node).
  - reflexivity.
  - reflexivity.
  - exact ex_node_in.
  - repeat constructor.
  - exact ex_node_wf.
  - exact ex_node_coherent.
  - intros k Hk. assert (bound_ids ex_node = {[ "" ]}) as Hb by (vm_compute; reflexivity). rewrite Hb in Hk.
    apply elem_of_singleton in Hk as ->. vm_compute. reflexivity.
  - eapply Forall_impl; [exact ex_claims_new|]. by intros x (H1 & H2 & _).
Defined.

Lemma decided_pod_stuck_witness : ∃ code msg s',
  Filter (L := NanoLib) ex_cfg (Some (ex_cycle [ex_claim "c" GiB (Some {[ ReservationIDKey := "r" ]})] [])) ex_host
    (Unreserve "node-1" (Some (ex_cycle [] [NewReservation "r" (5 * GiB)])) ex_state) = Ret (Some (code, msg)) s' ∧ code ≠ StSuccess.
Proof.
  apply (decided_pod_stuck (L := NanoLib) ex_cfg _ ex_host "r").
  - reflexivity.
  - cbn. left.
  - vm_compute. reflexivity.
  - change (Unreserve "node-1" (Some (ex_cycle [] [NewReservation "r" (5 * GiB)])) ex_state)
      with (state_run [AUnreserve "node-1" "r"] ex_state).
    apply state_run_wf, ex_state_reachable.
  - apply rel_unreserved; [done|left].
Defined.
