(* ===== verification/Handlers.v ===== *)
(** * The event handlers

    [reconciler/handler]: the handlers of watch events. [VolumeEventHandler]
    rebuilds the volumes of the state when the manager starts and turns events
    into requests; [PVCEventHandler] books the claims that the kube-scheduler
    bound to a node; [NodeEventHandler] selects the nodes whose events count. *)

From Stdlib Require Import ZArith Lia.
From stdpp Require Import base gmap strings option list.
From S2P Require Import Prelude Strconv Float64 Misc K8s Api State Filter Sched Plugin Server SchedPlugin.

Section handlers.
Context {L : K8sLib}.

(** The object of an event, nil when it is missing. *)
Inductive EventObject :=
| EVolume (vol : AntstorVolume)
| EClaim (pvc : PVC)
| EOther (m : ObjectMeta).
Definition ev_meta (o : EventObject) : ObjectMeta :=
  match o with EVolume vol => vol_meta vol | EClaim pvc => pvc_meta pvc | EOther m => m end.
Definition ev_request (o : EventObject) : Request :=
  {| rq_Namespace := om_Namespace (ev_meta o); rq_Name := om_Name (ev_meta o) |}.
(** [cache.MetaNamespaceKeyFunc]. *)
Definition MetaNamespaceKey (m : ObjectMeta) : string :=
  if decide (om_Namespace m = "") then om_Name m else om_Namespace m +:+ "/" +:+ om_Name m.

(** The pool that stands in for one that is not known yet. *)
Definition empty_pool (nodeName : string) : StoragePool :=
  sp_set_Spec {| sps_KernelLVM := KernelLVM_zero; sps_SpdkLVStore := SpdkLVStore_zero; sps_Addresses := [];
                 sps_NodeInfo := {| ni_ID := nodeName; ni_IP := ""; ni_Hostname := ""; ni_Labels := None |} |}
    (sp_set_meta {| om_Name := nodeName; om_Namespace := ""; om_UID := ""; om_CreationTimestamp := om_CreationTimestamp ObjectMeta_zero;
                    om_DeletionTimestamp := None; om_Labels := None; om_Annotations := None;
                    om_OwnerReferences := []; om_Finalizers := [] |} StoragePool_zero).
(** Puts the stand-in into the state when the node is not found. *)
Definition ensure_node (nodeName : string) (s : State) : State :=
  match GetStoragePoolByNodeID nodeName s with
  | inr e => if IsNotFoundNodeError (Some e) then (SetStoragePool (empty_pool nodeName) s).2 else s
  | inl _ => s
  end.

(** ** Volumes

    A handler answers with the requests it puts into the queue. *)

(* [handler/volume_handler.go:25-79] VolumeEventHandler.Create *)
Definition vol_Create (obj : option EventObject) (s : State) : State * list Request :=
  match obj with
  | Some (EVolume vol) =>
      let s1 := if decide (vs_TargetNodeId (vol_Spec vol) ≠ "" ∧ om_DeletionTimestamp (vol_meta vol) = None)
                then (BindAntstorVolume (vs_TargetNodeId (vol_Spec vol)) vol
                        (ensure_node (vs_TargetNodeId (vol_Spec vol)) s)).1
                else s in
      (s1, [ev_request (EVolume vol)])
  | _ => (s, [])
  end.
(** The new object is read before it is compared with nil. *)
(* [handler/volume_handler.go:82-106] VolumeEventHandler.Update *)
Definition vol_Update (old new : option EventObject) : go unit (list Request) :=
  obj ← deref "ObjectNew" new;
  mret [ev_request obj].
(* [handler/volume_handler.go:109-127] VolumeEventHandler.Delete *)
Definition vol_Delete (obj : option EventObject) : list Request :=
  match obj with Some o => [ev_request o] | None => [] end.
(* [handler/volume_handler.go:130-147] VolumeEventHandler.Generic *)
Definition vol_Generic (obj : option EventObject) : list Request :=
  match obj with Some o => [ev_request o] | None => [] end.

(** ** Nodes *)

(** [labels.SelectorFromSet(set).Matches(labels)]: every entry is there. *)
Definition set_matches (set : gomap string) (labels : gomap string) : bool :=
  forallb (λ kv, bool_decide (map_get labels kv.1 = Some kv.2)) (map_to_list (default ∅ set)).

(* [handler/node_handler.go:114-132] validateNode *)
Definition validateNode (cfg : SchedulerConfig) (obj : option EventObject) : bool :=
  match obj with
  | None => false
  | Some o =>
      if decide (default ∅ (cfg_NodeCacheSelector cfg) = ∅) then true
      else set_matches (cfg_NodeCacheSelector cfg) (om_Labels (ev_meta o))
  end.
(** The name of a node is the name of its pool. *)
Definition node_requests (cfg : SchedulerConfig) (obj : option EventObject) : list Request :=
  match obj with
  | Some o => if validateNode cfg obj then [{| rq_Namespace := DefaultNamespace; rq_Name := om_Name (ev_meta o) |}] else []
  | None => []
  end.
(* [handler/node_handler.go:28-38] NodeEventHandler.Create *)
Definition node_Create (cfg : SchedulerConfig) (obj : option EventObject) : list Request := node_requests cfg obj.
(* [handler/node_handler.go:41-51] NodeEventHandler.Update *)
Definition node_Update (cfg : SchedulerConfig) (old new : option EventObject) : list Request := node_requests cfg new.
(* [handler/node_handler.go:54-64] NodeEventHandler.Delete *)
Definition node_Delete (cfg : SchedulerConfig) (obj : option EventObject) : list Request := node_requests cfg obj.
(* [handler/node_handler.go:67-77] NodeEventHandler.Generic *)
Definition node_Generic (cfg : SchedulerConfig) (obj : option EventObject) : list Request := node_requests cfg obj.
(* [handler/node_handler.go:79-85] NodeEventHandler.FilterObject *)
Definition FilterObject (cfg : SchedulerConfig) (obj : option EventObject) : bool :=
  match obj with Some _ => validateNode cfg obj | None => false end.

(** ** Claims *)

Section claims.
Context {W : Type} (sc_Get : string → go W (result StorageClass)).

(** The state, the cached storage classes and the server they come from. *)
Definition PVCWorld : Type := State * (gmap string StorageClass * W).
Abbreviation PM := (go PVCWorld).

(* [handler/storageclass_cache.go:29-42] CachedStorageClass.GetByName *)
Definition GetByName (name : string) : go (gmap string StorageClass * W) (result StorageClass) :=
  st ← gget;
  match (st : gmap string StorageClass * W).1 !! name with
  | Some val => mret (inl val)
  | None =>
      r ← on_snd (sc_Get name);
      match r with
      | inl sc => _ ← gmodify (λ st : gmap string StorageClass * W, (<[name := sc]> st.1, st.2)); mret (inl sc)
      | inr e => mret (inr e)
      end
  end.

(* [handler/pvc_handler.go:74-89] PVCEventHandler.isAntstorMustLocalPVCBound *)
Definition isAntstorMustLocalPVCBound (pvc : PVC) : PM (string * bool) :=
  match pvc_StorageClassName pvc with
  | None => mret ("", false)
  | Some name =>
      r ← on_snd (GetByName name);
      match r with
      | inr _ => mret ("", false)
      | inl sc =>
          mret (match map_get (pvc_annotations pvc) K8SAnnoSelectedNode with
                | Some nodeName => (nodeName, isMustLocalStorageClass sc)
                | None => ("", false)
                end)
      end
  end.

(** [NewPvcReservation] is nil for a claim that is being deleted. *)
(* [handler/pvc_handler.go:91-138] PVCEventHandler.OnAdd *)
Definition OnAdd (obj : option EventObject) : PM unit :=
  match obj with
  | Some (EClaim pvc) =>
      '(nodeName, bound) ← isAntstorMustLocalPVCBound pvc;
      if bound : bool then
        _ ← gmodify (λ w : PVCWorld, (ensure_node nodeName w.1, w.2));
        w ← gget;
        match GetNodeByNodeID nodeName (w : PVCWorld).1 with
        | inr _ => mret tt
        | inl _ =>
            resv ← deref "ReservationIface" (NewPvcReservation (pvc_meta pvc) (pvc_Requests pvc));
            gmodify (λ w : PVCWorld, (on_node nodeName (Node_Reserve resv) w.1, w.2))
        end
      else mret tt
  | _ => mret tt
  end.
(* [handler/pvc_handler.go:35-49] PVCEventHandler.Create *)
Definition pvc_Create (obj : option EventObject) : PM unit :=
  match obj with Some _ => OnAdd obj | None => mret tt end.
(* [handler/pvc_handler.go:150-170] PVCEventHandler.OnDelete *)
Definition OnDelete (obj : option EventObject) : PM unit :=
  match obj with
  | Some (EClaim pvc) =>
      '(nodeName, _) ← isAntstorMustLocalPVCBound pvc;
      if decide (nodeName ≠ "") then
        gmodify (λ w : PVCWorld, (on_node nodeName (Node_Unreserve (MetaNamespaceKey (pvc_meta pvc))) w.1, w.2))
      else mret tt
  | _ => mret tt
  end.
(* [handler/pvc_handler.go:57-63] PVCEventHandler.Delete *)
Definition pvc_Delete (obj : option EventObject) : PM unit :=
  match obj with Some _ => OnDelete obj | None => mret tt end.
End claims.
End handlers.

(** ** The state rebuilt from the events

    After a restart every claim and every volume arrives as a create event, in
    any order. *)

Section rebuild.
Context {L : K8sLib} {HL : K8sLaws L}.
Implicit Types (n : Node) (s : State) (pvc : PVC) (vol : AntstorVolume) (ev : EventObject) (l : list EventObject).

(** What the storage classes say of a claim: its node, and whether it counts. *)
Definition claim_node (classes : string → result StorageClass) pvc : string * bool :=
  match pvc_StorageClassName pvc with
  | None => ("", false)
  | Some name =>
      match classes name with
      | inr _ => ("", false)
      | inl sc => match map_get (pvc_annotations pvc) K8SAnnoSelectedNode with
                  | Some nodeName => (nodeName, isMustLocalStorageClass sc)
                  | None => ("", false)
                  end
      end
  end.

(** *** One node *)

(** The node an event changes. *)
Definition ev_target (classes : string → result StorageClass) ev : option string :=
  match ev with
  | EVolume vol => if decide (vs_TargetNodeId (vol_Spec vol) ≠ "" ∧ om_DeletionTimestamp (vol_meta vol) = None)
                   then Some (vs_TargetNodeId (vol_Spec vol)) else None
  | EClaim pvc => let '(nodeName, bound) := claim_node classes pvc in if bound then Some nodeName else None
  | EOther _ => None
  end.
Context (classes : string → result StorageClass).
Definition vols_on (id : string) l : list AntstorVolume :=
  omap (λ ev, match ev with EVolume vol => if decide (ev_target classes ev = Some id) then Some vol else None | _ => None end) l.
Definition claims_on (id : string) l : list PVC :=
  omap (λ ev, match ev with EClaim pvc => if decide (ev_target classes ev = Some id) then Some pvc else None | _ => None end) l.
Definition claims_map (id : string) l : ReservationSet :=
  list_to_map ((λ pvc, (pvc_id pvc, pvc_resv pvc)) <$> claims_on id l).
(** The bytes a node is asked for. *)
Definition asked (id : string) l : Z :=
  (sumZ (GetTotalSize <$> vols_on id l) + sumZ (pvc_size <$> claims_on id l))%Z.

(** The books of a node after the events of a list, whatever their order. *)
Record books (id : string) (n0 : Node) l n : Prop := {
bk_pool : nd_Pool n = nd_Pool n0;
bk_volumes : nd_Volumes n ≡ₚ (place_on n0 <$> vols_on id l) ++ nd_Volumes n0;
bk_free : free_coherent n;
bk_resv k : nd_resvSet n !! k = if decide (k ∈ bound_ids n) then None else (claims_map id l ∪ nd_resvSet n0) !! k;
}.

(** The node can take everything it is asked for. *)
Record fits (id : string) l n0 : Prop := {
ft_wf : node_wf id n0;
ft_coherent : free_coherent n0;
ft_clean : resv_clean n0;
ft_nonneg : (0 <= sumZ (rl_SizeByte <$> klvm_ReservedLVol (sps_KernelLVM (sp_Spec (nd_Pool n0)))))%Z;
ft_resv : Forall (λ r, 0 <= rv_sizeByte r)%Z (rs_Items (nd_resvSet n0));
ft_capacity : ∃ cap q, spst_Capacity (sp_Status (nd_Pool n0)) = Some cap ∧ cap !! ResourceDiskPoolByte = Some q ∧
  ((committed n0 + asked id l) * 1000000000 <= quantity_nano q)%Z;
ft_int : is_int64 (committed n0 + asked id l);
ft_claims : NoDup (pvc_id <$> claims_on id l);
ft_claims_ok : Forall (λ pvc, pvc_live pvc ∧ (0 <= pvc_size pvc)%Z ∧ nd_resvSet n0 !! pvc_id pvc = None) (claims_on id l);
ft_names : NoDup (vol_Name <$> (vols_on id l ++ nd_Volumes n0));
}.

Lemma GetFree_resv_capacity n cap q : resv_wf (nd_resvSet n) →
  spst_Capacity (sp_Status (nd_Pool n)) = Some cap → cap !! ResourceDiskPoolByte = Some q →
  ∀ k, nd_resvSet (update_free n) !! k = if decide (k ∈ bound_ids n) then None else nd_resvSet n !! k.
Proof.
  intros Hwf Hcap Hq k. rewrite update_free_resv. unfold GetFreeResourceNonLock, free_resource_in_order.
  rewrite Hcap. csimpl. rewrite Hq, bool_decide_eq_true_2 by eauto.
  pose proof (free_minus_true n (rs_Items (nd_resvSet n))) as [_ H2].
  destruct (free_minus _ _ _) as [m rs]. csimpl in *. rewrite H2.
  destruct (decide (k ∈ bound_ids n)) as [Hb|Hb]; [|by rewrite decide_False by tauto].
  destruct (nd_resvSet n !! k) as [r|] eqn:E; [|by case_decide]. rewrite decide_True; [done|]. split; [done|].
  apply list_elem_of_fmap. exists r. split; [symmetry; by apply (Hwf _ _ E)|]. apply elem_of_Items. by exists k.
Qed.

Lemma sumZ_submseteq (k l : list Z) : k ⊆+ l → Forall (λ x, 0 <= x)%Z l → (sumZ k <= sumZ l)%Z.
Proof.
  intros (k' & Hp)%submseteq_Permutation Hl. rewrite (sumZ_perm _ _ Hp), sumZ_app. rewrite Hp in Hl.
  apply Forall_app in Hl as [_ Hl]. assert (0 <= sumZ k')%Z; [|lia].
  pose proof (sumZ_fmap_nonneg (λ x : Z, x) k' Hl) as Hn. by rewrite list_fmap_id in Hn.
Qed.

Lemma Items_union (m1 m2 : ReservationSet) : map_disjoint m1 m2 → rs_Items (m1 ∪ m2) ≡ₚ rs_Items m1 ++ rs_Items m2.
Proof.
  intros Hd. unfold rs_Items. rewrite <- fmap_app. apply Permutation_map, NoDup_Permutation.
  - apply NoDup_map_to_list.
  - apply NoDup_app. split; [apply NoDup_map_to_list|]. split; [|apply NoDup_map_to_list].
    intros [k r] H1%elem_of_map_to_list H2%elem_of_map_to_list. by apply (map_disjoint_spec m1 m2) with k r r in Hd.
  - intros [k r]. rewrite elem_of_app, !elem_of_map_to_list. by apply lookup_union_Some.
Qed.
Lemma filter_all {A} (P : A → Prop) `{!∀ x, Decision (P x)} (xs : list A) : Forall P xs → filter P xs = xs.
Proof. induction 1 as [|x xs Hx _ IH]; [done|]. by rewrite filter_cons_True, IH. Qed.

Lemma claims_map_items id l : NoDup (pvc_id <$> claims_on id l) →
  rs_Items (claims_map id l) ≡ₚ pvc_resv <$> claims_on id l.
Proof.
  intros Hnd. unfold rs_Items, claims_map. rewrite map_to_list_to_map.
  - by rewrite <- list_fmap_compose.
  - by rewrite <- list_fmap_compose.
Qed.
Lemma claims_map_wf id l : resv_wf (claims_map id l).
Proof.
  intros k r Hk. unfold claims_map in Hk. apply elem_of_list_to_map_2, list_elem_of_fmap in Hk as (pvc & [= -> ->] & _). done.
Qed.
Lemma claims_map_none id l k : k ∉ pvc_id <$> claims_on id l → claims_map id l !! k = None.
Proof. intros Hk. apply not_elem_of_list_to_map. by rewrite <- list_fmap_compose. Qed.

Lemma books_wf id n0 l n : resv_wf (nd_resvSet n0) → books id n0 l n → resv_wf (nd_resvSet n).
Proof.
  intros Hwf [_ _ _ Hr] k r Hk. rewrite Hr in Hk. destruct (decide _); [done|].
  apply lookup_union_Some_raw in Hk as [Hk|[_ Hk]]; [by apply (claims_map_wf id l)|by apply Hwf].
Qed.
(** What is committed is bounded by what was asked for. *)
Lemma books_committed id n0 l n : resv_wf (nd_resvSet n0) → resv_clean n0 →
  Forall (λ r, 0 <= rv_sizeByte r)%Z (rs_Items (nd_resvSet n0)) →
  NoDup (pvc_id <$> claims_on id l) → Forall (λ pvc, (0 <= pvc_size pvc)%Z ∧ nd_resvSet n0 !! pvc_id pvc = None) (claims_on id l) →
  (0 <= sumZ (rl_SizeByte <$> klvm_ReservedLVol (sps_KernelLVM (sp_Spec (nd_Pool n0)))))%Z →
  books id n0 l n → (0 <= committed n <= committed n0 + asked id l)%Z.
Proof.
  intros Hwf Hc Hnn Hnd Hok Hlv Hb. pose proof (books_wf _ _ _ _ Hwf Hb) as Hwfn. destruct Hb as [Hp Hv _ Hr].
  unfold committed, committed_by, asked. rewrite Hp.
  rewrite (sumZ_perm (GetTotalSize <$> nd_Volumes n) (GetTotalSize <$> ((place_on n0 <$> vols_on id l) ++ nd_Volumes n0)))
    by (by apply Permutation_map). rewrite fmap_app, sumZ_app, <- list_fmap_compose.
  assert (GetTotalSize ∘ place_on n0 <$> vols_on id l = GetTotalSize <$> vols_on id l) as -> by done.
  assert (map_disjoint (claims_map id l) (nd_resvSet n0)) as Hd.
  { apply map_disjoint_spec. intros k r1 r2 H1 H2. rewrite Forall_forall in Hok. unfold claims_map in H1.
    apply elem_of_list_to_map_2, list_elem_of_fmap in H1 as (pvc & [= -> ->] & Hin). destruct (Hok _ Hin). congruence. }
  assert (unbound n (rs_Items (nd_resvSet n)) ⊆+ rs_Items (claims_map id l) ++ rs_Items (nd_resvSet n0)) as Hsub.
  { etrans; [apply sublist_submseteq, sublist_filter|]. rewrite <- Items_union by done.
    apply fmap_submseteq, map_to_list_submseteq, map_subseteq_spec. intros k r Hk. rewrite Hr in Hk. by destruct (decide _). }
  assert (unbound n0 (rs_Items (nd_resvSet n0)) = rs_Items (nd_resvSet n0)) as ->.
  { apply filter_all,  Forall_forall. intros r [k Hk]%elem_of_Items Hin. pose proof (Hwf _ _ Hk) as Hid. cbn in Hid.
    rewrite Hid in Hin. rewrite (Hc k Hin) in Hk. done. }
  pose proof (sumZ_submseteq _ _ (fmap_submseteq rv_sizeByte _ _ Hsub)) as Hle.
  rewrite fmap_app, sumZ_app in Hle.
  assert (rv_sizeByte <$> rs_Items (claims_map id l) ≡ₚ pvc_size <$> claims_on id l) as Hcl.
  { rewrite (claims_map_items id l Hnd). by rewrite <- list_fmap_compose. }
  rewrite (sumZ_perm _ _ Hcl) in Hle.
  assert (Forall (λ x, 0 <= x)%Z (rv_sizeByte <$> rs_Items (claims_map id l) ++ rs_Items (nd_resvSet n0))) as Hall.
  { rewrite fmap_app, Forall_app. split; [|by apply Forall_fmap]. rewrite Hcl. apply Forall_fmap.
    eapply Forall_impl; [exact Hok|]. by intros x [Hx _]. }
  rewrite fmap_app in Hall. specialize (Hle Hall).
  assert (0 <= sumZ (rv_sizeByte <$> unbound n (rs_Items (nd_resvSet n))))%Z as H1.
  { apply sumZ_fmap_nonneg. apply Forall_forall. intros r Hin. rewrite <- fmap_app, Forall_fmap, Forall_forall in Hall.
    apply Hall. by eapply elem_of_submseteq. }
  assert (∀ vs, 0 <= sumZ (GetTotalSize <$> vs))%Z as H2.
  { intros vs. apply sumZ_fmap_nonneg, Forall_forall. intros v _. apply GetTotalSize_range. }
  pose proof (H2 (vols_on id l)). pose proof (H2 (nd_Volumes n0)). lia.
Qed.

(** The changes of the two kinds of events. *)
Lemma asked_cons_claim id l pvc : ev_target classes (EClaim pvc) = Some id → asked id (EClaim pvc :: l) = (pvc_size pvc + asked id l)%Z.
Proof. intros Ht. unfold asked, vols_on, claims_on. cbn [omap list_omap]. rewrite decide_True by done. rewrite sumZ_fmap_cons. lia. Qed.
Lemma books_claim id n0 l pvc n : fits id (EClaim pvc :: l) n0 → ev_target classes (EClaim pvc) = Some id →
  books id n0 l n → books id n0 (EClaim pvc :: l) (Node_Reserve (pvc_resv pvc) n).
Proof.
  intros Hf Ht Hb. pose proof (asked_cons_claim id l pvc Ht) as Hask.
  assert (claims_on id (EClaim pvc :: l) = pvc :: claims_on id l) as Hcl by (unfold claims_on; cbn [omap list_omap]; by rewrite decide_True).
  assert (vols_on id (EClaim pvc :: l) = vols_on id l) as Hvl by done.
  destruct Hf as [Hwf Hco Hc Hnl Hnr (cap & q & Hcap & Hq & Hfit) Hint Hnd Hok _]. rewrite Hcl in Hnd, Hok. rewrite Hask in Hfit, Hint.
  cbn in Hnd. apply NoDup_cons in Hnd as [Hnew Hnd]. apply Forall_cons in Hok as [(Hlive & Hsz & Hfresh) Hok].
  pose proof (nwf_resv _ _ Hwf) as Hrw. pose proof (books_wf _ _ _ _ Hrw Hb) as Hwfn.
  assert (0 <= committed n <= committed n0 + asked id l)%Z as [H0 Hle].
  { apply books_committed; try done. eapply Forall_impl; [exact Hok|]. by intros x (_ & H1 & H2). }
  destruct Hb as [Hp Hv Hfr Hr].
  assert (∀ m, bound_ids m = bound_ids n → (∀ k, nd_resvSet m !! k = if decide (k ∈ bound_ids n) then None else rs_Reserve (pvc_resv pvc) (nd_resvSet n) !! k) →
    ∀ k, nd_resvSet m !! k = if decide (k ∈ bound_ids m) then None else (claims_map id (EClaim pvc :: l) ∪ nd_resvSet n0) !! k) as Hresv.
  { intros m Hbm Hm k. rewrite Hm, Hbm. destruct (decide (k ∈ bound_ids n)) as [|Hk]; [done|].
    assert (claims_map id (EClaim pvc :: l) = <[pvc_id pvc := pvc_resv pvc]> (claims_map id l)) as ->.
    { unfold claims_map. by rewrite Hcl. }
    unfold rs_Reserve. cbn [rv_id pvc_resv]. rewrite <- insert_union_l. destruct (decide (pvc_id pvc = k)) as [->|Hne]; [by rewrite !lookup_insert_eq|].
    rewrite !lookup_insert_ne by done. rewrite Hr, decide_False by done. done. }
  assert (nd_Volumes (Node_Reserve (pvc_resv pvc) n) = nd_Volumes n) as Hvn by apply Node_Reserve_volumes.
  split.
  - by rewrite Node_Reserve_pool.
  - by rewrite Hvn, Hvl.
  - unfold Node_Reserve. destruct (existsb _ _); [done|]. destruct (decide _); [done|]. apply update_free_coherent. by apply resv_wf_insert.
  - apply Hresv; [by apply bound_ids_ext|]. unfold Node_Reserve. destruct (existsb _ _) eqn:Hex.
    { apply bound_ids_existsb in Hex. intros k. rewrite Hr. destruct (decide _) as [|Hk]; [done|].
      unfold rs_Reserve. rewrite lookup_insert_ne; [|by intros <-]. by rewrite Hr, decide_False. }
    rewrite decide_False.
    + intros k. rewrite (GetFree_resv_capacity _ cap q); [done|by apply resv_wf_insert|cbn; by rewrite Hp|done].
    + rewrite CmpInt64_lt, Hfr, (free_storage_eq n cap q); [|by rewrite Hp|done|unfold is_int64 in *; lia]. cbn. lia.
Qed.
Lemma books_volume id n0 l vol n : fits id (EVolume vol :: l) n0 → ev_target classes (EVolume vol) = Some id →
  books id n0 l n → ∃ n', AddVolume vol n = (n', None) ∧ books id n0 (EVolume vol :: l) n'.
Proof.
  intros Hf Ht Hb.
  assert (vols_on id (EVolume vol :: l) = vol :: vols_on id l) as Hvl by (unfold vols_on; cbn [omap list_omap]; by rewrite decide_True).
  destruct Hf as [Hwf _ _ _ _ (cap & q & Hcap & Hq & _) _ _ _ Hnames]. rewrite Hvl in Hnames.
  pose proof (nwf_resv _ _ Hwf) as Hrw. pose proof (books_wf _ _ _ _ Hrw Hb) as Hwfn. destruct Hb as [Hp Hv Hfr Hr].
  assert (vol_Name vol ∉ vol_Name <$> nd_Volumes n) as Hnew.
  { cbn in Hnames. apply NoDup_cons in Hnames as [Hnot _]. rewrite Hv, fmap_app, <- list_fmap_compose.
    rewrite fmap_app in Hnot. exact Hnot. }
  set (n1 := drop_reservation vol n). assert (nd_Volumes n1 = nd_Volumes n ∧ nd_Pool n1 = nd_Pool n) as [Hv1 Hp1].
  { unfold n1, drop_reservation. by case_decide. }
  assert (resv_wf (nd_resvSet n1)) as Hw1.
  { unfold n1, drop_reservation. case_decide; [by apply resv_wf_delete|done]. }
  assert (∀ k, k ≠ getVolumeReservationID vol → nd_resvSet n1 !! k = nd_resvSet n !! k) as Hr1.
  { intros k Hk. unfold n1, drop_reservation. case_decide; [|done]. cbn. unfold rs_Unreserve. by apply lookup_delete_ne. }
  assert (AddVolume vol n = (update_free (nd_set_Volumes (nd_Volumes n1 ++ [place_on n1 vol]) n1), None)) as ->.
  { unfold AddVolume. fold n1. rewrite AddVolume_loop_fresh; [by destruct n1|]. by rewrite Hv1. }
  eexists. split; [done|]. assert (place_on n1 vol = place_on n0 vol) as Hpl.
  { unfold place_on, nd_Info. by rewrite Hp1, Hp. }
  set (n2 := nd_set_Volumes _ n1). assert (∀ k, k ∈ bound_ids n2 ↔ k = getVolumeReservationID vol ∨ k ∈ bound_ids n) as Hbi.
  { intros k. unfold bound_ids, n2. cbn. rewrite Hv1, fmap_app, list_to_set_app_L, elem_of_union. cbn.
    rewrite (right_id_L ∅ (∪)), elem_of_singleton. change (getVolumeReservationID (place_on n1 vol)) with (getVolumeReservationID vol). tauto. }
  split.
  - rewrite update_free_pool. cbn. by rewrite Hp1.
  - rewrite update_free_volumes. cbn [n2 nd_Volumes nd_set_Volumes]. rewrite Hvl, Hv1, Hpl, Hv, fmap_cons.
    rewrite (Permutation_app_comm _ [place_on n0 vol]). reflexivity.
  - by apply update_free_coherent.
  - intros k. rewrite (GetFree_resv_capacity n2 cap q); [|done|cbn; by rewrite Hp1, Hp|done].
    rewrite (bound_ids_ext (update_free n2) n2) by apply update_free_volumes.
    destruct (decide (k ∈ bound_ids n2)) as [|Hk]; [done|]. rewrite Hbi in Hk.
    cbn. rewrite Hr1, Hr, decide_False by tauto. done.
Qed.

(** *** The whole state *)

(** An event's effect on the state, and on the index of the volumes. *)
Definition handle_state ev s : State :=
  match ev with
  | EVolume _ => (vol_Create (Some ev) s).1
  | EClaim pvc => match ev_target classes ev with
                  | Some id => on_node id (Node_Reserve (pvc_resv pvc)) (ensure_node id s)
                  | None => s
                  end
  | EOther _ => s
  end.
Definition indexed ev : option (string * string) :=
  match ev with EVolume vol => (λ id, (vs_Uuid (vol_Spec vol), id)) <$> ev_target classes ev | _ => None end.

Record rebuilt s0 l s : Prop := {
rb_nodes id : match NodeMap s0 !! id with
              | Some n0 => ∃ n, NodeMap s !! id = Some n ∧ books id n0 l n
              | None => NodeMap s !! id = None
              end;
rb_index : volIDMap s = list_to_map (omap indexed l) ∪ volIDMap s0;
}.
(** The events [l] can be taken by the state: the nodes are known and have the
    room, and no two volumes share an identifier. *)
Record rebuildable s0 l : Prop := {
rd_nodes id n0 : NodeMap s0 !! id = Some n0 → fits id l n0;
rd_known ev id : ev ∈ l → ev_target classes ev = Some id → is_Some (NodeMap s0 !! id);
rd_uuid ev vol : ev ∈ l → ev = EVolume vol → vs_Uuid (vol_Spec vol) ≠ "";
rd_index : NoDup (omap indexed l).*1;
}.

Lemma books_other id n0 ev l n : ev_target classes ev ≠ Some id → books id n0 l n → books id n0 (ev :: l) n.
Proof.
  intros Ht [Hp Hv Hf Hr].
  assert (vols_on id (ev :: l) = vols_on id l) as Hvl.
  { unfold vols_on. cbn [omap list_omap]. destruct ev; try done. by rewrite decide_False. }
  assert (claims_on id (ev :: l) = claims_on id l) as Hcl.
  { unfold claims_on. cbn [omap list_omap]. destruct ev; try done. by rewrite decide_False. }
  split; [done|by rewrite Hvl|done|]. unfold claims_map. by rewrite Hcl.
Qed.
Lemma ensure_known id s : is_Some (NodeMap s !! id) → ensure_node id s = s.
Proof. intros [n Hn]. unfold ensure_node, GetStoragePoolByNodeID. by rewrite Hn. Qed.

Lemma rebuilt_step s0 ev l s : (∀ id n0, NodeMap s0 !! id = Some n0 → fits id (ev :: l) n0) →
  (∀ id, ev_target classes ev = Some id → is_Some (NodeMap s0 !! id)) →
  (∀ vol, ev = EVolume vol → vs_Uuid (vol_Spec vol) ≠ "") →
  rebuilt s0 l s → rebuilt s0 (ev :: l) (handle_state ev s).
Proof.
  intros Hfits Hknown Huuid [Hn Hi]. destruct (ev_target classes ev) as [id|] eqn:Ht.
  2: { assert (handle_state ev s = s) as ->.
       { destruct ev as [vol|pvc|m]; cbn [handle_state]; [|by rewrite Ht|done]. cbn in Ht |- *. by destruct (decide _). }
       split.
       - intros id. specialize (Hn id). destruct (NodeMap s0 !! id) as [n0|]; [|done]. destruct Hn as (n & Hn & Hb).
         exists n. split; [done|]. apply books_other; [congruence|done].
       - rewrite Hi. cbn. destruct ev; cbn in *; try done. by rewrite Ht. }
  destruct (Hknown id eq_refl) as [n0 Hn0]. pose proof (Hn id) as Hnid. rewrite Hn0 in Hnid. destruct Hnid as (n & Hns & Hb).
  assert (∀ n' idx, books id n0 (ev :: l) n' → idx = list_to_map (omap indexed (ev :: l)) ∪ volIDMap s0 →
    rebuilt s0 (ev :: l) {| NodeMap := <[id := n']> (NodeMap s); volIDMap := idx |}) as Hstep.
  { intros n' idx Hb' Hidx. split; [|done]. intros id'. cbn. destruct (decide (id = id')) as [->|Hne].
    - rewrite Hn0. exists n'. by rewrite lookup_insert_eq.
    - rewrite lookup_insert_ne by done. specialize (Hn id'). destruct (NodeMap s0 !! id') as [m0|]; [|done].
      destruct Hn as (m & Hm & Hbm). exists m. split; [done|]. apply books_other; [congruence|done]. }
  destruct ev as [vol|pvc|m]; [| |done].
  - assert (vs_TargetNodeId (vol_Spec vol) = id ∧ handle_state (EVolume vol) s = (BindAntstorVolume id vol (ensure_node id s)).1) as [Hid ->].
    { cbn in Ht |- *. destruct (decide _); [|done]. by injection Ht as ->. }
    rewrite ensure_known by eauto. destruct (books_volume id n0 l vol n (Hfits _ _ Hn0) Ht Hb) as (n' & Ha & Hb').
    unfold BindAntstorVolume. rewrite Hns, decide_False by (by apply Huuid). rewrite Ha. apply Hstep; [done|].
    cbn [volIDMap st_set_NodeMap]. rewrite Hi.
    cbn [omap list_omap indexed]. rewrite Ht. cbn [fmap option_fmap option_map list_to_map fst snd foldr]. by rewrite insert_union_l.
  - cbn [handle_state]. rewrite Ht, ensure_known by eauto. unfold on_node. rewrite Hns. apply Hstep; [|exact Hi].
    by apply books_claim; [apply Hfits| |].
Qed.
#[local] Instance vols_on_proper id : Proper (Permutation ==> Permutation) (vols_on id).
Proof. intros l1 l2 Hp. by apply omap_Permutation. Qed.
#[local] Instance claims_on_proper id : Proper (Permutation ==> Permutation) (claims_on id).
Proof. intros l1 l2 Hp. by apply omap_Permutation. Qed.

Lemma books_start id l n0 : fits id l n0 → books id n0 [] n0.
Proof.
  intros [Hwf Hco Hc _ _ _ _ _ _ _]. split; [done|done|done|]. intros k. destruct (decide _) as [Hk|Hk]; [by apply Hc|].
  unfold claims_map. cbn. by rewrite (left_id_L ∅ (∪)).
Qed.
Lemma fits_app id l1 l2 n0 : fits id (l1 ++ l2) n0 → fits id l2 n0.
Proof.
  intros Hf. pose proof (books_start _ _ _ Hf) as Hb. destruct Hf as [Hwf Hco Hc Hnl Hnr (cap & q & Hcap & Hq & Hfit) Hint Hnd Hok Hnames].
  assert (vols_on id (l1 ++ l2) = vols_on id l1 ++ vols_on id l2) as Hvl by apply omap_app.
  assert (claims_on id (l1 ++ l2) = claims_on id l1 ++ claims_on id l2) as Hcl by apply omap_app.
  unfold asked in Hfit, Hint. rewrite Hvl, Hcl, !fmap_app, !sumZ_app in Hfit, Hint.
  rewrite Hcl in Hnd, Hok. rewrite Hvl, <- app_assoc in Hnames. rewrite fmap_app in Hnd. rewrite fmap_app in Hnames.
  apply NoDup_app in Hnd as (_ & _ & Hnd). apply NoDup_app in Hnames as (_ & _ & Hnames). apply Forall_app in Hok as [Hok1 Hok].
  assert (∀ vs, 0 <= sumZ (GetTotalSize <$> vs))%Z as H2.
  { intros vs. apply sumZ_fmap_nonneg, Forall_forall. intros v _. apply GetTotalSize_range. }
  assert (0 <= sumZ (pvc_size <$> claims_on id l1))%Z as H3.
  { apply sumZ_fmap_nonneg. eapply Forall_impl; [exact Hok1|]. by intros x (_ & Hx & _). }
  assert (0 <= sumZ (pvc_size <$> claims_on id l2))%Z as H4.
  { apply sumZ_fmap_nonneg. eapply Forall_impl; [exact Hok|]. by intros x (_ & Hx & _). }
  destruct (books_committed id n0 [] n0) as [H0 _]; try done; [apply Hwf|constructor|].
  pose proof (H2 (vols_on id l1)). pose proof (H2 (vols_on id l2)).
  split; try done; unfold asked.
  - exists cap, q. split; [done|]. split; [done|]. lia.
  - unfold is_int64 in *. lia.
Qed.
Lemma fits_perm id l1 l2 n0 : l1 ≡ₚ l2 → fits id l1 n0 → fits id l2 n0.
Proof.
  intros Hp [Hwf Hco Hc Hnl Hnr (cap & q & Hcap & Hq & Hfit) Hint Hnd Hok Hnames].
  assert (vols_on id l1 ≡ₚ vols_on id l2) as Hvl by (by rewrite Hp).
  assert (claims_on id l1 ≡ₚ claims_on id l2) as Hcl by (by rewrite Hp).
  assert (asked id l1 = asked id l2) as Ha.
  { unfold asked. f_equal; apply sumZ_perm, fmap_Permutation; done. }
  rewrite Ha in Hfit, Hint. rewrite Hcl in Hnd, Hok. rewrite Hvl in Hnames. split; try done. by exists cap, q.
Qed.

(** Handling the events one after the other keeps the books. *)
Definition handle_states l s : State := foldl (λ s ev, handle_state ev s) s l.
Lemma rebuildable_perm s0 l1 l2 : l1 ≡ₚ l2 → rebuildable s0 l1 → rebuildable s0 l2.
Proof.
  intros Hp [H1 H2 H3 H4]. split.
  - intros id n0 Hn. eapply fits_perm; [exact Hp|]. by apply H1.
  - intros ev id Hin. apply H2. by rewrite Hp.
  - intros ev vol Hin. apply (H3 ev). by rewrite Hp.
  - assert (omap indexed l1 ≡ₚ omap indexed l2) as Ho by (by apply omap_Permutation). by rewrite <- Ho.
Qed.
Lemma handle_states_rebuilt s0 l : rebuildable s0 l → rebuilt s0 (rev l) (handle_states l s0).
Proof.
  intros Hr. apply (rebuildable_perm s0 l (rev l)) in Hr; [|apply Permutation_rev].
  induction l as [|ev l IH] using rev_ind.
  - destruct Hr as [H1 _ _ _]. split.
    + intros id. destruct (NodeMap s0 !! id) as [n0|] eqn:En; [|exact En]. exists n0. split; [exact En|].
      eapply books_start, H1, En.
    + cbn. by rewrite (left_id_L ∅ (∪)).
  - unfold handle_states. rewrite foldl_app. rewrite rev_app_distr in *. cbn [rev app foldl] in *.
    destruct Hr as [H1 H2 H3 H4]. apply rebuilt_step.
    + exact H1.
    + intros id. apply H2. by left.
    + intros vol. apply H3. by left.
    + apply IH. split.
      * intros id n0 Hn. apply (fits_app id [ev]). by apply H1.
      * intros ev' id Hin. apply H2. by right.
      * intros ev' vol Hin. apply (H3 ev'). by right.
      * cbn in H4. destruct (indexed ev); [|exact H4]. by apply NoDup_cons in H4 as [_ H4].
Qed.

(** Nodes and states that differ in the order of the volumes only. *)
Definition node_equiv n1 n2 : Prop :=
  nd_Pool n1 = nd_Pool n2 ∧ nd_Volumes n1 ≡ₚ nd_Volumes n2 ∧
  nd_FreeResource n1 = nd_FreeResource n2 ∧ nd_resvSet n1 = nd_resvSet n2.
Definition state_equiv s1 s2 : Prop :=
  volIDMap s1 = volIDMap s2 ∧ ∀ id, option_Forall2 node_equiv (NodeMap s1 !! id) (NodeMap s2 !! id).

Lemma books_determined id n0 l1 l2 n1 n2 : fits id l1 n0 → l1 ≡ₚ l2 → books id n0 l1 n1 → books id n0 l2 n2 → node_equiv n1 n2.
Proof.
  intros Hf Hp [P1 V1 F1 R1] [P2 V2 F2 R2].
  assert (vols_on id l1 ≡ₚ vols_on id l2) as Hvl by (by rewrite Hp).
  assert (claims_on id l1 ≡ₚ claims_on id l2) as Hcl by (by rewrite Hp).
  assert (nd_Volumes n1 ≡ₚ nd_Volumes n2) as Hv by (by rewrite V1, V2, Hvl).
  assert (bound_ids n1 = bound_ids n2) as Hbi.
  { unfold bound_ids. apply set_eq. intros k. rewrite !elem_of_list_to_set. by rewrite Hv. }
  assert (claims_map id l1 = claims_map id l2) as Hcm.
  { unfold claims_map. apply list_to_map_proper; [|by rewrite Hcl]. rewrite <- list_fmap_compose. apply Hf. }
  assert (nd_resvSet n1 = nd_resvSet n2) as Hr.
  { apply map_eq. intros k. by rewrite R1, R2, Hbi, Hcm. }
  split; [congruence|]. split; [done|]. split; [|done]. rewrite F1, F2. apply GetFree_value; [by rewrite P1, P2|].
  left. unfold committed, committed_by, unbound. rewrite P1, P2, Hr, Hbi. f_equal. f_equal. apply sumZ_perm. by rewrite Hv.
Qed.
Lemma rebuilt_determined s0 l1 l2 s1 s2 : rebuildable s0 l1 → l1 ≡ₚ l2 → rebuilt s0 l1 s1 → rebuilt s0 l2 s2 → state_equiv s1 s2.
Proof.
  intros [H1 _ _ H4] Hp [N1 I1] [N2 I2]. split.
  - rewrite I1, I2. f_equal. apply list_to_map_proper; [done|]. by apply omap_Permutation.
  - intros id. specialize (N1 id). specialize (N2 id). destruct (NodeMap s0 !! id) as [n0|] eqn:En.
    + destruct N1 as (n1 & -> & B1), N2 as (n2 & -> & B2). constructor. by eapply books_determined; [apply H1| | |].
    + rewrite N1, N2. constructor.
Qed.
Lemma rebuilt_perm s0 l1 l2 s : rebuildable s0 l1 → l1 ≡ₚ l2 → rebuilt s0 l1 s → rebuilt s0 l2 s.
Proof.
  intros [H1 _ _ H4] Hp [Hn Hi]. split.
  - intros id. specialize (Hn id). destruct (NodeMap s0 !! id) as [n0|] eqn:En; [|done]. destruct Hn as (n & Hn & [P V F R]).
    exists n. split; [done|]. split; [done|by rewrite V, Hp|done|]. intros k. rewrite R.
    assert (claims_map id l1 = claims_map id l2) as ->; [|done]. unfold claims_map. apply list_to_map_proper; [|by rewrite Hp]. rewrite <- list_fmap_compose. by apply (H1 id n0).
  - rewrite Hi. f_equal. apply list_to_map_proper; [done|by rewrite Hp].
Qed.

(** *** The handlers *)

Context {W : Type} (sc_Get : string → go W (result StorageClass)).
(** The storage classes do not change while the events are handled. *)
Definition classes_fixed : Prop := ∀ name w, ∃ w', sc_Get name w = Ret (classes name) w'.
Definition cache_ok (k : gmap string StorageClass * W) : Prop := ∀ name sc, k.1 !! name = Some sc → classes name = inl sc.

(** A create event goes to the handler of its kind. *)
Definition handle_event ev : go (@PVCWorld L W) unit :=
  match ev with
  | EVolume _ => gmodify (λ w : PVCWorld, ((vol_Create (Some ev) w.1).1, w.2))
  | _ => pvc_Create sc_Get (Some ev)
  end.
Fixpoint handle_events l : go (@PVCWorld L W) unit :=
  match l with
  | [] => mret tt
  | ev :: rest => _ ← handle_event ev; handle_events rest
  end.

Lemma GetByName_run name k : classes_fixed → cache_ok k → ∃ k', GetByName sc_Get name k = Ret (classes name) k' ∧ cache_ok k'.
Proof.
  intros Hf Hk. unfold GetByName. go_simpl. destruct (k.1 !! name) as [sc|] eqn:E.
  { exists k. by rewrite (Hk name sc E). }
  unfold on_snd. destruct k as [m w]. cbn in *. destruct (Hf name w) as (w' & Hw). rewrite Hw. cbn.
  destruct (classes name) as [sc|e] eqn:Ec; [|by exists (m, w')]. eexists. split; [done|].
  intros name' sc'. cbn. destruct (decide (name = name')) as [<-|Hne].
  - rewrite lookup_insert_eq. by intros [= <-].
  - rewrite lookup_insert_ne by done. apply Hk.
Qed.
Lemma bound_run pvc s k : classes_fixed → cache_ok k →
  ∃ k', isAntstorMustLocalPVCBound sc_Get pvc (s, k) = Ret (claim_node classes pvc) (s, k') ∧ cache_ok k'.
Proof.
  intros Hf Hk. unfold isAntstorMustLocalPVCBound, claim_node. destruct (pvc_StorageClassName pvc) as [name|]; [|by exists k].
  destruct (GetByName_run name k Hf Hk) as (k' & Hr & Hk'). exists k'. split; [|done]. go_simpl. unfold on_snd. cbn. rewrite Hr. cbn.
  by destruct (classes name).
Qed.
Lemma SetStoragePool_empty id s : NodeMap (SetStoragePool (empty_pool id) s).2 !! id = Some
  (match NodeMap s !! id with
   | Some val => update_free (nd_set_Pool (set_pool_capacity (empty_pool id)) val)
   | None => NewNode (set_pool_capacity (empty_pool id)) end).
Proof.
  unfold SetStoragePool. assert (ni_ID (sps_NodeInfo (sp_Spec (set_pool_capacity (empty_pool id)))) = id) as ->.
  { unfold set_pool_capacity. by destruct (decide _). }
  destruct (NodeMap s !! id); apply lookup_insert_eq.
Qed.
Lemma ensure_node_known id s : is_Some (NodeMap (ensure_node id s) !! id).
Proof.
  unfold ensure_node, GetStoragePoolByNodeID. destruct (NodeMap s !! id) as [n|] eqn:E; [by exists n|].
  destruct (IsNotFoundNodeError _) eqn:Hi; [|by vm_compute in Hi]. rewrite SetStoragePool_empty. by eexists.
Qed.

Lemma handle_event_run ev s k : classes_fixed → cache_ok k →
  (∀ pvc id, ev = EClaim pvc → ev_target classes ev = Some id → pvc_live pvc) →
  ∃ k', handle_event ev (s, k) = Ret tt (handle_state ev s, k') ∧ cache_ok k'.
Proof.
  intros Hf Hk Hlive. destruct ev as [vol|pvc|m]; [by exists k| |by exists k].
  destruct (bound_run pvc s k Hf Hk) as (k' & Hr & Hk'). exists k'. split; [|done].
  specialize (Hlive pvc). cbn [handle_event pvc_Create OnAdd handle_state]. unfold mbind at 1, go_mbind, go_bind. rewrite Hr.
  cbn [ev_target] in *. destruct (claim_node classes pvc) as [id []]; [|done]. go_simpl. unfold GetNodeByNodeID.
  destruct (ensure_node_known id s) as [n Hn]. rewrite Hn. cbn.
  assert (NewPvcReservation (pvc_meta pvc) (pvc_Requests pvc) = Some (pvc_resv pvc)) as ->.
  { unfold NewPvcReservation. by rewrite (Hlive id eq_refl eq_refl). }
  done.
Qed.
Lemma handle_events_run l s k : classes_fixed → cache_ok k →
  (∀ ev pvc id, ev ∈ l → ev = EClaim pvc → ev_target classes ev = Some id → pvc_live pvc) →
  ∃ k', handle_events l (s, k) = Ret tt (handle_states l s, k').
Proof.
  intros Hf. revert s k. induction l as [|ev l IH]; intros s k Hk Hl; [by exists k|].
  destruct (handle_event_run ev s k Hf Hk) as (k1 & Hr & Hk1). { intros pvc id. apply Hl. by left. }
  cbn [handle_events]. unfold mbind, go_mbind, go_bind. rewrite Hr. apply IH; [done|]. intros ev' pvc id Hin. apply Hl. by right.
Qed.
Lemma rebuildable_live s0 l : rebuildable s0 l →
  ∀ ev pvc id, ev ∈ l → ev = EClaim pvc → ev_target classes ev = Some id → pvc_live pvc.
Proof.
  intros [H1 H2 _ _] ev pvc id Hin -> Ht. destruct (H2 _ _ Hin Ht) as [n0 Hn0].
  pose proof (ft_claims_ok _ _ _ (H1 _ _ Hn0)) as Hok. rewrite Forall_forall in Hok. apply Hok.
  unfold claims_on. apply list_elem_of_omap. exists (EClaim pvc). split; [done|]. by rewrite decide_True.
Qed.

(** C30. The state that the handlers rebuild does not depend on the order of the
    events: for claims and volumes that the known nodes have room for, every
    order is handled without a panic and leads to the same pools, volumes,
    reservations, free storage and index, namely all the volumes, and the
    claims no volume belongs to. *)
Theorem rebuild_order_independent s0 l l' k : classes_fixed → cache_ok k → rebuildable s0 l → l ≡ₚ l' →
  ∃ s1 k1 s2 k2, handle_events l (s0, k) = Ret tt (s1, k1) ∧ handle_events l' (s0, k) = Ret tt (s2, k2) ∧
    rebuilt s0 l s1 ∧ state_equiv s1 s2.
Proof.
  intros Hf Hk Hr Hp. pose proof (rebuildable_perm s0 l l' Hp Hr) as Hr'.
  destruct (handle_events_run l s0 k Hf Hk (rebuildable_live s0 l Hr)) as (k1 & H1).
  destruct (handle_events_run l' s0 k Hf Hk (rebuildable_live s0 l' Hr')) as (k2 & H2).
  pose proof (rebuilt_perm s0 (rev l) l (handle_states l s0)) as B1.
  pose proof (rebuilt_perm s0 (rev l') l' (handle_states l' s0)) as B2.
  exists (handle_states l s0), k1, (handle_states l' s0), k2. split; [done|]. split; [done|].
  assert (rebuilt s0 l (handle_states l s0)) as C1.
  { apply B1; [|symmetry; apply Permutation_rev|by apply handle_states_rebuilt]. eapply rebuildable_perm; [apply Permutation_rev|done]. }
  assert (rebuilt s0 l' (handle_states l' s0)) as C2.
  { apply B2; [|symmetry; apply Permutation_rev|by apply handle_states_rebuilt]. eapply rebuildable_perm; [apply Permutation_rev|done]. }
  split; [done|]. exact (rebuilt_determined s0 l l' _ _ Hr Hp C1 C2).
Qed.

Lemma empty_capacity id : spst_Capacity (sp_Status (set_pool_capacity (empty_pool id))) = Some ∅.
Proof.
  unfold set_pool_capacity. rewrite decide_False; [done|]. intros [Ht _]. revert Ht.
  match goal with |- (GetVgTotalBytes ?p > 0)%Z → _ => change (GetVgTotalBytes p) with (Quantity_bytes Quantity_zero) end.
  unfold Quantity_bytes. rewrite (nano_as_int64 Quantity_zero 0); [lia|unfold is_int64; lia|by rewrite nano_zero].
Qed.
Lemma NewNode_shape pool : nd_Volumes (NewNode pool) = [] ∧ nd_Pool (NewNode pool) = pool ∧ nd_resvSet (NewNode pool) = ∅.
Proof.
  unfold NewNode. rewrite update_free_volumes, update_free_pool, update_free_resv. split; [done|]. split; [done|].
  apply map_eq. intros k. rewrite lookup_empty. eapply lookup_weaken_None; [|apply GetFree_resv_sub]. apply lookup_empty.
Qed.
Lemma stand_in_full id r : (0 < rv_sizeByte r)%Z →
  Node_Reserve r (NewNode (set_pool_capacity (empty_pool id))) = NewNode (set_pool_capacity (empty_pool id)).
Proof.
  intros Hr. unfold Node_Reserve. destruct (existsb _ _); [done|]. rewrite decide_True; [done|]. rewrite CmpInt64_lt.
  assert (nd_FreeResource (NewNode (set_pool_capacity (empty_pool id))) = Some ∅) as ->.
  { unfold NewNode. rewrite update_free_free. unfold GetFreeResourceNonLock, free_resource_in_order. cbn [nd_Pool].
    rewrite empty_capacity. destruct (free_minus _ _ _). cbn. by rewrite lookup_empty. }
  unfold ResourceList_Storage, map_get. cbn. rewrite lookup_empty. cbn. rewrite nano_zero. lia.
Qed.
Lemma NewNode_reset pool pool' : update_free (nd_set_Pool pool' (NewNode pool)) = NewNode pool'.
Proof.
  destruct (NewNode_shape pool) as (Hv & _ & Hr). symmetry. unfold NewNode at 1.
  rewrite <- (update_free_stored (nd_FreeResource (NewNode pool))).
  by unfold nd_set_Pool, nd_set_FreeResource; cbn; rewrite Hv, Hr.
Qed.

(** A claim whose event comes before its pool is forgotten: the stand-in
    node made for it has no space, so the reservation is refused, and once the
    pool is known the state is as if the event had never been seen. *)
Lemma early_claim_forgotten pvc id s k pool : classes_fixed → cache_ok k → pvc_live pvc → (0 < pvc_size pvc)%Z →
  claim_node classes pvc = (id, true) → NodeMap s !! id = None → ni_ID (sps_NodeInfo (sp_Spec pool)) = id →
  ∃ s1 k1, handle_events [EClaim pvc] (s, k) = Ret tt (s1, k1) ∧
    is_Some (NodeMap s1 !! id) ∧ (SetStoragePool pool s1).2 = (SetStoragePool pool s).2.
Proof.
  intros Hf Hk Hlive Hsz Hc Hn Hid. destruct (handle_events_run [EClaim pvc] s k Hf Hk) as (k1 & Hr).
  { intros ev pvc' id' Hin%list_elem_of_singleton -> _. by injection Hin as <-. }
  do 2 eexists. split; [exact Hr|]. cbn [handle_states foldl handle_state ev_target]. rewrite Hc.
  set (pool0 := set_pool_capacity (empty_pool id)). assert (ensure_node id s = st_set_NodeMap (<[id := NewNode pool0]> (NodeMap s)) s) as ->.
  { unfold ensure_node, GetStoragePoolByNodeID. rewrite Hn. destruct (IsNotFoundNodeError _) eqn:Hi; [|by vm_compute in Hi].
    unfold SetStoragePool. fold pool0. assert (ni_ID (sps_NodeInfo (sp_Spec pool0)) = id) as ->.
    { unfold pool0, set_pool_capacity. by destruct (decide _). }
    by rewrite Hn. }
  assert (Node_Reserve (pvc_resv pvc) (NewNode pool0) = NewNode pool0) as Hres.
  { by apply stand_in_full. }
  unfold on_node. cbn [NodeMap st_set_NodeMap]. rewrite lookup_insert_eq, Hres. cbn. rewrite insert_insert_eq. split; [rewrite lookup_insert_eq; by eexists|].
  unfold SetStoragePool. cbn [NodeMap]. set (pool' := set_pool_capacity pool).
  assert (ni_ID (sps_NodeInfo (sp_Spec pool')) = id) as ->.
  { unfold pool', set_pool_capacity. by destruct (decide _). }
  rewrite lookup_insert_eq, Hn. cbn. unfold st_set_NodeMap. cbn. rewrite insert_insert_eq, NewNode_reset. reflexivity.
Qed.
End rebuild.

(** *** Evaluations *)

Definition ex_class : StorageClass := {| sc_Provisioner := StorageClassProvisioner;
  sc_Parameters := Some {[ StorageClassParamPositionAdvice := MustLocal ]} |}.
Definition ex_classes (name : string) : result StorageClass := inl ex_class.
Definition ex_sc_Get (name : string) : go unit (result StorageClass) := mret (ex_classes name).
Definition ex_bound_claim (name : string) (size : Z) : @PVC NanoLib :=
  ex_claim name size (Some {[ K8SAnnoSelectedNode := "node-1" ]}).
Definition ex_claim_vol (name uuid claim : string) (size : Z) : AntstorVolume :=
  vol_set_meta (om_set_Annotations (Some {[ ReservationIDKey := DefaultNamespace +:+ "/" +:+ claim ]}) (ex_meta name))
    (vol_set_Spec (vs_set_TargetNodeId "node-1" (vol_Spec (ex_vol name uuid size))) (ex_vol name uuid size)).
Definition ex_events : list (@EventObject NanoLib) :=
  [EClaim (ex_bound_claim "c" (10 * GiB)); EVolume (ex_claim_vol "v" "uuid-v" "c" (10 * GiB));
   EClaim (ex_bound_claim "d" (20 * GiB))].
Definition ex_pool_state : @State NanoLib := (SetStoragePool ex_pool NewState).2.
Definition ex_pool_node : @Node NanoLib := NewNode (set_pool_capacity ex_pool).

Lemma ex_pool_state_node id n : NodeMap ex_pool_state !! id = Some n → id = "node-1" ∧ n = ex_pool_node.
Proof.
  assert (NodeMap ex_pool_state = <["node-1" := ex_pool_node]> ∅) as -> by reflexivity.
  destruct (decide ("node-1" = id)) as [<-|Hne].
  - rewrite lookup_insert_eq. by intros [= <-].
  - rewrite lookup_insert_ne by done. by rewrite lookup_empty.
Qed.
Lemma ex_claim_fresh id (rs : ReservationSet) : rs = ∅ → rs !! id = None.
Proof. intros ->. apply lookup_empty. Qed.
Lemma ex_rebuildable : rebuildable ex_classes ex_pool_state ex_events.
Proof.
  assert (nd_resvSet ex_pool_node = ∅) as Hr by apply NewNode_shape.
  split.
  - intros id n [-> ->]%ex_pool_state_node. split.
    + apply (SetStoragePool_wf ex_pool NewState NewState_wf "node-1" ex_pool_node). reflexivity.
    + apply (state_run_coherent [ASetPool ex_pool] NewState NewState_wf NewState_coherent (conj I I) "node-1" ex_pool_node). reflexivity.
    + intros k _. by apply ex_claim_fresh.
    + vm_compute. discriminate.
    + rewrite Hr. constructor.
    + exists {[ ResourceDiskPoolByte := NewQuantity (100 * GiB) ]}, (NewQuantity (100 * GiB)).
      split; [vm_compute; reflexivity|]. split; [apply lookup_insert_eq|]. vm_compute. discriminate.
    + vm_compute. split; [discriminate|reflexivity].
    + apply (bool_decide_unpack _). vm_compute. exact I.
    + repeat constructor; try (apply ex_claim_fresh; exact Hr); vm_compute; discriminate.
    + apply (bool_decide_unpack _). vm_compute. exact I.
  - intros ev id Hin Ht. assert (id = "node-1") as ->; [|by exists ex_pool_node].
    repeat (apply elem_of_cons in Hin as [->|Hin]; [vm_compute in Ht; congruence|]). by apply elem_of_nil in Hin.
  - intros ev vol Hin ->. repeat (apply elem_of_cons in Hin as [Heq|Hin]; [try discriminate Heq; injection Heq as ->; discriminate|]).
    by apply elem_of_nil in Hin.
  - apply (bool_decide_unpack _). vm_compute. exact I.
Qed.

Lemma rebuild_order_independent_witness : ∃ s1 k1 s2 k2,
  handle_events ex_sc_Get ex_events (ex_pool_state, (∅, tt)) = Ret tt (s1, k1) ∧
  handle_events ex_sc_Get (rev ex_events) (ex_pool_state, (∅, tt)) = Ret tt (s2, k2) ∧
  rebuilt ex_classes ex_pool_state ex_events s1 ∧ state_equiv s1 s2.
Proof.
  apply (rebuild_order_independent ex_classes ex_sc_Get ex_pool_state ex_events (rev ex_events) (∅, tt)).
  - intros name []. by exists tt.
  - intros name sc Hk. cbn in Hk. by rewrite lookup_empty in Hk.
  - exact ex_rebuildable.
  - apply Permutation_rev.
Defined.

Lemma early_claim_forgotten_witness : ∃ s1 k1,
  handle_events ex_sc_Get [EClaim (ex_bound_claim "c" (10 * GiB))] (NewState (L := NanoLib), (∅, tt)) = Ret tt (s1, k1) ∧
  is_Some (NodeMap s1 !! "node-1") ∧ (SetStoragePool ex_pool s1).2 = (SetStoragePool ex_pool NewState).2.
Proof.
  apply (early_claim_forgotten ex_classes ex_sc_Get (ex_bound_claim "c" (10 * GiB)) "node-1" NewState (∅, tt) ex_pool).
  - intros name []. by exists tt.
  - intros name sc Hk. cbn in Hk. by rewrite lookup_empty in Hk.
  - reflexivity.
  - vm_compute. reflexivity.
  - vm_compute. reflexivity.
  - apply lookup_empty.
  - reflexivity.
Defined.
