(* ===== verification/CsiClient.v ===== *)
(** * The client of the CSI driver

    [pkg/csi/client]: persistent volumes as the CSI driver sees them. A volume is
    one [AntstorVolume], or a volume group with a data control; the client
    creates, finds, resizes and deletes them on the API server, and snapshots
    too. The requests of CSI are repeated, so what matters is that a repeated
    call does no harm. *)

From Stdlib Require Import ZArith Lia.
From stdpp Require Import base gmap strings option list.
From S2P Require Import Prelude Strconv Misc K8s Api Server VolumeSync Snapshot VolumeGroup DataControl.

(* [csi/client/pv.go:18-18] DataControlUuidPrefix *)
Definition DataControlUuidPrefix : string := "dc-".
(* [csi/client/pv.go:20-20] PvTypeVolume *)
Definition PvTypeVolume : string := "Volume".
(* [csi/client/pv.go:21-21] PvTypeVolumeGroup *)
Definition PvTypeVolumeGroup : string := "VolumeGroup".
(* [csi/client/client.go:20-20] ErrorNotFoundResource *)
Definition ErrorNotFoundResource : error := ErrNew "ResourceNotFound".

(** Deleting by name. *)
Class KubeRemover (W T : Type) := { kRemove : string → string → go W (option error) }.

(* [csi/client/interface.go:13-23] PV *)
Record PV := {
pv_Namespace : string;
pv_Name : string;
pv_UUID : string;
pv_Type : string;
pv_Volume : option AntstorVolume;
pv_DataContrl : option AntstorDataControl;
}.
Definition PV_zero : PV := {| pv_Namespace := ""; pv_Name := ""; pv_UUID := ""; pv_Type := ""; pv_Volume := None; pv_DataContrl := None |}.

(* [csi/client/interface.go:25-46] PVCreateOption *)
Record PVCreateOption := {
po_PvName : string;
po_Labels : gomap string;
po_Annotations : gomap string;
po_HostNode : NodeInfo;
po_Size : Z;
po_VolumeType : string;
po_PositionAdvice : string;
po_PvType : string;
po_RaidLevel : string;
po_EngineType : string;
po_MaxVolumes : Z;
po_MaxVolumeSize : string;
po_MinVolumeSize : string;
po_SizeSymmetry : string;
po_AllowEmptyNode : bool;
}.
(* [csi/client/client.go:27-33] SetNodePublishParamRequest *)
Record SetNodePublishParamRequest := {
snp_ID : string;
snp_HostNodeID : string;
snp_StagingTargetPath : string;
snp_TargetPath : string;
snp_CSIVolumeContext : gomap string;
}.

(** ** Reading a volume

    The pointer of the kind the volume has is read without a check. *)
Section pv.
Context {S : Type}.
Definition pv_volume (p : PV) : go S AntstorVolume := deref "Volume" (pv_Volume p).
Definition pv_control (p : PV) : go S AntstorDataControl := deref "DataContrl" (pv_DataContrl p).
(** A method that looks at the kind, [other] for an unknown one. *)
Definition by_kind {A} (p : PV) (vol : AntstorVolume → A) (dc : AntstorDataControl → A) (other : A) : go S A :=
  if decide (pv_Type p = PvTypeVolume) then v ← pv_volume p; mret (vol v)
  else if decide (pv_Type p = PvTypeVolumeGroup) then d ← pv_control p; mret (dc d)
  else mret other.

(* [csi/client/interface.go:88-96] PV.GetSize *)
Definition GetSize (p : PV) : go S Z :=
  by_kind p (λ v, wrap64 (vs_SizeByte (vol_Spec v))) (λ d, dcs_TotalSize (dc_Spec d)) 0%Z.
(* [csi/client/interface.go:98-106] PV.GetTargetNodeId *)
Definition GetTargetNodeId (p : PV) : go S string :=
  by_kind p (λ v, vs_TargetNodeId (vol_Spec v)) (λ d, dcs_TargetNodeId (dc_Spec d)) "".
(* [csi/client/interface.go:108-116] PV.GetStatus *)
Definition GetStatus (p : PV) : go S string :=
  by_kind p (λ v, vst_Status (vol_Status v)) (λ d, dcst_Status (dc_Status d)) "".
(* [csi/client/interface.go:118-127] PV.GetLabels *)
Definition GetLabels (p : PV) : go S (gomap string) :=
  by_kind p (λ v, om_Labels (vol_meta v)) (λ d, om_Labels (dc_meta d)) None.
(* [csi/client/interface.go:129-138] PV.GetAnnotations *)
Definition GetAnnotations (p : PV) : go S (gomap string) :=
  by_kind p (λ v, om_Annotations (vol_meta v)) (λ d, om_Annotations (dc_meta d)) None.
(* [csi/client/interface.go:140-152] PV.GetFsType *)
Definition GetFsType (p : PV) : go S string :=
  labels ← GetLabels p;
  mret (if decide (map_str labels FsTypeLabelKey = "") then FileSystemXfs else map_str labels FsTypeLabelKey).
(** The host of a volume is read through its pointer. *)
(* [csi/client/interface.go:154-162] PV.IsLocal *)
Definition IsLocal (p : PV) : go S bool :=
  if decide (pv_Type p = PvTypeVolume) then
    v ← pv_volume p;
    h ← deref "HostNode" (vs_HostNode (vol_Spec v));
    mret (bool_decide (ni_ID h = vs_TargetNodeId (vol_Spec v)))
  else if decide (pv_Type p = PvTypeVolumeGroup) then
    d ← pv_control p; mret (bool_decide (dcs_EngineType (dc_Spec d) = PoolModeKernelLVM))
  else mret false.
(* [csi/client/interface.go:164-172] PV.IsLVM *)
Definition IsLVM (p : PV) : go S bool :=
  by_kind p (λ v, bool_decide (vs_Type (vol_Spec v) = VolumeTypeKernelLVol))
    (λ d, bool_decide (dcs_EngineType (dc_Spec d) = PoolModeKernelLVM)) false.
(* [csi/client/interface.go:174-186] PV.GetDevPath *)
Definition GetDevPath (p : PV) : string :=
  if decide (pv_Type p = PvTypeVolume) then
    match pv_Volume p ≫= (λ v, vs_KernelLvol (vol_Spec v)) with Some lv => kl_DevPath lv | None => "" end
  else if decide (pv_Type p = PvTypeVolumeGroup) then
    match pv_DataContrl p ≫= (λ d, dcs_LVM (dc_Spec d)) with
    | Some lvm => "/dev/" +:+ lvmc_VG lvm +:+ "/" +:+ lvmc_LVol lvm
    | None => ""
    end
  else "".
(* [csi/client/interface.go:188-197] PV.GetSpdkTarget *)
Definition GetSpdkTarget (p : PV) : go S (option SpdkTarget) :=
  by_kind p (λ v, vs_SpdkTarget (vol_Spec v)) (λ _, None) None.
End pv.

(** ** The client *)

Section client.
Context {L : K8sLib} {W : Type}.
Context {KV : KubeClient W AntstorVolume} {KG : KubeClient W AntstorVolumeGroup} {KD : KubeClient W AntstorDataControl}.
Context {KS : KubeClient W AntstorSnapshot} {KP : KubeClient W StoragePool}.
Context {LV : KubeLister W AntstorVolume} {LD : KubeLister W AntstorDataControl} {LS : KubeLister W AntstorSnapshot}.
Context {RV : KubeRemover W AntstorVolume} {RG : KubeRemover W AntstorVolumeGroup}.
Context {RD : KubeRemover W AntstorDataControl} {RS : KubeRemover W AntstorSnapshot}.
(** [resource.ParseQuantity], and what [fmt] prints for a request. *)
Context (ParseQuantity : string → result Quantity) (show_pv : PVCreateOption → string) (show_snap : AntstorSnapshot → string).

(** [resource.MustParse] panics on a string it cannot parse. *)
Definition MustParse (s : string) : go W Quantity :=
  match ParseQuantity s with inl q => mret q | inr e => panic ("cannot parse '" +:+ s +:+ "': " +:+ error_msg e) end.

Definition named (name : string) (labels annos : gomap string) : ObjectMeta := {|
  om_Name := name; om_Namespace := DefaultNamespace; om_UID := ""; om_CreationTimestamp := 0; om_DeletionTimestamp := None;
  om_Labels := labels; om_Annotations := annos; om_OwnerReferences := []; om_Finalizers := [] |}.
Definition labelled_with (key v : string) (labels : gomap string) : gomap string := Some (<[key := v]> (default ∅ labels)).

(** The kind of a request. *)
Definition pv_type_of (opt : PVCreateOption) : string :=
  if decide (po_RaidLevel opt ≠ "") then PvTypeVolumeGroup
  else if decide (po_PvType opt = "") then PvTypeVolume else po_PvType opt.
(** The labels of every object made for a request. *)
Definition pv_labels (opt : PVCreateOption) : gomap string := labelled_with VolumePVNameLabelKey (po_PvName opt) (po_Labels opt).

(* [csi/client/pv.go:72-92] KubeAPIClient.CreatePV, the volume *)
Definition pv_volume_of (opt : PVCreateOption) (uuid : string) : AntstorVolume := {|
  vol_meta := named (po_PvName opt) (labelled_with UuidLabelKey uuid (CopyLabel (pv_labels opt))) (CopyLabel (po_Annotations opt));
  vol_Spec := vs_set_Uuid uuid (vs_set_SizeByte (uwrap64 (po_Size opt)) (vs_set_HostNode (Some (po_HostNode opt))
                {| vs_Uuid := ""; vs_Type := po_VolumeType opt; vs_SizeByte := 0; vs_PositionAdvice := po_PositionAdvice opt;
                   vs_IsThin := false; vs_StopReconcile := false; vs_NodeAffinity := None; vs_PoolAffinity := None;
                   vs_TargetNodeId := ""; vs_HostNode := None; vs_KernelLvol := None; vs_SpdkLvol := None; vs_SpdkTarget := None |}));
  vol_Status := vst_set_Status VolumeStatusCreating AntstorVolumeStatus_zero |}.
(* [csi/client/pv.go:60-100] KubeAPIClient.CreatePV, a volume *)
Definition create_volume (opt : PVCreateOption) (uuid : string) : go W (result string) :=
  got ← kGet (T := AntstorVolume) DefaultNamespace (po_PvName opt);
  match got with
  | inl tmpVol => mret (inl (vs_Uuid (vol_Spec tmpVol)))
  | inr e =>
      if IsNotFound e then
        made ← kCreate (pv_volume_of opt uuid);
        mret (match made with inl tmpVol => inl (vs_Uuid (vol_Spec tmpVol)) | inr e => inr e end)
      else mret (inr e)
  end.

(* [csi/client/pv.go:117-148] KubeAPIClient.CreatePV, the volume group *)
Definition pv_group_of (opt : PVCreateOption) (uuid : string) : go W AntstorVolumeGroup :=
  min ← MustParse (po_MinVolumeSize opt);
  max ← MustParse (po_MaxVolumeSize opt);
  mret {|
    vg_meta := named (po_PvName opt) (labelled_with DataControlNameKey (po_PvName opt) (CopyLabel (pv_labels opt)))
                 (CopyLabel (po_Annotations opt));
    vg_Spec := {|
      vgsp_Uuid := uuid; vgsp_TotalSize := po_Size opt;
      vgsp_DesiredVolumeSpec := {|
        dvs_Annotations := CopyLabel (po_Annotations opt); dvs_Labels := CopyLabel (pv_labels opt); dvs_DesiredCount := 0;
        dvs_CountRange := {| ir_Min := 1; ir_Max := po_MaxVolumes opt |};
        dvs_SizeRange := {| qr_Min := min; qr_Max := max |};
        dvs_SizeSymmetry := po_SizeSymmetry opt |};
      vgsp_Stragety := {| vgs_Name := StragetyBestFit; vgs_EmptyThreasholdPct := 0; vgs_AllowEmptyNode := po_AllowEmptyNode opt |};
      vgsp_Volumes := [] |};
    vg_Status := {| vgst_VolumeStatus := []; vgst_Status := ""; vgst_Message := "" |} |}.
(* [csi/client/pv.go:164-189] KubeAPIClient.CreatePV, the data control *)
Definition pv_control_of (opt : PVCreateOption) (uuid : string) : AntstorDataControl := {|
  dc_meta := named (po_PvName opt) (labelled_with UuidLabelKey (DataControlUuidPrefix +:+ uuid) (CopyLabel (pv_labels opt)))
               (CopyLabel (po_Annotations opt));
  dc_Spec := {|
    dcs_UUID := DataControlUuidPrefix +:+ uuid; dcs_TotalSize := po_Size opt; dcs_LVM := None;
    dcs_EngineType := PoolModeKernelLVM; dcs_Raid := {| raid_Level := po_RaidLevel opt |}; dcs_HostNode := po_HostNode opt;
    dcs_TargetNodeId := "";
    dcs_VolumeGroups := [{| ei_Namespace := DefaultNamespace; ei_Name := po_PvName opt; ei_UUID := uuid |}] |};
  dc_Status := {| dcst_Status := ""; dcst_CSINodePubParams := None; dcst_Message := "" |} |}.

(* [csi/client/pv.go:114-158] KubeAPIClient.CreatePV, ensuring the volume group *)
Definition ensure_group (opt : PVCreateOption) (uuid : string) : go W (option error) :=
  got ← kGet (T := AntstorVolumeGroup) DefaultNamespace (po_PvName opt);
  match got with
  | inl _ => mret None
  | inr e =>
      if IsNotFound e then
        g ← pv_group_of opt uuid;
        made ← kCreate g;
        mret (match made with inl _ => None | inr e => Some e end)
      else mret (Some e)
  end.
(* [csi/client/pv.go:161-199] KubeAPIClient.CreatePV, ensuring the data control *)
Definition ensure_control (opt : PVCreateOption) (uuid : string) : go W (result AntstorDataControl) :=
  got ← kGet (T := AntstorDataControl) DefaultNamespace (po_PvName opt);
  match got with
  | inl d => mret (inl d)
  | inr e => if IsNotFound e then kCreate (pv_control_of opt uuid) else mret (inr e)
  end.
(* [csi/client/pv.go:101-201] KubeAPIClient.CreatePV, a volume group *)
Definition create_group (opt : PVCreateOption) (uuid : string) : go W (result string) :=
  err ← ensure_group opt uuid;
  match err with
  | Some e => mret (inr e)
  | None =>
      d ← ensure_control opt uuid;
      mret (match d with inl d => inl (dcs_UUID (dc_Spec d)) | inr e => inr e end)
  end.

(** [uuid] is the fresh identifier; the aligned size is only checked. *)
(* [csi/client/pv.go:25-205] KubeAPIClient.CreatePV *)
Definition CreatePV (opt : PVCreateOption) (uuid : string) : go W (result string) :=
  if decide (po_PvName opt = "" ∨ po_Size opt = 0%Z) then mret (inr (ErrNew ("invalid request " +:+ show_pv opt)))
  else
    let size := uwrap64 (po_Size opt) in
    let size := if decide (0 < size mod FourMiB)%Z then (size / FourMiB * FourMiB)%Z else size in
    if decide (size < FourMiB)%Z then mret (inr (ErrNew "volume size too small, should be bigger than 4MiB"))
    else if decide (pv_type_of opt = PvTypeVolume) then create_volume opt uuid
    else if decide (pv_type_of opt = PvTypeVolumeGroup) then create_group opt uuid
    else mret (inl "").
(* [csi/client/pv.go:207-254] KubeAPIClient.GetPvByID *)
Definition GetPvByID (id : string) : go W (result PV) :=
  let selector := UuidLabelKey +:+ "=" +:+ id in
  if HasPrefix id DataControlUuidPrefix then
    list ← kList (T := AntstorDataControl) DefaultNamespace selector;
    mret (match list with
          | inr e => inr e
          | inl [] => inr ErrorNotFoundResource
          | inl (d :: _) => inl {| pv_Namespace := om_Namespace (dc_meta d); pv_Name := om_Name (dc_meta d);
                                   pv_UUID := dcs_UUID (dc_Spec d); pv_Type := PvTypeVolumeGroup;
                                   pv_Volume := None; pv_DataContrl := Some d |}
          end)
  else
    list ← kList (T := AntstorVolume) DefaultNamespace selector;
    mret (match list with
          | inr e => inr e
          | inl [] => inr ErrorNotFoundResource
          | inl (v :: _) => inl {| pv_Namespace := om_Namespace (vol_meta v); pv_Name := om_Name (vol_meta v);
                                   pv_UUID := vs_Uuid (vol_Spec v); pv_Type := PvTypeVolume;
                                   pv_Volume := Some v; pv_DataContrl := None |}
          end).

(* [csi/client/pv.go:283-297] KubeAPIClient.DeletePV, the volume groups *)
Fixpoint remove_groups (groups : list EntityIdentity) : go W (option error) :=
  match groups with
  | [] => mret None
  | item :: rest =>
      got ← kGet (T := AntstorVolumeGroup) DefaultNamespace (ei_Name item);
      match got with
      | inl _ =>
          delErr ← kRemove (T := AntstorVolumeGroup) DefaultNamespace (ei_Name item);
          match delErr with Some e => mret (Some e) | None => remove_groups rest end
      | inr e => if IsNotFound e then remove_groups rest else mret (Some e)
      end
  end.
(* [csi/client/pv.go:256-309] KubeAPIClient.DeletePV *)
Definition DeletePV (id : string) : go W (option error) :=
  if decide (id = "") then mret (Some (ErrNew "invalid empty volID"))
  else
    found ← GetPvByID id;
    match found with
    | inr e => mret (if decide (e = ErrorNotFoundResource) then None else Some e)
    | inl pv =>
        if decide (pv_Type pv = PvTypeVolume) then kRemove (T := AntstorVolume) DefaultNamespace (pv_Name pv)
        else if decide (pv_Type pv = PvTypeVolumeGroup) then
          d ← pv_control pv;
          err ← remove_groups (dcs_VolumeGroups (dc_Spec d));
          match err with
          | Some e => mret (Some e)
          | None => kRemove (T := AntstorDataControl) DefaultNamespace (pv_Name pv)
          end
        else mret None
    end.

Definition expansionLabel : string := "obnvmf/expansion-original-size".
Definition error_of {A} (r : result A) : option error := match r with inl _ => None | inr e => Some e end.
(* [csi/client/pv.go:311-337] KubeAPIClient.ResizePV *)
Definition ResizePV (id : string) (requestSize : Z) : go W (option error) :=
  found ← GetPvByID id;
  match found with
  | inr e => mret (Some e)
  | inl pv =>
      originalSize ← GetSize pv;
      if decide (pv_Type pv = PvTypeVolume) then
        vol ← pv_volume pv;
        r ← kUpdate (vol_set_labels (labelled_with expansionLabel (Itoa originalSize) (om_Labels (vol_meta vol)))
                       (vol_set_Spec (vs_set_SizeByte (uwrap64 requestSize) (vol_Spec vol)) vol));
        mret (error_of r)
      else if decide (pv_Type pv = PvTypeVolumeGroup) then mret (Some (ErrNew "not support resizing VoluemGroup yet"))
      else mret None
  end.

(* [csi/client/pv.go:339-371] KubeAPIClient.SetNodePublishParameters *)
Definition SetNodePublishParameters (req : SetNodePublishParamRequest) : go W (option error) :=
  found ← GetPvByID (snp_ID req);
  match found with
  | inr e => mret (Some e)
  | inl pv =>
      let param := {| cnp_StagingTargetPath := snp_StagingTargetPath req; cnp_TargetPath := snp_TargetPath req;
                      cnp_CSIVolumeContext := CopyLabel (snp_CSIVolumeContext req) |} in
      if decide (pv_Type pv = PvTypeVolume) then
        volume ← pv_volume pv;
        r ← kUpdateStatus (vol_set_Status (vst_set_CSINodePubParams (Some param) (vol_Status volume)) volume);
        mret (error_of r)
      else if decide (pv_Type pv = PvTypeVolumeGroup) then
        d ← pv_control pv;
        r ← kUpdateStatus (dc_set_Status {| dcst_Status := dcst_Status (dc_Status d); dcst_CSINodePubParams := Some param;
                                            dcst_Message := dcst_Message (dc_Status d) |} d);
        mret (error_of r)
      else mret (Some (ErrNew "not supported pv type"))
  end.

(** *** Snapshots *)

(** The labels of the snapshot are written without a nil check. *)
(* [csi/client/client.go:47-79] KubeAPIClient.CreateSnapshot *)
Definition CreateSnapshot (snap : AntstorSnapshot) (uuid : string) : go W (result string) :=
  if decide (om_Name (snap_meta snap) = "" ∨ ss_Size (snap_Spec snap) = 0%Z)
  then mret (inr (ErrNew ("invalid request " +:+ show_snap snap)))
  else
    let size := uwrap64 (ss_Size (snap_Spec snap)) in
    let size := if decide (0 < size mod FourMiB)%Z then (size / FourMiB * FourMiB)%Z else size in
    if decide (size < FourMiB)%Z then mret (inr (ErrNew "snapshot size too small, should be bigger than 4MiB"))
    else
      let id := if decide (ss_Uuid (snap_Spec snap) = "") then uuid else ss_Uuid (snap_Spec snap) in
      labels ← map_put (om_Labels (snap_meta snap)) SnapUuidLabelKey id;
      r ← kCreate (snap_set_meta (om_set_Labels labels (snap_meta snap)) (snap_set_Spec (ss_set_Uuid id (snap_Spec snap)) snap));
      mret (match r with inl s => inl (ss_Uuid (snap_Spec s)) | inr e => inr e end).
(* [csi/client/client.go:81-98] KubeAPIClient.GetSnapshotByID *)
Definition GetSnapshotByID (id : string) : go W (result AntstorSnapshot) :=
  list ← kList (T := AntstorSnapshot) DefaultNamespace (SnapUuidLabelKey +:+ "=" +:+ id);
  mret (match list with
        | inr e => inr e
        | inl [] => inr ErrorNotFoundResource
        | inl (s :: _) => inl s
        end).
(* [csi/client/client.go:100-103] KubeAPIClient.GetSnapshotByName *)
Definition GetSnapshotByName (ns name : string) : go W (result AntstorSnapshot) := kGet ns name.
(* [csi/client/client.go:105-126] KubeAPIClient.DeleteSnapshot *)
Definition DeleteSnapshot (snapID : string) : go W (option error) :=
  if decide (snapID = "") then mret (Some (ErrNew "invalid empty snapID"))
  else
    found ← GetSnapshotByID snapID;
    match found with
    | inr e => mret (if decide (e = ErrorNotFoundResource) then None else Some e)
    | inl snap => kRemove (T := AntstorSnapshot) DefaultNamespace (om_Name (snap_meta snap))
    end.
(* [csi/client/client.go:128-131] KubeAPIClient.GetStoragePoolByName *)
Definition GetStoragePoolByName (ns name : string) : go W (result StoragePool) := kGet ns name.
End client.

(** ** A server with the four kinds of objects

    What the calls for one kind of object do to the objects of that kind, [view],
    and to all the others, [rest]. *)

Definition no_equals (s : string) : bool := negb (str_contains s "=").
Class Shelf {W T X : Type} (K : KubeClient W T) (LT : KubeLister W T) (RT : KubeRemover W T) `{KubeObject T}
    (view : W → gmap (string * string) T) (rest : W → X) := {
  sh_get ns name w : ∃ r w', kGet ns name w = Ret r w' ∧ view w' = view w ∧ rest w' = rest w ∧
    match view w !! (ns, name) with Some o => r = inl o | None => ∃ e, r = inr e ∧ IsNotFound e = true end;
  sh_create o w : view w !! ko_key o = None →
    ∃ w', kCreate o w = Ret (inl o) w' ∧ view w' = <[ko_key o := o]> (view w) ∧ rest w' = rest w;
  sh_create_taken o w old : view w !! ko_key o = Some old →
    ∃ e w', kCreate o w = Ret (inr e) w' ∧ view w' = view w ∧ rest w' = rest w;
  sh_list ns key val w : no_equals key = true → ∃ l w', kList ns (key +:+ "=" +:+ val) w = Ret (inl l) w' ∧
    view w' = view w ∧ rest w' = rest w ∧
    ∀ o, o ∈ l ↔ ∃ name, view w !! (ns, name) = Some o ∧ map_get (om_Labels (ko_meta o)) key = Some val;
  (** An object without finalizers goes at once. *)
  sh_remove ns name w o : view w !! (ns, name) = Some o → om_Finalizers (ko_meta o) = [] →
    ∃ w', kRemove (T := T) ns name w = Ret None w' ∧ view w' = delete (ns, name) (view w) ∧ rest w' = rest w;
  sh_update o w old : view w !! ko_key o = Some old → ko_gone (ko_with_status o old) = false →
    ∃ w', kUpdate o w = Ret (inl (ko_with_status o old)) w' ∧
      view w' = <[ko_key o := ko_with_status o old]> (view w) ∧ rest w' = rest w;
}.

(** *** In memory *)

Fixpoint split_equals (s : string) : option (string * string) :=
  match s with
  | EmptyString => None
  | String c s' => if decide (c = Ascii.ascii_of_nat 61) then Some (EmptyString, s')
                   else prod_map (String c) id <$> split_equals s'
  end.
Lemma split_equals_app key val : no_equals key = true → split_equals (key +:+ "=" +:+ val) = Some (key, val).
Proof.
  unfold no_equals. induction key as [|c key IH]; intros Hk; [done|]. apply negb_true_iff in Hk.
  change (String c key +:+ "=" +:+ val) with (String c (key +:+ "=" +:+ val)).
  cbn [str_contains] in Hk. apply orb_false_iff in Hk as [Hp Hk]. cbn [split_equals].
  rewrite decide_False.
  - rewrite IH by (by rewrite Hk). done.
  - intros ->. by destruct key; vm_compute in Hp.
Qed.

Section mem_shelf.
Context {W T X : Type} `{KubeObject T} (get : W → MemStore T) (set : MemStore T → W → W) (rest : W → X).
Definition at_shelf {A} (m : go (MemStore T) A) : go W A := λ w,
  match m (get w) with Ret a s => Ret a (set s w) | Panic why s => Panic why (set s w) end.
Definition marked_meta (m : ObjectMeta) : ObjectMeta := {|
  om_Name := om_Name m; om_Namespace := om_Namespace m; om_UID := om_UID m; om_CreationTimestamp := om_CreationTimestamp m;
  om_DeletionTimestamp := Some (default 0%Z (om_DeletionTimestamp m)); om_Labels := om_Labels m;
  om_Annotations := om_Annotations m; om_OwnerReferences := om_OwnerReferences m; om_Finalizers := om_Finalizers m |}.
Definition mem_remove (ns name : string) : go (MemStore T) (option error) := λ m,
  match m !! (ns, name) with
  | Some o => Ret None (if decide (om_Finalizers (ko_meta o) = []) then delete (ns, name) m
                        else <[(ns, name) := ko_with_meta (marked_meta (ko_meta o)) o]> m)
  | None => Ret (Some (mem_not_found name)) m
  end.
Definition mem_list (ns sel : string) : go (MemStore T) (result (list T)) := λ m,
  Ret (match split_equals sel with
       | Some (key, val) => inl (filter (λ o, map_get (om_Labels (ko_meta o)) key = Some val)
                                   ((filter (λ kv, kv.1.1 = ns) (map_to_list m)).*2))
       | None => inr (ErrNew "selector")
       end) m.
Definition shelf_client : KubeClient W T := {|
  kGet ns name := at_shelf (kGet (KubeClient := MemClient) ns name);
  kCreate o := at_shelf (kCreate (KubeClient := MemClient) o);
  kUpdate o := at_shelf (kUpdate (KubeClient := MemClient) o);
  kUpdateStatus o := at_shelf (kUpdateStatus (KubeClient := MemClient) o);
  kPatch b o := at_shelf (kPatch (KubeClient := MemClient) b o);
  kPatchStatus b o := at_shelf (kPatchStatus (KubeClient := MemClient) b o);
  kDelete o := at_shelf (kDelete (KubeClient := MemClient) o);
|}.
Definition shelf_lister : KubeLister W T := {| kList ns sel := at_shelf (mem_list ns sel) |}.
Definition shelf_remover : KubeRemover W T := {| kRemove ns name := at_shelf (mem_remove ns name) |}.

Lemma shelf_laws : (∀ w, set (get w) w = w) → (∀ m w, get (set m w) = m) → (∀ m w, rest (set m w) = rest w) →
  (∀ o old, ko_meta (ko_with_status o old) = ko_meta o) → Shelf shelf_client shelf_lister shelf_remover get rest.
Proof.
  intros Hs Hg Hr Hmeta. split.
  - intros ns name w. exists (match get w !! (ns, name) with Some o => inl o | None => inr (mem_not_found name) end), w.
    split; [|split; [done|split; [done|]]].
    + unfold kGet, shelf_client, at_shelf. cbn. by rewrite Hs.
    + destruct (get w !! (ns, name)); [done|]. by eexists.
  - intros o w Hn. eexists. unfold kCreate, shelf_client, at_shelf. cbn. rewrite Hn. cbn. split; [done|]. by rewrite Hg, Hr.
  - intros o w old Hn. do 2 eexists. unfold kCreate, shelf_client, at_shelf. cbn. rewrite Hn. cbn. split; [done|]. by rewrite Hg, Hr.
  - intros ns key val w Hk. do 2 eexists. unfold kList, shelf_lister, at_shelf, mem_list. rewrite split_equals_app by done. cbn.
    split; [done|]. rewrite Hg, Hr. split; [done|]. split; [done|]. intros o. rewrite list_elem_of_filter, list_elem_of_fmap. split.
    + intros [Hl ([[ns' name] o'] & Heq & Hin)]. cbn in Heq. subst o'. apply list_elem_of_filter in Hin as [Hns Hin]. cbn in Hns. subst ns'.
      exists name. split; [|done]. by apply elem_of_map_to_list in Hin.
    + intros (name & Hin & Hl). split; [done|]. exists ((ns, name), o). split; [done|]. apply list_elem_of_filter. split; [done|].
      by apply elem_of_map_to_list.
  - intros ns name w o Hn Hf. eexists. unfold kRemove, shelf_remover, at_shelf, mem_remove. rewrite Hn, decide_True by done. split; [done|]. by rewrite Hg, Hr.
  - intros o w old Hn Hl. eexists. unfold kUpdate, shelf_client, at_shelf. cbn. unfold mem_write. rewrite Hn.
    split; [done|]. rewrite Hg, Hr. split; [|done]. unfold store_put. rewrite Hl. unfold ko_key. by rewrite Hmeta.
Qed.
End mem_shelf.

(** ** What the client promises *)

Section promises.
Context {L : K8sLib} {W : Type}.
Context {KV : KubeClient W AntstorVolume} {KG : KubeClient W AntstorVolumeGroup} {KD : KubeClient W AntstorDataControl}.
Context {KS : KubeClient W AntstorSnapshot}.
Context {LV : KubeLister W AntstorVolume} {LG : KubeLister W AntstorVolumeGroup}.
Context {LD : KubeLister W AntstorDataControl} {LS : KubeLister W AntstorSnapshot}.
Context {RV : KubeRemover W AntstorVolume} {RG : KubeRemover W AntstorVolumeGroup}.
Context {RD : KubeRemover W AntstorDataControl} {RS : KubeRemover W AntstorSnapshot}.
Context (ParseQuantity : string → result Quantity) (show_pv : PVCreateOption → string) (show_snap : AntstorSnapshot → string).
(** The objects on the server. *)
Context (vols : W → MemStore AntstorVolume) (groups : W → MemStore AntstorVolumeGroup).
Context (controls : W → MemStore AntstorDataControl) (snaps : W → MemStore AntstorSnapshot).
Context {HV : Shelf KV LV RV vols (λ w, (groups w, controls w, snaps w))}.
Context {HG : Shelf KG LG RG groups (λ w, (vols w, controls w, snaps w))}.
Context {HD : Shelf KD LD RD controls (λ w, (vols w, groups w, snaps w))}.
Context {HS : Shelf KS LS RS snaps (λ w, (vols w, groups w, controls w))}.

(** The server holds the same objects. *)
Definition same_objects (w w' : W) : Prop :=
  vols w' = vols w ∧ groups w' = groups w ∧ controls w' = controls w ∧ snaps w' = snaps w.
#[local] Instance same_objects_pre : PreOrder same_objects.
Proof.
  split; [intros w; by split_and!|]. intros w1 w2 w3 (A1 & A2 & A3 & A4) (B1 & B2 & B3 & B4).
  unfold same_objects. by rewrite B1, B2, B3, B4.
Qed.

Lemma get_vol name w : ∃ r w', kGet (T := AntstorVolume) DefaultNamespace name w = Ret r w' ∧ same_objects w w' ∧
  match vols w !! (DefaultNamespace, name) with Some o => r = inl o | None => ∃ e, r = inr e ∧ IsNotFound e = true end.
Proof.
  destruct (sh_get (T := AntstorVolume) DefaultNamespace name w) as (r & w' & Hr & Hv & [= H1 H2 H3] & Hm).
  exists r, w'. by split_and!.
Qed.
Lemma get_group name w : ∃ r w', kGet (T := AntstorVolumeGroup) DefaultNamespace name w = Ret r w' ∧ same_objects w w' ∧
  match groups w !! (DefaultNamespace, name) with Some o => r = inl o | None => ∃ e, r = inr e ∧ IsNotFound e = true end.
Proof.
  destruct (sh_get (T := AntstorVolumeGroup) DefaultNamespace name w) as (r & w' & Hr & Hv & [= H1 H2 H3] & Hm).
  exists r, w'. by split_and!.
Qed.
Lemma get_control name w : ∃ r w', kGet (T := AntstorDataControl) DefaultNamespace name w = Ret r w' ∧ same_objects w w' ∧
  match controls w !! (DefaultNamespace, name) with Some o => r = inl o | None => ∃ e, r = inr e ∧ IsNotFound e = true end.
Proof.
  destruct (sh_get (T := AntstorDataControl) DefaultNamespace name w) as (r & w' & Hr & Hv & [= H1 H2 H3] & Hm).
  exists r, w'. by split_and!.
Qed.

(** The same volume is asked for. *)
Definition same_request (opt opt' : PVCreateOption) : Prop :=
  po_PvName opt' = po_PvName opt ∧ po_Size opt' = po_Size opt ∧ pv_type_of opt' = pv_type_of opt.
(** What a successful creation leaves on the server. *)
Definition made (opt : PVCreateOption) (id : string) (w : W) : Prop :=
  let key := (DefaultNamespace, po_PvName opt) in
  if decide (pv_type_of opt = PvTypeVolume) then ∃ v, vols w !! key = Some v ∧ vs_Uuid (vol_Spec v) = id
  else if decide (pv_type_of opt = PvTypeVolumeGroup) then
    is_Some (groups w !! key) ∧ ∃ d, controls w !! key = Some d ∧ dcs_UUID (dc_Spec d) = id
  else id = "".

Lemma create_volume_made opt u w id w1 : create_volume opt u w = Ret (inl id) w1 →
  ∃ v, vols w1 !! (DefaultNamespace, po_PvName opt) = Some v ∧ vs_Uuid (vol_Spec v) = id.
Proof.
  unfold create_volume, mbind, go_mbind, go_bind. destruct (get_vol (po_PvName opt) w) as (r & w' & -> & (Hv & _) & Hm).
  destruct (vols w !! (DefaultNamespace, po_PvName opt)) as [v|] eqn:En.
  - subst r. intros [= <- <-]. exists v. by rewrite Hv.
  - destruct Hm as (err & -> & ->). destruct (sh_create (pv_volume_of opt u) w') as (w2 & -> & Hv2 & _).
    { rewrite Hv. exact En. }
    intros [= <- <-]. exists (pv_volume_of opt u). rewrite Hv2. split; [apply lookup_insert_eq|done].
Qed.
Lemma ensure_group_made opt u w w1 : ensure_group ParseQuantity opt u w = Ret None w1 →
  is_Some (groups w1 !! (DefaultNamespace, po_PvName opt)) ∧ controls w1 = controls w.
Proof.
  unfold ensure_group, mbind, go_mbind, go_bind. destruct (get_group (po_PvName opt) w) as (r & w' & -> & (_ & Hg & Hc & _) & Hm).
  destruct (groups w !! (DefaultNamespace, po_PvName opt)) as [g|] eqn:En.
  - subst r. intros [= <-]. rewrite Hg, En. by eauto.
  - destruct Hm as (err & -> & ->). unfold pv_group_of, mbind, go_mbind, go_bind, MustParse.
    destruct (ParseQuantity (po_MinVolumeSize opt)) as [mn|]; [|done]. cbn.
    destruct (ParseQuantity (po_MaxVolumeSize opt)) as [mx|]; [|done]. cbn.
    match goal with |- context [kCreate ?g w'] => destruct (sh_create g w') as (w2 & -> & Hg2 & [= _ Hc2 _]); [by rewrite Hg|] end.
    intros [= <-]. rewrite Hg2, Hc2, Hc. split; [|done]. eexists. apply lookup_insert_eq.
Qed.
Lemma CreatePV_made opt u w id w1 : CreatePV ParseQuantity show_pv opt u w = Ret (inl id) w1 → made opt id w1.
Proof.
  unfold CreatePV, made. destruct (decide (_ ∨ _)); [done|]. destruct (decide (_ < _)%Z); [done|].
  destruct (decide (pv_type_of opt = PvTypeVolume)); [apply create_volume_made|].
  destruct (decide (pv_type_of opt = PvTypeVolumeGroup)); [|by intros [= <- _]].
  unfold create_group, mbind at 1, go_mbind, go_bind. destruct (ensure_group _ opt u w) as [r0 w'|] eqn:Eg; [|done]. destruct r0; [done|].
  destruct (ensure_group_made _ _ _ _ Eg) as [Hg _]. unfold ensure_control, mbind, go_mbind, go_bind.
  destruct (get_control (po_PvName opt) w') as (r & w2 & -> & (_ & Hg2 & Hc2 & _) & Hm).
  destruct (controls w' !! (DefaultNamespace, po_PvName opt)) as [d|] eqn:En.
  - subst r. intros [= <- <-]. rewrite Hg2, Hc2. split; [done|]. by exists d.
  - destruct Hm as (err & -> & ->). destruct (sh_create (pv_control_of opt u) w2) as (w3 & -> & Hc3 & [= _ Hg3 _]).
    { rewrite Hc2. exact En. }
    intros [= <- <-]. rewrite Hg3, Hg2, Hc3. split; [done|]. eexists. split; [apply lookup_insert_eq|done].
Qed.
(** The objects that are there are found, and nothing is written. *)
Lemma CreatePV_found opt u w id : made opt id w →
  ¬ (po_PvName opt = "" ∨ po_Size opt = 0%Z) → (FourMiB <= uwrap64 (po_Size opt))%Z →
  ∃ w1, CreatePV ParseQuantity show_pv opt u w = Ret (inl id) w1 ∧ same_objects w w1.
Proof.
  intros Hmade Hok Hsz. unfold CreatePV, made in *. cbv zeta. rewrite decide_False by done.
  rewrite decide_False.
  2: { rewrite FourMiB_value in Hsz |- *. destruct (decide (0 < uwrap64 (po_Size opt) mod 4194304)%Z); [|lia].
       assert (1 <= uwrap64 (po_Size opt) / 4194304)%Z by (apply Z.div_le_lower_bound; lia). lia. }
  destruct (decide (pv_type_of opt = PvTypeVolume)).
  { destruct Hmade as (v & Hv & <-). unfold create_volume, mbind, go_mbind, go_bind.
    destruct (get_vol (po_PvName opt) w) as (r & w' & -> & Hs & Hm). rewrite Hv in Hm. subst r. by exists w'. }
  destruct (decide (pv_type_of opt = PvTypeVolumeGroup)); [|subst id; by exists w].
  destruct Hmade as ([g Hg] & d & Hd & <-). unfold create_group, ensure_group, ensure_control, mbind, go_mbind, go_bind.
  destruct (get_group (po_PvName opt) w) as (r & w1 & -> & Hs1 & Hm). rewrite Hg in Hm. subst r. cbn.
  destruct (get_control (po_PvName opt) w1) as (r & w2 & -> & Hs2 & Hm). pose proof Hs1 as (_ & _ & Hc & _). rewrite Hc, Hd in Hm. subst r.
  exists w2. split; [done|]. by etrans.
Qed.
Lemma CreatePV_sized opt u w id w1 : CreatePV ParseQuantity show_pv opt u w = Ret (inl id) w1 →
  ¬ (po_PvName opt = "" ∨ po_Size opt = 0%Z) ∧ (FourMiB <= uwrap64 (po_Size opt))%Z.
Proof.
  unfold CreatePV. destruct (decide (_ ∨ _)) as [|Hok]; [done|]. destruct (decide (_ < _)%Z) as [|Hsz]; [done|]. intros _. split; [done|].
  rewrite FourMiB_value in Hsz |- *. destruct (decide _); [|lia].
  pose proof (Z.mul_div_le (uwrap64 (po_Size opt)) 4194304). lia.
Qed.

(** A repeated creation finds what the first one made, and writes nothing. *)
Lemma CreatePV_again opt opt' u u' w id w1 w2 : CreatePV ParseQuantity show_pv opt u w = Ret (inl id) w1 →
  same_request opt opt' → same_objects w1 w2 →
  ∃ w3, CreatePV ParseQuantity show_pv opt' u' w2 = Ret (inl id) w3 ∧ same_objects w2 w3.
Proof.
  intros Hrun (Hn & Hz & Ht) (Hv & Hg & Hc & _). destruct (CreatePV_sized _ _ _ _ _ Hrun) as [Hok Hsz].
  apply CreatePV_found; [|by rewrite Hn, Hz|by rewrite Hz].
  apply CreatePV_made in Hrun. unfold made in *. by rewrite Ht, Hn, Hv, Hg, Hc.
Qed.

(** The identifier and the name of a request are not in use. *)
Record fresh (name u : string) (w : W) : Prop := {
fr_id : u ≠ "" ∧ HasPrefix u DataControlUuidPrefix = false;
fr_vol : vols w !! (DefaultNamespace, name) = None;
fr_group : groups w !! (DefaultNamespace, name) = None;
fr_control : controls w !! (DefaultNamespace, name) = None;
fr_vols other v : vols w !! (DefaultNamespace, other) = Some v → map_get (om_Labels (vol_meta v)) UuidLabelKey ≠ Some u;
fr_controls other d : controls w !! (DefaultNamespace, other) = Some d →
  map_get (om_Labels (dc_meta d)) UuidLabelKey ≠ Some (DataControlUuidPrefix +:+ u);
}.

(** A list of which one object only is known. *)
Lemma only_member {A} (x : A) (xs : list A) : (∀ y, y ∈ xs ↔ y = x) → ∃ rest, xs = x :: rest.
Proof.
  intros H. destruct xs as [|y ys].
  - pose proof (proj2 (H x) eq_refl) as Hin. by apply elem_of_nil in Hin.
  - exists ys. by rewrite (proj1 (H y)) by (by left).
Qed.
Lemma list_vols_made name u v w : fresh name u w → om_Labels (vol_meta v) = Some (default ∅ (om_Labels (vol_meta v))) →
  map_get (om_Labels (vol_meta v)) UuidLabelKey = Some u →
  ∀ w1, vols w1 = <[(DefaultNamespace, name) := v]> (vols w) →
  ∃ rest w2, kList (T := AntstorVolume) DefaultNamespace (UuidLabelKey +:+ "=" +:+ u) w1 = Ret (inl (v :: rest)) w2 ∧ same_objects w1 w2.
Proof.
  intros Hf _ Hl w1 Hw1. destruct (sh_list (T := AntstorVolume) DefaultNamespace UuidLabelKey u w1 eq_refl)
    as (l & w2 & Hr & Hv & [= H1 H2 H3] & Hin).
  destruct (only_member v l) as [rest ->].
  - intros y. rewrite Hin, Hw1. split.
    + intros (other & Ho & Hy). destruct (decide (name = other)) as [<-|Hne].
      * rewrite lookup_insert_eq in Ho. by injection Ho as <-.
      * rewrite lookup_insert_ne in Ho by congruence. by destruct (fr_vols _ _ _ Hf other y Ho).
    + intros ->. exists name. by rewrite lookup_insert_eq.
  - exists rest, w2. by split_and!.
Qed.
Lemma list_controls_made name u d w : fresh name u w →
  map_get (om_Labels (dc_meta d)) UuidLabelKey = Some (DataControlUuidPrefix +:+ u) →
  ∀ w1, controls w1 = <[(DefaultNamespace, name) := d]> (controls w) →
  ∃ rest w2, kList (T := AntstorDataControl) DefaultNamespace (UuidLabelKey +:+ "=" +:+ (DataControlUuidPrefix +:+ u)) w1
    = Ret (inl (d :: rest)) w2 ∧ same_objects w1 w2.
Proof.
  intros Hf Hl w1 Hw1. destruct (sh_list (T := AntstorDataControl) DefaultNamespace UuidLabelKey (DataControlUuidPrefix +:+ u) w1 eq_refl)
    as (l & w2 & Hr & Hv & [= H1 H2 H3] & Hin).
  destruct (only_member d l) as [rest ->].
  - intros y. rewrite Hin, Hw1. split.
    + intros (other & Ho & Hy). destruct (decide (name = other)) as [<-|Hne].
      * rewrite lookup_insert_eq in Ho. by injection Ho as <-.
      * rewrite lookup_insert_ne in Ho by congruence. by destruct (fr_controls _ _ _ Hf other y Ho).
    + intros ->. exists name. by rewrite lookup_insert_eq.
  - exists rest, w2. by split_and!.
Qed.

Lemma labelled_get key v labels : map_get (labelled_with key v labels) key = Some v.
Proof. apply lookup_insert_eq. Qed.

Lemma create_delete_volume opt u w id w1 : fresh (po_PvName opt) u w → create_volume opt u w = Ret (inl id) w1 →
  ∃ w2, DeletePV id w1 = Ret None w2 ∧ same_objects w w2.
Proof.
  intros Hf. destruct (fr_id _ _ _ Hf) as [Hu Hp]. unfold create_volume, mbind, go_mbind, go_bind.
  destruct (get_vol (po_PvName opt) w) as (r & wa & -> & Hsa & Hm). rewrite (fr_vol _ _ _ Hf) in Hm.
  destruct Hm as (err & -> & ->). pose proof Hsa as (Hv & Hg & Hc & Hsn).
  destruct (sh_create (pv_volume_of opt u) wa) as (wb & -> & Hvb & [= Hgb Hcb Hsb]); [by rewrite Hv; apply Hf|].
  intros [= <- <-]. cbn [vs_Uuid vol_Spec pv_volume_of vs_set_Uuid]. rewrite Hv in Hvb.
  destruct (list_vols_made (po_PvName opt) u (pv_volume_of opt u) w Hf eq_refl (labelled_get _ _ _) wb Hvb) as (rest & wc & Hl & (Hvc & Hgc & Hcc & Hsc)).
  unfold DeletePV. rewrite decide_False by done. unfold GetPvByID. rewrite Hp. unfold mbind, go_mbind, go_bind. rewrite Hl. cbn [mret go_mret].
  rewrite Hvb in Hvc.
  destruct (sh_remove (T := AntstorVolume) DefaultNamespace (po_PvName opt) wc (pv_volume_of opt u)) as (wd & Hr & Hvd & [= Hgd Hcd Hsd]).
  { rewrite Hvc. apply lookup_insert_eq. }
  { done. }
  cbn. rewrite decide_True by done. rewrite Hr. exists wd. split; [done|]. split_and!; [|congruence..].
  rewrite Hvd, Hvc. apply delete_insert_id. apply Hf.
Qed.
Lemma create_delete_group opt u w id w1 : fresh (po_PvName opt) u w → create_group ParseQuantity opt u w = Ret (inl id) w1 →
  ∃ w2, DeletePV id w1 = Ret None w2 ∧ same_objects w w2.
Proof.
  intros Hf. unfold create_group, ensure_group, mbind, go_mbind, go_bind.
  destruct (get_group (po_PvName opt) w) as (r & wa & -> & (Hva & Hga & Hca & Hsa) & Hm). rewrite (fr_group _ _ _ Hf) in Hm.
  destruct Hm as (err & -> & ->). unfold pv_group_of, mbind, go_mbind, go_bind, MustParse.
  destruct (ParseQuantity (po_MinVolumeSize opt)) as [mn|]; [|done]. cbn.
  destruct (ParseQuantity (po_MaxVolumeSize opt)) as [mx|]; [|done]. cbn.
  match goal with |- context [kCreate ?g wa] => set (grp := g) end.
  destruct (sh_create grp wa) as (wb & -> & Hgb & [= Hvb Hcb Hsb]); [rewrite Hga; exact (fr_group _ _ _ Hf)|].
  cbn. unfold ensure_control, mbind, go_mbind, go_bind.
  destruct (get_control (po_PvName opt) wb) as (r & wc & -> & (Hvc & Hgc & Hcc & Hsc) & Hm).
  rewrite Hcb, Hca, (fr_control _ _ _ Hf) in Hm. destruct Hm as (err2 & -> & ->).
  destruct (sh_create (pv_control_of opt u) wc) as (wd & -> & Hcd & [= Hvd Hgd Hsd]); [by rewrite Hcc, Hcb, Hca; apply Hf|].
  intros [= <- <-]. cbn [dcs_UUID dc_Spec pv_control_of].
  rewrite Hcc, Hcb, Hca in Hcd. rewrite Hga in Hgb.
  destruct (list_controls_made (po_PvName opt) u (pv_control_of opt u) w Hf (labelled_get _ _ _) wd Hcd) as (rest & we & Hl & (Hve & Hge & Hce & Hse)).
  unfold DeletePV. rewrite decide_False by done. unfold GetPvByID.
  assert (HasPrefix (DataControlUuidPrefix +:+ u) DataControlUuidPrefix = true) as -> by apply prefix_app.
  unfold mbind, go_mbind, go_bind. rewrite Hl. cbn [mret go_mret].
  unfold pv_control, deref. cbn -[DataControlUuidPrefix]. rewrite decide_False, decide_True by done.
  destruct (get_group (po_PvName opt) we) as (r & wf & Hrun & (Hvf & Hgf & Hcf & Hsf) & Hm).
  unfold mbind, go_mbind, go_bind. rewrite Hrun. rewrite Hge, Hgd, Hgc, Hgb in Hm. 
  assert (<[ko_key grp := grp]> (groups w) !! (DefaultNamespace, po_PvName opt) = Some grp) as Hlook by apply lookup_insert_eq.
  rewrite Hlook in Hm. subst r.
  destruct (sh_remove (T := AntstorVolumeGroup) DefaultNamespace (po_PvName opt) wf grp) as (wg & Hrg & Hgg & [= Hvg Hcg Hsg]).
  { rewrite Hgf, Hge, Hgd, Hgc, Hgb. exact Hlook. }
  { done. }
  rewrite Hrg. cbn.
  destruct (sh_remove (T := AntstorDataControl) DefaultNamespace (po_PvName opt) wg (pv_control_of opt u)) as (wh & Hrh & Hch & [= Hvh Hgh Hsh]).
  { rewrite Hcg, Hcf, Hce, Hcd. apply lookup_insert_eq. }
  { done. }
  rewrite Hrh. exists wh. split; [done|]. split_and!; [congruence| | |congruence].
  - rewrite Hgh, Hgg, Hgf, Hge, Hgd, Hgc, Hgb. apply delete_insert_id. apply Hf.
  - rewrite Hch, Hcg, Hcf, Hce, Hcd. apply delete_insert_id. apply Hf.
Qed.

(** C25. Deleting a persistent volume right after creating it restores the server:
    a volume, or a volume group with its data control, made under a name and an
    identifier not in use are found by the identifier that was returned, and
    nothing of them remains. *)
Theorem CreatePV_then_DeletePV opt u w id w1 : fresh (po_PvName opt) u w →
  pv_type_of opt = PvTypeVolume ∨ pv_type_of opt = PvTypeVolumeGroup →
  CreatePV ParseQuantity show_pv opt u w = Ret (inl id) w1 →
  ∃ w2, DeletePV id w1 = Ret None w2 ∧ same_objects w w2.
Proof.
  intros Hf Ht. unfold CreatePV. cbv zeta. destruct (decide (_ ∨ _)); [done|]. destruct (decide (_ < _)%Z); [done|].
  destruct (decide (pv_type_of opt = PvTypeVolume)); [by apply create_delete_volume|].
  rewrite decide_True by tauto. by apply create_delete_group.
Qed.
End promises.

(** *** Evaluations: a server in memory *)

Module CsiMem.
#[export] Existing Instance NanoLib.
Record World := {
cw_vols : MemStore AntstorVolume;
cw_groups : MemStore (@AntstorVolumeGroup NanoLib);
cw_controls : MemStore AntstorDataControl;
cw_snaps : MemStore AntstorSnapshot;
cw_pools : MemStore (@StoragePool NanoLib);
}.
Definition set_vols v w := {| cw_vols := v; cw_groups := cw_groups w; cw_controls := cw_controls w; cw_snaps := cw_snaps w; cw_pools := cw_pools w |}.
Definition set_groups v w := {| cw_vols := cw_vols w; cw_groups := v; cw_controls := cw_controls w; cw_snaps := cw_snaps w; cw_pools := cw_pools w |}.
Definition set_controls v w := {| cw_vols := cw_vols w; cw_groups := cw_groups w; cw_controls := v; cw_snaps := cw_snaps w; cw_pools := cw_pools w |}.
Definition set_snaps v w := {| cw_vols := cw_vols w; cw_groups := cw_groups w; cw_controls := cw_controls w; cw_snaps := v; cw_pools := cw_pools w |}.
Definition set_pools v w := {| cw_vols := cw_vols w; cw_groups := cw_groups w; cw_controls := cw_controls w; cw_snaps := cw_snaps w; cw_pools := v |}.
#[export] Instance KV : KubeClient World AntstorVolume := shelf_client cw_vols set_vols.
#[export] Instance LV : KubeLister World AntstorVolume := shelf_lister cw_vols set_vols.
#[export] Instance RV : KubeRemover World AntstorVolume := shelf_remover cw_vols set_vols.
#[export] Instance KG : KubeClient World AntstorVolumeGroup := shelf_client cw_groups set_groups.
#[export] Instance LG : KubeLister World AntstorVolumeGroup := shelf_lister cw_groups set_groups.
#[export] Instance RG : KubeRemover World AntstorVolumeGroup := shelf_remover cw_groups set_groups.
#[export] Instance KD : KubeClient World AntstorDataControl := shelf_client cw_controls set_controls.
#[export] Instance LD : KubeLister World AntstorDataControl := shelf_lister cw_controls set_controls.
#[export] Instance RD : KubeRemover World AntstorDataControl := shelf_remover cw_controls set_controls.
#[export] Instance KS : KubeClient World AntstorSnapshot := shelf_client cw_snaps set_snaps.
#[export] Instance LS : KubeLister World AntstorSnapshot := shelf_lister cw_snaps set_snaps.
#[export] Instance RS : KubeRemover World AntstorSnapshot := shelf_remover cw_snaps set_snaps.
#[export] Instance KP : KubeClient World StoragePool := shelf_client cw_pools set_pools.
#[export] Instance HV : Shelf KV LV RV cw_vols (λ w, (cw_groups w, cw_controls w, cw_snaps w)).
Proof. apply shelf_laws; [by intros []|done|done|done]. Qed.
#[export] Instance HG : Shelf KG LG RG cw_groups (λ w, (cw_vols w, cw_controls w, cw_snaps w)).
Proof. apply shelf_laws; [by intros []|done|done|done]. Qed.
#[export] Instance HD : Shelf KD LD RD cw_controls (λ w, (cw_vols w, cw_groups w, cw_snaps w)).
Proof. apply shelf_laws; [by intros []|done|done|done]. Qed.
#[export] Instance HS : Shelf KS LS RS cw_snaps (λ w, (cw_vols w, cw_groups w, cw_controls w)).
Proof. apply shelf_laws; [by intros []|done|done|done]. Qed.
Notation same := (same_objects cw_vols cw_groups cw_controls cw_snaps).

Definition empty : World := {| cw_vols := ∅; cw_groups := ∅; cw_controls := ∅; cw_snaps := ∅; cw_pools := ∅ |}.
Definition parse (s : string) : result (Quantity (K8sLib := NanoLib)) :=
  match Atoi s with (n, None) => inl (NewQuantity n) | (_, Some e) => inr e end.
Definition opt (raid : string) : PVCreateOption := {|
  po_PvName := "pv-1"; po_Labels := None; po_Annotations := None; po_HostNode := NodeInfo_zero; po_Size := GiB;
  po_VolumeType := VolumeTypeFlexible; po_PositionAdvice := ""; po_PvType := ""; po_RaidLevel := raid; po_EngineType := "";
  po_MaxVolumes := 4; po_MaxVolumeSize := "1073741824"; po_MinVolumeSize := "4194304"; po_SizeSymmetry := "";
  po_AllowEmptyNode := true |}.
Definition show (o : PVCreateOption) : string := po_PvName o.
Lemma empty_fresh : fresh cw_vols cw_groups cw_controls "pv-1" "u-1" empty.
Proof.
  split; [split; [discriminate|vm_compute; reflexivity]|apply lookup_empty..| |].
  - intros other v. cbn. by rewrite lookup_empty.
  - intros other d. cbn. by rewrite lookup_empty.
Qed.
End CsiMem.
Import CsiMem.

Lemma CreatePV_then_DeletePV_witness : ∃ id1 id2 w1 w2 w3 w4,
  CreatePV parse show (opt "") "u-1" empty = Ret (inl id1) w1 ∧
  DeletePV id1 w1 = Ret None w2 ∧ same_objects cw_vols cw_groups cw_controls cw_snaps empty w2 ∧
  CreatePV parse show (opt "raid0") "u-1" empty = Ret (inl id2) w3 ∧
  DeletePV id2 w3 = Ret None w4 ∧ same_objects cw_vols cw_groups cw_controls cw_snaps empty w4.
Proof.
  destruct (CreatePV parse show (opt "") "u-1" empty) as [r1 w1|] eqn:E1; [|by vm_compute in E1].
  destruct (CreatePV parse show (opt "raid0") "u-1" empty) as [r3 w3|] eqn:E3; [|by vm_compute in E3].
  destruct r1 as [id1|e]; [|by vm_compute in E1]. destruct r3 as [id2|e]; [|by vm_compute in E3].
  destruct (CreatePV_then_DeletePV parse show cw_vols cw_groups cw_controls cw_snaps
    (opt "") "u-1" empty id1 w1 empty_fresh) as (w2 & H2 & S2); [by left|exact E1|].
  destruct (CreatePV_then_DeletePV parse show cw_vols cw_groups cw_controls cw_snaps
    (opt "raid0") "u-1" empty id2 w3 empty_fresh) as (w4 & H4 & S4); [by right|exact E3|].
  by exists id1, id2, w1, w2, w3, w4.
Defined.
