(* ===== verification/CsiController.v ===== *)
(** * The controller server of the CSI driver

    [pkg/csi/rpcserver/controller.go]: the calls by which Kubernetes creates,
    expands and deletes volumes and snapshots. The server works through the
    interface of the client, a class here, so that what it promises is proved
    from what the client promises. The CSI specification asks for idempotent
    calls: the caller repeats a request until it gets an answer. *)

From Stdlib Require Import ZArith Lia.
From stdpp Require Import base gmap strings option list.
From S2P Require Import Prelude Strconv Misc K8s Api Server VolumeSync Snapshot VolumeGroup DataControl CsiClient.

(** ** Status codes of gRPC *)

Definition codes_InvalidArgument : Z := 3.
Definition codes_NotFound : Z := 5.
Definition codes_OutOfRange : Z := 11.
Definition codes_Unimplemented : Z := 12.
Definition codes_Internal : Z := 13.
Definition status_Error (code : Z) (msg : string) : error := ErrGrpc code msg.
Definition internal (e : error) : error := status_Error codes_Internal (error_msg e).

(** ** Keys *)

(* [rpcserver/controller.go:30-30] pvcNameKey *)
Definition pvcNameKey : string := "csi.storage.k8s.io/pvc/name".
(* [rpcserver/controller.go:31-31] pvcNamespaceKey *)
Definition pvcNamespaceKey : string := "csi.storage.k8s.io/pvc/namespace".
(* [rpcserver/controller.go:39-39] pvcNameKeyForLabel *)
Definition pvcNameKeyForLabel : string := "csi.storage.k8s.io/pvc-name".
(* [rpcserver/controller.go:40-40] pvcNamespaceKeyForLabel *)
Definition pvcNamespaceKeyForLabel : string := "csi.storage.k8s.io/pvc-namespace".
(* [rpcserver/controller.go:42-42] dataHolderKey *)
Definition dataHolderKey : string := "antstor.csi.alipay.com/data-holder".
(* [rpcserver/controller.go:43-43] selectedNodeKey *)
Definition selectedNodeKey : string := "volume.kubernetes.io/selected-node".
(* [rpcserver/controller.go:46-46] diskLocationKey *)
Definition diskLocationKey : string := "positionAdvice".
(* [rpcserver/controller.go:48-48] volumeTypeKey *)
Definition volumeTypeKey : string := "volumeType".
(* [rpcserver/controller.go:50-50] fsTypeKey *)
Definition fsTypeKey : string := "fsType".
(* [rpcserver/controller.go:56-56] pvTypeKey *)
Definition pvTypeKey : string := "obnvmf/pv-type".
(* [rpcserver/controller.go:57-57] raidLevelKey *)
Definition raidLevelKey : string := "datacontrol/raid-level".
(* [rpcserver/controller.go:58-58] engineTypeKey *)
Definition engineTypeKey : string := "datacontrol/engine-type".
(* [rpcserver/controller.go:59-59] volGroupSymmetryKey *)
Definition volGroupSymmetryKey : string := "volgroup/size-symmetry".
(* [rpcserver/controller.go:60-60] volGroupMinSizeKey *)
Definition volGroupMinSizeKey : string := "volgroup/min-size".
(* [rpcserver/controller.go:61-61] volGroupMaxSizeKey *)
Definition volGroupMaxSizeKey : string := "volgroup/max-size".
(* [rpcserver/controller.go:62-62] volGroupMaxVolumesKey *)
Definition volGroupMaxVolumesKey : string := "volgroup/max-volumes".
(* [rpcserver/controller.go:63-63] volGroupAllowEmptyKey *)
Definition volGroupAllowEmptyKey : string := "volgroup/allow-empty-node".
(* [rpcserver/controller.go:66-66] volumeTypeAnnoKey *)
Definition volumeTypeAnnoKey : string := "obnvmf/volume-type".
(* [rpcserver/controller.go:85-85] volumePositionAdviceKey *)
Definition volumePositionAdviceKey : string := "custom.k8s.alipay.com/sds-position-advice".

(** ** Nodes *)

(* [kubeutil/node.go:17-17] K8SLabelKeyHostname *)
Definition K8SLabelKeyHostname : string := "kubernetes.io/hostname".
(* [kubeutil/node.go:18-18] K8SLabelKeyArch *)
Definition K8SLabelKeyArch : string := "kubernetes.io/arch".
(* [agent/config/config.go:18-23] NodeInfoKeys *)
Record NodeInfoKeys := { nk_IP : string; nk_Hostname : string; nk_Rack : string; nk_Room : string }.
(* [agent/config/default.go:15-31] SetNodeInfoDefaults *)
Definition SetNodeInfoDefaults (cfg : NodeInfoKeys) : NodeInfoKeys :=
  let or s d := if decide (s = "") then d else s in
  {| nk_Hostname := or (nk_Hostname cfg) "lite.io/hostname"; nk_IP := or (nk_IP cfg) "lite.io/ip";
     nk_Rack := or (nk_Rack cfg) "lite.io/rack"; nk_Room := or (nk_Room cfg) "lite.io/room" |}.
(* [kubeutil/node.go:97-103] BasicNodeInfo *)
Record BasicNodeInfo := { bn_IP : string; bn_Hostname : string; bn_Rack : string; bn_Room : string; bn_Arch : string }.
(* [kubeutil/node.go:105-124] FromLabels *)
Definition FromLabels (opt : NodeInfoKeys) (labels : gomap string) : BasicNodeInfo :=
  if map_is_nil labels then {| bn_IP := ""; bn_Hostname := ""; bn_Rack := ""; bn_Room := ""; bn_Arch := "" |}
  else
    let hostname := map_str labels (nk_Hostname opt) in
    {| bn_IP := map_str labels (nk_IP opt);
       bn_Hostname := if decide (hostname = "") then map_str labels K8SLabelKeyHostname else hostname;
       bn_Rack := map_str labels (nk_Rack opt); bn_Room := map_str labels (nk_Room opt);
       bn_Arch := map_str labels K8SLabelKeyArch |}.
(* [kubeutil/node.go:126-136] BasicNodeInfo.ToLabels *)
Definition ToLabels (b : BasicNodeInfo) : gomap string :=
  Some (<["ip" := bn_IP b]> (<["hostname" := bn_Hostname b]> (<["rack" := bn_Rack b]>
         (<["room" := bn_Room b]> {[ "arch" := bn_Arch b ]})))).
(** The part of [corev1.Node] that is read: labels and addresses with their type. *)
Record KNode := { kn_Labels : gomap string; kn_Addresses : list (string * string) }.
Definition NodeInternalIP : string := "InternalIP".

(** ** Requests and responses *)

(** [csi.CreateVolumeRequest]: the required bytes, if there is a capacity range,
    and the snapshot the volume is made from, if any. *)
Record CreateVolumeRequest := {
cvreq_Name : string;
cvreq_CapacityRange : option Z;
cvreq_Parameters : gomap string;
cvreq_Snapshot : option string;
}.
Record CsiVolume := {
cv_VolumeId : string;
cv_CapacityBytes : Z;
cv_VolumeContext : gomap string;
cv_ContentSource : option string;
cv_Topology : list (gomap string);
}.
Record CsiSnapshot := { csn_SizeBytes : Z; csn_SnapshotId : string; csn_SourceVolumeId : string; csn_ReadyToUse : bool }.

(** ** The interface of the client *)

Class AntstorClientIface {L : K8sLib} (W : Type) := {
  ac_GetPvByID : string → go W (result PV);
  ac_CreatePV : PVCreateOption → string → go W (result string);
  ac_DeletePV : string → go W (option error);
  ac_ResizePV : string → Z → go W (option error);
  ac_SetNodePublishParameters : SetNodePublishParamRequest → go W (option error);
  ac_GetSnapshotByID : string → go W (result AntstorSnapshot);
  ac_GetSnapshotByName : string → string → go W (result AntstorSnapshot);
  ac_CreateSnapshot : AntstorSnapshot → string → go W (result string);
  ac_DeleteSnapshot : string → go W (option error);
  ac_GetStoragePoolByName : string → string → go W (result StoragePool);
}.

Section controller.
Context {L : K8sLib} {W : Type} {C : AntstorClientIface W}.
(** Reading a claim's annotations and a node from Kubernetes. *)
Context (pvc_Get : string → string → go W (result (gomap string))) (node_Get : string → go W (result KNode)).

(* [kubeutil/node.go:47-70] kubeApiNodeInfo.GetByNodeID *)
Definition GetByNodeID (nodeID : string) (opt : NodeInfoKeys) : go W (result NodeInfo) :=
  r ← node_Get nodeID;
  mret (match r with
        | inr e => inr e
        | inl node =>
            let basicInfo := FromLabels opt (kn_Labels node) in
            let ip := if decide (bn_IP basicInfo = "")
                      then foldl (λ ip item, if decide (item.1 = NodeInternalIP) then item.2 else ip) "" (kn_Addresses node)
                      else bn_IP basicInfo in
            inl {| ni_ID := nodeID; ni_IP := ip; ni_Hostname := bn_Hostname basicInfo; ni_Labels := kn_Labels node |}
        end).

(** What is gathered for a volume: the options, its labels and annotations. *)
Record Gathered := { ga_opt : PVCreateOption; ga_labels : gmap string string; ga_annos : gmap string string }.
Definition param (req : CreateVolumeRequest) (key : string) : string := map_str (cvreq_Parameters req) key.
Definition or_default (s d : string) : string := if decide (s = "") then d else s.

(* [rpcserver/controller.go:144-178] ControllerServer.CreateVolume, the parameters *)
Definition gather_params (req : CreateVolumeRequest) (required : Z) : Gathered :=
  let fsType := or_default (param req fsTypeKey) "xfs" in {|
    ga_opt := {|
      po_PvName := cvreq_Name req; po_Labels := None; po_Annotations := None; po_HostNode := NodeInfo_zero;
      po_Size := required; po_VolumeType := or_default (param req volumeTypeKey) VolumeTypeFlexible;
      po_PositionAdvice := param req diskLocationKey; po_PvType := param req pvTypeKey;
      po_RaidLevel := param req raidLevelKey; po_EngineType := param req engineTypeKey;
      po_MaxVolumes := match map_get (cvreq_Parameters req) volGroupMaxVolumesKey with Some v => (Atoi v).1 | None => 0%Z end;
      po_MaxVolumeSize := param req volGroupMaxSizeKey; po_MinVolumeSize := param req volGroupMinSizeKey;
      po_SizeSymmetry := param req volGroupSymmetryKey;
      po_AllowEmptyNode := match map_get (cvreq_Parameters req) volGroupAllowEmptyKey with
                           | Some v => bool_decide (v = "true") | None => true end |};
    ga_labels := <[pvcNamespaceKeyForLabel := param req pvcNamespaceKey]> (<[pvcNameKeyForLabel := param req pvcNameKey]>
                   (<[VolumePVNameLabelKey := cvreq_Name req]> {[ FsTypeLabelKey := fsType ]}));
    ga_annos := {[ FsTypeLabelKey := fsType ]} |}.

(** A source snapshot must be ready; the volume is then kept on its node. *)
(* [rpcserver/controller.go:180-197] ControllerServer.CreateVolume, the source *)
Definition gather_source (req : CreateVolumeRequest) (g : Gathered) : go W (result Gathered) :=
  match cvreq_Snapshot req with
  | None => mret (inl g)
  | Some id =>
      r ← ac_GetSnapshotByID id;
      mret (match r with
            | inr e => inr (internal e)
            | inl snap =>
                if decide (sst_Status (snap_Status snap) = SnapshotStatusReady) then inl {|
                  ga_opt := ga_opt g;
                  ga_labels := <[VolumeSourceSnapNamespaceLabelKey := om_Namespace (snap_meta snap)]>
                                 (<[VolumeSourceSnapNameLabelKey := om_Name (snap_meta snap)]> (ga_labels g));
                  ga_annos := <[PoolLabelSelectorKey := PoolLabelsNodeSnKey +:+ "=" +:+ ss_OriginVolTargetNodeID (snap_Spec snap)]>
                                (ga_annos g) |}
                else inr (status_Error codes_Internal
                  ("snapshot has not been ready yet, status " +:+ sst_Status (snap_Status snap)))
            end)
  end.

Definition po_with (advice volType : string) (host : NodeInfo) (labels annos : gomap string) (o : PVCreateOption) : PVCreateOption := {|
  po_PvName := po_PvName o; po_Labels := labels; po_Annotations := annos; po_HostNode := host; po_Size := po_Size o;
  po_VolumeType := volType; po_PositionAdvice := advice; po_PvType := po_PvType o; po_RaidLevel := po_RaidLevel o;
  po_EngineType := po_EngineType o; po_MaxVolumes := po_MaxVolumes o; po_MaxVolumeSize := po_MaxVolumeSize o;
  po_MinVolumeSize := po_MinVolumeSize o; po_SizeSymmetry := po_SizeSymmetry o; po_AllowEmptyNode := po_AllowEmptyNode o |}.
(** What the annotations of the claim add; the second result is the node. *)
(* [rpcserver/controller.go:206-231] ControllerServer.CreateVolume, the annotations of the claim *)
Definition add_claim_annos (annos : gomap string) (g : Gathered) : Gathered * string :=
  let holder := map_str annos dataHolderKey in
  let o := ga_opt g in
  let a1 := match map_get annos SnapshotReservedSpaceAnnotationKey with
            | Some v => <[SnapshotReservedSpaceAnnotationKey := v]> (ga_annos g) | None => ga_annos g end in
  ({| ga_opt := po_with (default (po_PositionAdvice o) (map_get annos volumePositionAdviceKey))
                  (default (po_VolumeType o) (map_get annos volumeTypeAnnoKey)) (po_HostNode o) (po_Labels o) (po_Annotations o) o;
      ga_labels := if decide (holder ≠ "") then <[VolumeDataHolderKey := holder]> (ga_labels g) else ga_labels g;
      ga_annos := filter (λ kv, HasPrefix kv.1 "obnvmf/" = true) (default ∅ annos) ∪ a1 |},
   map_str annos selectedNodeKey).
(* [rpcserver/controller.go:199-232] ControllerServer.CreateVolume, the claim *)
Definition gather_claim (req : CreateVolumeRequest) (g : Gathered) : go W (result (Gathered * string)) :=
  if decide (param req pvcNamespaceKey ≠ "" ∧ param req pvcNameKey ≠ "") then
    r ← pvc_Get (param req pvcNamespaceKey) (param req pvcNameKey);
    mret (match r with inr e => inr (internal e) | inl annos => inl (add_claim_annos annos g) end)
  else mret (inl (g, "")).
(* [rpcserver/controller.go:234-248] ControllerServer.CreateVolume, the host *)
Definition gather_host (nodeName : string) : go W (result NodeInfo) :=
  if decide (nodeName ≠ "") then
    r ← GetByNodeID nodeName (SetNodeInfoDefaults {| nk_IP := ""; nk_Hostname := ""; nk_Rack := ""; nk_Room := "" |});
    mret (match r with
          | inr e => inr (internal e)
          | inl info => inl {| ni_ID := nodeName; ni_IP := ni_IP info;
              ni_Hostname := if map_is_nil (ni_Labels info) then ni_Hostname info else map_str (ni_Labels info) K8SLabelKeyHostname;
              ni_Labels := ni_Labels info |}
          end)
  else mret (inl NodeInfo_zero).

(* [rpcserver/controller.go:120-282] ControllerServer.CreateVolume *)
Definition CreateVolume (req : CreateVolumeRequest) (uuid : string) : go W (result CsiVolume) :=
  match cvreq_CapacityRange req with
  | None => mret (inr (status_Error codes_InvalidArgument "CreateVolumeRequest.CapacityRange is nil"))
  | Some required =>
      g1 ← gather_source req (gather_params req required);
      match g1 with
      | inr e => mret (inr e)
      | inl g1 =>
          g2 ← gather_claim req g1;
          match g2 with
          | inr e => mret (inr e)
          | inl (g2, nodeName) =>
              host ← gather_host nodeName;
              match host with
              | inr e => mret (inr e)
              | inl host =>
                  let opt := po_with (po_PositionAdvice (ga_opt g2)) (po_VolumeType (ga_opt g2)) host
                               (Some (ga_labels g2)) (Some (ga_annos g2)) (ga_opt g2) in
                  let topo := if decide (po_PositionAdvice opt = MustLocal)
                              then [Some {[ K8SLabelKeyHostname := ni_Hostname (po_HostNode opt) ]}] else [] in
                  r ← ac_CreatePV opt uuid;
                  mret (match r with
                        | inr e => inr (internal e)
                        | inl volID => inl {| cv_VolumeId := volID; cv_CapacityBytes := po_Size opt;
                            cv_VolumeContext := cvreq_Parameters req; cv_ContentSource := cvreq_Snapshot req;
                            cv_Topology := topo |}
                        end)
              end
          end
      end
  end.

Definition answered {A} (a : A) (err : option error) : result A :=
  match err with None => inl a | Some e => inr (internal e) end.
(* [rpcserver/controller.go:286-298] ControllerServer.DeleteVolume *)
Definition DeleteVolume (volumeId : string) : go W (result unit) :=
  if decide (volumeId = "") then mret (inr (status_Error codes_InvalidArgument "DeleteVolumeRequest is invalid"))
  else err ← ac_DeletePV volumeId; mret (answered tt err).
(* [rpcserver/controller.go:300-303] ControllerServer.ControllerGetVolume *)
Definition ControllerGetVolume : go W (result unit) := mret (inr (status_Error codes_Unimplemented "")).
(** The capability is only compared with nil. *)
(* [rpcserver/controller.go:310-320] ControllerServer.ControllerPublishVolume *)
Definition ControllerPublishVolume (volumeId nodeId : string) (capability : option unit) : go W (result unit) :=
  mret (if decide (volumeId = "" ∨ nodeId = "" ∨ capability = None)
        then inr (status_Error codes_InvalidArgument "ControllerPublishVolumeRequest is invalid") else inl tt).
(* [rpcserver/controller.go:325-335] ControllerServer.ControllerUnpublishVolume *)
Definition ControllerUnpublishVolume (volumeId : string) : go W (result unit) :=
  mret (if decide (volumeId = "")
        then inr (status_Error codes_InvalidArgument "ControllerUnpublishVolumeRequest is invalid") else inl tt).
(* [rpcserver/controller.go:340-363] ControllerServer.ValidateVolumeCapabilities *)
Definition ValidateVolumeCapabilities {A} (volumeId : string) (capabilities : option (list A)) : go W (result (list A)) :=
  match capabilities with
  | Some caps =>
      if decide (volumeId = "") then mret (inr (status_Error codes_InvalidArgument "ValidateVolumeCapabilitiesRequest is invalid"))
      else r ← ac_GetPvByID volumeId; mret (match r with inl _ => inl caps | inr e => inr (internal e) end)
  | None => mret (inr (status_Error codes_InvalidArgument "ValidateVolumeCapabilitiesRequest is invalid"))
  end.

(** The answer is the new size; the node has to grow the file system. *)
(* [rpcserver/controller.go:368-425] ControllerServer.ControllerExpandVolume *)
Definition ControllerExpandVolume (volumeId : string) (capRange : option Z) : go W (result Z) :=
  if decide (volumeId = "") then mret (inr (status_Error codes_InvalidArgument "ControllerExpandVolume.VolumeId is empty"))
  else match capRange with
  | None => mret (inr (status_Error codes_InvalidArgument "ControllerExpandVolume.CapacityRange is nil"))
  | Some required =>
      r ← ac_GetPvByID volumeId;
      match r with
      | inr e => mret (inr (status_Error (if IsNotFound e then codes_NotFound else codes_Internal) (error_msg e)))
      | inl pv =>
          volSize ← GetSize pv;
          if decide (required <= volSize)%Z then
            mret (inr (status_Error codes_InvalidArgument ("target size is " +:+ Itoa required +:+ ", current size is " +:+
              Itoa volSize +:+ ", only expasion is allowed")))
          else
            tgtNodeId ← GetTargetNodeId pv;
            p ← ac_GetStoragePoolByName (pv_Namespace pv) tgtNodeId;
            match p with
            | inr e => mret (inr (internal e))
            | inl sp =>
                let freeBytes := GetVgFreeBytes sp in
                if decide (freeBytes < wrap64 (required - volSize))%Z then
                  mret (inr (status_Error codes_OutOfRange ("storagepool " +:+ tgtNodeId +:+
                    " has no enough free space to expand the volume, free space " +:+ Itoa freeBytes +:+
                    ", request size " +:+ Itoa required +:+ ", original size " +:+ Itoa volSize)))
                else
                  err ← ac_ResizePV volumeId required;
                  mret (answered required err)
            end
      end
  end.
(* [rpcserver/controller.go:427-430] ControllerServer.ListVolumes *)
Definition ListVolumes : go W (result unit) := mret (inr (status_Error codes_Unimplemented "")).
(* [rpcserver/controller.go:432-434] ControllerServer.GetCapacity *)
Definition GetCapacity : go W (result unit) := mret (inr (status_Error codes_Unimplemented "")).

(** *** Snapshots *)

(* [rpcserver/controller.go:498-520] ControllerServer.CreateSnapshot, the snapshot *)
Definition snapshot_of (name : string) (vol : AntstorVolume) : AntstorSnapshot := {|
  snap_meta := named name (Some (<[OriginVolumeNamespaceLabelKey := om_Namespace (vol_meta vol)]>
                 {[ OriginVolumeNameLabelKey := om_Name (vol_meta vol) ]})) map_make;
  snap_Spec := {| ss_Uuid := ""; ss_VolType := vs_Type (vol_Spec vol); ss_KernelLvol := KernelLvol_zero; ss_SpdkLvol := SpdkLvol_zero;
                  ss_Size := wrap64 (vs_SizeByte (vol_Spec vol)); ss_OriginVolName := om_Name (vol_meta vol);
                  ss_OriginVolNamespace := om_Namespace (vol_meta vol); ss_OriginVolTargetNodeID := "" |};
  snap_Status := {| sst_Status := SnapshotStatusCreating |} |}.
Definition snapshot_answer (vol : AntstorVolume) (id : string) (ready : bool) : CsiSnapshot := {|
  csn_SizeBytes := wrap64 (vs_SizeByte (vol_Spec vol)); csn_SnapshotId := id; csn_SourceVolumeId := vs_Uuid (vol_Spec vol);
  csn_ReadyToUse := ready |}.
(** An empty identifier is answered with the text of a nil error. *)
(* [rpcserver/controller.go:444-542] ControllerServer.CreateSnapshot *)
Definition Controller_CreateSnapshot (sourceVolumeId name uuid : string) : go W (result CsiSnapshot) :=
  if decide (sourceVolumeId = "") then mret (inr (status_Error codes_InvalidArgument "CreateSnapshotRequest.SourceVolumeId is nil"))
  else if decide (name = "") then mret (inr (status_Error codes_InvalidArgument "CreateSnapshotRequest.Name is nil"))
  else
    r ← ac_GetPvByID sourceVolumeId;
    match r with
    | inr e => mret (inr (internal e))
    | inl pv =>
        match pv_Volume pv with
        | Some vol =>
            if decide (pv_Type pv ≠ PvTypeVolume) then mret (inr (status_Error codes_InvalidArgument "only support Volume snapshot"))
            else if decide (vst_Status (vol_Status vol) ≠ VolumeStatusReady) then
              mret (inr (status_Error codes_Internal ("snapshot shoule be created after original volume is ready, volume status " +:+
                vst_Status (vol_Status vol))))
            else
              s ← ac_GetSnapshotByName DefaultNamespace name;
              match s with
              | inl snapshot =>
                  mret (inl (snapshot_answer vol (map_str (om_Labels (snap_meta snapshot)) SnapUuidLabelKey)
                               (bool_decide (sst_Status (snap_Status snapshot) = SnapshotStatusReady))))
              | inr e =>
                  if IsNotFound e then
                    made ← ac_CreateSnapshot (snapshot_of name vol) uuid;
                    match made with
                    | inr e => mret (inr (internal e))
                    | inl snapID =>
                        if decide (snapID = "") then panic "nil pointer dereference: err"
                        else mret (inl (snapshot_answer vol snapID false))
                    end
                  else mret (inr (internal e))
              end
        | None => mret (inr (status_Error codes_InvalidArgument "only support Volume snapshot"))
        end
    end.
(* [rpcserver/controller.go:547-559] ControllerServer.DeleteSnapshot *)
Definition Controller_DeleteSnapshot (snapshotId : string) : go W (result unit) :=
  if decide (snapshotId = "") then mret (inr (status_Error codes_InvalidArgument "DeleteSnapshotRequest is invalid"))
  else err ← ac_DeleteSnapshot snapshotId; mret (answered tt err).
(* [rpcserver/controller.go:561-564] ControllerServer.ListSnapshots *)
Definition ListSnapshots : go W (result unit) := mret (inr (status_Error codes_Unimplemented "")).
End controller.

(** ** The client of the API server implements the interface *)

Section kube_client.
Context {L : K8sLib} {W : Type}.
Context {KV : KubeClient W AntstorVolume} {KG : KubeClient W AntstorVolumeGroup} {KD : KubeClient W AntstorDataControl}.
Context {KS : KubeClient W AntstorSnapshot} {KP : KubeClient W StoragePool}.
Context {LV : KubeLister W AntstorVolume} {LD : KubeLister W AntstorDataControl} {LS : KubeLister W AntstorSnapshot}.
Context {RV : KubeRemover W AntstorVolume} {RG : KubeRemover W AntstorVolumeGroup}.
Context {RD : KubeRemover W AntstorDataControl} {RS : KubeRemover W AntstorSnapshot}.
Context (ParseQuantity : string → result Quantity) (show_pv : PVCreateOption → string) (show_snap : AntstorSnapshot → string).

(* [csi/client/client.go:35-37] KubeAPIClient *)
Definition KubeAPIClient : AntstorClientIface W := {|
  ac_GetPvByID := GetPvByID; ac_CreatePV := CreatePV ParseQuantity show_pv; ac_DeletePV := DeletePV; ac_ResizePV := ResizePV;
  ac_SetNodePublishParameters := SetNodePublishParameters; ac_GetSnapshotByID := GetSnapshotByID;
  ac_GetSnapshotByName := GetSnapshotByName; ac_CreateSnapshot := CreateSnapshot show_snap;
  ac_DeleteSnapshot := DeleteSnapshot; ac_GetStoragePoolByName := GetStoragePoolByName;
|}.
End kube_client.

(** ** What the client promises to the server

    [same] relates worlds in which the same objects are stored. *)

Class ClientLaws {L : K8sLib} {W : Type} (C : AntstorClientIface W) (same : W → W → Prop) := {
  cl_pre :: PreOrder same;
  (** A repeated creation is answered alike and stores nothing. *)
  cl_again opt opt' u u' w id w1 w2 : ac_CreatePV opt u w = Ret (inl id) w1 → same_request opt opt' → same w1 w2 →
    ∃ w3, ac_CreatePV opt' u' w2 = Ret (inl id) w3 ∧ same w2 w3;
  cl_snapshot_id id w r w1 : ac_GetSnapshotByID id w = Ret r w1 → same w w1;
}.

Section controller_spec.
Context {L : K8sLib} {W : Type} {C : AntstorClientIface W} (same : W → W → Prop) {HC : ClientLaws C same}.
Context (pvc_Get : string → string → go W (result (gomap string))) (node_Get : string → go W (result KNode)).
(** Kubernetes' own objects are only read. *)
Definition reads_only : Prop :=
  (∀ ns name w r w1, pvc_Get ns name w = Ret r w1 → same w w1) ∧ (∀ name w r w1, node_Get name w = Ret r w1 → same w w1).

Lemma gather_source_reads req g w r w1 : gather_source req g w = Ret r w1 → same w w1 ∧
  match r with inl g1 => ga_opt g1 = ga_opt g | inr e => True end.
Proof.
  unfold gather_source. destruct (cvreq_Snapshot req) as [id|]; [|by intros [= <- <-]].
  unfold mbind, go_mbind, go_bind. destruct (ac_GetSnapshotByID id w) as [ans w'|] eqn:Ea; [|done].
  intros [= <- <-]. split; [by eapply cl_snapshot_id|]. destruct ans as [s|e]; [|done]. by destruct (decide _).
Qed.
Lemma gather_claim_reads req g w r w1 : reads_only → gather_claim pvc_Get req g w = Ret r w1 → same w w1 ∧
  match r with inl g1 => same_request (ga_opt g) (ga_opt g1.1) | inr e => True end.
Proof.
  intros [Hp _]. unfold gather_claim. destruct (decide _); [|intros [= <- <-]; by split_and!].
  unfold mbind, go_mbind, go_bind. destruct (pvc_Get _ _ w) as [ans w'|] eqn:Ea; [|done].
  intros [= <- <-]. split; [by eapply Hp|]. by destruct ans.
Qed.
Lemma gather_host_reads name w r w1 : reads_only → gather_host node_Get name w = Ret r w1 → same w w1.
Proof.
  intros [_ Hn]. unfold gather_host. destruct (decide _); [|by intros [= <- <-]].
  unfold GetByNodeID, mbind, go_mbind, go_bind. destruct (node_Get name w) as [ans w'|] eqn:Ea; [|done].
  intros [= <- <-]. by eapply Hn.
Qed.

(** A creation is a reading phase that ends in a refusal or in one call of the
    client, whose request is the one [req] fixes. *)
Lemma CreateVolume_phases req required uuid w r w1 : reads_only → cvreq_CapacityRange req = Some required →
  CreateVolume pvc_Get node_Get req uuid w = Ret r w1 →
  (∃ e, r = inr e ∧ same w w1) ∨
  ∃ opt wa a, same w wa ∧ same_request (ga_opt (gather_params req required)) opt ∧ ac_CreatePV opt uuid wa = Ret a w1 ∧
    match a with inl id => ∃ v, r = inl v ∧ cv_VolumeId v = id ∧ cv_CapacityBytes v = required | inr e => r = inr (internal e) end.
Proof.
  intros Hro Hcap. unfold CreateVolume. rewrite Hcap. unfold mbind, go_mbind, go_bind.
  destruct (gather_source req _ w) as [g1 wa|] eqn:E1; [|done]. destruct (gather_source_reads _ _ _ _ _ E1) as [Hs1 Ho1].
  destruct g1 as [g1|e]; [|intros [= <- <-]; left; by exists e].
  destruct (gather_claim pvc_Get req g1 wa) as [g2 wb|] eqn:E2; [|done]. destruct (gather_claim_reads _ _ _ _ _ Hro E2) as [Hs2 Ho2].
  destruct g2 as [[g2 nodeName]|e]; [|intros [= <- <-]; left; exists e; split; [done|by etrans]].
  destruct (gather_host node_Get nodeName wb) as [h wc|] eqn:E3; [|done]. pose proof (gather_host_reads _ _ _ _ Hro E3) as Hs3.
  assert (same w wc) as Hs by (etrans; [done|]; by etrans).
  destruct h as [host|e]; [|intros [= <- <-]; left; by exists e].
  rewrite Ho1 in Ho2. cbn [fst] in Ho2.
  match goal with |- match ac_CreatePV ?o uuid wc with _ => _ end = _ → _ => set (opt := o) end.
  destruct (ac_CreatePV opt uuid wc) as [ans wd|] eqn:Ec; [|done]. intros [= <- <-]. right. exists opt, wc, ans.
  split; [done|]. split; [exact Ho2|]. split; [done|]. destruct ans as [id|e]; [|done]. eexists. split; [done|]. split; [done|].
  cbn. destruct Ho2 as (_ & Hz & _). exact Hz.
Qed.

(** C24. Creating a volume is idempotent, as the CSI specification asks: when a
    request was answered with a volume, the same request, repeated with whatever
    annotations the claim has by then and whatever new identifier is drawn, is
    answered with the same volume or refused before anything is written; the
    objects on the server stay as they are either way. *)
Theorem CreateVolume_idempotent req u u' w v w1 w2 r w3 : reads_only →
  CreateVolume pvc_Get node_Get req u w = Ret (inl v) w1 → same w1 w2 →
  CreateVolume pvc_Get node_Get req u' w2 = Ret r w3 →
  same w2 w3 ∧ ∀ v', r = inl v' → cv_VolumeId v' = cv_VolumeId v.
Proof.
  intros Hro H1 Hs H2. destruct (cvreq_CapacityRange req) as [required|] eqn:Hcap; [|unfold CreateVolume in H1; by rewrite Hcap in H1].
  destruct (CreateVolume_phases _ _ _ _ _ _ Hro Hcap H1) as [(e & [=] & _)|(opt & wa & a & _ & Hq1 & Hc1 & Ha)].
  destruct a as [id|e]; [|done]. destruct Ha as (v0 & [= <-] & Hid & _).
  destruct (CreateVolume_phases _ _ _ _ _ _ Hro Hcap H2) as [(e & -> & Hs')|(opt' & wb & a & Hsb & Hq2 & Hc2 & Ha2)]; [by split|].
  assert (same_request opt opt') as Hq.
  { destruct Hq1 as (A1 & A2 & A3), Hq2 as (B1 & B2 & B3). by rewrite <- A1, <- A2, <- A3 in *. }
  assert (same w1 wb) as Hw by (by etrans).
  destruct (cl_again _ _ _ u' _ _ _ _ Hc1 Hq Hw) as (w4 & Hc & Hs4).
  rewrite Hc in Hc2. injection Hc2 as <- <-. destruct Ha2 as (v2 & -> & Hid2 & _).
  split; [by etrans|]. intros v' [= <-]. by rewrite Hid2, Hid.
Qed.
End controller_spec.

Section kube_laws.
Context {L : K8sLib} {W : Type}.
Context {KV : KubeClient W AntstorVolume} {KG : KubeClient W AntstorVolumeGroup} {KD : KubeClient W AntstorDataControl}.
Context {KS : KubeClient W AntstorSnapshot} {KP : KubeClient W StoragePool}.
Context {LV : KubeLister W AntstorVolume} {LG : KubeLister W AntstorVolumeGroup}.
Context {LD : KubeLister W AntstorDataControl} {LS : KubeLister W AntstorSnapshot}.
Context {RV : KubeRemover W AntstorVolume} {RG : KubeRemover W AntstorVolumeGroup}.
Context {RD : KubeRemover W AntstorDataControl} {RS : KubeRemover W AntstorSnapshot}.
Context (ParseQuantity : string → result Quantity) (show_pv : PVCreateOption → string) (show_snap : AntstorSnapshot → string).
Context (vols : W → MemStore AntstorVolume) (groups : W → MemStore AntstorVolumeGroup).
Context (controls : W → MemStore AntstorDataControl) (snaps : W → MemStore AntstorSnapshot).
Context {HV : Shelf KV LV RV vols (λ w, (groups w, controls w, snaps w))}.
Context {HG : Shelf KG LG RG groups (λ w, (vols w, controls w, snaps w))}.
Context {HD : Shelf KD LD RD controls (λ w, (vols w, groups w, snaps w))}.
Context {HS : Shelf KS LS RS snaps (λ w, (vols w, groups w, controls w))}.
#[local] Instance kube_client : AntstorClientIface W := KubeAPIClient ParseQuantity show_pv show_snap.
Notation same := (same_objects vols groups controls snaps).

#[export] Instance kube_client_laws : ClientLaws (KubeAPIClient ParseQuantity show_pv show_snap) same.
Proof.
  split.
  - apply same_objects_pre.
  - intros *. eapply CreatePV_again; eauto.
  - intros id w r w1. cbn. unfold GetSnapshotByID, mbind, go_mbind, go_bind.
    destruct (sh_list (T := AntstorSnapshot) DefaultNamespace SnapUuidLabelKey id w eq_refl) as (l & w' & -> & Hs & [= H1 H2 H3] & _).
    intros [= _ <-]. by split_and!.
Qed.

(** *** Expanding a volume *)

(** One volume carries the identifier; pools are only read. *)
Record expandable (id : string) (v : AntstorVolume) (w : W) : Prop := {
ex_id : HasPrefix id DataControlUuidPrefix = false ∧ id ≠ "";
ex_there : vols w !! (DefaultNamespace, vol_Name v) = Some v;
ex_ns : om_Namespace (vol_meta v) = DefaultNamespace;
ex_live : om_DeletionTimestamp (vol_meta v) = None;
ex_label : map_get (om_Labels (vol_meta v)) UuidLabelKey = Some id;
ex_only name o : vols w !! (DefaultNamespace, name) = Some o → map_get (om_Labels (vol_meta o)) UuidLabelKey = Some id → name = vol_Name v;
}.
Definition pools_read : Prop := ∀ ns name w r w1, kGet (T := StoragePool) ns name w = Ret r w1 → same w w1.

Definition volume_pv (v : AntstorVolume) : PV := {|
  pv_Namespace := DefaultNamespace; pv_Name := vol_Name v; pv_UUID := vs_Uuid (vol_Spec v);
  pv_Type := PvTypeVolume; pv_Volume := Some v; pv_DataContrl := None |}.
Lemma GetSize_volume {S} v (s : S) : GetSize (volume_pv v) s = Ret (wrap64 (vs_SizeByte (vol_Spec v))) s.
Proof. done. Qed.
Lemma GetTargetNodeId_volume {S} v (s : S) : GetTargetNodeId (volume_pv v) s = Ret (vs_TargetNodeId (vol_Spec v)) s.
Proof. done. Qed.
Lemma GetPvByID_unique id v w : expandable id v w → ∃ w1, GetPvByID id w = Ret (inl (volume_pv v)) w1 ∧ same w w1.
Proof.
  intros [[Hp Hne] Hv Hns Hl Hlab Honly]. unfold GetPvByID. rewrite Hp. unfold mbind, go_mbind, go_bind.
  destruct (sh_list (T := AntstorVolume) DefaultNamespace UuidLabelKey id w eq_refl) as (l & w' & -> & Hs & [= H1 H2 H3] & Hin).
  destruct (only_member v l) as [rest ->].
  { intros y. rewrite Hin. split.
    - intros (name & Hy & Hly). rewrite (Honly name y Hy Hly), Hv in Hy. congruence.
    - intros ->. by exists (vol_Name v). }
  exists w'. split; [cbn; unfold volume_pv; by rewrite Hns|]. by split_and!.
Qed.
Lemma expandable_same id v w w1 : expandable id v w → same w w1 → expandable id v w1.
Proof. intros [H1 H2 H3 H4 H5 H6] (Hv & _). split; rewrite ?Hv; done. Qed.

(** The volume as [ResizePV] stores it. *)
Definition resized (v : AntstorVolume) (size : Z) : AntstorVolume :=
  vol_set_labels (labelled_with expansionLabel (Itoa (wrap64 (vs_SizeByte (vol_Spec v)))) (om_Labels (vol_meta v)))
    (vol_set_Spec (vs_set_SizeByte (uwrap64 size) (vol_Spec v)) v).
Lemma resized_expandable id v size w w1 : expandable id v w →
  vols w1 = <[(DefaultNamespace, vol_Name v) := resized v size]> (vols w) → expandable id (resized v size) w1.
Proof.
  intros [H1 H2 H3 H4 H5 H6] Hw. split; try done.
  - rewrite Hw. apply lookup_insert_eq.
  - cbn. unfold labelled_with. rewrite lookup_insert_ne by done. destruct (om_Labels (vol_meta v)); [exact H5|done].
  - intros name o. rewrite Hw. destruct (decide (vol_Name v = name)) as [<-|Hne]; [done|].
    rewrite lookup_insert_ne by congruence. intros Ho Hl. by destruct (Hne (eq_sym (H6 name o Ho Hl))).
Qed.

Lemma resized_key id v size w : expandable id v w → ko_key (resized v size) = (DefaultNamespace, vol_Name v).
Proof. intros Hex. rewrite <- (ex_ns _ _ _ Hex). done. Qed.
Lemma ResizePV_run id v required w : expandable id v w →
  ∃ w1, ResizePV id required w = Ret None w1 ∧ vols w1 = <[(DefaultNamespace, vol_Name v) := resized v required]> (vols w) ∧
    groups w1 = groups w ∧ controls w1 = controls w ∧ snaps w1 = snaps w.
Proof.
  intros Hex. destruct (GetPvByID_unique id v w Hex) as (wa & Hga & Hsa). pose proof (expandable_same _ _ _ _ Hex Hsa) as Hexa.
  destruct (sh_update (T := AntstorVolume) (resized v required) wa v) as (wb & Hu & Hv & [= Hg Hc Hs]).
  { rewrite (resized_key _ _ _ _ Hex). apply Hexa. }
  { unfold ko_gone. cbn. by rewrite (ex_live _ _ _ Hex). }
  exists wb. destruct Hsa as (A1 & A2 & A3 & A4). split.
  - unfold ResizePV, mbind, go_mbind, go_bind. rewrite Hga, GetSize_volume. rewrite decide_True by done.
    change (match kUpdate (resized v required) wa with Ret a s => Ret (error_of a) s | Panic why s => Panic why s end = Ret None wb).
    by rewrite Hu.
  - split; [|by split_and!; congruence]. rewrite Hv, A1, <- (resized_key _ _ required _ Hex). done.
Qed.

(** A volume is expanded only to a larger size, and only when the pool that
    holds it reported free space for the difference; then nothing changes but
    the volume's size and the label with its old one. The same request, repeated
    because its answer was lost, is refused as an invalid argument, although the
    CSI specification asks for the answer of the first. *)
Lemma expand_once id v required w n w1 : pools_read → expandable id v w →
  is_int64 (vs_SizeByte (vol_Spec v)) → (0 <= vs_SizeByte (vol_Spec v))%Z → is_int64 required →
  ControllerExpandVolume id (Some required) w = Ret (inl n) w1 →
  (vs_SizeByte (vol_Spec v) < required)%Z ∧ n = required ∧
  (∃ wa wb sp, same w wa ∧ kGet (T := StoragePool) DefaultNamespace (vs_TargetNodeId (vol_Spec v)) wa = Ret (inl sp) wb ∧
     (required - vs_SizeByte (vol_Spec v) <= GetVgFreeBytes sp)%Z) ∧
  vols w1 = <[(DefaultNamespace, vol_Name v) := resized v required]> (vols w) ∧
  groups w1 = groups w ∧ controls w1 = controls w ∧ snaps w1 = snaps w ∧
  ∃ msg w2, ControllerExpandVolume id (Some required) w1 = Ret (inr (status_Error codes_InvalidArgument msg)) w2 ∧ same w1 w2.
Proof.
  intros Hpools Hex Hint H0 Hreq. pose proof (ex_id _ _ _ Hex) as [_ Hne].
  destruct (GetPvByID_unique id v w Hex) as (wa & Hga & Hsa).
  unfold ControllerExpandVolume at 1. rewrite decide_False by done. unfold mbind, go_mbind, go_bind.
  cbn [ac_GetPvByID kube_client KubeAPIClient]. rewrite Hga, GetSize_volume, wrap64_id by done.
  destruct (decide (required <= _)%Z) as [|Hlt]; [done|]. rewrite GetTargetNodeId_volume.
  destruct (ac_GetStoragePoolByName _ _ wa) as [p wb|] eqn:Ep; [|done]. pose proof (Hpools _ _ _ _ _ Ep) as Hsb.
  destruct p as [sp|e]; [|done]. rewrite wrap64_id by (unfold is_int64 in *; lia).
  destruct (decide (GetVgFreeBytes sp < _)%Z) as [|Hfree]; [done|].
  assert (same w wb) as Hs by (by etrans).
  destruct (ResizePV_run id v required wb (expandable_same _ _ _ _ Hex Hs)) as (wd & Hr & Hvd & Hgd & Hcd & Hsd).
  cbn [ac_ResizePV kube_client KubeAPIClient]. rewrite Hr. intros [= <- <-]. destruct Hs as (A1 & A2 & A3 & A4).
  rewrite A1 in Hvd. split; [lia|]. split; [done|]. split; [exists wa, wb, sp; split; [done|]; split; [done|lia]|].
  split; [done|]. split; [congruence|]. split; [congruence|]. split; [congruence|].
  destruct (GetPvByID_unique _ _ _ (resized_expandable id v required w wd Hex Hvd)) as (we & Hge & Hse).
  unfold ControllerExpandVolume. rewrite decide_False by done. unfold mbind, go_mbind, go_bind.
  cbn [ac_GetPvByID kube_client KubeAPIClient]. rewrite Hge, GetSize_volume. cbn [vs_SizeByte vol_Spec resized vol_set_labels vol_set_meta vol_set_Spec vs_set_SizeByte].
  rewrite uwrap64_id by (unfold is_int64, is_uint64 in *; lia). rewrite wrap64_id by done.
  rewrite decide_True by lia. by do 2 eexists.
Qed.
End kube_laws.

(** *** Evaluations *)

Module CsiExample.
Import CsiMem.
#[export] Instance client : AntstorClientIface World := KubeAPIClient parse show (λ s, om_Name (snap_meta s)).
#[export] Instance client_laws : ClientLaws client (same_objects cw_vols cw_groups cw_controls cw_snaps) :=
  kube_client_laws parse show (λ s, om_Name (snap_meta s)) cw_vols cw_groups cw_controls cw_snaps.
Definition claims (annos : gomap string) (ns name : string) : go World (result (gomap string)) := mret (inl annos).
Definition nodes (name : string) : go World (result KNode) :=
  mret (inl {| kn_Labels := Some {[ K8SLabelKeyHostname := "host-1" ]}; kn_Addresses := [(NodeInternalIP, "10.0.0.1")] |}).
Definition req : CreateVolumeRequest := {| cvreq_Name := "pv-1"; cvreq_CapacityRange := Some GiB;
  cvreq_Parameters := Some {[ pvcNameKey := "c"; pvcNamespaceKey := "default"; diskLocationKey := MustLocal ]}; cvreq_Snapshot := None |}.
Definition annos : gomap string := Some {[ selectedNodeKey := "node-1" ]}.

(** A volume with its pool. *)
Definition vol : AntstorVolume := {|
  vol_meta := named "pv-1" (Some {[ UuidLabelKey := "u-1" ]}) None;
  vol_Spec := vs_set_TargetNodeId "node-1" (vs_set_SizeByte GiB (vs_set_Uuid "u-1" AntstorVolumeSpec_zero));
  vol_Status := AntstorVolumeStatus_zero |}.
Definition pool : @StoragePool NanoLib := {|
  sp_meta := named "node-1" None None; sp_Spec := StoragePoolSpec_zero;
  sp_Status := {| spst_Capacity := None; spst_VGFreeSize := NewQuantity (10 * GiB); spst_Conditions := []; spst_Status := "ready"; spst_Message := "" |} |}.
Definition world : World := {| cw_vols := {[ (DefaultNamespace, "pv-1") := vol ]}; cw_groups := ∅; cw_controls := ∅; cw_snaps := ∅;
  cw_pools := {[ (DefaultNamespace, "node-1") := pool ]} |}.
Lemma vol_expandable : expandable cw_vols "u-1" vol world.
Proof.
  split; try done.
  intros name o. cbn. intros Ho _. apply lookup_singleton_Some in Ho as [[= <-] _]. done.
Qed.
Lemma pools_only_read : pools_read (KP := KP) cw_vols cw_groups cw_controls cw_snaps.
Proof.
  intros ns name w r w1. unfold kGet, KP, shelf_client, at_shelf. cbn. intros [= _ <-]. by split_and!.
Qed.
End CsiExample.
Import CsiMem CsiExample.

Lemma reading : reads_only (same_objects cw_vols cw_groups cw_controls cw_snaps) (claims annos) nodes.
Proof. split; [intros ns name w r w1 [= _ <-]; by split_and!|intros name w r w1 [= _ <-]; by split_and!]. Qed.

Lemma CreateVolume_idempotent_witness : ∃ v w1 r w3,
  CreateVolume (C := client) (claims annos) nodes req "u-1" empty = Ret (inl v) w1 ∧
  CreateVolume (C := client) (claims annos) nodes req "u-2" w1 = Ret r w3 ∧
  same_objects cw_vols cw_groups cw_controls cw_snaps w1 w3 ∧ ∀ v', r = inl v' → cv_VolumeId v' = cv_VolumeId v.
Proof.
  destruct (CreateVolume (C := client) (claims annos) nodes req "u-1" empty) as [r1 w1|] eqn:E1; [|by vm_compute in E1].
  destruct r1 as [v|e]; [|by vm_compute in E1].
  destruct (CreateVolume (C := client) (claims annos) nodes req "u-2" w1) as [r w3|] eqn:E2.
  2: { exfalso. vm_compute in E1. injection E1 as <- <-. by vm_compute in E2. }
  exists v, w1, r, w3. split; [done|]. split; [done|].
  apply (CreateVolume_idempotent (same_objects cw_vols cw_groups cw_controls cw_snaps) (claims annos) nodes req "u-1" "u-2" empty v w1 w1 r w3).
  - exact reading.
  - exact E1.
  - by split_and!.
  - exact E2.
Defined.

Lemma expand_once_witness : ∃ n w1, ControllerExpandVolume (C := client) "u-1" (Some (2 * GiB)%Z) world = Ret (inl n) w1 ∧
  n = (2 * GiB)%Z ∧ ∃ msg w2, ControllerExpandVolume (C := client) "u-1" (Some (2 * GiB)%Z) w1 =
    Ret (inr (status_Error codes_InvalidArgument msg)) w2.
Proof.
  destruct (ControllerExpandVolume (C := client) "u-1" (Some (2 * GiB)%Z) world) as [r w1|] eqn:E1; [|by vm_compute in E1].
  destruct r as [n|e]; [|by vm_compute in E1]. exists n, w1. split; [done|].
  destruct (expand_once parse show (λ s, om_Name (snap_meta s)) cw_vols cw_groups cw_controls cw_snaps "u-1" vol (2 * GiB) world n w1)
    as (_ & Hn & _ & _ & _ & _ & _ & msg & w2 & Hrun & _).
  - exact pools_only_read.
  - exact vol_expandable.
  - vm_compute. split; [discriminate|reflexivity].
  - vm_compute. discriminate.
  - vm_compute. split; [discriminate|reflexivity].
  - exact E1.
  - split; [exact Hn|]. by exists msg, w2.
Defined.
