(* ===== verification/Mount.v ===== *)
(** * Mounting and formatting

    [pkg/util/mount], [pkg/util/kata] and the files of [pkg/util/misc]: making
    file systems, mounting and looking at mounts through commands, and the
    configuration file by which a Kata container finds its device. Files and
    commands are the classes [HostFiles] and [HostCommands], the functions of
    Kubernetes' mount library the class [MountUtils]. *)

From Stdlib Require Import ZArith Lia.
From stdpp Require Import base gmap strings option list.
From S2P Require Import Prelude Strconv Api Lvm LvmEngine SpdkBdev Nvme PoolReconciler.

(** ** Paths and strings of the standard library *)

Fixpoint trim_left (s : string) : string :=
  match s with
  | EmptyString => EmptyString
  | String c s' => if is_space c then trim_left s' else s
  end.
Fixpoint trim_right (s : string) : string :=
  match s with
  | EmptyString => EmptyString
  | String c s' => let r := trim_right s' in if is_space c && bool_decide (r = "") then "" else String c r
  end.
(** [strings.TrimSpace] of a text of ASCII characters. *)
Definition TrimSpace (s : string) : string := trim_right (trim_left s).
(** [strings.TrimSuffix] with one character. *)
Fixpoint TrimSuffixChar (c : Ascii.ascii) (s : string) : string :=
  match s with
  | EmptyString => EmptyString
  | String x EmptyString => if decide (x = c) then "" else s
  | String x s' => String x (TrimSuffixChar c s')
  end.
(** [strings.Replace(s, old, new, 1)]. *)
Fixpoint replace_first (s old new : string) : string :=
  if String.prefix old s then new +:+ String.substring (String.length old) (String.length s - String.length old) s
  else match s with EmptyString => EmptyString | String c s' => String c (replace_first s' old new) end.

(** [filepath.Clean]: no empty elements and no dots; the parents that remain are
    at the front of a path that is not rooted. *)
Definition clean_step (rooted : bool) (out : list string) (x : string) : list string :=
  if decide (x = "" ∨ x = ".") then out
  else if decide (x = "..") then
    match reverse out with
    | y :: rest => if decide (y = "..") then out ++ [x] else reverse rest
    | [] => if rooted then [] else [x]
    end
  else out ++ [x].
Definition Clean (path : string) : string :=
  let rooted := HasPrefix path "/" in
  let body := strings_Join (foldl (clean_step rooted) [] (Split slash path)) "/" in
  let r := if rooted then "/" +:+ body else body in
  if decide (r = "") then "." else r.
(** [filepath.Dir] and [filepath.Join] of two elements. *)
Fixpoint upto_slash (s : string) : string :=
  match s with
  | EmptyString => EmptyString
  | String c s' => let r := upto_slash s' in
                   if decide (r ≠ "" ∨ c = slash) then String c r else ""
  end.
Definition Dir (path : string) : string := Clean (upto_slash path).
Definition Join (a b : string) : string :=
  if decide (a = "") then (if decide (b = "") then "" else Clean b)
  else if decide (b = "") then Clean a else Clean (a +:+ "/" +:+ b).

Example ex_paths : Clean "/a/./b//../c" = "/a/c" ∧ Clean "../a/.." = ".." ∧ Clean "" = "." ∧ Clean "/.." = "/" ∧
  Dir "/a/b/c" = "/a/b" ∧ Dir "c" = "." ∧ Join "/var/stage/" "config.json" = "/var/stage/config.json".
Proof. by vm_compute. Qed.

(** ** Files and commands *)

(** What [os.IsNotExist] and [os.IsPermission] say of an error, and the error. *)
Record OsError := { oe_NotExist : bool; oe_Permission : bool; oe_err : error }.
(** Of a file's information: whether it is a directory, and its device. *)
Record FileInfo := { fi_IsDir : bool; fi_Dev : Z }.
Class HostFiles (W : Type) := {
  hf_Stat : string → go W (FileInfo + OsError);
  hf_Lstat : string → go W (FileInfo + OsError);
  hf_MkdirAll : string → go W (option error);
  hf_Remove : string → go W (option error);
  (** Opening for writing, created if need be; closing; creating and truncating. *)
  hf_OpenFile : string → go W (option error);
  hf_Close : string → go W (option error);
  hf_Create : string → go W (option error);
  (** Opening for reading; reading one entry: [Some (true, _)] is the end of the file. *)
  hf_Open : string → go W (option error);
  hf_Readdir1 : string → go W (option (bool * error));
  hf_EvalSymlinks : string → go W (result string);
  hf_WriteFile : string → string → go W (option error);
  hf_ConsistentRead : string → nat → go W (result string);
}.
(** [exec.LookPath]: nothing when the command is found, else whether the error
    is [ErrNotFound], and the error; [CombinedOutput]: the text and the error. *)
Class HostCommands (W : Type) := {
  hc_LookPath : string → go W (option (bool * error));
  hc_CombinedOutput : string → list string → go W (string * option error);
}.
(** [k8s.io/mount-utils]. *)
Class MountUtils (W : Type) := {
  mu_IsLikelyNotMountPoint : string → go W (bool * option OsError);
  mu_Mount : string → string → string → list string → go W (option error);
  mu_Unmount : string → go W (option error);
  mu_GetDeviceNameFromMount : string → go W (result (string * Z));
  mu_CleanupMountPoint : string → bool → go W (option error);
  mu_IsNotMountPoint : string → go W (bool * option error);
  mu_GetDiskFormat : string → go W (result string);
  mu_Resize : string → string → go W (bool * option error);
}.

Section host.
Context {W : Type} {F : HostFiles W} {X : HostCommands W} {M : MountUtils W}.

(** ** Making a file system, unless the device has one *)

(* [mount/mkfs_linux.go:27-43] SafeFormat, the arguments *)
Definition mkfs_args (source fsType : string) (mkfsArgs : list string) : list string :=
  (if decide (fsType = "ext4" ∨ fsType = "ext3") then ["-F"; "-m0"]
   else if decide (fsType = "xfs") then ["-f"; "-m"; "reflink=0"] else [source]) ++ mkfsArgs ++ [source].
(* [mount/mkfs_linux.go:18-57] SafeFormat *)
Definition mount_SafeFormat (source fsType : string) (mkfsArgs : list string) : go W (option error) :=
  r ← mu_GetDiskFormat source;
  match r with
  | inr e => mret (Some (ErrNew ("format error: " +:+ source +:+ ", " +:+ fsType +:+ ", " +:+ error_msg e)))
  | inl existingFormat =>
      if decide (existingFormat = "") then
        '(_, err) ← hc_CombinedOutput ("mkfs." +:+ fsType) (mkfs_args source fsType mkfsArgs);
        mret err
      else mret None
  end.
(** The agent's formatter makes no arguments. *)
#[export] Instance host_formatter : Formatter W := {| SafeFormat source fsType := mount_SafeFormat source fsType [] |}.

(** ** The configuration file of a Kata volume *)

(* [kata/rund.go:57-65] SpdkInfo *)
Record SpdkInfo := {
  sin_Address : string; sin_BdevName : string; sin_NsUuid : string; sin_SN : string; sin_SubsysNQN : string;
  sin_SvcID : string; sin_TransType : string }.
(* [kata/rund.go:26-37] KataVolumeConfig *)
Record KataVolumeConfig := {
  kvc_Device : string; kvc_FsType : string; kvc_VolumeType : string; kvc_SpdkInfo : option SpdkInfo; kvc_VolumeMode : string }.
(** [json.MarshalIndent] of a configuration. *)
Context (MarshalKata : KataVolumeConfig → string).

(** The file's directory has to be there; that it is not is an error of
    [FileExists] already. *)
(* [kata/rund.go:118-130] writeFile *)
Definition kata_writeFile (data file : string) : go W (option error) :=
  r ← hf_Stat (Dir file);
  match r with
  | inr e => mret (Some (oe_err e))
  | inl _ => hf_WriteFile file data
  end.
(* [kata/rund.go:146-148] GetConfigFilePath *)
Definition GetConfigFilePath (dir : string) : string := Join dir "config.json".
(* [kata/rund.go:94-116] WriteKataVolumeConfigFile *)
Definition WriteKataVolumeConfigFile (file devicePath fsType : string) (isBlockMode : bool) : go W (option error) :=
  if decide (fsType ≠ "ext4" ∧ fsType ≠ "xfs") then mret (Some (ErrNew ("not supported fstype=" +:+ fsType)))
  else kata_writeFile (MarshalKata {| kvc_Device := devicePath; kvc_FsType := fsType; kvc_VolumeType := "rawfile";
         kvc_SpdkInfo := None; kvc_VolumeMode := if isBlockMode then "Block" else "Filesystem" |}) file.
(* [kata/rund.go:67-92] WriteConfigFileForKataSpdkDirectConnect *)
Definition WriteConfigFileForKataSpdkDirectConnect (file fsType : string) (spdkInfo : option SpdkTarget) : go W (option error) :=
  match spdkInfo with
  | None => mret (Some (ErrNew "spdkInfo is nil"))
  | Some t =>
      kata_writeFile (MarshalKata {| kvc_Device := ""; kvc_FsType := fsType; kvc_VolumeType := "guest_nvmf";
        kvc_SpdkInfo := Some {| sin_Address := tgt_Address t; sin_BdevName := tgt_BdevName t; sin_NsUuid := tgt_NSUUID t;
          sin_SN := tgt_SerialNum t; sin_SubsysNQN := tgt_SubsysNQN t; sin_SvcID := tgt_SvcID t; sin_TransType := tgt_TransType t |};
        kvc_VolumeMode := "" |}) file
  end.
(** Removing a file that may not be there. *)
(* [misc/file.go:41-50] RemoveFile *)
Definition RemoveFile (path : string) : go W (option error) :=
  if decide (path = "") then mret None
  else
    r ← hf_Stat path;
    match r with
    | inl _ => hf_Remove path
    | inr e => if oe_NotExist e then mret None else hf_Remove path
    end.
End host.

(** ** The mounter *)

(* [mount/mounter.go:18-25] constants *)
Definition maxListTries : nat := 10.
Definition procMountsPath : string := "/proc/mounts".
Definition expectedNumFieldsPerLine : nat := 6.
(* [mount/mounter.go:28-35] MountPoint *)
Record MountPoint := { mp_Device : string; mp_Path : string; mp_Type : string; mp_Opts : list string; mp_Freq : Z; mp_Pass : Z }.

Definition newline : Ascii.ascii := Ascii.ascii_of_nat 10.
Definition comma : Ascii.ascii := Ascii.ascii_of_nat 44.

(** One line of the table. *)
(* [mount/mounter.go:426-450] parseProcMounts, a line *)
Definition parse_mount (line : string) : result MountPoint :=
  match strings_Fields line with
  | [device; path; type; opts; freq; pass] =>
      match Atoi freq with
      | (_, Some e) => inr e
      | (f, None) =>
          match Atoi pass with
          | (_, Some e) => inr e
          | (p, None) => inl {| mp_Device := device; mp_Path := path; mp_Type := type; mp_Opts := Split comma opts;
                                mp_Freq := f; mp_Pass := p |}
          end
      end
  | fields => inr (ErrNew ("wrong number of fields (expected " +:+ Itoa (Z.of_nat expectedNumFieldsPerLine) +:+ ", got " +:+
                           Itoa (Z.of_nat (length fields)) +:+ ")"))
  end.
(** Empty lines are passed over; the first bad line ends the parsing. *)
(* [mount/mounter.go:418-454] parseProcMounts *)
Fixpoint parse_lines (lines : list string) : result (list MountPoint) :=
  match lines with
  | [] => inl []
  | line :: rest =>
      if decide (line = "") then parse_lines rest
      else match parse_mount line with
           | inr e => inr e
           | inl mp => match parse_lines rest with inl out => inl (mp :: out) | inr e => inr e end
           end
  end.
Definition parseProcMounts (content : string) : result (list MountPoint) := parse_lines (Split newline content).

(* [mount/mounter.go:404-407] isMountPointMatch *)
Definition isMountPointMatch (mp : MountPoint) (dir : string) : bool :=
  bool_decide (mp_Path mp = dir) || bool_decide (mp_Path mp = dir +:+ "\040(deleted)").

(* [mount/mounter.go:327-341] mounter.HasMountRefs, a reference *)
Definition is_mount_ref (mountPath refPath : string) : bool :=
  if str_contains refPath mountPath then false
  else if HasPrefix mountPath "/var/lib/kubelet/" then
    negb (bool_decide (replace_first refPath "/var/lib/container/kubelet/" "" = replace_first mountPath "/var/lib/kubelet/" ""))
  else if HasPrefix mountPath "/var/lib/container/kubelet/" then
    negb (bool_decide (replace_first refPath "/var/lib/kubelet/" "" = replace_first mountPath "/var/lib/container/kubelet/" ""))
  else false.
(* [mount/mounter.go:324-344] mounter.HasMountRefs *)
Definition HasMountRefs (mountPath : string) (mountRefs : list string) : bool :=
  bool_decide (0 < foldl (λ n ref, if is_mount_ref mountPath ref then S n else n) 0 mountRefs).

Section mounter.
Context {W : Type} {F : HostFiles W} {X : HostCommands W}.
(** The parts of error messages that [fmt] makes of other values are left out. *)

(** What [LookPath] reports of a command that is not found. *)
Definition look_path (cmd : string) : go W (option error) :=
  r ← hc_LookPath cmd;
  mret (match r with
        | None => None
        | Some (true, _) => Some (ErrNew (cmd +:+ " executable not found in $PATH"))
        | Some (false, e) => Some e
        end).
(** A command whose output only goes into the error. *)
Definition run_command (what cmd : string) (args : list string) : go W (option error) :=
  '(out, err) ← hc_CombinedOutput cmd args;
  mret (match err with
        | None => None
        | Some e => Some (ErrNew (what +:+ ": " +:+ error_msg e +:+ " cmd: " +:+ cmd +:+ " output: " +:+ out))
        end).

(* [mount/mounter.go:81-98] mounter.EnsureFolder *)
Definition EnsureFolder (target : string) : go W (option error) :=
  e ← look_path "mkdir";
  match e with
  | Some e => mret (Some e)
  | None => run_command "mkdir for folder error" "mkdir" ["-p"; target]
  end.
(** A directory in the way is removed, if it can be. *)
(* [mount/mounter.go:100-118] mounter.EnsureBlock *)
Definition EnsureBlock (target : string) : go W (option error) :=
  fi ← hf_Lstat target;
  match fi with
  | inr e => if oe_NotExist e then mret None else mret (Some (oe_err e))
  | inl fi => if fi_IsDir fi then _ ← hf_Remove target; mret None else mret None
  end ≫= λ stop : option error,
  match stop with
  | Some e => mret (Some e)
  | None =>
      err ← hf_OpenFile target;
      match err with
      | Some e => mret (Some (ErrNew ("create block error: " +:+ error_msg e)))
      | None =>
          err ← hf_Close target;
          mret (match err with Some e => Some (ErrNew ("close block error: " +:+ error_msg e)) | None => None end)
      end
  end.
(* [mount/mounter.go:120-151] mounter.Format *)
Definition Format (source fsType : string) : go W (option error) :=
  e ← look_path ("mkfs." +:+ fsType);
  match e with
  | Some e => mret (Some e)
  | None =>
      if decide (fsType = "") then mret (Some (ErrNew "fs type is not specified for formatting the volume"))
      else if decide (source = "") then mret (Some (ErrNew "source is not specified for formatting the volume"))
      else run_command "formatting disk failed" ("mkfs." +:+ fsType)
             (if decide (fsType = "ext4" ∨ fsType = "ext3") then ["-F"; source] else [source])
  end.
Definition opt_args (opts : list string) : list string :=
  if decide (opts = []) then [] else ["-o"; strings_Join opts ","].
(** The target is created and, if it is a file, truncated. *)
(* [mount/mounter.go:153-182] mounter.MountBlock *)
Definition MountBlock (source target : string) (opts : list string) : go W (option error) :=
  if decide (source = "") then mret (Some (ErrNew "source is not specified for mounting the volume"))
  else if decide (target = "") then mret (Some (ErrNew "target is not specified for mounting the volume"))
  else
    err ← hf_Create target;
    match err with
    | Some e => mret (Some e)
    | None => run_command "mounting failed" "mount" (opt_args opts ++ [source; target])
    end.
(* [mount/mounter.go:184-224] mounter.Mount *)
Definition Mount (source target fsType : string) (opts : list string) : go W (option error) :=
  if decide (fsType = "") then mret (Some (ErrNew "fs type is not specified for mounting the volume"))
  else if decide (source = "") then mret (Some (ErrNew "source is not specified for mounting the volume"))
  else if decide (target = "") then mret (Some (ErrNew "target is not specified for mounting the volume"))
  else
    err ← hf_MkdirAll target;
    match err with
    | Some e => mret (Some e)
    | None => run_command "mounting failed" "mount" (["-t"; fsType] ++ opt_args opts ++ [source; target])
    end.
(* [mount/mounter.go:226-243] mounter.Unmount *)
Definition Unmount (target : string) : go W (option error) :=
  if decide (target = "") then mret (Some (ErrNew "target is not specified for unmounting the volume"))
  else run_command "unmounting failed" "umount" [target].
(* [mount/mounter.go:245-273] mounter.IsFormatted *)
Definition IsFormatted (source : string) : go W (bool * option error) :=
  if decide (source = "") then mret (false, Some (ErrNew "source is not specified"))
  else
    e ← look_path "file";
    match e with
    | Some e => mret (false, Some e)
    | None =>
        '(out, err) ← hc_CombinedOutput "file" ["-sL"; source];
        mret (match err with
              | Some e => (false, Some (ErrNew ("checking formatting failed: " +:+ error_msg e)))
              | None => (negb (bool_decide (TrimSpace (TrimPrefix out (source +:+ ":")) = "data")), None)
              end)
    end.
(** The table of mounts is searched for the text of the target. *)
(* [mount/mounter.go:275-294] mounter.IsMounted *)
Definition IsMounted (target : string) : go W (bool * option error) :=
  if decide (target = "") then mret (false, Some (ErrNew "target is not specified for checking the mount"))
  else
    '(out, err) ← hc_CombinedOutput "grep" [target; procMountsPath];
    let outStr := TrimSpace out in
    mret (match err with
          | Some e => if decide (outStr = "") then (false, None)
                      else (false, Some (ErrNew ("checking mounted failed: " +:+ error_msg e)))
          | None => (str_contains outStr target, None)
          end).
(* [mount/mounter.go:347-361] IsDirEmpty *)
Definition IsDirEmpty (name : string) : go W (bool * option error) :=
  err ← hf_Open name;
  match err with
  | Some e => mret (false, Some e)
  | None =>
      r ← hf_Readdir1 name;
      mret (match r with Some (true, _) => (true, None) | Some (false, e) => (false, Some e) | None => (false, None) end)
  end.
(* [mount/mounter.go:296-322] mounter.SafePathRemove *)
Definition SafePathRemove (targetPath : string) : go W (option error) :=
  fo ← hf_Lstat targetPath;
  match fo with
  | inr e => mret (Some (oe_err e))
  | inl fo =>
      '(isMounted, err) ← IsMounted targetPath;
      match err with
      | Some e => mret (Some e)
      | None =>
          if (isMounted : bool) then mret (Some (ErrNew ("Path is mounted, not remove: " +:+ targetPath)))
          else if fi_IsDir fo then
            '(empty, err) ← IsDirEmpty targetPath;
            match err with
            | Some e => mret (Some (ErrNew ("Check path empty error: " +:+ targetPath +:+ error_msg e)))
            | None => if (empty : bool) then hf_Remove targetPath
                      else mret (Some (ErrNew ("Cannot remove Path not empty: " +:+ targetPath)))
            end
          else hf_Remove targetPath
      end
  end.
(** A mount point has another device than its parent. *)
(* [mount/mounter.go:463-478] IsLikelyNotMountPoint *)
Definition IsLikelyNotMountPoint (file : string) : go W (bool * option OsError) :=
  st ← hf_Stat file;
  match st with
  | inr e => mret (true, Some e)
  | inl st =>
      root ← hf_Stat (Dir (TrimSuffixChar slash file));
      mret (match root with
            | inr e => (true, Some e)
            | inl root => (bool_decide (fi_Dev st = fi_Dev root), None)
            end)
  end.
(* [mount/mounter.go:410-416] ListProcMounts *)
Definition ListProcMounts : go W (result (list MountPoint)) :=
  r ← hf_ConsistentRead procMountsPath maxListTries;
  mret (match r with inl content => parseProcMounts content | inr e => inr e end).
(* [mount/mounter.go:363-400] mounter.IsNotMountPoint *)
Definition IsNotMountPoint (file : string) : go W (bool * option error) :=
  '(notMnt, notMntErr) ← IsLikelyNotMountPoint file;
  let '(notMnt, notMntErr) := match notMntErr with
    | Some e => if oe_Permission e then (true, None) else (notMnt, Some (oe_err e))
    | None => (notMnt, None) end in
  match notMntErr with
  | Some e => mret (notMnt, Some e)
  | None =>
      if negb (notMnt : bool) then mret (notMnt, None)
      else
        resolved ← hf_EvalSymlinks file;
        match resolved with
        | inr e => mret (true, Some e)
        | inl resolvedFile =>
            mounts ← ListProcMounts;
            mret (match mounts with
                  | inr e => (notMnt, Some e)
                  | inl mountPoints => (negb (existsb (λ mp, isMountPointMatch mp resolvedFile) mountPoints), None)
                  end)
        end
  end.
End mounter.
