(* ===== verification/CsiNode.v ===== *)
(** * The node server of the CSI driver

    [pkg/csi/rpcserver/node.go]: what the kubelet asks of a node: staging a
    volume (connecting it, making its file system, mounting it once), publishing
    it to a pod, taking both back, growing its file system. These calls touch the
    data of users, and they are repeated until they succeed. *)

From Stdlib Require Import ZArith Lia.
From stdpp Require Import base gmap strings option list.
From S2P Require Import Prelude Strconv Misc K8s Api Server VolumeSync Nvme Snapshot VolumeGroup DataControl CsiClient CsiController PoolReconciler LvmEngine Spdk Mount.

(* [rpcserver/controller.go:35-35] podNameKey *)
Definition podNameKey : string := "csi.storage.k8s.io/pod.name".
(* [rpcserver/controller.go:36-36] podNamespaceKey *)
Definition podNamespaceKey : string := "csi.storage.k8s.io/pod.namespace".
(* [rpcserver/controller.go:37-37] podUuidKey *)
Definition podUuidKey : string := "csi.storage.k8s.io/pod.uid".
(* [rpcserver/controller.go:52-52] mkfsParamsKey *)
Definition mkfsParamsKey : string := "obnvmf/mkfsParams".
(* [rpcserver/controller.go:69-69] containerTypeKey *)
Definition containerTypeKey : string := "obnvmf/pod-runtime-class".
(* [rpcserver/controller.go:71-71] containerTypeForKata *)
Definition containerTypeForKata : string := "rund".
(* [rpcserver/controller.go:74-74] spdkConnectModeKey *)
Definition spdkConnectModeKey : string := "obnvmf/spdk-conn-mode".
(* [rpcserver/controller.go:76-76] spdkConnectModeGuestKernelDirect *)
Definition spdkConnectModeGuestKernelDirect : string := "guest-direct".
(* [rpcserver/controller.go:79-79] volumeModeKey *)
Definition volumeModeKey : string := "obnvmf/volume-mode".
(* [rpcserver/controller.go:81-81] volumeModeBlock *)
Definition volumeModeBlock : string := "Block".
(* [rpcserver/controller.go:90-90] volContextKeySkipUpdatePublishParam *)
Definition volContextKeySkipUpdatePublishParam : string := "skip-save-context".

(** The requests, as far as they are read. A capability is the access mode
    [Block] or another one. *)
Record NodeStageVolumeRequest := {
  nsr_VolumeId : string; nsr_StagingTargetPath : string; nsr_Capability : option bool; nsr_VolumeContext : gomap string }.
Record NodePublishVolumeRequest := {
  npr_VolumeId : string; npr_StagingTargetPath : string; npr_TargetPath : string; npr_Capability : option bool;
  npr_Readonly : bool; npr_VolumeContext : gomap string }.
(** [unix.Statfs_t]. *)
Record Statfs_t := { sf_Blocks : Z; sf_Bfree : Z; sf_Bavail : Z; sf_Bsize : Z; sf_Files : Z; sf_Ffree : Z }.
Record VolumeUsage := { vu_Total : Z; vu_Used : Z; vu_Available : Z }.
Class StatfsCall (W : Type) := { unix_Statfs : string → go W (result Statfs_t) }.

Definition internal_msg (msg : string) : error := status_Error codes_Internal msg.
Definition invalid_argument (msg : string) : error := status_Error codes_InvalidArgument msg.

(* [rpcserver/node.go:755-765] isForRund *)
Definition isForRund (annos : gomap string) : bool :=
  match map_get annos containerTypeKey with Some val => bool_decide (val = containerTypeForKata) | None => false end.

Section node.
Context {L : K8sLib} {W : Type} {C : AntstorClientIface W}.
Context {F : HostFiles W} {X : HostCommands W} {M : MountUtils W} {N : NvmeExec W} {ST : StatfsCall W}.
Context (MarshalKata : KataVolumeConfig → string).
(** The node, and whether the client is a [KubeAPIClient]. *)
Context (nodeID : string) (kube_client : bool).

(** [if err != nil { return nil, status.Error(codes.Internal, err.Error()) }] *)
Definition or_internal {B} (m : go W (option error)) (k : go W (result B)) : go W (result B) :=
  err ← m; match err with Some e => mret (inr (internal e)) | None => k end.
Definition or_else {A B} (m : go W (result A)) (k : A → go W (result B)) : go W (result B) :=
  r ← m; match r with inr e => mret (inr (internal e)) | inl a => k a end.
Definition refuse {B} (e : error) : go W (result B) := mret (inr e).

(** The last disk with the serial number. *)
(* [rpcserver/node.go:669-673] getDevicePath, the loop *)
Definition disk_path (t : SpdkTarget) (devices : list NvmeDevice) (path : string) : string :=
  foldl (λ path d, if decide (nd_SerialNumber d = tgt_SerialNum t) then nd_DevicePath d else path) path devices.
(** The target is read for every disk. *)
Definition find_disk (devices : list NvmeDevice) (tgt : option SpdkTarget) : go W string :=
  match devices with
  | [] => mret ""
  | _ => t ← deref "SpdkTarget" tgt;
         mret (disk_path t devices "")
  end.
(* [rpcserver/node.go:660-676] getDevicePath *)
Definition getDevicePath (tgt : option SpdkTarget) : go W (result string) :=
  devices ← ListNvmeDisk;
  match devices with
  | inr e => mret (inr e)
  | inl devices => path ← find_disk devices tgt; mret (inl path)
  end.
(* [rpcserver/node.go:705-717] connectSpdkTarget, the options *)
Definition connect_params (t : SpdkTarget) : string * ConnectTargetOpts :=
  let opts addr := {| cto_ReconnectDelaySec := 2; cto_CtrlLossTMO := 10; cto_HostTransAddr := addr |} in
  if decide (tgt_TransType t = TransportTypeVFIOUSER) then ("vfio-user", opts (tgt_AddrFam t))
  else if decide (tgt_TransType t = TransportTypeTCP) then ("tcp", opts "")
  else ("", opts "").
(** Connecting is asynchronous: the disks are listed again after a while. *)
(* [rpcserver/node.go:678-740] connectSpdkTarget *)
Definition connectSpdkTarget (tgt : option SpdkTarget) : go W (result string) :=
  found ← getDevicePath tgt;
  match found with
  | inr e => mret (inr e)
  | inl devicePath =>
      if decide (devicePath = "") then
        t ← deref "SpdkTarget" tgt;
        let '(transType, opts) := connect_params t in
        err ← ConnectTarget transType (tgt_Address t) (tgt_SvcID t) (tgt_SubsysNQN t) opts;
        match err with
        | Some e => mret (inr e)
        | None => getDevicePath tgt
        end
      else mret (inl devicePath)
  end.
(* [rpcserver/node.go:742-753] getBlockDeviceSize *)
Definition getBlockDeviceSize (devicePath : string) : go W (result Z) :=
  '(output, err) ← hc_CombinedOutput "blockdev" ["--getsize64"; devicePath];
  mret (match err with
        | Some e => inr (ErrNew ("error when getting size of block volume at path " +:+ devicePath +:+ ": output: " +:+
                                 output +:+ ", err: " +:+ error_msg e))
        | None =>
            match ParseInt (TrimSpace output) with
            | (n, None) => inl n
            | (_, Some _) => inr (ErrNew ("failed to parse size " +:+ TrimSpace output +:+ " into int a size"))
            end
        end).

(** *** Staging *)

(** What staging reads of the volume. *)
Record StageInfo := {
  si_isLocalDisk : bool; si_isLVM : bool; si_anno : gomap string; si_labels : gomap string; si_fsType : string;
  si_target : option SpdkTarget; si_devPath : string }.
(* [rpcserver/node.go:121-132] NodeServer.NodeStageVolume, the volume *)
Definition stage_info (pv : CsiClient.PV) : go W StageInfo :=
  isLocalDisk ← IsLocal pv;
  isLVM ← IsLVM pv;
  _ ← GetTargetNodeId pv;
  anno ← GetAnnotations pv;
  labels ← GetLabels pv;
  fsType ← GetFsType pv;
  tgt ← GetSpdkTarget pv;
  mret {| si_isLocalDisk := isLocalDisk; si_isLVM := isLVM; si_anno := anno; si_labels := labels; si_fsType := fsType;
          si_target := tgt; si_devPath := GetDevPath pv |}.
Definition mkfs_params (ctx : gomap string) : list string :=
  let p := map_str ctx mkfsParamsKey in if decide (p = "") then [] else Split space p.

(** A Kata container gets its device through a configuration file. *)
(* [rpcserver/node.go:143-175] NodeServer.NodeStageVolume, Kata *)
Definition stage_kata (targetPath : string) (mkfsArgs : list string) (i : StageInfo) : go W (result unit) :=
  let cfgFile := GetConfigFilePath targetPath in
  if negb (si_isLocalDisk i) && bool_decide (map_str (si_anno i) spdkConnectModeKey = spdkConnectModeGuestKernelDirect) then
    or_internal (WriteConfigFileForKataSpdkDirectConnect MarshalKata cfgFile (si_fsType i) (si_target i)) (mret (inl tt))
  else
    let devicePath := if si_isLocalDisk i then si_devPath i else "" in
    let isBlockModeForRund := bool_decide (map_str (si_anno i) volumeModeKey = volumeModeBlock) in
    let write := or_internal (WriteKataVolumeConfigFile MarshalKata cfgFile devicePath (si_fsType i) isBlockModeForRund) (mret (inl tt)) in
    if isBlockModeForRund then write
    else
      err ← mount_SafeFormat devicePath (si_fsType i) mkfsArgs;
      match err with
      | Some e => refuse (internal_msg ("NodeStage format local dm for kata error: " +:+ error_msg e))
      | None => write
      end.
(* [rpcserver/node.go:182-189] NodeServer.NodeStageVolume, the device *)
Definition stage_device (i : StageInfo) : go W (result string) :=
  if negb (si_isLocalDisk i) || (negb (si_isLVM i) && bool_decide (si_target i ≠ None)) then connectSpdkTarget (si_target i)
  else mret (inl (si_devPath i)).
(** Whether the path has to be mounted. *)
(* [rpcserver/node.go:202-216] NodeServer.NodeStageVolume, the mount point *)
Definition stage_check (targetPath : string) : go W (result bool) :=
  '(notMnt, err) ← mu_IsLikelyNotMountPoint targetPath;
  match err with
  | Some e => if oe_NotExist e then err ← hf_MkdirAll targetPath; mret (match err with Some e => inr (internal e) | None => inl true end)
              else mret (inr (internal (oe_err e)))
  | None => mret (inl notMnt)
  end.
(** A cloned volume has the file system identifier of its origin. *)
(* [rpcserver/node.go:200-243] NodeServer.NodeStageVolume, mounting *)
Definition stage_mount (targetPath devicePath : string) (mkfsArgs : list string) (i : StageInfo) : go W (result unit) :=
  ready ← stage_check targetPath;
  match ready with
  | inr e => mret (inr e)
  | inl false => mret (inl tt)
  | inl true =>
      let isClonedVol := map_has (si_labels i) VolumeSourceSnapNameLabelKey && map_has (si_labels i) VolumeSourceSnapNamespaceLabelKey in
      or_internal (mount_SafeFormat devicePath (si_fsType i) mkfsArgs)
        (or_internal (mu_Mount devicePath targetPath (si_fsType i) (if isClonedVol then ["nouuid"] else []))
           (mret (inl tt)))
  end.
(* [rpcserver/node.go:87-247] NodeServer.NodeStageVolume, once the directory is there *)
Definition stage_volume (id targetPath : string) (ctx : gomap string) (isBlockMode : bool) : go W (result unit) :=
  r ← ac_GetPvByID id;
  match r with
  | inr e => refuse (internal_msg ("cannot find volume by id: " +:+ error_msg e))
  | inl pv =>
      status ← GetStatus pv;
      if decide (status ≠ VolumeStatusReady) then refuse (internal_msg ("volume " +:+ id +:+ " status is " +:+ status))
      else
        i ← stage_info pv;
        let mkfsArgs := mkfs_params ctx in
        if decide (map_str (si_anno i) containerTypeKey = containerTypeForKata) then stage_kata targetPath mkfsArgs i
        else
          dev ← stage_device i;
          match dev with
          | inr e => refuse (internal_msg "cannot connect target to provide devicePath")
          | inl devicePath =>
              if decide (devicePath = "") then refuse (internal_msg "cannot find block device to format and mount")
              else if isBlockMode then mret (inl tt)
              else stage_mount targetPath devicePath mkfsArgs i
          end
  end.
(* [rpcserver/node.go:57-248] NodeServer.NodeStageVolume *)
Definition NodeStageVolume (req : NodeStageVolumeRequest) : go W (result unit) :=
  match nsr_Capability req with
  | None => refuse (invalid_argument "NodeStageVolumeRequest is invalid")
  | Some isBlockMode =>
      if decide (nsr_VolumeId req = "" ∨ nsr_StagingTargetPath req = "") then refuse (invalid_argument "NodeStageVolumeRequest is invalid")
      else
        let targetPath := nsr_StagingTargetPath req in
        st ← hf_Stat targetPath;
        made ← match st with inr e => if oe_NotExist e then hf_MkdirAll targetPath else mret None | inl _ => mret None end;
        match made with
        | Some e => refuse (internal e)
        | None => stage_volume (nsr_VolumeId req) targetPath (nsr_VolumeContext req) isBlockMode
        end
  end.

(** *** Unstaging *)

(** The mount on the staging path is counted, then removed; an error of the
    check that is not that the path is missing means that it is to be removed. *)
(* [rpcserver/node.go:283-319] NodeServer.NodeUnstageVolume, unmounting *)
Definition unstage_umount (targetPath : string) (anno : gomap string) (k : go W (result unit)) : go W (result unit) :=
  '(notMnt, err) ← mu_IsLikelyNotMountPoint targetPath;
  let needUmount := match err with Some e => negb (oe_NotExist e) | None => false end in
  if needUmount || negb notMnt then
    or_internal (if decide (map_str anno containerTypeKey = containerTypeForKata) then RemoveFile (GetConfigFilePath targetPath) else mret None)
      (or_else (mu_GetDeviceNameFromMount targetPath) (λ dc,
         or_internal (mu_Unmount targetPath)
           (if decide (0 < wrap64 (dc.2 - 1))%Z then refuse (internal_msg "unmount failed") else k)))
  else k.
(* [rpcserver/node.go:326-340] NodeServer.NodeUnstageVolume, disconnecting *)
Definition unstage_disconnect (pv : CsiClient.PV) : go W (result unit) :=
  isLVM ← IsLVM pv;
  if (isLVM : bool) then mret (inl tt)
  else
    tgt ← GetSpdkTarget pv;
    t ← deref "SpdkTarget" tgt;
    or_internal (DisconnectTarget {| dtr_NQN := tgt_SubsysNQN t; dtr_TrAddr := ""; dtr_SvcID := "" |}) (mret (inl tt)).
(* [rpcserver/node.go:254-341] NodeServer.NodeUnstageVolume *)
Definition NodeUnstageVolume (volumeId targetPath : string) : go W (result unit) :=
  if decide (volumeId = "" ∨ targetPath = "") then refuse (invalid_argument "NodeUnstageVolumeRequest is invalid")
  else
    r ← ac_GetPvByID volumeId;
    match r with
    | inr e => if decide (e = ErrorNotFoundResource) then mret (inl tt) else refuse (internal e)
    | inl pv =>
        anno ← GetAnnotations pv;
        unstage_umount targetPath anno (unstage_disconnect pv)
    end.

(** *** Publishing *)

(** What is recorded of the pod. *)
(* [rpcserver/node.go:369-399] NodeServer.NodePublishVolume, the parameters *)
Definition publish_params (req : NodePublishVolumeRequest) : SetNodePublishParamRequest :=
  let ctx := npr_VolumeContext req in
  let put (k : string) (m : gmap string string) := match map_get ctx k with Some v => <[k := v]> m | None => m end in
  {| snp_ID := npr_VolumeId req; snp_HostNodeID := nodeID; snp_StagingTargetPath := npr_StagingTargetPath req;
     snp_TargetPath := npr_TargetPath req;
     snp_CSIVolumeContext := Some (put podUuidKey (put podNamespaceKey (put podNameKey ∅))) |}.
(** The error of recording them is only logged. *)
Definition record_params (req : NodePublishVolumeRequest) : go W unit :=
  if decide (map_str (npr_VolumeContext req) volContextKeySkipUpdatePublishParam = "true") then mret tt
  else if kube_client then _ ← ac_SetNodePublishParameters (publish_params req); mret tt
  else mret tt.
(* [rpcserver/node.go:422-447] NodeServer.NodePublishVolume, a file system *)
Definition publish_fs (req : NodePublishVolumeRequest) (fsType : string) : go W (result unit) :=
  let targetPath := npr_TargetPath req in
  st ← hf_Stat targetPath;
  made ← match st with
         | inl _ => mret None
         | inr e => if oe_NotExist e then hf_MkdirAll targetPath else mret (Some (oe_err e))
         end;
  match made with
  | Some e => refuse (internal e)
  | None =>
      '(mounted, err) ← IsMounted targetPath;
      match err with
      | Some e => refuse (internal e)
      | None =>
          if (mounted : bool) then mret (inl tt)
          else or_internal (mu_Mount (npr_StagingTargetPath req) targetPath fsType
                              (["bind"] ++ if npr_Readonly req then ["ro"] else [])) (mret (inl tt))
      end
  end.
(** The mount of a block device is never read-only. *)
(* [rpcserver/node.go:448-482] NodeServer.NodePublishVolume, a block device *)
Definition publish_block (req : NodePublishVolumeRequest) (pv : CsiClient.PV) (isLVM : bool) : go W (result unit) :=
  let targetPath := npr_TargetPath req in
  dev ← (if isLVM then mret (inl (GetDevPath pv)) else tgt ← GetSpdkTarget pv; getDevicePath tgt);
  match (dev : result string) with
  | inr e => refuse (internal e)
  | inl devPath =>
      if decide (devPath = "") then
        refuse (internal_msg ("cannot find devPath of volume " +:+ pv_Name pv +:+ ", id=" +:+ npr_VolumeId req))
      else
        '(mounted, err) ← IsMounted targetPath;
        match err with
        | Some e => refuse (internal e)
        | None =>
            if (mounted : bool) then mret (inl tt)
            else or_internal (EnsureBlock targetPath)
                   (err ← MountBlock devPath targetPath ["bind"];
                    match err with Some e => refuse e | None => mret (inl tt) end)
        end
  end.
(* [rpcserver/node.go:351-488] NodeServer.NodePublishVolume *)
Definition NodePublishVolume (req : NodePublishVolumeRequest) : go W (result unit) :=
  match npr_Capability req with
  | None => refuse (invalid_argument "NodePublishVolumeRequest is invalid")
  | Some isBlockMode =>
      if decide (npr_VolumeId req = "" ∨ npr_TargetPath req = "" ∨ npr_StagingTargetPath req = "")
      then refuse (invalid_argument "NodePublishVolumeRequest is invalid")
      else
        _ ← record_params req;
        or_else (ac_GetPvByID (npr_VolumeId req)) (λ pv,
          fsType ← GetFsType pv;
          anno ← GetAnnotations pv;
          isLVM ← IsLVM pv;
          if (isBlockMode : bool) && isForRund anno then
            refuse (invalid_argument "Kata rund cannot use PVC with volumeMode=Block, because rund uses rawfile protocol to pass device info")
          else if (isBlockMode : bool) then publish_block req pv isLVM
          else publish_fs req fsType)
  end.
(* [rpcserver/node.go:494-510] NodeServer.NodeUnpublishVolume *)
Definition NodeUnpublishVolume (volumeId targetPath : string) : go W (result unit) :=
  if decide (volumeId = "" ∨ targetPath = "") then refuse (invalid_argument "NodeUnpublishVolumeRequest is invalid")
  else
    err ← mu_CleanupMountPoint targetPath true;
    match err with
    | Some e => refuse (internal_msg ("Unmount target path " +:+ targetPath +:+ " error: " +:+ error_msg e))
    | None => mret (inl tt)
    end.

(** *** Growing, and what the node tells of itself *)

(* [rpcserver/node.go:540-607] NodeServer.NodeExpandVolume *)
Definition NodeExpandVolume (volumeId volMountPath : string) : go W (result Z) :=
  if decide (volumeId = "" ∨ volMountPath = "") then refuse (invalid_argument "NodeExpandVolumeRequest is invalid")
  else
    r ← ac_GetPvByID volumeId;
    match r with
    | inr e => refuse (internal_msg ("cannot find volume by id: " +:+ error_msg e))
    | inl pv =>
        labels ← GetLabels pv;
        status ← GetStatus pv;
        if decide (status ≠ VolumeStatusReady) then refuse (internal_msg ("volume " +:+ volumeId +:+ " status is " +:+ status))
        else if map_has labels expansionLabel then
          refuse (internal_msg ("vol " +:+ volumeId +:+ " has label obnvmf/expansion-original-size, expansion is not finished"))
        else
          isLVM ← IsLVM pv;
          or_else (if (isLVM : bool) then mret (inl (GetDevPath pv)) else tgt ← GetSpdkTarget pv; getDevicePath tgt) (λ devicePath,
            if decide (devicePath = "") then
              refuse (internal_msg ("cannot find devPath of volume " +:+ pv_Name pv +:+ ", id=" +:+ volumeId))
            else
              '(ok, err) ← mu_Resize devicePath volMountPath;
              match err with
              | Some e => refuse (internal e)
              | None =>
                  if (ok : bool) then
                    _ ← GetSize pv;
                    or_else (getBlockDeviceSize devicePath) (λ realSize, mret (inl realSize))
                  else refuse (internal_msg "failed to expand volume filesystem")
              end)
    end.
(* [rpcserver/node.go:614-658] NodeServer.NodeGetVolumeStats *)
Definition NodeGetVolumeStats (volID path : string) : go W (result (VolumeUsage * VolumeUsage)) :=
  if decide (volID = "") then refuse (invalid_argument "volume id is not provided")
  else if decide (path = "") then refuse (invalid_argument "path is not provided")
  else
    '(notMnt, err) ← mu_IsNotMountPoint path;
    match err with
    | Some e => refuse (status_Error codes_NotFound ("failed to determine if path is a mount point. " +:+ error_msg e))
    | None =>
        if (notMnt : bool) then refuse (status_Error codes_NotFound "path is not a mount path")
        else
          sfs ← unix_Statfs path;
          match sfs with
          | inr e => refuse (internal_msg ("statfs on " +:+ path +:+ " failed: " +:+ error_msg e))
          | inl s =>
              mret (inl (
                {| vu_Total := wrap64 (wrap64 (sf_Blocks s) * sf_Bsize s);
                   vu_Used := wrap64 (wrap64 (uwrap64 (sf_Blocks s - sf_Bfree s)) * sf_Bsize s);
                   vu_Available := wrap64 (wrap64 (sf_Bavail s) * sf_Bsize s) |},
                {| vu_Total := wrap64 (sf_Files s); vu_Used := wrap64 (uwrap64 (sf_Files s - sf_Ffree s));
                   vu_Available := wrap64 (sf_Ffree s) |}))
          end
    end.
End node.

(** ** What the node promises

    The file systems on its devices, its mounts with the latest first (a bind
    mount is shown with the device behind it), the subsystems it is connected to,
    and the disks the nvme command shows: serial numbers and paths. *)

Record NodeMount := { nm_Source : string; nm_Target : string; nm_Bind : bool }.
#[export] Instance NodeMount_eq : EqDecision NodeMount.
Proof. solve_decision. Defined.
Record NodeView := { nv_formats : gmap string string; nv_mounts : list NodeMount; nv_connected : gset string; nv_disks : list (string * string) }.

Fixpoint unmount_top (path : string) (l : list NodeMount) : list NodeMount :=
  match l with
  | [] => []
  | m :: rest => if decide (nm_Target m = path) then rest else m :: unmount_top path rest
  end.
Fixpoint mount_at (path : string) (l : list NodeMount) : option NodeMount :=
  match l with
  | [] => None
  | m :: rest => if decide (nm_Target m = path) then Some m else mount_at path rest
  end.
Definition refs_of (source : string) (l : list NodeMount) : nat := length (filter (λ m, nm_Source m = source) l).

Class NodeLaws {L : K8sLib} {W : Type} (C : AntstorClientIface W) (F : HostFiles W) (X : HostCommands W) (M : MountUtils W)
    (N : NvmeExec W) := {
  nl_view : W → NodeView;
  (** Reading, creating directories and writing files, and the API server, leave
      devices, mounts and connections alone. *)
  nl_stat p w : nl_view (run_state (hf_Stat p w)) = nl_view w;
  nl_mkdir p w : nl_view (run_state (hf_MkdirAll p w)) = nl_view w;
  nl_remove p w : nl_view (run_state (hf_Remove p w)) = nl_view w;
  nl_write p t w : nl_view (run_state (hf_WriteFile p t w)) = nl_view w;
  nl_list w : nl_view (run_state (nvme_list w)) = nl_view w ∧
    ∀ l w', nvme_list w = Ret (inl l) w' → (λ d, (nd_SerialNumber d, nd_DevicePath d)) <$> l = nv_disks (nl_view w);
  nl_get id w : nl_view (run_state (ac_GetPvByID id w)) = nl_view w;
  (** The quick check does not see some bind mounts. *)
  nl_likely p w : nl_view (run_state (mu_IsLikelyNotMountPoint p w)) = nl_view w ∧
    ∀ b e w', mu_IsLikelyNotMountPoint p w = Ret (b, e) w' →
      match e with
      | None => if b then ∀ m, m ∈ nv_mounts (nl_view w) → nm_Target m = p → nm_Bind m = true
                else ∃ m, mount_at p (nv_mounts (nl_view w)) = Some m
      | Some e => b = true ∧ (oe_NotExist e = true → mount_at p (nv_mounts (nl_view w)) = None)
      end;
  nl_refs p w : nl_view (run_state (mu_GetDeviceNameFromMount p w)) = nl_view w ∧
    ∀ d n w', mu_GetDeviceNameFromMount p w = Ret (inl (d, n)) w' →
      is_int64 n ∧ (0 <= n)%Z ∧
      ∀ m, mount_at p (nv_mounts (nl_view w)) = Some m → d = nm_Source m ∧ n = Z.of_nat (refs_of d (nv_mounts (nl_view w)));
  nl_diskformat d w : nl_view (run_state (mu_GetDiskFormat d w)) = nl_view w ∧
    ∀ f w', mu_GetDiskFormat d w = Ret (inl f) w' → f = "" ↔ nv_formats (nl_view w) !! d = None;
  nl_mkfs fs args d w : ∃ out r w', hc_CombinedOutput ("mkfs." +:+ fs) (args ++ [d]) w = Ret (out, r) w' ∧
    nv_mounts (nl_view w') = nv_mounts (nl_view w) ∧ nv_disks (nl_view w') = nv_disks (nl_view w) ∧
    (∀ d', d' ≠ d → nv_formats (nl_view w') !! d' = nv_formats (nl_view w) !! d') ∧
    (r = None → is_Some (nv_formats (nl_view w') !! d));
  nl_mount src tgt fs opts w : "bind" ∉ opts → ∃ r w', mu_Mount src tgt fs opts w = Ret r w' ∧
    nv_formats (nl_view w') = nv_formats (nl_view w) ∧ nv_disks (nl_view w') = nv_disks (nl_view w) ∧
    nv_mounts (nl_view w') = match r with
      | None => {| nm_Source := src; nm_Target := tgt; nm_Bind := false |} :: nv_mounts (nl_view w)
      | Some _ => nv_mounts (nl_view w) end;
  nl_umount tgt w : ∃ r w', mu_Unmount tgt w = Ret r w' ∧
    nv_formats (nl_view w') = nv_formats (nl_view w) ∧ nv_connected (nl_view w') = nv_connected (nl_view w) ∧
    nv_mounts (nl_view w') = match r with None => unmount_top tgt (nv_mounts (nl_view w)) | Some _ => nv_mounts (nl_view w) end;
  nl_connect ty addr svc nqn o w : ∃ r w', ConnectTarget ty addr svc nqn o w = Ret r w' ∧
    nv_formats (nl_view w') = nv_formats (nl_view w) ∧ nv_mounts (nl_view w') = nv_mounts (nl_view w);
  nl_disconnect req w : ∃ r w', DisconnectTarget req w = Ret r w' ∧
    nv_formats (nl_view w') = nv_formats (nl_view w) ∧ nv_mounts (nl_view w') = nv_mounts (nl_view w) ∧
    (r = None → dtr_NQN req ∉ nv_connected (nl_view w'));
}.

Section node_spec.
Context {L : K8sLib} {W : Type} {C : AntstorClientIface W}.
Context {F : HostFiles W} {X : HostCommands W} {M : MountUtils W} {N : NvmeExec W} {HN : NodeLaws C F X M N}.
Context (MarshalKata : KataVolumeConfig → string).
Implicit Types (w : W) (i : StageInfo) (d p : string).

Definition formats w : gmap string string := nv_formats (nl_view w).
Definition mounts w : list NodeMount := nv_mounts (nl_view w).
Definition connected w : gset string := nv_connected (nl_view w).
Definition disks w : list (string * string) := nv_disks (nl_view w).
(** The same file systems and mounts; the same disks. *)
Definition same_disks w w' : Prop := formats w' = formats w ∧ mounts w' = mounts w.
Definition same_nvme w w' : Prop := disks w' = disks w.
#[local] Instance same_disks_pre : PreOrder same_disks.
Proof. split; [by intros w|]. intros w1 w2 w3 [H1 H2] [H3 H4]. split; congruence. Qed.
#[local] Instance same_nvme_pre : PreOrder same_nvme.
Proof. split; [by intros w|]. intros w1 w2 w3 H1 H2. unfold same_nvme in *. congruence. Qed.

(** A step that keeps a part of the node, whatever it answers. *)
Definition keeps (R : W → W → Prop) {A} (m : go W A) : Prop := ∀ w, R w (run_state (m w)).
Lemma keeps_view {A} (m : go W A) : (∀ w, nl_view (run_state (m w)) = nl_view w) → keeps same_disks m ∧ keeps same_nvme m.
Proof. intros H. split; intros w; unfold same_disks, same_nvme, formats, mounts, disks; by rewrite H. Qed.
Lemma keeps_Ret R {A} (m : go W A) : (∀ w, ∃ r w', m w = Ret r w' ∧ R w w') → keeps R m.
Proof. intros H w. destruct (H w) as (r & w' & -> & Hs). exact Hs. Qed.
Lemma wpp_conseq {A} (P : W → Prop) (Q : A → W → Prop) (P' : W → Prop) (Q' : A → W → Prop) (m : go W A) w :
  wpp P m Q w → (∀ w', P w' → P' w') → (∀ a w', Q a w' → Q' a w') → wpp P' m Q' w.
Proof. unfold wpp. destruct (m w); auto. Qed.
Section keeping.
Context (R : W → W → Prop) {HR : PreOrder R}.
Lemma keeps_bind {A B} (m : go W A) (f : A → go W B) : keeps R m → (∀ a, keeps R (f a)) → keeps R (m ≫= f).
Proof.
  intros Hm Hf w. specialize (Hm w). unfold mbind, go_mbind, go_bind. destruct (m w) as [a w'|]; [|done].
  etrans; [exact Hm|apply Hf].
Qed.
Lemma keeps_ret {A} (a : A) : keeps R (mret a).
Proof. intros w. by cbn. Qed.
Lemma keeps_deref {A} what (x : option A) : keeps R (deref what x).
Proof. intros w. by destruct x. Qed.
Lemma keeps_or_internal {B} (m : go W (option error)) (k : go W (result B)) : keeps R m → keeps R k → keeps R (or_internal m k).
Proof. intros Hm Hk. apply keeps_bind; [done|]. intros [e|]; [apply keeps_ret|done]. Qed.
Lemma keeps_or_else {A B} (m : go W (result A)) (k : A → go W (result B)) : keeps R m → (∀ a, keeps R (k a)) → keeps R (or_else m k).
Proof. intros Hm Hk. apply keeps_bind; [done|]. intros [a|e]; [apply Hk|apply keeps_ret]. Qed.
Lemma keeps_wpp {A} (m : go W A) (P : W → Prop) (Q : A → W → Prop) w0 w : keeps R m → R w0 w →
  (∀ w', R w0 w' → P w') → (∀ a w', m w = Ret a w' → R w0 w' → Q a w') → wpp P m Q w.
Proof.
  intros Hm Hs HP HQ. unfold wpp. specialize (Hm w). destruct (m w); [apply HQ; [done|]|apply HP]; (etrans; [exact Hs|exact Hm]).
Qed.
End keeping.
#[local] Hint Resolve keeps_ret keeps_deref : keeps.

Lemma keeps_stat p : keeps same_disks (hf_Stat p) ∧ keeps same_nvme (hf_Stat p).
Proof. apply keeps_view, nl_stat. Qed.
Lemma keeps_mkdir p : keeps same_disks (hf_MkdirAll p) ∧ keeps same_nvme (hf_MkdirAll p).
Proof. apply keeps_view, nl_mkdir. Qed.
Lemma keeps_remove p : keeps same_disks (hf_Remove p) ∧ keeps same_nvme (hf_Remove p).
Proof. apply keeps_view, nl_remove. Qed.
Lemma keeps_write p t : keeps same_disks (hf_WriteFile p t) ∧ keeps same_nvme (hf_WriteFile p t).
Proof. apply keeps_view, nl_write. Qed.
Lemma keeps_list : keeps same_disks ListNvmeDisk ∧ keeps same_nvme ListNvmeDisk.
Proof. apply keeps_view. intros w. apply nl_list. Qed.
Lemma keeps_get id : keeps same_disks (ac_GetPvByID id) ∧ keeps same_nvme (ac_GetPvByID id).
Proof. apply keeps_view, nl_get. Qed.
Lemma keeps_likely p : keeps same_disks (mu_IsLikelyNotMountPoint p) ∧ keeps same_nvme (mu_IsLikelyNotMountPoint p).
Proof. apply keeps_view. intros w. apply nl_likely. Qed.
Lemma keeps_diskformat d : keeps same_disks (mu_GetDiskFormat d) ∧ keeps same_nvme (mu_GetDiskFormat d).
Proof. apply keeps_view. intros w. apply nl_diskformat. Qed.
Lemma keeps_connect ty addr svc nqn o : keeps same_disks (ConnectTarget ty addr svc nqn o).
Proof. apply keeps_Ret. intros w. destruct (nl_connect ty addr svc nqn o w) as (r & w' & H & Hf & Hm). by exists r, w'. Qed.
Lemma keeps_disconnect req : keeps same_disks (DisconnectTarget req).
Proof. apply keeps_Ret. intros w. destruct (nl_disconnect req w) as (r & w' & H & Hf & Hm & _). by exists r, w'. Qed.
#[local] Hint Resolve keeps_stat keeps_mkdir keeps_remove keeps_write keeps_list keeps_get keeps_likely keeps_diskformat : keeps_both.
#[local] Hint Resolve keeps_connect keeps_disconnect : keeps.

(** A program made of such steps. *)
Ltac keeps :=
  repeat lazymatch goal with
  | |- keeps _ (_ ≫= _) => apply keeps_bind; [apply _| |intros ?]
  | |- keeps _ (or_internal _ _) => apply keeps_or_internal; [apply _| |]
  | |- keeps _ (or_else _ _) => apply keeps_or_else; [apply _| |intros ?]
  | |- keeps _ (match ?x with _ => _ end) => destruct x
  | |- keeps _ (let '(_, _) := ?x in _) => destruct x
  | |- keeps same_disks _ => first [solve [eauto with keeps typeclass_instances]|
        match goal with |- keeps _ ?m => let H := fresh in assert (keeps same_disks m ∧ keeps same_nvme m) as H by eauto with keeps_both; apply H end]
  | |- keeps same_nvme _ => first [solve [eauto with keeps typeclass_instances]|
        match goal with |- keeps _ ?m => let H := fresh in assert (keeps same_disks m ∧ keeps same_nvme m) as H by eauto with keeps_both; apply H end]
  end.

Lemma keeps_by_kind {A} pv (f : AntstorVolume → A) g x : keeps same_disks (by_kind pv f g x).
Proof. unfold by_kind, pv_volume, pv_control. keeps. Qed.
Lemma keeps_IsLocal pv : keeps same_disks (IsLocal pv).
Proof. unfold IsLocal, pv_volume, pv_control. keeps. Qed.
#[local] Hint Resolve keeps_by_kind keeps_IsLocal : keeps.
Lemma keeps_stage_info pv : keeps same_disks (stage_info pv).
Proof. unfold stage_info, IsLVM, GetTargetNodeId, GetFsType, GetLabels, GetAnnotations, GetSpdkTarget. keeps. Qed.
Lemma keeps_find_disk l tgt : keeps same_disks (find_disk l tgt).
Proof. unfold find_disk. keeps. Qed.
#[local] Hint Resolve keeps_stage_info keeps_find_disk : keeps.
Lemma keeps_getDevicePath tgt : keeps same_disks (getDevicePath tgt).
Proof. unfold getDevicePath. keeps. Qed.
#[local] Hint Resolve keeps_getDevicePath : keeps.
Lemma keeps_kata_write data file : keeps same_disks (kata_writeFile data file).
Proof. unfold kata_writeFile. keeps. Qed.
#[local] Hint Resolve keeps_kata_write : keeps.

(** *** Devices of a volume *)

(** What is read of a volume without a nil pointer. *)
Definition pv_target (pv : CsiClient.PV) : option SpdkTarget :=
  if decide (pv_Type pv = PvTypeVolume) then pv_Volume pv ≫= λ v, vs_SpdkTarget (vol_Spec v) else None.
Definition pv_status (pv : CsiClient.PV) : string :=
  if decide (pv_Type pv = PvTypeVolume) then default "" ((λ v, vst_Status (vol_Status v)) <$> pv_Volume pv)
  else if decide (pv_Type pv = PvTypeVolumeGroup) then default "" ((λ x, dcst_Status (dc_Status x)) <$> pv_DataContrl pv)
  else "".
(** Its device on the node, or a disk with its serial number. *)
Definition own_device w devPath (tgt : option SpdkTarget) d : Prop :=
  d = devPath ∨ ∃ t, tgt = Some t ∧ (tgt_SerialNum t, d) ∈ disks w.

Lemma disk_path_spec l t d0 : disk_path t l d0 = d0 ∨
  ∃ dev, dev ∈ l ∧ nd_SerialNumber dev = tgt_SerialNum t ∧ nd_DevicePath dev = disk_path t l d0.
Proof.
  revert d0. induction l as [|x l IH]; intros d0; [by left|]. unfold disk_path in *. cbn [foldl].
  destruct (IH (if decide (nd_SerialNumber x = tgt_SerialNum t) then nd_DevicePath x else d0)) as [-> | (dev & Hd & H1 & H2)].
  - destruct (decide (nd_SerialNumber x = tgt_SerialNum t)); [|by left]. right. exists x. split; [by left|done].
  - right. exists dev. split; [by right|]. by rewrite <- H2.
Qed.
Lemma getDevicePath_own tgt w r w' : getDevicePath tgt w = Ret (inl r) w' → r = "" ∨ ∃ t, tgt = Some t ∧ (tgt_SerialNum t, r) ∈ disks w'.
Proof.
  unfold getDevicePath, ListNvmeDisk. intros H. apply go_bind_inv in H as (ds & w1 & Hl & H). destruct ds as [ds|e]; [|by injection H].
  destruct (nl_list w) as [Hv Hd]. specialize (Hd _ _ Hl). rewrite Hl in Hv. cbn in Hv.
  apply go_bind_inv in H as (path & w2 & Hp & H). injection H as <- <-. unfold find_disk in Hp. destruct ds as [|x ds]; [left; by injection Hp|].
  destruct tgt as [t|]; [|done]. apply go_bind_inv in Hp as (t' & w3 & [= <- <-] & Hp).
  assert (path = disk_path t (x :: ds) "" ∧ w2 = w1) as [-> ->] by (by injection Hp).
  destruct (disk_path_spec (x :: ds) t "") as [-> | (dev & Hin & H1 & H2)]; [by left|].
  right. exists t. split; [done|]. unfold disks. rewrite Hv, <- Hd. apply list_elem_of_fmap. exists dev. by rewrite H1, H2.
Qed.
Lemma stage_device_keeps i : keeps same_disks (stage_device i).
Proof. unfold stage_device, connectSpdkTarget. keeps. Qed.
Lemma stage_device_own i w r w' : stage_device i w = Ret (inl r) w' → r = "" ∨ own_device w' (si_devPath i) (si_target i) r.
Proof.
  unfold stage_device, own_device. destruct (_ || _); [|intros [= -> _]; by right; left].
  unfold connectSpdkTarget. intros H. apply go_bind_inv in H as (f & w1 & Hf & H). destruct f as [d|e]; [|by injection H].
  destruct (decide (d = "")) as [Hd|Hd].
  - apply go_bind_inv in H as (t & w2 & _ & H). destruct (connect_params t) as [ty o].
    apply go_bind_inv in H as (err & w3 & _ & H). destruct err as [e|]; [by injection H|].
    destruct (getDevicePath_own _ _ _ _ H); auto.
  - injection H as <- <-. destruct (getDevicePath_own _ _ _ _ Hf); auto.
Qed.
Lemma stage_info_read pv w i w' : stage_info pv w = Ret i w' → si_devPath i = GetDevPath pv ∧ si_target i = pv_target pv.
Proof.
  unfold stage_info. intros H. repeat (apply go_bind_inv in H as (? & ? & ? & H)). injection H as <- _. split; [done|]. cbn.
  match goal with E : GetSpdkTarget pv _ = Ret ?x _ |- _ => revert E end. unfold GetSpdkTarget, by_kind, pv_target, pv_volume, pv_control.
  destruct (decide (pv_Type pv = PvTypeVolume)); [destruct (pv_Volume pv); [|done]; by intros [= <- _]|].
  destruct (decide (pv_Type pv = PvTypeVolumeGroup)); [destruct (pv_DataContrl pv); [|done]; by intros [= <- _]|]. by intros [= <- _].
Qed.
Lemma GetStatus_read pv w st w' : GetStatus pv w = Ret st w' → st = pv_status pv.
Proof.
  unfold GetStatus, by_kind, pv_status, pv_volume, pv_control.
  destruct (decide (pv_Type pv = PvTypeVolume)); [destruct (pv_Volume pv); [|done]; by intros [= <- _]|].
  destruct (decide (pv_Type pv = PvTypeVolumeGroup)); [destruct (pv_DataContrl pv); [|done]; by intros [= <- _]|]. by intros [= <- _].
Qed.

(** *** What staging may do to devices and mounts *)

Record stage_effect p (own : string → Prop) w w' : Prop := {
se_kept d f : formats w !! d = Some f → formats w' !! d = Some f;
se_own d : d ≠ "" → formats w' !! d ≠ formats w !! d → own d;
se_mounts : mounts w' = mounts w ∨
  (∀ m, m ∈ mounts w → nm_Target m = p → nm_Bind m = true) ∧
  ∃ d, own d ∧ is_Some (formats w' !! d) ∧ mounts w' = {| nm_Source := d; nm_Target := p; nm_Bind := false |} :: mounts w;
}.
Lemma effect_none p own w w' : same_disks w w' → stage_effect p own w w'.
Proof. intros [Hf Hm]. split; [by rewrite Hf|by rewrite Hf|by left]. Qed.
Lemma effect_from p own w w1 w' : same_disks w w1 → stage_effect p own w1 w' → stage_effect p own w w'.
Proof. intros [Hf Hm] [H1 H2 H3]. split; rewrite <- ?Hf, <- ?Hm; done. Qed.
Lemma effect_then p own w w1 w' : stage_effect p own w w1 → same_disks w1 w' → stage_effect p own w w'.
Proof. intros [H1 H2 H3] [Hf Hm]. split; rewrite ?Hf, ?Hm; done. Qed.
Lemma effect_own p (own own' : string → Prop) w w' : (∀ d, own d → own' d) → stage_effect p own w w' → stage_effect p own' w w'.
Proof. intros Ho [H1 H2 H3]. split; [done|auto|]. destruct H3 as [|[Hb (d & Hd & ?)]]; [by left|right]. split; [done|]. exists d. auto. Qed.

(** Making a file system: only on a device without one. *)
Lemma SafeFormat_run d fs args w : wpp (same_disks w) (mount_SafeFormat d fs args) (λ r w',
  mounts w' = mounts w ∧ (∀ d' f, formats w !! d' = Some f → formats w' !! d' = Some f) ∧
  (∀ d', d' ≠ d → formats w' !! d' = formats w !! d') ∧ (r = None → is_Some (formats w' !! d))) w.
Proof.
  unfold mount_SafeFormat. apply wpp_bind. destruct (nl_diskformat d w) as [Hk Hn].
  pose proof (proj1 (keeps_diskformat d) w) as Hs. unfold wpp at 1.
  destruct (mu_GetDiskFormat d w) as [[e|e] w1|] eqn:E; [| |exact Hs].
  - destruct Hs as [Hf Hm]. cbn [run_state] in Hf, Hm. destruct (decide (e = "")) as [->|He].
    + apply wpp_bind. unfold mkfs_args. rewrite app_assoc.
      destruct (nl_mkfs fs ((if decide (fs = "ext4" ∨ fs = "ext3") then ["-F"; "-m0"] else
        if decide (fs = "xfs") then ["-f"; "-m"; "reflink=0"] else [d]) ++ args) d w1) as (out & r & w2 & Hr & Hm2 & _ & Ho & Hdone).
      unfold wpp at 1. rewrite Hr. apply wpp_ret. fold (mounts w2) (mounts w1) in Hm2. split; [congruence|].
      assert (∀ d', d' ≠ d → formats w2 !! d' = formats w !! d') as Hother by (intros d' Hd'; rewrite <- Hf; by apply Ho).
      split; [|by split]. intros d' f Hd'. destruct (decide (d' = d)) as [->|Hne]; [|by rewrite Hother].
      unfold formats in Hd'. by rewrite (proj1 (Hn "" w1 eq_refl) eq_refl) in Hd'.
    + apply wpp_ret. rewrite Hf, Hm. split; [done|]. split; [done|]. split; [done|]. intros _.
      destruct (formats w !! d) eqn:Ed; [by eexists|]. by destruct (He (proj2 (Hn e w1 eq_refl) Ed)).
  - destruct Hs as [Hf Hm]. cbn [run_state] in Hf, Hm. apply wpp_ret. by rewrite Hf, Hm.
Qed.

Lemma mount_at_None p l : mount_at p l = None → ∀ m, m ∈ l → nm_Target m ≠ p.
Proof.
  induction l as [|x l IH]; intros H m Hm; [by apply elem_of_nil in Hm|]. cbn in H. destruct (decide (nm_Target x = p)); [done|].
  apply elem_of_cons in Hm as [->|Hm]; [done|by apply IH].
Qed.
Lemma unmount_top_absent p l : (∀ m, m ∈ l → nm_Target m ≠ p) → unmount_top p l = l.
Proof.
  induction l as [|x l IH]; intros H; [done|]. cbn. rewrite decide_False by (apply H; by left). f_equal. apply IH. intros m Hm. apply H. by right.
Qed.
Lemma unmount_top_other p l m : m ∈ l → nm_Target m ≠ p → m ∈ unmount_top p l.
Proof.
  induction l as [|x l IH]; intros Hm Ht; [done|]. cbn. apply elem_of_cons in Hm as [->|Hm].
  - rewrite decide_False by done. by left.
  - destruct (decide (nm_Target x = p)); [done|right; by apply IH].
Qed.
Lemma mount_at_elem p l m : mount_at p l = Some m → m ∈ l ∧ nm_Target m = p.
Proof.
  induction l as [|x l IH]; [done|]. cbn. destruct (decide (nm_Target x = p)); [intros [= ->]; split; [by left|done]|].
  intros H. destruct (IH H). split; [by right|done].
Qed.
Lemma refs_two source l m m' : m ∈ l → m' ∈ l → m ≠ m' → nm_Source m = source → nm_Source m' = source → (2 <= refs_of source l)%nat.
Proof.
  intros Hm Hm' Hne Hs Hs'. unfold refs_of.
  assert (m ∈ filter (λ x, nm_Source x = source) l) as H1 by (by apply list_elem_of_filter).
  assert (m' ∈ filter (λ x, nm_Source x = source) l) as H2 by (by apply list_elem_of_filter).
  destruct (filter _ l) as [|x [|y r]]; [by apply elem_of_nil in H1| |cbn; lia].
  apply list_elem_of_singleton in H1 as ->. by apply list_elem_of_singleton in H2 as ->.
Qed.
Lemma RemoveFile_view path w : nl_view (run_state (RemoveFile path w)) = nl_view w.
Proof.
  unfold RemoveFile. destruct (decide (path = "")); [done|]. unfold mbind, go_mbind, go_bind.
  pose proof (nl_stat path w) as Hs. destruct (hf_Stat path w) as [r w1|]; [|exact Hs]. cbn in Hs.
  destruct r as [fi|e]; [by rewrite nl_remove|]. destruct (oe_NotExist e); [exact Hs|by rewrite nl_remove].
Qed.
Lemma keeps_effect {B} p own (m : go W B) w : keeps same_disks m → wpp (stage_effect p own w) m (λ _, stage_effect p own w) w.
Proof. intros Hm. apply (keeps_wpp same_disks _ _ _ w); [done|done|intros; by apply effect_none|intros; by apply effect_none]. Qed.

(** Whether the staging path has to be mounted. *)
Lemma stage_check_spec p w : wpp (same_disks w) (stage_check p)
  (λ r w', same_disks w w' ∧ (r = inl true → ∀ m, m ∈ mounts w → nm_Target m = p → nm_Bind m = true)) w.
Proof.
  unfold stage_check. apply wpp_bind. destruct (nl_likely p w) as [_ Hl].
  apply (keeps_wpp same_disks _ _ _ w); [apply keeps_likely|done|done|]. intros [notMnt err] w1 E Hs. specialize (Hl _ _ _ E).
  destruct err as [e|]; [|apply wpp_ret; split; [done|]; intros [= ->]; exact Hl].
  destruct Hl as [-> Hnone]. destruct (oe_NotExist e); [|by apply wpp_ret].
  apply wpp_bind. apply (keeps_wpp same_disks _ _ _ w); [apply keeps_mkdir|done|done|]. intros err w2 _ Hs2. apply wpp_ret.
  split; [done|]. intros _ m Hm Ht. by destruct (mount_at_None _ _ (Hnone eq_refl) m Hm).
Qed.

(** Making the file system and mounting it. *)
Lemma format_mount_effect p d fs args opts w : "bind" ∉ opts → (∀ m, m ∈ mounts w → nm_Target m = p → nm_Bind m = true) →
  wpp (stage_effect p (λ x, x = d) w) (or_internal (mount_SafeFormat d fs args) (or_internal (mu_Mount d p fs opts) (mret (inl tt))))
    (λ _ : result unit, stage_effect p (λ x, x = d) w) w.
Proof.
  intros Hbind Hfree. unfold or_internal at 1. apply wpp_bind.
  pose proof (SafeFormat_run d fs args w) as H. unfold wpp in H. unfold wpp at 1.
  destruct (mount_SafeFormat d fs args w) as [r w1|]; [|by apply effect_none]. destruct H as (Hm & Hk & Ho & Hd).
  assert (∀ d', formats w1 !! d' ≠ formats w !! d' → d' = d) as Hown.
  { intros d' Hne. destruct (decide (d' = d)) as [|Hd']; [done|]. by destruct Hne; apply Ho. }
  destruct r as [e|]; [apply wpp_ret; split; auto|]. unfold or_internal. apply wpp_bind.
  destruct (nl_mount d p fs opts w1 Hbind) as (r & w2 & Hr & Hf2 & _ & Hm2).
  fold (mounts w2) (mounts w1) in Hm2. fold (formats w2) (formats w1) in Hf2.
  unfold wpp at 1. rewrite Hr. rewrite Hm in Hm2. destruct r as [e|].
  - apply wpp_ret. split; rewrite ?Hf2; auto.
  - apply wpp_ret. split; rewrite ?Hf2; [auto|auto|]. right. split; [exact Hfree|]. exists d. split_and!; auto.
Qed.
Lemma stage_mount_effect p d args i w :
  wpp (stage_effect p (λ x, x = d) w) (stage_mount p d args i) (λ _, stage_effect p (λ x, x = d) w) w.
Proof.
  unfold stage_mount. apply wpp_bind. pose proof (stage_check_spec p w) as H. unfold wpp in H. unfold wpp at 1.
  destruct (stage_check p w) as [ready w1|]; [|by apply effect_none]. destruct H as [Hs Hready].
  destruct ready as [[|]|e]; [|apply wpp_ret; by apply effect_none..].
  assert (∀ m, m ∈ mounts w1 → nm_Target m = p → nm_Bind m = true) as Hfree by (destruct Hs as [_ ->]; by apply Hready).
  apply (wpp_conseq (stage_effect p (λ x, x = d) w1) (λ _, stage_effect p (λ x, x = d) w1)).
  - apply format_mount_effect; [destruct (_ && _); set_solver|exact Hfree].
  - intros w2. by apply effect_from.
  - intros r w2. by apply effect_from.
Qed.

(** A Kata volume may get a file system, and nothing is mounted. *)
Lemma stage_kata_effect p args i w : wpp (stage_effect p (λ d, d = si_devPath i) w) (stage_kata MarshalKata p args i)
  (λ _, stage_effect p (λ d, d = si_devPath i) w) w.
Proof.
  unfold stage_kata, WriteConfigFileForKataSpdkDirectConnect, WriteKataVolumeConfigFile.
  destruct (_ && _); [apply keeps_effect; keeps|]. destruct (bool_decide (map_str (si_anno i) volumeModeKey = volumeModeBlock)); [apply keeps_effect; keeps|].
  apply wpp_bind. set (d := if si_isLocalDisk i then si_devPath i else "").
  pose proof (SafeFormat_run d (si_fsType i) args w) as H. unfold wpp in H. unfold wpp at 1.
  destruct (mount_SafeFormat d (si_fsType i) args w) as [r w1|]; [|by apply effect_none]. destruct H as (Hm & Hk & Ho & _).
  assert (stage_effect p (λ d, d = si_devPath i) w w1) as He.
  { split; [done| |by left]. intros d' Hd0 Hne. destruct (decide (d' = d)) as [->|Hd']; [|by destruct Hne; apply Ho].
    unfold d in *. by destruct (si_isLocalDisk i). }
  destruct r as [e|]; [by apply wpp_ret|].
  match goal with |- wpp _ ?m _ _ => assert (keeps same_disks m) as Hkeep by keeps end.
  apply (keeps_wpp same_disks _ _ _ w1); [done|done|intros; by eapply effect_then|intros; by eapply effect_then].
Qed.

(** Neither changes the disks the nvme command shows. *)
Lemma keeps_SafeFormat d fs args : keeps same_nvme (mount_SafeFormat d fs args).
Proof.
  unfold mount_SafeFormat. apply keeps_bind; [apply _|apply keeps_diskformat|]. intros [f|e]; [|apply keeps_ret, _].
  destruct (decide (f = "")); [|apply keeps_ret, _]. apply keeps_bind; [apply _| |by intros []; apply keeps_ret, _].
  unfold mkfs_args. rewrite app_assoc. apply keeps_Ret. intros w.
  match goal with |- context [hc_CombinedOutput _ (?l ++ [d])] => destruct (nl_mkfs fs l d w) as (out & r & w' & H & _ & Hd & _) end.
  by exists (out, r), w'.
Qed.
Lemma keeps_mount d p fs opts : "bind" ∉ opts → keeps same_nvme (mu_Mount d p fs opts).
Proof. intros Hb. apply keeps_Ret. intros w. destruct (nl_mount d p fs opts w Hb) as (r & w' & H & _ & Hd & _). by exists r, w'. Qed.
Lemma stage_mount_nvme p d args i : keeps same_nvme (stage_mount p d args i).
Proof.
  unfold stage_mount, stage_check. apply keeps_bind; [apply _| |].
  - apply keeps_bind; [apply _|apply keeps_likely|]. intros [b [e|]]; [|apply keeps_ret, _].
    destruct (oe_NotExist e); [|apply keeps_ret, _]. apply keeps_bind; [apply _|apply keeps_mkdir|]. intros r. apply keeps_ret, _.
  - intros [[|]|e]; try apply keeps_ret, _. apply keeps_or_internal; [apply _|apply keeps_SafeFormat|].
    apply keeps_or_internal; [apply _|apply keeps_mount; destruct (_ && _); set_solver|apply keeps_ret, _].
Qed.

(** The client knows one volume by the identifier. *)
Definition knows id pv : Prop := ∀ w pv' w', ac_GetPvByID id w = Ret (inl pv') w' → pv' = pv.
Definition volume_device pv w d : Prop := own_device w (GetDevPath pv) (pv_target pv) d.

Lemma stage_body_effect id pv p ctx blk w0 w : knows id pv → same_disks w0 w →
  wpp (λ w', stage_effect p (volume_device pv w') w0 w' ∧ (¬ same_disks w0 w' → pv_status pv = VolumeStatusReady))
    (stage_volume MarshalKata id p ctx blk)
    (λ _ w', stage_effect p (volume_device pv w') w0 w' ∧ (¬ same_disks w0 w' → pv_status pv = VolumeStatusReady)) w.
Proof.
  intros Hpv Hs. set (P := λ w', stage_effect p (volume_device pv w') w0 w' ∧ _).
  assert (∀ w', same_disks w0 w' → P w') as Hsame by (intros w' H; split; [by apply effect_none|by intros []]).
  unfold stage_volume. apply wpp_bind. apply (keeps_wpp same_disks _ _ _ w0); [apply keeps_get|done|done|]. intros r w1 Er Hs1.
  destruct r as [pv'|e]; [|apply wpp_ret; auto]. apply Hpv in Er as ->.
  apply wpp_bind. apply (keeps_wpp same_disks _ _ _ w0); [unfold GetStatus; auto with keeps|done|done|]. intros status w2 Es Hs2.
  apply GetStatus_read in Es as ->. destruct (decide (pv_status pv ≠ VolumeStatusReady)) as [Hne|Hready]; [apply wpp_ret; auto|].
  apply dec_stable in Hready.
  apply wpp_bind. apply (keeps_wpp same_disks _ _ _ w0); [apply keeps_stage_info|done|done|]. intros i w3 Ei Hs3.
  apply stage_info_read in Ei as [Hdev Htgt].
  assert (∀ wa wb, same_disks w0 wa → stage_effect p (λ x, x = si_devPath i) wa wb → P wb) as Hlocal.
  { intros wa wb Ha H. split; [|done]. eapply effect_from; [exact Ha|]. eapply effect_own; [|exact H].
    intros d ->. left. by rewrite Hdev. }
  destruct (decide (_ = containerTypeForKata)).
  { eapply wpp_conseq; [apply stage_kata_effect| |]; intros; by eapply Hlocal. }
  apply wpp_bind. apply (keeps_wpp same_disks _ _ _ w0); [apply stage_device_keeps|done|done|]. intros dev w4 Ed Hs4.
  destruct dev as [d|e]; [|apply wpp_ret; auto].
  destruct (decide (d = "")) as [|Hd]; [apply wpp_ret; auto|]. destruct blk; [apply wpp_ret; auto|].
  apply stage_device_own in Ed as [|Hown]; [done|].
  assert (∀ wb, stage_effect p (λ x, x = d) w4 wb → same_nvme w4 wb → P wb) as Hdone.
  { intros wb H Hn. split; [|done]. eapply effect_from; [exact Hs4|]. eapply effect_own; [|exact H]. intros d' ->.
    unfold volume_device, own_device. rewrite <- Hdev, <- Htgt. destruct Hown as [|(t & Ht & Hin)]; [by left|right].
    exists t. split; [done|]. by rewrite Hn. }
  pose proof (stage_mount_effect p d (mkfs_params ctx) i w4) as H. pose proof (stage_mount_nvme p d (mkfs_params ctx) i w4) as Hn.
  unfold wpp in H |- *. destruct (stage_mount p d (mkfs_params ctx) i w4); by apply Hdone.
Qed.

Lemma stage_volume_effect req pv w : knows (nsr_VolumeId req) pv →
  let w' := run_state (NodeStageVolume MarshalKata req w) in
  stage_effect (nsr_StagingTargetPath req) (volume_device pv w') w w' ∧
  (¬ same_disks w w' → pv_status pv = VolumeStatusReady).
Proof.
  intros Hpv. apply wpp_state. unfold NodeStageVolume. set (P := λ w', _ ∧ _).
  assert (∀ w', same_disks w w' → P w') as Hsame by (intros w' H; split; [by apply effect_none|by intros []]).
  destruct (nsr_Capability req) as [blk|]; [|by apply wpp_ret, Hsame].
  destruct (decide (_ ∨ _)); [by apply wpp_ret, Hsame|].
  apply wpp_bind. apply (keeps_wpp same_disks _ _ _ w); [apply keeps_stat|done|done|]. intros st w1 _ Hs1.
  apply wpp_bind. apply (keeps_wpp same_disks _ _ _ w); [|done|done|].
  { destruct st as [|e]; [|destruct (oe_NotExist e)]; try apply keeps_ret, _. apply keeps_mkdir. }
  intros made w2 _ Hs2. destruct made as [e|]; [apply wpp_ret; auto|]. by apply stage_body_effect.
Qed.

(** C9. Staging keeps the data of users: whatever the commands answer and at
    whichever step it fails, no device that has a file system gets a new one; the
    only device that may get one, or be mounted, is the requested volume's own,
    when the volume is ready; it is mounted on the staging path alone, only with a
    file system on it, and only once, since a repeated request finds it mounted. *)
Theorem stage_keeps_data req pv w : knows (nsr_VolumeId req) pv →
  let w' := run_state (NodeStageVolume MarshalKata req w) in
  stage_effect (nsr_StagingTargetPath req) (volume_device pv w') w w' ∧
  (¬ same_disks w w' → pv_status pv = VolumeStatusReady).
Proof. intros Hpv. by apply stage_volume_effect. Qed.

(** *** Unstaging *)

(** The client finds the volume. *)
Definition finds id pv : Prop := ∀ w, ∃ w', ac_GetPvByID id w = Ret (inl pv) w'.
Lemma finds_knows id pv : finds id pv → knows id pv.
Proof. intros H w pv' w' E. destruct (H w) as (w1 & E1). congruence. Qed.
Definition pv_lvm (pv : CsiClient.PV) : bool :=
  if decide (pv_Type pv = PvTypeVolume) then bool_decide ((vs_Type ∘ vol_Spec) <$> pv_Volume pv = Some VolumeTypeKernelLVol)
  else if decide (pv_Type pv = PvTypeVolumeGroup) then bool_decide ((dcs_EngineType ∘ dc_Spec) <$> pv_DataContrl pv = Some PoolModeKernelLVM)
  else false.
Lemma IsLVM_read pv w b w' : IsLVM pv w = Ret b w' → b = pv_lvm pv ∧ w' = w.
Proof.
  unfold IsLVM, by_kind, pv_lvm, pv_volume, pv_control.
  destruct (decide (pv_Type pv = PvTypeVolume)); [destruct (pv_Volume pv) as [v|]; [|done]; intros [= <- <-]; split; [|done]|].
  { apply bool_decide_ext. cbn. split; [by intros ->|by intros [=]]. }
  destruct (decide (pv_Type pv = PvTypeVolumeGroup)); [destruct (pv_DataContrl pv) as [x|]; [|done]; intros [= <- <-]; split; [|done]|].
  { apply bool_decide_ext. cbn. split; [by intros ->|by intros [=]]. }
  by intros [= <- <-].
Qed.
Lemma GetSpdkTarget_read pv w t w' : GetSpdkTarget pv w = Ret t w' → t = pv_target pv ∧ w' = w.
Proof.
  unfold GetSpdkTarget, by_kind, pv_target, pv_volume, pv_control.
  destruct (decide (pv_Type pv = PvTypeVolume)); [destruct (pv_Volume pv); [|done]; by intros [= <- <-]|].
  destruct (decide (pv_Type pv = PvTypeVolumeGroup)); [destruct (pv_DataContrl pv); [|done]; by intros [= <- <-]|]. by intros [= <- <-].
Qed.

(** Disconnecting leaves the mounts, and success means that it is done. *)
Lemma unstage_disconnect_run pv w r w' : unstage_disconnect pv w = Ret r w' → same_disks w w' ∧
  (r = inl tt → pv_lvm pv = false → ∃ t, pv_target pv = Some t ∧ tgt_SubsysNQN t ∉ connected w').
Proof.
  unfold unstage_disconnect. intros H. apply go_bind_inv in H as (lvm & w1 & E & H). apply IsLVM_read in E as [-> ->].
  destruct (pv_lvm pv); [by injection H as <- <-|]. apply go_bind_inv in H as (tgt & w1 & E & H). apply GetSpdkTarget_read in E as [-> ->].
  apply go_bind_inv in H as (t & w1 & E & H). destruct (pv_target pv) as [t'|] eqn:Et; [|done]. injection E as <- <-.
  unfold or_internal in H. apply go_bind_inv in H as (err & w2 & E & H).
  destruct (nl_disconnect {| dtr_NQN := tgt_SubsysNQN t'; dtr_TrAddr := ""; dtr_SvcID := "" |} w) as (r' & w3 & E' & Hf & Hm & Hdone).
  rewrite E' in E. injection E as <- <-. destruct r' as [e|]; injection H as <- <-; (split; [by split|]); [done|].
  intros _ _. exists t'. split; [done|]. by apply Hdone.
Qed.

(** What unmounting does: nothing when no device is mounted on the path; the last
    mount goes and nothing refers to its device; or the answer is an error. *)
Lemma unstage_umount_run p anno k w r w' : unstage_umount p anno k w = Ret r w' →
  (∃ wa, same_disks w wa ∧ k wa = Ret r w' ∧ (∀ m, m ∈ mounts w → nm_Target m = p → nm_Bind m = true)) ∨
  (∃ wa, formats wa = formats w ∧ mounts wa = unmount_top p (mounts w) ∧ k wa = Ret r w' ∧
     ∀ m, mount_at p (mounts w) = Some m → (refs_of (nm_Source m) (mounts w) <= 1)%nat) ∨
  (r ≠ inl tt ∧ (mounts w' = mounts w ∨ mounts w' = unmount_top p (mounts w))).
Proof.
  unfold unstage_umount. intros H. apply go_bind_inv in H as ([notMnt err] & w1 & E & H).
  destruct (nl_likely p w) as [Hv Hl]. specialize (Hl _ _ _ E). rewrite E in Hv. cbn in Hv.
  assert (same_disks w w1) as Hs1 by (unfold same_disks, formats, mounts; by rewrite Hv).
  destruct (_ || negb notMnt) eqn:Hneed.
  2: { left. exists w1. split; [done|]. split; [done|]. apply orb_false_elim in Hneed as [Hn Hb]. destruct notMnt; [|done].
       destruct err as [e|]; [|exact Hl]. destruct Hl as [_ Hnone]. apply negb_false_iff in Hn. specialize (Hnone Hn).
       intros m Hm Ht. by destruct (mount_at_None _ _ Hnone m Hm). }
  unfold or_internal, or_else in H. apply go_bind_inv in H as (e1 & w2 & E1 & H).
  assert (nl_view w2 = nl_view w1) as Hv2.
  { destruct (decide _); [|by injection E1 as _ ->].
    change w2 with (run_state (Ret e1 w2)). rewrite <- E1. apply RemoveFile_view. }
  assert (same_disks w w2) as Hs2 by (unfold same_disks, formats, mounts; by rewrite Hv2, Hv).
  destruct e1 as [e|]; [right; right; injection H as <- <-; split; [done|left; apply Hs2]|].
  apply go_bind_inv in H as (dc & w3 & E2 & H). destruct (nl_refs p w2) as [Hv3 Hrefs]. rewrite E2 in Hv3. cbn in Hv3.
  assert (same_disks w w3) as Hs3 by (unfold same_disks, formats, mounts; by rewrite Hv3, Hv2, Hv).
  destruct dc as [[dev n]|e]; [|right; right; injection H as <- <-; split; [done|left; apply Hs3]].
  destruct (Hrefs _ _ _ E2) as (Hint & Hn0 & Hcnt). fold (mounts w2) in Hcnt. replace (mounts w2) with (mounts w) in Hcnt by (symmetry; apply Hs2).
  apply go_bind_inv in H as (e2 & w4 & E3 & H). destruct (nl_umount p w3) as (r3 & w5 & E4 & Hf4 & _ & Hm4). rewrite E4 in E3.
  injection E3 as <- <-. fold (mounts w5) (mounts w3) in Hm4. fold (formats w5) (formats w3) in Hf4.
  destruct Hs3 as [Hf3 Hm3]. rewrite Hm3 in Hm4. rewrite Hf3 in Hf4.
  destruct r3 as [e|]; [right; right; injection H as <- <-; split; [done|by left]|].
  destruct (decide (0 < _)%Z) as [|Hlast]; [right; right; injection H as <- <-; split; [done|by right]|].
  right; left. exists w5. split_and!; [done|done|done|]. intros m Hm. destruct (Hcnt m Hm) as [-> Heq]. cbn in Hlast.
  assert (wrap64 (n - 1) = n - 1)%Z as Hw by (apply wrap64_id; unfold is_int64 in *; lia). lia.
Qed.
Lemma unstage_run id pv p w r w' : finds id pv → NodeUnstageVolume id p w = Ret r w' →
  (∃ wa, (same_disks wa w' ∧ (r = inl tt → pv_lvm pv = false → ∃ t, pv_target pv = Some t ∧ tgt_SubsysNQN t ∉ connected w')) ∧
    ((same_disks w wa ∧ ∀ m, m ∈ mounts w → nm_Target m = p → nm_Bind m = true) ∨
     (formats wa = formats w ∧ mounts wa = unmount_top p (mounts w) ∧
      ∀ m, mount_at p (mounts w) = Some m → (refs_of (nm_Source m) (mounts w) <= 1)%nat))) ∨
  (r ≠ inl tt ∧ (mounts w' = mounts w ∨ mounts w' = unmount_top p (mounts w))).
Proof.
  intros Hpv. unfold NodeUnstageVolume. destruct (decide (_ ∨ _)); [intros [= <- <-]; right; split; [done|by left]|].
  intros H. apply go_bind_inv in H as (r0 & w1 & E & H). destruct (Hpv w) as (w1' & E'). rewrite E' in E. injection E as <- <-.
  pose proof (nl_get id w) as Hv. rewrite E' in Hv. cbn in Hv.
  apply go_bind_inv in H as (anno & w2 & E & H).
  assert (same_disks w w2 ∧ mounts w2 = mounts w) as [Hs Hm].
  { assert (keeps same_disks (GetAnnotations pv)) as Hk by (unfold GetAnnotations; auto with keeps). specialize (Hk w1'). rewrite E in Hk.
    assert (same_disks w w1') by (unfold same_disks, formats, mounts; by rewrite Hv).
    assert (same_disks w w2) as H1 by (by etrans). split; [done|apply H1]. }
  destruct (unstage_umount_run _ _ _ _ _ _ H) as [(wa & Ha & Hk & Hn) | [(wa & Hf & Hma & Hk & Hn) | (Hr & Hmm)]].
  - left. exists wa. rewrite Hm in Hn. split; [by apply unstage_disconnect_run|]. left. split; [by etrans|done].
  - left. exists wa. rewrite Hm in Hn, Hma. destruct Hs as [Hf2 _]. rewrite Hf2 in Hf. split; [by apply unstage_disconnect_run|]. right. by split.
  - right. rewrite Hm in Hmm. by split.
Qed.

(** C26. Unstaging what was staged restores the node: when no mount was on the
    staging path, and both calls succeed, the mounts are again the ones from
    before, every file system is kept, and a volume that is not LVM's is
    disconnected. *)
Theorem stage_then_unstage req pv w w1 w2 : finds (nsr_VolumeId req) pv →
  (∀ m, m ∈ mounts w → nm_Target m ≠ nsr_StagingTargetPath req) →
  NodeStageVolume MarshalKata req w = Ret (inl tt) w1 →
  NodeUnstageVolume (nsr_VolumeId req) (nsr_StagingTargetPath req) w1 = Ret (inl tt) w2 →
  mounts w2 = mounts w ∧ (∀ d f, formats w !! d = Some f → formats w2 !! d = Some f) ∧
  (pv_lvm pv = false → ∃ t, pv_target pv = Some t ∧ tgt_SubsysNQN t ∉ connected w2).
Proof.
  intros Hpv Hfree H1 H2. pose proof (stage_volume_effect req pv w (finds_knows _ _ Hpv)) as Heff. rewrite H1 in Heff.
  destruct Heff as [[Hkept _ Hm] _]. cbn in Hkept, Hm.
  destruct (unstage_run _ _ _ _ _ _ Hpv H2) as [[wa [Hd Hcase]] | [Hbad _]]; [|done]. destruct Hd as [[Hfd Hmd] Hdis].
  specialize (Hdis eq_refl). split.
  - rewrite Hmd. destruct Hcase as [[[Hfa Hma] Hnone] | (Hfa & Hma & _)]; rewrite Hma; destruct Hm as [Hm|[_ (d & _ & _ & Hm)]].
    + done.
    + exfalso. assert (false = true); [|done]. rewrite Hm in Hnone. by eapply (Hnone {| nm_Source := d; nm_Bind := false |}); [left|].
    + rewrite Hm. by apply unmount_top_absent.
    + rewrite Hm. cbn. by rewrite decide_True.
  - split; [|done]. intros d f Hd. rewrite Hfd. destruct Hcase as [[[Hfa _] _] | (Hfa & _)]; rewrite Hfa; auto.
Qed.

(** The guard of a device in use works once: a volume whose device is mounted
    elsewhere too is not unstaged by the first call, which unmounts the staging
    path and answers with an error; but as soon as a repeated call, which the
    kubelet makes, succeeds, the device is disconnected although it is still
    mounted there. *)
Lemma unstage_retry_disconnects id pv p m m' w r1 w1 : finds id pv → pv_lvm pv = false →
  mount_at p (mounts w) = Some m → nm_Bind m = false →
  m' ∈ mounts w → nm_Source m' = nm_Source m → nm_Target m' ≠ p →
  NodeUnstageVolume id p w = Ret r1 w1 →
  r1 ≠ inl tt ∧ m' ∈ mounts w1 ∧
  ∀ w2, NodeUnstageVolume id p w1 = Ret (inl tt) w2 →
    m' ∈ mounts w2 ∧ ∃ t, pv_target pv = Some t ∧ tgt_SubsysNQN t ∉ connected w2.
Proof.
  intros Hpv Hlvm Hm Hb Hm' Hs Ht H1. apply mount_at_elem in Hm as Hin. destruct Hin as [Hin Hp].
  assert (m ≠ m') as Hne by (intros ->; done).
  assert (r1 ≠ inl tt ∧ m' ∈ mounts w1) as [Hr1 Hm1].
  { destruct (unstage_run _ _ _ _ _ _ Hpv H1) as [(wa & _ & Hcase) | [Hbad Hmm]].
    - destruct Hcase as [[_ Hnone] | (_ & _ & Hrefs)]; [by rewrite (Hnone m Hin Hp) in Hb|].
      pose proof (refs_two (nm_Source m) _ m m' Hin Hm' Hne eq_refl Hs). specialize (Hrefs m Hm). lia.
    - split; [done|]. destruct Hmm as [-> | ->]; [done|by apply unmount_top_other]. }
  split; [done|]. split; [done|]. intros w2 H2.
  destruct (unstage_run _ _ _ _ _ _ Hpv H2) as [(wa & [[_ Hmd] Hdis] & Hcase) | [Hbad _]]; [|done].
  split; [|by apply Hdis]. rewrite Hmd. destruct Hcase as [[[_ Hma] _] | (_ & Hma & _)]; rewrite Hma; [done|by apply unmount_top_other].
Qed.
End node_spec.

(** *** Evaluations: a node in memory *)

Module NodeMem.
Import CsiMem.
Implicit Types (w : NodeView).
Definition set_formats f w := {| nv_formats := f; nv_mounts := nv_mounts w; nv_connected := nv_connected w; nv_disks := nv_disks w |}.
Definition set_mounts l w := {| nv_formats := nv_formats w; nv_mounts := l; nv_connected := nv_connected w; nv_disks := nv_disks w |}.
Definition set_connected s w := {| nv_formats := nv_formats w; nv_mounts := nv_mounts w; nv_connected := s; nv_disks := nv_disks w |}.
#[export] Instance files : HostFiles NodeView := {|
  hf_Stat _ := mret (inl {| fi_IsDir := true; fi_Dev := 1 |}); hf_Lstat _ := mret (inl {| fi_IsDir := true; fi_Dev := 1 |});
  hf_MkdirAll _ := mret None; hf_Remove _ := mret None; hf_OpenFile _ := mret None; hf_Close _ := mret None; hf_Create _ := mret None;
  hf_Open _ := mret None; hf_Readdir1 _ := mret None; hf_EvalSymlinks p := mret (inl p); hf_WriteFile _ _ := mret None;
  hf_ConsistentRead _ _ := mret (inl "") |}.
#[export] Instance commands : HostCommands NodeView := {|
  hc_LookPath _ := mret None;
  hc_CombinedOutput cmd args :=
    if HasPrefix cmd "mkfs." then
      match last args with Some d => _ ← gmodify (λ w, set_formats (<[d := TrimPrefix cmd "mkfs."]> (nv_formats w)) w); mret ("", None)
                         | None => mret ("", Some (ErrNew "usage")) end
    else mret ("", None) |}.
Definition device_of (src : string) w : string := default src (nm_Source <$> mount_at src (nv_mounts w)).
#[export] Instance mounter : MountUtils NodeView := {|
  mu_IsLikelyNotMountPoint p w := Ret (bool_decide (mount_at p (nv_mounts w) = None), None) w;
  mu_Mount src tgt fs opts := _ ← gmodify (λ w, set_mounts (
      {| nm_Source := if decide ("bind" ∈ opts) then device_of src w else src; nm_Target := tgt; nm_Bind := bool_decide ("bind" ∈ opts) |}
      :: nv_mounts w) w); mret None;
  mu_Unmount tgt := _ ← gmodify (λ w, set_mounts (unmount_top tgt (nv_mounts w)) w); mret None;
  mu_GetDeviceNameFromMount p w :=
    match mount_at p (nv_mounts w) with
    | Some m => let n := Z.of_nat (refs_of (nm_Source m) (nv_mounts w)) in
                if decide (is_int64 n) then Ret (inl (nm_Source m, n)) w else Ret (inr (ErrNew "too many mounts")) w
    | None => Ret (inl ("", 0%Z)) w
    end;
  mu_CleanupMountPoint tgt _ := _ ← gmodify (λ w, set_mounts (unmount_top tgt (nv_mounts w)) w); mret None;
  mu_IsNotMountPoint p w := Ret (bool_decide (mount_at p (nv_mounts w) = None), None) w;
  mu_GetDiskFormat d w := Ret (inl (match nv_formats w !! d with Some "" => "unknown" | Some f => f | None => "" end)) w;
  mu_Resize _ _ := mret (true, None) |}.
#[export] Instance tool : NvmeExec NodeView := {|
  nvme_list w := Ret (inl ((λ p, {| nd_SerialNumber := p.1; nd_DevicePath := p.2 |}) <$> nv_disks w)) w;
  nvme_list_subsys := mret (inl []);
  nvme_run args :=
    _ ← gmodify (λ w, match args with
        | "disconnect" :: _ :: nqn :: _ => set_connected (nv_connected w ∖ {[ nqn ]}) w
        | _ => w end); mret None |}.
Definition client (pv : CsiClient.PV) : AntstorClientIface (L := NanoLib) NodeView := {|
  ac_GetPvByID _ := mret (inl pv); ac_CreatePV _ _ := mret (inl ""); ac_DeletePV _ := mret None; ac_ResizePV _ _ := mret None;
  ac_SetNodePublishParameters _ := mret None; ac_GetSnapshotByID _ := mret (inr (ErrNew "none"));
  ac_GetSnapshotByName _ _ := mret (inr (ErrNew "none")); ac_CreateSnapshot _ _ := mret (inl ""); ac_DeleteSnapshot _ := mret None;
  ac_GetStoragePoolByName _ _ := mret (inr (ErrNew "none")) |}.
Lemma client_laws pv : NodeLaws (client pv) files commands mounter tool.
Proof.
  refine {| nl_view := id |}; try done.
  - intros w. split; [done|]. intros l w' [= <- _]. cbn. rewrite <- list_fmap_compose. etrans; [|apply list_fmap_id].
    apply list_fmap_ext. by intros i [].
  - intros p w. split; [done|]. intros b e w' [= <- <- _]. cbn. case_bool_decide as H.
    + intros m Hm Ht. by destruct (mount_at_None _ _ H m Hm).
    + destruct (mount_at p (nv_mounts w)); [by eexists|done].
  - intros p w. unfold mu_GetDeviceNameFromMount, mounter. destruct (mount_at p (nv_mounts w)) as [m|] eqn:Em.
    + destruct (decide (is_int64 _)); [|by split]. split; [done|]. intros d n w' [= <- <- _]. split; [done|]. split; [lia|].
      intros m0 [= <-]%(eq_trans (eq_sym Em)). done.
    + split; [done|]. intros d n w' [= <- <- _]. cbn. by rewrite Em.
  - intros d w. split; [done|]. intros f w' [= <- _]. cbn. destruct (nv_formats w !! d) as [[|]|]; done.
  - intros fs args d w. unfold hc_CombinedOutput, commands. unfold HasPrefix. rewrite prefix_app, last_snoc.
    do 3 eexists. split; [reflexivity|]. cbn. split; [done|]. split; [done|]. split.
    + intros d' Hd. by apply lookup_insert_ne.
    + intros _. rewrite lookup_insert_eq. by eexists.
  - intros src tgt fs opts w Hb. do 2 eexists. split; [reflexivity|]. cbn. rewrite (decide_False (P := "bind" ∈ opts)) by done.
    by rewrite bool_decide_false by done.
  - intros tgt w. do 2 eexists. by split.
  - intros ty addr svc nqn o w. do 2 eexists. by split.
  - intros req w. unfold DisconnectTarget. destruct (decide (dtr_NQN req = "")); do 2 eexists; (split; [reflexivity|]); cbn; [done|].
    split; [done|]. split; [done|]. set_solver.
Defined.

Definition target : SpdkTarget := {| tgt_BdevName := "b"; tgt_SubsysNQN := "nqn.1"; tgt_SvcID := "4420"; tgt_SerialNum := "sn-1";
  tgt_TransType := TransportTypeTCP; tgt_NSUUID := ""; tgt_Address := "10.0.0.2"; tgt_AddrFam := "IPv4" |}.
Definition remote : AntstorVolume := {|
  vol_meta := named "pv-1" None None;
  vol_Spec := vs_set_SpdkTarget (Some target) (vs_set_TargetNodeId "node-2" (vs_set_HostNode (Some NodeInfo_zero) AntstorVolumeSpec_zero));
  vol_Status := vst_set_Status VolumeStatusReady AntstorVolumeStatus_zero |}.
Definition pv : CsiClient.PV := volume_pv remote.
Definition req : NodeStageVolumeRequest := {| nsr_VolumeId := "v-1"; nsr_StagingTargetPath := "/stage"; nsr_Capability := Some false;
  nsr_VolumeContext := None |}.
Definition world (l : list NodeMount) : NodeView := {| nv_formats := {[ "/dev/sda" := "ext4" ]}; nv_mounts := l;
  nv_connected := {[ "nqn.1" ]}; nv_disks := [("sn-1", "/dev/nvme0n1"); ("sn-2", "/dev/nvme1n1")] |}.
Definition on (path : string) : NodeMount := {| nm_Source := "/dev/nvme0n1"; nm_Target := path; nm_Bind := false |}.
Definition kata (c : KataVolumeConfig) : string := "".
#[export] Instance the_client : AntstorClientIface (L := NanoLib) NodeView := client pv.
#[export] Instance the_laws : NodeLaws the_client files commands mounter tool := client_laws pv.
Lemma found id : finds id pv.
Proof. intros w. by exists w. Qed.
End NodeMem.
Import NodeMem.

Lemma stage_keeps_data_witness : let w' := run_state (NodeStageVolume kata NodeMem.req (NodeMem.world [])) in
  mounts w' = [on "/stage"] ∧ formats w' !! "/dev/nvme0n1" = Some "xfs" ∧
  stage_effect "/stage" (volume_device NodeMem.pv w') (NodeMem.world []) w'.
Proof.
  split; [vm_compute; reflexivity|]. split; [vm_compute; reflexivity|].
  apply (stage_keeps_data kata NodeMem.req NodeMem.pv (NodeMem.world [])). apply finds_knows, found.
Defined.
Lemma stage_then_unstage_witness : ∃ w1 w2, NodeStageVolume kata NodeMem.req (NodeMem.world []) = Ret (inl tt) w1 ∧
  NodeUnstageVolume "v-1" "/stage" w1 = Ret (inl tt) w2 ∧ mounts w1 = [on "/stage"] ∧ mounts w2 = [].
Proof.
  destruct (NodeStageVolume kata NodeMem.req (NodeMem.world [])) as [r w1|] eqn:E1; [|by vm_compute in E1].
  destruct r as [[]|e]; [|by vm_compute in E1].
  destruct (NodeUnstageVolume "v-1" "/stage" w1) as [r w2|] eqn:E2; [|exfalso; vm_compute in E1; injection E1 as <-; by vm_compute in E2].
  destruct r as [[]|e]; [|exfalso; vm_compute in E1; injection E1 as <-; by vm_compute in E2].
  exists w1, w2. split; [done|]. split; [done|]. split; [vm_compute in E1; injection E1 as <-; vm_compute; reflexivity|].
  destruct (stage_then_unstage kata NodeMem.req NodeMem.pv (NodeMem.world []) w1 w2 (found _)) as [Hm _]; [| | |exact Hm].
  - intros m Hm. cbn in Hm. by apply elem_of_nil in Hm.
  - exact E1.
  - exact E2.
Defined.
Lemma unstage_retry_disconnects_witness : ∃ r1 w1 w2,
  NodeUnstageVolume "v-1" "/stage" (NodeMem.world [on "/stage"; on "/pod"]) = Ret r1 w1 ∧ r1 ≠ inl tt ∧
  NodeUnstageVolume "v-1" "/stage" w1 = Ret (inl tt) w2 ∧ on "/pod" ∈ mounts w2 ∧ "nqn.1" ∉ connected w2.
Proof.
  destruct (NodeUnstageVolume "v-1" "/stage" (NodeMem.world [on "/stage"; on "/pod"])) as [r1 w1|] eqn:E1; [|by vm_compute in E1].
  destruct (NodeUnstageVolume "v-1" "/stage" w1) as [r w2|] eqn:E2; [|exfalso; vm_compute in E1; injection E1 as <- <-; by vm_compute in E2].
  destruct r as [[]|e]; [|exfalso; vm_compute in E1; injection E1 as <- <-; by vm_compute in E2].
  exists r1, w1, w2. split; [done|].
  destruct (unstage_retry_disconnects "v-1" NodeMem.pv "/stage" (on "/stage") (on "/pod") (NodeMem.world [on "/stage"; on "/pod"]) r1 w1)
    as (H1 & _ & H2).
  - apply found.
  - reflexivity.
  - reflexivity.
  - reflexivity.
  - right. by left.
  - reflexivity.
  - discriminate.
  - exact E1.
  - split; [exact H1|]. split; [done|]. destruct (H2 w2 E2) as (H3 & t & [= <-] & H4). by split.
Defined.
