(* ===== verification/PoolSync.v ===== *)
(** * The agent's pool loop

    [pkg/agent/sync/sync_storagepool.go] and [sync_loop.go]: what the agent of a
    node reports of its storage pool to the API server, where the manager
    schedules by it, and what its loops tell their work queues. *)

From Stdlib Require Import ZArith Lia.
From stdpp Require Import base gmap strings option list.
From S2P Require Import Prelude Strconv Misc K8s Api Server Plugin Lvm LvmEngine Engine PoolReconciler CsiClient CsiController.

(* [agent/pool/watcher.go:15-18] SpdkStatus *)
Record SpdkStatus := { ss_SpdkVersion : string; ss_Error : option error }.
(* [agent/pool/watcher.go:20-23] ChangedStatusPayload *)
Record ChangedStatusPayload := { csp_Last : SpdkStatus; csp_Current : SpdkStatus }.
(* [agent/pool/watcher.go:11-13] ErrTgtUnknown *)
Definition ErrTgtUnknown : error := ErrNew "unknown status".
(* [agent/pool/watcher.go:38-40] ChangedStatusPayload.SpdkWentDown *)
Definition SpdkWentDown (p : ChangedStatusPayload) : bool :=
  bool_decide (ss_Error (csp_Last p) = None) && bool_decide (ss_Error (csp_Current p) ≠ None).
(* [agent/pool/watcher.go:42-44] ChangedStatusPayload.SpdkBackAlive *)
Definition SpdkBackAlive (p : ChangedStatusPayload) : bool :=
  bool_decide (ss_Error (csp_Last p) ≠ Some ErrTgtUnknown) && bool_decide (ss_Error (csp_Last p) ≠ None) &&
  bool_decide (ss_Error (csp_Current p) = None).

Section pool_sync.
Context {L : K8sLib} {W : Type} {E : PoolEngineIface W} {KP : KubeClient W StoragePool}.
(** [SpdkService.Version], the node objects of Kubernetes, and of the
    configuration the pool's name, the keys of node labels and the NQN of the host. *)
Context (spdk_Version : go W (string * option error)) (node_Get : string → go W (result KNode)).
Context (poolingName : string) (NodeKeys : NodeInfoKeys) (HostNQNValue : string).

(** What the service keeps in memory: its pool, and the watcher's last status. *)
Record PoolService := { psv_pool : StoragePool; psv_current : SpdkStatus }.
Definition PS : Type := PoolService * W.
Definition world {A} (m : go W A) : go PS A := on_snd m.
Definition get_pool : go PS StoragePool := λ s, Ret (psv_pool s.1) s.
Definition get_current : go PS SpdkStatus := λ s, Ret (psv_current s.1) s.
Definition put_pool (p : StoragePool) : go PS unit := gmodify (λ s, ({| psv_pool := p; psv_current := psv_current s.1 |}, s.2)).

(* [agent/pool/watcher.go:59-64] SpdkWatcher.ReadStatus *)
Definition ReadStatus : go PS SpdkStatus :=
  '(ver, err) ← world spdk_Version;
  let st := {| ss_SpdkVersion := ver; ss_Error := err |} in
  _ ← gmodify (λ s : PS, ({| psv_pool := psv_pool s.1; psv_current := st |}, s.2));
  mret st.

(** *** Metadata and spec *)

(** An error leaves the result at its zero value. *)
(* [agent/sync/sync_storagepool.go:200-229] PoolSyncer.getPoolSpec *)
Definition getPoolSpec (name : string) : go W (StoragePoolSpec * option error) :=
  '(poolInfo, err) ← pei_PoolInfo poolingName;
  match err with
  | Some e => mret (StoragePoolSpec_zero, Some e)
  | None =>
      r ← GetByNodeID node_Get name NodeKeys;
      mret (match r with
            | inr e => (StoragePoolSpec_zero, Some e)
            | inl node => ({|
                sps_KernelLVM := default KernelLVM_zero (si_LVM poolInfo);
                sps_SpdkLVStore := default SpdkLVStore_zero (si_LVS poolInfo);
                sps_Addresses := [{| na_Type := NodeInternalIP; na_Address := ni_IP node |}];
                sps_NodeInfo := node |}, None)
            end)
  end.
(* [agent/sync/sync_storagepool.go:231-249] setPoolAttributes *)
Definition setPoolAttributes (spdkVer : SpdkStatus) (pool : StoragePool) : StoragePool :=
  let annos := default ∅ (om_Annotations (sp_meta pool)) in
  let annos := match ss_Error spdkVer with None => <[AnnotationTgtSpdkVersion := ss_SpdkVersion spdkVer]> annos | Some _ => annos end in
  let labels := <[PoolLabelsNodeSnKey := om_Name (sp_meta pool)]> (default ∅ (om_Labels (sp_meta pool))) in
  let quant := NewQuantity (GetVgTotalBytes pool) in
  let st := sp_Status pool in
  sp_set_Status (spst_set_VGFreeSize quant (spst_set_Capacity (Some (<[ResourceDiskPoolByte := quant]> (default ∅ (spst_Capacity st)))) st))
    (sp_set_meta (om_set_Labels (Some labels) (om_set_Annotations (Some annos) (sp_meta pool))) pool).
(** Only a condition that is there is changed. *)
(* [agent/sync/sync_storagepool.go:360-367] setLvmCondition *)
Definition setLvmCondition (status msg : string) (st : StoragePoolStatus) : StoragePoolStatus :=
  spst_set_Conditions ((λ c, if decide (pc_Type c = PoolConditionLvmHealth)
                             then {| pc_Type := pc_Type c; pc_Status := status; pc_Message := msg |} else c) <$> spst_Conditions st) st.
(** What the annotations of the pool become. *)
(* [agent/sync/sync_storagepool.go:155-171] PoolSyncer.syncPool, the annotations *)
Definition merge_annotations (spdkVer : SpdkStatus) (pool api : StoragePool) : gomap string :=
  let a := default ∅ (om_Annotations (sp_meta api)) ∪ default ∅ (om_Annotations (sp_meta pool)) in
  let a := if decide (HostNQNValue ≠ "") then <[AnnotationHostNQN := HostNQNValue]> a else a in
  Some (if decide (ss_SpdkVersion spdkVer ≠ "") then <[AnnotationTgtSpdkVersion := ss_SpdkVersion spdkVer]> a else a).
(** The pool is there: the local copy takes over labels and status (the
    conditions are one slice for both), and what differs is written. *)
(* [agent/sync/sync_storagepool.go:154-195] PoolSyncer.syncPool, an existing pool *)
Definition sync_existing (spdkVer : SpdkStatus) (pool api : StoragePool) : go PS (option error) :=
  let annos := merge_annotations spdkVer pool api in
  '(spec, err) ← world (getPoolSpec (om_Name (sp_meta pool)));
  let st := match err with
            | Some e => if errors_Is e PvLostErr then setLvmCondition StatusError (error_msg e) (sp_Status api)
                        else setLvmCondition StatusOK "" (sp_Status api)
            | None => sp_Status api
            end in
  _ ← put_pool {| sp_meta := om_set_Labels (om_Labels (sp_meta api)) (om_set_Annotations annos (sp_meta pool)); sp_Spec := spec; sp_Status := st |};
  if decide (annos = om_Annotations (sp_meta api) ∧ spec = sp_Spec api) then mret err
  else
    updated ← world (kUpdate {| sp_meta := om_set_Annotations annos (sp_meta api); sp_Spec := spec; sp_Status := st |});
    mret (error_of updated).
(* [agent/sync/sync_storagepool.go:114-198] PoolSyncer.syncPool *)
Definition syncPool : go PS (option error) :=
  pool ← get_pool;
  let name := om_Name (sp_meta pool) in
  if decide (name = "" ∨ om_Namespace (sp_meta pool) = "") then mret (Some (ErrNew "invalid StoragePool, empty name or ns"))
  else
    spdkVer ← ReadStatus;
    got ← world (kGet (T := StoragePool) DefaultNamespace name);
    match got with
    | inl api => sync_existing spdkVer pool api
    | inr e =>
        if IsNotFound e then
          let pool := setPoolAttributes spdkVer pool in
          '(spec, err) ← world (getPoolSpec name);
          _ ← put_pool (sp_set_Spec spec pool);
          match err with
          | Some e => mret (Some e)
          | None => created ← world (kCreate (sp_set_Spec spec pool)); mret (error_of created)
          end
        else mret (Some e)
    end.

(** *** Status *)

(* [agent/sync/sync_storagepool.go:306-336] setStatusConditions *)
Definition setStatusConditions (current : SpdkStatus) (pool : StoragePool) : StoragePool :=
  let status := match ss_Error current with None => StatusOK | Some _ => StatusError end in
  let conds := spst_Conditions (sp_Status pool) in
  sp_set_conditions
    (if existsb (λ c, bool_decide (pc_Type c = PoolConditionSpkdHealth)) conds
     then (λ c, if decide (pc_Type c = PoolConditionSpkdHealth)
                then {| pc_Type := pc_Type c; pc_Status := status; pc_Message := pc_Message c |} else c) <$> conds
     else conds ++ [{| pc_Type := PoolConditionSpkdHealth; pc_Status := status; pc_Message := "" |}]) pool.
(* [agent/sync/sync_storagepool.go:338-358] setStatusVgFree *)
Definition setStatusVgFree (pool : StoragePool) : go W (StoragePool * option error) :=
  r ← pei_TotalAndFreeSize;
  mret (match r with
        | inr e => (pool, Some e)
        | inl (total, free) =>
            let st := sp_Status pool in
            (sp_set_Status (spst_set_Capacity (Some (<[ResourceDiskPoolByte := NewQuantity (wrap64 total)]> (default ∅ (spst_Capacity st))))
               (spst_set_VGFreeSize (NewQuantity (wrap64 free)) st)) pool, None)
        end).
Definition Quantity_Equal (a b : Quantity) : bool := bool_decide (Quantity_Cmp a b = 0%Z).
Definition disk_bytes (st : StoragePoolStatus) : Quantity := default Quantity_zero (map_get (spst_Capacity st) ResourceDiskPoolByte).
(** The server's status after the fields that are reported were replaced. *)
(* [agent/sync/sync_storagepool.go:275-288] PoolSyncer.updatePoolStatus, the status *)
Definition reported (real api : StoragePoolStatus) : StoragePoolStatus :=
  spst_set_Capacity (Some (<[ResourceDiskPoolByte := disk_bytes real]> (default ∅ (spst_Capacity api))))
    (spst_set_VGFreeSize (spst_VGFreeSize real) (spst_set_Conditions (spst_Conditions real) api)).
(** Whether conditions and sizes are the same. *)
(* [agent/sync/sync_storagepool.go:279-281] PoolSyncer.updatePoolStatus, the comparison *)
Definition status_current (real api : StoragePoolStatus) : bool :=
  bool_decide (spst_Conditions real = spst_Conditions api) && Quantity_Equal (spst_VGFreeSize real) (spst_VGFreeSize api) &&
  Quantity_Equal (disk_bytes real) (disk_bytes api).
(* [agent/sync/sync_storagepool.go:251-304] PoolSyncer.updatePoolStatus *)
Definition updatePoolStatus : go PS (option error) :=
  pool ← get_pool;
  current ← get_current;
  '(pool, errVG) ← world (setStatusVgFree (setStatusConditions current pool));
  _ ← put_pool pool;
  let real := sp_Status pool in
  got ← world (kGet (T := StoragePool) DefaultNamespace (om_Name (sp_meta pool)));
  match got with
  | inr e => mret (Some e)
  | inl api =>
      let st := match errVG with
                | Some e => if errors_Is e PvLostErr then setLvmCondition StatusError (error_msg e) (sp_Status api)
                            else setLvmCondition StatusOK "" (sp_Status api)
                | None => setLvmCondition StatusOK "" (sp_Status api)
                end in
      if status_current real st then mret None
      else
        latest ← world (kUpdateStatus (sp_set_Status (reported real st) api));
        match latest with
        | inr e => mret (Some e)
        | inl latestPool => _ ← put_pool (sp_set_Status (sp_Status latestPool) pool); mret None
        end
  end.

(** One turn of the loop; it ends with the last event. *)
Inductive PoolEvent := EvPool | EvStatus | EvSpdk (ev : ChangedStatusPayload) | EvQuit.
(* [agent/sync/sync_storagepool.go:71-112] PoolSyncer.syncPoolIteration *)
Definition syncPoolIteration (ev : PoolEvent) : go PS bool :=
  match ev with
  | EvPool => _ ← syncPool; mret false
  | EvStatus => _ ← updatePoolStatus; mret false
  | EvSpdk p => if decide (ss_Error (csp_Current p) ≠ ss_Error (csp_Last p) ∧ ss_Error (csp_Current p) = None)
                then _ ← updatePoolStatus; mret false else mret false
  | EvQuit => mret true
  end.
End pool_sync.

(** ** The loops' work queues *)

Inductive SyncQueueAction :=
| SQForget (key : string)
| SQAddAfter (key : string) (d : Z)
| SQAddRateLimited (key : string)
| SQDone (key : option string).
(** A key of a loop's queue; what is not a string is only dropped. *)
(* [agent/sync/sync_loop.go:95-136] SyncLoop.processNextItem *)
Definition processNextItem {S} (SyncFn : string → go S (option error)) (numRequeues : string → Z) (key : option string) :
    go S (list SyncQueueAction) :=
  match key with
  | Some key =>
      err ← SyncFn key;
      mret (match err with
            | None => [SQForget key; SQDone (Some key)]
            | Some _ => if decide (5 < numRequeues key)%Z then [SQAddAfter key (30 * Second); SQDone (Some key)]
                        else [SQAddRateLimited key; SQDone (Some key)]
            end)
  | None => mret [SQDone None]
  end.

(** A key whose handler fails comes back, at most half a minute after the backoff
    of six tries is used up; one that succeeds starts afresh. *)
Lemma processNextItem_keeps {S} (f : string → go S (option error)) n key s acts s' :
  processNextItem f n (Some key) s = Ret acts s' →
  ∃ err, f key s = Ret err s' ∧ SQDone (Some key) ∈ acts ∧ (err = None ↔ SQForget key ∈ acts) ∧
    (err ≠ None ↔ SQAddRateLimited key ∈ acts ∨ SQAddAfter key (30 * Second) ∈ acts).
Proof.
  unfold processNextItem, mbind, go_mbind, go_bind. destruct (f key s) as [err s1|]; [|done]. intros [= <- <-]. exists err. split; [done|].
  destruct err as [e|]; [|set_solver]. destruct (decide (5 < n key)%Z); set_solver.
Qed.

(** ** What the server learns of the pool *)

Section pool_sync_spec.
Context {L : K8sLib} {HL : K8sLaws L} {W : Type} {E : PoolEngineIface W} {KP : KubeClient W StoragePool} {HK : StoreLaws KP}.
Context (spdk_Version : go W (string * option error)) (node_Get : string → go W (result KNode)).
Context (poolingName : string) (NodeKeys : NodeInfoKeys) (HostNQNValue : string).
Abbreviation sync := (syncPool spdk_Version node_Get poolingName NodeKeys HostNQNValue).
Implicit Types (s : PoolService) (w : W) (api : StoragePool).

(** During the call the part [m] answers [a], and touches no pool on the server. *)
Definition says {A} (m : go W A) (a : A) : Prop := ∀ w, ∃ w', m w = Ret a w' ∧ sl_view w' = sl_view w.
(** The server has the pool of the service, and it is not being deleted. *)
Record pool_there s api w : Prop := {
pt_name : om_Name (sp_meta (psv_pool s)) ≠ "";
pt_ns : om_Namespace (sp_meta (psv_pool s)) = DefaultNamespace;
pt_key : sp_key api = (DefaultNamespace, om_Name (sp_meta (psv_pool s)));
pt_view : sl_view w !! sp_key api = Some api;
pt_live : om_DeletionTimestamp (sp_meta api) = None;
}.

(** The spec of the pool from what engine and node say: zero when one fails. *)
Definition told_spec (info : StaticInfo * option error) (node : result KNode) (name : string) : StoragePoolSpec :=
  match info.2, node with
  | None, inl n =>
      let node := {| ni_ID := name; ni_Hostname := bn_Hostname (FromLabels NodeKeys (kn_Labels n)); ni_Labels := kn_Labels n;
        ni_IP := if decide (bn_IP (FromLabels NodeKeys (kn_Labels n)) = "")
                 then foldl (λ ip item, if decide (item.1 = NodeInternalIP) then item.2 else ip) "" (kn_Addresses n)
                 else bn_IP (FromLabels NodeKeys (kn_Labels n)) |} in
      {| sps_KernelLVM := default KernelLVM_zero (si_LVM info.1); sps_SpdkLVStore := default SpdkLVStore_zero (si_LVS info.1);
         sps_Addresses := [{| na_Type := NodeInternalIP; na_Address := ni_IP node |}]; sps_NodeInfo := node |}
  | _, _ => StoragePoolSpec_zero
  end.
Definition told_error (info : StaticInfo * option error) (node : result KNode) : option error :=
  match info.2 with Some e => Some e | None => match node with inl _ => None | inr e => Some e end end.

Lemma getPoolSpec_says info node name w : says (pei_PoolInfo poolingName) info → says (node_Get name) node →
  ∃ w', getPoolSpec node_Get poolingName NodeKeys name w = Ret (told_spec info node name, told_error info node) w' ∧ sl_view w' = sl_view w.
Proof.
  intros Hi Hn. unfold getPoolSpec, GetByNodeID, told_spec, told_error. destruct (Hi w) as (w1 & E1 & V1). destruct info as [info [e|]].
  { exists w1. rewrite (go_bind_Ret _ _ _ _ _ E1). by split. }
  rewrite (go_bind_Ret _ _ _ _ _ E1). destruct (Hn w1) as (w2 & E2 & V2). exists w2.
  unfold mbind, go_mbind, go_bind. rewrite E2. destruct node as [n|e]; cbn; (split; [done|congruence]).
Qed.

(** Evaluates the calls up to the next one of the world. *)
#[local] Ltac run := go_simpl; cbn beta iota; cbn [fst snd psv_pool psv_current].

(** C23. After a synchronisation the pool on the server has the spec that engine
    and node told and the merged annotations; its labels, status and every other
    pool are as before. When the engine or the node fails, though, that spec is
    the zero one: the node, the addresses and the volume group of the pool are
    erased on the server, and unless they were already, no error is returned. *)
Theorem syncPool_publishes s api w ver info node : pool_there s api w →
  says spdk_Version ver → says (pei_PoolInfo poolingName) info → says (node_Get (om_Name (sp_meta (psv_pool s)))) node →
  let annos := merge_annotations HostNQNValue {| ss_SpdkVersion := ver.1; ss_Error := ver.2 |} (psv_pool s) api in
  let spec := told_spec info node (om_Name (sp_meta (psv_pool s))) in
  let api' := sp_set_Spec spec (sp_set_meta (om_set_Annotations annos (sp_meta api)) api) in
  ∃ r s' w', sync (s, w) = Ret r (s', w') ∧ sl_view w' = <[sp_key api := api']> (sl_view w) ∧
    sp_Spec (psv_pool s') = spec ∧
    (told_error info node ≠ None → spec = StoragePoolSpec_zero ∧ (sp_Spec api ≠ StoragePoolSpec_zero → r = None)) ∧
    (told_error info node = None → r = None).
Proof.
  intros Hp Hv Hi Hn annos spec api'. unfold sync, syncPool, ReadStatus, world, get_pool, put_pool, gmodify, on_snd.
  unfold mbind, go_mbind, go_bind. cbn [fst snd].
  rewrite decide_False by (intros [|Hns]; [by destruct (pt_name _ _ _ Hp)|by rewrite (pt_ns _ _ _ Hp) in Hns]).
  cbn [fst snd]. destruct (Hv w) as (w1 & E1 & V1). rewrite E1. destruct ver as [ver verr]. cbn [fst snd psv_pool] in *.
  destruct (sl_get DefaultNamespace (om_Name (sp_meta (psv_pool s))) w1 api) as (w2 & E2 & V2).
  { rewrite V1, <- (pt_key _ _ _ Hp). apply Hp. }
  run. rewrite E2. unfold sync_existing, world, put_pool, gmodify, on_snd, mbind, go_mbind, go_bind. cbn [fst snd].
  destruct (getPoolSpec_says info node (om_Name (sp_meta (psv_pool s))) w2 Hi Hn) as (w3 & E3 & V3). run. rewrite E3. run.
  fold spec annos.
  assert (told_error info node ≠ None → spec = StoragePoolSpec_zero) as Hz.
  { unfold told_error, spec, told_spec. destruct info as [? [e|]]; [done|]. cbn. by destruct node. }
  set (st := match told_error info node with Some _ => _ | None => _ end).
  destruct (decide (annos = om_Annotations (sp_meta api) ∧ spec = sp_Spec api)) as [[Ha Hs]|Hdiff].
  - do 3 eexists. split; [reflexivity|]. split.
    + cbn [snd]. rewrite V3, V2, V1. symmetry. apply insert_id. rewrite (pt_view _ _ _ Hp). f_equal. unfold api'.
      rewrite Ha, Hs. by destruct api as [[] ? ?].
    + split; [done|]. split; [|done]. intros Ht. specialize (Hz Ht). split; [done|]. intros []. congruence.
  - set (o := {| sp_meta := om_set_Annotations annos (sp_meta api); sp_Spec := spec; sp_Status := st |}).
    destruct (sl_update o w3 api) as (w4 & E4 & V4).
    { rewrite V3, V2, V1. apply Hp. }
    run. rewrite E4. run. do 3 eexists. split; [reflexivity|]. cbn [snd fst error_of]. split; [|split; [done|split; [auto|done]]].
    rewrite V4, V3, V2, V1. unfold store_put, ko_gone. cbn. rewrite (pt_live _ _ _ Hp). done.
Qed.

(** *** The status *)

Definition spdk_cond (c : PoolCondition) : Prop := pc_Type c = PoolConditionSpkdHealth.
Definition spdk_word (current : SpdkStatus) : string := match ss_Error current with None => StatusOK | Some _ => StatusError end.

Lemma setLvm_others status msg st c : pc_Type c ≠ PoolConditionLvmHealth →
  c ∈ spst_Conditions (setLvmCondition status msg st) ↔ c ∈ spst_Conditions st.
Proof.
  intros Hc. cbn. rewrite list_elem_of_fmap. split.
  - intros (x & -> & Hx). destruct (decide (pc_Type x = PoolConditionLvmHealth)); [done|exact Hx].
  - intros Hx. exists c. rewrite decide_False by done. done.
Qed.
(** After [setStatusConditions] every SPDK condition is the current one, and there is one. *)
Lemma setStatusConditions_spdk current pool : let conds := spst_Conditions (sp_Status (setStatusConditions current pool)) in
  (∃ c, c ∈ conds ∧ spdk_cond c) ∧ (∀ c, c ∈ conds → spdk_cond c → pc_Status c = spdk_word current).
Proof.
  unfold setStatusConditions, spdk_cond, spdk_word. cbn [sp_Status sp_set_conditions sp_set_Status spst_Conditions spst_set_Conditions].
  set (conds := spst_Conditions (sp_Status pool)). destruct (existsb _ conds) eqn:Ex.
  - apply existsb_exists in Ex as (x & Hx & Ht). apply bool_decide_eq_true in Ht. apply list_elem_of_In in Hx. split.
    + eexists. split; [apply list_elem_of_fmap_2, Hx|]. by rewrite decide_True.
    + intros c (y & -> & Hy)%list_elem_of_fmap. destruct (decide (pc_Type y = PoolConditionSpkdHealth)); [by destruct (ss_Error current)|done].
  - split.
    + eexists. split; [apply elem_of_app; right; by left|done].
    + intros c [Hc|Hc]%elem_of_app Ht.
      * exfalso. assert (existsb (λ c, bool_decide (pc_Type c = PoolConditionSpkdHealth)) conds = true); [|congruence].
        apply existsb_exists. exists c. split; [by apply list_elem_of_In|by apply bool_decide_eq_true].
      * apply list_elem_of_singleton in Hc as ->. by destruct (ss_Error current).
Qed.
Lemma Quantity_Equal_spec a b : Quantity_Equal a b = true ↔ quantity_nano a = quantity_nano b.
Proof.
  unfold Quantity_Equal. rewrite bool_decide_eq_true, nano_cmp.
  destruct (Z.compare_spec (quantity_nano a) (quantity_nano b)); split; intros; try done; lia.
Qed.

Lemma status_write s api w w2 st : pool_there s api w → sl_view w2 = sl_view w →
  ∃ latest w3, kUpdateStatus (sp_set_Status st api) w2 = Ret (inl latest) w3 ∧ sl_view w3 = <[sp_key api := sp_set_Status st api]> (sl_view w).
Proof.
  intros Hp V. destruct (sl_update_status (sp_set_Status st api) w2 api) as (w3 & E3 & V3); [rewrite V; apply Hp|].
  do 2 eexists. split; [exact E3|]. rewrite V3, V. unfold store_put, ko_gone. cbn. rewrite (pt_live _ _ _ Hp). by destruct api.
Qed.
(** What the server has after a report: conditions and sizes are the local ones. *)
Lemma updatePoolStatus_run s api w sizes : pool_there s api w → says pei_TotalAndFreeSize sizes →
  let pool := match sizes with
    | inl (t, f) => let p := setStatusConditions (psv_current s) (psv_pool s) in
        sp_set_Status (spst_set_Capacity (Some (<[ResourceDiskPoolByte := NewQuantity (wrap64 t)]> (default ∅ (spst_Capacity (sp_Status p)))))
          (spst_set_VGFreeSize (NewQuantity (wrap64 f)) (sp_Status p))) p
    | inr _ => setStatusConditions (psv_current s) (psv_pool s) end in
  let st := match sizes with
    | inr e => if errors_Is e PvLostErr then setLvmCondition StatusError (error_msg e) (sp_Status api) else setLvmCondition StatusOK "" (sp_Status api)
    | inl _ => setLvmCondition StatusOK "" (sp_Status api) end in
  ∃ s' w', updatePoolStatus (s, w) = Ret None (s', w') ∧
    sl_view w' = if status_current (sp_Status pool) st then sl_view w
                 else <[sp_key api := sp_set_Status (reported (sp_Status pool) st) api]> (sl_view w).
Proof.
  intros Hp Ht pool st. unfold updatePoolStatus, world, get_pool, get_current, put_pool, setStatusVgFree, on_snd.
  run. destruct (Ht w) as (w1 & E1 & V1). rewrite E1.
  destruct (sl_get DefaultNamespace (om_Name (sp_meta (psv_pool s))) w1 api) as (w2 & E2 & V2).
  { rewrite V1, <- (pt_key _ _ _ Hp). apply Hp. }
  rewrite V1 in V2. subst pool st. destruct sizes as [[t f]|e]; run;
  (match goal with |- context [kGet DefaultNamespace ?n w1] =>
    change (kGet DefaultNamespace n w1) with (kGet DefaultNamespace (om_Name (sp_meta (psv_pool s))) w1) end); rewrite E2; run;
  (destruct (status_current _ _); [do 2 eexists; split; [reflexivity|exact V2]|]); run;
  (match goal with |- context [kUpdateStatus (sp_set_Status ?x api) w2] =>
    destruct (status_write s api w w2 x Hp V2) as (latest & w3 & E3 & V3) end); rewrite E3; run;
  (do 2 eexists; split; [reflexivity|exact V3]).
Qed.

Lemma Quantity_bytes_nano q n : is_int64 n → quantity_nano q = (n * 1000000000)%Z → Quantity_bytes q = n.
Proof. intros Hn Hq. unfold Quantity_bytes. by rewrite (nano_as_int64 q n). Qed.
Lemma disk_bytes_set q st m : disk_bytes (spst_set_Capacity (Some (<[ResourceDiskPoolByte := q]> m)) st) = q.
Proof. unfold disk_bytes. cbn. by rewrite lookup_insert_eq. Qed.

(** After a report the server's pool shows the truth: the free and the total
    bytes the engine told, with which the manager schedules, and the SPDK
    condition last seen; its metadata, spec and the manager's status text, and
    every other pool, are as before. *)
Lemma updatePoolStatus_reports s api w t f : pool_there s api w → says pei_TotalAndFreeSize (inl (t, f)) →
  is_int64 t → is_int64 f →
  ∃ s' w' api', updatePoolStatus (s, w) = Ret None (s', w') ∧ sl_view w' = <[sp_key api := api']> (sl_view w) ∧
    sp_meta api' = sp_meta api ∧ sp_Spec api' = sp_Spec api ∧ spst_Status (sp_Status api') = spst_Status (sp_Status api) ∧
    GetVgFreeBytes api' = f ∧ Quantity_bytes (disk_bytes (sp_Status api')) = t ∧
    (∃ c, c ∈ spst_Conditions (sp_Status api') ∧ spdk_cond c) ∧
    (∀ c, c ∈ spst_Conditions (sp_Status api') → spdk_cond c → pc_Status c = spdk_word (psv_current s)).
Proof.
  intros Hp Ht H1 H2. destruct (updatePoolStatus_run s api w _ Hp Ht) as (s' & w' & Hrun & Hview).
  pose proof (setStatusConditions_spdk (psv_current s) (psv_pool s)) as [Hsome Hall].
  set (pool := sp_set_Status _ _) in Hview. set (st := setLvmCondition _ _ _) in Hview.
  assert (Quantity_bytes (spst_VGFreeSize (sp_Status pool)) = f ∧ Quantity_bytes (disk_bytes (sp_Status pool)) = t) as [Hf Htot].
  { unfold pool. cbn [sp_Status sp_set_Status]. rewrite disk_bytes_set. cbn [spst_VGFreeSize spst_set_VGFreeSize spst_set_Capacity].
    rewrite !wrap64_id by done. split; (apply Quantity_bytes_nano; [done|apply nano_new]). }
  assert (spst_Conditions (sp_Status pool) = spst_Conditions (sp_Status (setStatusConditions (psv_current s) (psv_pool s)))) as Hc by done.
  exists s', w'. destruct (status_current (sp_Status pool) st) eqn:Hcur.
  - exists api. split; [done|]. split; [rewrite Hview; symmetry; apply insert_id, Hp|].
    unfold status_current in Hcur. apply andb_true_iff in Hcur as [Hcur Ht3]. apply andb_true_iff in Hcur as [Hce Hfe].
    apply bool_decide_eq_true in Hce. apply Quantity_Equal_spec in Hfe, Ht3.
    assert (∀ c, spdk_cond c → c ∈ spst_Conditions (sp_Status (setStatusConditions (psv_current s) (psv_pool s))) ↔ c ∈ spst_Conditions (sp_Status api)) as Hiff.
    { intros c Hs. rewrite <- Hc, Hce. apply setLvm_others. by rewrite Hs. }
    split; [done|]. split; [done|]. split; [done|].
    change (spst_VGFreeSize st) with (spst_VGFreeSize (sp_Status api)) in Hfe. change (disk_bytes st) with (disk_bytes (sp_Status api)) in Ht3.
    assert (quantity_nano (spst_VGFreeSize (sp_Status pool)) = f * 1000000000)%Z as N1 by (cbn; rewrite wrap64_id by done; apply nano_new).
    assert (quantity_nano (disk_bytes (sp_Status pool)) = t * 1000000000)%Z as N2.
    { unfold pool. cbn [sp_Status sp_set_Status]. rewrite disk_bytes_set, wrap64_id by done. apply nano_new. }
    split; [apply Quantity_bytes_nano; [done|congruence]|]. split; [apply Quantity_bytes_nano; [done|congruence]|]. split.
    + destruct Hsome as (c & Hin & Hs). exists c. split; [by apply Hiff|done].
    + intros c Hin Hs. apply Hall; [by apply Hiff|done].
  - eexists. split; [done|]. split; [exact Hview|]. cbn [sp_meta sp_Spec sp_Status sp_set_Status].
    split; [done|]. split; [done|]. split; [done|]. unfold reported, GetVgFreeBytes. cbn [sp_Status].
    rewrite disk_bytes_set. split; [exact Hf|]. split; [exact Htot|]. by split.
Qed.

(** A lost physical volume is never reported: when the service's copy of the
    status is the server's, its SPDK condition is the current one, and the engine
    fails because a physical volume is lost, the report succeeds and the
    conditions on the server stay what they were, whatever they say of LVM. The
    manager's lock plugin waits for exactly that condition. *)
Lemma lost_pv_unreported s api w e : pool_there s api w → says pei_TotalAndFreeSize (inr e) →
  errors_Is e PvLostErr = true → sp_Status (psv_pool s) = sp_Status api →
  setStatusConditions (psv_current s) (psv_pool s) = psv_pool s →
  ∃ s' w' api', updatePoolStatus (s, w) = Ret None (s', w') ∧ sl_view w' = <[sp_key api := api']> (sl_view w) ∧
    spst_Conditions (sp_Status api') = spst_Conditions (sp_Status api).
Proof.
  intros Hp Ht He Hstep Hspdk. destruct (updatePoolStatus_run s api w _ Hp Ht) as (s' & w' & Hrun & Hview).
  rewrite He, Hspdk, Hstep in Hview. exists s', w'. destruct (status_current _ _).
  - exists api. split; [done|]. split; [rewrite Hview; symmetry; apply insert_id, Hp|done].
  - eexists. split; [done|]. split; [exact Hview|]. done.
Qed.
End pool_sync_spec.

(** *** Evaluations *)

Module PoolMem.
#[export] Existing Instance NanoLib.
Definition Node : Type := MemStore StoragePool.
Definition lvm : KernelLVM := {| klvm_Name := "vg"; klvm_VgUUID := "u"; klvm_Bytes := 107374182400; klvm_ExtendSize := 4194304;
  klvm_ExtendCount := 25600; klvm_PVCount := 1; klvm_ReservedLVol := [] |}.
Definition info : StaticInfo := {| si_LVM := Some lvm; si_LVS := None |}.
(** An engine that works, and one whose volume group lost a device. *)
Definition engine (a : StaticInfo * option error) (sizes : result (Z * Z)) : PoolEngineIface Node := {|
  pei_PoolInfo _ := mret a; pei_TotalAndFreeSize := mret sizes; pei_CreateVolume _ := mret (inr (ErrNew ""));
  pei_DeleteVolume _ := mret None; pei_GetVolume _ := mret (inr (ErrNew "")); pei_CreateSnapshot _ := mret None;
  pei_RestoreSnapshot _ := mret None; pei_ExpandVolume _ := mret None |}.
Definition lost : error := ErrWrap "LVM_PV_LOST stderr=" PvLostErr.
Definition version : go Node (string * option error) := mret ("v22", None).
Definition node : KNode := {| kn_Labels := Some {[ K8SLabelKeyHostname := "host-1" ]}; kn_Addresses := [(NodeInternalIP, "10.0.0.1")] |}.
Definition nodes (name : string) : go Node (result KNode) := mret (inl node).
Definition keys : NodeInfoKeys := SetNodeInfoDefaults {| nk_IP := ""; nk_Hostname := ""; nk_Rack := ""; nk_Room := "" |}.
Definition meta : ObjectMeta := {| om_Name := "node-1"; om_Namespace := DefaultNamespace; om_UID := ""; om_CreationTimestamp := 0;
  om_DeletionTimestamp := None; om_Labels := None; om_Annotations := None; om_OwnerReferences := []; om_Finalizers := [] |}.
Definition status : StoragePoolStatus (L := NanoLib) := {| spst_Capacity := None; spst_VGFreeSize := NewQuantity 0;
  spst_Conditions := [{| pc_Type := PoolConditionSpkdHealth; pc_Status := StatusOK; pc_Message := "" |};
                      {| pc_Type := PoolConditionLvmHealth; pc_Status := StatusOK; pc_Message := "" |}];
  spst_Status := "ready"; spst_Message := "" |}.
Definition api : StoragePool := {| sp_meta := meta; sp_Spec := sps_set_KernelLVM lvm StoragePoolSpec_zero; sp_Status := status |}.
Definition service : PoolService := {| psv_pool := {| sp_meta := meta; sp_Spec := StoragePoolSpec_zero; sp_Status := status |};
  psv_current := {| ss_SpdkVersion := "v22"; ss_Error := None |} |}.
Definition server : Node := {[ (DefaultNamespace, "node-1") := api ]}.
Lemma there : pool_there service api server.
Proof. split; [discriminate|reflexivity|reflexivity|apply lookup_singleton_eq|reflexivity]. Qed.
Lemma says_mret {A} (a : A) : says (HK := MemLaws) (mret a : go Node A) a.
Proof. intros w. by exists w. Qed.
End PoolMem.
Import PoolMem.

Lemma syncPool_publishes_witness : ∃ r s' w' p,
  syncPool (E := engine (info, Some lost) (inr lost)) version nodes "vg" keys "" (service, server) = Ret r (s', w') ∧ r = None ∧
  w' !! (DefaultNamespace, "node-1") = Some p ∧ sp_Spec p = StoragePoolSpec_zero.
Proof.
  destruct (syncPool_publishes (E := engine (info, Some lost) (inr lost)) version nodes "vg" keys "" service api server
    ("v22", None) (info, Some lost) (inl node)) as (r & s' & w' & Hrun & Hview & _ & Hfail & _).
  - exact there.
  - apply says_mret.
  - apply says_mret.
  - apply says_mret.
  - exists r, s', w'. eexists. split; [exact Hrun|]. split.
    + apply Hfail; [vm_compute; discriminate|vm_compute; discriminate].
    + cbn in Hview. split; [rewrite Hview; apply lookup_insert_eq|reflexivity].
Defined.
Lemma updatePoolStatus_reports_witness : ∃ s' w' p,
  updatePoolStatus (E := engine (info, None) (inl (107374182400, 53687091200)%Z)) (service, server) = Ret None (s', w') ∧
  w' !! (DefaultNamespace, "node-1") = Some p ∧ GetVgFreeBytes p = 53687091200%Z.
Proof.
  destruct (updatePoolStatus_reports (E := engine (info, None) (inl (107374182400, 53687091200)%Z)) service api server
    107374182400 53687091200) as (s' & w' & p & Hrun & Hview & _ & _ & _ & Hfree & _).
  - exact there.
  - apply says_mret.
  - vm_compute. split; [discriminate|reflexivity].
  - vm_compute. split; [discriminate|reflexivity].
  - exists s', w', p. split; [exact Hrun|]. split; [|exact Hfree]. cbn in Hview. rewrite Hview. apply lookup_insert_eq.
Defined.
Lemma lost_pv_unreported_witness : ∃ s' w' p,
  updatePoolStatus (E := engine (info, Some lost) (inr lost)) (service, server) = Ret None (s', w') ∧
  w' !! (DefaultNamespace, "node-1") = Some p ∧ spst_Conditions (sp_Status p) = spst_Conditions status.
Proof.
  destruct (lost_pv_unreported (E := engine (info, Some lost) (inr lost)) service api server lost) as (s' & w' & p & Hrun & Hview & Hc).
  - exact there.
  - apply says_mret.
  - reflexivity.
  - reflexivity.
  - reflexivity.
  - exists s', w', p. split; [exact Hrun|]. split; [|exact Hc]. cbn in Hview. rewrite Hview. apply lookup_insert_eq.
Defined.
