(* ===== verification/PoolBuild.v ===== *)
(** * Building the pool of a node

    [pkg/agent/pool/builder.go] with [pkg/util/osutil]: when the agent starts it
    finds the volume group or the lvstore of its configuration, or makes it from
    devices, files, memory or the PCIe disks of the node. *)

From Stdlib Require Import ZArith Lia.
From stdpp Require Import base gmap strings option list.
From S2P Require Import Prelude Strconv Misc K8s Api Spdk SpdkBdev Lvm LvmEngine Engine Nvme DataControl PoolReconciler Mount.

(* [agent/config/storage.go:6-6] AioBdevType *)
Definition AioBdevType : string := "aioBdev".
(* [agent/config/storage.go:7-7] MemBdevType *)
Definition MemBdevType : string := "memBdev".
(* [agent/config/storage.go:8-8] RaidBdevType *)
Definition RaidBdevType : string := "raidBdev".
(* [agent/config/storage.go:51-59] LvmPV *)
Record LvmPV := { lp_DevicePath : string; lp_Size : Z; lp_FilePath : string; lp_CreateIfNotExist : bool }.
(* [agent/config/storage.go:61-71] SpdkBdev *)
Record SpdkBdev := { sb_Type : string; sb_Name : string; sb_Size : Z; sb_FilePath : string;
  sb_CreateIfNotExist : bool; sb_VfioPCIeKeyword : string }.
(* [agent/config/storage.go:46-49] Pooling *)
Record Pooling := { po_Mode : string; po_Name : string }.
(* [agent/config/storage.go:40-44] StorageStack *)
Record StorageStack := { stk_Pooling : Pooling; stk_PVs : list LvmPV; stk_Bdev : option SpdkBdev }.
(* [agent/pool/builder.go:20-22] defaultBlockSize *)
Definition defaultBlockSize : Z := 512.

(** ** Commands of the node *)

(** [ShellExec.ExecCmd] with what was printed even when it fails, and the calls
    on files that make one of a size. *)
Class NodeShell (W : Type) := {
  ns_ExecCmd : string → list string → go W (string * option error);
  ns_OpenTrunc : string → go W (option error);
  ns_Fallocate : string → Z → go W (option error);
  ns_Create : string → go W (option error);
  ns_Truncate : string → Z → go W (option error);
  ns_BdevMalloc : string → Z → Z → go W (option error);
}.

Section osutil.
Context {W : Type} {X : NodeShell W}.
Definition dquote : string := String (Ascii.ascii_of_nat 34) "".

(** A command whose output goes into the error. *)
Definition shell (sh cmd : string) : go W (result string) :=
  '(out, err) ← ns_ExecCmd sh ["-c"; cmd];
  mret (match err with Some e => inr (ErrNew (error_msg e +:+ out)) | None => inl out end).
Definition shell_unit (cmd : string) : go W (option error) :=
  r ← shell "sh" cmd; mret (match r with inl _ => None | inr e => Some e end).
(* [util/osutil/losetup.go:7-22] CreateLoopDevice *)
Definition CreateLoopDevice (devPath filePath : string) : go W (option error) :=
  '(_, err) ← ns_ExecCmd "losetup" [devPath; filePath]; mret err.
(** The error of a command that failed is read only when the name is missing. *)
(* [util/osutil/mod.go:24-33] KmodUtil.HasKmod *)
Definition HasKmod (name : string) : go W (option error) :=
  '(out, err) ← ns_ExecCmd "sh" ["-c"; "lsmod | grep " +:+ name];
  if str_contains out name then mret None
  else e ← deref "err" err; mret (Some (ErrNew (error_msg e +:+ out))).
(* [util/osutil/mod.go:35-44] KmodUtil.ProbeKmod *)
Definition ProbeKmod (name : string) : go W (option error) := shell_unit ("modprobe " +:+ name).
(* [util/osutil/pci.go:32-50] PCIUtil.ListNVMeID *)
Definition ListNVMeID : go W (result (list string)) :=
  r ← shell "bash" ("set -o pipefail; lspci -vv | grep 'Non-Volatile memory controller' | awk '{print " +:+ dquote +:+ "0000:" +:+ dquote +:+ "$1}'");
  mret (match r with
        | inr e => inr e
        | inl out => inl (filter (λ x, x ≠ "") (TrimSpace <$> Split newline out))
        end).
(* [util/osutil/pci.go:52-61] PCIUtil.UnbindNVMe *)
Definition UnbindNVMe (id driver : string) : go W (option error) :=
  shell_unit ("echo " +:+ dquote +:+ id +:+ dquote +:+ " > /sys/bus/pci/drivers/" +:+ driver +:+ "/unbind").
(* [util/osutil/pci.go:63-79] PCIUtil.GetNVMeTypeID *)
Definition GetNVMeTypeID (id : string) : go W (result string) :=
  r ← shell "sh" ("lspci -n -s " +:+ dquote +:+ id +:+ dquote +:+ " | awk '{print $3}'");
  mret (match r with inr e => inr e | inl out => inl (TrimSpace out) end).
(* [util/osutil/pci.go:81-92] PCIUtil.BindNVMeByType *)
Definition BindNVMeByType (tid driver : string) : go W (option error) :=
  shell_unit ("echo " +:+ dquote +:+ replace_first tid ":" " " +:+ dquote +:+ " > /sys/bus/pci/drivers/" +:+ driver +:+ "/new_id").
(* [util/osutil/pci.go:95-103] PCIUtil.CheckNVMeExistence *)
Definition CheckNVMeExistence (id driver : string) : go W (option error) :=
  '(out, err) ← ns_ExecCmd "ls" ["/sys/bus/pci/drivers/" +:+ driver +:+ "/" +:+ id];
  mret (match err with Some e => Some (ErrNew (error_msg e +:+ out)) | None => None end).
(* [util/osutil/pci.go:9-12] NVMeDriverName *)
Definition NVMeDriverName : string := "nvme".
Definition VfioPCIDriverName : string := "vfio-pci".
(** A file of a size, unless it is there. *)
(* [util/misc/file.go:52-67] CreateFallocateFile *)
Definition CreateFallocateFile {F : OsFiles W} (fpath : string) (sizeByte : Z) : go W (option error) :=
  '(has, errF) ← FileExists fpath;
  if has && negb (opt_is_some errF) then mret None
  else
    err ← ns_OpenTrunc fpath;
    match err with
    | Some e => mret (Some (ErrWrap ("open file failed: " +:+ error_msg e) e))
    | None => ns_Fallocate fpath sizeByte
    end.
End osutil.

Section builder.
Context {W : Type} {RPC : SpdkRpc W} {BR : BdevRpc W} {OS : OsFiles W} {X : NodeShell W} {G : LvmGroups W}.
Context {E : PoolEngineIface (SpdkService * W)}.
Abbreviation SM := (@SpdkM W).
Definition no_info : StaticInfo := {| si_LVM := None; si_LVS := None |}.
Definition failed (e : error) : SM (StaticInfo * option error) := mret (no_info, Some e).
(** [if err != nil { return }]. *)
Definition build_step {A} (m : SM (option error)) (k : SM (A + error)) : SM (A + error) :=
  err ← m; match err with Some e => mret (inr e) | None => k end.

(** ** A volume group *)

Definition format_bool (b : bool) : string := if b then "true" else "false".
(** A physical volume as [%+v] prints it. *)
Definition format_pv (path : string) (pv : LvmPV) : string :=
  "{DevicePath:" +:+ path +:+ " Size:" +:+ FormatUint (lp_Size pv) +:+ " FilePath:" +:+ lp_FilePath pv
  +:+ " CreateIfNotExist:" +:+ format_bool (lp_CreateIfNotExist pv) +:+ "}".
Definition loop_dev (idx : nat) : string := "/dev/loop" +:+ Itoa (Z.of_nat idx).
(** One physical volume: a device that is there, or a loop device over a file. *)
(* [agent/pool/builder.go:100-136] PoolBuilder.buildLVM, a physical volume *)
Definition prepare_pv (idx : nat) (pv : LvmPV) : SM (result string) :=
  let path := if decide (lp_DevicePath pv = "") then loop_dev idx else lp_DevicePath pv in
  '(has, _) ← rpc (FileExists path);
  if (has : bool) then mret (inl path)
  else if decide (lp_FilePath pv = "" ∨ lp_Size pv = 0%Z) then mret (inr (ErrNew ("invalid config of PV, " +:+ format_pv path pv)))
  else
    build_step (rpc (CreateFallocateFile (lp_FilePath pv) (wrap64 (lp_Size pv))))
      (build_step (rpc (CreateLoopDevice (loop_dev idx) (lp_FilePath pv))) (mret (inl (loop_dev idx)))).
Fixpoint prepare_pvs (idx : nat) (l : list LvmPV) : SM (result (list string)) :=
  match l with
  | [] => mret (inl [])
  | pv :: rest =>
      r ← prepare_pv idx pv;
      match r with
      | inr e => mret (inr e)
      | inl path => r ← prepare_pvs (S idx) rest; mret (match r with inl ps => inl (path :: ps) | inr e => inr e end)
      end
  end.
(* [agent/pool/builder.go:86-167] PoolBuilder.buildLVM *)
Definition buildLVM (cfg : StorageStack) : SM (StaticInfo * option error) :=
  '(info, err) ← pei_PoolInfo (po_Name (stk_Pooling cfg));
  match err with
  | None => mret (info, None)
  | Some e =>
      if errors_Is e ErrNotFoundVG then
        pvs ← prepare_pvs 0 (stk_PVs cfg);
        match pvs with
        | inr e => mret (info, Some e)
        | inl [] => mret (info, Some (ErrNew "no PVs to create vg"))
        | inl pvs =>
            err ← rpc (lg_CreatePV pvs);
            match err with
            | Some e => mret (info, Some e)
            | None =>
                vg ← rpc (lg_CreateVG (po_Name (stk_Pooling cfg)) pvs);
                match vg with
                | inr e => mret (info, Some e)
                | inl _ => pei_PoolInfo (po_Name (stk_Pooling cfg))
                end
            end
        end
      else mret (info, Some e)
  end.

(** ** An lvstore *)

(* [agent/pool/builder.go:175-184] PoolBuilder.buildSpdkLVS, the pool *)
Definition lvs_info (lvs : LVStoreInfo) : StaticInfo := {|
  si_LVM := None;
  si_LVS := Some {| lvst_Name := lvsi_Name lvs; lvst_UUID := lvsi_UUID lvs; lvst_BaseBdev := lvsi_BaseBdev lvs;
    lvst_Bytes := uwrap64 (wrap64 (lvsi_ClusterSize lvs * lvsi_TotalDataClusters lvs));
    lvst_ClusterSize := lvsi_ClusterSize lvs; lvst_TotalDataCluster := lvsi_TotalDataClusters lvs;
    lvst_BlockSize := lvsi_BlockSize lvs |} |}.
(** Whether the query says that there is no such device; otherwise its error
    stays the result. *)
(* [agent/pool/builder.go:231-267] PoolBuilder.buildLvsAioBdev *)
Definition buildLvsAioBdev (b : SpdkBdev) : SM (option error) :=
  r ← svc_BdevGetBdevs (sb_Name b);
  match r with
  | inl _ => mret None
  | inr e =>
      if IsNotFoundDeviceError e then
        st ← rpc (os_Stat (sb_FilePath b));
        made ← (match st with
                | Some (true, _) =>
                    err ← rpc (ns_Create (sb_FilePath b));
                    match err with
                    | Some e => mret (inr e)
                    | None => err ← rpc (ns_Truncate (sb_FilePath b) (wrap64 (sb_Size b)));
                              mret (match err with Some e => inr e | None => inl None end)
                    end
                | _ => mret (inl (Some e))
                end);
        match (made : result (option error)) with
        | inr e => mret (Some e)
        | inl err =>
            _ ← CreateAioBdev {| abc_BdevName := sb_Name b; abc_DevPath := sb_FilePath b; abc_BlockSize := defaultBlockSize |};
            mret err
        end
      else mret (Some e)
  end.
(* [spdk/service_malloc.go:16-26] SpdkService.CreateMemBdev *)
Definition CreateMemBdev (name : string) (blockSize numBlocks : Z) : SM (option error) :=
  with_client Some (rpc (ns_BdevMalloc name blockSize numBlocks)).
(* [agent/pool/builder.go:269-297] PoolBuilder.buildLvsMemBdev *)
Definition buildLvsMemBdev (b : SpdkBdev) : SM (option error) :=
  r ← svc_BdevGetBdevs (sb_Name b);
  match r with
  | inl _ => mret None
  | inr e =>
      if IsNotFoundDeviceError e then
        let blocks := (sb_Size b / defaultBlockSize)%Z in
        if decide (blocks = 0%Z) then
          mret (Some (ErrNew ("invalid bdev size: " +:+ FormatUint (sb_Size b) +:+ ", should be bigger than block size 512 byte")))
        else CreateMemBdev (sb_Name b) defaultBlockSize blocks
      else mret (Some e)
  end.
(** A kernel module is loaded unless it is there. *)
(* [agent/pool/builder.go:301-308] PoolBuilder.buildLvsRaidBdev, a module *)
Definition ensure_kmod (has probe : string) : SM (option error) :=
  err ← rpc (HasKmod has);
  match err with Some _ => rpc (ProbeKmod probe) | None => mret None end.
(* [agent/pool/builder.go:327-339] PoolBuilder.buildLvsRaidBdev, unbinding *)
Fixpoint unbind_all (ids : list string) : SM (option error) :=
  match ids with
  | [] => mret None
  | id :: rest =>
      there ← rpc (CheckNVMeExistence id NVMeDriverName);
      match there with
      | Some _ => unbind_all rest
      | None => err ← rpc (UnbindNVMe id NVMeDriverName); match err with Some e => mret (Some e) | None => unbind_all rest end
      end
  end.
(* [agent/pool/builder.go:299-381] PoolBuilder.buildLvsRaidBdev *)
Definition buildLvsRaidBdev : SM (StaticInfo * option error) :=
  err ← ensure_kmod "vfio_pci" "vfio-pci";
  match err with Some e => failed e | None =>
  err ← ensure_kmod "vfio_iommu_type1" "vfio_iommu_type1";
  match err with Some e => failed e | None =>
  ids ← rpc ListNVMeID;
  match ids with
  | inr e => failed e
  | inl ids =>
      bound ← (match ids with
               | [] => mret None
               | first :: _ =>
                   err ← unbind_all ids;
                   match err with Some e => mret (Some e) | None =>
                   tid ← rpc (GetNVMeTypeID first);
                   match tid with inr e => mret (Some e) | inl tid => rpc (BindNVMeByType tid VfioPCIDriverName) end
                   end
               end);
      match bound with
      | Some e => failed e
      | None =>
          '(lvs, err) ← CreateLVStoreFromNVMeIDs ids;
          match err with Some e => failed e | None => mret (lvs_info lvs, None) end
      end
  end end end.
(* [agent/pool/builder.go:169-229] PoolBuilder.buildSpdkLVS *)
Definition buildSpdkLVS (cfg : StorageStack) : SM (StaticInfo * option error) :=
  b ← deref "Bdev" (stk_Bdev cfg);
  '(lvs, err) ← GetLVStore (sb_Name b);
  let create :=
    '(lvs, err) ← CreateLVStore {| clr_BdevName := sb_Name b; clr_LVStoreName := po_Name (stk_Pooling cfg) |};
    match err with Some e => failed e | None => mret (lvs_info lvs, None) end in
  match err with
  | None => mret (lvs_info lvs, None)
  | Some e =>
      if IsNotFoundDeviceError e then
        if decide (sb_Type b = RaidBdevType) then buildLvsRaidBdev
        else
          err ← (if decide (sb_Type b = AioBdevType) then buildLvsAioBdev b
                 else if decide (sb_Type b = MemBdevType) then buildLvsMemBdev b
                 else mret (Some (ErrNew ("not supported bdev type " +:+ sb_Type b))));
          match err with Some e => failed e | None => create end
      else create
  end.
(* [agent/pool/builder.go:73-84] PoolBuilder.Build *)
Definition Build (mode : string) (cfg : StorageStack) : SM (StaticInfo * option error) :=
  if decide (mode = PoolModeKernelLVM) then buildLVM cfg
  else if decide (mode = PoolModeSpdkLVStore) then buildSpdkLVS cfg
  else failed (ErrNew ("invalid agent Mode " +:+ mode)).
End builder.

(** ** What building does *)

Section builder_spec.
Context {W : Type} {RPC : SpdkRpc W} {BR : BdevRpc W} {OS : OsFiles W} {X : NodeShell W} {G : LvmGroups W}.
Context {E : PoolEngineIface (SpdkService * W)} {N : NvmeExec W} {GL : GroupLaws G N}.
Implicit Types (st : SpdkService * W) (cfg : StorageStack).

(** A volume group that is there is taken as it is: no other command runs. *)
Lemma buildLVM_found cfg st info st' :
  pei_PoolInfo (po_Name (stk_Pooling cfg)) st = Ret (info, None) st' → buildLVM cfg st = Ret (info, None) st'.
Proof. intros H. unfold buildLVM. by rewrite (go_bind_Ret _ _ _ _ _ H). Qed.

(** Every physical volume is the configured device, or the loop device of its place. *)
Lemma prepare_pv_path idx pv st path st' : prepare_pv idx pv st = Ret (inl path) st' →
  path = lp_DevicePath pv ∧ path ≠ "" ∨ path = loop_dev idx.
Proof.
  unfold prepare_pv. intros H. go_inv H. destruct a as [has err]. destruct has.
  { injection H as <- _. destruct (decide (lp_DevicePath pv = "")); auto. }
  destruct (decide (_ ∨ _)); [by injection H|]. unfold build_step in H. go_inv H. destruct a as [e|]; [by injection H|].
  go_inv H. destruct a as [e|]; [by injection H|]. injection H as <- _. by right.
Qed.

(** A group that was made is there, with every physical volume, when the engine
    is asked for it; what the group's commands answer before is only an error. *)
Lemma buildLVM_makes cfg st info0 e st1 pvs st2 info st' :
  pei_PoolInfo (po_Name (stk_Pooling cfg)) st = Ret (info0, Some e) st1 →
  prepare_pvs 0 (stk_PVs cfg) st1 = Ret (inl pvs) st2 →
  buildLVM cfg st = Ret (info, None) st' →
  ∃ st3, pei_PoolInfo (po_Name (stk_Pooling cfg)) st3 = Ret (info, None) st' ∧ pvs ≠ [] ∧
    po_Name (stk_Pooling cfg) ∈ lw_groups (gl_view st3.2) ∧ ∀ p, p ∈ pvs → p ∈ lw_pvs (gl_view st3.2).
Proof.
  intros H1 H2. unfold buildLVM. rewrite (go_bind_Ret _ _ _ _ _ H1). destruct (errors_Is e ErrNotFoundVG); [|by intros [=]].
  rewrite (go_bind_Ret _ _ _ _ _ H2). destruct pvs as [|p ps]; [by intros [=]|]. destruct st2 as [svc w2].
  destruct (gl_CreatePV (p :: ps) w2) as (r & w3 & E3 & _ & Hpv). unfold rpc, on_snd, mbind, go_mbind, go_bind. cbn [fst snd].
  rewrite E3. destruct r as [e'|]; [by intros [=]|]. specialize (Hpv eq_refl).
  destruct (gl_CreateVG (po_Name (stk_Pooling cfg)) (p :: ps) w3) as (r & w4 & E4 & Hsub & Hvg). cbn [fst snd]. rewrite E4.
  destruct r as [vg|e']; [|by intros [=]]. intros H. exists (svc, w4). split; [exact H|]. split; [done|]. split; [exact Hvg|].
  intros q Hq. apply Hsub, Hpv, Hq.
Qed.

(** A base device over a file that exists is made, and reported as missing all
    the same: the first start of such an agent fails. *)
Lemma buildLvsAioBdev_fails b st e st1 st2 r st' :
  svc_BdevGetBdevs (sb_Name b) st = Ret (inr e) st1 → IsNotFoundDeviceError e = true →
  rpc (os_Stat (sb_FilePath b)) st1 = Ret None st2 → buildLvsAioBdev b st = Ret r st' → r = Some e.
Proof.
  intros H1 He H2. unfold buildLvsAioBdev. rewrite (go_bind_Ret _ _ _ _ _ H1), He, (go_bind_Ret _ _ _ _ _ H2).
  intros H. go_inv H. injection Hrun as <- <-. go_inv H. by injection H.
Qed.
End builder_spec.
