(* ===== verification/AntPlugins.v ===== *)
(** * The plugins and the filter of the controller's command

    [cmd/controller]: the filter that keeps replicas of a database apart, the
    plugin that reports to Kubernetes how much of a node's pool is left for
    local volumes, and the plugin that labels persistent volumes with their
    node; with [kubeutil/pool.go], [kubeutil/node.go] and [kubeutil/pv.go]. *)

From Stdlib Require Import ZArith Lia.
From stdpp Require Import base gmap strings option list.
From S2P Require Import Prelude Strconv Misc K8s Api State Filter Plugin Server Nvme.

(** ** Replicas of a database *)

Definition dot : Ascii.ascii := Ascii.ascii_of_nat 46.
(* [filter/error.go:15-15] ReasonDataConflict *)
Definition ReasonDataConflict : string := "DataConflict".
(** Cluster and zone of [ob.cluster.zone]. *)
(* [cmd/controller/antplugins/filter/obreplica.go:61-70] parseObHolder *)
Definition parseObHolder (dataHolder : string) : result (string * string) :=
  match SplitN dot dataHolder 3 with
  | [_; cluster; zone] => inl (cluster, zone)
  | _ => inr (ErrNew ("dataHolder is invalid: " +:+ dataHolder))
  end.
Fixpoint conflict_loop (nodeVols : list AntstorVolume) (volDataHolder : string) : bool :=
  match nodeVols with
  | [] => false
  | item :: rest =>
      match map_get (om_Labels (vol_meta item)) VolumeDataHolderKey with
      | None => conflict_loop rest volDataHolder
      | Some val =>
          match parseObHolder val, parseObHolder volDataHolder with
          | inr _, _ | inl _, inr _ => false
          | inl (cluster, zone), inl (volCluster, volZone) =>
              if decide (cluster = volCluster ∧ zone ≠ volZone) then true
              else conflict_loop rest volDataHolder
          end
      end
  end.
(* [cmd/controller/antplugins/filter/obreplica.go:26-58] isReplicaDataConflict *)
Definition isReplicaDataConflict (nodeVols : list AntstorVolume) (volDataHolder : string) : bool :=
  if decide (volDataHolder = "") then false else conflict_loop nodeVols volDataHolder.

Section obreplica.
Context {L : K8sLib}.
(* [cmd/controller/antplugins/filter/obreplica.go:13-24] ObReplicaFilterFunc *)
Definition ObReplicaFilterFunc : PredicateFunc := λ cfg vol,
  n ← the_node;
  if isReplicaDataConflict (nd_Volumes n) (map_str (om_Labels (vol_meta vol)) VolumeDataHolderKey)
  then reject ReasonDataConflict
  else mret true.
(** The registry of the controller's command. *)
(* [cmd/controller/main.go:23-24] main, the filters *)
Definition controller_filters : Registry := RegisterFilter "ObReplica" ObReplicaFilterFunc filtersMap.
End obreplica.

(** ** JSON patches

    [types.JSONPatchType]: operations on the members of an object, named by JSON
    pointers, in which a slash of a name is written [~1]. *)

Record JSONPatchOp := { jp_op : string; jp_path : string; jp_value : string }.
(** [strings.ReplaceAll(key, "/", "~1")]. *)
Fixpoint escape_slash (s : string) : string :=
  match s with
  | EmptyString => EmptyString
  | String c s' => if decide (c = Ascii.ascii_of_nat 47) then "~1" +:+ escape_slash s' else String c (escape_slash s')
  end.
(* [kubeutil/node.go:21-21] SdsLocalStorageResourceKey *)
Definition SdsLocalStorageResourceKey : string := "sds/local-storage".

(** The part of [corev1.Node] that is read: the names of its resources, with
    the quantities as they are written. *)
Record ResNode := { rn_Capacity : gomap string; rn_Allocatable : gomap string }.
Class PatchApi (L : K8sLib) (W : Type) := {
  pa_CachedNode : string → go W (result ResNode);
  pa_GetNode : string → go W (result ResNode);
  pa_PatchNodeStatus : string → list JSONPatchOp → go W (result ResNode);
  pa_PatchPool : string → string → list JSONPatchOp → go W (result StoragePool);
}.

Section local_storage.
Context {L : K8sLib} {W : Type} {PA : PatchApi L W}.
Abbreviation MW := (ManagerWorld W).

Definition label_path : string := "/metadata/labels/" +:+ escape_slash PoolLocalStorageBytesKey.
Definition capacity_path : string := "/status/capacity/" +:+ escape_slash SdsLocalStorageResourceKey.
(** The pool is the server's after a patch that succeeded. *)
(* [kubeutil/pool.go:48-62] StoragePoolUtil.SavePoolLocalStorageMark *)
Definition SavePoolLocalStorageMark (pool : StoragePool) (sz : Z) : go W (StoragePool * option error) :=
  let op := if map_has (om_Labels (sp_meta pool)) PoolLocalStorageBytesKey then "replace" else "add" in
  r ← pa_PatchPool (om_Namespace (sp_meta pool)) (om_Name (sp_meta pool))
        [{| jp_op := op; jp_path := label_path; jp_value := FormatUint sz |}];
  mret (wrote pool r).
(* [kubeutil/node.go:72-87] kubeApiNodeInfo.ReportLocalDiskResource *)
Definition ReportLocalDiskResource (nodeName : string) (sizeByte : Z) : go W (result ResNode) :=
  r ← pa_GetNode nodeName;
  match r with
  | inr e => mret (inr e)
  | inl node =>
      let op := if map_has (rn_Capacity node) SdsLocalStorageResourceKey then "replace" else "add" in
      pa_PatchNodeStatus nodeName [{| jp_op := op; jp_path := capacity_path; jp_value := FormatUint sizeByte |}]
  end.
(* [kubeutil/node.go:89-95] kubeApiNodeInfo.RemoveLocalDiskResource *)
Definition RemoveLocalDiskResource (nodeName : string) : go W (result ResNode) :=
  pa_PatchNodeStatus nodeName
    [{| jp_op := "remove"; jp_path := capacity_path; jp_value := "" |};
     {| jp_op := "remove"; jp_path := "/status/allocatable/" +:+ escape_slash SdsLocalStorageResourceKey; jp_value := "" |}].

(** *** The size left for local volumes *)

(** The volumes of other hosts that are not being deleted. *)
Fixpoint remote_bytes {S} (vols : list AntstorVolume) (acc : Z) : go S Z :=
  match vols with
  | [] => mret acc
  | vol :: rest =>
      local ← IsLocal vol;
      remote_bytes rest
        (if (local : bool) then acc
         else match om_DeletionTimestamp (vol_meta vol) with
              | None => wrap64 (acc + wrap64 (vs_SizeByte (vol_Spec vol)))
              | Some _ => acc
              end)
  end.
(* [cmd/controller/antplugins/localstorage.go:202-223] CalculateLocalStorageCapacity *)
Definition CalculateLocalStorageCapacity {S} (n : Node) : go S Z :=
  allocRemoteBytes ← remote_bytes (nd_Volumes n) 0;
  let val := wrap64 (GetAvailableBytes (nd_Pool n) - allocRemoteBytes) in
  mret (if decide (0 < val)%Z then val else 0%Z).

(** *** The plugin *)

Definition the_state : go MW State := λ s, Ret s.1 s.
(** The node's pool is written through its pointer. *)
Definition put_node_pool (id : string) (n : Node) (p : StoragePool) : go MW unit :=
  gmodify (λ s : MW, (st_set_NodeMap (<[id := nd_set_Pool p n]> (NodeMap s.1)) s.1, s.2)).
(* [cmd/controller/antplugins/localstorage.go:101-147] ReportLocalStoragePlugin.Reconcile, a pool *)
Definition report_pool (pool : StoragePool) : go MW (Result * StoragePool) :=
  let name := om_Name (sp_meta pool) in
  s ← the_state;
  match GetNodeByNodeID name (s : State) with
  | inr _ => mret (Result_zero, pool)
  | inl snode =>
      localBS ← CalculateLocalStorageCapacity snode;
      node ← on_snd (pa_CachedNode name);
      match node with
      | inr e => mret (result_err (Some e), pool)
      | inl node =>
          let hasNodeRes := map_has (rn_Allocatable node) SdsLocalStorageResourceKey in
          let hasPoolLabel := map_has (om_Labels (sp_meta pool)) PoolLocalStorageBytesKey in
          if negb hasPoolLabel || negb hasNodeRes then
            '(pool1, err) ← on_snd (SavePoolLocalStorageMark pool localBS);
            match err with
            | Some e => mret (result_err (Some e), pool1)
            | None =>
                r ← on_snd (ReportLocalDiskResource (om_Name (sp_meta pool1)) localBS);
                mret (match r with inr e => result_err (Some e) | inl _ => Result_zero end, pool1)
            end
          else mret (Result_zero, pool)
      end
  end.
(* [cmd/controller/antplugins/localstorage.go:150-178] ReportLocalStoragePlugin.Reconcile, a volume *)
Definition report_volume (volume : AntstorVolume) : go MW Result :=
  let id := vs_TargetNodeId (vol_Spec volume) in
  if decide (id = "") then mret Result_zero
  else
    local ← IsLocal volume;
    if (local : bool) then mret Result_zero
    else
      s ← the_state;
      match GetNodeByNodeID id (s : State) with
      | inr e => mret (result_err (Some e))
      | inl node =>
          let sp := nd_Pool node in
          expectLocalSize ← CalculateLocalStorageCapacity node;
          if decide (map_str (om_Labels (sp_meta sp)) PoolLocalStorageBytesKey = Itoa (wrap64 expectLocalSize))
          then mret Result_zero
          else
            '(sp1, err) ← on_snd (SavePoolLocalStorageMark sp expectLocalSize);
            _ ← put_node_pool id node sp1;
            match err with
            | Some e => mret (result_err (Some e))
            | None =>
                r ← on_snd (ReportLocalDiskResource (om_Name (sp_meta sp1)) expectLocalSize);
                mret (match r with inr e => result_err (Some e) | inl _ => Result_zero end)
            end
      end.
(* [cmd/controller/antplugins/localstorage.go:73-181] ReportLocalStoragePlugin.Reconcile *)
Definition LocalStorage_Reconcile (req : Request) (obj : Object) : go MW (Result * Object) :=
  match obj with
  | OPool pool => '(r, pool1) ← report_pool pool; mret (r, OPool pool1)
  | OVolume volume => r ← report_volume volume; mret (r, obj)
  | _ => mret (Result_zero, obj)
  end.
(* [cmd/controller/antplugins/localstorage.go:67-70] ReportLocalStoragePlugin.HandleDeletion *)
Definition LocalStorage_HandleDeletion (req : Request) (obj : Object) : go MW (option error * Object) :=
  '(result, obj1) ← LocalStorage_Reconcile req obj;
  mret (res_Error result, obj1).
(* [cmd/controller/antplugins/localstorage.go:63-65] ReportLocalStoragePlugin.Name *)
Definition ReportLocalStoragePlugin : @Plugin L MW := {|
  pl_Name := "LocalStorageWatermark";
  pl_Reconcile := LocalStorage_Reconcile;
  pl_HandleDeletion := LocalStorage_HandleDeletion |}.
End local_storage.

(** ** The node of a persistent volume *)

(** The part of [corev1.PersistentVolume] that is read. *)
Record CorePV := { cpv_meta : ObjectMeta }.
#[export] Instance cpv_KubeObject : KubeObject CorePV := {|
  ko_meta := cpv_meta; ko_with_status o _ := o; ko_with_meta m _ := {| cpv_meta := m |} |}.

Section patch_pv.
Context {L : K8sLib} {W : Type} {KPV : KubeClient W CorePV}.
Abbreviation MW := (ManagerWorld W).
Definition cpv_label (k v : string) (pv : CorePV) : CorePV :=
  {| cpv_meta := om_set_Labels (Some (<[k := v]> (default ∅ (om_Labels (cpv_meta pv))))) (cpv_meta pv) |}.
(* [kubeutil/pv.go:31-55] pvUpdater.SetTargetNodeName *)
Definition SetTargetNodeName (pvName targetNode : string) : go W (option error) :=
  r ← kGet (T := CorePV) "" pvName;
  match r with
  | inr e => mret (if IsNotFound e then None else Some e)
  | inl pv =>
      if decide (map_str (om_Labels (cpv_meta pv)) PVTargetNodeNameLabelKey = targetNode) then mret None
      else r ← kUpdate (cpv_label PVTargetNodeNameLabelKey targetNode pv);
           mret (match r with inr e => Some e | inl _ => None end)
  end.
(* [cmd/controller/antplugins/patchpv.go:28-68] PatchPVPlugin.Reconcile *)
Definition PatchPV_Reconcile (req : Request) (obj : Object) : go MW (Result * Object) :=
  match obj with
  | OVolume volume =>
      let pvName := default (vol_Name volume) (map_get (om_Labels (vol_meta volume)) VolumePVNameLabelKey) in
      let node := vs_TargetNodeId (vol_Spec volume) in
      if decide (node = "") then mret (Result_zero, obj)
      else err ← on_snd (SetTargetNodeName pvName node); mret (result_err err, obj)
  | _ => mret (Result_zero, obj)
  end.
(* [cmd/controller/antplugins/patchpv.go:70-72] PatchPVPlugin.HandleDeletion *)
Definition PatchPVPlugin : @Plugin L MW := {|
  pl_Name := "PatchPV";
  pl_Reconcile := PatchPV_Reconcile;
  pl_HandleDeletion _ obj := mret (None, obj) |}.
End patch_pv.

(** ** What the filter decides *)

Section obreplica_spec.
Context {L : K8sLib}.

(** A volume that holds another zone of the same database cluster. *)
Definition conflicts_with (h : string) (item : AntstorVolume) : Prop :=
  ∃ val cluster zone zone', map_get (om_Labels (vol_meta item)) VolumeDataHolderKey = Some val ∧
    parseObHolder val = inl (cluster, zone) ∧ parseObHolder h = inl (cluster, zone') ∧ zone ≠ zone'.
(** Labels that are not holders of a replica are not on the node. *)
Definition holders_ok (vols : list AntstorVolume) : Prop :=
  Forall (λ item, ∀ val, map_get (om_Labels (vol_meta item)) VolumeDataHolderKey = Some val → ∃ cz, parseObHolder val = inl cz) vols.

Lemma conflict_loop_iff vols h cz : parseObHolder h = inl cz → holders_ok vols →
  conflict_loop vols h = true ↔ Exists (conflicts_with h) vols.
Proof.
  intros Hh Hok. induction Hok as [|item vols Hitem Hok IH]; cbn [conflict_loop].
  { split; [done|by intros ?%Exists_nil]. }
  rewrite Exists_cons. destruct (map_get _ _) as [val|] eqn:El.
  2:{ rewrite IH. split; [auto|]. intros [(v & ? & ? & ? & E & _)|H]; [congruence|done]. }
  destruct (Hitem val eq_refl) as ([cluster zone] & Ev). rewrite Ev, Hh. destruct cz as [vc vz].
  destruct (decide (cluster = vc ∧ zone ≠ vz)) as [[-> Hz]|Hn].
  - split; [|done]. intros _. left. exists val, vc, zone, vz. auto.
  - rewrite IH. split; [auto|]. intros [(v & c & z & z' & E & E1 & E2 & E3)|H]; [|done].
    destruct Hn. rewrite El in E. injection E as <-. rewrite Ev in E1. rewrite Hh in E2. naive_solver.
Qed.

(** The replica filter lets a volume pass exactly when no volume of the node
    holds another zone of its cluster, provided the labels of the node's volumes
    can be read. *)
Lemma ObReplica_accepts_iff cfg vol e n cz :
  parseObHolder (map_str (om_Labels (vol_meta vol)) VolumeDataHolderKey) = inl cz → holders_ok (nd_Volumes n) →
  run_val (ObReplicaFilterFunc cfg vol (e, n)) = Some true ↔
  Forall (λ item, ¬ conflicts_with (map_str (om_Labels (vol_meta vol)) VolumeDataHolderKey) item) (nd_Volumes n).
Proof.
  intros Hh Hok. set (h := map_str _ _) in *. assert (h ≠ "") as Hne by (intros E; rewrite E in Hh; discriminate).
  pose proof (conflict_loop_iff _ _ _ Hh Hok) as Hiff. rewrite Forall_Exists_neg, <- Hiff.
  unfold ObReplicaFilterFunc, the_node, isReplicaDataConflict. go_simpl. cbn beta iota. fold h.
  rewrite decide_False by done. destruct (conflict_loop _ _); cbn; naive_solver.
Qed.

(** The filter keeps the contract of the scheduler's filters. *)
Lemma ObReplica_contract : filter_contract ObReplicaFilterFunc.
Proof.
  split.
  - intros cfg vol e n. unfold ObReplicaFilterFunc, the_node. go_simpl. destruct (isReplicaDataConflict _ _); cbn.
    + split; [apply same_node_refl|eauto].
    + split; [apply same_node_refl|done].
  - intros cfg vol e1 e2 n. unfold ObReplicaFilterFunc, the_node. go_simpl. by destruct (isReplicaDataConflict _ _).
Qed.

(** The scheduler's theorems hold for the registry of the controller's command. *)
#[export] Instance controller_filters_ok : RegistryOk controller_filters.
Proof. apply RegisterFilter_ok; [apply ObReplica_contract|apply _]. Qed.
End obreplica_spec.

(** ** What the plugin reports *)

Section local_spec.
Context {L : K8sLib} {HL : K8sLaws L}.
Implicit Types (n : Node) (v vol : AntstorVolume).

Definition hosted v : Prop := is_Some (vs_HostNode (vol_Spec v)).
(** A volume of another host that is not being deleted. *)
Definition live_remote v : bool :=
  is_remote_vol v && bool_decide (om_DeletionTimestamp (vol_meta v) = None).
Definition remote_size (vols : list AntstorVolume) : Z :=
  sumZ ((λ v, vs_SizeByte (vol_Spec v)) <$> filter (λ v, live_remote v = true) vols).

Lemma remote_size_cons v vols :
  remote_size (v :: vols) = ((if live_remote v then vs_SizeByte (vol_Spec v) else 0) + remote_size vols)%Z.
Proof. unfold remote_size. rewrite filter_cons. by destruct (live_remote v). Qed.

Lemma IsLocal_run {S} v (s : S) : hosted v → IsLocal v s = Ret (negb (is_remote_vol v)) s.
Proof.
  intros [h Hh]. unfold IsLocal, HostNode_ID, is_remote_vol. rewrite Hh. go_simpl. cbn. f_equal.
  rewrite bool_decide_not, negb_involutive. by apply bool_decide_ext.
Qed.

Lemma remote_bytes_run {S} vols acc (s : S) : Forall hosted vols → is_int64 acc →
  remote_bytes vols acc s = Ret (wrap64 (acc + remote_size vols)) s.
Proof.
  intros Hh. revert acc. induction Hh as [|v vols Hv _ IH]; intros acc Hacc; cbn [remote_bytes].
  { go_simpl. unfold remote_size. csimpl. by rewrite Z.add_0_r, wrap64_id. }
  rewrite (go_bind_Ret _ _ _ _ _ (IsLocal_run v s Hv)), remote_size_cons. unfold live_remote.
  destruct (is_remote_vol v); cbn; [|by rewrite IH].
  destruct (om_DeletionTimestamp _) as [t|]; [by rewrite bool_decide_eq_false_2, IH by done|].
  rewrite bool_decide_eq_true_2 by done. rewrite IH by apply wrap64_range. f_equal.
  rewrite wrap64_add_l. replace (acc + wrap64 (vs_SizeByte (vol_Spec v)) + remote_size vols)%Z
    with (acc + remote_size vols + wrap64 (vs_SizeByte (vol_Spec v)))%Z by lia.
  rewrite wrap64_add_r. f_equal. lia.
Qed.

(** The size is what the volumes of other hosts leave of the available bytes. *)
Definition local_capacity n : Z := Z.max 0 (GetAvailableBytes (nd_Pool n) - remote_size (nd_Volumes n)).
Definition sizes_ok n : Prop :=
  Forall hosted (nd_Volumes n) ∧ Forall (λ v, 0 ≤ vs_SizeByte (vol_Spec v))%Z (nd_Volumes n) ∧
  (remote_size (nd_Volumes n) < 9223372036854775808)%Z ∧ (0 ≤ GetAvailableBytes (nd_Pool n))%Z.

Lemma remote_size_nonneg vols : Forall (λ v, 0 ≤ vs_SizeByte (vol_Spec v))%Z vols → (0 ≤ remote_size vols)%Z.
Proof.
  intros H. apply sumZ_fmap_nonneg. rewrite Forall_forall in *. intros v [_ Hv]%list_elem_of_filter. auto.
Qed.

Lemma capacity_run {S} n (s : S) : sizes_ok n →
  CalculateLocalStorageCapacity n s = Ret (local_capacity n) s ∧ (0 ≤ local_capacity n < 9223372036854775808)%Z.
Proof.
  intros (Hh & Hs & Hr & Ha). pose proof (remote_size_nonneg _ Hs) as H0.
  pose proof (GetAvailableBytes_range (nd_Pool n)) as Hra. unfold is_int64 in Hra.
  unfold CalculateLocalStorageCapacity. rewrite (go_bind_Ret _ _ _ _ _ (remote_bytes_run _ 0 s Hh ltac:(by split))).
  rewrite Z.add_0_l, (wrap64_id (remote_size _)) by (unfold is_int64; lia).
  rewrite wrap64_id by (unfold is_int64; lia). unfold local_capacity, mret, go_mret, go_ret. split; [|lia]. f_equal.
  destruct (decide _); lia.
Qed.

(** *** Nothing allocated is given away *)

(** What is committed on the node to its own pods: their volumes, and the
    reservations that no volume took up. *)
Definition local_committed n : Z :=
  (sumZ (GetTotalSize <$> filter (λ v, is_remote_vol v = false) (nd_Volumes n)) +
   sumZ (rv_sizeByte <$> unbound n (rs_Items (nd_resvSet n))))%Z.
Definition reserved_lvols n : list KernelLVol := klvm_ReservedLVol (sps_KernelLVM (sp_Spec (nd_Pool n))).
(** A node whose capacity is its pool's, with volumes at least as large as asked
    for, and no more committed than there is. *)
Record node_sized n : Prop := {
  ns_free : free_coherent n;
  ns_capacity : ∃ cap q, spst_Capacity (sp_Status (nd_Pool n)) = Some cap ∧ cap !! ResourceDiskPoolByte = Some q ∧
    quantity_nano q = (GetVgTotalBytes (nd_Pool n) * 1000000000)%Z;
  ns_room : (0 ≤ quantity_nano (ResourceList_Storage (nd_FreeResource n)))%Z;
  ns_hosted : Forall hosted (nd_Volumes n);
  ns_volumes : Forall (λ v, 0 ≤ vs_SizeByte (vol_Spec v) ≤ GetTotalSize v)%Z (nd_Volumes n);
  ns_reserved : Forall (λ r, 0 ≤ rl_SizeByte r)%Z (reserved_lvols n);
  ns_resv : Forall (λ r, 0 ≤ rv_sizeByte r)%Z (rs_Items (nd_resvSet n));
  ns_committed : is_int64 (committed n);
}.

Lemma totals_split vols : Forall (λ v, 0 ≤ vs_SizeByte (vol_Spec v) ≤ GetTotalSize v)%Z vols →
  (sumZ (GetTotalSize <$> filter (λ v, is_remote_vol v = false) vols) + remote_size vols ≤ sumZ (GetTotalSize <$> vols))%Z.
Proof.
  induction 1 as [|v vols Hv _ IH]; [done|]. rewrite remote_size_cons, filter_cons, sumZ_fmap_cons. unfold live_remote.
  destruct (is_remote_vol v); csimpl; [destruct (bool_decide _); lia|lia].
Qed.

(** A node that is not overcommitted has room for its own pods beside the volumes of
    other hosts. *)
Lemma committed_fits n : node_sized n →
  sizes_ok n ∧ (local_committed n + remote_size (nd_Volumes n) ≤ GetAvailableBytes (nd_Pool n))%Z ∧ (0 ≤ local_committed n)%Z.
Proof.
  intros [Hco (cap & q & Hcap & Hq & Hqv) Hroom Hh Hv Hr Hrs Hc].
  pose proof (free_storage_eq n cap q Hcap Hq Hc) as Hfree. rewrite <- Hco, Hqv in Hfree.
  pose proof (totals_split _ Hv) as Hsplit. assert (0 ≤ remote_size (nd_Volumes n))%Z as H0.
  { apply remote_size_nonneg. eapply Forall_impl; [exact Hv|]. cbn. lia. }
  assert (0 ≤ sumZ (GetTotalSize <$> filter (λ v, is_remote_vol v = false) (nd_Volumes n)))%Z as H1.
  { apply sumZ_fmap_nonneg. rewrite Forall_forall in *. intros v [_ Hi]%list_elem_of_filter. specialize (Hv v Hi). lia. }
  assert (0 ≤ sumZ (rv_sizeByte <$> unbound n (rs_Items (nd_resvSet n))))%Z as H2.
  { apply sumZ_fmap_nonneg. rewrite Forall_forall in *. intros r [_ Hi]%list_elem_of_filter. auto. }
  pose proof (sumZ_fmap_nonneg _ _ Hr) as H3. pose proof (GetVgTotalBytes_range (nd_Pool n)) as Ht.
  unfold committed, committed_by in Hfree, Hc. fold (reserved_lvols n) in Hfree, Hc.
  pose proof (GetAvailableBytes_sum (nd_Pool n) Hr) as Hav. fold (reserved_lvols n) in Hav.
  unfold is_int64 in *. rewrite Hav by lia. unfold local_committed.
  split; [|lia]. split_and!; [done|eapply Forall_impl; [exact Hv|cbn; lia]|lia|rewrite Hav by lia; lia].
Qed.

(** C33. The size reported for a node, whose volumes have hosts and sizes and fit 64
    bits, is what the pool has available less the sizes of the volumes of other hosts
    that are not being deleted, and 0 where that is negative. On a node that is not
    overcommitted it is exactly that difference, and it still covers everything the
    node's own pods hold and have reserved. *)
Theorem local_capacity_covers n (s : State) : sizes_ok n →
  ∃ size, CalculateLocalStorageCapacity n s = Ret size s ∧
    size = Z.max 0 (GetAvailableBytes (nd_Pool n) - remote_size (nd_Volumes n)) ∧
    (node_sized n → local_committed n ≤ size ∧ size + remote_size (nd_Volumes n) = GetAvailableBytes (nd_Pool n))%Z.
Proof.
  intros Hok. destruct (capacity_run n s Hok) as [Hrun _]. exists (local_capacity n). split; [exact Hrun|]. split; [done|].
  intros Hn. destruct (committed_fits n Hn) as (_ & Hfit & H0). unfold local_capacity. lia.
Qed.
End local_spec.

(** *** Reports that are made, lost and late *)

(** A server that applies the two patches to the objects it keeps: a label of a
    pool that has labels, a capacity of a node that has capacities. Replacing a
    member needs it to be there. *)
Class PatchLaws {L : K8sLib} {W : Type} (PA : PatchApi L W) := {
  pl_pools : W → gmap (string * string) StoragePool;
  pl_nodes : W → gmap string ResNode;
  pl_get name w n : pl_nodes w !! name = Some n →
    ∃ w', pa_GetNode name w = Ret (inl n) w' ∧ pl_pools w' = pl_pools w ∧ pl_nodes w' = pl_nodes w;
  pl_label ns name op v w p m : pl_pools w !! (ns, name) = Some p → om_Labels (sp_meta p) = Some m →
    (op = "add" ∨ op = "replace" ∧ is_Some (m !! PoolLocalStorageBytesKey)) →
    let p' := sp_set_meta (om_set_Labels (Some (<[PoolLocalStorageBytesKey := v]> m)) (sp_meta p)) p in
    ∃ w', pa_PatchPool ns name [{| jp_op := op; jp_path := label_path; jp_value := v |}] w = Ret (inl p') w' ∧
      pl_pools w' = <[(ns, name) := p']> (pl_pools w) ∧ pl_nodes w' = pl_nodes w;
  pl_capacity name op v w n m : pl_nodes w !! name = Some n → rn_Capacity n = Some m →
    (op = "add" ∨ op = "replace" ∧ is_Some (m !! SdsLocalStorageResourceKey)) →
    let n' := {| rn_Capacity := Some (<[SdsLocalStorageResourceKey := v]> m); rn_Allocatable := rn_Allocatable n |} in
    ∃ w', pa_PatchNodeStatus name [{| jp_op := op; jp_path := capacity_path; jp_value := v |}] w = Ret (inl n') w' ∧
      pl_pools w' = pl_pools w ∧ pl_nodes w' = <[name := n']> (pl_nodes w);
}.

Section reports.
Context {L : K8sLib} {HL : K8sLaws L} {W : Type} {PA : PatchApi L W}.
Implicit Types (n : Node) (v vol : AntstorVolume) (s : State) (w : W).

Definition local_label n : string := map_str (om_Labels (sp_meta (nd_Pool n))) PoolLocalStorageBytesKey.
(** The request of a volume that a pod of another host uses. *)
Definition remote_on (id : string) vol : Prop :=
  vs_TargetNodeId (vol_Spec vol) = id ∧ id ≠ "" ∧ hosted vol ∧ is_remote_vol vol = true.

Lemma Itoa_size z : (0 ≤ z < 9223372036854775808)%Z → Itoa (wrap64 z) = FormatUint z.
Proof. intros H. rewrite wrap64_id by (unfold is_int64; lia). unfold Itoa. by rewrite decide_False by lia. Qed.

(** What the plugin does when the label of the state is not the size. *)
Definition send_report (id : string) n : go (ManagerWorld W) Result :=
  '(sp1, err) ← on_snd (SavePoolLocalStorageMark (nd_Pool n) (local_capacity n));
  _ ← put_node_pool id n sp1;
  match err with
  | Some e => mret (result_err (Some e))
  | None =>
      r ← on_snd (ReportLocalDiskResource (om_Name (sp_meta sp1)) (local_capacity n));
      mret (match r with inr e => result_err (Some e) | inl _ => Result_zero end)
  end.
Lemma report_volume_run id n vol s w : remote_on id vol → NodeMap s !! id = Some n → sizes_ok n →
  report_volume vol (s, w) = if decide (local_label n = FormatUint (local_capacity n)) then Ret Result_zero (s, w)
                             else send_report id n (s, w).
Proof.
  intros (Hid & Hne & Hh & Hr) Hn Hok. unfold report_volume. rewrite Hid, decide_False by done.
  rewrite (go_bind_Ret _ _ _ _ _ (IsLocal_run vol (s, w) Hh)), Hr. cbn [negb].
  unfold the_state. go_simpl. unfold GetNodeByNodeID. rewrite Hn.
  destruct (capacity_run n (s, w) Hok) as [E Hb]. rewrite E. unfold local_label. rewrite Itoa_size by done.
  by destruct (decide _).
Qed.

(** After the plugin has seen a volume of another host, the label of the pool
    and the capacity of the Kubernetes node both tell the size left for local
    volumes, and the state's pool is the server's; nothing is written when the
    label told it already. *)
Lemma local_report_published {PL : PatchLaws PA} req id n vol s w p m rn rm :
  let name := om_Name (sp_meta (nd_Pool n)) in
  let sz := FormatUint (local_capacity n) in
  let key := (om_Namespace (sp_meta (nd_Pool n)), name) in
  let p' := sp_set_meta (om_set_Labels (Some (<[PoolLocalStorageBytesKey := sz]> m)) (sp_meta p)) p in
  let rn' := {| rn_Capacity := Some (<[SdsLocalStorageResourceKey := sz]> rm); rn_Allocatable := rn_Allocatable rn |} in
  remote_on id vol → NodeMap s !! id = Some n → sizes_ok n →
  pl_pools w !! key = Some p → om_Name (sp_meta p) = name → om_Labels (sp_meta p) = Some m →
  (is_Some (map_get (om_Labels (sp_meta (nd_Pool n))) PoolLocalStorageBytesKey) → is_Some (m !! PoolLocalStorageBytesKey)) →
  pl_nodes w !! name = Some rn → rn_Capacity rn = Some rm →
  if decide (local_label n = sz) then LocalStorage_Reconcile req (OVolume vol) (s, w) = Ret (Result_zero, OVolume vol) (s, w)
  else ∃ w', LocalStorage_Reconcile req (OVolume vol) (s, w) =
               Ret (Result_zero, OVolume vol) (st_set_NodeMap (<[id := nd_set_Pool p' n]> (NodeMap s)) s, w') ∧
             pl_pools w' = <[key := p']> (pl_pools w) ∧ pl_nodes w' = <[name := rn']> (pl_nodes w).
Proof.
  intros name sz key p' rn' Hv Hn Hok Hp Hname Hm Hhas Hrn Hrm. unfold LocalStorage_Reconcile, mbind, go_mbind, go_bind.
  rewrite (report_volume_run id n vol s w Hv Hn Hok). fold sz. destruct (decide (local_label n = sz)); [done|].
  unfold send_report, SavePoolLocalStorageMark. fold sz name. set (op := if map_has _ _ then _ else _).
  destruct (pl_label (om_Namespace (sp_meta (nd_Pool n))) name op sz w p m Hp Hm) as (w1 & E1 & Hp1 & Hn1).
  { unfold op, map_has. destruct (bool_decide _) eqn:Eb; [right; split; [done|]|by left]. apply bool_decide_eq_true in Eb. auto. }
  fold p' in E1, Hp1. unfold on_snd. go_simpl. cbn beta iota. rewrite E1. cbn beta iota. cbn [wrote].
  unfold put_node_pool. go_simpl. unfold ReportLocalDiskResource. go_simpl.
  change (om_Name (sp_meta p')) with (om_Name (sp_meta p)). rewrite Hname. rewrite <- Hn1 in Hrn.
  destruct (pl_get name w1 rn Hrn) as (w2 & E2 & Hp2 & Hn2). rewrite E2. set (op2 := if map_has _ _ then _ else _).
  rewrite <- Hn2 in Hrn.
  destruct (pl_capacity name op2 sz w2 rn rm Hrn Hrm) as (w3 & E3 & Hp3 & Hn3).
  { unfold op2, map_has. rewrite Hrm. cbn [map_get]. destruct (bool_decide _) eqn:Eb; [right; split; [done|]|by left].
    by apply bool_decide_eq_true in Eb. }
  fold sz. rewrite E3. cbn beta iota. exists w3. split; [reflexivity|]. split; [by rewrite Hp3, Hp2|by rewrite Hn3, Hn2, Hn1].
Qed.

(** A report of which the label was saved and the node's capacity was not is
    never completed: the request fails, and every repetition of it finds the
    label it left and succeeds without writing anything. *)
Lemma local_report_lost req id n vol s w p' w1 e w2 :
  remote_on id vol → NodeMap s !! id = Some n → sizes_ok n → local_label n ≠ FormatUint (local_capacity n) →
  SavePoolLocalStorageMark (nd_Pool n) (local_capacity n) w = Ret (p', None) w1 →
  map_str (om_Labels (sp_meta p')) PoolLocalStorageBytesKey = FormatUint (local_capacity n) →
  GetAvailableBytes p' = GetAvailableBytes (nd_Pool n) →
  ReportLocalDiskResource (om_Name (sp_meta p')) (local_capacity n) w1 = Ret (inr e) w2 →
  let s' := st_set_NodeMap (<[id := nd_set_Pool p' n]> (NodeMap s)) s in
  LocalStorage_Reconcile req (OVolume vol) (s, w) = Ret (result_err (Some e), OVolume vol) (s', w2) ∧
  ∀ w3, LocalStorage_Reconcile req (OVolume vol) (s', w3) = Ret (Result_zero, OVolume vol) (s', w3).
Proof.
  intros Hv Hn Hok Hl H1 Hlabel Hav H2 s'. unfold LocalStorage_Reconcile, mbind, go_mbind, go_bind. split.
  - rewrite (report_volume_run id n vol s w Hv Hn Hok), decide_False by done.
    unfold send_report, on_snd. go_simpl. cbn beta iota. rewrite H1. cbn beta iota. unfold put_node_pool. go_simpl. by rewrite H2.
  - intros w3. assert (local_capacity (nd_set_Pool p' n) = local_capacity n) as Hc by (unfold local_capacity; cbn; by rewrite Hav).
    rewrite (report_volume_run id (nd_set_Pool p' n) vol s' w3 Hv); [by rewrite decide_True by (by rewrite Hc)|..].
    + unfold s'. cbn. by rewrite lookup_insert_eq.
    + unfold sizes_ok in *. cbn. by rewrite Hav.
Qed.

Lemma remove_first_find volID l v : List.find (λ item, bool_decide (vs_Uuid (vol_Spec item) = volID)) l = Some v →
  ∃ l', remove_first volID l = Some l' ∧
    remote_size l = (remote_size l' + (if live_remote v then vs_SizeByte (vol_Spec v) else 0))%Z.
Proof.
  induction l as [|x l IH]; [done|]. cbn [List.find remove_first]. destruct (decide (vs_Uuid (vol_Spec x) = volID)) as [E|E].
  - rewrite bool_decide_eq_true_2 by done. intros [= <-]. exists l. split; [done|]. rewrite remote_size_cons. lia.
  - rewrite bool_decide_eq_false_2 by done. intros H. destruct (IH H) as (l' & -> & Hs). exists (x :: l').
    split; [done|]. rewrite !remote_size_cons. lia.
Qed.

(** When a volume of another host is deleted, the space it gives back is not
    reported: its last request is handled while the state still counts it, and
    once it is out of the state no request is left to report the size. *)
Lemma deleted_remote_unreported req id n v vol s w :
  remote_on id vol → NodeMap s !! id = Some n → sizes_ok n → volIDMap s !! vs_Uuid (vol_Spec vol) = Some id →
  Node_GetVolumeByID (vs_Uuid (vol_Spec vol)) n = inl v → live_remote v = true → (0 < vs_SizeByte (vol_Spec v))%Z →
  (remote_size (nd_Volumes n) ≤ GetAvailableBytes (nd_Pool n))%Z →
  local_label n = FormatUint (local_capacity n) →
  LocalStorage_HandleDeletion req (OVolume vol) (s, w) = Ret (None, OVolume vol) (s, w) ∧
  ∃ n', NodeMap (UnbindAntstorVolume (vs_Uuid (vol_Spec vol)) s).1 !! id = Some n' ∧
    local_capacity n' = (local_capacity n + vs_SizeByte (vol_Spec v))%Z ∧ local_label n' ≠ FormatUint (local_capacity n').
Proof.
  intros Hv Hn Hok Hid Hget Hlive Hpos Hroom Hl. split.
  { unfold LocalStorage_HandleDeletion, LocalStorage_Reconcile, mbind, go_mbind, go_bind.
    rewrite (report_volume_run id n vol s w Hv Hn Hok). by rewrite decide_True by done. }
  unfold Node_GetVolumeByID in Hget. destruct (List.find _ _) as [v0|] eqn:Ef; [|done]. injection Hget as ->.
  destruct (remove_first_find _ _ _ Ef) as (vols & Er & Hs). rewrite Hlive in Hs. cbn beta iota in Hs.
  unfold UnbindAntstorVolume. rewrite Hid, Hn. cbn [fst NodeMap]. rewrite lookup_insert_eq. eexists. split; [reflexivity|].
  unfold RemoveVolumeByID. rewrite Er. unfold local_label, local_capacity. rewrite update_free_pool, update_free_volumes. cbn [nd_set_Volumes nd_Pool nd_Volumes].
  pose proof (remote_size_nonneg _ (proj1 (proj2 Hok))) as H0. pose proof (GetAvailableBytes_range (nd_Pool n)) as Ha. unfold is_int64 in Ha.
  assert (0 ≤ remote_size vols)%Z as H1.
  { apply remote_size_nonneg. pose proof (proj1 (proj2 Hok)) as Hall. rewrite Forall_forall in *.
    intros x Hx. by apply Hall, (remove_first_elem _ _ _ _ Er). }
  split; [lia|]. unfold local_label in Hl. rewrite Hl. unfold local_capacity.
  intros E. assert (Itoa (Z.max 0 (GetAvailableBytes (nd_Pool n) - remote_size (nd_Volumes n))) =
                    Itoa (Z.max 0 (GetAvailableBytes (nd_Pool n) - remote_size vols))) as E'.
  { unfold Itoa. by rewrite !decide_False by lia. }
  apply Itoa_inj in E'; unfold is_int64; lia.
Qed.
End reports.

(** *** The label of a persistent volume *)

Section pv_spec.
Context {L : K8sLib} {W : Type} {KPV : KubeClient W CorePV} {SL : StoreLaws KPV}.

(** The plugin leaves the node's label on the persistent volume of a placed
    volume and changes nothing else; a missing persistent volume is no error. *)
Lemma PatchPV_labels req vol pvName s w :
  pvName = default (vol_Name vol) (map_get (om_Labels (vol_meta vol)) VolumePVNameLabelKey) →
  vs_TargetNodeId (vol_Spec vol) ≠ "" →
  (∀ pv, sl_view w !! ("", pvName) = Some pv → ko_key pv = ("", pvName) ∧ om_DeletionTimestamp (cpv_meta pv) = None) →
  ∃ w', PatchPV_Reconcile req (OVolume vol) (s, w) = Ret (Result_zero, OVolume vol) (s, w') ∧
    match sl_view w !! ("", pvName) with
    | None => sl_view w' = sl_view w
    | Some pv => ∃ pv', sl_view w' = <[("", pvName) := pv']> (sl_view w) ∧
        map_str (om_Labels (cpv_meta pv')) PVTargetNodeNameLabelKey = vs_TargetNodeId (vol_Spec vol) ∧
        ∀ k, k ≠ PVTargetNodeNameLabelKey → map_get (om_Labels (cpv_meta pv')) k = map_get (om_Labels (cpv_meta pv)) k
    end.
Proof.
  intros Hname Hne Hkey. unfold PatchPV_Reconcile. rewrite decide_False, <- Hname by done. go_simpl. unfold on_snd, SetTargetNodeName. go_simpl.
  destruct (sl_view w !! ("", pvName)) as [pv|] eqn:E.
  - destruct (sl_get _ _ _ _ E) as (w1 & Eg & Hv1). rewrite Eg. destruct (decide (_ = vs_TargetNodeId _)) as [Hl|Hl].
    { exists w1. split; [reflexivity|]. exists pv. split; [by rewrite Hv1, insert_id|]. done. }
    destruct (Hkey pv eq_refl) as [Hk Hd]. set (pv' := cpv_label _ _ pv).
    rewrite <- Hv1 in E. destruct (sl_update pv' w1 pv) as (w2 & Eu & Hv2); [by change (ko_key pv') with (ko_key pv); rewrite Hk|].
    rewrite Eu. cbn beta iota. exists w2. split; [reflexivity|]. exists pv'. split.
    { rewrite Hv2. unfold store_put, ko_gone. cbn. rewrite Hd. cbn. rewrite Hv1. by change (ko_key pv') with (ko_key pv); rewrite Hk. }
    cbn. split; [unfold map_str; cbn; by rewrite lookup_insert_eq|]. intros k Hk'. rewrite lookup_insert_ne by done.
    by destruct (om_Labels (cpv_meta pv)) as [m|]; cbn; [|rewrite lookup_empty].
  - destruct (sl_get_none _ _ _ E) as (e & w1 & Eg & He & Hv1). rewrite Eg, He. by exists w1.
Qed.
End pv_spec.

(** ** A server in memory, and examples *)

Module LocalExample.
#[local] Existing Instance NanoLib.
#[local] Existing Instance NanoLaws.
Definition slash : Ascii.ascii := Ascii.ascii_of_nat 47.
(** The name a JSON pointer's last part stands for. *)
Fixpoint unescape (s : string) : string :=
  match s with
  | String a ((String b s') as rest) =>
      if decide (String a (String b EmptyString) = "~1") then String slash (unescape s') else String a (unescape rest)
  | _ => s
  end.
(** One member of a map, added or replaced; anything else is refused. *)
Definition patch_map (prefix : string) (ops : list JSONPatchOp) (m : gomap string) : option (gmap string string) :=
  match ops, m with
  | [op], Some m =>
      let key := unescape (TrimPrefix (jp_path op) prefix) in
      if HasPrefix (jp_path op) prefix && (bool_decide (jp_op op = "add") || bool_decide (jp_op op = "replace") && bool_decide (is_Some (m !! key)))
      then Some (<[key := jp_value op]> m) else None
  | _, _ => None
  end.
Record Mem := { mm_pools : gmap (string * string) StoragePool; mm_nodes : gmap string ResNode }.
Definition not_found {A} : result A := inr (ErrAPI ReasonNotFound "not found").
Definition get_node (name : string) : go Mem (result ResNode) := λ w,
  Ret (match mm_nodes w !! name with Some n => inl n | None => not_found end) w.
Definition refused {A} : result A := inr (ErrNew "the server rejected our request").
#[export] Instance MemPatch : PatchApi NanoLib Mem := {|
  pa_CachedNode := get_node;
  pa_GetNode := get_node;
  pa_PatchNodeStatus name ops := λ w,
    match mm_nodes w !! name with
    | None => Ret not_found w
    | Some n => match patch_map "/status/capacity/" ops (rn_Capacity n) with
                | None => Ret refused w
                | Some m => let n' := {| rn_Capacity := Some m; rn_Allocatable := rn_Allocatable n |} in
                            Ret (inl n') {| mm_pools := mm_pools w; mm_nodes := <[name := n']> (mm_nodes w) |}
                end
    end;
  pa_PatchPool ns name ops := λ w,
    match mm_pools w !! (ns, name) with
    | None => Ret not_found w
    | Some p => match patch_map "/metadata/labels/" ops (om_Labels (sp_meta p)) with
                | None => Ret refused w
                | Some m => let p' := sp_set_meta (om_set_Labels (Some m) (sp_meta p)) p in
                            Ret (inl p') {| mm_pools := <[(ns, name) := p']> (mm_pools w); mm_nodes := mm_nodes w |}
                end
    end |}.
Lemma patch_map_put prefix path key op v m : HasPrefix path prefix = true → unescape (TrimPrefix path prefix) = key →
  (op = "add" ∨ op = "replace" ∧ is_Some (m !! key)) →
  patch_map prefix [{| jp_op := op; jp_path := path; jp_value := v |}] (Some m) = Some (<[key := v]> m).
Proof.
  intros Hp Hk Hop. unfold patch_map. cbn [jp_op jp_path jp_value]. rewrite Hp, Hk.
  destruct Hop as [-> | [-> Hs]]; [done|]. by rewrite (bool_decide_eq_true_2 (is_Some _) Hs).
Qed.
#[export] Instance MemPatchLaws : PatchLaws MemPatch.
Proof.
  refine {| pl_pools := mm_pools; pl_nodes := mm_nodes |}.
  - intros name w n E. exists w. cbn. unfold get_node. by rewrite E.
  - intros ns name op v w p m E Hm Hop p'. unfold pa_PatchPool, MemPatch. cbn beta iota zeta. rewrite E, Hm, (patch_map_put _ _ PoolLocalStorageBytesKey) by done. by eexists.
  - intros name op v w n m E Hm Hop n'. unfold pa_PatchNodeStatus, MemPatch. cbn beta iota zeta. rewrite E, Hm, (patch_map_put _ _ SdsLocalStorageResourceKey) by done. by eexists.
Defined.

(** A node with a volume and a reservation of its own pods, and a volume of 30
    GiB that a pod of another node uses. *)
Definition other : NodeInfo := {| ni_ID := "node-9"; ni_IP := ""; ni_Hostname := ""; ni_Labels := None |}.
Definition remote : AntstorVolume :=
  vol_set_Spec (vs_set_TargetNodeId "node-1" (vs_set_HostNode (Some other) (vol_Spec (ex_vol "b" "uuid-b" (30 * GiB)))))
    (ex_vol "b" "uuid-b" (30 * GiB)).
(** [told] says whether the pool has the label already. *)
Definition labels (told : bool) : gmap string string :=
  if told then {[ PoolLocalStorageBytesKey := "64424509440" ]} else ∅.
Definition pool (told : bool) : StoragePool := sp_set_meta (om_set_Labels (Some (labels told)) (ex_meta "node-1")) ex_pool.
Definition actions (told : bool) : list state_action :=
  [ASetPool (pool told); ABind "node-1" (ex_vol "a" "uuid-a" (20 * GiB));
   AReserve "node-1" (NewReservation "r" (5 * GiB)); ABind "node-1" remote].
Definition st (told : bool) : State := state_run (actions told) NewState.
Definition nd (told : bool) : Node := default (NewNode (pool told)) (NodeMap (st told) !! "node-1").
Definition server : Mem := {|
  mm_pools := {[ (DefaultNamespace, "node-1") := pool false ]};
  mm_nodes := {[ "node-1" := {| rn_Capacity := Some ∅; rn_Allocatable := None |} ]} |}.
Definition request : Request := {| rq_Namespace := DefaultNamespace; rq_Name := "b" |}.

Lemma nd_in told : NodeMap (st told) !! "node-1" = Some (nd told).
Proof. apply opt_is_some_eq. destruct told; vm_compute; reflexivity. Qed.
Lemma nd_available told : GetAvailableBytes (nd_Pool (nd told)) = (90 * GiB)%Z.
Proof. destruct told; vm_compute; reflexivity. Qed.
Lemma nd_meta told : sp_meta (nd_Pool (nd told)) = om_set_Labels (Some (labels told)) (ex_meta "node-1").
Proof. destruct told; vm_compute; reflexivity. Qed.
Lemma nd_volumes told : nd_Volumes (nd told) = [place_on (nd false) (ex_vol "a" "uuid-a" (20 * GiB)); remote].
Proof. destruct told; vm_compute; reflexivity. Qed.
Lemma nd_sizes told : sizes_ok (nd told).
Proof.
  unfold sizes_ok. rewrite nd_volumes. split_and!;
    [repeat apply Forall_cons_2; [by eexists|by eexists|apply Forall_nil_2]|repeat apply Forall_cons_2; [vm_compute; discriminate..|apply Forall_nil_2]|vm_compute; done|].
  rewrite nd_available. vm_compute. discriminate.
Qed.
Lemma nd_capacity told : FormatUint (local_capacity (nd told)) = "64424509440".
Proof. unfold local_capacity. rewrite nd_volumes, nd_available. vm_compute. reflexivity. Qed.
Lemma remote_asked : remote_on "node-1" remote.
Proof. split_and!; [reflexivity|discriminate|by eexists|reflexivity]. Qed.
Lemma nd_label told : local_label (nd told) = if told then "64424509440" else "".
Proof. unfold local_label. rewrite nd_meta. destruct told; vm_compute; reflexivity. Qed.
Lemma nd_free told : free_coherent (nd told).
Proof.
  apply (state_run_coherent (actions told) NewState NewState_wf NewState_coherent) with (i := "node-1"); [|apply nd_in].
  cbn [actions actions_clean action_clean]. split_and!; auto.
Qed.
Lemma nd_sized told : node_sized (nd told).
Proof.
  split.
  - apply nd_free.
  - exists {[ ResourceDiskPoolByte := NewQuantity (100 * GiB) ]}, (NewQuantity (100 * GiB)). destruct told; split_and!; vm_compute; reflexivity.
  - destruct told; vm_compute; discriminate.
  - apply (nd_sizes told).
  - rewrite nd_volumes. repeat apply Forall_cons_2; [split; vm_compute; discriminate..|apply Forall_nil_2].
  - destruct told; repeat constructor; vm_compute; discriminate.
  - destruct told; (apply Forall_cons_2; [vm_compute; discriminate|apply Forall_nil_2]).
  - destruct told; split; vm_compute; (discriminate || reflexivity).
Qed.
End LocalExample.

Section local_witnesses.
#[local] Existing Instance NanoLib.
#[local] Existing Instance NanoLaws.
Import LocalExample.

Definition holder (h : string) (v : AntstorVolume) : AntstorVolume := vol_set_labels (Some {[ VolumeDataHolderKey := h ]}) v.
Lemma ObReplica_accepts_iff_witness :
  ¬ Forall (λ item, ¬ conflicts_with "ob.c1.z2" item) [holder "ob.c1.z1" remote].
Proof.
  set (v := holder "ob.c1.z2" remote). set (n := nd_set_Volumes [holder "ob.c1.z1" remote] ex_node).
  assert (holders_ok (nd_Volumes n)) as Hok.
  { apply Forall_cons_2; [|apply Forall_nil_2]. intros val E. vm_compute in E. injection E as <-. exists ("c1", "z1"). reflexivity. }
  intros H. pose proof (proj2 (ObReplica_accepts_iff ex_cfg v NewMergedError n ("c1", "z2") eq_refl Hok) H) as Hr.
  vm_compute in Hr. discriminate.
Defined.
Lemma local_capacity_covers_witness :
  CalculateLocalStorageCapacity (nd false) (st false) = Ret (60 * GiB)%Z (st false) ∧
  remote_size (nd_Volumes (nd false)) = (30 * GiB)%Z ∧ (local_committed (nd false) ≤ 60 * GiB)%Z.
Proof.
  assert (remote_size (nd_Volumes (nd false)) = (30 * GiB)%Z) as Hr by (rewrite nd_volumes; vm_compute; reflexivity).
  destruct (local_capacity_covers (nd false) (st false) (nd_sizes false)) as (size & Hrun & Hsize & Hc).
  destruct (Hc (nd_sized false)) as [Hl _]. rewrite nd_available, Hr in Hsize.
  assert (size = (60 * GiB)%Z) as -> by (rewrite Hsize; vm_compute; reflexivity).
  split; [exact Hrun|]. split; [exact Hr|exact Hl].
Defined.
Lemma local_report_published_witness :
  ∃ s' w', LocalStorage_Reconcile request (OVolume remote) (st false, server) = Ret (Result_zero, OVolume remote) (s', w') ∧
    ∃ p, mm_pools w' !! (DefaultNamespace, "node-1") = Some p ∧
      map_str (om_Labels (sp_meta p)) PoolLocalStorageBytesKey = "64424509440".
Proof.
  pose proof (local_report_published request "node-1" (nd false) remote (st false) server (pool false) ∅
    {| rn_Capacity := Some ∅; rn_Allocatable := None |} ∅) as H.
  cbv zeta in H. rewrite decide_False in H by (rewrite nd_label, nd_capacity; discriminate).
  rewrite nd_capacity, nd_meta in H.
  destruct H as (w' & E & Hp & _); [exact remote_asked|apply nd_in|apply nd_sizes|reflexivity|reflexivity|reflexivity|
    intros [x Hx]; vm_compute in Hx; discriminate|reflexivity|reflexivity|].
  eexists _, w'. split; [exact E|]. cbn [pl_pools MemPatchLaws] in Hp. rewrite Hp. eexists. split; [apply lookup_insert_eq|].
  vm_compute. reflexivity.
Defined.
(** The node is gone from Kubernetes. *)
Definition gone : Mem := {| mm_pools := mm_pools server; mm_nodes := ∅ |}.
Lemma local_report_lost_witness :
  ∃ s', (∃ w2, LocalStorage_Reconcile request (OVolume remote) (st false, gone) =
                Ret (result_err (Some (ErrAPI ReasonNotFound "not found")), OVolume remote) (s', w2)) ∧
        LocalStorage_Reconcile request (OVolume remote) (s', server) = Ret (Result_zero, OVolume remote) (s', server).
Proof.
  set (p' := sp_set_meta (om_set_Labels (Some (labels true)) (ex_meta "node-1")) (pool false)).
  set (w1 := {| mm_pools := <[(DefaultNamespace, "node-1") := p']> (mm_pools server); mm_nodes := ∅ |}).
  destruct (local_report_lost request "node-1" (nd false) remote (st false) gone p' w1 (ErrAPI ReasonNotFound "not found") w1)
    as [H1 H2]; [exact remote_asked|apply nd_in|apply nd_sizes|rewrite nd_label, nd_capacity; discriminate|..].
  - unfold SavePoolLocalStorageMark, pa_PatchPool, MemPatch. go_simpl. cbn beta iota zeta. rewrite nd_capacity, nd_meta.
    cbn [om_set_Labels ex_meta om_Name om_Namespace om_Labels]. change (mm_pools gone) with (mm_pools server).
    unfold server at 1. cbn [mm_pools]. rewrite lookup_singleton_eq. change (om_Labels (sp_meta (pool false))) with (Some (labels false)).
    rewrite (patch_map_put _ _ PoolLocalStorageBytesKey) by (done || by left). reflexivity.
  - rewrite nd_capacity. reflexivity.
  - rewrite nd_available. vm_compute. reflexivity.
  - reflexivity.
  - eexists. split; [exists w1; exact H1|apply H2].
Defined.
Lemma deleted_remote_unreported_witness :
  LocalStorage_HandleDeletion request (OVolume remote) (st true, server) = Ret (None, OVolume remote) (st true, server).
Proof.
  apply (deleted_remote_unreported request "node-1" (nd true) remote remote (st true) server);
    [exact remote_asked|apply nd_in|apply nd_sizes|vm_compute; reflexivity| |reflexivity|vm_compute; reflexivity| |].
  - unfold Node_GetVolumeByID. rewrite nd_volumes. reflexivity.
  - rewrite nd_volumes, nd_available. vm_compute. discriminate.
  - by rewrite nd_label, nd_capacity.
Defined.
End local_witnesses.
