(* ===== verification/SyncMeta.v ===== *)
(** * Metadata in a database

    [pkg/controller/syncmeta]: a copy of the cluster's pools, volumes, snapshots,
    data controls and volume groups in SQL tables, which operators read. The
    plugin [MetaSync] of the reconcilers calls [Sync] with every object; a
    garbage cleaner marks the rows of objects that went away unseen. *)

From Stdlib Require Import ZArith Lia.
From stdpp Require Import base gmap strings option sorting list.
From S2P Require Import Prelude Strconv Float64 Misc K8s Api Plugin Server PoolReconciler Mount.

(** ** JSON

    What [encoding/json] writes for the values that are stored as text: members
    in the order of the fields, maps sorted by their keys, [null] for a nil slice
    or map. Text is escaped like Go does for ASCII; other bytes are kept. *)

Inductive json := JStr (s : string) | JNum (z : Z) | JArr (l : list json) | JObj (l : list (string * json)) | JNull.

Definition dquote : string := String (Ascii.ascii_of_nat 34) "".
Definition hex_digit (n : nat) : string := String (nth n (String.list_ascii_of_string "0123456789abcdef") Ascii.zero) "".
Definition unicode_escape (c : Ascii.ascii) : string :=
  "\u00" +:+ hex_digit (Ascii.nat_of_ascii c / 16) +:+ hex_digit (Ascii.nat_of_ascii c mod 16).
Definition json_char (c : Ascii.ascii) : string :=
  let n := Ascii.nat_of_ascii c in
  if decide (n = 34) then "\" +:+ dquote
  else if decide (n = 92) then "\\"
  else if decide (n = 10) then "\n" else if decide (n = 13) then "\r" else if decide (n = 9) then "\t"
  else if decide (n < 32 ∨ n = 60 ∨ n = 62 ∨ n = 38)%nat then unicode_escape c
  else String c "".
Fixpoint json_text (s : string) : string :=
  match s with EmptyString => EmptyString | String c s' => json_char c +:+ json_text s' end.
Definition json_string (s : string) : string := dquote +:+ json_text s +:+ dquote.
Fixpoint json_print (j : json) : string :=
  match j with
  | JStr s => json_string s
  | JNum z => Itoa z
  | JNull => "null"
  | JArr l => "[" +:+ strings_Join (json_print <$> l) "," +:+ "]"
  | JObj l => "{" +:+ strings_Join ((λ kv, json_string kv.1 +:+ ":" +:+ json_print kv.2) <$> l) "," +:+ "}"
  end.

(** A map of strings, its keys in the order of their bytes. *)
Definition key_le (a b : string * string) : Prop := String.leb a.1 b.1 = true.
#[export] Instance key_le_dec : RelDecision key_le.
Proof. intros a b. unfold key_le. apply _. Defined.
Definition json_map (m : gomap string) : json :=
  match m with
  | None => JNull
  | Some m => JObj ((λ kv, (kv.1, JStr kv.2)) <$> merge_sort key_le (map_to_list m))
  end.
Definition json_lvol (l : KernelLVol) : json :=
  JObj [("name", JStr (rl_Name l)); ("vgName", JStr (rl_VGName l)); ("devPath", JStr (rl_DevPath l));
        ("sizeByte", JNum (rl_SizeByte l)); ("lvLayout", JStr (rl_LvLayout l))].
Definition json_volume_meta (v : VolumeMeta) : json :=
  JObj [("volId", JObj [("namespace", JStr (ei_Namespace (vm_VolId v))); ("name", JStr (ei_Name (vm_VolId v))); ("uuid", JStr (ei_UUID (vm_VolId v)))]);
        ("targetNodeName", JStr (vm_TargetNodeName v)); ("size", JNum (vm_Size v))].
(** A slice, of which nil and empty are not told apart in the model. *)
Definition json_list {A} (f : A → json) (l : list A) : string :=
  json_print (match l with [] => JNull | _ => JArr (f <$> l) end).

(** ** Tables

    A row has a value in every column. [xorm] finds the rows that have the given
    values, and takes a struct as a condition by its fields that are not zero. *)

Inductive SqlVal := SInt (z : Z) | SStr (s : string).
#[export] Instance SqlVal_eq : EqDecision SqlVal.
Proof. solve_decision. Defined.
Abbreviation Row := (gmap string SqlVal).
Definition nonzero (v : SqlVal) : bool :=
  match v with SInt z => negb (bool_decide (z = 0%Z)) | SStr s => negb (bool_decide (s = "")) end.
Definition int_of (r : Row) (c : string) : Z := match r !! c with Some (SInt z) => z | _ => 0%Z end.
Definition str_of (r : Row) (c : string) : string := match r !! c with Some (SStr s) => s | _ => "" end.

(** The session of [xorm]: [Where.Get], [InsertOne], [Cols.Update] with a bean
    and a condition, and a query written out. *)
Class XormSession (W : Type) := {
  xs_Get : string → list (string * SqlVal) → go W (result (option Row));
  xs_InsertOne : string → list (string * SqlVal) → go W (option error);
  xs_Update : string → list string → list (string * SqlVal) → list (string * SqlVal) → go W (option error);
  xs_Find : string → go W (result (list Row));
}.

(** A struct with [xorm] tags. *)
Class Bean (M : Type) := {
  bean_TableName : string;
  bean_fields : M → list (string * SqlVal);
  bean_of : Row → M;
}.
Definition condition {M} `{Bean M} (m : M) : list (string * SqlVal) := List.filter (λ kv, nonzero kv.2) (bean_fields m).

(** ** The tables *)

(* [syncmeta/types.go:11-19] ObjectMetaBrief *)
Record ObjectMetaBrief := {
omb_ID : Z; omb_ClusterName : string; omb_Name : string; omb_Status : string;
omb_CreatedAt : Z; omb_UpdatedAt : Z; omb_DeletedAt : Z }.
Definition brief_of (r : Row) : ObjectMetaBrief := {|
  omb_ID := int_of r "id"; omb_ClusterName := str_of r "cluster_name"; omb_Name := str_of r "name"; omb_Status := str_of r "status";
  omb_CreatedAt := int_of r "created_at"; omb_UpdatedAt := int_of r "updated_at"; omb_DeletedAt := int_of r "deleted_at" |}.

(* [syncmeta/types.go:24-41] StoragePoolMapping *)
Record StoragePoolMapping := {
spm_ID : Z; spm_ClusterName : string; spm_Name : string; spm_VGType : string; spm_VGName : string;
spm_ReservedVol : string; spm_TotalSize : Z; spm_FreeSize : Z; spm_NodeID : string; spm_NodeIP : string;
spm_NodeHostname : string; spm_Status : string; spm_CreatedAt : Z; spm_UpdatedAt : Z; spm_DeletedAt : Z }.
#[export] Instance StoragePoolMapping_eq : EqDecision StoragePoolMapping.
Proof. solve_decision. Defined.
(* [syncmeta/types.go:119-121] StoragePoolMapping.TableName *)
#[export] Instance spm_bean : Bean StoragePoolMapping := {|
  bean_TableName := "storage_pool";
  bean_fields m := [("id", SInt (spm_ID m)); ("cluster_name", SStr (spm_ClusterName m)); ("name", SStr (spm_Name m));
    ("vg_type", SStr (spm_VGType m)); ("vg_name", SStr (spm_VGName m)); ("reserved_vol", SStr (spm_ReservedVol m));
    ("total_size", SInt (spm_TotalSize m)); ("free_size", SInt (spm_FreeSize m)); ("node_id", SStr (spm_NodeID m));
    ("node_ip", SStr (spm_NodeIP m)); ("node_hostname", SStr (spm_NodeHostname m)); ("status", SStr (spm_Status m));
    ("created_at", SInt (spm_CreatedAt m)); ("updated_at", SInt (spm_UpdatedAt m)); ("deleted_at", SInt (spm_DeletedAt m))];
  bean_of r := {| spm_ID := int_of r "id"; spm_ClusterName := str_of r "cluster_name"; spm_Name := str_of r "name";
    spm_VGType := str_of r "vg_type"; spm_VGName := str_of r "vg_name"; spm_ReservedVol := str_of r "reserved_vol";
    spm_TotalSize := int_of r "total_size"; spm_FreeSize := int_of r "free_size"; spm_NodeID := str_of r "node_id";
    spm_NodeIP := str_of r "node_ip"; spm_NodeHostname := str_of r "node_hostname"; spm_Status := str_of r "status";
    spm_CreatedAt := int_of r "created_at"; spm_UpdatedAt := int_of r "updated_at"; spm_DeletedAt := int_of r "deleted_at" |} |}.

(* [syncmeta/types.go:43-81] AntstorVolumeMapping *)
Record AntstorVolumeMapping := {
avm_ID : Z; avm_ClusterName : string; avm_Name : string; avm_UUID : string; avm_Labels : string;
avm_PvcNS : string; avm_PvcName : string; avm_LvolDevPath : string; avm_LvolName : string; avm_IsThin : Z;
avm_PositionAdvice : string; avm_Size : Z; avm_TargetNodeID : string; avm_HostNodeID : string; avm_HostNodeIP : string;
avm_HostNodeHostname : string; avm_SpdkSubsysNQN : string; avm_SpdkSvcID : string; avm_SpdkSN : string;
avm_SpdkTransType : string; avm_SpdkBdevName : string; avm_SpdkNsUUID : string; avm_SpdkAddress : string;
avm_CSIStagingPath : string; avm_CSIPublishPath : string; avm_PodNS : string; avm_PodName : string;
avm_Status : string; avm_CreatedAt : Z; avm_UpdatedAt : Z; avm_DeletedAt : Z }.
#[export] Instance AntstorVolumeMapping_eq : EqDecision AntstorVolumeMapping.
Proof. solve_decision. Defined.
(* [syncmeta/types.go:123-125] AntstorVolumeMapping.TableName *)
#[export] Instance avm_bean : Bean AntstorVolumeMapping := {|
  bean_TableName := "antstor_volume";
  bean_fields m := [("id", SInt (avm_ID m)); ("cluster_name", SStr (avm_ClusterName m)); ("name", SStr (avm_Name m));
    ("uid", SStr (avm_UUID m)); ("labels", SStr (avm_Labels m)); ("pvc_ns", SStr (avm_PvcNS m)); ("pvc_name", SStr (avm_PvcName m));
    ("lvol_dev_path", SStr (avm_LvolDevPath m)); ("lvol_name", SStr (avm_LvolName m)); ("is_thin", SInt (avm_IsThin m));
    ("position_advice", SStr (avm_PositionAdvice m)); ("size", SInt (avm_Size m)); ("t_node_id", SStr (avm_TargetNodeID m));
    ("h_node_id", SStr (avm_HostNodeID m)); ("h_node_ip", SStr (avm_HostNodeIP m)); ("h_node_hostname", SStr (avm_HostNodeHostname m));
    ("spdk_subsys_nqn", SStr (avm_SpdkSubsysNQN m)); ("spdk_svc_id", SStr (avm_SpdkSvcID m)); ("spdk_sn", SStr (avm_SpdkSN m));
    ("spdk_trans_type", SStr (avm_SpdkTransType m)); ("spdk_bdev_name", SStr (avm_SpdkBdevName m)); ("spdk_ns_uuid", SStr (avm_SpdkNsUUID m));
    ("spdk_address", SStr (avm_SpdkAddress m)); ("csi_staging_path", SStr (avm_CSIStagingPath m));
    ("csi_publish_path", SStr (avm_CSIPublishPath m)); ("pod_ns", SStr (avm_PodNS m)); ("pod_name", SStr (avm_PodName m));
    ("status", SStr (avm_Status m)); ("created_at", SInt (avm_CreatedAt m)); ("updated_at", SInt (avm_UpdatedAt m));
    ("deleted_at", SInt (avm_DeletedAt m))];
  bean_of r := {| avm_ID := int_of r "id"; avm_ClusterName := str_of r "cluster_name"; avm_Name := str_of r "name";
    avm_UUID := str_of r "uid"; avm_Labels := str_of r "labels"; avm_PvcNS := str_of r "pvc_ns"; avm_PvcName := str_of r "pvc_name";
    avm_LvolDevPath := str_of r "lvol_dev_path"; avm_LvolName := str_of r "lvol_name"; avm_IsThin := int_of r "is_thin";
    avm_PositionAdvice := str_of r "position_advice"; avm_Size := int_of r "size"; avm_TargetNodeID := str_of r "t_node_id";
    avm_HostNodeID := str_of r "h_node_id"; avm_HostNodeIP := str_of r "h_node_ip"; avm_HostNodeHostname := str_of r "h_node_hostname";
    avm_SpdkSubsysNQN := str_of r "spdk_subsys_nqn"; avm_SpdkSvcID := str_of r "spdk_svc_id"; avm_SpdkSN := str_of r "spdk_sn";
    avm_SpdkTransType := str_of r "spdk_trans_type"; avm_SpdkBdevName := str_of r "spdk_bdev_name"; avm_SpdkNsUUID := str_of r "spdk_ns_uuid";
    avm_SpdkAddress := str_of r "spdk_address"; avm_CSIStagingPath := str_of r "csi_staging_path";
    avm_CSIPublishPath := str_of r "csi_publish_path"; avm_PodNS := str_of r "pod_ns"; avm_PodName := str_of r "pod_name";
    avm_Status := str_of r "status"; avm_CreatedAt := int_of r "created_at"; avm_UpdatedAt := int_of r "updated_at";
    avm_DeletedAt := int_of r "deleted_at" |} |}.

(* [syncmeta/types.go:99-117] AntstorSnapshotMapping *)
Record AntstorSnapshotMapping := {
asm_ID : Z; asm_Name : string; asm_ClusterName : string; asm_OriginVolName : string; asm_OriginVolNs : string;
asm_OriginVolTargetNodeID : string; asm_VolType : string; asm_LvolDevPath : string; asm_LvolName : string;
asm_SpdkLvsName : string; asm_SpdkSnapName : string; asm_Size : Z; asm_Status : string;
asm_CreatedAt : Z; asm_UpdatedAt : Z; asm_DeletedAt : Z }.
#[export] Instance AntstorSnapshotMapping_eq : EqDecision AntstorSnapshotMapping.
Proof. solve_decision. Defined.
(* [syncmeta/types.go:127-129] AntstorSnapshotMapping.TableName *)
#[export] Instance asm_bean : Bean AntstorSnapshotMapping := {|
  bean_TableName := "antstor_snapshot";
  bean_fields m := [("id", SInt (asm_ID m)); ("name", SStr (asm_Name m)); ("cluster_name", SStr (asm_ClusterName m));
    ("origin_vol_name", SStr (asm_OriginVolName m)); ("origin_vol_ns", SStr (asm_OriginVolNs m));
    ("origin_vol_t_node_id", SStr (asm_OriginVolTargetNodeID m)); ("vol_type", SStr (asm_VolType m));
    ("lvol_dev_path", SStr (asm_LvolDevPath m)); ("lvol_name", SStr (asm_LvolName m)); ("spdk_lvs_name", SStr (asm_SpdkLvsName m));
    ("spdk_snap_name", SStr (asm_SpdkSnapName m)); ("size", SInt (asm_Size m)); ("status", SStr (asm_Status m));
    ("created_at", SInt (asm_CreatedAt m)); ("updated_at", SInt (asm_UpdatedAt m)); ("deleted_at", SInt (asm_DeletedAt m))];
  bean_of r := {| asm_ID := int_of r "id"; asm_Name := str_of r "name"; asm_ClusterName := str_of r "cluster_name";
    asm_OriginVolName := str_of r "origin_vol_name"; asm_OriginVolNs := str_of r "origin_vol_ns";
    asm_OriginVolTargetNodeID := str_of r "origin_vol_t_node_id"; asm_VolType := str_of r "vol_type";
    asm_LvolDevPath := str_of r "lvol_dev_path"; asm_LvolName := str_of r "lvol_name"; asm_SpdkLvsName := str_of r "spdk_lvs_name";
    asm_SpdkSnapName := str_of r "spdk_snap_name"; asm_Size := int_of r "size"; asm_Status := str_of r "status";
    asm_CreatedAt := int_of r "created_at"; asm_UpdatedAt := int_of r "updated_at"; asm_DeletedAt := int_of r "deleted_at" |} |}.

(* [syncmeta/datacontrol.go:11-40] AntstorDataControlMapping *)
Record AntstorDataControlMapping := {
adm_ID : Z; adm_Name : string; adm_ClusterName : string; adm_UUID : string; adm_RaidLevel : string; adm_TargetNodeId : string;
adm_EngineType : string; adm_LvmVG : string; adm_LvmLV : string; adm_PvcNS : string; adm_PvcName : string;
adm_HostNodeID : string; adm_HostNodeIP : string; adm_HostNodeHostname : string; adm_PodNS : string; adm_PodName : string;
adm_Status : string; adm_CreatedAt : Z; adm_UpdatedAt : Z; adm_DeletedAt : Z }.
#[export] Instance AntstorDataControlMapping_eq : EqDecision AntstorDataControlMapping.
Proof. solve_decision. Defined.
(* [syncmeta/datacontrol.go:42-44] AntstorDataControlMapping.TableName *)
#[export] Instance adm_bean : Bean AntstorDataControlMapping := {|
  bean_TableName := "antstor_datacontrol";
  bean_fields m := [("id", SInt (adm_ID m)); ("name", SStr (adm_Name m)); ("cluster_name", SStr (adm_ClusterName m));
    ("uid", SStr (adm_UUID m)); ("raid_level", SStr (adm_RaidLevel m)); ("t_node_id", SStr (adm_TargetNodeId m));
    ("engine_type", SStr (adm_EngineType m)); ("lvm_vg", SStr (adm_LvmVG m)); ("lvm_lv", SStr (adm_LvmLV m));
    ("pvc_ns", SStr (adm_PvcNS m)); ("pvc_name", SStr (adm_PvcName m)); ("h_node_id", SStr (adm_HostNodeID m));
    ("h_node_ip", SStr (adm_HostNodeIP m)); ("h_node_hostname", SStr (adm_HostNodeHostname m)); ("pod_ns", SStr (adm_PodNS m));
    ("pod_name", SStr (adm_PodName m)); ("status", SStr (adm_Status m)); ("created_at", SInt (adm_CreatedAt m));
    ("updated_at", SInt (adm_UpdatedAt m)); ("deleted_at", SInt (adm_DeletedAt m))];
  bean_of r := {| adm_ID := int_of r "id"; adm_Name := str_of r "name"; adm_ClusterName := str_of r "cluster_name";
    adm_UUID := str_of r "uid"; adm_RaidLevel := str_of r "raid_level"; adm_TargetNodeId := str_of r "t_node_id";
    adm_EngineType := str_of r "engine_type"; adm_LvmVG := str_of r "lvm_vg"; adm_LvmLV := str_of r "lvm_lv";
    adm_PvcNS := str_of r "pvc_ns"; adm_PvcName := str_of r "pvc_name"; adm_HostNodeID := str_of r "h_node_id";
    adm_HostNodeIP := str_of r "h_node_ip"; adm_HostNodeHostname := str_of r "h_node_hostname"; adm_PodNS := str_of r "pod_ns";
    adm_PodName := str_of r "pod_name"; adm_Status := str_of r "status"; adm_CreatedAt := int_of r "created_at";
    adm_UpdatedAt := int_of r "updated_at"; adm_DeletedAt := int_of r "deleted_at" |} |}.

(* [syncmeta/volgroup.go:12-30] AntstorVolumeGroupMapping *)
Record AntstorVolumeGroupMapping := {
agm_ID : Z; agm_Name : string; agm_ClusterName : string; agm_UUID : string; agm_Size : Z; agm_DataControlName : string;
agm_Volumes : string; agm_Status : string; agm_CreatedAt : Z; agm_UpdatedAt : Z; agm_DeletedAt : Z }.
#[export] Instance AntstorVolumeGroupMapping_eq : EqDecision AntstorVolumeGroupMapping.
Proof. solve_decision. Defined.
(* [syncmeta/volgroup.go:32-34] AntstorVolumeGroupMapping.TableName *)
#[export] Instance agm_bean : Bean AntstorVolumeGroupMapping := {|
  bean_TableName := "antstor_volgroup";
  bean_fields m := [("id", SInt (agm_ID m)); ("name", SStr (agm_Name m)); ("cluster_name", SStr (agm_ClusterName m));
    ("uid", SStr (agm_UUID m)); ("size", SInt (agm_Size m)); ("data_control_name", SStr (agm_DataControlName m));
    ("volumes", SStr (agm_Volumes m)); ("status", SStr (agm_Status m)); ("created_at", SInt (agm_CreatedAt m));
    ("updated_at", SInt (agm_UpdatedAt m)); ("deleted_at", SInt (agm_DeletedAt m))];
  bean_of r := {| agm_ID := int_of r "id"; agm_Name := str_of r "name"; agm_ClusterName := str_of r "cluster_name";
    agm_UUID := str_of r "uid"; agm_Size := int_of r "size"; agm_DataControlName := str_of r "data_control_name";
    agm_Volumes := str_of r "volumes"; agm_Status := str_of r "status"; agm_CreatedAt := int_of r "created_at";
    agm_UpdatedAt := int_of r "updated_at"; agm_DeletedAt := int_of r "deleted_at" |} |}.

(** ** Objects as rows *)

Section mappings.
Context {L : K8sLib} (clusterName : string).

(* [syncmeta/types.go:135-168] ToStoragePoolMapping *)
Definition ToStoragePoolMapping (sp : StoragePool) : StoragePoolMapping :=
  let freeVg := f64_to_int64 (Quantity_AsApproximateFloat64 (spst_VGFreeSize (sp_Status sp))) in
  let lvm := sps_KernelLVM (sp_Spec sp) in
  let lvs := sps_SpdkLVStore (sp_Spec sp) in
  let '(vgType, vgName) := if decide (klvm_Name lvm ≠ "") then (VolumeTypeKernelLVol, klvm_Name lvm) else ("", "") in
  let '(vgType, vgName) := if decide (lvst_Name lvs ≠ "") then (VolumeTypeSpdkLVol, lvst_Name lvs) else (vgType, vgName) in
  {| spm_ID := 0; spm_ClusterName := clusterName; spm_Name := om_Name (sp_meta sp); spm_VGType := vgType; spm_VGName := vgName;
     spm_ReservedVol := json_list json_lvol (klvm_ReservedLVol lvm); spm_TotalSize := uwrap64 (GetVgTotalBytes sp);
     spm_FreeSize := uwrap64 freeVg; spm_NodeID := ni_ID (sps_NodeInfo (sp_Spec sp)); spm_NodeIP := ni_IP (sps_NodeInfo (sp_Spec sp));
     spm_NodeHostname := ni_Hostname (sps_NodeInfo (sp_Spec sp)); spm_Status := spst_Status (sp_Status sp);
     spm_CreatedAt := 0; spm_UpdatedAt := 0; spm_DeletedAt := 0 |}.
(** The copies of the pointers' targets are read, never written: what the code
    puts into the copied map does not reach the row. *)
(* [syncmeta/types.go:170-251] ToAntstorVolumeMapping *)
Definition ToAntstorVolumeMapping (vol : AntstorVolume) : AntstorVolumeMapping :=
  let spec := vol_Spec vol in
  let hostNode := default NodeInfo_zero (vs_HostNode spec) in
  let devPath := match vs_KernelLvol spec with Some k => kl_DevPath k | None => "" end in
  let lvolName := match vs_KernelLvol spec with Some k => kl_Name k | None => "" end in
  let lvolName := match vs_SpdkLvol spec with Some l => sl_LvsName l | None => lvolName end in
  let spdk := default SpdkTarget_zero (vs_SpdkTarget spec) in
  let csi := vst_CSINodePubParams (vol_Status vol) in
  let context := match csi with Some c => cnp_CSIVolumeContext c | None => None end in
  let labels := om_Labels (vol_meta vol) in
  {| avm_ID := 0; avm_ClusterName := clusterName; avm_Name := vol_Name vol; avm_UUID := vs_Uuid spec;
     avm_Labels := if map_is_nil labels then "{}" else json_print (json_map labels);
     avm_PvcNS := map_str labels VolumeContextKeyPvcNS; avm_PvcName := map_str labels VolumeContextKeyPvcName;
     avm_LvolDevPath := devPath; avm_LvolName := lvolName; avm_IsThin := 0;
     avm_PositionAdvice := vs_PositionAdvice spec; avm_Size := vs_SizeByte spec; avm_TargetNodeID := vs_TargetNodeId spec;
     avm_HostNodeID := ni_ID hostNode; avm_HostNodeIP := ni_IP hostNode; avm_HostNodeHostname := ni_Hostname hostNode;
     avm_SpdkSubsysNQN := tgt_SubsysNQN spdk; avm_SpdkSvcID := tgt_SvcID spdk; avm_SpdkSN := tgt_SerialNum spdk;
     avm_SpdkTransType := tgt_TransType spdk; avm_SpdkBdevName := tgt_BdevName spdk; avm_SpdkNsUUID := tgt_NSUUID spdk;
     avm_SpdkAddress := tgt_Address spdk;
     avm_CSIStagingPath := match csi with Some c => cnp_StagingTargetPath c | None => "" end;
     avm_CSIPublishPath := match csi with Some c => cnp_TargetPath c | None => "" end;
     avm_PodNS := map_str context VolumeContextKeyPodNS; avm_PodName := map_str context VolumeContextKeyPodName;
     avm_Status := vst_Status (vol_Status vol); avm_CreatedAt := 0; avm_UpdatedAt := 0; avm_DeletedAt := 0 |}.
(* [syncmeta/types.go:277-293] ToAntstorSnapshotMapping *)
Definition ToAntstorSnapshotMapping (snap : AntstorSnapshot) : AntstorSnapshotMapping :=
  let spec := snap_Spec snap in
  {| asm_ID := 0; asm_Name := om_Name (snap_meta snap); asm_ClusterName := clusterName; asm_OriginVolName := ss_OriginVolName spec;
     asm_OriginVolNs := ss_OriginVolNamespace spec; asm_OriginVolTargetNodeID := ss_OriginVolTargetNodeID spec;
     asm_VolType := ss_VolType spec; asm_LvolDevPath := kl_DevPath (ss_KernelLvol spec); asm_LvolName := kl_Name (ss_KernelLvol spec);
     asm_SpdkLvsName := sl_LvsName (ss_SpdkLvol spec); asm_SpdkSnapName := sl_Name (ss_SpdkLvol spec); asm_Size := ss_Size spec;
     asm_Status := sst_Status (snap_Status snap); asm_CreatedAt := 0; asm_UpdatedAt := 0; asm_DeletedAt := 0 |}.
(* [syncmeta/datacontrol.go:46-89] ToAntstorDataControlMapping *)
Definition ToAntstorDataControlMapping (ad : AntstorDataControl) : AntstorDataControlMapping :=
  let spec := dc_Spec ad in
  let context := match dcst_CSINodePubParams (dc_Status ad) with Some c => cnp_CSIVolumeContext c | None => None end in
  let labels := om_Labels (dc_meta ad) in
  {| adm_ID := 0; adm_Name := om_Name (dc_meta ad); adm_ClusterName := clusterName; adm_UUID := dcs_UUID spec;
     adm_RaidLevel := raid_Level (dcs_Raid spec); adm_TargetNodeId := dcs_TargetNodeId spec; adm_EngineType := dcs_EngineType spec;
     adm_LvmVG := match dcs_LVM spec with Some l => lvmc_VG l | None => "" end;
     adm_LvmLV := match dcs_LVM spec with Some l => lvmc_LVol l | None => "" end;
     adm_PvcNS := map_str labels VolumeContextKeyPvcNS; adm_PvcName := map_str labels VolumeContextKeyPvcName;
     adm_HostNodeID := ni_ID (dcs_HostNode spec); adm_HostNodeIP := ni_IP (dcs_HostNode spec);
     adm_HostNodeHostname := ni_Hostname (dcs_HostNode spec); adm_PodNS := map_str context VolumeContextKeyPodNS;
     adm_PodName := map_str context VolumeContextKeyPodName; adm_Status := dcst_Status (dc_Status ad);
     adm_CreatedAt := 0; adm_UpdatedAt := 0; adm_DeletedAt := 0 |}.
(* [syncmeta/volgroup.go:36-57] ToAntstorVolumeGroupMapping *)
Definition ToAntstorVolumeGroupMapping (avg : AntstorVolumeGroup) : AntstorVolumeGroupMapping :=
  {| agm_ID := 0; agm_Name := om_Name (vg_meta avg); agm_ClusterName := clusterName; agm_UUID := vgsp_Uuid (vg_Spec avg);
     agm_Size := vgsp_TotalSize (vg_Spec avg); agm_DataControlName := map_str (om_Labels (vg_meta avg)) DataControlNameKey;
     agm_Volumes := json_list json_volume_meta (vgsp_Volumes (vg_Spec avg)); agm_Status := vgst_Status (vg_Status avg);
     agm_CreatedAt := 0; agm_UpdatedAt := 0; agm_DeletedAt := 0 |}.
End mappings.

(** ** What a row needs to be kept up to date *)

(** Creation, update and deletion times and the status of a row, and the struct
    whose fields select the rows an update is for. *)
Class MetaBean (M : Type) `{Bean M} := {
  mb_CreatedAt : M → Z;
  mb_UpdatedAt : M → Z;
  mb_DeletedAt : M → Z;
  mb_Status : M → string;
  mb_times : Z → Z → M → M;
  mb_deletion : Z → string → M → M;
  mb_key : M → list (string * SqlVal);
}.
(** A struct with some fields set and the others zero. *)
Definition bean_with {M} `{Bean M} (fields : list (string * SqlVal)) : M := bean_of (list_to_map fields).
Definition by_name (cluster name : string) : list (string * SqlVal) := [("cluster_name", SStr cluster); ("name", SStr name)].
#[export] Instance spm_meta : MetaBean StoragePoolMapping := {|
  mb_CreatedAt := spm_CreatedAt; mb_UpdatedAt := spm_UpdatedAt; mb_DeletedAt := spm_DeletedAt; mb_Status := spm_Status;
  mb_times c u m := {| spm_ID := spm_ID m; spm_ClusterName := spm_ClusterName m; spm_Name := spm_Name m; spm_VGType := spm_VGType m;
    spm_VGName := spm_VGName m; spm_ReservedVol := spm_ReservedVol m; spm_TotalSize := spm_TotalSize m; spm_FreeSize := spm_FreeSize m;
    spm_NodeID := spm_NodeID m; spm_NodeIP := spm_NodeIP m; spm_NodeHostname := spm_NodeHostname m; spm_Status := spm_Status m;
    spm_CreatedAt := c; spm_UpdatedAt := u; spm_DeletedAt := spm_DeletedAt m |};
  mb_deletion d st m := {| spm_ID := spm_ID m; spm_ClusterName := spm_ClusterName m; spm_Name := spm_Name m; spm_VGType := spm_VGType m;
    spm_VGName := spm_VGName m; spm_ReservedVol := spm_ReservedVol m; spm_TotalSize := spm_TotalSize m; spm_FreeSize := spm_FreeSize m;
    spm_NodeID := spm_NodeID m; spm_NodeIP := spm_NodeIP m; spm_NodeHostname := spm_NodeHostname m; spm_Status := st;
    spm_CreatedAt := spm_CreatedAt m; spm_UpdatedAt := spm_UpdatedAt m; spm_DeletedAt := d |};
  mb_key m := by_name (spm_ClusterName m) (spm_Name m) |}.
#[export] Instance avm_meta : MetaBean AntstorVolumeMapping :=
  let set c u d st m := {| avm_ID := avm_ID m; avm_ClusterName := avm_ClusterName m; avm_Name := avm_Name m; avm_UUID := avm_UUID m;
    avm_Labels := avm_Labels m; avm_PvcNS := avm_PvcNS m; avm_PvcName := avm_PvcName m; avm_LvolDevPath := avm_LvolDevPath m;
    avm_LvolName := avm_LvolName m; avm_IsThin := avm_IsThin m; avm_PositionAdvice := avm_PositionAdvice m; avm_Size := avm_Size m;
    avm_TargetNodeID := avm_TargetNodeID m; avm_HostNodeID := avm_HostNodeID m; avm_HostNodeIP := avm_HostNodeIP m;
    avm_HostNodeHostname := avm_HostNodeHostname m; avm_SpdkSubsysNQN := avm_SpdkSubsysNQN m; avm_SpdkSvcID := avm_SpdkSvcID m;
    avm_SpdkSN := avm_SpdkSN m; avm_SpdkTransType := avm_SpdkTransType m; avm_SpdkBdevName := avm_SpdkBdevName m;
    avm_SpdkNsUUID := avm_SpdkNsUUID m; avm_SpdkAddress := avm_SpdkAddress m; avm_CSIStagingPath := avm_CSIStagingPath m;
    avm_CSIPublishPath := avm_CSIPublishPath m; avm_PodNS := avm_PodNS m; avm_PodName := avm_PodName m; avm_Status := st;
    avm_CreatedAt := c; avm_UpdatedAt := u; avm_DeletedAt := d |} in {|
  mb_CreatedAt := avm_CreatedAt; mb_UpdatedAt := avm_UpdatedAt; mb_DeletedAt := avm_DeletedAt; mb_Status := avm_Status;
  mb_times c u m := set c u (avm_DeletedAt m) (avm_Status m) m;
  mb_deletion d st m := set (avm_CreatedAt m) (avm_UpdatedAt m) d st m;
  mb_key m := by_name (avm_ClusterName m) (avm_Name m) |}.
#[export] Instance asm_meta : MetaBean AntstorSnapshotMapping :=
  let set c u d st m := {| asm_ID := asm_ID m; asm_Name := asm_Name m; asm_ClusterName := asm_ClusterName m;
    asm_OriginVolName := asm_OriginVolName m; asm_OriginVolNs := asm_OriginVolNs m; asm_OriginVolTargetNodeID := asm_OriginVolTargetNodeID m;
    asm_VolType := asm_VolType m; asm_LvolDevPath := asm_LvolDevPath m; asm_LvolName := asm_LvolName m; asm_SpdkLvsName := asm_SpdkLvsName m;
    asm_SpdkSnapName := asm_SpdkSnapName m; asm_Size := asm_Size m; asm_Status := st; asm_CreatedAt := c; asm_UpdatedAt := u; asm_DeletedAt := d |} in {|
  mb_CreatedAt := asm_CreatedAt; mb_UpdatedAt := asm_UpdatedAt; mb_DeletedAt := asm_DeletedAt; mb_Status := asm_Status;
  mb_times c u m := set c u (asm_DeletedAt m) (asm_Status m) m;
  mb_deletion d st m := set (asm_CreatedAt m) (asm_UpdatedAt m) d st m;
  mb_key m := [("cluster_name", SStr (asm_ClusterName m)); ("origin_vol_name", SStr (asm_OriginVolName m)); ("origin_vol_ns", SStr (asm_OriginVolNs m))] |}.
#[export] Instance adm_meta : MetaBean AntstorDataControlMapping :=
  let set c u d st m := {| adm_ID := adm_ID m; adm_Name := adm_Name m; adm_ClusterName := adm_ClusterName m; adm_UUID := adm_UUID m;
    adm_RaidLevel := adm_RaidLevel m; adm_TargetNodeId := adm_TargetNodeId m; adm_EngineType := adm_EngineType m; adm_LvmVG := adm_LvmVG m;
    adm_LvmLV := adm_LvmLV m; adm_PvcNS := adm_PvcNS m; adm_PvcName := adm_PvcName m; adm_HostNodeID := adm_HostNodeID m;
    adm_HostNodeIP := adm_HostNodeIP m; adm_HostNodeHostname := adm_HostNodeHostname m; adm_PodNS := adm_PodNS m; adm_PodName := adm_PodName m;
    adm_Status := st; adm_CreatedAt := c; adm_UpdatedAt := u; adm_DeletedAt := d |} in {|
  mb_CreatedAt := adm_CreatedAt; mb_UpdatedAt := adm_UpdatedAt; mb_DeletedAt := adm_DeletedAt; mb_Status := adm_Status;
  mb_times c u m := set c u (adm_DeletedAt m) (adm_Status m) m;
  mb_deletion d st m := set (adm_CreatedAt m) (adm_UpdatedAt m) d st m;
  mb_key m := by_name (adm_ClusterName m) (adm_Name m) |}.
#[export] Instance agm_meta : MetaBean AntstorVolumeGroupMapping :=
  let set c u d st m := {| agm_ID := agm_ID m; agm_Name := agm_Name m; agm_ClusterName := agm_ClusterName m; agm_UUID := agm_UUID m;
    agm_Size := agm_Size m; agm_DataControlName := agm_DataControlName m; agm_Volumes := agm_Volumes m; agm_Status := st;
    agm_CreatedAt := c; agm_UpdatedAt := u; agm_DeletedAt := d |} in {|
  mb_CreatedAt := agm_CreatedAt; mb_UpdatedAt := agm_UpdatedAt; mb_DeletedAt := agm_DeletedAt; mb_Status := agm_Status;
  mb_times c u m := set c u (agm_DeletedAt m) (agm_Status m) m;
  mb_deletion d st m := set (agm_CreatedAt m) (agm_UpdatedAt m) d st m;
  mb_key m := by_name (agm_ClusterName m) (agm_Name m) |}.

(** ** SQL *)

Section sql.
Context {W : Type} {X : XormSession W} (now : Z).

Section bean.
Context {M : Type} `{MB : MetaBean M}.
Definition sql_get (cluster name : string) : go W (result (option M)) :=
  r ← xs_Get (bean_TableName (M := M)) (by_name cluster name);
  mret (match r with inl row => inl (bean_of <$> row) | inr e => inr e end).
Definition sql_create (m : M) : go W (option error) :=
  xs_InsertOne (bean_TableName (M := M)) (bean_fields (mb_times now now m)).
(** The rows are selected by the struct with the fields of the key, where a
    field that is zero selects nothing. *)
Definition sql_where (m : M) : list (string * SqlVal) := condition (bean_with (M := M) (mb_key m)).
Definition sql_update (cols : list string) (m : M) : go W (option error) :=
  xs_Update (bean_TableName (M := M)) cols (bean_fields (mb_times (mb_CreatedAt m) now m)) (sql_where m).
Definition sql_mark (m : M) : go W (option error) :=
  let delAt := if decide (mb_DeletedAt m = 0%Z) then now else mb_DeletedAt m in
  xs_Update (bean_TableName (M := M)) ["status"; "deleted_at"]
    (bean_fields (mb_deletion delAt (mb_Status m) (bean_with (M := M) []))) (sql_where m).
End bean.

(* [syncmeta/sql.go:51-55] GetStoragePool *)
Definition GetStoragePool : string → string → go W (result (option StoragePoolMapping)) := sql_get.
(* [syncmeta/sql.go:63-69] CreateStoragePool *)
Definition CreateStoragePool : StoragePoolMapping → go W (option error) := sql_create.
Definition pool_data : list string := ["vg_type"; "vg_name"; "reserved_vol"; "total_size"; "node_ip"; "node_hostname"; "free_size"; "status"].
(* [syncmeta/sql.go:71-78] UpdateStoragePool *)
Definition UpdateStoragePool : StoragePoolMapping → go W (option error) :=
  sql_update (pool_data ++ ["updated_at"]).
(* [syncmeta/sql.go:80-101] MarkDeleteStoragePool *)
Definition MarkDeleteStoragePool : StoragePoolMapping → go W (option error) := sql_mark.
(* [syncmeta/sql.go:105-126] MarkDeleteAntstorVolume *)
Definition MarkDeleteAntstorVolume : AntstorVolumeMapping → go W (option error) := sql_mark.
(** The namespace is not a column. *)
(* [syncmeta/sql.go:128-132] GetAntstorVolume *)
Definition GetAntstorVolume (cluster ns name : string) : go W (result (option AntstorVolumeMapping)) := sql_get cluster name.
(* [syncmeta/sql.go:140-146] CreateAntstorVolume *)
Definition CreateAntstorVolume : AntstorVolumeMapping → go W (option error) := sql_create.
Definition volume_data : list string :=
  ["uid"; "labels"; "pvc_ns"; "pvc_name"; "lvol_dev_path"; "lvol_name"; "is_thin"; "position_advice"; "size";
   "t_node_id"; "h_node_id"; "h_node_ip"; "h_node_hostname"; "spdk_subsys_nqn"; "spdk_svc_id"; "spdk_sn"; "spdk_trans_type";
   "spdk_bdev_name"; "spdk_ns_uuid"; "spdk_address"; "csi_staging_path"; "csi_publish_path"; "pod_ns"; "pod_name"; "status"].
(* [syncmeta/sql.go:148-159] UpdateAntstorVolume *)
Definition UpdateAntstorVolume : AntstorVolumeMapping → go W (option error) := sql_update (volume_data ++ ["updated_at"]).
(* [syncmeta/sql.go:179-183] GetAntstorSnapshotByName *)
Definition GetAntstorSnapshotByName : string → string → go W (result (option AntstorSnapshotMapping)) := sql_get.
(* [syncmeta/sql.go:191-197] CreateAntstorSnapshot *)
Definition CreateAntstorSnapshot : AntstorSnapshotMapping → go W (option error) := sql_create.
(* [syncmeta/sql.go:199-209] UpdateAntstorSnapshot *)
Definition UpdateAntstorSnapshot : AntstorSnapshotMapping → go W (option error) :=
  sql_update ["vol_type"; "lvol_dev_path"; "lvol_name"; "size"; "status"; "updated_at"].
(* [syncmeta/sql.go:211-236] MarkDeleteAntstorSnapshot *)
Definition MarkDeleteAntstorSnapshot : AntstorSnapshotMapping → go W (option error) := sql_mark.
(* [syncmeta/datacontrol.go:93-114] MarkDeleteAntstorDataControl *)
Definition MarkDeleteAntstorDataControl : AntstorDataControlMapping → go W (option error) := sql_mark.
(* [syncmeta/datacontrol.go:116-120] GetAntstorDataControl *)
Definition GetAntstorDataControl (cluster ns name : string) : go W (result (option AntstorDataControlMapping)) := sql_get cluster name.
(* [syncmeta/datacontrol.go:122-128] CreateAntstorDataControl *)
Definition CreateAntstorDataControl : AntstorDataControlMapping → go W (option error) := sql_create.
Definition control_data : list string :=
  ["uid"; "pvc_ns"; "pvc_name"; "t_node_id"; "h_node_id"; "h_node_ip"; "h_node_hostname"; "raid_level"; "engine_type";
   "lvm_vg"; "lvm_lv"; "pod_ns"; "pod_name"; "status"].
(* [syncmeta/datacontrol.go:130-141] UpdateAntstorDataControl *)
Definition UpdateAntstorDataControl : AntstorDataControlMapping → go W (option error) :=
  sql_update (control_data ++ ["updated_at"]).
(* [syncmeta/volgroup.go:61-82] MarkDeleteAntstorVolumeGroup *)
Definition MarkDeleteAntstorVolumeGroup : AntstorVolumeGroupMapping → go W (option error) := sql_mark.
(* [syncmeta/volgroup.go:84-88] GetAntstorVolumeGroup *)
Definition GetAntstorVolumeGroup (cluster ns name : string) : go W (result (option AntstorVolumeGroupMapping)) := sql_get cluster name.
(* [syncmeta/volgroup.go:90-96] CreateAntstorVolumeGroup *)
Definition CreateAntstorVolumeGroup : AntstorVolumeGroupMapping → go W (option error) := sql_create.
Definition group_data : list string := ["uid"; "size"; "data_control_name"; "volumes"; "status"].
(* [syncmeta/volgroup.go:98-107] UpdateAntstorVolumeGroup *)
Definition UpdateAntstorVolumeGroup : AntstorVolumeGroupMapping → go W (option error) :=
  sql_update (group_data ++ ["updated_at"]).
End sql.

(** ** The syncer *)

Section syncer.
Context {L : K8sLib} {W : Type} {X : XormSession W} (K8SCluster : string) (now : Z).

(** A deleted object's row is marked; otherwise the row is inserted, or updated
    when it is not what the object says. The row's times are kept. *)
Definition sync_row {M} `{MB : MetaBean M} `{EqDecision M} (m : M) (deletedAs : option string) (mark : M → go W (option error))
    (get : go W (result (option M))) (create update : M → go W (option error)) : go W (option error) :=
  match deletedAs with
  | Some status => mark (mb_deletion now status m)
  | None =>
      r ← get;
      match r with
      | inr e => mret (Some e)
      | inl None => create m
      | inl (Some fromDB) =>
          let m := mb_times (mb_CreatedAt fromDB) (mb_UpdatedAt fromDB) m in
          if decide (m = fromDB) then mret None else update m
      end
  end.
Definition deleted_as (meta : ObjectMeta) (status : string) : option string :=
  match om_DeletionTimestamp meta with Some _ => Some status | None => None end.
(* [syncmeta/syncer.go:66-101] OBSyncer.syncStoragePool *)
Definition syncStoragePool (sp : StoragePool) : go W (option error) :=
  let m := ToStoragePoolMapping K8SCluster sp in
  sync_row m (deleted_as (sp_meta sp) (spm_Status m)) (MarkDeleteStoragePool now)
    (GetStoragePool K8SCluster (om_Name (sp_meta sp))) (CreateStoragePool now) (UpdateStoragePool now).
(* [syncmeta/syncer.go:103-143] OBSyncer.syncAntstorVolume *)
Definition syncAntstorVolume (vol : AntstorVolume) : go W (option error) :=
  sync_row (ToAntstorVolumeMapping K8SCluster vol) (deleted_as (vol_meta vol) VolumeStatusDeleted) (MarkDeleteAntstorVolume now)
    (GetAntstorVolume K8SCluster (om_Namespace (vol_meta vol)) (vol_Name vol)) (CreateAntstorVolume now) (UpdateAntstorVolume now).
(* [syncmeta/syncer.go:145-177] OBSyncer.syncAntstorSnapshot *)
Definition syncAntstorSnapshot (snap : AntstorSnapshot) : go W (option error) :=
  sync_row (ToAntstorSnapshotMapping K8SCluster snap) (deleted_as (snap_meta snap) SnapshotStatusDeleted) (MarkDeleteAntstorSnapshot now)
    (GetAntstorSnapshotByName K8SCluster (om_Name (snap_meta snap))) (CreateAntstorSnapshot now) (UpdateAntstorSnapshot now).
(* [syncmeta/syncer.go:179-211] OBSyncer.syncAntstorDataControl *)
Definition syncAntstorDataControl (dc : AntstorDataControl) : go W (option error) :=
  sync_row (ToAntstorDataControlMapping K8SCluster dc) (deleted_as (dc_meta dc) VolumeStatusDeleted) (MarkDeleteAntstorDataControl now)
    (GetAntstorDataControl K8SCluster (om_Namespace (dc_meta dc)) (om_Name (dc_meta dc))) (CreateAntstorDataControl now) (UpdateAntstorDataControl now).
(* [syncmeta/syncer.go:213-245] OBSyncer.syncAntstorVolumeGroup *)
Definition syncAntstorVolumeGroup (vg : AntstorVolumeGroup) : go W (option error) :=
  sync_row (ToAntstorVolumeGroupMapping K8SCluster vg) (deleted_as (vg_meta vg) VolumeStatusDeleted) (MarkDeleteAntstorVolumeGroup now)
    (GetAntstorVolumeGroup K8SCluster (om_Namespace (vg_meta vg)) (om_Name (vg_meta vg))) (CreateAntstorVolumeGroup now) (UpdateAntstorVolumeGroup now).
(* [syncmeta/syncer.go:50-64] OBSyncer.Sync *)
Definition Sync (obj : Object) : go W (option error) :=
  match obj with
  | OPool sp => syncStoragePool sp
  | OVolume vol => syncAntstorVolume vol
  | OSnapshot snap => syncAntstorSnapshot snap
  | ODataControl dc => syncAntstorDataControl dc
  | OVolumeGroup vg => syncAntstorVolumeGroup vg
  | OMigration _ | ONil => mret None
  end.
End syncer.

(** ** The garbage cleaner *)

(** [strconv.Quote]; bytes that are not ASCII are kept, as they are in printable text. *)
Definition quote_char (c : Ascii.ascii) : string :=
  let n := Ascii.nat_of_ascii c in
  if decide (n = 34) then "\" +:+ dquote
  else if decide (n = 92) then "\\"
  else if decide (n = 7) then "\a" else if decide (n = 8) then "\b" else if decide (n = 12) then "\f"
  else if decide (n = 10) then "\n" else if decide (n = 13) then "\r" else if decide (n = 9) then "\t" else if decide (n = 11) then "\v"
  else if decide (n < 32 ∨ n = 127)%nat then "\x" +:+ hex_digit (n / 16) +:+ hex_digit (n mod 16)
  else String c "".
Fixpoint quote_text (s : string) : string :=
  match s with EmptyString => EmptyString | String c s' => quote_char c +:+ quote_text s' end.
Definition strconv_Quote (s : string) : string := dquote +:+ quote_text s +:+ dquote.
(** [fmt.Sprintf] with the verbs [%s] and [%d]; a verb without an argument is
    reported in the text. *)
Definition percent : Ascii.ascii := Ascii.ascii_of_nat 37.
Fixpoint Sprintf (f : string) (args : list string) : string :=
  match f with
  | String c ((String v f') as rest) =>
      if decide (c = percent) then
        match args with
        | a :: args' => a +:+ Sprintf f' args'
        | [] => "%!" +:+ String v "(MISSING)" +:+ Sprintf f' []
        end
      else String c (Sprintf rest args)
  | _ => f
  end.
(* [syncmeta/sql.go:274-283] quoteStringArg *)
Definition quoteStringArg (args : list SqlVal) : list string :=
  (λ a, match a with SStr s => strconv_Quote s | SInt z => Itoa z end) <$> args.
(* [syncmeta/sql.go:285-297] replaceArgs *)
Definition replaceArgs (sql : string) (args : list SqlVal) : string :=
  foldl (λ sql a, replace_first sql "?" (match a with SStr _ => "%s" | SInt _ => "%d" end)) sql args.

(** [builder.BuildSelect] of the module gendry: the statement, with a question
    mark for every value. *)
Class SqlBuilder := {
  BuildSelect : string → gmap string SqlVal → list string → result (string * list SqlVal);
}.

Section cleaner.
Context {L : K8sLib} {W : Type} {X : XormSession W} {B : SqlBuilder} (K8SCluster : string) (now : Z).
Context {KP : KubeClient W StoragePool} {KV : KubeClient W AntstorVolume}.

Definition selectFields : list string := ["id"; "cluster_name"; "name"; "status"; "created_at"; "updated_at"; "deleted_at"].
Definition list_brief (table : string) (where_ : gmap string SqlVal) : go W (result (list ObjectMetaBrief)) :=
  match BuildSelect table where_ selectFields with
  | inr e => mret (inr e)
  | inl (sql, values) =>
      r ← xs_Find (Sprintf (replaceArgs sql values) (quoteStringArg values));
      mret (match r with inl rows => inl (brief_of <$> rows) | inr e => inr e end)
  end.
(* [syncmeta/sql.go:15-29] ListAntstorVolumeBriefByCondition *)
Definition ListAntstorVolumeBriefByCondition : gmap string SqlVal → go W (result (list ObjectMetaBrief)) := list_brief "antstor_volume".
(* [syncmeta/sql.go:33-47] ListStoragePoolBriefByCondition *)
Definition ListStoragePoolBriefByCondition : gmap string SqlVal → go W (result (list ObjectMetaBrief)) := list_brief "storage_pool".

(** What the server says of the object of a row: the time and the status to
    mark the row with, if it is deleted. *)
Definition gone_as (got : result ObjectMeta) (row : ObjectMetaBrief) (status : string) : option (Z * string) :=
  match got with
  | inl meta => match om_DeletionTimestamp meta with Some t => Some (t, omb_Status row) | None => None end
  | inr e => if IsNotFound e then Some (now, status) else None
  end.
(** The rows one after the other; the error is that of the last mark. *)
Fixpoint clean_rows {M} `{MB : MetaBean M} (get : string → go W (result ObjectMeta)) (mark : M → go W (option error))
    (status : string) (rows : list ObjectMetaBrief) (err : option error) : go W (option error) :=
  match rows with
  | [] => mret err
  | row :: rest =>
      got ← get (omb_Name row);
      match gone_as got row status with
      | None => clean_rows get mark status rest err
      | Some (deletedAt, st) =>
          err ← mark (bean_with (by_name (omb_ClusterName row) (omb_Name row) ++ [("status", SStr st); ("deleted_at", SInt deletedAt)]));
          clean_rows get mark status rest err
      end
  end.
Definition meta_of {T} (meta : T → ObjectMeta) (get : go W (result T)) : go W (result ObjectMeta) :=
  r ← get; mret (match r with inl o => inl (meta o) | inr e => inr e end).
Definition one_day : Z := 86400.
(* [syncmeta/gb_clean.go:47-107] GarbageCleaner.cleanStoragePool *)
Definition cleanStoragePool : go W (option error) :=
  r ← ListStoragePoolBriefByCondition (<["cluster_name" := SStr K8SCluster]> (<["updated_at <" := SInt (now - one_day)]> {[ "deleted_at" := SInt 0 ]}));
  match r with
  | inr e => mret (Some e)
  | inl spList => clean_rows (λ name, meta_of sp_meta (kGet DefaultNamespace name)) (MarkDeleteStoragePool now) PoolStatusOffline spList None
  end.
(* [syncmeta/gb_clean.go:109-169] GarbageCleaner.cleanAntstorVolume *)
Definition cleanAntstorVolume : go W (option error) :=
  r ← ListAntstorVolumeBriefByCondition (<["cluster_name" := SStr K8SCluster]> (<["status <>" := SStr VolumeStatusDeleted]>
        (<["updated_at <" := SInt (now - one_day)]> {[ "deleted_at" := SInt 0 ]})));
  match r with
  | inr e => mret (Some e)
  | inl avList => clean_rows (λ name, meta_of vol_meta (kGet DefaultNamespace name)) (MarkDeleteAntstorVolume now) VolumeStatusDeleted avList None
  end.
(** One turn of the loop: the errors are only logged. *)
(* [syncmeta/gb_clean.go:30-45] GarbageCleaner.Run *)
Definition clean_once : go W unit := _ ← cleanStoragePool; _ ← cleanAntstorVolume; mret tt.
End cleaner.

(** ** A database *)

Definition fields {M} `{Bean M} (m : M) : Row := list_to_map (bean_fields m).
Definition matches (where_ : list (string * SqlVal)) (r : Row) : bool := forallb (λ kv, bool_decide (r !! kv.1 = Some kv.2)) where_.
Definition set_col (bean : Row) (c : string) (r : Row) : Row := match bean !! c with Some v => <[c := v]> r | None => r end.
Definition set_cols (cols : list string) (bean : Row) (r : Row) : Row := foldr (set_col bean) r cols.

(** A session that finds, inserts and updates rows as it is documented; an
    inserted row gets a number. *)
Class XormLaws {W : Type} (X : XormSession W) := {
  xl_rows : W → string → list Row;
  xl_get t where_ w : ∃ ans w', xs_Get t where_ w = Ret (inl ans) w' ∧ (∀ t', xl_rows w' t' = xl_rows w t') ∧
    match ans with
    | None => Forall (λ r, matches where_ r = false) (xl_rows w t)
    | Some r => r ∈ xl_rows w t ∧ matches where_ r = true
    end;
  xl_insert t bean w : ∃ id w', xs_InsertOne t bean w = Ret None w' ∧ id ≠ 0%Z ∧
    xl_rows w' t = xl_rows w t ++ [<["id" := SInt id]> (list_to_map bean)] ∧ ∀ t', t' ≠ t → xl_rows w' t' = xl_rows w t';
  xl_update t cols bean cond w : ∃ w', xs_Update t cols bean cond w = Ret None w' ∧
    xl_rows w' t = (λ r, if matches cond r then set_cols cols (list_to_map bean) r else r) <$> xl_rows w t ∧
    ∀ t', t' ≠ t → xl_rows w' t' = xl_rows w t';
}.

Lemma set_cols_in cols bean r c v : c ∈ cols → bean !! c = Some v → set_cols cols bean r !! c = Some v.
Proof.
  intros Hc Hv. induction cols as [|d cols IH]; [by apply elem_of_nil in Hc|]. cbn [set_cols foldr]. unfold set_col at 1.
  destruct (decide (d = c)) as [->|Hne].
  - rewrite Hv. apply lookup_insert_eq.
  - apply elem_of_cons in Hc as [->|Hc]; [done|]. destruct (bean !! d); [rewrite lookup_insert_ne by done|]; by apply IH.
Qed.
Lemma set_cols_out cols bean r c : c ∉ cols → set_cols cols bean r !! c = r !! c.
Proof.
  induction cols as [|d cols IH]; intros Hc; [done|]. apply not_elem_of_cons in Hc as [Hd Hc]. cbn [set_cols foldr]. unfold set_col at 1.
  destruct (bean !! d); [rewrite lookup_insert_ne by congruence|]; by apply IH.
Qed.
Lemma matches_spec where_ r : matches where_ r = true ↔ ∀ c v, (c, v) ∈ where_ → r !! c = Some v.
Proof.
  unfold matches. rewrite forallb_forall. split.
  - intros H c v Hin. specialize (H (c, v)). cbn in H. apply (bool_decide_eq_true (r !! c = Some v)), H. by apply list_elem_of_In.
  - intros H [c v] Hin. apply bool_decide_eq_true, H. by apply list_elem_of_In.
Qed.
(** Setting columns that a condition does not speak of does not change whether it holds. *)
Lemma matches_set_cols where_ cols bean r : Forall (λ kv, kv.1 ∉ cols) where_ → matches where_ (set_cols cols bean r) = matches where_ r.
Proof.
  intros H. unfold matches. induction H as [|[c v] l Hc _ IH]; [done|]. cbn [forallb fst snd]. rewrite IH. f_equal.
  cbn in Hc. by rewrite set_cols_out.
Qed.

(** What the struct of a table has to do with its rows. *)
Class BeanLaws (M : Type) `{MB : MetaBean M} := {
  bl_data : list string;   (** the columns that are not set by the database or the SQL functions *)
  bl_times c u m : Forall (λ k, fields (mb_times c u m) !! k = fields m !! k) bl_data;
  bl_has m : Forall (λ k, is_Some (fields m !! k)) bl_data;
  bl_id : "id" ∈ bl_data;
  bl_id_of r : fields (bean_of r) !! "id" = Some (SInt (int_of r "id"));
  bl_key m : Forall (λ kv, kv.1 ∈ bl_data ∧ kv.1 ∉ ["id"; "status"; "deleted_at"] ∧ fields m !! kv.1 = Some kv.2) (mb_key m);
  bl_where m r : Forall (λ kv, nonzero kv.2 = true) (mb_key m) → matches (sql_where m) r = matches (mb_key m) r;
  bl_mark d st : fields (mb_deletion d st (bean_with [])) !! "status" = Some (SStr st) ∧
                 fields (mb_deletion d st (bean_with [])) !! "deleted_at" = Some (SInt d);
  bl_mark_key d st m : mb_key (mb_deletion d st m) = mb_key m ∧ mb_DeletedAt (mb_deletion d st m) = d ∧ mb_Status (mb_deletion d st m) = st;
  bl_times_key c u m : mb_key (mb_times c u m) = mb_key m;
}.
Lemma keep_nonzero (kv : string * SqlVal) l : nonzero kv.2 = true →
  List.filter (λ kv, nonzero kv.2) (kv :: l) = kv :: List.filter (λ kv, nonzero kv.2) l.
Proof. intros H. cbn [List.filter]. by rewrite H. Qed.
Lemma keep_zero (kv : string * SqlVal) l : nonzero kv.2 = false →
  List.filter (λ kv, nonzero kv.2) (kv :: l) = List.filter (λ kv, nonzero kv.2) l.
Proof. intros H. cbn [List.filter]. by rewrite H. Qed.
Ltac decides := apply (bool_decide_unpack _); vm_compute; exact I.
Ltac each_column := repeat (apply Forall_cons_2; [first [reflexivity | (eexists; reflexivity) | split_and!; [decides|decides|reflexivity]]|]); apply Forall_nil_2.
Ltac where_columns a b :=
  unfold sql_where, condition; cbn [mb_key avm_meta spm_meta adm_meta agm_meta]; generalize a, b; clear; intros x y H;
  apply Forall_cons_1 in H as [Hx H]; apply Forall_cons_1 in H as [Hy _]; cbn [snd] in Hx, Hy;
  match goal with |- matches (List.filter _ ?l) _ = _ => let l' := eval vm_compute in l in assert (l = l') as -> by (vm_compute; reflexivity) end;
  repeat first [rewrite keep_zero by reflexivity | rewrite keep_nonzero by (exact Hx || exact Hy)];
  unfold matches; cbn [by_name forallb List.filter fst snd]; rewrite !andb_true_r; first [reflexivity | apply andb_comm].
#[export] Instance avm_laws : BeanLaws AntstorVolumeMapping.
Proof.
  refine {| bl_data := ["id"; "cluster_name"; "name"] ++ volume_data |}; try reflexivity; try (intros; split_and!; reflexivity).
  - intros c u m. each_column.
  - intros m. each_column.
  - decides.
  - intros m. each_column.
  - intros m r. where_columns (avm_ClusterName m) (avm_Name m).
Defined.
#[export] Instance spm_laws : BeanLaws StoragePoolMapping.
Proof.
  refine {| bl_data := ["id"; "cluster_name"; "name"] ++ pool_data |}; try reflexivity; try (intros; split_and!; reflexivity).
  - intros c u m. each_column.
  - intros m. each_column.
  - decides.
  - intros m. each_column.
  - intros m r. where_columns (spm_ClusterName m) (spm_Name m).
Defined.
#[export] Instance adm_laws : BeanLaws AntstorDataControlMapping.
Proof.
  refine {| bl_data := ["id"; "cluster_name"; "name"] ++ control_data |}; try reflexivity; try (intros; split_and!; reflexivity).
  - intros c u m. each_column.
  - intros m. each_column.
  - decides.
  - intros m. each_column.
  - intros m r. where_columns (adm_ClusterName m) (adm_Name m).
Defined.
#[export] Instance agm_laws : BeanLaws AntstorVolumeGroupMapping.
Proof.
  refine {| bl_data := ["id"; "cluster_name"; "name"] ++ group_data |}; try reflexivity; try (intros; split_and!; reflexivity).
  - intros c u m. each_column.
  - intros m. each_column.
  - decides.
  - intros m. each_column.
  - intros m r. where_columns (agm_ClusterName m) (agm_Name m).
Defined.

(** ** What the rows say *)

Section sync_spec.
Context {W : Type} {X : XormSession W} {XL : XormLaws X}.
Implicit Types (w : W) (r : Row).

Section bean.
Context {M : Type} `{BL : BeanLaws M}.
Abbreviation table := (bean_TableName (M := M)).
Definition key_set (m : M) : Prop := Forall (λ kv, nonzero kv.2 = true) (mb_key m).

Lemma sql_update_run now cols (m : M) w : key_set m →
  ∃ w', sql_update now cols m w = Ret None w' ∧
    xl_rows w' table = (λ r, if matches (mb_key m) r then set_cols cols (fields (mb_times (mb_CreatedAt m) now m)) r else r) <$> xl_rows w table ∧
    ∀ t, t ≠ table → xl_rows w' t = xl_rows w t.
Proof.
  intros Hk. unfold sql_update. destruct (xl_update table cols (bean_fields (mb_times (mb_CreatedAt m) now m)) (sql_where m) w)
    as (w' & E & Hr & Ho). exists w'. split; [done|]. split; [|done]. rewrite Hr. apply list_fmap_ext. intros i r _.
  by rewrite bl_where.
Qed.
Definition marked (d : Z) (st : string) : Row → Row := set_cols ["status"; "deleted_at"] (<["status" := SStr st]> {[ "deleted_at" := SInt d ]}).
Lemma sql_mark_run now d st (m : M) w : key_set m →
  ∃ w', sql_mark now (mb_deletion d st m) w = Ret None w' ∧
    xl_rows w' table = (λ r, if matches (mb_key m) r then marked (if decide (d = 0%Z) then now else d) st r else r) <$> xl_rows w table ∧
    ∀ t, t ≠ table → xl_rows w' t = xl_rows w t.
Proof.
  intros Hk. destruct (bl_mark_key d st m) as (Ek & Ed & Es). unfold sql_mark. rewrite Ed, Es.
  destruct (xl_update table ["status"; "deleted_at"] (bean_fields (mb_deletion (if decide (d = 0%Z) then now else d) st (bean_with (M := M) [])))
    (sql_where (mb_deletion d st m)) w) as (w' & E & Hr & Ho). exists w'. split; [exact E|]. split; [|exact Ho]. rewrite Hr.
  apply list_fmap_ext. intros i r _. rewrite bl_where, Ek by (unfold key_set in Hk; by rewrite Ek).
  destruct (matches _ r); [|done]. destruct (bl_mark (if decide (d = 0%Z) then now else d) st) as [H1 H2].
  unfold marked, set_cols, set_col, fields in *. cbn [foldr]. by rewrite H1, H2.
Qed.

(** The rows of an object tell what it says; no other row and table changed. *)
Definition mirrors (m : M) (data : list string) w w' : Prop :=
  (∃ r, r ∈ xl_rows w' table ∧ matches (mb_key m) r = true) ∧
  (∀ r c, r ∈ xl_rows w' table → matches (mb_key m) r = true → c ∈ data → r !! c = fields m !! c) ∧
  List.filter (negb ∘ matches (mb_key m)) (xl_rows w' table) = List.filter (negb ∘ matches (mb_key m)) (xl_rows w table) ∧
  ∀ t, t ≠ table → xl_rows w' t = xl_rows w t.
Definition numbered (rows : list Row) : Prop := Forall (λ r, int_of r "id" ≠ 0%Z) rows.

Lemma filter_updated (p : Row → bool) (f : Row → Row) rows : (∀ r, p (f r) = p r) →
  List.filter (negb ∘ p) ((λ r, if p r then f r else r) <$> rows) = List.filter (negb ∘ p) rows.
Proof.
  intros Hf. induction rows as [|r rows IH]; [done|]. cbn [fmap list_fmap List.filter]. rewrite IH. unfold compose.
  destruct (p r) eqn:E; [by rewrite Hf, E|by rewrite E].
Qed.
Lemma key_kept cols bean r (m : M) : Forall (λ kv, kv.1 ∉ cols) (mb_key m) →
  matches (mb_key m) (set_cols cols bean r) = matches (mb_key m) r.
Proof. apply matches_set_cols. Qed.

Lemma update_mirrors now data (m : M) w : key_set m → data ⊆ bl_data →
  Forall (λ kv, kv.1 ∉ data ++ ["updated_at"]) (mb_key m) →
  (∃ r, r ∈ xl_rows w table ∧ matches (mb_key m) r = true) →
  ∃ w', sql_update now (data ++ ["updated_at"]) m w = Ret None w' ∧ mirrors m data w w' ∧
    Forall2 (λ r r', ∀ c, c ∉ data ++ ["updated_at"] → r' !! c = r !! c) (xl_rows w table) (xl_rows w' table).
Proof.
  intros Hk Hd Hc (r & Hr & Hm). destruct (sql_update_run now (data ++ ["updated_at"]) m w Hk) as (w' & E & Hrows & Ho).
  exists w'. split; [done|]. split.
  - split_and!; [|..|done].
    + eexists. rewrite Hrows. split; [by apply list_elem_of_fmap_2|]. rewrite Hm. by rewrite key_kept.
    + intros r' c Hr' Hm' Hcd. rewrite Hrows in Hr'. apply list_elem_of_fmap in Hr' as (r0 & -> & Hr0).
      destruct (matches (mb_key m) r0) eqn:E0; [|congruence].
      assert (c ∈ bl_data) as Hcb by (by apply Hd). pose proof (bl_times (mb_CreatedAt m) now m) as Ht. rewrite Forall_forall in Ht.
      pose proof (bl_has m) as Hh. rewrite Forall_forall in Hh. destruct (Hh c Hcb) as [v Hv]. rewrite Hv.
      apply set_cols_in; [by apply elem_of_app; left|]. by rewrite Ht.
    + rewrite Hrows. apply filter_updated. intros r0. by apply key_kept.
  - rewrite Hrows. apply Forall2_fmap_r, Forall_Forall2_diag, Forall_forall. intros r0 _ c Hcn.
    destruct (matches _ r0); [by apply set_cols_out|done].
Qed.

Lemma sync_live `{EqDecision M} now cluster name data (m : M) mark w : mb_key m = by_name cluster name → key_set m → data ⊆ bl_data →
  Forall (λ kv, kv.1 ∉ data ++ ["updated_at"]) (mb_key m) → "id" ∉ data → fields m !! "id" = Some (SInt 0) →
  numbered (xl_rows w table) →
  ∃ w', sync_row now m None mark (sql_get cluster name) (sql_create now) (sql_update now (data ++ ["updated_at"])) w = Ret None w' ∧
    mirrors m data w w' ∧
    ((∃ r, r ∈ xl_rows w table ∧ matches (mb_key m) r = true) →
       Forall2 (λ r r', ∀ c, c ∉ data ++ ["updated_at"] → r' !! c = r !! c) (xl_rows w table) (xl_rows w' table)).
Proof.
  intros Hkey Hk Hd Hc Hid Hz Hn. unfold sync_row, sql_get. go_simpl.
  destruct (xl_get table (by_name cluster name) w) as (ans & w1 & E & Hs & Hans). rewrite E. cbn beta iota.
  rewrite <- Hkey in Hans. destruct ans as [r|]; cbn [fmap option_fmap option_map].
  - destruct Hans as [Hr Hm]. set (m1 := mb_times _ _ m). rewrite decide_False.
    2:{ intros Em. pose proof (bl_id_of r) as Hi. rewrite <- Em in Hi. pose proof (bl_times (mb_CreatedAt (bean_of r)) (mb_UpdatedAt (bean_of r)) m) as Ht.
        rewrite Forall_forall in Ht. unfold m1 in Hi. rewrite (Ht _ bl_id), Hz in Hi. injection Hi as Hi.
        unfold numbered in Hn. rewrite Forall_forall in Hn. by apply (Hn r Hr). }
    assert (mb_key m1 = mb_key m) as Ek1 by apply bl_times_key.
    destruct (update_mirrors now data m1 w1) as (w' & E' & (H1 & H2 & H3 & H4) & H5); rewrite ?Ek1; unfold key_set; rewrite ?Ek1; try done.
    { exists r. by rewrite Hs. }
    exists w'. split; [done|]. rewrite Ek1 in *. split; [|intros _; by rewrite Hs in H5]. split; [done|]. split.
    { intros r' c Hr' Hm' Hcd. rewrite (H2 r' c Hr' Hm' Hcd). pose proof (bl_times (mb_CreatedAt (bean_of r)) (mb_UpdatedAt (bean_of r)) m) as Ht.
      rewrite Forall_forall in Ht. by apply Ht, Hd. }
    split; [by rewrite H3, Hs|]. intros t Ht. by rewrite H4, Hs.
  - unfold sql_create. destruct (xl_insert table (bean_fields (mb_times now now m)) w1) as (id & w' & E' & Hne & Hrows & Ho).
    exists w'. split; [done|]. rewrite Hs in Hrows. change (list_to_map (bean_fields (mb_times now now m))) with (fields (mb_times now now m)) in Hrows.
    pose proof (bl_times now now m) as Ht. rewrite Forall_forall in Ht.
    set (new := <["id" := SInt id]> (fields (mb_times now now m))) in *.
    assert (matches (mb_key m) new = true) as Hnew.
    { apply matches_spec. intros c v Hin. pose proof (bl_key m) as Hbk. rewrite Forall_forall in Hbk. destruct (Hbk _ Hin) as (H1 & H2 & H3). cbn in H1, H2, H3.
      unfold new. rewrite lookup_insert_ne by (intros <-; set_solver). by rewrite Ht. }
    assert (∀ r, r ∈ xl_rows w table → matches (mb_key m) r = false) as Hno by (by apply Forall_forall).
    split; [split_and!|].
    + exists new. rewrite Hrows. split; [apply elem_of_app; right; by apply list_elem_of_singleton|done].
    + intros r c Hr Hm Hcd. rewrite Hrows in Hr. apply elem_of_app in Hr as [Hr| ->%list_elem_of_singleton]; [by rewrite (Hno r Hr) in Hm|].
      unfold new. rewrite lookup_insert_ne by (intros <-; done). by apply Ht, Hd.
    + rewrite Hrows. rewrite List.filter_app. cbn [List.filter]. unfold compose at 2. rewrite Hnew. cbn. apply app_nil_r.
    + intros t Ht'. by rewrite Ho, Hs.
    + intros (r & Hr & Hm). by rewrite (Hno r Hr) in Hm.
Qed.
End bean.
End sync_spec.

(** ** The syncer's contract *)

Section sync_contract.
Context {L : K8sLib} {W : Type} {X : XormSession W} {XL : XormLaws X}.
Implicit Types (w : W) (r : Row).

Definition live (meta : ObjectMeta) : Prop := om_Name meta ≠ "" ∧ om_DeletionTimestamp meta = None.
(** The objects that have a row of their own. *)
Definition tracked (obj : Object) : Prop :=
  match obj with
  | OPool sp => live (sp_meta sp)
  | OVolume vol => live (vol_meta vol)
  | ODataControl dc => live (dc_meta dc)
  | OVolumeGroup vg => live (vg_meta vg)
  | _ => False
  end.
Definition mirrored (K8SCluster : string) (obj : Object) w w' : Prop :=
  match obj with
  | OPool sp => mirrors (ToStoragePoolMapping K8SCluster sp) pool_data w w'
  | OVolume vol => mirrors (ToAntstorVolumeMapping K8SCluster vol) volume_data w w'
  | ODataControl dc => mirrors (ToAntstorDataControlMapping K8SCluster dc) control_data w w'
  | OVolumeGroup vg => mirrors (ToAntstorVolumeGroupMapping K8SCluster vg) group_data w w'
  | _ => w' = w
  end.
Lemma by_name_nonzero cluster name : cluster ≠ "" → name ≠ "" → Forall (λ kv, nonzero kv.2 = true) (by_name cluster name).
Proof. intros Hc Hn. repeat constructor; cbn; by rewrite bool_decide_eq_false_2. Qed.

Lemma pool_row cluster sp : let m := ToStoragePoolMapping cluster sp in
  mb_key m = by_name cluster (om_Name (sp_meta sp)) ∧ fields m !! "id" = Some (SInt 0) ∧ spm_DeletedAt m = 0%Z.
Proof.
  intros m. assert (spm_ID m = 0%Z ∧ spm_ClusterName m = cluster ∧ spm_Name m = om_Name (sp_meta sp) ∧ spm_DeletedAt m = 0%Z) as (H1 & H2 & H3 & H4).
  { unfold m, ToStoragePoolMapping. destruct (decide (klvm_Name _ ≠ "")), (decide (lvst_Name _ ≠ "")); done. }
  split_and!; [cbn [mb_key spm_meta]; by rewrite H2, H3| |done].
  transitivity (Some (SInt (spm_ID m))); [generalize m; clear; intros m; reflexivity|by rewrite H1].
Qed.
Ltac new_row := first
  [ match goal with |- mb_key _ = _ => reflexivity end
  | match goal with |- key_set _ => by apply by_name_nonzero end
  | match goal with |- numbered _ => by auto end
  | match goal with |- fields _ !! _ = _ => reflexivity end
  | decides ].

(** C31. The plugin of the reconcilers keeps the database true to the cluster:
    syncing a pool, a volume, a data control or a volume group that is not being
    deleted succeeds, and then there is a row of its cluster and name, every such
    row has in the columns that follow the object what the object says, and every
    other row of the table and every other table are as they were. *)
Theorem sync_mirrors (K8SCluster : string) (now : Z) (obj : Object) w :
  K8SCluster ≠ "" → tracked obj → (∀ t, numbered (xl_rows w t)) →
  ∃ w', Sync K8SCluster now obj w = Ret None w' ∧ mirrored K8SCluster obj w w'.
Proof.
  intros Hc Ho Hn. destruct obj as [vol|sp|vg|dc| | |]; try done; destruct Ho as [Hname Hlive];
    cbn [Sync mirrored]; unfold syncAntstorVolume, syncStoragePool, syncAntstorDataControl, syncAntstorVolumeGroup, deleted_as; rewrite Hlive.
  - edestruct (sync_live now K8SCluster (vol_Name vol) volume_data (ToAntstorVolumeMapping K8SCluster vol)) as (w' & E & Hm & _);
      [new_row..|exists w'; split; [exact E|exact Hm]].
  - destruct (pool_row K8SCluster sp) as (Hk & Hid & _). set (m := ToStoragePoolMapping K8SCluster sp) in *.
    edestruct (sync_live now K8SCluster (om_Name (sp_meta sp)) pool_data m) as (w' & E & Hm & _);
      [exact Hk|unfold key_set; rewrite Hk; by apply by_name_nonzero|decides|rewrite Hk; decides|decides|exact Hid|by auto|exists w'; split; [exact E|exact Hm]].
  - edestruct (sync_live now K8SCluster (om_Name (vg_meta vg)) group_data (ToAntstorVolumeGroupMapping K8SCluster vg)) as (w' & E & Hm & _);
      [new_row..|exists w'; split; [exact E|exact Hm]].
  - edestruct (sync_live now K8SCluster (om_Name (dc_meta dc)) control_data (ToAntstorDataControlMapping K8SCluster dc)) as (w' & E & Hm & _);
      [new_row..|exists w'; split; [exact E|exact Hm]].
Qed.

Lemma matches_same (where_ : list (string * SqlVal)) (r r' : Row) : Forall (λ kv, r' !! kv.1 = r !! kv.1) where_ → matches where_ r' = matches where_ r.
Proof. intros Hs. unfold matches. induction Hs as [|kv l Hkv _ IH]; [done|]. cbn [forallb]. by rewrite Hkv, IH. Qed.
Lemma marked_at d st r : marked d st r !! "status" = Some (SStr st) ∧ marked d st r !! "deleted_at" = Some (SInt d).
Proof. split; (apply set_cols_in; [decides|reflexivity]). Qed.
Lemma marked_other d st r c : c ∉ ["status"; "deleted_at"] → marked d st r !! c = r !! c.
Proof. apply set_cols_out. Qed.
Lemma marked_key (where_ : list (string * SqlVal)) d st r : Forall (λ kv, kv.1 ∉ ["status"; "deleted_at"]) where_ → matches where_ (marked d st r) = matches where_ r.
Proof. apply matches_set_cols. Qed.
Lemma marked_numbered (p : Row → bool) d st rows : numbered rows → numbered ((λ r : Row, if p r then marked d st r else r) <$> rows).
Proof.
  unfold numbered. rewrite Forall_fmap. intros Hall. eapply Forall_impl; [exact Hall|]. intros r Hr. cbn beta delta [compose]. destruct (p r); [|done].
  unfold int_of in *. by rewrite marked_other by decides.
Qed.

(** A volume that is created again under the name of a deleted one stays
    deleted in the database. The deletion was written to the row of the volume;
    when the new volume of the name is synced that row is found and updated, with
    the new volume's status, while the column [deleted_at], which no update sets,
    keeps the time of the deletion. *)
Lemma recreated_stays_deleted (K8SCluster : string) (deletedAt syncedAt : Z) (old new : AntstorVolume) w :
  K8SCluster ≠ "" → om_DeletionTimestamp (vol_meta old) ≠ None → live (vol_meta new) → vol_Name old = vol_Name new →
  deletedAt ≠ 0%Z → (∀ t, numbered (xl_rows w t)) →
  (∃ r, r ∈ xl_rows w "antstor_volume" ∧ matches (by_name K8SCluster (vol_Name new)) r = true) →
  ∃ w1 w2, Sync K8SCluster deletedAt (OVolume old) w = Ret None w1 ∧ Sync K8SCluster syncedAt (OVolume new) w1 = Ret None w2 ∧
    (∃ r, r ∈ xl_rows w2 "antstor_volume" ∧ matches (by_name K8SCluster (vol_Name new)) r = true) ∧
    ∀ r, r ∈ xl_rows w2 "antstor_volume" → matches (by_name K8SCluster (vol_Name new)) r = true →
      r !! "deleted_at" = Some (SInt deletedAt) ∧ r !! "status" = Some (SStr (vst_Status (vol_Status new))).
Proof.
  intros Hc Hold [Hname Hlive] Hsame Hd Hn (r0 & Hr0 & Hm0). set (key := by_name K8SCluster (vol_Name new)) in *.
  cbn [Sync]. unfold syncAntstorVolume, deleted_as. destruct (om_DeletionTimestamp (vol_meta old)); [|done]. rewrite Hlive. cbn [sync_row].
  set (mold := ToAntstorVolumeMapping K8SCluster old).
  assert (mb_key mold = key) as Ek by (unfold key; by rewrite <- Hsame).
  assert (key_set mold) as Hks by (unfold key_set; rewrite Ek; by apply by_name_nonzero).
  destruct (sql_mark_run deletedAt deletedAt VolumeStatusDeleted mold w Hks) as (w1 & E1 & Hr1 & Ho1). rewrite Ek, decide_False in Hr1 by done.
  assert (∀ p, p ∈ xl_rows w1 "antstor_volume" → matches key p = true → p !! "deleted_at" = Some (SInt deletedAt)) as Hdel.
  { intros p Hp Hm. change "antstor_volume" with (bean_TableName (M := AntstorVolumeMapping)) in Hp. rewrite Hr1 in Hp.
    apply list_elem_of_fmap in Hp as (p0 & -> & _). destruct (matches key p0) eqn:E; [apply marked_at|congruence]. }
  assert (numbered (xl_rows w1 "antstor_volume")) as Hn1.
  { change "antstor_volume" with (bean_TableName (M := AntstorVolumeMapping)). rewrite Hr1. by apply marked_numbered. }
  assert (∃ r, r ∈ xl_rows w1 "antstor_volume" ∧ matches key r = true) as Hex.
  { eexists. change "antstor_volume" with (bean_TableName (M := AntstorVolumeMapping)). rewrite Hr1.
    split; [by apply list_elem_of_fmap_2|]. rewrite Hm0. rewrite marked_key by decides. done. }
  edestruct (sync_live syncedAt K8SCluster (vol_Name new) volume_data (ToAntstorVolumeMapping K8SCluster new) (MarkDeleteAntstorVolume syncedAt) w1) as (w2 & E2 & (Hex2 & Hsays & _) & Hkeep);
    [new_row..|].
  exists w1, w2. split; [exact E1|]. split; [exact E2|]. split; [exact Hex2|]. intros r Hr Hm. split; [|apply (Hsays r "status"); [done|done|decides]].
  apply list_elem_of_lookup in Hr as [i Hi]. destruct (Forall2_lookup_r _ _ _ _ _ (Hkeep Hex) Hi) as (p & Hp & Hpr). rewrite (Hpr "deleted_at") by decides. apply Hdel; [by eapply list_elem_of_lookup_2|].
  rewrite <- Hm. symmetry. apply matches_same. unfold key. repeat constructor; apply Hpr; decides.
Qed.
End sync_contract.

(** ** The garbage cleaner's contract *)

Section clean_spec.
Context {L : K8sLib} {W : Type} {X : XormSession W} {XL : XormLaws X}.
Context {KP : KubeClient W StoragePool} {KV : KubeClient W AntstorVolume} {B : SqlBuilder}.
Implicit Types (w : W) (r : Row) (b : ObjectMetaBrief).

Definition brief_key b : list (string * SqlVal) := by_name (omb_ClusterName b) (omb_Name b).
(** What becomes of a row of the object [b] tells of. *)
Definition cleaned (now : Z) (ans : string → result ObjectMeta) (status : string) b r : Row :=
  match gone_as now (ans (omb_Name b)) b status with
  | Some (d, st) => marked (if decide (d = 0%Z) then now else d) st r
  | None => r
  end.
Lemma by_name_inj c1 n1 c2 n2 r : matches (by_name c1 n1) r = true → matches (by_name c2 n2) r = true → c1 = c2 ∧ n1 = n2.
Proof.
  rewrite !matches_spec. intros H1 H2.
  pose proof (H1 "cluster_name" (SStr c1) ltac:(apply list_elem_of_here)) as E1.
  pose proof (H1 "name" (SStr n1) ltac:(apply list_elem_of_further, list_elem_of_here)) as E2.
  rewrite (H2 "cluster_name" (SStr c2)) in E1 by apply list_elem_of_here.
  rewrite (H2 "name" (SStr n2)) in E2 by apply list_elem_of_further, list_elem_of_here.
  by simplify_eq.
Qed.
Lemma brief_marked b d st r : matches (brief_key b) (marked d st r) = matches (brief_key b) r.
Proof. apply marked_key. unfold brief_key. decides. Qed.
Definition clean_effect (now : Z) (ans : string → result ObjectMeta) (status : string) (rows : list ObjectMetaBrief) r r' : Prop :=
  (∀ b, b ∈ rows → matches (brief_key b) r = true → r' = cleaned now ans status b r) ∧
  (Forall (λ b, matches (brief_key b) r = false) rows → r' = r).

(** An answer of the server that leaves the database alone. *)
Definition answers (ans : string → result ObjectMeta) (get : string → go W (result ObjectMeta)) : Prop :=
  ∀ name w, ∃ w', get name w = Ret (ans name) w' ∧ ∀ t, xl_rows w' t = xl_rows w t.

Section bean.
Context {M : Type} `{BL : BeanLaws M}.
Hypothesis with_key : ∀ c n, mb_key (bean_with (M := M) (by_name c n)) = by_name c n.
Hypothesis with_deletion : ∀ c n d st,
  bean_with (M := M) (by_name c n ++ [("status", SStr st); ("deleted_at", SInt d)]) = mb_deletion d st (bean_with (by_name c n)).
Abbreviation table := (bean_TableName (M := M)).

Lemma clean_rows_run now ans status get rows w : answers ans get →
  Forall (λ b, omb_ClusterName b ≠ "" ∧ omb_Name b ≠ "") rows → NoDup ((λ b, (omb_ClusterName b, omb_Name b)) <$> rows) →
  ∃ w', clean_rows (M := M) now get (sql_mark now) status rows None w = Ret None w' ∧
    Forall2 (clean_effect now ans status rows) (xl_rows w table) (xl_rows w' table) ∧ ∀ t, t ≠ table → xl_rows w' t = xl_rows w t.
Proof.
  intros Hans. revert w. induction rows as [|b rows IH]; intros w Hne Hnd.
  { exists w. split; [done|]. split; [|done]. apply Forall_Forall2_diag, Forall_forall. intros r _. split; [|done]. intros b Hb. by apply elem_of_nil in Hb. }
  apply Forall_cons in Hne as [[Hc Hn] Hne]. cbn [fmap list_fmap] in Hnd. apply NoDup_cons in Hnd as [Hnew Hnd].
  cbn [clean_rows]. go_simpl. destruct (Hans (omb_Name b) w) as (w1 & E & Hs). rewrite E. cbn beta iota.
  assert (∀ b' r, b' ∈ rows → matches (brief_key b') r = true → matches (brief_key b) r = false) as Hdiff.
  { intros b' r Hb' Hm'. destruct (matches (brief_key b) r) eqn:Hm; [|done]. exfalso. destruct (by_name_inj _ _ _ _ _ Hm Hm') as [E1 E2].
    apply Hnew. rewrite E1, E2. by apply (list_elem_of_fmap_2 (λ b, (omb_ClusterName b, omb_Name b))). }
  destruct (gone_as now (ans (omb_Name b)) b status) as [[d st]|] eqn:Eg.
  - set (m := bean_with (M := M) (by_name (omb_ClusterName b) (omb_Name b))). rewrite with_deletion. fold m.
    assert (mb_key m = brief_key b) as Ek by apply with_key.
    destruct (sql_mark_run now d st m w1) as (w2 & E2 & Hr2 & Ho2); [unfold key_set; rewrite Ek; by apply by_name_nonzero|].
    go_simpl. rewrite E2. cbn beta iota. rewrite Ek, Hs in Hr2. destruct (IH w2 Hne Hnd) as (w3 & E3 & Hr3 & Ho3).
    exists w3. split; [exact E3|]. split; [|intros t Ht; by rewrite Ho3, Ho2, Hs]. rewrite Hr2 in Hr3. rewrite Forall2_fmap_l in Hr3.
    eapply Forall2_impl; [exact Hr3|]. intros r r' [Hin Hout]. cbn beta in Hin, Hout. split.
    + intros b' [-> | Hb']%elem_of_cons Hm'.
      * rewrite Hm' in Hout. unfold cleaned. rewrite Eg. apply Hout. apply Forall_forall. intros b' Hb'.
        rewrite brief_marked. destruct (matches (brief_key b') r) eqn:E'; [|done]. by rewrite (Hdiff b' r Hb' E') in Hm'.
      * rewrite (Hdiff b' r Hb' Hm') in Hin. by apply Hin.
    + intros [Hb Hrest]%Forall_cons. rewrite Hb in Hout. by apply Hout.
  - destruct (IH w1 Hne Hnd) as (w3 & E3 & Hr3 & Ho3). exists w3. split; [exact E3|]. split; [|intros t Ht; by rewrite Ho3, Hs].
    rewrite Hs in Hr3. eapply Forall2_impl; [exact Hr3|]. intros r r' [Hin Hout]. split.
    + intros b' [-> | Hb']%elem_of_cons Hm'; [|by apply Hin]. unfold cleaned. rewrite Eg. apply Hout. apply Forall_forall. intros b' Hb'.
      destruct (matches (brief_key b') r) eqn:E'; [|done]. by rewrite (Hdiff b' r Hb' E') in Hm'.
    + intros [_ Hrest]%Forall_cons. by apply Hout.
Qed.
End bean.

Lemma volume_with_key c n : mb_key (bean_with (M := AntstorVolumeMapping) (by_name c n)) = by_name c n.
Proof. reflexivity. Qed.
Lemma volume_with_deletion c n d st : bean_with (M := AntstorVolumeMapping) (by_name c n ++ [("status", SStr st); ("deleted_at", SInt d)]) =
  mb_deletion d st (bean_with (by_name c n)).
Proof. reflexivity. Qed.

(** C32. A turn of the garbage cleaner over the volumes succeeds whatever it finds
    and marks what is gone: of the rows the query answered, each row whose volume the
    server no longer has is marked deleted now, each row whose volume is being deleted
    is marked with the time of that; the rows of volumes that live, of volumes the
    server could not be asked about, and all rows that were not answered stay as they are. *)
Theorem clean_marks_gone (K8SCluster : string) (now : Z) sql values found ans w :
  let condition := <["cluster_name" := SStr K8SCluster]> (<["status <>" := SStr VolumeStatusDeleted]>
                     (<["updated_at <" := SInt (now - one_day)]> {[ "deleted_at" := SInt 0 ]})) in
  let briefs := brief_of <$> found in
  BuildSelect "antstor_volume" condition selectFields = inl (sql, values) →
  xs_Find (Sprintf (replaceArgs sql values) (quoteStringArg values)) w = Ret (inl found) w →
  answers ans (λ name, meta_of vol_meta (kGet DefaultNamespace name)) →
  Forall (λ b, omb_ClusterName b ≠ "" ∧ omb_Name b ≠ "") briefs → NoDup ((λ b, (omb_ClusterName b, omb_Name b)) <$> briefs) →
  ∃ w', cleanAntstorVolume K8SCluster now w = Ret None w' ∧
    Forall2 (clean_effect now ans VolumeStatusDeleted briefs) (xl_rows w "antstor_volume") (xl_rows w' "antstor_volume") ∧
    ∀ t, t ≠ "antstor_volume" → xl_rows w' t = xl_rows w t.
Proof.
  intros condition briefs Hq Hf Ha Hne Hnd. unfold cleanAntstorVolume, ListAntstorVolumeBriefByCondition, list_brief. fold condition.
  rewrite Hq. go_simpl. rewrite Hf. cbn beta iota. go_simpl. fold briefs.
  destruct (clean_rows_run (M := AntstorVolumeMapping) volume_with_key volume_with_deletion now ans VolumeStatusDeleted _ briefs w Ha Hne Hnd)
    as (w' & E & Hr & Ho). exists w'. split; [exact E|]. split; [exact Hr|exact Ho].
Qed.
End clean_spec.

(** ** Snapshots

    The rows of a snapshot are selected by its origin: what is written for one
    snapshot is written to the rows of all snapshots of the volume. The snapshot
    reconciler does not register the plugin, so no snapshot is synced. *)

#[export] Instance asm_laws : BeanLaws AntstorSnapshotMapping.
Proof.
  refine {| bl_data := ["id"; "name"; "cluster_name"; "origin_vol_name"; "origin_vol_ns"; "origin_vol_t_node_id"; "vol_type"; "lvol_dev_path";
    "lvol_name"; "spdk_lvs_name"; "spdk_snap_name"; "size"; "status"] |}; try reflexivity; try (intros; split_and!; reflexivity).
  - intros c u m. each_column.
  - intros m. each_column.
  - decides.
  - intros m. each_column.
  - intros m r. unfold sql_where, condition. cbn [mb_key asm_meta]. generalize (asm_ClusterName m), (asm_OriginVolName m), (asm_OriginVolNs m). clear.
    intros x y z [Hx [Hy [Hz _]%Forall_cons]%Forall_cons]%Forall_cons. cbn [snd] in Hx, Hy, Hz.
    match goal with |- matches (List.filter _ ?l) _ = _ => let l' := eval vm_compute in l in assert (l = l') as -> by (vm_compute; reflexivity) end.
    repeat first [rewrite keep_zero by reflexivity | rewrite keep_nonzero by (exact Hx || exact Hy || exact Hz)].
    unfold matches. cbn [forallb List.filter fst snd]. by rewrite !andb_true_r.
Defined.

Section snapshots.
Context {L : K8sLib} {W : Type} {X : XormSession W} {XL : XormLaws X}.

Lemma snapshot_mark_reaches_siblings cluster now t snap w :
  cluster ≠ "" → ss_OriginVolName (snap_Spec snap) ≠ "" → ss_OriginVolNamespace (snap_Spec snap) ≠ "" → om_DeletionTimestamp (snap_meta snap) = Some t →
  ∃ w', Sync cluster now (OSnapshot snap) w = Ret None w' ∧
    xl_rows w' "antstor_snapshot" =
      (λ r, if matches [("cluster_name", SStr cluster); ("origin_vol_name", SStr (ss_OriginVolName (snap_Spec snap)));
                        ("origin_vol_ns", SStr (ss_OriginVolNamespace (snap_Spec snap)))] r then marked now SnapshotStatusDeleted r else r)
        <$> xl_rows w "antstor_snapshot".
Proof.
  intros Hc Hn Hns Ht. cbn [Sync]. unfold syncAntstorSnapshot, deleted_as. rewrite Ht. cbn [sync_row].
  destruct (sql_mark_run now now SnapshotStatusDeleted (ToAntstorSnapshotMapping cluster snap) w) as (w' & E & Hr & _).
  { repeat constructor; cbn; by rewrite bool_decide_eq_false_2. }
  exists w'. split; [exact E|]. etransitivity; [exact Hr|]. apply list_fmap_ext. intros i r _. by case_decide.
Qed.
End snapshots.

(** ** A database in memory *)

Record MemDB := { mem_rows : string → list Row; mem_ids : Z }.
Definition mem_set (t : string) (rows : list Row) (w : MemDB) : MemDB :=
  {| mem_rows t' := if decide (t' = t) then rows else mem_rows w t'; mem_ids := mem_ids w |}.
Definition mem_insert (t : string) (bean : list (string * SqlVal)) (w : MemDB) : MemDB :=
  {| mem_rows t' := if decide (t' = t) then mem_rows w t ++ [<["id" := SInt (Z.succ (Z.abs (mem_ids w)))]> (list_to_map bean)] else mem_rows w t';
     mem_ids := Z.succ (Z.abs (mem_ids w)) |}.
(** Every query that is written out is answered with the volumes that are not marked. *)
#[export] Instance MemSession : XormSession MemDB := {|
  xs_Get t where_ w := Ret (inl (head (List.filter (matches where_) (mem_rows w t)))) w;
  xs_InsertOne t bean w := Ret None (mem_insert t bean w);
  xs_Update t cols bean cond w :=
    Ret None (mem_set t ((λ r, if matches cond r then set_cols cols (list_to_map bean) r else r) <$> mem_rows w t) w);
  xs_Find _ w := Ret (inl (List.filter (λ r, bool_decide (int_of r "deleted_at" = 0%Z)) (mem_rows w "antstor_volume"))) w;
|}.
#[export] Instance MemLaws : XormLaws MemSession.
Proof.
  refine {| xl_rows := mem_rows |}.
  - intros t where_ w. eexists _, _. split; [reflexivity|]. split; [done|].
    destruct (List.filter (matches where_) (mem_rows w t)) as [|r rs] eqn:E; cbn.
    + apply Forall_forall. intros r Hr. destruct (matches where_ r) eqn:Em; [|done]. exfalso.
      assert (In r (List.filter (matches where_) (mem_rows w t))) as Hin by (apply filter_In; split; [by apply list_elem_of_In|done]).
      by rewrite E in Hin.
    + assert (In r (List.filter (matches where_) (mem_rows w t))) as Hin by (rewrite E; by left).
      apply filter_In in Hin as [Hin Hm]. split; [by apply list_elem_of_In|done].
  - intros t bean w. exists (Z.succ (Z.abs (mem_ids w))). eexists. split; [reflexivity|]. split; [lia|]. cbn. split; [by rewrite decide_True|].
    intros t' Ht. by rewrite decide_False.
  - intros t cols bean cond w. eexists. split; [reflexivity|]. cbn. split; [by rewrite decide_True|]. intros t' Ht. by rewrite decide_False.
Defined.

(** ** Witnesses *)

Module Rows.
Definition volume (name status : string) (deleted : option Z) : AntstorVolume :=
  vol_set_Status (vst_set_Status status AntstorVolumeStatus_zero)
   (vol_set_meta {| om_Name := name; om_Namespace := DefaultNamespace; om_UID := ""; om_CreationTimestamp := 0; om_DeletionTimestamp := deleted;
      om_Labels := None; om_Annotations := None; om_OwnerReferences := []; om_Finalizers := [] |} AntstorVolume_zero).
Definition row (id : Z) (name : string) : Row :=
  <["id" := SInt id]> (<["cluster_name" := SStr "c"]> (<["name" := SStr name]> {["status" := SStr "ready"]})).
Definition db (rows : list Row) : MemDB := {| mem_rows t := if decide (t = "antstor_volume") then rows else []; mem_ids := 7 |}.
Lemma db_numbered rows : numbered rows → ∀ t, numbered (xl_rows (db rows) t).
Proof. intros Hn t. cbn. destruct (decide (t = "antstor_volume")); [done|by apply Forall_nil]. Qed.
Definition answer (name : string) : result ObjectMeta :=
  if decide (name = "kept") then inl (vol_meta (volume name "ready" None)) else inr (ErrAPI ReasonNotFound "no such volume").
#[export] Instance KV : KubeClient MemDB AntstorVolume := {|
  kGet _ name w := Ret (if decide (name = "kept") then inl (volume name "ready" None) else inr (ErrAPI ReasonNotFound "no such volume")) w;
  kCreate o w := Ret (inl o) w; kUpdate o w := Ret (inl o) w; kUpdateStatus o w := Ret (inl o) w;
  kPatch _ o w := Ret (inl o) w; kPatchStatus _ o w := Ret (inl o) w; kDelete _ w := Ret None w |}.
#[export] Instance Builder : SqlBuilder := {| BuildSelect table _ _ := inl ("SELECT * FROM " +:+ table +:+ " WHERE deleted_at=?", [SInt 0]) |}.
End Rows.
Import Rows.
Section row_witnesses.
#[local] Existing Instance NanoLib.

Lemma sync_mirrors_witness : ∃ w', Sync "c" 5 (OVolume (volume "v" "ready" None)) (db [row 1 "v"; row 2 "u"]) = Ret None w' ∧
  mirrored "c" (OVolume (volume "v" "ready" None)) (db [row 1 "v"; row 2 "u"]) w'.
Proof.
  apply (sync_mirrors "c" 5 (OVolume (volume "v" "ready" None)) (db [row 1 "v"; row 2 "u"])); [done|by split|].
  apply db_numbered. decides.
Defined.

Lemma recreated_stays_deleted_witness :
  ∃ w1 w2, Sync "c" 100 (OVolume (volume "v" "deleting" (Some 99%Z))) (db [row 1 "v"]) = Ret None w1 ∧
    Sync "c" 200 (OVolume (volume "v" "ready" None)) w1 = Ret None w2 ∧
    (∃ r, r ∈ xl_rows w2 "antstor_volume" ∧ matches (by_name "c" "v") r = true) ∧
    ∀ r, r ∈ xl_rows w2 "antstor_volume" → matches (by_name "c" "v") r = true →
      r !! "deleted_at" = Some (SInt 100) ∧ r !! "status" = Some (SStr "ready").
Proof.
  apply (recreated_stays_deleted "c" 100 200 (volume "v" "deleting" (Some 99%Z)) (volume "v" "ready" None) (db [row 1 "v"])); try done.
  - apply db_numbered. decides.
  - exists (row 1 "v"). split; [apply list_elem_of_here|by vm_compute].
Defined.

Lemma clean_marks_gone_witness : ∃ w', cleanAntstorVolume "c" 1000 (db [row 1 "kept"; row 2 "lost"]) = Ret None w' ∧
  Forall2 (clean_effect 1000 answer VolumeStatusDeleted (brief_of <$> [row 1 "kept"; row 2 "lost"]))
    (xl_rows (db [row 1 "kept"; row 2 "lost"]) "antstor_volume") (xl_rows w' "antstor_volume") ∧
  ∀ t, t ≠ "antstor_volume" → xl_rows w' t = xl_rows (db [row 1 "kept"; row 2 "lost"]) t.
Proof.
  eapply (clean_marks_gone "c" 1000 _ _ [row 1 "kept"; row 2 "lost"] answer (db [row 1 "kept"; row 2 "lost"])); try reflexivity.
  - intros name w. exists w. split; [|done]. unfold meta_of, answer. cbn. by destruct (decide (name = "kept")).
  - decides.
  - decides.
Defined.
End row_witnesses.
