(* ===== verification/AgentManager.v ===== *)
(** * The agent's process

    [pkg/agent/manager], [agent/config] and [agent/pool/detector.go]: how the
    agent finds out what pool its node has, and the heartbeat by which the
    manager sees that it lives. The heartbeat and the manager's check of it
    ([PoolReconciler.v]) are composed at the end. *)

From Stdlib Require Import ZArith Lia.
From stdpp Require Import base gmap strings option list.
From S2P Require Import Prelude Strconv Float64 Misc K8s Api State Server Plugin Lvm DataControl PoolReconciler Spdk SpdkBdev LvmEngine Engine CsiController PoolSync PoolBuild.

(** ** Configuration *)

(* [agent/config/storage.go:10-10] DefaultLVMName *)
Definition DefaultLVMName : string := "antstore-vg".
(* [agent/config/storage.go:11-11] DefaultLVSName *)
Definition DefaultLVSName : string := "antstor_lvstore".
(* [agent/config/storage.go:12-12] DefaultRaid0Name *)
Definition DefaultRaid0Name : string := "antstor_raid0".
(* [agent/config/storage.go:14-14] DefaultMallocBdevName *)
Definition DefaultMallocBdevName : string := "antstor_malloc".
(* [agent/config/storage.go:15-15] DefaultAioBdevName *)
Definition DefaultAioBdevName : string := "antstor_aio".
(* [agent/config/storage.go:19-24] DefaultLVM *)
Definition DefaultLVM : StorageStack := {|
  stk_Pooling := {| po_Mode := PoolModeKernelLVM; po_Name := DefaultLVMName |}; stk_PVs := []; stk_Bdev := None |}.
Definition bdev_named (type name : string) : SpdkBdev := {|
  sb_Type := type; sb_Name := name; sb_Size := 0; sb_FilePath := ""; sb_CreateIfNotExist := false; sb_VfioPCIeKeyword := "" |}.
(* [agent/config/storage.go:26-35] DefaultLVS *)
Definition DefaultLVS : StorageStack := {|
  stk_Pooling := {| po_Mode := PoolModeSpdkLVStore; po_Name := DefaultLVSName |}; stk_PVs := [];
  stk_Bdev := Some (bdev_named RaidBdevType DefaultRaid0Name) |}.
(* [agent/config/config.go:12-16] Config *)
Record AgentConfig := { agc_Storage : StorageStack; agc_NodeKeys : NodeInfoKeys; agc_NodeInfo : NodeInfo }.
Definition no_keys : NodeInfoKeys := {| nk_IP := ""; nk_Hostname := ""; nk_Rack := ""; nk_Room := "" |}.
Definition no_storage : StorageStack := {| stk_Pooling := {| po_Mode := ""; po_Name := "" |}; stk_PVs := []; stk_Bdev := None |}.
Definition AgentConfig_zero : AgentConfig := {| agc_Storage := no_storage; agc_NodeKeys := no_keys; agc_NodeInfo := NodeInfo_zero |}.
Definition agc_set_Storage (s : StorageStack) (c : AgentConfig) : AgentConfig := {| agc_Storage := s; agc_NodeKeys := agc_NodeKeys c; agc_NodeInfo := agc_NodeInfo c |}.
Definition agc_set_NodeInfo (i : NodeInfo) (c : AgentConfig) : AgentConfig := {| agc_Storage := agc_Storage c; agc_NodeKeys := agc_NodeKeys c; agc_NodeInfo := i |}.
(* [agent/config/default.go:10-13] SetDefaults *)
Definition SetDefaults (c : AgentConfig) : AgentConfig :=
  {| agc_Storage := agc_Storage c; agc_NodeKeys := SetNodeInfoDefaults (agc_NodeKeys c); agc_NodeInfo := agc_NodeInfo c |}.

(** The option's part that decides on the pool. *)
(* [agent/manager/manager.go:29-45] Option *)
Record Option := {
  op_NodeID : string; op_LvsSize : Z; op_LvsAioFilePath : string; op_LvsMallocBdev : bool; op_ConfigPath : string }.

Section set_up.
Context {W : Type}.
(** Nodes of Kubernetes, and [config.LoadFile]: what was read of the file, also
    when it ends in an error, and whether that error says there is no file. *)
Context (node_Get : string → go W (result KNode)) (LoadFile : string → go W (AgentConfig * option error)) (IsNotExist : error → bool).

(* [agent/pool/detector.go:11-13] NodeLabelPoolModeKey *)
Definition NodeLabelPoolModeKey : string := "custom.k8s.alipay.com/nvmf-pool-mode".
(* [agent/pool/detector.go:29-44] PoolDetector.DetectMode *)
Definition DetectMode (nodeID : string) (nodeKeys : NodeInfoKeys) : go W (result (string * NodeInfo)) :=
  r ← GetByNodeID node_Get nodeID nodeKeys;
  mret (match r with
        | inr e => inr e
        | inl nodeInfo =>
            inl (if decide (map_str (ni_Labels nodeInfo) NodeLabelPoolModeKey = PoolModeSpdkLVStore) then PoolModeSpdkLVStore else PoolModeKernelLVM,
                 nodeInfo)
        end).
(** The node is read with the keys of the configuration as it is before it is loaded. *)
(* [agent/manager/manager.go:105-134] StoragePoolManager.setupConfig *)
Definition setupConfig (opt : Option) (cfg : AgentConfig) : go W (result AgentConfig) :=
  r ← DetectMode (op_NodeID opt) (agc_NodeKeys cfg);
  match r with
  | inr e => mret (inr e)
  | inl (mode, nodeInfo) =>
      '(loaded, err) ← LoadFile (op_ConfigPath opt);
      let finish c := inl (agc_set_NodeInfo nodeInfo (SetDefaults c)) in
      mret (match err with
            | None => finish loaded
            | Some e =>
                if IsNotExist e then finish (agc_set_Storage (if decide (mode = PoolModeSpdkLVStore) then DefaultLVS else DefaultLVM) loaded)
                else inr e
            end)
  end.
(** The storage the command line asks for, in the order of the tests: the file wins. *)
(* [agent/manager/manager.go:136-157] StoragePoolManager.newPoolService, the storage *)
Definition chosen_storage (opt : Option) (cfg : AgentConfig) : StorageStack :=
  let with_bdev b := {| stk_Pooling := stk_Pooling DefaultLVS; stk_PVs := stk_PVs DefaultLVS; stk_Bdev := Some b |} in
  if decide (op_LvsAioFilePath opt ≠ "") then
    with_bdev {| sb_Type := AioBdevType; sb_Name := DefaultAioBdevName; sb_Size := uwrap64 (op_LvsSize opt);
                 sb_FilePath := op_LvsAioFilePath opt; sb_CreateIfNotExist := true; sb_VfioPCIeKeyword := "" |}
  else if op_LvsMallocBdev opt then
    with_bdev {| sb_Type := MemBdevType; sb_Name := DefaultMallocBdevName; sb_Size := uwrap64 (op_LvsSize opt);
                 sb_FilePath := ""; sb_CreateIfNotExist := false; sb_VfioPCIeKeyword := "" |}
  else agc_Storage cfg.
End set_up.

(** The pool of the node: its name is the node's. *)
Definition own_pool {L : K8sLib} (nodeID : string) (p : StoragePool) : StoragePool :=
  let info := sps_NodeInfo (sp_Spec p) in
  let meta := sp_meta p in
  {| sp_meta := {| om_Name := nodeID; om_Namespace := DefaultNamespace; om_UID := om_UID meta; om_CreationTimestamp := om_CreationTimestamp meta;
       om_DeletionTimestamp := om_DeletionTimestamp meta; om_Labels := om_Labels meta; om_Annotations := om_Annotations meta;
       om_OwnerReferences := om_OwnerReferences meta; om_Finalizers := om_Finalizers meta |};
     sp_Spec := {| sps_KernelLVM := sps_KernelLVM (sp_Spec p); sps_SpdkLVStore := sps_SpdkLVStore (sp_Spec p); sps_Addresses := sps_Addresses (sp_Spec p);
       sps_NodeInfo := {| ni_ID := nodeID; ni_IP := ni_IP info; ni_Hostname := ni_Hostname info; ni_Labels := ni_Labels info |} |};
     sp_Status := sp_Status p |}.

Section pool_service.
Context {L : K8sLib} {W : Type} {RPC : SpdkRpc W} {BR : BdevRpc W} {OS : OsFiles W} {X : NodeShell W} {G : LvmGroups W}.
Context {E : PoolEngineIface (SpdkService * W)} (spdk_Version : go W (string * option error)).
Abbreviation SM := (@SpdkM W).

(* [spdk/service.go:80-97] NewSpdkService *)
Definition NewSpdkService (allowAnyHost : bool) : SM (option error) :=
  _ ← with_svc (λ _, {| ss_AllowAnyHost := allowAnyHost; ss_cli := false; ss_idAlloc := {|
        sa_cursor := MinSvcID; sa_inUse := MapSet.NewEmptySet; sa_minId := MinSvcID; sa_maxId := MaxSvcID; sa_reader := false |} |});
  Reconnect.
Definition built_pool (info : StaticInfo) : StoragePool :=
  let spec := StoragePoolSpec_zero in
  sp_set_Spec {| sps_KernelLVM := default (sps_KernelLVM spec) (si_LVM info); sps_SpdkLVStore := default (sps_SpdkLVStore spec) (si_LVS info);
                 sps_Addresses := sps_Addresses spec; sps_NodeInfo := sps_NodeInfo spec |} StoragePool_zero.
Definition build_service (cfg : StorageStack) : SM (option PoolService * option error) :=
  '(info, err) ← Build (po_Mode (stk_Pooling cfg)) cfg;
  mret (match err with
        | Some e => (None, Some e)
        | None => (Some {| psv_pool := built_pool info; psv_current := {| ss_SpdkVersion := ""; ss_Error := Some ErrTgtUnknown |} |}, None)
        end).
(** A lost connection to SPDK is no error; when the pool cannot be built the service is nil. *)
(* [agent/pool/service.go:32-99] NewPoolService *)
Definition NewPoolService (cfg : StorageStack) : SM (option PoolService * option error) :=
  err ← NewSpdkService false;
  match err with
  | Some e => if decide (e = ErrorSpdkConnectionLost) then build_service cfg else mret (None, Some e)
  | None => build_service cfg
  end.
(** The status of SPDK is read through the service also when there is none. *)
(* [agent/manager/manager.go:136-171] StoragePoolManager.newPoolService *)
Definition newPoolService (opt : Option) (cfg : AgentConfig) : SM (option PoolService * option error) :=
  let storage := chosen_storage opt cfg in
  '(ps, err) ← NewPoolService storage;
  if decide (po_Mode (stk_Pooling storage) = PoolModeSpdkLVStore) then
    ps ← deref "ps" ps;
    '(ver, statusErr) ← on_snd spdk_Version;
    mret (Some {| psv_pool := psv_pool ps; psv_current := {| ss_SpdkVersion := ver; ss_Error := statusErr |} |}, err)
  else mret (ps, err).
(* [agent/manager/manager.go:67-103] NewStoragePoolManager *)
Definition NewStoragePoolManager (node_Get : string → go (SpdkService * W) (result KNode)) (LoadFile : string → go (SpdkService * W) (AgentConfig * option error))
    (IsNotExist : error → bool) (InitHostNQN : string → go (SpdkService * W) (option error)) (opt : Option) : SM (result (PoolService * AgentConfig)) :=
  r ← setupConfig node_Get LoadFile IsNotExist opt AgentConfig_zero;
  match r with
  | inr e => mret (inr e)
  | inl cfg =>
      err ← InitHostNQN (op_NodeID opt);
      match err with
      | Some e => mret (inr e)
      | None =>
          '(ps, err) ← newPoolService opt cfg;
          match err with
          | Some e => mret (inr e)
          | None =>
              ps ← deref "PoolService" ps;
              mret (inl ({| psv_pool := own_pool (op_NodeID opt) (psv_pool ps); psv_current := psv_current ps |}, cfg))
          end
      end
  end.
End pool_service.

(** ** The heartbeat *)

(* [agent/manager/manager.go:26-26] AntstorDefaultNamespace *)
Definition AntstorDefaultNamespace : string := "obnvmf".
(** What [Get] and [Update] of the client return with an error. *)
Definition Lease_zero : Lease := {|
  ls_Name := ""; ls_RenewTime := None; ls_HolderIdentity := None; ls_LeaseDurationSeconds := None; ls_OwnerReferences := [] |}.
Definition ls_renew (t : Z) (l : Lease) : Lease := {|
  ls_Name := ls_Name l; ls_RenewTime := Some t; ls_HolderIdentity := ls_HolderIdentity l;
  ls_LeaseDurationSeconds := ls_LeaseDurationSeconds l; ls_OwnerReferences := ls_OwnerReferences l |}.

Section heartbeat_service.
Context {L : K8sLib} {W : Type} {KL : KubeClient W Lease} {KP : KubeClient W StoragePool}.
(** The lease the service has seen last; nil at the start. *)
Definition HB : Type := option Lease * W.
Definition cache (l : option Lease) : go HB unit := gmodify (λ s, (l, s.2)).

(** A new lease, owned by the node's pool. *)
(* [agent/manager/heartbeat.go:61-94] HeartbeatService.doHeartbeat, a new lease *)
Definition create_lease (nodeID : string) (now : Z) : go HB (option error) :=
  pool ← on_snd (kGet (T := StoragePool) AntstorDefaultNamespace nodeID);
  match pool with
  | inr e => mret (Some e)
  | inl pool =>
      created ← on_snd (kCreate {|
        ls_Name := nodeID; ls_RenewTime := Some now; ls_HolderIdentity := Some nodeID; ls_LeaseDurationSeconds := Some 40%Z;
        ls_OwnerReferences := [{| or_APIVersion := "volume.antstor.alipay.com/v1"; or_Kind := "StoragePool"; or_Name := sp_Name pool; or_UID := om_UID (sp_meta pool) |}] |});
      match created with
      | inl l => _ ← cache (Some l); mret None
      | inr e => _ ← cache None; mret (Some e)
      end
  end.
(** The error of an update is replaced by that of the read that follows it. *)
(* [agent/manager/heartbeat.go:103-117] HeartbeatService.doHeartbeat, renewing *)
Definition renew_lease (nodeID : string) (now : Z) (lease : Lease) : go HB (option error) :=
  updated ← on_snd (kUpdate (ls_renew now lease));
  match updated with
  | inl l => _ ← cache (Some l); mret None
  | inr _ =>
      got ← on_snd (kGet (T := Lease) LeaseNamespace nodeID);
      match got with
      | inl l => _ ← cache (Some l); mret None
      | inr e => _ ← cache (Some Lease_zero); mret (Some e)
      end
  end.
(* [agent/manager/heartbeat.go:46-118] HeartbeatService.doHeartbeat *)
Definition doHeartbeat (nodeID : string) (now : Z) : go HB (option error) :=
  s ← gget;
  let fetch :=
    got ← on_snd (kGet (T := Lease) LeaseNamespace nodeID);
    match got with
    | inl l => _ ← cache (Some l); renew_lease nodeID now l
    | inr e =>
        _ ← cache (Some Lease_zero);
        if IsNotFound e then create_lease nodeID now else mret (Some e)
    end in
  match s.1 with
  | Some l => if decide (ls_Name l = "") then fetch else renew_lease nodeID now l
  | None => fetch
  end.
End heartbeat_service.

(** *** What a beat does *)

#[export] Instance lease_KubeObject : KubeObject Lease := {|
  ko_meta l := {| om_Name := ls_Name l; om_Namespace := LeaseNamespace; om_UID := ""; om_CreationTimestamp := 0; om_DeletionTimestamp := None;
    om_Labels := None; om_Annotations := None; om_OwnerReferences := ls_OwnerReferences l; om_Finalizers := [] |};
  ko_with_status l _ := l;
  ko_with_meta m l := {| ls_Name := om_Name m; ls_RenewTime := ls_RenewTime l; ls_HolderIdentity := ls_HolderIdentity l;
    ls_LeaseDurationSeconds := ls_LeaseDurationSeconds l; ls_OwnerReferences := om_OwnerReferences m |} |}.

Section heartbeat_spec.
Context {L : K8sLib} {W1 W2 : Type} {KL : KubeClient W1 Lease} {KP : KubeClient W2 StoragePool} {KN : KubeClient W2 CoreNode}.
Context {HL : StoreLaws KL} {HP : StoreLaws KP}.
(** Leases and pools are kept by one server. *)
#[local] Instance leases : KubeClient (W1 * W2) Lease := client_fst KL.
#[local] Instance pools : KubeClient (W1 * W2) StoragePool := client_snd KP.
#[local] Instance nodes : KubeClient (W1 * W2) CoreNode := client_snd KN.
#[local] Instance pools_laws : StoreLaws pools := laws_snd KP HP.
Implicit Types (w : W1 * W2) (s : State) (p sp : StoragePool) (c : option Lease).

Definition leases_of w : gmap (string * string) Lease := sl_view w.1.
Definition known (nodeID : string) c : Prop := match c with None => True | Some l => ls_Name l = "" ∨ ls_Name l = nodeID end.
(** The lease of the node, last renewed at [t], and nothing else, changed. *)
Definition renewed (nodeID : string) (t : Z) w w' : Prop :=
  (∃ l, ls_Name l = nodeID ∧ ls_RenewTime l = Some t ∧ leases_of w' = <[(LeaseNamespace, nodeID) := l]> (leases_of w)) ∧ w'.2 = w.2.
Lemma lease_put (l : Lease) m : store_put l m = <[(LeaseNamespace, ls_Name l) := l]> m.
Proof. reflexivity. Qed.

Lemma renew_lease_run nodeID t (l : Lease) old c w : ls_Name l = nodeID → leases_of w !! (LeaseNamespace, nodeID) = Some old →
  ∃ c' w', renew_lease nodeID t l (c, w) = Ret None (c', w') ∧ known nodeID c' ∧ renewed nodeID t w w'.
Proof.
  intros Hn Hold. unfold renew_lease. go_simpl. unfold on_snd, kUpdate, leases, client_fst, on_fst. cbn [fst snd].
  destruct (sl_update (ls_renew t l) w.1 old) as (w1 & E & Hv); [by rewrite <- Hold; unfold leases_of, ko_key; cbn; rewrite Hn|].
  cbn in E. rewrite E. cbn beta iota. eexists _, _. split; [reflexivity|]. split; [by right|]. split; [|done].
  exists (ls_renew t l). split; [done|]. split; [done|]. unfold leases_of. cbn [fst snd]. rewrite Hv. cbn [ko_with_status lease_KubeObject].
  rewrite lease_put. cbn. by rewrite Hn.
Qed.

(** A beat renews the lease on the server, whatever the service remembers. *)
Lemma doHeartbeat_renews nodeID t c w : nodeID ≠ "" → known nodeID c →
  (∃ old, leases_of w !! (LeaseNamespace, nodeID) = Some old ∧ ls_Name old = nodeID) →
  ∃ c' w', doHeartbeat nodeID t (c, w) = Ret None (c', w') ∧ known nodeID c' ∧ renewed nodeID t w w'.
Proof.
  intros Hne Hc (old & Hold & Hname).
  assert (∃ w1, kGet (T := Lease) LeaseNamespace nodeID w = Ret (inl old) w1 ∧ leases_of w1 = leases_of w ∧ w1.2 = w.2) as (w1 & Eg & Hv & H2).
  { unfold kGet, leases, client_fst, on_fst. destruct (sl_get _ _ _ _ Hold) as (w1 & E & Hv). rewrite E. by eexists. }
  assert (∀ c0, ∃ c' w', renew_lease nodeID t old (c0, w1) = Ret None (c', w') ∧ known nodeID c' ∧ renewed nodeID t w w') as Hfetch.
  { intros c0. rewrite <- Hv in Hold. destruct (renew_lease_run nodeID t old old c0 w1 Hname Hold) as (c' & w' & E & Hk & [Hl Hp]).
    exists c', w'. split; [done|]. split; [done|]. unfold renewed. by rewrite <- Hv, <- H2. }
  unfold doHeartbeat. go_simpl. cbn [fst snd]. destruct c as [l|].
  - destruct (decide (ls_Name l = "")) as [E|E].
    + unfold on_snd at 1. cbn [fst snd]. rewrite Eg. cbn beta iota. unfold cache, gmodify. cbn [fst snd]. apply Hfetch.
    + destruct Hc as [?|Hc]; [done|]. by apply (renew_lease_run nodeID t l old).
  - unfold on_snd at 1. cbn [fst snd]. rewrite Eg. cbn beta iota. unfold cache, gmodify. cbn [fst snd]. apply Hfetch.
Qed.

(** *** Agent and manager together *)

Record Beating := { bt_cache : option Lease; bt_world : W1 * W2; bt_state : State }.
(** The agent beats, or the manager looks at the pool. *)
Inductive beat_event := EBeat (t : Z) | ECheck (t : Z).
Definition beat_step (nodeID : string) sp (e : beat_event) (b : Beating) : option Beating :=
  match e with
  | EBeat t => match doHeartbeat nodeID t (bt_cache b, bt_world b) with
               | Ret None (c, w) => Some {| bt_cache := c; bt_world := w; bt_state := bt_state b |}
               | _ => None
               end
  | ECheck t => match checkHeartbeat t sp (bt_state b, bt_world b) with
                | Ret None (s, w) => Some {| bt_cache := bt_cache b; bt_world := w; bt_state := s |}
                | _ => None
                end
  end.
Fixpoint beat_run (nodeID : string) sp (es : list beat_event) (b : Beating) : option Beating :=
  match es with [] => Some b | e :: es => b' ← beat_step nodeID sp e b; beat_run nodeID sp es b' end.
(** Every look is at most three minutes after the last beat. *)
Fixpoint timely (last : Z) (es : list beat_event) : Prop :=
  match es with
  | [] => True
  | EBeat t :: es => timely t es
  | ECheck t :: es => (t - last ≤ 3 * Minute)%Z ∧ timely last es
  end.
Definition looked (es : list beat_event) : bool := existsb (λ e, match e with ECheck _ => true | EBeat _ => false end) es.
(** The status of a pool whose node beats, once the manager has looked. *)
Definition settled (st : string) : string := if decide (st = PoolStatusUnknown ∨ st = PoolStatusOffline) then PoolStatusReady else st.

(** The lease was renewed at [last], and the pool has the status in the manager's state and on the server. *)
Definition beating (nodeID : string) (last : Z) p (b : Beating) : Prop :=
  known nodeID (bt_cache b) ∧
  (∃ l, leases_of (bt_world b) !! (LeaseNamespace, nodeID) = Some l ∧ ls_Name l = nodeID ∧ ls_RenewTime l = Some last) ∧
  pool_synced nodeID p (bt_state b) (bt_world b).
Lemma settled_next since st : (since ≤ 3 * Minute)%Z → heartbeat_next since st = settled st.
Proof. intros H. unfold heartbeat_next, settled. assert (since < 24 * Hour)%Z by (unfold Hour, Minute, Second in *; lia). rewrite (decide_False (P := (24 * Hour < since)%Z)), (decide_False (P := (3 * Minute < since)%Z)) by lia. done. Qed.

Lemma beat_beating nodeID last p sp t b : nodeID ≠ "" → beating nodeID last p b →
  ∃ b', beat_step nodeID sp (EBeat t) b = Some b' ∧ beating nodeID t p b'.
Proof.
  intros Hne (Hk & (l & Hl & Hname & _) & Hp). destruct (doHeartbeat_renews nodeID t (bt_cache b) (bt_world b)) as (c & w & E & Hk' & (l' & Hn' & Ht & Hv) & H2);
    [done|done|by exists l|]. cbn [beat_step]. rewrite E. eexists. split; [reflexivity|]. split; [done|]. split.
  - exists l'. cbn [bt_world]. by rewrite Hv, lookup_insert_eq.
  - destruct Hp as [Hn [Hview Hd]]. split; [done|]. cbn [bt_world]. split; [|done]. cbn in Hview |- *. by rewrite H2.
Qed.
Lemma patch_keeps_leases base (o : StoragePool) w r w' : kPatchStatus base o w = Ret r w' → leases_of w' = leases_of w.
Proof.
  unfold kPatchStatus, pools, client_snd, on_snd. destruct (kPatchStatus base o w.2) as [r' w2|]; [|done]. by intros [= _ <-].
Qed.
Lemma synced_status nodeID st p s w w' : pool_synced nodeID p s w →
  sl_view w' = <[sp_key p := sp_set_status st p]> (sl_view w) →
  pool_synced nodeID (sp_set_status st p) (with_pool nodeID (sp_set_status st p) s) w'.
Proof.
  intros [(n & Hn & Hp) Hl] Hv. split; [|by apply (pool_live_insert p _ w)].
  unfold with_pool, on_node. rewrite Hn. eexists. cbn. by rewrite lookup_insert_eq.
Qed.
Lemma check_beating nodeID last p sp t b : sp_Name sp = nodeID → (t - last ≤ 3 * Minute)%Z → beating nodeID last p b →
  ∃ b', beat_step nodeID sp (ECheck t) b = Some b' ∧ beating nodeID last (sp_set_status (settled (spst_Status (sp_Status p))) p) b'.
Proof.
  intros Hsp Ht (Hk & (l & Hl & Hname & Hr) & Hp).
  assert (∃ w0, kGet (T := Lease) LeaseNamespace (sp_Name sp) (bt_world b) = Ret (inl l) w0 ∧ leases_of w0 = leases_of (bt_world b) ∧ w0.2 = (bt_world b).2)
    as (w0 & Eg & Hv & H2).
  { rewrite Hsp. unfold kGet, leases, client_fst, on_fst. destruct (sl_get _ _ _ _ Hl) as (w1 & E & Hv). rewrite E. by eexists. }
  destruct (checkHeartbeat_status leases_of patch_keeps_leases t sp p (bt_state b) (bt_world b) w0 l last Eg) as (w' & E & Hw' & Hf);
    [cbn; by rewrite H2|done|done|by rewrite Hname|].
  rewrite settled_next in E, Hw' by (unfold time_Since_ns, Minute, Second in *; lia). cbn [beat_step]. rewrite E. eexists. split; [reflexivity|].
  split; [done|]. split.
  - exists l. cbn [bt_world]. by rewrite Hf.
  - rewrite Hname. by apply (synced_status _ _ _ _ (bt_world b)).
Qed.
Lemma settled_settled st : settled (settled st) = settled st.
Proof. unfold settled. repeat case_decide; naive_solver. Qed.
Lemma sp_set_status_twice st st' p : sp_set_status st (sp_set_status st' p) = sp_set_status st p.
Proof. by destruct p as [? ? []]. Qed.

(** C38. A node that beats keeps its pool: however the beats of the agent and the
    looks of the manager follow each other, as long as every look comes at most
    three minutes after a beat, none of them fails, a pool that was ready stays
    ready, a locked one locked, and one that was given up as unknown or offline is
    ready after the first look, in the manager's state and on the server. *)
Theorem beating_pool_stays_up nodeID sp es last p b :
  nodeID ≠ "" → sp_Name sp = nodeID → beating nodeID last p b → timely last es →
  let st := spst_Status (sp_Status p) in
  ∃ b', beat_run nodeID sp es b = Some b' ∧
    pool_synced nodeID (sp_set_status (if looked es then settled st else st) p) (bt_state b') (bt_world b').
Proof.
  intros Hne Hsp. revert last p b. induction es as [|e es IH]; intros last p b Hb Ht st.
  { exists b. split; [done|]. cbn [looked existsb]. unfold st. rewrite sp_set_status_id. apply Hb. }
  destruct e as [t|t]; cbn [timely] in Ht.
  - destruct (beat_beating nodeID last p sp t b Hne Hb) as (b1 & E & Hb1). cbn [beat_run]. rewrite E. cbn [mbind option_bind].
    exact (IH t p b1 Hb1 Ht).
  - destruct Ht as [Hle Ht]. destruct (check_beating nodeID last p sp t b Hsp Hle Hb) as (b1 & E & Hb1). cbn [beat_run]. rewrite E. cbn [mbind option_bind].
    destruct (IH last _ b1 Hb1 Ht) as (b' & E' & Hs). exists b'. split; [done|]. rewrite sp_set_status_twice in Hs.
    cbn [sp_Status sp_set_status sp_set_Status spst_set_Status spst_Status] in Hs. rewrite settled_settled in Hs. cbn [looked existsb orb].
    unfold looked in Hs. destruct (existsb _ es); exact Hs.
Qed.
End heartbeat_spec.

(** A beat whose update is refused counts as a success when the lease can be
    read afterwards, although the lease was not renewed. *)
Lemma refused_beat_succeeds {L : K8sLib} {W : Type} {KL : KubeClient W Lease} {KP : KubeClient W StoragePool} nodeID t l e l' w w1 w2 :
  ls_Name l ≠ "" → kUpdate (ls_renew t l) w = Ret (inr e) w1 → kGet (T := Lease) LeaseNamespace nodeID w1 = Ret (inl l') w2 →
  doHeartbeat nodeID t (Some l, w) = Ret None (Some l', w2).
Proof.
  intros Hn Hu Hg. unfold doHeartbeat, renew_lease, on_snd. go_simpl. cbn [fst snd]. rewrite decide_False by done. go_simpl. cbn [fst snd].
  rewrite Hu. cbn beta iota. cbn [fst snd]. by rewrite Hg.
Qed.

(** *** The set-up *)

Section set_up_spec.
Context {L : K8sLib} {W : Type} {RPC : SpdkRpc W} {BR : BdevRpc W} {OS : OsFiles W} {X : NodeShell W} {G : LvmGroups W}.
Context {E : PoolEngineIface (SpdkService * W)} (spdk_Version : go W (string * option error)).

(** A pool that is built carries the node's name, so that [syncPool] accepts it. *)
Lemma manager_pool_named node_Get LoadFile IsNotExist InitHostNQN opt st ps cfg st' :
  NewStoragePoolManager spdk_Version node_Get LoadFile IsNotExist InitHostNQN opt st = Ret (inl (ps, cfg)) st' →
  sp_Name (psv_pool ps) = op_NodeID opt ∧ om_Namespace (sp_meta (psv_pool ps)) = DefaultNamespace ∧
  ni_ID (sps_NodeInfo (sp_Spec (psv_pool ps))) = op_NodeID opt.
Proof.
  unfold NewStoragePoolManager. go_simpl.
  destruct (setupConfig _ _ _ _ _ st) as [[c|e] st1|]; [|done|done]. cbn beta iota.
  destruct (InitHostNQN _ st1) as [[e|] st2|]; [done| |done]. cbn beta iota.
  destruct (newPoolService _ _ _ st2) as [[ps' [e|]] st3|]; [done| |done]. cbn beta iota.
  destruct ps' as [ps'|]; [|done]. cbn [deref]. go_simpl. by intros [= <- _ _].
Qed.

(** For a pool in SPDK the comment asks for the error of SPDK to be returned; it
    is only logged, so an agent whose SPDK does not answer goes on. *)
Lemma spdk_error_not_returned opt cfg st st1 ps ver e w2 :
  po_Mode (stk_Pooling (chosen_storage opt cfg)) = PoolModeSpdkLVStore →
  NewPoolService (chosen_storage opt cfg) st = Ret (Some ps, None) st1 →
  spdk_Version st1.2 = Ret (ver, Some e) w2 →
  ∃ ps', newPoolService spdk_Version opt cfg st = Ret (Some ps', None) (st1.1, w2) ∧ ss_Error (psv_current ps') = Some e.
Proof.
  intros Hm Hn Hv. unfold newPoolService, on_snd. go_simpl. rewrite Hn. cbn beta iota. rewrite decide_True by done.
  cbn [deref]. go_simpl. rewrite Hv. by eexists.
Qed.
(** When the pool cannot be built the agent crashes on the nil service. *)
Lemma lvs_build_error_panics opt cfg st st1 e :
  po_Mode (stk_Pooling (chosen_storage opt cfg)) = PoolModeSpdkLVStore →
  NewPoolService (chosen_storage opt cfg) st = Ret (None, Some e) st1 →
  run_val (newPoolService spdk_Version opt cfg st) = None.
Proof. intros Hm Hn. unfold newPoolService. go_simpl. rewrite Hn. cbn beta iota. by rewrite decide_True. Qed.
End set_up_spec.

(** ** Example *)

Section beat_witness.
#[local] Existing Instance NanoLib.
#[local] Existing Instance MemLaws.
Definition mem_node : KubeClient (MemStore StoragePool) CoreNode := fixed_client (inl ex_core_node).
Definition beat_start : Beating (W1 := MemStore Lease) (W2 := MemStore StoragePool) := {|
  bt_cache := None; bt_world := ({[ (LeaseNamespace, "node-1") := ex_lease 0 ]}, ex_pools); bt_state := ex_pool_state |}.
Lemma beating_pool_stays_up_witness :
  ∃ b', beat_run (KL := MemClient) (KP := MemClient) (KN := mem_node) "node-1" ex_sp
          [ECheck Minute; EBeat (2 * Minute); ECheck (4 * Minute); EBeat (5 * Minute)] beat_start = Some b' ∧
    pool_synced (HK := pools_laws) "node-1" (sp_set_status PoolStatusReady ex_sp) (bt_state b') (bt_world b').
Proof.
  apply (beating_pool_stays_up (KL := MemClient) (KP := MemClient) (KN := mem_node) "node-1" ex_sp
    [ECheck Minute; EBeat (2 * Minute); ECheck (4 * Minute); EBeat (5 * Minute)] 0 ex_sp beat_start).
  - done.
  - reflexivity.
  - split; [done|]. split; [|exact ex_pool_synced]. exists (ex_lease 0). split; [apply lookup_singleton_eq|done].
  - cbn [timely]. split; [vm_compute; discriminate|]. split; [vm_compute; discriminate|done].
Defined.
End beat_witness.
