(* ===== verification/Runnable.v ===== *)
(** * A group of runnables

    [pkg/util/runnable]: the agent's loops run in a group that starts them, waits
    until they are ready, collects their errors on a channel, and stops them. The
    group's methods and its goroutines are steps on a shared state here: what a
    goroutine does between two operations that can block is one step, a value
    handed over an unbuffered channel is one step of both sides, and any order of
    the steps can happen. The contexts of [Start] and [StopAndWait] may end at any
    time; the branches of the code that look at them are steps too. *)

From Stdlib Require Import ZArith Lia.
From stdpp Require Import base gmap fin_maps strings option list.
From S2P Require Import Prelude.

(** ** The state *)

(** Where [Start] is: not called, sending the queue to the reconciler with the
    start lock held, waiting for ready signals, returned. *)
Inductive StartPc := SIdle | SSend (todo : list nat) | SWait | SDone.
(** The reconciler's goroutine: not there, receiving, having received, blocked on
    the error channel with a runnable it drops, returned. *)
Inductive RecPc := RNone | RRecv | RGot (rn : nat) | RDrop | RExit.
(** [StopAndWait]: not called, inside [Start], waiting for the runnables, returned. *)
Inductive StopPc := TIdle | TStart | TWait | TDone.
(** A runnable's goroutine: in its [Start], blocked on the error channel, ended. *)
Inductive Main := Running | Failing | Ended.
(** The goroutine of its check: in the check, blocked on the ready channel, ended. *)
Inductive Ready := Checking | Signalling | Checked.
#[export] Instance Main_eq : EqDecision Main.
Proof. solve_decision. Defined.
#[export] Instance Ready_eq : EqDecision Ready.
Proof. solve_decision. Defined.

(** What [ctx.Err()] says of a context that is done. *)
Inductive CtxErr := Canceled | DeadlineExceeded.
#[export] Instance CtxErr_eq : EqDecision CtxErr.
Proof. solve_decision. Defined.

(** The fields of the group, its goroutines, and the calls of [Add] that wait: for
    the start lock ([checked]) and to send ([adding]). [g_initial] is the queue as
    it was when [Start] was called. Runnables are numbers. [g_ctx] and [g_sctx] are
    the contexts of the callers of [Start] and of [StopAndWait]; [g_bystop] says that
    it was [StopAndWait] that called [Start], with its own context, and [g_ret] is
    the variable [retErr] of [Start]. *)
(* [util/runnable/runnable_group.go:41-66] RunnableGroup *)
Record Group := {
  g_start : StartPc;
  g_rec : RecPc;
  g_stop : StopPc;
  g_started : bool;
  g_stopped : bool;
  g_closed : bool;
  g_queue : list nat;
  g_initial : list nat;
  g_checked : list nat;
  g_adding : list nat;
  g_run : gmap nat Main;
  g_ready : gmap nat Ready;
  g_wg : nat;
  g_panicked : bool;
  g_ctx : option CtxErr;
  g_sctx : option CtxErr;
  g_bystop : bool;
  g_ret : option CtxErr;
}.
Definition gset_start (x : StartPc) (g : Group) : Group := {|
  g_start := x; g_rec := g_rec g; g_stop := g_stop g; g_started := g_started g; g_stopped := g_stopped g; g_closed := g_closed g; g_queue := g_queue g; g_initial := g_initial g; g_checked := g_checked g; g_adding := g_adding g; g_run := g_run g; g_ready := g_ready g; g_wg := g_wg g; g_panicked := g_panicked g; g_ctx := g_ctx g; g_sctx := g_sctx g; g_bystop := g_bystop g; g_ret := g_ret g |}.
Definition gset_rec (x : RecPc) (g : Group) : Group := {|
  g_start := g_start g; g_rec := x; g_stop := g_stop g; g_started := g_started g; g_stopped := g_stopped g; g_closed := g_closed g; g_queue := g_queue g; g_initial := g_initial g; g_checked := g_checked g; g_adding := g_adding g; g_run := g_run g; g_ready := g_ready g; g_wg := g_wg g; g_panicked := g_panicked g; g_ctx := g_ctx g; g_sctx := g_sctx g; g_bystop := g_bystop g; g_ret := g_ret g |}.
Definition gset_stop (x : StopPc) (g : Group) : Group := {|
  g_start := g_start g; g_rec := g_rec g; g_stop := x; g_started := g_started g; g_stopped := g_stopped g; g_closed := g_closed g; g_queue := g_queue g; g_initial := g_initial g; g_checked := g_checked g; g_adding := g_adding g; g_run := g_run g; g_ready := g_ready g; g_wg := g_wg g; g_panicked := g_panicked g; g_ctx := g_ctx g; g_sctx := g_sctx g; g_bystop := g_bystop g; g_ret := g_ret g |}.
Definition gset_started (x : bool) (g : Group) : Group := {|
  g_start := g_start g; g_rec := g_rec g; g_stop := g_stop g; g_started := x; g_stopped := g_stopped g; g_closed := g_closed g; g_queue := g_queue g; g_initial := g_initial g; g_checked := g_checked g; g_adding := g_adding g; g_run := g_run g; g_ready := g_ready g; g_wg := g_wg g; g_panicked := g_panicked g; g_ctx := g_ctx g; g_sctx := g_sctx g; g_bystop := g_bystop g; g_ret := g_ret g |}.
Definition gset_stopped (x : bool) (g : Group) : Group := {|
  g_start := g_start g; g_rec := g_rec g; g_stop := g_stop g; g_started := g_started g; g_stopped := x; g_closed := g_closed g; g_queue := g_queue g; g_initial := g_initial g; g_checked := g_checked g; g_adding := g_adding g; g_run := g_run g; g_ready := g_ready g; g_wg := g_wg g; g_panicked := g_panicked g; g_ctx := g_ctx g; g_sctx := g_sctx g; g_bystop := g_bystop g; g_ret := g_ret g |}.
Definition gset_closed (x : bool) (g : Group) : Group := {|
  g_start := g_start g; g_rec := g_rec g; g_stop := g_stop g; g_started := g_started g; g_stopped := g_stopped g; g_closed := x; g_queue := g_queue g; g_initial := g_initial g; g_checked := g_checked g; g_adding := g_adding g; g_run := g_run g; g_ready := g_ready g; g_wg := g_wg g; g_panicked := g_panicked g; g_ctx := g_ctx g; g_sctx := g_sctx g; g_bystop := g_bystop g; g_ret := g_ret g |}.
Definition gset_queue (x : list nat) (g : Group) : Group := {|
  g_start := g_start g; g_rec := g_rec g; g_stop := g_stop g; g_started := g_started g; g_stopped := g_stopped g; g_closed := g_closed g; g_queue := x; g_initial := g_initial g; g_checked := g_checked g; g_adding := g_adding g; g_run := g_run g; g_ready := g_ready g; g_wg := g_wg g; g_panicked := g_panicked g; g_ctx := g_ctx g; g_sctx := g_sctx g; g_bystop := g_bystop g; g_ret := g_ret g |}.
Definition gset_initial (x : list nat) (g : Group) : Group := {|
  g_start := g_start g; g_rec := g_rec g; g_stop := g_stop g; g_started := g_started g; g_stopped := g_stopped g; g_closed := g_closed g; g_queue := g_queue g; g_initial := x; g_checked := g_checked g; g_adding := g_adding g; g_run := g_run g; g_ready := g_ready g; g_wg := g_wg g; g_panicked := g_panicked g; g_ctx := g_ctx g; g_sctx := g_sctx g; g_bystop := g_bystop g; g_ret := g_ret g |}.
Definition gset_checked (x : list nat) (g : Group) : Group := {|
  g_start := g_start g; g_rec := g_rec g; g_stop := g_stop g; g_started := g_started g; g_stopped := g_stopped g; g_closed := g_closed g; g_queue := g_queue g; g_initial := g_initial g; g_checked := x; g_adding := g_adding g; g_run := g_run g; g_ready := g_ready g; g_wg := g_wg g; g_panicked := g_panicked g; g_ctx := g_ctx g; g_sctx := g_sctx g; g_bystop := g_bystop g; g_ret := g_ret g |}.
Definition gset_adding (x : list nat) (g : Group) : Group := {|
  g_start := g_start g; g_rec := g_rec g; g_stop := g_stop g; g_started := g_started g; g_stopped := g_stopped g; g_closed := g_closed g; g_queue := g_queue g; g_initial := g_initial g; g_checked := g_checked g; g_adding := x; g_run := g_run g; g_ready := g_ready g; g_wg := g_wg g; g_panicked := g_panicked g; g_ctx := g_ctx g; g_sctx := g_sctx g; g_bystop := g_bystop g; g_ret := g_ret g |}.
Definition gset_run (x : gmap nat Main) (g : Group) : Group := {|
  g_start := g_start g; g_rec := g_rec g; g_stop := g_stop g; g_started := g_started g; g_stopped := g_stopped g; g_closed := g_closed g; g_queue := g_queue g; g_initial := g_initial g; g_checked := g_checked g; g_adding := g_adding g; g_run := x; g_ready := g_ready g; g_wg := g_wg g; g_panicked := g_panicked g; g_ctx := g_ctx g; g_sctx := g_sctx g; g_bystop := g_bystop g; g_ret := g_ret g |}.
Definition gset_ready (x : gmap nat Ready) (g : Group) : Group := {|
  g_start := g_start g; g_rec := g_rec g; g_stop := g_stop g; g_started := g_started g; g_stopped := g_stopped g; g_closed := g_closed g; g_queue := g_queue g; g_initial := g_initial g; g_checked := g_checked g; g_adding := g_adding g; g_run := g_run g; g_ready := x; g_wg := g_wg g; g_panicked := g_panicked g; g_ctx := g_ctx g; g_sctx := g_sctx g; g_bystop := g_bystop g; g_ret := g_ret g |}.
Definition gset_wg (x : nat) (g : Group) : Group := {|
  g_start := g_start g; g_rec := g_rec g; g_stop := g_stop g; g_started := g_started g; g_stopped := g_stopped g; g_closed := g_closed g; g_queue := g_queue g; g_initial := g_initial g; g_checked := g_checked g; g_adding := g_adding g; g_run := g_run g; g_ready := g_ready g; g_wg := x; g_panicked := g_panicked g; g_ctx := g_ctx g; g_sctx := g_sctx g; g_bystop := g_bystop g; g_ret := g_ret g |}.
Definition gset_panicked (x : bool) (g : Group) : Group := {|
  g_start := g_start g; g_rec := g_rec g; g_stop := g_stop g; g_started := g_started g; g_stopped := g_stopped g; g_closed := g_closed g; g_queue := g_queue g; g_initial := g_initial g; g_checked := g_checked g; g_adding := g_adding g; g_run := g_run g; g_ready := g_ready g; g_wg := g_wg g; g_panicked := x; g_ctx := g_ctx g; g_sctx := g_sctx g; g_bystop := g_bystop g; g_ret := g_ret g |}.
Definition gset_ctx (x : option CtxErr) (g : Group) : Group := {|
  g_start := g_start g; g_rec := g_rec g; g_stop := g_stop g; g_started := g_started g; g_stopped := g_stopped g; g_closed := g_closed g; g_queue := g_queue g; g_initial := g_initial g; g_checked := g_checked g; g_adding := g_adding g; g_run := g_run g; g_ready := g_ready g; g_wg := g_wg g; g_panicked := g_panicked g; g_ctx := x; g_sctx := g_sctx g; g_bystop := g_bystop g; g_ret := g_ret g |}.
Definition gset_sctx (x : option CtxErr) (g : Group) : Group := {|
  g_start := g_start g; g_rec := g_rec g; g_stop := g_stop g; g_started := g_started g; g_stopped := g_stopped g; g_closed := g_closed g; g_queue := g_queue g; g_initial := g_initial g; g_checked := g_checked g; g_adding := g_adding g; g_run := g_run g; g_ready := g_ready g; g_wg := g_wg g; g_panicked := g_panicked g; g_ctx := g_ctx g; g_sctx := x; g_bystop := g_bystop g; g_ret := g_ret g |}.
Definition gset_bystop (x : bool) (g : Group) : Group := {|
  g_start := g_start g; g_rec := g_rec g; g_stop := g_stop g; g_started := g_started g; g_stopped := g_stopped g; g_closed := g_closed g; g_queue := g_queue g; g_initial := g_initial g; g_checked := g_checked g; g_adding := g_adding g; g_run := g_run g; g_ready := g_ready g; g_wg := g_wg g; g_panicked := g_panicked g; g_ctx := g_ctx g; g_sctx := g_sctx g; g_bystop := x; g_ret := g_ret g |}.
Definition gset_ret (x : option CtxErr) (g : Group) : Group := {|
  g_start := g_start g; g_rec := g_rec g; g_stop := g_stop g; g_started := g_started g; g_stopped := g_stopped g; g_closed := g_closed g; g_queue := g_queue g; g_initial := g_initial g; g_checked := g_checked g; g_adding := g_adding g; g_run := g_run g; g_ready := g_ready g; g_wg := g_wg g; g_panicked := g_panicked g; g_ctx := g_ctx g; g_sctx := g_sctx g; g_bystop := g_bystop g; g_ret := x |}.

(* [util/runnable/runnable_group.go:68-77] NewRunnableGroup *)
Definition NewRunnableGroup : Group := {|
  g_start := SIdle; g_rec := RNone; g_stop := TIdle; g_started := false; g_stopped := false; g_closed := false;
  g_queue := []; g_initial := []; g_checked := []; g_adding := []; g_run := ∅; g_ready := ∅; g_wg := 0; g_panicked := false;
  g_ctx := None; g_sctx := None; g_bystop := false; g_ret := None |}.

(** ** The steps *)

Inductive action :=
| AAdd (rn : nat)         (** [Add] is called and finds the group not stopped *)
| AAddEnqueue (rn : nat)  (** it gets the start lock: the group's queue, or the channel *)
| AAddRecv (rn : nat)     (** the reconciler receives what [Add] sends *)
| AAddPanic (rn : nat)    (** [Add] sends on the closed channel *)
| AStart                  (** [Start] is called first *)
| AStartSend              (** the reconciler receives what [Start] sends *)
| AStartSent              (** the queue is sent *)
| ASignal (rn : nat)      (** [Start] receives a ready signal *)
| AStartCtx (e : CtxErr)  (** the context of the caller of [Start] is done *)
| AStartSpin              (** [Start] finds its context done, and goes on waiting *)
| ALaunch                 (** the reconciler starts a runnable *)
| ADrop                   (** the reconciler drops it, the group is stopped *)
| AExit                   (** the reconciler's channel is closed *)
| ACheck (rn : nat)       (** a check returns *)
| AEnd (rn : nat)         (** a runnable returns without an error *)
| AFail (rn : nat)        (** a runnable returns an error *)
| AReadError (rn : nat)   (** somebody reads the error of a runnable *)
| AReadDrop               (** somebody reads the error of a dropped runnable *)
| AStop                   (** [StopAndWait] is called first *)
| AStopSet                (** it has got back from [Start] and stops the group *)
| AStopDone               (** the runnables have ended; the channel is closed *)
| AStopCtx (e : CtxErr)   (** the context of the caller of [StopAndWait] is done *)
| AStopExpired.           (** it finds that, and closes the channel without waiting *)

Fixpoint remove_one (rn : nat) (l : list nat) : list nat :=
  match l with [] => [] | x :: l => if decide (x = rn) then l else x :: remove_one rn l end.

Section steps.
(** What the check of a runnable answers, if it is called. *)
Context (check : nat → bool).

(** The part of [Start] under its lock begins: the reconciler runs. *)
Definition start_begins (g : Group) : Group :=
  gset_start (SSend (g_queue g)) (gset_rec RRecv (gset_started true (gset_initial (g_queue g) g))).
Definition sending (g : Group) : Prop := match g_start g with SSend _ => True | _ => False end.
#[export] Instance sending_dec g : Decision (sending g).
Proof. unfold sending. destruct (g_start g); apply _. Defined.
(** The runnables on their way to the reconciler. *)
Definition got (g : Group) : list nat := match g_rec g with RGot rn => [rn] | _ => [] end.
Definition unsent (g : Group) : list nat := match g_start g with SIdle => g_queue g | SSend todo => todo | _ => [] end.
Definition pending (g : Group) : list nat := g_checked g ++ g_adding g ++ got g ++ unsent g.
(** A runnable is added once. *)
Definition fresh (rn : nat) (g : Group) : Prop := rn ∉ pending g ∧ rn ∉ g_initial g ∧ g_run g !! rn = None.
#[export] Instance RecPc_eq : EqDecision RecPc.
Proof. solve_decision. Defined.
#[export] Instance fresh_dec rn g : Decision (fresh rn g).
Proof. unfold fresh. apply _. Defined.

(** *** Add *)

(* [util/runnable/runnable_group.go:197-234] RunnableGroup.Add *)
Definition add_step (a : action) (g : Group) : option Group :=
  match a with
  | AAdd rn =>
      if decide (g_stopped g = false ∧ fresh rn g) then Some (gset_checked (rn :: g_checked g) g) else None
  | AAddEnqueue rn =>
      if decide (rn ∈ g_checked g ∧ ¬ sending g) then
        let g := gset_checked (remove_one rn (g_checked g)) g in
        Some (if g_started g then gset_adding (rn :: g_adding g) g else gset_queue (g_queue g ++ [rn]) g)
      else None
  | AAddRecv rn =>
      if decide (rn ∈ g_adding g ∧ g_rec g = RRecv ∧ g_closed g = false)
      then Some (gset_rec (RGot rn) (gset_adding (remove_one rn (g_adding g)) g)) else None
  | AAddPanic rn =>
      if decide (rn ∈ g_adding g ∧ g_closed g = true) then Some (gset_panicked true g) else None
  | _ => None
  end.

(** *** Start *)

Definition waits_or_done (queue : list nat) : StartPc := match queue with [] => SDone | _ => SWait end.
(** The context of the call of [Start] that runs. *)
Definition start_ctx (g : Group) : option CtxErr := if g_bystop g then g_sctx g else g_ctx g.
(** The loop's [case <-ctx.Done()]: an error that is not [context.Canceled] is kept
    for the caller, and the loop goes on. *)
Definition note_ctx (e : CtxErr) (ret : option CtxErr) : option CtxErr := if decide (e = Canceled) then ret else Some e.
(* [util/runnable/runnable_group.go:89-137] RunnableGroup.Start *)
Definition start_step (a : action) (g : Group) : option Group :=
  match a, g_start g with
  | AStart, SIdle => Some (start_begins g)
  | AStartSend, SSend (rn :: todo) =>
      if decide (g_rec g = RRecv) then Some (gset_start (SSend todo) (gset_rec (RGot rn) g)) else None
  | AStartSent, SSend [] => Some (gset_start (waits_or_done (g_queue g)) g)
  | ASignal rn, SWait =>
      if decide (g_ready g !! rn = Some Signalling) then
        let queue := remove_one rn (g_queue g) in
        Some (gset_start (waits_or_done queue) (gset_queue queue (gset_ready (<[rn := Checked]> (g_ready g)) g)))
      else None
  | AStartSpin, SWait => match start_ctx g with Some e => Some (gset_ret (note_ctx e (g_ret g)) g) | None => None end
  | _, _ => None
  end.
(** The callers' contexts are done once, at any time, also before the call. *)
Definition ctx_step (a : action) (g : Group) : option Group :=
  match a with
  | AStartCtx e => match g_ctx g with None => Some (gset_ctx (Some e) g) | Some _ => None end
  | AStopCtx e => match g_sctx g with None => Some (gset_sctx (Some e) g) | Some _ => None end
  | _ => None
  end.

(** *** The reconciler and its runnables *)

(* [util/runnable/runnable_group.go:142-188] RunnableGroup.reconcile *)
Definition reconcile_step (a : action) (g : Group) : option Group :=
  match a with
  | ALaunch =>
      match g_rec g with
      | RGot rn =>
          if g_stopped g then None
          else Some (gset_rec RRecv (gset_wg (S (g_wg g)) (gset_run (<[rn := Running]> (g_run g)) (gset_ready (<[rn := Checking]> (g_ready g)) g))))
      | _ => None
      end
  | ADrop => match g_rec g with RGot _ => if g_stopped g then Some (gset_rec RDrop g) else None | _ => None end
  | AReadDrop => match g_rec g with RDrop => Some (gset_rec RRecv g) | _ => None end
  | AExit => if decide (g_rec g = RRecv ∧ g_closed g = true) then Some (gset_rec RExit g) else None
  | ACheck rn =>
      if decide (g_ready g !! rn = Some Checking)
      then Some (gset_ready (<[rn := if check rn && bool_decide (rn ∈ g_initial g) then Signalling else Checked]> (g_ready g)) g) else None
  | AEnd rn =>
      if decide (g_run g !! rn = Some Running)
      then Some (gset_run (<[rn := Ended]> (g_run g)) (gset_wg (pred (g_wg g)) g)) else None
  | AFail rn =>
      if decide (g_run g !! rn = Some Running) then Some (gset_run (<[rn := Failing]> (g_run g)) g) else None
  | AReadError rn =>
      if decide (g_run g !! rn = Some Failing)
      then Some (gset_run (<[rn := Ended]> (g_run g)) (gset_wg (pred (g_wg g)) g)) else None
  | _ => None
  end.

(** *** StopAndWait *)

(** It calls [Start] with its own context: when [Start] was called before, it waits
    until that call has returned. Then it stops the group and waits for the
    runnables or for its context, whichever is first: [select] may take either
    case when both are ready. Stopping also cancels the context the runnables got; what
    they make of it is theirs, they may end at any time. *)
(* [util/runnable/runnable_group.go:237-266] RunnableGroup.StopAndWait *)
Definition stop_step (a : action) (g : Group) : option Group :=
  match a, g_stop g with
  | AStop, TIdle => Some (gset_stop TStart (match g_start g with SIdle => gset_bystop true (start_begins g) | _ => g end))
  | AStopSet, TStart => match g_start g with SDone => Some (gset_stop TWait (gset_stopped true g)) | _ => None end
  | AStopDone, TWait => if decide (g_wg g = 0) then Some (gset_stop TDone (gset_closed true g)) else None
  | AStopExpired, TWait => match g_sctx g with Some _ => Some (gset_stop TDone (gset_closed true g)) | None => None end
  | _, _ => None
  end.

Definition step (a : action) (g : Group) : option Group :=
  match a with
  | AAdd _ | AAddEnqueue _ | AAddRecv _ | AAddPanic _ => add_step a g
  | AStart | AStartSend | AStartSent | ASignal _ | AStartSpin => start_step a g
  | AStop | AStopSet | AStopDone | AStopExpired => stop_step a g
  | AStartCtx _ | AStopCtx _ => ctx_step a g
  | _ => reconcile_step a g
  end.
Fixpoint run (tr : list action) (g : Group) : option Group :=
  match tr with [] => Some g | a :: tr => g' ← step a g; run tr g' end.
Definition reachable (g : Group) : Prop := ∃ tr, run tr NewRunnableGroup = Some g.

(** ** What holds in every interleaving *)

Implicit Types (g : Group) (rn : nat).
Definition count {A} `{EqDecision A} (s : A) (m : gmap nat A) : nat := size (filter (λ kv, kv.2 = s) m).
Definition alive (m : gmap nat Main) : nat := count Running m + count Failing m.
Definition failing g : nat := count Failing (g_run g).

(** Where the goroutines can be, and what the flags say of it. *)
Definition nonempty {A} (l : list A) : bool := match l with [] => false | _ => true end.
Definition idle (pc : StartPc) : bool := match pc with SIdle => true | _ => false end.
Definition accepting (pc : StartPc) : bool := match pc with SWait | SDone => true | _ => false end.
Definition start_done (pc : StartPc) : bool := match pc with SDone => true | _ => false end.
Definition flags_ok (start : StartPc) (rec : RecPc) (stop : StopPc) (started stopped closed adders : bool) : bool :=
  eqb started (negb (idle start)) && eqb (match rec with RNone => true | _ => false end) (idle start) &&
  eqb stopped (match stop with TWait | TDone => true | _ => false end) && eqb closed (match stop with TDone => true | _ => false end) &&
  implb (match stop with TIdle => false | _ => true end) (negb (idle start)) && implb stopped (start_done start) &&
  implb (match rec with RDrop => true | _ => false end) stopped && implb (match rec with RExit => true | _ => false end) closed &&
  implb adders (accepting start).
Definition flags g : Prop :=
  flags_ok (g_start g) (g_rec g) (g_stop g) (g_started g) (g_stopped g) (g_closed g) (nonempty (g_adding g)) = true.
(** Which runnables are where. *)
Record parts g : Prop := {
  pa_nodup : NoDup (pending g);
  pa_pending : ∀ rn, rn ∈ pending g → g_run g !! rn = None;
  pa_ready : ∀ rn, g_run g !! rn = None ↔ g_ready g !! rn = None;
  pa_wg : g_wg g = alive (g_run g);
  pa_closed : g_closed g = true → g_sctx g = None → g_wg g = 0;
}.
(** How far [Start] has got with its queue. *)
Record queued g : Prop := {
  qu_idle : g_start g = SIdle → g_initial g = [];
  qu_idle_run : g_start g = SIdle → g_run g = ∅;
  qu_new : ∀ rn, rn ∈ g_checked g ++ g_adding g → rn ∉ g_initial g;
  qu_sub : g_start g ≠ SIdle → ∀ rn, rn ∈ g_queue g → rn ∈ g_initial g;
  qu_nodup : NoDup (g_queue g);
  qu_sent : ∀ rn, rn ∈ g_initial g → rn ∈ got g ++ unsent g ∨ g_run g !! rn ≠ None;
  qu_done : ∀ rn, rn ∈ g_initial g → rn ∈ g_queue g ∨ check rn = true ∧ g_ready g !! rn = Some Checked;
  qu_signal : ∀ rn, g_ready g !! rn = Some Signalling → rn ∈ g_queue g ∧ rn ∈ g_initial g ∧ check rn = true;
  qu_checked : ∀ rn, rn ∈ g_queue g → g_start g ≠ SIdle → g_ready g !! rn = Some Checked → check rn = false;
  qu_empty : g_start g = SDone → g_queue g = [];
  qu_wait : g_start g = SWait → g_queue g ≠ [];
  qu_todo : ∀ todo, g_start g = SSend todo → ∀ rn, rn ∈ todo → rn ∈ g_queue g ∧ rn ∈ g_initial g;
}.

Lemma remove_one_perm rn l : rn ∈ l → l ≡ₚ rn :: remove_one rn l.
Proof.
  induction l as [|x l IH]; intros H; [by apply elem_of_nil in H|]. cbn [remove_one]. destruct (decide (x = rn)) as [->|Hne]; [done|].
  apply elem_of_cons in H as [->|H]; [done|]. rewrite (IH H) at 1. apply Permutation_swap.
Qed.
Lemma remove_one_elem rn x l : x ∈ remove_one rn l → x ∈ l.
Proof.
  induction l as [|y l IH]; [done|]. cbn [remove_one]. destruct (decide (y = rn)); intros H; [by apply list_elem_of_further|].
  apply elem_of_cons in H as [->|H]; [apply list_elem_of_here|by apply list_elem_of_further, IH].
Qed.
Lemma remove_one_nodup rn l : NoDup l → NoDup (remove_one rn l) ∧ rn ∉ remove_one rn l.
Proof.
  induction 1 as [|x l Hx Hl [IH1 IH2]]; [split; [constructor|apply not_elem_of_nil]|]. cbn [remove_one]. destruct (decide (x = rn)) as [->|Hne]; [done|].
  split; [constructor; [by intros H%remove_one_elem|done]|]. apply not_elem_of_cons. done.
Qed.
Lemma remove_one_keeps rn x l : x ∈ l → x ≠ rn → x ∈ remove_one rn l.
Proof.
  intros Hx Hne. induction l as [|y l IH]; [by apply elem_of_nil in Hx|]. cbn [remove_one]. destruct (decide (y = rn)) as [->|].
  - by apply elem_of_cons in Hx as [->|Hx].
  - apply elem_of_cons in Hx as [->|Hx]; [apply list_elem_of_here|by apply list_elem_of_further, IH].
Qed.

Definition one (P : Prop) `{Decision P} : nat := if decide P then 1 else 0.
Lemma count_insert {A} `{EqDecision A} (m : gmap nat A) rn (s s' : A) :
  count s (<[rn := s']> m) + one (m !! rn = Some s) = count s m + one (s' = s).
Proof.
  unfold count, one. destruct (decide (m !! rn = Some s)) as [Hm|Hm].
  - assert (filter (λ kv, kv.2 = s) m !! rn = Some s) as Hf by (by apply map_lookup_filter_Some). destruct (decide (s' = s)) as [->|Hs].
    + rewrite map_filter_insert_True by done. rewrite map_size_insert_Some by (by eexists). lia.
    + rewrite map_filter_insert_False by done. rewrite map_filter_delete. rewrite <- (insert_delete_id _ _ _ Hf) at 2.
      rewrite map_size_insert_None by apply lookup_delete_eq. lia.
  - assert (filter (λ kv, kv.2 = s) m !! rn = None) as Hf.
    { apply map_lookup_filter_None. right. intros x Hx. cbn. congruence. }
    destruct (decide (s' = s)) as [->|Hs].
    + rewrite map_filter_insert_True by done. rewrite map_size_insert_None by done. lia.
    + rewrite map_filter_insert_False by done. rewrite map_filter_delete, delete_id by done. lia.
Qed.
Lemma count_zero {A} `{EqDecision A} (m : gmap nat A) rn (s : A) : count s m = 0 → m !! rn ≠ Some s.
Proof.
  unfold count. intros H Hm. apply map_size_empty_inv in H.
  assert (filter (λ kv : nat * A, kv.2 = s) m !! rn = Some s) as E by (by apply map_lookup_filter_Some). by rewrite H in E.
Qed.
(** Counting after an insertion, where what was there is known. *)
Ltac counts := repeat match goal with
  | |- context [count ?s (<[?rn := ?s']> ?m)] =>
      let E := fresh in let n := fresh in pose proof (count_insert m rn s s') as E; revert E; generalize (count s (<[rn := s']> m)); intros n E
  end; unfold one in *; repeat (case_decide; try congruence); try lia.

Lemma alive_insert m rn s : m !! rn = None → s ≠ Ended → alive (<[rn := s]> m) = S (alive m).
Proof. intros Hm Hs. unfold alive. counts. by destruct s. Qed.
Lemma alive_change m rn s s' : m !! rn = Some s → s ≠ Ended → s' ≠ Ended → alive (<[rn := s']> m) = alive m.
Proof. intros Hm Hs Hs'. unfold alive. counts; by destruct s, s'. Qed.
Lemma alive_end m rn s : m !! rn = Some s → s ≠ Ended → alive m = S (alive (<[rn := Ended]> m)).
Proof. intros Hm Hs. unfold alive. counts; by destruct s. Qed.
Lemma alive_zero m rn s : alive m = 0 → m !! rn = Some s → s = Ended.
Proof.
  unfold alive. intros H Hm. pose proof (count_zero m rn Running ltac:(lia)). pose proof (count_zero m rn Failing ltac:(lia)). by destruct s.
Qed.

Ltac step_cases H a :=
  destruct a; cbn [step add_step start_step ctx_step reconcile_step stop_step] in H;
  repeat match type of H with
         | (if decide ?P then _ else _) = _ => let E := fresh "Hguard" in destruct (decide P) as [E|E]; [|discriminate H]
         | match g_start ?g with _ => _ end = _ => let E := fresh "Estart" in destruct (g_start g) as [|[|? ?]| |] eqn:E; try discriminate H
         | match g_rec ?g with _ => _ end = _ => let E := fresh "Erec" in destruct (g_rec g) eqn:E; try discriminate H
         | match g_stop ?g with _ => _ end = _ => let E := fresh "Estop" in destruct (g_stop g) eqn:E; try discriminate H
         | match start_ctx ?g with _ => _ end = _ => let E := fresh "Ectx" in destruct (start_ctx g) eqn:E; try discriminate H
         | match g_sctx ?g with _ => _ end = _ => let E := fresh "Esctx" in destruct (g_sctx g) eqn:E; try discriminate H
         | match g_ctx ?g with _ => _ end = _ => let E := fresh "Ectx" in destruct (g_ctx g) eqn:E; try discriminate H
         | (if g_stopped ?g then _ else _) = _ => let E := fresh "Estopped" in destruct (g_stopped g) eqn:E; try discriminate H
         | Some _ = Some _ => injection H as <-
         end.

Lemma new_flags : flags NewRunnableGroup.
Proof. done. Qed.
Lemma step_flags a g g' : flags g → step a g = Some g' → flags g'.
Proof.
  intros F H. unfold flags in *. destruct g as [start rec stop started stopped closed queue initial checked adding run ready wg panicked ctx sctx bystop ret]; cbn in *.
  destruct a; cbn [step add_step start_step ctx_step reconcile_step stop_step] in H; cbn in H;
    destruct start as [|[|? ?]| |], rec, stop, started, stopped, closed; try discriminate F; try discriminate H;
    repeat (case_decide; [|discriminate H]);
    try match type of H with match ?e with Some _ => _ | None => _ end = _ => destruct e; try discriminate H end; try injection H as <-; cbn in *;
    try (destruct (remove_one _ _) eqn:?); try (destruct queue); try (destruct adding); cbn in *; try done; naive_solver.
Qed.

(** What a step does to the runnables on their way: it brings a new one, takes
    the received one to be run or dropped, or only moves them. *)
Lemma pending_step a g g' : flags g → step a g = Some g' →
  match a with
  | AAdd rn => pending g' = rn :: pending g ∧ fresh rn g
  | ALaunch | ADrop => ∃ rn, g_rec g = RGot rn ∧ pending g ≡ₚ rn :: pending g'
  | _ => pending g' ≡ₚ pending g
  end.
Proof.
  intros F H. step_cases H a; unfold pending, got, unsent, start_begins, gset_start, gset_rec in *; cbn in *; rewrite ?Estart, ?Erec; try done.
  - destruct Hguard as [_ Hf]. split; [done|exact Hf].
  - destruct Hguard as [Hin Hs]. pose proof (remove_one_perm _ _ Hin) as Hp. revert Hp. generalize (remove_one rn (g_checked g)). intros k Hp. unfold sending in Hs.
    destruct (g_started g) eqn:Es; cbn in *; destruct (g_start g) eqn:Est; try done; cbn; rewrite ?app_nil_r; rewrite Hp; try solve_Permutation.
    all: unfold flags, flags_ok in F; rewrite Es, Est in F; cbn in F; discriminate F.
  - destruct Hguard as (Hin & Er & _). pose proof (remove_one_perm _ _ Hin) as Hp. revert Hp. generalize (remove_one rn (g_adding g)). intros k Hp. rewrite Er, Hp. cbn. solve_Permutation.
  - unfold flags, flags_ok in F. rewrite Estart in F. destruct (g_rec g); cbn in *; try done; rewrite ?andb_false_r in F; try discriminate F.
  - rewrite Hguard. solve_Permutation.
  - by destruct (g_queue g).
  - by destruct (remove_one rn (g_queue g)).
  - eexists. split; [reflexivity|]. solve_Permutation.
  - eexists. split; [reflexivity|]. solve_Permutation.
  - destruct Hguard as [-> _]. done.
  - unfold flags, flags_ok in F. destruct (g_start g) eqn:Es; cbn in *; rewrite ?Es; try done; destruct (g_rec g); cbn in *; try done; rewrite ?andb_false_r in F; discriminate F.
Qed.

(** The runnables that are running, and the counter of the wait group. *)
Lemma run_step a g g' : step a g = Some g' →
  match a with
  | ALaunch => ∃ rn, g_rec g = RGot rn ∧ g_stopped g = false ∧ g_run g' = <[rn := Running]> (g_run g) ∧
                     g_ready g' = <[rn := Checking]> (g_ready g) ∧ g_wg g' = S (g_wg g)
  | AEnd rn => g_run g !! rn = Some Running ∧ g_run g' = <[rn := Ended]> (g_run g) ∧ g_ready g' = g_ready g ∧ g_wg g' = pred (g_wg g)
  | AReadError rn => g_run g !! rn = Some Failing ∧ g_run g' = <[rn := Ended]> (g_run g) ∧ g_ready g' = g_ready g ∧ g_wg g' = pred (g_wg g)
  | AFail rn => g_run g !! rn = Some Running ∧ g_run g' = <[rn := Failing]> (g_run g) ∧ g_ready g' = g_ready g ∧ g_wg g' = g_wg g
  | ACheck rn => g_ready g !! rn = Some Checking ∧ g_run g' = g_run g ∧
      g_ready g' = <[rn := if check rn && bool_decide (rn ∈ g_initial g) then Signalling else Checked]> (g_ready g) ∧ g_wg g' = g_wg g
  | ASignal rn => g_ready g !! rn = Some Signalling ∧ g_run g' = g_run g ∧ g_ready g' = <[rn := Checked]> (g_ready g) ∧ g_wg g' = g_wg g
  | _ => g_run g' = g_run g ∧ g_ready g' = g_ready g ∧ g_wg g' = g_wg g
  end.
Proof.
  intros H. step_cases H a; cbn; try done; try (by destruct (g_started g)); try (by destruct (g_start g)).
  by exists rn.
Qed.

Lemma new_parts : parts NewRunnableGroup.
Proof. split; cbn; try done. - constructor. Qed.
Lemma got_pending rn g : g_rec g = RGot rn → rn ∈ pending g.
Proof. intros E. unfold pending, got. rewrite E. set_solver. Qed.
Lemma step_closed a g g' : step a g = Some g' → g_closed g' = true → g_sctx g' = None →
  g_closed g = true ∧ g_sctx g = None ∨ a = AStopDone ∧ g_wg g' = 0.
Proof.
  intros H. step_cases H a; cbn; auto; try discriminate; try (destruct (g_started g); cbn; by auto); try (destruct (g_start g); cbn; by auto).
  by rewrite Esctx.
Qed.
Lemma step_parts a g g' : flags g → parts g → step a g = Some g' → parts g'.
Proof.
  intros F P H. pose proof (pending_step a g g' F H) as Hp. pose proof (run_step a g g' H) as Hr. pose proof (step_closed a g g' H) as Hc.
  pose proof (step_flags a g g' F H) as F'. destruct P as [Pn Pp Pr Pw Pc].
  assert (NoDup (pending g') ∧ ∀ rn, rn ∈ pending g' → g_run g !! rn = None) as [Pn' Pp'].
  { assert (∀ l, pending g ≡ₚ l → NoDup l ∧ ∀ rn, rn ∈ l → g_run g !! rn = None) as Hperm.
    { intros l Hl. rewrite Hl in Pn. split; [done|]. intros rn Hrn. apply Pp. by rewrite Hl. }
    destruct a; try (by apply Hperm; symmetry).
    - destruct Hp as [-> (Hf & _ & Hn)]. split; [by constructor|]. intros rn' [-> | Hin]%elem_of_cons; [done|by apply Pp].
    - destruct Hp as (rn & _ & Hl). destruct (Hperm _ Hl) as [Hnd Hin]. apply NoDup_cons in Hnd as [_ Hnd]. split; [done|].
      intros rn' Hrn'. apply Hin. by apply list_elem_of_further.
    - destruct Hp as (rn & _ & Hl). destruct (Hperm _ Hl) as [Hnd Hin]. apply NoDup_cons in Hnd as [_ Hnd]. split; [done|].
      intros rn' Hrn'. apply Hin. by apply list_elem_of_further. }
  assert (∀ rn s, g_run g !! rn = Some s → rn ∉ pending g') as Hout by (intros rn s Hs Hin; by rewrite (Pp' _ Hin) in Hs).
  destruct a; try (destruct Hr as (Hrun & Hready & Hwg); split; rewrite ?Hrun, ?Hready, ?Hwg; auto; intros Hcl Hsc; destruct (Hc Hcl Hsc) as [[? ?]|[? ?]]; [auto|congruence]).
  - (* ASignal *) destruct Hr as (Hs & Hrun & Hready & Hwg). split; rewrite ?Hrun, ?Hready, ?Hwg; auto.
    + intros x. rewrite Pr. destruct (decide (x = rn)) as [->|]; [by rewrite lookup_insert_eq, Hs|by rewrite lookup_insert_ne].
    + intros Hcl Hsc. destruct (Hc Hcl Hsc) as [[? ?]|[? ?]]; [auto|done].
  - (* ALaunch *) destruct Hr as (rn & Erec & Hst & Hrun & Hready & Hwg). destruct Hp as (rn' & Erec' & Hl). rewrite Erec in Erec'. injection Erec' as <-.
    pose proof (got_pending _ _ Erec) as Hgot. split; rewrite ?Hrun, ?Hready, ?Hwg; auto.
    + intros x Hx. destruct (decide (x = rn)) as [->|Hne]; [|rewrite lookup_insert_ne by done; auto].
      rewrite Hl in Pn. apply NoDup_cons in Pn as [Hn _]. done.
    + intros x. destruct (decide (x = rn)) as [->|Hne]; [by rewrite !lookup_insert_eq|rewrite !lookup_insert_ne by done; auto].
    + rewrite alive_insert by (auto; discriminate). by f_equal.
    + intros Hcl Hsc. destruct (Hc Hcl Hsc) as [[Hg Hgs]|[? ?]]; [|done]. exfalso. unfold flags, flags_ok in F. rewrite Hst, Hg in F.
      destruct (g_stop g); cbn in F; rewrite ?andb_false_r in F; discriminate F.
  - (* ACheck *) destruct Hr as (Hs & Hrun & Hready & Hwg). split; rewrite ?Hrun, ?Hready, ?Hwg; auto.
    + intros x. rewrite Pr. destruct (decide (x = rn)) as [->|]; [by rewrite lookup_insert_eq, Hs|by rewrite lookup_insert_ne].
    + intros Hcl Hsc. destruct (Hc Hcl Hsc) as [[? ?]|[? ?]]; [auto|done].
  - (* AEnd *) destruct Hr as (Hs & Hrun & Hready & Hwg). pose proof (alive_end _ _ _ Hs ltac:(discriminate)) as Ha.
    split; rewrite ?Hrun, ?Hready, ?Hwg; auto.
    + intros x Hx. destruct (decide (x = rn)) as [->|]; [by destruct (Hout _ _ Hs)|rewrite lookup_insert_ne by done; auto].
    + intros x. rewrite <- Pr. destruct (decide (x = rn)) as [->|]; [by rewrite lookup_insert_eq, Hs|by rewrite lookup_insert_ne].
    + rewrite Pw, Ha. done.
    + intros Hcl Hsc. destruct (Hc Hcl Hsc) as [[Hg Hgs]|[? ?]]; [|done]. by rewrite Pc.
  - (* AFail *) destruct Hr as (Hs & Hrun & Hready & Hwg). split; rewrite ?Hrun, ?Hready, ?Hwg; auto.
    + intros x Hx. destruct (decide (x = rn)) as [->|]; [by destruct (Hout _ _ Hs)|rewrite lookup_insert_ne by done; auto].
    + intros x. rewrite <- Pr. destruct (decide (x = rn)) as [->|]; [by rewrite lookup_insert_eq, Hs|by rewrite lookup_insert_ne].
    + by rewrite (alive_change _ _ _ _ Hs) by discriminate.
    + intros Hcl Hsc. destruct (Hc Hcl Hsc) as [[? ?]|[? ?]]; [auto|done].
  - (* AReadError *) destruct Hr as (Hs & Hrun & Hready & Hwg). pose proof (alive_end _ _ _ Hs ltac:(discriminate)) as Ha.
    split; rewrite ?Hrun, ?Hready, ?Hwg; auto.
    + intros x Hx. destruct (decide (x = rn)) as [->|]; [by destruct (Hout _ _ Hs)|rewrite lookup_insert_ne by done; auto].
    + intros x. rewrite <- Pr. destruct (decide (x = rn)) as [->|]; [by rewrite lookup_insert_eq, Hs|by rewrite lookup_insert_ne].
    + rewrite Pw, Ha. done.
    + intros Hcl Hsc. destruct (Hc Hcl Hsc) as [[Hg Hgs]|[? ?]]; [|done]. by rewrite Pc.
Qed.

Lemma new_queued : queued NewRunnableGroup.
Proof. split; cbn; try done; [intros rn _; apply not_elem_of_nil|constructor|set_solver..]. Qed.
(** [Start] begins, by a call of its own or by [StopAndWait]. *)
Lemma begins_queued g g' : flags g → parts g → queued g → g_start g = SIdle →
  g' = start_begins g ∨ g' = gset_stop TStart (gset_bystop true (start_begins g)) → queued g'.
Proof.
  intros F P Q Hs Hg'. destruct Q as [Qi Qr Qn Qs Qd Qse Qdo Qsi Qc Qe Qw Qt].
  assert (∀ rn, g_ready g !! rn = None) as Hready by (intros rn; apply (pa_ready _ P); by rewrite (Qr Hs), lookup_empty).
  pose proof (pa_nodup _ P) as Hnd. unfold pending, unsent in Hnd. rewrite Hs in Hnd.
  assert (queued (start_begins g)) as Hb; [|destruct Hg' as [-> | ->]; destruct Hb; split; assumption].
  split; cbn; try done; try (intros; discriminate).
  - intros rn Hin Hq. rewrite app_assoc in Hnd. apply NoDup_app in Hnd as (_ & Hd & _). apply (Hd rn Hin). set_solver.
  - intros rn Hin. by left.
  - intros rn Hin. by left.
  - intros rn Hsig. by rewrite Hready in Hsig.
  - intros rn _ _ Hch. by rewrite Hready in Hch.
  - intros todo [= <-] rn Hin. by split.
Qed.
Lemma step_queued a g g' : flags g → parts g → queued g → step a g = Some g' → queued g'.
Proof.
  intros F P Q H. pose proof Q as [Qi Qr Qn Qs Qd Qse Qdo Qsi Qc Qe Qw Qt]. pose proof (run_step a g g' H) as Hr.
  step_cases H a; cbn in Hr.
  - (* AAdd *) destruct Hguard as [_ (Hf & Hi & Hrn)]. split; cbn; auto. set_solver.
  - (* AAddEnqueue *) destruct Hguard as [Hin Hns].
    assert (∀ x, x ∈ remove_one rn (g_checked g) → x ∈ g_checked g) as Hsub by (intros x; apply remove_one_elem).
    destruct (g_started g) eqn:Es.
    + split; cbn; auto. set_solver.
    + assert (g_start g = SIdle) as Est.
      { unfold flags, flags_ok in F. rewrite Es in F. by destruct (g_start g). }
      split; cbn; rewrite ?Est; auto; try done.
      * set_solver.
      * pose proof (pa_nodup _ P) as Hnd. unfold pending, unsent in Hnd. rewrite Est in Hnd.
        apply NoDup_app. split; [done|]. split; [|apply NoDup_singleton]. intros x Hx Hx'. apply list_elem_of_singleton in Hx' as ->.
        apply NoDup_app in Hnd as (_ & Hd & _). apply (Hd rn Hin). set_solver.
      * intros x Hx. by rewrite (Qi Est) in Hx; apply elem_of_nil in Hx.
      * intros x Hx. by rewrite (Qi Est) in Hx; apply elem_of_nil in Hx.
      * intros x Hx. destruct (Qsi x Hx) as (Hq & ? & ?). split; [set_solver|done].
  - (* AAddRecv *) destruct Hguard as (Hin & Er & _). split; cbn; auto.
    + intros x Hx. apply Qn. apply elem_of_app in Hx as [?|Hx%remove_one_elem]; set_solver.
    + intros x Hx. destruct (Qse x Hx) as [Hg|Hg]; [|by right]. left. unfold got in *. rewrite Er in Hg. cbn. set_solver.
  - (* AAddPanic *) split; cbn; auto.
  - (* AStart *) apply (begins_queued g); auto.
  - (* AStartSend *) assert (g_start g ≠ SIdle) as Hni by (by rewrite Estart). split; cbn; auto; try done.
    + intros x Hx. destruct (Qse x Hx) as [Hg|Hg]; [|by right]. left. unfold got, unsent in *. rewrite Hguard, Estart in Hg. cbn in *. set_solver.
    + intros todo [= <-] x Hx. apply (Qt _ eq_refl). set_solver.
  - (* AStartSent *) split; cbn; auto; try (destruct (g_queue g); done).
    intros x Hx. destruct (Qse x Hx) as [Hg|Hg]; [|by right]. left. unfold got, unsent in *. rewrite Estart in Hg. cbn in *. set_solver.
  - (* ASignal *) destruct (remove_one_nodup rn _ Qd) as [Hnd Hnot]. destruct (Qsi rn Hguard) as (Hq & Hi & Hch).
    assert (∀ x, x ∈ remove_one rn (g_queue g) → x ∈ g_queue g) as Hsub by (intros x; apply remove_one_elem).
    assert (∀ pc, waits_or_done (remove_one rn (g_queue g)) = pc → pc ≠ SIdle ∧ ∀ todo, pc ≠ SSend todo) as Hpc by (intros pc <-; by destruct (remove_one _ _)).
    split; cbn; auto.
    + intros E. by destruct (Hpc _ E).
    + intros E. by destruct (Hpc _ E).
    + intros x Hx. destruct (Qse x Hx) as [Hg|Hg]; [|by right]. left. unfold got, unsent in *. rewrite Estart in Hg. cbn in *. set_solver.
    + intros x Hx. destruct (decide (x = rn)) as [->|Hne]; [right; by rewrite lookup_insert_eq|]. rewrite lookup_insert_ne by done.
      destruct (Qdo x Hx); [left; by apply remove_one_keeps|by right].
    + intros x Hx. destruct (decide (x = rn)) as [->|Hne]; [by rewrite lookup_insert_eq in Hx|]. rewrite lookup_insert_ne in Hx by done.
      destruct (Qsi x Hx) as (? & ? & ?). split; [by apply remove_one_keeps|done].
    + intros x Hx _ Hc. destruct (decide (x = rn)) as [->|Hne]; [done|]. rewrite lookup_insert_ne in Hc by done. apply Qc; auto.
    + by destruct (remove_one rn (g_queue g)).
    + by destruct (remove_one rn (g_queue g)).
    + intros todo E. destruct (Hpc _ E) as [_ Hnt]. by destruct (Hnt todo).
  - (* AStartCtx *) split; cbn; auto.
  - (* AStartSpin *) split; cbn; rewrite ?Estart; auto.
  - (* ALaunch *)
    assert (g_run g !! rn = None) as Hn by (apply (pa_pending _ P), got_pending; done).
    assert (g_ready g !! rn = None) as Hnr by (by apply (pa_ready _ P)).
    split; cbn; auto.
    + intros E. exfalso. unfold flags, flags_ok in F. rewrite Erec, E in F. cbn in F. rewrite ?andb_false_r in F. discriminate F.
    + intros x Hx. destruct (decide (x = rn)) as [->|Hne]; [right; by rewrite lookup_insert_eq|]. rewrite lookup_insert_ne by done.
      destruct (Qse x Hx) as [Hg|Hg]; [|by right]. left. unfold got, unsent in *. rewrite ?Erec in Hg. cbn in *. set_solver.
    + intros x Hx. destruct (decide (x = rn)) as [->|Hne]; [|rewrite lookup_insert_ne by done; auto]. destruct (Qdo rn Hx) as [?|[_ E]]; [by left|congruence].
    + intros x Hx. destruct (decide (x = rn)) as [->|Hne]; [by rewrite lookup_insert_eq in Hx|]. rewrite lookup_insert_ne in Hx by done. auto.
    + intros x Hx Hni Hc. destruct (decide (x = rn)) as [->|Hne]; [by rewrite lookup_insert_eq in Hc|]. rewrite lookup_insert_ne in Hc by done. auto.
  - (* ADrop *) split; cbn; auto. intros x Hx. destruct (Qse x Hx) as [Hg|Hg]; [|by right]. exfalso.
    assert (g_start g = SDone) as Ed. { unfold flags, flags_ok in F. rewrite Estopped in F. destruct (g_start g); cbn in F; rewrite ?andb_false_r in F; try discriminate F; done. }
    destruct (Qdo x Hx) as [Hq|[_ Hq]]; [by rewrite (Qe Ed) in Hq; apply elem_of_nil in Hq|].
    assert (g_run g !! x = None) as Hn. { apply (pa_pending _ P). unfold pending. set_solver. } apply (pa_ready _ P) in Hn. congruence.
  - (* AExit *) destruct Hguard as [Er _]. split; cbn; auto. intros x Hx. unfold got. cbn. destruct (Qse x Hx) as [Hg|Hg]; [left|by right]. unfold got in Hg. by rewrite Er in Hg.
  - (* ACheck *) split; cbn; auto.
    + intros x Hx. destruct (decide (x = rn)) as [->|Hne]; [|rewrite lookup_insert_ne by done; auto]. destruct (Qdo rn Hx) as [?|[_ E]]; [by left|congruence].
    + intros x Hx. destruct (decide (x = rn)) as [->|Hne]; [|rewrite lookup_insert_ne in Hx by done; auto]. rewrite lookup_insert_eq in Hx.
      destruct (check rn) eqn:Ec; [|done]. cbn in Hx. destruct (decide (rn ∈ g_initial g)) as [Hi|Hi]; [|by rewrite bool_decide_eq_false_2 in Hx].
      destruct (Qdo rn Hi) as [?|[_ E]]; [done|congruence].
    + intros x Hx Hni Hc. destruct (decide (x = rn)) as [->|Hne]; [|rewrite lookup_insert_ne in Hc by done; auto]. rewrite lookup_insert_eq in Hc.
      destruct (check rn) eqn:Ec; [|done]. cbn in Hc. rewrite bool_decide_eq_true_2 in Hc by auto. done.
  - (* AEnd *) split; cbn; auto.
    + intros E. rewrite (Qr E), lookup_empty in Hguard. done.
    + intros x Hx. destruct (decide (x = rn)) as [->|Hne]; [right; by rewrite lookup_insert_eq|rewrite lookup_insert_ne by done; auto].
  - (* AFail *) split; cbn; auto.
    + intros E. rewrite (Qr E), lookup_empty in Hguard. done.
    + intros x Hx. destruct (decide (x = rn)) as [->|Hne]; [right; by rewrite lookup_insert_eq|rewrite lookup_insert_ne by done; auto].
  - (* AReadError *) split; cbn; auto.
    + intros E. rewrite (Qr E), lookup_empty in Hguard. done.
    + intros x Hx. destruct (decide (x = rn)) as [->|Hne]; [right; by rewrite lookup_insert_eq|rewrite lookup_insert_ne by done; auto].
  - (* AReadDrop *) split; cbn; auto. intros x Hx. destruct (Qse x Hx) as [Hg|Hg]; [left|by right]. unfold got in *. by rewrite Erec in Hg.
  - (* AStop *) destruct (g_start g) eqn:Es; [apply (begins_queued g); auto|..]; (split; cbn; rewrite ?Es; auto).
  - (* AStopSet *) split; cbn; rewrite ?Estart; auto; try discriminate; intros todo [=].
  - (* AStopDone *) split; cbn; auto.
  - (* AStopCtx *) split; cbn; auto.
  - (* AStopExpired *) split; cbn; auto.
Qed.

Record inv g : Prop := { inv_flags : flags g; inv_parts : parts g; inv_queued : queued g }.
Lemma run_inv tr g g' : inv g → run tr g = Some g' → inv g'.
Proof.
  revert g. induction tr as [|a tr IH]; intros g I H; [by injection H as <-|]. cbn [run] in H.
  destruct (step a g) as [g1|] eqn:E; [|done]. cbn in H. apply (IH g1); [|done]. destruct I.
  split; [by eapply step_flags|by eapply step_parts|by eapply step_queued].
Qed.
Lemma reachable_inv g : reachable g → inv g.
Proof. intros [tr H]. eapply run_inv; [|exact H]. split; [exact new_flags|exact new_parts|exact new_queued]. Qed.
Lemma stopped_start g : flags g → g_stopped g = true → g_start g = SDone.
Proof. unfold flags, flags_ok. intros F E. rewrite E in F. destruct (g_start g); cbn in F; rewrite ?andb_false_r in F; try discriminate F; done. Qed.

(** ** What [Start] promises *)

(** What is left to do before [Start] returns. *)
Definition rec_weight (pc : RecPc) : nat := match pc with RGot _ => 4 | RRecv | RDrop => 1 | _ => 0 end.
Definition start_weight (pc : StartPc) : nat := match pc with SSend todo => S (5 * length todo) | _ => 0 end.
Definition left_over g : nat :=
  6 * length (g_checked g) + 5 * length (g_adding g) + rec_weight (g_rec g) + start_weight (g_start g) +
  2 * count Checking (g_ready g) + count Signalling (g_ready g).
(** The steps of the group itself; the others are of its callers, of the
    runnables' own [Start], and of whoever reads the errors. *)
Definition own (a : action) : bool :=
  match a with AAddEnqueue _ | AAddRecv _ | AStartSend | AStartSent | ASignal _ | ALaunch | ADrop | ACheck _ | AExit => true | _ => false end.
Definition no_add (a : action) : bool := match a with AAdd _ => false | _ => true end.

Lemma remove_one_length rn l : rn ∈ l → length l = S (length (remove_one rn l)).
Proof. intros H. by rewrite (remove_one_perm _ _ H) at 1. Qed.
Lemma own_decreases a g g' : inv g → g_start g ≠ SIdle → own a = true → step a g = Some g' → left_over g' < left_over g.
Proof.
  intros [F P Q] Hni Ha H. step_cases H a; try discriminate Ha; unfold left_over; cbn -[Nat.mul].
  - destruct Hguard as [Hin _]. assert (g_started g = true) as ->.
    { unfold flags, flags_ok in F. destruct (g_started g); [done|]. by destruct (g_start g). }
    cbn -[Nat.mul]. pose proof (remove_one_length _ _ Hin). lia.
  - destruct Hguard as (Hin & Er & _). rewrite Er. pose proof (remove_one_length _ _ Hin). cbn -[Nat.mul]. lia.
  - rewrite Estart, Hguard. cbn -[Nat.mul]. lia.
  - rewrite Estart. destruct (g_queue g); cbn; lia.
  - destruct (remove_one _ _); cbn -[Nat.mul]; counts.
  - rewrite Erec. assert (g_ready g !! rn = None) as Hn by (apply (pa_ready _ P), (pa_pending _ P), got_pending; done). cbn -[Nat.mul]. counts.
  - rewrite Erec. cbn -[Nat.mul]. lia.
  - destruct Hguard as [Er _]. rewrite Er. cbn -[Nat.mul]. lia.
  - destruct (check rn && _); counts.
Qed.
Lemma other_keeps a g g' : g_start g ≠ SIdle → own a = false → no_add a = true → step a g = Some g' →
  left_over g' ≤ left_over g.
Proof.
  intros Hni Ha Hn H. step_cases H a; try discriminate Ha; try discriminate Hn; unfold left_over; cbn -[Nat.mul]; try lia; try done.
  - rewrite Erec. cbn. lia.
  - destruct (g_start g) eqn:Es; [done|..]; cbn -[Nat.mul]; rewrite ?Es; cbn -[Nat.mul]; lia.
Qed.
Lemma start_stays a g g' : g_start g ≠ SIdle → step a g = Some g' → g_start g' ≠ SIdle ∧ g_initial g' = g_initial g.
Proof.
  intros Hni H. step_cases H a; cbn; rewrite ?Estart; try done; try (destruct (g_started g); done); try (by destruct (g_queue g)); try (by destruct (remove_one _ _)).
  destruct (g_start g) eqn:Es; cbn; rewrite ?Es; done.
Qed.
Lemma start_progress g : inv g → (∀ rn, rn ∈ g_initial g → check rn = true) → g_start g ≠ SIdle → g_start g ≠ SDone →
  ∃ a g', own a = true ∧ step a g = Some g'.
Proof.
  intros [F P Q] Hc Hni Hnd.
  assert (g_stopped g = false) as Hst by (destruct (g_stopped g) eqn:E; [by apply (stopped_start g F) in E|done]).
  assert (∀ rn, g_rec g = RGot rn → ∃ a g', own a = true ∧ step a g = Some g') as Hgot.
  { intros rn Er. eexists ALaunch, _. split; [done|]. cbn. rewrite Er, Hst. reflexivity. }
  destruct (g_start g) as [|[|rn todo]| |] eqn:Es; try done.
  - eexists AStartSent, _. split; [done|]. cbn. rewrite Es. reflexivity.
  - destruct (g_rec g) as [| |rn'| |] eqn:Er; try (by eauto).
    + unfold flags, flags_ok in F. rewrite Es, Er in F. cbn in F. by rewrite andb_false_r in F.
    + eexists AStartSend, _. split; [done|]. cbn. rewrite Es, decide_True by done. reflexivity.
    + unfold flags, flags_ok in F. rewrite Es, Er, Hst in F. cbn in F. by rewrite ?andb_false_r in F.
    + unfold flags, flags_ok in F. rewrite Es, Er, Hst in F. destruct (g_closed g), (g_stop g); cbn in F; by rewrite ?andb_false_r in F.
  - destruct (g_queue g) as [|rn queue] eqn:Eq; [by destruct (qu_wait _ Q)|].
    assert (rn ∈ g_queue g) as Hq by (rewrite Eq; apply list_elem_of_here). assert (rn ∈ g_initial g) as Hi by (apply (qu_sub _ Q); [by rewrite Es|done]).
    destruct (qu_sent _ Q rn Hi) as [Hg|Hrun].
    + unfold got, unsent in Hg. rewrite Es in Hg. destruct (g_rec g) eqn:Er; try (by apply elem_of_nil in Hg). by eauto.
    + assert (g_ready g !! rn ≠ None) as Hr by (by rewrite <- (pa_ready _ P)). destruct (g_ready g !! rn) as [[| |]|] eqn:Er; [..|done].
      * eexists (ACheck rn), _. split; [done|]. cbn. rewrite decide_True by done. reflexivity.
      * eexists (ASignal rn), _. split; [done|]. cbn. rewrite Es, decide_True by done. reflexivity.
      * specialize (Hc rn Hi). rewrite (qu_checked _ Q rn Hq) in Hc; [done|by rewrite Es|done].
Qed.

(** C40. [Start] returns when every check answers yes: then however the goroutines
    interleave, whatever the runnables do and even if nobody reads an error, the
    group takes at most [left_over] steps of its own before further calls of [Add],
    and as long as [Start] has not returned one of them is possible. The turns
    [Start]'s loop takes because its context is done come between them, any number
    of times: they end nothing. *)
Theorem Start_returns g : reachable g → g_start g ≠ SIdle → (∀ rn, rn ∈ g_initial g → check rn = true) →
  ∀ tr g', run tr g = Some g' → forallb no_add tr = true →
    length (List.filter own tr) + left_over g' ≤ left_over g ∧
    (g_start g' = SDone ∨ ∃ a g'', own a = true ∧ step a g' = Some g'').
Proof.
  intros Hr Hni Hc tr. apply reachable_inv in Hr. revert g Hr Hni Hc. induction tr as [|a tr IH]; intros g I Hni Hc g' H Hna.
  - injection H as <-. split; [done|]. destruct (g_start g) eqn:E; [done|right..|by left]; apply start_progress; auto; congruence.
  - cbn [run] in H. destruct (step a g) as [g1|] eqn:E; [|done]. cbn in H. cbn [forallb] in Hna. apply andb_true_iff in Hna as [Ha Hna].
    destruct (start_stays a g g1 Hni E) as [Hni1 Hi1]. destruct (IH g1) with (g' := g') as [Hlen Hend]; auto.
    { apply (run_inv [a] g); [done|]. cbn. by rewrite E. } { by rewrite Hi1. }
    split; [|done]. cbn [List.filter]. destruct (own a) eqn:Eo; cbn [length].
    + pose proof (own_decreases a g g1 I Hni Eo E). lia.
    + pose proof (other_keeps a g g1 Hni Eo Ha E). lia.
Qed.

(** What [Start] returns: an error only of its context, and not [context.Canceled]. *)
Record returns g : Prop := {
  re_idle : g_start g = SIdle → g_ret g = None ∧ g_bystop g = false;
  re_ctx : g_ret g = None ∨ g_ret g = start_ctx g ∧ g_ret g ≠ Some Canceled;
}.
Lemma step_returns a g g' : returns g → step a g = Some g' → returns g'.
Proof.
  intros [Ri Rc] H. unfold start_ctx in Rc. step_cases H a; split; unfold start_ctx; cbn; rewrite ?Estart; auto; try done;
    try (by destruct (g_queue g)); try (by destruct (remove_one _ _)); try (destruct (g_started g); cbn; by auto).
  - destruct (g_bystop g); [done|]. destruct Rc as [?|[E ?]]; [by left|]. left. congruence.
  - unfold note_ctx. unfold start_ctx in Ectx. case_decide; [done|]. right. split; [done|congruence].
  - destruct (g_start g) eqn:Es; cbn; rewrite ?Es; auto; discriminate.
  - destruct (g_start g) eqn:Es; cbn; auto. left. by apply Ri.
  - destruct (g_bystop g); [|done]. destruct Rc as [?|[E ?]]; [by left|]. left. congruence.
  - by rewrite Esctx.
Qed.
Lemma reachable_returns g : reachable g → returns g.
Proof.
  intros [tr H]. assert (returns NewRunnableGroup) as Hn by (split; cbn; auto). revert H Hn. generalize NewRunnableGroup.
  induction tr as [|a tr IH]; intros g0 H Hn; [by injection H as <-|]. cbn [run] in H.
  destruct (step a g0) as [g1|] eqn:E; [|done]. cbn in H. apply (IH g1); [done|by eapply step_returns].
Qed.

(** Once the group is stopped nothing is started any more. *)
Lemma step_stopped a g g' : step a g = Some g' → g_stopped g = true →
  g_stopped g' = true ∧ ∀ rn s, g_run g' !! rn = Some s → ∃ s0, g_run g !! rn = Some s0 ∧ (s0 = Ended → s = Ended).
Proof.
  intros E Hst. split; [step_cases E a; cbn; try done; try (by destruct (g_started g)); by destruct (g_start g)|].
  pose proof (run_step a g g' E) as Hs. intros rn s Hrn.
  destruct a as [| | | | | | |r0| | | | | |r0|r0|r0|r0| | | | | |]; try (destruct Hs as (Hs & _); rewrite Hs in Hrn; by eauto); try (destruct Hs as (_ & Hs & _); rewrite Hs in Hrn; by eauto).
  - destruct Hs as (? & _ & Hf & _). congruence.
  - destruct Hs as (Hr & Hs & _). rewrite Hs in Hrn. destruct (decide (rn = r0)) as [->|]; [|rewrite lookup_insert_ne in Hrn by done; by eauto].
    rewrite lookup_insert_eq in Hrn. exists Running. split; [done|congruence].
  - destruct Hs as (Hr & Hs & _). rewrite Hs in Hrn. destruct (decide (rn = r0)) as [->|]; [|rewrite lookup_insert_ne in Hrn by done; by eauto].
    rewrite lookup_insert_eq in Hrn. exists Running. split; [done|congruence].
  - destruct Hs as (Hr & Hs & _). rewrite Hs in Hrn. destruct (decide (rn = r0)) as [->|]; [|rewrite lookup_insert_ne in Hrn by done; by eauto].
    rewrite lookup_insert_eq in Hrn. exists Failing. split; [done|congruence].
Qed.
Lemma run_stopped tr g g' : run tr g = Some g' → g_stopped g = true →
  ∀ rn s, g_run g' !! rn = Some s → ∃ s0, g_run g !! rn = Some s0 ∧ (s0 = Ended → s = Ended).
Proof.
  revert g. induction tr as [|a tr IH]; intros g H Hst rn s Hrn; [injection H as <-; by eauto|]. cbn [run] in H.
  destruct (step a g) as [g1|] eqn:E; [|done]. cbn in H. destruct (step_stopped a g g1 E Hst) as [Hst1 Hs1].
  destruct (IH g1 H Hst1 rn s Hrn) as (s1 & H1 & He1). destruct (Hs1 rn s1 H1) as (s0 & H0 & He0). eauto.
Qed.
Lemma stop_done_flags g : flags g → g_stop g = TDone → g_closed g = true ∧ g_stopped g = true.
Proof. unfold flags, flags_ok. intros F E. rewrite E in F. by destruct (g_closed g), (g_stopped g); rewrite ?andb_false_r in F. Qed.
Lemma stop_waits g : inv g → g_stop g = TDone → g_sctx g = None → ∀ rn s, g_run g !! rn = Some s → s = Ended.
Proof.
  intros [F P _] Hd Hs rn s Hrn. apply (alive_zero (g_run g) rn); [|done]. rewrite <- (pa_wg _ P).
  apply (pa_closed _ P); [by apply stop_done_flags|done].
Qed.

(** C39. What [Start] and [StopAndWait] promise, in every interleaving: when [Start]
    has returned, every runnable added before has been started and its check has
    answered yes, and its error is the one of its context, not [context.Canceled], or
    none; when [StopAndWait] has returned and its caller's context is not done, every
    runnable has ended, and whenever the group is stopped, also when the context was
    done and runnables still run, none is started and none that ended runs again. *)
Theorem group_contract g : reachable g →
  (g_start g = SDone → ∀ rn, rn ∈ g_initial g → check rn = true ∧ g_run g !! rn ≠ None) ∧
  (g_ret g = None ∨ g_ret g = start_ctx g ∧ g_ret g ≠ Some Canceled) ∧
  (g_stop g = TDone → g_sctx g = None → ∀ rn s, g_run g !! rn = Some s → s = Ended) ∧
  (g_stop g = TWait ∨ g_stop g = TDone → ∀ tr g', run tr g = Some g' →
     ∀ rn s, g_run g' !! rn = Some s → ∃ s0, g_run g !! rn = Some s0 ∧ (s0 = Ended → s = Ended)).
Proof.
  intros Hr. pose proof (re_ctx _ (reachable_returns g Hr)) as Hret. apply reachable_inv in Hr. pose proof Hr as [F P Q].
  split_and!; [|done|by apply stop_waits|].
  - intros Hd rn Hi. destruct (qu_done _ Q rn Hi) as [Hq|[Hc Hrd]]; [by rewrite (qu_empty _ Q Hd) in Hq; apply elem_of_nil in Hq|].
    split; [done|]. rewrite (pa_ready _ P). congruence.
  - intros Hs tr g' H. apply (run_stopped tr g g' H). unfold flags, flags_ok in F.
    destruct (g_stopped g); [done|]. by destruct Hs as [Hs|Hs]; rewrite Hs in F; rewrite ?andb_false_r in F.
Qed.

(** [Start] does not return while the check of a runnable added before answers no,
    and neither does [StopAndWait], which waits for it. *)
Lemma Start_needs_checks g rn : reachable g → rn ∈ g_initial g → check rn = false → g_start g ≠ SDone ∧ g_stop g ≠ TDone.
Proof.
  intros Hr Hi Hc. apply reachable_inv in Hr as [F P Q]. assert (g_start g ≠ SDone) as Hn.
  { intros Hd. destruct (qu_done _ Q rn Hi) as [Hq|[? _]]; [by rewrite (qu_empty _ Q Hd) in Hq; apply elem_of_nil in Hq|congruence]. }
  split; [done|]. intros Hd. apply Hn, (stopped_start g F). by apply stop_done_flags.
Qed.

(** ** Errors that nobody reads *)

Definition reads (a : action) : bool := match a with AReadError _ => true | _ => false end.
Lemma failing_step a g g' : inv g → step a g = Some g' → failing g ≤ failing g' + (if reads a then 1 else 0).
Proof.
  intros [F P Q] H. pose proof (run_step a g g' H) as Hr. unfold failing.
  destruct a; cbn [reads]; try (destruct Hr as (Hr & _); rewrite Hr; lia); try (destruct Hr as (_ & Hr & _); rewrite Hr; lia).
  - destruct Hr as (rn & Er & _ & Hrun & _). rewrite Hrun.
    assert (g_run g !! rn = None) as Hn by (apply (pa_pending _ P), got_pending; done). counts.
  - destruct Hr as (Hs & Hrun & _). rewrite Hrun. counts.
  - destruct Hr as (Hs & Hrun & _). rewrite Hrun. counts.
  - destruct Hr as (Hs & Hrun & _). rewrite Hrun. counts.
Qed.
Lemma failing_run tr g g' : inv g → run tr g = Some g' → failing g ≤ failing g' + length (List.filter reads tr).
Proof.
  revert g. induction tr as [|a tr IH]; intros g I H; [injection H as <-; cbn; lia|]. cbn [run] in H.
  destruct (step a g) as [g1|] eqn:E; [|done]. cbn in H. pose proof (failing_step a g g1 I E) as Hf.
  pose proof (IH g1 ltac:(apply (run_inv [a] g); [done|cbn; by rewrite E]) H) as Hl. cbn [List.filter]. destruct (reads a); cbn [length]; lia.
Qed.

(** [StopAndWait] needs its errors read: while fewer errors are read than
    runnables have failed, it does not return before its context is done. The agent reads one error and
    leaves [Start]; when two of its loops fail, stopping it hangs. *)
Lemma unread_errors_block_stop g tr g' : reachable g → run tr g = Some g' →
  length (List.filter reads tr) < failing g → g_sctx g' = None → g_stop g' ≠ TDone.
Proof.
  intros Hr H Hlen Hs Hd. apply reachable_inv in Hr. pose proof (failing_run tr g g' Hr H) as Hf.
  apply (run_inv tr g g' Hr) in H as [F P Q].
  destruct (stop_done_flags g' F Hd) as [Hc _].
  pose proof (pa_closed _ P Hc Hs) as Hw. rewrite (pa_wg _ P) in Hw. unfold alive in Hw. unfold failing in *. lia.
Qed.

(** When no [Add] is on its way any more, as in the agent, nothing is sent on the
    closed channel. *)
Lemma no_late_add tr g g' : g_checked g = [] → g_adding g = [] → g_panicked g = false → forallb no_add tr = true →
  run tr g = Some g' → g_panicked g' = false.
Proof.
  revert g. induction tr as [|a tr IH]; intros g Hc Ha Hp Hn H; [by injection H as <-|]. cbn [run] in H. cbn [forallb] in Hn. apply andb_true_iff in Hn as [Hna Hn].
  destruct (step a g) as [g1|] eqn:E; [|done]. cbn in H.
  assert (g_checked g1 = [] ∧ g_adding g1 = [] ∧ g_panicked g1 = false) as (? & ? & ?); [|by apply (IH g1)].
  step_cases E a; try discriminate Hna; cbn; try (split_and!; done); try (destruct Hguard as [Hin _]; rewrite ?Hc, ?Ha in Hin; by apply elem_of_nil in Hin).
  by destruct (g_start g).
Qed.
End steps.

(** ** Examples *)

Definition yes (_ : nat) : bool := true.
(** The agent's life: two loops are added, the group is started, one loop ends. *)
Definition life : list action :=
  [AAdd 0; AAddEnqueue 0; AAdd 1; AAddEnqueue 1; AStart; AStartSend; ALaunch; AStartSend; ACheck 0; ALaunch; ACheck 1; AStartSent; ASignal 1; ASignal 0].
Definition after (tr : list action) : Group := default NewRunnableGroup (run yes tr NewRunnableGroup).
Lemma reached tr : is_Some (run yes tr NewRunnableGroup) → reachable yes (after tr).
Proof. intros [g Hg]. exists tr. unfold after. by rewrite Hg. Qed.

Lemma group_contract_witness :
  let g := after (life ++ [AEnd 0; AStop; AStopSet; AEnd 1; AStopDone]) in
  let e := after (life ++ [AEnd 0; AStop; AStopSet; AStopCtx DeadlineExceeded; AStopExpired]) in
  (g_start g = SDone ∧ g_stop g = TDone ∧ g_ret g = None ∧ ∀ rn s, g_run g !! rn = Some s → s = Ended) ∧
  (g_stop e = TDone ∧ g_run e !! 1 = Some Running ∧ ∀ tr e', run yes tr e = Some e' → g_run e' !! 2 = None ∧ g_run e' !! 0 ≠ Some Running).
Proof.
  intros g e. assert (g_start g = SDone ∧ g_stop g = TDone ∧ g_sctx g = None) as (H1 & H2 & H3) by (split_and!; vm_compute; reflexivity).
  assert (g_stop e = TDone ∧ g_run e !! 1 = Some Running) as [H4 H5] by (split; vm_compute; reflexivity).
  destruct (group_contract yes g ltac:(apply reached; eexists; vm_compute; reflexivity)) as (_ & Hr & Hg & _).
  destruct (group_contract yes e ltac:(apply reached; eexists; vm_compute; reflexivity)) as (_ & _ & _ & He).
  split; [split_and!; [exact H1|exact H2|vm_compute; reflexivity|exact (Hg H2 H3)]|].
  split; [exact H4|]. split; [exact H5|]. intros tr e' Hrun. specialize (He (or_intror H4) tr e' Hrun). split.
  - destruct (g_run e' !! 2) as [s|] eqn:E; [|reflexivity]. destruct (He 2 s E) as (s0 & H & _). vm_compute in H. discriminate H.
  - intros E. destruct (He 0 _ E) as (s0 & H & Hs). vm_compute in H. injection H as <-. discriminate (Hs eq_refl).
Defined.

(** A [Start] whose context is done does not return, it takes another turn: the
    loop of [Start] is busy until the last check answers. *)
Lemma Start_spins :
  let g := after [AAdd 0; AAddEnqueue 0; AStart; AStartSend; AStartSent; AStartCtx DeadlineExceeded] in
  ∀ n, ∃ g', run yes (replicate n AStartSpin) g = Some g' ∧ g_start g' = SWait.
Proof.
  intros g n. enough (∀ g, g_start g = SWait → start_ctx g = Some DeadlineExceeded → ∃ g', run yes (replicate n AStartSpin) g = Some g' ∧ g_start g' = SWait) as He
    by (apply He; vm_compute; reflexivity).
  clear g. induction n as [|n IH]; intros g Hs Hc; [by exists g|]. cbn [replicate run step start_step]. rewrite Hs, Hc. cbn [mbind option_bind].
  by apply IH.
Qed.

Lemma Start_returns_witness :
  let g := after [AAdd 0; AAddEnqueue 0; AStart] in
  left_over (after [AAdd 0; AAddEnqueue 0; AStart; AStartSend; ALaunch]) + 2 ≤ left_over g ∧
  ∃ a g'', own a = true ∧ step yes a (after [AAdd 0; AAddEnqueue 0; AStart; AStartSend; ALaunch]) = Some g''.
Proof.
  intros g. destruct (Start_returns yes g) with (tr := [AStartSend; ALaunch]) (g' := after [AAdd 0; AAddEnqueue 0; AStart; AStartSend; ALaunch]) as [H1 [H2|H2]].
  - apply reached. eexists. vm_compute. reflexivity.
  - vm_compute. discriminate.
  - done.
  - vm_compute. reflexivity.
  - reflexivity.
  - split; [|]. + cbn [List.filter own length] in H1. lia. + exfalso. vm_compute in H2. discriminate H2.
  - split; [cbn [List.filter own length] in H1; lia|exact H2].
Defined.

Lemma unread_errors_block_stop_witness :
  let g := after (life ++ [AFail 0; AFail 1]) in
  failing g = 2 ∧ ∀ g', run yes [AReadError 1; AStop; AStopSet] g = Some g' → g_sctx g' = None → g_stop g' ≠ TDone.
Proof.
  intros g. assert (failing g = 2) as Hf by (vm_compute; reflexivity). split; [exact Hf|]. intros g' Hg'.
  apply (unread_errors_block_stop yes g [AReadError 1; AStop; AStopSet] g').
  - apply reached. eexists. vm_compute. reflexivity.
  - exact Hg'.
  - rewrite Hf. cbn. lia.
Defined.

(** An [Add] that found the group not stopped, and was slow, sends on a closed
    channel: Go panics. *)
Lemma late_add_panics : ∃ g, reachable yes g ∧ g_panicked g = true.
Proof.
  exists (after [AAdd 0; AStart; AStartSent; AAddEnqueue 0; AStop; AStopSet; AStopDone; AAddPanic 0]).
  split; [apply reached; eexists; vm_compute; reflexivity|vm_compute; reflexivity].
Qed.
