(* ===== verification/Metrics.v ===== *)
(** * The agent's metrics

    [pkg/agent/metric] and the statistics of [pkg/spdk/service_tgt.go]: the list of
    the volumes to watch, and the three writers that make Prometheus gauges of
    what the kernel and SPDK count.

    The three writers of one turn run in goroutines of their own. None of them
    reads a gauge, so a writer gives the list of its operations on gauges, and
    [interleaved] says in which orders those of the three lists can happen. A
    gauge is found by its vector and its labels; [Prometheus] is that library,
    [PromLaws] what the operations do. The statistics of the kernel ([nux]) and
    [stat] are classes too. Iteration over a Go map is in the order of
    [map_to_list]; the theorems hold for any order of the gauges' operations. *)

From Stdlib Require Import ZArith Lia.
From stdpp Require Import base gmap strings option list.
From S2P Require Import Prelude Strconv Float64 Misc K8s Api Spdk SpdkBdev VolumeSync.

Section data.
Context {L : K8sLib}.

(** ** The volumes to watch *)

(* [metric/lister.go:12-21] itemIdentity *)
Record itemIdentity := { it_devID : Z; it_devPath : string; it_lvolFullName : string; it_subsysNQN : string }.
(* [metric/lister.go:23-32] metricTarget *)
Record metricTarget := { me_nodeName : string; me_pvcNSedName : string; me_volUUID : string; me_itemID : itemIdentity }.
(* [metric/lister.go:34-36] metricTarget.id *)
Definition me_id (mt : metricTarget) : string :=
  "uuid:" +:+ me_volUUID mt +:+ ",dev:" +:+ it_devPath (me_itemID mt) +:+ ",lvol:" +:+ it_lvolFullName (me_itemID mt) +:+
  ",nqn:" +:+ it_subsysNQN (me_itemID mt) +:+ ",".

(** [unix.Stat]: the number of the device ([st_rdev]), or an error. *)
Class UnixStat (W : Type) := { unix_Stat : string → go W (result Z) }.

(* [metric/lister.go:45-48] MetricInfoLister *)
Definition MetricInfoLister : Type := gmap string AntstorVolume.
(* [metric/lister.go:50-54] NewMetricInfoLister *)
Definition NewMetricInfoLister : MetricInfoLister := ∅.
(* [metric/lister.go:101-112] MetricInfoLister.AddObject *)
Definition AddObject (vol : option AntstorVolume) (l : MetricInfoLister) : MetricInfoLister :=
  match vol with
  | None => l
  | Some vol => if decide (is_Some (l !! vol_Name vol)) then l else <[vol_Name vol := vol]> l
  end.
(* [metric/lister.go:114-119] MetricInfoLister.DeleteObject *)
Definition DeleteObject (volName : string) (l : MetricInfoLister) : MetricInfoLister := delete volName l.

(** The agent's volume loop keeps this list. *)
#[export] Instance MetricTargetLister : TargetLister MetricInfoLister := {|
  lister_AddObject vol := gmodify (AddObject (Some vol));
  lister_DeleteObject name := gmodify (DeleteObject name) |}.

Definition dev_path (vol : AntstorVolume) : string :=
  if decide (vs_Type (vol_Spec vol) = VolumeTypeKernelLVol)
  then match vs_KernelLvol (vol_Spec vol) with Some k => kl_DevPath k | None => "" end else "".
Definition lvol_full_name (vol : AntstorVolume) : string :=
  if decide (vs_Type (vol_Spec vol) = VolumeTypeSpdkLVol)
  then match vs_SpdkLvol (vol_Spec vol) with Some s => sl_LvsName s +:+ "/" +:+ sl_Name s | None => "" end else "".
Definition subsys_nqn (vol : AntstorVolume) : string :=
  match vs_SpdkTarget (vol_Spec vol) with Some t => tgt_SubsysNQN t | None => "" end.

Context {W : Type} {US : UnixStat W}.
(* [metric/lister.go:59-93] MetricInfoLister.List, one volume with its device *)
Definition target_info (devID : Z) (vol : AntstorVolume) : metricTarget :=
  {| me_nodeName := vs_TargetNodeId (vol_Spec vol);
     me_pvcNSedName := map_str (om_Labels (vol_meta vol)) VolumeContextKeyPvcNS +:+ "/" +:+
                       map_str (om_Labels (vol_meta vol)) VolumePVNameLabelKey;
     me_volUUID := vs_Uuid (vol_Spec vol);
     me_itemID := {| it_devID := devID; it_devPath := dev_path vol; it_lvolFullName := lvol_full_name vol;
                     it_subsysNQN := subsys_nqn vol |} |}.
(** A device that has no number is listed with the number 0. *)
(* [metric/lister.go:58-95] MetricInfoLister.List, one volume *)
Definition metric_target (vol : AntstorVolume) : go W metricTarget :=
  if decide (dev_path vol = "") then mret (target_info 0 vol)
  else r ← unix_Stat (dev_path vol); mret (target_info (match r with inl rdev => rdev | inr _ => 0%Z end) vol).
Fixpoint each_target (vols : list AntstorVolume) : go W (list metricTarget) :=
  match vols with
  | [] => mret []
  | vol :: vols => t ← metric_target vol; ts ← each_target vols; mret (t :: ts)
  end.
(* [metric/lister.go:56-99] MetricInfoLister.List *)
Definition lister_List (l : MetricInfoLister) : go W (list metricTarget) := each_target (map_to_list l).*2.
End data.

(** ** Gauges *)

Record GaugeVec := { gv_Subsystem : string; gv_Name : string; gv_Labels : list string }.
#[export] Instance GaugeVec_eq : EqDecision GaugeVec.
Proof. solve_decision. Defined.
(** [prometheus.BuildFQName]: the name a vector is registered with. *)
Definition fq_name (v : GaugeVec) : string := gv_Subsystem v +:+ "_" +:+ gv_Name v.

Inductive gauge_op :=
| OWith (v : GaugeVec) (labels : list string)
| OSet (v : GaugeVec) (labels : list string) (x : float64)
| ODelete (v : GaugeVec) (labels : list string).
Definition op_key (o : gauge_op) : GaugeVec * list string :=
  match o with OWith v l | OSet v l _ | ODelete v l => (v, l) end.

(** [WithLabelValues] makes a gauge when there is none, [Set] writes the gauge it
    gave, which may have been deleted since, [DeleteLabelValues] deletes it. *)
Class Prometheus (G : Type) := { prom_do : gauge_op → G → G }.
Class PromLaws {G : Type} (P : Prometheus G) := {
  gauge : GaugeVec → list string → G → option float64;
  pl_with v l g : gauge v l (prom_do (OWith v l) g) = Some (default (f64_of_Z 0) (gauge v l g));
  pl_set v l x g : gauge v l (prom_do (OSet v l x) g) = (gauge v l g ≫= λ _, Some x);
  pl_delete v l g : gauge v l (prom_do (ODelete v l) g) = None;
  pl_other o v l g : op_key o ≠ (v, l) → gauge v l (prom_do o g) = gauge v l g;
}.
Definition prom_run {G : Type} {P : Prometheus G} (ops : list gauge_op) (g : G) : G := foldl (λ g o, prom_do o g) g ops.

(* [metric/blockdevice.go:47-47] labelKeys *)
Definition labelKeys : list string := ["node"; "pvc"; "uuid"; "dev"].
(* [metric/spdklvol.go:36-36] lvolLabelKeys *)
Definition lvolLabelKeys : list string := ["node"; "pvc"; "uuid"; "lvol"].
(* [metric/spdksubsystem.go:23-23] subsystemLabelKeys *)
Definition subsystemLabelKeys : list string := ["node"; "pvc"; "uuid"; "nqn"].
(* [metric/blockdevice.go:50-54] readRequestsGaugeVec *)
Definition readRequestsGaugeVec : GaugeVec := {| gv_Subsystem := "blk"; gv_Name := "read_req"; gv_Labels := labelKeys |}.
(* [metric/blockdevice.go:56-60] readMergedGaugeVec *)
Definition readMergedGaugeVec : GaugeVec := {| gv_Subsystem := "blk"; gv_Name := "read_merged"; gv_Labels := labelKeys |}.
(* [metric/blockdevice.go:62-66] readSectorsGaugeVec *)
Definition readSectorsGaugeVec : GaugeVec := {| gv_Subsystem := "blk"; gv_Name := "read_sectors"; gv_Labels := labelKeys |}.
(* [metric/blockdevice.go:68-72] msecReadGaugeVec *)
Definition msecReadGaugeVec : GaugeVec := {| gv_Subsystem := "blk"; gv_Name := "msec_read"; gv_Labels := labelKeys |}.
(* [metric/blockdevice.go:74-78] writeRequestsGaugeVec *)
Definition writeRequestsGaugeVec : GaugeVec := {| gv_Subsystem := "blk"; gv_Name := "write_req"; gv_Labels := labelKeys |}.
(* [metric/blockdevice.go:80-84] writeMergedGaugeVec *)
Definition writeMergedGaugeVec : GaugeVec := {| gv_Subsystem := "blk"; gv_Name := "write_merged"; gv_Labels := labelKeys |}.
(* [metric/blockdevice.go:86-90] writeSectorsGaugeVec *)
Definition writeSectorsGaugeVec : GaugeVec := {| gv_Subsystem := "blk"; gv_Name := "write_sectors"; gv_Labels := labelKeys |}.
(* [metric/blockdevice.go:92-96] msecWriteGaugeVec *)
Definition msecWriteGaugeVec : GaugeVec := {| gv_Subsystem := "blk"; gv_Name := "msec_write"; gv_Labels := labelKeys |}.
(* [metric/blockdevice.go:98-102] iosInProgressGaugeVec *)
Definition iosInProgressGaugeVec : GaugeVec := {| gv_Subsystem := "blk"; gv_Name := "io_inflight"; gv_Labels := labelKeys |}.
(* [metric/blockdevice.go:104-108] msecTotalGaugeVec *)
Definition msecTotalGaugeVec : GaugeVec := {| gv_Subsystem := "blk"; gv_Name := "msec_total"; gv_Labels := labelKeys |}.
(* [metric/blockdevice.go:110-114] msecWeightedTotalGaugeVec *)
Definition msecWeightedTotalGaugeVec : GaugeVec := {| gv_Subsystem := "blk"; gv_Name := "msec_weighted_total"; gv_Labels := labelKeys |}.
(* [metric/blockdevice.go:116-120] discardRequestsGaugeVec *)
Definition discardRequestsGaugeVec : GaugeVec := {| gv_Subsystem := "blk"; gv_Name := "discard_req"; gv_Labels := labelKeys |}.
(* [metric/blockdevice.go:122-126] discardMergedGaugeVec *)
Definition discardMergedGaugeVec : GaugeVec := {| gv_Subsystem := "blk"; gv_Name := "discard_merged"; gv_Labels := labelKeys |}.
(* [metric/blockdevice.go:128-132] discardSectorsGaugeVec *)
Definition discardSectorsGaugeVec : GaugeVec := {| gv_Subsystem := "blk"; gv_Name := "discard_sectors"; gv_Labels := labelKeys |}.
(* [metric/blockdevice.go:134-138] msecDiscardGaugeVec *)
Definition msecDiscardGaugeVec : GaugeVec := {| gv_Subsystem := "blk"; gv_Name := "msec_discard"; gv_Labels := labelKeys |}.
(* [metric/spdklvol.go:39-43] lvolReadBytesGaugeVec *)
Definition lvolReadBytesGaugeVec : GaugeVec := {| gv_Subsystem := "spdk_lvol"; gv_Name := "read_bytes_total"; gv_Labels := lvolLabelKeys |}.
(* [metric/spdklvol.go:45-49] lvolReadReqsGaugeVec *)
Definition lvolReadReqsGaugeVec : GaugeVec := {| gv_Subsystem := "spdk_lvol"; gv_Name := "read_reqs_total"; gv_Labels := lvolLabelKeys |}.
(* [metric/spdklvol.go:51-55] lvolWriteBytesGaugeVec *)
Definition lvolWriteBytesGaugeVec : GaugeVec := {| gv_Subsystem := "spdk_lvol"; gv_Name := "write_bytes_total"; gv_Labels := lvolLabelKeys |}.
(* [metric/spdklvol.go:57-61] lvolWriteReqsGaugeVec *)
Definition lvolWriteReqsGaugeVec : GaugeVec := {| gv_Subsystem := "spdk_lvol"; gv_Name := "write_reqs_total"; gv_Labels := lvolLabelKeys |}.
(* [metric/spdklvol.go:63-67] lvolDiscardBytesGaugeVec *)
Definition lvolDiscardBytesGaugeVec : GaugeVec := {| gv_Subsystem := "spdk_lvol"; gv_Name := "discard_bytes_total"; gv_Labels := lvolLabelKeys |}.
(* [metric/spdklvol.go:69-73] lvolDiscardReqsGaugeVec *)
Definition lvolDiscardReqsGaugeVec : GaugeVec := {| gv_Subsystem := "spdk_lvol"; gv_Name := "discard_reqs_total"; gv_Labels := lvolLabelKeys |}.
(* [metric/spdklvol.go:75-79] lvolReadLatGaugeVec *)
Definition lvolReadLatGaugeVec : GaugeVec := {| gv_Subsystem := "spdk_lvol"; gv_Name := "read_lat_microseconds"; gv_Labels := lvolLabelKeys |}.
(* [metric/spdklvol.go:81-85] lvolWriteLatGaugeVec *)
Definition lvolWriteLatGaugeVec : GaugeVec := {| gv_Subsystem := "spdk_lvol"; gv_Name := "write_lat_microseconds"; gv_Labels := lvolLabelKeys |}.
(* [metric/spdklvol.go:87-91] lvolDiscardLatGaugeVec *)
Definition lvolDiscardLatGaugeVec : GaugeVec := {| gv_Subsystem := "spdk_lvol"; gv_Name := "discard_lat_microseconds"; gv_Labels := lvolLabelKeys |}.
(* [metric/spdklvol.go:93-97] lvolTimeInQueueGaugeVec *)
Definition lvolTimeInQueueGaugeVec : GaugeVec := {| gv_Subsystem := "spdk_lvol"; gv_Name := "time_in_queue_microseconds"; gv_Labels := lvolLabelKeys |}.
(* [metric/spdksubsystem.go:25-29] subsystemReadBytesGaugeVec *)
Definition subsystemReadBytesGaugeVec : GaugeVec := {| gv_Subsystem := "spdk_subsystem"; gv_Name := "read_bytes_total"; gv_Labels := subsystemLabelKeys |}.
(* [metric/spdksubsystem.go:31-35] subsystemReadReqsGaugeVec *)
Definition subsystemReadReqsGaugeVec : GaugeVec := {| gv_Subsystem := "spdk_subsystem"; gv_Name := "read_reqs_total"; gv_Labels := subsystemLabelKeys |}.
(* [metric/spdksubsystem.go:37-41] subsystemWriteBytesGaugeVec *)
Definition subsystemWriteBytesGaugeVec : GaugeVec := {| gv_Subsystem := "spdk_subsystem"; gv_Name := "write_bytes_total"; gv_Labels := subsystemLabelKeys |}.
(* [metric/spdksubsystem.go:43-47] subsystemWriteReqsGaugeVec *)
Definition subsystemWriteReqsGaugeVec : GaugeVec := {| gv_Subsystem := "spdk_subsystem"; gv_Name := "write_reqs_total"; gv_Labels := subsystemLabelKeys |}.
(* [metric/spdksubsystem.go:49-53] subsystemReadLatGaugeVec *)
Definition subsystemReadLatGaugeVec : GaugeVec := {| gv_Subsystem := "spdk_subsystem"; gv_Name := "read_lat_microseconds"; gv_Labels := subsystemLabelKeys |}.
(* [metric/spdksubsystem.go:55-59] subsystemWriteLatGaugeVec *)
Definition subsystemWriteLatGaugeVec : GaugeVec := {| gv_Subsystem := "spdk_subsystem"; gv_Name := "write_lat_microseconds"; gv_Labels := subsystemLabelKeys |}.
(* [metric/spdksubsystem.go:61-65] subsystemTimeInQueueGaugeVec *)
Definition subsystemTimeInQueueGaugeVec : GaugeVec := {| gv_Subsystem := "spdk_subsystem"; gv_Name := "time_in_queue_microseconds"; gv_Labels := subsystemLabelKeys |}.

(** The registration of the vectors when the program starts panics if two have
    one name. *)
(* [metric/blockdevice.go:141-161] init, blockdevice.go *)
Definition blk_vecs : list GaugeVec :=
  [readRequestsGaugeVec; readMergedGaugeVec; readSectorsGaugeVec; msecReadGaugeVec;
   writeRequestsGaugeVec; writeMergedGaugeVec; writeSectorsGaugeVec; msecWriteGaugeVec;
   discardRequestsGaugeVec; discardMergedGaugeVec; discardSectorsGaugeVec; msecDiscardGaugeVec;
   msecTotalGaugeVec; msecWeightedTotalGaugeVec; iosInProgressGaugeVec].
(* [metric/spdklvol.go:136-156] init, spdklvol.go *)
Definition lvol_vecs : list GaugeVec :=
  [lvolReadBytesGaugeVec; lvolReadReqsGaugeVec; lvolWriteBytesGaugeVec; lvolWriteReqsGaugeVec;
   lvolDiscardBytesGaugeVec; lvolDiscardReqsGaugeVec; lvolReadLatGaugeVec; lvolWriteLatGaugeVec;
   lvolDiscardLatGaugeVec; lvolTimeInQueueGaugeVec].
(* [metric/spdksubsystem.go:68-78] init, spdksubsystem.go *)
Definition subsystem_vecs : list GaugeVec :=
  [subsystemReadBytesGaugeVec; subsystemReadReqsGaugeVec; subsystemWriteBytesGaugeVec; subsystemWriteReqsGaugeVec;
   subsystemReadLatGaugeVec; subsystemWriteLatGaugeVec; subsystemTimeInQueueGaugeVec].

(** The gauges of one target, all with the same labels. *)
Definition with_labels (vecs : list GaugeVec) (labels : list string) : list gauge_op := (λ v, OWith v labels) <$> vecs.
Definition delete_labels (vecs : list GaugeVec) (labels : list string) : list gauge_op := (λ v, ODelete v labels) <$> vecs.
Definition set_values (vals : list (GaugeVec * Z)) (labels : list string) : list gauge_op :=
  (λ vx, OSet vx.1 labels (f64_of_Z vx.2)) <$> vals.

(** ** What was seen in the turn before *)

(* [metric/collector.go:67-69] diffCache *)
Definition diffCache : Type := option (gmap string metricTarget).
Definition cache_items (c : diffCache) : gmap string metricTarget := default ∅ c.
(* [metric/collector.go:71-78] diffCache.setCache *)
Definition setCache (targets : list metricTarget) (c : diffCache) : diffCache :=
  Some (foldl (λ m item, <[me_id item := item]> m) (cache_items c) targets).
(* [metric/collector.go:80-98] diffCache.findDiff *)
Definition findDiff (latest : list metricTarget) (c : diffCache) : list metricTarget * diffCache :=
  match c with
  | None => ([], Some ∅)
  | Some m =>
      let newIdSet := foldl MapSet.Add MapSet.NewEmptySet (me_id <$> latest) in
      ((filter (λ kv, MapSet.Contains newIdSet kv.1 = false) (map_to_list m)).*2, Some m)
  end.
(** The end of every writer: what is lost is deleted, what is there is kept. The
    lost targets of all three writers are deleted from the block devices' gauges. *)
Definition blk_labels (blk : metricTarget) : list string :=
  [me_nodeName blk; me_pvcNSedName blk; me_volUUID blk; it_devPath (me_itemID blk)].
(* [metric/blockdevice.go:269-288] delBlkDevMetrics *)
Definition delBlkDevMetrics (blk : metricTarget) : list gauge_op :=
  delete_labels
    [readRequestsGaugeVec; readMergedGaugeVec; readSectorsGaugeVec; msecReadGaugeVec;
     writeRequestsGaugeVec; writeMergedGaugeVec; writeSectorsGaugeVec; msecWriteGaugeVec;
     discardRequestsGaugeVec; discardMergedGaugeVec; discardSectorsGaugeVec; msecDiscardGaugeVec;
     iosInProgressGaugeVec; msecTotalGaugeVec; msecWeightedTotalGaugeVec] (blk_labels blk).
(* [metric/blockdevice.go:234-241] blockDeviceMetricWriter.writeMetrics, cleaning *)
Definition clean_metrics (targets : list metricTarget) (c : diffCache) : list gauge_op * diffCache :=
  let '(lost, c1) := findDiff targets c in (lost ≫= delBlkDevMetrics, setCache targets c1).

Fixpoint each_op {S A} (l : list A) (f : A → go S (list gauge_op)) : go S (list gauge_op) :=
  match l with
  | [] => mret []
  | a :: l => ops ← f a; rest ← each_op l f; mret (ops ++ rest)
  end.

(** ** Block devices *)

(** [nux.DiskStats], with the fields the program reads. *)
Record DiskStats := {
  ds_Major : Z; ds_Minor : Z;
  ds_ReadRequests : Z; ds_ReadMerged : Z; ds_ReadSectors : Z; ds_MsecRead : Z;
  ds_WriteRequests : Z; ds_WriteMerged : Z; ds_WriteSectors : Z; ds_MsecWrite : Z;
  ds_DiscardRequests : Z; ds_DiscardMerged : Z; ds_DiscardSectors : Z; ds_MsecDiscard : Z;
  ds_IosInProgress : Z; ds_MsecTotal : Z; ds_MsecWeightedTotal : Z }.
Class DiskStatsReader (W : Type) := { nux_ListDiskStats : go W (result (list DiskStats)) }.

(* [metric/blockdevice.go:246-267] getBlkDevMetrics *)
Definition getBlkDevMetrics (blk : metricTarget) : list gauge_op :=
  with_labels
    [readRequestsGaugeVec; readMergedGaugeVec; readSectorsGaugeVec; msecReadGaugeVec;
     writeRequestsGaugeVec; writeMergedGaugeVec; writeSectorsGaugeVec; msecWriteGaugeVec;
     discardRequestsGaugeVec; discardMergedGaugeVec; discardSectorsGaugeVec; msecDiscardGaugeVec;
     iosInProgressGaugeVec; msecTotalGaugeVec; msecWeightedTotalGaugeVec] (blk_labels blk).
(* [metric/blockdevice.go:213-230] blockDeviceMetricWriter.writeMetrics, the values *)
Definition blk_values (d : DiskStats) : list (GaugeVec * Z) :=
  [(readRequestsGaugeVec, ds_ReadRequests d); (readMergedGaugeVec, ds_ReadMerged d);
   (readSectorsGaugeVec, ds_ReadSectors d); (msecReadGaugeVec, ds_MsecRead d);
   (writeRequestsGaugeVec, ds_WriteRequests d); (writeMergedGaugeVec, ds_WriteMerged d);
   (writeSectorsGaugeVec, ds_WriteSectors d); (msecWriteGaugeVec, ds_MsecWrite d);
   (discardRequestsGaugeVec, ds_DiscardRequests d); (discardMergedGaugeVec, ds_DiscardMerged d);
   (discardSectorsGaugeVec, ds_DiscardSectors d); (msecDiscardGaugeVec, ds_MsecDiscard d);
   (msecTotalGaugeVec, ds_MsecTotal d); (iosInProgressGaugeVec, ds_IosInProgress d);
   (msecWeightedTotalGaugeVec, ds_MsecWeightedTotal d)].
(* [metric/blockdevice.go:208-208] blockDeviceMetricWriter.writeMetrics, deviceId *)
Definition deviceId (d : DiskStats) : Z := uwrap64 (wrap64 (wrap64 (ds_Major d * 256) + ds_Minor d)).
Definition by_key {K} `{Countable K} (key : metricTarget → K) (used : metricTarget → bool) (targets : list metricTarget)
  : gmap K metricTarget := foldl (λ m item, if used item then <[key item := item]> m else m) ∅ targets.
(* [metric/blockdevice.go:190-194] blockDeviceMetricWriter.writeMetrics, the map of devices *)
Definition devMap (targets : list metricTarget) : gmap Z metricTarget :=
  by_key (λ item, it_devID (me_itemID item)) (λ item, bool_decide (0 < it_devID (me_itemID item))%Z) targets.
Definition blk_stat (devs : gmap Z metricTarget) (d : DiskStats) : list gauge_op :=
  match devs !! deviceId d with
  | Some blk => getBlkDevMetrics blk ++ set_values (blk_values d) (blk_labels blk)
  | None => []
  end.

Section blk_writer.
Context {W : Type} {D : DiskStatsReader W}.
(* [metric/blockdevice.go:182-244] blockDeviceMetricWriter.writeMetrics *)
Definition blk_writeMetrics (targets : list metricTarget) (c : diffCache) : go W (list gauge_op * option error * diffCache) :=
  let devs := devMap targets in
  if decide (devs = ∅) then mret ([], None, c)
  else
    r ← nux_ListDiskStats;
    match r with
    | inr e => mret ([], Some (ErrWrap "error of reading blkdev stats" e), c)
    | inl diskStats =>
        let '(cleaned, c1) := clean_metrics targets c in
        mret ((diskStats ≫= blk_stat devs) ++ cleaned, None, c1)
    end.
End blk_writer.

(** ** SPDK's statistics *)

(** [client.BdevIostat], [client.BdevIostats]. *)
Record BdevIostat := {
  io_Name : string; io_BytesRead : Z; io_NumReadOps : Z; io_BytesWritten : Z; io_NumWriteOps : Z;
  io_BytesUnmapped : Z; io_NumUnmapOps : Z; io_ReadLatencyTicks : Z; io_WriteLatencyTicks : Z;
  io_UnmapLatencyTicks : Z; io_TimeInQueue : Z }.
Record BdevIostats := { ios_TickRate : Z; ios_Bdevs : list BdevIostat }.
(** [client.Ios], [client.PoolGroup] by its subsystems, [client.SubsystemStat]. *)
Record Ios := {
  ss_SubsysName : string; ss_BytesRead : Z; ss_NumReadOps : Z; ss_BytesWritten : Z; ss_NumWriteOps : Z;
  ss_ReadLatencyTicks : Z; ss_WriteLatencyTicks : Z; ss_TimeInQueue : Z }.
Record SubsystemStat := { st_TickRate : Z; st_PollGroups : list (list Ios) }.
Class SpdkStats (W : Type) := {
  BdevGetIostat : go W (result BdevIostats);
  NVMFGetStats : go W (result SubsystemStat);
}.

(** [ticks * 1000000 / tickRate] on [uint64]. *)
Definition microseconds {S} (ticks tickRate : Z) : go S Z :=
  if decide (tickRate = 0%Z) then panic "integer divide by zero" else mret (uwrap64 (ticks * 1000000) / tickRate)%Z.

(* [spdk/service_tgt.go:22-31] SubsystemStatResp *)
Record SubsystemStatResp := {
  sr_SubsysName : string; sr_BytesRead : Z; sr_NumReadOps : Z; sr_BytesWrite : Z; sr_NumWriteOps : Z;
  sr_ReadLatencyTime : Z; sr_WriteLatencyTime : Z; sr_TimeInQueue : Z }.
Definition SubsystemStatResp_zero : SubsystemStatResp :=
  {| sr_SubsysName := ""; sr_BytesRead := 0; sr_NumReadOps := 0; sr_BytesWrite := 0; sr_NumWriteOps := 0;
     sr_ReadLatencyTime := 0; sr_WriteLatencyTime := 0; sr_TimeInQueue := 0 |}.

Definition uadd (a b : Z) : Z := uwrap64 (a + b).
(* [spdk/service_tgt.go:293-302] SpdkService.GetTargetStats, one subsystem of a group *)
Definition add_ios {S} (tickRate : Z) (statsMap : gmap string SubsystemStatResp) (ios : Ios) : go S (gmap string SubsystemStatResp) :=
  let st := default SubsystemStatResp_zero (statsMap !! ss_SubsysName ios) in
  rd ← microseconds (ss_ReadLatencyTicks ios) tickRate;
  wr ← microseconds (ss_WriteLatencyTicks ios) tickRate;
  tq ← microseconds (ss_TimeInQueue ios) tickRate;
  mret (<[ss_SubsysName ios :=
    {| sr_SubsysName := ss_SubsysName ios;
       sr_BytesRead := uadd (sr_BytesRead st) (ss_BytesRead ios); sr_NumReadOps := uadd (sr_NumReadOps st) (ss_NumReadOps ios);
       sr_BytesWrite := uadd (sr_BytesWrite st) (ss_BytesWritten ios); sr_NumWriteOps := uadd (sr_NumWriteOps st) (ss_NumWriteOps ios);
       sr_ReadLatencyTime := uadd (sr_ReadLatencyTime st) rd; sr_WriteLatencyTime := uadd (sr_WriteLatencyTime st) wr;
       sr_TimeInQueue := tq |}]> statsMap).
Fixpoint add_all {S} (tickRate : Z) (l : list Ios) (statsMap : gmap string SubsystemStatResp) : go S (gmap string SubsystemStatResp) :=
  match l with
  | [] => mret statsMap
  | ios :: l => m ← add_ios tickRate statsMap ios; add_all tickRate l m
  end.

Section spdk_writers.
Context {W : Type} {RPC : SpdkRpc W} {BR : BdevRpc W} {ST : SpdkStats W}.
Abbreviation SM := (@SpdkM W).

(* [spdk/service_tgt.go:272-311] SpdkService.GetTargetStats *)
Definition GetTargetStats : SM (result (list SubsystemStatResp)) :=
  with_client inr (
    r ← rpc NVMFGetStats;
    match r with
    | inr e => mret (inr e)
    | inl stats =>
        statsMap ← add_all (st_TickRate stats) (concat (st_PollGroups stats)) ∅;
        mret (inl (map_to_list statsMap).*2)
    end).

(* [spdk/service.go:124-138] SpdkService.BdevGetIostat *)
Definition svc_BdevGetIostat : SM (result BdevIostats) :=
  with_client (λ e, inr (ErrWrap "client is nil, try to reconnect failed" e)) (
    r ← rpc BdevGetIostat;
    mret match r with inl s => inl s | inr e => inr (ErrWrap "get bdev iostat failed" e) end).

(** *** Logical volumes *)

Definition lvol_labels (lvol : metricTarget) : list string :=
  [me_nodeName lvol; me_pvcNSedName lvol; me_volUUID lvol; it_lvolFullName (me_itemID lvol)].
(* [metric/spdklvol.go:278-297] getSpdkLvolMetrics *)
Definition getSpdkLvolMetrics (lvol : metricTarget) : list gauge_op := with_labels lvol_vecs (lvol_labels lvol).
(** Nothing calls it. *)
(* [metric/spdklvol.go:299-315] deleteSpdkLvolMetrics *)
Definition deleteSpdkLvolMetrics (lvol : metricTarget) : list gauge_op := delete_labels lvol_vecs (lvol_labels lvol).
(* [metric/spdklvol.go:193-197] spdkLvolMetricWriter.writeMetrics, the map of volumes *)
Definition lvolMap (targets : list metricTarget) : gmap string metricTarget :=
  by_key (λ item, it_lvolFullName (me_itemID item)) (λ item, bool_decide (it_lvolFullName (me_itemID item) ≠ "")) targets.
(* [metric/spdklvol.go:209-223] spdkLvolMetricWriter.writeMetrics, the aliases *)
Definition uuid2Alias (bdevs : list Bdev) : gmap string string :=
  foldl (λ m b, match bdev_Aliases b with [] => m | alias :: _ => <[bdev_UUID b := alias]> m end) ∅ bdevs.
(* [metric/spdklvol.go:239-249] spdkLvolMetricWriter.writeMetrics, the values *)
Definition lvol_values (io : BdevIostat) (rd wr un tq : Z) : list (GaugeVec * Z) :=
  [(lvolReadBytesGaugeVec, io_BytesRead io); (lvolReadReqsGaugeVec, io_NumReadOps io);
   (lvolWriteBytesGaugeVec, io_BytesWritten io); (lvolWriteReqsGaugeVec, io_NumWriteOps io);
   (lvolDiscardBytesGaugeVec, io_BytesUnmapped io); (lvolDiscardReqsGaugeVec, io_NumUnmapOps io);
   (lvolReadLatGaugeVec, rd); (lvolWriteLatGaugeVec, wr); (lvolDiscardLatGaugeVec, un); (lvolTimeInQueueGaugeVec, tq)].
(* [metric/spdklvol.go:232-251] spdkLvolMetricWriter.writeMetrics, one device *)
Definition lvol_stat (lvols : gmap string metricTarget) (aliases : gmap string string) (tickRate : Z) (io : BdevIostat)
  : SM (list gauge_op) :=
  match lvols !! default "" (aliases !! io_Name io) with
  | Some lvol =>
      rd ← microseconds (io_ReadLatencyTicks io) tickRate;
      wr ← microseconds (io_WriteLatencyTicks io) tickRate;
      un ← microseconds (io_UnmapLatencyTicks io) tickRate;
      tq ← microseconds (io_TimeInQueue io) tickRate;
      mret (getSpdkLvolMetrics lvol ++ set_values (lvol_values io rd wr un tq) (lvol_labels lvol))
  | None => mret []
  end.
(* [metric/spdklvol.go:184-276] spdkLvolMetricWriter.writeMetrics *)
Definition lvol_writeMetrics (targets : list metricTarget) (c : diffCache) : SM (list gauge_op * option error * diffCache) :=
  let lvols := lvolMap targets in
  if decide (lvols = ∅) then mret ([], None, c)
  else
    r ← svc_BdevGetBdevs "";
    match r with
    | inr e => mret ([], Some (ErrWrap "error of listing bdev metadata" e), c)
    | inl bdevs =>
        s ← svc_BdevGetIostat;
        match s with
        | inr e => mret ([], Some (ErrWrap "error of getting lvol stat" e), c)
        | inl iostats =>
            ops ← each_op (ios_Bdevs iostats) (lvol_stat lvols (uuid2Alias bdevs) (ios_TickRate iostats));
            let '(cleaned, c1) := clean_metrics targets c in
            mret (ops ++ cleaned, None, c1)
        end
    end.

(** *** Subsystems *)

Definition subsystem_labels (sub : metricTarget) : list string :=
  [me_nodeName sub; me_pvcNSedName sub; me_volUUID sub; it_subsysNQN (me_itemID sub)].
(* [metric/spdksubsystem.go:152-164] getSubsystemMetrics *)
Definition getSubsystemMetrics (sub : metricTarget) : list gauge_op := with_labels subsystem_vecs (subsystem_labels sub).
(** Nothing calls it. *)
(* [metric/spdksubsystem.go:166-176] deleteSubsystemMetrics *)
Definition deleteSubsystemMetrics (sub : metricTarget) : list gauge_op := delete_labels subsystem_vecs (subsystem_labels sub).
(* [metric/spdksubsystem.go:108-112] spdkSubsystemMetricWriter.writeMetrics, the map of subsystems *)
Definition subsysMap (targets : list metricTarget) : gmap string metricTarget :=
  by_key (λ item, it_subsysNQN (me_itemID item)) (λ item, bool_decide (it_subsysNQN (me_itemID item) ≠ "")) targets.
(* [metric/spdksubsystem.go:126-138] spdkSubsystemMetricWriter.writeMetrics, one subsystem *)
Definition subsystem_stat (subs : gmap string metricTarget) (stat : SubsystemStatResp) : list gauge_op :=
  match subs !! sr_SubsysName stat with
  | Some tgt =>
      getSubsystemMetrics tgt ++ set_values
        [(subsystemReadBytesGaugeVec, sr_BytesRead stat); (subsystemReadReqsGaugeVec, sr_NumReadOps stat);
         (subsystemWriteBytesGaugeVec, sr_BytesWrite stat); (subsystemWriteReqsGaugeVec, sr_NumWriteOps stat);
         (subsystemReadLatGaugeVec, sr_ReadLatencyTime stat); (subsystemWriteLatGaugeVec, sr_WriteLatencyTime stat);
         (subsystemTimeInQueueGaugeVec, sr_TimeInQueue stat)] (subsystem_labels tgt)
  | None => []
  end.
(* [metric/spdksubsystem.go:102-150] spdkSubsystemMetricWriter.writeMetrics *)
Definition subsystem_writeMetrics (targets : list metricTarget) (c : diffCache) : SM (list gauge_op * option error * diffCache) :=
  let subs := subsysMap targets in
  if decide (subs = ∅) then mret ([], None, c)
  else
    r ← GetTargetStats;
    match r with
    | inr e => mret ([], Some (ErrWrap "error of getting subsystem stat" e), c)
    | inl allStats =>
        let '(cleaned, c1) := clean_metrics targets c in
        mret ((allStats ≫= subsystem_stat subs) ++ cleaned, None, c1)
    end.
End spdk_writers.

(** ** One turn of the collector *)

(* [metric/collector.go:18-22] Collector *)
Record Collector := { co_lvol : diffCache; co_subsys : diffCache; co_blk : diffCache }.
(* [metric/collector.go:24-36] NewCollector *)
Definition NewCollector : Collector := {| co_lvol := None; co_subsys := None; co_blk := None |}.

(** The lists of operations, one after the other in some interleaving. *)
Inductive interleaved {A} : list (list A) → list A → Prop :=
| inter_nil ls : (∀ l, l ∈ ls → l = []) → interleaved ls []
| inter_cons ls1 x l ls2 tr : interleaved (ls1 ++ l :: ls2) tr → interleaved (ls1 ++ (x :: l) :: ls2) (x :: tr).

Section collector.
Context {L : K8sLib} {W : Type} {US : UnixStat W} {D : DiskStatsReader W} {RPC : SpdkRpc W} {BR : BdevRpc W} {ST : SpdkStats W}.

(** The operations of the three writers; an error is only logged. *)
(* [metric/collector.go:43-59] Collector.Start, one turn *)
Definition collect (lister : MetricInfoLister) (co : Collector) : go (SpdkService * W) (list (list gauge_op) * Collector) :=
  targets ← on_snd (lister_List lister);
  if decide (targets = []) then mret ([], co)
  else
    '(ops1, _, c1) ← lvol_writeMetrics targets (co_lvol co);
    '(ops2, _, c2) ← subsystem_writeMetrics targets (co_subsys co);
    '(ops3, _, c3) ← on_snd (blk_writeMetrics targets (co_blk co));
    mret ([ops1; ops2; ops3], {| co_lvol := c1; co_subsys := c2; co_blk := c3 |}).
End collector.

(** ** What the operations do to one gauge *)

Section gauges.
Context {G : Type} {P : Prometheus G} {PL : PromLaws P}.

Definition act (x : option float64) (o : gauge_op) : option float64 :=
  match o with OWith _ _ => Some (default (f64_of_Z 0) x) | OSet _ _ y => x ≫= λ _, Some y | ODelete _ _ => None end.
Definition on_gauge (v : GaugeVec) (ls : list string) (ops : list gauge_op) : list gauge_op := filter (λ o, op_key o = (v, ls)) ops.
Lemma gauge_run v ls ops g : gauge v ls (prom_run ops g) = foldl act (gauge v ls g) (on_gauge v ls ops).
Proof.
  revert g. induction ops as [|o ops IH]; intros g; [done|]. cbn [prom_run foldl]. unfold prom_run in IH. rewrite IH.
  unfold on_gauge. rewrite filter_cons. destruct (decide (op_key o = (v, ls))) as [E|E].
  - cbn [foldl]. f_equal. destruct o; injection E as -> ->; cbn [act]; [apply pl_with|apply pl_set|apply pl_delete].
  - by rewrite pl_other.
Qed.
Lemma deletes_none ops : Forall (λ o, ∃ v ls, o = ODelete v ls) ops → ops ≠ [] → ∀ x, foldl act x ops = None.
Proof.
  intros Hd Hne x. destruct ops as [|o ops]; [done|]. clear Hne. apply Forall_cons in Hd as [(v & ls & ->) Hd]. cbn [foldl act].
  induction Hd as [|o ops (v' & ls' & ->) Hd IH]; [done|]. exact IH.
Qed.
Lemma no_delete_some ops x : Forall (λ o, ∀ v ls, o ≠ ODelete v ls) ops → is_Some x → is_Some (foldl act x ops).
Proof.
  intros Hd. revert x. induction Hd as [|o ops Ho Hd IH]; intros x Hx; [done|]. cbn [foldl]. apply IH.
  destruct Hx as [y ->]. destruct o; cbn; [by eexists..|]. by destruct (Ho v labels).
Qed.

(** The operations of one target on one gauge. *)
Lemma on_gauge_with v ls vecs : NoDup vecs → v ∈ vecs → on_gauge v ls (with_labels vecs ls) = [OWith v ls].
Proof.
  unfold on_gauge, with_labels. induction 1 as [|u vecs Hu Hnd IH]; intros Hv; [by apply elem_of_nil in Hv|].
  cbn [fmap list_fmap]. rewrite filter_cons. apply elem_of_cons in Hv as [->|Hv].
  - rewrite decide_True by done. f_equal. clear -Hu. induction vecs as [|w vecs IH]; [done|]. cbn [fmap list_fmap].
    apply not_elem_of_cons in Hu as [Hw Hu]. rewrite filter_cons, decide_False by (cbn; congruence). by apply IH.
  - rewrite decide_False by (cbn; intros [= ->]; done). by apply IH.
Qed.
Lemma on_gauge_set v ls vals x : NoDup vals.*1 → (v, x) ∈ vals → on_gauge v ls (set_values vals ls) = [OSet v ls (f64_of_Z x)].
Proof.
  unfold on_gauge, set_values. intros Hnd. induction vals as [|[u y] vals IH]; intros Hv; [by apply elem_of_nil in Hv|].
  cbn [fmap list_fmap fst snd] in *. apply NoDup_cons in Hnd as [Hu Hnd]. rewrite filter_cons. apply elem_of_cons in Hv as [[= -> ->]|Hv].
  - rewrite decide_True by done. f_equal. clear -Hu. induction vals as [|[w z] vals IH]; [done|]. cbn [fmap list_fmap fst snd] in *.
    apply not_elem_of_cons in Hu as [Hw Hu]. rewrite filter_cons, decide_False by (cbn; congruence). by apply IH.
  - rewrite decide_False. { by apply IH. } cbn. intros [= ->]. apply Hu. apply list_elem_of_fmap. by exists (v, x).
Qed.
Lemma on_gauge_none v ls ops : (∀ o, o ∈ ops → op_key o ≠ (v, ls)) → on_gauge v ls ops = [].
Proof.
  intros Hn. unfold on_gauge. induction ops as [|o ops IH]; [done|]. rewrite filter_cons, decide_False by (apply Hn; apply list_elem_of_here).
  apply IH. intros o' Ho. apply Hn. by right.
Qed.
Lemma on_gauge_app v ls ops ops' : on_gauge v ls (ops ++ ops') = on_gauge v ls ops ++ on_gauge v ls ops'.
Proof. apply filter_app. Qed.

(** *** Interleavings *)

Lemma interleaved_elem {A} (ls : list (list A)) tr x : interleaved ls tr → x ∈ tr ↔ ∃ l, l ∈ ls ∧ x ∈ l.
Proof.
  induction 1 as [ls Hn|ls1 y l ls2 tr Hi IH].
  - split; [intros Hx; by apply elem_of_nil in Hx|]. intros (l & Hl & Hx). rewrite (Hn l Hl) in Hx. by apply elem_of_nil in Hx.
  - rewrite elem_of_cons, IH. setoid_rewrite elem_of_app. setoid_rewrite elem_of_cons. split.
    + intros [->|(l' & [Hl|[->|Hl]] & Hx)]; [exists (y :: l)|exists l'|exists (y :: l)|exists l']; rewrite ?elem_of_cons; eauto.
    + intros (l' & [Hl|[->|Hl]] & Hx); [right; eauto| |right; eauto]. apply elem_of_cons in Hx as [->|Hx]; [by left|right; eauto].
Qed.
Lemma interleaved_gauge v ls opss tr : interleaved opss tr → interleaved (on_gauge v ls <$> opss) (on_gauge v ls tr).
Proof.
  induction 1 as [opss Hn|ls1 o l ls2 tr Hi IH].
  - apply inter_nil. intros l Hl. apply list_elem_of_fmap in Hl as (l' & -> & Hl). by rewrite (Hn l' Hl).
  - rewrite fmap_app, fmap_cons in IH |- *. unfold on_gauge at 2 4. rewrite !filter_cons. destruct (decide _); [|exact IH]. by apply inter_cons.
Qed.
Lemma interleaved_last {A} (opss : list (list A)) tr ls1 l : interleaved opss tr → opss = ls1 ++ [l] → (∀ k, k ∈ ls1 → k = []) → tr = l.
Proof.
  intros Hi. revert ls1 l. induction Hi as [opss Hn|k1 x k k2 tr Hi IH]; intros ls1 l E Hls.
  - symmetry. apply Hn. rewrite E. apply elem_of_app. right. apply list_elem_of_singleton. done.
  - destruct (decide (k2 = [])) as [->|Hk2].
    + apply app_inj_tail in E as [-> <-]. f_equal. by apply (IH ls1 k).
    + destruct (exists_last Hk2) as (k3 & y & ->). exfalso. rewrite app_comm_cons, app_assoc in E. apply app_inj_tail in E as [E _].
      specialize (Hls (x :: k)). rewrite <- E in Hls. rewrite elem_of_app, elem_of_cons in Hls. by discriminate Hls; auto.
Qed.
End gauges.

(** ** What a writer writes *)

Definition ids (targets : list metricTarget) : list string := me_id <$> targets.
Definition lost_of (targets : list metricTarget) (c : diffCache) (t : metricTarget) : Prop :=
  ∃ id, cache_items c !! id = Some t ∧ id ∉ ids targets.
(** Gauges of its own, and deletions of block devices that are lost. *)
Record writes (vecs : list GaugeVec) (targets : list metricTarget) (c : diffCache) (ops : list gauge_op) (c' : diffCache) : Prop := {
  wr_ops o : o ∈ ops → (op_key o).1 ∈ vecs ∧ (∀ v ls, o ≠ ODelete v ls) ∨ ∃ t, lost_of targets c t ∧ o ∈ delBlkDevMetrics t;
  wr_cache id t : cache_items c' !! id = Some t → cache_items c !! id = Some t ∨ t ∈ targets ∧ id = me_id t;
}.

Lemma newIds_spec latest id : MapSet.Contains (foldl MapSet.Add MapSet.NewEmptySet (me_id <$> latest)) id = true ↔ id ∈ ids latest.
Proof.
  unfold MapSet.Contains. rewrite bool_decide_eq_true. unfold MapSet.NewEmptySet, ids.
  assert (∀ s : gset string, id ∈ foldl MapSet.Add s (me_id <$> latest) ↔ id ∈ s ∨ id ∈ me_id <$> latest) as ->; [|set_solver].
  induction (me_id <$> latest) as [|x l IH]; intros s; cbn [foldl]; [set_solver|]. rewrite IH. unfold MapSet.Add. set_solver.
Qed.
Lemma findDiff_elem targets c t : t ∈ (findDiff targets c).1 ↔ lost_of targets c t.
Proof.
  unfold lost_of. destruct c as [m|]; cbn [findDiff fst cache_items default].
  - rewrite list_elem_of_fmap. split.
    + intros ([id t'] & -> & H). apply list_elem_of_filter in H as [Hn Hin]. apply elem_of_map_to_list in Hin. exists id. split; [done|].
      cbn [fst] in Hn. rewrite <- not_true_iff_false, newIds_spec in Hn. done.
    + intros (id & Hid & Hn). exists (id, t). split; [done|]. apply list_elem_of_filter. rewrite elem_of_map_to_list. split; [|done].
      cbn [fst]. by rewrite <- not_true_iff_false, newIds_spec.
  - split; [intros H; by apply elem_of_nil in H|]. intros (id & Hid & _). unfold cache_items in Hid. cbn in Hid. by rewrite lookup_empty in Hid.
Qed.
Lemma findDiff_cache targets c : cache_items (findDiff targets c).2 = cache_items c.
Proof. by destruct c. Qed.
Definition kept (targets : list metricTarget) (m : gmap string metricTarget) : gmap string metricTarget :=
  foldl (λ m item, <[me_id item := item]> m) m targets.
Lemma kept_lookup targets m id t : kept targets m !! id = Some t → m !! id = Some t ∨ t ∈ targets ∧ id = me_id t.
Proof.
  revert m. induction targets as [|x targets IH]; intros m; cbn [kept foldl]; [by left|]. intros H. destruct (IH _ H) as [Hm|[Hin ->]].
  - destruct (decide (id = me_id x)) as [->|Hne].
    + rewrite lookup_insert_eq in Hm. injection Hm as <-. right. split; [apply list_elem_of_here|done].
    + rewrite lookup_insert_ne in Hm by done. by left.
  - right. split; [by right|done].
Qed.
Lemma kept_has targets m t : t ∈ targets → ∃ t', t' ∈ targets ∧ me_id t' = me_id t ∧ kept targets m !! me_id t = Some t'.
Proof.
  revert m. induction targets as [|x targets IH] using rev_ind; intros m Hin; [by apply elem_of_nil in Hin|]. unfold kept. rewrite foldl_app. cbn [foldl].
  destruct (decide (me_id x = me_id t)) as [E|Hne].
  - exists x. rewrite E, lookup_insert_eq. split; [|done]. apply elem_of_app. right. by apply list_elem_of_singleton.
  - apply elem_of_app in Hin as [Hin|Hin]; [|by apply list_elem_of_singleton in Hin as ->].
    destruct (IH m Hin) as (t' & Ht' & Hid & Hl). exists t'. rewrite lookup_insert_ne by done. split; [|done]. apply elem_of_app. by left.
Qed.
Lemma kept_keeps targets m id t : m !! id = Some t → ∃ t', kept targets m !! id = Some t'.
Proof.
  revert m t. induction targets as [|x targets IH]; intros m t Hm; cbn [kept foldl]; [by eexists|].
  destruct (decide (id = me_id x)) as [->|].
  - apply (IH _ x). by rewrite lookup_insert_eq.
  - apply (IH _ t). by rewrite lookup_insert_ne.
Qed.
Lemma setCache_kept targets c : cache_items (setCache targets c) = kept targets (cache_items c).
Proof. done. Qed.

Lemma clean_writes vecs targets c ops : (∀ o, o ∈ ops → (op_key o).1 ∈ vecs ∧ (∀ v ls, o ≠ ODelete v ls)) →
  writes vecs targets c (ops ++ (clean_metrics targets c).1) (clean_metrics targets c).2.
Proof.
  intros Ho. unfold clean_metrics. pose proof (findDiff_elem targets c) as Hl. pose proof (findDiff_cache targets c) as Hc.
  destruct (findDiff targets c) as [lost c1]. cbn [fst snd] in *. split.
  - intros o. rewrite elem_of_app. intros [H|H]; [left; by apply Ho|right].
    apply list_elem_of_bind in H as (t & Hin & Ht). exists t. split; [|done]. by apply Hl.
  - intros id t. rewrite <- Hc, setCache_kept. apply kept_lookup.
Qed.
Lemma writes_nothing vecs targets c : writes vecs targets c [] c.
Proof. split; [intros o Ho; by apply elem_of_nil in Ho|by left]. Qed.
Lemma with_labels_elem vecs ls o : o ∈ with_labels vecs ls → (op_key o).1 ∈ vecs ∧ (op_key o).2 = ls ∧ (∀ v l, o ≠ ODelete v l).
Proof. intros H. apply list_elem_of_fmap in H as (v & -> & Hv). done. Qed.
Lemma set_values_elem vals ls o : o ∈ set_values vals ls → (op_key o).1 ∈ vals.*1 ∧ (op_key o).2 = ls ∧ (∀ v l, o ≠ ODelete v l).
Proof. intros H. apply list_elem_of_fmap in H as ([v x] & -> & Hv). split; [|done]. apply list_elem_of_fmap. by exists (v, x). Qed.
Lemma target_elem vecs vals ls o : (∀ v, v ∈ vals.*1 → v ∈ vecs) → o ∈ with_labels vecs ls ++ set_values vals ls →
  (op_key o).1 ∈ vecs ∧ (op_key o).2 = ls ∧ (∀ v l, o ≠ ODelete v l).
Proof.
  intros Hv. rewrite elem_of_app. intros [H|H]; [by apply with_labels_elem|]. apply set_values_elem in H as (H1 & H2). split; [by apply Hv|done].
Qed.
(** The values of a target are those of the vectors it has. *)
Ltac same_vectors := intros v Hv; cbn [fmap list_fmap fst] in Hv; repeat (apply elem_of_cons in Hv as [->|Hv]; [by apply (bool_decide_unpack _); vm_compute|]); by apply elem_of_nil in Hv.

Lemma delBlk_elem t o : o ∈ delBlkDevMetrics t ↔ ∃ v, v ∈ blk_vecs ∧ o = ODelete v (blk_labels t).
Proof.
  unfold delBlkDevMetrics, delete_labels. rewrite list_elem_of_fmap. split; intros (v & H1 & H2); exists v; split; try done.
  - clear H1. by repeat (apply elem_of_cons in H2 as [->|H2]; [by apply (bool_decide_unpack _); vm_compute|]); apply elem_of_nil in H2.
  - clear H2. by repeat (apply elem_of_cons in H1 as [->|H1]; [by apply (bool_decide_unpack _); vm_compute|]); apply elem_of_nil in H1.
Qed.

(** *** The three writers *)

Lemma ret_inv {S A} (a b : A) (s s1 : S) : (mret a : go S A) s = Ret b s1 → b = a.
Proof. by intros [= <- _]. Qed.
Lemma each_op_elem {S A} (l : list A) (f : A → go S (list gauge_op)) (Q : gauge_op → Prop) s ops s' :
  (∀ a s ops s', a ∈ l → f a s = Ret ops s' → ∀ o, o ∈ ops → Q o) → each_op l f s = Ret ops s' → ∀ o, o ∈ ops → Q o.
Proof.
  revert s ops s'. induction l as [|a l IH]; intros s ops s' Hf; cbn [each_op]; go_simpl.
  - intros [= <- <-] o Ho. by apply elem_of_nil in Ho.
  - destruct (f a s) as [ops1 s1|] eqn:E1; [|done]. cbn beta iota. destruct (each_op l f s1) as [ops2 s2|] eqn:E2; [|done]. cbn beta iota.
    intros [= <- <-] o. rewrite elem_of_app. intros [Ho|Ho].
    + apply (Hf a s ops1 s1); [apply list_elem_of_here|done|done].
    + apply (IH s1 ops2 s2); [|done|done]. intros a' t ops' t' Ha. apply Hf. by right.
Qed.

Section writers.
Context {W : Type} {D : DiskStatsReader W} {RPC : SpdkRpc W} {BR : BdevRpc W} {ST : SpdkStats W}.

Lemma blk_stat_elem devs d o : o ∈ blk_stat devs d →
  ∃ t, devs !! deviceId d = Some t ∧ (op_key o).1 ∈ blk_vecs ∧ (op_key o).2 = blk_labels t ∧ (∀ v l, o ≠ ODelete v l).
Proof.
  unfold blk_stat. destruct (devs !! deviceId d) as [t|]; [|intros H; by apply elem_of_nil in H]. intros H. exists t. split; [done|].
  apply (target_elem blk_vecs (blk_values d)); [same_vectors|]. unfold getBlkDevMetrics in H. rewrite elem_of_app in H |- *. destruct H as [H|H]; [left|by right].
  apply list_elem_of_fmap in H as (v & -> & Hv). apply list_elem_of_fmap. exists v. split; [done|].
  revert v Hv. same_vectors.
Qed.
Lemma blk_writes targets c w ops e c' w' : blk_writeMetrics targets c w = Ret (ops, e, c') w' → writes blk_vecs targets c ops c'.
Proof.
  unfold blk_writeMetrics. case_decide; go_simpl; [intros [= <- _ <- _]; apply writes_nothing|].
  destruct (nux_ListDiskStats w) as [[stats|e'] w1|]; [..|done]; cbn beta iota; [|intros [= <- _ <- _]; apply writes_nothing].
  destruct (clean_metrics targets c) as [cleaned c1] eqn:E. go_simpl. intros [= <- _ <- _].
  pose proof (clean_writes blk_vecs targets c (stats ≫= blk_stat (devMap targets))) as Hw. rewrite E in Hw. apply Hw.
  intros o Ho. apply list_elem_of_bind in Ho as (d & Ho & _). apply blk_stat_elem in Ho as (t & _ & H1 & _ & H2). done.
Qed.
Lemma lvol_writes targets c st ops e c' st' : lvol_writeMetrics targets c st = Ret (ops, e, c') st' → writes lvol_vecs targets c ops c'.
Proof.
  unfold lvol_writeMetrics. case_decide; go_simpl; [intros [= <- _ <- _]; apply writes_nothing|].
  destruct (svc_BdevGetBdevs "" st) as [[bdevs|e'] st1|]; [..|done]; cbn beta iota; [|intros [= <- _ <- _]; apply writes_nothing].
  go_simpl. destruct (svc_BdevGetIostat st1) as [[stats|e'] st2|]; [..|done]; cbn beta iota; [|intros [= <- _ <- _]; apply writes_nothing].
  go_simpl. destruct (each_op _ _ st2) as [sets st3|] eqn:E3; [|done]. cbn beta iota.
  destruct (clean_metrics targets c) as [cleaned c1] eqn:E. go_simpl. intros [= <- _ <- _].
  pose proof (clean_writes lvol_vecs targets c sets) as Hw. rewrite E in Hw. apply Hw.
  refine (each_op_elem _ _ (λ o, (op_key o).1 ∈ lvol_vecs ∧ ∀ v ls, o ≠ ODelete v ls) _ _ _ _ E3).
  intros io s o1 s1 _ Hio o Ho. unfold lvol_stat in Hio. destruct (_ !! _) as [t|]; [|injection Hio as <- _; by apply elem_of_nil in Ho].
  do 4 go_inv Hio. apply ret_inv in Hio as ->. eapply target_elem in Ho as (H1 & _ & H2); [done|]. same_vectors.
Qed.
Lemma subsystem_writes targets c st ops e c' st' :
  subsystem_writeMetrics targets c st = Ret (ops, e, c') st' → writes subsystem_vecs targets c ops c'.
Proof.
  unfold subsystem_writeMetrics. case_decide; go_simpl; [intros [= <- _ <- _]; apply writes_nothing|].
  destruct (GetTargetStats st) as [[stats|e'] st1|]; [..|done]; cbn beta iota; [|intros [= <- _ <- _]; apply writes_nothing].
  destruct (clean_metrics targets c) as [cleaned c1] eqn:E. go_simpl. intros [= <- _ <- _].
  pose proof (clean_writes subsystem_vecs targets c (stats ≫= subsystem_stat (subsysMap targets))) as Hw. rewrite E in Hw. apply Hw.
  intros o Ho. apply list_elem_of_bind in Ho as (r & Ho & _). unfold subsystem_stat in Ho.
  destruct (_ !! _) as [t|]; [|by apply elem_of_nil in Ho]. eapply target_elem in Ho as (H1 & _ & H2); [done|]. same_vectors.
Qed.
End writers.

(** ** Many turns *)

Section turns.
Context {L : K8sLib} {W : Type} {US : UnixStat W} {D : DiskStatsReader W} {RPC : SpdkRpc W} {BR : BdevRpc W} {ST : SpdkStats W}.
Context {G : Type} {P : Prometheus G} {PL : PromLaws P}.

(** The list, the caches of the writers, and the gauges. *)
Record Watch := { wa_lister : MetricInfoLister; wa_collector : Collector; wa_gauges : G }.
(** The volumes [V] come and go, and turns happen, with anything on the node in
    between and with their operations in any interleaving. *)
Inductive watched (V : AntstorVolume → Prop) : Watch → Prop :=
| wa_start g : (∀ v ls, v ∈ blk_vecs → gauge v ls g = None) →
    watched V {| wa_lister := NewMetricInfoLister; wa_collector := NewCollector; wa_gauges := g |}
| wa_add vol w : watched V w → V vol →
    watched V {| wa_lister := AddObject (Some vol) (wa_lister w); wa_collector := wa_collector w; wa_gauges := wa_gauges w |}
| wa_delete name w : watched V w →
    watched V {| wa_lister := DeleteObject name (wa_lister w); wa_collector := wa_collector w; wa_gauges := wa_gauges w |}
| wa_turn w st opss co st' tr : watched V w → collect (wa_lister w) (wa_collector w) st = Ret (opss, co) st' → interleaved opss tr →
    watched V {| wa_lister := wa_lister w; wa_collector := co; wa_gauges := prom_run tr (wa_gauges w) |}.

(** A uuid names one volume. *)
Record named (V : AntstorVolume → Prop) : Prop := {
  nv_comma vol a b : V vol → vs_Uuid (vol_Spec vol) ≠ a +:+ "," +:+ b;
  nv_same vol vol' : V vol → V vol' → vs_Uuid (vol_Spec vol) = vs_Uuid (vol_Spec vol') → target_info 0 vol = target_info 0 vol';
}.
Definition from (V : AntstorVolume → Prop) (t : metricTarget) : Prop := ∃ n vol, V vol ∧ t = target_info n vol.

Lemma comma_split u u' r r' : (∀ a b, u ≠ a +:+ "," +:+ b) → (∀ a b, u' ≠ a +:+ "," +:+ b) → u +:+ "," +:+ r = u' +:+ "," +:+ r' → u = u'.
Proof.
  revert u'. induction u as [|c u IH]; intros [|c' u'] Hu Hu' E; try done.
  - cbn in E. injection E as <- _. by destruct (Hu' "" u').
  - cbn in E. injection E as -> _. by destruct (Hu "" u).
  - cbn in E. injection E as -> E. f_equal. apply IH; [..|exact E].
    + intros a b ->. by destruct (Hu (String c' a) b).
    + intros a b ->. by destruct (Hu' (String c' a) b).
Qed.
Lemma from_uuid V t t' : named V → from V t → from V t' → me_volUUID t = me_volUUID t' → blk_labels t = blk_labels t' ∧ me_id t = me_id t'.
Proof.
  intros N (n & vol & Hv & ->) (n' & vol' & Hv' & ->) E. pose proof (nv_same V N vol vol' Hv Hv' E) as Heq.
  change (blk_labels (target_info 0 vol) = blk_labels (target_info 0 vol') ∧ me_id (target_info 0 vol) = me_id (target_info 0 vol')). by rewrite Heq.
Qed.
Lemma from_id V t t' : named V → from V t → from V t' → me_id t = me_id t' → blk_labels t = blk_labels t'.
Proof.
  intros N F F' E. apply (from_uuid V t t' N F F'). destruct F as (n & vol & Hv & ->), F' as (n' & vol' & Hv' & ->).
  unfold me_id in E. cbn [me_volUUID target_info] in *.
  apply (inj (String.append "uuid:")) in E.
  eapply comma_split; [..|exact E]; intros a b; by apply (nv_comma V N).
Qed.
Lemma from_labels V t t' : named V → from V t → from V t' → blk_labels t = blk_labels t' → me_id t = me_id t'.
Proof. intros N F F' E. apply (from_uuid V t t' N F F'). by injection E. Qed.

(** *** One turn *)

Lemma lister_spec (l : MetricInfoLister) w ts w' : lister_List l w = Ret ts w' → ∀ t, t ∈ ts → ∃ n name vol, l !! name = Some vol ∧ t = target_info n vol.
Proof.
  unfold lister_List. assert (∀ vol, vol ∈ (map_to_list l).*2 → ∃ name, l !! name = Some vol) as Hin.
  { intros vol Hv. apply list_elem_of_fmap in Hv as ([name vol'] & -> & Hv). exists name. by apply elem_of_map_to_list in Hv. }
  revert Hin w ts w'. generalize (map_to_list l).*2. intros vols Hin. induction vols as [|vol vols IH]; intros w ts w'; cbn [each_target].
  - intros E%ret_inv t Ht. rewrite E in Ht. by apply elem_of_nil in Ht.
  - intros H t Ht. go_inv H. go_inv H. apply ret_inv in H as ->. apply elem_of_cons in Ht as [->|Ht].
    + destruct (Hin vol (list_elem_of_here _ _)) as [name Hn]. unfold metric_target in Hrun. case_decide.
      * apply ret_inv in Hrun as ->. by exists 0%Z, name, vol.
      * go_inv Hrun. apply ret_inv in Hrun as ->. by eexists _, name, vol.
    + apply (IH ltac:(intros; apply Hin; by right) _ _ _ Hrun0 t Ht).
Qed.
Lemma by_key_elem {K} `{Countable K} (key : metricTarget → K) used targets k t : by_key key used targets !! k = Some t → t ∈ targets.
Proof.
  unfold by_key. assert (∀ m : gmap K metricTarget, foldl (λ m item, if used item then <[key item := item]> m else m) m targets !! k = Some t →
    t ∈ targets ∨ m !! k = Some t) as Hf; [|intros Hl; destruct (Hf ∅ Hl) as [|He]; [done|by rewrite lookup_empty in He]].
  induction targets as [|x targets IH]; intros m Hl; cbn [foldl] in Hl; [by right|]. destruct (IH _ Hl) as [Hin|Hm]; [left; by right|].
  destruct (used x); [|by right]. destruct (decide (key x = k)) as [E|].
  - rewrite E, lookup_insert_eq in Hm. injection Hm as <-. left. apply list_elem_of_here.
  - rewrite lookup_insert_ne in Hm by done. by right.
Qed.

Lemma blk_run targets c w ops e c' w' : blk_writeMetrics targets c w = Ret (ops, e, c') w' →
  (ops = [] ∧ c' = c) ∨ ∃ disks, ops = (disks ≫= blk_stat (devMap targets)) ++ (clean_metrics targets c).1 ∧ c' = (clean_metrics targets c).2.
Proof.
  unfold blk_writeMetrics. case_decide; go_simpl; [intros [= <- _ <- _]; by left|].
  destruct (nux_ListDiskStats w) as [[stats|e'] w1|]; [..|done]; cbn beta iota; [|intros [= <- _ <- _]; by left].
  destruct (clean_metrics targets c) as [cleaned c1]. intros [= <- _ <- _]. right. by exists stats.
Qed.
Lemma collect_run lister co st opss co' st' : collect lister co st = Ret (opss, co') st' →
  ∃ targets w1, lister_List lister st.2 = Ret targets w1 ∧
  (targets = [] ∧ opss = [] ∧ co' = co ∨
   ∃ ops1 ops2 ops3 e w2 w3, opss = [ops1; ops2; ops3] ∧ writes lvol_vecs targets (co_lvol co) ops1 (co_lvol co') ∧
     writes subsystem_vecs targets (co_subsys co) ops2 (co_subsys co') ∧ blk_writeMetrics targets (co_blk co) w2 = Ret (ops3, e, co_blk co') w3).
Proof.
  unfold collect. intros H. go_inv H. destruct st as [svc w]. unfold on_snd in Hrun. cbn [fst snd] in Hrun.
  destruct (lister_List lister w) as [targets w1|] eqn:El; [|done]. injection Hrun as <- <-. exists targets, w1. split; [done|].
  case_decide; [left; injection H as <- <- _; done|right].
  go_inv H. destruct a as [[ops1 e1] c1]. go_inv H. destruct a as [[ops2 e2] c2]. go_inv H. destruct a as [[ops3 e3] c3].
  injection H as <- <- _. destruct s0 as [svc1 w2]. unfold on_snd in Hrun1. cbn [fst snd] in Hrun1.
  destruct (blk_writeMetrics targets (co_blk co) w2) as [r w3|] eqn:Eb; [|done]. injection Hrun1 as -> _.
  exists ops1, ops2, ops3, e3, w2, w3. split; [done|]. split; [by eapply lvol_writes|]. split; [by eapply subsystem_writes|done].
Qed.
Lemma gauge_from v ls tr g : gauge v ls (prom_run tr g) ≠ None → gauge v ls g ≠ None ∨ OWith v ls ∈ tr.
Proof.
  rewrite gauge_run. intros Hn. assert (gauge v ls g ≠ None ∨ ∃ o, o ∈ on_gauge v ls tr ∧ (∃ v l, o = OWith v l)) as [H|(o & Ho & v' & l & ->)].
  - revert Hn. generalize (gauge v ls g). induction (on_gauge v ls tr) as [|o ops IH]; intros x; cbn [foldl]; intros Hn; [by left|].
    destruct (IH _ Hn) as [Hx|(o' & Ho & Hw)]; [|right; exists o'; split; [by right|done]].
    destruct o; cbn [act] in Hx; [right; eexists; split; [apply list_elem_of_here|eauto]| |done]. left. by destruct x.
  - by left.
  - right. apply list_elem_of_filter in Ho as [[= -> ->] Hin]. done.
Qed.

(** *** The invariant *)

Record winv (V : AntstorVolume → Prop) (w : Watch) : Prop := {
  wi_vols name vol : wa_lister w !! name = Some vol → V vol;
  wi_lvol id t : cache_items (co_lvol (wa_collector w)) !! id = Some t → id = me_id t ∧ from V t;
  wi_subsys id t : cache_items (co_subsys (wa_collector w)) !! id = Some t → id = me_id t ∧ from V t;
  wi_blk id t : cache_items (co_blk (wa_collector w)) !! id = Some t → id = me_id t ∧ from V t;
  wi_gauges v ls : v ∈ blk_vecs → gauge v ls (wa_gauges w) ≠ None →
    ∃ id t, cache_items (co_blk (wa_collector w)) !! id = Some t ∧ blk_labels t = ls;
}.
Definition cache_ok (V : AntstorVolume → Prop) (c : diffCache) : Prop := ∀ id t, cache_items c !! id = Some t → id = me_id t ∧ from V t.
Lemma writes_cache V vecs targets c ops c' : (∀ t, t ∈ targets → from V t) → writes vecs targets c ops c' → cache_ok V c → cache_ok V c'.
Proof. intros Ht Hw Hc id t Hl. destruct (wr_cache _ _ _ _ _ Hw id t Hl) as [Hl'|[Hin ->]]; [by apply Hc|split; [done|by apply Ht]]. Qed.
(** Gauges of block devices are written by their writer only. *)
Lemma foreign_op vecs targets c ops c' o v ls : writes vecs targets c ops c' → (∀ u, u ∈ vecs → u ∉ blk_vecs) → v ∈ blk_vecs →
  o ∈ ops → op_key o = (v, ls) → o = ODelete v ls ∧ ∃ t, lost_of targets c t ∧ blk_labels t = ls.
Proof.
  intros Hw Hv Hb Ho Hk. destruct (wr_ops _ _ _ _ _ Hw o Ho) as [[H1 _]|(t & Hl & Hd)].
  - rewrite Hk in H1. by destruct (Hv v H1).
  - apply delBlk_elem in Hd as (u & _ & ->). cbn in Hk. injection Hk as -> <-. split; [done|by exists t].
Qed.
Lemma blk_op targets c ops c' o v ls : writes blk_vecs targets c ops c' → o ∈ ops → op_key o = (v, ls) →
  (∀ u l, o ≠ ODelete u l) ∨ o = ODelete v ls ∧ ∃ t, lost_of targets c t ∧ blk_labels t = ls.
Proof.
  intros Hw Ho Hk. destruct (wr_ops _ _ _ _ _ Hw o Ho) as [[_ H]|(t & Hl & Hd)]; [by left|right].
  apply delBlk_elem in Hd as (u & _ & ->). cbn in Hk. injection Hk as -> <-. split; [done|by exists t].
Qed.
Lemma not_blk_lvol v : v ∈ lvol_vecs → v ∉ blk_vecs.
Proof. intros Hv Hb. by repeat (apply elem_of_cons in Hv as [->|Hv]; [by apply (bool_decide_pack _) in Hb; vm_compute in Hb|]); apply elem_of_nil in Hv. Qed.
Lemma not_blk_subsystem v : v ∈ subsystem_vecs → v ∉ blk_vecs.
Proof. intros Hv Hb. by repeat (apply elem_of_cons in Hv as [->|Hv]; [by apply (bool_decide_pack _) in Hb; vm_compute in Hb|]); apply elem_of_nil in Hv. Qed.

Lemma blk_cache_grows targets c id t V : named V → (∀ t, t ∈ targets → from V t) → cache_ok V c → cache_items c !! id = Some t →
  ∃ t', cache_items (setCache targets c) !! id = Some t' ∧ blk_labels t' = blk_labels t.
Proof.
  intros N Ht Hc Hl. rewrite setCache_kept. destruct (kept_keeps targets _ _ _ Hl) as [t' Hl']. exists t'. split; [done|].
  destruct (Hc id t Hl) as [-> F]. destruct (kept_lookup targets _ _ _ Hl') as [Hs|[Hin E]]; [by rewrite Hl in Hs; injection Hs as ->|].
  by apply (from_id V); auto.
Qed.
Lemma set_in_targets targets disks v ls : OWith v ls ∈ (disks ≫= blk_stat (devMap targets)) → ∃ t, t ∈ targets ∧ blk_labels t = ls.
Proof.
  intros Ho. apply list_elem_of_bind in Ho as (d & Ho & _). apply blk_stat_elem in Ho as (t & Hd & _ & E & _).
  exists t. split; [by apply by_key_elem in Hd|done].
Qed.
Lemma clean_cache targets c : cache_items (clean_metrics targets c).2 = cache_items (setCache targets c).
Proof. unfold clean_metrics. by destruct c. Qed.
Lemma no_set_of_clean targets c v ls : OWith v ls ∉ (clean_metrics targets c).1.
Proof.
  unfold clean_metrics. destruct (findDiff targets c) as [lost c1]. cbn [fst]. intros H. apply list_elem_of_bind in H as (t & H & _).
  apply delBlk_elem in H as (u & _ & E). done.
Qed.

Lemma turn_inv V w st opss co st' tr : named V → winv V w → collect (wa_lister w) (wa_collector w) st = Ret (opss, co) st' → interleaved opss tr →
  winv V {| wa_lister := wa_lister w; wa_collector := co; wa_gauges := prom_run tr (wa_gauges w) |}.
Proof.
  intros N [Iv I1 I2 I3 Ig] H Hi. destruct (collect_run _ _ _ _ _ _ H) as (targets & w1 & El & Hc).
  assert (∀ t, t ∈ targets → from V t) as Ht. { intros t Ht. destruct (lister_spec _ _ _ _ El t Ht) as (n & name & vol & Hn & ->). exists n, vol. split; [by eapply Iv|done]. }
  destruct Hc as [(-> & -> & ->)|(ops1 & ops2 & ops3 & e & w2 & w3 & -> & W1 & W2 & R3)].
  { assert (tr = []) as ->. { destruct tr as [|x tr]; [done|]. apply (interleaved_elem _ _ x) in Hi. destruct Hi as [Hi _].
      destruct (Hi (list_elem_of_here _ _)) as (l & Hl & _). by apply elem_of_nil in Hl. } by split. }
  pose proof (blk_writes _ _ _ _ _ _ _ R3) as W3. split; cbn [wa_lister wa_collector wa_gauges].
  - done.
  - exact (writes_cache V _ _ _ _ _ Ht W1 I1).
  - exact (writes_cache V _ _ _ _ _ Ht W2 I2).
  - exact (writes_cache V _ _ _ _ _ Ht W3 I3).
  - intros v ls Hv Hg. destruct (gauge_from v ls tr _ Hg) as [Hold|Hw].
    + destruct (Ig v ls Hv Hold) as (id & t & Hl & <-). destruct (blk_run _ _ _ _ _ _ _ R3) as [[_ ->]|(disks & _ & ->)]; [by exists id, t|].
      rewrite clean_cache. destruct (blk_cache_grows targets _ id t V N Ht I3 Hl) as (t' & Hl' & E). by exists id, t'.
    + apply (interleaved_elem _ _ _ Hi) in Hw as (ops & Hops & Hw). apply elem_of_cons in Hops as [->|Hops].
      { by destruct (foreign_op _ _ _ _ _ _ v ls W1 not_blk_lvol Hv Hw eq_refl). }
      apply elem_of_cons in Hops as [->|Hops]. { by destruct (foreign_op _ _ _ _ _ _ v ls W2 not_blk_subsystem Hv Hw eq_refl). }
      apply list_elem_of_singleton in Hops as ->. destruct (blk_run _ _ _ _ _ _ _ R3) as [[-> _]|(disks & -> & ->)]; [by apply elem_of_nil in Hw|].
      apply elem_of_app in Hw as [Hw|Hw]; [|by apply no_set_of_clean in Hw]. destruct (set_in_targets _ _ _ _ Hw) as (t & Hin & <-).
      rewrite clean_cache, setCache_kept. destruct (kept_has targets (cache_items (co_blk (wa_collector w))) t Hin) as (t' & Hin' & E & Hl).
      exists (me_id t), t'. split; [done|]. apply (from_id V); auto.
Qed.
Lemma watched_inv V w : named V → watched V w → winv V w.
Proof.
  intros N. induction 1 as [g Hg|vol w Hw I Hv|name w Hw I|w st opss co st' tr Hw I H Hi].
  - split; cbn [wa_lister wa_collector wa_gauges]; [intros ? ? Hl; by destruct (lookup_empty_Some (M := gmap string) _ _ Hl)|..|intros v ls Hv Hn; by rewrite Hg in Hn];
      intros ? ? Hl; by destruct (lookup_empty_Some (M := gmap string) _ _ Hl).
  - destruct I. split; cbn; auto. intros name vol'. case_decide; [eauto|]. intros Hl.
    apply (lookup_insert_Some (M := gmap string)) in Hl as [[_ <-]|[_ Hl]]; eauto.
  - destruct I. split; cbn; auto. intros name' vol' Hl. unfold DeleteObject in Hl. apply (lookup_delete_Some (M := gmap string)) in Hl as [_ Hl]. eauto.
  - by eapply turn_inv.
Qed.

(** The last statistics of the kernel that are for the device of the labels. *)
Definition reported (targets : list metricTarget) (disks : list DiskStats) (ls : list string) : option DiskStats :=
  last (filter (λ d, (blk_labels <$> devMap targets !! deviceId d) = Some ls) disks).
Lemma blk_stat_gauge devs d v x ls : (v, x) ∈ blk_values d →
  on_gauge v ls (blk_stat devs d) = if decide ((blk_labels <$> devs !! deviceId d) = Some ls) then [OWith v ls; OSet v ls (f64_of_Z x)] else [].
Proof.
  intros Hv. unfold blk_stat. destruct (devs !! deviceId d) as [t|]; cbn [fmap option_fmap option_map].
  - case_decide as E.
    + injection E as <-. rewrite on_gauge_app. unfold getBlkDevMetrics. rewrite on_gauge_with.
      * rewrite (on_gauge_set _ _ _ x); [done| |done]. by apply (bool_decide_unpack _); vm_compute.
      * by apply (bool_decide_unpack _); vm_compute.
      * assert (v ∈ (blk_values d).*1) as Hv1 by (apply list_elem_of_fmap; by exists (v, x)). clear Hv; revert v Hv1. same_vectors.
    + apply on_gauge_none. intros o Ho Hk. apply elem_of_app in Ho as [Ho|Ho].
      * apply with_labels_elem in Ho as (_ & Hl & _). rewrite Hk in Hl. cbn in Hl. congruence.
      * apply set_values_elem in Ho as (_ & Hl & _). rewrite Hk in Hl. cbn in Hl. congruence.
  - rewrite decide_False by done. done.
Qed.
Lemma stats_gauge targets disks v ls d x x0 : reported targets disks ls = Some d → (v, x) ∈ blk_values d →
  foldl act x0 (on_gauge v ls (disks ≫= blk_stat (devMap targets))) = Some (f64_of_Z x).
Proof.
  unfold reported. induction disks as [|d' disks IH] using rev_ind; [done|]. rewrite bind_app, on_gauge_app, foldl_app, filter_app. cbn [mbind list_bind].
  rewrite app_nil_r. intros Hl Hv. destruct (decide ((blk_labels <$> devMap targets !! deviceId d') = Some ls)) as [E|E].
  - rewrite filter_cons_True, filter_nil, last_snoc in Hl by done. injection Hl as ->.
    rewrite (blk_stat_gauge _ _ v x) by done. rewrite decide_True by done. cbn [foldl act]. by destruct (foldl act x0 _).
  - rewrite filter_cons_False, filter_nil, app_nil_r in Hl by done. rewrite IH by done.
    rewrite on_gauge_none; [done|]. intros o Ho Hk. apply blk_stat_elem in Ho as (t & Ht & _ & Hlab & _). rewrite Hk in Hlab. cbn in Hlab.
    apply E. by rewrite Ht, Hlab.
Qed.
(** What is lost is none of the targets, and has other labels. *)
Lemma lost_labels V targets c t t' : named V → (∀ t, t ∈ targets → from V t) → cache_ok V c → lost_of targets c t → t' ∈ targets → blk_labels t ≠ blk_labels t'.
Proof.
  intros N Ht Hc (id & Hl & Hn) Hin E. destruct (Hc id t Hl) as [-> F]. apply Hn. apply list_elem_of_fmap. exists t'. split; [|done].
  apply (from_labels V); auto.
Qed.
Lemma last_elem {A} (l : list A) x : last l = Some x → x ∈ l.
Proof. intros H. apply last_Some in H as [l' ->]. apply elem_of_app. right. by apply list_elem_of_singleton. Qed.

(** The operations of a turn that read the kernel's statistics. *)
Record turn (V : AntstorVolume → Prop) (co co' : Collector) (targets : list metricTarget) (disks : list DiskStats)
    (ops1 ops2 ops3 : list gauge_op) : Prop := {
  tn_from t : t ∈ targets → from V t;
  tn_lvol : writes lvol_vecs targets (co_lvol co) ops1 (co_lvol co');
  tn_subsys : writes subsystem_vecs targets (co_subsys co) ops2 (co_subsys co');
  tn_blk : ops3 = (disks ≫= blk_stat (devMap targets)) ++ (clean_metrics targets (co_blk co)).1;
}.
Lemma turn_of V w st targets w1 disks opss co' st' : winv V w →
  lister_List (wa_lister w) st.2 = Ret targets w1 → devMap targets ≠ ∅ → (∀ w, ∃ w', nux_ListDiskStats w = Ret (inl disks) w') →
  collect (wa_lister w) (wa_collector w) st = Ret (opss, co') st' →
  ∃ ops1 ops2 ops3, opss = [ops1; ops2; ops3] ∧ turn V (wa_collector w) co' targets disks ops1 ops2 ops3.
Proof.
  intros I El Hdev Hdisk H. destruct (collect_run _ _ _ _ _ _ H) as (targets' & w1' & El' & Hc). rewrite El in El'. injection El' as <- <-.
  destruct Hc as [(-> & _)|(ops1 & ops2 & ops3 & e & w2 & w3 & -> & W1 & W2 & R3)]; [done|].
  exists ops1, ops2, ops3. split; [done|]. split; [|done|done|].
  - intros t Ht. destruct (lister_spec _ _ _ _ El t Ht) as (n & name & vol & Hn & ->). exists n, vol. split; [by eapply (wi_vols V w I)|done].
  - unfold blk_writeMetrics in R3. rewrite decide_False in R3 by done. go_simpl. destruct (Hdisk w2) as [w4 E]. rewrite E in R3. cbn beta iota in R3.
    destruct (clean_metrics _ _) as [cleaned c1]. by injection R3 as <-.
Qed.
Lemma clean_elem targets c o : o ∈ (clean_metrics targets c).1 ↔ ∃ t, lost_of targets c t ∧ o ∈ delBlkDevMetrics t.
Proof.
  unfold clean_metrics. pose proof (findDiff_elem targets c) as Hl. destruct (findDiff targets c) as [lost c1]. cbn [fst] in *.
  rewrite list_elem_of_bind. setoid_rewrite <- Hl. naive_solver.
Qed.
Section one_turn.
Context {V : AntstorVolume → Prop} (N : named V) {w : Watch} (I : winv V w) {co' : Collector} {targets : list metricTarget} {disks : list DiskStats}.
Context {ops1 ops2 ops3 : list gauge_op} (T : turn V (wa_collector w) co' targets disks ops1 ops2 ops3).
Context {tr : list gauge_op} (Hi : interleaved [ops1; ops2; ops3] tr).

Lemma turn_op o v ls : v ∈ blk_vecs → o ∈ ops1 ∨ o ∈ ops2 ∨ o ∈ (clean_metrics targets (co_blk (wa_collector w))).1 → op_key o = (v, ls) →
  o = ODelete v ls ∧ ∃ c t, cache_ok V c ∧ lost_of targets c t ∧ blk_labels t = ls.
Proof.
  intros Hv Ho Hk. destruct Ho as [Ho|[Ho|Ho]].
  - destruct (foreign_op _ _ _ _ _ _ v ls (tn_lvol _ _ _ _ _ _ _ _ T) not_blk_lvol Hv Ho Hk) as (-> & t & Hl & Hlab). split; [done|].
    exists (co_lvol (wa_collector w)), t. split; [exact (wi_lvol V w I)|done].
  - destruct (foreign_op _ _ _ _ _ _ v ls (tn_subsys _ _ _ _ _ _ _ _ T) not_blk_subsystem Hv Ho Hk) as (-> & t & Hl & Hlab). split; [done|].
    exists (co_subsys (wa_collector w)), t. split; [exact (wi_subsys V w I)|done].
  - apply clean_elem in Ho as (t & Hl & Ho). apply delBlk_elem in Ho as (u & _ & ->). cbn in Hk. injection Hk as -> <-. split; [done|].
    exists (co_blk (wa_collector w)), t. split; [exact (wi_blk V w I)|done].
Qed.
Lemma unlisted_deleted v ls : v ∈ blk_vecs → ls ∉ blk_labels <$> targets → gauge v ls (wa_gauges w) ≠ None → ODelete v ls ∈ on_gauge v ls tr.
Proof.
  intros Hv Hout Hg. apply list_elem_of_filter. split; [done|]. destruct (wi_gauges V w I v ls Hv Hg) as (id & t & Hl & Hlab).
  destruct (wi_blk V w I id t Hl) as [-> F]. apply (interleaved_elem _ _ _ Hi). exists ops3. split; [by right; right; left|].
  rewrite (tn_blk _ _ _ _ _ _ _ _ T). apply elem_of_app. right. apply clean_elem. exists t. split; [|apply delBlk_elem; exists v; by rewrite Hlab].
  exists (me_id t). split; [done|]. intros Hin. apply list_elem_of_fmap in Hin as (t' & Eid & Hin). apply Hout. apply list_elem_of_fmap. exists t'.
  split; [|done]. rewrite <- Hlab. apply (from_id V); [done|done|by apply (tn_from _ _ _ _ _ _ _ _ T)|done].
Qed.
Lemma unlisted_gauge v ls : v ∈ blk_vecs → ls ∉ blk_labels <$> targets → gauge v ls (prom_run tr (wa_gauges w)) = None.
Proof.
  intros Hv Hout. rewrite gauge_run. assert (Forall (λ o, ∃ v ls, o = ODelete v ls) (on_gauge v ls tr)) as Hall.
  { apply Forall_forall. intros o Ho. apply list_elem_of_filter in Ho as [Hk Ho]. apply (interleaved_elem _ _ _ Hi) in Ho as (ops & Hops & Ho).
    assert (o ∈ (disks ≫= blk_stat (devMap targets)) ∨ o ∈ ops1 ∨ o ∈ ops2 ∨ o ∈ (clean_metrics targets (co_blk (wa_collector w))).1) as [Hs|Hs].
    { rewrite (tn_blk _ _ _ _ _ _ _ _ T), !elem_of_cons, elem_of_nil in Hops. destruct Hops as [->|[->|[->|[]]]]; auto. apply elem_of_app in Ho. naive_solver. }
    - exfalso. apply list_elem_of_bind in Hs as (d & Hs & _). apply blk_stat_elem in Hs as (t & Hd & _ & E & _). apply Hout.
      apply list_elem_of_fmap. exists t. rewrite Hk in E. split; [done|by apply by_key_elem in Hd].
    - destruct (turn_op o v ls Hv Hs Hk) as [-> _]. by eauto. }
  destruct (decide (on_gauge v ls tr = [])) as [E|E]; [|by apply deletes_none]. destruct (gauge v ls (wa_gauges w)) eqn:Eg; [|by rewrite E].
  pose proof (unlisted_deleted v ls Hv Hout) as Hd. rewrite Eg, E in Hd. exfalso. by apply elem_of_nil in Hd.
Qed.
Lemma listed_gauge ls d v x : reported targets disks ls = Some d → (v, x) ∈ blk_values d → gauge v ls (prom_run tr (wa_gauges w)) = Some (f64_of_Z x).
Proof.
  intros Hr Hv. rewrite gauge_run. assert (v ∈ blk_vecs) as Hvb.
  { assert (v ∈ (blk_values d).*1) as Hv1 by (apply list_elem_of_fmap; by exists (v, x)). clear Hv. revert v Hv1. same_vectors. }
  assert (∃ t, t ∈ targets ∧ blk_labels t = ls) as (t & Hin & Hlab).
  { apply last_elem, list_elem_of_filter in Hr as [E _]. destruct (devMap targets !! deviceId d) as [t|] eqn:Ed; [|done]. injection E as E.
    exists t. split; [by apply by_key_elem in Ed|done]. }
  assert (∀ ops, (∀ o, o ∈ ops → o ∈ ops1 ∨ o ∈ ops2 ∨ o ∈ (clean_metrics targets (co_blk (wa_collector w))).1) → on_gauge v ls ops = []) as Hno.
  { intros ops Hops. apply on_gauge_none. intros o Ho Hk. destruct (turn_op o v ls Hvb (Hops o Ho) Hk) as (_ & c & t' & Hc & Hl & Hlab').
    by apply (lost_labels V targets c t' t N (tn_from _ _ _ _ _ _ _ _ T) Hc Hl Hin); rewrite Hlab, Hlab'. }
  assert (on_gauge v ls tr = on_gauge v ls ops3) as ->.
  { apply (interleaved_last (on_gauge v ls <$> [ops1; ops2; ops3]) _ [on_gauge v ls ops1; on_gauge v ls ops2]); [by apply interleaved_gauge|done|].
    intros k Hk. apply elem_of_cons in Hk as [->|Hk]; [|apply list_elem_of_singleton in Hk as ->]; apply Hno; auto. }
  rewrite (tn_blk _ _ _ _ _ _ _ _ T), on_gauge_app, foldl_app, (stats_gauge _ _ _ _ d x) by done. rewrite Hno; [done|]. auto.
Qed.
End one_turn.

(** A turn without a listed block device, or whose statistics cannot be read, writes
    no gauge of a block device; the writers of the lvols and of the subsystems may
    delete those of a volume that is not listed any more. *)
Definition blind_turn (targets : list metricTarget) : Prop :=
  devMap targets = ∅ ∨ ∀ w : W, ∃ e w', nux_ListDiskStats w = Ret (inr e) w'.
Lemma blind_blk targets c w ops e c' w' : blind_turn targets → blk_writeMetrics targets c w = Ret (ops, e, c') w' → ops = [].
Proof.
  unfold blk_writeMetrics. intros Hb. case_decide; go_simpl; [by intros [= <- _ _ _]|]. destruct Hb as [|Hb]; [done|].
  destruct (Hb w) as (e1 & w1 & ->). cbn beta iota. by intros [= <- _ _ _].
Qed.
Lemma blind_op V w st targets w1 opss co st' tr v ls o : named V → winv V w →
  lister_List (wa_lister w) st.2 = Ret targets w1 → blind_turn targets →
  collect (wa_lister w) (wa_collector w) st = Ret (opss, co) st' → interleaved opss tr → v ∈ blk_vecs → o ∈ on_gauge v ls tr →
  o = ODelete v ls ∧ ls ∉ blk_labels <$> targets.
Proof.
  intros N I El Hb H Hi Hv Ho. apply list_elem_of_filter in Ho as [Hk Ho]. apply (interleaved_elem _ _ _ Hi) in Ho as (ops & Hops & Ho).
  destruct (collect_run _ _ _ _ _ _ H) as (targets' & w1' & El' & Hc). rewrite El in El'. injection El' as <- <-.
  assert (∀ t, t ∈ targets → from V t) as Hfrom.
  { intros t Ht. destruct (lister_spec _ _ _ _ El t Ht) as (n & name & vol & Hn & ->). exists n, vol. split; [by eapply (wi_vols V w I)|done]. }
  assert (∀ c t, cache_ok V c → lost_of targets c t → blk_labels t = ls → ls ∉ blk_labels <$> targets) as Hlost.
  { intros c t Hcok Hl <- Hin. apply list_elem_of_fmap in Hin as (t' & E & Hin). by apply (lost_labels V targets c t t' N Hfrom Hcok Hl Hin). }
  destruct Hc as [(_ & -> & _)|(ops1 & ops2 & ops3 & e & w2 & w3 & -> & W1 & W2 & R3)]; [by apply elem_of_nil in Hops|].
  apply (blind_blk _ _ _ _ _ _ _ Hb) in R3 as ->. rewrite !elem_of_cons, elem_of_nil in Hops. destruct Hops as [->|[->|[->|[]]]].
  - destruct (foreign_op _ _ _ _ _ _ v ls W1 not_blk_lvol Hv Ho Hk) as (-> & t & Hl & Hlab). split; [done|]. by apply (Hlost _ t (wi_lvol V w I)).
  - destruct (foreign_op _ _ _ _ _ _ v ls W2 not_blk_subsystem Hv Ho Hk) as (-> & t & Hl & Hlab). split; [done|]. by apply (Hlost _ t (wi_subsys V w I)).
  - by apply elem_of_nil in Ho.
Qed.
Lemma blind_gauge V w st targets w1 opss co st' tr v ls : named V → winv V w →
  lister_List (wa_lister w) st.2 = Ret targets w1 → blind_turn targets →
  collect (wa_lister w) (wa_collector w) st = Ret (opss, co) st' → interleaved opss tr → v ∈ blk_vecs →
  gauge v ls (prom_run tr (wa_gauges w)) = gauge v ls (wa_gauges w) ∨
  gauge v ls (prom_run tr (wa_gauges w)) = None ∧ ls ∉ blk_labels <$> targets.
Proof.
  intros N I El Hb H Hi Hv. pose proof (λ o, blind_op V w st targets w1 opss co st' tr v ls o N I El Hb H Hi Hv) as Hop. rewrite gauge_run.
  destruct (on_gauge v ls tr) as [|o ops] eqn:E; [by left|right]. split; [|by apply (Hop o), list_elem_of_here].
  apply deletes_none; [|done]. apply Forall_forall. intros o' Ho'. destruct (Hop o' Ho') as [-> _]. by eauto.
Qed.

(** C35. What the agent reports of block devices, whatever volumes came and went and
    in every interleaving of the collector's three writers. After a turn in which a
    block device was listed and the kernel's statistics were read, every gauge of a
    block device is of a volume that is listed, and the gauges of a listed volume's
    device show the kernel's last numbers for it. After a turn in which no block
    device was listed, or the statistics could not be read, no gauge of a block
    device has a new value: the gauges of listed volumes are as they were, those of
    other volumes are as they were, and so may stay, or are gone. *)
Theorem blk_gauges_current V w st targets w1 disks opss co st' tr :
  named V → watched V w → lister_List (wa_lister w) st.2 = Ret targets w1 →
  collect (wa_lister w) (wa_collector w) st = Ret (opss, co) st' → interleaved opss tr →
  let g := prom_run tr (wa_gauges w) in
  (devMap targets ≠ ∅ → (∀ w, ∃ w', nux_ListDiskStats w = Ret (inl disks) w') →
    (∀ v ls, v ∈ blk_vecs → gauge v ls g ≠ None → ∃ name vol, wa_lister w !! name = Some vol ∧ ls = blk_labels (target_info 0 vol)) ∧
    ∀ ls d v x, reported targets disks ls = Some d → (v, x) ∈ blk_values d → gauge v ls g = Some (f64_of_Z x)) ∧
  (devMap targets = ∅ ∨ (∀ w, ∃ e w', nux_ListDiskStats w = Ret (inr e) w') → ∀ v ls, v ∈ blk_vecs →
    gauge v ls g = gauge v ls (wa_gauges w) ∨ gauge v ls g = None ∧ ls ∉ blk_labels <$> targets).
Proof.
  intros N Hw El H Hi g. apply watched_inv in Hw as I; [|done]. split; [|intros Hb v ls; by apply (blind_gauge V w st targets w1 opss co st' tr)].
  intros Hdev Hdisk. destruct (turn_of V _ _ _ _ _ _ _ _ I El Hdev Hdisk H) as (ops1 & ops2 & ops3 & -> & T). split.
  - intros v ls Hv Hg. destruct (decide (ls ∈ blk_labels <$> targets)) as [Hin|Hout]; [|by destruct Hg; apply (unlisted_gauge N I T Hi)].
    apply list_elem_of_fmap in Hin as (t & -> & Hin). destruct (lister_spec _ _ _ _ El t Hin) as (n & name & vol & Hn & ->). by exists name, vol.
  - intros ls d v x. apply (listed_gauge N I T Hi).
Qed.

(** The gauges of a logical volume are never deleted, whatever volumes go. *)
Lemma lvol_gauges_stay lister co st opss co' st' tr v ls (g : G) : collect lister co st = Ret (opss, co') st' → interleaved opss tr →
  v ∈ lvol_vecs → gauge v ls g ≠ None → gauge v ls (prom_run tr g) ≠ None.
Proof.
  intros H Hi Hv Hg. rewrite gauge_run. apply not_eq_None_Some, no_delete_some; [|by apply not_eq_None_Some].
  apply Forall_forall. intros o Ho u l ->. apply list_elem_of_filter in Ho as [Hk Ho]. cbn in Hk. injection Hk as -> ->.
  apply (interleaved_elem _ _ _ Hi) in Ho as (ops & Hops & Ho). destruct (collect_run _ _ _ _ _ _ H) as (targets & w1 & _ & Hc).
  destruct Hc as [(_ & -> & _)|(ops1 & ops2 & ops3 & e & w2 & w3 & -> & W1 & W2 & R3)]; [by apply elem_of_nil in Hops|].
  assert (∀ vecs c c', writes vecs targets c ops c' → False) as Hno.
  { intros vecs c c' Hw. destruct (wr_ops _ _ _ _ _ Hw _ Ho) as [[_ Hd]|(t & _ & Hd)]; [by eapply Hd|].
    apply delBlk_elem in Hd as (u' & Hu & [= -> _]). by apply (not_blk_lvol u'). }
  repeat (apply elem_of_cons in Hops as [->|Hops]; [by eapply Hno; first [exact W1|exact W2|eapply blk_writes; exact R3]|]). by apply elem_of_nil in Hops.
Qed.
End turns.

(** ** The sums of SPDK's statistics *)

Section sums.
Definition micros (tickRate ticks : Z) : Z := (uwrap64 (ticks * 1000000) / tickRate)%Z.
Definition own_ios (name : string) (l : list Ios) : list Ios := filter (λ i, ss_SubsysName i = name) l.
Definition total (f : Ios → Z) (own : list Ios) : Z := uwrap64 (sumZ (f <$> own)).
(** The answer for a subsystem with the entries [own] of all poll groups. *)
Definition summary (tickRate : Z) (name : string) (own : list Ios) : SubsystemStatResp := {|
  sr_SubsysName := name; sr_BytesRead := total ss_BytesRead own; sr_NumReadOps := total ss_NumReadOps own;
  sr_BytesWrite := total ss_BytesWritten own; sr_NumWriteOps := total ss_NumWriteOps own;
  sr_ReadLatencyTime := total (λ i, micros tickRate (ss_ReadLatencyTicks i)) own;
  sr_WriteLatencyTime := total (λ i, micros tickRate (ss_WriteLatencyTicks i)) own;
  sr_TimeInQueue := match last own with Some i => micros tickRate (ss_TimeInQueue i) | None => 0 end |}.

Lemma total_snoc f own i : total f (own ++ [i]) = uadd (total f own) (f i).
Proof.
  unfold total, uadd, uwrap64. rewrite fmap_app, sumZ_app. cbn [fmap list_fmap sumZ foldr]. rewrite Z.add_0_r. by rewrite Zplus_mod_idemp_l.
Qed.
Lemma add_all_app {S} tick l l' m (s : S) : add_all tick (l ++ l') m s = (m1 ← add_all tick l m; add_all tick l' m1) s.
Proof.
  revert m s. induction l as [|i l IH]; intros m s; [done|]. cbn [add_all app]. go_simpl. destruct (add_ios tick m i s); [|done]. apply IH.
Qed.
Lemma add_all_spec {S} tick l (s : S) : tick ≠ 0%Z → ∃ m, add_all tick l ∅ s = Ret m s ∧
  ∀ name, m !! name = match own_ios name l with [] => None | _ => Some (summary tick name (own_ios name l)) end.
Proof.
  intros Ht. induction l as [|i l IH] using rev_ind; [exists ∅; split; [done|]; intros name; apply lookup_empty|].
  destruct IH as (m & E & Hm). eexists. split.
  - rewrite add_all_app. go_simpl. rewrite E. cbn [add_all]. unfold add_ios, microseconds. go_simpl. rewrite !decide_False by done. reflexivity.
  - intros name. unfold own_ios. rewrite filter_app, filter_cons, filter_nil. fold (own_ios name l). destruct (decide (ss_SubsysName i = name)) as [<-|Hne].
    + rewrite lookup_insert_eq. assert (own_ios (ss_SubsysName i) l ++ [i] ≠ []) as Hn by (by destruct (own_ios _ l)).
      destruct (own_ios (ss_SubsysName i) l ++ [i]) eqn:Eo; [done|]. rewrite <- Eo. f_equal. unfold summary. rewrite last_snoc, !total_snoc.
      assert (∀ f : SubsystemStatResp → Z, ∀ g, f SubsystemStatResp_zero = 0%Z →
        (∀ own, f (summary tick (ss_SubsysName i) own) = total g own) →
        f (default SubsystemStatResp_zero (m !! ss_SubsysName i)) = total g (own_ios (ss_SubsysName i) l)) as Hf.
      { intros f g H0 Hs. rewrite Hm. destruct (own_ios (ss_SubsysName i) l) eqn:El; cbn [default]; [by rewrite H0|apply Hs]. }
      rewrite (Hf sr_BytesRead ss_BytesRead), (Hf sr_NumReadOps ss_NumReadOps), (Hf sr_BytesWrite ss_BytesWritten), (Hf sr_NumWriteOps ss_NumWriteOps),
        (Hf sr_ReadLatencyTime (λ i, micros tick (ss_ReadLatencyTicks i))), (Hf sr_WriteLatencyTime (λ i, micros tick (ss_WriteLatencyTicks i))) by done.
      done.
    + rewrite lookup_insert_ne, app_nil_r by done. apply Hm.
Qed.
End sums.

Section target_stats.
Context {W : Type} {RPC : SpdkRpc W} {BR : BdevRpc W} {ST : SpdkStats W}.

(** The statistics of the targets are the sums over the poll groups: one answer
    for every subsystem that some group serves, with the bytes, requests and
    latencies of all its entries added up on 64 bits, but with the time in queue of
    the last entry alone. *)
Lemma GetTargetStats_sums svc w stats w' :
  ss_cli svc = true → NVMFGetStats w = Ret (inl stats) w' → st_TickRate stats ≠ 0%Z →
  ∃ l, GetTargetStats (svc, w) = Ret (inl l) (svc, w') ∧ NoDup (sr_SubsysName <$> l) ∧
    ∀ r, r ∈ l ↔ ∃ name, own_ios name (concat (st_PollGroups stats)) ≠ [] ∧
      r = summary (st_TickRate stats) name (own_ios name (concat (st_PollGroups stats))).
Proof.
  intros Hc Hs Ht. destruct (add_all_spec (st_TickRate stats) (concat (st_PollGroups stats)) (svc, w') Ht) as (m & E & Hm).
  assert (∀ name r, m !! name = Some r ↔ own_ios name (concat (st_PollGroups stats)) ≠ [] ∧
    r = summary (st_TickRate stats) name (own_ios name (concat (st_PollGroups stats)))) as Hl.
  { intros name r. rewrite Hm. destruct (own_ios name _); naive_solver. }
  exists (map_to_list m).*2. split; [|split].
  - unfold GetTargetStats, with_client, client, the_svc, rpc, on_fst, on_snd. go_simpl. rewrite Hc. cbn beta iota. cbn [fst snd]. go_simpl.
    rewrite Hs. cbn beta iota. cbn [fst snd]. by rewrite E.
  - rewrite <- list_fmap_compose. assert ((sr_SubsysName ∘ snd) <$> map_to_list m = (map_to_list m).*1) as ->; [|apply NoDup_fst_map_to_list].
    apply list_fmap_ext. intros i [name r] Hi. apply list_elem_of_lookup_2, elem_of_map_to_list, Hl in Hi as [_ ->]. done.
  - intros r. rewrite list_elem_of_fmap. setoid_rewrite <- Hl. split.
    + intros ([name r'] & -> & Hi). exists name. by apply elem_of_map_to_list.
    + intros (name & Hi). exists (name, r). split; [done|]. by apply elem_of_map_to_list.
Qed.

(** SPDK's tick rate is read from its answer: a rate of 0 crashes the agent. *)
Lemma zero_tick_rate_panics svc w stats w' i : ss_cli svc = true → NVMFGetStats w = Ret (inl stats) w' → st_TickRate stats = 0%Z →
  concat (st_PollGroups stats) = [i] → run_val (GetTargetStats (svc, w)) = None.
Proof.
  intros Hc Hs Ht Hi. unfold GetTargetStats, with_client, client, the_svc, rpc, on_fst, on_snd. go_simpl. rewrite Hc. cbn beta iota. cbn [fst snd]. go_simpl.
  rewrite Hs. cbn beta iota. cbn [fst snd]. rewrite Hi. cbn [add_all]. unfold add_ios, microseconds. go_simpl. rewrite decide_True by done. done.
Qed.
End target_stats.

(** The product with a million is made before the division: after 2 hours of
    latency, counted by a clock of 2.5 GHz, it wraps to 21 seconds. *)
Lemma latency_wraps : micros 2500000000 (2500000000 * 7400) = 21302370%Z ∧ (2500000000 * 7400 * 1000000 / 2500000000 = 7400000000)%Z.
Proof. done. Qed.

(** [unix.Stat] gives a device's number in the kernel's encoding; the writer
    computes another one, equal to it for minor numbers below 256 only. *)
Definition makedev (major minor : Z) : Z :=
  (minor mod 256 + Z.shiftl (major mod 4096) 8 + Z.shiftl (minor / 256) 20 + Z.shiftl (major / 4096) 44)%Z.
Lemma deviceId_small d : (0 ≤ ds_Major d < 4096)%Z → (0 ≤ ds_Minor d < 256)%Z → deviceId d = makedev (ds_Major d) (ds_Minor d).
Proof.
  intros Ha Hb. unfold deviceId, makedev. rewrite (wrap64_id (ds_Major d * 256)), wrap64_id, uwrap64_id by (unfold is_int64, is_uint64; lia).
  rewrite (Z.mod_small (ds_Minor d)), (Z.mod_small (ds_Major d)), (Z.div_small (ds_Minor d)), (Z.div_small (ds_Major d)) by lia.
  rewrite !Z.shiftl_0_l, Z.shiftl_mul_pow2 by lia. change (2 ^ 8)%Z with 256%Z. lia.
Qed.
Definition ex_disk (major minor reads : Z) : DiskStats :=
  {| ds_Major := major; ds_Minor := minor; ds_ReadRequests := reads; ds_ReadMerged := 0; ds_ReadSectors := 0; ds_MsecRead := 0;
     ds_WriteRequests := 0; ds_WriteMerged := 0; ds_WriteSectors := 0; ds_MsecWrite := 0; ds_DiscardRequests := 0; ds_DiscardMerged := 0;
     ds_DiscardSectors := 0; ds_MsecDiscard := 0; ds_IosInProgress := 0; ds_MsecTotal := 0; ds_MsecWeightedTotal := 0 |}.
Lemma deviceId_collides : deviceId (ex_disk 253 256 0) = makedev 254 0 ∧ makedev 253 256 ≠ makedev 254 0.
Proof. done. Qed.
Lemma names_distinct : NoDup (fq_name <$> blk_vecs ++ lvol_vecs ++ subsystem_vecs).
Proof. by apply (bool_decide_unpack _); vm_compute. Qed.

(** ** Examples *)

Lemma interleaved_nil_cons {A} (ls : list (list A)) tr : interleaved ls tr → interleaved ([] :: ls) tr.
Proof.
  induction 1 as [ls Hn|ls1 x l ls2 tr Hi IH].
  - apply inter_nil. intros l Hl. apply elem_of_cons in Hl as [->|Hl]; auto.
  - by apply (inter_cons ([] :: ls1)).
Qed.
Lemma interleaved_concat {A} (ls : list (list A)) : interleaved ls (concat ls).
Proof.
  induction ls as [|l ls IH]; [apply inter_nil; intros l Hl; by apply elem_of_nil in Hl|]. cbn [concat].
  induction l as [|x l IHl]; [by apply interleaved_nil_cons|]. by apply (inter_cons []).
Qed.

Module MetricsExample.
#[export] Instance gauges_fun : Prometheus (GaugeVec → list string → option float64) :=
  {| prom_do o g := λ v l, if decide (op_key o = (v, l)) then act (g v l) o else g v l |}.
#[export] Instance gauges_fun_laws : PromLaws gauges_fun.
Proof. refine {| gauge v l g := g v l |}; intros; cbn; by (rewrite decide_True by done) || (rewrite decide_False by done). Defined.
#[export] Instance stat : UnixStat FakeNode := {| unix_Stat p := mret (inl (if decide (p = "/dev/vg/v-1") then 64769%Z else 64770%Z)) |}.
#[export] Instance disks : DiskStatsReader FakeNode := {| nux_ListDiskStats := mret (inl [ex_disk 253 1 17; ex_disk 253 2 42]) |}.
Definition ex_stats : SubsystemStat := {| st_TickRate := 1000; st_PollGroups :=
    [[{| ss_SubsysName := "nqn"; ss_BytesRead := 5; ss_NumReadOps := 1; ss_BytesWritten := 0; ss_NumWriteOps := 0;
         ss_ReadLatencyTicks := 3; ss_WriteLatencyTicks := 0; ss_TimeInQueue := 2 |}];
     [{| ss_SubsysName := "nqn"; ss_BytesRead := 6; ss_NumReadOps := 1; ss_BytesWritten := 0; ss_NumWriteOps := 0;
         ss_ReadLatencyTicks := 4; ss_WriteLatencyTicks := 0; ss_TimeInQueue := 9 |}]] |}.
#[export] Instance stats : SpdkStats FakeNode := {|
  BdevGetIostat := mret (inl {| ios_TickRate := 1000; ios_Bdevs := [] |});
  NVMFGetStats := mret (inl ex_stats) |}.
#[local] Existing Instance NanoLib.
Definition volume (name : string) : AntstorVolume :=
  vol_set_meta {| om_Name := name; om_Namespace := "obnvmf"; om_UID := ""; om_CreationTimestamp := 0; om_DeletionTimestamp := None; om_Labels := None; om_Annotations := None; om_OwnerReferences := []; om_Finalizers := [] |}
    (vol_set_Spec (vs_set_Uuid name (vs_set_TargetNodeId "node-1" (vs_set_Type VolumeTypeKernelLVol
      (vs_set_KernelLvol (Some {| kl_Name := name; kl_DevPath := "/dev/vg/" +:+ name |}) AntstorVolumeSpec_zero)))) AntstorVolume_zero).
Definition V (vol : AntstorVolume) : Prop := vol = volume "v-1" ∨ vol = volume "v-2".
Lemma V_named : named V.
Proof.
  split.
  - intros vol a b [-> | ->] E; cbn in E; do 5 (destruct a as [|? a]; cbn in E; try done; injection E as <- E).
  - by intros vol vol' [-> | ->] [-> | ->].
Qed.
Definition node : SpdkService * FakeNode := (ex_service, ex_node).
Definition labels (name : string) : list string := ["node-1"; "/"; name; "/dev/vg/" +:+ name].
(** The volume v-1 is watched for a turn, then v-2 takes its place. *)
Definition first : MetricInfoLister := AddObject (Some (volume "v-1")) NewMetricInfoLister.
Definition second : MetricInfoLister := AddObject (Some (volume "v-2")) (DeleteObject "v-1" first).
Lemma second_is : second = {[ "v-2" := volume "v-2" ]}.
Proof. by vm_compute. Qed.
Definition ops_of (r : outcome (SpdkService * FakeNode) (list (list gauge_op) * Collector)) : list (list gauge_op) :=
  match r with Ret a _ => a.1 | _ => [] end.
Definition co_of (r : outcome (SpdkService * FakeNode) (list (list gauge_op) * Collector)) : Collector :=
  match r with Ret a _ => a.2 | _ => NewCollector end.
Definition no_gauges : GaugeVec → list string → option float64 := λ _ _, None.
Definition turn1 := collect first NewCollector node.
Definition watch : Watch := {| wa_lister := second; wa_collector := co_of turn1; wa_gauges := prom_run (concat (ops_of turn1)) no_gauges |}.
Definition turn2 := collect second (co_of turn1) node.
Lemma turn1_run : turn1 = Ret (ops_of turn1, co_of turn1) node.
Proof. by vm_compute. Qed.
Lemma turn2_run : turn2 = Ret (ops_of turn2, co_of turn2) node.
Proof. by vm_compute. Qed.
Lemma watch_watched : watched V watch.
Proof.
  apply (wa_add V (volume "v-2") {| wa_lister := DeleteObject "v-1" first; wa_collector := co_of turn1; wa_gauges := prom_run (concat (ops_of turn1)) no_gauges |}); [|by right].
  apply (wa_delete V "v-1" {| wa_lister := first; wa_collector := co_of turn1; wa_gauges := prom_run (concat (ops_of turn1)) no_gauges |}).
  apply (wa_turn V {| wa_lister := first; wa_collector := NewCollector; wa_gauges := no_gauges |} node (ops_of turn1) (co_of turn1) node);
    [|exact turn1_run|apply interleaved_concat].
  apply (wa_add V (volume "v-1") {| wa_lister := NewMetricInfoLister; wa_collector := NewCollector; wa_gauges := no_gauges |}); [by apply wa_start|by left].
Qed.
End MetricsExample.

Section metrics_witnesses.
Import MetricsExample.
#[local] Existing Instance NanoLib.
Lemma blk_gauges_current_witness :
  let g := prom_run (concat (ops_of turn2)) (wa_gauges watch) in
  wa_gauges watch readRequestsGaugeVec (labels "v-1") = Some (f64_of_Z 17) ∧
  g readRequestsGaugeVec (labels "v-1") = None ∧ g readRequestsGaugeVec (labels "v-2") = Some (f64_of_Z 42).
Proof.
  intros g. split; [by vm_compute|].
  destruct (blk_gauges_current V watch node [{| me_nodeName := "node-1"; me_pvcNSedName := "/"; me_volUUID := "v-2";
      me_itemID := {| it_devID := 64770; it_devPath := "/dev/vg/v-2"; it_lvolFullName := ""; it_subsysNQN := "" |} |}]
    ex_node [ex_disk 253 1 17; ex_disk 253 2 42] (ops_of turn2) (co_of turn2) node (concat (ops_of turn2))) as [H _].
  - exact V_named.
  - exact watch_watched.
  - by vm_compute.
  - exact turn2_run.
  - apply interleaved_concat.
  - destruct H as [H1 H2]; [intros E; by vm_compute in E|intros w; by exists w|]. cbn [gauge gauges_fun_laws] in H1, H2. fold g in H1, H2. split.
    + destruct (g readRequestsGaugeVec (labels "v-1")) eqn:E; [exfalso|done].
      destruct (H1 readRequestsGaugeVec (labels "v-1")) as (name & vol & Hn & Hl); [apply list_elem_of_here|by rewrite E|].
      cbn [wa_lister watch] in Hn. rewrite second_is in Hn. apply (lookup_singleton_Some (M := gmap string)) in Hn as [_ <-]. by vm_compute in Hl.
    + assert (reported [{| me_nodeName := "node-1"; me_pvcNSedName := "/"; me_volUUID := "v-2";
        me_itemID := {| it_devID := 64770; it_devPath := "/dev/vg/v-2"; it_lvolFullName := ""; it_subsysNQN := "" |} |}]
        [ex_disk 253 1 17; ex_disk 253 2 42] (labels "v-2") = Some (ex_disk 253 2 42)) as Hr by (vm_compute; reflexivity).
      exact (H2 _ _ readRequestsGaugeVec 42%Z Hr (list_elem_of_here _ _)).
Defined.
Lemma GetTargetStats_sums_witness :
  ∃ l, GetTargetStats node = Ret (inl l) node ∧ summary 1000 "nqn" [
    {| ss_SubsysName := "nqn"; ss_BytesRead := 5; ss_NumReadOps := 1; ss_BytesWritten := 0; ss_NumWriteOps := 0;
       ss_ReadLatencyTicks := 3; ss_WriteLatencyTicks := 0; ss_TimeInQueue := 2 |};
    {| ss_SubsysName := "nqn"; ss_BytesRead := 6; ss_NumReadOps := 1; ss_BytesWritten := 0; ss_NumWriteOps := 0;
       ss_ReadLatencyTicks := 4; ss_WriteLatencyTicks := 0; ss_TimeInQueue := 9 |}] ∈ l.
Proof.
  destruct (GetTargetStats_sums (ST := stats) ex_service ex_node ex_stats ex_node eq_refl eq_refl) as (l & E & _ & Hl); [by vm_compute|].
  exists l. split; [exact E|]. apply Hl. exists "nqn". split; [by vm_compute|reflexivity].
Defined.
End metrics_witnesses.
