(* ===== verification/RpcTypes.v ===== *)
(** * The messages of SPDK's JSON-RPC

    The structs of [pkg/spdk/jsonrpc/client], one record each, with what
    [encoding/json] makes of their tags: names, [omitempty], keys matched without
    regard to case, a value of the wrong type reported as an error. Messages are
    JSON values; their text is left to [Socket] in [RpcClient.v]. For every struct
    an instance of [CodecOk] says that what is written is read back. *)

From Stdlib Require Import ZArith Lia Ascii String.
From stdpp Require Import base gmap strings option list.
From S2P Require Import Prelude.

Local Open Scope Z_scope.

(** ** JSON *)

(** A number that is not an integer is kept as its text. Keys are in the order of
    the text. *)
Inductive json :=
| JNull
| JBool (b : bool)
| JNum (z : Z)
| JFrac (text : string)
| JStr (s : string)
| JArr (l : list json)
| JObj (l : list (string * json)).

(** A decoder gives what it could read and whether all of it was right. *)
Record codec (A : Type) := {
  c_zero : A;
  c_empty : A → bool;
  c_enc : A → json;
  c_dec : json → A * bool;
  c_valid : A → Prop;
}.
Arguments c_zero {A}. Arguments c_empty {A}. Arguments c_enc {A}. Arguments c_dec {A}. Arguments c_valid {A}.

(** Every valid value is read back, and an empty one is the zero value. *)
Class CodecOk {A} (c : codec A) : Prop := {
  co_read a : c_valid c a → c_dec c (c_enc c a) = (a, true);
  co_empty a : c_empty c a = true → a = c_zero c;
}.

Definition string_c : codec string := {|
  c_zero := ""; c_empty s := bool_decide (s = ""); c_enc := JStr;
  c_dec j := match j with JStr s => (s, true) | JNull => ("", true) | _ => ("", false) end; c_valid _ := True |}.
Definition bool_c : codec bool := {|
  c_zero := false; c_empty b := negb b; c_enc := JBool;
  c_dec j := match j with JBool b => (b, true) | JNull => (false, true) | _ => (false, false) end; c_valid _ := True |}.
Definition number_c (ok : Z → bool) : codec Z := {|
  c_zero := 0; c_empty z := bool_decide (z = 0); c_enc := JNum;
  c_dec j := match j with JNum z => if ok z then (z, true) else (0, false) | JNull => (0, true) | _ => (0, false) end;
  c_valid z := ok z = true |}.
Definition int_c : codec Z := number_c (λ z, bool_decide (is_int64 z)).
Definition uint_c : codec Z := number_c (λ z, bool_decide (is_uint64 z)).
(** [json.RawMessage] and [interface{}]: [nil], or the value as it is. *)
Definition raw_c : codec (option json) := {|
  c_zero := None; c_empty r := negb (opt_is_some r); c_enc r := default JNull r; c_dec j := (Some j, true); c_valid r := is_Some r |}.
(** [map[string]interface{}]: [nil], or an object. *)
Definition map_c : codec (option (list (string * json))) := {|
  c_zero := None; c_empty m := negb (opt_is_some m); c_enc m := match m with Some o => JObj o | None => JNull end;
  c_dec j := match j with JObj o => (Some o, true) | JNull => (None, true) | _ => (None, false) end; c_valid _ := True |}.
(** A [nil] slice is written as [null]. *)
Definition list_c {A} (c : codec A) : codec (list A) := {|
  c_zero := []; c_empty l := bool_decide (length l = 0%nat);
  c_enc l := match l with [] => JNull | _ => JArr (c_enc c <$> l) end;
  c_dec j := match j with
             | JNull => ([], true)
             | JArr l => ((λ j, (c_dec c j).1) <$> l, forallb (λ j, (c_dec c j).2) l)
             | _ => ([], false)
             end;
  c_valid l := Forall (c_valid c) l |}.

(** *** Structs *)

Definition lower (c : ascii) : ascii :=
  let n := nat_of_ascii c in if ((65 <=? n) && (n <=? 90))%nat then ascii_of_nat (n + 32) else c.
Fixpoint fold_case (s : string) : string := match s with "" => "" | String c s => String (lower c) (fold_case s) end.
Definition same_key (a b : string) : bool := bool_decide (fold_case a = fold_case b).

Definition fields := list (string * json).
(** A field, and one with [omitempty]. *)
Definition fld {A} (name : string) (c : codec A) (a : A) : fields := [(name, c_enc c a)].
Definition opt {A} (name : string) (c : codec A) (a : A) : fields := if c_empty c a then [] else fld name c a.
(** The value of a field: the last key that names it counts, a missing key leaves
    the zero value. *)
Fixpoint find_key (name : string) (o : fields) : option json :=
  match o with
  | [] => None
  | (k, j) :: o => match find_key name o with Some j' => Some j' | None => if same_key k name then Some j else None end
  end.
Definition get {A} (name : string) (c : codec A) (o : fields) : A * bool :=
  match find_key name o with Some j => c_dec c j | None => (c_zero c, true) end.
Definition build {A B} (f : (A → B) * bool) (a : A * bool) : B * bool := (f.1 a.1, f.2 && a.2).
Definition struct_c {A} (zero : A) (enc : A → fields) (dec : fields → A * bool) (valid : A → Prop) : codec A := {|
  c_zero := zero; c_empty _ := false; c_enc a := JObj (enc a);
  c_dec j := match j with JObj o => dec o | JNull => (zero, true) | _ => (zero, false) end; c_valid := valid |}.

(** *** What is written is read *)

#[export] Instance string_ok : CodecOk string_c.
Proof. split; [done|]. intros a H. by apply bool_decide_eq_true in H. Qed.
#[export] Instance bool_ok : CodecOk bool_c.
Proof. split; [done|]. by intros []. Qed.
#[export] Instance number_ok ok : CodecOk (number_c ok).
Proof. split; cbn; [by intros a ->|]. intros a H. by apply bool_decide_eq_true in H. Qed.
#[export] Instance int_ok : CodecOk int_c.
Proof. apply number_ok. Qed.
#[export] Instance uint_ok : CodecOk uint_c.
Proof. apply number_ok. Qed.
#[export] Instance raw_ok : CodecOk raw_c.
Proof. split; cbn; [by intros a [j ->]|by intros [j|]]. Qed.
#[export] Instance map_ok : CodecOk map_c.
Proof. split; by intros [|]. Qed.
#[export] Instance list_ok {A} (c : codec A) : CodecOk c → CodecOk (list_c c).
Proof.
  intros K. split; cbn.
  - intros [|a l] Hl; [done|]. cbn. apply Forall_cons in Hl as [Ha Hl]. rewrite (co_read a Ha). cbn.
    assert ((λ j, (c_dec c j).1) <$> (c_enc c <$> l) = l ∧ forallb (λ j, (c_dec c j).2) (c_enc c <$> l) = true) as [-> ->]; [|done].
    induction Hl as [|b l Hb Hl [IH1 IH2]]; [done|]. cbn. by rewrite (co_read b Hb), IH1, IH2.
  - intros [|]; [done|]. intros H. by apply bool_decide_eq_true in H.
Qed.

Lemma find_key_app n o1 o2 : find_key n (o1 ++ o2) = match find_key n o2 with Some j => Some j | None => find_key n o1 end.
Proof. induction o1 as [|[k j] o1 IH]; cbn; [by destruct (find_key n o2)|]. rewrite IH. by destruct (find_key n o2). Qed.
(** What the fields after one do not name is read from it. *)
Lemma get_app_other {A} n (c : codec A) o1 o2 : find_key n o2 = None → get n c (o1 ++ o2) = get n c o1.
Proof. intros H. unfold get. by rewrite find_key_app, H. Qed.
Lemma get_app_skip {A} n (c : codec A) o1 o2 : find_key n o1 = None → get n c (o1 ++ o2) = get n c o2.
Proof. intros H. unfold get. rewrite find_key_app, H. by destruct (find_key n o2). Qed.
Lemma get_fld {A} n (c : codec A) a : CodecOk c → c_valid c a → get n c (fld n c a) = (a, true).
Proof. intros K V. unfold get. cbn. unfold same_key. rewrite bool_decide_true by done. by apply co_read. Qed.
Lemma get_opt {A} n (c : codec A) a : CodecOk c → c_valid c a → get n c (opt n c a) = (a, true).
Proof.
  intros K V. unfold opt. destruct (c_empty c a) eqn:E; [|by apply get_fld]. apply (co_empty (c := c)) in E as ->. done.
Qed.
Lemma find_fld {A} n m (c : codec A) a : same_key m n = false → find_key n (fld m c a) = None.
Proof. intros H. cbn. by rewrite H. Qed.
Lemma find_opt {A} n m (c : codec A) a : same_key m n = false → find_key n (opt m c a) = None.
Proof. intros H. unfold opt. destruct (c_empty c a); [done|by apply find_fld]. Qed.
Lemma find_app_none n o1 o2 : find_key n o1 = None → find_key n o2 = None → find_key n (o1 ++ o2) = None.
Proof. intros H1 H2. by rewrite find_key_app, H2. Qed.

Ltac no_key := repeat apply find_app_none; first [apply find_fld | apply find_opt]; vm_compute; reflexivity.
Ltac read_field := first
  [ apply get_fld; [apply _|assumption || done]
  | apply get_opt; [apply _|assumption || done]
  | rewrite get_app_skip by no_key; read_field
  | rewrite get_app_other by no_key; read_field ].
Ltac struct_ok :=
  split; [|discriminate]; intros [] V; lazymatch goal with |- c_dec ?c _ = _ => unfold c in * end;
  cbn -[get opt fld app build] in V |- *; decompose [and] V;
  repeat match goal with |- context [get ?n ?c ?o] =>
    let E := fresh "E" in eassert (get n c o = (_, true)) as E; [read_field|rewrite E; clear E] end;
  reflexivity.

(** ** The messages *)

Notation "f ⊛ a" := (build f a) (at level 50, left associativity).

(* [jsonrpc/client/spdk_bdev_lvol.go:26-30] BdevLVolGetLVStoresReq *)
Record BdevLVolGetLVStoresReq := {
  BdevLVolGetLVStoresReq_UUID : string; BdevLVolGetLVStoresReq_LvsName : string }.
(* [jsonrpc/client/spdk_bdev_lvol.go:26-30] BdevLVolGetLVStoresReq, its tags *)
Definition BdevLVolGetLVStoresReq_c : codec BdevLVolGetLVStoresReq := struct_c
  (Build_BdevLVolGetLVStoresReq (c_zero string_c) (c_zero string_c))
  (λ r, opt "uuid" string_c (BdevLVolGetLVStoresReq_UUID r) ++
        opt "lvs_name" string_c (BdevLVolGetLVStoresReq_LvsName r))
  (λ o, (Build_BdevLVolGetLVStoresReq, true) ⊛ (get "uuid" string_c o) ⊛ (get "lvs_name" string_c o))
  (λ r, c_valid string_c (BdevLVolGetLVStoresReq_UUID r) ∧ c_valid string_c (BdevLVolGetLVStoresReq_LvsName r)).
#[export] Instance BdevLVolGetLVStoresReq_ok : CodecOk BdevLVolGetLVStoresReq_c.
Proof. struct_ok. Qed.
(* [jsonrpc/client/spdk_bdev_lvol.go:32-40] LVStoreInfo *)
Record LVStoreInfo := {
  LVStoreInfo_UUID : string; LVStoreInfo_Name : string; LVStoreInfo_BaseBdev : string; LVStoreInfo_FreeClusters : Z;
  LVStoreInfo_ClusterSize : Z; LVStoreInfo_TotalDataClusters : Z; LVStoreInfo_BlockSize : Z }.
(* [jsonrpc/client/spdk_bdev_lvol.go:32-40] LVStoreInfo, its tags *)
Definition LVStoreInfo_c : codec LVStoreInfo := struct_c
  (Build_LVStoreInfo (c_zero string_c) (c_zero string_c) (c_zero string_c) (c_zero int_c) (c_zero int_c) (c_zero int_c) (c_zero int_c))
  (λ r, fld "uuid" string_c (LVStoreInfo_UUID r) ++ fld "name" string_c (LVStoreInfo_Name r) ++
        fld "base_bdev" string_c (LVStoreInfo_BaseBdev r) ++ fld "free_clusters" int_c (LVStoreInfo_FreeClusters r) ++
        fld "cluster_size" int_c (LVStoreInfo_ClusterSize r) ++
        fld "total_data_clusters" int_c (LVStoreInfo_TotalDataClusters r) ++
        fld "block_size" int_c (LVStoreInfo_BlockSize r))
  (λ o, (Build_LVStoreInfo, true) ⊛ (get "uuid" string_c o) ⊛ (get "name" string_c o) ⊛ (get "base_bdev" string_c o)
        ⊛ (get "free_clusters" int_c o) ⊛ (get "cluster_size" int_c o) ⊛ (get "total_data_clusters" int_c o)
        ⊛ (get "block_size" int_c o))
  (λ r, c_valid string_c (LVStoreInfo_UUID r) ∧ c_valid string_c (LVStoreInfo_Name r) ∧
        c_valid string_c (LVStoreInfo_BaseBdev r) ∧ c_valid int_c (LVStoreInfo_FreeClusters r) ∧
        c_valid int_c (LVStoreInfo_ClusterSize r) ∧ c_valid int_c (LVStoreInfo_TotalDataClusters r) ∧
        c_valid int_c (LVStoreInfo_BlockSize r)).
#[export] Instance LVStoreInfo_ok : CodecOk LVStoreInfo_c.
Proof. struct_ok. Qed.
(* [jsonrpc/client/spdk_bdev_lvol.go:42-51] BdevLVolCreateLVStoreReq *)
Record BdevLVolCreateLVStoreReq := {
  BdevLVolCreateLVStoreReq_BdevName : string; BdevLVolCreateLVStoreReq_LvsName : string;
  BdevLVolCreateLVStoreReq_ClusterSize : Z; BdevLVolCreateLVStoreReq_ClearMethod : string }.
(* [jsonrpc/client/spdk_bdev_lvol.go:42-51] BdevLVolCreateLVStoreReq, its tags *)
Definition BdevLVolCreateLVStoreReq_c : codec BdevLVolCreateLVStoreReq := struct_c
  (Build_BdevLVolCreateLVStoreReq (c_zero string_c) (c_zero string_c) (c_zero int_c) (c_zero string_c))
  (λ r, fld "bdev_name" string_c (BdevLVolCreateLVStoreReq_BdevName r) ++
        fld "lvs_name" string_c (BdevLVolCreateLVStoreReq_LvsName r) ++
        opt "cluster_sz" int_c (BdevLVolCreateLVStoreReq_ClusterSize r) ++
        opt "clear_method" string_c (BdevLVolCreateLVStoreReq_ClearMethod r))
  (λ o, (Build_BdevLVolCreateLVStoreReq, true) ⊛ (get "bdev_name" string_c o) ⊛ (get "lvs_name" string_c o)
        ⊛ (get "cluster_sz" int_c o) ⊛ (get "clear_method" string_c o))
  (λ r, c_valid string_c (BdevLVolCreateLVStoreReq_BdevName r) ∧
        c_valid string_c (BdevLVolCreateLVStoreReq_LvsName r) ∧
        c_valid int_c (BdevLVolCreateLVStoreReq_ClusterSize r) ∧
        c_valid string_c (BdevLVolCreateLVStoreReq_ClearMethod r)).
#[export] Instance BdevLVolCreateLVStoreReq_ok : CodecOk BdevLVolCreateLVStoreReq_c.
Proof. struct_ok. Qed.
(* [jsonrpc/client/spdk_bdev_lvol.go:53-64] BdevLVolCreateReq *)
Record BdevLVolCreateReq := {
  BdevLVolCreateReq_LVolName : string; BdevLVolCreateReq_Size : Z; BdevLVolCreateReq_ThinProvision : bool;
  BdevLVolCreateReq_UUID : string; BdevLVolCreateReq_LvsName : string; BdevLVolCreateReq_ClearMethod : string }.
(* [jsonrpc/client/spdk_bdev_lvol.go:53-64] BdevLVolCreateReq, its tags *)
Definition BdevLVolCreateReq_c : codec BdevLVolCreateReq := struct_c
  (Build_BdevLVolCreateReq (c_zero string_c) (c_zero int_c) (c_zero bool_c) (c_zero string_c) (c_zero string_c) (c_zero string_c))
  (λ r, fld "lvol_name" string_c (BdevLVolCreateReq_LVolName r) ++ fld "size" int_c (BdevLVolCreateReq_Size r) ++
        opt "thin_provision" bool_c (BdevLVolCreateReq_ThinProvision r) ++
        opt "uuid" string_c (BdevLVolCreateReq_UUID r) ++ opt "lvs_name" string_c (BdevLVolCreateReq_LvsName r) ++
        opt "clear_method" string_c (BdevLVolCreateReq_ClearMethod r))
  (λ o, (Build_BdevLVolCreateReq, true) ⊛ (get "lvol_name" string_c o) ⊛ (get "size" int_c o)
        ⊛ (get "thin_provision" bool_c o) ⊛ (get "uuid" string_c o) ⊛ (get "lvs_name" string_c o)
        ⊛ (get "clear_method" string_c o))
  (λ r, c_valid string_c (BdevLVolCreateReq_LVolName r) ∧ c_valid int_c (BdevLVolCreateReq_Size r) ∧
        c_valid bool_c (BdevLVolCreateReq_ThinProvision r) ∧ c_valid string_c (BdevLVolCreateReq_UUID r) ∧
        c_valid string_c (BdevLVolCreateReq_LvsName r) ∧ c_valid string_c (BdevLVolCreateReq_ClearMethod r)).
#[export] Instance BdevLVolCreateReq_ok : CodecOk BdevLVolCreateReq_c.
Proof. struct_ok. Qed.
(* [jsonrpc/client/spdk_bdev_lvol.go:66-68] BdevLVolDeleteReq *)
Record BdevLVolDeleteReq := {
  BdevLVolDeleteReq_Name : string }.
(* [jsonrpc/client/spdk_bdev_lvol.go:66-68] BdevLVolDeleteReq, its tags *)
Definition BdevLVolDeleteReq_c : codec BdevLVolDeleteReq := struct_c
  (Build_BdevLVolDeleteReq (c_zero string_c))
  (λ r, fld "name" string_c (BdevLVolDeleteReq_Name r))
  (λ o, (Build_BdevLVolDeleteReq, true) ⊛ (get "name" string_c o))
  (λ r, c_valid string_c (BdevLVolDeleteReq_Name r)).
#[export] Instance BdevLVolDeleteReq_ok : CodecOk BdevLVolDeleteReq_c.
Proof. struct_ok. Qed.
(* [jsonrpc/client/spdk_bdev_lvol.go:70-73] BdevLVolResizeReq *)
Record BdevLVolResizeReq := {
  BdevLVolResizeReq_Name : string; BdevLVolResizeReq_Size : Z }.
(* [jsonrpc/client/spdk_bdev_lvol.go:70-73] BdevLVolResizeReq, its tags *)
Definition BdevLVolResizeReq_c : codec BdevLVolResizeReq := struct_c
  (Build_BdevLVolResizeReq (c_zero string_c) (c_zero uint_c))
  (λ r, fld "name" string_c (BdevLVolResizeReq_Name r) ++ fld "size" uint_c (BdevLVolResizeReq_Size r))
  (λ o, (Build_BdevLVolResizeReq, true) ⊛ (get "name" string_c o) ⊛ (get "size" uint_c o))
  (λ r, c_valid string_c (BdevLVolResizeReq_Name r) ∧ c_valid uint_c (BdevLVolResizeReq_Size r)).
#[export] Instance BdevLVolResizeReq_ok : CodecOk BdevLVolResizeReq_c.
Proof. struct_ok. Qed.
(* [jsonrpc/client/spdk_bdev_lvol.go:75-78] BdevLVolSnapshotReq *)
Record BdevLVolSnapshotReq := {
  BdevLVolSnapshotReq_LVolName : string; BdevLVolSnapshotReq_SnapshotName : string }.
(* [jsonrpc/client/spdk_bdev_lvol.go:75-78] BdevLVolSnapshotReq, its tags *)
Definition BdevLVolSnapshotReq_c : codec BdevLVolSnapshotReq := struct_c
  (Build_BdevLVolSnapshotReq (c_zero string_c) (c_zero string_c))
  (λ r, fld "lvol_name" string_c (BdevLVolSnapshotReq_LVolName r) ++
        fld "snapshot_name" string_c (BdevLVolSnapshotReq_SnapshotName r))
  (λ o, (Build_BdevLVolSnapshotReq, true) ⊛ (get "lvol_name" string_c o) ⊛ (get "snapshot_name" string_c o))
  (λ r, c_valid string_c (BdevLVolSnapshotReq_LVolName r) ∧ c_valid string_c (BdevLVolSnapshotReq_SnapshotName r)).
#[export] Instance BdevLVolSnapshotReq_ok : CodecOk BdevLVolSnapshotReq_c.
Proof. struct_ok. Qed.
(* [jsonrpc/client/spdk_bdev_lvol.go:80-83] BdevLVolCloneReq *)
Record BdevLVolCloneReq := {
  BdevLVolCloneReq_SnapshotName : string; BdevLVolCloneReq_CloneName : string }.
(* [jsonrpc/client/spdk_bdev_lvol.go:80-83] BdevLVolCloneReq, its tags *)
Definition BdevLVolCloneReq_c : codec BdevLVolCloneReq := struct_c
  (Build_BdevLVolCloneReq (c_zero string_c) (c_zero string_c))
  (λ r, fld "snapshot_name" string_c (BdevLVolCloneReq_SnapshotName r) ++
        fld "clone_name" string_c (BdevLVolCloneReq_CloneName r))
  (λ o, (Build_BdevLVolCloneReq, true) ⊛ (get "snapshot_name" string_c o) ⊛ (get "clone_name" string_c o))
  (λ r, c_valid string_c (BdevLVolCloneReq_SnapshotName r) ∧ c_valid string_c (BdevLVolCloneReq_CloneName r)).
#[export] Instance BdevLVolCloneReq_ok : CodecOk BdevLVolCloneReq_c.
Proof. struct_ok. Qed.
(* [jsonrpc/client/spdk_bdev_lvol.go:85-87] BdevLVolInflateReq *)
Record BdevLVolInflateReq := {
  BdevLVolInflateReq_Name : string }.
(* [jsonrpc/client/spdk_bdev_lvol.go:85-87] BdevLVolInflateReq, its tags *)
Definition BdevLVolInflateReq_c : codec BdevLVolInflateReq := struct_c
  (Build_BdevLVolInflateReq (c_zero string_c))
  (λ r, fld "name" string_c (BdevLVolInflateReq_Name r))
  (λ o, (Build_BdevLVolInflateReq, true) ⊛ (get "name" string_c o))
  (λ r, c_valid string_c (BdevLVolInflateReq_Name r)).
#[export] Instance BdevLVolInflateReq_ok : CodecOk BdevLVolInflateReq_c.
Proof. struct_ok. Qed.
(* [jsonrpc/client/spdk_bdev_malloc.go:12-24] CreateBdevMallocReq *)
Record CreateBdevMallocReq := {
  CreateBdevMallocReq_BlockSize : Z; CreateBdevMallocReq_NumBlocks : Z; CreateBdevMallocReq_Name : string;
  CreateBdevMallocReq_UUID : string; CreateBdevMallocReq_OptimalIoBoundary : Z; CreateBdevMallocReq_MdSize : Z;
  CreateBdevMallocReq_MdInterleave : bool; CreateBdevMallocReq_DifType : Z; CreateBdevMallocReq_DifIsHeadOfMd : bool }.
(* [jsonrpc/client/spdk_bdev_malloc.go:12-24] CreateBdevMallocReq, its tags *)
Definition CreateBdevMallocReq_c : codec CreateBdevMallocReq := struct_c
  (Build_CreateBdevMallocReq (c_zero int_c) (c_zero int_c) (c_zero string_c) (c_zero string_c) (c_zero int_c) (c_zero int_c) (c_zero bool_c)
    (c_zero int_c) (c_zero bool_c))
  (λ r, fld "block_size" int_c (CreateBdevMallocReq_BlockSize r) ++
        fld "num_blocks" int_c (CreateBdevMallocReq_NumBlocks r) ++
        opt "name" string_c (CreateBdevMallocReq_Name r) ++ opt "uuid" string_c (CreateBdevMallocReq_UUID r) ++
        opt "optimal_io_boundary" int_c (CreateBdevMallocReq_OptimalIoBoundary r) ++
        opt "md_size" int_c (CreateBdevMallocReq_MdSize r) ++
        opt "md_interleave" bool_c (CreateBdevMallocReq_MdInterleave r) ++
        opt "dif_type" int_c (CreateBdevMallocReq_DifType r) ++
        opt "dif_is_head_of_md" bool_c (CreateBdevMallocReq_DifIsHeadOfMd r))
  (λ o, (Build_CreateBdevMallocReq, true) ⊛ (get "block_size" int_c o) ⊛ (get "num_blocks" int_c o)
        ⊛ (get "name" string_c o) ⊛ (get "uuid" string_c o) ⊛ (get "optimal_io_boundary" int_c o)
        ⊛ (get "md_size" int_c o) ⊛ (get "md_interleave" bool_c o) ⊛ (get "dif_type" int_c o)
        ⊛ (get "dif_is_head_of_md" bool_c o))
  (λ r, c_valid int_c (CreateBdevMallocReq_BlockSize r) ∧ c_valid int_c (CreateBdevMallocReq_NumBlocks r) ∧
        c_valid string_c (CreateBdevMallocReq_Name r) ∧ c_valid string_c (CreateBdevMallocReq_UUID r) ∧
        c_valid int_c (CreateBdevMallocReq_OptimalIoBoundary r) ∧ c_valid int_c (CreateBdevMallocReq_MdSize r) ∧
        c_valid bool_c (CreateBdevMallocReq_MdInterleave r) ∧ c_valid int_c (CreateBdevMallocReq_DifType r) ∧
        c_valid bool_c (CreateBdevMallocReq_DifIsHeadOfMd r)).
#[export] Instance CreateBdevMallocReq_ok : CodecOk CreateBdevMallocReq_c.
Proof. struct_ok. Qed.
(* [jsonrpc/client/spdk_bdev_malloc.go:26-29] DeleteBdevMallocReq *)
Record DeleteBdevMallocReq := {
  DeleteBdevMallocReq_Name : string }.
(* [jsonrpc/client/spdk_bdev_malloc.go:26-29] DeleteBdevMallocReq, its tags *)
Definition DeleteBdevMallocReq_c : codec DeleteBdevMallocReq := struct_c
  (Build_DeleteBdevMallocReq (c_zero string_c))
  (λ r, fld "name" string_c (DeleteBdevMallocReq_Name r))
  (λ o, (Build_DeleteBdevMallocReq, true) ⊛ (get "name" string_c o))
  (λ r, c_valid string_c (DeleteBdevMallocReq_Name r)).
#[export] Instance DeleteBdevMallocReq_ok : CodecOk DeleteBdevMallocReq_c.
Proof. struct_ok. Qed.
(* [jsonrpc/client/spdk_bdev_raid.go:16-21] CreateBdevRaidRequest *)
Record CreateBdevRaidRequest := {
  CreateBdevRaidRequest_Name : string; CreateBdevRaidRequest_RaidLevel : string;
  CreateBdevRaidRequest_StripSizeKB : Z; CreateBdevRaidRequest_BaseBdevs : list string }.
(* [jsonrpc/client/spdk_bdev_raid.go:16-21] CreateBdevRaidRequest, its tags *)
Definition CreateBdevRaidRequest_c : codec CreateBdevRaidRequest := struct_c
  (Build_CreateBdevRaidRequest (c_zero string_c) (c_zero string_c) (c_zero int_c) (c_zero (list_c string_c)))
  (λ r, fld "name" string_c (CreateBdevRaidRequest_Name r) ++
        fld "raid_level" string_c (CreateBdevRaidRequest_RaidLevel r) ++
        fld "strip_size_kb" int_c (CreateBdevRaidRequest_StripSizeKB r) ++
        fld "base_bdevs" (list_c string_c) (CreateBdevRaidRequest_BaseBdevs r))
  (λ o, (Build_CreateBdevRaidRequest, true) ⊛ (get "name" string_c o) ⊛ (get "raid_level" string_c o)
        ⊛ (get "strip_size_kb" int_c o) ⊛ (get "base_bdevs" (list_c string_c) o))
  (λ r, c_valid string_c (CreateBdevRaidRequest_Name r) ∧ c_valid string_c (CreateBdevRaidRequest_RaidLevel r) ∧
        c_valid int_c (CreateBdevRaidRequest_StripSizeKB r) ∧
        c_valid (list_c string_c) (CreateBdevRaidRequest_BaseBdevs r)).
#[export] Instance CreateBdevRaidRequest_ok : CodecOk CreateBdevRaidRequest_c.
Proof. struct_ok. Qed.
(* [jsonrpc/client/spdk_bdev_raid.go:23-25] ListBdevRaidRequest *)
Record ListBdevRaidRequest := {
  ListBdevRaidRequest_Category : string }.
(* [jsonrpc/client/spdk_bdev_raid.go:23-25] ListBdevRaidRequest, its tags *)
Definition ListBdevRaidRequest_c : codec ListBdevRaidRequest := struct_c
  (Build_ListBdevRaidRequest (c_zero string_c))
  (λ r, fld "category" string_c (ListBdevRaidRequest_Category r))
  (λ o, (Build_ListBdevRaidRequest, true) ⊛ (get "category" string_c o))
  (λ r, c_valid string_c (ListBdevRaidRequest_Category r)).
#[export] Instance ListBdevRaidRequest_ok : CodecOk ListBdevRaidRequest_c.
Proof. struct_ok. Qed.
(* [jsonrpc/client/spdk_controller.go:21-41] AttachControllerRequest *)
Record AttachControllerRequest := {
  AttachControllerRequest_TrType : string; AttachControllerRequest_TrAddr : string;
  AttachControllerRequest_Name : string; AttachControllerRequest_AdrFam : string;
  AttachControllerRequest_TrSvcId : string; AttachControllerRequest_SubNQN : string;
  AttachControllerRequest_HostNQN : string; AttachControllerRequest_HostAddr : string;
  AttachControllerRequest_HostSvcId : string }.
(* [jsonrpc/client/spdk_controller.go:21-41] AttachControllerRequest, its tags *)
Definition AttachControllerRequest_c : codec AttachControllerRequest := struct_c
  (Build_AttachControllerRequest (c_zero string_c) (c_zero string_c) (c_zero string_c) (c_zero string_c) (c_zero string_c) (c_zero string_c)
    (c_zero string_c) (c_zero string_c) (c_zero string_c))
  (λ r, fld "trtype" string_c (AttachControllerRequest_TrType r) ++
        fld "traddr" string_c (AttachControllerRequest_TrAddr r) ++
        fld "name" string_c (AttachControllerRequest_Name r) ++
        opt "adrfam" string_c (AttachControllerRequest_AdrFam r) ++
        opt "trsvcid" string_c (AttachControllerRequest_TrSvcId r) ++
        opt "subnqn" string_c (AttachControllerRequest_SubNQN r) ++
        opt "hostnqn" string_c (AttachControllerRequest_HostNQN r) ++
        opt "hostaddr" string_c (AttachControllerRequest_HostAddr r) ++
        opt "hostsvcid" string_c (AttachControllerRequest_HostSvcId r))
  (λ o, (Build_AttachControllerRequest, true) ⊛ (get "trtype" string_c o) ⊛ (get "traddr" string_c o)
        ⊛ (get "name" string_c o) ⊛ (get "adrfam" string_c o) ⊛ (get "trsvcid" string_c o) ⊛ (get "subnqn" string_c o)
        ⊛ (get "hostnqn" string_c o) ⊛ (get "hostaddr" string_c o) ⊛ (get "hostsvcid" string_c o))
  (λ r, c_valid string_c (AttachControllerRequest_TrType r) ∧ c_valid string_c (AttachControllerRequest_TrAddr r) ∧
        c_valid string_c (AttachControllerRequest_Name r) ∧ c_valid string_c (AttachControllerRequest_AdrFam r) ∧
        c_valid string_c (AttachControllerRequest_TrSvcId r) ∧ c_valid string_c (AttachControllerRequest_SubNQN r) ∧
        c_valid string_c (AttachControllerRequest_HostNQN r) ∧ c_valid string_c (AttachControllerRequest_HostAddr r) ∧
        c_valid string_c (AttachControllerRequest_HostSvcId r)).
#[export] Instance AttachControllerRequest_ok : CodecOk AttachControllerRequest_c.
Proof. struct_ok. Qed.
(* [jsonrpc/client/spdk_controller.go:43-45] DetachControllerRequest *)
Record DetachControllerRequest := {
  DetachControllerRequest_Name : string }.
(* [jsonrpc/client/spdk_controller.go:43-45] DetachControllerRequest, its tags *)
Definition DetachControllerRequest_c : codec DetachControllerRequest := struct_c
  (Build_DetachControllerRequest (c_zero string_c))
  (λ r, fld "name" string_c (DetachControllerRequest_Name r))
  (λ o, (Build_DetachControllerRequest, true) ⊛ (get "name" string_c o))
  (λ r, c_valid string_c (DetachControllerRequest_Name r)).
#[export] Instance DetachControllerRequest_ok : CodecOk DetachControllerRequest_c.
Proof. struct_ok. Qed.
(* [jsonrpc/client/spdk_controller.go:47-50] TrInfo *)
Record TrInfo := {
  TrInfo_TrType : string; TrInfo_TrAddr : string }.
(* [jsonrpc/client/spdk_controller.go:47-50] TrInfo, its tags *)
Definition TrInfo_c : codec TrInfo := struct_c
  (Build_TrInfo (c_zero string_c) (c_zero string_c))
  (λ r, fld "trtype" string_c (TrInfo_TrType r) ++ fld "traddr" string_c (TrInfo_TrAddr r))
  (λ o, (Build_TrInfo, true) ⊛ (get "trtype" string_c o) ⊛ (get "traddr" string_c o))
  (λ r, c_valid string_c (TrInfo_TrType r) ∧ c_valid string_c (TrInfo_TrAddr r)).
#[export] Instance TrInfo_ok : CodecOk TrInfo_c.
Proof. struct_ok. Qed.
(* [jsonrpc/client/spdk_controller.go:52-56] ControllerInfo *)
Record ControllerInfo := {
  ControllerInfo_Name : string; ControllerInfo_TrID : TrInfo; ControllerInfo_ControlID : string }.
(* [jsonrpc/client/spdk_controller.go:52-56] ControllerInfo, its tags *)
Definition ControllerInfo_c : codec ControllerInfo := struct_c
  (Build_ControllerInfo (c_zero string_c) (c_zero TrInfo_c) (c_zero string_c))
  (λ r, fld "name" string_c (ControllerInfo_Name r) ++ fld "trid" TrInfo_c (ControllerInfo_TrID r) ++
        fld "cntlid" string_c (ControllerInfo_ControlID r))
  (λ o, (Build_ControllerInfo, true) ⊛ (get "name" string_c o) ⊛ (get "trid" TrInfo_c o) ⊛ (get "cntlid" string_c o))
  (λ r, c_valid string_c (ControllerInfo_Name r) ∧ c_valid TrInfo_c (ControllerInfo_TrID r) ∧
        c_valid string_c (ControllerInfo_ControlID r)).
#[export] Instance ControllerInfo_ok : CodecOk ControllerInfo_c.
Proof. struct_ok. Qed.
(* [jsonrpc/client/spdk_migrate.go:44-48] RoundInfo *)
Record RoundInfo := {
  RoundInfo_RoundIndex : Z; RoundInfo_IsLastRound : string; RoundInfo_TimeElapsedMS : Z }.
(* [jsonrpc/client/spdk_migrate.go:44-48] RoundInfo, its tags *)
Definition RoundInfo_c : codec RoundInfo := struct_c
  (Build_RoundInfo (c_zero int_c) (c_zero string_c) (c_zero int_c))
  (λ r, fld "round_index" int_c (RoundInfo_RoundIndex r) ++ fld "is_last_round" string_c (RoundInfo_IsLastRound r) ++
        fld "ms_elapsed" int_c (RoundInfo_TimeElapsedMS r))
  (λ o, (Build_RoundInfo, true) ⊛ (get "round_index" int_c o) ⊛ (get "is_last_round" string_c o)
        ⊛ (get "ms_elapsed" int_c o))
  (λ r, c_valid int_c (RoundInfo_RoundIndex r) ∧ c_valid string_c (RoundInfo_IsLastRound r) ∧
        c_valid int_c (RoundInfo_TimeElapsedMS r)).
#[export] Instance RoundInfo_ok : CodecOk RoundInfo_c.
Proof. struct_ok. Qed.
(* [jsonrpc/client/spdk_migrate.go:28-42] MigrateTask *)
Record MigrateTask := {
  MigrateTask_TaskID : string; MigrateTask_SrcBdev : string; MigrateTask_DstBdev : string;
  MigrateTask_Status : string; MigrateTask_EnableSwitch : string; MigrateTask_MaxQueueDepth : Z;
  MigrateTask_LastRoundExtends : Z; MigrateTask_LastRoundSize : Z; MigrateTask_TotalWritePages : Z;
  MigrateTask_TotalReadPages : Z; MigrateTask_TimeElapsedMS : Z; MigrateTask_RoundPassed : Z;
  MigrateTask_WorkingRound : RoundInfo }.
(* [jsonrpc/client/spdk_migrate.go:28-42] MigrateTask, its tags *)
Definition MigrateTask_c : codec MigrateTask := struct_c
  (Build_MigrateTask (c_zero string_c) (c_zero string_c) (c_zero string_c) (c_zero string_c) (c_zero string_c) (c_zero int_c)
    (c_zero int_c) (c_zero int_c) (c_zero int_c) (c_zero int_c) (c_zero int_c) (c_zero int_c) (c_zero RoundInfo_c))
  (λ r, fld "task_id" string_c (MigrateTask_TaskID r) ++ fld "src_bdev" string_c (MigrateTask_SrcBdev r) ++
        fld "dst_bdev" string_c (MigrateTask_DstBdev r) ++ fld "status" string_c (MigrateTask_Status r) ++
        fld "enable_switch" string_c (MigrateTask_EnableSwitch r) ++
        fld "max_queue_depth" int_c (MigrateTask_MaxQueueDepth r) ++
        fld "last_round_extents" int_c (MigrateTask_LastRoundExtends r) ++
        fld "last_round_size" int_c (MigrateTask_LastRoundSize r) ++
        fld "total_write_pages" int_c (MigrateTask_TotalWritePages r) ++
        fld "total_read_pages" int_c (MigrateTask_TotalReadPages r) ++
        fld "ms_elapsed" int_c (MigrateTask_TimeElapsedMS r) ++
        fld "round_passed" int_c (MigrateTask_RoundPassed r) ++
        fld "working_round" RoundInfo_c (MigrateTask_WorkingRound r))
  (λ o, (Build_MigrateTask, true) ⊛ (get "task_id" string_c o) ⊛ (get "src_bdev" string_c o)
        ⊛ (get "dst_bdev" string_c o) ⊛ (get "status" string_c o) ⊛ (get "enable_switch" string_c o)
        ⊛ (get "max_queue_depth" int_c o) ⊛ (get "last_round_extents" int_c o) ⊛ (get "last_round_size" int_c o)
        ⊛ (get "total_write_pages" int_c o) ⊛ (get "total_read_pages" int_c o) ⊛ (get "ms_elapsed" int_c o)
        ⊛ (get "round_passed" int_c o) ⊛ (get "working_round" RoundInfo_c o))
  (λ r, c_valid string_c (MigrateTask_TaskID r) ∧ c_valid string_c (MigrateTask_SrcBdev r) ∧
        c_valid string_c (MigrateTask_DstBdev r) ∧ c_valid string_c (MigrateTask_Status r) ∧
        c_valid string_c (MigrateTask_EnableSwitch r) ∧ c_valid int_c (MigrateTask_MaxQueueDepth r) ∧
        c_valid int_c (MigrateTask_LastRoundExtends r) ∧ c_valid int_c (MigrateTask_LastRoundSize r) ∧
        c_valid int_c (MigrateTask_TotalWritePages r) ∧ c_valid int_c (MigrateTask_TotalReadPages r) ∧
        c_valid int_c (MigrateTask_TimeElapsedMS r) ∧ c_valid int_c (MigrateTask_RoundPassed r) ∧
        c_valid RoundInfo_c (MigrateTask_WorkingRound r)).
#[export] Instance MigrateTask_ok : CodecOk MigrateTask_c.
Proof. struct_ok. Qed.
(* [jsonrpc/client/spdk_migrate.go:50-54] BdevMigrateQueryRequest *)
Record BdevMigrateQueryRequest := {
  BdevMigrateQueryRequest_SrcBdev : string; BdevMigrateQueryRequest_ListHistory : bool }.
(* [jsonrpc/client/spdk_migrate.go:50-54] BdevMigrateQueryRequest, its tags *)
Definition BdevMigrateQueryRequest_c : codec BdevMigrateQueryRequest := struct_c
  (Build_BdevMigrateQueryRequest (c_zero string_c) (c_zero bool_c))
  (λ r, fld "src_bdev" string_c (BdevMigrateQueryRequest_SrcBdev r) ++
        opt "list_history" bool_c (BdevMigrateQueryRequest_ListHistory r))
  (λ o, (Build_BdevMigrateQueryRequest, true) ⊛ (get "src_bdev" string_c o) ⊛ (get "list_history" bool_c o))
  (λ r, c_valid string_c (BdevMigrateQueryRequest_SrcBdev r) ∧ c_valid bool_c (BdevMigrateQueryRequest_ListHistory r)).
#[export] Instance BdevMigrateQueryRequest_ok : CodecOk BdevMigrateQueryRequest_c.
Proof. struct_ok. Qed.
(* [jsonrpc/client/spdk_migrate.go:56-61] BdevMigrateStartRequest *)
Record BdevMigrateStartRequest := {
  BdevMigrateStartRequest_SrcBdev : string; BdevMigrateStartRequest_DstBdev : string;
  BdevMigrateStartRequest_AutoSwitch : bool }.
(* [jsonrpc/client/spdk_migrate.go:56-61] BdevMigrateStartRequest, its tags *)
Definition BdevMigrateStartRequest_c : codec BdevMigrateStartRequest := struct_c
  (Build_BdevMigrateStartRequest (c_zero string_c) (c_zero string_c) (c_zero bool_c))
  (λ r, fld "src_bdev" string_c (BdevMigrateStartRequest_SrcBdev r) ++
        fld "dst_bdev" string_c (BdevMigrateStartRequest_DstBdev r) ++
        opt "auto_switch" bool_c (BdevMigrateStartRequest_AutoSwitch r))
  (λ o, (Build_BdevMigrateStartRequest, true) ⊛ (get "src_bdev" string_c o) ⊛ (get "dst_bdev" string_c o)
        ⊛ (get "auto_switch" bool_c o))
  (λ r, c_valid string_c (BdevMigrateStartRequest_SrcBdev r) ∧ c_valid string_c (BdevMigrateStartRequest_DstBdev r) ∧
        c_valid bool_c (BdevMigrateStartRequest_AutoSwitch r)).
#[export] Instance BdevMigrateStartRequest_ok : CodecOk BdevMigrateStartRequest_c.
Proof. struct_ok. Qed.
(* [jsonrpc/client/spdk_migrate.go:63-70] BdevMigrateSetConfigRequest *)
Record BdevMigrateSetConfigRequest := {
  BdevMigrateSetConfigRequest_SrcBdev : string; BdevMigrateSetConfigRequest_DstBdev : string;
  BdevMigrateSetConfigRequest_AutoSwitch : bool; BdevMigrateSetConfigRequest_LastRoundExtends : Z;
  BdevMigrateSetConfigRequest_LastRoundSize : Z }.
(* [jsonrpc/client/spdk_migrate.go:63-70] BdevMigrateSetConfigRequest, its tags *)
Definition BdevMigrateSetConfigRequest_c : codec BdevMigrateSetConfigRequest := struct_c
  (Build_BdevMigrateSetConfigRequest (c_zero string_c) (c_zero string_c) (c_zero bool_c) (c_zero int_c) (c_zero int_c))
  (λ r, fld "src_bdev" string_c (BdevMigrateSetConfigRequest_SrcBdev r) ++
        fld "dst_bdev" string_c (BdevMigrateSetConfigRequest_DstBdev r) ++
        opt "enable_switch" bool_c (BdevMigrateSetConfigRequest_AutoSwitch r) ++
        opt "last_round_extents" int_c (BdevMigrateSetConfigRequest_LastRoundExtends r) ++
        opt "last_round_size" int_c (BdevMigrateSetConfigRequest_LastRoundSize r))
  (λ o, (Build_BdevMigrateSetConfigRequest, true) ⊛ (get "src_bdev" string_c o) ⊛ (get "dst_bdev" string_c o)
        ⊛ (get "enable_switch" bool_c o) ⊛ (get "last_round_extents" int_c o) ⊛ (get "last_round_size" int_c o))
  (λ r, c_valid string_c (BdevMigrateSetConfigRequest_SrcBdev r) ∧
        c_valid string_c (BdevMigrateSetConfigRequest_DstBdev r) ∧
        c_valid bool_c (BdevMigrateSetConfigRequest_AutoSwitch r) ∧
        c_valid int_c (BdevMigrateSetConfigRequest_LastRoundExtends r) ∧
        c_valid int_c (BdevMigrateSetConfigRequest_LastRoundSize r)).
#[export] Instance BdevMigrateSetConfigRequest_ok : CodecOk BdevMigrateSetConfigRequest_c.
Proof. struct_ok. Qed.
(* [jsonrpc/client/types.go:31-36] RPCRequest *)
Record RPCRequest := {
  RPCRequest_RPCVersion : string; RPCRequest_Method : string; RPCRequest_ID : Z; RPCRequest_Params : option json }.
(* [jsonrpc/client/types.go:31-36] RPCRequest, its tags *)
Definition RPCRequest_c : codec RPCRequest := struct_c
  (Build_RPCRequest (c_zero string_c) (c_zero string_c) (c_zero uint_c) (c_zero raw_c))
  (λ r, fld "jsonrpc" string_c (RPCRequest_RPCVersion r) ++ fld "method" string_c (RPCRequest_Method r) ++
        fld "id" uint_c (RPCRequest_ID r) ++ opt "params" raw_c (RPCRequest_Params r))
  (λ o, (Build_RPCRequest, true) ⊛ (get "jsonrpc" string_c o) ⊛ (get "method" string_c o) ⊛ (get "id" uint_c o)
        ⊛ (get "params" raw_c o))
  (λ r, c_valid string_c (RPCRequest_RPCVersion r) ∧ c_valid string_c (RPCRequest_Method r) ∧
        c_valid uint_c (RPCRequest_ID r) ∧ c_valid raw_c (RPCRequest_Params r)).
#[export] Instance RPCRequest_ok : CodecOk RPCRequest_c.
Proof. struct_ok. Qed.
(* [jsonrpc/client/types.go:45-48] RPCError *)
Record RPCError := {
  RPCError_Code : Z; RPCError_Message : string }.
(* [jsonrpc/client/types.go:45-48] RPCError, its tags *)
Definition RPCError_c : codec RPCError := struct_c
  (Build_RPCError (c_zero int_c) (c_zero string_c))
  (λ r, fld "code" int_c (RPCError_Code r) ++ fld "message" string_c (RPCError_Message r))
  (λ o, (Build_RPCError, true) ⊛ (get "code" int_c o) ⊛ (get "message" string_c o))
  (λ r, c_valid int_c (RPCError_Code r) ∧ c_valid string_c (RPCError_Message r)).
#[export] Instance RPCError_ok : CodecOk RPCError_c.
Proof. struct_ok. Qed.
(* [jsonrpc/client/types.go:38-43] RPCResponse *)
Record RPCResponse := {
  RPCResponse_JsonRPCVersion : string; RPCResponse_ID : Z; RPCResponse_Result : option json;
  RPCResponse_Error : RPCError }.
(* [jsonrpc/client/types.go:38-43] RPCResponse, its tags *)
Definition RPCResponse_c : codec RPCResponse := struct_c
  (Build_RPCResponse (c_zero string_c) (c_zero uint_c) (c_zero raw_c) (c_zero RPCError_c))
  (λ r, fld "jsonrpc" string_c (RPCResponse_JsonRPCVersion r) ++ fld "id" uint_c (RPCResponse_ID r) ++
        fld "result" raw_c (RPCResponse_Result r) ++ fld "error" RPCError_c (RPCResponse_Error r))
  (λ o, (Build_RPCResponse, true) ⊛ (get "jsonrpc" string_c o) ⊛ (get "id" uint_c o) ⊛ (get "result" raw_c o)
        ⊛ (get "error" RPCError_c o))
  (λ r, c_valid string_c (RPCResponse_JsonRPCVersion r) ∧ c_valid uint_c (RPCResponse_ID r) ∧
        c_valid raw_c (RPCResponse_Result r) ∧ c_valid RPCError_c (RPCResponse_Error r)).
#[export] Instance RPCResponse_ok : CodecOk RPCResponse_c.
Proof. struct_ok. Qed.
(* [jsonrpc/client/types.go:55-61] BdevAioCreateReq *)
Record BdevAioCreateReq := {
  BdevAioCreateReq_BdevName : string; BdevAioCreateReq_FileName : string; BdevAioCreateReq_BlockSize : Z }.
(* [jsonrpc/client/types.go:55-61] BdevAioCreateReq, its tags *)
Definition BdevAioCreateReq_c : codec BdevAioCreateReq := struct_c
  (Build_BdevAioCreateReq (c_zero string_c) (c_zero string_c) (c_zero int_c))
  (λ r, fld "name" string_c (BdevAioCreateReq_BdevName r) ++ fld "filename" string_c (BdevAioCreateReq_FileName r) ++
        opt "block_size" int_c (BdevAioCreateReq_BlockSize r))
  (λ o, (Build_BdevAioCreateReq, true) ⊛ (get "name" string_c o) ⊛ (get "filename" string_c o)
        ⊛ (get "block_size" int_c o))
  (λ r, c_valid string_c (BdevAioCreateReq_BdevName r) ∧ c_valid string_c (BdevAioCreateReq_FileName r) ∧
        c_valid int_c (BdevAioCreateReq_BlockSize r)).
#[export] Instance BdevAioCreateReq_ok : CodecOk BdevAioCreateReq_c.
Proof. struct_ok. Qed.
(* [jsonrpc/client/types.go:63-77] NVMFCreateSubsystemReq *)
Record NVMFCreateSubsystemReq := {
  NVMFCreateSubsystemReq_NQN : string; NVMFCreateSubsystemReq_TargetName : string;
  NVMFCreateSubsystemReq_SerialNumber : string; NVMFCreateSubsystemReq_ModelNumber : string;
  NVMFCreateSubsystemReq_MaxNamespaces : Z; NVMFCreateSubsystemReq_AllowAnyHost : bool;
  NVMFCreateSubsystemReq_ANAReporting : bool }.
(* [jsonrpc/client/types.go:63-77] NVMFCreateSubsystemReq, its tags *)
Definition NVMFCreateSubsystemReq_c : codec NVMFCreateSubsystemReq := struct_c
  (Build_NVMFCreateSubsystemReq (c_zero string_c) (c_zero string_c) (c_zero string_c) (c_zero string_c) (c_zero int_c) (c_zero bool_c)
    (c_zero bool_c))
  (λ r, fld "nqn" string_c (NVMFCreateSubsystemReq_NQN r) ++
        opt "tgt_name" string_c (NVMFCreateSubsystemReq_TargetName r) ++
        opt "serial_number" string_c (NVMFCreateSubsystemReq_SerialNumber r) ++
        opt "model_number" string_c (NVMFCreateSubsystemReq_ModelNumber r) ++
        opt "max_namespaces" int_c (NVMFCreateSubsystemReq_MaxNamespaces r) ++
        opt "allow_any_host" bool_c (NVMFCreateSubsystemReq_AllowAnyHost r) ++
        opt "ana_reporting" bool_c (NVMFCreateSubsystemReq_ANAReporting r))
  (λ o, (Build_NVMFCreateSubsystemReq, true) ⊛ (get "nqn" string_c o) ⊛ (get "tgt_name" string_c o)
        ⊛ (get "serial_number" string_c o) ⊛ (get "model_number" string_c o) ⊛ (get "max_namespaces" int_c o)
        ⊛ (get "allow_any_host" bool_c o) ⊛ (get "ana_reporting" bool_c o))
  (λ r, c_valid string_c (NVMFCreateSubsystemReq_NQN r) ∧ c_valid string_c (NVMFCreateSubsystemReq_TargetName r) ∧
        c_valid string_c (NVMFCreateSubsystemReq_SerialNumber r) ∧
        c_valid string_c (NVMFCreateSubsystemReq_ModelNumber r) ∧
        c_valid int_c (NVMFCreateSubsystemReq_MaxNamespaces r) ∧
        c_valid bool_c (NVMFCreateSubsystemReq_AllowAnyHost r) ∧
        c_valid bool_c (NVMFCreateSubsystemReq_ANAReporting r)).
#[export] Instance NVMFCreateSubsystemReq_ok : CodecOk NVMFCreateSubsystemReq_c.
Proof. struct_ok. Qed.
(* [jsonrpc/client/types.go:88-98] NamespaceForAddNS *)
Record NamespaceForAddNS := {
  NamespaceForAddNS_BdevName : string; NamespaceForAddNS_NSID : Z; NamespaceForAddNS_NGUID : string;
  NamespaceForAddNS_EUI64 : string; NamespaceForAddNS_UUID : string; NamespaceForAddNS_PtplFile : string }.
(* [jsonrpc/client/types.go:88-98] NamespaceForAddNS, its tags *)
Definition NamespaceForAddNS_c : codec NamespaceForAddNS := struct_c
  (Build_NamespaceForAddNS (c_zero string_c) (c_zero int_c) (c_zero string_c) (c_zero string_c) (c_zero string_c) (c_zero string_c))
  (λ r, fld "bdev_name" string_c (NamespaceForAddNS_BdevName r) ++ opt "nsid" int_c (NamespaceForAddNS_NSID r) ++
        opt "nguid" string_c (NamespaceForAddNS_NGUID r) ++ opt "eui64" string_c (NamespaceForAddNS_EUI64 r) ++
        opt "uuid" string_c (NamespaceForAddNS_UUID r) ++ opt "ptpl_file" string_c (NamespaceForAddNS_PtplFile r))
  (λ o, (Build_NamespaceForAddNS, true) ⊛ (get "bdev_name" string_c o) ⊛ (get "nsid" int_c o)
        ⊛ (get "nguid" string_c o) ⊛ (get "eui64" string_c o) ⊛ (get "uuid" string_c o) ⊛ (get "ptpl_file" string_c o))
  (λ r, c_valid string_c (NamespaceForAddNS_BdevName r) ∧ c_valid int_c (NamespaceForAddNS_NSID r) ∧
        c_valid string_c (NamespaceForAddNS_NGUID r) ∧ c_valid string_c (NamespaceForAddNS_EUI64 r) ∧
        c_valid string_c (NamespaceForAddNS_UUID r) ∧ c_valid string_c (NamespaceForAddNS_PtplFile r)).
#[export] Instance NamespaceForAddNS_ok : CodecOk NamespaceForAddNS_c.
Proof. struct_ok. Qed.
(* [jsonrpc/client/types.go:79-86] NVMFSubsystemAddNSReq *)
Record NVMFSubsystemAddNSReq := {
  NVMFSubsystemAddNSReq_NQN : string; NVMFSubsystemAddNSReq_Namespace : NamespaceForAddNS;
  NVMFSubsystemAddNSReq_TargetName : string }.
(* [jsonrpc/client/types.go:79-86] NVMFSubsystemAddNSReq, its tags *)
Definition NVMFSubsystemAddNSReq_c : codec NVMFSubsystemAddNSReq := struct_c
  (Build_NVMFSubsystemAddNSReq (c_zero string_c) (c_zero NamespaceForAddNS_c) (c_zero string_c))
  (λ r, fld "nqn" string_c (NVMFSubsystemAddNSReq_NQN r) ++
        fld "namespace" NamespaceForAddNS_c (NVMFSubsystemAddNSReq_Namespace r) ++
        opt "tgt_name" string_c (NVMFSubsystemAddNSReq_TargetName r))
  (λ o, (Build_NVMFSubsystemAddNSReq, true) ⊛ (get "nqn" string_c o) ⊛ (get "namespace" NamespaceForAddNS_c o)
        ⊛ (get "tgt_name" string_c o))
  (λ r, c_valid string_c (NVMFSubsystemAddNSReq_NQN r) ∧
        c_valid NamespaceForAddNS_c (NVMFSubsystemAddNSReq_Namespace r) ∧
        c_valid string_c (NVMFSubsystemAddNSReq_TargetName r)).
#[export] Instance NVMFSubsystemAddNSReq_ok : CodecOk NVMFSubsystemAddNSReq_c.
Proof. struct_ok. Qed.
(* [jsonrpc/client/types.go:100-107] ListenAddress *)
Record ListenAddress := {
  ListenAddress_TrType : string; ListenAddress_AdrFam : string; ListenAddress_TrAddr : string;
  ListenAddress_TrSvcID : string }.
(* [jsonrpc/client/types.go:100-107] ListenAddress, its tags *)
Definition ListenAddress_c : codec ListenAddress := struct_c
  (Build_ListenAddress (c_zero string_c) (c_zero string_c) (c_zero string_c) (c_zero string_c))
  (λ r, fld "trtype" string_c (ListenAddress_TrType r) ++ fld "adrfam" string_c (ListenAddress_AdrFam r) ++
        fld "traddr" string_c (ListenAddress_TrAddr r) ++ opt "trsvcid" string_c (ListenAddress_TrSvcID r))
  (λ o, (Build_ListenAddress, true) ⊛ (get "trtype" string_c o) ⊛ (get "adrfam" string_c o)
        ⊛ (get "traddr" string_c o) ⊛ (get "trsvcid" string_c o))
  (λ r, c_valid string_c (ListenAddress_TrType r) ∧ c_valid string_c (ListenAddress_AdrFam r) ∧
        c_valid string_c (ListenAddress_TrAddr r) ∧ c_valid string_c (ListenAddress_TrSvcID r)).
#[export] Instance ListenAddress_ok : CodecOk ListenAddress_c.
Proof. struct_ok. Qed.
(* [jsonrpc/client/types.go:109-115] NVMFSubsystemAddListenerReq *)
Record NVMFSubsystemAddListenerReq := {
  NVMFSubsystemAddListenerReq_NQN : string; NVMFSubsystemAddListenerReq_TargetName : string;
  NVMFSubsystemAddListenerReq_ListenAddress : ListenAddress }.
(* [jsonrpc/client/types.go:109-115] NVMFSubsystemAddListenerReq, its tags *)
Definition NVMFSubsystemAddListenerReq_c : codec NVMFSubsystemAddListenerReq := struct_c
  (Build_NVMFSubsystemAddListenerReq (c_zero string_c) (c_zero string_c) (c_zero ListenAddress_c))
  (λ r, fld "nqn" string_c (NVMFSubsystemAddListenerReq_NQN r) ++
        opt "tgt_name" string_c (NVMFSubsystemAddListenerReq_TargetName r) ++
        opt "listen_address" ListenAddress_c (NVMFSubsystemAddListenerReq_ListenAddress r))
  (λ o, (Build_NVMFSubsystemAddListenerReq, true) ⊛ (get "nqn" string_c o) ⊛ (get "tgt_name" string_c o)
        ⊛ (get "listen_address" ListenAddress_c o))
  (λ r, c_valid string_c (NVMFSubsystemAddListenerReq_NQN r) ∧
        c_valid string_c (NVMFSubsystemAddListenerReq_TargetName r) ∧
        c_valid ListenAddress_c (NVMFSubsystemAddListenerReq_ListenAddress r)).
#[export] Instance NVMFSubsystemAddListenerReq_ok : CodecOk NVMFSubsystemAddListenerReq_c.
Proof. struct_ok. Qed.
(* [jsonrpc/client/types.go:117-142] NVMFCreateTransportReq *)
Record NVMFCreateTransportReq := {
  NVMFCreateTransportReq_TrType : string; NVMFCreateTransportReq_TargetName : string;
  NVMFCreateTransportReq_MaxQueueDepth : Z; NVMFCreateTransportReq_MaxQPairsPerCtrlr : Z;
  NVMFCreateTransportReq_MaxIOQPairsPerCtrlr : Z; NVMFCreateTransportReq_InCapsuleDataSize : Z;
  NVMFCreateTransportReq_MaxIOSize : Z; NVMFCreateTransportReq_IOUnitSize : Z; NVMFCreateTransportReq_MaxAQDepth : Z;
  NVMFCreateTransportReq_NumSharedBuffers : Z; NVMFCreateTransportReq_BufCacheSize : Z;
  NVMFCreateTransportReq_NumCQE : Z; NVMFCreateTransportReq_MaxSRQDepth : Z; NVMFCreateTransportReq_SockPriority : Z;
  NVMFCreateTransportReq_AcceptorBacklog : Z; NVMFCreateTransportReq_AbortTimeoutSec : Z;
  NVMFCreateTransportReq_NoWrBatching : bool; NVMFCreateTransportReq_DifInsertOrStrip : bool;
  NVMFCreateTransportReq_C2hSuccess : bool; NVMFCreateTransportReq_NoSRQ : bool }.
(* [jsonrpc/client/types.go:117-142] NVMFCreateTransportReq, its tags *)
Definition NVMFCreateTransportReq_c : codec NVMFCreateTransportReq := struct_c
  (Build_NVMFCreateTransportReq (c_zero string_c) (c_zero string_c) (c_zero int_c) (c_zero int_c) (c_zero int_c) (c_zero int_c) (c_zero int_c)
    (c_zero int_c) (c_zero int_c) (c_zero int_c) (c_zero int_c) (c_zero int_c) (c_zero int_c) (c_zero int_c)
    (c_zero int_c) (c_zero int_c) (c_zero bool_c) (c_zero bool_c) (c_zero bool_c) (c_zero bool_c))
  (λ r, fld "trtype" string_c (NVMFCreateTransportReq_TrType r) ++
        opt "tgt_name" string_c (NVMFCreateTransportReq_TargetName r) ++
        opt "max_queue_depth" int_c (NVMFCreateTransportReq_MaxQueueDepth r) ++
        opt "max_qpairs_per_ctrlr" int_c (NVMFCreateTransportReq_MaxQPairsPerCtrlr r) ++
        opt "max_io_qpairs_per_ctrlr" int_c (NVMFCreateTransportReq_MaxIOQPairsPerCtrlr r) ++
        opt "in_capsule_data_size" int_c (NVMFCreateTransportReq_InCapsuleDataSize r) ++
        opt "max_io_size" int_c (NVMFCreateTransportReq_MaxIOSize r) ++
        opt "io_unit_size" int_c (NVMFCreateTransportReq_IOUnitSize r) ++
        opt "max_aq_depth" int_c (NVMFCreateTransportReq_MaxAQDepth r) ++
        opt "num_shared_buffers" int_c (NVMFCreateTransportReq_NumSharedBuffers r) ++
        opt "buf_cache_size" int_c (NVMFCreateTransportReq_BufCacheSize r) ++
        opt "num_cqe" int_c (NVMFCreateTransportReq_NumCQE r) ++
        opt "max_srq_depth" int_c (NVMFCreateTransportReq_MaxSRQDepth r) ++
        opt "sock_priority" int_c (NVMFCreateTransportReq_SockPriority r) ++
        opt "acceptor_backlog" int_c (NVMFCreateTransportReq_AcceptorBacklog r) ++
        opt "abort_timeout_sec" int_c (NVMFCreateTransportReq_AbortTimeoutSec r) ++
        opt "no_wr_batching" bool_c (NVMFCreateTransportReq_NoWrBatching r) ++
        opt "dif_insert_or_strip" bool_c (NVMFCreateTransportReq_DifInsertOrStrip r) ++
        opt "c2h_success" bool_c (NVMFCreateTransportReq_C2hSuccess r) ++
        opt "no_srq" bool_c (NVMFCreateTransportReq_NoSRQ r))
  (λ o, (Build_NVMFCreateTransportReq, true) ⊛ (get "trtype" string_c o) ⊛ (get "tgt_name" string_c o)
        ⊛ (get "max_queue_depth" int_c o) ⊛ (get "max_qpairs_per_ctrlr" int_c o)
        ⊛ (get "max_io_qpairs_per_ctrlr" int_c o) ⊛ (get "in_capsule_data_size" int_c o) ⊛ (get "max_io_size" int_c o)
        ⊛ (get "io_unit_size" int_c o) ⊛ (get "max_aq_depth" int_c o) ⊛ (get "num_shared_buffers" int_c o)
        ⊛ (get "buf_cache_size" int_c o) ⊛ (get "num_cqe" int_c o) ⊛ (get "max_srq_depth" int_c o)
        ⊛ (get "sock_priority" int_c o) ⊛ (get "acceptor_backlog" int_c o) ⊛ (get "abort_timeout_sec" int_c o)
        ⊛ (get "no_wr_batching" bool_c o) ⊛ (get "dif_insert_or_strip" bool_c o) ⊛ (get "c2h_success" bool_c o)
        ⊛ (get "no_srq" bool_c o))
  (λ r, c_valid string_c (NVMFCreateTransportReq_TrType r) ∧ c_valid string_c (NVMFCreateTransportReq_TargetName r) ∧
        c_valid int_c (NVMFCreateTransportReq_MaxQueueDepth r) ∧
        c_valid int_c (NVMFCreateTransportReq_MaxQPairsPerCtrlr r) ∧
        c_valid int_c (NVMFCreateTransportReq_MaxIOQPairsPerCtrlr r) ∧
        c_valid int_c (NVMFCreateTransportReq_InCapsuleDataSize r) ∧
        c_valid int_c (NVMFCreateTransportReq_MaxIOSize r) ∧ c_valid int_c (NVMFCreateTransportReq_IOUnitSize r) ∧
        c_valid int_c (NVMFCreateTransportReq_MaxAQDepth r) ∧
        c_valid int_c (NVMFCreateTransportReq_NumSharedBuffers r) ∧
        c_valid int_c (NVMFCreateTransportReq_BufCacheSize r) ∧ c_valid int_c (NVMFCreateTransportReq_NumCQE r) ∧
        c_valid int_c (NVMFCreateTransportReq_MaxSRQDepth r) ∧ c_valid int_c (NVMFCreateTransportReq_SockPriority r) ∧
        c_valid int_c (NVMFCreateTransportReq_AcceptorBacklog r) ∧
        c_valid int_c (NVMFCreateTransportReq_AbortTimeoutSec r) ∧
        c_valid bool_c (NVMFCreateTransportReq_NoWrBatching r) ∧
        c_valid bool_c (NVMFCreateTransportReq_DifInsertOrStrip r) ∧
        c_valid bool_c (NVMFCreateTransportReq_C2hSuccess r) ∧ c_valid bool_c (NVMFCreateTransportReq_NoSRQ r)).
#[export] Instance NVMFCreateTransportReq_ok : CodecOk NVMFCreateTransportReq_c.
Proof. struct_ok. Qed.
(* [jsonrpc/client/types.go:144-148] Transport *)
Record Transport := {
  Transport_TransType : string; Transport_MaxQueueDepth : Z }.
(* [jsonrpc/client/types.go:144-148] Transport, its tags *)
Definition Transport_c : codec Transport := struct_c
  (Build_Transport (c_zero string_c) (c_zero int_c))
  (λ r, fld "trtype" string_c (Transport_TransType r) ++ fld "max_queue_depth" int_c (Transport_MaxQueueDepth r))
  (λ o, (Build_Transport, true) ⊛ (get "trtype" string_c o) ⊛ (get "max_queue_depth" int_c o))
  (λ r, c_valid string_c (Transport_TransType r) ∧ c_valid int_c (Transport_MaxQueueDepth r)).
#[export] Instance Transport_ok : CodecOk Transport_c.
Proof. struct_ok. Qed.
(* [jsonrpc/client/types.go:172-174] AIODriver *)
Record AIODriver := {
  AIODriver_Filename : string }.
(* [jsonrpc/client/types.go:172-174] AIODriver, its tags *)
Definition AIODriver_c : codec AIODriver := struct_c
  (Build_AIODriver (c_zero string_c))
  (λ r, fld "filename" string_c (AIODriver_Filename r))
  (λ o, (Build_AIODriver, true) ⊛ (get "filename" string_c o))
  (λ r, c_valid string_c (AIODriver_Filename r)).
#[export] Instance AIODriver_ok : CodecOk AIODriver_c.
Proof. struct_ok. Qed.
(* [jsonrpc/client/types.go:161-163] DriverSpecific *)
Record DriverSpecific := {
  DriverSpecific_AIO : AIODriver }.
(* [jsonrpc/client/types.go:161-163] DriverSpecific, its tags *)
Definition DriverSpecific_c : codec DriverSpecific := struct_c
  (Build_DriverSpecific (c_zero AIODriver_c))
  (λ r, fld "aio" AIODriver_c (DriverSpecific_AIO r))
  (λ o, (Build_DriverSpecific, true) ⊛ (get "aio" AIODriver_c o))
  (λ r, c_valid AIODriver_c (DriverSpecific_AIO r)).
#[export] Instance DriverSpecific_ok : CodecOk DriverSpecific_c.
Proof. struct_ok. Qed.
(* [jsonrpc/client/types.go:165-170] AssignedRateLimits *)
Record AssignedRateLimits := {
  AssignedRateLimits_RWIops : Z; AssignedRateLimits_RWMbytes : Z; AssignedRateLimits_RMbytes : Z;
  AssignedRateLimits_WMbytes : Z }.
(* [jsonrpc/client/types.go:165-170] AssignedRateLimits, its tags *)
Definition AssignedRateLimits_c : codec AssignedRateLimits := struct_c
  (Build_AssignedRateLimits (c_zero uint_c) (c_zero uint_c) (c_zero uint_c) (c_zero uint_c))
  (λ r, fld "rw_ios_per_sec" uint_c (AssignedRateLimits_RWIops r) ++
        fld "rw_mbytes_per_sec" uint_c (AssignedRateLimits_RWMbytes r) ++
        fld "r_mbytes_per_sec" uint_c (AssignedRateLimits_RMbytes r) ++
        fld "w_mbytes_per_sec" uint_c (AssignedRateLimits_WMbytes r))
  (λ o, (Build_AssignedRateLimits, true) ⊛ (get "rw_ios_per_sec" uint_c o) ⊛ (get "rw_mbytes_per_sec" uint_c o)
        ⊛ (get "r_mbytes_per_sec" uint_c o) ⊛ (get "w_mbytes_per_sec" uint_c o))
  (λ r, c_valid uint_c (AssignedRateLimits_RWIops r) ∧ c_valid uint_c (AssignedRateLimits_RWMbytes r) ∧
        c_valid uint_c (AssignedRateLimits_RMbytes r) ∧ c_valid uint_c (AssignedRateLimits_WMbytes r)).
#[export] Instance AssignedRateLimits_ok : CodecOk AssignedRateLimits_c.
Proof. struct_ok. Qed.
(* [jsonrpc/client/types.go:150-159] Bdev *)
Record Bdev := {
  Bdev_Name : string; Bdev_Aliases : list string; Bdev_ProductName : string; Bdev_UUID : string; Bdev_BlockSize : Z;
  Bdev_NumBlocks : Z; Bdev_Driver : DriverSpecific; Bdev_RateLimits : AssignedRateLimits }.
(* [jsonrpc/client/types.go:150-159] Bdev, its tags *)
Definition Bdev_c : codec Bdev := struct_c
  (Build_Bdev (c_zero string_c) (c_zero (list_c string_c)) (c_zero string_c) (c_zero string_c) (c_zero int_c) (c_zero int_c)
    (c_zero DriverSpecific_c) (c_zero AssignedRateLimits_c))
  (λ r, fld "name" string_c (Bdev_Name r) ++ fld "aliases" (list_c string_c) (Bdev_Aliases r) ++
        fld "product_name" string_c (Bdev_ProductName r) ++ fld "uuid" string_c (Bdev_UUID r) ++
        fld "block_size" int_c (Bdev_BlockSize r) ++ fld "num_blocks" int_c (Bdev_NumBlocks r) ++
        fld "driver_specific" DriverSpecific_c (Bdev_Driver r) ++
        fld "assigned_rate_limits" AssignedRateLimits_c (Bdev_RateLimits r))
  (λ o, (Build_Bdev, true) ⊛ (get "name" string_c o) ⊛ (get "aliases" (list_c string_c) o)
        ⊛ (get "product_name" string_c o) ⊛ (get "uuid" string_c o) ⊛ (get "block_size" int_c o)
        ⊛ (get "num_blocks" int_c o) ⊛ (get "driver_specific" DriverSpecific_c o)
        ⊛ (get "assigned_rate_limits" AssignedRateLimits_c o))
  (λ r, c_valid string_c (Bdev_Name r) ∧ c_valid (list_c string_c) (Bdev_Aliases r) ∧
        c_valid string_c (Bdev_ProductName r) ∧ c_valid string_c (Bdev_UUID r) ∧ c_valid int_c (Bdev_BlockSize r) ∧
        c_valid int_c (Bdev_NumBlocks r) ∧ c_valid DriverSpecific_c (Bdev_Driver r) ∧
        c_valid AssignedRateLimits_c (Bdev_RateLimits r)).
#[export] Instance Bdev_ok : CodecOk Bdev_c.
Proof. struct_ok. Qed.
(* [jsonrpc/client/types.go:190-195] Namespace *)
Record Namespace := {
  Namespace_NsID : Z; Namespace_BdevName : string; Namespace_Name : string; Namespace_UUID : string }.
(* [jsonrpc/client/types.go:190-195] Namespace, its tags *)
Definition Namespace_c : codec Namespace := struct_c
  (Build_Namespace (c_zero int_c) (c_zero string_c) (c_zero string_c) (c_zero string_c))
  (λ r, fld "nsid" int_c (Namespace_NsID r) ++ fld "bdev_Name" string_c (Namespace_BdevName r) ++
        fld "name" string_c (Namespace_Name r) ++ fld "uuid" string_c (Namespace_UUID r))
  (λ o, (Build_Namespace, true) ⊛ (get "nsid" int_c o) ⊛ (get "bdev_Name" string_c o) ⊛ (get "name" string_c o)
        ⊛ (get "uuid" string_c o))
  (λ r, c_valid int_c (Namespace_NsID r) ∧ c_valid string_c (Namespace_BdevName r) ∧
        c_valid string_c (Namespace_Name r) ∧ c_valid string_c (Namespace_UUID r)).
#[export] Instance Namespace_ok : CodecOk Namespace_c.
Proof. struct_ok. Qed.
(* [jsonrpc/client/types.go:186-188] SubsysHost *)
Record SubsysHost := {
  SubsysHost_NQN : string }.
(* [jsonrpc/client/types.go:186-188] SubsysHost, its tags *)
Definition SubsysHost_c : codec SubsysHost := struct_c
  (Build_SubsysHost (c_zero string_c))
  (λ r, fld "nqn" string_c (SubsysHost_NQN r))
  (λ o, (Build_SubsysHost, true) ⊛ (get "nqn" string_c o))
  (λ r, c_valid string_c (SubsysHost_NQN r)).
#[export] Instance SubsysHost_ok : CodecOk SubsysHost_c.
Proof. struct_ok. Qed.
(* [jsonrpc/client/types.go:176-184] Subsystem *)
Record Subsystem := {
  Subsystem_NQN : string; Subsystem_ListenAddresses : list ListenAddress; Subsystem_AllowAnyHost : bool;
  Subsystem_SerialNum : string; Subsystem_ModelNum : string; Subsystem_Namespaces : list Namespace;
  Subsystem_Hosts : list SubsysHost }.
(* [jsonrpc/client/types.go:176-184] Subsystem, its tags *)
Definition Subsystem_c : codec Subsystem := struct_c
  (Build_Subsystem (c_zero string_c) (c_zero (list_c ListenAddress_c)) (c_zero bool_c) (c_zero string_c) (c_zero string_c)
    (c_zero (list_c Namespace_c)) (c_zero (list_c SubsysHost_c)))
  (λ r, fld "NQN" string_c (Subsystem_NQN r) ++
        fld "listen_addresses" (list_c ListenAddress_c) (Subsystem_ListenAddresses r) ++
        fld "allow_any_host" bool_c (Subsystem_AllowAnyHost r) ++
        fld "serial_number" string_c (Subsystem_SerialNum r) ++ fld "model_number" string_c (Subsystem_ModelNum r) ++
        fld "namespaces" (list_c Namespace_c) (Subsystem_Namespaces r) ++
        fld "hosts" (list_c SubsysHost_c) (Subsystem_Hosts r))
  (λ o, (Build_Subsystem, true) ⊛ (get "NQN" string_c o) ⊛ (get "listen_addresses" (list_c ListenAddress_c) o)
        ⊛ (get "allow_any_host" bool_c o) ⊛ (get "serial_number" string_c o) ⊛ (get "model_number" string_c o)
        ⊛ (get "namespaces" (list_c Namespace_c) o) ⊛ (get "hosts" (list_c SubsysHost_c) o))
  (λ r, c_valid string_c (Subsystem_NQN r) ∧ c_valid (list_c ListenAddress_c) (Subsystem_ListenAddresses r) ∧
        c_valid bool_c (Subsystem_AllowAnyHost r) ∧ c_valid string_c (Subsystem_SerialNum r) ∧
        c_valid string_c (Subsystem_ModelNum r) ∧ c_valid (list_c Namespace_c) (Subsystem_Namespaces r) ∧
        c_valid (list_c SubsysHost_c) (Subsystem_Hosts r)).
#[export] Instance Subsystem_ok : CodecOk Subsystem_c.
Proof. struct_ok. Qed.
(* [jsonrpc/client/types.go:197-201] NVMFDeleteSubsystemReq *)
Record NVMFDeleteSubsystemReq := {
  NVMFDeleteSubsystemReq_NQN : string; NVMFDeleteSubsystemReq_TgtName : string }.
(* [jsonrpc/client/types.go:197-201] NVMFDeleteSubsystemReq, its tags *)
Definition NVMFDeleteSubsystemReq_c : codec NVMFDeleteSubsystemReq := struct_c
  (Build_NVMFDeleteSubsystemReq (c_zero string_c) (c_zero string_c))
  (λ r, fld "nqn" string_c (NVMFDeleteSubsystemReq_NQN r) ++
        opt "tgt_name" string_c (NVMFDeleteSubsystemReq_TgtName r))
  (λ o, (Build_NVMFDeleteSubsystemReq, true) ⊛ (get "nqn" string_c o) ⊛ (get "tgt_name" string_c o))
  (λ r, c_valid string_c (NVMFDeleteSubsystemReq_NQN r) ∧ c_valid string_c (NVMFDeleteSubsystemReq_TgtName r)).
#[export] Instance NVMFDeleteSubsystemReq_ok : CodecOk NVMFDeleteSubsystemReq_c.
Proof. struct_ok. Qed.
(* [jsonrpc/client/types.go:203-205] BdevAioDeleteReq *)
Record BdevAioDeleteReq := {
  BdevAioDeleteReq_Name : string }.
(* [jsonrpc/client/types.go:203-205] BdevAioDeleteReq, its tags *)
Definition BdevAioDeleteReq_c : codec BdevAioDeleteReq := struct_c
  (Build_BdevAioDeleteReq (c_zero string_c))
  (λ r, fld "name" string_c (BdevAioDeleteReq_Name r))
  (λ o, (Build_BdevAioDeleteReq, true) ⊛ (get "name" string_c o))
  (λ r, c_valid string_c (BdevAioDeleteReq_Name r)).
#[export] Instance BdevAioDeleteReq_ok : CodecOk BdevAioDeleteReq_c.
Proof. struct_ok. Qed.
(* [jsonrpc/client/types.go:207-210] BdevAioResizeReq *)
Record BdevAioResizeReq := {
  BdevAioResizeReq_Name : string; BdevAioResizeReq_Size : Z }.
(* [jsonrpc/client/types.go:207-210] BdevAioResizeReq, its tags *)
Definition BdevAioResizeReq_c : codec BdevAioResizeReq := struct_c
  (Build_BdevAioResizeReq (c_zero string_c) (c_zero uint_c))
  (λ r, fld "name" string_c (BdevAioResizeReq_Name r) ++ fld "size" uint_c (BdevAioResizeReq_Size r))
  (λ o, (Build_BdevAioResizeReq, true) ⊛ (get "name" string_c o) ⊛ (get "size" uint_c o))
  (λ r, c_valid string_c (BdevAioResizeReq_Name r) ∧ c_valid uint_c (BdevAioResizeReq_Size r)).
#[export] Instance BdevAioResizeReq_ok : CodecOk BdevAioResizeReq_c.
Proof. struct_ok. Qed.
(* [jsonrpc/client/types.go:229-235] SpdkVersionFields *)
Record SpdkVersionFields := {
  SpdkVersionFields_Major : Z; SpdkVersionFields_Minor : Z; SpdkVersionFields_Patch : Z;
  SpdkVersionFields_Suffix : string; SpdkVersionFields_Commit : string }.
(* [jsonrpc/client/types.go:229-235] SpdkVersionFields, its tags *)
Definition SpdkVersionFields_c : codec SpdkVersionFields := struct_c
  (Build_SpdkVersionFields (c_zero int_c) (c_zero int_c) (c_zero int_c) (c_zero string_c) (c_zero string_c))
  (λ r, fld "major" int_c (SpdkVersionFields_Major r) ++ fld "minor" int_c (SpdkVersionFields_Minor r) ++
        fld "patch" int_c (SpdkVersionFields_Patch r) ++ fld "suffix" string_c (SpdkVersionFields_Suffix r) ++
        fld "commit" string_c (SpdkVersionFields_Commit r))
  (λ o, (Build_SpdkVersionFields, true) ⊛ (get "major" int_c o) ⊛ (get "minor" int_c o) ⊛ (get "patch" int_c o)
        ⊛ (get "suffix" string_c o) ⊛ (get "commit" string_c o))
  (λ r, c_valid int_c (SpdkVersionFields_Major r) ∧ c_valid int_c (SpdkVersionFields_Minor r) ∧
        c_valid int_c (SpdkVersionFields_Patch r) ∧ c_valid string_c (SpdkVersionFields_Suffix r) ∧
        c_valid string_c (SpdkVersionFields_Commit r)).
#[export] Instance SpdkVersionFields_ok : CodecOk SpdkVersionFields_c.
Proof. struct_ok. Qed.
(* [jsonrpc/client/types.go:224-227] SpdkVersion *)
Record SpdkVersion := {
  SpdkVersion_Version : string; SpdkVersion_Fields : SpdkVersionFields }.
(* [jsonrpc/client/types.go:224-227] SpdkVersion, its tags *)
Definition SpdkVersion_c : codec SpdkVersion := struct_c
  (Build_SpdkVersion (c_zero string_c) (c_zero SpdkVersionFields_c))
  (λ r, fld "version" string_c (SpdkVersion_Version r) ++ fld "fields" SpdkVersionFields_c (SpdkVersion_Fields r))
  (λ o, (Build_SpdkVersion, true) ⊛ (get "version" string_c o) ⊛ (get "fields" SpdkVersionFields_c o))
  (λ r, c_valid string_c (SpdkVersion_Version r) ∧ c_valid SpdkVersionFields_c (SpdkVersion_Fields r)).
#[export] Instance SpdkVersion_ok : CodecOk SpdkVersion_c.
Proof. struct_ok. Qed.
(* [jsonrpc/client/types.go:237-240] FrameworkGetSubsystemsItem *)
Record FrameworkGetSubsystemsItem := {
  FrameworkGetSubsystemsItem_Subsystem : string; FrameworkGetSubsystemsItem_DependsOn : list string }.
(* [jsonrpc/client/types.go:237-240] FrameworkGetSubsystemsItem, its tags *)
Definition FrameworkGetSubsystemsItem_c : codec FrameworkGetSubsystemsItem := struct_c
  (Build_FrameworkGetSubsystemsItem (c_zero string_c) (c_zero (list_c string_c)))
  (λ r, fld "subsystem" string_c (FrameworkGetSubsystemsItem_Subsystem r) ++
        fld "depends_on" (list_c string_c) (FrameworkGetSubsystemsItem_DependsOn r))
  (λ o, (Build_FrameworkGetSubsystemsItem, true) ⊛ (get "subsystem" string_c o)
        ⊛ (get "depends_on" (list_c string_c) o))
  (λ r, c_valid string_c (FrameworkGetSubsystemsItem_Subsystem r) ∧
        c_valid (list_c string_c) (FrameworkGetSubsystemsItem_DependsOn r)).
#[export] Instance FrameworkGetSubsystemsItem_ok : CodecOk FrameworkGetSubsystemsItem_c.
Proof. struct_ok. Qed.
(* [jsonrpc/client/types.go:242-244] FrameworkGetConfigReq *)
Record FrameworkGetConfigReq := {
  FrameworkGetConfigReq_Name : string }.
(* [jsonrpc/client/types.go:242-244] FrameworkGetConfigReq, its tags *)
Definition FrameworkGetConfigReq_c : codec FrameworkGetConfigReq := struct_c
  (Build_FrameworkGetConfigReq (c_zero string_c))
  (λ r, fld "name" string_c (FrameworkGetConfigReq_Name r))
  (λ o, (Build_FrameworkGetConfigReq, true) ⊛ (get "name" string_c o))
  (λ r, c_valid string_c (FrameworkGetConfigReq_Name r)).
#[export] Instance FrameworkGetConfigReq_ok : CodecOk FrameworkGetConfigReq_c.
Proof. struct_ok. Qed.
(* [jsonrpc/client/types.go:248-251] BdevGetBdevsReq *)
Record BdevGetBdevsReq := {
  BdevGetBdevsReq_BdevName : string }.
(* [jsonrpc/client/types.go:248-251] BdevGetBdevsReq, its tags *)
Definition BdevGetBdevsReq_c : codec BdevGetBdevsReq := struct_c
  (Build_BdevGetBdevsReq (c_zero string_c))
  (λ r, opt "name" string_c (BdevGetBdevsReq_BdevName r))
  (λ o, (Build_BdevGetBdevsReq, true) ⊛ (get "name" string_c o))
  (λ r, c_valid string_c (BdevGetBdevsReq_BdevName r)).
#[export] Instance BdevGetBdevsReq_ok : CodecOk BdevGetBdevsReq_c.
Proof. struct_ok. Qed.
(* [jsonrpc/client/types.go:253-255] BdevGetIostatReq *)
Record BdevGetIostatReq := {
  BdevGetIostatReq_BdevName : string }.
(* [jsonrpc/client/types.go:253-255] BdevGetIostatReq, its tags *)
Definition BdevGetIostatReq_c : codec BdevGetIostatReq := struct_c
  (Build_BdevGetIostatReq (c_zero string_c))
  (λ r, opt "name" string_c (BdevGetIostatReq_BdevName r))
  (λ o, (Build_BdevGetIostatReq, true) ⊛ (get "name" string_c o))
  (λ r, c_valid string_c (BdevGetIostatReq_BdevName r)).
#[export] Instance BdevGetIostatReq_ok : CodecOk BdevGetIostatReq_c.
Proof. struct_ok. Qed.
(* [jsonrpc/client/types.go:257-269] BdevIostat *)
Record BdevIostat := {
  BdevIostat_Name : string; BdevIostat_BytesRead : Z; BdevIostat_NumReadOps : Z; BdevIostat_BytesWritten : Z;
  BdevIostat_NumWriteOps : Z; BdevIostat_BytesUnmapped : Z; BdevIostat_NumUnmapOps : Z;
  BdevIostat_ReadLatencyTicks : Z; BdevIostat_WriteLatencyTicks : Z; BdevIostat_UnmapLatencyTicks : Z;
  BdevIostat_TimeInQueue : Z }.
(* [jsonrpc/client/types.go:257-269] BdevIostat, its tags *)
Definition BdevIostat_c : codec BdevIostat := struct_c
  (Build_BdevIostat (c_zero string_c) (c_zero uint_c) (c_zero uint_c) (c_zero uint_c) (c_zero uint_c) (c_zero uint_c) (c_zero uint_c)
    (c_zero uint_c) (c_zero uint_c) (c_zero uint_c) (c_zero uint_c))
  (λ r, fld "name" string_c (BdevIostat_Name r) ++ fld "bytes_read" uint_c (BdevIostat_BytesRead r) ++
        fld "num_read_ops" uint_c (BdevIostat_NumReadOps r) ++
        fld "bytes_written" uint_c (BdevIostat_BytesWritten r) ++
        fld "num_write_ops" uint_c (BdevIostat_NumWriteOps r) ++
        fld "bytes_unmapped" uint_c (BdevIostat_BytesUnmapped r) ++
        fld "num_unmap_ops" uint_c (BdevIostat_NumUnmapOps r) ++
        fld "read_latency_ticks" uint_c (BdevIostat_ReadLatencyTicks r) ++
        fld "write_latency_ticks" uint_c (BdevIostat_WriteLatencyTicks r) ++
        fld "unmap_latency_ticks" uint_c (BdevIostat_UnmapLatencyTicks r) ++
        fld "time_in_queue" uint_c (BdevIostat_TimeInQueue r))
  (λ o, (Build_BdevIostat, true) ⊛ (get "name" string_c o) ⊛ (get "bytes_read" uint_c o)
        ⊛ (get "num_read_ops" uint_c o) ⊛ (get "bytes_written" uint_c o) ⊛ (get "num_write_ops" uint_c o)
        ⊛ (get "bytes_unmapped" uint_c o) ⊛ (get "num_unmap_ops" uint_c o) ⊛ (get "read_latency_ticks" uint_c o)
        ⊛ (get "write_latency_ticks" uint_c o) ⊛ (get "unmap_latency_ticks" uint_c o) ⊛ (get "time_in_queue" uint_c o))
  (λ r, c_valid string_c (BdevIostat_Name r) ∧ c_valid uint_c (BdevIostat_BytesRead r) ∧
        c_valid uint_c (BdevIostat_NumReadOps r) ∧ c_valid uint_c (BdevIostat_BytesWritten r) ∧
        c_valid uint_c (BdevIostat_NumWriteOps r) ∧ c_valid uint_c (BdevIostat_BytesUnmapped r) ∧
        c_valid uint_c (BdevIostat_NumUnmapOps r) ∧ c_valid uint_c (BdevIostat_ReadLatencyTicks r) ∧
        c_valid uint_c (BdevIostat_WriteLatencyTicks r) ∧ c_valid uint_c (BdevIostat_UnmapLatencyTicks r) ∧
        c_valid uint_c (BdevIostat_TimeInQueue r)).
#[export] Instance BdevIostat_ok : CodecOk BdevIostat_c.
Proof. struct_ok. Qed.
(* [jsonrpc/client/types.go:271-275] BdevIostats *)
Record BdevIostats := {
  BdevIostats_TickRate : Z; BdevIostats_Ticks : Z; BdevIostats_Bdevs : list BdevIostat }.
(* [jsonrpc/client/types.go:271-275] BdevIostats, its tags *)
Definition BdevIostats_c : codec BdevIostats := struct_c
  (Build_BdevIostats (c_zero uint_c) (c_zero uint_c) (c_zero (list_c BdevIostat_c)))
  (λ r, fld "tick_rate" uint_c (BdevIostats_TickRate r) ++ fld "ticks" uint_c (BdevIostats_Ticks r) ++
        fld "bdevs" (list_c BdevIostat_c) (BdevIostats_Bdevs r))
  (λ o, (Build_BdevIostats, true) ⊛ (get "tick_rate" uint_c o) ⊛ (get "ticks" uint_c o)
        ⊛ (get "bdevs" (list_c BdevIostat_c) o))
  (λ r, c_valid uint_c (BdevIostats_TickRate r) ∧ c_valid uint_c (BdevIostats_Ticks r) ∧
        c_valid (list_c BdevIostat_c) (BdevIostats_Bdevs r)).
#[export] Instance BdevIostats_ok : CodecOk BdevIostats_c.
Proof. struct_ok. Qed.
(* [jsonrpc/client/types.go:296-305] Ios *)
Record Ios := {
  Ios_SubsysName : string; Ios_BytesRead : Z; Ios_NumReadOps : Z; Ios_BytesWritten : Z; Ios_NumWriteOps : Z;
  Ios_ReadLatencyTicks : Z; Ios_WriteLatencyTicks : Z; Ios_TimeInQueue : Z }.
(* [jsonrpc/client/types.go:296-305] Ios, its tags *)
Definition Ios_c : codec Ios := struct_c
  (Build_Ios (c_zero string_c) (c_zero uint_c) (c_zero uint_c) (c_zero uint_c) (c_zero uint_c) (c_zero uint_c) (c_zero uint_c)
    (c_zero uint_c))
  (λ r, fld "subsys_name" string_c (Ios_SubsysName r) ++ fld "bytes_read" uint_c (Ios_BytesRead r) ++
        fld "num_read_ops" uint_c (Ios_NumReadOps r) ++ fld "bytes_written" uint_c (Ios_BytesWritten r) ++
        fld "num_write_ops" uint_c (Ios_NumWriteOps r) ++ fld "read_latency_ticks" uint_c (Ios_ReadLatencyTicks r) ++
        fld "write_latency_ticks" uint_c (Ios_WriteLatencyTicks r) ++ fld "time_in_queue" uint_c (Ios_TimeInQueue r))
  (λ o, (Build_Ios, true) ⊛ (get "subsys_name" string_c o) ⊛ (get "bytes_read" uint_c o)
        ⊛ (get "num_read_ops" uint_c o) ⊛ (get "bytes_written" uint_c o) ⊛ (get "num_write_ops" uint_c o)
        ⊛ (get "read_latency_ticks" uint_c o) ⊛ (get "write_latency_ticks" uint_c o) ⊛ (get "time_in_queue" uint_c o))
  (λ r, c_valid string_c (Ios_SubsysName r) ∧ c_valid uint_c (Ios_BytesRead r) ∧ c_valid uint_c (Ios_NumReadOps r) ∧
        c_valid uint_c (Ios_BytesWritten r) ∧ c_valid uint_c (Ios_NumWriteOps r) ∧
        c_valid uint_c (Ios_ReadLatencyTicks r) ∧ c_valid uint_c (Ios_WriteLatencyTicks r) ∧
        c_valid uint_c (Ios_TimeInQueue r)).
#[export] Instance Ios_ok : CodecOk Ios_c.
Proof. struct_ok. Qed.
(* [jsonrpc/client/types.go:292-294] SubSystem *)
Record SubSystem := {
  SubSystem_Ios : Ios }.
(* [jsonrpc/client/types.go:292-294] SubSystem, its tags *)
Definition SubSystem_c : codec SubSystem := struct_c
  (Build_SubSystem (c_zero Ios_c))
  (λ r, fld "ios" Ios_c (SubSystem_Ios r))
  (λ o, (Build_SubSystem, true) ⊛ (get "ios" Ios_c o))
  (λ r, c_valid Ios_c (SubSystem_Ios r)).
#[export] Instance SubSystem_ok : CodecOk SubSystem_c.
Proof. struct_ok. Qed.
(* [jsonrpc/client/types.go:283-290] PoolGroup *)
Record PoolGroup := {
  PoolGroup_Name : string; PoolGroup_AdminQpairs : Z; PoolGroup_IoQpairs : Z; PoolGroup_PendingBdevIo : Z;
  PoolGroup_Transports : list string; PoolGroup_Subsystems : list SubSystem }.
(* [jsonrpc/client/types.go:283-290] PoolGroup, its tags *)
Definition PoolGroup_c : codec PoolGroup := struct_c
  (Build_PoolGroup (c_zero string_c) (c_zero uint_c) (c_zero uint_c) (c_zero uint_c) (c_zero (list_c string_c))
    (c_zero (list_c SubSystem_c)))
  (λ r, fld "name" string_c (PoolGroup_Name r) ++ fld "admin_qpairs" uint_c (PoolGroup_AdminQpairs r) ++
        fld "io_qpairs" uint_c (PoolGroup_IoQpairs r) ++ fld "pending_bdev_io" uint_c (PoolGroup_PendingBdevIo r) ++
        fld "transports" (list_c string_c) (PoolGroup_Transports r) ++
        fld "subsystems" (list_c SubSystem_c) (PoolGroup_Subsystems r))
  (λ o, (Build_PoolGroup, true) ⊛ (get "name" string_c o) ⊛ (get "admin_qpairs" uint_c o) ⊛ (get "io_qpairs" uint_c o)
        ⊛ (get "pending_bdev_io" uint_c o) ⊛ (get "transports" (list_c string_c) o)
        ⊛ (get "subsystems" (list_c SubSystem_c) o))
  (λ r, c_valid string_c (PoolGroup_Name r) ∧ c_valid uint_c (PoolGroup_AdminQpairs r) ∧
        c_valid uint_c (PoolGroup_IoQpairs r) ∧ c_valid uint_c (PoolGroup_PendingBdevIo r) ∧
        c_valid (list_c string_c) (PoolGroup_Transports r) ∧ c_valid (list_c SubSystem_c) (PoolGroup_Subsystems r)).
#[export] Instance PoolGroup_ok : CodecOk PoolGroup_c.
Proof. struct_ok. Qed.
(* [jsonrpc/client/types.go:277-281] SubsystemStat *)
Record SubsystemStat := {
  SubsystemStat_TickRate : Z; SubsystemStat_Ticks : Z; SubsystemStat_PollGroups : list PoolGroup }.
(* [jsonrpc/client/types.go:277-281] SubsystemStat, its tags *)
Definition SubsystemStat_c : codec SubsystemStat := struct_c
  (Build_SubsystemStat (c_zero uint_c) (c_zero uint_c) (c_zero (list_c PoolGroup_c)))
  (λ r, fld "tick_rate" uint_c (SubsystemStat_TickRate r) ++ fld "ticks" uint_c (SubsystemStat_Ticks r) ++
        fld "poll_groups" (list_c PoolGroup_c) (SubsystemStat_PollGroups r))
  (λ o, (Build_SubsystemStat, true) ⊛ (get "tick_rate" uint_c o) ⊛ (get "ticks" uint_c o)
        ⊛ (get "poll_groups" (list_c PoolGroup_c) o))
  (λ r, c_valid uint_c (SubsystemStat_TickRate r) ∧ c_valid uint_c (SubsystemStat_Ticks r) ∧
        c_valid (list_c PoolGroup_c) (SubsystemStat_PollGroups r)).
#[export] Instance SubsystemStat_ok : CodecOk SubsystemStat_c.
Proof. struct_ok. Qed.
(* [jsonrpc/client/types.go:307-313] NVMFSubsystemAddHostReq *)
Record NVMFSubsystemAddHostReq := {
  NVMFSubsystemAddHostReq_NQN : string; NVMFSubsystemAddHostReq_HostNQN : string;
  NVMFSubsystemAddHostReq_TargetName : string; NVMFSubsystemAddHostReq_PSKFilePath : string }.
(* [jsonrpc/client/types.go:307-313] NVMFSubsystemAddHostReq, its tags *)
Definition NVMFSubsystemAddHostReq_c : codec NVMFSubsystemAddHostReq := struct_c
  (Build_NVMFSubsystemAddHostReq (c_zero string_c) (c_zero string_c) (c_zero string_c) (c_zero string_c))
  (λ r, fld "nqn" string_c (NVMFSubsystemAddHostReq_NQN r) ++
        fld "host" string_c (NVMFSubsystemAddHostReq_HostNQN r) ++
        opt "tgt_name" string_c (NVMFSubsystemAddHostReq_TargetName r) ++
        opt "psk" string_c (NVMFSubsystemAddHostReq_PSKFilePath r))
  (λ o, (Build_NVMFSubsystemAddHostReq, true) ⊛ (get "nqn" string_c o) ⊛ (get "host" string_c o)
        ⊛ (get "tgt_name" string_c o) ⊛ (get "psk" string_c o))
  (λ r, c_valid string_c (NVMFSubsystemAddHostReq_NQN r) ∧ c_valid string_c (NVMFSubsystemAddHostReq_HostNQN r) ∧
        c_valid string_c (NVMFSubsystemAddHostReq_TargetName r) ∧
        c_valid string_c (NVMFSubsystemAddHostReq_PSKFilePath r)).
#[export] Instance NVMFSubsystemAddHostReq_ok : CodecOk NVMFSubsystemAddHostReq_c.
Proof. struct_ok. Qed.
