(* ===== verification/RpcClient.v ===== *)
(** * The JSON-RPC client of SPDK

    [pkg/spdk/jsonrpc/client/client.go], the socket, and the methods of
    [spdk*.go]. The socket and the text of JSON are the class [Socket]; a lost
    connection and an answer that is no JSON are one case of reading an answer.

    The methods implement the interfaces the services of [Spdk.v] and [SpdkBdev.v]
    are written against. [spdk_serves] says what the process at the other end does
    with a request, in terms of any implementation of the interface;
    [socket_targets] shows that the client then is that implementation, and
    [socket_laws] that it has the laws the targets are proved from. *)

From Stdlib Require Import ZArith Lia Ascii String.
From stdpp Require Import base gmap strings option list.
From S2P Require Import Prelude Strconv Misc Spdk SpdkBdev RpcTypes.

Local Open Scope Z_scope.

(** ** The socket *)

Class Socket (W : Type) := {
  net_Dial : string → go W (option error);
  conn_Close : go W (option error);
  (** the text of the value, written to the socket *)
  conn_Write : json → go W (option error);
  (** the next value read from the socket *)
  conn_Decode : go W (option json);
  json_text : json → string;
}.

(* [jsonrpc/client/client.go:15-20] Client *)
Record Client := { cli_UnixSocketFile : string; cli_id : Z }.
(* [jsonrpc/client/types.go:9-9] JSONRPCVersion *)
Definition JSONRPCVersion : string := "2.0".
(* [jsonrpc/client/types.go:50-52] RPCError.Error *)
Definition RPCError_Error (e : RPCError) : string := "Code=" +:+ Itoa (RPCError_Code e) +:+ " Msg=" +:+ RPCError_Message e.
Definition ErrJson : error := ErrNew "unexpected end of JSON input".
Definition ErrJsonType : error := ErrNew "json: cannot unmarshal value into Go value".

Section client.
Context {W : Type} {SO : Socket W}.
Abbreviation CM := (go (Client * W)).

(** Beside the error it returns a client without a connection, which its only
    caller drops: a client that is used is connected. *)
(* [jsonrpc/client/client.go:22-32] NewClient *)
Definition NewClient (unixSocket : string) : go W (result Client) :=
  err ← net_Dial unixSocket;
  mret match err with Some e => inr e | None => inl {| cli_UnixSocketFile := unixSocket; cli_id := 0 |} end.
(* [jsonrpc/client/client.go:34-39] Client.Close *)
Definition Close : CM (option error) := on_snd conn_Close.

Definition set_id (id : Z) (c : Client) : Client :=
  {| cli_UnixSocketFile := cli_UnixSocketFile c; cli_id := id |}.
Definition next_id (c : Client) : Z := uwrap64 (cli_id c + 1).
Definition request (id : Z) (method : string) (params : option json) : json :=
  c_enc RPCRequest_c {| RPCRequest_RPCVersion := JSONRPCVersion; RPCRequest_Method := method; RPCRequest_ID := id; RPCRequest_Params := params |}.
(** The error of reading the answer is dropped, and so is the answer's id. *)
(* [jsonrpc/client/client.go:41-71] Client.Call *)
Definition Call (method : string) (params : option json) : CM (option json * option error) :=
  c ← on_fst gget;
  _ ← on_fst (gput (set_id (next_id c) c));
  err ← on_snd (conn_Write (request (next_id c) method params));
  match err with
  | Some e => mret (None, Some e)
  | None =>
      answer ← on_snd conn_Decode;
      let resp := match answer with Some j => (c_dec RPCResponse_c j).1 | None => c_zero RPCResponse_c end in
      let e := RPCResponse_Error resp in
      mret (RPCResponse_Result resp, if decide (RPCError_Code e = 0) then None else Some (ErrRPC (RPCError_Code e) (RPCError_Error e)))
  end.

(** [json.Unmarshal(result, &a)]. *)
Definition Unmarshal {A} (c : codec A) (result : option json) : A * option error :=
  match result with
  | None => (c_zero c, Some ErrJson)
  | Some j => ((c_dec c j).1, if (c_dec c j).2 then None else Some ErrJsonType)
  end.
(** The methods with a result, and those without. *)
Definition call_result {A} (c : codec A) (method : string) (params : option json) : CM (A * option error) :=
  '(result, err) ← Call method params;
  mret match err with Some e => (c_zero c, Some e) | None => Unmarshal c result end.
Definition call_error (method : string) (params : option json) : CM (option error) :=
  '(bs, err) ← Call method params;
  mret match err with
       | Some e => Some (ErrNew (error_msg e +:+ match bs with Some j => json_text j | None => "" end))
       | None => None
       end.

(** ** The methods *)

(* [jsonrpc/client/spdk.go:66-74] SPDK.NVMFGetTransports *)
Definition NVMFGetTransports : CM (list Transport * option error) :=
  call_result (list_c Transport_c) "nvmf_get_transports" None.
(* [jsonrpc/client/spdk.go:77-85] SPDK.BdevGetBdevs *)
Definition BdevGetBdevs (req : BdevGetBdevsReq) : CM (list Bdev * option error) :=
  call_result (list_c Bdev_c) "bdev_get_bdevs" (Some (c_enc BdevGetBdevsReq_c req)).
(* [jsonrpc/client/spdk.go:87-94] SPDK.BdevGetIostat *)
Definition BdevGetIostat (req : BdevGetIostatReq) : CM (BdevIostats * option error) :=
  call_result BdevIostats_c "bdev_get_iostat" (Some (c_enc BdevGetIostatReq_c req)).
(* [jsonrpc/client/spdk.go:96-104] SPDK.RpcGetMethods *)
Definition RpcGetMethods : CM (list string * option error) := call_result (list_c string_c) "rpc_get_methods" None.
(* [jsonrpc/client/spdk.go:106-113] SPDK.BdevAioCreate *)
Definition BdevAioCreate (req : BdevAioCreateReq) : CM (string * option error) :=
  call_result string_c "bdev_aio_create" (Some (c_enc BdevAioCreateReq_c req)).
(* [jsonrpc/client/spdk.go:115-122] SPDK.NVMFCreateTransport *)
Definition NVMFCreateTransport (req : NVMFCreateTransportReq) : CM (bool * option error) :=
  call_result bool_c "nvmf_create_transport" (Some (c_enc NVMFCreateTransportReq_c req)).
(* [jsonrpc/client/spdk.go:125-132] SPDK.BdevAioDelete *)
Definition BdevAioDelete (req : BdevAioDeleteReq) : CM (bool * option error) :=
  call_result bool_c "bdev_aio_delete" (Some (c_enc BdevAioDeleteReq_c req)).
(* [jsonrpc/client/spdk.go:134-141] SPDK.BdevAioResize *)
Definition BdevAioResize (req : BdevAioResizeReq) : CM (bool * option error) :=
  call_result bool_c "bdev_aio_resize" (Some (c_enc BdevAioResizeReq_c req)).
(* [jsonrpc/client/spdk.go:144-151] SPDK.FrameworkGetConfig *)
Definition FrameworkGetConfig (req : FrameworkGetConfigReq) : CM (list (option fields) * option error) :=
  call_result (list_c map_c) "framework_get_config" (Some (c_enc FrameworkGetConfigReq_c req)).
(* [jsonrpc/client/spdk.go:154-161] SPDK.GetSpdkVersion *)
Definition GetSpdkVersion : CM (SpdkVersion * option error) := call_result SpdkVersion_c "spdk_get_version" None.
(* [jsonrpc/client/spdk_bdev_lvol.go:89-96] SPDK.BdevLVolCreateLVStore *)
Definition BdevLVolCreateLVStore (req : BdevLVolCreateLVStoreReq) : CM (string * option error) :=
  call_result string_c "bdev_lvol_create_lvstore" (Some (c_enc BdevLVolCreateLVStoreReq_c req)).
(* [jsonrpc/client/spdk_bdev_lvol.go:98-105] SPDK.BdevLVolGetLVStores *)
Definition BdevLVolGetLVStores (req : BdevLVolGetLVStoresReq) : CM (list LVStoreInfo * option error) :=
  call_result (list_c LVStoreInfo_c) "bdev_lvol_get_lvstores" (Some (c_enc BdevLVolGetLVStoresReq_c req)).
(* [jsonrpc/client/spdk_bdev_lvol.go:108-115] SPDK.BdevLVolCreate *)
Definition BdevLVolCreate (req : BdevLVolCreateReq) : CM (string * option error) :=
  call_result string_c "bdev_lvol_create" (Some (c_enc BdevLVolCreateReq_c req)).
(* [jsonrpc/client/spdk_bdev_lvol.go:117-124] SPDK.BdevLVolDelete *)
Definition BdevLVolDelete (req : BdevLVolDeleteReq) : CM (bool * option error) :=
  call_result bool_c "bdev_lvol_delete" (Some (c_enc BdevLVolDeleteReq_c req)).
(* [jsonrpc/client/spdk_bdev_lvol.go:126-133] SPDK.BdevLVolResize *)
Definition BdevLVolResize (req : BdevLVolResizeReq) : CM (bool * option error) :=
  call_result bool_c "bdev_lvol_resize" (Some (c_enc BdevLVolResizeReq_c req)).
(* [jsonrpc/client/spdk_bdev_lvol.go:135-142] SPDK.BdevLVolSnapshot *)
Definition BdevLVolSnapshot (req : BdevLVolSnapshotReq) : CM (string * option error) :=
  call_result string_c "bdev_lvol_snapshot" (Some (c_enc BdevLVolSnapshotReq_c req)).
(* [jsonrpc/client/spdk_bdev_lvol.go:144-151] SPDK.BdevLVolClone *)
Definition BdevLVolClone (req : BdevLVolCloneReq) : CM (string * option error) :=
  call_result string_c "bdev_lvol_clone" (Some (c_enc BdevLVolCloneReq_c req)).
(* [jsonrpc/client/spdk_bdev_lvol.go:153-160] SPDK.BdevLVolInflate *)
Definition BdevLVolInflate (req : BdevLVolInflateReq) : CM (bool * option error) :=
  call_result bool_c "bdev_lvol_inflate" (Some (c_enc BdevLVolInflateReq_c req)).
(* [jsonrpc/client/spdk_bdev_malloc.go:31-38] SPDK.CreateBdevMalloc *)
Definition CreateBdevMalloc (req : CreateBdevMallocReq) : CM (string * option error) :=
  call_result string_c "bdev_malloc_create" (Some (c_enc CreateBdevMallocReq_c req)).
(* [jsonrpc/client/spdk_bdev_malloc.go:40-47] SPDK.DeleteBdevMalloc *)
Definition DeleteBdevMalloc (req : DeleteBdevMallocReq) : CM (bool * option error) :=
  call_result bool_c "bdev_malloc_delete" (Some (c_enc DeleteBdevMallocReq_c req)).
(* [jsonrpc/client/spdk_bdev_raid.go:27-34] SPDK.CreateBdevRaid *)
Definition CreateBdevRaid (req : CreateBdevRaidRequest) : CM (bool * option error) :=
  call_result bool_c "bdev_raid_create" (Some (c_enc CreateBdevRaidRequest_c req)).
(* [jsonrpc/client/spdk_bdev_raid.go:36-43] SPDK.ListBdevRaid *)
Definition ListBdevRaid (req : ListBdevRaidRequest) : CM (list string * option error) :=
  call_result (list_c string_c) "bdev_raid_get_bdevs" (Some (c_enc ListBdevRaidRequest_c req)).
(* [jsonrpc/client/spdk_controller.go:58-65] SPDK.AttachController *)
Definition AttachController (req : AttachControllerRequest) : CM (list string * option error) :=
  call_result (list_c string_c) "bdev_nvme_attach_controller" (Some (c_enc AttachControllerRequest_c req)).
(* [jsonrpc/client/spdk_controller.go:67-74] SPDK.ListControllers *)
Definition ListControllers : CM (list ControllerInfo * option error) :=
  call_result (list_c ControllerInfo_c) "bdev_nvme_get_controllers" None.
(* [jsonrpc/client/spdk_controller.go:76-83] SPDK.DetachController *)
Definition DetachController (req : DetachControllerRequest) : CM (option error) := call_error "bdev_nvme_detach_controller" (Some (c_enc DetachControllerRequest_c req)).
(* [jsonrpc/client/spdk_migrate.go:72-88] SPDK.BdevMigrateQuery *)
Definition BdevMigrateQuery (req : BdevMigrateQueryRequest) : CM (list MigrateTask * option error) :=
  '(tasks, err) ← call_result (list_c MigrateTask_c) "bdev_migrate_query" (Some (c_enc BdevMigrateQueryRequest_c req));
  mret (filter (λ item, MigrateTask_SrcBdev item = BdevMigrateQueryRequest_SrcBdev req) tasks, err).
(* [jsonrpc/client/spdk_migrate.go:90-98] SPDK.BdevMigrateStart *)
Definition BdevMigrateStart (req : BdevMigrateStartRequest) : CM (option error) := call_error "bdev_migrate_start" (Some (c_enc BdevMigrateStartRequest_c req)).
(* [jsonrpc/client/spdk_migrate.go:100-107] SPDK.BdevMigrateSetConfig *)
Definition BdevMigrateSetConfig (req : BdevMigrateSetConfigRequest) : CM (option error) := call_error "bdev_migrate_set_config" (Some (c_enc BdevMigrateSetConfigRequest_c req)).
(* [jsonrpc/client/spdk_migrate.go:109-116] SPDK.BdevMigrateCleanupTask *)
Definition BdevMigrateCleanupTask (req : BdevMigrateStartRequest) : CM (option error) := call_error "bdev_migrate_cleanup_task" (Some (c_enc BdevMigrateStartRequest_c req)).
(* [jsonrpc/client/spdk_subsystem.go:29-37] SPDK.NVMFGetSubsystems *)
Definition NVMFGetSubsystems : CM (list Subsystem * option error) :=
  call_result (list_c Subsystem_c) "nvmf_get_subsystems" None.
(* [jsonrpc/client/spdk_subsystem.go:39-46] SPDK.NVMFCreateSubsystem *)
Definition NVMFCreateSubsystem (req : NVMFCreateSubsystemReq) : CM (bool * option error) :=
  call_result bool_c "nvmf_create_subsystem" (Some (c_enc NVMFCreateSubsystemReq_c req)).
(* [jsonrpc/client/spdk_subsystem.go:49-56] SPDK.NVMFSubsystemAddNS *)
Definition NVMFSubsystemAddNS (req : NVMFSubsystemAddNSReq) : CM (Z * option error) :=
  call_result int_c "nvmf_subsystem_add_ns" (Some (c_enc NVMFSubsystemAddNSReq_c req)).
(* [jsonrpc/client/spdk_subsystem.go:59-66] SPDK.NVMFSubsystemAddListener *)
Definition NVMFSubsystemAddListener (req : NVMFSubsystemAddListenerReq) : CM (bool * option error) :=
  call_result bool_c "nvmf_subsystem_add_listener" (Some (c_enc NVMFSubsystemAddListenerReq_c req)).
(* [jsonrpc/client/spdk_subsystem.go:69-76] SPDK.NVMFDeleteSubsystem *)
Definition NVMFDeleteSubsystem (req : NVMFDeleteSubsystemReq) : CM (bool * option error) :=
  call_result bool_c "nvmf_delete_subsystem" (Some (c_enc NVMFDeleteSubsystemReq_c req)).
(* [jsonrpc/client/spdk_subsystem.go:79-87] SPDK.FrameworkGetSubsystems *)
Definition FrameworkGetSubsystems : CM (list FrameworkGetSubsystemsItem * option error) :=
  call_result (list_c FrameworkGetSubsystemsItem_c) "framework_get_subsystems" None.
(* [jsonrpc/client/spdk_subsystem.go:89-96] SPDK.NVMFGetStats *)
Definition NVMFGetStats : CM (SubsystemStat * option error) := call_result SubsystemStat_c "nvmf_get_stats" None.
(* [jsonrpc/client/spdk_subsystem.go:98-105] SPDK.NVMFSubsystemAddHost *)
Definition NVMFSubsystemAddHost (req : NVMFSubsystemAddHostReq) : CM (bool * option error) :=
  call_result bool_c "nvmf_subsystem_add_host" (Some (c_enc NVMFSubsystemAddHostReq_c req)).
End client.

(** ** The interfaces of the services *)

Section interfaces.
Context {W : Type} {SO : Socket W}.
Abbreviation CM := (go (Client * W)).

(** [list, err = cli.Method(req)] as the services use it. *)
Definition as_result {A B} (f : A → B) (m : CM (A * option error)) : CM (result B) :=
  '(a, err) ← m; mret match err with Some e => inr e | None => inl (f a) end.

(* [spdk/service.go:16-16] DefaultSockFile *)
Definition DefaultSockFile : string := "/usr/tmp/spdk.sock".
(* [spdk/service.go:59-66] NewWithDefaultSock *)
Definition NewWithDefaultSock : CM (option error) :=
  r ← on_snd (NewClient DefaultSockFile);
  match r with
  | inr _ => mret (Some ErrorSpdkConnectionLost)
  | inl rawCli => _ ← on_fst (gput rawCli); mret None
  end.

Definition namespace_req (ns : SubsysNamespace) : NamespaceForAddNS :=
  {| NamespaceForAddNS_BdevName := ns_BdevName ns; NamespaceForAddNS_NSID := 0; NamespaceForAddNS_NGUID := "";
     NamespaceForAddNS_EUI64 := ""; NamespaceForAddNS_UUID := ns_UUID ns; NamespaceForAddNS_PtplFile := "" |}.
Definition address_req (la : Spdk.ListenAddress) : ListenAddress :=
  {| ListenAddress_TrType := la_TrType la; ListenAddress_AdrFam := la_AdrFam la; ListenAddress_TrAddr := la_TrAddr la;
     ListenAddress_TrSvcID := la_TrSvcID la |}.
(* [spdk/service_transport.go:35-41] SpdkService.InitTransport, the first request *)
Definition tcp_transport_req : NVMFCreateTransportReq :=
  {| NVMFCreateTransportReq_TrType := TransportTypeTCP; NVMFCreateTransportReq_TargetName := "";
     NVMFCreateTransportReq_MaxQueueDepth := 0; NVMFCreateTransportReq_MaxQPairsPerCtrlr := 0;
     NVMFCreateTransportReq_MaxIOQPairsPerCtrlr := 4; NVMFCreateTransportReq_InCapsuleDataSize := 1000;
     NVMFCreateTransportReq_MaxIOSize := 0; NVMFCreateTransportReq_IOUnitSize := 16384; NVMFCreateTransportReq_MaxAQDepth := 0;
     NVMFCreateTransportReq_NumSharedBuffers := 0; NVMFCreateTransportReq_BufCacheSize := 0; NVMFCreateTransportReq_NumCQE := 0;
     NVMFCreateTransportReq_MaxSRQDepth := 0; NVMFCreateTransportReq_SockPriority := 0;
     NVMFCreateTransportReq_AcceptorBacklog := 0; NVMFCreateTransportReq_AbortTimeoutSec := 0;
     NVMFCreateTransportReq_NoWrBatching := false; NVMFCreateTransportReq_DifInsertOrStrip := false;
     NVMFCreateTransportReq_C2hSuccess := false; NVMFCreateTransportReq_NoSRQ := false |}.
(* [spdk/service_transport.go:54-57] SpdkService.InitTransport, the second request *)
Definition vfio_transport_req : NVMFCreateTransportReq :=
  {| NVMFCreateTransportReq_TrType := TransportTypeVFIOUSER; NVMFCreateTransportReq_TargetName := "";
     NVMFCreateTransportReq_MaxQueueDepth := 0; NVMFCreateTransportReq_MaxQPairsPerCtrlr := 0;
     NVMFCreateTransportReq_MaxIOQPairsPerCtrlr := 0; NVMFCreateTransportReq_InCapsuleDataSize := 0;
     NVMFCreateTransportReq_MaxIOSize := 131072; NVMFCreateTransportReq_IOUnitSize := 0; NVMFCreateTransportReq_MaxAQDepth := 0;
     NVMFCreateTransportReq_NumSharedBuffers := 0; NVMFCreateTransportReq_BufCacheSize := 0; NVMFCreateTransportReq_NumCQE := 0;
     NVMFCreateTransportReq_MaxSRQDepth := 0; NVMFCreateTransportReq_SockPriority := 0;
     NVMFCreateTransportReq_AcceptorBacklog := 0; NVMFCreateTransportReq_AbortTimeoutSec := 0;
     NVMFCreateTransportReq_NoWrBatching := false; NVMFCreateTransportReq_DifInsertOrStrip := false;
     NVMFCreateTransportReq_C2hSuccess := false; NVMFCreateTransportReq_NoSRQ := false |}.
Definition transport_req (trType : string) : NVMFCreateTransportReq :=
  if decide (trType = TransportTypeTCP) then tcp_transport_req else vfio_transport_req.
Definition create_req (nqn : string) (allowAnyHost : bool) (sn mn : string) : NVMFCreateSubsystemReq :=
  {| NVMFCreateSubsystemReq_NQN := nqn; NVMFCreateSubsystemReq_TargetName := ""; NVMFCreateSubsystemReq_SerialNumber := sn;
     NVMFCreateSubsystemReq_ModelNumber := mn; NVMFCreateSubsystemReq_MaxNamespaces := 0;
     NVMFCreateSubsystemReq_AllowAnyHost := allowAnyHost; NVMFCreateSubsystemReq_ANAReporting := false |}.
Definition add_ns_req (nqn : string) (ns : SubsysNamespace) : NVMFSubsystemAddNSReq :=
  {| NVMFSubsystemAddNSReq_NQN := nqn; NVMFSubsystemAddNSReq_Namespace := namespace_req ns; NVMFSubsystemAddNSReq_TargetName := "" |}.
Definition add_listener_req (nqn : string) (la : Spdk.ListenAddress) : NVMFSubsystemAddListenerReq :=
  {| NVMFSubsystemAddListenerReq_NQN := nqn; NVMFSubsystemAddListenerReq_TargetName := "";
     NVMFSubsystemAddListenerReq_ListenAddress := address_req la |}.
Definition add_host_req (nqn hostNQN : string) : NVMFSubsystemAddHostReq :=
  {| NVMFSubsystemAddHostReq_NQN := nqn; NVMFSubsystemAddHostReq_HostNQN := hostNQN; NVMFSubsystemAddHostReq_TargetName := "";
     NVMFSubsystemAddHostReq_PSKFilePath := "" |}.
Definition delete_req (nqn : string) : NVMFDeleteSubsystemReq :=
  {| NVMFDeleteSubsystemReq_NQN := nqn; NVMFDeleteSubsystemReq_TgtName := "" |}.

(** What the services look at of an answer. *)
Definition address_view (la : ListenAddress) : Spdk.ListenAddress :=
  {| la_TrType := ListenAddress_TrType la; la_AdrFam := ListenAddress_AdrFam la; la_TrAddr := ListenAddress_TrAddr la;
     la_TrSvcID := ListenAddress_TrSvcID la |}.
Definition namespace_view (ns : Namespace) : SubsysNamespace := {| ns_BdevName := Namespace_BdevName ns; ns_UUID := Namespace_UUID ns |}.
Definition subsystem_view (s : Subsystem) : Spdk.Subsystem :=
  {| sub_NQN := Subsystem_NQN s; sub_ListenAddresses := address_view <$> Subsystem_ListenAddresses s;
     sub_Namespaces := namespace_view <$> Subsystem_Namespaces s; sub_Hosts := SubsysHost_NQN <$> Subsystem_Hosts s |}.

#[export] Instance SocketTargets : SpdkRpc (Client * W) := {|
  Spdk.rpc_dial := NewWithDefaultSock;
  Spdk.NVMFGetTransports := as_result (fmap Transport_TransType) NVMFGetTransports;
  Spdk.NVMFCreateTransport t := as_result id (NVMFCreateTransport (transport_req t));
  Spdk.NVMFGetSubsystems := as_result (fmap subsystem_view) NVMFGetSubsystems;
  Spdk.NVMFCreateSubsystem nqn h sn mn := as_result id (NVMFCreateSubsystem (create_req nqn h sn mn));
  Spdk.NVMFSubsystemAddNS nqn ns := as_result id (NVMFSubsystemAddNS (add_ns_req nqn ns));
  Spdk.NVMFSubsystemAddListener nqn la := as_result id (NVMFSubsystemAddListener (add_listener_req nqn la));
  Spdk.NVMFSubsystemAddHost nqn h := as_result id (NVMFSubsystemAddHost (add_host_req nqn h));
  Spdk.NVMFDeleteSubsystem nqn := as_result id (NVMFDeleteSubsystem (delete_req nqn));
|}.
End interfaces.

(** ** The process at the other end *)

Section served.
Context {W : Type} {SO : Socket W}.
Abbreviation CM := (go (Client * W)).

Definition good_answer (id : Z) (result : json) : json := JObj [("jsonrpc", JStr JSONRPCVersion); ("id", JNum id); ("result", result)].
Definition bad_answer (id code : Z) (message : string) : json :=
  JObj [("jsonrpc", JStr JSONRPCVersion); ("id", JNum id); ("error", JObj [("code", JNum code); ("message", JStr message)])].
Definition rpc_error (code : Z) (message : string) : error :=
  ErrRPC code (RPCError_Error {| RPCError_Code := code; RPCError_Message := message |}).

(** It does [op] for the request and answers with its result, shown as [show]. *)
Definition answers {A B} (c : codec A) (show : B → A) (method : string) (params : option json) (op : go W (result B)) : Prop :=
  ∀ id w, is_uint64 id → ∃ w1, conn_Write (request id method params) w = Ret None w1 ∧
    match op w with
    | Ret (inl b) w' => c_valid c (show b) ∧ conn_Decode w1 = Ret (Some (good_answer id (c_enc c (show b)))) w'
    | Ret (inr e) w' => ∃ code message, code ≠ 0 ∧ is_int64 code ∧ e = rpc_error code message ∧
        conn_Decode w1 = Ret (Some (bad_answer id code message)) w'
    | Panic _ _ => False
    end.

(** The process serves what [SV] does. *)
Record spdk_serves (SV : SpdkRpc W) (show_transport : string → Transport) (show_subsystem : Spdk.Subsystem → Subsystem) : Prop := {
  sv_transport t : Transport_TransType (show_transport t) = t;
  sv_subsystem s : subsystem_view (show_subsystem s) = s;
  sv_get_transports : answers (list_c Transport_c) (fmap show_transport) "nvmf_get_transports" None Spdk.NVMFGetTransports;
  sv_create_transport t : answers bool_c id "nvmf_create_transport" (Some (c_enc NVMFCreateTransportReq_c (transport_req t)))
    (Spdk.NVMFCreateTransport t);
  sv_get_subsystems : answers (list_c Subsystem_c) (fmap show_subsystem) "nvmf_get_subsystems" None Spdk.NVMFGetSubsystems;
  sv_create_subsystem nqn h sn mn : answers bool_c id "nvmf_create_subsystem"
    (Some (c_enc NVMFCreateSubsystemReq_c (create_req nqn h sn mn))) (Spdk.NVMFCreateSubsystem nqn h sn mn);
  sv_add_ns nqn ns : answers int_c id "nvmf_subsystem_add_ns" (Some (c_enc NVMFSubsystemAddNSReq_c (add_ns_req nqn ns)))
    (Spdk.NVMFSubsystemAddNS nqn ns);
  sv_add_listener nqn la : answers bool_c id "nvmf_subsystem_add_listener"
    (Some (c_enc NVMFSubsystemAddListenerReq_c (add_listener_req nqn la))) (Spdk.NVMFSubsystemAddListener nqn la);
  sv_add_host nqn h : answers bool_c id "nvmf_subsystem_add_host" (Some (c_enc NVMFSubsystemAddHostReq_c (add_host_req nqn h)))
    (Spdk.NVMFSubsystemAddHost nqn h);
  sv_delete nqn : answers bool_c id "nvmf_delete_subsystem" (Some (c_enc NVMFDeleteSubsystemReq_c (delete_req nqn)))
    (Spdk.NVMFDeleteSubsystem nqn);
}.

(** *** One call *)

Lemma good_read id j : let resp := (c_dec RPCResponse_c (good_answer id j)).1 in
  RPCResponse_Result resp = Some j ∧ RPCError_Code (RPCResponse_Error resp) = 0.
Proof. done. Qed.
Lemma bad_read id code message : is_int64 code →
  RPCResponse_Error (c_dec RPCResponse_c (bad_answer id code message)).1 = {| RPCError_Code := code; RPCError_Message := message |}.
Proof.
  intros H. change (RPCResponse_Error (c_dec RPCResponse_c (bad_answer id code message)).1) with
    ({| RPCError_Code := (c_dec int_c (JNum code)).1; RPCError_Message := message |}). by rewrite (co_read (c := int_c)) by (apply bool_decide_eq_true; done).
Qed.

(** What the client does, when the process does [op]. *)
Definition over_socket {B} (op : go W (result B)) : CM (result B) := λ '(c, w),
  match op w with Ret r w' => Ret r (set_id (next_id c) c, w') | Panic why w' => Panic why (set_id (next_id c) c, w') end.
Lemma call_answered {A B} (c : codec A) (show : B → A) (f : A → B) method params op : CodecOk c → (∀ b, f (show b) = b) →
  answers c show method params op → ∀ cl w, as_result f (call_result c method params) (cl, w) = over_socket op (cl, w).
Proof.
  intros K Hf Ha cl w. destruct (Ha (next_id cl) w (uwrap64_range _)) as (w1 & Hw & Hop). unfold as_result, call_result, Call, over_socket, on_fst, on_snd.
  go_simpl. rewrite Hw. cbn beta iota. cbn [fst snd]. destruct (op w) as [[b|e] w'|]; [..|done].
  - destruct Hop as [V ->]. cbn beta iota. cbn [fst snd]. destruct (good_read (next_id cl) (c_enc c (show b))) as [-> ->].
    rewrite decide_True by done. cbn [Unmarshal]. rewrite co_read by done. cbn [fst snd]. by rewrite Hf.
  - destruct Hop as (code & message & Hc & Hi & -> & ->). cbn beta iota. cbn [fst snd]. rewrite bad_read by done.
    cbn [RPCError_Code]. by rewrite decide_False by done.
Qed.

Lemma fmap_inverse {A B} (f : A → B) (g : B → A) (l : list B) : (∀ b, f (g b) = b) → f <$> (g <$> l) = l.
Proof. intros H. induction l as [|b l IH]; [done|]. by rewrite !fmap_cons, H, IH. Qed.

(** C34. The JSON-RPC client is transparent: when the process at the other end of
    the socket does for every request what some implementation of the interface
    does, then every call the service makes for its targets does exactly that,
    results and errors included, whatever the state. *)
Theorem socket_targets SV show_transport show_subsystem : spdk_serves SV show_transport show_subsystem → ∀ s : Client * W,
  Spdk.NVMFGetTransports s = over_socket (Spdk.NVMFGetTransports (SpdkRpc := SV)) s ∧
  (∀ t, Spdk.NVMFCreateTransport t s = over_socket (Spdk.NVMFCreateTransport (SpdkRpc := SV) t) s) ∧
  Spdk.NVMFGetSubsystems s = over_socket (Spdk.NVMFGetSubsystems (SpdkRpc := SV)) s ∧
  (∀ nqn h sn mn, Spdk.NVMFCreateSubsystem nqn h sn mn s = over_socket (Spdk.NVMFCreateSubsystem (SpdkRpc := SV) nqn h sn mn) s) ∧
  (∀ nqn ns, Spdk.NVMFSubsystemAddNS nqn ns s = over_socket (Spdk.NVMFSubsystemAddNS (SpdkRpc := SV) nqn ns) s) ∧
  (∀ nqn la, Spdk.NVMFSubsystemAddListener nqn la s = over_socket (Spdk.NVMFSubsystemAddListener (SpdkRpc := SV) nqn la) s) ∧
  (∀ nqn h, Spdk.NVMFSubsystemAddHost nqn h s = over_socket (Spdk.NVMFSubsystemAddHost (SpdkRpc := SV) nqn h) s) ∧
  ∀ nqn, Spdk.NVMFDeleteSubsystem nqn s = over_socket (Spdk.NVMFDeleteSubsystem (SpdkRpc := SV) nqn) s.
Proof.
  intros H [c w]. pose proof (λ l, fmap_inverse Transport_TransType show_transport l (sv_transport _ _ _ H)) as Ht.
  pose proof (λ l, fmap_inverse subsystem_view show_subsystem l (sv_subsystem _ _ _ H)) as Hs. repeat match goal with |- _ ∧ _ => split end; intros.
  - exact (call_answered (list_c Transport_c) _ _ _ _ _ _ Ht (sv_get_transports _ _ _ H) c w).
  - exact (call_answered bool_c id id _ _ _ _ (λ _, eq_refl) (sv_create_transport _ _ _ H t) c w).
  - exact (call_answered (list_c Subsystem_c) _ _ _ _ _ _ Hs (sv_get_subsystems _ _ _ H) c w).
  - exact (call_answered bool_c id id _ _ _ _ (λ _, eq_refl) (sv_create_subsystem _ _ _ H nqn h sn mn) c w).
  - exact (call_answered int_c id id _ _ _ _ (λ _, eq_refl) (sv_add_ns _ _ _ H nqn ns) c w).
  - exact (call_answered bool_c id id _ _ _ _ (λ _, eq_refl) (sv_add_listener _ _ _ H nqn la) c w).
  - exact (call_answered bool_c id id _ _ _ _ (λ _, eq_refl) (sv_add_host _ _ _ H nqn h) c w).
  - exact (call_answered bool_c id id _ _ _ _ (λ _, eq_refl) (sv_delete _ _ _ H nqn) c w).
Qed.

(** The laws of the targets hold over the socket. *)
Definition socket_laws (SV : SpdkRpc W) (LV : SpdkRpcLaws SV) show_transport show_subsystem (H : spdk_serves SV show_transport show_subsystem)
    (Hdial : ∀ sock w, ∃ r w', net_Dial sock w = Ret r w' ∧ subs w' = subs w) : SpdkRpcLaws (SocketTargets (W := W)).
Proof.
  pose proof (λ l, fmap_inverse Transport_TransType show_transport l (sv_transport _ _ _ H)) as Ht.
  pose proof (λ l, fmap_inverse subsystem_view show_subsystem l (sv_subsystem _ _ _ H)) as Hs.
  refine {| subs s := subs s.2 |}; cbn [Spdk.rpc_dial Spdk.NVMFGetTransports Spdk.NVMFCreateTransport Spdk.NVMFGetSubsystems Spdk.NVMFCreateSubsystem
    Spdk.NVMFSubsystemAddNS Spdk.NVMFSubsystemAddListener Spdk.NVMFSubsystemAddHost Spdk.NVMFDeleteSubsystem SocketTargets].
  - intros [c w]. unfold NewWithDefaultSock, NewClient, on_fst, on_snd. go_simpl. destruct (Hdial DefaultSockFile w) as (r & w' & -> & Hw).
    cbn beta iota. destruct r as [e|]; cbn beta iota; by eexists _, _.
  - intros [c w]. destruct (law_transports w) as (r & w' & E & Hw). eexists _, _. split.
    { unfold NVMFGetTransports. rewrite (call_answered _ _ _ _ _ _ _ Ht (sv_get_transports _ _ _ H)). cbn. by rewrite E. } done.
  - intros t [c w]. destruct (law_create_transport t w) as (r & w' & E & Hw). eexists _, _. split.
    { unfold NVMFCreateTransport. rewrite (call_answered bool_c id id _ _ _ _ (λ _, eq_refl) (sv_create_transport _ _ _ H t)). cbn. by rewrite E. } done.
  - intros [c w]. destruct (law_get w) as (r & w' & E & Hw). eexists _, _. split.
    { unfold NVMFGetSubsystems. rewrite (call_answered _ _ _ _ _ _ _ Hs (sv_get_subsystems _ _ _ H)). cbn. by rewrite E. } done.
  - intros nqn h sn mn [c w]. destruct (law_create nqn h sn mn w) as (r & w' & E & Hw). eexists _, _. split.
    { unfold NVMFCreateSubsystem. rewrite (call_answered bool_c id id _ _ _ _ (λ _, eq_refl) (sv_create_subsystem _ _ _ H nqn h sn mn)). cbn. by rewrite E. } done.
  - intros nqn ns [c w]. destruct (law_add_ns nqn ns w) as (r & w' & E & Hw). eexists _, _. split.
    { unfold NVMFSubsystemAddNS. rewrite (call_answered int_c id id _ _ _ _ (λ _, eq_refl) (sv_add_ns _ _ _ H nqn ns)). cbn. by rewrite E. } done.
  - intros nqn la [c w]. destruct (law_add_listener nqn la w) as (r & w' & E & Hw). eexists _, _. split.
    { unfold NVMFSubsystemAddListener. rewrite (call_answered bool_c id id _ _ _ _ (λ _, eq_refl) (sv_add_listener _ _ _ H nqn la)). cbn. by rewrite E. } done.
  - intros nqn h [c w]. destruct (law_add_host nqn h w) as (r & w' & E & Hw). eexists _, _. split.
    { unfold NVMFSubsystemAddHost. rewrite (call_answered bool_c id id _ _ _ _ (λ _, eq_refl) (sv_add_host _ _ _ H nqn h)). cbn. by rewrite E. } done.
  - intros nqn [c w]. destruct (law_delete nqn w) as (r & w' & E & Hw). eexists _, _. split.
    { unfold NVMFDeleteSubsystem. rewrite (call_answered bool_c id id _ _ _ _ (λ _, eq_refl) (sv_delete _ _ _ H nqn)). cbn. by rewrite E. } done.
Defined.

(** ** Answers that are lost *)

Lemma call_lost method params c w w1 w2 : conn_Write (request (next_id c) method params) w = Ret None w1 → conn_Decode w1 = Ret None w2 →
  Call method params (c, w) = Ret (None, None) (set_id (next_id c) c, w2).
Proof. intros Hw Hd. unfold Call, on_fst, on_snd. go_simpl. rewrite Hw. cbn beta iota. cbn [fst snd]. by rewrite Hd. Qed.

(** C37. A lost answer counts as a success: when the connection breaks after the
    request was written, the error of reading the answer is dropped. The methods
    with a result fail on the empty answer, but starting, configuring and cleaning
    up a migration and detaching a controller report that all went well. *)
Theorem lost_answer_is_success (w : W) : (∀ id method params, ∃ w1 w2, conn_Write (request id method params) w = Ret None w1 ∧ conn_Decode w1 = Ret None w2) →
  ∀ c, (∀ req, run_val (BdevMigrateStart req (c, w)) = Some None) ∧ (∀ req, run_val (BdevMigrateSetConfig req (c, w)) = Some None) ∧
  (∀ req, run_val (BdevMigrateCleanupTask req (c, w)) = Some None) ∧ (∀ req, run_val (DetachController req (c, w)) = Some None) ∧
  ∀ A (k : codec A) method params, run_val (call_result k method params (c, w)) = Some (c_zero k, Some ErrJson).
Proof.
  intros H c. assert (∀ method params, run_val (call_error method params (c, w)) = Some None) as Hc.
  { intros method params. destruct (H (next_id c) method params) as (w1 & w2 & Hw & Hd). unfold call_error. go_simpl. by rewrite (call_lost _ _ _ _ _ _ Hw Hd). }
  split_and!; intros; [apply Hc..|]. destruct (H (next_id c) method params) as (w1 & w2 & Hw & Hd). unfold call_result. go_simpl.
  by rewrite (call_lost _ _ _ _ _ _ Hw Hd).
Qed.
(** The answer's id is not looked at: an answer to another request is taken. *)
Lemma answer_id_unchecked method params id j c w w1 w2 :
  conn_Write (request (next_id c) method params) w = Ret None w1 → conn_Decode w1 = Ret (Some (good_answer id j)) w2 →
  Call method params (c, w) = Ret (Some j, None) (set_id (next_id c) c, w2).
Proof. intros Hw Hd. unfold Call, on_fst, on_snd. go_simpl. rewrite Hw. cbn beta iota. cbn [fst snd]. by rewrite Hd. Qed.
End served.

(** ** A process in memory *)

Module SocketExample.
(** The request that was written last waits to be read. *)
Definition world : Type := FakeNode * option json.
Definition inner {A} (op : go FakeNode A) : go world A := λ '(n, _),
  match op n with Ret a n' => Ret a (n', None) | Panic why n' => Panic why (n', None) end.
#[export] Instance process : SpdkRpc world := {|
  Spdk.rpc_dial := mret None;
  Spdk.NVMFGetTransports := inner Spdk.NVMFGetTransports;
  Spdk.NVMFCreateTransport t := inner (Spdk.NVMFCreateTransport t);
  Spdk.NVMFGetSubsystems := inner Spdk.NVMFGetSubsystems;
  Spdk.NVMFCreateSubsystem nqn h sn mn := inner (Spdk.NVMFCreateSubsystem nqn h sn mn);
  Spdk.NVMFSubsystemAddNS nqn ns := inner (Spdk.NVMFSubsystemAddNS nqn ns);
  Spdk.NVMFSubsystemAddListener nqn la := inner (Spdk.NVMFSubsystemAddListener nqn la);
  Spdk.NVMFSubsystemAddHost nqn h := inner (Spdk.NVMFSubsystemAddHost nqn h);
  Spdk.NVMFDeleteSubsystem nqn := inner (Spdk.NVMFDeleteSubsystem nqn);
|}.
Definition show_transport (t : string) : Transport := {| Transport_TransType := t; Transport_MaxQueueDepth := 128 |}.
Definition show_subsystem (s : Spdk.Subsystem) : Subsystem := {|
  Subsystem_NQN := sub_NQN s; Subsystem_ListenAddresses := address_req <$> sub_ListenAddresses s; Subsystem_AllowAnyHost := true;
  Subsystem_SerialNum := ""; Subsystem_ModelNum := "";
  Subsystem_Namespaces := (λ ns, {| Namespace_NsID := 1; Namespace_BdevName := ns_BdevName ns; Namespace_Name := ns_BdevName ns; Namespace_UUID := ns_UUID ns |}) <$> sub_Namespaces s;
  Subsystem_Hosts := (λ h, {| SubsysHost_NQN := h |}) <$> sub_Hosts s |}.

Definition reply {A B} (c : codec A) (show : B → A) (id : Z) (op : go world (result B)) : go world (option json) :=
  r ← op;
  mret match r with
       | inl b => Some (good_answer id (c_enc c (show b)))
       | inr (ErrRPC code message) => Some (bad_answer id code message)
       | inr _ => None
       end.
Definition params_as {A} (c : codec A) (params : option json) : A := match params with Some j => (c_dec c j).1 | None => c_zero c end.
Definition show_bdev (b : SpdkBdev.Bdev) : Bdev := {|
  Bdev_Name := bdev_Name b; Bdev_Aliases := bdev_Aliases b; Bdev_ProductName := ""; Bdev_UUID := bdev_UUID b;
  Bdev_BlockSize := bdev_BlockSize b; Bdev_NumBlocks := bdev_NumBlocks b;
  Bdev_Driver := {| DriverSpecific_AIO := {| AIODriver_Filename := "" |} |};
  Bdev_RateLimits := {| AssignedRateLimits_RWIops := 0; AssignedRateLimits_RWMbytes := 0; AssignedRateLimits_RMbytes := 0; AssignedRateLimits_WMbytes := 0 |} |}.
(** A device whose size is no [int] is not shown. *)
Definition get_bdevs (id : Z) (name : string) : go world (option json) := λ '(n, _),
  Ret (match fn_bdevs n !! name with
       | Some b => if decide (is_int64 (bdev_BlockSize b) ∧ is_int64 (bdev_NumBlocks b))
                   then Some (good_answer id (c_enc (list_c Bdev_c) [show_bdev b])) else None
       | None => Some (bad_answer id ErrorCodeNoDevice "No such device")
       end) (n, None).
(** Of the requests about block devices it answers one; at the others the
    connection breaks. *)
Definition serve (req : RPCRequest) : go world (option json) :=
  let id := RPCRequest_ID req in let p := RPCRequest_Params req in let for_method m := bool_decide (RPCRequest_Method req = m) in
  if for_method "nvmf_get_transports" then reply (list_c Transport_c) (fmap show_transport) id Spdk.NVMFGetTransports
  else if for_method "nvmf_create_transport" then
    reply bool_c Datatypes.id id (Spdk.NVMFCreateTransport (NVMFCreateTransportReq_TrType (params_as NVMFCreateTransportReq_c p)))
  else if for_method "nvmf_get_subsystems" then reply (list_c Subsystem_c) (fmap show_subsystem) id Spdk.NVMFGetSubsystems
  else if for_method "nvmf_create_subsystem" then let r := params_as NVMFCreateSubsystemReq_c p in
    reply bool_c Datatypes.id id (Spdk.NVMFCreateSubsystem (NVMFCreateSubsystemReq_NQN r) (NVMFCreateSubsystemReq_AllowAnyHost r)
      (NVMFCreateSubsystemReq_SerialNumber r) (NVMFCreateSubsystemReq_ModelNumber r))
  else if for_method "nvmf_subsystem_add_ns" then let r := params_as NVMFSubsystemAddNSReq_c p in let ns := NVMFSubsystemAddNSReq_Namespace r in
    reply int_c Datatypes.id id (Spdk.NVMFSubsystemAddNS (NVMFSubsystemAddNSReq_NQN r)
      {| ns_BdevName := NamespaceForAddNS_BdevName ns; ns_UUID := NamespaceForAddNS_UUID ns |})
  else if for_method "nvmf_subsystem_add_listener" then let r := params_as NVMFSubsystemAddListenerReq_c p in
    reply bool_c Datatypes.id id (Spdk.NVMFSubsystemAddListener (NVMFSubsystemAddListenerReq_NQN r) (address_view (NVMFSubsystemAddListenerReq_ListenAddress r)))
  else if for_method "nvmf_subsystem_add_host" then let r := params_as NVMFSubsystemAddHostReq_c p in
    reply bool_c Datatypes.id id (Spdk.NVMFSubsystemAddHost (NVMFSubsystemAddHostReq_NQN r) (NVMFSubsystemAddHostReq_HostNQN r))
  else if for_method "nvmf_delete_subsystem" then
    reply bool_c Datatypes.id id (Spdk.NVMFDeleteSubsystem (NVMFDeleteSubsystemReq_NQN (params_as NVMFDeleteSubsystemReq_c p)))
  else if for_method "bdev_get_bdevs" then get_bdevs id (BdevGetBdevsReq_BdevName (params_as BdevGetBdevsReq_c p))
  else mret None.
#[export] Instance socket : Socket world := {|
  net_Dial _ := mret None; conn_Close := mret None; json_text _ := "";
  conn_Write j := λ '(n, _), Ret None (n, Some j);
  conn_Decode := λ '(n, p), match p with Some j => serve (c_dec RPCRequest_c j).1 (n, None) | None => Ret None (n, None) end |}.
Lemma request_read id method params : is_uint64 id → (c_dec RPCRequest_c (request id method params)).1 =
  {| RPCRequest_RPCVersion := JSONRPCVersion; RPCRequest_Method := method; RPCRequest_ID := id; RPCRequest_Params := params |}.
Proof.
  intros H. assert ((c_dec uint_c (JNum id)).1 = id) as E by (by rewrite (co_read (c := uint_c)) by (apply bool_decide_eq_true; done)).
  transitivity {| RPCRequest_RPCVersion := JSONRPCVersion; RPCRequest_Method := method; RPCRequest_ID := (c_dec uint_c (JNum id)).1; RPCRequest_Params := params |};
    [by destruct params|by rewrite E].
Qed.
Lemma reply_answers {A B} (c : codec A) (show : B → A) method params (op : go world (result B)) :
  (∀ n p p', op (n, p) = op (n, p')) → (∀ w, match op w with Ret (inl b) _ => c_valid c (show b) | Ret (inr _) _ => False | Panic _ _ => False end) →
  (∀ id w, serve {| RPCRequest_RPCVersion := JSONRPCVersion; RPCRequest_Method := method; RPCRequest_ID := id; RPCRequest_Params := params |} w = reply c show id op w) →
  answers c show method params op.
Proof.
  intros Hp Hv Hs id [n p] Hid. eexists. split; [reflexivity|]. cbn [conn_Decode socket]. rewrite request_read by done.
  specialize (Hv (n, p)). assert (conn_Decode (n, Some (request id method params)) = reply c show id op (n, None)) as E.
  { cbn [conn_Decode socket]. rewrite request_read by done. apply Hs. }
  rewrite (Hp n p None) in *. unfold reply in E. go_simpl. destruct (op (n, None)) as [[b|e] w'|]; [|done..]. split; [done|]. cbn beta iota in E.
  cbn [conn_Decode socket] in E. by rewrite request_read in E by done.
Qed.
Lemma params_read {A} (c : codec A) r : CodecOk c → c_valid c r → params_as c (Some (c_enc c r)) = r.
Proof. intros K V. unfold params_as. by rewrite co_read. Qed.
Lemma show_subsystem_valid s : c_valid Subsystem_c (show_subsystem s).
Proof. cbn. split_and!; try done; apply Forall_fmap, Forall_true; cbn; done. Qed.
Lemma process_served : spdk_serves process show_transport show_subsystem.
Proof.
  split; try (intros; apply reply_answers; [done|intros [n p]; cbn -[Subsystem_c show_subsystem]; repeat constructor|intros i w; cbn [params_as]; try done]).
  - done.
  - intros [nqn las nss hs]. unfold subsystem_view, show_subsystem. cbn [Subsystem_NQN Subsystem_ListenAddresses Subsystem_Namespaces Subsystem_Hosts sub_NQN sub_ListenAddresses sub_Namespaces sub_Hosts].
    f_equal; apply fmap_inverse; [by intros []|by intros []|done].
  - apply Forall_fmap, Forall_true. intros s. apply show_subsystem_valid.
  - transitivity (let r := params_as NVMFCreateSubsystemReq_c (Some (c_enc NVMFCreateSubsystemReq_c (create_req nqn h sn mn))) in
      reply bool_c Datatypes.id i (Spdk.NVMFCreateSubsystem (NVMFCreateSubsystemReq_NQN r) (NVMFCreateSubsystemReq_AllowAnyHost r)
        (NVMFCreateSubsystemReq_SerialNumber r) (NVMFCreateSubsystemReq_ModelNumber r)) w); [reflexivity|].
    rewrite params_read by (try apply _; cbn; auto 10). done.
  - transitivity (let r := params_as NVMFSubsystemAddNSReq_c (Some (c_enc NVMFSubsystemAddNSReq_c (add_ns_req nqn ns))) in let n := NVMFSubsystemAddNSReq_Namespace r in
      reply int_c Datatypes.id i (Spdk.NVMFSubsystemAddNS (NVMFSubsystemAddNSReq_NQN r)
        {| ns_BdevName := NamespaceForAddNS_BdevName n; ns_UUID := NamespaceForAddNS_UUID n |}) w); [reflexivity|].
    rewrite params_read by (try apply _; cbn; auto 20). by destruct ns.
  - transitivity (let r := params_as NVMFSubsystemAddListenerReq_c (Some (c_enc NVMFSubsystemAddListenerReq_c (add_listener_req nqn la))) in
      reply bool_c Datatypes.id i (Spdk.NVMFSubsystemAddListener (NVMFSubsystemAddListenerReq_NQN r) (address_view (NVMFSubsystemAddListenerReq_ListenAddress r))) w); [reflexivity|].
    rewrite params_read by (try apply _; cbn; auto 20). by destruct la.
Qed.
#[export] Instance process_laws : SpdkRpcLaws process.
Proof. refine {| subs w := fn_subs w.1 |}; intros; destruct w; (eexists _, _; (split; [reflexivity|])); done. Defined.
#[export] Instance socket_example_laws : SpdkRpcLaws (SocketTargets (W := world)).
Proof.
  refine (socket_laws process process_laws show_transport show_subsystem process_served _). intros sock w. by exists None, w.
Defined.
End SocketExample.

Section socket_witnesses.
Import SocketExample.
Lemma socket_targets_witness :
  let s := ({| cli_UnixSocketFile := DefaultSockFile; cli_id := 4 |}, (ex_node, None)) : Client * world in
  Spdk.NVMFCreateSubsystem "nqn" true "sn" "mn" s = over_socket (Spdk.NVMFCreateSubsystem (SpdkRpc := process) "nqn" true "sn" "mn") s ∧
  run_val (Spdk.NVMFCreateSubsystem "nqn" true "sn" "mn" s) = Some (inl true).
Proof.
  intros s. destruct (socket_targets process show_transport show_subsystem process_served s) as (_ & _ & _ & H & _).
  split; [apply H|by rewrite H].
Defined.
Lemma lost_answer_is_success_witness :
  run_val (BdevMigrateStart (W := unit) (SO := {| net_Dial _ := mret None; conn_Close := mret None; json_text _ := ""; conn_Write _ := mret None; conn_Decode := mret None |})
    {| BdevMigrateStartRequest_SrcBdev := "a"; BdevMigrateStartRequest_DstBdev := "b"; BdevMigrateStartRequest_AutoSwitch := false |}
    ({| cli_UnixSocketFile := DefaultSockFile; cli_id := 0 |}, tt)) = Some None.
Proof.
  destruct (lost_answer_is_success (W := unit) (SO := {| net_Dial _ := mret None; conn_Close := mret None; json_text _ := ""; conn_Write _ := mret None; conn_Decode := mret None |})
    tt (λ _ _ _, ex_intro _ tt (ex_intro _ tt (conj eq_refl eq_refl))) {| cli_UnixSocketFile := DefaultSockFile; cli_id := 0 |}) as [H _]. apply H.
Defined.
End socket_witnesses.
