(* ===== verification/RpcBdev.v ===== *)
(** * Block devices over the socket

    The calls of [SpdkBdev.v] made through the JSON-RPC client of [RpcClient.v]:
    [SocketBdevs] is what [pkg/spdk/service_*.go] hand to the client's methods.

    The process at the other end may answer a request, refuse the connection, or
    the connection breaks before the answer, when the request was carried out or
    not ([serves]). [socket_bdev_laws] shows that the client then has the laws the
    operations on block devices are proved from, with a lost answer to
    [DetachController] as the case its success leaves open. *)

From Stdlib Require Import ZArith Lia Ascii String.
From stdpp Require Import base gmap strings option list.
From S2P Require Import Prelude Strconv Misc Spdk SpdkBdev RpcTypes RpcClient.

Local Open Scope Z_scope.

(** ** The requests *)

(* [spdk/service_aio.go:53-53] SpdkService.CreateAioBdev, the first request *)
Definition get_bdevs_req (name : string) : BdevGetBdevsReq := {| BdevGetBdevsReq_BdevName := name |}.
(* [spdk/service_aio.go:70-74] SpdkService.CreateAioBdev, the second request *)
Definition aio_create_req (name file : string) (blockSize : Z) : BdevAioCreateReq :=
  {| BdevAioCreateReq_BdevName := name; BdevAioCreateReq_FileName := file; BdevAioCreateReq_BlockSize := blockSize |}.
(* [spdk/service_lvol.go:155-159] SpdkService.CreateLvol, the second request *)
Definition lvol_create_req (lvol : string) (size : Z) (lvs : string) : BdevLVolCreateReq :=
  {| BdevLVolCreateReq_LVolName := lvol; BdevLVolCreateReq_Size := size; BdevLVolCreateReq_ThinProvision := false;
     BdevLVolCreateReq_UUID := ""; BdevLVolCreateReq_LvsName := lvs; BdevLVolCreateReq_ClearMethod := "" |}.
(* [spdk/service_lvol.go:476-480] SpdkService.CreateLVStore, the second request *)
Definition lvstore_create_req (base name : string) (clusterSize : Z) : BdevLVolCreateLVStoreReq :=
  {| BdevLVolCreateLVStoreReq_BdevName := base; BdevLVolCreateLVStoreReq_LvsName := name;
     BdevLVolCreateLVStoreReq_ClusterSize := clusterSize; BdevLVolCreateLVStoreReq_ClearMethod := "" |}.
(* [spdk/service_migrate.go:72-79] SpdkService.EnsureMigrationDestBdev, the second request *)
Definition attach_req (req : SpdkBdev.AttachControllerRequest) : AttachControllerRequest :=
  {| AttachControllerRequest_TrType := acr_TrType req; AttachControllerRequest_TrAddr := acr_TrAddr req;
     AttachControllerRequest_Name := acr_Name req; AttachControllerRequest_AdrFam := acr_AdrFam req;
     AttachControllerRequest_TrSvcId := acr_TrSvcId req; AttachControllerRequest_SubNQN := acr_SubNQN req;
     AttachControllerRequest_HostNQN := ""; AttachControllerRequest_HostAddr := ""; AttachControllerRequest_HostSvcId := "" |}.
(* [spdk/service_lvol.go:442-447] SpdkService.CreateBdevRaid, the second request *)
Definition raid_req (req : SpdkBdev.CreateBdevRaidRequest) : CreateBdevRaidRequest :=
  {| CreateBdevRaidRequest_Name := rr_Name req; CreateBdevRaidRequest_RaidLevel := rr_RaidLevel req;
     CreateBdevRaidRequest_StripSizeKB := rr_StripSizeKB req; CreateBdevRaidRequest_BaseBdevs := rr_BaseBdevs req |}.
(* [spdk/service_migrate.go:161-161] SpdkService.StartMigrationTask, its request *)
Definition migrate_start_req (req : MigrateStartRequest) : BdevMigrateStartRequest :=
  {| BdevMigrateStartRequest_SrcBdev := msr_SrcBdev req; BdevMigrateStartRequest_DstBdev := msr_DstBdev req;
     BdevMigrateStartRequest_AutoSwitch := msr_AutoSwitch req |}.
(* [spdk/service_migrate.go:199-199] SpdkService.SetMigrationConfig, its request *)
Definition migrate_config_req (req : MigrateConfigRequest) : BdevMigrateSetConfigRequest :=
  {| BdevMigrateSetConfigRequest_SrcBdev := mcr_SrcBdev req; BdevMigrateSetConfigRequest_DstBdev := mcr_DstBdev req;
     BdevMigrateSetConfigRequest_AutoSwitch := mcr_AutoSwitch req;
     BdevMigrateSetConfigRequest_LastRoundExtends := mcr_LastRoundExtends req;
     BdevMigrateSetConfigRequest_LastRoundSize := mcr_LastRoundSize req |}.
Definition query_req (src : string) (history : bool) : BdevMigrateQueryRequest :=
  {| BdevMigrateQueryRequest_SrcBdev := src; BdevMigrateQueryRequest_ListHistory := history |}.

(** What the services look at of an answer. *)
Definition bdev_view (b : Bdev) : SpdkBdev.Bdev :=
  {| bdev_Name := Bdev_Name b; bdev_Aliases := Bdev_Aliases b; bdev_UUID := Bdev_UUID b;
     bdev_BlockSize := Bdev_BlockSize b; bdev_NumBlocks := Bdev_NumBlocks b |}.
Definition lvstore_view (l : LVStoreInfo) : SpdkBdev.LVStoreInfo :=
  {| lvsi_UUID := LVStoreInfo_UUID l; lvsi_Name := LVStoreInfo_Name l; lvsi_BaseBdev := LVStoreInfo_BaseBdev l;
     lvsi_FreeClusters := LVStoreInfo_FreeClusters l; lvsi_ClusterSize := LVStoreInfo_ClusterSize l;
     lvsi_TotalDataClusters := LVStoreInfo_TotalDataClusters l; lvsi_BlockSize := LVStoreInfo_BlockSize l |}.
Definition controller_view (c : ControllerInfo) : SpdkBdev.ControllerInfo :=
  {| ci_Name := ControllerInfo_Name c; ci_TrType := TrInfo_TrType (ControllerInfo_TrID c);
     ci_TrAddr := TrInfo_TrAddr (ControllerInfo_TrID c) |}.
Definition task_view (t : MigrateTask) : SpdkBdev.MigrateTask :=
  {| mt_SrcBdev := MigrateTask_SrcBdev t; mt_DstBdev := MigrateTask_DstBdev t; mt_Status := MigrateTask_Status t;
     mt_TotalWritePages := MigrateTask_TotalWritePages t; mt_TotalReadPages := MigrateTask_TotalReadPages t;
     mt_TimeElapsedMS := MigrateTask_TimeElapsedMS t; mt_RoundPassed := MigrateTask_RoundPassed t;
     mt_IsLastRound := RoundInfo_IsLastRound (MigrateTask_WorkingRound t) |}.

#[export] Instance SocketBdevs {W} {SO : Socket W} : BdevRpc (Client * W) := {|
  SpdkBdev.BdevGetBdevs name := as_result (fmap bdev_view) (BdevGetBdevs (get_bdevs_req name));
  SpdkBdev.BdevAioCreate name file bs := as_result id (BdevAioCreate (aio_create_req name file bs));
  SpdkBdev.BdevAioDelete name := as_result id (BdevAioDelete {| BdevAioDeleteReq_Name := name |});
  SpdkBdev.BdevAioResize name size := as_result id (BdevAioResize {| BdevAioResizeReq_Name := name; BdevAioResizeReq_Size := size |});
  SpdkBdev.BdevLVolGetLVStores name := as_result (fmap lvstore_view)
    (BdevLVolGetLVStores {| BdevLVolGetLVStoresReq_UUID := ""; BdevLVolGetLVStoresReq_LvsName := name |});
  SpdkBdev.BdevLVolCreateLVStore base name cs := as_result id (BdevLVolCreateLVStore (lvstore_create_req base name cs));
  SpdkBdev.BdevLVolCreate lvol size lvs := as_result id (BdevLVolCreate (lvol_create_req lvol size lvs));
  SpdkBdev.BdevLVolDelete name := as_result id (BdevLVolDelete {| BdevLVolDeleteReq_Name := name |});
  SpdkBdev.BdevLVolResize name size := as_result id (BdevLVolResize {| BdevLVolResizeReq_Name := name; BdevLVolResizeReq_Size := size |});
  SpdkBdev.BdevLVolSnapshot lvol snap := as_result id
    (BdevLVolSnapshot {| BdevLVolSnapshotReq_LVolName := lvol; BdevLVolSnapshotReq_SnapshotName := snap |});
  SpdkBdev.BdevLVolClone snap clone := as_result id
    (BdevLVolClone {| BdevLVolCloneReq_SnapshotName := snap; BdevLVolCloneReq_CloneName := clone |});
  SpdkBdev.BdevLVolInflate name := as_result id (BdevLVolInflate {| BdevLVolInflateReq_Name := name |});
  SpdkBdev.ListControllers := as_result (fmap controller_view) ListControllers;
  SpdkBdev.AttachController req := as_result id (AttachController (attach_req req));
  SpdkBdev.DetachController name := DetachController {| DetachControllerRequest_Name := name |};
  SpdkBdev.ListBdevRaid category := as_result id (ListBdevRaid {| ListBdevRaidRequest_Category := category |});
  SpdkBdev.RpcCreateBdevRaid req := as_result id (CreateBdevRaid (raid_req req));
  SpdkBdev.BdevMigrateQuery src history := as_result (fmap task_view) (BdevMigrateQuery (query_req src history));
  SpdkBdev.BdevMigrateStart req := BdevMigrateStart (migrate_start_req req);
  SpdkBdev.BdevMigrateSetConfig req := BdevMigrateSetConfig (migrate_config_req req);
  SpdkBdev.BdevMigrateCleanupTask req := BdevMigrateCleanupTask (migrate_start_req req);
|}.
(** Files are not asked for over the socket. *)
#[export] Instance SocketFiles {W} {OS : OsFiles W} : OsFiles (Client * W) := {|
  os_Stat name := on_snd (os_Stat name); os_MkdirAll name := on_snd (os_MkdirAll name);
  os_RemoveAll name := on_snd (os_RemoveAll name) |}.

(** ** The process at the other end *)

Section served.
Context {W : Type} {SO : Socket W}.
Context {SV : SpdkRpc W} {LV : SpdkRpcLaws SV} {SB : BdevRpc W} {OF : OsFiles W} {LB : BdevLaws SV SB OF}.
Abbreviation CM := (go (Client * W)).
Implicit Types (cl : Client) (w : W).

(** The process is in the same state; the connection need not be. *)
Definition same w w' : Prop := subs w' = subs w ∧ bdevs w' = bdevs w.
(** What became of an operation whose answer did not come. *)
Definition maybe_done {A} (op : go W A) w w' : Prop := same w w' ∨ ∃ a w0, op w = Ret a w0 ∧ same w0 w'.

(** A request is refused by the connection; or it is written and the connection
    breaks before the answer is read, when [op] was done or not; or [op] is done
    and answered. *)
Definition serves {A B} (c : codec A) (show : B → A) (method : string) (params : option json) (op : go W (result B)) : Prop :=
  ∀ id w, is_uint64 id →
  (∃ e w', conn_Write (request id method params) w = Ret (Some e) w' ∧ IsNotFoundDeviceError e = false ∧ same w w') ∨
  ∃ w1, conn_Write (request id method params) w = Ret None w1 ∧
    ((∃ w', conn_Decode w1 = Ret None w' ∧ maybe_done op w w') ∨
     match op w with
     | Ret (inl b) w' => c_valid c (show b) ∧ conn_Decode w1 = Ret (Some (good_answer id (c_enc c (show b)))) w'
     | Ret (inr e) w' => ∃ code message, code ≠ 0 ∧ is_int64 code ∧ e = rpc_error code message ∧
         conn_Decode w1 = Ret (Some (bad_answer id code message)) w'
     | Panic _ _ => False
     end).
(** A call without a result is answered with [true]. *)
Definition accepted (op : go W (option error)) : go W (result bool) :=
  e ← op; mret match e with None => inl true | Some e => inr e end.

(** The connection breaks between a request and its answer. *)
Definition answer_lost (method : string) (params : option json) (s : Client * W) : Prop :=
  ∃ w1 w2, conn_Write (request (next_id s.1) method params) s.2 = Ret None w1 ∧ conn_Decode w1 = Ret None w2.

(** *** One call *)

Lemma serves_run {A B C} (c : codec A) (show : B → A) (f : A → C) method params op cl w :
  CodecOk c → serves c show method params op →
  ∃ r w', as_result f (call_result c method params) (cl, w) = Ret r (set_id (next_id cl) cl, w') ∧
    ((∃ r0 w0, op w = Ret r0 w0 ∧ same w0 w' ∧ r = match r0 with inl b => inl (f (show b)) | inr e => inr e end) ∨
     (∃ e, r = inr e ∧ IsNotFoundDeviceError e = false) ∧ maybe_done op w w').
Proof.
  intros K Hs. unfold as_result, call_result, Call, on_fst, on_snd.
  destruct (Hs (next_id cl) w (uwrap64_range _)) as [(e & w' & Hw & He & Hm)|(w1 & Hw & [(w' & Hd & Hm)|Ha])].
  - do 2 eexists. split; [go_simpl; rewrite Hw; reflexivity|]. right. split; [eauto|by left].
  - do 2 eexists. split; [go_simpl; rewrite Hw; cbn beta iota; cbn [fst snd]; rewrite Hd; reflexivity|].
    right. split; [by eexists|exact Hm].
  - destruct (op w) as [[b|e] w'|] eqn:E; [| |done].
    + destruct Ha as [V Hd]. do 2 eexists. split.
      { go_simpl. rewrite Hw. cbn beta iota. cbn [fst snd]. rewrite Hd. cbn beta iota. cbn [fst snd].
        destruct (good_read (next_id cl) (c_enc c (show b))) as [-> ->]. rewrite decide_True by done.
        cbn [Unmarshal]. rewrite co_read by done. reflexivity. }
      left. eexists _, _. split; [reflexivity|]. by split.
    + destruct Ha as (code & message & Hc & Hi & -> & Hd). do 2 eexists. split.
      { go_simpl. rewrite Hw. cbn beta iota. cbn [fst snd]. rewrite Hd. cbn beta iota. cbn [fst snd].
        rewrite bad_read by done. cbn [RPCError_Code]. rewrite decide_False by done. reflexivity. }
      left. eexists _, _. split; [reflexivity|]. by split.
Qed.

(** A call without a result: an answer to it is what the process says; without
    one it fails or the answer was lost. *)
Lemma accepted_run method params op cl w : serves bool_c id method params (accepted op) →
  ∃ e w', call_error method params (cl, w) = Ret e (set_id (next_id cl) cl, w') ∧
    ((∃ e0 w0, op w = Ret e0 w0 ∧ same w0 w' ∧ (e = None → e0 = None)) ∨
     (e = None → answer_lost method params (cl, w)) ∧
     (same w w' ∨ ∃ e0 w0, op w = Ret e0 w0 ∧ same w0 w')).
Proof.
  intros Hs. unfold call_error, Call, on_fst, on_snd.
  destruct (Hs (next_id cl) w (uwrap64_range _)) as [(e & w' & Hw & He & Hm)|(w1 & Hw & [(w' & Hd & Hm)|Ha])].
  - do 2 eexists. split; [go_simpl; rewrite Hw; reflexivity|]. right. split; [done|by left].
  - do 2 eexists. split; [go_simpl; rewrite Hw; cbn beta iota; cbn [fst snd]; rewrite Hd; reflexivity|].
    right. split; [intros _; by exists w1, w'|]. destruct Hm as [Hm|(r & w0 & (e0 & w2 & E & Hr)%go_bind_inv & Hm)]; [by left|].
    injection Hr as _ <-. right. eauto.
  - unfold accepted, mbind, go_mbind, go_bind in Ha. destruct (op w) as [[e|] w'|] eqn:E; cbn in Ha; [| |done].
    + destruct Ha as (code & message & Hc & Hi & -> & Hd). do 2 eexists. split.
      { go_simpl. rewrite Hw. cbn beta iota. cbn [fst snd]. rewrite Hd. cbn beta iota. cbn [fst snd].
        rewrite bad_read by done. cbn [RPCError_Code]. rewrite decide_False by done. reflexivity. }
      left. eexists _, _. split; [reflexivity|]. by split.
    + destruct Ha as [V Hd]. do 2 eexists. split.
      { go_simpl. rewrite Hw. cbn beta iota. cbn [fst snd]. rewrite Hd. cbn beta iota. cbn [fst snd].
        destruct (good_read (next_id cl) (JBool true)) as [-> ->]. rewrite decide_True by done. reflexivity. }
      left. eexists _, _. split; [reflexivity|]. by split.
Qed.

(** *** The laws of one call *)

Lemma maybe_done_quiet {A} (op : go W A) w w' : stays subs op → stays bdevs op → maybe_done op w w' → same w w'.
Proof.
  intros Hs Hb [H|(a & w0 & E & [H1 H2])]; [done|]. split; [by rewrite H1; eapply Hs|by rewrite H2; eapply Hb].
Qed.

(** Calls that change nothing. *)
Definition quiet_call {A} (m : CM A) : Prop :=
  returns m ∧ stays (λ s, subs s.2) m ∧ stays (λ s, bdevs s.2) m.
Lemma same_quiet {A} (m : CM A) :
  (∀ cl w, ∃ a cl' w', m (cl, w) = Ret a (cl', w') ∧ same w w') → quiet_call m.
Proof.
  intros H. split; [|split].
  - intros [cl w]. destruct (H cl w) as (a & cl' & w' & E & _). eauto.
  - intros [cl w] r s' E. destruct (H cl w) as (a & cl' & w' & E' & Hs & _). rewrite E in E'. by injection E' as _ ->.
  - intros [cl w] r s' E. destruct (H cl w) as (a & cl' & w' & E' & _ & Hb). rewrite E in E'. by injection E' as _ ->.
Qed.
Lemma serves_quiet {A B C} (c : codec A) (show : B → A) (f : A → C) method params op :
  CodecOk c → serves c show method params op → returns op ∧ stays subs op ∧ stays bdevs op →
  quiet_call (as_result f (call_result c method params)).
Proof.
  intros K Hs (_ & H1 & H2). apply same_quiet. intros cl w.
  destruct (serves_run c show f method params op cl w K Hs) as (r & w' & E & [(r0 & w0 & E0 & [Hs0 Hb0] & _)|[_ Hm]]);
    exists r, (set_id (next_id cl) cl), w'; (split; [exact E|]).
  - split; [by rewrite Hs0; eapply H1|by rewrite Hb0; eapply H2].
  - by eapply maybe_done_quiet.
Qed.
Lemma accepted_quiet method params op : serves bool_c id method params (accepted op) →
  returns op ∧ stays subs op ∧ stays bdevs op → quiet_call (call_error method params).
Proof.
  intros Hs (_ & H1 & H2). apply same_quiet. intros cl w.
  destruct (accepted_run method params op cl w Hs) as (e & w' & E & [(e0 & w0 & E0 & [Hs0 Hb0] & _)|[_ Hm]]);
    exists e, (set_id (next_id cl) cl), w'; (split; [exact E|]).
  - split; [by rewrite Hs0; eapply H1|by rewrite Hb0; eapply H2].
  - by apply (maybe_done_quiet op).
Qed.
Lemma snd_quiet {A} (op : go W A) : returns op ∧ stays subs op ∧ stays bdevs op → quiet_call (on_snd op).
Proof.
  intros (H0 & H1 & H2). apply same_quiet. intros cl w. destruct (H0 w) as (a & w' & E). exists a, cl, w'.
  split; [unfold on_snd; cbn [fst snd]; by rewrite E|]. split; [by eapply H1|by eapply H2].
Qed.

(** Calls that do [E] to the devices, unless their answer is [bad]. *)
Definition does {S B} (view_subs : S → list Spdk.Subsystem) (view : S → gmap string SpdkBdev.Bdev)
    (E : gmap string SpdkBdev.Bdev → gmap string SpdkBdev.Bdev → Prop) (bad : result B → Prop) (op : go S (result B)) : Prop :=
  ∀ s, ∃ r s', op s = Ret r s' ∧ view_subs s' = view_subs s ∧ (E (view s) (view s') ∨ bad r ∧ view s' = view s).
Lemma serves_does {A B C} (c : codec A) (show : B → A) (f : A → C) E (bad0 : result B → Prop) (bad : result C → Prop) method params op :
  CodecOk c → serves c show method params op → does subs bdevs E bad0 op →
  (∀ e, bad (inr e)) → (∀ b, bad0 (inl b) → bad (inl (f (show b)))) →
  does (λ s : Client * W, subs s.2) (λ s, bdevs s.2) E bad (as_result f (call_result c method params)).
Proof.
  intros K Hs Hd He Hb [cl w].
  destruct (serves_run c show f method params op cl w K Hs) as (r & w' & Er & Hr).
  eexists r, _. split; [exact Er|]. cbn [snd]. destruct (Hd w) as (r1 & w1 & E1 & Hsub & Heff).
  assert (∀ w0, same w0 w' → w0 = w1 → subs w' = subs w ∧ (E (bdevs w) (bdevs w') ∨ bad0 r1 ∧ bdevs w' = bdevs w)) as Hdone.
  { intros w0 [H1 H2] ->. rewrite H1, H2. by split. }
  destruct Hr as [(r0 & w0 & E0 & Hm & ->)|[(e & -> & _) [[H1 H2]|(a & w0 & E0 & Hm)]]].
  - rewrite E1 in E0. injection E0 as <- <-. destruct (Hdone _ Hm eq_refl) as [H1 [H2|[H2 H3]]]; (split; [done|]); [by left|].
    right. split; [|done]. destruct r1; auto.
  - split; [done|]. right. auto.
  - rewrite E1 in E0. injection E0 as <- <-. destruct (Hdone _ Hm eq_refl) as [H1 [H2|[H2 H3]]]; (split; [done|]); [by left|].
    right. auto.
Qed.
Lemma answers_stays {A B V} (view : W → V) (c : codec A) (show : B → A) (f : A → B) method params op :
  CodecOk c → (∀ b, f (show b) = b) → answers c show method params op → stays view op →
  stays (λ s : Client * W, view s.2) (as_result f (call_result c method params)).
Proof.
  intros K Hf Ha Hv [cl w] r s'. rewrite (call_answered _ _ _ _ _ _ _ Hf Ha). unfold over_socket.
  destruct (op w) as [b w'|] eqn:E; [|done]. intros [= _ <-]. by eapply Hv.
Qed.

(** *** All of them *)

(** The process serves what [SB] does, or loses the answer. *)
Record bdev_serves (show_bdev : SpdkBdev.Bdev → Bdev) (show_task : SpdkBdev.MigrateTask → MigrateTask) : Prop := {
  bs_bdev b : bdev_view (show_bdev b) = b;
  bs_get name : serves (list_c Bdev_c) (fmap show_bdev) "bdev_get_bdevs"
    (Some (c_enc BdevGetBdevsReq_c (get_bdevs_req name))) (SpdkBdev.BdevGetBdevs name);
  bs_aio_create name file bs : serves string_c id "bdev_aio_create"
    (Some (c_enc BdevAioCreateReq_c (aio_create_req name file bs))) (SpdkBdev.BdevAioCreate name file bs);
  bs_aio_delete name : serves bool_c id "bdev_aio_delete"
    (Some (c_enc BdevAioDeleteReq_c {| BdevAioDeleteReq_Name := name |})) (SpdkBdev.BdevAioDelete name);
  bs_lvol_create lvol size lvs : serves string_c id "bdev_lvol_create"
    (Some (c_enc BdevLVolCreateReq_c (lvol_create_req lvol size lvs))) (SpdkBdev.BdevLVolCreate lvol size lvs);
  bs_lvol_delete name : serves bool_c id "bdev_lvol_delete"
    (Some (c_enc BdevLVolDeleteReq_c {| BdevLVolDeleteReq_Name := name |})) (SpdkBdev.BdevLVolDelete name);
  bs_snapshot lvol snap : serves string_c id "bdev_lvol_snapshot"
    (Some (c_enc BdevLVolSnapshotReq_c {| BdevLVolSnapshotReq_LVolName := lvol; BdevLVolSnapshotReq_SnapshotName := snap |}))
    (SpdkBdev.BdevLVolSnapshot lvol snap);
  bs_clone snap clone : serves string_c id "bdev_lvol_clone"
    (Some (c_enc BdevLVolCloneReq_c {| BdevLVolCloneReq_SnapshotName := snap; BdevLVolCloneReq_CloneName := clone |}))
    (SpdkBdev.BdevLVolClone snap clone);
  bs_attach req : serves (list_c string_c) id "bdev_nvme_attach_controller"
    (Some (c_enc AttachControllerRequest_c (attach_req req))) (SpdkBdev.AttachController req);
  bs_detach name : serves bool_c id "bdev_nvme_detach_controller"
    (Some (c_enc DetachControllerRequest_c {| DetachControllerRequest_Name := name |}))
    (accepted (SpdkBdev.DetachController name));
  bs_inflate name : serves bool_c id "bdev_lvol_inflate"
    (Some (c_enc BdevLVolInflateReq_c {| BdevLVolInflateReq_Name := name |})) (SpdkBdev.BdevLVolInflate name);
  bs_query src history : serves (list_c MigrateTask_c) (fmap show_task) "bdev_migrate_query"
    (Some (c_enc BdevMigrateQueryRequest_c (query_req src history))) (SpdkBdev.BdevMigrateQuery src history);
  bs_start req : serves bool_c id "bdev_migrate_start"
    (Some (c_enc BdevMigrateStartRequest_c (migrate_start_req req))) (accepted (SpdkBdev.BdevMigrateStart req));
  bs_config req : serves bool_c id "bdev_migrate_set_config"
    (Some (c_enc BdevMigrateSetConfigRequest_c (migrate_config_req req))) (accepted (SpdkBdev.BdevMigrateSetConfig req));
  bs_cleanup req : serves bool_c id "bdev_migrate_cleanup_task"
    (Some (c_enc BdevMigrateStartRequest_c (migrate_start_req req))) (accepted (SpdkBdev.BdevMigrateCleanupTask req));
  bs_dial sock w : ∃ r w', net_Dial sock w = Ret r w' ∧ same w w';
}.

Section laws.
Context {show_transport : string → Transport} {show_subsystem : Spdk.Subsystem → Subsystem}.
Context {show_bdev : SpdkBdev.Bdev → Bdev} {show_task : SpdkBdev.MigrateTask → MigrateTask}.
Context (HS : spdk_serves SV show_transport show_subsystem) (HD : bdev_serves show_bdev show_task).

Lemma dial_subs sock w : ∃ r w', net_Dial sock w = Ret r w' ∧ subs w' = subs w.
Proof. destruct (bs_dial _ _ HD sock w) as (r & w' & E & H & _). eauto. Qed.
#[local] Instance targets_laws : SpdkRpcLaws (SocketTargets (W := W)) := socket_laws SV LV show_transport show_subsystem HS dial_subs.

Lemma found_over_socket name (s : Client * W) r s' : SpdkBdev.BdevGetBdevs name s = Ret r s' → name ≠ "" →
  match r with
  | inl l => ∃ b, bdevs s.2 !! name = Some b ∧ l = [b]
  | inr e => IsNotFoundDeviceError e = true → bdevs s.2 !! name = None
  end.
Proof.
  destruct s as [cl w]. intros E Hn. cbn [snd].
  destruct (serves_run (list_c Bdev_c) (fmap show_bdev) (fmap bdev_view) _ _ _ cl w _ (bs_get _ _ HD name)) as (r' & w' & E' & H).
  cbn [SpdkBdev.BdevGetBdevs SocketBdevs] in E. unfold BdevGetBdevs in E. rewrite E in E'. injection E' as <- _.
  destruct H as [(r0 & w0 & E0 & _ & ->)|[(e & -> & He) _]]; [|by rewrite He].
  pose proof (bl_found _ _ _ _ E0 Hn) as Hf. destruct r0 as [l|e]; [|exact Hf].
  destruct Hf as (b & Hb & ->). exists b. split; [done|]. cbn. by rewrite (bs_bdev _ _ HD).
Qed.

(** The controller is gone, or its device is still there and the success, if one
    is reported, is a lost answer. *)
Lemma detach_over_socket name (s : Client * W) : ∃ r s', SpdkBdev.DetachController name s = Ret r s' ∧ subs s'.2 = subs s.2 ∧
  (bdevs s'.2 = delete (name +:+ "n1") (bdevs s.2) ∨
   bdevs s'.2 = bdevs s.2 ∧ (r = None → bl_unanswered name s.2 ∨
     answer_lost "bdev_nvme_detach_controller" (Some (c_enc DetachControllerRequest_c {| DetachControllerRequest_Name := name |})) s)).
Proof.
  destruct s as [cl w]. destruct (accepted_run _ _ _ cl w (bs_detach _ _ HD name)) as (e & w' & E & H).
  exists e. eexists. split; [exact E|]. cbn [snd]. destruct (bl_detach name w) as (r1 & w1 & E1 & Hs & Hb).
  destruct H as [(e0 & w0 & E0 & [H1 H2] & He)|[Hl [[H1 H2]|(e0 & w0 & E0 & [H1 H2])]]].
  - rewrite E1 in E0. injection E0 as <- <-. rewrite H1, H2. split; [done|].
    destruct Hb as [Hb|[Hb Hu]]; [by left|right]. split; [done|]. auto.
  - split; [done|]. right. auto.
  - rewrite E1 in E0. injection E0 as <- <-. rewrite H1, H2. split; [done|].
    destruct Hb as [Hb|[Hb Hu]]; [by left|right]. auto.
Qed.
Lemma query_over_socket src history : quiet_call (SpdkBdev.BdevMigrateQuery (W := Client * W) src history).
Proof.
  pose proof (serves_quiet (list_c MigrateTask_c) (fmap show_task)
    (λ l, task_view <$> filter (λ item, MigrateTask_SrcBdev item = src) l) _ _ _ _ (bs_query _ _ HD src history) (bl_query src history)) as H.
  apply same_quiet. intros cl w. destruct H as (H0 & H1 & H2). destruct (H0 (cl, w)) as (r & [cl' w'] & E).
  specialize (H1 _ _ _ E). specialize (H2 _ _ _ E). exists r, cl', w'. split; [|done]. rewrite <- E.
  cbn [SpdkBdev.BdevMigrateQuery SocketBdevs]. unfold as_result, BdevMigrateQuery. unfold mbind, go_mbind, go_bind, mret, go_mret, go_ret.
  cbn [query_req BdevMigrateQueryRequest_SrcBdev]. by destruct (call_result _ _ _ _) as [[a e] s'|].
Qed.

(** The client has the laws of block devices. *)
Definition socket_bdev_laws : BdevLaws (HR := targets_laws) (SocketTargets (W := W)) SocketBdevs SocketFiles.
Proof.
  pose proof (λ l, fmap_inverse Transport_TransType show_transport l (sv_transport _ _ _ HS)) as Ht.
  pose proof (λ l, fmap_inverse subsystem_view show_subsystem l (sv_subsystem _ _ _ HS)) as Hs.
  refine {| bdevs s := bdevs s.2; bl_unanswered name s := bl_unanswered name s.2 ∨
    answer_lost "bdev_nvme_detach_controller" (Some (c_enc DetachControllerRequest_c {| DetachControllerRequest_Name := name |})) s |}.
  - intros name. exact (serves_quiet _ _ _ _ _ _ _ (bs_get _ _ HD name) (bl_get name)).
  - apply found_over_socket.
  - intros name file bs s. exact (serves_does _ _ _
      (λ m m', m !! name = None ∧ ∃ b, bdev_Name b = name ∧ m' = <[name := b]> m) call_failed call_failed _ _ _ _
      (bs_aio_create _ _ HD name file bs) (bl_aio_create name file bs) (λ _, Logic.I) (λ _ H, H) s).
  - intros name s. refine (serves_does _ _ _ (λ m m', m' = delete name m) (λ r, r ≠ inl true) (λ r, r ≠ inl true) _ _ _ _
      (bs_aio_delete _ _ HD name) (bl_aio_delete name) _ (λ _ H, H) s). done.
  - intros lvol size lvs s. exact (serves_does _ _ _
      (λ m m', ∃ b, size <= bdev_BlockSize b * bdev_NumBlocks b ∧ m' = <[lvs +:+ "/" +:+ lvol := b]> m) call_failed call_failed _ _ _ _
      (bs_lvol_create _ _ HD lvol size lvs) (bl_lvol_create lvol size lvs) (λ _, Logic.I) (λ _ H, H) s).
  - intros name s. exact (serves_does _ _ _ (λ m m', m' = delete name m) call_failed call_failed _ _ _ _
      (bs_lvol_delete _ _ HD name) (bl_lvol_delete name) (λ _, Logic.I) (λ _ H, H) s).
  - intros lvol snap s. exact (serves_does _ _ _
      (λ m m', ∃ b, m' = <[(parseLvolFullName lvol).1 +:+ "/" +:+ snap := b]> m) call_failed call_failed _ _ _ _
      (bs_snapshot _ _ HD lvol snap) (bl_snapshot lvol snap) (λ _, Logic.I) (λ _ H, H) s).
  - intros snap clone s. exact (serves_does _ _ _
      (λ m m', ∃ b, m' = <[(parseLvolFullName snap).1 +:+ "/" +:+ clone := b]> m) call_failed call_failed _ _ _ _
      (bs_clone _ _ HD snap clone) (bl_clone snap clone) (λ _, Logic.I) (λ _ H, H) s).
  - intros req s. exact (serves_does _ _ _ (λ m m', ∃ b, m' = <[acr_Name req +:+ "n1" := b]> m) call_failed call_failed _ _ _ _
      (bs_attach _ _ HD req) (bl_attach req) (λ _, Logic.I) (λ _ H, H) s).
  - apply detach_over_socket.
  - intros name. exact (serves_quiet _ _ _ _ _ _ _ (bs_inflate _ _ HD name) (bl_inflate name)).
  - intros name. exact (snd_quiet _ (bl_stat name)).
  - intros name. exact (snd_quiet _ (bl_mkdir name)).
  - intros name. exact (snd_quiet _ (bl_remove_all name)).
  - intros src history. exact (query_over_socket src history).
  - intros req. exact (accepted_quiet _ _ _ (bs_start _ _ HD req) (bl_start req)).
  - intros req. exact (accepted_quiet _ _ _ (bs_config _ _ HD req) (bl_config req)).
  - intros req. exact (accepted_quiet _ _ _ (bs_cleanup _ _ HD req) (bl_cleanup req)).
  - intros [cl w] r s'. cbn [Spdk.rpc_dial SocketTargets]. unfold NewWithDefaultSock, NewClient, on_fst, on_snd. go_simpl.
    destruct (bs_dial _ _ HD DefaultSockFile w) as (e & w' & -> & _ & Hb). cbn beta iota.
    destruct e as [e|]; cbn beta iota; by intros [= _ <-].
  - exact (answers_stays bdevs _ _ _ _ _ _ _ Ht (sv_get_transports _ _ _ HS) bl_transports).
  - intros t. exact (answers_stays bdevs _ _ _ _ _ _ _ (λ _, eq_refl) (sv_create_transport _ _ _ HS t) (bl_create_transport t)).
  - exact (answers_stays bdevs _ _ _ _ _ _ _ Hs (sv_get_subsystems _ _ _ HS) bl_subsystems).
  - intros nqn h sn mn. exact (answers_stays bdevs _ _ _ _ _ _ _ (λ _, eq_refl) (sv_create_subsystem _ _ _ HS nqn h sn mn) (bl_create nqn h sn mn)).
  - intros nqn ns. exact (answers_stays bdevs _ _ _ _ _ _ _ (λ _, eq_refl) (sv_add_ns _ _ _ HS nqn ns) (bl_add_ns nqn ns)).
  - intros nqn la. exact (answers_stays bdevs _ _ _ _ _ _ _ (λ _, eq_refl) (sv_add_listener _ _ _ HS nqn la) (bl_add_listener nqn la)).
  - intros nqn h. exact (answers_stays bdevs _ _ _ _ _ _ _ (λ _, eq_refl) (sv_add_host _ _ _ HS nqn h) (bl_add_host nqn h)).
  - intros nqn. exact (answers_stays bdevs _ _ _ _ _ _ _ (λ _, eq_refl) (sv_delete _ _ _ HS nqn) (bl_delete nqn)).
Defined.

(** So what the agent's operations promise holds over the socket. *)
Lemma detach_ensured_over_socket ctrl :
  ensures_or (HR := targets_laws) (HB := socket_bdev_laws) (detach_unanswered (HB := socket_bdev_laws) ctrl) (λ _, True) id
    (DetachMigrationDestBdev ctrl) (ctrl +:+ "n1") false.
Proof. apply DetachMigrationDestBdev_ensures. Qed.
End laws.
End served.

(** ** A node behind a socket that loses answers *)

Module BdevExample.
Import SocketExample.

Lemma inner_run {A} (op : go FakeNode A) w a n' : op w.1 = Ret a n' → inner op w = Ret a (n', None).
Proof. destruct w as [n p]. cbn. unfold inner. by intros ->. Qed.
Lemma inner_quiet {A} (op : go FakeNode A) : returns op ∧ stays fn_subs op ∧ stays fn_bdevs op →
  returns (inner op) ∧ stays (λ w, fn_subs w.1) (inner op) ∧ stays (λ w, fn_bdevs w.1) (inner op).
Proof.
  intros (H0 & H1 & H2). split_and!.
  - intros w. destruct (H0 w.1) as (a & n' & E). eauto using inner_run.
  - intros [n p] a w'. unfold inner. destruct (op n) eqn:E; [|done]. intros [= _ <-]. by eapply H1.
  - intros [n p] a w'. unfold inner. destruct (op n) eqn:E; [|done]. intros [= _ <-]. by eapply H2.
Qed.

(** It says of a device that is not there what the client makes of the answer. *)
#[export] Instance devices : BdevRpc world := {|
  SpdkBdev.BdevGetBdevs name := λ w, Ret (match fn_bdevs w.1 !! name with
    | Some b => inl [b] | None => inr (rpc_error ErrorCodeNoDevice "No such device") end) (w.1, None);
  SpdkBdev.BdevAioCreate name file bs := inner (SpdkBdev.BdevAioCreate name file bs);
  SpdkBdev.BdevAioDelete name := inner (SpdkBdev.BdevAioDelete name);
  SpdkBdev.BdevAioResize name size := inner (SpdkBdev.BdevAioResize name size);
  SpdkBdev.BdevLVolGetLVStores name := inner (SpdkBdev.BdevLVolGetLVStores name);
  SpdkBdev.BdevLVolCreateLVStore base name cs := inner (SpdkBdev.BdevLVolCreateLVStore base name cs);
  SpdkBdev.BdevLVolCreate lvol size lvs := inner (SpdkBdev.BdevLVolCreate lvol size lvs);
  SpdkBdev.BdevLVolDelete name := inner (SpdkBdev.BdevLVolDelete name);
  SpdkBdev.BdevLVolResize name size := inner (SpdkBdev.BdevLVolResize name size);
  SpdkBdev.BdevLVolSnapshot lvol snap := inner (SpdkBdev.BdevLVolSnapshot lvol snap);
  SpdkBdev.BdevLVolClone snap clone := inner (SpdkBdev.BdevLVolClone snap clone);
  SpdkBdev.BdevLVolInflate name := inner (SpdkBdev.BdevLVolInflate name);
  SpdkBdev.ListControllers := inner SpdkBdev.ListControllers;
  SpdkBdev.AttachController req := inner (SpdkBdev.AttachController req);
  SpdkBdev.DetachController name := inner (SpdkBdev.DetachController name);
  SpdkBdev.ListBdevRaid c := inner (SpdkBdev.ListBdevRaid c);
  SpdkBdev.RpcCreateBdevRaid req := inner (SpdkBdev.RpcCreateBdevRaid req);
  SpdkBdev.BdevMigrateQuery src h := inner (SpdkBdev.BdevMigrateQuery src h);
  SpdkBdev.BdevMigrateStart req := inner (SpdkBdev.BdevMigrateStart req);
  SpdkBdev.BdevMigrateSetConfig req := inner (SpdkBdev.BdevMigrateSetConfig req);
  SpdkBdev.BdevMigrateCleanupTask req := inner (SpdkBdev.BdevMigrateCleanupTask req);
|}.
#[export] Instance files : OsFiles world := {|
  os_Stat name := inner (os_Stat name); os_MkdirAll name := inner (os_MkdirAll name); os_RemoveAll name := inner (os_RemoveAll name) |}.

Ltac inner_law H := let r := fresh "r" in let n' := fresh "n'" in let E := fresh "E" in let H' := fresh "H'" in
  destruct H as (r & n' & E & H'); exists r, (n', None); split; [by apply inner_run|exact H'].
#[export] Instance device_laws : BdevLaws process devices files.
Proof.
  refine {| bdevs w := fn_bdevs w.1; bl_unanswered _ _ := False |}; intros;
    try (apply inner_quiet; split_and!; [apply (ret_returns (λ _, _))|apply (ret_stays _ (λ _, _))..]);
    try (by intros [? ?] ? ? [= _ <-]).
  - split_and!; [by intros w; eauto|by intros w r w' [= _ <-]..].
  - injection H as <- <-. destruct (fn_bdevs w.1 !! name) as [b|] eqn:E; [by exists b|done].
  - inner_law (bl_aio_create name file bs w.1).
  - inner_law (bl_aio_delete name w.1).
  - inner_law (bl_lvol_create lvol size lvs w.1).
  - inner_law (bl_lvol_delete name w.1).
  - inner_law (bl_snapshot lvol snap w.1).
  - inner_law (bl_clone snap clone w.1).
  - inner_law (bl_attach req w.1).
  - inner_law (bl_detach name w.1).
Defined.

Lemma lost_serves {A B} (c : codec A) (show : B → A) method params (op : go world (result B)) :
  (∀ id w, serve {| RPCRequest_RPCVersion := JSONRPCVersion; RPCRequest_Method := method; RPCRequest_ID := id; RPCRequest_Params := params |} w = Ret None w) →
  serves c show method params op.
Proof.
  intros Hs id [n p] Hid. right. exists (n, Some (request id method params)). split; [reflexivity|]. left. exists (n, None).
  split; [|by left]. cbn [conn_Decode socket]. rewrite request_read by done. apply Hs.
Qed.
Lemma show_bdev_valid b : is_int64 (bdev_BlockSize b) → is_int64 (bdev_NumBlocks b) → c_valid (list_c Bdev_c) [show_bdev b].
Proof.
  intros H1 H2. constructor; [|done].
  cbn [c_valid Bdev_c struct_c show_bdev Bdev_Name Bdev_Aliases Bdev_ProductName Bdev_UUID Bdev_BlockSize Bdev_NumBlocks Bdev_Driver Bdev_RateLimits].
  split_and!; try done; try (by apply bool_decide_eq_true); by apply Forall_true.
Qed.
Lemma get_serves name : serves (list_c Bdev_c) (fmap show_bdev) "bdev_get_bdevs"
  (Some (c_enc BdevGetBdevsReq_c (get_bdevs_req name))) (SpdkBdev.BdevGetBdevs name).
Proof.
  intros id [n p] Hid. right. eexists. split; [reflexivity|].
  assert (∀ j, conn_Decode (n, Some (request id "bdev_get_bdevs" (Some (c_enc BdevGetBdevsReq_c (get_bdevs_req name))))) = j →
    get_bdevs id name (n, None) = j) as Hd.
  { intros j <-. cbn [conn_Decode socket]. rewrite request_read by done.
    transitivity (get_bdevs id (BdevGetBdevsReq_BdevName (params_as BdevGetBdevsReq_c (Some (c_enc BdevGetBdevsReq_c (get_bdevs_req name))))) (n, None));
      [|reflexivity]. by rewrite params_read by (try apply _; cbn; auto). }
  specialize (Hd _ eq_refl). cbn [conn_Decode socket] in *. unfold get_bdevs in Hd. rewrite <- Hd.
  cbn [SpdkBdev.BdevGetBdevs devices fst]. destruct (fn_bdevs n !! name) as [b|].
  - destruct (decide _) as [[H1 H2]|_].
    + right. split; [by apply show_bdev_valid|reflexivity].
    + left. exists (n, None). split; [reflexivity|by left].
  - right. exists ErrorCodeNoDevice, "No such device". by split_and!.
Qed.
Lemma devices_served : bdev_serves show_bdev (λ _, c_zero MigrateTask_c).
Proof. split; try (intros; by apply lost_serves); [by intros []|apply get_serves|]. intros sock w. by exists None, w. Qed.
#[export] Instance socket_device_laws : BdevLaws (HR := socket_laws process process_laws show_transport show_subsystem process_served (dial_subs devices_served))
  SocketTargets SocketBdevs SocketFiles := socket_bdev_laws process_served devices_served.

(** The agent asks for a controller to be detached and the connection breaks: it
    is told that all went well, and the device is still there. *)
Definition far : SpdkBdev.Bdev :=
  {| bdev_Name := "ctrln1"; bdev_Aliases := []; bdev_UUID := ""; bdev_BlockSize := 512; bdev_NumBlocks := 8 |}.
Example detach_unanswered_example :
  match DetachMigrationDestBdev "ctrl" (ex_service, ({| cli_UnixSocketFile := DefaultSockFile; cli_id := 0 |},
    ({| fn_subs := []; fn_bdevs := {["ctrln1" := far]} |}, None))) with
  | Ret e (_, (_, (n, _))) => e = None ∧ fn_bdevs n = {["ctrln1" := far]}
  | Panic _ _ => False
  end.
Proof. vm_compute. by split. Qed.
End BdevExample.
