(* ===== verification/Webhook.v ===== *)
(** * Admission webhooks

    [v1/volume_webhook.go] and [v1/snapshot_webhook.go]: what the API server lets
    the manager change and refuse when a volume or a snapshot is created. The
    interfaces of controller-runtime are classes. A volume that was admitted has
    the labels the reconciler writes into, so that its requests do not panic;
    the manager registers the webhook of volumes alone. *)

From Stdlib Require Import ZArith Lia.
From stdpp Require Import base gmap strings option list.
From S2P Require Import Prelude Misc K8s Api State Plugin Server VolumeReconciler.

(** ** The interfaces [webhook.Defaulter] and [webhook.Validator] *)

Class Defaulter (T : Type) := { Default : T → T }.
Class Validator (T : Type) := {
  ValidateCreate : T → option error;
  ValidateUpdate : T → T → option error;
  ValidateDelete : T → option error;
}.

(** The API server asks the mutating webhook first, then the validating one. *)
Definition admit_create {T} `{Defaulter T, Validator T} (obj : T) : T + error :=
  let obj1 := Default obj in
  match ValidateCreate obj1 with Some e => inr e | None => inl obj1 end.

(** ** Volumes *)

Section volume.
Context {L : K8sLib}.

(* [v1/volume_webhook.go:31-33] AntstorVolume.Default, the labels *)
Definition default_labels (labels : gomap string) : gmap string string :=
  match labels with None => ∅ | Some m => m end.
(* [v1/volume_webhook.go:28-42] AntstorVolume.Default *)
Definition vol_Default (av : AntstorVolume) : AntstorVolume :=
  let labels := default_labels (om_Labels (vol_meta av)) in
  let labels1 := if map_has (Some labels) UuidLabelKey then labels
                 else <[UuidLabelKey := vs_Uuid (vol_Spec av)]> labels in
  let av1 := vol_set_labels (Some labels1) av in
  if decide (vst_Status (vol_Status av1) = "") then vol_set_status VolumeStatusCreating av1 else av1.

(* [v1/volume_webhook.go:45-53] AntstorVolume.ValidateCreate *)
Definition vol_ValidateCreate (av : AntstorVolume) : option error :=
  if decide (vs_Uuid (vol_Spec av) = "") then Some (ErrNew "volume uuid cannot be empty") else None.
(* [v1/volume_webhook.go:56-61] AntstorVolume.ValidateUpdate *)
Definition vol_ValidateUpdate (av old : AntstorVolume) : option error := None.
(* [v1/volume_webhook.go:64-69] AntstorVolume.ValidateDelete *)
Definition vol_ValidateDelete (av : AntstorVolume) : option error := None.

#[export] Instance vol_Defaulter : Defaulter AntstorVolume := {| Default := vol_Default |}.
#[export] Instance vol_Validator : Validator AntstorVolume :=
  {| ValidateCreate := vol_ValidateCreate; ValidateUpdate := vol_ValidateUpdate; ValidateDelete := vol_ValidateDelete |}.
End volume.

(** ** Snapshots *)

Section snapshot.

(* [v1/snapshot_webhook.go:25-30] AntstorSnapshot.Default *)
Definition snap_Default (r : AntstorSnapshot) : AntstorSnapshot :=
  let size := ss_Size (snap_Spec r) in
  if decide (Z.rem size FourMiB > 0)%Z
  then snap_set_Spec (ss_set_Size (wrap64 (Z.quot size FourMiB * FourMiB)) (snap_Spec r)) r else r.
(* [v1/snapshot_webhook.go:38-43] AntstorSnapshot.ValidateCreate *)
Definition snap_ValidateCreate (r : AntstorSnapshot) : option error := None.
(* [v1/snapshot_webhook.go:46-51] AntstorSnapshot.ValidateUpdate *)
Definition snap_ValidateUpdate (r old : AntstorSnapshot) : option error := None.
(* [v1/snapshot_webhook.go:54-59] AntstorSnapshot.ValidateDelete *)
Definition snap_ValidateDelete (r : AntstorSnapshot) : option error := None.

#[export] Instance snap_Defaulter : Defaulter AntstorSnapshot := {| Default := snap_Default |}.
#[export] Instance snap_Validator : Validator AntstorSnapshot :=
  {| ValidateCreate := snap_ValidateCreate; ValidateUpdate := snap_ValidateUpdate; ValidateDelete := snap_ValidateDelete |}.

(** A size the snapshots of the volume manager can have: the largest multiple of
    4 MiB within the one asked for. *)
Lemma snap_Default_size r : (0 ≤ ss_Size (snap_Spec r))%Z → is_int64 (ss_Size (snap_Spec r)) →
  ∃ k, ss_Size (snap_Spec (snap_Default r)) = (k * FourMiB)%Z ∧
    (0 ≤ ss_Size (snap_Spec r) - k * FourMiB < FourMiB)%Z.
Proof.
  intros H0 [_ Hmax]. unfold snap_Default. set (s := ss_Size (snap_Spec r)) in *.
  rewrite FourMiB_value in *. pose proof (Z.quot_rem s 4194304 ltac:(done)) as Hs.
  pose proof (Z.rem_bound_pos s 4194304 H0 ltac:(done)) as Hr.
  pose proof (Z.quot_pos s 4194304 H0 ltac:(done)) as Hq.
  exists (Z.quot s 4194304). split; [|lia]. case_decide as Hd.
  - cbn. apply wrap64_id. unfold is_int64. lia.
  - fold s. lia.
Qed.
Lemma snap_Default_idem r : (0 ≤ ss_Size (snap_Spec r))%Z → is_int64 (ss_Size (snap_Spec r)) →
  snap_Default (snap_Default r) = snap_Default r.
Proof.
  intros H0 Hi. destruct (snap_Default_size r H0 Hi) as (k & Hk & _).
  unfold snap_Default at 1. rewrite Hk, Z.rem_mul by (by rewrite FourMiB_value). by rewrite decide_False by lia.
Qed.
End snapshot.

(** ** What an admitted volume is *)

Section admitted.
Context {L : K8sLib}.
Implicit Types (vol av : AntstorVolume).

Lemma vol_Default_labels vol : om_Labels (vol_meta (vol_Default vol)) = Some
  (let labels := default ∅ (om_Labels (vol_meta vol)) in
   if map_has (Some labels) UuidLabelKey then labels else <[UuidLabelKey := vs_Uuid (vol_Spec vol)]> labels).
Proof. unfold vol_Default. by case_decide. Qed.
Lemma vol_Default_status vol : vst_Status (vol_Status (vol_Default vol)) =
  if decide (vst_Status (vol_Status vol) = "") then VolumeStatusCreating else vst_Status (vol_Status vol).
Proof. unfold vol_Default. case_decide as H; cbn in H; [by rewrite decide_True|by rewrite decide_False]. Qed.
Lemma vol_Default_Spec vol : vol_Spec (vol_Default vol) = vol_Spec vol.
Proof. unfold vol_Default. by case_decide. Qed.
Lemma vol_Default_key vol : vol_key (vol_Default vol) = vol_key vol.
Proof. unfold vol_Default. by case_decide. Qed.
Lemma vol_Default_deletion vol : om_DeletionTimestamp (vol_meta (vol_Default vol)) = om_DeletionTimestamp (vol_meta vol).
Proof. unfold vol_Default. by case_decide. Qed.
Lemma vol_Default_annotations vol : om_Annotations (vol_meta (vol_Default vol)) = om_Annotations (vol_meta vol).
Proof. unfold vol_Default. by case_decide. Qed.
Lemma vol_Default_has_uuid vol : map_has (om_Labels (vol_meta (vol_Default vol))) UuidLabelKey = true.
Proof.
  rewrite vol_Default_labels. cbn zeta. set (m := default ∅ _).
  destruct (map_has (Some m) UuidLabelKey) eqn:E; [done|]. apply (map_has_insert_same (Some m)).
Qed.

Lemma map_has_label (m : gmap string string) k : map_has (Some m) k = true → is_Some (m !! k).
Proof. unfold map_has. by rewrite bool_decide_eq_true. Qed.

(** The webhook keeps what a client wrote, and asked twice it changes nothing more. *)
Lemma vol_Default_keeps vol k v : map_get (om_Labels (vol_meta vol)) k = Some v →
  map_get (om_Labels (vol_meta (vol_Default vol))) k = Some v.
Proof.
  destruct (om_Labels (vol_meta vol)) as [m|] eqn:E; [|done]. rewrite vol_Default_labels, E. change (default ∅ (Some m)) with m. cbn [map_get]. intros Hk.
  cbn zeta. destruct (map_has (Some m) UuidLabelKey) eqn:Eh; [done|]. rewrite lookup_insert_ne; [done|].
  intros <-. unfold map_has in Eh. cbn [map_get] in Eh. rewrite Hk in Eh. by rewrite bool_decide_true in Eh by eauto.
Qed.
Lemma vol_Default_idem vol : vol_Default (vol_Default vol) = vol_Default vol.
Proof.
  pose proof (vol_Default_labels vol) as Hl. pose proof (vol_Default_has_uuid vol) as Hu.
  pose proof (vol_Default_status vol) as Hs. set (v := vol_Default vol) in *. clearbody v.
  destruct v as [[ ] sp [ ]]. cbn in *. subst. unfold vol_Default. cbn [vol_meta om_Labels default_labels].
  cbn zeta in *. rewrite Hu. rewrite decide_False; [reflexivity|]. cbn. by case_decide.
Qed.

(** A volume is admitted exactly when it has a uuid. *)
Lemma admit_volume vol : admit_create vol =
  if decide (vs_Uuid (vol_Spec vol) = "") then inr (ErrNew "volume uuid cannot be empty") else inl (vol_Default vol).
Proof.
  unfold admit_create. cbn. unfold vol_ValidateCreate. rewrite vol_Default_Spec. by case_decide.
Qed.

(** Whatever status the server keeps of it, an admitted volume is one the requests
    of the reconciler are about. *)
Lemma admitted_live vol v st :
  admit_create vol = inl v → om_DeletionTimestamp (vol_meta vol) = None →
  vs_StopReconcile (vol_Spec vol) = false → is_Some (vs_HostNode (vol_Spec vol)) → vol_live (vol_set_Status st v).
Proof.
  rewrite admit_volume. case_decide as Hu; [done|]. intros [= <-] Hd Hs Hh. split; cbn.
  - rewrite vol_Default_labels. by eexists.
  - by rewrite vol_Default_deletion.
  - by rewrite vol_Default_Spec.
  - by rewrite vol_Default_Spec.
  - by rewrite vol_Default_Spec.
Qed.
End admitted.

Section requests.
Context {L : K8sLib} {W : Type}.
Context {KV : KubeClient W AntstorVolume} {KP : KubeClient W StoragePool} {HK : StoreLaws KV}.
Implicit Types (vol : AntstorVolume) (s : State) (w : W) (sched : Scheduler).

(** A volume without labels, which the webhook has not seen. *)
Lemma unlabelled_panics now osched vol s w :
  sl_view w !! vol_key vol = Some vol → om_Labels (vol_meta vol) = None →
  om_DeletionTimestamp (vol_meta vol) = None → vs_StopReconcile (vol_Spec vol) = false → vs_Uuid (vol_Spec vol) ≠ "" →
  ∃ why w', Reconcile_locked (AntstorVolumeReconcileHandler now osched) [] (vol_req vol) (s, w) = Panic why (s, w').
Proof.
  intros Hv Hl Hd Hs Hu. destruct (vol_round now osched vol s w Hv) as (w1 & _ & Hr).
  exists "assignment to entry in nil map", w1. rewrite Hr, Hd. cbn [opt_is_some].
  unfold vol_HandleReconcile. rewrite Hs. unfold vol_validateAndMutate. rewrite decide_False by done.
  rewrite bool_decide_true by done. unfold vol_put_label. rewrite Hl. reflexivity.
Qed.

End requests.

(** ** Example: a volume without labels *)

Section example.
#[local] Existing Instances exKV exKP exHK.
Definition ex_unlabelled : AntstorVolume := vol_set_labels None ex_new_vol.
Lemma ex_unlabelled_admitted : admit_create ex_unlabelled = inl (vol_Default ex_unlabelled).
Proof. reflexivity. Qed.

End example.
