(* ===== verification/CsiDriver.v ===== *)
(** * The CSI driver, its identity and its endpoint

    [pkg/csi/driver]: the name of the driver and the capabilities it advertises,
    with the checks a request may be put to; [rpcserver/identity.go] and the calls
    of the other two servers that answer from the driver; [rpcserver/server.go]: the
    endpoint the servers listen on; [pkg/csi/metric]: the gauges of file systems.
    The checks are exact, the driver advertises no call it leaves unimplemented, and
    no server puts a request to the checks. *)

From Stdlib Require Import ZArith Lia.
From stdpp Require Import base gmap strings option list.
From S2P Require Import Prelude Strconv K8s Api Server DataControl CsiClient CsiController Metrics.

(** ** Numbers of the CSI specification ([csi.proto]) *)

Definition VolumeCapability_AccessMode_UNKNOWN : Z := 0.
Definition SINGLE_NODE_WRITER : Z := 1.
Definition MULTI_NODE_MULTI_WRITER : Z := 5.
Definition ControllerServiceCapability_RPC_UNKNOWN : Z := 0.
Definition RPC_CREATE_DELETE_VOLUME : Z := 1.
Definition RPC_PUBLISH_UNPUBLISH_VOLUME : Z := 2.
Definition RPC_LIST_VOLUMES : Z := 3.
Definition RPC_GET_CAPACITY : Z := 4.
Definition RPC_CREATE_DELETE_SNAPSHOT : Z := 5.
Definition RPC_LIST_SNAPSHOTS : Z := 6.
Definition RPC_EXPAND_VOLUME : Z := 9.
Definition RPC_GET_VOLUME : Z := 12.
Definition NodeServiceCapability_RPC_UNKNOWN : Z := 0.
Definition NODE_RPC_STAGE_UNSTAGE_VOLUME : Z := 1.
Definition NODE_RPC_GET_VOLUME_STATS : Z := 2.
Definition NODE_RPC_EXPAND_VOLUME : Z := 3.
Definition CONTROLLER_SERVICE : Z := 1.
Definition VOLUME_ACCESSIBILITY_CONSTRAINTS : Z := 2.
Definition VolumeExpansion_ONLINE : Z := 1.

(** The two kinds of a plugin's capability. *)
Inductive PluginCapability := PluginCapability_Service (t : Z) | PluginCapability_VolumeExpansion (t : Z).
#[export] Instance PluginCapability_eq : EqDecision PluginCapability.
Proof. solve_decision. Defined.

(* [driver/capability.go:8-10] DefaultVolumeAccessModeType *)
Definition DefaultVolumeAccessModeType : list Z := [SINGLE_NODE_WRITER].
(* [driver/capability.go:12-15] DefaultControllerServiceCapability *)
Definition DefaultControllerServiceCapability : list Z :=
  [RPC_CREATE_DELETE_VOLUME; RPC_EXPAND_VOLUME; RPC_CREATE_DELETE_SNAPSHOT].
(* [driver/capability.go:27-31] DefaultNodeServiceCapability *)
Definition DefaultNodeServiceCapability : list Z :=
  [NODE_RPC_STAGE_UNSTAGE_VOLUME; NODE_RPC_EXPAND_VOLUME; NODE_RPC_GET_VOLUME_STATS].
(* [driver/capability.go:33-63] DefaultPluginCapability *)
Definition DefaultPluginCapability : list PluginCapability :=
  [PluginCapability_Service CONTROLLER_SERVICE; PluginCapability_Service VOLUME_ACCESSIBILITY_CONSTRAINTS;
   PluginCapability_VolumeExpansion VolumeExpansion_ONLINE].

(* [driver/capability.go:67-69] NewVolumeCapabilityAccessMode *)
Record VolumeCapability_AccessMode := NewVolumeCapabilityAccessMode { am_Mode : Z }.
(* [driver/capability.go:72-80] NewControllerServiceCapability *)
Record ControllerServiceCapability := NewControllerServiceCapability { csc_Type : Z }.
(* [driver/capability.go:83-91] NewNodeServiceCapability *)
Record NodeServiceCapability := NewNodeServiceCapability { nsc_Type : Z }.

(** A capability a request carries: its access mode may be missing, and the
    getters of protobuf read a missing one as the unknown mode. *)
Record VolumeCapability := { vc_AccessMode : option VolumeCapability_AccessMode }.
Definition GetMode (m : option VolumeCapability_AccessMode) : Z := from_option am_Mode VolumeCapability_AccessMode_UNKNOWN m.

(** ** The driver *)

Module driver.
(* [driver/driver.go:10-19] CSIDriver *)
Record CSIDriver := {
  name : string;
  version : string;
  nodeID : string;
  maxVolume : Z;
  volumeCap : list VolumeCapability_AccessMode;
  controllerCap : list ControllerServiceCapability;
  nodeCap : list NodeServiceCapability;
  pluginCap : list PluginCapability;
}.
(* [driver/driver.go:21-30] NewCSIDriverOption *)
Record NewCSIDriverOption := {
  Name : string;
  Version : string;
  NodeID : string;
  MaxVolume : Z;
  VolumeCap : list Z;
  ControllerCap : list Z;
  NodeCap : list Z;
  PluginCap : list PluginCapability;
}.

(* [driver/driver.go:54-61] CSIDriver.addVolumeCapabilityAccessModes *)
Definition addVolumeCapabilityAccessModes (vc : list Z) : list VolumeCapability_AccessMode := NewVolumeCapabilityAccessMode <$> vc.
(* [driver/driver.go:63-70] CSIDriver.addControllerServiceCapabilities *)
Definition addControllerServiceCapabilities (cl : list Z) : list ControllerServiceCapability := NewControllerServiceCapability <$> cl.
(* [driver/driver.go:72-79] CSIDriver.addNodeServiceCapabilities *)
Definition addNodeServiceCapabilities (nl : list Z) : list NodeServiceCapability := NewNodeServiceCapability <$> nl.
(* [driver/driver.go:81-83] CSIDriver.addPluginCapabilities *)
Definition addPluginCapabilities (cap : list PluginCapability) : list PluginCapability := cap.

(** [klog.Fatal] ends the process. *)
(* [driver/driver.go:33-52] NewCSIDriver *)
Definition NewCSIDriver {S} (opt : NewCSIDriverOption) : go S CSIDriver :=
  if decide (Name opt = "") then panic "CSIDriverOption cannot be empty"
  else mret {|
    name := Name opt; version := Version opt; nodeID := NodeID opt; maxVolume := MaxVolume opt;
    volumeCap := addVolumeCapabilityAccessModes (VolumeCap opt);
    controllerCap := addControllerServiceCapabilities (ControllerCap opt);
    nodeCap := addNodeServiceCapabilities (NodeCap opt);
    pluginCap := addPluginCapabilities (PluginCap opt) |}.

(** The loops over the capabilities end at the first that is the one asked for. *)
(* [driver/driver.go:90-94] CSIDriver.ValidateControllerServiceRequest, the loop *)
Fixpoint has_controllerCap (c : Z) (caps : list ControllerServiceCapability) : bool :=
  match caps with
  | [] => false
  | cap :: rest => if decide (c = csc_Type cap) then true else has_controllerCap c rest
  end.
(* [driver/driver.go:85-96] CSIDriver.ValidateControllerServiceRequest *)
Definition ValidateControllerServiceRequest (d : CSIDriver) (c : Z) : bool :=
  if decide (c = ControllerServiceCapability_RPC_UNKNOWN) then true else has_controllerCap c (controllerCap d).
(* [driver/driver.go:102-106] CSIDriver.ValidateNodeServiceRequest, the loop *)
Fixpoint has_nodeCap (c : Z) (caps : list NodeServiceCapability) : bool :=
  match caps with
  | [] => false
  | cap :: rest => if decide (c = nsc_Type cap) then true else has_nodeCap c rest
  end.
(* [driver/driver.go:98-109] CSIDriver.ValidateNodeServiceRequest *)
Definition ValidateNodeServiceRequest (d : CSIDriver) (c : Z) : bool :=
  if decide (c = NodeServiceCapability_RPC_UNKNOWN) then true else has_nodeCap c (nodeCap d).
(* [driver/driver.go:125-129] CSIDriver.ValidateVolumeAccessMode, the loop *)
Fixpoint has_volumeCap (c : Z) (modes : list VolumeCapability_AccessMode) : bool :=
  match modes with
  | [] => false
  | mode :: rest => if decide (c = am_Mode mode) then true else has_volumeCap c rest
  end.
(* [driver/driver.go:124-131] CSIDriver.ValidateVolumeAccessMode *)
Definition ValidateVolumeAccessMode (d : CSIDriver) (c : Z) : bool := has_volumeCap c (volumeCap d).
(* [driver/driver.go:111-113] CSIDriver.ValidateVolumeCapability *)
Definition ValidateVolumeCapability (d : CSIDriver) (cap : VolumeCapability) : bool :=
  ValidateVolumeAccessMode d (GetMode (vc_AccessMode cap)).
(* [driver/driver.go:115-122] CSIDriver.ValidateVolumeCapabilities *)
Fixpoint ValidateVolumeCapabilities (d : CSIDriver) (caps : list VolumeCapability) : bool :=
  match caps with
  | [] => true
  | cap :: rest => if negb (ValidateVolumeAccessMode d (GetMode (vc_AccessMode cap))) then false else ValidateVolumeCapabilities d rest
  end.
(* [driver/driver.go:166-168] CSIDriver.GetPluginCapability *)
Definition GetPluginCapability (d : CSIDriver) : list PluginCapability := pluginCap d.
(* [driver/driver.go:134-138] CSIDriver.ValidatePluginCapabilityService, the loop *)
Fixpoint has_service (cap : Z) (l : list PluginCapability) : bool :=
  match l with
  | [] => false
  | PluginCapability_Service t :: rest => if decide (t = cap) then true else has_service cap rest
  | PluginCapability_VolumeExpansion _ :: rest => has_service cap rest
  end.
(* [driver/driver.go:133-140] CSIDriver.ValidatePluginCapabilityService *)
Definition ValidatePluginCapabilityService (d : CSIDriver) (cap : Z) : bool := has_service cap (GetPluginCapability d).

(* [driver/driver.go:142-144] CSIDriver.GetName *)
Definition GetName (d : CSIDriver) : string := name d.
(* [driver/driver.go:146-148] CSIDriver.GetVersion *)
Definition GetVersion (d : CSIDriver) : string := version d.
(* [driver/driver.go:150-152] CSIDriver.GetInstanceId *)
Definition GetInstanceId (d : CSIDriver) : string := nodeID d.
(* [driver/driver.go:154-156] CSIDriver.GetMaxVolumePerNode *)
Definition GetMaxVolumePerNode (d : CSIDriver) : Z := maxVolume d.
(* [driver/driver.go:158-160] CSIDriver.GetControllerCapability *)
Definition GetControllerCapability (d : CSIDriver) : list ControllerServiceCapability := controllerCap d.
(* [driver/driver.go:162-164] CSIDriver.GetNodeCapability *)
Definition GetNodeCapability (d : CSIDriver) : list NodeServiceCapability := nodeCap d.
(* [driver/driver.go:170-172] CSIDriver.GetVolumeCapability *)
Definition GetVolumeCapability (d : CSIDriver) : list VolumeCapability_AccessMode := volumeCap d.
(* [driver/driver.go:174-176] CSIDriver.GetTopologyZoneKey *)
Definition GetTopologyZoneKey (d : CSIDriver) : string := "topology." +:+ GetName d +:+ "/zone".
(* [driver/driver.go:178-180] CSIDriver.GetTopologyInstanceTypeKey *)
Definition GetTopologyInstanceTypeKey (d : CSIDriver) : string := "topology." +:+ GetName d +:+ "/instance-type".
End driver.

(** ** Calls that answer from the driver *)

Section servers.
Context {S : Type}.
Implicit Types (d : driver.CSIDriver).

(* [rpcserver/identity.go:25-29] IdentityServer.Probe *)
Definition Probe : go S (result bool) := mret (inl true).
(* [rpcserver/identity.go:32-38] IdentityServer.GetPluginCapabilities *)
Definition GetPluginCapabilities d : go S (result (list PluginCapability)) := mret (inl (driver.GetPluginCapability d)).
(* [rpcserver/identity.go:41-48] IdentityServer.GetPluginInfo *)
Definition GetPluginInfo d : go S (result (string * string)) := mret (inl (driver.GetName d, driver.GetVersion d)).
(* [rpcserver/controller.go:566-571] ControllerServer.ControllerGetCapabilities *)
Definition ControllerGetCapabilities d : go S (result (list ControllerServiceCapability)) :=
  mret (inl (driver.GetControllerCapability d)).
(* [rpcserver/node.go:512-516] NodeServer.NodeGetCapabilities *)
Definition NodeGetCapabilities d : go S (result (list NodeServiceCapability)) := mret (inl (driver.GetNodeCapability d)).
Record NodeGetInfoResponse := { ngi_NodeId : string; ngi_MaxVolumesPerNode : Z; ngi_Segments : gmap string string }.
(* [rpcserver/node.go:518-533] NodeServer.NodeGetInfo *)
Definition NodeGetInfo d : go S (result NodeGetInfoResponse) :=
  mret (inl {| ngi_NodeId := driver.GetInstanceId d; ngi_MaxVolumesPerNode := driver.GetMaxVolumePerNode d;
               ngi_Segments := {[ "custom.k8s.alipay.com/obnvmf-host" := "true" ]} |}).
End servers.

(* [csi/cmd.go:115-124] RpcServerOption.run, the driver *)
Definition plugin_options (driverName nodeId gitVersion : string) (maxVolume : Z) : driver.NewCSIDriverOption := {|
  driver.Name := driverName; driver.NodeID := nodeId; driver.Version := gitVersion; driver.MaxVolume := wrap64 maxVolume;
  driver.VolumeCap := DefaultVolumeAccessModeType; driver.ControllerCap := DefaultControllerServiceCapability;
  driver.NodeCap := DefaultNodeServiceCapability; driver.PluginCap := DefaultPluginCapability |}.

(** ** The endpoint *)

(** [strings.SplitN(s, sep, 2)]: the text before the first separator and the text
    after it. *)
Fixpoint str_cut (sep s : string) : option (string * string) :=
  if HasPrefix s sep then Some ("", TrimPrefix s sep)
  else match s with
       | EmptyString => None
       | String c r => match str_cut sep r with Some (a, b) => Some (String c a, b) | None => None end
       end.
Definition SplitN2 (s sep : string) : list string :=
  match str_cut sep s with Some (a, b) => [a; b] | None => [s] end.

(* [rpcserver/server.go:101-109] ParseAddress *)
Definition ParseAddress {S} (addr : string) : go S (result (string * string)) :=
  let invalid := inr (ErrNew ("invalid endpoint: " +:+ addr)) in
  if HasPrefix (ToLower addr) "unix://" || HasPrefix (ToLower addr) "tcp://" then
    match SplitN2 addr "://" with
    | s0 :: s1 :: _ => if decide (s1 ≠ "") then mret (inl (s0, s1)) else mret invalid
    | _ => panic "index out of range"
    end
  else mret invalid.

(** The network and the library of gRPC: [Listen] names what it listens on, [Serve]
    returns when the server is stopped. *)
Inductive GrpcService := SIdentity | SController | SNode.
Class GrpcHost (W : Type) := {
  gh_Remove : string → go W (option error);
  gh_IsNotExist : error → bool;
  gh_Listen : string → string → go W (option error);
  gh_NewServer : go W unit;
  gh_Register : GrpcService → go W unit;
  gh_Serve : go W (option error);
}.

Section serve.
Context {W : Type} {G : GrpcHost W}.

(** [klog.Fatal] ends the process; the last error is only logged. *)
Definition fatal {A} (msg : string) : go W A := panic msg.
(* [rpcserver/server.go:52-59] gRPCServer.serve, the socket of an earlier run *)
Definition unix_socket (proto addr : string) : go W string :=
  if decide (proto = "unix") then
    let addr1 := if HasPrefix addr "/" then "/" +:+ addr else addr in
    err ← gh_Remove addr1;
    match err with
    | Some e => if gh_IsNotExist e then mret addr1 else fatal ("Failed to remove " +:+ addr1 +:+ ", error: " +:+ error_msg e)
    | None => mret addr1
    end
  else mret addr.
Definition register (present : bool) (s : GrpcService) : go W unit := if present then gh_Register s else mret tt.
(* [rpcserver/server.go:46-86] gRPCServer.serve *)
Definition serve (endpoint : string) (ids cs ns : bool) : go W unit :=
  parsed ← ParseAddress endpoint;
  match parsed with
  | inr e => fatal (error_msg e)
  | inl (proto, addr) =>
      addr1 ← unix_socket proto addr;
      err ← gh_Listen proto addr1;
      match err with
      | Some e => fatal ("Failed to listen: " +:+ error_msg e)
      | None =>
          _ ← gh_NewServer;
          _ ← register ids SIdentity;
          _ ← register cs SController;
          _ ← register ns SNode;
          _ ← gh_Serve;
          mret tt
      end
  end.
(* [rpcserver/server.go:88-98] logRequestResponse *)
Definition logRequestResponse {A B} (req : A) (handler : A → go W (result B)) : go W (result B) := handler req.
End serve.

(** ** The gauges of file systems *)

Section filesystem.
Context {G : Type} {P : Prometheus G}.

(** A call with a wrong number of values: [WithLabelValues] panics and
    [DeleteLabelValues] finds nothing. *)
Definition WithLabelValues (v : GaugeVec) (values : list string) : go G unit :=
  if decide (length values = length (gv_Labels v)) then λ g, Ret tt (prom_do (OWith v values) g)
  else panic "inconsistent label cardinality".
Definition DeleteLabelValues (v : GaugeVec) (values : list string) : go G unit :=
  if decide (length values = length (gv_Labels v)) then λ g, Ret tt (prom_do (ODelete v values) g) else mret tt.

(* [csi/metric/filesystem.go:20-20] initiatoeLabelKeys *)
Definition initiatoeLabelKeys : list string := ["node"; "pvc"; "ns"; "initiator"].
Definition initiator_vec (metric : string) : GaugeVec := {| gv_Subsystem := "fs"; gv_Name := metric; gv_Labels := initiatoeLabelKeys |}.
(* [csi/metric/filesystem.go:22-56] initiatorTotalSizeBytesGaugeVec and the other vectors *)
Definition initiator_vecs : list GaugeVec := initiator_vec <$>
  ["total_size_bytes"; "used_size_bytes"; "avail_szie_bytes"; "total_inodes"; "used_inodes"; "free_inodes"].
(* [csi/metric/filesystem.go:68-75] SetFilesystemMetrics *)
Definition SetFilesystemMetrics (nodeID pvcName pvcNS : string) : go G unit :=
  foldl (λ m v, _ ← m; WithLabelValues v [nodeID; pvcName; pvcNS]) (mret tt) initiator_vecs.
(* [csi/metric/filesystem.go:77-85] RemoveFilesystemMetrics *)
Definition RemoveFilesystemMetrics (nodeID pvcName pvcNS : string) : go G unit :=
  foldl (λ m v, _ ← m; DeleteLabelValues v [nodeID; pvcName; pvcNS]) (mret tt) initiator_vecs.

(** The vectors have four labels and both functions give three values. *)
Lemma filesystem_metrics_mismatch n p ns g :
  (∃ why, SetFilesystemMetrics n p ns g = Panic why g) ∧ RemoveFilesystemMetrics n p ns g = Ret tt g.
Proof. split; [by eexists|reflexivity]. Qed.
End filesystem.

(** ** Addresses are cut where they were joined *)

Lemma TrimPrefix_app p s : TrimPrefix (p +:+ s) p = s.
Proof.
  unfold TrimPrefix, HasPrefix. rewrite prefix_app. induction p as [|a p IH]; [|exact IH].
  change ("" +:+ s) with s. cbn [String.length]. rewrite Nat.sub_0_r.
  induction s as [|c s IH]; [done|]. cbn. by rewrite IH.
Qed.
Lemma HasPrefix_inv s p : HasPrefix s p = true → ∃ r, s = p +:+ r.
Proof.
  unfold HasPrefix. revert s. induction p as [|a p IH]; intros s H; [by exists s|].
  destruct s as [|b s]; [done|]. cbn in H. destruct (Ascii.ascii_dec a b) as [->|]; [|done].
  destruct (IH s H) as [r ->]. by exists r.
Qed.
Lemma ToLower_app s t : ToLower (s +:+ t) = ToLower s +:+ ToLower t.
Proof. induction s as [|c s IH]; [done|]. apply (f_equal (String (lower_char c)) IH). Qed.
Lemma ToLower_app_inv q1 q2 s : ToLower s = q1 +:+ q2 → ∃ s1 s2, s = s1 +:+ s2 ∧ ToLower s1 = q1 ∧ ToLower s2 = q2.
Proof.
  revert s. induction q1 as [|a q1 IH]; intros s H; [by exists "", s|].
  destruct s as [|c s]; [done|]. cbn in H. injection H as Hc H. destruct (IH s H) as (s1 & s2 & -> & H1 & H2).
  exists (String c s1), s2. split; [done|]. split; [cbn; by rewrite Hc, H1|done].
Qed.
(** No capital letter is a colon or a slash. *)
Definition colon : Ascii.ascii := Ascii.ascii_of_nat 58.
Definition slash : Ascii.ascii := Ascii.ascii_of_nat 47.
Lemma lower_char_fixed c d : d = colon ∨ d = slash → lower_char c = d → c = d.
Proof. intros Hd <-. destruct c as [[] [] [] [] [] [] [] []]; vm_compute in Hd |- *; by destruct Hd. Qed.
Lemma ToLower_sep s : ToLower s = "://" → s = "://".
Proof.
  destruct s as [|a [|b [|c [|]]]]; cbn; try discriminate. intros [= Ha Hb Hc].
  rewrite (lower_char_fixed a colon), (lower_char_fixed b slash), (lower_char_fixed c slash); auto.
Qed.

(** The text has no colon. *)
Fixpoint no_colon (s : string) : bool := match s with EmptyString => true | String c r => bool_decide (c ≠ colon) && no_colon r end.
Lemma no_colon_lower s : no_colon (ToLower s) = true → no_colon s = true.
Proof.
  induction s as [|c s IH]; [done|]. cbn. intros [Hc Hs]%andb_prop. apply andb_true_intro. split; [|auto].
  apply bool_decide_eq_true. intros ->. by apply bool_decide_eq_true in Hc.
Qed.
Lemma str_cut_prefix sep s : HasPrefix s sep = true → str_cut sep s = Some ("", TrimPrefix s sep).
Proof. destruct s; cbn [str_cut]; by intros ->. Qed.
Lemma str_cut_sep p a : no_colon p = true → str_cut "://" (p +:+ "://" +:+ a) = Some (p, a).
Proof.
  induction p as [|c p IH]; intros H.
  - change ("" +:+ "://" +:+ a) with ("://" +:+ a).
    by rewrite str_cut_prefix, TrimPrefix_app by by apply HasPrefix_app.
  - cbn in H. apply andb_prop in H as [Hc Hp]. apply bool_decide_eq_true in Hc.
    change (String c p +:+ "://" +:+ a) with (String c (p +:+ "://" +:+ a)). cbn [str_cut].
    rewrite (IH Hp). unfold HasPrefix. cbn [String.prefix]. destruct (Ascii.ascii_dec _ _) as [E|]; [by destruct Hc|done].
Qed.

(** The scheme of an endpoint. *)
Lemma scheme_split q s : no_colon q = true → HasPrefix (ToLower s) (q +:+ "://") = true →
  ∃ p a, s = p +:+ "://" +:+ a ∧ ToLower p = q ∧ SplitN2 s "://" = [p; a].
Proof.
  intros Hq [r Hr]%HasPrefix_inv. apply ToLower_app_inv in Hr as (s1 & a & -> & H1 & _).
  apply ToLower_app_inv in H1 as (p & s2 & -> & Hp & ->%ToLower_sep).
  assert (((p +:+ "://") +:+ a) = p +:+ "://" +:+ a) as -> by (clear; induction p as [|c p IH]; [done|exact (f_equal (String c) IH)]).
  exists p, a. split; [done|]. split; [done|]. unfold SplitN2. rewrite str_cut_sep; [done|]. apply no_colon_lower. by rewrite Hp.
Qed.

Definition endpoint_of (proto addr : string) : string := proto +:+ "://" +:+ addr.
Definition scheme (proto : string) : Prop := ToLower proto = "unix" ∨ ToLower proto = "tcp".
Lemma scheme_prefix proto addr : scheme proto →
  HasPrefix (ToLower (endpoint_of proto addr)) "unix://" || HasPrefix (ToLower (endpoint_of proto addr)) "tcp://" = true.
Proof.
  unfold endpoint_of. rewrite !ToLower_app. intros [-> | ->]; apply orb_true_iff;
    [left; exact (prefix_app "unix://" (ToLower addr))|right; exact (prefix_app "tcp://" (ToLower addr))].
Qed.

Section endpoint.
Context {S : Type}.

(** An endpoint is accepted exactly when it is a scheme, in capitals or not, and an
    address that is not empty; the answer is the two parts as they were written, and
    the text between them is always found. *)
Lemma ParseAddress_exact (addr : string) (s : S) :
  (∃ proto a, scheme proto ∧ a ≠ "" ∧ addr = endpoint_of proto a ∧ ParseAddress addr s = Ret (inl (proto, a)) s) ∨
  ((∀ proto a, scheme proto → a ≠ "" → addr ≠ endpoint_of proto a) ∧
   ParseAddress addr s = Ret (inr (ErrNew ("invalid endpoint: " +:+ addr))) s).
Proof.
  unfold ParseAddress. destruct (_ || _) eqn:E.
  - assert (∃ p a, addr = endpoint_of p a ∧ scheme p ∧ SplitN2 addr "://" = [p; a]) as (p & a & Ha & Hp & ->).
    { apply orb_true_iff in E as [E|E]; [destruct (scheme_split "unix" addr eq_refl E) as (p & a & ? & Hp & ?)
        |destruct (scheme_split "tcp" addr eq_refl E) as (p & a & ? & Hp & ?)];
        exists p, a; (split; [done|split; [|done]]); [by left|by right]. }
    case_decide as Hd; [left; by exists p, a|right]. split; [|done]. intros p' a' Hp' Ha' Heq.
    assert (SplitN2 addr "://" = [p'; a'] ∧ SplitN2 addr "://" = [p; a]) as [H1 H2].
    { split; [rewrite Heq|rewrite Ha]; unfold SplitN2, endpoint_of; rewrite str_cut_sep; try done;
        apply no_colon_lower; [destruct Hp' as [-> | ->]|destruct Hp as [-> | ->]]; reflexivity. }
    rewrite H1 in H2. injection H2 as -> ->. by destruct Hd.
  - right. split; [|done]. intros p a Hp _ ->. by rewrite scheme_prefix in E.
Qed.
End endpoint.

(** ** What the driver checks and advertises *)

Section advertised.
Implicit Types (d : driver.CSIDriver) (opt : driver.NewCSIDriverOption).

Lemma has_controllerCap_spec c l : driver.has_controllerCap c (NewControllerServiceCapability <$> l) = true ↔ c ∈ l.
Proof. induction l as [|x l IH]; cbn; [by rewrite elem_of_nil|]. rewrite elem_of_cons. case_decide; [naive_solver|]. rewrite IH. naive_solver. Qed.
Lemma has_nodeCap_spec c l : driver.has_nodeCap c (NewNodeServiceCapability <$> l) = true ↔ c ∈ l.
Proof. induction l as [|x l IH]; cbn; [by rewrite elem_of_nil|]. rewrite elem_of_cons. case_decide; [naive_solver|]. rewrite IH. naive_solver. Qed.
Lemma has_volumeCap_spec c l : driver.has_volumeCap c (NewVolumeCapabilityAccessMode <$> l) = true ↔ c ∈ l.
Proof. induction l as [|x l IH]; cbn; [by rewrite elem_of_nil|]. rewrite elem_of_cons. case_decide; [naive_solver|]. rewrite IH. naive_solver. Qed.
Lemma has_service_spec c l : driver.has_service c l = true ↔ PluginCapability_Service c ∈ l.
Proof.
  induction l as [|[t|t] l IH]; cbn; rewrite ?elem_of_nil, ?elem_of_cons; [done| |rewrite IH; naive_solver].
  case_decide; [naive_solver|]. rewrite IH. naive_solver.
Qed.

Lemma all_modes d caps :
  driver.ValidateVolumeCapabilities d caps = true ↔ Forall (λ cap, driver.ValidateVolumeAccessMode d (GetMode (vc_AccessMode cap)) = true) caps.
Proof.
  induction caps as [|cap caps IH]; cbn; [by split|]. rewrite Forall_cons, <- IH.
  destruct (driver.ValidateVolumeAccessMode d _); cbn; naive_solver.
Qed.

(** A driver with a name is made, it advertises what it was made with, and each
    check accepts exactly that, and the number that stands for no capability. *)
Lemma driver_checks_exact {S} opt (s : S) : driver.Name opt ≠ "" → ∃ d,
  driver.NewCSIDriver opt s = Ret d s ∧
  (∀ c, driver.ValidateControllerServiceRequest d c = true ↔ c = 0%Z ∨ c ∈ driver.ControllerCap opt) ∧
  (∀ c, driver.ValidateNodeServiceRequest d c = true ↔ c = 0%Z ∨ c ∈ driver.NodeCap opt) ∧
  (∀ caps, driver.ValidateVolumeCapabilities d caps = true ↔ Forall (λ cap, GetMode (vc_AccessMode cap) ∈ driver.VolumeCap opt) caps) ∧
  (∀ c, driver.ValidatePluginCapabilityService d c = true ↔ PluginCapability_Service c ∈ driver.PluginCap opt) ∧
  ControllerGetCapabilities d s = Ret (inl (NewControllerServiceCapability <$> driver.ControllerCap opt)) s ∧
  NodeGetCapabilities d s = Ret (inl (NewNodeServiceCapability <$> driver.NodeCap opt)) s ∧
  GetPluginCapabilities d s = Ret (inl (driver.PluginCap opt)) s.
Proof.
  intros Hn. unfold driver.NewCSIDriver. rewrite decide_False by done. eexists. split; [reflexivity|].
  split; [|split; [|split; [|split; [|done]]]]; intros c.
  - unfold driver.ValidateControllerServiceRequest. rewrite <- has_controllerCap_spec. case_decide; naive_solver.
  - unfold driver.ValidateNodeServiceRequest. rewrite <- has_nodeCap_spec. case_decide; naive_solver.
  - rewrite all_modes. apply Forall_iff. intros cap. apply has_volumeCap_spec.
  - apply has_service_spec.
Qed.
End advertised.

Section servers.
Context {L : K8sLib} {W : Type} {C : AntstorClientIface W}.

(** The calls of the controller that answer that they are not implemented, by the
    capability that would announce them. *)
Definition unimplemented : list (Z * go W (result unit)) :=
  [(RPC_GET_VOLUME, ControllerGetVolume); (RPC_LIST_VOLUMES, ListVolumes); (RPC_GET_CAPACITY, GetCapacity);
   (RPC_LIST_SNAPSHOTS, ListSnapshots)].
Lemma unimplemented_not_advertised c call (w : W) :
  (c, call) ∈ unimplemented → call w = Ret (inr (status_Error codes_Unimplemented "")) w ∧ c ∉ DefaultControllerServiceCapability.
Proof. intros H. repeat (apply elem_of_cons in H as [[= -> ->]|H]; [split; [reflexivity|by apply (bool_decide_unpack _); vm_compute]|]). by apply elem_of_nil in H. Qed.

(** The controller confirms whatever capabilities it is asked about, also the ones
    that the check of the driver refuses. *)
Lemma capabilities_confirmed_unchecked (d : driver.CSIDriver) id (w w' : W) pv :
  driver.volumeCap d = driver.addVolumeCapabilityAccessModes DefaultVolumeAccessModeType → id ≠ "" →
  ac_GetPvByID id w = Ret (inl pv) w' →
  let caps := [{| vc_AccessMode := Some (NewVolumeCapabilityAccessMode MULTI_NODE_MULTI_WRITER) |}] in
  driver.ValidateVolumeCapabilities d caps = false ∧
  CsiController.ValidateVolumeCapabilities id (Some caps) w = Ret (inl caps) w'.
Proof.
  intros Hd Hid Hpv caps. split.
  - cbn. unfold driver.ValidateVolumeAccessMode. by rewrite Hd.
  - unfold CsiController.ValidateVolumeCapabilities. rewrite decide_False by done. go_simpl. by rewrite Hpv.
Qed.
End servers.
