(* ===== verification/Extender.v ===== *)
(** * The scheduler extender

    [pkg/controller/manager/scheduler/extender]: an older scheduler in a process of
    its own, which no command starts any more: watch events feed two work queues, a
    worker schedules volumes, another keeps the pools, and a loop checks the
    heartbeats of all nodes. It works on the same state and with the same scheduler
    as the reconcilers, which the theorems compare it with. *)

From Stdlib Require Import ZArith Lia.
From stdpp Require Import base gmap strings option list.
From S2P Require Import Prelude Strconv Misc K8s Api State Filter Plugin Server Sched VolumeReconciler PoolReconciler Handlers Nvme.

(** [coordinationv1.LeaseInterface.List]. *)
Class LeaseLister (W : Type) := { leases_List : string → go W (result (list Lease)) }.

(** ** Keys of objects

    [cache.MetaNamespaceKeyFunc] joins namespace and name, and
    [cache.SplitMetaNamespaceKey] cuts them apart. *)
Definition key_slash : Ascii.ascii := Ascii.ascii_of_nat 47.
Definition SplitMetaNamespaceKey (key : string) : result (string * string) :=
  match Split key_slash key with
  | [name] => inl ("", name)
  | [ns; name] => inl (ns, name)
  | _ => inr (ErrNew ("unexpected key format: " +:+ key))
  end.
Definition queued (m : ObjectMeta) : list Request :=
  match SplitMetaNamespaceKey (MetaNamespaceKey m) with
  | inl (ns, name) => [{| rq_Namespace := ns; rq_Name := name |}]
  | inr _ => []
  end.

(** What an informer hands to a callback; a tombstone stands for an object whose
    deletion it missed. *)
Inductive InformerObject {L : K8sLib} := IVolume (vol : AntstorVolume) | IPool (sp : StoragePool) | ITombstone (m : ObjectMeta).

Section events.
Context {L : K8sLib}.

(** The key of an object is found through its metadata, the key of a tombstone only
    by the function for deletions. *)
Definition obj_key (deletion : bool) (obj : InformerObject) : list Request :=
  match obj with
  | IVolume vol => queued (vol_meta vol)
  | IPool sp => queued (sp_meta sp)
  | ITombstone m => if deletion then queued m else []
  end.

(* [extender/pool_handler.go:22-46] SchedulerExtender.onStoragePoolAdd *)
Definition onStoragePoolAdd (obj : InformerObject) (s : State) : State * list Request :=
  match obj with
  | IPool sp => ((SetStoragePool sp s).2, obj_key false obj)
  | _ => (s, [])
  end.
(* [extender/pool_handler.go:48-63] SchedulerExtender.onStoragePoolUpdate *)
Definition onStoragePoolUpdate (old new : InformerObject) : list Request := obj_key false new.
(* [extender/pool_handler.go:65-80] SchedulerExtender.onStoragePoolDelete *)
Definition onStoragePoolDelete (obj : InformerObject) : list Request := obj_key true obj.

(* [extender/volume_handler.go:14-61] SchedulerExtender.onAntstorVolumeAdd *)
Definition onAntstorVolumeAdd (obj : InformerObject) (s : State) : State * list Request :=
  match obj with
  | IVolume vol =>
      let nodeId := vs_TargetNodeId (vol_Spec vol) in
      let s1 := if decide (nodeId ≠ "" ∧ om_DeletionTimestamp (vol_meta vol) = None)
                then (BindAntstorVolume nodeId vol (ensure_node nodeId s)).1 else s in
      (s1, obj_key false obj)
  | _ => (s, [])
  end.
(* [extender/volume_handler.go:63-84] SchedulerExtender.onAntstorVolumeUpdate *)
Definition onAntstorVolumeUpdate (old new : InformerObject) : list Request :=
  match new with IVolume _ => obj_key false new | _ => [] end.
(* [extender/volume_handler.go:86-107] SchedulerExtender.onAntstorVolumeDelete *)
Definition onAntstorVolumeDelete (obj : InformerObject) : list Request :=
  match obj with IVolume _ => obj_key true obj | _ => [] end.
End events.

(** ** The worker of pools *)

Section pools.
Context {L : K8sLib} {W : Type} {KP : KubeClient W StoragePool}.
Abbreviation MW := (ManagerWorld W).

(** The client of the extender reads and writes as the reconcilers' does, but the
    answers of its writes are not looked at. *)
Definition err_of {A} (r : result A) : option error := match r with inl _ => None | inr e => Some e end.

(* [extender/pool_handler.go:125-138] StoragePoolReconciler.Reconcile, volumes left on the node *)
Definition ext_volumes_left (volumes : list AntstorVolume) (sp : StoragePool) (err0 : option error) : go MW (option error) :=
  let volNames := (λ item, vol_Namespace item +:+ "/" +:+ vol_Name item) <$> volumes in
  if negb (HasPrefix (spst_Message (sp_Status sp)) VolumesLeftMessage) then
    r ← on_snd (kUpdateStatus (sp_set_message ("Volumes left on node: " +:+ strings_Join volNames ", ") sp));
    mret (err_of r)
  else mret err0.

(** The pool goes into the state at the end, also the one that was just removed. *)
Definition ext_set_pool (sp : StoragePool) (err : option error) : go MW (option error) :=
  _ ← on_fst (state_op (λ s, ((SetStoragePool sp s).2, tt)));
  mret err.
(* [extender/pool_handler.go:140-153] StoragePoolReconciler.Reconcile, removing the pool *)
Definition ext_remove_pool (sp : StoragePool) : go MW (StoragePool * option error) :=
  _ ← on_fst (gmodify (RemoveStoragePool (sp_Name sp)));
  if decide (0 < length (om_Finalizers (sp_meta sp)))%nat then
    let sp1 := sp_set_finalizers [] sp in
    r ← on_snd (kUpdate sp1);
    mret (sp1, err_of r)
  else mret (sp, None).
(* [extender/pool_handler.go:89-158] StoragePoolReconciler.Reconcile *)
Definition ext_pool_Reconcile (req : Request) : go MW (option error) :=
  got ← on_snd (kGet (T := StoragePool) (rq_Namespace req) (rq_Name req));
  match got with
  | inr e =>
      if IsNotFound e then
        _ ← on_fst (gmodify (RemoveStoragePool (sp_Name StoragePool_zero)));
        mret None
      else mret (Some e)
  | inl sp =>
      if decide (ni_ID (sps_NodeInfo (sp_Spec sp)) = "") then mret (Some (ErrNew "StoragePool has no value of .Spec.NodeInfo.ID"))
      else if opt_is_some (om_DeletionTimestamp (sp_meta sp)) then
        s ← on_fst gget;
        let '(volumes, err0) := match GetNodeByNodeID (rq_Name req) (s : State) with
                                | inl n => (nd_Volumes n, None)
                                | inr e => ([], Some e) end in
        if decide (0 < length volumes)%nat then ext_volumes_left volumes sp err0
        else
          '(sp1, err) ← ext_remove_pool sp;
          ext_set_pool sp1 err
      else ext_set_pool sp None
  end.
End pools.

(** ** The worker of volumes *)

Section volumes.
Context {L : K8sLib} {W : Type} {KV : KubeClient W AntstorVolume} {KP : KubeClient W StoragePool}.
Abbreviation MW := (ManagerWorld W).

Definition ended (err : option error) : CtrlResult * option error := (CtrlResult_zero, err).
(** Updates whose error is the answer. *)
Definition ext_update (vol : AntstorVolume) : go MW (option error) :=
  r ← on_snd (kUpdate vol); mret (err_of r).

(* [extender/volume_worker.go:80-135] AntstorVolumeReconciler.Reconcile, a deletion the agent has not finished *)
Definition ext_pending_deletion (now : Z) (volume : AntstorVolume) : go MW (CtrlResult * option error) :=
  got ← on_snd (pools_Get (vs_TargetNodeId (vol_Spec volume)));
  let '(targetPool, err) := (got : option StoragePool * option error) in
  match IgnoreNotFound err, targetPool with
  | Some _, _ => mret (ended err)
  | None, None =>
      _ ← on_fst (state_op (UnbindAntstorVolume (vs_Uuid (vol_Spec volume))));
      err1 ← ext_update (vol_set_finalizers [] volume);
      mret (ended err1)
  | None, Some pool =>
      del ← deref "DeletionTimestamp" (om_DeletionTimestamp (vol_meta volume));
      let sinceDel := time_Since now del in
      let isNotReady := bool_decide (spst_Status (sp_Status pool) ≠ PoolStatusReady) in
      if bool_decide (20 * Minute <= sinceDel)%Z && isNotReady && bool_decide (1 < length (om_Finalizers (vol_meta volume)))%nat then
        err1 ← ext_update (vol_set_finalizers (drop_agent_finalizers (om_Finalizers (vol_meta volume))) volume);
        mret (ended err1)
      else mret (ended err)
  end.
(* [extender/volume_worker.go:60-135] AntstorVolumeReconciler.Reconcile, a deleted volume *)
Definition ext_deletion (now : Z) (volume : AntstorVolume) : go MW (CtrlResult * option error) :=
  if bool_decide (length (om_Finalizers (vol_meta volume)) = 1%nat) && Contains (om_Finalizers (vol_meta volume)) InStateFinalizer then
    _ ← on_fst (state_op (UnbindAntstorVolume (vs_Uuid (vol_Spec volume))));
    err ← ext_update (vol_set_finalizers [] volume);
    mret (ended err)
  else ext_pending_deletion now volume.

(** The volume is bound to the node it names itself, which the scheduler wrote
    into it, and then saved with the node the scheduler answered. *)
(* [extender/volume_worker.go:187-222] AntstorVolumeReconciler.Reconcile, saving the node *)
Definition ext_assign (base volume : AntstorVolume) (nodeInfo : NodeInfo) : go MW (CtrlResult * option error) :=
  err ← on_fst (state_op (BindAntstorVolume (vs_TargetNodeId (vol_Spec volume)) volume));
  match err with
  | Some e => mret (ended (Some e))
  | None =>
      let volume1 := vol_set_target (ni_ID nodeInfo) volume in
      let volume2 := if map_is_nil (om_Labels (vol_meta volume1)) then vol_set_labels map_make volume1 else volume1 in
      volume3 ← vol_put_label TargetNodeIdLabelKey (vs_TargetNodeId (vol_Spec volume2)) volume2;
      let volume4 := vol_set_status VolumeStatusCreating volume3 in
      r ← on_snd (kPatch base volume4);
      match err_of r with
      | Some e => mret (ended (Some e))
      | None => r' ← on_snd (kUpdateStatus volume4); mret (ended (err_of r'))
      end
  end.
(* [extender/volume_worker.go:157-180] AntstorVolumeReconciler.Reconcile, no pool fits *)
Definition ext_no_pool (volume : AntstorVolume) (e : error) : go MW (CtrlResult * option error) :=
  _ ← (if negb (str_contains (vst_Message (vol_Status volume)) NoStoragePoolAvailable) then
         r ← on_snd (kUpdateStatus (vol_set_status VolumeStatusCreating (vol_set_message (error_msg e) volume)));
         mret (err_of r)
       else mret None);
  mret (RequeueAfter (30 * Second), None).
(* [extender/volume_worker.go:137-222] AntstorVolumeReconciler.Reconcile, a volume without a node *)
Definition ext_schedule (sched : Scheduler) (volume : AntstorVolume) : go MW (CtrlResult * option error) :=
  s ← on_fst gget;
  let bound := match GetVolumeByID (vs_Uuid (vol_Spec volume)) (s : State) with
               | inl bindedVol => vs_TargetNodeId (vol_Spec bindedVol)
               | inr _ => "" end in
  if decide (bound ≠ "") then
    err ← ext_update (vol_set_target bound volume);
    mret (ended err)
  else
    res ← on_fst (run_scheduler (sched volume));
    let '(nodeInfo, volume1, err) := (res : NodeInfo * AntstorVolume * option error) in
    match err with
    | Some e => if IsNoStoragePoolAvailable (Some e) then ext_no_pool volume1 e else mret (ended (Some e))
    | None => ext_assign volume volume1 nodeInfo
    end.
(* [extender/volume_worker.go:224-260] AntstorVolumeReconciler.Reconcile, a volume with a node *)
Definition ext_placed (volume : AntstorVolume) : go MW (CtrlResult * option error) :=
  err ← on_fst (state_op (BindAntstorVolume (vs_TargetNodeId (vol_Spec volume)) volume));
  match err with
  | Some e => mret (ended (Some e))
  | None =>
      if negb (map_has (om_Labels (vol_meta volume)) TargetNodeIdLabelKey) then
        volume1 ← vol_put_label TargetNodeIdLabelKey (vs_TargetNodeId (vol_Spec volume)) volume;
        err ← ext_update volume1;
        mret (ended err)
      else if negb (InSliceString InStateFinalizer (om_Finalizers (vol_meta volume))) then
        err ← ext_update (vol_set_finalizers (om_Finalizers (vol_meta volume) ++ [InStateFinalizer]) volume);
        mret (ended err)
      else mret (ended None)
  end.
(* [extender/volume_worker.go:31-277] AntstorVolumeReconciler.Reconcile *)
Definition ext_vol_Reconcile (now : Z) (sched : Scheduler) (req : Request) : go MW (CtrlResult * option error) :=
  got ← on_snd (kGet (T := AntstorVolume) (rq_Namespace req) (rq_Name req));
  match got with
  | inr e => mret (ended (if IsNotFound e then None else Some e))
  | inl volume =>
      if decide (vs_Uuid (vol_Spec volume) = "") then mret (RequeueAfter Minute, None)
      else if opt_is_some (om_DeletionTimestamp (vol_meta volume)) then ext_deletion now volume
      else if decide (vs_TargetNodeId (vol_Spec volume) = "") then ext_schedule sched volume
      else ext_placed volume
  end.
End volumes.

(** ** The check of all heartbeats *)

Section heartbeats.
Context {L : K8sLib} {W : Type} {KP : KubeClient W StoragePool} {KN : KubeClient W CoreNode} {KL : KubeClient W Lease}.
Context {LL : LeaseLister W}.
Abbreviation MW := (ManagerWorld W).

(* [extender/heartbeat.go:24-24] nodeExpireDuration *)
Definition ext_nodeExpireDuration : Z := (3 * Minute)%Z.
(* [extender/heartbeat.go:26-26] nodeOfflineExpireDuration *)
Definition ext_nodeOfflineExpireDuration : Z := (72 * Hour)%Z.

(** The lease of a node the state does not know. *)
(* [extender/heartbeat.go:84-95] HeartbeatManager.checkHeartbeats, a lease without node *)
Definition ext_stray_lease (nodeID : string) : go MW unit :=
  got ← on_snd (kGet (T := CoreNode) "" nodeID);
  match got with
  | inr e => if IsNotFound e then _ ← on_snd (kDelete (T := Lease) (lease_named nodeID None)); mret tt else mret tt
  | inl _ => mret tt
  end.
(** The errors of the changes are logged. *)
(* [extender/heartbeat.go:79-122] HeartbeatManager.checkHeartbeats, one lease *)
Definition ext_check_lease (now : Z) (lease : Lease) : go MW unit :=
  renew ← deref "RenewTime" (ls_RenewTime lease);
  let since := time_Since_ns now renew in
  let lostHB := bool_decide (ext_nodeExpireDuration < since)%Z in
  let shouldOffline := bool_decide (ext_nodeOfflineExpireDuration < since)%Z in
  s ← on_fst gget;
  match GetNodeByNodeID (ls_Name lease) (s : State) with
  | inr _ => ext_stray_lease (ls_Name lease)
  | inl node =>
      acc1 ← heartbeat_status (ls_Name lease)
        (λ st, negb lostHB && (bool_decide (st = PoolStatusUnknown) || bool_decide (st = PoolStatusOffline)))
        PoolStatusReady (nd_Pool node, None);
      acc2 ← heartbeat_status (ls_Name lease) (λ st, lostHB && bool_decide (st = PoolStatusReady)) PoolStatusUnknown acc1;
      _ ← heartbeat_status (ls_Name lease) (λ _, shouldOffline) PoolStatusOffline acc2;
      mret tt
  end.
Fixpoint ext_check_leases (now : Z) (leases : list Lease) : go MW unit :=
  match leases with
  | [] => mret tt
  | lease :: rest => _ ← ext_check_lease now lease; ext_check_leases now rest
  end.
(* [extender/heartbeat.go:67-126] HeartbeatManager.checkHeartbeats *)
Definition checkHeartbeats (now : Z) : go MW (option error) :=
  got ← on_snd (leases_List LeaseNamespace);
  match got with
  | inr e => mret (Some e)
  | inl allLeases => _ ← ext_check_leases now allLeases; mret None
  end.
End heartbeats.

(** ** A pool never leaves the state *)

Section pools_stay.
Context {L : K8sLib} {W : Type} {KP : KubeClient W StoragePool}.
Implicit Types (sp : StoragePool) (s : State) (w : W).

Lemma set_pool_known sp s : is_Some (NodeMap (SetStoragePool sp s).2 !! ni_ID (sps_NodeInfo (sp_Spec sp))).
Proof.
  unfold SetStoragePool. cbn [snd]. rewrite set_pool_capacity_id. set (id := ni_ID _).
  destruct (NodeMap s !! id) as [n|] eqn:E; cbn; rewrite lookup_insert_eq; by eexists.
Qed.
Lemma ext_set_pool_inv sp err s w r s' w' : ext_set_pool sp err (s, w) = Ret r (s', w') →
  r = err ∧ s' = (SetStoragePool sp s).2 ∧ w' = w.
Proof. unfold ext_set_pool, state_op, on_fst. go_simpl. cbn. by intros [= <- <- <-]. Qed.
Lemma ext_remove_pool_inv sp s w sp1 err s' w' : ext_remove_pool sp (s, w) = Ret (sp1, err) (s', w') →
  sp_Spec sp1 = sp_Spec sp ∧ s' = RemoveStoragePool (sp_Name sp) s.
Proof.
  unfold ext_remove_pool, on_fst, on_snd. go_simpl. cbn [fst snd]. unfold gmodify. cbn [fst snd].
  case_decide; [|by intros [= <- <- <- <-]].
  match goal with |- context [kUpdate ?a ?b] => destruct (kUpdate a b) as [r w1|] end; cbn; [by intros [= <- <- <- <-]|done].
Qed.

(** The worker of pools never takes a node out of the state. A pool that was
    deleted is removed and put back in the same request, without its volumes; a
    pool that is gone is looked for under the name of the empty object the client
    answers with its error. *)
Lemma ext_pool_never_leaves req s w err s' w' id :
  ext_pool_Reconcile req (s, w) = Ret err (s', w') → id ≠ "" → is_Some (NodeMap s !! id) →
  (∀ sp w1, kGet (T := StoragePool) (rq_Namespace req) (rq_Name req) w = Ret (inl sp) w1 →
     sp_Name sp = ni_ID (sps_NodeInfo (sp_Spec sp))) →
  is_Some (NodeMap s' !! id).
Proof.
  intros H Hid Hs Hname. unfold ext_pool_Reconcile, on_snd at 1 in H. unfold mbind at 1, go_mbind, go_bind in H. cbn [fst snd] in H.
  destruct (kGet (T := StoragePool) _ _ w) as [[sp|e] w1|] eqn:Eg; [| |done].
  - specialize (Hname sp w1 eq_refl).
    assert (∀ sp1 e1 s1 w2, sp_Spec sp1 = sp_Spec sp → (id ≠ sp_Name sp → is_Some (NodeMap s1 !! id)) →
      ext_set_pool sp1 e1 (s1, w2) = Ret err (s', w') → is_Some (NodeMap s' !! id)) as Hput.
    { intros sp1 e1 s1 w2 Hsp Hs1 (_ & -> & _)%ext_set_pool_inv. destruct (decide (id = sp_Name sp)) as [->|Hne].
      - rewrite Hname, <- Hsp. apply set_pool_known.
      - specialize (Hs1 Hne). unfold SetStoragePool. cbn [snd]. rewrite set_pool_capacity_id, Hsp, <- Hname.
        destruct (NodeMap s1 !! sp_Name sp); cbn; by rewrite lookup_insert_ne. }
    case_decide as Hi; [by injection H as <- <- <-|].
    destruct (opt_is_some _) eqn:Ed; [|by eapply Hput; [|intros _; exact Hs|exact H]].
    unfold mbind at 1, go_mbind, go_bind, on_fst at 1, gget in H. cbn [fst snd] in H.
    destruct (GetNodeByNodeID (rq_Name req) s) as [n|e0].
    + case_decide.
      * unfold ext_volumes_left, on_snd in H. revert H. go_simpl. destruct (negb _); [|by intros [= <- <- <-]].
        match goal with |- context [kUpdateStatus ?a ?b] => destruct (kUpdateStatus a b) as [r w2|] end; cbn; [by intros [= <- <- <-]|done].
      * revert H. unfold mbind at 1, go_mbind, go_bind. destruct (ext_remove_pool sp (s, w1)) as [[sp1 e1] [s1 w2]|] eqn:Er; [|done].
        apply ext_remove_pool_inv in Er as [Hsp ->]. intros H. eapply Hput; [exact Hsp| |exact H].
        intros Hne. cbn. by rewrite lookup_delete_ne.
    + cbn [length] in H. rewrite decide_False in H by lia. revert H. unfold mbind at 1, go_mbind, go_bind.
      destruct (ext_remove_pool sp (s, w1)) as [[sp1 e1] [s1 w2]|] eqn:Er; [|done].
      apply ext_remove_pool_inv in Er as [Hsp ->]. intros H. eapply Hput; [exact Hsp| |exact H].
      intros Hne. cbn. by rewrite lookup_delete_ne.
  - revert H. destruct (IsNotFound e); [|by intros [= <- <- <-]]. unfold on_fst, gmodify. go_simpl. cbn.
    intros [= <- <- <-]. cbn. by rewrite lookup_delete_ne.
Qed.
End pools_stay.

(** ** The worker of volumes does what the reconciler does *)

Section volumes_agree.
Context {L : K8sLib} {W : Type} {KV : KubeClient W AntstorVolume} {KP : KubeClient W StoragePool} {HK : StoreLaws KV}.
Implicit Types (vol : AntstorVolume) (s : State) (w : W) (sched : Scheduler).

(** A scheduler that writes its choice into the volume, as it does for a volume
    without a hint. *)
Definition writes_target sched vol s : Prop :=
  ∀ info v1 nodes', sched vol (GetAllNodes s) = Ret (info, v1, None) nodes' → v1 = vol_set_target (ni_ID info) vol.
(** The volume up to its status. *)
Definition same_but_status (v v' : AntstorVolume) : Prop := vol_meta v = vol_meta v' ∧ vol_Spec v = vol_Spec v'.

Lemma on_snd_err {A} (m : go (ManagerWorld W) (result A)) sw r sw' :
  m sw = Ret r sw' → (m ≫= λ r, mret (err_of r)) sw = Ret (err_of r) sw'.
Proof. intros H. go_simpl. by rewrite H. Qed.

Lemma ext_assign_steps vol info s w : sl_view w !! vol_key vol = Some vol → vol_live vol →
  let v1 := vol_set_target (ni_ID info) vol in
  ∃ res w' v', ext_assign vol v1 info (s, w) = Ret res ((BindAntstorVolume (ni_ID info) v1 s).1, w') ∧
    sl_view w' = <[vol_key vol := v']> (sl_view w) ∧
    same_but_status v' (match (BindAntstorVolume (ni_ID info) v1 s).2 with
                        | Some _ => vol | None => vol_add_label TargetNodeIdLabelKey (ni_ID info) v1 end).
Proof.
  intros Hv Hl v1. unfold ext_assign, state_op, on_fst. go_simpl. cbn [fst snd].
  change (vs_TargetNodeId (vol_Spec v1)) with (ni_ID info).
  destruct (BindAntstorVolume (ni_ID info) v1 s) as [s1 [e|]]; cbn [fst snd].
  { eexists _, w, vol. split; [reflexivity|]. split; [symmetry; by apply insert_id|done]. }
  change (vol_set_target (ni_ID info) v1) with v1.
  destruct (vl_labels _ Hl) as [l El]. change (om_Labels (vol_meta v1)) with (om_Labels (vol_meta vol)).
  rewrite El. cbn [map_is_nil]. rewrite (vol_put_label_run _ _ v1) by (by eexists). cbn beta iota.
  change (vs_TargetNodeId (vol_Spec v1)) with (ni_ID info). set (v2 := vol_add_label _ _ v1).
  destruct (patch_run vol (vol_set_status VolumeStatusCreating v2) s1 w Hv eq_refl (vl_del _ Hl)) as (w1 & Hp & Hw1).
  rewrite Hp. cbn [err_of]. unfold stored in Hw1. set (v3 := vol_set_Status _ _) in Hw1.
  destruct (status_run v3 (vol_Status (vol_set_status VolumeStatusCreating v2)) s1 w1) as (w2 & Hs & Hw2).
  { rewrite Hw1. change (vol_key v3) with (vol_key vol). apply lookup_insert_eq. }
  { apply Hl. }
  change (vol_set_Status (vol_Status (vol_set_status VolumeStatusCreating v2)) v3) with (vol_set_status VolumeStatusCreating v2) in *.
  rewrite Hs. cbn [err_of]. eexists _, w2, _. split; [reflexivity|]. unfold stored in Hw2. rewrite Hw2, Hw1.
  change (vol_key v3) with (vol_key vol). rewrite insert_insert_eq. split; [reflexivity|done].
Qed.

Lemma ext_no_pool_steps vol e s w : sl_view w !! vol_key vol = Some vol → vol_live vol → IsNoStoragePoolAvailable (Some e) = true →
  ∃ res w', ext_no_pool vol e (s, w) = Ret res (s, w') ∧ sl_view w' = <[vol_key vol := vol_refused e vol]> (sl_view w).
Proof.
  intros Hv Hl He. unfold ext_no_pool, vol_refused. rewrite He. cbn [andb]. go_simpl. destruct (negb _).
  - destruct (status_run vol (vst_set_Status VolumeStatusCreating (vst_set_Message (error_msg e) (vol_Status vol))) s w Hv (vl_del _ Hl))
      as (w' & Hp & Hw'). unfold vol_set_status, vol_set_message in *. cbn [vol_Status vol_set_Status] in *.
    change (vol_set_Status ?a (vol_set_Status ?b vol)) with (vol_set_Status a vol). rewrite Hp. eexists _, w'. by split.
  - eexists _, w. split; [reflexivity|]. symmetry. by apply insert_id.
Qed.

(** For a live volume without a node the extender's worker makes of the state what
    the abstract step of the reconciler makes of it, and leaves the same volume on
    the server, but for its status. *)
Lemma ext_schedules_as_reconciler now sched vol s w :
  sl_view w !! vol_key vol = Some vol → vol_live vol → vs_TargetNodeId (vol_Spec vol) = "" →
  state_wf s → sched_contract sched → writes_target sched vol s →
  ∃ res w' v', ext_vol_Reconcile now sched (vol_req vol) (s, w) = Ret res ((vol_next_unplaced sched s vol).1, w') ∧
    sl_view w' = <[vol_key vol := v']> (sl_view w) ∧ same_but_status v' (vol_next_unplaced sched s vol).2.
Proof.
  intros Hv Hl Ht Hwf Hs Hwr. destruct (sl_get (om_Namespace (vol_meta vol)) (om_Name (vol_meta vol)) w vol Hv) as (w1 & Hg & Hw1).
  unfold ext_vol_Reconcile, on_snd at 1. unfold mbind at 1, go_mbind, go_bind. cbn [fst snd rq_Namespace rq_Name vol_req].
  rewrite Hg. rewrite decide_False by apply Hl. rewrite (vl_del _ Hl). cbn [opt_is_some]. rewrite decide_True by done.
  rewrite <- Hw1 in Hv |- *. clear w Hg Hw1. rename w1 into w.
  unfold ext_schedule, vol_next_unplaced. unfold mbind at 1, go_mbind, go_bind, on_fst at 1, gget. cbn [fst snd].
  set (bound := match GetVolumeByID _ s with inl b => _ | inr _ => _ end). destruct (decide (bound ≠ "")) as [Hb|Hb].
  - unfold ext_update. go_simpl. destruct (update_run vol (vol_set_target bound vol) s w Hv eq_refl (vl_del _ Hl)) as (w' & Hp & Hw').
    rewrite Hp. cbn [err_of]. eexists _, w', _. split; [reflexivity|]. split; [exact Hw'|done].
  - destruct (sc_run _ Hs vol (GetAllNodes s) (vl_host _ Hl) (GetAllNodes_ids _ Hwf)) as (info & v1 & err & nodes' & Hr & _ & Hv1).
    assert (run_scheduler (sched vol) s = Ret (info, v1, err) (set_all_nodes nodes' s)) as Hrun by (unfold run_scheduler; by rewrite Hr).
    rewrite Hrun. cbn [run_state run_val].
    unfold mbind, go_mbind, go_bind, on_fst. cbn [fst snd]. rewrite Hrun. cbn beta iota. set (s1 := set_all_nodes nodes' s).
    destruct err as [e|].
    + subst v1. destruct (IsNoStoragePoolAvailable (Some e)) eqn:He.
      * destruct (ext_no_pool_steps vol e s1 w Hv Hl He) as (res & w' & Hn & Hw'). rewrite Hn. by eexists _, w', _.
      * eexists _, w, vol. split; [reflexivity|]. split; [symmetry; by apply insert_id|]. unfold vol_refused. by rewrite He.
    + apply Hwr in Hr as ->. destruct (ext_assign_steps vol info s1 w Hv Hl) as (res & w' & v' & Ha & Hw' & Hsame).
      rewrite Ha. exists res, w', v'. by destruct (BindAntstorVolume _ _ _) as [s2 [e|]].
Qed.

(** A scheduler leaves a volume with a hint as it is: the worker then asks to bind
    it to the node without a name, which fails at every request. *)
Lemma ext_hinted_never_placed now sched vol s w info nodes' :
  sl_view w !! vol_key vol = Some vol → vol_live vol → vs_TargetNodeId (vol_Spec vol) = "" →
  (∃ e, GetVolumeByID (vs_Uuid (vol_Spec vol)) s = inr e) → NodeMap (set_all_nodes nodes' s) !! "" = None →
  sched vol (GetAllNodes s) = Ret (info, vol, None) nodes' →
  ∃ w', ext_vol_Reconcile now sched (vol_req vol) (s, w) = Ret (ended (Some (newNotFoundNodeError ""))) (set_all_nodes nodes' s, w') ∧
    sl_view w' = sl_view w.
Proof.
  intros Hv Hl Ht [e He] Hn Hr. destruct (sl_get (om_Namespace (vol_meta vol)) (om_Name (vol_meta vol)) w vol Hv) as (w1 & Hg & Hw1). exists w1. split; [|done].
  unfold ext_vol_Reconcile, on_snd at 1. unfold mbind at 1, go_mbind, go_bind. cbn [fst snd rq_Namespace rq_Name vol_req].
  rewrite Hg. rewrite decide_False by apply Hl. rewrite (vl_del _ Hl). cbn [opt_is_some]. rewrite decide_True by done.
  unfold ext_schedule. unfold mbind at 1, go_mbind, go_bind, on_fst at 1, gget. cbn [fst snd]. rewrite He. rewrite decide_False by (by intros []).
  assert (run_scheduler (sched vol) s = Ret (info, vol, None) (set_all_nodes nodes' s)) as Hrun by (unfold run_scheduler; by rewrite Hr).
  unfold mbind, go_mbind, go_bind, on_fst. cbn [fst snd]. rewrite Hrun. cbn beta iota.
  unfold ext_assign, state_op, on_fst. go_simpl. cbn [fst snd]. rewrite Ht. unfold BindAntstorVolume. by rewrite Hn.
Qed.
End volumes_agree.

(** ** Every pool follows its heartbeat *)

Section heartbeats_spec.
Context {L : K8sLib} {W : Type} {KP : KubeClient W StoragePool} {KN : KubeClient W CoreNode} {KL : KubeClient W Lease}.
Context {LL : LeaseLister W} {HK : StoreLaws KP}.
Implicit Types (p : StoragePool) (s : State) (w : W) (leases : list Lease).

(** The status after a look at a lease last renewed [since] ago. *)
Definition ext_next (since : Z) (st : string) : string :=
  if decide (72 * Hour < since)%Z then PoolStatusOffline
  else if decide (3 * Minute < since)%Z then (if decide (st = PoolStatusReady) then PoolStatusUnknown else st)
  else if decide (st = PoolStatusUnknown ∨ st = PoolStatusOffline) then PoolStatusReady else st.
Lemma ext_next_steps since st :
  let lost := bool_decide (ext_nodeExpireDuration < since)%Z in
  let off := bool_decide (ext_nodeOfflineExpireDuration < since)%Z in
  let st1 := if negb lost && (bool_decide (st = PoolStatusUnknown) || bool_decide (st = PoolStatusOffline)) then PoolStatusReady else st in
  let st2 := if lost && bool_decide (st1 = PoolStatusReady) then PoolStatusUnknown else st1 in
  (if off then PoolStatusOffline else st2) = ext_next since st.
Proof.
  cbn zeta. unfold ext_next, ext_nodeExpireDuration, ext_nodeOfflineExpireDuration.
  destruct (decide (72 * Hour < since)%Z) as [H|H]; [by rewrite (bool_decide_true (72 * Hour < since)%Z)|].
  rewrite (bool_decide_false (72 * Hour < since)%Z) by done. destruct (decide (3 * Minute < since)%Z) as [H3|H3].
  - rewrite (bool_decide_true (3 * Minute < since)%Z) by done. cbn [negb andb]. case_bool_decide; [by rewrite decide_True|by rewrite decide_False].
  - rewrite (bool_decide_false (3 * Minute < since)%Z) by done. cbn [negb andb].
    repeat case_bool_decide; cbn [orb]; try (rewrite decide_True by tauto; done). by rewrite decide_False by tauto.
Qed.

Definition nothing (w : W) : unit := tt.
Lemma ext_check_lease_run now lease renew p s w : ls_RenewTime lease = Some renew → pool_synced (ls_Name lease) p s w →
  ∃ sw', ext_check_lease now lease (s, w) = Ret tt sw' ∧
    hb_state nothing (ls_Name lease) p s w (ext_next (time_Since_ns now renew) (spst_Status (sp_Status p))) sw'.
Proof.
  intros Hr Hsync. pose proof Hsync as [(n & Hn & Hp) [Hv Hd]]. set (st := spst_Status (sp_Status p)). set (id := ls_Name lease) in *.
  assert (hb_state nothing id p s w st (s, w)) as H0.
  { unfold hb_state. cbn [fst snd]. unfold st. rewrite sp_set_status_id. split_and!; [|by rewrite insert_id|done].
    symmetry. apply with_pool_same. by exists n. }
  unfold ext_check_lease. unfold mbind, go_mbind, go_bind, on_fst, gget. rewrite Hr. cbn [deref]. unfold mret, go_mret, go_ret. cbn [fst snd].
  fold id. unfold GetNodeByNodeID. rewrite Hn, Hp.
  assert ((p, @None error) = (sp_set_status st p, None)) as -> by (unfold st; by rewrite sp_set_status_id).
  assert (∀ base o w0 r w', kPatchStatus (T := StoragePool) base o w0 = Ret r w' → nothing w' = nothing w0) as Hf by done.
  edestruct (heartbeat_status_run nothing Hf id p s w st) as (sw1 & e1 & -> & H1 & _); [done|exact H0|].
  cbn beta iota. edestruct (heartbeat_status_run nothing Hf id p s w) as (sw2 & e2 & -> & H2 & _); [done|exact H1|].
  cbn beta iota. edestruct (heartbeat_status_run nothing Hf id p s w) as (sw3 & e3 & -> & H3 & _); [done|exact H2|].
  cbn beta iota. exists sw3. split; [done|]. pose proof (ext_next_steps (time_Since_ns now renew) st) as <-. exact H3.
Qed.

(** The node of a lease: its pool is known to the state and to the server. *)
Record beats (lease : Lease) (renew : Z) p s w : Prop := {
  be_renew : ls_RenewTime lease = Some renew;
  be_synced : pool_synced (ls_Name lease) p s w;
  be_name : sp_Name p = ls_Name lease;
}.
Lemma beats_elsewhere lease renew p lease' renew' p' st s w s' w' :
  beats lease renew p s w → beats lease' renew' p' s w → ls_Name lease ≠ ls_Name lease' →
  hb_state nothing (ls_Name lease) p s w st (s', w') → beats lease' renew' p' s' w'.
Proof.
  intros [_ _ Hn] [Hr [(n & Hm & Hp) [Hv Hd]] Hn'] Hne (Hs & Hw & _). cbn [fst snd] in *. subst s'. split; [done| |done].
  split; [exists n; split; [|done]|split; [|done]].
  - unfold with_pool, on_node. destruct (NodeMap s !! ls_Name lease); [|done]. cbn. by rewrite lookup_insert_ne.
  - rewrite Hw, lookup_insert_ne; [done|]. unfold sp_key, ko_key. intros [= _ E]. apply Hne. unfold sp_Name in Hn, Hn'. cbn in E. congruence.
Qed.

(** One turn brings the status of every pool that has a lease into step with it, in
    the state and on the server, whatever the order of the leases. *)
Lemma checkHeartbeats_all now leases s w : NoDup (ls_Name <$> leases) →
  (∀ lease, lease ∈ leases → ∃ renew p, beats lease renew p s w) →
  ∃ s' w', ext_check_leases now leases (s, w) = Ret tt (s', w') ∧
    (∀ lease renew p, beats lease renew p s w →
       if decide (ls_Name lease ∈ ls_Name <$> leases)
       then lease ∈ leases → beats lease renew (sp_set_status (ext_next (time_Since_ns now renew) (spst_Status (sp_Status p))) p) s' w'
       else beats lease renew p s' w').
Proof.
  revert s w. induction leases as [|lease leases IH]; intros s w Hnd Hall.
  - exists s, w. split; [done|]. intros lease renew p Hb. rewrite decide_False; [done|]. apply not_elem_of_nil.
  - cbn in Hnd. apply NoDup_cons in Hnd as [Hni Hnd]. destruct (Hall lease) as (renew & p & Hb); [by apply list_elem_of_here|].
    destruct (ext_check_lease_run now lease renew p s w (be_renew _ _ _ _ _ Hb) (be_synced _ _ _ _ _ Hb)) as ([s1 w1] & Hrun & Hst).
    set (p1 := sp_set_status (ext_next (time_Since_ns now renew) (spst_Status (sp_Status p))) p).
    assert (beats lease renew p1 s1 w1) as Hb1.
    { destruct Hb as [Hr [(n & Hm & Hp) [Hv Hd]] Hn]. destruct Hst as (Hs & Hw & _). cbn [fst snd] in *. subst s1. split; [done| |done].
      split; [|split; [|done]].
      - unfold with_pool, on_node. rewrite Hm. cbn. rewrite lookup_insert_eq. by eexists.
      - rewrite Hw. apply lookup_insert_eq. }
    destruct (IH s1 w1 Hnd) as (s' & w' & Hrest & Hafter).
    { intros lease' Hin. destruct (Hall lease') as (renew' & p' & Hb'); [by apply list_elem_of_further|].
      exists renew', p'. eapply (beats_elsewhere lease renew p); [exact Hb|exact Hb'| |exact Hst].
      intros E. apply Hni. rewrite E. by apply list_elem_of_fmap_2. }
    exists s', w'. split.
    { cbn [ext_check_leases]. unfold mbind, go_mbind, go_bind. rewrite Hrun. cbn beta iota. exact Hrest. }
    intros lease' renew' p' Hb'. case_decide as Hin; cbn [fmap list_fmap] in Hin.
    + intros Hel. apply elem_of_cons in Hel as [->|Hel].
      * assert (renew' = renew ∧ p' = p) as [-> ->].
        { destruct Hb as [Hr [(n & Hm & Hp) _] _], Hb' as [Hr' [(n' & Hm' & Hp') _] _]. split; congruence. }
        specialize (Hafter lease renew p1 Hb1). by rewrite decide_False in Hafter.
      * assert (ls_Name lease ≠ ls_Name lease') as Hne by (intros E; apply Hni; rewrite E; by apply list_elem_of_fmap_2).
        specialize (Hafter lease' renew' p' (beats_elsewhere _ _ _ _ _ _ _ _ _ _ _ Hb Hb' Hne Hst)).
        rewrite decide_True in Hafter by (by apply list_elem_of_fmap_2). by apply Hafter.
    + rewrite elem_of_cons in Hin. assert (ls_Name lease ≠ ls_Name lease') as Hne by (intros E; apply Hin; by left).
      specialize (Hafter lease' renew' p' (beats_elsewhere _ _ _ _ _ _ _ _ _ _ _ Hb Hb' Hne Hst)).
      rewrite decide_False in Hafter by (intros ?; apply Hin; by right). exact Hafter.
Qed.
End heartbeats_spec.
