(* ===== verification/StateApi.v ===== *)
(** * The debug page of the state

    [manager/state/http.go]: a handler of the manager's HTTP server that shows what
    the state knows of one node. The text of JSON and of quantities is the
    library's; the page is the value that is printed. *)

From Stdlib Require Import ZArith Lia.
From stdpp Require Import base gmap strings option list.
From S2P Require Import Prelude Float64 Misc K8s Api State.

(* [state/http.go:29-34] VolumeBrief *)
Record VolumeBrief := { vb_Namespace : string; vb_Name : string; vb_DataHolder : string; vb_Size : Z }.
(* [state/http.go:36-39] ReservationBreif *)
Record ReservationBreif := { rb_ID : string; rb_Size : Z }.
(* [state/http.go:10-27] NodeStateAPI *)
Record NodeStateAPI := {
  na_Name : string;
  na_PoolLabels : gomap string;
  na_KernelLVM : option KernelLVM;
  na_SpdkLVS : option SpdkLVStore;
  na_Volumes : list VolumeBrief;
  na_VgFreeSize : Z;
  na_MemFreeSize : Z;
  na_MemFreeSizeStr : string;
  na_Conditions : gmap string string;
  na_Resvervations : list ReservationBreif;
}.

Section page.
Context {L : K8sLib}.
Context (Quantity_Value : Quantity → Z) (Quantity_String : Quantity → string) (Marshal : NodeStateAPI → result string).
Implicit Types (n : Node) (s : State).

(* [state/http.go:79-84] StateHandler.ServeHTTP, the volumes *)
Definition volume_brief (vol : AntstorVolume) : VolumeBrief := {|
  vb_Namespace := vol_Namespace vol; vb_Name := vol_Name vol;
  vb_DataHolder := map_str (om_Labels (vol_meta vol)) VolumeDataHolderKey;
  vb_Size := wrap64 (vs_SizeByte (vol_Spec vol)) |}.
(* [state/http.go:74-76] StateHandler.ServeHTTP, the conditions *)
Definition page_conditions (conds : list PoolCondition) : gmap string string :=
  foldl (λ m c, <[pc_Type c := pc_Status c]> m) ∅ conds.
(* [state/http.go:62-94] StateHandler.ServeHTTP, the page *)
Definition state_page (spName : string) n : NodeStateAPI :=
  let free := ResourceList_Storage (nd_FreeResource n) in {|
  na_Name := spName;
  na_PoolLabels := om_Labels (sp_meta (nd_Pool n));
  na_KernelLVM := Some (sps_KernelLVM (sp_Spec (nd_Pool n)));
  na_SpdkLVS := Some (sps_SpdkLVStore (sp_Spec (nd_Pool n)));
  na_Volumes := volume_brief <$> nd_Volumes n;
  na_VgFreeSize := Quantity_Value (spst_VGFreeSize (sp_Status (nd_Pool n)));
  na_MemFreeSize := f64_to_int64 (Quantity_AsApproximateFloat64 free);
  na_MemFreeSizeStr := Quantity_String free;
  na_Conditions := page_conditions (spst_Conditions (sp_Status (nd_Pool n)));
  na_Resvervations := (λ resv, {| rb_ID := rv_id resv; rb_Size := rv_sizeByte resv |}) <$> rs_Items (nd_resvSet n) |}.
(** What is written to the client. *)
(* [state/http.go:49-102] StateHandler.ServeHTTP *)
Definition ServeHTTP (spName : string) s : string :=
  if decide (spName = "") then "query param name is empty"
  else match GetNodeByNodeID spName s with
       | inr err => error_msg err
       | inl node => match Marshal (state_page spName node) with inl bs => bs | inr err => error_msg err end
       end.

Lemma page_conditions_app conds m : foldl (λ m c, <[pc_Type c := pc_Status c]> m) m conds =
  page_conditions conds ∪ m.
Proof.
  unfold page_conditions. revert m. induction conds as [|c conds IH] using rev_ind; intros m; cbn; [by rewrite map_empty_union|].
  rewrite !foldl_app. cbn. by rewrite IH, insert_union_l.
Qed.
(** When a type has several conditions the page shows the last one. *)
Lemma page_conditions_last conds c rest : (∀ c', c' ∈ rest → pc_Type c' ≠ pc_Type c) →
  page_conditions (conds ++ c :: rest) !! pc_Type c = Some (pc_Status c).
Proof.
  intros Hr. unfold page_conditions. rewrite foldl_app. cbn. rewrite page_conditions_app.
  rewrite lookup_union_r; [apply lookup_insert_eq|]. induction rest as [|c' rest IH] using rev_ind; [done|].
  unfold page_conditions in *. rewrite foldl_app. cbn. rewrite lookup_insert_ne; [apply IH|apply Hr, elem_of_app; right; apply list_elem_of_here].
  intros c1 H1. apply Hr, elem_of_app. by left.
Qed.

(** A volume that the state resolves is on the page of its node, and the page shows
    no volume that the node does not hold. *)
Lemma bound_volume_shown u v s : GetVolumeByID u s = inl v →
  ∃ id n, GetNodeByNodeID id s = inl n ∧ volume_brief v ∈ na_Volumes (state_page id n) ∧
    ∀ b, b ∈ na_Volumes (state_page id n) → ∃ vol, vol ∈ nd_Volumes n ∧ b = volume_brief vol.
Proof.
  unfold GetVolumeByID. destruct (volIDMap s !! u) as [id|]; [|done]. destruct (NodeMap s !! id) as [n|] eqn:En; [|done].
  intros Hv. exists id, n. unfold GetNodeByNodeID. rewrite En. split; [done|]. cbn. split.
  - apply list_elem_of_fmap_2. revert Hv. unfold Node_GetVolumeByID.
    destruct (List.find _ _) as [v'|] eqn:Ef; [|done]. intros [= ->]. apply List.find_some in Ef as [Hin _]. by apply list_elem_of_In.
  - intros b Hb. apply list_elem_of_fmap in Hb as (vol & -> & Hin). by exists vol.
Qed.
End page.
