(* ===== verification/HostNqn.v ===== *)
(** * The identity of a host and its kernel module

    [pkg/spdk/hostnqn]: the qualified name under which the host connects to
    targets, kept in a file so that it survives restarts; [jsonrpc/nvme/version.go]: loading the kernel module of NVMe
    over TCP and reading its version. [InitHostNQN] is what the set-up in
    [AgentManager.v] takes as its argument. The name a host once got is the name it
    gets at every later start. *)

From Stdlib Require Import ZArith Lia.
From stdpp Require Import base gmap strings option list.
From S2P Require Import Prelude K8s Misc SpdkBdev Nvme Mount.

(** [os.ReadFile] and [os.WriteFile]. *)
Class TextFiles (W : Type) := {
  tf_ReadFile : string → go W (result string);
  tf_WriteFile : string → string → go W (option error);
}.
(** [exec.Command]: the standard output, or all output, with the error. *)
Class ModuleCommands (W : Type) := {
  mc_Output : string → list string → go W (string * option error);
  mc_CombinedOutput : string → list string → go W (string * option error);
}.

(** ** The name of the host *)

(* [hostnqn/hostnqn.go:13-13] HostNQNFile *)
Definition HostNQNFile : string := "/etc/nvme/hostnqn".
(* [hostnqn/hostnqn.go:15-15] AntstorHostNQNPrefix *)
Definition AntstorHostNQNPrefix : string := "nqn.2021-03.com.alipay.host:uuid:".

Section nqn.
Context {W : Type} {O : OsFiles W} {F : TextFiles W}.
(** The variable [HostNQNValue] and the host. *)
Abbreviation HW := (string * W)%type.
Definition set_value (v : string) : go HW unit := gmodify (λ s, (v, s.2)).

(** The error of looking for the file is the answer when nothing overwrites it. *)
(* [hostnqn/hostnqn.go:33-39] InitHostNQN, reading the file *)
Definition read_hostnqn (hasFile : bool) (err : option error) : go HW (option error + option error) :=
  if hasFile then
    r ← on_snd (tf_ReadFile HostNQNFile);
    match r with
    | inr e => mret (inr (Some e))
    | inl fbytes => _ ← set_value (TrimSpace fbytes); mret (inl None)
    end
  else mret (inl err).
(* [hostnqn/hostnqn.go:41-53] InitHostNQN, making the name *)
Definition make_hostnqn (nodeId : string) (err : option error) : go HW (option error) :=
  s ← gget;
  if decide (s.1 = "") then
    _ ← set_value (AntstorHostNQNPrefix +:+ nodeId);
    on_snd (tf_WriteFile HostNQNFile (AntstorHostNQNPrefix +:+ nodeId))
  else mret err.
(* [hostnqn/hostnqn.go:22-54] InitHostNQN *)
Definition InitHostNQN (nodeId : string) : go HW (option error) :=
  '(hasFile, err) ← on_snd (FileExists HostNQNFile);
  r ← read_hostnqn hasFile err;
  match r with
  | inr err => mret err
  | inl err => make_hostnqn nodeId err
  end.
End nqn.

(** ** The kernel module *)

(* [nvme/version.go:21-25] NvmfVersion *)
Record NvmfVersion := { nv_Version : string; nv_Commit : string; nv_Time : string }.
Definition NvmfVersion_zero : NvmfVersion := {| nv_Version := ""; nv_Commit := ""; nv_Time := "" |}.
(* [nvme/version.go:14-14] nvmeTcpModVersionPath *)
Definition nvmeTcpModVersionPath : string := "/sys/module/nvme_tcp/version".
(* [nvme/version.go:71-83] parseNVMeTCPVersion *)
Definition parseNVMeTCPVersion (raw : string) : NvmfVersion :=
  let parts := SplitN space raw 4 in
  {| nv_Version := default "" (parts !! 1%nat); nv_Commit := default "" (parts !! 2%nat); nv_Time := default "" (parts !! 3%nat) |}.

Section module.
Context {W : Type} {F : TextFiles W} {X : ModuleCommands W}.
(** The variable [NvmeTcpVersion] and the host. *)
Abbreviation VW := (NvmfVersion * W)%type.

(* [nvme/version.go:57-69] GetNvmeTcpModVersion *)
Definition GetNvmeTcpModVersion : go W NvmfVersion :=
  r ← tf_ReadFile nvmeTcpModVersionPath;
  mret match r with inl bs => parseNVMeTCPVersion (TrimSpace bs) | inr _ => NvmfVersion_zero end.
Definition keep_version : go VW (option error) :=
  ver ← on_snd GetNvmeTcpModVersion; _ ← gmodify (λ s, (ver, s.2)); mret None.
(** [%+v] of an error. *)
(* [nvme/version.go:27-50] LoadNVMeTCP *)
Definition LoadNVMeTCP : go VW (option error) :=
  '(out, errLsMod) ← on_snd (mc_Output "bash" ["-c"; "lsmod | grep nvme_tcp"]);
  if str_contains out "nvme_tcp" then keep_version
  else match errLsMod with
       | Some _ =>
           '(out1, errModProbe) ← on_snd (mc_CombinedOutput "modprobe" ["nvme-tcp"]);
           match errModProbe with
           | Some e => mret (Some (ErrNew ("modprobe nvme-tcp failed: err=" +:+ error_msg e +:+ ", out=" +:+ out1)))
           | None => keep_version
           end
       | None => mret (Some (ErrNew "unknown error when loading nvme_tcp mod"))
       end.
End module.

(** ** The name stays *)

Section stays.
Context {W : Type} {O : OsFiles W} {F : TextFiles W}.

(** Files that keep what was written into them. *)
Class FileLaws := {
  fl_view : W → gmap string string;
  fl_stat p w : ∃ r w', os_Stat p w = Ret r w' ∧ fl_view w' = fl_view w ∧
    match fl_view w !! p with Some _ => r = None | None => ∃ e, r = Some (true, e) end;
  fl_read p w c : fl_view w !! p = Some c → ∃ w', tf_ReadFile p w = Ret (inl c) w' ∧ fl_view w' = fl_view w;
  fl_write p c w : ∃ w', (tf_WriteFile p c w = Ret None w' ∧ fl_view w' = <[p := c]> (fl_view w)) ∨
    ∃ e, tf_WriteFile p c w = Ret (Some e) w';
}.
Context {H : FileLaws}.

(** The name in the file, when there is one. *)
Definition kept_name (w : W) : string := from_option TrimSpace "" (fl_view w !! HostNQNFile).

Lemma InitHostNQN_run nodeId w :
  ∃ w1, fl_view w1 = fl_view w ∧
    InitHostNQN nodeId ("", w) =
      (if decide (kept_name w = "")
       then (r ← on_snd (tf_WriteFile HostNQNFile (AntstorHostNQNPrefix +:+ nodeId)); mret r) (AntstorHostNQNPrefix +:+ nodeId, w1)
       else Ret None (kept_name w, w1)).
Proof.
  destruct (fl_stat HostNQNFile w) as (r & w1 & Hs & Hv & Hr).
  unfold InitHostNQN, FileExists, read_hostnqn, make_hostnqn, set_value, kept_name, on_snd. go_simpl. rewrite Hs. cbn beta iota.
  destruct (fl_view w !! HostNQNFile) as [c|] eqn:Ec; cbn [from_option].
  - subst r. cbn [fst snd]. destruct (fl_read HostNQNFile w1 c) as (w2 & Hread & Hv2); [by rewrite Hv|]. rewrite Hread. cbn [fst snd].
    exists w2. split; [by rewrite Hv2|]. case_decide; [|done]. cbn [snd]. by destruct (tf_WriteFile _ _ w2).
  - destruct Hr as [e ->]. cbn [fst snd]. exists w1. split; [done|]. rewrite !decide_True by done. cbn [snd]. by destruct (tf_WriteFile _ _ w1).
Qed.

(** A start of the agent that succeeds leaves the host a name, and every later
    start, whatever node id it is given, finds that name and writes nothing. *)
Lemma host_name_stable nodeId w v w' :
  TrimSpace (AntstorHostNQNPrefix +:+ nodeId) = AntstorHostNQNPrefix +:+ nodeId →
  InitHostNQN nodeId ("", w) = Ret None (v, w') →
  v ≠ "" ∧ v = kept_name w' ∧ (kept_name w ≠ "" → v = kept_name w) ∧
  ∀ nodeId', ∃ w2, InitHostNQN nodeId' ("", w') = Ret None (v, w2) ∧ fl_view w2 = fl_view w'.
Proof.
  intros Ht Hrun. destruct (InitHostNQN_run nodeId w) as (w1 & Hv1 & E). rewrite E in Hrun.
  assert (v ≠ "" ∧ v = kept_name w' ∧ (kept_name w ≠ "" → v = kept_name w)) as (Hne & Hk & Hold).
  { case_decide as Hd.
    - revert Hrun. unfold on_snd. go_simpl. destruct (fl_write HostNQNFile (AntstorHostNQNPrefix +:+ nodeId) w1) as (w2 & [[Hw Hv2]|[e Hw]]);
        rewrite Hw; intros [=]; subst. split; [done|]. unfold kept_name at 1. rewrite Hv2, lookup_insert_eq. cbn [from_option].
      by rewrite Ht.
    - injection Hrun as <- <-. split; [done|]. unfold kept_name. by rewrite Hv1. }
  split; [done|]. split; [done|]. split; [done|]. intros nodeId'.
  destruct (InitHostNQN_run nodeId' w') as (w2 & Hv2 & E2). exists w2. split; [|done].
  rewrite E2, decide_False by congruence. by rewrite <- Hk.
Qed.
End stays.

Example version_of_module : parseNVMeTCPVersion "alinvme v0.0.8 a4e115c 2022-11-17 18:44:03" =
  {| nv_Version := "v0.0.8"; nv_Commit := "a4e115c"; nv_Time := "2022-11-17 18:44:03" |}.
Proof. reflexivity. Qed.
Example short_version_of_module : parseNVMeTCPVersion "alinvme v0.0.6" = {| nv_Version := "v0.0.6"; nv_Commit := ""; nv_Time := "" |}.
Proof. reflexivity. Qed.
